(* ===== verification/_CoqProject ===== *)
-Q . S2P
Prelude.v
Memory.v
PageFrames.v
Allocator.v
AllocatorSession.v
Terminal.v
Format.v
KernelTests.v
Ports.v
Ata.v
Boot.v
Interrupts.v
Console.v
Ide.v
TagLayout.v
FuseDriver.v
TagFrame.v
FuseNew.v
Tfsfmt.v
FuseVolume.v
FuseLong.v
BuilderTags.v
Flags.v
TfsfmtMain.v
BuiltVolume.v
KernelFs.v
KernelSteps.v
Transcript.v
KernelLookup.v
KernelRead.v
KernelWrite.v
KernelFile.v
KernelVolume.v
KernelNew.v
KernelDemo.v
KernelStart.v
KernelMain.v
BootedVolume.v
