(* ===== verification/Prelude.v ===== *)
(** * OSForReal: a verification library for the kernel, its file system and its tools

    ** The program

    OSForReal is a small 32-bit x86 kernel (src/src) and the tools around its
    file system TagFS (src/tagfs). The kernel boots into paging (bootstrap.c,
    gdt.c), prints through the VGA terminal and the serial line (terminal.c,
    serial.c, io.c), installs its interrupt table (interrupts.c, pic.c), hands
    out page frames (page_frame_allocator.c) to a first-fit allocator
    (memory.c), finds the IDE controller (pci.c), and reads and writes TagFS
    through the ATA driver (ata.c, kernel/fs/tagfs.c). On the host, tfsfmt makes
    and fills images (flags.c, tfsfmt.c) and a FUSE driver mounts them
    (FUSE_driver/src/tagfs.c), both over the mapped image (utils.c).

    ** The files

    - Prelude: results, loops, machine integers, bits, strings; the automation.
    - Memory: byte-addressed memory, the byte loops of memory.c, C strings.
    - PageFrames: page_frame_allocator.c, with the bitmap, page tables and page
      directory as [pfa], and the walk of the tables as the observer.
    - Allocator: memory.c over a memory and a source of pages, the class
      [FrameSource] that PageFrames implements; the invariant [heap_inv] is the
      free list in separation-style predicates over the same memory.
      AllocatorSession: the first-fit allocator on lists ([arena]) that it
      implements, for sessions of any length.
    - Terminal: terminal.c and vga.c. Format: io.c over any character sink, the
      class [Sink] with its laws [SinkOk].
    - KernelTests: the kernel's own tests and their runner (tests/tests.c,
      tests/runner.c).
    - Ports: instructions.c as the class [Machine]; pic.c, serial.c and the
      register access of pci.c over it.
    - Ata: ata.c and [pci_init]; the protocol of a drive is the class
      [AtaDrive], with executable drives as its instances, fast and slow ones.
    - Boot: gdt.c and bootstrap.c. Interrupts: interrupts.c.
    - Console: [put_char] as the composition of terminal and serial line, with
      which the state of both is a [Sink], and what the kernel prints when it
      stops: [assert] and [c_exception_handler].
    - Ide: how [pci_init] and [ide_init] find a drive behind a controller, the
      class [IdeController]; its last part is an executable computer.
    - TagLayout: utils.c, the sections, entries and chains of an image.
    - FuseDriver: the FUSE driver. TagFrame: what a write leaves alone. FuseNew:
      the first write to a file. FuseVolume: the abstract store of files
      ([volume]) that the driver implements, for sessions of any length of its
      six operations. FuseLong: writes that leave their sector.
    - Tfsfmt: the three operations of tfsfmt.c; BuilderTags: its tags.
    - Flags: flags.c, the option parser. TfsfmtMain: the options of tfsfmt and
      its runs from the command line. BuiltVolume: the builder as an operation of
      the store of files.
    - KernelFs: kernel/fs/tagfs.c over heap, memory, ATA driver and the two
      globals, the record [kernel]; KernelSteps: a preorder that the primitive
      steps respect is respected by every operation; Transcript: what the
      operations print. KernelLookup, KernelRead and KernelWrite hold what is
      proved of the parts, KernelFile the theorems on [tfs_read] and
      [tfs_write] as a whole, KernelNew those on files without a sector.
      KernelVolume: the kernel's calls as operations of the same store.
    - KernelDemo: the end of [kernel_main], which uses the file system.
    - KernelStart: kernel.c, [kernel_init] and [kernel_main] over the whole
      kernel's state, which composes all the others; KernelMain: the theorem
      on [kernel_main], and a run of it. BootedVolume: from the command lines of
      tfsfmt and a FUSE session to the calls on the kernel that has started.

    ** The model

    A function of the program that can fault is a function to [res]: [Err] is a
    failed [ASSERT], an access outside an object, a halt, or a loop that ran
    out of fuel. State is passed explicitly. An integer is a [Z] within its
    width, with the wrap-around of [w8] to [w64] where the code can wrap; a
    struct in shared memory is read and written through [ld8] to [st32] at the
    offsets the compiler gives it, so aliasing is what it is in the program.
    Loops are [loop] with fuel, or counted loops. Where fuel appears in a
    theorem it is bounded below by a measure of the input (the length of the
    free list, of a chain, of the command line, the latency of the drive, plus
    a constant), and the theorem says that the result is there: termination is
    proved; what it needs of a device is a law of that device. The converse, a loop that never ends, is stated for
    every fuel.

    Code that is not in the repository is a parameter with laws: the linker's
    addresses ([LinkerOk]), the ports ([Machine]), the serial line
    ([SerialLine]), the configuration space ([PciConfig]), a drive in PIO mode
    ([AtaDrive]) and its controller ([IdeController]), the machine they make up
    ([Computer]), the host's files and the success of [mmap] and [msync].
    Every theorem with such laws has a witness over an executable instance.

    ** What is shown

    - Memory management: the allocator keeps its invariant, gives fresh
      disjoint blocks, fails only when no page frame is left ([fs_full]), and
      merges on freeing; over a whole session it gives the
      addresses of the allocator on lists, live blocks keep their bytes, and
      when everything has been freed one segment is left, as the kernel's tests
      try; frames are never shared, and are marked, mapped and unmapped exactly.
    - Output: the terminal refines an endless sheet of paper; [fmt_print]
      prints the text its format denotes, on the screen and the serial line;
      so are the reports of assertions and exceptions.
    - Start: the boot page tables, the segment and interrupt tables; the drive
      is found; [kernel_init] on a machine with a formatted drive returns
      with the file system mounted; and [kernel_main] from there reaches its
      endless loop, with the text on the console and the image on the disk that
      it leaves.
    - Disk: a transfer from an idle drive returns, whatever the drive's latency.
      [ata_write_sector] puts its sector on the disk but does not wait for the
      drive, which is busy again after the last word and after the flush. A read
      gives the sector back once the drive is done. That it is done within the
      four reads of the status with which every transfer begins is the hypothesis
      [PromptDrive] of the theorems on several transfers; on a drive that takes
      five, the next read never returns ([Ata.write_then_read_hangs]).
    - TagFS on the host: reading, writing, creating, listing and removing files
      through the FUSE driver, which refines a store of files from the
      formatting on, as long as a file is made under a new name, a write stays in
      one sector and a deleted file has at most one. Under these conditions names
      stay distinct, as the comment in the driver asks; the driver itself makes a
      second file of a name ([FuseVolume.tagfs_mknod_duplicates]). A longer write is proved to break the store, and the
      theorem on longer deletions says what they leave. tfsfmt: formatting,
      tags, and adding files as an operation of the same store, with its
      warnings; from its two command lines to what a FUSE session answers.
    - TagFS in the kernel: mounting, looking up, creating; [tfs_read] gives the
      content of the file, and [tfs_write] leaves on the disk the image the
      FUSE driver would make, also where the write does not fit its sector or
      is refused. For a file without a sector it is that image with the sector
      still free, so two new files share it. All of this holds on a heap whose
      free space is one segment at its end, for files in the first half of the
      FAT, since the call loads the second half over the free list. Under these
      conditions, and with a [PromptDrive], any sequence of calls answers as the
      store of files does, on the image that tfsfmt and a FUSE session have left, once the kernel has
      started on it.
    - The option parser: it takes exactly the lines of a grammar and always
      ends.
    - Faults of the code that the model shows are theorems too, and are listed
      in the manifest.

    ** Bounds

    Images have sectors of a multiple of 32 bytes and at least 64 and fit in 31
    bits ([layout_ok]); the kernel's files need 512-byte sectors and a FAT of
    two sectors, as its assertion does. For the image to be handed to the kernel,
    more than half of its sectors are free in every state of the FUSE session,
    so that its files stay in the first half of the FAT. Sessions of the
    allocator ask for whole words and leave no rest of 4 bytes, since bytes lost
    that way are never joined again, and they leave the last free segment, since a
    heap without one can grow over a live block
    ([Allocator.growth_overlaps_live_block]). An image is a map from addresses to
    bytes, so an image file shorter than its options say is not modelled.

    ** Not modelled

    The assembly (boot.s, asm_stubs.s) and the inline instructions behind the
    ports. The IDE controller's native mode and a drive on another channel are
    in the definitions, and only a controller in compatibility mode with one
    drive is in the theorem on [pci_init]. [kernel_main] is proved for a disk
    with one file [hello.txt] and a text in it that ends in its first sector:
    without the file the code prints an uninitialised structure, without the
    NUL it prints on past the buffer. The kernel's tests start from an empty
    heap, not from [kernel_init]. The runner of tfsfmt's tests and those of its
    tests that look into images; the [main] of the FUSE driver, and libfuse,
    which is third-party code. *)
From Stdlib Require Export ZArith Lia.
From stdpp Require Export base list gmap strings.

#[local] Open Scope Z_scope.

(** ** Results

    A C function that can stop the machine (a failed [ASSERT] prints and halts,
    an access outside an object is undefined) returns a [res]. A loop is run
    with fuel; [OutOfFuel] is what a loop that does not finish yields for every
    amount of fuel. *)
Inductive fault : Type :=
  | AssertFail (msg : string)
  | OutOfBounds
  | Halted
  | OutOfFuel.

Inductive res (A : Type) : Type :=
  | Ok (a : A)
  | Err (e : fault).
Arguments Ok {A} a.
Arguments Err {A} e.

#[export] Instance fault_eq_dec : EqDecision fault.
Proof. refine (fun x y => _). unfold Decision. repeat decide equality. Defined.
#[export] Instance res_eq_dec {A} `{EqDecision A} : EqDecision (res A).
Proof.
  refine (fun x y => match x, y with
  | Ok a, Ok b => cast_if (decide (a = b))
  | Err e, Err f => cast_if (decide (e = f))
  | _, _ => right _
  end); congruence.
Defined.

#[export] Instance res_ret : MRet res := fun A a => Ok a.
#[export] Instance res_bind : MBind res := fun A B f m =>
  match m with Ok a => f a | Err e => Err e end.
#[export] Instance res_fmap : FMap res := fun A B f m =>
  match m with Ok a => Ok (f a) | Err e => Err e end.

Definition assert (msg : string) (b : bool) : res unit :=
  if b then Ok tt else Err (AssertFail msg).

Definition guard_bounds (b : bool) : res unit :=
  if b then Ok tt else Err OutOfBounds.

Definition is_ok {A} (r : res A) : bool :=
  match r with Ok _ => true | Err _ => false end.

Lemma bind_Ok {A B} (m : res A) (f : A -> res B) (b : B) :
  (m ≫= f) = Ok b <-> exists a, m = Ok a /\ f a = Ok b.
Proof.
  destruct m as [a|e]; cbn; split; try done; eauto.
  - by intros (? & [= ->] & ?).
  - by intros (? & ? & ?).
Qed.

Lemma bind_Ok_r {A B} (a : A) (f : A -> res B) : (Ok a ≫= f) = f a.
Proof. done. Qed.

Lemma assert_Ok (msg : string) (b : bool) (u : unit) :
  assert msg b = Ok u <-> b = true.
Proof. by destruct u, b; cbn. Qed.

(** [inv_res H] splits a hypothesis [e = Ok v] about a bind into the results of
    its parts. *)
Ltac inv_res H :=
  repeat match type of H with
  | (_ ≫= _) = Ok _ => let a := fresh "a" in let Ha := fresh "Ha" in
      apply bind_Ok in H; destruct H as [a [Ha H]]
  | Ok _ = Ok _ => injection H as H; subst
  | Err _ = Ok _ => discriminate H
  end.

(** [res_step] performs the binds whose first part is known. *)
Ltac res_step := cbn [assert guard_bounds]; rewrite ?bind_Ok_r.

(** ** Strings *)

(** The characters of a string literal of the program. *)
Definition text (s : string) : list Z :=
  map (fun a => Z.of_N (Ascii.N_of_ascii a)) (String.list_ascii_of_string s).

(** A [char *] of the host's programs: its characters, or the null pointer,
    which must not be read. *)
Definition cstr : Type := option (list Z).
Definition non_null {A : Type} (p : option A) : res A :=
  match p with Some a => Ok a | None => Err OutOfBounds end.

(** ** Loops *)

Inductive step (S R : Type) : Type :=
  | Next (s : S)
  | Stop (r : R).
Arguments Next {S R} s.
Arguments Stop {S R} r.

(** [loop fuel body s] runs [body] until it stops: [while]/[for(;;)] of C, the
    condition and every [break] or [return] being part of [body]. *)
Fixpoint loop {S R : Type} (fuel : nat) (body : S -> res (step S R)) (s : S)
  : res R :=
  match fuel with
  | O => Err OutOfFuel
  | S fuel' =>
      match body s with
      | Ok (Next s') => loop fuel' body s'
      | Ok (Stop r) => Ok r
      | Err e => Err e
      end
  end.

(** [for_up n i body s] is [for (k = i; k < i + n; k++) s = body(k, s)]. *)
Fixpoint for_up {S : Type} (n : nat) (i : Z) (body : Z -> S -> S) (s : S) : S :=
  match n with
  | O => s
  | S n' => for_up n' (i + 1) body (body i s)
  end.

(** The same with a body that may fault. *)
Fixpoint for_res {S : Type} (n : nat) (i : Z) (body : Z -> S -> res S) (s : S)
  : res S :=
  match n with
  | O => Ok s
  | S n' => s' ← body i s; for_res n' (i + 1) body s'
  end.

(** A search loop: the first [k] in [i .. i+n) on which [test] is true. *)
Fixpoint find_up (n : nat) (i : Z) (test : Z -> bool) : option Z :=
  match n with
  | O => None
  | S n' => if test i then Some i else find_up n' (i + 1) test
  end.

Section loops.
Context {S R : Type}.
Implicit Types (s : S) (body : S -> res (step S R)).

Lemma loop_mono body s r (n m : nat) :
  loop n body s = Ok r -> (n <= m)%nat -> loop m body s = Ok r.
Proof.
  revert s m; induction n as [|n IH]; intros s [|m] H Hle; cbn in *;
    try (discriminate || lia).
  destruct (body s) as [[s'|r']|e]; auto. apply IH; [done|lia].
Qed.

(** A loop invariant with a measure: the loop stops, and what it returns
    satisfies the postcondition. *)
Lemma loop_spec body (I : S -> Prop) (Q : R -> Prop) (mu : S -> nat) :
  (forall s, I s -> match body s with
    | Ok (Next s') => I s' /\ (mu s' < mu s)%nat
    | Ok (Stop r) => Q r
    | Err _ => False end) ->
  forall n s, I s -> (mu s < n)%nat ->
  exists r, loop n body s = Ok r /\ Q r.
Proof.
  intros Hb n; induction n as [|n IH]; intros s HI Hmu; [lia|].
  cbn. specialize (Hb s HI). destruct (body s) as [[s'|r]|e]; try done.
  - apply IH; [tauto|lia].
  - eauto.
Qed.

(** A loop that returned: what holds of every state holds of the result. *)
Lemma loop_inv body (I : S -> Prop) (Q : R -> Prop) :
  (forall s r, I s -> body s = Ok r -> match r with Next s' => I s' | Stop x => Q x end) ->
  forall n s x, loop n body s = Ok x -> I s -> Q x.
Proof.
  intros Hb n; induction n as [|n IH]; intros s x; cbn; [done|]. intros H HI.
  destruct (body s) as [[s'|r]|e] eqn:E; [|injection H as <-|done]; specialize (Hb s _ HI E); eauto.
Qed.

(** A state the body maps to a state of the same kind is never left. *)
Lemma loop_diverges body (I : S -> Prop) :
  (forall s, I s -> exists s', body s = Ok (Next s') /\ I s') ->
  forall n s, I s -> loop n body s = Err OutOfFuel.
Proof.
  intros Hb n; induction n as [|n IH]; intros s HI; [done|].
  cbn. destruct (Hb s HI) as (s' & -> & HI'). auto.
Qed.
End loops.

Lemma for_up_ind {S : Type} (P : Z -> S -> Prop) (body : Z -> S -> S) (n : nat) i s :
  P i s ->
  (forall k t, i <= k < i + Z.of_nat n -> P k t -> P (k + 1) (body k t)) ->
  P (i + Z.of_nat n) (for_up n i body s).
Proof.
  revert i s; induction n as [|n IH]; intros i s Hi Hstep; cbn [for_up].
  - by replace (i + Z.of_nat 0) with i by lia.
  - replace (i + Z.of_nat (Datatypes.S n)) with ((i + 1) + Z.of_nat n) by lia.
    apply IH; [apply Hstep; [lia|done]|intros; apply Hstep; [lia|done]].
Qed.

Lemma for_res_ind {S : Type} (P : Z -> S -> Prop) (body : Z -> S -> res S) (n : nat) i s :
  P i s ->
  (forall k t, i <= k < i + Z.of_nat n -> P k t ->
     exists t', body k t = Ok t' /\ P (k + 1) t') ->
  exists s', for_res n i body s = Ok s' /\ P (i + Z.of_nat n) s'.
Proof.
  revert i s; induction n as [|n IH]; intros i s Hi Hstep; cbn [for_res].
  - exists s; split; [done|]. by replace (i + Z.of_nat 0) with i by lia.
  - destruct (Hstep i s ltac:(lia) Hi) as (s1 & -> & H1). cbn.
    replace (i + Z.of_nat (Datatypes.S n)) with ((i + 1) + Z.of_nat n) by lia.
    apply IH; [done|intros; apply Hstep; [lia|done]].
Qed.

Lemma for_res_inv {S : Type} (I : S -> Prop) (body : Z -> S -> res S) :
  (forall k t t', I t -> body k t = Ok t' -> I t') ->
  forall n i s s', for_res n i body s = Ok s' -> I s -> I s'.
Proof.
  intros Hb n; induction n as [|n IH]; intros i s s'; cbn; [by intros [= <-]|].
  intros (s1 & H1 & H)%bind_Ok HI. eauto.
Qed.

Lemma find_up_Some n i test k :
  find_up n i test = Some k <->
  i <= k < i + Z.of_nat n /\ test k = true /\ forall j, i <= j < k -> test j = false.
Proof.
  revert i; induction n as [|n IH]; intros i; cbn [find_up].
  - split; [done|lia].
  - destruct (test i) eqn:Hi.
    + split; [intros [= <-]; split_and!; (done || lia)|].
      intros (Hr & Hk & Hlt). f_equal.
      destruct (Z.eq_dec i k); [done|].
      rewrite (Hlt i) in Hi by lia. done.
    + rewrite IH. split; intros (Hr & Hk & Hlt);
        (split; [|split; [done|]]).
      * lia.
      * intros j Hj. destruct (Z.eq_dec j i) as [->|]; [done|apply Hlt; lia].
      * destruct (Z.eq_dec i k) as [->|]; [congruence|lia].
      * intros j Hj. apply Hlt; lia.
Qed.

Lemma find_up_None n i test :
  find_up n i test = None <-> forall j, i <= j < i + Z.of_nat n -> test j = false.
Proof.
  revert i; induction n as [|n IH]; intros i; cbn [find_up].
  - split; [lia|done].
  - destruct (test i) eqn:Hi.
    + split; [done|]. intros H. rewrite H in Hi by lia. done.
    + rewrite IH. split; intros H j Hj.
      * destruct (Z.eq_dec j i) as [->|]; [done|apply H; lia].
      * apply H; lia.
Qed.

Lemma find_up_ext n i test test' :
  (forall k, i <= k < i + Z.of_nat n -> test k = test' k) ->
  find_up n i test = find_up n i test'.
Proof.
  revert i; induction n as [|n IH]; intros i H; cbn [find_up]; [done|].
  rewrite H by lia. destruct (test' i); [done|]. apply IH. intros k Hk. apply H. lia.
Qed.

(** ** Machine integers

    An unsigned [w]-bit integer is a [Z]; arithmetic wraps modulo [2^w]. *)

Definition w8 (z : Z) : Z := z mod 256.
Definition w16 (z : Z) : Z := z mod 65536.
Definition w32 (z : Z) : Z := z mod 4294967296.
Definition w64 (z : Z) : Z := z mod 18446744073709551616.

(** The signed reading of a 32-bit word, [int] on i386 and on the host. *)
Definition s32 (z : Z) : Z :=
  let u := w32 z in if u <? 2147483648 then u else u - 4294967296.

Definition is_u8 (z : Z) : Prop := 0 <= z < 256.
Definition is_u16 (z : Z) : Prop := 0 <= z < 65536.
Definition is_u32 (z : Z) : Prop := 0 <= z < 4294967296.

(** [zmod] is [lia] with division and modulo by constants. *)
Ltac zmod :=
  unfold w8, w16, w32, w64, is_u8, is_u16, is_u32 in *;
  Z.to_euclidean_division_equations; lia.

(** [zbool] decides an equation between boolean comparisons by cases. *)
Ltac zbool :=
  repeat match goal with
  | |- context [?a <=? ?b] => destruct (Z.leb_spec a b)
  | |- context [?a <? ?b] => destruct (Z.ltb_spec a b)
  | |- context [?a =? ?b] => destruct (Z.eqb_spec a b)
  end; subst; cbn [andb orb negb]; rewrite ?orb_true_r, ?orb_false_r, ?andb_true_r, ?andb_false_r;
  first [done | exfalso; zmod].

Lemma w8_range z : 0 <= w8 z < 256. Proof. zmod. Qed.
Lemma w16_range z : 0 <= w16 z < 65536. Proof. zmod. Qed.
Lemma w32_range z : 0 <= w32 z < 4294967296. Proof. zmod. Qed.
Lemma w64_range z : 0 <= w64 z < 18446744073709551616. Proof. zmod. Qed.

Lemma w8_id z : is_u8 z -> w8 z = z. Proof. zmod. Qed.
Lemma w16_id z : is_u16 z -> w16 z = z. Proof. zmod. Qed.
Lemma w32_id z : is_u32 z -> w32 z = z. Proof. zmod. Qed.

Lemma s32_range z : -2147483648 <= s32 z < 2147483648.
Proof. unfold s32. pose proof (w32_range z). case_match; lia. Qed.

Lemma s32_id z : -2147483648 <= z < 2147483648 -> s32 z = z.
Proof. unfold s32, w32. intros. case_match; zmod. Qed.

Create HintDb word.
Create Rewrite HintDb word.
#[export] Hint Resolve w8_range w16_range w32_range w64_range s32_range : word.
#[export] Hint Rewrite w8_id w16_id w32_id using (unfold is_u8, is_u16, is_u32; lia) : word.

(** [wsimp] removes the wrap-around where the value is in range. *)
Ltac wsimp := autorewrite with word.

(** ** Bits *)

(** Equality of integers bit by bit. *)
Ltac bits_ext i Hi := apply Z.bits_inj'; intros i Hi.

Lemma testbit_high (z n i : Z) :
  0 <= z < 2 ^ n -> 0 <= n <= i -> Z.testbit z i = false.
Proof.
  intros Hz Hn. destruct (Z.eq_dec z 0) as [->|]; [apply Z.testbit_0_l|].
  apply Z.bits_above_log2; [lia|].
  assert (Z.log2 z < n) by (apply Z.log2_lt_pow2; lia). lia.
Qed.

(** A disjunction of values that share no bit is their sum. *)
Lemma lor_disjoint_add (a b : Z) : Z.land a b = 0 -> Z.lor a b = a + b.
Proof. intros H. pose proof (Z.add_lor_land a b). lia. Qed.

Lemma land_low_shiftl (a b n : Z) :
  0 <= a < 2 ^ n -> 0 <= n -> Z.land a (Z.shiftl b n) = 0.
Proof.
  intros Ha Hn. bits_ext i Hi. rewrite Z.land_spec, Z.testbit_0_l.
  destruct (Z.ltb_spec i n).
  - rewrite Z.shiftl_spec_low by lia. apply andb_false_r.
  - rewrite (testbit_high a n) by lia. done.
Qed.

(** Packing a low field under a shifted one. *)
Lemma lor_shiftl_add (a b n : Z) :
  0 <= a < 2 ^ n -> 0 <= n -> Z.lor a (Z.shiftl b n) = a + b * 2 ^ n.
Proof.
  intros. rewrite lor_disjoint_add by (apply land_low_shiftl; lia).
  by rewrite Z.shiftl_mul_pow2 by lia.
Qed.

Lemma land_ones_mod (a n : Z) : 0 <= n -> Z.land a (2 ^ n - 1) = a mod 2 ^ n.
Proof.
  intros. rewrite <- Z.land_ones by lia. by rewrite Z.ones_equiv, Z.sub_1_r.
Qed.

(** Number of bits set, GCC's [__builtin_popcount]. *)
Fixpoint pos_popcount (p : positive) : Z :=
  match p with
  | xH => 1
  | xO q => pos_popcount q
  | xI q => 1 + pos_popcount q
  end.
Definition popcount (z : Z) : Z :=
  match z with Zpos p => pos_popcount p | _ => 0 end.

(** Number of trailing zeros of a non-zero word, GCC's [__builtin_ctz]. *)
Fixpoint pos_ctz (p : positive) : Z :=
  match p with xO q => 1 + pos_ctz q | _ => 0 end.
Definition ctz (z : Z) : Z := match z with Zpos p => pos_ctz p | _ => 0 end.

Lemma pos_ctz_nonneg p : 0 <= pos_ctz p.
Proof. induction p; cbn; lia. Qed.

Lemma ctz_bit (z : Z) : 0 < z -> Z.testbit z (ctz z) = true.
Proof.
  destruct z as [|p|p]; try lia. intros _. cbn [ctz].
  induction p as [p IH|p IH|]; cbn [pos_ctz]; [done| |done].
  rewrite Pos2Z.inj_xO, Z.add_comm, Z.add_1_r.
  by rewrite Z.double_bits_succ.
Qed.

Lemma ctz_low (z i : Z) : 0 < z -> 0 <= i < ctz z -> Z.testbit z i = false.
Proof.
  destruct z as [|p|p]; try lia. intros _. cbn [ctz]. revert i.
  induction p as [p IH|p IH|]; cbn [pos_ctz]; intros i Hi; [lia| |lia].
  rewrite Pos2Z.inj_xO. destruct (Z.eq_dec i 0) as [->|].
  - by rewrite Z.double_bits, Z.testbit_neg_r by lia.
  - rewrite Z.double_bits. apply IH. lia.
Qed.

Lemma ctz_range (z n : Z) : 0 < z < 2 ^ n -> 0 <= n -> 0 <= ctz z < n.
Proof.
  intros Hz Hn. split.
  - destruct z; cbn; [lia|apply pos_ctz_nonneg|lia].
  - destruct (Z.lt_ge_cases (ctz z) n) as [|Hge]; [done|].
    pose proof (ctz_bit z ltac:(lia)) as Hb.
    rewrite (testbit_high z n) in Hb by lia. done.
Qed.

Lemma popcount_pow2 (n : Z) : 0 <= n -> popcount (2 ^ n) = 1.
Proof.
  intros Hn. pattern n. apply natlike_ind; [done| |done].
  intros x Hx IH. rewrite Z.pow_succ_r by lia.
  destruct (2 ^ x) eqn:E; try done.
Qed.
