(* ===== verification/Memory.v ===== *)
(** * Byte-addressed memory, [memory_fill] .. [memory_compare] and C strings

    Models the byte routines of src/src/std/memory.c (lines 168-197) and
    src/src/std/string.c over a byte memory: a finite map from addresses to
    bytes in which an address never written reads as zero. *)
From S2P Require Import Prelude.

#[local] Open Scope Z_scope.

(** ** Memory *)

Abbreviation mem := (gmap Z Z).

Definition ld8 (m : mem) (a : Z) : Z := w8 (default 0 (m !! a)).
Definition st8 (m : mem) (a v : Z) : mem := <[a := w8 v]> m.

Definition ld16 (m : mem) (a : Z) : Z := ld8 m a + 256 * ld8 m (a + 1).
Definition st16 (m : mem) (a v : Z) : mem := st8 (st8 m a v) (a + 1) (v / 256).

Definition ld32 (m : mem) (a : Z) : Z := ld16 m a + 65536 * ld16 m (a + 2).
Definition st32 (m : mem) (a v : Z) : mem := st16 (st16 m a v) (a + 2) (v / 65536).

Lemma ld8_range m a : 0 <= ld8 m a < 256.
Proof. apply w8_range. Qed.

Lemma ld16_range m a : 0 <= ld16 m a < 65536.
Proof. unfold ld16. pose proof (ld8_range m a). pose proof (ld8_range m (a + 1)). lia. Qed.

Lemma ld32_range m a : 0 <= ld32 m a < 4294967296.
Proof. unfold ld32. pose proof (ld16_range m a). pose proof (ld16_range m (a + 2)). lia. Qed.

Lemma ld8_st8 m a b v : ld8 (st8 m a v) b = if decide (a = b) then w8 v else ld8 m b.
Proof.
  unfold ld8, st8. rewrite lookup_insert. case_decide; [cbn; zmod|done].
Qed.

Lemma ld8_st8_eq m a v : ld8 (st8 m a v) a = w8 v.
Proof. rewrite ld8_st8. by rewrite decide_True. Qed.

Lemma ld8_st8_ne m a b v : a <> b -> ld8 (st8 m a v) b = ld8 m b.
Proof. intros. rewrite ld8_st8. by rewrite decide_False. Qed.

Lemma ld8_st16_ne m a b v : b < a \/ a + 2 <= b -> ld8 (st16 m a v) b = ld8 m b.
Proof. intros. unfold st16. by rewrite !ld8_st8_ne by lia. Qed.

Lemma ld8_st32_ne m a b v : b < a \/ a + 4 <= b -> ld8 (st32 m a v) b = ld8 m b.
Proof. intros. unfold st32. by rewrite !ld8_st16_ne by lia. Qed.

Lemma ld16_st16_eq m a v : ld16 (st16 m a v) a = w16 v.
Proof.
  unfold ld16, st16. rewrite ld8_st8_eq, ld8_st8_ne, ld8_st8_eq by lia. zmod.
Qed.

Lemma ld32_st32_eq m a v : ld32 (st32 m a v) a = w32 v.
Proof.
  unfold ld32, st32. rewrite ld16_st16_eq.
  replace (ld16 (st16 (st16 m a v) (a + 2) (v / 65536)) a) with (w16 v).
  - zmod.
  - unfold ld16 at 1. rewrite !(ld8_st16_ne (st16 m a v)) by lia.
    symmetry. apply ld16_st16_eq.
Qed.

Lemma ld16_frame m m' a :
  (forall b, a <= b < a + 2 -> ld8 m' b = ld8 m b) -> ld16 m' a = ld16 m a.
Proof. intros H. unfold ld16. by rewrite !H by lia. Qed.

(** A word whose bytes agree in two memories reads the same in both. *)
Lemma ld32_frame m m' a :
  (forall b, a <= b < a + 4 -> ld8 m' b = ld8 m b) -> ld32 m' a = ld32 m a.
Proof.
  intros H. unfold ld32.
  rewrite (ld16_frame m m' a), (ld16_frame m m' (a + 2)); [done| |];
    intros; apply H; lia.
Qed.

Lemma ld32_st32_ne m a b v : b + 4 <= a \/ a + 4 <= b -> ld32 (st32 m a v) b = ld32 m b.
Proof. intros. apply ld32_frame. intros. apply ld8_st32_ne. lia. Qed.

(** Storing at corresponding places keeps memories corresponding. *)
Lemma ld8_st32_shift m m' a a' v x x' : x - a = x' - a' -> ld8 m x = ld8 m' x' ->
  ld8 (st32 m a v) x = ld8 (st32 m' a' v) x'.
Proof.
  intros E H. unfold st32, st16. rewrite !ld8_st8. repeat case_decide; try lia; done.
Qed.

#[export] Hint Resolve ld8_range ld16_range ld32_range : word.

(** Two memories that read the same are the same memory: an address that was
    never written and one that holds zero cannot be told apart. *)
#[export] Instance mem_equiv : Equiv mem := fun m1 m2 => forall a, ld8 m1 a = ld8 m2 a.
#[export] Instance mem_equivalence : Equivalence (≡@{mem}).
Proof. split; [by intros ? ?|by intros ??? ?|intros ??? H1 H2 a; by rewrite (H1 a)]. Qed.
#[export] Instance ld8_proper : Proper ((≡) ==> (=) ==> (=)) ld8.
Proof. intros m1 m2 H a ? <-. apply H. Qed.
#[export] Instance ld16_proper : Proper ((≡) ==> (=) ==> (=)) ld16.
Proof. intros m1 m2 H a ? <-. unfold ld16. by rewrite !H. Qed.
#[export] Instance ld32_proper : Proper ((≡) ==> (=) ==> (=)) ld32.
Proof. intros m1 m2 H a ? <-. unfold ld32. by rewrite !H. Qed.
#[export] Instance st8_proper : Proper ((≡) ==> (=) ==> (=) ==> (≡)) st8.
Proof.
  intros m1 m2 H a ? <- v ? <- b. rewrite !ld8_st8. by case_decide.
Qed.
#[export] Instance st16_proper : Proper ((≡) ==> (=) ==> (=) ==> (≡)) st16.
Proof. intros m1 m2 H a ? <- v ? <-. unfold st16. by rewrite H. Qed.
#[export] Instance st32_proper : Proper ((≡) ==> (=) ==> (=) ==> (≡)) st32.
Proof. intros m1 m2 H a ? <- v ? <-. unfold st32. by rewrite H. Qed.

(** ** Blocks of bytes *)

Definition bytes_at (m : mem) (a : Z) (n : nat) : list Z :=
  map (fun i => ld8 m (a + Z.of_nat i)) (seq 0 n).

Lemma length_bytes_at m a n : length (bytes_at m a n) = n.
Proof. unfold bytes_at. by rewrite length_map, length_seq. Qed.

Lemma lookup_bytes_at m a n i :
  (i < n)%nat -> bytes_at m a n !! i = Some (ld8 m (a + Z.of_nat i)).
Proof.
  intros. unfold bytes_at. rewrite list_lookup_fmap.
  by rewrite lookup_seq_lt by lia.
Qed.

(** Two blocks are equal when they are equal byte by byte. *)
Lemma bytes_at_ext m m' a a' n :
  (forall i, 0 <= i < Z.of_nat n -> ld8 m (a + i) = ld8 m' (a' + i)) ->
  bytes_at m a n = bytes_at m' a' n.
Proof.
  intros H. apply map_ext_in. intros i [_ Hi]%in_seq. apply H. lia.
Qed.

Lemma bytes_at_inv m m' a a' n i :
  bytes_at m a n = bytes_at m' a' n -> 0 <= i < Z.of_nat n ->
  ld8 m (a + i) = ld8 m' (a' + i).
Proof.
  intros H Hi. apply (f_equal (fun l => l !! Z.to_nat i)) in H.
  rewrite !lookup_bytes_at in H by lia. rewrite Z2Nat.id in H by lia.
  by injection H.
Qed.

Lemma bytes_at_app m a (x y : nat) :
  bytes_at m a (x + y) = bytes_at m a x ++ bytes_at m (a + Z.of_nat x) y.
Proof.
  apply list_eq_same_length with (n := (x + y)%nat);
    [by rewrite length_app, !length_bytes_at|by rewrite length_bytes_at|].
  intros i u v Hi Hu Hv. rewrite lookup_bytes_at in Hu by done. injection Hu as <-.
  destruct (Nat.lt_ge_cases i x).
  - rewrite lookup_app_l, lookup_bytes_at in Hv by (rewrite ?length_bytes_at; lia). by injection Hv.
  - rewrite lookup_app_r, length_bytes_at, lookup_bytes_at in Hv by (rewrite ?length_bytes_at; lia).
    injection Hv as <-. f_equal. lia.
Qed.

(** Writing a list of bytes, the effect of filling a buffer in order. *)
Fixpoint st_bytes (m : mem) (a : Z) (l : list Z) : mem :=
  match l with
  | [] => m
  | b :: l' => st_bytes (st8 m a b) (a + 1) l'
  end.

Lemma ld8_st_bytes m a l b :
  ld8 (st_bytes m a l) b =
    if decide (a <= b < a + Z.of_nat (length l))
    then w8 (default 0 (l !! Z.to_nat (b - a))) else ld8 m b.
Proof.
  revert m a; induction l as [|c l IH]; intros m a; cbn [st_bytes length].
  - rewrite decide_False by lia. done.
  - rewrite IH. destruct (decide (b = a)) as [->|].
    + rewrite decide_False, decide_True by lia. rewrite ld8_st8_eq.
      by rewrite Z.sub_diag.
    + rewrite ld8_st8_ne by done. do 2 case_decide; try (lia || done).
      by replace (Z.to_nat (b - a)) with (S (Z.to_nat (b - (a + 1)))) by lia.
Qed.

Lemma bytes_at_st_bytes m a l : Forall is_u8 l -> bytes_at (st_bytes m a l) a (length l) = l.
Proof.
  intros Hl. apply list_eq_same_length with (n := length l); [done|apply length_bytes_at|].
  intros i x y Hi Hx Hy. rewrite lookup_bytes_at in Hx by done. injection Hx as <-.
  rewrite ld8_st_bytes, decide_True by lia. replace (Z.to_nat (a + Z.of_nat i - a)) with i by lia.
  rewrite Hy. cbn. apply w8_id. rewrite Forall_lookup in Hl. by eapply Hl.
Qed.

(** ** [memory_fill], [memory_zero], [memory_copy], [memory_compare] *)

Definition memory_fill (m : mem) (address length val : Z) : mem :=
  for_up (Z.to_nat length) 0 (fun i m => st8 m (address + i) val) m.

Definition memory_zero (m : mem) (address length : Z) : mem :=
  memory_fill m address length 0.

Definition memory_copy (m : mem) (dst src size : Z) : mem :=
  for_up (Z.to_nat size) 0 (fun i m => st8 m (dst + i) (ld8 m (src + i))) m.

Definition memory_compare (m : mem) (mem1 mem2 size : Z) : bool :=
  match find_up (Z.to_nat size) 0
          (fun i => negb (ld8 m (mem1 + i) =? ld8 m (mem2 + i))) with
  | Some _ => false
  | None => true
  end.

Lemma ld8_memory_fill m a n v b :
  0 <= n ->
  ld8 (memory_fill m a n v) b = if decide (a <= b < a + n) then w8 v else ld8 m b.
Proof.
  intros Hn. unfold memory_fill.
  pose (P := fun k m' => forall b, ld8 m' b =
    if decide (a <= b < a + k) then w8 v else ld8 m b).
  enough (P (0 + Z.of_nat (Z.to_nat n))
    (for_up (Z.to_nat n) 0 (fun i m => st8 m (a + i) v) m)) as H.
  { rewrite H. by rewrite Z2Nat.id by lia. }
  apply for_up_ind; unfold P.
  - intros c. by rewrite decide_False by lia.
  - intros k t Hk IH c. rewrite ld8_st8.
    case_decide; [subst; by rewrite decide_True by lia|].
    rewrite IH. do 2 case_decide; try lia; done.
Qed.

(** Copying forwards is right when the destination does not start inside the
    source. *)
Lemma ld8_memory_copy m dst src n b :
  0 <= n -> dst <= src \/ src + n <= dst ->
  ld8 (memory_copy m dst src n) b =
    if decide (dst <= b < dst + n) then ld8 m (src + (b - dst)) else ld8 m b.
Proof.
  intros Hn Hov. unfold memory_copy.
  pose (P := fun k m' => forall b, ld8 m' b =
    if decide (dst <= b < dst + k) then ld8 m (src + (b - dst)) else ld8 m b).
  enough (P (0 + Z.of_nat (Z.to_nat n))
    (for_up (Z.to_nat n) 0 (fun i m => st8 m (dst + i) (ld8 m (src + i))) m)) as H.
  { rewrite H. by rewrite Z2Nat.id by lia. }
  apply for_up_ind; unfold P.
  - intros c. by rewrite decide_False by lia.
  - intros k t Hk IH c. rewrite ld8_st8. case_decide as Hc.
    + subst c. rewrite decide_True by lia. rewrite (IH (src + k)).
      rewrite decide_False by lia.
      rewrite w8_id by apply ld8_range. f_equal. lia.
    + rewrite IH. do 2 case_decide; try lia; done.
Qed.

Lemma memory_compare_true m a1 a2 n :
  memory_compare m a1 a2 n = true <->
  bytes_at m a1 (Z.to_nat n) = bytes_at m a2 (Z.to_nat n).
Proof.
  unfold memory_compare. destruct (find_up _ _ _) as [k|] eqn:E.
  - apply find_up_Some in E as (Hk & Hne & _). split; [done|].
    intros Heq. apply negb_true_iff, Z.eqb_neq in Hne. destruct Hne.
    eapply bytes_at_inv; [done|lia].
  - rewrite find_up_None in E. split; [intros _|done].
    apply bytes_at_ext. intros i Hi. specialize (E i ltac:(lia)).
    apply negb_false_iff, Z.eqb_eq in E. done.
Qed.

(** ** C strings and [String] (string.c) *)

Record String_t : Type := String_ { str_data : Z; str_length : Z }.

(** The characters before the first NUL. *)
Fixpoint c_text (l : list Z) : list Z :=
  match l with
  | [] => []
  | c :: l => if c =? 0 then [] else c :: c_text l
  end.

(** [cstring m a s]: the characters [s], none of them NUL, followed by a NUL,
    are stored at [a]. *)
Definition cstring (m : mem) (a : Z) (s : list Z) : Prop :=
  bytes_at m a (length s) = s /\ Forall (fun c => c <> 0) s /\
  ld8 m (a + Z.of_nat (length s)) = 0.

(** [while (str[len]) len++; return len;] *)
Definition strlen (fuel : nat) (m : mem) (str : Z) : res Z :=
  loop fuel (fun len =>
    if ld8 m (str + len) =? 0 then Ok (Stop len) else Ok (Next (len + 1))) 0.

Definition str_literal (fuel : nat) (m : mem) (cstr : Z) : res String_t :=
  n ← strlen fuel m cstr; Ok (String_ cstr n).

(** The [for] loop returns false at the first difference; after it the result
    is [cstr\[i\] == '\0'] with [i = str.length]. *)
Definition str_equals_cstr (m : mem) (str : String_t) (cstr : Z) : bool :=
  match find_up (Z.to_nat (str_length str)) 0
          (fun i => negb (ld8 m (str_data str + i) =? ld8 m (cstr + i))) with
  | Some _ => false
  | None => ld8 m (cstr + str_length str) =? 0
  end.

Lemma cstring_lookup m a s i :
  cstring m a s -> (i < length s)%nat ->
  s !! i = Some (ld8 m (a + Z.of_nat i)) /\ ld8 m (a + Z.of_nat i) <> 0.
Proof.
  intros (Hb & Hnz & _) Hi.
  assert (s !! i = Some (ld8 m (a + Z.of_nat i))) as Hl.
  { rewrite <- Hb at 1. by apply lookup_bytes_at. }
  split; [done|]. rewrite Forall_lookup in Hnz. eauto.
Qed.

(** Storing characters and a NUL makes a C string. *)
Lemma cstring_stored m a l : Forall (fun c => 0 < c < 256) l ->
  cstring (st_bytes m a (l ++ [0])) a l.
Proof.
  intros Hl. split_and!.
  - apply list_eq_same_length with (n := length l); [done|apply length_bytes_at|].
    intros k x y Hk Hx Hy. rewrite lookup_bytes_at in Hx by lia. injection Hx as <-.
    rewrite ld8_st_bytes, length_app, decide_True by (cbn; lia).
    replace (Z.to_nat (a + Z.of_nat k - a)) with k by lia.
    rewrite lookup_app_l, Hy by lia. cbn. apply w8_id. rewrite Forall_lookup in Hl.
    specialize (Hl k y Hy). unfold is_u8. lia.
  - eapply Forall_impl; [done|]. cbn. lia.
  - rewrite ld8_st_bytes, length_app, decide_True by (cbn; lia).
    replace (Z.to_nat (a + Z.of_nat (length l) - a)) with (length l) by lia.
    by rewrite lookup_app_r, Nat.sub_diag by lia.
Qed.

(** A string is found at an address in at most one way. *)
Lemma cstring_inj m a s t : cstring m a s -> cstring m a t -> s = t.
Proof.
  intros Hs Ht.
  assert (length s = length t) as Hlen.
  { destruct (Nat.lt_total (length s) (length t)) as [H|[H|H]]; [|done|].
    - destruct (cstring_lookup _ _ _ _ Ht H) as [_ Hne].
      by destruct Hs as (_ & _ & ?).
    - destruct (cstring_lookup _ _ _ _ Hs H) as [_ Hne].
      by destruct Ht as (_ & _ & ?). }
  destruct Hs as (Hs & _), Ht as (Ht & _). by rewrite <- Hs, <- Ht, Hlen.
Qed.

Lemma strlen_ok m a s fuel :
  cstring m a s -> (length s < fuel)%nat ->
  strlen fuel m a = Ok (Z.of_nat (length s)).
Proof.
  intros Hs Hf. unfold strlen.
  destruct (loop_spec (fun len => if ld8 m (a + len) =? 0
      then Ok (Stop len) else Ok (Next (len + 1)))
    (fun len => 0 <= len <= Z.of_nat (length s))
    (fun r => r = Z.of_nat (length s))
    (fun len => Z.to_nat (Z.of_nat (length s) - len))) with (n := fuel) (s := 0)
    as (r & Hr & ->); [|lia|lia|done].
  intros len Hlen. destruct (Z.eqb_spec (ld8 m (a + len)) 0) as [H0|H0].
  - destruct (Z.eq_dec len (Z.of_nat (length s))) as [|Hne]; [done|].
    destruct (cstring_lookup m a s (Z.to_nat len) Hs ltac:(lia)) as [_ Hc].
    rewrite Z2Nat.id in Hc by lia. done.
  - destruct (Z.eq_dec len (Z.of_nat (length s))) as [->|Hne]; [|lia].
    by destruct Hs as (_ & _ & ?).
Qed.

(** [str_equals_cstr] decides equality of the characters with the C string. *)
Lemma str_equals_cstr_true m str cstr s :
  cstring m cstr s -> 0 <= str_length str ->
  Forall (fun c => c <> 0) (bytes_at m (str_data str) (Z.to_nat (str_length str))) ->
  str_equals_cstr m str cstr = true <->
  bytes_at m (str_data str) (Z.to_nat (str_length str)) = s.
Proof.
  intros Hs Hl Hnz. unfold str_equals_cstr.
  set (n := Z.to_nat (str_length str)) in *.
  destruct (find_up _ _ _) as [k|] eqn:E.
  - apply find_up_Some in E as (Hk & Hne & _). split; [done|]. intros Heq.
    apply negb_true_iff, Z.eqb_neq in Hne. destruct Hne.
    assert (length s = n) as Hlen by (by rewrite <- Heq, length_bytes_at).
    destruct (cstring_lookup m cstr s (Z.to_nat k) Hs ltac:(lia)) as [Hc _].
    rewrite <- Heq, lookup_bytes_at in Hc by lia.
    rewrite Z2Nat.id in Hc by lia. by injection Hc.
  - rewrite find_up_None in E.
    assert (bytes_at m (str_data str) n = bytes_at m cstr n) as Hb.
    { apply bytes_at_ext. intros i Hi. specialize (E i ltac:(lia)).
      by apply negb_false_iff, Z.eqb_eq in E. }
    rewrite Z.eqb_eq, Hb. split.
    + intros H0. apply (cstring_inj m cstr); [|done].
      unfold cstring. rewrite length_bytes_at.
      replace (cstr + Z.of_nat n) with (cstr + str_length str) by lia.
      split_and!; [done|by rewrite <- Hb|done].
    + intros <-. destruct Hs as (_ & _ & H0).
      rewrite length_bytes_at in H0.
      by replace (cstr + str_length str) with (cstr + Z.of_nat n) by lia.
Qed.
