(* ===== verification/PageFrames.v ===== *)
(** * The page frame allocator (src/src/kernel/page_frame_allocator.c)

    The bitmap of physical page frames, the page tables of the heap and the
    page directory, with [pfa_init], [pfa_commit_page] and [pfa_uncommit_all],
    and the alignment helpers of src/src/std/memory.c. *)
From S2P Require Import Prelude Memory.

#[local] Open Scope Z_scope.

(** ** Constants (common.h, paging.h, page_frame_allocator.c) *)

Definition MiB : Z := 1048576.
Definition PAGE_SIZE : Z := 4096.
Definition MAX_KERNEL_SIZE : Z := 8 * MiB.
Definition RESERVED_PHYS : Z := 10 * MiB.
(** [pfa_page_tables\[254\]\[1024\]], [pfa_page_bitmap\[32704\]],
    [page_directory\[1024\]]. *)
Definition TABLES : Z := 254.
Definition BITMAP_LEN : Z := 32704.

Definition PAGE_DIR_FLAGS : Z := 39. (* PRESENT | RW | ACCESS_ALL | ACCESSED *)
Definition PAGE_TABLE_FLAGS : Z := 39.

(** Addresses fixed by link.ld. *)
Definition kernel_start : Z := 3221225472. (* 0xC0000000 *)
Definition kernel_phys_start : Z := 2 * MiB.

(** ** Alignment *)

Definition align_backwards (size alignment : Z) : res Z :=
  _ ← assert "alignment is not a power of 2" (popcount alignment =? 1);
  Ok (Z.land size (w32 (Z.lnot (alignment - 1)))).

Definition align_forward (size alignment : Z) : res Z :=
  _ ← assert "alignment is not a power of 2" (popcount alignment =? 1);
  Ok (Z.land (w32 (size + alignment - 1)) (w32 (Z.lnot (alignment - 1)))).

Lemma testbit_w32 (z i : Z) : 0 <= i -> Z.testbit (w32 z) i = (i <? 32) && Z.testbit z i.
Proof.
  intros Hi. unfold w32. change 4294967296 with (2 ^ 32).
  destruct (Z.ltb_spec i 32).
  - by rewrite Z.mod_pow2_bits_low by lia.
  - by rewrite Z.mod_pow2_bits_high by lia.
Qed.

(** Clearing the low [k] bits of a word rounds it down to a multiple of [2^k]. *)
Lemma land_mask_low (z k : Z) :
  is_u32 z -> 0 <= k < 32 ->
  Z.land z (w32 (Z.lnot (2 ^ k - 1))) = z / 2 ^ k * 2 ^ k.
Proof.
  intros Hz Hk. rewrite <- Z.shiftr_div_pow2, <- Z.shiftl_mul_pow2 by lia.
  bits_ext i Hi. rewrite Z.land_spec, testbit_w32, Z.lnot_spec by lia.
  rewrite Z.sub_1_r, <- Z.ones_equiv.
  destruct (Z.ltb_spec i k).
  - rewrite Z.ones_spec_low, Z.shiftl_spec_low by lia. by rewrite !andb_false_r.
  - rewrite Z.ones_spec_high, Z.shiftl_spec, Z.shiftr_spec by lia.
    replace (i - k + k) with i by lia. rewrite andb_true_r.
    destruct (Z.ltb_spec i 32); [by rewrite andb_true_r|].
    rewrite andb_false_r. symmetry. apply (testbit_high z 32); [|lia].
    unfold is_u32 in Hz. lia.
Qed.

Lemma align_backwards_pow2 (size k : Z) :
  is_u32 size -> 0 <= k < 32 ->
  align_backwards size (2 ^ k) = Ok (size / 2 ^ k * 2 ^ k).
Proof.
  intros. unfold align_backwards. rewrite popcount_pow2 by lia. cbn.
  by rewrite land_mask_low.
Qed.

Lemma align_forward_pow2 (size k : Z) :
  0 <= k < 32 ->
  align_forward size (2 ^ k) = Ok (w32 (size + 2 ^ k - 1) / 2 ^ k * 2 ^ k).
Proof.
  intros. unfold align_forward. rewrite popcount_pow2 by lia. cbn.
  rewrite land_mask_low; [done|apply w32_range|done].
Qed.

(** ** State

    Arrays of 32-bit words are finite maps from the index; an element not in
    the map is zero, as C initialises the arrays. Every access is checked
    against the bound of the array. *)
Record pfa : Type := Pfa {
  page_directory : gmap Z Z;
  pfa_page_tables : gmap (Z * Z) Z;
  pfa_page_bitmap : gmap Z Z;
}.

Definition elem {K} `{Countable K} (m : gmap K Z) (i : K) : Z := w32 (default 0 (m !! i)).

Definition pfa_empty : pfa := Pfa ∅ ∅ ∅.

Definition set_bitmap (s : pfa) (bm : gmap Z Z) : pfa :=
  Pfa (page_directory s) (pfa_page_tables s) bm.

(** The bit of page [n] of the general-purpose area: the frame at physical
    address [RESERVED_PHYS + n * PAGE_SIZE]. *)
Definition bit_at (bm : gmap Z Z) (n : Z) : bool := Z.testbit (elem bm (n / 32)) (n mod 32).

Definition in_bitmap (i : Z) : res unit := guard_bounds ((0 <=? i) && (i <? BITMAP_LEN)).

(** [pfa_page_bitmap\[i\] |= 1 << b] and [pfa_page_bitmap\[i\] &= ~(1 << b)]. *)
Definition bitmap_set (bm : gmap Z Z) (i b : Z) : res (gmap Z Z) :=
  _ ← in_bitmap i; Ok (<[i := Z.lor (elem bm i) (w32 (Z.shiftl 1 b))]> bm).
Definition bitmap_clear (bm : gmap Z Z) (i b : Z) : res (gmap Z Z) :=
  _ ← in_bitmap i;
  Ok (<[i := Z.land (elem bm i) (w32 (Z.lnot (w32 (Z.shiftl 1 b))))]> bm).

(** ** [pfa_init] *)

Record MMap_Segment : Type := Segment {
  size : Z; base_addr : Z; seg_length : Z; type : Z
}.

Definition ld64 (m : mem) (a : Z) : Z := ld32 m a + 4294967296 * ld32 m (a + 4).

(** The packed structure at an address: [size], [base_addr], [length], [type]
    at offsets 0, 4, 12 and 20. *)
Definition segment_at (m : mem) (a : Z) : MMap_Segment :=
  Segment (ld32 m a) (ld64 m (a + 4)) (ld64 m (a + 12)) (ld32 m (a + 20)).

(** The body of the two inner [for] loops. *)
Definition reserve_page (addr : Z) (bm : gmap Z Z) : res (gmap Z Z) :=
  let page_bitmap_index := w32 (addr - RESERVED_PHYS) / PAGE_SIZE / 32 in
  let page_bitmap_bit_index := (w32 (addr - RESERVED_PHYS) / PAGE_SIZE) mod 32 in
  bitmap_set bm page_bitmap_index page_bitmap_bit_index.

(** [for (addr = area_start; addr < area_end; addr += PAGE_SIZE)]. *)
Definition reserve_pages (area_start area_end : Z) (bm : gmap Z Z) : res (gmap Z Z) :=
  for_res (Z.to_nat ((area_end - area_start + PAGE_SIZE - 1) / PAGE_SIZE)) 0
    (fun k bm => reserve_page (area_start + k * PAGE_SIZE) bm) bm.

(** The code the gap before a segment and an unavailable segment share: reserve
    the pages from [from] to [to], both rounded outwards. *)
Definition reserve_area (from to : Z) (bm : gmap Z Z) : res (gmap Z Z) :=
  area_end ← align_forward to PAGE_SIZE;
  if RESERVED_PHYS <? area_end then
    area_start ← align_backwards from PAGE_SIZE;
    let area_start := if area_start <? RESERVED_PHYS then RESERVED_PHYS else area_start in
    reserve_pages area_start area_end bm
  else Ok bm.

Record init_state : Type := InitState {
  is_segment : Z; is_end_of_last : Z; is_traversed : Z; is_bitmap : gmap Z Z
}.

(** One iteration of the [while] loop over the memory map. *)
Definition pfa_init_step (m : mem) (mmap_length : Z) (st : init_state)
  : res (step init_state (gmap Z Z)) :=
  if is_traversed st <? mmap_length then
    let segment := segment_at m (is_segment st) in
    bm ← reserve_area (is_end_of_last st) (w32 (base_addr segment)) (is_bitmap st);
    bm ← (if negb (type segment =? 1)
          then reserve_area (w32 (base_addr segment))
                 (w32 (w64 (base_addr segment + seg_length segment))) bm
          else Ok bm);
    Ok (Next (InitState (is_segment st + size segment + 4)
      (w32 (w64 (base_addr segment + seg_length segment)))
      (w32 (is_traversed st + size segment + 4)) bm))
  else Ok (Stop (is_bitmap st)).

Definition pfa_init (fuel : nat) (m : mem) (mmap_addr mmap_length : Z) (s : pfa)
  : res (bool * pfa) :=
  bm ← loop fuel (pfa_init_step m mmap_length)
         (InitState mmap_addr 0 0 (pfa_page_bitmap s));
  Ok (true, set_bitmap s bm).

(** ** Virtual addresses of the heap *)

Section tables.
(** The address the linker gives [pfa_page_tables] and the end of the
    kernel image: they depend on the compiled code. *)
Context (tables_addr kernel_end : Z).

Definition mapped_virt_to_pfa_tables_index (virt_addr : Z) : res Z :=
  let page_virt_base := kernel_start + MAX_KERNEL_SIZE in
  let index := w32 (virt_addr - page_virt_base) / (PAGE_SIZE * 1024) in
  _ ← assert "Index too large." (index <? TABLES);
  Ok index.

Definition pfa_tables_index_to_mapped_virt (index : Z) : res Z :=
  _ ← assert "Index too large." (index <? TABLES);
  let page_virt_base := kernel_start + MAX_KERNEL_SIZE in
  Ok (w32 (index * PAGE_SIZE * 1024 + page_virt_base)).

Definition pfa_tables_index_to_table_phys (index : Z) : res Z :=
  _ ← assert "Index too large." (index <? TABLES);
  let pfa_table_virt := w32 (tables_addr + index * 4096) in
  _ ← assert "Virtual address should be in the kernel virtual address space."
        ((kernel_start <=? pfa_table_virt) && (pfa_table_virt <? kernel_end));
  Ok (w32 (pfa_table_virt - w32 (kernel_start - kernel_phys_start))).

Definition mapped_virt_to_page_directory_entry (virt : Z) : Z := Z.shiftr virt 22.
Definition mapped_virt_to_page_table_entry (virt : Z) : Z :=
  Z.land (Z.shiftr virt 12) 1023.

(** ** [pfa_commit_page] *)

Definition pfa_commit_page (virt_addr : Z) (s : pfa) : res (bool * pfa) :=
  _ ← assert "virt_addr is not page aligned." (Z.land virt_addr 4095 =? 0);
  '(page_frame, bm) ←
    match find_up (Z.to_nat BITMAP_LEN) 0
            (fun i => negb (elem (pfa_page_bitmap s) i =? 4294967295)) with
    | Some i =>
        (* This entry contains a free page. *)
        let zero_page_bit := ctz (w32 (Z.lnot (elem (pfa_page_bitmap s) i))) in
        bm ← bitmap_set (pfa_page_bitmap s) i zero_page_bit;
        Ok (w32 ((i * 32 + zero_page_bit) * PAGE_SIZE + RESERVED_PHYS), bm)
    | None => Ok (1, pfa_page_bitmap s)
    end;
  if page_frame =? 1 then Ok (false, set_bitmap s bm) else
  _ ← assert "page_frame is not page aligned." (Z.land page_frame 4095 =? 0);
  let page_directory_entry := mapped_virt_to_page_directory_entry virt_addr in
  let page_table_entry := mapped_virt_to_page_table_entry virt_addr in
  pfa_page_tables_index ← mapped_virt_to_pfa_tables_index virt_addr;
  page_table_phys ← pfa_tables_index_to_table_phys pfa_page_tables_index;
  Ok (true, Pfa
    (<[page_directory_entry := Z.lor page_table_phys PAGE_DIR_FLAGS]> (page_directory s))
    (<[(pfa_page_tables_index, page_table_entry) :=
        Z.lor page_frame PAGE_TABLE_FLAGS]> (pfa_page_tables s))
    bm).

(** ** [pfa_uncommit_all] *)

(** The inner loop: free the frame of each entry of table [i]. *)
Definition uncommit_entry (tables : gmap (Z * Z) Z) (i j : Z) (bm : gmap Z Z)
  : res (gmap Z Z) :=
  let page_frame := Z.land (elem tables (i, j)) (w32 (Z.lnot 4095)) in
  let page_bitmap_index := w32 (page_frame - RESERVED_PHYS) / PAGE_SIZE / 32 in
  let page_bitmap_bit_index := (w32 (page_frame - RESERVED_PHYS) / PAGE_SIZE) mod 32 in
  bitmap_clear bm page_bitmap_index page_bitmap_bit_index.

(** [memory_zero(&pfa_page_tables\[i\], sizeof(...))]. *)
Definition zero_table (i : Z) (tables : gmap (Z * Z) Z) : gmap (Z * Z) Z :=
  for_up 1024 0 (fun j t => <[(i, j) := 0]> t) tables.

Definition uncommit_table (i : Z) (s : pfa) : res pfa :=
  bm ← for_res 1024 0 (fun j bm => uncommit_entry (pfa_page_tables s) i j bm)
         (pfa_page_bitmap s);
  let tables := zero_table i (pfa_page_tables s) in
  virt_addr ← pfa_tables_index_to_mapped_virt i;
  let page_directory_entry := Z.shiftr virt_addr 22 in
  let dir :=
    if negb (Z.land (elem (page_directory s) page_directory_entry) 1 =? 0)
    then <[page_directory_entry := 0]> (page_directory s)
    else page_directory s in
  Ok (Pfa dir tables bm).

Definition pfa_uncommit_all (s : pfa) : res pfa :=
  for_res (Z.to_nat TABLES) 0 (fun i s => uncommit_table i s) s.
End tables.

(** ** Lemmas *)

Definition page_addr (n : Z) : Z := RESERVED_PHYS + n * PAGE_SIZE.

Ltac pf_unfold :=
  unfold page_addr, kernel_start, kernel_phys_start, MAX_KERNEL_SIZE,
    RESERVED_PHYS, PAGE_SIZE, MiB, BITMAP_LEN, TABLES in *.

Lemma elem_range {K} `{Countable K} (m : gmap K Z) (i : K) : 0 <= elem m i < 4294967296.
Proof. apply w32_range. Qed.

Lemma elem_insert {K} `{Countable K} (m : gmap K Z) (i j : K) (v : Z) :
  elem (<[i := v]> m) j = if decide (i = j) then w32 v else elem m j.
Proof. unfold elem. rewrite lookup_insert. by case_decide. Qed.

Lemma elem_insert_eq {K} `{Countable K} (m : gmap K Z) (i : K) (v : Z) :
  elem (<[i := v]> m) i = w32 v.
Proof. rewrite elem_insert. by rewrite decide_True. Qed.

Lemma elem_insert_ne {K} `{Countable K} (m : gmap K Z) (i j : K) (v : Z) :
  i <> j -> elem (<[i := v]> m) j = elem m j.
Proof. intros. rewrite elem_insert. by rewrite decide_False. Qed.

Lemma bit_index (i b : Z) : 0 <= b < 32 -> (i * 32 + b) / 32 = i /\ (i * 32 + b) mod 32 = b.
Proof. intros. split; zmod. Qed.

Lemma testbit_one_shift (b i : Z) :
  0 <= b < 32 -> 0 <= i -> Z.testbit (w32 (Z.shiftl 1 b)) i = (i =? b).
Proof.
  intros Hb Hi. rewrite testbit_w32 by lia.
  rewrite Z.shiftl_1_l. destruct (Z.eqb_spec i b) as [->|].
  - rewrite Z.pow2_bits_true by lia. by destruct (Z.ltb_spec b 32); [|lia].
  - rewrite Z.pow2_bits_false by lia. apply andb_false_r.
Qed.

Lemma bitmap_set_spec (bm : gmap Z Z) (i b : Z) :
  0 <= i < BITMAP_LEN -> 0 <= b < 32 ->
  exists bm', bitmap_set bm i b = Ok bm' /\
    forall n, 0 <= n -> bit_at bm' n = bit_at bm n || (n =? i * 32 + b).
Proof.
  intros Hi Hb. unfold bitmap_set, in_bitmap, guard_bounds.
  destruct (Z.leb_spec 0 i), (Z.ltb_spec i BITMAP_LEN); try lia. cbn.
  eexists; split; [done|]. intros n Hn. unfold bit_at.
  rewrite elem_insert. case_decide as Hd.
  - rewrite testbit_w32, Z.lor_spec, testbit_one_shift by zmod.
    rewrite <- Hd. zbool.
  - zbool.
Qed.

Lemma bitmap_clear_spec (bm : gmap Z Z) (i b : Z) :
  0 <= i < BITMAP_LEN -> 0 <= b < 32 ->
  exists bm', bitmap_clear bm i b = Ok bm' /\
    forall n, 0 <= n -> bit_at bm' n = bit_at bm n && negb (n =? i * 32 + b).
Proof.
  intros Hi Hb. unfold bitmap_clear, in_bitmap, guard_bounds.
  destruct (Z.leb_spec 0 i), (Z.ltb_spec i BITMAP_LEN); try lia. cbn.
  eexists; split; [done|]. intros n Hn. unfold bit_at.
  rewrite elem_insert. case_decide as Hd.
  - rewrite testbit_w32, Z.land_spec, testbit_w32, Z.lnot_spec, testbit_one_shift by zmod.
    rewrite <- Hd. zbool.
  - zbool.
Qed.

Lemma align_forward_page (z : Z) :
  align_forward z PAGE_SIZE = Ok (w32 (z + 4095) / 4096 * 4096).
Proof.
  change PAGE_SIZE with (2 ^ 12). rewrite align_forward_pow2 by lia.
  change (2 ^ 12) with 4096. do 4 f_equal. lia.
Qed.

Lemma align_backwards_page (z : Z) :
  is_u32 z -> align_backwards z PAGE_SIZE = Ok (z / 4096 * 4096).
Proof. intros. change PAGE_SIZE with (2 ^ 12). by apply align_backwards_pow2. Qed.

(** ** Reserving pages *)

Lemma reserve_page_spec (bm : gmap Z Z) (n : Z) :
  0 <= n -> page_addr n < 4294967296 ->
  exists bm', reserve_page (page_addr n) bm = Ok bm' /\
    forall k, 0 <= k -> bit_at bm' k = bit_at bm k || (k =? n).
Proof.
  intros Hn Ha. unfold reserve_page.
  replace (w32 (page_addr n - RESERVED_PHYS) / PAGE_SIZE) with n by (pf_unfold; zmod).
  destruct (bitmap_set_spec bm (n / 32) (n mod 32)) as (bm' & H1 & H2);
    [pf_unfold; zmod|zmod|].
  exists bm'. split; [done|]. intros k Hk. rewrite H2 by done. do 2 f_equal. zmod.
Qed.

(** [reserve_pages] marks the pages between its two (page aligned) bounds. *)
Lemma reserve_pages_spec (bm : gmap Z Z) (s e : Z) :
  0 <= s -> page_addr e <= 4294967296 ->
  exists bm', reserve_pages (page_addr s) (page_addr e) bm = Ok bm' /\
    forall k, 0 <= k -> bit_at bm' k = bit_at bm k || ((s <=? k) && (k <? e)).
Proof.
  intros Hs He. unfold reserve_pages.
  replace ((page_addr e - page_addr s + PAGE_SIZE - 1) / PAGE_SIZE) with (e - s)
    by (pf_unfold; zmod).
  pose (P := fun j bm' => forall k, 0 <= k ->
    bit_at bm' k = bit_at bm k || ((s <=? k) && (k <? s + j))).
  destruct (for_res_ind P
    (fun k bm => reserve_page (page_addr s + k * PAGE_SIZE) bm)
    (Z.to_nat (e - s)) 0 bm) as (bm' & H1 & H2).
  - intros k Hk. zbool.
  - intros j t Hj IH.
    replace (page_addr s + j * PAGE_SIZE) with (page_addr (s + j)) by (pf_unfold; lia).
    destruct (reserve_page_spec t (s + j)) as (t' & -> & Ht); [lia|pf_unfold; lia|].
    exists t'; split; [done|]. intros k Hk. rewrite Ht, IH by done.
    rewrite <- orb_assoc. f_equal. zbool.
  - exists bm'. split; [done|]. intros k Hk. rewrite H2 by done. f_equal. zbool.
Qed.

(** The pages [reserve_area] marks: those from the page of [from] up to the
    rounded [to] - which is zero when rounding [to] up leaves 32 bits. *)
Definition area_covers (from to n : Z) : bool :=
  (page_addr n <? w32 (to + 4095) / 4096 * 4096) && (from <? page_addr n + PAGE_SIZE).

Lemma reserve_area_spec (bm : gmap Z Z) (from to : Z) :
  is_u32 from ->
  exists bm', reserve_area from to bm = Ok bm' /\
    forall n, 0 <= n -> bit_at bm' n = bit_at bm n || area_covers from to n.
Proof.
  intros Hf. unfold reserve_area. rewrite align_forward_page. rewrite bind_Ok_r.
  set (e := w32 (to + 4095) / 4096 * 4096).
  assert (exists q, e = page_addr q /\ page_addr q <= 4294967296) as (q & Hq & Hq').
  { exists (w32 (to + 4095) / 4096 - 2560). unfold e. pf_unfold. zmod. }
  unfold area_covers. fold e. destruct (Z.ltb_spec RESERVED_PHYS e) as [Hr|Hr].
  - rewrite align_backwards_page by done. rewrite bind_Ok_r.
    set (st := if from / 4096 * 4096 <? RESERVED_PHYS then _ else _).
    assert (exists s, st = page_addr s /\ 0 <= s /\
      forall n, 0 <= n -> (s <=? n) = (from <? page_addr n + PAGE_SIZE)) as (s & Hs & Hs0 & Hsn).
    { unfold st. destruct (Z.ltb_spec (from / 4096 * 4096) RESERVED_PHYS).
      - exists 0. split_and!; [pf_unfold; lia|lia|]. intros n Hn. pf_unfold. zbool.
      - exists (from / 4096 - 2560). split_and!; [pf_unfold; zmod|pf_unfold; zmod|].
        intros n Hn. pf_unfold. zbool. }
    rewrite Hs, Hq. destruct (reserve_pages_spec bm s q) as (bm' & H1 & H2); [done..|].
    exists bm'. split; [done|]. intros n Hn. rewrite H2 by done. f_equal.
    rewrite Hsn by done. rewrite andb_comm. f_equal.
    pf_unfold. zbool.
  - exists bm. split; [done|]. intros n Hn.
    destruct (Z.ltb_spec (page_addr n) e); [pf_unfold; lia|]. by rewrite orb_false_r.
Qed.

(** ** The memory map *)

(** The memory map as a list, and where it is in memory. *)
Fixpoint mmap_at (m : mem) (a : Z) (segs : list MMap_Segment) : Prop :=
  match segs with
  | [] => True
  | s :: segs' => segment_at m a = s /\ mmap_at m (a + size s + 4) segs'
  end.

Fixpoint mmap_bytes (segs : list MMap_Segment) : Z :=
  match segs with [] => 0 | s :: segs' => size s + 4 + mmap_bytes segs' end.

Definition seg_start (s : MMap_Segment) : Z := w32 (base_addr s).
Definition seg_end (s : MMap_Segment) : Z := w32 (w64 (base_addr s + seg_length s)).

(** The areas as [pfa_init] computes them, with its casts to 32 bits: the gap
    before each segment, and the segment itself unless it is available RAM. What
    they are of the memory map itself is [unavailable] below. *)
Fixpoint init_areas (last : Z) (segs : list MMap_Segment) : list (Z * Z) :=
  match segs with
  | [] => []
  | s :: segs' =>
      (last, seg_start s) ::
      (if type s =? 1 then [] else [(seg_start s, seg_end s)]) ++
      init_areas (seg_end s) segs'
  end.

Definition covered (areas : list (Z * Z)) (n : Z) : bool :=
  existsb (fun '(from, to) => area_covers from to n) areas.

Lemma pfa_init_step_spec m len st s :
  segment_at m (is_segment st) = s -> is_traversed st < len ->
  is_u32 (is_end_of_last st) ->
  exists bm, pfa_init_step m len st =
      Ok (Next (InitState (is_segment st + size s + 4) (seg_end s)
        (w32 (is_traversed st + size s + 4)) bm)) /\
    forall n, 0 <= n -> bit_at bm n = bit_at (is_bitmap st) n ||
      covered ((is_end_of_last st, seg_start s) ::
        (if type s =? 1 then [] else [(seg_start s, seg_end s)])) n.
Proof.
  intros Hs Hlt Hlast. unfold pfa_init_step. rewrite Hs.
  destruct (Z.ltb_spec (is_traversed st) len); [|lia].
  destruct (reserve_area_spec (is_bitmap st) (is_end_of_last st) (seg_start s) Hlast)
    as (bm1 & H1 & Hb1). unfold seg_start, seg_end in *. rewrite H1, bind_Ok_r.
  destruct (type s =? 1); cbn [negb].
  - eexists; split; [done|]. intros n Hn. rewrite Hb1 by done. cbn.
    by rewrite orb_false_r.
  - destruct (reserve_area_spec bm1 (w32 (base_addr s))
      (w32 (w64 (base_addr s + seg_length s))) (w32_range _)) as (bm2 & -> & Hb2).
    rewrite bind_Ok_r. eexists; split; [done|]. intros n Hn.
    rewrite Hb2, Hb1 by done. cbn. by rewrite orb_false_r, orb_assoc.
Qed.

Lemma size_nonneg m a : 0 <= size (segment_at m a).
Proof. unfold segment_at; cbn. apply ld32_range. Qed.

Lemma mmap_bytes_nonneg m a segs : mmap_at m a segs -> 0 <= mmap_bytes segs.
Proof.
  revert a; induction segs as [|s segs IH]; cbn; intros a; [lia|].
  intros [<- H]. specialize (IH _ H). pose proof (size_nonneg m a). lia.
Qed.

Lemma pfa_init_loop m segs st len fuel :
  mmap_at m (is_segment st) segs -> is_u32 len -> 0 <= is_traversed st ->
  is_traversed st + mmap_bytes segs = len ->
  is_u32 (is_end_of_last st) -> (length segs < fuel)%nat ->
  exists bm, loop fuel (pfa_init_step m len) st = Ok bm /\
    forall n, 0 <= n -> bit_at bm n =
      bit_at (is_bitmap st) n || covered (init_areas (is_end_of_last st) segs) n.
Proof.
  revert st fuel; induction segs as [|s segs IH]; intros st fuel;
    cbn [mmap_at mmap_bytes init_areas length]; intros Hm Hlen H0 Hsum Hlast Hfuel;
    (destruct fuel as [|fuel]; [lia|]); cbn [loop].
  - exists (is_bitmap st). unfold pfa_init_step.
    destruct (Z.ltb_spec (is_traversed st) len); [lia|]. split; [done|].
    intros n Hn. cbn. by rewrite orb_false_r.
  - destruct Hm as [Hs Hm]. pose proof (size_nonneg m (is_segment st)) as Hsz.
    rewrite Hs in Hsz. pose proof (mmap_bytes_nonneg _ _ _ Hm) as Hb.
    destruct (pfa_init_step_spec m len st s Hs ltac:(lia) Hlast) as (bm1 & -> & Hb1).
    unfold is_u32 in Hlen.
    rewrite (w32_id (is_traversed st + size s + 4)) by (unfold is_u32; lia).
    edestruct (IH (InitState (is_segment st + size s + 4) (seg_end s)
      (is_traversed st + size s + 4) bm1) fuel) as (bm & -> & Hbm);
      cbn [is_segment is_traversed is_end_of_last is_bitmap];
      [done|done|lia|lia|apply w32_range|lia|].
    exists bm; split; [done|]. intros n Hn. rewrite Hbm by done. cbn.
    rewrite Hb1 by done. unfold covered. rewrite existsb_app. cbn.
    by rewrite !orb_assoc.
Qed.

(** ** Committing a page *)

(** What the linker has to provide: the page tables are page aligned and lie
    in the kernel image, which is at most 8 MiB long. *)
Class LinkerOk (tables_addr kernel_end : Z) : Prop := {
  linker_aligned : tables_addr mod 4096 = 0;
  linker_low : kernel_start <= tables_addr;
  linker_high : tables_addr + TABLES * 4096 <= kernel_end;
  linker_end : kernel_end <= kernel_start + MAX_KERNEL_SIZE;
}.

(** The heap: from the end of the kernel window to the end of the address space. *)
Definition heap_start : Z := kernel_start + MAX_KERNEL_SIZE.
Definition in_heap (virt : Z) : Prop := heap_start <= virt < 4294967296.

Definition frame_addr (n : Z) : Z := w32 (page_addr n).
Definition table_phys (tables_addr i : Z) : Z :=
  tables_addr + i * 4096 - (kernel_start - kernel_phys_start).

Definition tables_index (virt : Z) : Z := virt / 4194304 - 770.
Definition table_entry (virt : Z) : Z := virt / 4096 mod 1024.

(** What the processor makes of a virtual address: the page directory entry
    has to be present and hold the physical address of one of the heap's page
    tables, and the entry of that table has to be present. *)
Definition translate (tables_addr : Z) (s : pfa) (virt : Z) : option Z :=
  let pde := elem (page_directory s) (virt / 4194304) in
  let i := (pde / 4096 * 4096 - table_phys tables_addr 0) / 4096 in
  let pte := elem (pfa_page_tables s) (i, table_entry virt) in
  if (pde mod 2 =? 1) && (0 <=? i) && (i <? TABLES) && (pte mod 2 =? 1)
  then Some (pte / 4096 * 4096 + virt mod 4096) else None.

Section commit.
Context (tables_addr kernel_end : Z) `{Hlink : !LinkerOk tables_addr kernel_end}.

Ltac heap_unfold :=
  pose proof linker_aligned; pose proof linker_low; pose proof linker_high;
  pose proof linker_end;
  unfold in_heap, heap_start, tables_index, table_entry, table_phys, frame_addr in *;
  pf_unfold.

Lemma tables_index_range virt : in_heap virt -> 0 <= tables_index virt < TABLES.
Proof. intros H. unfold in_heap, heap_start, tables_index in *. pf_unfold. zmod. Qed.

Lemma tables_index_ok virt :
  in_heap virt -> mapped_virt_to_pfa_tables_index virt = Ok (tables_index virt).
Proof.
  intros H. unfold mapped_virt_to_pfa_tables_index.
  replace (w32 (virt - (kernel_start + MAX_KERNEL_SIZE)) / (PAGE_SIZE * 1024))
    with (tables_index virt) by (heap_unfold; zmod).
  pose proof (tables_index_range virt H).
  destruct (Z.ltb_spec (tables_index virt) TABLES); [done|lia].
Qed.

Lemma table_phys_ok i :
  0 <= i < TABLES -> pfa_tables_index_to_table_phys tables_addr kernel_end i =
    Ok (table_phys tables_addr i).
Proof.
  intros Hi. unfold pfa_tables_index_to_table_phys.
  destruct (Z.ltb_spec i TABLES); [|lia]. res_step.
  replace (w32 (tables_addr + i * 4096)) with (tables_addr + i * 4096)
    by (heap_unfold; zmod).
  destruct (Z.leb_spec kernel_start (tables_addr + i * 4096)),
    (Z.ltb_spec (tables_addr + i * 4096) kernel_end); try (exfalso; heap_unfold; lia).
  cbn. f_equal. heap_unfold. zmod.
Qed.

(** A page-aligned address and the low flag bits do not overlap. *)
Lemma lor_flags a : 0 <= a -> a mod 4096 = 0 -> Z.lor a 39 = a + 39.
Proof.
  intros H0 Ha. rewrite Z.lor_comm.
  replace a with (Z.shiftl (a / 4096) 12) at 1
    by (rewrite Z.shiftl_mul_pow2 by lia; change (2 ^ 12) with 4096; zmod).
  rewrite lor_shiftl_add by lia. change (2 ^ 12) with 4096. zmod.
Qed.

Lemma land_page a : Z.land a 4095 = a mod 4096.
Proof. change 4095 with (2 ^ 12 - 1). by rewrite land_ones_mod by lia. Qed.

Lemma dir_entry_ok virt : mapped_virt_to_page_directory_entry virt = virt / 4194304.
Proof. unfold mapped_virt_to_page_directory_entry. by rewrite Z.shiftr_div_pow2 by lia. Qed.

Lemma table_entry_ok virt : mapped_virt_to_page_table_entry virt = table_entry virt.
Proof.
  unfold mapped_virt_to_page_table_entry, table_entry.
  change 1023 with (2 ^ 10 - 1). rewrite land_ones_mod by lia.
  by rewrite Z.shiftr_div_pow2 by lia.
Qed.

(** ** The first free page *)

Definition PAGES : Z := BITMAP_LEN * 32.

Definition lowest_free (bm : gmap Z Z) (n : Z) : Prop :=
  0 <= n < PAGES /\ bit_at bm n = false /\ forall k, 0 <= k < n -> bit_at bm k = true.

Lemma word_full w : 0 <= w < 4294967296 ->
  (forall b, 0 <= b < 32 -> Z.testbit w b = true) <-> w = 4294967295.
Proof.
  intros Hw. split; [|intros -> b Hb].
  - intros H. bits_ext i Hi. change 4294967295 with (Z.ones 32).
    destruct (Z.lt_ge_cases i 32).
    + by rewrite H, Z.ones_spec_low by lia.
    + rewrite Z.ones_spec_high by lia. apply (testbit_high w 32); lia.
  - change 4294967295 with (Z.ones 32). by rewrite Z.ones_spec_low by lia.
Qed.

Lemma ctz_free w : 0 <= w < 4294967295 ->
  0 <= ctz (w32 (Z.lnot w)) < 32 /\ Z.testbit w (ctz (w32 (Z.lnot w))) = false /\
  forall b, 0 <= b < ctz (w32 (Z.lnot w)) -> Z.testbit w b = true.
Proof.
  intros Hw. set (v := w32 (Z.lnot w)).
  assert (0 < v < 2 ^ 32) as Hv.
  { unfold v, w32. rewrite <- (Z.lnot_involutive w) in Hw. unfold Z.lnot in *. zmod. }
  assert (forall b, 0 <= b < 32 -> Z.testbit w b = negb (Z.testbit v b)) as Hbit.
  { intros b Hb. unfold v. rewrite testbit_w32, Z.lnot_spec by lia.
    destruct (Z.ltb_spec b 32); [|lia]. cbn [andb]. by rewrite negb_involutive. }
  pose proof (ctz_range v 32 Hv ltac:(lia)). split_and!; [lia..| |].
  - rewrite Hbit by done. by rewrite ctz_bit by lia.
  - intros b Hb. rewrite Hbit by lia. by rewrite ctz_low by lia.
Qed.

(** The search finds the lowest clear bit of the bitmap, or there is none. *)
Lemma find_free_spec bm :
  match find_up (Z.to_nat BITMAP_LEN) 0 (fun i => negb (elem bm i =? 4294967295)) with
  | Some i => 0 <= i < BITMAP_LEN /\ 0 <= ctz (w32 (Z.lnot (elem bm i))) < 32 /\
      lowest_free bm (i * 32 + ctz (w32 (Z.lnot (elem bm i))))
  | None => forall n, 0 <= n < PAGES -> bit_at bm n = true
  end.
Proof.
  destruct (find_up _ _ _) as [i|] eqn:E.
  - apply find_up_Some in E as (Hi & Hw & Hlt).
    apply negb_true_iff, Z.eqb_neq in Hw. pose proof (elem_range bm i) as Hr.
    destruct (ctz_free (elem bm i) ltac:(lia)) as (Hc & Hz & Ho).
    set (c := ctz _) in *. assert (0 <= i < BITMAP_LEN) as Hib by lia.
    split; [done|]. split; [done|]. unfold lowest_free, PAGES, bit_at.
    destruct (bit_index i c Hc) as [-> ->]. split; [lia|]. split; [done|].
    intros k Hk. destruct (Z.eq_dec (k / 32) i) as [Heq|Hne].
    + rewrite Heq. apply Ho. zmod.
    + specialize (Hlt (k / 32) ltac:(zmod)).
      apply negb_false_iff, Z.eqb_eq in Hlt. rewrite Hlt.
      apply word_full; [lia|done|zmod].
  - rewrite find_up_None in E. intros n Hn. unfold PAGES in Hn.
    specialize (E (n / 32) ltac:(zmod)).
    apply negb_false_iff, Z.eqb_eq in E. unfold bit_at. rewrite E.
    apply word_full; [lia|done|zmod].
Qed.

Lemma frame_addr_ok n : frame_addr n mod 4096 = 0 /\ 0 <= frame_addr n < 4294967296.
Proof. unfold frame_addr. pf_unfold. zmod. Qed.

(** Distinct pages of the bitmap are distinct frames, although the numbers
    past 4 GiB wrap around to the bottom of memory. *)
Lemma frame_addr_inj n k :
  0 <= n < PAGES -> 0 <= k < PAGES -> frame_addr n = frame_addr k -> n = k.
Proof. unfold frame_addr, PAGES. pf_unfold. intros. zmod. Qed.

Lemma commit_free s virt n :
  in_heap virt -> virt mod 4096 = 0 -> lowest_free (pfa_page_bitmap s) n ->
  exists s', pfa_commit_page tables_addr kernel_end virt s = Ok (true, s') /\
    (forall k, 0 <= k -> bit_at (pfa_page_bitmap s') k =
       bit_at (pfa_page_bitmap s) k || (k =? n)) /\
    page_directory s' = <[virt / 4194304 :=
       table_phys tables_addr (tables_index virt) + 39]> (page_directory s) /\
    pfa_page_tables s' = <[(tables_index virt, table_entry virt) :=
       frame_addr n + 39]> (pfa_page_tables s).
Proof.
  intros Hv Ha Hn. unfold pfa_commit_page. rewrite land_page, Ha, Z.eqb_refl. res_step.
  pose proof (find_free_spec (pfa_page_bitmap s)) as Hf.
  destruct (find_up _ _ _) as [i|].
  2:{ destruct Hn as (Hr & Hb & _). rewrite Hf in Hb by done. done. }
  destruct Hf as (Hi & Hc & Hl). set (c := ctz _) in *.
  assert (n = i * 32 + c) as ->.
  { destruct Hn as (Hn & Hnb & Hnl), Hl as (Hl & Hlb & Hll).
    destruct (Z.lt_total n (i * 32 + c)) as [H|[H|H]]; [|done|].
    - rewrite Hll in Hnb by lia. done.
    - rewrite Hnl in Hlb by lia. done. }
  destruct (bitmap_set_spec (pfa_page_bitmap s) i c Hi Hc) as (bm' & Hs & Hb).
  rewrite Hs, !bind_Ok_r.
  replace (w32 _) with (frame_addr (i * 32 + c)) by (unfold frame_addr; f_equal; pf_unfold; lia).
  destruct (frame_addr_ok (i * 32 + c)) as [Hfa Hfr]. set (f := frame_addr _) in *.
  cbv beta iota. destruct (Z.eqb_spec f 1); [zmod|].
  rewrite land_page, Hfa, Z.eqb_refl. res_step.
  rewrite tables_index_ok, bind_Ok_r, table_phys_ok, bind_Ok_r by auto using tables_index_range.
  pose proof (tables_index_range virt Hv) as Ht.
  unfold PAGE_DIR_FLAGS, PAGE_TABLE_FLAGS.
  rewrite !lor_flags by (try lia; heap_unfold; zmod).
  rewrite dir_entry_ok, table_entry_ok. eexists. split; [done|]. by split_and!.
Qed.

(** ** Well-formed states *)

(** The directory entries of the heap are empty or point to the heap's page
    tables, a page table entry is empty or maps a frame marked as used, and
    no frame is mapped twice. *)
Record pfa_ok (s : pfa) : Prop := {
  ok_dir : forall i, 0 <= i < TABLES ->
    elem (page_directory s) (770 + i) = 0 \/
    elem (page_directory s) (770 + i) = table_phys tables_addr i + 39;
  ok_pte : forall i j, 0 <= i < TABLES -> 0 <= j < 1024 ->
    elem (pfa_page_tables s) (i, j) = 0 \/
    elem (page_directory s) (770 + i) <> 0 /\
    exists n, 0 <= n < PAGES /\ bit_at (pfa_page_bitmap s) n = true /\
      elem (pfa_page_tables s) (i, j) = frame_addr n + 39;
  ok_inj : forall i j i' j', 0 <= i < TABLES -> 0 <= j < 1024 ->
    0 <= i' < TABLES -> 0 <= j' < 1024 ->
    elem (pfa_page_tables s) (i, j) <> 0 ->
    elem (pfa_page_tables s) (i, j) = elem (pfa_page_tables s) (i', j') ->
    (i, j) = (i', j');
}.

Lemma table_entry_range virt : 0 <= table_entry virt < 1024.
Proof. unfold table_entry. zmod. Qed.

Lemma table_phys_range i : 0 <= i < TABLES ->
  table_phys tables_addr i mod 4096 = 0 /\ 0 <= table_phys tables_addr i < 4294963200.
Proof. intros. heap_unfold. zmod. Qed.

(** In a well-formed state an address translates exactly when its page table
    entry is not empty. *)
Lemma translate_ok s virt : pfa_ok s -> in_heap virt ->
  translate tables_addr s virt =
    let pte := elem (pfa_page_tables s) (tables_index virt, table_entry virt) in
    if pte =? 0 then None else Some (pte / 4096 * 4096 + virt mod 4096).
Proof.
  intros Hok Hv. pose proof (tables_index_range virt Hv) as Hi.
  pose proof (table_entry_range virt) as Hj.
  pose proof (table_phys_range _ Hi) as Hph.
  unfold translate. replace (virt / 4194304) with (770 + tables_index virt)
    by (unfold tables_index; lia).
  destruct (ok_pte s Hok _ _ Hi Hj) as [H0|(Hd & n & Hn & Hb & Hp)].
  - cbv zeta. rewrite H0. destruct (ok_dir s Hok _ Hi) as [-> | ->]; [done|].
    replace ((_ / 4096 * 4096 - table_phys tables_addr 0) / 4096)
      with (tables_index virt) by (unfold table_phys in *; zmod).
    rewrite H0. by rewrite !andb_false_r.
  - destruct (ok_dir s Hok _ Hi) as [H0| ->]; [done|].
    replace ((_ / 4096 * 4096 - table_phys tables_addr 0) / 4096)
      with (tables_index virt) by (unfold table_phys in *; zmod).
    cbv zeta. rewrite Hp. pose proof (frame_addr_ok n) as [Hf1 Hf2].
    replace ((table_phys tables_addr (tables_index virt) + 39) mod 2 =? 1) with true by zbool.
    replace ((frame_addr n + 39) mod 2 =? 1) with true by zbool.
    replace (frame_addr n + 39 =? 0) with false by zbool.
    unfold TABLES in *. zbool.
Qed.

Lemma same_page_index v v' : in_heap v -> in_heap v' ->
  (tables_index v, table_entry v) = (tables_index v', table_entry v') <-> v / 4096 = v' / 4096.
Proof.
  intros. unfold tables_index, table_entry. split.
  - intros [= H1 H2]. zmod.
  - intros H1. f_equal; zmod.
Qed.

Lemma pte_insert (tables : gmap (Z * Z) Z) (i j n i' j' : Z) :
  elem (<[(i, j) := frame_addr n + 39]> tables) (i', j') =
    if decide ((i, j) = (i', j')) then frame_addr n + 39 else elem tables (i', j').
Proof.
  rewrite elem_insert. case_decide; [|done].
  apply w32_id. unfold is_u32. pose proof (frame_addr_ok n). zmod.
Qed.

Lemma dir_insert (dir : gmap Z Z) (i k : Z) : 0 <= i < TABLES ->
  elem (<[770 + i := table_phys tables_addr i + 39]> dir) (770 + k) =
    if decide (i = k) then table_phys tables_addr i + 39 else elem dir (770 + k).
Proof.
  intros Hi. rewrite elem_insert. pose proof (table_phys_range i Hi).
  repeat case_decide; try lia. apply w32_id; unfold is_u32; lia.
Qed.

Lemma commit_preserves s virt n s' :
  pfa_ok s -> in_heap virt -> lowest_free (pfa_page_bitmap s) n ->
  (forall k, 0 <= k -> bit_at (pfa_page_bitmap s') k =
     bit_at (pfa_page_bitmap s) k || (k =? n)) ->
  page_directory s' = <[virt / 4194304 :=
     table_phys tables_addr (tables_index virt) + 39]> (page_directory s) ->
  pfa_page_tables s' = <[(tables_index virt, table_entry virt) :=
     frame_addr n + 39]> (pfa_page_tables s) ->
  pfa_ok s'.
Proof.
  intros Hok Hv (Hn & Hfree & _) Hbits Hdir Htab.
  pose proof (tables_index_range virt Hv) as Hi.
  pose proof (table_phys_range _ Hi) as Hph.
  replace (virt / 4194304) with (770 + tables_index virt) in Hdir
    by (unfold tables_index; lia).
  assert (forall i j, 0 <= i < TABLES -> 0 <= j < 1024 ->
    elem (pfa_page_tables s) (i, j) <> frame_addr n + 39) as Hfresh.
  { intros i j Hi' Hj' E. destruct (ok_pte s Hok i j Hi' Hj') as [H0|[_ (k & Hk & Hb & E')]].
    - pose proof (frame_addr_ok n). lia.
    - assert (k = n) as -> by (apply frame_addr_inj; [done..|lia]). congruence. }
  split; rewrite ?Hdir, ?Htab.
  - intros i Hi'. rewrite dir_insert by done. case_decide; [subst; by right|by apply ok_dir].
  - intros i j Hi' Hj'. rewrite pte_insert, dir_insert by done.
    case_decide as Hd.
    + injection Hd as <- <-. right. rewrite decide_True by done.
      split; [lia|]. exists n. split_and!; [lia..| |done].
      rewrite Hbits by lia. by rewrite Z.eqb_refl, orb_true_r.
    + destruct (ok_pte s Hok i j Hi' Hj') as [?|(Hdn & k & Hk & Hb & E)]; [by left|right].
      split; [case_decide; [subst; lia|done]|].
      exists k. split_and!; [lia..| |done]. rewrite Hbits by lia. by rewrite Hb.
  - intros i j i' j' ????. rewrite !pte_insert. repeat case_decide; intros Hnz E.
    + congruence.
    + symmetry in E. by apply Hfresh in E.
    + by apply Hfresh in E.
    + by eapply ok_inj.
Qed.

(** ** Uncommitting every page *)

(** The page whose bit [pfa_uncommit_all] clears for a page table entry; an
    empty entry stands for the frame at address zero. *)
Definition entry_page (pte : Z) : Z := w32 (pte / 4096 * 4096 - RESERVED_PHYS) / 4096.

Lemma entry_page_zero : entry_page 0 = 1046016.
Proof. done. Qed.

Lemma entry_page_frame n : 0 <= n < PAGES -> entry_page (frame_addr n + 39) = n.
Proof. unfold entry_page, frame_addr, PAGES. pf_unfold. intros. zmod. Qed.

Lemma entry_page_range s i j : pfa_ok s -> 0 <= i < TABLES -> 0 <= j < 1024 ->
  0 <= entry_page (elem (pfa_page_tables s) (i, j)) < PAGES.
Proof.
  intros Hok Hi Hj. destruct (ok_pte s Hok i j Hi Hj) as [-> |(_ & n & Hn & _ & ->)].
  - rewrite entry_page_zero. unfold PAGES. pf_unfold. lia.
  - by rewrite entry_page_frame.
Qed.

Lemma uncommit_entry_spec tables i j (bm : gmap Z Z) :
  0 <= entry_page (elem tables (i, j)) < PAGES ->
  exists bm', uncommit_entry tables i j bm = Ok bm' /\
    forall n, 0 <= n -> bit_at bm' n =
      bit_at bm n && negb (n =? entry_page (elem tables (i, j))).
Proof.
  intros Hp. unfold uncommit_entry.
  replace (Z.land (elem tables (i, j)) (w32 (Z.lnot 4095)))
    with (elem tables (i, j) / 4096 * 4096)
    by (change 4095 with (2 ^ 12 - 1); rewrite land_mask_low by (try lia; apply elem_range); done).
  change (w32 (_ - RESERVED_PHYS) / PAGE_SIZE) with (entry_page (elem tables (i, j))).
  set (p := entry_page _) in *. unfold PAGES in Hp.
  destruct (bitmap_clear_spec bm (p / 32) (p mod 32)) as (bm' & H1 & H2); [zmod..|].
  exists bm'. split; [done|]. intros n Hn. rewrite H2 by done. do 3 f_equal. zmod.
Qed.

Lemma uncommit_row_spec tables i (bm : gmap Z Z) :
  (forall j, 0 <= j < 1024 -> 0 <= entry_page (elem tables (i, j)) < PAGES) ->
  exists bm', for_res 1024 0 (fun j bm => uncommit_entry tables i j bm) bm = Ok bm' /\
    forall n, 0 <= n -> bit_at bm' n = true <-> bit_at bm n = true /\
      forall j, 0 <= j < 1024 -> n <> entry_page (elem tables (i, j)).
Proof.
  intros Hp.
  destruct (for_res_ind (fun k bm' => forall n, 0 <= n ->
      bit_at bm' n = true <-> bit_at bm n = true /\
      forall j, 0 <= j < k -> n <> entry_page (elem tables (i, j)))
    (fun j bm => uncommit_entry tables i j bm) 1024 0 bm) as (bm' & H1 & H2).
  - intros n Hn. split; [intros; split; [done|lia]|tauto].
  - intros k t Hk IH.
    destruct (uncommit_entry_spec tables i k t) as (t' & -> & Ht); [apply Hp; lia|].
    exists t'; split; [done|]. intros n Hn. rewrite Ht, andb_true_iff, IH by done.
    rewrite negb_true_iff, Z.eqb_neq. split.
    + intros [[? Hlt] Hne]. split; [done|]. intros j Hj.
      destruct (Z.eq_dec j k) as [-> |]; [done|apply Hlt; lia].
    + intros [? Hlt]. split; [split; [done|]|]; intros; apply Hlt; lia.
  - exists bm'. split; [done|]. intros n Hn. rewrite H2 by done. done.
Qed.

Lemma zero_table_spec (tables : gmap (Z * Z) Z) i i' j' : 0 <= j' < 1024 ->
  elem (zero_table i tables) (i', j') = if decide (i = i') then 0 else elem tables (i', j').
Proof.
  intros Hj. unfold zero_table.
  pose proof (for_up_ind (fun k (t : gmap (Z * Z) Z) => elem t (i', j') =
      if decide (i = i' /\ j' < k) then 0 else elem tables (i', j'))
    (fun j t => <[(i, j) := 0]> t) 1024 0 tables) as H.
  cbn beta in H. change (0 + Z.of_nat 1024) with 1024 in H.
  rewrite H; clear H.
  - repeat case_decide; try done; lia.
  - rewrite decide_False by lia. done.
  - intros k t Hk IH. rewrite elem_insert, IH.
    destruct (decide (i = i')) as [<-|]; [destruct (decide (j' = k)) as [-> |]|];
      repeat case_decide; simplify_eq; try done; lia.
Qed.

Lemma index_to_virt_ok i : 0 <= i < TABLES ->
  pfa_tables_index_to_mapped_virt i = Ok (heap_start + i * 4194304).
Proof.
  intros Hi. unfold pfa_tables_index_to_mapped_virt.
  destruct (Z.ltb_spec i TABLES); [|lia]. res_step. f_equal.
  unfold heap_start. pf_unfold. zmod.
Qed.

(** The state after the first [k] tables have been released. *)
Record uncommitted (s : pfa) (k : Z) (t : pfa) : Prop := {
  un_dir : forall i, 0 <= i < TABLES -> elem (page_directory t) (770 + i) =
    if decide (i < k) then 0 else elem (page_directory s) (770 + i);
  un_tab : forall i j, 0 <= i < TABLES -> 0 <= j < 1024 ->
    elem (pfa_page_tables t) (i, j) =
    if decide (i < k) then 0 else elem (pfa_page_tables s) (i, j);
  un_bits : forall n, 0 <= n ->
    bit_at (pfa_page_bitmap t) n = true <-> bit_at (pfa_page_bitmap s) n = true /\
    forall i j, 0 <= i < k -> 0 <= j < 1024 ->
      n <> entry_page (elem (pfa_page_tables s) (i, j));
}.

Lemma uncommit_dir s i : pfa_ok s -> 0 <= i < TABLES ->
  elem (if negb (Z.land (elem (page_directory s) (770 + i)) 1 =? 0)
        then <[770 + i := 0]> (page_directory s) else page_directory s) (770 + i) = 0.
Proof.
  intros Hok Hi. change 1 with (2 ^ 1 - 1). rewrite land_ones_mod by lia.
  destruct (ok_dir s Hok i Hi) as [E|E]; rewrite E; [done|].
  pose proof (table_phys_range i Hi). change (2 ^ 1) with 2.
  replace (_ mod 2 =? 0) with false by zbool. cbn [negb].
  by rewrite elem_insert_eq.
Qed.

Lemma uncommit_table_spec s k t :
  pfa_ok s -> uncommitted s k t -> 0 <= k < TABLES ->
  exists t', uncommit_table k t = Ok t' /\ uncommitted s (k + 1) t'.
Proof.
  intros Hok [Hdir Htab Hbits] Hk. unfold uncommit_table.
  assert (forall j, 0 <= j < 1024 ->
    elem (pfa_page_tables t) (k, j) = elem (pfa_page_tables s) (k, j)) as Hrow.
  { intros j Hj. rewrite Htab by done. by rewrite decide_False by lia. }
  destruct (uncommit_row_spec (pfa_page_tables t) k (pfa_page_bitmap t)) as (bm & -> & Hbm).
  { intros j Hj. rewrite Hrow by done. by apply entry_page_range. }
  res_step. rewrite index_to_virt_ok by done. res_step.
  replace (Z.shiftr (heap_start + k * 4194304) 22) with (770 + k)
    by (rewrite Z.shiftr_div_pow2 by lia; change (2 ^ 22) with 4194304; heap_unfold; zmod).
  eexists; split; [done|]. split; cbn [page_directory pfa_page_tables pfa_page_bitmap].
  - intros i Hi. destruct (decide (i = k)) as [-> |Hne].
    + rewrite decide_True by lia.
      pose proof (uncommit_dir s k Hok Hk) as Hd. revert Hd.
      replace (elem (page_directory t) (770 + k)) with (elem (page_directory s) (770 + k))
        by (rewrite Hdir by done; by rewrite decide_False by lia).
      destruct (negb _); rewrite ?elem_insert_eq; [done|].
      rewrite Hdir by done. by rewrite decide_False by lia.
    + transitivity (elem (page_directory t) (770 + i)).
      * destruct (negb _); [|done]. by rewrite elem_insert_ne by lia.
      * rewrite Hdir by done. repeat case_decide; try done; lia.
  - intros i j Hi Hj. rewrite zero_table_spec by done.
    rewrite Htab by done. repeat case_decide; try done; lia.
  - intros n Hn. rewrite Hbm, Hbits by done. split.
    + intros [[? Hlt] Hrow']. split; [done|]. intros i j Hi Hj.
      destruct (Z.eq_dec i k) as [-> |]; [rewrite <- Hrow by done; auto|].
      apply Hlt; lia.
    + intros [? Hlt]. split; [split; [done|]|].
      * intros i j Hi Hj. apply Hlt; lia.
      * intros j Hj. rewrite Hrow by done. apply Hlt; lia.
Qed.

Lemma pfa_uncommit_all_ok s : pfa_ok s ->
  exists t, pfa_uncommit_all s = Ok t /\ uncommitted s TABLES t.
Proof.
  intros Hok.
  destruct (for_res_ind (fun k t => uncommitted s k t)
    (fun i s => uncommit_table i s) (Z.to_nat TABLES) 0 s) as (t & H1 & H2).
  - split.
    + intros i Hi. by rewrite decide_False by lia.
    + intros i j Hi Hj. by rewrite decide_False by lia.
    + intros n Hn. split; [intros; split; [done|lia]|tauto].
  - intros k t Hk Ht. apply uncommit_table_spec; [done..|lia].
  - exists t. by split.
Qed.
End commit.

(** ** [pfa_init] *)

Lemma pfa_init_ok fuel m addr segs s :
  mmap_at m addr segs -> is_u32 (mmap_bytes segs) -> (length segs < fuel)%nat ->
  exists bm, pfa_init fuel m addr (mmap_bytes segs) s = Ok (true, set_bitmap s bm) /\
    forall n, 0 <= n -> bit_at bm n = bit_at (pfa_page_bitmap s) n || covered (init_areas 0 segs) n.
Proof.
  intros Hm Hl Hf. unfold pfa_init.
  edestruct (pfa_init_loop m segs (InitState addr 0 0 (pfa_page_bitmap s))
    (mmap_bytes segs) fuel) as (bm & -> & Hb); cbn;
    [done|done|lia|lia|unfold is_u32; lia|done|]. by exists bm.
Qed.

(** ** The areas of the memory map *)

(** The areas the map does not make available: the gap before each segment, and
    the segment itself unless it is RAM. *)
Fixpoint unavailable (last : Z) (segs : list MMap_Segment) : list (Z * Z) :=
  match segs with
  | [] => []
  | s :: segs' =>
      (last, base_addr s) ::
      (if type s =? 1 then [] else [(base_addr s, base_addr s + seg_length s)]) ++
      unavailable (base_addr s + seg_length s) segs'
  end.
(** A page meets an area: it begins below its end and ends above its start. *)
Definition meets (from to n : Z) : bool := (page_addr n <? to) && (from <? page_addr n + PAGE_SIZE).

(** The last page of the 4 GiB, and the maps that lie within them; only the last
    segment may end at 4 GiB. *)
Definition LAST_PAGE : Z := 4294963200.
Definition within_4G (segs : list MMap_Segment) : Prop :=
  Forall (fun s => 0 <= base_addr s /\ 0 <= seg_length s /\ base_addr s + seg_length s <= 4294967296) segs /\
  Forall (fun s => base_addr s + seg_length s < 4294967296) (removelast segs).

Lemma area_covers_meets from to n : 0 <= from <= 4294967296 -> 0 <= to <= 4294967296 -> 0 <= n ->
  from < 4294967296 \/ from <= to ->
  area_covers (w32 from) (w32 to) n = (to <=? LAST_PAGE) && meets from to n.
Proof.
  intros Hf Ht Hn Hft. unfold area_covers, meets, LAST_PAGE.
  assert (to = 4294967296 \/ to < 4294967296) as [-> |Hlt] by lia.
  - change (w32 (w32 4294967296 + 4095) / 4096 * 4096) with 0. pf_unfold. zbool.
  - rewrite (w32_id to) by (unfold is_u32; lia). destruct (Z.leb_spec to 4294963200).
    + rewrite !w32_id by (unfold is_u32; lia). cbn [andb]. f_equal. pf_unfold. zbool.
    + assert (w32 (to + 4095) / 4096 * 4096 = 0) as -> by zmod. pf_unfold. zbool.
Qed.

Lemma covered_unavailable segs : forall last n, within_4G segs -> 0 <= last < 4294967296 -> 0 <= n ->
  covered (init_areas (w32 last) segs) n =
  existsb (fun '(from, to) => (to <=? LAST_PAGE) && meets from to n) (unavailable last segs).
Proof.
  induction segs as [|s segs IH]; intros last n [Hw Hl] Hlast Hn; [done|].
  apply Forall_cons in Hw as [(Hb & Hs & He) Hw]. cbn [init_areas unavailable].
  assert (seg_end s = w32 (base_addr s + seg_length s)) as Ee
    by (unfold seg_end; f_equal; unfold w64; rewrite Z.mod_small; lia).
  unfold covered in *. cbn [existsb]. rewrite !existsb_app. unfold seg_start.
  rewrite (area_covers_meets last (base_addr s) n) by lia. f_equal. f_equal.
  - destruct (type s =? 1); [done|]. cbn [existsb]. rewrite Ee, area_covers_meets by lia. done.
  - destruct segs as [|s' segs]; [done|]. change (removelast (s :: s' :: segs)) with (s :: removelast (s' :: segs)) in Hl.
    apply Forall_cons in Hl as [Hlt Hl]. rewrite Ee. apply IH; [by split|lia|done].
Qed.

(** ** Properties *)

(** C35: For a memory map within the first 4 GiB, [pfa_init] returns true, leaves
    the tables alone, and afterwards a page is reserved exactly when it was before
    or when it meets an area that the map does not make available (the gap before
    a segment, or a segment whose type is not 1) and that ends below the last page
    of the 4 GiB. An area that ends in that page, such as the firmware's at the
    top, is not reserved. *)
Theorem pfa_init_marks m addr segs s :
  mmap_at m addr segs -> is_u32 (mmap_bytes segs) -> within_4G segs ->
  exists s', pfa_init (S (length segs)) m addr (mmap_bytes segs) s = Ok (true, s') /\
    page_directory s' = page_directory s /\ pfa_page_tables s' = pfa_page_tables s /\
    forall n, 0 <= n -> bit_at (pfa_page_bitmap s') n = bit_at (pfa_page_bitmap s) n ||
      existsb (fun '(from, to) => (to <=? LAST_PAGE) && meets from to n) (unavailable 0 segs).
Proof.
  intros Hm Hl Hw. destruct (pfa_init_ok (S (length segs)) m addr segs s) as (bm & -> & Hb); [done|done|lia|].
  exists (set_bitmap s bm). split_and!; [done..|]. intros n Hn. cbn [pfa_page_bitmap set_bitmap].
  rewrite Hb by done. f_equal. exact (covered_unavailable segs 0 n Hw ltac:(lia) Hn).
Qed.

(** Distinct frames for distinct pages: what is reachable by committing. *)
Section reachable.
Context (tables_addr kernel_end : Z) `{Hlink : !LinkerOk tables_addr kernel_end}.

(** Boot state: whatever bitmap [pfa_init] produced, with nothing mapped. *)
Inductive pfa_reachable : pfa -> Prop :=
  | reach_boot bm : pfa_reachable (Pfa ∅ ∅ bm)
  | reach_commit s virt b s' :
      pfa_reachable s -> in_heap virt ->
      pfa_commit_page tables_addr kernel_end virt s = Ok (b, s') ->
      pfa_reachable s'.

Lemma pfa_ok_boot bm : pfa_ok tables_addr (Pfa ∅ ∅ bm).
Proof. by split; [left|left|]. Qed.

Lemma lowest_free_dec bm :
  (exists n, lowest_free bm n) \/ forall n, 0 <= n < PAGES -> bit_at bm n = true.
Proof.
  pose proof (find_free_spec bm) as H. destruct (find_up _ _ _) as [i|]; [|by right].
  left. destruct H as (_ & _ & H). eauto.
Qed.

Lemma commit_full s virt :
  virt mod 4096 = 0 ->
  (forall n, 0 <= n < PAGES -> bit_at (pfa_page_bitmap s) n = true) ->
  pfa_commit_page tables_addr kernel_end virt s = Ok (false, s).
Proof.
  intros Hv Hfull. unfold pfa_commit_page. rewrite land_page, Hv. res_step.
  pose proof (find_free_spec (pfa_page_bitmap s)) as H.
  destruct (find_up _ _ _) as [i|]; [|by destruct s].
  destruct H as (_ & _ & Hr & Hb & _). by rewrite Hfull in Hb.
Qed.

Lemma commit_aligned s virt b s' :
  pfa_commit_page tables_addr kernel_end virt s = Ok (b, s') -> virt mod 4096 = 0.
Proof.
  unfold pfa_commit_page. intros H. rewrite land_page in H.
  by destruct (Z.eqb_spec (virt mod 4096) 0).
Qed.

Lemma commit_ok s virt b s' : pfa_ok tables_addr s -> in_heap virt ->
  pfa_commit_page tables_addr kernel_end virt s = Ok (b, s') -> pfa_ok tables_addr s'.
Proof.
  intros Hok Hv H. pose proof (commit_aligned _ _ _ _ H) as Ha.
  destruct (lowest_free_dec (pfa_page_bitmap s)) as [[n Hn]|Hfull].
  - destruct (commit_free tables_addr kernel_end s virt n Hv Ha Hn)
      as (s1 & H1 & Hb & Hd & Ht).
    rewrite H1 in H. injection H as <- <-. by eapply commit_preserves.
  - rewrite commit_full in H by done. by injection H as <- <-.
Qed.

Lemma reachable_ok s : pfa_reachable s -> pfa_ok tables_addr s.
Proof. induction 1; eauto using pfa_ok_boot, commit_ok. Qed.

(** Translation after a commit: the committed page maps to the new frame,
    every other page is mapped as before. *)
Lemma commit_translate s virt n s' v : pfa_ok tables_addr s ->
  in_heap virt -> in_heap v -> virt mod 4096 = 0 -> lowest_free (pfa_page_bitmap s) n ->
  pfa_commit_page tables_addr kernel_end virt s = Ok (true, s') ->
  translate tables_addr s' v =
    if decide (v / 4096 = virt / 4096) then Some (frame_addr n + v mod 4096)
    else translate tables_addr s v.
Proof.
  intros Hok Hv Hv' Ha Hn H.
  rewrite (translate_ok tables_addr kernel_end s'), (translate_ok tables_addr kernel_end s)
    by eauto using commit_ok.
  destruct (commit_free tables_addr kernel_end s virt n Hv Ha Hn) as (s1 & H1 & _ & _ & Ht).
  rewrite H1 in H. injection H as <-. rewrite Ht, pte_insert by done. cbv zeta.
  pose proof (same_page_index virt v Hv Hv') as Hs.
  destruct (decide (v / 4096 = virt / 4096)) as [E|E].
  - rewrite decide_True by (by apply Hs). pose proof (frame_addr_ok n).
    replace (frame_addr n + 39 =? 0) with false by zbool. f_equal. zmod.
  - rewrite decide_False by (rewrite Hs; congruence). done.
Qed.
End reachable.

(** C9: In a well-formed state with a free frame, [pfa_commit_page] of a
    page-aligned heap address takes the lowest free frame, which no heap
    address was mapped to, marks exactly it as used, maps exactly the given
    page to it, and keeps the state well formed. *)
Theorem pfa_commit_page_spec tables_addr kernel_end
    (Hlink : LinkerOk tables_addr kernel_end) s virt n :
  pfa_ok tables_addr s -> in_heap virt -> virt mod 4096 = 0 ->
  lowest_free (pfa_page_bitmap s) n ->
  exists s', pfa_commit_page tables_addr kernel_end virt s = Ok (true, s') /\
    pfa_ok tables_addr s' /\
    (forall k, 0 <= k -> bit_at (pfa_page_bitmap s') k =
       bit_at (pfa_page_bitmap s) k || (k =? n)) /\
    (forall v, in_heap v -> translate tables_addr s' v =
       if decide (v / 4096 = virt / 4096) then Some (frame_addr n + v mod 4096)
       else translate tables_addr s v) /\
    (forall v p, in_heap v -> translate tables_addr s v = Some p ->
       p / 4096 <> frame_addr n / 4096).
Proof.
  intros Hok Hv Ha Hn.
  destruct (commit_free tables_addr kernel_end s virt n Hv Ha Hn) as (s' & H & Hb & Hd & Ht).
  exists s'. split_and!; eauto using commit_ok, commit_translate.
  intros v p Hv'. rewrite (translate_ok tables_addr kernel_end) by done. cbv zeta.
  case_match eqn:E; [done|]. intros [= <-].
  pose proof (tables_index_range v Hv') as Hi. pose proof (table_entry_range v) as Hj.
  destruct (ok_pte _ s Hok _ _ Hi Hj) as [H0|(_ & k & Hk & Hbk & Hp)]; [lia|].
  rewrite Hp. intros Heq. pose proof (frame_addr_ok n). pose proof (frame_addr_ok k).
  assert (k = n) as ->.
  { apply frame_addr_inj; [done|apply Hn|]. zmod. }
  destruct Hn as (_ & Hf & _). congruence.
Qed.

(** When every bit of the bitmap is set, [pfa_commit_page] returns false
    and changes nothing; an unaligned address stops the kernel instead. *)
Theorem pfa_commit_page_exhausted tables_addr kernel_end s virt :
  (forall n, 0 <= n < PAGES -> bit_at (pfa_page_bitmap s) n = true) ->
  pfa_commit_page tables_addr kernel_end virt s =
    if virt mod 4096 =? 0 then Ok (false, s)
    else Err (AssertFail "virt_addr is not page aligned.").
Proof.
  intros Hfull. destruct (Z.eqb_spec (virt mod 4096) 0).
  - by apply commit_full.
  - unfold pfa_commit_page. rewrite land_page.
    by destruct (Z.eqb_spec (virt mod 4096) 0).
Qed.

(** C10: Whatever is committed after boot, two heap addresses on different pages
    are never mapped to the same physical frame. *)
Theorem pfa_no_sharing tables_addr kernel_end
    (Hlink : LinkerOk tables_addr kernel_end) s v v' p p' :
  pfa_reachable tables_addr kernel_end s -> in_heap v -> in_heap v' ->
  v / 4096 <> v' / 4096 ->
  translate tables_addr s v = Some p -> translate tables_addr s v' = Some p' ->
  p / 4096 <> p' / 4096.
Proof.
  intros Hr%reachable_ok Hv Hv' Hne; [|done].
  rewrite !(translate_ok tables_addr kernel_end) by done. cbv zeta.
  case_match eqn:E; [done|]. intros [= <-]. case_match eqn:E'; [done|]. intros [= <-] Heq.
  apply Hne, same_page_index; [done..|].
  pose proof (tables_index_range v Hv) as Hi. pose proof (table_entry_range v) as Hj.
  pose proof (tables_index_range v' Hv') as Hi'. pose proof (table_entry_range v') as Hj'.
  apply (ok_inj _ s Hr); [done..|lia|].
  destruct (ok_pte _ s Hr _ _ Hi Hj) as [H0|(_ & k & Hk & _ & Hp)]; [lia|].
  destruct (ok_pte _ s Hr _ _ Hi' Hj') as [H0|(_ & k' & Hk' & _ & Hp')]; [lia|].
  rewrite Hp, Hp' in *. pose proof (frame_addr_ok k). pose proof (frame_addr_ok k'). zmod.
Qed.

(** [pfa_uncommit_all] of any state reached after boot unmaps every heap
    address, and a frame's bit stays set only if it was set and no page table
    entry held the frame (an empty entry counts as the frame at address 0). *)
Theorem pfa_uncommit_all_resets tables_addr kernel_end
    (Hlink : LinkerOk tables_addr kernel_end) s :
  pfa_reachable tables_addr kernel_end s ->
  exists t, pfa_uncommit_all s = Ok t /\
    (forall v, in_heap v -> translate tables_addr t v = None) /\
    forall n, 0 <= n ->
      bit_at (pfa_page_bitmap t) n = true <-> bit_at (pfa_page_bitmap s) n = true /\
      forall i j, 0 <= i < TABLES -> 0 <= j < 1024 ->
        n <> entry_page (elem (pfa_page_tables s) (i, j)).
Proof.
  intros Hr%reachable_ok; [|done].
  destruct (pfa_uncommit_all_ok tables_addr kernel_end s Hr) as (t & Ht & [Hd Hp Hb]).
  exists t. split_and!; [done| |done]. intros v Hv.
  pose proof (tables_index_range v Hv) as Hi. pose proof (table_entry_range v) as Hj.
  unfold translate. replace (v / 4194304) with (770 + tables_index v)
    by (unfold tables_index; lia).
  rewrite Hd by done. by rewrite decide_True by lia.
Qed.

(** ** Findings about the bitmap *)

(** A reserved segment that ends at the top of the 32-bit address space is not
    reserved: the end rounds to zero. *)
Lemma top_segment_not_reserved base n :
  is_u32 base -> area_covers base (w32 4294967296) n = false.
Proof.
  intros Hb. unfold area_covers. change (w32 (w32 4294967296 + 4095) / 4096 * 4096) with 0.
  destruct (Z.ltb_spec (page_addr n) 0); [|done]. pf_unfold. unfold is_u32 in Hb. zbool.
Qed.

(** The last 512 pages of the bitmap lie past 4 GiB: their frames are the low
    two megabytes, where the boot code is. *)
Lemma bitmap_overrun n : 1046016 <= n < PAGES ->
  frame_addr n = (n - 1046016) * 4096 /\ frame_addr n < kernel_phys_start.
Proof. unfold frame_addr, PAGES. pf_unfold. intros. zmod. Qed.

(** ** Witnesses *)

Definition sample_tables : Z := 3221291008.
Definition sample_end : Z := 3224371200.

#[export] Instance linker_sample : LinkerOk sample_tables sample_end.
Proof. split; vm_compute; congruence. Qed.

(** Storing a segment descriptor, to build memory maps. *)
Definition st_segment (m : mem) (a : Z) (s : MMap_Segment) : mem :=
  st32 (st32 (st32 (st32 (st32 (st32 m a (size s))
    (a + 4) (base_addr s)) (a + 8) (base_addr s / 4294967296))
    (a + 12) (seg_length s)) (a + 16) (seg_length s / 4294967296)) (a + 20) (type s).

(** The memory map of a QEMU machine with 128 MiB, from the kernel's image on. *)
Definition qemu_mmap : list MMap_Segment :=
  [ Segment 20 1048576 133038080 1; Segment 20 134086656 131072 2;
    Segment 20 4294705152 262144 2 ].
Definition qemu_mem : mem :=
  st_segment (st_segment (st_segment ∅ 4096 (Segment 20 1048576 133038080 1))
    4120 (Segment 20 134086656 131072 2)) 4144 (Segment 20 4294705152 262144 2).

Lemma qemu_mmap_at : mmap_at qemu_mem 4096 qemu_mmap.
Proof. repeat split; vm_compute; reflexivity. Qed.

(** In that map the firmware area at the top, 0xFFFC0000, is left free. *)
Lemma qemu_firmware_free :
  let n := (4294705152 - RESERVED_PHYS) / 4096 in
  page_addr n = 4294705152 /\ covered (init_areas 0 qemu_mmap) n = false.
Proof. vm_compute. split; reflexivity. Qed.

Lemma pfa_init_marks_witness :
  exists s', pfa_init 4 qemu_mem 4096 (mmap_bytes qemu_mmap) pfa_empty = Ok (true, s') /\
    bit_at (pfa_page_bitmap s') 0 = false /\
    bit_at (pfa_page_bitmap s') 30208 = true /\
    bit_at (pfa_page_bitmap s') 1045952 = false.
Proof.
  destruct (pfa_init_marks qemu_mem 4096 qemu_mmap pfa_empty) as (s' & H & _ & _ & Hb);
    [exact qemu_mmap_at|split; vm_compute; congruence| |].
  { split; repeat constructor; cbn; lia. }
  exists s'. split; [exact H|]. rewrite !Hb by lia. split; [|split]; vm_compute; reflexivity.
Defined.

Lemma lowest_free_empty : lowest_free ∅ 0.
Proof. split; [split; vm_compute; congruence|]. split; [reflexivity|lia]. Qed.

Lemma pfa_commit_page_spec_witness :
  exists s', pfa_commit_page sample_tables sample_end heap_start pfa_empty = Ok (true, s') /\
    translate sample_tables s' (heap_start + 5) = Some (10485760 + 5).
Proof.
  destruct (pfa_commit_page_spec sample_tables sample_end linker_sample pfa_empty heap_start 0)
    as (s' & H & _ & _ & Ht & _);
    [apply pfa_ok_boot|split; vm_compute; congruence|reflexivity|exact lowest_free_empty|].
  exists s'. split; [exact H|]. rewrite Ht by (split; vm_compute; congruence).
  vm_compute. reflexivity.
Defined.

Definition full_bitmap : gmap Z Z :=
  for_up (Z.to_nat BITMAP_LEN) 0 (fun i bm => <[i := 4294967295]> bm) ∅.

Lemma full_bitmap_elem i : 0 <= i < BITMAP_LEN -> elem full_bitmap i = 4294967295.
Proof.
  intros Hi. unfold full_bitmap.
  pose proof (for_up_ind (fun k (bm : gmap Z Z) =>
      forall i, 0 <= i < k -> elem bm i = 4294967295)
    (fun i bm => <[i := 4294967295]> bm) (Z.to_nat BITMAP_LEN) 0 ∅) as H.
  apply H; [lia| |lia]. intros k t Hk IH j Hj. rewrite elem_insert.
  case_decide; [done|]. apply IH. lia.
Qed.

Lemma full_bitmap_full n : 0 <= n < PAGES -> bit_at full_bitmap n = true.
Proof.
  intros Hn. unfold bit_at, PAGES in *. rewrite full_bitmap_elem by zmod.
  apply word_full; [lia|done|zmod].
Qed.

Lemma pfa_commit_page_exhausted_witness :
  pfa_commit_page sample_tables sample_end heap_start (set_bitmap pfa_empty full_bitmap) =
    Ok (false, set_bitmap pfa_empty full_bitmap).
Proof.
  rewrite (pfa_commit_page_exhausted sample_tables sample_end
    (set_bitmap pfa_empty full_bitmap) heap_start full_bitmap_full). reflexivity.
Defined.

(** Two commits after boot, as the tests of the allocator do. *)
Definition commit_list (virts : list Z) (s : pfa) : res pfa :=
  foldl (fun r v => s ← r; '(_, s) ← pfa_commit_page sample_tables sample_end v s; Ok s)
    (Ok s) virts.

Definition two_pages : pfa :=
  match commit_list [heap_start; heap_start + 4096] pfa_empty with
  | Ok s => s | Err _ => pfa_empty
  end.

Lemma two_pages_reachable : pfa_reachable sample_tables sample_end two_pages.
Proof.
  destruct (pfa_commit_page sample_tables sample_end heap_start pfa_empty)
    as [[b1 s1]|] eqn:H1; [|by vm_compute in H1].
  destruct (pfa_commit_page sample_tables sample_end (heap_start + 4096) s1)
    as [[b2 s2]|] eqn:H2; [|by vm_compute in H1; injection H1 as <- <-; vm_compute in H2].
  replace two_pages with s2.
  - apply (reach_commit _ _ s1 (heap_start + 4096) b2 s2);
      [|split; vm_compute; congruence|exact H2].
    apply (reach_commit _ _ pfa_empty heap_start b1 s1);
      [apply reach_boot|split; vm_compute; congruence|exact H1].
  - unfold two_pages, commit_list. cbn [foldl]. rewrite bind_Ok_r, H1, bind_Ok_r.
    cbv beta iota. by rewrite bind_Ok_r, H2.
Qed.

Lemma pfa_no_sharing_witness :
  translate sample_tables two_pages heap_start = Some 10485760 /\
  translate sample_tables two_pages (heap_start + 4096) = Some 10489856 /\
  10485760 / 4096 <> 10489856 / 4096.
Proof.
  split; [vm_compute; reflexivity|]. split; [vm_compute; reflexivity|].
  apply (pfa_no_sharing sample_tables sample_end linker_sample two_pages
    heap_start (heap_start + 4096) 10485760 10489856);
    [exact two_pages_reachable|split; vm_compute; congruence
    |split; vm_compute; congruence|vm_compute; congruence
    |vm_compute; reflexivity|vm_compute; reflexivity].
Defined.

Lemma pfa_uncommit_all_resets_witness :
  exists t, pfa_uncommit_all two_pages = Ok t /\
    translate sample_tables t heap_start = None /\ bit_at (pfa_page_bitmap t) 0 = false.
Proof.
  destruct (pfa_uncommit_all_resets sample_tables sample_end linker_sample two_pages
    two_pages_reachable) as (t & H & Ht & Hb).
  exists t. split; [exact H|]. split; [apply Ht; split; vm_compute; congruence|].
  destruct (bit_at (pfa_page_bitmap t) 0) eqn:E; [|reflexivity].
  exfalso. apply (Hb 0 ltac:(lia)) in E as [_ E].
  apply (E 0 0); [split; vm_compute; congruence|lia|vm_compute; reflexivity].
Defined.
