(* ===== verification/Allocator.v ===== *)
(** * The virtual memory allocator (src/src/std/memory.c, lines 1-166)

    A first-fit allocator over a singly linked list of free segments kept in
    the free memory itself, sorted by address. A [Memory_Segment] is two words:
    [next] at offset 0 and [length] at offset 4. An allocated block starts with
    a word that holds its length; the caller gets the address after it. *)
From S2P Require Import Prelude Memory PageFrames.

#[local] Open Scope Z_scope.

(** ** What the allocator needs from the page frame allocator *)

Class FrameSource (P : Type) : Type := fs_commit : Z -> P -> res (bool * P).

Record heap (P : Type) : Type := Heap {
  h_mem : mem;
  free_segments_head : Z;
  next_page_virt_addr : Z;
  h_frames : P;
}.
Arguments Heap {P} _ _ _ _.
Arguments h_mem {P} _.
Arguments free_segments_head {P} _.
Arguments next_page_virt_addr {P} _.
Arguments h_frames {P} _.

Section allocator.
Context {P : Type} `{FrameSource P}.

Definition seg_next (m : mem) (a : Z) : Z := ld32 m a.
Definition seg_len (m : mem) (a : Z) : Z := ld32 m (a + 4).
Definition set_next (m : mem) (a v : Z) : mem := st32 m a v.
Definition set_len (m : mem) (a v : Z) : mem := st32 m (a + 4) v.

Definition memory_init (h : heap P) : bool * heap P :=
  (true, Heap (h_mem h) (free_segments_head h) heap_start (h_frames h)).
(** The heap after it; the globals are zero at the start. *)
Definition boot_heap (m : mem) (p : P) : heap P := (memory_init (Heap m 0 0 p)).2.

(** ** [memory_allocate] *)

(** The state of the search loop: [prev_prev_segment], [prev_segment],
    [segment]; its result adds [segment_can_be_split]. *)
Definition search_body (m : mem) (true_size : Z) (st : Z * Z * Z)
  : res (step (Z * Z * Z) (Z * Z * Z * bool)) :=
  let '(prev_prev, prev, segment) := st in
  if segment =? 0 then Ok (Stop (prev_prev, prev, segment, false)) else
  if w32 (true_size + 8) <=? seg_len m segment
  then Ok (Stop (prev_prev, prev, segment, true)) else
  if true_size <=? seg_len m segment
  then Ok (Stop (prev_prev, prev, segment, false)) else
  Ok (Next (prev, segment, seg_next m segment)).

(** The loop that commits pages until the last segment is long enough: its
    state is [last_segment_length], [next_page_virt_addr] and the frames; it
    stops with false when a commit fails. *)
Definition grow_body (true_size : Z) (st : Z * Z * P)
  : res (step (Z * Z * P) (bool * (Z * Z * P))) :=
  let '(last_len, next, p) := st in
  if last_len <? true_size then
    '(success, p) ← fs_commit next p;
    if (success : bool)
    then Ok (Next (w32 (last_len + PAGE_SIZE), w32 (next + PAGE_SIZE), p))
    else Ok (Stop (false, (last_len, next, p)))
  else Ok (Stop (true, (last_len, next, p))).

(** The end of [memory_allocate]: take [segment] out of the free list, or
    leave its upper part there, write the header and return. *)
Definition take_segment (size true_size prev segment : Z) (can_split : bool)
    (h : heap P) : Z * heap P :=
  let m := h_mem h in
  let head := free_segments_head h in
  let '(m, head) :=
    if can_split then
      let remaining := segment + true_size in
      let m := if negb (prev =? 0) then set_next m prev remaining else m in
      let m := set_next m remaining (seg_next m segment) in
      let m := set_len m remaining (w32 (seg_len m segment - true_size)) in
      (m, if segment =? head then remaining else head)
    else
      let m' := if negb (prev =? 0) then set_next m prev (seg_next m segment) else m in
      (m', if segment =? head then seg_next m' segment else head) in
  (segment + 4, Heap (st32 m segment (w32 (size + 4))) head
     (next_page_virt_addr h) (h_frames h)).

(** From the search on: [true_size] is the rounded size of the block. *)
Definition allocate_from (fuel : nat) (size true_size : Z) (h : heap P)
  : res (Z * heap P) :=
  '(prev_prev, prev, segment, can_split) ←
    loop fuel (search_body (h_mem h) true_size) (0, 0, free_segments_head h);
  if segment =? 0 then
    (* No segment is big enough: allocate more pages. *)
    _ ← assert "prev_segment should be non-zero." (negb (prev =? 0));
    '(ok, (last_len, next, p)) ←
      loop fuel (grow_body true_size)
        (seg_len (h_mem h) prev, next_page_virt_addr h, h_frames h);
    if negb ok then Ok (0, Heap (h_mem h) (free_segments_head h) next p) else
    let h := Heap (set_len (h_mem h) prev last_len) (free_segments_head h) next p in
    let can_split := w32 (true_size + 8) <=? seg_len (h_mem h) prev in
    Ok (take_segment size true_size prev_prev prev can_split h)
  else Ok (take_segment size true_size prev segment can_split h).

Definition memory_allocate (fuel : nat) (size : Z) (h : heap P) : res (Z * heap P) :=
  true_size ← align_forward (w32 (size + 4)) 4;
  if free_segments_head h =? 0 then
    '(success, p) ← fs_commit (next_page_virt_addr h) (h_frames h);
    let next := next_page_virt_addr h in
    if negb success then Ok (0, Heap (h_mem h) 0 next p) else
    allocate_from fuel size true_size
      (Heap (set_len (set_next (h_mem h) next 0) next PAGE_SIZE) next
         (w32 (next + PAGE_SIZE)) p)
  else allocate_from fuel size true_size h.

(** ** [memory_free] *)

(** The two search loops of [memory_free] over
    [prev_prev], [prev], [next], [next_next]. *)
Definition locate_body (m : mem) (segment : Z) (st : Z * Z * Z * Z)
  : res (step (Z * Z * Z * Z) (Z * Z * Z * Z)) :=
  let '(prev_prev, prev, next, next_next) := st in
  if next_next =? 0 then Ok (Stop st) else
  _ ← assert "segment should not be in the free segments list." (negb (next =? segment));
  _ ← assert "segment should not be in the free segments list." (negb (next_next =? segment));
  if (segment <? next_next) && (next <? segment) then Ok (Stop st) else
  Ok (Next (prev, next, next_next, seg_next m next_next)).

Definition advance_body (m : mem) (segment : Z) (st : Z * Z * Z * Z)
  : res (step (Z * Z * Z * Z) (Z * Z * Z * Z)) :=
  let '(prev_prev, prev, next, next_next) := st in
  if next <? segment then
    Ok (Next (prev, next, next_next,
      if negb (next_next =? 0) then seg_next m next_next else next_next))
  else Ok (Stop st).

(** After the search: coalesce with the neighbours and link. *)
Definition insert_segment (prev_prev prev next next_next segment : Z) (h : heap P)
  : res (heap P) :=
  let m := h_mem h in
  let m := set_len m segment (ld32 m segment) in
  '(m, next) ←
    (if segment + seg_len m segment =? next then
       _ ← assert "next_segment does not exist." (negb (next =? 0));
       Ok (set_len m segment (w32 (seg_len m segment + seg_len m next)), next_next)
     else Ok (m, next));
  let '(m, segment, prev) :=
    if negb (prev =? 0) && (prev + seg_len m prev =? segment)
    then (set_len m prev (w32 (seg_len m prev + seg_len m segment)), prev, prev_prev)
    else (m, segment, prev) in
  let head := if segment <? free_segments_head h then segment else free_segments_head h in
  let m := set_next m prev segment in
  let m := set_next m segment next in
  Ok (Heap m head (next_page_virt_addr h) (h_frames h)).

Definition memory_free (fuel : nat) (address : Z) (h : heap P) : res (heap P) :=
  if free_segments_head h =? 0 then Ok h else
  let m := h_mem h in
  let segment := address - 4 in
  '(prev_prev, prev, next, next_next) ←
    loop fuel (locate_body m segment) (0, 0, 0, free_segments_head h);
  '(prev_prev, prev, next, next_next) ←
    loop fuel (advance_body m segment) (prev_prev, prev, next, next_next);
  _ ← assert "Free segments are not adjacent to segment."
    (((prev <? segment) && (segment <? next)) || ((prev <? segment) && (next =? 0)) ||
     ((prev =? 0) && (segment <? next)));
  insert_segment prev_prev prev next next_next segment h.
End allocator.

(** ** The free list as a list *)

(** A free segment: its address and its length. *)
Abbreviation seg := (Z * Z)%type.

(** [lseg m a fl b]: following [next] from [a] visits the segments [fl] and
    arrives at [b]. *)
Fixpoint lseg (m : mem) (a : Z) (fl : list seg) (b : Z) : Prop :=
  match fl with
  | [] => a = b
  | (s, len) :: fl' => a = s /\ s <> 0 /\ seg_len m s = len /\ lseg m (seg_next m s) fl' b
  end.

(** The bytes a free segment owns: its length, but at least its two words. *)
Definition extent (len : Z) : Z := Z.max 8 len.

(** Sorted, disjoint and word aligned between two bounds. *)
Fixpoint fl_ok (lo hi : Z) (fl : list seg) : Prop :=
  match fl with
  | [] => lo <= hi
  | (a, len) :: fl' => lo <= a /\ a mod 4 = 0 /\ 0 <= len /\ fl_ok (a + extent len) hi fl'
  end.

Definition last_addr (fl : list seg) : Z :=
  match last fl with Some (a, _) => a | None => 0 end.

(** [x .. x+n) meets no free segment. *)
Definition avoids (fl : list seg) (x n : Z) : Prop :=
  Forall (fun '(a, len) => x + n <= a \/ a + extent len <= x) fl.

(** The two words of every segment of the list read the same. *)
Definition same_nodes (fl : list seg) (m m' : mem) : Prop :=
  Forall (fun '(a, _) => forall x, a <= x < a + 8 -> ld8 m' x = ld8 m x) fl.

Lemma seg_frame m m' a :
  (forall x, a <= x < a + 8 -> ld8 m' x = ld8 m x) ->
  seg_next m' a = seg_next m a /\ seg_len m' a = seg_len m a.
Proof.
  intros H. split; apply ld32_frame; intros; apply H; lia.
Qed.

Lemma lseg_frame m m' a fl b : same_nodes fl m m' -> lseg m a fl b -> lseg m' a fl b.
Proof.
  intros Hs. revert a; induction Hs as [|[s len] fl Hx Hs IH]; intros a; [done|].
  cbn. intros (-> & Hnz & Hl & Hr). destruct (seg_frame m m' s Hx) as [-> ->].
  split_and!; auto.
Qed.

Lemma lseg_app m a fl1 fl2 c :
  lseg m a (fl1 ++ fl2) c <-> exists b, lseg m a fl1 b /\ lseg m b fl2 c.
Proof.
  revert a; induction fl1 as [|[s len] fl1 IH]; intros a; cbn.
  - split; [by exists a|by intros (b & -> & ?)].
  - rewrite IH. split.
    + intros (? & ? & ? & b & ? & ?). by exists b.
    + intros (b & (? & ? & ? & ?) & ?). split_and!; eauto.
Qed.

Lemma last_addr_snoc fl a len : last_addr (fl ++ [(a, len)]) = a.
Proof. unfold last_addr. by rewrite last_snoc. Qed.

Lemma last_addr_nil : last_addr [] = 0.
Proof. done. Qed.

Lemma fl_ok_le lo hi fl : fl_ok lo hi fl -> lo <= hi.
Proof.
  revert lo; induction fl as [|[a len] fl IH]; intros lo; cbn; [done|].
  intros (? & ? & ? & H). apply IH in H. unfold extent in H. lia.
Qed.

Lemma fl_ok_app lo hi fl1 fl2 :
  fl_ok lo hi (fl1 ++ fl2) <-> exists mid, fl_ok lo mid fl1 /\ fl_ok mid hi fl2.
Proof.
  revert lo; induction fl1 as [|[a len] fl1 IH]; intros lo; cbn.
  - split; [exists lo; split; [lia|done]|].
    intros (mid & Hle & H). destruct fl2 as [|[b len] fl2]; cbn in *; [lia|].
    split_and!; [lia|apply H..].
  - rewrite IH. split.
    + intros (? & ? & ? & b & ? & ?). by exists b.
    + intros (b & (? & ? & ? & ?) & ?). split_and!; eauto.
Qed.

Lemma fl_ok_lower lo lo' hi fl : lo' <= lo -> fl_ok lo hi fl -> fl_ok lo' hi fl.
Proof. destruct fl as [|[a len] fl]; cbn; [lia|]. intros ? (? & ?). split; [lia|done]. Qed.

Lemma fl_ok_upper lo hi hi' fl : hi <= hi' -> fl_ok lo hi fl -> fl_ok lo hi' fl.
Proof.
  intros Hle. revert lo; induction fl as [|[a len] fl IH]; intros lo; cbn; [lia|].
  intros (? & ? & ? & ?). auto.
Qed.

Lemma fl_ok_Forall lo hi fl :
  fl_ok lo hi fl -> Forall (fun '(a, len) => lo <= a /\ a + extent len <= hi) fl.
Proof.
  revert lo; induction fl as [|[a len] fl IH]; intros lo; cbn; [by constructor|].
  intros (Hlo & _ & _ & H). pose proof (fl_ok_le _ _ _ H).
  constructor; [lia|]. eapply Forall_impl; [by apply IH|].
  intros [b l] ?. unfold extent in *. lia.
Qed.

(** Memory that agrees between two bounds keeps the segments between them. *)
Lemma same_nodes_range lo hi fl m m' :
  fl_ok lo hi fl -> (forall x, lo <= x < hi -> ld8 m' x = ld8 m x) -> same_nodes fl m m'.
Proof.
  intros Hok%fl_ok_Forall Hm. eapply Forall_impl; [done|].
  intros [a len] Ha x Hx. apply Hm. unfold extent in Ha. lia.
Qed.

(** ** Unlinking *)

Lemma ld8_set_next m a v x : x < a \/ a + 4 <= x -> ld8 (set_next m a v) x = ld8 m x.
Proof. apply ld8_st32_ne. Qed.

Lemma ld8_set_len m a v x : x < a + 4 \/ a + 8 <= x -> ld8 (set_len m a v) x = ld8 m x.
Proof. intros. apply ld8_st32_ne. lia. Qed.

Lemma seg_next_set_next m a v : seg_next (set_next m a v) a = w32 v.
Proof. apply ld32_st32_eq. Qed.
Lemma seg_len_set_len m a v : seg_len (set_len m a v) a = w32 v.
Proof. apply ld32_st32_eq. Qed.
Lemma seg_len_set_next m a v : seg_len (set_next m a v) a = seg_len m a.
Proof. apply ld32_st32_ne. lia. Qed.
Lemma seg_next_set_len m a v : seg_next (set_len m a v) a = seg_next m a.
Proof. apply ld32_st32_ne. lia. Qed.
Lemma seg_next_set_next_ne m a b v : b + 4 <= a \/ a + 4 <= b ->
  seg_next (set_next m a v) b = seg_next m b.
Proof. apply ld32_st32_ne. Qed.
Lemma seg_len_set_len_ne m a b v : b + 4 <= a \/ a + 4 <= b ->
  seg_len (set_len m a v) b = seg_len m b.
Proof. intros. apply ld32_st32_ne. lia. Qed.
Lemma seg_len_set_next_ne m a b v : b + 8 <= a \/ a <= b ->
  seg_len (set_next m a v) b = seg_len m b.
Proof. intros. apply ld32_st32_ne. lia. Qed.
Lemma seg_next_set_len_ne m a b v : b <= a \/ a + 8 <= b ->
  seg_next (set_len m a v) b = seg_next m b.
Proof. intros. apply ld32_st32_ne. lia. Qed.

Create Rewrite HintDb segm.
#[export] Hint Rewrite seg_next_set_next seg_len_set_len seg_len_set_next
  seg_next_set_len : segm.
#[export] Hint Rewrite seg_next_set_next_ne seg_len_set_len_ne seg_len_set_next_ne
  seg_next_set_len_ne using lia : segm.

(** Redirecting the link that leaves a prefix of the list: [prev->next = t], or
    the head when the prefix is empty. *)
Definition relink (m : mem) (pre : list seg) (t : Z) : mem :=
  if negb (last_addr pre =? 0) then set_next m (last_addr pre) t else m.
Definition new_head (pre : list seg) (head t : Z) : Z :=
  match pre with [] => t | _ => head end.

Lemma last_addr_bounds lo hi pre :
  0 < lo -> fl_ok lo hi pre -> pre = [] \/ lo <= last_addr pre /\ last_addr pre + 8 <= hi.
Proof.
  intros Hlo Hok. destruct pre as [|[p plen] pre _] using rev_ind; [by left|right].
  rewrite last_addr_snoc. apply fl_ok_app in Hok as (mid & H1 & H2).
  pose proof (fl_ok_le _ _ _ H1). cbn in H2. unfold extent in H2. lia.
Qed.

Lemma ld8_relink lo hi m pre t x : 0 < lo -> fl_ok lo hi pre -> hi <= x ->
  ld8 (relink m pre t) x = ld8 m x.
Proof.
  intros Hlo Hok Hx. unfold relink.
  destruct (last_addr_bounds lo hi pre Hlo Hok) as [-> |?]; [done|].
  destruct (negb _); [|done]. apply ld8_set_next. lia.
Qed.

Lemma relink_avoids m pre t x n : avoids pre x n -> forall y, x <= y < x + n ->
  ld8 (relink m pre t) y = ld8 m y.
Proof.
  intros Ha y Hy. unfold relink.
  destruct pre as [|[p plen] pre _] using rev_ind; [done|].
  rewrite last_addr_snoc. destruct (negb _); [|done].
  apply Forall_app in Ha as [_ Ha]. inversion_clear Ha as [|? ? Hp _].
  unfold extent in Hp. apply ld8_set_next. lia.
Qed.

Lemma relink_ok lo hi m head pre s t :
  0 < lo -> fl_ok lo hi pre -> is_u32 t -> lseg m head pre s ->
  lseg (relink m pre t) (new_head pre head t) pre t.
Proof.
  intros Hlo Hok Ht Hl. destruct pre as [|[p plen] pre _] using rev_ind; [done|].
  unfold relink, new_head. rewrite last_addr_snoc.
  apply fl_ok_app in Hok as (mid & H1 & H2). pose proof (fl_ok_le _ _ _ H1).
  cbn in H2. destruct (Z.eqb_spec p 0); [lia|]. cbn [negb].
  apply lseg_app in Hl as (q & Hq & (-> & Hnz & Hlen & _)).
  destruct (pre ++ [(p, plen)]) eqn:E; [by destruct pre|]. rewrite <- E. clear E.
  apply lseg_app. exists p. split.
  - eapply lseg_frame; [|done]. eapply same_nodes_range; [done|].
    intros x Hx. apply ld8_set_next. lia.
  - cbn. rewrite seg_len_set_next, seg_next_set_next, w32_id by done. done.
Qed.

(** Comparing the segment with the head tells whether the prefix is empty. *)
Lemma head_eqb lo hi m head pre s : 0 < lo ->
  fl_ok lo hi pre -> hi <= s -> lseg m head pre s ->
  forall t, (if s =? head then t else head) = new_head pre head t.
Proof.
  intros Hlo Hok Hs Hl t. destruct pre as [|[p plen] pre]; cbn in *.
  - subst. by rewrite Z.eqb_refl.
  - destruct Hl as (-> & _). destruct Hok as (_ & _ & _ & H).
    apply fl_ok_le in H. unfold extent in H. by destruct (Z.eqb_spec s p); [lia|].
Qed.

(** ** Taking a segment *)

Section take.
Context {P : Type}.
Implicit Types (h : heap P).

(** What is left of a free segment after taking [true_size] bytes. *)
Definition leftover (true_size : Z) (sg : seg) : list seg :=
  if true_size + 8 <=? sg.2 then [(sg.1 + true_size, sg.2 - true_size)] else [].

Lemma leftover_ok true_size lo hi s len post :
  0 <= true_size <= len -> true_size mod 4 = 0 ->
  fl_ok lo hi ((s, len) :: post) -> fl_ok s hi (leftover true_size (s, len) ++ post).
Proof.
  cbn. intros Ht Hm (_ & Ha & _ & Hp). unfold leftover; cbn [fst snd].
  destruct (Z.leb_spec (true_size + 8) len); cbn.
  - split_and!; [lia|zmod|lia|]. eapply fl_ok_lower; [|done]. unfold extent. lia.
  - eapply fl_ok_lower; [|done]. unfold extent. lia.
Qed.

(** What both cases of the allocation share: the segment [s] of length [len] stands
    between the list [pre] before it and the list [post] after it. *)
Section cut.
Context (h : heap P) (size true_size s len lo mid hi : Z) (pre post : list seg).
Let m := h_mem h.
Let head := free_segments_head h.
Hypothesis Hlo : 0 < lo.
Hypothesis Hhi : hi <= 4294967296.
Hypothesis Hpre : fl_ok lo mid pre.
Hypothesis Hrest : fl_ok mid hi ((s, len) :: post).
Hypothesis Hlpre : lseg m head pre s.
Hypothesis Hls : lseg m s ((s, len) :: post) 0.
Hypothesis Ht : 8 <= true_size <= len.
Hypothesis Hm4 : true_size mod 4 = 0.

Definition taken (split : bool) : Prop :=
  exists h', take_segment size true_size (last_addr pre) s split h = (s + 4, h') /\
    next_page_virt_addr h' = next_page_virt_addr h /\ h_frames h' = h_frames h /\
    lseg (h_mem h') (free_segments_head h')
      (pre ++ (if split then [(s + true_size, len - true_size)] else []) ++ post) 0 /\
    ld32 (h_mem h') s = w32 (size + 4) /\
    forall x n, avoids (pre ++ [(s, len)]) x n -> forall y, x <= y < x + n ->
      ld8 (h_mem h') y = ld8 m y.

Lemma take_facts : mid <= s /\ s mod 4 = 0 /\ fl_ok (s + len) hi post /\ s + len <= hi /\
  lo <= mid /\ seg_len m s = len /\ lseg m (seg_next m s) post 0 /\ 0 <= seg_next m s < 4294967296.
Proof.
  cbn in Hrest. destruct Hrest as (? & ? & _ & Hpost). destruct Hls as (_ & _ & ? & ?).
  assert (extent len = len) as Hext by (unfold extent; lia). rewrite Hext in *.
  pose proof (fl_ok_le _ _ _ Hpre). pose proof (fl_ok_le _ _ _ Hpost).
  pose proof (ld32_range m s). split_and!; try done; unfold seg_next; lia.
Qed.

Lemma relink_above t x : s <= x -> ld8 (relink m pre t) x = ld8 m x.
Proof. intros. destruct take_facts. eapply ld8_relink; [done|exact Hpre|lia]. Qed.

Lemma relink_seg t :
  seg_next (relink m pre t) s = seg_next m s /\ seg_len (relink m pre t) s = seg_len m s.
Proof. apply seg_frame. intros. apply relink_above. lia. Qed.

Lemma take_split : true_size + 8 <= len -> taken true.
Proof.
  intros Hsp. destruct take_facts as (Hmid & Hs4 & Hpost & Hle & Hlm & Hlen & Hlpost & Hnr).
  unfold taken, take_segment. fold m head.
  remember (s + true_size) as rem eqn:Erem. fold (relink m pre rem).
  destruct (relink_seg rem) as [En El].
  rewrite seg_len_set_next_ne, En, El, Hlen by lia.
  rewrite (head_eqb lo mid m head pre s) by done.
  eexists; split; [done|]. cbn [h_mem free_segments_head next_page_virt_addr h_frames].
  split_and!; [done|done| |rewrite ld32_st32_eq; apply w32_id, w32_range|].
  - apply lseg_app. exists rem. split.
    + eapply lseg_frame; [|eapply (relink_ok lo mid); try done; unfold is_u32; lia].
      eapply same_nodes_range; [done|]. intros x Hx.
      rewrite ld8_st32_ne, ld8_set_len, ld8_set_next by lia. done.
    + cbn. fold (set_next (set_len (set_next (relink m pre rem) rem (seg_next m s)) rem
         (w32 (len - true_size))) s (w32 (size + 4))).
      autorewrite with segm.
      rewrite !(w32_id (len - true_size)), (w32_id (seg_next m s)) by (unfold is_u32; lia).
      split_and!; [done|lia|done|]. eapply lseg_frame; [|done].
      eapply same_nodes_range; [done|]. intros x Hx.
      rewrite ld8_set_next, ld8_set_len, ld8_set_next, relink_above by lia. done.
  - intros x n Hav y Hy. apply Forall_app in Hav as [Hap Has].
    inversion_clear Has as [|? ? Hsx _]. unfold extent in Hsx.
    rewrite ld8_st32_ne, ld8_set_len, ld8_set_next by lia.
    by apply (relink_avoids m pre rem x n).
Qed.

Lemma take_whole : taken false.
Proof.
  destruct take_facts as (Hmid & Hs4 & Hpost & Hle & Hlm & Hlen & Hlpost & Hnr).
  unfold taken, take_segment. fold m head. fold (relink m pre (seg_next m s)).
  destruct (relink_seg (seg_next m s)) as [En El].
  rewrite En, (head_eqb lo mid m head pre s) by done.
  eexists; split; [done|]. cbn [h_mem free_segments_head next_page_virt_addr h_frames].
  split_and!; [done|done| |rewrite ld32_st32_eq; apply w32_id, w32_range|].
  - cbn [app]. apply lseg_app. exists (seg_next m s). split.
    + eapply lseg_frame; [|eapply (relink_ok lo mid); done].
      eapply same_nodes_range; [done|]. intros x Hx. rewrite ld8_st32_ne by lia. done.
    + eapply lseg_frame; [|done]. eapply same_nodes_range; [done|]. intros x Hx.
      rewrite ld8_st32_ne, relink_above by lia. done.
  - intros x n Hav y Hy. apply Forall_app in Hav as [Hap Has].
    inversion_clear Has as [|? ? Hsx _]. unfold extent in Hsx.
    rewrite ld8_st32_ne by lia. by apply (relink_avoids m pre _ x n).
Qed.
End cut.

(** The memory of [take_segment]: relink, build the rest, write the header. *)
Lemma take_segment_spec h size true_size pre s len post lo hi :
  0 < lo -> hi <= 4294967296 ->
  fl_ok lo hi (pre ++ (s, len) :: post) ->
  lseg (h_mem h) (free_segments_head h) (pre ++ (s, len) :: post) 0 ->
  8 <= true_size <= len -> true_size mod 4 = 0 ->
  exists h', take_segment size true_size (last_addr pre) s (true_size + 8 <=? len) h
      = (s + 4, h') /\
    next_page_virt_addr h' = next_page_virt_addr h /\ h_frames h' = h_frames h /\
    lseg (h_mem h') (free_segments_head h')
      (pre ++ leftover true_size (s, len) ++ post) 0 /\
    ld32 (h_mem h') s = w32 (size + 4) /\
    forall x n, avoids (pre ++ [(s, len)]) x n -> forall y, x <= y < x + n ->
      ld8 (h_mem h') y = ld8 (h_mem h) y.
Proof.
  intros Hlo Hhi Hok Hl Ht Hm4. apply fl_ok_app in Hok as (mid & Hpre & Hrest).
  apply lseg_app in Hl as (q & Hlpre & Hls). pose proof Hls as (-> & _).
  unfold leftover. cbn [fst snd]. destruct (Z.leb_spec (true_size + 8) len) as [Hsp|Hsp].
  - by eapply take_split.
  - by eapply take_whole.
Qed.
End take.

(** ** The search and the growth loop *)

Definition too_small (true_size : Z) (fl : list seg) : Prop :=
  Forall (fun '(_, len) => len < true_size) fl.

(** The search stops at the first segment that is long enough, with the
    address of the one before it; or behind the last two. *)
Definition search_result (true_size : Z) (fl : list seg) (r : Z * Z * Z * bool) : Prop :=
  (exists pre s len post pp, fl = pre ++ (s, len) :: post /\ too_small true_size pre /\
     true_size <= len /\ r = (pp, last_addr pre, s, true_size + 8 <=? len)) \/
  (too_small true_size fl /\ r = (last_addr (removelast fl), last_addr fl, 0, false)).

Lemma search_ok m true_size head fl fuel :
  lseg m head fl 0 -> 0 <= true_size < 4294967288 -> (length fl < fuel)%nat ->
  exists r, loop fuel (search_body m true_size) (0, 0, head) = Ok r /\
    search_result true_size fl r.
Proof.
  intros Hl Ht Hf.
  enough (forall cur pre a n, lseg m a cur 0 -> too_small true_size pre ->
    (length cur < n)%nat -> exists r,
    loop n (search_body m true_size) (last_addr (removelast pre), last_addr pre, a) = Ok r /\
    search_result true_size (pre ++ cur) r) as H
      by (apply (H fl [] head fuel); [done|by constructor|done]).
  clear head fl Hl fuel Hf. induction cur as [|[s len] cur IH]; intros pre a n Hl Hpre Hn;
    (destruct n as [|n]; [cbn in Hn; lia|]); cbn [loop search_body].
  - cbn in Hl. subst a. cbn. eexists; split; [done|]. right. by rewrite app_nil_r.
  - destruct Hl as (-> & Hnz & Hlen & Hl). destruct (Z.eqb_spec s 0); [done|].
    rewrite Hlen, w32_id by (unfold is_u32; lia).
    destruct (Z.leb_spec (true_size + 8) len) as [H1|H1];
      [|destruct (Z.leb_spec true_size len) as [H2|H2]].
    + eexists; split; [done|]. left. exists pre, s, len, cur, (last_addr (removelast pre)).
      split_and!; [done..|lia|]. by destruct (Z.leb_spec (true_size + 8) len); [|lia].
    + eexists; split; [done|]. left. exists pre, s, len, cur, (last_addr (removelast pre)).
      split_and!; [done..|lia|]. by destruct (Z.leb_spec (true_size + 8) len); [lia|].
    + destruct (IH (pre ++ [(s, len)]) (seg_next m s) n) as (r & Hr & Hres); [done| | |].
      * apply Forall_app; split; [done|]. by repeat constructor.
      * cbn in Hn. lia.
      * rewrite removelast_last, last_addr_snoc in Hr.
        exists r; split; [done|]. by rewrite <- app_assoc in Hres.
Qed.

(** What a source of page frames promises: a commit of a page-aligned heap
    address does not stop the kernel; when it returns true exactly that page has
    been mapped in addition; and it returns false exactly when there is no free
    frame, and there is none then either. *)
Class FrameSourceOk (P : Type) `{FrameSource P} : Type := {
  fs_ok : P -> Prop;
  fs_maps : P -> Z -> Prop;
  fs_full : P -> Prop;
  fs_commit_ok : forall p v, fs_ok p -> in_heap v -> v mod 4096 = 0 ->
    exists b p', fs_commit v p = Ok (b, p') /\ fs_ok p' /\
      (if b then ~ fs_full p else fs_full p /\ fs_full p') /\
      forall a, in_heap a -> fs_maps p' a <-> (b = true /\ a / 4096 = v / 4096) \/ fs_maps p a;
}.

Section grow.
Context {P : Type} `{FS : FrameSource P} `{!FrameSourceOk P}.

(** The state of the growth loop after [j] pages. *)
Definition grown (len next : Z) (p : P) (true_size : Z) (st : Z * Z * P) : Prop :=
  let '(l, nx, q) := st in
  exists j, 0 <= j /\ l = len + j * 4096 /\ nx = next + j * 4096 /\ fs_ok q /\
    (j = 0 \/ l < true_size + 4096) /\
    forall a, in_heap a -> fs_maps q a <-> (next <= a < nx) \/ fs_maps p a.

Lemma grow_ok true_size len next p fuel :
  fs_ok p -> heap_start <= next -> next mod 4096 = 0 -> 0 <= len < 4294967296 ->
  0 <= true_size -> next + true_size + 8192 <= 4294967296 ->
  (Z.to_nat (true_size - len + 4096) < fuel)%nat ->
  exists r, loop fuel (grow_body true_size) (len, next, p) = Ok r /\
    grown len next p true_size r.2 /\
    (if r.1 then true_size <= r.2.1.1 else fs_full r.2.2).
Proof.
  intros Hp Hlo Hal Hlen Ht Hmax Hf.
  apply (loop_spec _ (grown len next p true_size)
    (fun r => grown len next p true_size r.2 /\
      (if r.1 : bool then true_size <= r.2.1.1 else fs_full r.2.2))
    (fun st => Z.to_nat (true_size - st.1.1 + 4096))); [|
    exists 0; split_and!; [lia..|done|by left|intros; split; [by right|intros [?|?]; [lia|done]]]
    |done].
  intros [[l nx] q] (j & Hj & -> & -> & Hq & Hb & Hm). cbn [grow_body fst snd].
  destruct (Z.ltb_spec (len + j * 4096) true_size) as [Hlt|Hge].
  - destruct (fs_commit_ok q (next + j * 4096)) as (b & q' & -> & Hq' & Hfull & Hmaps);
      [done|unfold in_heap; lia|zmod|]. rewrite bind_Ok_r. cbv beta iota. destruct b.
    + unfold PAGE_SIZE. rewrite !w32_id by (unfold is_u32, heap_start in *; pf_unfold; lia).
      split; [|cbn; lia]. exists (j + 1). split_and!; [lia..|done|right; lia|].
      intros a Ha. rewrite Hmaps, Hm by done. split; [intros [[_ ?]|[?|?]]|intros [?|?]].
      * left. zmod.
      * left. lia.
      * by right.
      * destruct (Z.lt_ge_cases a (next + j * 4096)); [right; left; lia|left].
        split; [done|]. zmod.
      * by right; right.
    + cbn. split; [|apply Hfull]. exists j. split_and!; try done.
      intros a Ha. rewrite Hmaps, Hm by done. split; [by intros [[? _]|?]|by right].
  - cbn. split; [|lia]. exists j. split_and!; done.
Qed.
End grow.

(** ** The heap invariant *)

(** Live blocks: pairwise disjoint ranges of bytes (header included). *)
Fixpoint disjoint_blocks (bl : list (Z * Z)) : Prop :=
  match bl with
  | [] => True
  | (a, n) :: bl' =>
      Forall (fun '(b, k) => a + n <= b \/ b + k <= a) bl' /\ disjoint_blocks bl'
  end.

Record heap_inv {P} `{FrameSourceOk P} (h : heap P) (fl : list seg) (bl : list (Z * Z))
  : Prop := {
  inv_list : lseg (h_mem h) (free_segments_head h) fl 0;
  inv_sorted : fl_ok heap_start (next_page_virt_addr h) fl;
  inv_blocks : Forall (fun '(a, n) => heap_start <= a /\ a mod 4 = 0 /\ 8 <= n /\
    a + n <= next_page_virt_addr h /\ avoids fl a n) bl;
  inv_disjoint : disjoint_blocks bl;
  inv_next : next_page_virt_addr h mod 4096 = 0 /\ next_page_virt_addr h < 4294967296;
  inv_frames : fs_ok (h_frames h);
  inv_mapped : forall a, heap_start <= a < next_page_virt_addr h -> fs_maps (h_frames h) a;
}.

Arguments inv_list {P _ _ h fl bl} _.
Arguments inv_sorted {P _ _ h fl bl} _.
Arguments inv_blocks {P _ _ h fl bl} _.
Arguments inv_disjoint {P _ _ h fl bl} _.
Arguments inv_next {P _ _ h fl bl} _.
Arguments inv_frames {P _ _ h fl bl} _.
Arguments inv_mapped {P _ _ h fl bl} _.

(** The bytes of the live blocks are the same. *)
Definition blocks_kept (bl : list (Z * Z)) (m m' : mem) : Prop :=
  Forall (fun '(a, n) => forall x, a <= x < a + n -> ld8 m' x = ld8 m x) bl.

(** The last free segment ends where the next page will be mapped. *)
Definition tail_ok (fl : list seg) (next : Z) : Prop :=
  match last fl with Some (a, len) => a + len = next | None => True end.

(** What allocating [true_size] bytes from the free list [fl] gives. *)
Definition allocated {P} `{FrameSourceOk P} (size true_size : Z) (h : heap P)
    (bl : list (Z * Z)) (r : Z) (h' : heap P) : Prop :=
  exists s fl', r = s + 4 /\ s mod 4 = 0 /\ heap_inv h' fl' ((s, true_size) :: bl) /\
    ld32 (h_mem h') s = w32 (size + 4) /\ blocks_kept bl (h_mem h) (h_mem h') /\
    forall x, s <= x < s + true_size -> fs_maps (h_frames h') x.

Lemma avoids_app fl1 fl2 x n : avoids (fl1 ++ fl2) x n <-> avoids fl1 x n /\ avoids fl2 x n.
Proof. apply Forall_app. Qed.

Lemma avoids_sub fl x n y k : x <= y -> y + k <= x + n -> avoids fl x n -> avoids fl y k.
Proof. intros ?? H. eapply Forall_impl; [exact H|]. intros [a len]. lia. Qed.

(** A range inside a free segment avoids the rest of the list. *)
Lemma avoids_sorted lo hi pre s len post x n :
  fl_ok lo hi (pre ++ (s, len) :: post) -> s <= x -> x + n <= s + extent len ->
  avoids (pre ++ post) x n.
Proof.
  intros Hok Hx Hn. apply fl_ok_app in Hok as (mid & H1 & H2). cbn in H2.
  destruct H2 as (Hm & _ & _ & H2). apply avoids_app; split.
  - eapply Forall_impl; [by eapply (fl_ok_Forall lo mid)|]. intros [a l] ?. cbn in *. lia.
  - eapply Forall_impl; [by eapply fl_ok_Forall|]. intros [a l] ?. cbn in *. lia.
Qed.

Lemma avoids_leftover pre s len post true_size x n :
  avoids (pre ++ (s, len) :: post) x n -> 0 <= true_size ->
  avoids (pre ++ leftover true_size (s, len) ++ post) x n.
Proof.
  intros [Hp Hr]%avoids_app Ht. apply avoids_app; split; [done|].
  inversion_clear Hr as [|? ? Hs Hpost]. apply avoids_app; split; [|done].
  unfold leftover; cbn [fst snd]. destruct (Z.leb_spec (true_size + 8) len); [|by constructor].
  constructor; [|constructor]. cbn in *. unfold extent in *. lia.
Qed.

Lemma leftover_avoids s len true_size : 0 <= true_size ->
  avoids (leftover true_size (s, len)) s true_size.
Proof.
  intros. unfold leftover; cbn [fst snd].
  destruct (true_size + 8 <=? len); [|by constructor]. repeat constructor. lia.
Qed.

(** The heap [memory_init] leaves is well formed and empty. *)
Lemma boot_heap_inv {P} `{FSO : FrameSourceOk P} m (p : P) : fs_ok p -> heap_inv (boot_heap m p) [] [].
Proof.
  intros Hp. split; cbn; [done|lia|by constructor|done|split; vm_compute; done|done|intros a Ha; lia].
Qed.

(** Writing inside a live block keeps the heap. *)
Lemma heap_inv_write {P : Type} `{FS : FrameSource P} `{FSO : !FrameSourceOk P}
    (h : heap P) fl bl a n m : heap_inv h fl bl -> (a, n) ∈ bl ->
  (forall x, x < a \/ a + n <= x -> ld8 m x = ld8 (h_mem h) x) ->
  heap_inv (Heap m (free_segments_head h) (next_page_virt_addr h) (h_frames h)) fl bl.
Proof.
  intros [Hl Hs Hb Hd Hn Hf Hm] Hin Hfr. split; try done. cbn.
  eapply lseg_frame; [|exact Hl]. rewrite Forall_forall in Hb. specialize (Hb _ Hin).
  destruct Hb as (_ & _ & Hn8 & _ & Hav). eapply Forall_impl; [exact Hav|].
  intros [s len] Hs' x Hx. apply Hfr. unfold extent in Hs'. lia.
Qed.

Section allocate.
Context {P : Type} `{FS : FrameSource P} `{FSO : !FrameSourceOk P}.
Implicit Types (h : heap P).

(** Taking a segment keeps the invariant and adds the block. *)
Lemma take_inv h bl size true_size pre s len post :
  heap_inv h (pre ++ (s, len) :: post) bl ->
  8 <= true_size <= len -> true_size mod 4 = 0 ->
  exists h', take_segment size true_size (last_addr pre) s (true_size + 8 <=? len) h
      = (s + 4, h') /\ allocated size true_size h bl (s + 4) h'.
Proof.
  intros Hinv Ht Hm4. pose proof (inv_sorted Hinv) as Hok.
  destruct (inv_next Hinv) as [Hn4 Hn].
  destruct (take_segment_spec h size true_size pre s len post heap_start
    (next_page_virt_addr h)) as (h' & Htake & Hnext & Hfr & Hl & Hhd & Hframe);
    [unfold heap_start; pf_unfold; lia|lia|done|exact (inv_list Hinv)|done..|].
  exists h'. split; [done|]. exists s, (pre ++ leftover true_size (s, len) ++ post).
  pose proof Hok as Hok2. apply fl_ok_app in Hok2 as (mid & Hpre & Hrest).
  pose proof Hrest as (Hmid & Hs4 & _ & Hpost). pose proof (fl_ok_le _ _ _ Hpre).
  pose proof (fl_ok_le _ _ _ Hpost). unfold extent in *.
  pose proof (inv_blocks Hinv) as Hbl.
  split_and!; [done|done| |done| |].
  - split; rewrite ?Hnext, ?Hfr; [done| | | |apply Hinv..].
    + apply fl_ok_app. exists s. split; [eapply fl_ok_upper; [|done]; lia|].
      eapply (leftover_ok true_size mid); [lia|done|done].
    + constructor.
      * apply (avoids_sorted _ _ pre s len post s true_size) in Hok as Hav;
          [|lia|unfold extent; lia]. apply avoids_app in Hav as [? ?].
        split_and!; [lia|done|lia..|]. apply avoids_app; split; [done|].
        apply avoids_app; split; [apply leftover_avoids; lia|done].
      * eapply Forall_impl; [done|]. intros [a n] (? & ? & ? & ? & ?).
        split_and!; [done..|]. apply avoids_leftover; [done|lia].
    + split; [|apply Hinv]. eapply Forall_impl; [done|].
      intros [a n] (? & ? & ? & ? & [_ Hr]%avoids_app).
      inversion_clear Hr as [|? ? Hs _]. unfold extent in Hs. lia.
  - eapply Forall_impl; [done|]. intros [a n] (? & ? & ? & ? & Hav) x Hx.
    apply (Hframe a n); [|done]. change ((s, len) :: post) with ([(s, len)] ++ post) in Hav.
    rewrite app_assoc in Hav.
    by apply avoids_app in Hav as [? _].
  - intros x Hx. rewrite Hfr. apply (inv_mapped Hinv). lia.
Qed.

(** Mapping more pages at the end leaves the invariant intact. *)
Lemma more_pages_inv h fl bl len true_size l nx q :
  heap_inv h fl bl ->
  grown len (next_page_virt_addr h) (h_frames h) true_size (l, nx, q) ->
  nx < 4294967296 ->
  heap_inv (Heap (h_mem h) (free_segments_head h) nx q) fl bl.
Proof.
  intros Hinv (j & Hj & Hl & Hnx & Hq & _ & Hm) Hlt.
  destruct (inv_next Hinv) as [Hn4 _].
  pose proof (fl_ok_le _ _ _ (inv_sorted Hinv)) as Hhs.
  split; cbn; [apply Hinv| | |apply Hinv|split; [zmod|done]|done|].
  - eapply fl_ok_upper; [|apply Hinv]. lia.
  - eapply Forall_impl; [apply Hinv|]. intros [a n] (? & ? & ? & ? & ?). split_and!; (done || lia).
  - intros a Ha. apply Hm; [unfold in_heap; lia|].
    destruct (Z.lt_ge_cases a (next_page_virt_addr h)); [right; apply (inv_mapped Hinv); lia|].
    left. lia.
Qed.

(** Lengthening the last segment over the new pages. *)
Lemma grow_inv h pre s len bl true_size l nx q :
  heap_inv h (pre ++ [(s, len)]) bl -> s + len = next_page_virt_addr h ->
  grown len (next_page_virt_addr h) (h_frames h) true_size (l, nx, q) ->
  nx < 4294967296 ->
  heap_inv (Heap (set_len (h_mem h) s l) (free_segments_head h) nx q) (pre ++ [(s, l)]) bl /\
  blocks_kept bl (h_mem h) (set_len (h_mem h) s l).
Proof.
  intros Hinv Htail Hgr Hlt. pose proof (more_pages_inv _ _ _ _ _ _ _ _ Hinv Hgr Hlt) as Hmore.
  destruct Hgr as (j & Hj & Hl & Hnx & Hq & _ & Hm).
  pose proof (inv_sorted Hinv) as Hok. apply fl_ok_app in Hok as (mid & Hpre & Hs).
  cbn in Hs. destruct Hs as (Hmid & Hs4 & Hlen & Hle).
  pose proof (fl_ok_le _ _ _ Hpre) as Hhs. unfold heap_start in Hhs. pf_unfold.
  unfold extent in Hle.
  assert (Forall (fun '(a, n) => forall x, a <= x < a + n -> x < s \/ s + 8 <= x) bl) as Hout.
  { eapply Forall_impl; [apply (inv_blocks Hinv)|]. intros [a n] (? & ? & ? & ? & [_ Hr]%avoids_app).
    inversion_clear Hr as [|? ? Hb _]. unfold extent in Hb. lia. }
  split.
  - split; cbn [h_mem free_segments_head next_page_virt_addr h_frames];
      [| | |apply Hinv|apply Hmore|done|apply Hmore].
    + pose proof (inv_list Hinv) as Hlist.
      apply lseg_app in Hlist as (b & Hlp & (-> & Hnz & Hb & Hend)).
      apply lseg_app. exists s. split.
      * eapply lseg_frame; [|done]. eapply same_nodes_range; [done|].
        intros x Hx. apply ld8_set_len. lia.
      * cbn. rewrite seg_len_set_len, seg_next_set_len, w32_id by (unfold is_u32; lia). done.
    + apply fl_ok_app. exists mid. split; [done|]. cbn. unfold extent.
      split_and!; (done || lia).
    + eapply Forall_impl; [apply (inv_blocks Hinv)|]. intros [a n] (? & ? & ? & ? & [Hp Hr]%avoids_app).
      split_and!; [done..|lia|]. apply avoids_app; split; [done|].
      inversion_clear Hr as [|? ? Hb _]. constructor; [|constructor].
      unfold extent in *. lia.
  - eapply Forall_impl; [exact Hout|]. intros [a n] Hb x Hx. apply ld8_set_len.
    specialize (Hb x Hx). lia.
Qed.

Lemma blocks_kept_trans bl m1 m2 m3 :
  blocks_kept bl m1 m2 -> blocks_kept bl m2 m3 -> blocks_kept bl m1 m3.
Proof.
  intros H1 H2. apply Forall_forall. intros [a n] Hin x Hx.
  unfold blocks_kept in *. rewrite Forall_forall in H1, H2.
  rewrite (H2 _ Hin x Hx). exact (H1 _ Hin x Hx).
Qed.

(** The enough-fuel condition of an allocation. *)
Definition alloc_fuel (true_size : Z) (fl : list seg) (fuel : nat) : Prop :=
  (length fl < fuel)%nat /\ (Z.to_nat (true_size + 4096) < fuel)%nat.

Lemma allocate_from_ok h fl bl size true_size fuel :
  heap_inv h fl bl -> fl <> [] -> 8 <= true_size -> true_size mod 4 = 0 ->
  alloc_fuel true_size fl fuel ->
  next_page_virt_addr h + true_size + 8192 < 4294967296 ->
  Exists (fun '(_, len) => true_size <= len) fl \/ tail_ok fl (next_page_virt_addr h) ->
  exists r h', allocate_from fuel size true_size h = Ok (r, h') /\
    ((r = 0 /\ too_small true_size fl /\ fs_full (h_frames h') /\ heap_inv h' fl bl /\ h_mem h' = h_mem h) \/
     allocated size true_size h bl r h').
Proof.
  intros Hinv Hne Ht Hm4 [Hf1 Hf2] Hmax Hfit. unfold allocate_from.
  pose proof (fl_ok_le _ _ _ (inv_sorted Hinv)) as Hhs.
  assert (0 < heap_start) as Hh0 by (unfold heap_start; pf_unfold; lia).
  destruct (search_ok (h_mem h) true_size (free_segments_head h) fl fuel (inv_list Hinv))
    as (r & -> & Hr); [lia|done|]. rewrite bind_Ok_r.
  destruct Hr as [(pre & s & len & post & pp & -> & Hsm & Hle & ->)|[Hsm ->]].
  - pose proof (inv_list Hinv) as Hl. apply lseg_app in Hl as (b & _ & (-> & Hnz & _)).
    cbv beta iota. destruct (Z.eqb_spec s 0); [done|].
    destruct (take_inv h bl size true_size pre s len post Hinv) as (h' & -> & Hal); [lia|done|].
    exists (s + 4), h'. split; [done|by right].
  - destruct Hfit as [Hex|Htail].
    { exfalso. apply Exists_exists in Hex as ([a len] & Hin & Hlen).
      unfold too_small in Hsm. rewrite Forall_forall in Hsm. specialize (Hsm _ Hin). cbn in Hsm. lia. }
    destruct fl as [|[s len] pre _] using rev_ind; [done|].
    rewrite removelast_last, last_addr_snoc.
    pose proof (inv_list Hinv) as Hl. apply lseg_app in Hl as (b & _ & (-> & Hnz & Hlen & _)).
    unfold tail_ok in Htail. rewrite last_snoc in Htail.
    cbv beta iota. cbn [Z.eqb]. destruct (Z.eqb_spec s 0); [done|]. cbn [negb]. res_step.
    rewrite Hlen. destruct (inv_next Hinv) as [Hn4 Hn].
    pose proof (ld32_range (h_mem h) (s + 4)) as Hlr. fold (seg_len (h_mem h) s) in Hlr.
    rewrite Hlen in Hlr.
    destruct (grow_ok true_size len (next_page_virt_addr h) (h_frames h) fuel (inv_frames Hinv))
      as ([b [[l nx] q]] & -> & Hgr & Hb); [lia..|]. res_step. cbn [fst snd] in Hgr, Hb.
    assert (nx < 4294967296 /\ l < 4294967296 /\ 0 <= l) as (Hnx & Hl32 & Hl0).
    { destruct Hgr as (j & Hj & -> & -> & _ & [-> |Hsml] & _); [lia|].
      apply Forall_app in Hsm as [_ Hsm]. inversion_clear Hsm. lia. }
    destruct b; cbv beta iota; cbn [negb].
    + cbn [h_mem]. rewrite seg_len_set_len, !w32_id by (unfold is_u32; lia).
      destruct (grow_inv h pre s len bl true_size l nx q Hinv Htail Hgr Hnx) as [Hinv' Hkept].
      destruct (take_inv _ bl size true_size pre s l [] Hinv') as (h' & -> & Hal);
        [split; [lia|exact Hb]|done|].
      exists (s + 4), h'. split; [done|right].
      destruct Hal as (s' & fl' & H1 & H2 & H3 & H4 & H5 & H6).
      exists s', fl'. split_and!; try done. by eapply blocks_kept_trans.
    + eexists 0, _. split; [done|left]. split_and!; [done|done|exact Hb| |done].
      by eapply more_pages_inv.
Qed.
End allocate.

(** ** Rounding *)

Definition round4 (z : Z) : Z := (z + 3) / 4 * 4.

Lemma true_size_ok size : 0 <= size -> size + 8 < 4294967296 ->
  align_forward (w32 (size + 4)) 4 = Ok (round4 (size + 4)).
Proof.
  intros. change 4 with (2 ^ 2) at 2. rewrite align_forward_pow2 by lia.
  change (2 ^ 2) with 4. f_equal. unfold round4. zmod.
Qed.

Section allocate_top.
Context {P : Type} `{FS : FrameSource P} `{FSO : !FrameSourceOk P}.
Implicit Types (h : heap P).

Lemma head_zero h bl fl : heap_inv h fl bl -> free_segments_head h = 0 <-> fl = [].
Proof.
  intros Hinv. pose proof (inv_list Hinv) as Hl. destruct fl as [|[s len] fl]; cbn in Hl.
  - by rewrite Hl.
  - destruct Hl as (-> & Hnz & _). by split.
Qed.

(** The first page of an empty free list. *)
Lemma first_page_inv h bl p :
  heap_inv h [] bl -> next_page_virt_addr h + 4096 < 4294967296 -> fs_ok p ->
  (forall a, in_heap a -> fs_maps p a <->
     (true = true /\ a / 4096 = next_page_virt_addr h / 4096) \/ fs_maps (h_frames h) a) ->
  let m := set_len (set_next (h_mem h) (next_page_virt_addr h) 0)
             (next_page_virt_addr h) PAGE_SIZE in
  heap_inv (Heap m (next_page_virt_addr h) (w32 (next_page_virt_addr h + PAGE_SIZE)) p)
    [(next_page_virt_addr h, 4096)] bl /\ blocks_kept bl (h_mem h) m.
Proof.
  intros Hinv Hmax Hp Hm. cbv zeta. destruct (inv_next Hinv) as [Hn4 Hn].
  pose proof (inv_sorted Hinv) as Hok. cbn in Hok.
  unfold heap_start in Hok. pf_unfold.
  rewrite (w32_id (next_page_virt_addr h + 4096)) by (unfold is_u32; lia).
  set (nx := next_page_virt_addr h) in *. split.
  - split; cbn [h_mem free_segments_head next_page_virt_addr h_frames].
    + cbn. autorewrite with segm. rewrite !w32_id by (unfold is_u32; lia).
      split_and!; done || lia.
    + cbn. unfold extent, heap_start. pf_unfold. split_and!; zmod.
    + eapply Forall_impl; [apply (inv_blocks Hinv)|]. intros [a n] (? & ? & ? & Hle & _).
      fold nx in Hle. split_and!; [done..|lia|]. constructor; [lia|constructor].
    + apply Hinv.
    + split; [zmod|lia].
    + done.
    + intros a Ha. apply Hm; [unfold in_heap; lia|].
      destruct (Z.lt_ge_cases a nx); [right; apply (inv_mapped Hinv); fold nx; lia|].
      left. split; [done|zmod].
  - eapply Forall_impl; [apply (inv_blocks Hinv)|]. intros [a n] (? & ? & ? & Hle & _) x Hx.
    fold nx in Hle. by rewrite ld8_set_len, ld8_set_next by lia.
Qed.

Lemma memory_allocate_cases h fl bl size fuel :
  heap_inv h fl bl -> 1 <= size ->
  alloc_fuel (round4 (size + 4)) fl fuel -> (1 < fuel)%nat ->
  next_page_virt_addr h + size + 16384 < 4294967296 ->
  Exists (fun '(_, len) => round4 (size + 4) <= len) fl \/ tail_ok fl (next_page_virt_addr h) ->
  exists r h', memory_allocate fuel size h = Ok (r, h') /\
    ((r = 0 /\ too_small (round4 (size + 4)) fl /\ fs_full (h_frames h') /\
      (exists fl', heap_inv h' fl' bl) /\ blocks_kept bl (h_mem h) (h_mem h') /\
      (fl = [] -> round4 (size + 4) <= 4096 -> fs_full (h_frames h))) \/
     allocated size (round4 (size + 4)) h bl r h').
Proof.
  intros Hinv Hsz [Hf1 Hf2] Hf3 Hmax Hfit. unfold memory_allocate.
  pose proof (fl_ok_le _ _ _ (inv_sorted Hinv)) as Hhs.
  assert (0 < heap_start) by (unfold heap_start; pf_unfold; lia).
  rewrite true_size_ok, bind_Ok_r by lia.
  set (ts := round4 (size + 4)) in *.
  assert (8 <= ts /\ ts mod 4 = 0 /\ ts <= size + 8) as (Ht1 & Ht2 & Ht3)
    by (unfold ts, round4; zmod).
  destruct (Z.eqb_spec (free_segments_head h) 0) as [H0|H0].
  - pose proof (proj1 (head_zero _ _ _ Hinv) H0) as ->.
    destruct (inv_next Hinv) as [Hn4 Hn].
    destruct (fs_commit_ok (h_frames h) (next_page_virt_addr h)) as (b & p & -> & Hp & Hfull & Hm);
      [apply (inv_frames Hinv)|unfold in_heap; lia|done|].
    res_step. cbv zeta. destruct b; cbn [negb].
    + destruct (first_page_inv h bl p Hinv ltac:(lia) Hp Hm) as [Hinv' Hkept].
      edestruct (allocate_from_ok _ _ bl size ts fuel Hinv') as (r & h' & -> & Hres);
        [done..|split; [cbn; lia|done]| |right; unfold tail_ok| ]; cbn [next_page_virt_addr last];
        unfold PAGE_SIZE; rewrite ?w32_id by (unfold is_u32; lia); [lia|done|].
      exists r, h'. split; [done|]. destruct Hres as [(-> & Hsm & Hfl & Hi & Hmem)|Hal].
      * left. split_and!; [done|by constructor|done|by eexists|by rewrite Hmem|].
        intros _ Hpage. inversion_clear Hsm. lia.
      * right. destruct Hal as (s & fl' & ? & ? & ? & ? & Hk & ?). exists s, fl'.
        split_and!; try done. by eapply blocks_kept_trans.
    + eexists 0, _. split; [done|left]. split_and!; [done|by constructor|apply Hfull| | |intros _ _; apply Hfull].
      * exists []. split; cbn; [done|apply Hinv|apply Hinv|apply Hinv|apply Hinv|done|].
        intros a Ha. apply Hm; [unfold in_heap; lia|right; by apply (inv_mapped Hinv)].
      * by apply Forall_true; intros [].
  - edestruct (allocate_from_ok h fl bl size ts fuel Hinv) as (r & h' & -> & Hres);
      [by intros ->; apply H0, (head_zero _ _ _ Hinv)|done..|lia|done|].
    exists r, h'. split; [done|]. destruct Hres as [(-> & Hs & Hfl & Hi & Hmem)|Hal]; [left|by right].
    split_and!; [done|done|done|by exists fl|rewrite Hmem; by apply Forall_true; intros []|].
    intros ->. destruct H0. by apply (head_zero _ _ _ Hinv).
Qed.
End allocate_top.

(** ** Splitting the list at an address *)

(** A block that avoids the free segments separates those below from those
    above. *)
Lemma split_at lo hi fl a n :
  fl_ok lo hi fl -> avoids fl a n -> 0 < n -> lo <= a ->
  exists pre post, fl = pre ++ post /\ fl_ok lo a pre /\
    (post = [] \/ fl_ok (a + n) hi post).
Proof.
  revert lo; induction fl as [|[s len] fl IH]; intros lo Hok Hav Hn Hlo.
  - exists [], []. split_and!; [done|done|by left].
  - cbn in Hok. destruct Hok as (H1 & H2 & H3 & Hok). inversion_clear Hav as [|? ? Hs Hav'].
    destruct Hs as [Hs|Hs].
    + exists [], ((s, len) :: fl). split_and!; [done|done|right]. cbn. split_and!; (done || lia).
    + destruct (IH _ Hok Hav' Hn Hs) as (pre & post & -> & Hp & Hq).
      exists ((s, len) :: pre), post. split_and!; [done| |done]. cbn. split_and!; done.
Qed.

Definition first_addr (fl : list seg) : Z := match fl with [] => 0 | (a, _) :: _ => a end.

Lemma lseg_first m head fl : lseg m head fl 0 -> head = first_addr fl.
Proof. destruct fl as [|[a len] fl]; cbn; [done|]. by intros (-> & _). Qed.

Lemma lseg_tail m s len fl : lseg m s ((s, len) :: fl) 0 -> seg_next m s = first_addr fl.
Proof. intros (_ & _ & _ & H). by apply (lseg_first m). Qed.

Section locate.
Context (m : mem) (a : Z).

(** [locate_body] walks over the segments below [a]; it stops with the first
    one above in [next_next] and the last one below in [next]. *)
Lemma locate_ok lo hi post : 0 < lo -> post <> [] -> fl_ok lo hi post -> a < lo ->
  forall cur pre c fuel, lseg m c (cur ++ post) 0 -> fl_ok 1 a (pre ++ cur) ->
  (length cur < fuel)%nat -> 0 < a ->
  loop fuel (locate_body m a)
    (last_addr (removelast (removelast pre)), last_addr (removelast pre), last_addr pre, c)
  = Ok (last_addr (removelast (removelast (pre ++ cur))),
        last_addr (removelast (pre ++ cur)), last_addr (pre ++ cur), first_addr post).
Proof.
  intros Hlo Hne Hpost Ha cur. induction cur as [|[s len] cur IH];
    intros pre c fuel Hl Hok Hf Ha0; (destruct fuel as [|fuel]; [cbn in Hf; lia|]);
    cbn [loop locate_body].
  - rewrite app_nil_r in *. apply lseg_first in Hl. cbn in Hl. subst c.
    destruct post as [|[b blen] post]; [done|]. cbn [first_addr] in *. cbn in Hpost.
    destruct (last_addr_bounds 1 a pre ltac:(lia) Hok) as [-> |Hb].
    + rewrite last_addr_nil. destruct (Z.eqb_spec b 0); [lia|].
      destruct (Z.eqb_spec 0 a), (Z.eqb_spec b a), (Z.ltb_spec a b), (Z.ltb_spec 0 a);
        try lia. done.
    + destruct (Z.eqb_spec b 0); [lia|].
      destruct (Z.eqb_spec (last_addr pre) a), (Z.eqb_spec b a), (Z.ltb_spec a b),
        (Z.ltb_spec (last_addr pre) a); try lia. done.
  - cbn in Hl. destruct Hl as (-> & Hnz & Hlen & Hl).
    assert (fl_ok 1 a ((pre ++ [(s, len)]) ++ cur)) as Hok' by (by rewrite <- app_assoc).
    pose proof Hok' as Hs. apply fl_ok_app in Hs as (mid & Hp & Hc).
    pose proof (fl_ok_le _ _ _ Hc).
    destruct (last_addr_bounds 1 mid (pre ++ [(s, len)]) ltac:(lia) Hp) as [E|Hb];
      [by destruct pre|]. rewrite last_addr_snoc in Hb.
    assert (last_addr pre < a) as Hla.
    { apply fl_ok_app in Hp as (mid' & Hp' & Hs'). cbn in Hs'. unfold extent in Hs'.
      destruct (last_addr_bounds 1 mid' pre ltac:(lia) Hp') as [-> |?]; [by rewrite last_addr_nil|lia]. }
    destruct (Z.eqb_spec s 0); [done|].
    destruct (Z.eqb_spec (last_addr pre) a), (Z.eqb_spec s a), (Z.ltb_spec a s); try lia.
    cbn [negb andb]. res_step.
    specialize (IH (pre ++ [(s, len)]) (seg_next m s) fuel Hl Hok').
    rewrite removelast_last, last_addr_snoc in IH. rewrite IH by (cbn in Hf; lia).
    by rewrite <- app_assoc.
Qed.

(** [advance_body] then makes the one step that is left. *)
Lemma advance_ok pp p pre b blen post fuel :
  last_addr pre < a -> a < b -> lseg m b ((b, blen) :: post) 0 -> (1 < fuel)%nat ->
  loop fuel (advance_body m a) (pp, p, last_addr pre, b) =
    Ok (p, last_addr pre, b, first_addr post).
Proof.
  intros Hla Hab Hl Hf. pose proof Hl as (_ & Hnz & _).
  pose proof (lseg_tail m b blen post Hl) as Ht.
  destruct fuel as [|[|fuel]]; [lia..|]. cbn [loop advance_body].
  destruct (Z.ltb_spec (last_addr pre) a); [|lia].
  destruct (Z.eqb_spec b 0); [done|]. cbn [negb loop advance_body].
  destruct (Z.ltb_spec b a); [lia|]. by rewrite Ht.
Qed.
End locate.

(** ** Inserting a segment *)

(** The abstract effect of [memory_free] on the free list: the block at [a] of
    length [hl] goes between [pre] and [post], joined with a neighbour it
    touches. *)
Definition coalesce_next (a hl : Z) (post : list seg) : Z * list seg :=
  match post with
  | (b, blen) :: post' => if a + hl =? b then (hl + blen, post') else (hl, post)
  | [] => (hl, [])
  end.
Definition coalesce_prev (pre : list seg) (a l : Z) : list seg :=
  match last pre with
  | Some (p, plen) =>
      if p + plen =? a then removelast pre ++ [(p, plen + l)] else pre ++ [(a, l)]
  | None => [(a, l)]
  end.
Definition insert_list (pre : list seg) (a hl : Z) (post : list seg) : list seg :=
  let '(l, post') := coalesce_next a hl post in coalesce_prev pre a l ++ post'.

Lemma coalesce_next_ok a hl n hi post l post' :
  fl_ok (a + n) hi post -> 0 <= hl <= n -> 8 <= n ->
  coalesce_next a hl post = (l, post') ->
  hl <= l /\ fl_ok (a + extent l) hi post' /\
  forall x k, avoids post x k -> 0 < k -> x + k <= a \/ a + n <= x ->
    avoids post' x k /\ (x + k <= a \/ a + extent l <= x).
Proof.
  intros Hok Hhl Hn. unfold coalesce_next. destruct post as [|[b blen] post].
  - intros [= <- <-]. unfold extent. split_and!; [lia|cbn in *; lia|].
    intros x k Hav Hk Hx. split; [done|lia].
  - cbn in Hok. destruct Hok as (Hb & Hb4 & Hlen & Hok).
    destruct (Z.eqb_spec (a + hl) b) as [E|E]; intros [= <- <-].
    + split_and!; [lia| |].
      * eapply fl_ok_lower; [|done]. unfold extent. lia.
      * intros x k Hav Hk Hx. inversion_clear Hav as [|? ? Hbx Hav'].
        split; [done|]. unfold extent in *. lia.
    + split_and!; [lia| |].
      * cbn. split_and!; try done. unfold extent. lia.
      * intros x k Hav Hk Hx. split; [done|]. unfold extent. lia.
Qed.

Lemma coalesce_prev_ok lo a l hi pre post' :
  lo <= a -> a mod 4 = 0 -> 0 <= l -> fl_ok lo a pre -> fl_ok (a + extent l) hi post' ->
  fl_ok lo hi (coalesce_prev pre a l ++ post') /\
  forall x k, avoids (pre ++ post') x k -> 0 < k -> x + k <= a \/ a + extent l <= x ->
    avoids (coalesce_prev pre a l ++ post') x k.
Proof.
  intros Hlo Ha Hl Hpre Hpost. unfold coalesce_prev.
  destruct pre as [|[p plen] pre _] using rev_ind.
  - cbn. split; [by split_and!|]. intros x k Hav Hk Hx. constructor; [lia|done].
  - rewrite last_snoc, removelast_last.
    apply fl_ok_app in Hpre as (mid & Hp1 & Hp2). cbn in Hp2.
    destruct Hp2 as (Hmp & Hp4 & Hpl & Hpa).
    destruct (Z.eqb_spec (p + plen) a) as [E|E].
    + split.
      * rewrite <- app_assoc. apply fl_ok_app. exists mid. split; [done|].
        cbn. split_and!; [done..|lia|]. eapply fl_ok_lower; [|done]. unfold extent in *. lia.
      * intros x k Hav Hk Hx. rewrite !avoids_app in Hav. destruct Hav as [[Hv1 Hv2] Hv3].
        rewrite !avoids_app. split_and!; [done| |done].
        inversion_clear Hv2 as [|? ? Hpx _]. constructor; [|constructor].
        unfold extent in *. lia.
    + split.
      * rewrite <- !app_assoc. apply fl_ok_app. exists mid. split; [done|].
        cbn. by split_and!.
      * intros x k Hav Hk Hx. rewrite !avoids_app in Hav. destruct Hav as [[Hv1 Hv2] Hv3].
        rewrite !avoids_app. split_and!; [done|done| |done]. constructor; [|constructor].
        unfold extent in *. lia.
Qed.

(** [prev->next = segment; segment->next = next], the head being adjusted. *)
Lemma splice_ok m head q b s l nx post' lo hi :
  8 <= lo -> lo <= s -> hi <= 4294967296 -> fl_ok lo s q -> lseg m head q b ->
  seg_len m s = l -> nx = first_addr post' -> lseg m nx post' 0 ->
  fl_ok (s + 8) hi post' ->
  lseg (set_next (set_next m (last_addr q) s) s nx) (new_head q head s)
    (q ++ (s, l) :: post') 0.
Proof.
  intros Hlo Hs Hhi Hq Hlq Hlen Hnx Hlp Hp. pose proof (fl_ok_le _ _ _ Hp) as Hle.
  assert (last_addr q + 8 <= s) as Hlast.
  { destruct (last_addr_bounds lo s q ltac:(lia) Hq) as [-> |?]; [rewrite last_addr_nil; lia|lia]. }
  apply lseg_app. exists s. split.
  - eapply lseg_frame with (m := set_next m (last_addr q) s).
    { eapply same_nodes_range; [done|]. intros x Hx. apply ld8_set_next. lia. }
    destruct q as [|sg q]; [done|].
    pose proof (relink_ok lo s m head (sg :: q) b s ltac:(lia) Hq) as H.
    unfold relink in H. destruct (Z.eqb_spec (last_addr (sg :: q)) 0) as [E|E].
    + destruct (last_addr_bounds lo s (sg :: q) ltac:(lia) Hq); [done|lia].
    + apply H; [unfold is_u32; lia|done].
  - cbn. autorewrite with segm. split_and!; [done|lia|done|].
    rewrite w32_id.
    + eapply lseg_frame; [|exact Hlp]. eapply same_nodes_range; [done|].
      intros x Hx. rewrite !ld8_set_next by lia. done.
    + unfold is_u32. subst nx. destruct post' as [|[c clen] post']; cbn in *; [lia|].
      destruct Hp as (? & _ & _ & Hc). apply fl_ok_le in Hc. unfold extent in Hc. lia.
Qed.

Lemma head_ltb lo m head q b s : 0 < lo -> fl_ok lo s q -> lseg m head q b ->
  (q = [] -> s <= head) ->
  (if s <? head then s else head) = new_head q head s.
Proof.
  intros Hlo Hq Hl Hs. destruct q as [|[p plen] q]; cbn in *.
  - specialize (Hs eq_refl). destruct (Z.ltb_spec s head); [done|lia].
  - destruct Hl as (-> & _). destruct Hq as (_ & _ & _ & H).
    apply fl_ok_le in H. unfold extent in H. by destruct (Z.ltb_spec s p); [lia|].
Qed.

Section insert.
Context {P : Type}.
Implicit Types (h : heap P).

(** The first stage: the length of the segment, joined with the next one. *)
Lemma coalesce_next_mem m a hl n b blen post hi :
  lseg m b ((b, blen) :: post) 0 -> fl_ok (a + n) hi ((b, blen) :: post) ->
  0 < a -> hi <= 4294967296 -> ld32 m a = hl -> hl <= n -> 8 <= n ->
  let m1 := set_len m a (ld32 m a) in
  exists m2 nx,
    (if a + seg_len m1 a =? b then
       _ ← assert "next_segment does not exist." (negb (b =? 0));
       Ok (set_len m1 a (w32 (seg_len m1 a + seg_len m1 b)), first_addr post)
     else Ok (m1, b)) = Ok (m2, nx) /\
    seg_len m2 a = (coalesce_next a hl ((b, blen) :: post)).1 /\
    nx = first_addr (coalesce_next a hl ((b, blen) :: post)).2 /\
    lseg m nx (coalesce_next a hl ((b, blen) :: post)).2 0 /\
    forall x, x < a + 4 \/ a + 8 <= x -> ld8 m2 x = ld8 m x.
Proof.
  intros Hl Hok Ha Hhi Hhl Hle Hn. cbv zeta. rewrite Hhl.
  pose proof (ld32_range m a) as Hr. rewrite Hhl in Hr.
  pose proof Hl as (_ & Hnz & Hlen & Hrest). cbn in Hok.
  destruct Hok as (Hb & _ & Hbl & Hok). pose proof (fl_ok_le _ _ _ Hok). unfold extent in *.
  rewrite seg_len_set_len, (w32_id hl) by (unfold is_u32; lia). unfold coalesce_next.
  destruct (Z.eqb_spec (a + hl) b) as [E|E].
  - destruct (Z.eqb_spec b 0); [done|]. cbn [negb]. res_step. do 2 eexists. split; [done|].
    rewrite (seg_len_set_len_ne m a b), Hlen, seg_len_set_len by lia.
    rewrite !(w32_id (hl + blen)) by (unfold is_u32; lia). cbn [fst snd].
    split_and!; [done|done| |].
    + rewrite <- (lseg_first m _ post Hrest). exact Hrest.
    + intros x Hx. rewrite !ld8_set_len by lia. done.
  - do 2 eexists. split; [done|]. rewrite seg_len_set_len, w32_id by (unfold is_u32; lia).
    split_and!; [done|done|done|]. intros x Hx. by apply ld8_set_len.
Qed.

(** The second stage: the segment [a] of length [l], joined with the segment before it
    when they touch, is linked between the list before it and the list after it. *)
Section second_stage.
Context (m : mem) (head a l nx hi : Z) (post : list seg).
Hypothesis Hlen : seg_len m a = l.
Hypothesis Hl : 0 <= l.
Hypothesis Ha : heap_start <= a.
Hypothesis Hal : a + l <= hi < 4294967296.
Hypothesis Hnx : nx = first_addr post.
Hypothesis Hlp : lseg m nx post 0.
Hypothesis Hp8 : fl_ok (a + 8) hi post.

Definition prev_joined (pre : list seg) : mem * Z * Z :=
  let prev := last_addr pre in
  if negb (prev =? 0) && (prev + seg_len m prev =? a)
  then (set_len m prev (w32 (seg_len m prev + seg_len m a)), prev, last_addr (removelast pre))
  else (m, a, prev).

Definition spliced (pre : list seg) : Prop :=
  let '(m1, s, prev) := prev_joined pre in
  let m2 := set_next (set_next m1 prev s) s nx in
  lseg m2 (if s <? head then s else head) (coalesce_prev pre a l ++ post) 0 /\
  forall x k, 4 <= x -> avoids pre x k -> x + k <= a \/ a + 8 <= x ->
    forall y, x <= y < x + k -> ld8 m2 y = ld8 m y.

Lemma spliced_first : a < head -> spliced [].
Proof.
  intros Hh. unfold spliced, prev_joined. pf_unfold.
  cbn [last_addr last removelast negb andb Z.eqb]. unfold heap_start in Ha. pf_unfold.
  destruct (Z.ltb_spec a head); [|lia]. split.
  - apply (splice_ok m head [] head a l nx post 8 hi); try (done || lia). cbn; lia.
  - intros x k Hx _ Hd y Hy. by rewrite !ld8_set_next by lia.
Qed.

Lemma last_addr_avoided pre x k : 4 <= x -> avoids pre x k ->
  forall y, x <= y < x + k -> y < last_addr pre \/ last_addr pre + 4 <= y.
Proof.
  intros Hx Hv y Hy.
  destruct pre as [|[c clen] pre _] using rev_ind; [rewrite last_addr_nil; lia|].
  rewrite last_addr_snoc. apply avoids_app in Hv as [_ Hv].
  inversion_clear Hv as [|? ? Hcx _]. unfold extent in Hcx. lia.
Qed.

Lemma spliced_joined pre p plen b :
  lseg m head (pre ++ [(p, plen)]) b -> fl_ok heap_start a (pre ++ [(p, plen)]) ->
  p + plen = a -> spliced (pre ++ [(p, plen)]).
Proof.
  intros Hlpre Hpre E. unfold spliced, prev_joined, coalesce_prev.
  rewrite removelast_last, last_addr_snoc, last_snoc.
  apply fl_ok_app in Hpre as (mid & Hp1 & Hp2). cbn in Hp2.
  destruct Hp2 as (Hmp & Hp4 & Hpl & Hpa). pose proof (fl_ok_le _ _ _ Hp1).
  apply lseg_app in Hlpre as (q & Hlq & (-> & Hpnz & Hplen & _)).
  unfold extent, heap_start in *. pf_unfold.
  destruct (Z.eqb_spec p 0); [done|]. rewrite Hplen, Hlen.
  destruct (Z.eqb_spec (p + plen) a); [|done]. cbn [negb andb].
  assert (fl_ok 8 p pre) as Hp1'.
  { eapply fl_ok_upper; [|eapply fl_ok_lower; [|exact Hp1]]; lia. }
  rewrite (head_ltb 8 m head pre p p); [|lia|done..|intros ->; cbn in Hlq; lia]. split.
  - rewrite <- app_assoc. cbn [app].
    apply (splice_ok (set_len m p (w32 (plen + l))) head pre p p (plen + l) nx post 8 hi);
      [lia..|done| | |done| |].
    + eapply lseg_frame; [|exact Hlq]. eapply same_nodes_range; [exact Hp1'|].
      intros x Hx. apply ld8_set_len. lia.
    + rewrite seg_len_set_len, !(w32_id (plen + l)) by (unfold is_u32; lia). done.
    + eapply lseg_frame; [|exact Hlp]. eapply same_nodes_range; [exact Hp8|].
      intros x Hx. apply ld8_set_len. lia.
    + eapply fl_ok_lower; [|exact Hp8]. lia.
  - intros x k Hx [Hv1 Hv2]%avoids_app Hd y Hy. inversion_clear Hv2 as [|? ? Hpx _].
    pose proof (last_addr_avoided _ _ _ Hx Hv1 y Hy). unfold extent in Hpx.
    rewrite !ld8_set_next, ld8_set_len by lia. done.
Qed.

Lemma spliced_apart pre p plen b :
  lseg m head (pre ++ [(p, plen)]) b -> fl_ok heap_start a (pre ++ [(p, plen)]) ->
  p + plen <> a -> spliced (pre ++ [(p, plen)]).
Proof.
  intros Hlpre Hpre E. unfold spliced, prev_joined, coalesce_prev.
  rewrite last_addr_snoc, last_snoc.
  pose proof Hlpre as (q & Hlq & (-> & Hpnz & Hplen & _))%lseg_app. rewrite Hplen.
  destruct (Z.eqb_spec (p + plen) a); [done|]. rewrite andb_false_r.
  unfold heap_start in Ha. pf_unfold.
  assert (fl_ok 8 a (pre ++ [(p, plen)])) as Hpre'.
  { eapply fl_ok_lower; [|exact Hpre]. unfold heap_start. pf_unfold. lia. }
  rewrite (head_ltb 8 m head (pre ++ [(p, plen)]) b a); [|lia|done..|by destruct pre]. split.
  - rewrite <- (app_assoc _ [(a, l)] post). cbn [app].
    pose proof (splice_ok m head (pre ++ [(p, plen)]) b a l nx post 8 hi) as Hsp.
    rewrite last_addr_snoc in Hsp. apply Hsp; (done || lia).
  - intros x k Hx Hv Hd y Hy. pose proof (last_addr_avoided _ _ _ Hx Hv y Hy) as Hlast.
    rewrite last_addr_snoc in Hlast. rewrite !ld8_set_next by lia. done.
Qed.

Lemma spliced_ok pre b : lseg m head pre b -> fl_ok heap_start a pre ->
  (pre = [] -> a < head) -> spliced pre.
Proof.
  intros Hlpre Hpre Hh. destruct pre as [|[p plen] pre _] using rev_ind; [by apply spliced_first, Hh|].
  destruct (decide (p + plen = a)); [by eapply spliced_joined|by eapply spliced_apart].
Qed.
End second_stage.

Lemma insert_segment_ok h pre a n hl b blen post hi :
  lseg (h_mem h) (free_segments_head h) (pre ++ (b, blen) :: post) 0 ->
  fl_ok heap_start a pre -> fl_ok (a + n) hi ((b, blen) :: post) ->
  hi < 4294967296 -> ld32 (h_mem h) a = hl -> hl <= n -> 8 <= n -> a mod 4 = 0 ->
  exists h', insert_segment (last_addr (removelast pre)) (last_addr pre) b
      (first_addr post) a h = Ok h' /\
    next_page_virt_addr h' = next_page_virt_addr h /\ h_frames h' = h_frames h /\
    lseg (h_mem h') (free_segments_head h') (insert_list pre a hl ((b, blen) :: post)) 0 /\
    forall x k, 4 <= x -> avoids pre x k -> x + k <= a \/ a + n <= x ->
      forall y, x <= y < x + k -> ld8 (h_mem h') y = ld8 (h_mem h) y.
Proof.
  intros Hl Hpre Hpost Hhi Hhl Hle Hn Ha4. pose proof (fl_ok_le _ _ _ Hpre) as Hhs.
  unfold heap_start in Hhs. pf_unfold.
  pose proof (ld32_range (h_mem h) a) as Hr. rewrite Hhl in Hr.
  apply lseg_app in Hl as (b' & Hlpre & Hlb). pose proof Hlb as (-> & _).
  pose proof Hpost as (Hab & _).
  destruct (coalesce_next_mem (h_mem h) a hl n b blen post hi)
    as (m2 & nx & Hst & Hlen2 & Hnx & Hlnx & Hm2); [done|done|lia|lia|done..|].
  unfold insert_segment. cbv zeta. rewrite Hst, bind_Ok_r. cbv beta iota.
  destruct (coalesce_next a hl ((b, blen) :: post)) as [l1 post1] eqn:Hco.
  cbn [fst snd] in *. unfold insert_list. rewrite Hco.
  destruct (coalesce_next_ok a hl n hi _ l1 post1 Hpost ltac:(lia) Hn Hco) as (Hl1 & Hok1 & _).
  pose proof (fl_ok_le _ _ _ Hok1) as Hle1. unfold extent in Hle1, Hok1.
  assert (spliced m2 (free_segments_head h) a l1 nx post1 pre) as Hsp.
  { apply spliced_ok with (hi := hi) (b := b); try (done || lia).
    - eapply lseg_frame; [|done]. eapply same_nodes_range; [done|]. intros x Hx. apply Hm2. lia.
    - eapply fl_ok_lower; [|done]. lia.
    - eapply lseg_frame; [|done]. eapply same_nodes_range; [done|]. intros x Hx. apply Hm2. lia.
    - intros ->. cbn in Hlpre. lia. }
  unfold spliced, prev_joined in Hsp. destruct (_ && _) eqn:E;
    destruct Hsp as [Hls Hfr]; eexists; (split; [done|]);
    cbn [h_mem free_segments_head next_page_virt_addr h_frames]; (split_and!; [done..|]);
    intros x k Hx Hv Hd y Hy; (rewrite (Hfr x k) by (done || lia)); apply Hm2; lia.
Qed.
End insert.

(** ** [memory_free] *)

(** A block is not among the other ones. *)
Lemma disjoint_blocks_mid bp a n bq : disjoint_blocks (bp ++ (a, n) :: bq) ->
  disjoint_blocks (bp ++ bq) /\
  Forall (fun '(b, k) => b + k <= a \/ a + n <= b) (bp ++ bq).
Proof.
  induction bp as [|[b k] bp IH]; cbn.
  - intros [Ha Hq]. split; [done|]. eapply Forall_impl; [exact Ha|]. intros [c l]. lia.
  - intros [Hb Hd]. destruct (IH Hd) as [H1 H2]. apply Forall_app in Hb as [Hb1 Hb2].
    inversion_clear Hb2 as [|? ? Hba Hb3]. split.
    + split; [by apply Forall_app|done].
    + constructor; [lia|done].
Qed.

Section free.
Context {P : Type} `{FS : FrameSource P} `{FSO : !FrameSourceOk P}.
Implicit Types (h : heap P).

(** The free list and the frames stay well formed when the block at [a] goes
    back between [pre] and [post]. *)
Lemma insert_list_inv h h' pre post bp a n bq hl :
  heap_inv h (pre ++ post) (bp ++ (a, n) :: bq) ->
  fl_ok heap_start a pre -> fl_ok (a + n) (next_page_virt_addr h) post ->
  0 <= hl <= n ->
  next_page_virt_addr h' = next_page_virt_addr h -> h_frames h' = h_frames h ->
  lseg (h_mem h') (free_segments_head h') (insert_list pre a hl post) 0 ->
  heap_inv h' (insert_list pre a hl post) (bp ++ bq).
Proof.
  intros Hinv Hpre Hpost Hhl Hnext Hfr Hl.
  pose proof (inv_blocks Hinv) as Hb. apply Forall_app in Hb as [Hb1 Hb2].
  inversion_clear Hb2 as [|? ? Ha Hb3]. destruct Ha as (Ha1 & Ha2 & Ha3 & Ha4 & Ha5).
  destruct (disjoint_blocks_mid _ _ _ _ (inv_disjoint Hinv)) as [Hd Hda].
  unfold insert_list in *. destruct (coalesce_next a hl post) as [l post'] eqn:Hco.
  destruct (coalesce_next_ok a hl n _ post l post' Hpost Hhl Ha3 Hco) as (Hl1 & Hok1 & Hav1).
  destruct (coalesce_prev_ok heap_start a l _ pre post' Ha1 Ha2 ltac:(lia) Hpre Hok1)
    as [Hok Hav].
  split; rewrite ?Hnext, ?Hfr; [done|done| |done|apply Hinv..].
  assert (Forall (fun '(b, k) => (heap_start <= b /\ b mod 4 = 0 /\ 8 <= k /\
    b + k <= next_page_virt_addr h) /\ avoids (pre ++ post) b k) (bp ++ bq)) as Hall.
  { apply Forall_app; split; (eapply Forall_impl; [done|]); intros [b k]; tauto. }
  apply Forall_forall. intros [b k] Hin. rewrite Forall_forall in Hall, Hda.
  destruct (Hall _ Hin) as [(? & ? & ? & ?) [Hv1 Hv2]%avoids_app].
  specialize (Hda _ Hin). cbn in Hda. destruct (Hav1 b k Hv2 ltac:(lia) Hda) as [Hv3 Hx].
  split_and!; [done..|]. apply Hav; [by apply avoids_app|lia|done].
Qed.

(** The two walks of [memory_free] stop around the address that is freed, and the segment
    is inserted there. *)
Lemma memory_free_inserts h a n hi pre b blen post fuel :
  lseg (h_mem h) (free_segments_head h) (pre ++ (b, blen) :: post) 0 ->
  fl_ok 1 a pre -> fl_ok (a + n) hi ((b, blen) :: post) ->
  free_segments_head h <> 0 -> 0 < a -> 8 <= n -> hi < 4294967296 ->
  (length pre + length post + 2 < fuel)%nat ->
  memory_free fuel (a + 4) h =
    insert_segment (last_addr (removelast pre)) (last_addr pre) b (first_addr post) a h.
Proof.
  intros Hl Hpre Hpost Hhd Ha Hn Hhi Hf. pose proof Hpost as (Hab & _).
  assert (last_addr pre < a) as Hlast.
  { destruct (last_addr_bounds 1 a pre ltac:(lia) Hpre) as [-> |?];
      [rewrite last_addr_nil; lia|lia]. }
  pose proof Hl as (q & Hlpre & Hlb)%lseg_app. pose proof Hlb as (-> & Hnz & _).
  unfold memory_free. destruct (Z.eqb_spec (free_segments_head h) 0) as [|_]; [done|].
  cbv zeta. replace (a + 4 - 4) with a by lia.
  pose proof (locate_ok (h_mem h) a (a + n) _ ((b, blen) :: post) ltac:(lia) ltac:(done)
    Hpost ltac:(lia) pre [] (free_segments_head h) fuel Hl Hpre ltac:(lia) ltac:(lia)) as Hloc.
  cbn [last_addr removelast last app first_addr] in Hloc.
  change (match @last seg [] with Some (a0, _) => a0 | None => 0 end) with 0 in Hloc.
  rewrite Hloc, bind_Ok_r. cbv beta iota.
  rewrite (advance_ok (h_mem h) a _ _ pre b blen post fuel) by (done || lia).
  rewrite bind_Ok_r. cbv beta iota.
  destruct (Z.ltb_spec (last_addr pre) a), (Z.ltb_spec a b); try lia.
  cbn [andb orb]. by res_step.
Qed.

Lemma memory_free_ok h fl bp a n bq fuel :
  heap_inv h fl (bp ++ (a, n) :: bq) -> ld32 (h_mem h) a <= n ->
  Exists (fun '(s, _) => a < s) fl -> (length fl + 1 < fuel)%nat ->
  exists pre post h', fl = pre ++ post /\ fl_ok heap_start a pre /\
    fl_ok (a + n) (next_page_virt_addr h) post /\
    memory_free fuel (a + 4) h = Ok h' /\
    heap_inv h' (insert_list pre a (ld32 (h_mem h) a) post) (bp ++ bq) /\
    blocks_kept (bp ++ bq) (h_mem h) (h_mem h') /\
    next_page_virt_addr h' = next_page_virt_addr h /\ h_frames h' = h_frames h /\
    forall x k, 4 <= x -> avoids fl x k -> x + k <= a \/ a + n <= x ->
      forall y, x <= y < x + k -> ld8 (h_mem h') y = ld8 (h_mem h) y.
Proof.
  intros Hinv Hhl Hex Hf. pose proof (inv_sorted Hinv) as Hok.
  pose proof (inv_blocks Hinv) as Hb. apply Forall_app in Hb as [Hb1 Hb2].
  inversion_clear Hb2 as [|? ? Ha Hb3]. destruct Ha as (Ha1 & Ha2 & Ha3 & Ha4 & Ha5).
  destruct (inv_next Hinv) as [_ Hn].
  destruct (split_at _ _ fl a n Hok Ha5 ltac:(lia) Ha1) as (pre & post & -> & Hpre & Hpost).
  destruct post as [|[b blen] post].
  { exfalso. rewrite app_nil_r in Hex. pose proof (fl_ok_Forall _ _ _ Hpre) as Hall.
    apply Exists_exists in Hex as ([s len] & Hin & Hs). rewrite Forall_forall in Hall.
    specialize (Hall _ Hin). cbn in Hall. unfold extent in Hall. lia. }
  destruct Hpost as [|Hpost]; [done|].
  pose proof (inv_list Hinv) as Hl.
  unfold heap_start in Ha1. pf_unfold.
  assert (fl_ok 1 a pre) as Hpre1.
  { eapply fl_ok_lower; [|exact Hpre]. unfold heap_start. pf_unfold. lia. }
  rewrite length_app in Hf. cbn [length] in Hf.
  destruct (insert_segment_ok h pre a n (ld32 (h_mem h) a) b blen post _ Hl Hpre Hpost Hn
    eq_refl Hhl Ha3 Ha2) as (h' & Hins & Hnext & Hfr & Hl' & Hmem).
  exists pre, ((b, blen) :: post), h'. split_and!; [done..| | | |done|done|].
  4: { intros x k Hx [Hav _]%avoids_app. by apply Hmem. }
  - rewrite <- Hins. eapply memory_free_inserts; try (done || lia).
    intros E%(head_zero _ _ _ Hinv). by destruct pre.
  - eapply insert_list_inv; try done. pose proof (ld32_range (h_mem h) a). lia.
  - destruct (disjoint_blocks_mid _ _ _ _ (inv_disjoint Hinv)) as [_ Hda].
    apply Forall_forall. intros [x k] Hin y Hy. rewrite Forall_forall in Hda.
    specialize (Hda _ Hin). cbn in Hda.
    assert (Forall (fun '(x, k) => heap_start <= x /\ avoids (pre ++ (b, blen) :: post) x k)
      (bp ++ bq)) as Hall.
    { apply Forall_app; split; (eapply Forall_impl; [done|]); intros [? ?]; tauto. }
    rewrite Forall_forall in Hall. destruct (Hall _ Hin) as [Hxs [Hxp _]%avoids_app].
    unfold heap_start in Hxs. pf_unfold. eapply Hmem; [|exact Hxp|exact Hda|exact Hy]. lia.
Qed.
End free.

(** ** A block above every free segment *)

Section hang.
Context (m : mem) (a : Z).

Lemma locate_past_end cur : forall c pp p q fuel,
  lseg m c cur 0 -> Forall (fun '(s, _) => s < a) cur -> q < a ->
  loop fuel (locate_body m a) (pp, p, q, c) = Err OutOfFuel \/
  exists pp' p' q', loop fuel (locate_body m a) (pp, p, q, c) = Ok (pp', p', q', 0) /\ q' < a.
Proof.
  induction cur as [|[s len] cur IH]; intros c pp p q [|fuel] Hl Hlt Hq;
    [by left| |by left|]; cbn [loop locate_body].
  - cbn in Hl. subst c. right. by do 3 eexists.
  - destruct Hl as (-> & Hnz & _ & Hl). inversion_clear Hlt as [|? ? Hs Hlt'].
    destruct (Z.eqb_spec s 0), (Z.eqb_spec q a), (Z.eqb_spec s a), (Z.ltb_spec a s); try lia.
    cbn [negb andb]. res_step. by apply IH.
Qed.

Lemma advance_diverges fuel pp p q : 0 < a -> q < a ->
  loop fuel (advance_body m a) (pp, p, q, 0) = Err OutOfFuel.
Proof.
  intros Ha Hq. apply (loop_diverges _ (fun '(_, _, q, c) => q < a /\ c = 0)); [|done].
  intros [[[pp' p'] q'] c'] [Hq' ->]. cbn. destruct (Z.ltb_spec q' a); [|lia].
  eexists; split; [done|]. cbn. lia.
Qed.
End hang.

(** ** The page frame allocator is a source of frames *)

Section pfa_source.
Context (tables_addr kernel_end : Z) `{Hlink : !LinkerOk tables_addr kernel_end}.

#[export] Instance pfa_source : FrameSource pfa := pfa_commit_page tables_addr kernel_end.

#[export] Program Instance pfa_source_ok : FrameSourceOk pfa := {
  fs_ok := pfa_ok tables_addr;
  fs_maps s v := translate tables_addr s v <> None;
  fs_full s := forall n, 0 <= n < PAGES -> bit_at (pfa_page_bitmap s) n = true;
}.
Next Obligation.
  intros s v Hok Hv Ha. unfold fs_commit, pfa_source.
  destruct (lowest_free_dec (pfa_page_bitmap s)) as [[n Hn]|Hfull].
  - destruct (commit_free tables_addr kernel_end s v n Hv Ha Hn) as (s' & H & _).
    exists true, s'. split_and!; [done|by eapply commit_ok| |].
    { intros Hfull. destruct Hn as (Hr & Hb & _). by rewrite Hfull in Hb. }
    intros a Hav.
    rewrite (commit_translate tables_addr kernel_end s v n s' a) by done.
    case_decide as E; split; [intros _; by left|done|intros; by right|].
    intros [[_ ?]|?]; done.
  - exists false, s. rewrite commit_full by done. split_and!; [done..|].
    intros a _. split; [by right|]. by intros [[? _]|?].
Qed.
End pfa_source.

(** [memory_free_all] of the kernel's tests: every page goes back. *)
Definition memory_free_all (h : heap pfa) : res (heap pfa) :=
  p ← pfa_uncommit_all (h_frames h); Ok (Heap (h_mem h) 0 heap_start p).

(** ** Uniqueness of the abstract views *)

Lemma lseg_unique m fl : forall a fl', lseg m a fl 0 -> lseg m a fl' 0 -> fl = fl'.
Proof.
  induction fl as [|[s len] fl IH]; intros a [|[s' len'] fl']; cbn; [done|lia|lia|].
  intros (-> & _ & <- & Hl) (<- & _ & <- & Hl'). f_equal. by eapply IH.
Qed.

Lemma first_fit_unique ts pre s len post pre' s' len' post' :
  pre ++ (s, len) :: post = pre' ++ (s', len') :: post' ->
  too_small ts pre -> too_small ts pre' -> ts <= len -> ts <= len' -> pre = pre'.
Proof.
  revert pre'; induction pre as [|[a l] pre IH]; intros [|[a' l'] pre']; cbn.
  - done.
  - intros [= -> -> _] _ Hs Hl _. inversion_clear Hs. lia.
  - intros [= <- <- _] Hs _ _ Hl. inversion_clear Hs. lia.
  - intros [= <- <- E] Hs Hs' ? ?. inversion_clear Hs. inversion_clear Hs'. f_equal. eauto.
Qed.

Lemma split_unique (a : Z) (pre post pre' post' : list seg) :
  pre ++ post = pre' ++ post' ->
  Forall (fun '(s, _) => s < a) pre -> Forall (fun '(s, _) => s < a) pre' ->
  Forall (fun '(s, _) => a <= s) post -> Forall (fun '(s, _) => a <= s) post' ->
  pre = pre' /\ post = post'.
Proof.
  revert pre'; induction pre as [|[x l] pre IH]; intros [|[x' l'] pre']; cbn.
  - done.
  - intros -> _ H H' _. inversion_clear H. inversion_clear H'. lia.
  - intros <- H _ _ H'. inversion_clear H. inversion_clear H'. lia.
  - intros [= <- <- E] H H' ? ?. inversion_clear H. inversion_clear H'.
    destruct (IH pre' E) as [<- <-]; done.
Qed.

Lemma fl_ok_below lo a pre : fl_ok lo a pre -> Forall (fun '(s, _) => s < a) pre.
Proof.
  intros H. eapply Forall_impl; [by eapply fl_ok_Forall|]. intros [s len].
  unfold extent. lia.
Qed.

Lemma fl_ok_above a hi post : fl_ok a hi post -> Forall (fun '(s, _) => a <= s) post.
Proof.
  intros H. eapply Forall_impl; [by eapply fl_ok_Forall|]. intros [s len]. lia.
Qed.

Section restore.
Context {P : Type} `{FS : FrameSource P} `{FSO : !FrameSourceOk P}.
Implicit Types (h : heap P).

(** The block of [ts] bytes is cut from the segment [s] of length [len]. *)
Definition cut_out (size ts : Z) h bl pre (s len : Z) post h' : Prop :=
  ld32 (h_mem h') s = w32 (size + 4) /\
  next_page_virt_addr h' = next_page_virt_addr h /\
  heap_inv h' (pre ++ leftover ts (s, len) ++ post) ((s, ts) :: bl) /\
  h_frames h' = h_frames h /\
  forall x n, avoids (pre ++ [(s, len)]) x n -> forall y, x <= y < x + n ->
    ld8 (h_mem h') y = ld8 (h_mem h) y.

Lemma take_exact h bl size ts pre s len post :
  heap_inv h (pre ++ (s, len) :: post) bl -> 8 <= ts <= len -> ts mod 4 = 0 ->
  exists h', take_segment size ts (last_addr pre) s (ts + 8 <=? len) h = (s + 4, h') /\
    cut_out size ts h bl pre s len post h'.
Proof.
  intros Hinv Hts H4. destruct (inv_next Hinv) as [_ Hn].
  destruct (take_inv h bl size ts pre s len post Hinv Hts H4)
    as (h' & Htake & s' & fl' & Hs' & _ & Hinv' & Hhd & _).
  assert (s' = s) as -> by lia.
  destruct (take_segment_spec h size ts pre s len post heap_start
    (next_page_virt_addr h)) as (h2 & Htake2 & Hnext & Hfrm & Hl & _ & Hkeep);
    [unfold heap_start; pf_unfold; lia|lia|apply Hinv|apply Hinv|lia|done|].
  rewrite Htake in Htake2. injection Htake2 as <-.
  rewrite (lseg_unique _ _ _ _ (inv_list Hinv') Hl) in Hinv'. by exists h'.
Qed.

(** First fit, exactly: the block is cut from the first long enough segment. *)
Lemma allocate_from_first_fit h pre s len post bl size ts fuel :
  heap_inv h (pre ++ (s, len) :: post) bl -> 8 <= ts <= len -> ts < 4294967288 -> ts mod 4 = 0 ->
  too_small ts pre -> (length (pre ++ (s, len) :: post) < fuel)%nat ->
  exists h', allocate_from fuel size ts h = Ok (s + 4, h') /\ cut_out size ts h bl pre s len post h'.
Proof.
  intros Hinv Hfit Hts H4 Hsmall Hfuel.
  pose proof (inv_sorted Hinv) as Hok. apply fl_ok_Forall, Forall_app in Hok as [_ Hok].
  inversion_clear Hok as [|? ? Hs _]. unfold extent, heap_start in Hs. pf_unfold.
  destruct (take_exact h bl size ts pre s len post Hinv Hfit H4) as (h' & Htake & Hcut).
  exists h'. split; [|done]. unfold allocate_from.
  destruct (search_ok (h_mem h) ts (free_segments_head h) _ fuel (inv_list Hinv))
    as (r & -> & Hres); [lia|done|].
  destruct Hres as [(pre' & s' & len' & post' & pp & E & Hsm & Hle & ->)|[Hsm _]].
  - pose proof (first_fit_unique ts _ _ _ _ _ _ _ _ E Hsmall Hsm ltac:(lia) Hle) as <-.
    apply app_inv_head in E. injection E as <- <- <-. rewrite bind_Ok_r. cbv beta iota.
    destruct (Z.eqb_spec s 0); [lia|]. by rewrite Htake.
  - apply Forall_app in Hsm as [_ Hsm]. inversion_clear Hsm. lia.
Qed.

Lemma memory_allocate_first_fit h pre s len post bl size fuel :
  heap_inv h (pre ++ (s, len) :: post) bl -> 1 <= size ->
  too_small (round4 (size + 4)) pre -> round4 (size + 4) <= len ->
  (length (pre ++ (s, len) :: post) < fuel)%nat ->
  exists h', memory_allocate fuel size h = Ok (s + 4, h') /\
    cut_out size (round4 (size + 4)) h bl pre s len post h'.
Proof.
  intros Hinv Hsz Hsmall Hfit Hfuel. set (ts := round4 (size + 4)) in *.
  assert (8 <= ts /\ ts mod 4 = 0 /\ size + 4 <= ts <= size + 8) as (Ht1 & Ht2 & Ht3)
    by (unfold ts, round4; zmod).
  pose proof (inv_sorted Hinv) as Hok. apply fl_ok_Forall, Forall_app in Hok as [_ Hok].
  inversion_clear Hok as [|? ? Hs _]. unfold extent, heap_start in Hs. pf_unfold.
  destruct (inv_next Hinv) as [_ Hn]. unfold memory_allocate.
  rewrite true_size_ok, bind_Ok_r by lia. fold ts.
  destruct (Z.eqb_spec (free_segments_head h) 0) as [E|_].
  { apply (head_zero _ _ _ Hinv) in E. by destruct pre. }
  apply allocate_from_first_fit; (done || lia).
Qed.
End restore.

(** ** The sample source of frames *)

#[local] Existing Instance pfa_source.
#[local] Existing Instance pfa_source_ok.

Definition sample_heap : FrameSource pfa := pfa_source sample_tables sample_end.

(** ** Properties *)

(** C7: Allocating one byte or more in a well-formed heap in which some segment
    fits, or the last one ends where the next page goes, with room in the address
    space, returns: either 0, with no free segment long enough and no page frame
    left, every block kept and the heap still well formed; or the address after
    the header of a fresh block of the rounded size that is word aligned, mapped,
    disjoint from every live block and every free segment, with [size + 4] in its
    header and the bytes of all other blocks unchanged. *)
Theorem memory_allocate_safe {P} `{FS : FrameSource P} `{FSO : !FrameSourceOk P}
    (h : heap P) fl bl size fuel :
  heap_inv h fl bl -> 1 <= size ->
  alloc_fuel (round4 (size + 4)) fl fuel -> (1 < fuel)%nat ->
  next_page_virt_addr h + size + 16384 < 4294967296 ->
  Exists (fun '(_, len) => round4 (size + 4) <= len) fl \/ tail_ok fl (next_page_virt_addr h) ->
  exists r h', memory_allocate fuel size h = Ok (r, h') /\
    ((r = 0 /\ too_small (round4 (size + 4)) fl /\ fs_full (h_frames h') /\
      (exists fl', heap_inv h' fl' bl) /\ blocks_kept bl (h_mem h) (h_mem h')) \/
     allocated size (round4 (size + 4)) h bl r h').
Proof.
  intros Hinv Hsz Hf Hf1 Hmax Hfit.
  destruct (memory_allocate_cases h fl bl size fuel Hinv Hsz Hf Hf1 Hmax Hfit) as (r & h' & H & Hres).
  exists r, h'. split; [exact H|]. destruct Hres as [(? & ? & ? & ? & ? & _)|Hal]; [left|by right].
  by split_and!.
Qed.

(** C8: Freeing a live block below some free segment returns: the free list
    becomes the old one with the block inserted in address order and joined
    with the neighbours it touches, the heap is well formed without that
    block, and the bytes of every other block are unchanged. *)
Theorem memory_free_safe {P} `{FS : FrameSource P} `{FSO : !FrameSourceOk P}
    (h : heap P) fl bp a n bq fuel :
  heap_inv h fl (bp ++ (a, n) :: bq) -> ld32 (h_mem h) a <= n ->
  Exists (fun '(s, _) => a < s) fl -> (length fl + 1 < fuel)%nat ->
  exists pre post h', fl = pre ++ post /\ fl_ok heap_start a pre /\
    fl_ok (a + n) (next_page_virt_addr h) post /\
    memory_free fuel (a + 4) h = Ok h' /\
    heap_inv h' (insert_list pre a (ld32 (h_mem h) a) post) (bp ++ bq) /\
    blocks_kept (bp ++ bq) (h_mem h) (h_mem h').
Proof.
  intros Hinv Hhl Hex Hf. destruct (memory_free_ok h fl bp a n bq fuel Hinv Hhl Hex Hf)
    as (pre & post & h' & ? & ? & ? & ? & ? & ? & _). by exists pre, post, h'.
Qed.

(** Freeing a live block that lies above every free segment of a non-empty
    free list never returns: the second search loop runs for ever. *)
Theorem memory_free_hangs {P} `{FS : FrameSource P} `{FSO : !FrameSourceOk P}
    (h : heap P) fl bl a n :
  heap_inv h fl ((a, n) :: bl) -> fl <> [] -> Forall (fun '(s, _) => s < a) fl ->
  forall fuel, memory_free fuel (a + 4) h = Err OutOfFuel.
Proof.
  intros Hinv Hne Hlt fuel. pose proof (inv_blocks Hinv) as Hb.
  inversion_clear Hb as [|? ? Ha _]. destruct Ha as (Ha & _). unfold heap_start in Ha. pf_unfold.
  unfold memory_free. destruct (Z.eqb_spec (free_segments_head h) 0) as [E|_].
  { by apply (head_zero _ _ _ Hinv) in E. }
  cbv zeta. replace (a + 4 - 4) with a by lia.
  destruct (locate_past_end (h_mem h) a fl (free_segments_head h) 0 0 0 fuel (inv_list Hinv) Hlt)
    as [->|(pp & p & q & -> & Hq)]; [lia|done|].
  rewrite bind_Ok_r. cbv beta iota. rewrite advance_diverges by lia. done.
Qed.

(** For a multiple of 4 bytes cut from a longer free segment, freeing the
    block just allocated gives back the free list as it was. *)
Theorem allocate_free_restores {P} `{FS : FrameSource P} `{FSO : !FrameSourceOk P}
    (h : heap P) pre s len post bl size fuel :
  heap_inv h (pre ++ (s, len) :: post) bl -> 1 <= size -> size mod 4 = 0 ->
  too_small (size + 4) pre -> size + 12 <= len ->
  Forall (fun '(p, plen) => p + plen <> s) pre ->
  (length pre + length post + 2 < fuel)%nat ->
  exists h1 h2, memory_allocate fuel size h = Ok (s + 4, h1) /\
    memory_free fuel (s + 4) h1 = Ok h2 /\
    heap_inv h2 (pre ++ (s, len) :: post) bl.
Proof.
  intros Hinv Hsz H4 Hsmall Hlen Hgap Hfuel.
  assert (round4 (size + 4) = size + 4) as Hr by (unfold round4; zmod).
  destruct (memory_allocate_first_fit h pre s len post bl size fuel)
    as (h1 & Halloc & Hhd & Hnext & Hinv1 & _); rewrite ?Hr; [done..|lia| |].
  { rewrite length_app. cbn. lia. }
  rewrite Hr in Hinv1. unfold leftover in Hinv1. cbn [fst snd] in Hinv1.
  destruct (Z.leb_spec (size + 4 + 8) len); [|lia]. cbn [app] in Hinv1.
  pose proof (inv_sorted Hinv1) as Hok. pose proof (inv_sorted Hinv) as Hok0.
  assert (next_page_virt_addr h < 4294967296) as Hmax by apply Hinv.
  pose proof (proj1 (fl_ok_app _ _ _ _) Hok0) as (mid & Hpre & Hs). cbn in Hs.
  destruct Hs as (Hmid & _ & _ & Hpost). pose proof (fl_ok_le _ _ _ Hpost) as Hle.
  pose proof (fl_ok_le _ _ _ Hpre) as Hhs. unfold heap_start, extent in *. pf_unfold.
  rewrite w32_id in Hhd by (unfold is_u32; lia).
  destruct (memory_free_ok h1 _ [] s (size + 4) bl fuel Hinv1)
    as (pre' & post' & h2 & E & Hpre' & Hpost' & Hfree & Hinv2 & _).
  - lia.
  - apply Exists_app. right. constructor. lia.
  - rewrite length_app. cbn. lia.
  - exists h1, h2. split_and!; [done|done|].
    destruct (split_unique s _ _ _ _ E) as [<- <-].
    + eapply Forall_impl; [by eapply fl_ok_below|]. intros [p l]. lia.
    + by eapply fl_ok_below.
    + apply Forall_cons. split; [lia|].
      eapply Forall_impl; [by eapply fl_ok_above|]. intros [p l]. lia.
    + eapply Forall_impl; [by eapply fl_ok_above|]. intros [p l]. lia.
    + rewrite Hhd in Hinv2. unfold insert_list, coalesce_next, coalesce_prev in Hinv2.
      rewrite Z.add_assoc, Z.eqb_refl in Hinv2.
      replace (size + 4 + (len - (size + 4))) with len in Hinv2 by lia.
      destruct pre as [|[p plen] pre _] using rev_ind; [done|].
      rewrite last_snoc in Hinv2. apply Forall_app in Hgap as [_ Hgap].
      inversion_clear Hgap. destruct (Z.eqb_spec (p + plen) s); [done|].
      by rewrite <- app_assoc in Hinv2.
Qed.

Section overlap.
#[local] Existing Instance sample_heap.

(** Two blocks, the first one freed, the rest of the page allocated: the last
    free segment no longer ends at [next_page_virt_addr]. *)
Definition overlap_run : res (list Z * heap pfa) :=
  '(a, h) ← memory_allocate 100 100 (boot_heap ∅ pfa_empty);
  '(b, h) ← memory_allocate 100 200 h;
  h ← memory_free 100 a h;
  '(c, h) ← memory_allocate 100 3784 h;
  '(d, h) ← memory_allocate 100 1000 h;
  Ok ([a; b; c; d], h).

(** Growing the heap extends the last free segment even when it does not
    end at the next page: after four allocations and a free, the block of
    1000 bytes starts where a smaller one was and runs over the live block
    of 200 bytes behind it. *)
Theorem growth_overlaps_live_block : exists h,
  overlap_run = Ok ([3229614084; 3229614188; 3229614392; 3229614084], h) /\
  3229614084 < 3229614188 < 3229614084 + 1000.
Proof. eexists. split; [vm_compute; reflexivity|lia]. Qed.

(** Allocating no bytes corrupts the free list: the rest of the segment
    starts 4 bytes in, so writing its [next] overwrites the length it is about
    to read, and the one free segment then claims 4294967292 bytes; a megabyte
    is handed out of the single mapped page. *)
Theorem allocate_zero_corrupts : exists h h',
  memory_allocate 100 0 (boot_heap ∅ pfa_empty) = Ok (heap_start + 4, h) /\
  free_segments_head h = heap_start + 4 /\
  seg_len (h_mem h) (free_segments_head h) = 4294967292 /\
  memory_allocate 100 1048576 h = Ok (heap_start + 8, h') /\
  next_page_virt_addr h' = heap_start + 4096.
Proof.
  do 2 eexists. split; [vm_compute; reflexivity|]. split; [vm_compute; reflexivity|].
  split; [vm_compute; reflexivity|]. split; vm_compute; reflexivity.
Qed.
End overlap.

(** ** Witnesses *)

Section witnesses.
#[local] Existing Instance sample_heap.
#[local] Instance sample_heap_ok : FrameSourceOk pfa := pfa_source_ok sample_tables sample_end.

Lemma empty_heap_inv : heap_inv (boot_heap ∅ pfa_empty) [] [].
Proof. apply boot_heap_inv, pfa_ok_boot. Qed.

Definition sample_fuel : nat := Z.to_nat 10000.
Definition heap_after (r : res (Z * heap pfa)) : heap pfa :=
  match r with Ok (_, h) => h | Err _ => boot_heap ∅ pfa_empty end.
Definition one_block : heap pfa := heap_after (memory_allocate sample_fuel 100 (boot_heap ∅ pfa_empty)).
Definition two_blocks : heap pfa := heap_after (memory_allocate sample_fuel 200 one_block).

Lemma sample_allocate_inv h fl bl size a :
  heap_inv h fl bl -> 1 <= size < 4096 -> (length fl < 100)%nat ->
  next_page_virt_addr h < heap_start + 65536 ->
  Exists (fun '(_, len) => round4 (size + 4) <= len) fl \/ tail_ok fl (next_page_virt_addr h) ->
  memory_allocate sample_fuel size h = Ok (a, heap_after (memory_allocate sample_fuel size h)) -> 0 < a ->
  allocated size (round4 (size + 4)) h bl a (heap_after (memory_allocate sample_fuel size h)).
Proof.
  intros Hinv Hsz Hfl Hn Hfit H Ha. unfold heap_start in Hn. pf_unfold.
  destruct (memory_allocate_cases h fl bl size sample_fuel Hinv) as (r & h' & E & Hr);
    [lia|split; unfold sample_fuel, round4; zmod|unfold sample_fuel; lia|lia|done|].
  rewrite E in H |- *. injection H as ->. cbn.
  destruct Hr as [(-> & _)|?]; [lia|done].
Qed.

(** After one allocation of 100 bytes: one block, one free segment. *)
Lemma one_block_inv :
  heap_inv one_block [(3229614184, 3992)] [(heap_start, 104)].
Proof.
  destruct (sample_allocate_inv (boot_heap ∅ pfa_empty) [] [] 100 (heap_start + 4))
    as (s & fl & Hs & _ & Hinv & _); [apply empty_heap_inv|done|cbn; lia|cbn; lia|by right
    |vm_compute; reflexivity|done|].
  assert (s = heap_start) as -> by lia. fold one_block in Hinv.
  assert (fl = [(3229614184, 3992)]) as ->; [|exact Hinv].
  eapply lseg_unique; [exact (inv_list Hinv)|]. vm_compute. split_and!; congruence.
Qed.

Lemma memory_allocate_safe_witness : exists r h',
  memory_allocate sample_fuel 100 (boot_heap ∅ pfa_empty) = Ok (r, h') /\
  allocated 100 104 (boot_heap ∅ pfa_empty) [] r h'.
Proof.
  destruct (memory_allocate_safe (boot_heap ∅ pfa_empty) [] [] 100 sample_fuel)
    as (r & h' & E & Hr); [apply empty_heap_inv|done|split; vm_compute; lia
    |vm_compute; lia|reflexivity|by right|].
  exists r, h'. split; [exact E|]. destruct Hr as [(-> & _)|Hr]; [|exact Hr].
  exfalso. vm_compute in E. congruence.
Defined.

(** The first of two blocks is freed. *)
Lemma two_blocks_inv :
  heap_inv two_blocks [(3229614388, 3788)] [(3229614184, 204); (heap_start, 104)].
Proof.
  destruct (sample_allocate_inv one_block _ _ 200 3229614188 one_block_inv)
    as (s & fl & Hs & _ & Hinv & _); [done|cbn; lia|vm_compute; reflexivity
    |left; constructor; vm_compute; congruence|vm_compute; reflexivity|done|].
  assert (s = 3229614184) as -> by lia. fold two_blocks in Hinv.
  assert (fl = [(3229614388, 3788)]) as ->; [|exact Hinv].
  eapply lseg_unique; [exact (inv_list Hinv)|]. vm_compute. split_and!; congruence.
Qed.

Lemma memory_free_safe_witness : exists pre post h',
  [(3229614388, 3788)] = pre ++ post /\
  memory_free 100 (heap_start + 4) two_blocks = Ok h' /\
  heap_inv h' (insert_list pre heap_start 104 post) [(3229614184, 204)].
Proof.
  destruct (memory_free_safe two_blocks _ [(3229614184, 204)] heap_start 104 [] 100
    two_blocks_inv) as (pre & post & h' & E & _ & _ & Hf & Hinv & _);
    [vm_compute; congruence|constructor; reflexivity|cbn; lia|].
  exists pre, post, h'. split; [exact E|]. split; [exact Hf|exact Hinv].
Defined.

Lemma allocate_free_restores_witness : exists h1 h2,
  memory_allocate 100 200 one_block = Ok (3229614188, h1) /\
  memory_free 100 3229614188 h1 = Ok h2 /\
  heap_inv h2 [(3229614184, 3992)] [(heap_start, 104)].
Proof.
  apply (allocate_free_restores one_block [] 3229614184 3992 [] _ 200 100 one_block_inv);
    [done|reflexivity|by constructor|done|by constructor|cbn; lia].
Defined.

(** The first block is freed and the rest of the page allocated. *)
Definition first_freed : heap pfa :=
  match memory_free 100 (heap_start + 4) two_blocks with Ok h => h | Err _ => two_blocks end.
Definition top_used : heap pfa := heap_after (memory_allocate sample_fuel 3784 first_freed).

Lemma first_freed_inv :
  heap_inv first_freed [(heap_start, 104); (3229614388, 3788)] [(3229614184, 204)].
Proof.
  destruct (memory_free_ok two_blocks _ [(3229614184, 204)] heap_start 104 [] 100
    two_blocks_inv) as (pre & post & h' & E & _ & _ & Hf & Hinv & _);
    [vm_compute; congruence|constructor; reflexivity|cbn; lia|].
  unfold first_freed. rewrite Hf. cbn [app] in Hinv.
  assert (insert_list pre heap_start (ld32 (h_mem two_blocks) heap_start) post =
    [(heap_start, 104); (3229614388, 3788)]) as <-; [|exact Hinv].
  assert (h' = first_freed) as -> by (unfold first_freed; by rewrite Hf).
  eapply lseg_unique; [exact (inv_list Hinv)|]. vm_compute. split_and!; congruence.
Qed.

Lemma top_used_inv :
  heap_inv top_used [(heap_start, 104)] [(3229614388, 3788); (3229614184, 204)].
Proof.
  destruct (sample_allocate_inv first_freed _ _ 3784 3229614392 first_freed_inv)
    as (s & fl & Hs & _ & Hinv & _); [done|cbn; lia|vm_compute; reflexivity
    |left; constructor 2; constructor; vm_compute; congruence|vm_compute; reflexivity|done|].
  assert (s = 3229614388) as -> by lia. fold top_used in Hinv.
  assert (fl = [(heap_start, 104)]) as ->; [|exact Hinv].
  eapply lseg_unique; [exact (inv_list Hinv)|]. vm_compute. split_and!; congruence.
Qed.

Lemma memory_free_hangs_witness : memory_free 1000 (3229614388 + 4) top_used = Err OutOfFuel.
Proof.
  apply (memory_free_hangs top_used [(heap_start, 104)] [(3229614184, 204)] 3229614388 3788);
    [exact top_used_inv|discriminate|repeat constructor].
Defined.
End witnesses.
