(* ===== verification/AllocatorSession.v ===== *)
(** * The allocator over whole sessions

    What the allocator of src/src/std/memory.c promises to a kernel that goes on
    allocating and freeing: the free list is that of a first-fit allocator on
    lists ([arena]), live blocks keep what was written to them, and when
    everything has been freed one segment is left, whatever the order. This is
    what the allocator tests of src/src/tests/tests.c try three orders of. *)
From S2P Require Import Prelude Memory PageFrames Allocator.

#[local] Open Scope Z_scope.

(** ** Growing the heap, exactly *)

(** The length of the last segment when pages have been added until [ts] bytes
    fit. *)
Definition grown_len (ts len : Z) : Z := len + (ts - len + 4095) / 4096 * 4096.

Section grows.
Context {P : Type} `{FS : FrameSource P} `{FSO : !FrameSourceOk P}.
Implicit Types (h : heap P).

(** With no segment long enough and the last one at the end of the heap: a page
    cannot be had, and the list stays as it was; or the last segment grows by as
    many pages as are needed, and the block is cut from it. *)
Lemma allocate_from_grows h pre s len bl size ts fuel :
  heap_inv h (pre ++ [(s, len)]) bl -> 8 <= ts -> ts mod 4 = 0 ->
  too_small ts (pre ++ [(s, len)]) -> s + len = next_page_virt_addr h ->
  alloc_fuel ts (pre ++ [(s, len)]) fuel -> next_page_virt_addr h + ts + 8192 < 4294967296 ->
  let l := grown_len ts len in
  exists r h', allocate_from fuel size ts h = Ok (r, h') /\
    ((r = 0 /\ fs_full (h_frames h') /\ heap_inv h' (pre ++ [(s, len)]) bl) \/
     (r = s + 4 /\ exists h1, h_mem h1 = set_len (h_mem h) s l /\
        next_page_virt_addr h1 = next_page_virt_addr h + (l - len) /\
        heap_inv h1 (pre ++ [(s, l)]) bl /\ cut_out size ts h1 bl pre s l [] h')).
Proof.
  intros Hinv Ht H4 Hsm Htail [Hf1 Hf2] Hmax l.
  pose proof (fl_ok_le _ _ _ (inv_sorted Hinv)) as Hhs. unfold allocate_from.
  assert (0 < heap_start) as Hh0 by (unfold heap_start; pf_unfold; lia).
  destruct (search_ok (h_mem h) ts (free_segments_head h) _ fuel (inv_list Hinv))
    as (r & -> & Hr); [lia|done|]. rewrite bind_Ok_r.
  destruct Hr as [(pre' & s' & len' & post' & pp & E & _ & Hle & _)|[_ ->]].
  { exfalso. rewrite E in Hsm. apply Forall_app in Hsm as [_ Hsm]. inversion_clear Hsm. lia. }
  rewrite removelast_last, last_addr_snoc.
  pose proof (inv_list Hinv) as Hl. apply lseg_app in Hl as (b & _ & (-> & Hnz & Hlen & _)).
  cbv beta iota. cbn [Z.eqb]. destruct (Z.eqb_spec s 0); [done|]. cbn [negb]. res_step.
  rewrite Hlen. destruct (inv_next Hinv) as [Hn4 Hn].
  pose proof (ld32_range (h_mem h) (s + 4)) as Hlr. fold (seg_len (h_mem h) s) in Hlr. rewrite Hlen in Hlr.
  destruct (grow_ok ts len (next_page_virt_addr h) (h_frames h) fuel (inv_frames Hinv))
    as ([ok [[l' nx] q]] & -> & Hgr & Hok); [lia..|]. res_step. cbn [fst snd] in Hgr, Hok.
  assert (len < ts) by (apply Forall_app in Hsm as [_ Hsm]; by inversion_clear Hsm).
  pose proof Hgr as (j & Hj & El & Enx & _ & Hsmall & _).
  assert (l' < ts + 4096) as Hlts by (destruct Hsmall; lia). assert (nx < 4294967296) as Hnx by lia.
  destruct ok; cbv beta iota; cbn [negb].
  - assert (l' = l) as -> by (unfold l, grown_len; zmod).
    cbn [h_mem]. rewrite seg_len_set_len, !w32_id by (unfold is_u32; lia).
    destruct (grow_inv h pre s len bl ts l nx q Hinv Htail Hgr Hnx) as [Hinv' _].
    destruct (take_exact _ bl size ts pre s l [] Hinv') as (h' & -> & Hcut); [done|done|].
    exists (s + 4), h'. split; [done|right]. split; [done|]. eexists. split_and!; [| |exact Hinv'|exact Hcut]; [done|cbn; lia].
  - eexists 0, _. split; [done|left]. split; [done|]. split; [exact Hok|]. by eapply more_pages_inv.
Qed.
End grows.

(** ** A first-fit allocator on lists *)

(** The first segment of at least [ts] bytes, with what stands around it. *)
Fixpoint first_fit (ts : Z) (fl : list seg) : option (list seg * seg * list seg) :=
  match fl with
  | [] => None
  | sg :: fl' =>
      if ts <=? sg.2 then Some ([], sg, fl') else
      '(pre, found, post) ← first_fit ts fl'; Some (sg :: pre, found, post)
  end.

(** A live block: where its header is, its length with the header, and what was
    written into it. *)
Record block : Type := Block { bk_addr : Z; bk_size : Z; bk_data : option (list Z) }.

Record arena : Type := Arena { ar_free : list seg; ar_next : Z; ar_live : list block }.
Definition boot_arena : arena := Arena [] heap_start [].

(** The first page, when there is no free segment; more pages, when no segment
    has [ts] bytes; and cutting the block. *)
Definition ar_open (A : arena) : arena :=
  match ar_free A with
  | [] => Arena [(ar_next A, 4096)] (ar_next A + 4096) (ar_live A)
  | _ => A
  end.
Definition ar_room (ts : Z) (A : arena) : arena :=
  match first_fit ts (ar_free A), last (ar_free A) with
  | None, Some (s, len) =>
      let l := grown_len ts len in
      Arena (removelast (ar_free A) ++ [(s, l)]) (ar_next A + (l - len)) (ar_live A)
  | _, _ => A
  end.
Definition ar_cut (ts : Z) (A : arena) : arena :=
  match first_fit ts (ar_free A) with
  | Some (pre, (s, len), post) =>
      Arena (pre ++ leftover ts (s, len) ++ post) (ar_next A) (Block s ts None :: ar_live A)
  | None => A
  end.
Definition ar_alloc (size : Z) (A : arena) : arena :=
  ar_cut (size + 4) (ar_room (size + 4) (ar_open A)).

Definition below (a : Z) (fl : list seg) : list seg := List.filter (fun sg => sg.1 <? a) fl.
Definition above (a : Z) (fl : list seg) : list seg := List.filter (fun sg => negb (sg.1 <? a)) fl.

Definition ar_release (i : nat) (A : arena) : arena :=
  match ar_live A !! i with
  | Some b => let a := bk_addr b in
      Arena (insert_list (below a (ar_free A)) a (bk_size b) (above a (ar_free A))) (ar_next A)
        (delete i (ar_live A))
  | None => A
  end.

Definition ar_fill (i : nat) (bytes : list Z) (A : arena) : arena :=
  match ar_live A !! i with
  | Some b => Arena (ar_free A) (ar_next A) (<[i := Block (bk_addr b) (bk_size b) (Some bytes)]> (ar_live A))
  | None => A
  end.

(** ** Sessions *)

(** What a client asks for; [i] counts its live blocks, the youngest first. *)
Inductive demand : Type :=
  | Alloc (size : Z)
  | Free (i : nat)
  | Fill (i : nat) (bytes : list Z).

Definition ar_step (d : demand) (A : arena) : arena :=
  match d with
  | Alloc size => ar_alloc size A
  | Free i => ar_release i A
  | Fill i bytes => ar_fill i bytes A
  end.
Definition ar_run (ds : list demand) (A : arena) : arena := foldl (flip ar_step) A ds.

(** Where the last segment ends. *)
Definition end_of (lo : Z) (fl : list seg) : Z :=
  match last fl with Some (a, len) => a + len | None => lo end.

(** The last free segment ends the heap. *)
Definition has_top (A : arena) : Prop := ar_free A <> [] /\ end_of heap_start (ar_free A) = ar_next A.

(** No 4 bytes are left over that cannot hold a segment. *)
Definition clean_cut (ts : Z) (A : arena) : Prop :=
  match first_fit ts (ar_free A) with Some (_, sg, _) => sg.2 <> ts + 4 | None => True end.

(** What may be asked: whole words, so that no bytes are lost to rounding or to a
    rest too small, of which the last free segment survives; freeing a live
    block; filling one. *)
Definition sensible (d : demand) (A : arena) : Prop :=
  match d with
  | Alloc size => 4 <= size /\ size mod 4 = 0 /\ ar_next A + size + 16384 < 4294967296 /\
      clean_cut (size + 4) (ar_room (size + 4) (ar_open A)) /\ has_top (ar_alloc size A)
  | Free i => (i < length (ar_live A))%nat
  | Fill i bytes =>
      match ar_live A !! i with
      | Some b => Z.of_nat (length bytes) = bk_size b - 4 /\ Forall is_u8 bytes
      | None => False
      end
  end.
Fixpoint all_sensible (ds : list demand) (A : arena) : Prop :=
  match ds with [] => True | d :: ds => sensible d A /\ all_sensible ds (ar_step d A) end.

Section sessions.
Context {P : Type} `{FS : FrameSource P}.

(** The client keeps the addresses it was given; false when one of them is 0,
    with which it gives up. *)
Definition obey (fuel : nat) (d : demand) (st : heap P * list Z) : res (bool * (heap P * list Z)) :=
  let '(h, ptrs) := st in
  match d with
  | Alloc size => '(a, h) ← memory_allocate fuel size h; Ok (negb (a =? 0), (h, a :: ptrs))
  | Free i =>
      match ptrs !! i with
      | Some a => h ← memory_free fuel a h; Ok (true, (h, delete i ptrs))
      | None => Ok (true, st)
      end
  | Fill i bytes =>
      match ptrs !! i with
      | Some a => Ok (true, (Heap (st_bytes (h_mem h) a bytes) (free_segments_head h)
          (next_page_virt_addr h) (h_frames h), ptrs))
      | None => Ok (true, st)
      end
  end.
Fixpoint obey_all (fuel : nat) (ds : list demand) (st : heap P * list Z)
  : res (bool * (heap P * list Z)) :=
  match ds with
  | [] => Ok (true, st)
  | d :: ds => '(ok, st) ← obey fuel d st; if (ok : bool) then obey_all fuel ds st else Ok (false, st)
  end.
End sessions.

(** The allocator of the model run against the one on lists, for the first of the
    kernel's tests. *)
Definition test_demands : list demand :=
  map (fun i => Alloc ((Z.of_nat i + 1) * 32 - 4)) (seq 0 100) ++ repeat (Free 0) 100.

Example test_arena : ar_run test_demands boot_arena = Arena [(heap_start, 163840)] (heap_start + 163840) [].
Proof. vm_compute. reflexivity. Qed.

(** ** Lists of segments that do not touch *)

(** Above [lo] with a gap before each, in whole words and of 8 bytes at least. *)
Fixpoint spaced (lo : Z) (fl : list seg) : Prop :=
  match fl with
  | [] => True
  | (a, len) :: fl' => lo < a /\ 8 <= len /\ len mod 4 = 0 /\ spaced (a + len) fl'
  end.

Definition total (fl : list seg) : Z := foldr (fun sg n => sg.2 + n) 0 fl.

Lemma end_of_cons lo a len fl : end_of lo ((a, len) :: fl) = end_of (a + len) fl.
Proof. unfold end_of. rewrite last_cons. by destruct (last fl) as [[]|]. Qed.

Lemma end_of_snoc lo fl a len : end_of lo (fl ++ [(a, len)]) = a + len.
Proof. unfold end_of. by rewrite last_snoc. Qed.

Lemma spaced_app lo fl1 fl2 : spaced lo (fl1 ++ fl2) <-> spaced lo fl1 /\ spaced (end_of lo fl1) fl2.
Proof.
  revert lo; induction fl1 as [|[a len] fl1 IH]; intros lo; cbn [app spaced].
  - unfold end_of. cbn. tauto.
  - rewrite IH, end_of_cons. tauto.
Qed.

Lemma spaced_lower lo lo' fl : lo' <= lo -> spaced lo fl -> spaced lo' fl.
Proof. destruct fl as [|[a len] fl]; cbn; [done|]. intros ? (? & ?). split; [lia|done]. Qed.

Lemma end_of_le lo fl : spaced lo fl -> lo <= end_of lo fl.
Proof.
  revert lo; induction fl as [|[a len] fl IH]; intros lo; [unfold end_of; cbn; lia|].
  cbn [spaced]. rewrite end_of_cons. intros (? & ? & _ & H). specialize (IH _ H). lia.
Qed.

Lemma end_of_app lo fl1 fl2 : end_of lo (fl1 ++ fl2) = end_of (end_of lo fl1) fl2.
Proof. unfold end_of. rewrite last_app. by destruct (last fl2) as [[]|]. Qed.

Lemma end_of_any lo lo' fl : fl <> [] -> end_of lo fl = end_of lo' fl.
Proof. destruct fl as [|[a len] fl]; [done|]. by rewrite !end_of_cons. Qed.

Lemma total_app fl1 fl2 : total (fl1 ++ fl2) = total fl1 + total fl2.
Proof. unfold total. induction fl1 as [|[a len] fl1 IH]; cbn in *; [done|]. rewrite IH. lia. Qed.

Lemma spaced_end lo hi a fl : fl_ok lo hi fl -> spaced a fl -> a <= lo -> end_of a fl <= hi.
Proof.
  revert lo a; induction fl as [|[b len] fl IH]; intros lo a; [unfold end_of; cbn; lia|]. cbn [fl_ok spaced].
  rewrite end_of_cons. intros (? & _ & _ & H) (? & ? & _ & Hs) Ha. unfold extent in H. rewrite Z.max_r in H by lia.
  eapply (IH _ _ H Hs). lia.
Qed.

Lemma spaced_raise lo hi a fl : fl_ok lo hi fl -> spaced a fl -> spaced (lo - 1) fl.
Proof. destruct fl as [|[b len] fl]; [done|]. cbn. intros (? & _) (_ & ?). split; [lia|done]. Qed.

Lemma total_le lo hi a fl : fl_ok lo hi fl -> spaced a fl -> total fl <= hi - lo.
Proof.
  revert lo a; induction fl as [|[b len] fl IH]; intros lo a; cbn [fl_ok spaced]; [unfold total; cbn; lia|].
  intros (? & _ & _ & H) (? & ? & _ & Hs). unfold extent in H. rewrite Z.max_r in H by lia.
  specialize (IH _ _ H Hs). unfold total in *. cbn. lia.
Qed.

(** Segments that do not touch and fill a range are one segment. *)
Lemma spaced_full lo hi a fl : fl_ok lo hi fl -> spaced a fl -> total fl = hi - lo ->
  fl = [] \/ fl = [(lo, hi - lo)].
Proof.
  destruct fl as [|[b len] fl]; [by left|]. cbn [fl_ok spaced]. intros (Hb & _ & _ & H) (_ & ? & _ & Hs) E.
  unfold extent in H. rewrite Z.max_r in H by lia. pose proof (total_le _ _ _ _ H Hs) as Hle.
  unfold total in *. cbn in E. fold (total fl) in *. right. destruct fl as [|[c l] fl].
  - cbn in *. repeat f_equal; lia.
  - cbn [fl_ok spaced] in H, Hs. destruct H as (_ & _ & _ & H), Hs as (Hc & ? & _ & Hs).
    unfold extent in H. rewrite Z.max_r in H by lia. pose proof (total_le _ _ _ _ H Hs).
    unfold total in *. cbn in *. lia.
Qed.

(** ** Cutting and joining *)

Lemma first_fit_Some ts fl pre sg post : first_fit ts fl = Some (pre, sg, post) ->
  fl = pre ++ sg :: post /\ too_small ts pre /\ ts <= sg.2.
Proof.
  revert pre; induction fl as [|[a len] fl IH]; intros pre; cbn; [done|].
  destruct (Z.leb_spec ts len).
  - intros [= <- <- <-]. split_and!; [done|by constructor|done].
  - destruct (first_fit ts fl) as [[[pre' sg'] post']|] eqn:E; [|done]. cbn. intros [= <- -> ->].
    destruct (IH pre' eq_refl) as (-> & Hs & Hl). split_and!; [done|by constructor|done].
Qed.

Lemma first_fit_None ts fl : first_fit ts fl = None -> too_small ts fl.
Proof.
  induction fl as [|[a len] fl IH]; cbn; [by constructor|]. destruct (Z.leb_spec ts len); [done|].
  destruct (first_fit ts fl) as [[[? ?] ?]|]; [done|]. intros _. constructor; [done|by apply IH].
Qed.

Lemma first_fit_here ts pre s len post : too_small ts pre -> ts <= len ->
  first_fit ts (pre ++ (s, len) :: post) = Some (pre, (s, len), post).
Proof.
  intros Hp Hl. induction Hp as [|[a l] pre Ha Hp IH]; cbn.
  - by destruct (Z.leb_spec ts len); [|lia].
  - destruct (Z.leb_spec ts l); [lia|]. by rewrite IH.
Qed.

Lemma leftover_spaced lo ts s len post : spaced lo ((s, len) :: post) -> 8 <= ts <= len -> ts mod 4 = 0 ->
  len <> ts + 4 ->
  spaced lo (leftover ts (s, len) ++ post) /\ total (leftover ts (s, len)) = len - ts.
Proof.
  cbn [spaced]. intros (? & ? & ? & Hp) Ht Hm Hne. unfold leftover. cbn [fst snd].
  destruct (Z.leb_spec (ts + 8) len); cbn.
  - split_and!; [lia|lia|zmod| |lia]. by replace (s + ts + (len - ts)) with (s + len) by lia.
  - assert (len = ts) as -> by zmod. split; [|lia]. eapply spaced_lower; [|exact Hp]. lia.
Qed.

Lemma grown_len_spec ts len : len < ts -> ts mod 4 = 0 -> len mod 4 = 0 ->
  ts <= grown_len ts len < ts + 4096 /\ grown_len ts len mod 4 = 0.
Proof. intros. unfold grown_len. zmod. Qed.

Lemma below_above a pre post : Forall (fun '(s, _) => s < a) pre -> Forall (fun '(s, _) => a <= s) post ->
  below a (pre ++ post) = pre /\ above a (pre ++ post) = post.
Proof.
  intros Hp Hq. unfold below, above. induction Hp as [|[s l] pre Hs Hp [IH1 IH2]]; cbn.
  - induction Hq as [|[s l] post Hs Hq [IH1 IH2]]; [done|]. cbn.
    destruct (Z.ltb_spec s a); [lia|]. cbn. by rewrite IH1, IH2.
  - destruct (Z.ltb_spec s a); [|lia]. cbn. by rewrite IH1, IH2.
Qed.

(** Putting a block back joins it with what it touches. *)
Lemma coalesce_next_spaced a n post l post' : coalesce_next a n post = (l, post') ->
  8 <= n -> n mod 4 = 0 -> spaced (a + n - 1) post ->
  8 <= l /\ l mod 4 = 0 /\ spaced (a + l) post' /\ l + total post' = n + total post /\
  end_of (a + l) post' = end_of (a + n) post.
Proof.
  intros E Hn Hm Hpost. destruct post as [|[b blen] post]; cbn [coalesce_next] in E; [by injection E as <- <-|].
  cbn [spaced] in Hpost. destruct Hpost as (Hb & Hbl & Hbm & Hpo).
  destruct (Z.eqb_spec (a + n) b) as [<-|Hnb]; injection E as <- <-; [|split_and!; try done; cbn; split_and!; (done || lia)].
  replace (a + (n + blen)) with (a + n + blen) by lia. rewrite end_of_cons.
  split_and!; [lia|zmod|done|unfold total; cbn; lia|done].
Qed.

Lemma coalesce_prev_spaced lo pre a l : spaced lo pre -> lo < a -> end_of lo pre <= a -> 8 <= l -> l mod 4 = 0 ->
  let fl := coalesce_prev pre a l in
  spaced lo fl /\ end_of lo fl = a + l /\ total fl = total pre + l.
Proof.
  intros Hpre Hlo Hend Hl Hm fl. unfold fl, coalesce_prev. destruct pre as [|[p plen] pre _] using rev_ind.
  - cbn. unfold end_of, total. cbn. split_and!; (done || lia).
  - rewrite last_snoc, end_of_snoc in *. apply spaced_app in Hpre as [Hpre Hp]. cbn [spaced] in Hp.
    destruct Hp as (Hp1 & Hp2 & Hp3 & _). rewrite removelast_last.
    destruct (Z.eqb_spec (p + plen) a) as [<-|Hpa]; rewrite ?total_app, end_of_snoc;
      unfold total; cbn [foldr snd]; (split_and!; [|idtac..]); try lia.
    + apply spaced_app. split; [done|]. cbn. split_and!; [done|lia|zmod|done].
    + rewrite spaced_app, end_of_snoc, spaced_app. cbn. split_and!; (done || lia).
Qed.

Lemma insert_list_spaced lo pre a n post : spaced lo (pre ++ post) -> lo < a -> end_of lo pre <= a ->
  8 <= n -> n mod 4 = 0 -> spaced (a + n - 1) post ->
  let fl := insert_list pre a n post in
  spaced lo fl /\ end_of lo fl = end_of (a + n) post /\ total fl = total (pre ++ post) + n.
Proof.
  intros [Hpre _]%spaced_app Hlo Hend Hn Hm Hpost fl. unfold fl, insert_list.
  destruct (coalesce_next a n post) as [l post'] eqn:E.
  destruct (coalesce_next_spaced _ _ _ _ _ E Hn Hm Hpost) as (Hl & Hlm & Hs & Ht & He).
  destruct (coalesce_prev_spaced lo pre a l Hpre Hlo Hend Hl Hlm) as (Hs1 & He1 & Ht1).
  rewrite spaced_app, end_of_app, He1, !total_app. split_and!; (done || lia).
Qed.

Lemma insert_list_length pre a n post : (length (insert_list pre a n post) <= S (length pre + length post))%nat.
Proof.
  unfold insert_list. destruct (coalesce_next a n post) as [l post'] eqn:E.
  assert (length post' <= length post)%nat as H.
  { destruct post as [|[b blen] post]; cbn in E; [by injection E as <- <-|].
    destruct (_ =? _); injection E as <- <-; cbn; lia. }
  rewrite length_app. unfold coalesce_prev. destruct pre as [|[p plen] pre _] using rev_ind; [cbn; lia|].
  rewrite last_snoc, removelast_last. destruct (_ =? _); rewrite !length_app; cbn; lia.
Qed.

Lemma below_above_length a fl : (length (below a fl) + length (above a fl) = length fl)%nat.
Proof. unfold below, above. induction fl as [|sg fl IH]; [done|]. cbn. destruct (_ <? _); cbn; lia. Qed.

(** ** The heap of an arena *)

Definition blocks (A : arena) : list (Z * Z) := map (fun b => (bk_addr b, bk_size b)) (ar_live A).

(** The header and what was written. *)
Definition block_ok (m : mem) (b : block) : Prop :=
  bk_size b mod 4 = 0 /\ ld32 m (bk_addr b) = bk_size b /\
  match bk_data b with
  | Some d => bytes_at m (bk_addr b + 4) (Z.to_nat (bk_size b - 4)) = d
  | None => True
  end.

Lemma block_ok_frame m m' b : (forall x, bk_addr b <= x < bk_addr b + bk_size b -> ld8 m' x = ld8 m x) ->
  8 <= bk_size b -> block_ok m b -> block_ok m' b.
Proof.
  intros Hfr H8 (Hm & Hh & Hd). split_and!; [done| |].
  - rewrite <- Hh. apply ld32_frame. intros x Hx. apply Hfr. lia.
  - destruct (bk_data b) as [d|]; [|done]. rewrite <- Hd. apply bytes_at_ext. intros x Hx. apply Hfr. lia.
Qed.

Section keeping.
Context {P : Type} `{FS : FrameSource P} `{FSO : !FrameSourceOk P}.
Implicit Types (h : heap P) (A : arena).

Record keeps h (ptrs : list Z) A : Prop := {
  kp_heap : heap_inv h (ar_free A) (blocks A);
  kp_next : next_page_virt_addr h = ar_next A;
  kp_ptrs : ptrs = map (fun b => bk_addr b + 4) (ar_live A);
  kp_blocks : Forall (block_ok (h_mem h)) (ar_live A);
  kp_spaced : spaced (heap_start - 1) (ar_free A);
  kp_total : total (ar_free A) + total (blocks A) = ar_next A - heap_start;
  kp_top : has_top A \/ ar_free A = [] /\ ar_live A = [];
}.

(** The bytes of a live block are in no free segment. *)
Lemma live_block h ptrs A b : keeps h ptrs A -> b ∈ ar_live A ->
  heap_start <= bk_addr b /\ 8 <= bk_size b /\ bk_addr b + bk_size b <= ar_next A /\
  avoids (ar_free A) (bk_addr b) (bk_size b) /\ block_ok (h_mem h) b.
Proof.
  intros Hk Hin. pose proof (inv_blocks (kp_heap _ _ _ Hk)) as Hb. unfold blocks in Hb. rewrite Forall_map in Hb.
  pose proof (kp_blocks _ _ _ Hk) as Ho. rewrite Forall_forall in Hb, Ho. specialize (Hb _ Hin). specialize (Ho _ Hin).
  cbn in Hb. rewrite (kp_next _ _ _ Hk) in Hb. tauto.
Qed.

(** Memory that differs only where no live block is. *)
Lemma blocks_frame h ptrs A m' : keeps h ptrs A ->
  (forall x n, avoids (ar_free A) x n -> heap_start <= x -> x + n <= ar_next A ->
    forall y, x <= y < x + n -> ld8 m' y = ld8 (h_mem h) y) ->
  Forall (block_ok m') (ar_live A).
Proof.
  intros Hk Hfr. apply Forall_forall. intros b Hin.
  destruct (live_block _ _ _ _ Hk Hin) as (H1 & H2 & H3 & H4 & H5).
  eapply block_ok_frame; [|done|exact H5]. by apply Hfr.
Qed.

Lemma keeps_open h ptrs A p : keeps h ptrs A -> ar_free A = [] -> ar_next A + 4096 < 4294967296 -> fs_ok p ->
  (forall a, in_heap a -> fs_maps p a <->
     (true = true /\ a / 4096 = next_page_virt_addr h / 4096) \/ fs_maps (h_frames h) a) ->
  let next := next_page_virt_addr h in
  keeps (Heap (set_len (set_next (h_mem h) next 0) next PAGE_SIZE) next (w32 (next + PAGE_SIZE)) p)
    ptrs (ar_open A).
Proof.
  intros Hk E Hmax Hp Hm next. unfold ar_open. rewrite E.
  pose proof (kp_heap _ _ _ Hk) as Hinv. rewrite E in Hinv.
  destruct (first_page_inv h _ p Hinv) as [Hinv' Hkept]; [by rewrite (kp_next _ _ _ Hk)|done|exact Hm|].
  destruct (kp_top _ _ _ Hk) as [[? _]|[_ El]]; [done|]. pose proof (kp_total _ _ _ Hk) as Ht.
  destruct (inv_next Hinv) as [H4 _]. pose proof (inv_sorted Hinv) as Hs. cbn in Hs.
  pose proof (kp_ptrs _ _ _ Hk) as Hptr. unfold blocks in *. rewrite El, E in *. unfold total in Ht. cbn in Ht.
  unfold next. rewrite (kp_next _ _ _ Hk) in *. unfold heap_start in *. pf_unfold.
  split; cbn [ar_free ar_next ar_live h_mem next_page_virt_addr map]; rewrite ?w32_id by (unfold is_u32; lia);
    [|done|done|done|cbn; unfold heap_start; pf_unfold; split_and!; (done || lia)|unfold total; cbn; unfold heap_start; pf_unfold; lia|left].
  - by rewrite w32_id in Hinv' by (unfold is_u32; lia).
  - split; [done|]. unfold end_of. done.
Qed.

(** The last segment longer. *)
Lemma keeps_room h h1 ptrs A ts pre s len : keeps h ptrs A -> has_top A -> ts mod 4 = 0 ->
  ar_free A = pre ++ [(s, len)] -> too_small ts (ar_free A) ->
  let l := grown_len ts len in
  h_mem h1 = set_len (h_mem h) s l -> next_page_virt_addr h1 = next_page_virt_addr h + (l - len) ->
  heap_inv h1 (pre ++ [(s, l)]) (blocks A) ->
  ar_room ts A = Arena (pre ++ [(s, l)]) (ar_next A + (l - len)) (ar_live A) /\ keeps h1 ptrs (ar_room ts A).
Proof.
  intros Hk [_ Htop] Hm4 E Hsm l Hmem Hnext Hinv.
  assert (first_fit ts (ar_free A) = None) as Eff.
  { destruct (first_fit ts (ar_free A)) as [[[q sg] q']|] eqn:Eff; [|done]. exfalso.
    apply first_fit_Some in Eff as (Ef & _ & Hle). unfold too_small in Hsm. rewrite Ef, Forall_app, Forall_cons in Hsm.
    destruct Hsm as (_ & Hsm & _), sg. cbn in *. lia. }
  pose proof (kp_spaced _ _ _ Hk) as Hs. rewrite E in Hs. apply spaced_app in Hs as [Hs1 (Hs2 & Hs3 & Hs4 & _)].
  assert (len < ts) as Hlt by (unfold too_small in Hsm; rewrite E, Forall_app, Forall_singleton in Hsm; tauto).
  destruct (grown_len_spec ts len Hlt Hm4 Hs4) as [Hl Hl4]. fold l in Hl, Hl4.
  unfold ar_room. rewrite Eff, E, last_snoc, removelast_last. fold l. split; [done|].
  rewrite E, end_of_snoc in Htop. pose proof (kp_total _ _ _ Hk) as Ht. rewrite E, total_app in Ht.
  split; unfold blocks in *; cbn [ar_free ar_next ar_live]; [done|by rewrite Hnext, (kp_next _ _ _ Hk)|apply Hk| | | |left].
  - apply (blocks_frame h ptrs A); [done|]. intros x n Hav _ _ y Hy. rewrite Hmem. apply ld8_set_len.
    rewrite E in Hav. apply avoids_app in Hav as [_ Hav]. inversion_clear Hav as [|? ? Ha _]. unfold extent in Ha. lia.
  - apply spaced_app. split; [done|]. cbn. split_and!; (done || lia).
  - rewrite total_app. unfold total in *. cbn in *. lia.
  - split; [by destruct pre|]. cbn. rewrite end_of_snoc. lia.
Qed.

(** The block cut. *)
Lemma keeps_cut h h' ptrs A size pre s len post : keeps h ptrs A ->
  first_fit (size + 4) (ar_free A) = Some (pre, (s, len), post) -> 4 <= size -> size mod 4 = 0 ->
  size + 4 < 4294967296 -> clean_cut (size + 4) A ->
  cut_out size (size + 4) h (blocks A) pre s len post h' -> has_top (ar_cut (size + 4) A) ->
  keeps h' (s + 4 :: ptrs) (ar_cut (size + 4) A).
Proof.
  intros Hk Eff Hsz Hm Hmax Hcl (Hhd & Hnext & Hinv & _ & Hfr) Htop.
  unfold clean_cut in Hcl. rewrite Eff in Hcl. cbn in Hcl.
  pose proof (first_fit_Some _ _ _ _ _ Eff) as (E & _ & Hle). cbn in Hle.
  revert Htop. unfold ar_cut. rewrite Eff. intros Htop.
  pose proof (kp_spaced _ _ _ Hk) as Hs. rewrite E in Hs. apply spaced_app in Hs as [Hs1 Hs2].
  destruct (leftover_spaced _ (size + 4) s len post Hs2) as [Hs3 Hlt]; [lia|zmod|done|].
  pose proof (kp_total _ _ _ Hk) as Ht. rewrite E, total_app in Ht.
  split; unfold blocks in *; cbn [ar_free ar_next ar_live map bk_addr bk_size];
    [done|by rewrite Hnext, (kp_next _ _ _ Hk)|by rewrite (kp_ptrs _ _ _ Hk)| | | |by left].
  - constructor.
    + split_and!; cbn; [zmod|by rewrite Hhd, w32_id by (unfold is_u32; lia)|done].
    + apply (blocks_frame h ptrs A); [done|]. intros x n Hav _ _. apply Hfr.
      rewrite E, avoids_app in Hav. destruct Hav as [Ha1 Ha2]. apply avoids_app. split; [done|].
      inversion_clear Ha2. by apply Forall_singleton.
  - apply spaced_app. by split.
  - rewrite !total_app, Hlt. unfold total in *. cbn in *. lia.
Qed.

(** [memory_allocate] from the search on, with a segment at the end of the heap. *)
Lemma allocate_from_keeps h ptrs A size fuel : keeps h ptrs A -> has_top A ->
  4 <= size -> size mod 4 = 0 -> ar_next A + size + 12288 < 4294967296 ->
  clean_cut (size + 4) (ar_room (size + 4) A) ->
  has_top (ar_cut (size + 4) (ar_room (size + 4) A)) ->
  (length (ar_free A) < fuel)%nat -> (Z.to_nat (size + 4100) < fuel)%nat ->
  exists r h', allocate_from fuel size (size + 4) h = Ok (r, h') /\
    ((r = 0 /\ fs_full (h_frames h') /\ exists fl, heap_inv h' fl (blocks A)) \/
     (r <> 0 /\ keeps h' (r :: ptrs) (ar_cut (size + 4) (ar_room (size + 4) A)))).
Proof.
  intros Hk Htop Hsz Hm Hmax Hcl Htop' Hf1 Hf2.
  assert ((size + 4) mod 4 = 0) as Hm4 by (clear -Hm; zmod).
  pose proof (kp_heap _ _ _ Hk) as Hinv.
  pose proof (fl_ok_le _ _ _ (inv_sorted Hinv)) as Hhs. rewrite (kp_next _ _ _ Hk) in Hhs.
  assert (forall s len pre post, ar_free A = pre ++ (s, len) :: post -> s + 4 <> 0) as Hnz.
  { intros s len pre post E. pose proof (inv_sorted Hinv) as Hok. rewrite E in Hok.
    apply fl_ok_Forall, Forall_app in Hok as [_ Hok]. inversion_clear Hok. unfold heap_start in *. pf_unfold. lia. }
  assert (0 < heap_start) by (unfold heap_start; pf_unfold; lia).
  destruct (first_fit (size + 4) (ar_free A)) as [[[pre [s len]] post]|] eqn:Eff.
  - assert (ar_room (size + 4) A = A) as Er by (unfold ar_room; by rewrite Eff). rewrite Er in *.
    pose proof (first_fit_Some _ _ _ _ _ Eff) as (E & Hsm & Hle). cbn in Hle. rewrite E in Hinv, Hf1.
    destruct (allocate_from_first_fit h pre s len post (blocks A) size (size + 4) fuel Hinv)
      as (h' & -> & Hcut); [lia|lia|done|done|done|].
    exists (s + 4), h'. split; [done|right]. split; [by eapply Hnz|]. eapply keeps_cut; (done || lia).
  - pose proof (first_fit_None _ _ Eff) as Hsm. pose proof Htop as [Hne Hend].
    destruct (exists_last Hne) as (pre & [s len] & E). rewrite E, end_of_snoc in Hend. rewrite E in Hinv, Hf1.
    assert (len < size + 4) as Hlt by (unfold too_small in Hsm; rewrite E, Forall_app, Forall_singleton in Hsm; tauto).
    assert (0 <= len /\ len mod 4 = 0) as (Hl0 & Hl4).
    { pose proof (kp_spaced _ _ _ Hk) as Hs. rewrite E in Hs. apply spaced_app in Hs as [_ (_ & ? & ? & _)]. lia. }
    destruct (allocate_from_grows h pre s len (blocks A) size (size + 4) fuel Hinv)
      as (r & h' & -> & Hcase); [lia|done|by rewrite <- E|by rewrite (kp_next _ _ _ Hk)|split; [done|lia]|
      rewrite (kp_next _ _ _ Hk); lia|].
    exists r, h'. split; [done|]. destruct Hcase as [(-> & Hfu & Hi)|(-> & h1 & Hmem & Hnext & Hinv1 & Hcut)]; [left; eauto|right].
    destruct (keeps_room h h1 ptrs A (size + 4) pre s len) as [Er Hk1]; try done.
    split; [by eapply Hnz|]. destruct (grown_len_spec (size + 4) len Hlt Hm4 Hl4) as [Hge _].
    eapply (keeps_cut h1 h' ptrs (ar_room (size + 4) A) size pre s (grown_len (size + 4) len) []); try (done || lia).
    + rewrite Er. cbn [ar_free]. apply first_fit_here; [|lia].
      unfold too_small in *. rewrite E, Forall_app in Hsm. tauto.
    + by rewrite Er.
Qed.

Lemma round4_id z : z mod 4 = 0 -> round4 z = z.
Proof. intros. unfold round4. zmod. Qed.

Lemma alloc_keeps h ptrs A size fuel : keeps h ptrs A -> sensible (Alloc size) A ->
  (S (length (ar_free A)) < fuel)%nat -> (Z.to_nat (size + 4100) < fuel)%nat ->
  exists r h', memory_allocate fuel size h = Ok (r, h') /\
    ((r = 0 /\ fs_full (h_frames h') /\ exists fl, heap_inv h' fl (blocks A)) \/
     (r <> 0 /\ keeps h' (r :: ptrs) (ar_alloc size A))).
Proof.
  intros Hk (Hsz & Hm & Hmax & Hcl & Htop) Hf1 Hf2.
  pose proof (kp_heap _ _ _ Hk) as Hinv. pose proof (fl_ok_le _ _ _ (inv_sorted Hinv)) as Hhs.
  rewrite (kp_next _ _ _ Hk) in Hhs. assert (0 < heap_start) by (unfold heap_start; pf_unfold; lia).
  unfold memory_allocate. rewrite true_size_ok by lia. rewrite round4_id, bind_Ok_r by (clear -Hm; zmod).
  unfold ar_alloc in *. destruct (Z.eqb_spec (free_segments_head h) 0) as [E|E].
  - apply (head_zero _ _ _ Hinv) in E. rewrite E in Hinv.
    destruct (fs_commit_ok (h_frames h) (next_page_virt_addr h)) as (b & p & -> & Hp & Hfu & Hmap);
      [apply Hinv|rewrite (kp_next _ _ _ Hk); unfold in_heap; lia|apply Hinv|].
    res_step. cbv zeta beta iota. destruct b; cbn [negb].
    + pose proof (keeps_open h ptrs A p Hk E ltac:(lia) Hp Hmap) as Hk1. cbv zeta in Hk1.
      assert (ar_open A = Arena [(ar_next A, 4096)] (ar_next A + 4096) (ar_live A)) as Eo by (unfold ar_open; by rewrite E).
      destruct (allocate_from_keeps _ ptrs (ar_open A) size fuel Hk1) as (r & h' & -> & Hres);
        [rewrite Eo; by split|done|done|rewrite Eo; cbn; lia|done|done|rewrite Eo; cbn; lia|done|].
      exists r, h'. split; [done|]. assert (blocks (ar_open A) = blocks A) as Eb by (unfold blocks; by rewrite Eo).
      by rewrite Eb in Hres.
    + eexists 0, _. split; [done|left]. split; [done|]. split; [apply Hfu|]. exists []. destruct (inv_next Hinv) as [_ Hlt].
      split; cbn; try apply Hinv; try done.
      intros a Ha. apply Hmap; [unfold in_heap; lia|right; by apply (inv_mapped Hinv)].
  - assert (ar_free A <> []) as Hne by (intros Ef; apply E, (head_zero _ _ _ Hinv), Ef).
    assert (ar_open A = A) as Eo by (unfold ar_open; by destruct (ar_free A)). rewrite Eo in *.
    destruct (kp_top _ _ _ Hk) as [Ht|[? _]]; [|done].
    apply allocate_from_keeps; (done || lia).
Qed.

Lemma blocks_mid A i b : ar_live A !! i = Some b ->
  let f := fun b => (bk_addr b, bk_size b) in
  blocks A = map f (take i (ar_live A)) ++ (bk_addr b, bk_size b) :: map f (drop (S i) (ar_live A)) /\
  blocks (ar_release i A) = map f (take i (ar_live A)) ++ map f (drop (S i) (ar_live A)).
Proof.
  intros Hb f. unfold ar_release, blocks. rewrite Hb. cbn [ar_live]. rewrite delete_take_drop, map_app. split; [|done].
  rewrite <- (take_drop_middle _ _ _ Hb) at 1. by rewrite map_app.
Qed.

Lemma others_apart h ptrs A i b : keeps h ptrs A -> ar_live A !! i = Some b ->
  Forall (fun c => c ∈ ar_live A /\ (bk_addr c + bk_size c <= bk_addr b \/ bk_addr b + bk_size b <= bk_addr c))
    (take i (ar_live A) ++ drop (S i) (ar_live A)).
Proof.
  intros Hk Hb. destruct (blocks_mid A i b Hb) as [E _]. pose proof (inv_disjoint (kp_heap _ _ _ Hk)) as Hd.
  rewrite E in Hd. apply disjoint_blocks_mid in Hd as [_ Hd]. rewrite <- map_app, Forall_map, Forall_forall in Hd.
  apply Forall_forall. intros c Hc. specialize (Hd c Hc). cbn in Hd. split; [|done].
  rewrite <- (take_drop_middle _ _ _ Hb).
  apply elem_of_app in Hc as [Hc|Hc]; apply elem_of_app; [by left|by right; right].
Qed.

(** Every live block is below the last free segment. *)
Lemma top_above h ptrs A b : keeps h ptrs A -> b ∈ ar_live A -> Exists (fun '(s, _) => bk_addr b < s) (ar_free A).
Proof.
  intros Hk Hin. destruct (live_block _ _ _ _ Hk Hin) as (Ha & H8 & Hend & Hav & _).
  destruct (kp_top _ _ _ Hk) as [[Hne Htop]|[_ El]]; [|rewrite El in Hin; by apply not_elem_of_nil in Hin].
  destruct (exists_last Hne) as (q & [t tl] & Eq). apply Exists_exists. exists (t, tl).
  rewrite Eq, end_of_snoc in Htop. rewrite Eq in *. split; [by apply elem_of_app; right; left|].
  apply avoids_app in Hav as [_ Hav]. inversion_clear Hav as [|? ? Ht _].
  pose proof (kp_spaced _ _ _ Hk) as Hs. rewrite Eq in Hs. apply spaced_app in Hs as [_ (_ & ? & _)].
  unfold extent in Ht. cbn. lia.
Qed.

(** Freeing a block. *)
Lemma release_keeps h ptrs A i fuel : keeps h ptrs A -> sensible (Free i) A ->
  (S (length (ar_free A)) < fuel)%nat ->
  exists a h', ptrs !! i = Some a /\ memory_free fuel a h = Ok h' /\ keeps h' (delete i ptrs) (ar_release i A).
Proof.
  intros Hk Hi Hf. cbn in Hi. apply lookup_lt_is_Some_2 in Hi as [b Hb].
  pose proof (list_elem_of_lookup_2 _ _ _ Hb) as Hin. destruct (live_block _ _ _ _ Hk Hin) as (Ha & H8 & Hend & Hav & Hm4 & Hhd & _).
  destruct (blocks_mid A i b Hb) as [Ebl Ebl']. pose proof (top_above _ _ _ _ Hk Hin) as Hex.
  destruct (kp_top _ _ _ Hk) as [[Hne Htop]|[_ El]]; [|by rewrite El in Hb].
  pose proof (kp_heap _ _ _ Hk) as Hinv. rewrite Ebl in Hinv.
  destruct (memory_free_ok h _ _ _ _ _ fuel Hinv) as (pre & post & h' & E & Hpre & Hpost & Hfree & Hinv' & _ & Hnext & _ & Hfr);
    [lia|done|lia|].
  exists (bk_addr b + 4), h'. split; [rewrite (kp_ptrs _ _ _ Hk), list_lookup_fmap, Hb; done|]. split; [exact Hfree|].
  assert (ar_release i A = Arena (insert_list pre (bk_addr b) (bk_size b) post) (ar_next A) (delete i (ar_live A))) as Er.
  { unfold ar_release. rewrite Hb. cbv zeta. rewrite E.
    destruct (below_above (bk_addr b) pre post) as [-> ->]; [by eapply fl_ok_below| |done].
    eapply fl_ok_above, fl_ok_lower, Hpost. lia. }
  rewrite Hhd in Hinv'. pose proof (kp_spaced _ _ _ Hk) as Hs. rewrite E in Hs. pose proof Hs as [Hs1 Hs2]%spaced_app.
  destruct (insert_list_spaced _ pre (bk_addr b) (bk_size b) post Hs) as (Hs' & He' & Ht');
    [lia|eapply spaced_end; (done || lia)|done|done|by eapply spaced_raise|].
  pose proof (kp_total _ _ _ Hk) as Ht. rewrite Ebl, E, total_app in Ht.
  split; rewrite ?Ebl'; rewrite ?Er; cbn [ar_free ar_next ar_live]; [exact Hinv'|by rewrite Hnext, (kp_next _ _ _ Hk)| | |done| |left].
  - rewrite (kp_ptrs _ _ _ Hk). symmetry. apply list_fmap_delete.
  - rewrite delete_take_drop. eapply Forall_impl; [by eapply others_apart|]. intros c (Hc & Hd).
    destruct (live_block _ _ _ _ Hk Hc) as (Hca & Hc8 & _ & Hcav & Hcok).
    apply (block_ok_frame (h_mem h)); [|done..]. unfold heap_start in *. pf_unfold. apply Hfr; (done || lia).
  - rewrite Ht', !total_app in *. unfold total in *. cbn in *. lia.
  - assert (post <> []) as Hp.
    { intros ->. rewrite app_nil_r in *. rewrite E in Hex. apply fl_ok_below in Hpre.
      apply Exists_exists in Hex as ([s' l'] & Hin' & Hs''). rewrite Forall_forall in Hpre. specialize (Hpre _ Hin'). cbn in *. lia. }
    rewrite E, end_of_app in Htop. rewrite (end_of_any _ (bk_addr b + bk_size b) _ Hp), <- He' in Htop.
    pose proof (fl_ok_le _ _ _ (inv_sorted (kp_heap _ _ _ Hk))) as Hle. rewrite (kp_next _ _ _ Hk) in Hle.
    assert (insert_list pre (bk_addr b) (bk_size b) post <> []) as Hn.
    { intros En. rewrite En in Htop. unfold end_of in Htop. cbn in Htop. lia. }
    split; [done|]. by rewrite (end_of_any _ (heap_start - 1) _ Hn).
Qed.

(** Filling a block. *)
Lemma fill_keeps h ptrs A i bytes : keeps h ptrs A -> sensible (Fill i bytes) A ->
  exists a, ptrs !! i = Some a /\
    keeps (Heap (st_bytes (h_mem h) a bytes) (free_segments_head h) (next_page_virt_addr h) (h_frames h))
      ptrs (ar_fill i bytes A).
Proof.
  intros Hk. cbn. destruct (ar_live A !! i) as [b|] eqn:Hb; [|done]. intros [Hl Hu].
  pose proof (list_elem_of_lookup_2 _ _ _ Hb) as Hin.
  destruct (live_block _ _ _ _ Hk Hin) as (Ha & H8 & Hend & Hav & Hm4 & Hhd & _).
  exists (bk_addr b + 4). split; [rewrite (kp_ptrs _ _ _ Hk), list_lookup_fmap, Hb; done|].
  set (m' := st_bytes _ _ _).
  assert (forall x, x < bk_addr b + 4 \/ bk_addr b + bk_size b <= x -> ld8 m' x = ld8 (h_mem h) x) as Hfr
    by (intros x Hx; unfold m'; by rewrite ld8_st_bytes, decide_False by lia).
  unfold ar_fill. rewrite Hb. pose proof (lookup_lt_Some _ _ _ Hb) as Hlt.
  rewrite insert_take_drop by done. set (b' := Block _ _ _).
  assert (blocks (Arena (ar_free A) (ar_next A) (take i (ar_live A) ++ b' :: drop (S i) (ar_live A))) = blocks A) as Ebl.
  { destruct (blocks_mid A i b Hb) as [-> _]. unfold blocks. cbn [ar_live]. by rewrite map_app. }
  split; rewrite ?Ebl; cbn [ar_free ar_next ar_live h_mem next_page_virt_addr].
  - apply (heap_inv_write h _ _ (bk_addr b) (bk_size b)); [apply Hk| |intros x Hx; apply Hfr; lia].
    destruct (blocks_mid A i b Hb) as [-> _]. apply elem_of_app. by right; left.
  - apply Hk.
  - rewrite (kp_ptrs _ _ _ Hk). rewrite <- (take_drop_middle _ _ _ Hb) at 1. by rewrite !map_app.
  - pose proof (others_apart _ _ _ _ _ Hk Hb) as Ho. rewrite Forall_app in Ho. destruct Ho as [Ho1 Ho2].
    assert (forall c, c ∈ ar_live A /\ (bk_addr c + bk_size c <= bk_addr b \/ bk_addr b + bk_size b <= bk_addr c) ->
      block_ok m' c) as Hc.
    { intros c [Hc Hd]. destruct (live_block _ _ _ _ Hk Hc) as (_ & Hc8 & _ & _ & Hcok).
      apply (block_ok_frame (h_mem h)); [|done..]. intros x Hx. apply Hfr. lia. }
    apply Forall_app. split; [by eapply Forall_impl|]. constructor; [|by eapply Forall_impl].
    split_and!; cbn; [done| |].
    + rewrite <- Hhd. apply ld32_frame. intros x Hx. apply Hfr. lia.
    + replace (Z.to_nat (bk_size b - 4)) with (length bytes) by lia. by apply bytes_at_st_bytes.
  - apply Hk.
  - apply (kp_total _ _ _ Hk).
  - destruct (kp_top _ _ _ Hk) as [?|[_ El]]; [by left|]. by rewrite El in Hb.
Qed.

(** ** Sessions *)

Lemma step_length d A : (length (ar_free (ar_step d A)) <= S (length (ar_free A)))%nat.
Proof.
  destruct d as [size|i|i bytes]; cbn [ar_step].
  - unfold ar_alloc. set (ts := size + 4).
    assert (length (ar_free (ar_open A)) <= S (length (ar_free A)))%nat as H1
      by (unfold ar_open; destruct (ar_free A) eqn:E; cbn; rewrite ?E; cbn; lia).
    assert (forall B, length (ar_free (ar_room ts B)) <= length (ar_free B))%nat as H2.
    { intros B. unfold ar_room. destruct (first_fit ts (ar_free B)); [lia|].
      destruct (last (ar_free B)) as [[s len]|] eqn:El; [|lia]. apply last_Some in El as [pre ->].
      rewrite removelast_last. cbn [ar_free]. rewrite !length_app. cbn. lia. }
    assert (forall B, length (ar_free (ar_cut ts B)) <= length (ar_free B))%nat as H3.
    { intros B. unfold ar_cut. destruct (first_fit ts (ar_free B)) as [[[pre [s len]] post]|] eqn:E; [|cbn; lia].
      apply first_fit_Some in E as (-> & _). cbn [ar_free]. unfold leftover. cbn [fst snd].
      destruct (_ <=? _); rewrite !length_app; cbn; lia. }
    specialize (H2 (ar_open A)). specialize (H3 (ar_room ts (ar_open A))). lia.
  - unfold ar_release. destruct (_ !! _) as [b|]; [|cbn; lia]. cbn [ar_free].
    pose proof (insert_list_length (below (bk_addr b) (ar_free A)) (bk_addr b) (bk_size b) (above (bk_addr b) (ar_free A))).
    pose proof (below_above_length (bk_addr b) (ar_free A)). lia.
  - unfold ar_fill. destruct (_ !! _); cbn; lia.
Qed.

Definition asked (d : demand) : Z := match d with Alloc size => size | _ => 0 end.

(** Fuel for a session: more than the segments there can be, and than the bytes of
    a block. *)
Definition session_fuel (fuel : nat) (ds : list demand) : Prop :=
  Forall (fun d => (Z.to_nat (asked d + 4100) < fuel)%nat) ds.

Lemma session_keeps fuel ds : session_fuel fuel ds -> forall h ptrs A, keeps h ptrs A -> all_sensible ds A ->
  (S (length (ar_free A) + length ds) < fuel)%nat ->
  exists ok h' ptrs', obey_all fuel ds (h, ptrs) = Ok (ok, (h', ptrs')) /\
    (if (ok : bool) then keeps h' ptrs' (ar_run ds A)
     else exists pre size post fl, ds = pre ++ Alloc size :: post /\ fs_full (h_frames h') /\
       heap_inv h' fl (blocks (ar_run pre A))).
Proof.
  induction ds as [|d ds IH]; intros Hfs h ptrs A Hk Ha Hf; [by exists true, h, ptrs|].
  unfold session_fuel in Hfs. rewrite Forall_cons in Hfs. destruct Hfs as [Hd Hds], Ha as [Ha Has].
  pose proof (step_length d A) as Hlen. cbn [length] in Hf.
  enough (exists ok h' ptrs', obey fuel d (h, ptrs) = Ok (ok, (h', ptrs')) /\
    (if (ok : bool) then keeps h' ptrs' (ar_step d A)
     else exists size fl, d = Alloc size /\ fs_full (h_frames h') /\ heap_inv h' fl (blocks A)))
    as (ok & h' & ptrs' & E & Hk').
  { cbn [obey_all ar_run foldl flip]. rewrite E, bind_Ok_r. destruct ok.
    - destruct (IH Hds h' ptrs' (ar_step d A) Hk' Has) as (ok & h2 & ptrs2 & E2 & Hk2); [lia|].
      exists ok, h2, ptrs2. split; [exact E2|]. destruct ok; [exact Hk2|].
      destruct Hk2 as (pre & size & post & fl & -> & Hfu & Hi). by exists (d :: pre), size, post, fl.
    - exists false, h', ptrs'. split; [done|]. destruct Hk' as (size & fl & -> & Hfu & Hi).
      by exists [], size, ds, fl. }
  destruct d as [size|i|i bytes]; cbn [obey ar_step].
  - destruct (alloc_keeps h ptrs A size fuel Hk Ha) as (r & h' & -> & Hres); [lia|done|].
    rewrite bind_Ok_r. exists (negb (r =? 0)), h', (r :: ptrs). split; [done|].
    destruct Hres as [(-> & Hfu & fl & Hi)|(Hr & Hk')]; [by exists size, fl|]. by destruct (Z.eqb_spec r 0).
  - destruct (release_keeps h ptrs A i fuel Hk Ha) as (a & h' & -> & -> & Hk'); [lia|].
    by exists true, h', (delete i ptrs).
  - destruct (fill_keeps h ptrs A i bytes Hk Ha) as (a & -> & Hk'). by eexists true, _, ptrs.
Qed.
End keeping.

(** ** The property *)

(** C6: Any sensible session of allocations, frees and writes into live blocks
    returns. It is broken off only at an allocation that finds no page frame left,
    and the heap is then still well formed with the blocks that were live;
    otherwise the addresses are those of the first-fit
    allocator on lists; the free list in memory is its list; every live block is
    aligned, mapped, apart from the others and holds its length and what was last
    written to it; and when everything has been freed, in whatever order, the
    whole heap is one free segment. *)
Theorem allocator_refines_arena {P} `{FS : FrameSource P} `{FSO : !FrameSourceOk P}
    (ds : list demand) fuel (m : mem) (p : P) :
  fs_ok p -> all_sensible ds boot_arena -> session_fuel fuel ds -> (length ds + 1 < fuel)%nat ->
  exists ok h ptrs, obey_all fuel ds (boot_heap m p, []) = Ok (ok, (h, ptrs)) /\
    if (ok : bool) then
      let A := ar_run ds boot_arena in
      ptrs = map (fun b => bk_addr b + 4) (ar_live A) /\
      heap_inv h (ar_free A) (blocks A) /\ next_page_virt_addr h = ar_next A /\
      Forall (block_ok (h_mem h)) (ar_live A) /\
      (ar_live A = [] -> heap_start < ar_next A ->
        free_segments_head h = heap_start /\ seg_len (h_mem h) heap_start = ar_next A - heap_start /\
        seg_next (h_mem h) heap_start = 0)
    else exists pre size post fl, ds = pre ++ Alloc size :: post /\ fs_full (h_frames h) /\
      heap_inv h fl (blocks (ar_run pre boot_arena)).
Proof.
  intros Hp Ha Hsf Hf.
  destruct (session_keeps fuel ds Hsf (boot_heap m p) [] boot_arena) as (ok & h & ptrs & E & Hk); [|done|cbn; lia|].
  - split; cbn; [by apply boot_heap_inv|done..|by right].
  - exists ok, h, ptrs. split; [exact E|]. destruct ok; [|done]. cbv zeta. destruct Hk as [Hh Hn Hptr Hb Hs Ht Htop].
    split_and!; try done. intros El Hlt. unfold blocks in Hh, Ht. rewrite El in Ht. cbn [map total foldr] in Ht.
    pose proof (inv_sorted Hh) as Hok. rewrite Hn in Hok. pose proof (inv_list Hh) as Hl.
    destruct (spaced_full _ _ _ _ Hok Hs) as [Ef|Ef]; [lia| |]; rewrite Ef in *.
    + unfold total in Ht. cbn in Ht. lia.
    + cbn in Hl. tauto.
Qed.

(** ** Runs *)

#[export] Instance has_top_dec A : Decision (has_top A).
Proof. unfold has_top. apply _. Defined.
#[export] Instance clean_cut_dec ts A : Decision (clean_cut ts A).
Proof. unfold clean_cut. destruct (first_fit _ _) as [[[? ?] ?]|]; apply _. Defined.
#[export] Instance session_fuel_dec fuel ds : Decision (session_fuel fuel ds).
Proof. unfold session_fuel. apply _. Defined.
#[export] Instance sensible_dec d A : Decision (sensible d A).
Proof. destruct d; cbn; [apply _..|]. destruct (_ !! _); apply _. Defined.
#[export] Instance all_sensible_dec ds A : Decision (all_sensible ds A).
Proof. revert A. induction ds as [|d ds IH]; intros A; cbn; [apply _|]. specialize (IH (ar_step d A)). apply _. Defined.

Section witnesses.
#[local] Existing Instance sample_heap.
#[local] Instance sample_heap_ok : FrameSourceOk pfa := pfa_source_ok sample_tables sample_end.

Lemma allocator_refines_arena_witness : exists h,
  obey_all (Z.to_nat 8000) test_demands (boot_heap ∅ pfa_empty, []) = Ok (true, (h, [])) /\
  free_segments_head h = heap_start /\ seg_len (h_mem h) heap_start = 163840 /\ seg_next (h_mem h) heap_start = 0.
Proof.
  destruct (allocator_refines_arena test_demands (Z.to_nat 8000) ∅ pfa_empty)
    as (ok & h & ptrs & E & Hok).
  - apply pfa_ok_boot.
  - apply (bool_decide_unpack _). vm_compute. exact I.
  - apply (bool_decide_unpack _). vm_compute. exact I.
  - vm_compute. lia.
  - assert (match obey_all (Z.to_nat 8000) test_demands (boot_heap ∅ pfa_empty, []) with
      Ok (ok, _) => ok | Err _ => false end = true) as Et by (vm_compute; reflexivity).
    rewrite E in Et. subst ok. rewrite test_arena in Hok. destruct Hok as (-> & _ & _ & _ & Hone).
    exists h. split; [exact E|].
    destruct (Hone eq_refl) as (H1 & H2 & H3); [apply Z.ltb_lt; vm_compute; reflexivity|].
    split; [exact H1|]. split; [rewrite H2; vm_compute; reflexivity|exact H3].
Defined.
End witnesses.
