(* ===== verification/Terminal.v ===== *)
(** * The text terminal (src/src/std/terminal.c, src/src/hal/vga.c and vga_def.h)

    80 by 25 cells of video memory, a cursor and a colour. The specification is
    an endless sheet of paper on which only the row of the cursor is written:
    the terminal shows its last 25 rows. *)
From S2P Require Import Prelude.

#[local] Open Scope Z_scope.

Definition VGA_WIDTH : Z := 80.
Definition VGA_HEIGHT : Z := 25.

Inductive vga_color : Type :=
  | VGA_COLOR_BLACK | VGA_COLOR_BLUE | VGA_COLOR_GREEN | VGA_COLOR_CYAN
  | VGA_COLOR_RED | VGA_COLOR_MAGENTA | VGA_COLOR_BROWN | VGA_COLOR_LIGHT_GREY
  | VGA_COLOR_DARK_GREY | VGA_COLOR_LIGHT_BLUE | VGA_COLOR_LIGHT_GREEN
  | VGA_COLOR_LIGHT_CYAN | VGA_COLOR_LIGHT_RED | VGA_COLOR_LIGHT_MAGENTA
  | VGA_COLOR_LIGHT_BROWN | VGA_COLOR_WHITE.

Definition color_value (c : vga_color) : Z :=
  match c with
  | VGA_COLOR_BLACK => 0 | VGA_COLOR_BLUE => 1 | VGA_COLOR_GREEN => 2 | VGA_COLOR_CYAN => 3
  | VGA_COLOR_RED => 4 | VGA_COLOR_MAGENTA => 5 | VGA_COLOR_BROWN => 6
  | VGA_COLOR_LIGHT_GREY => 7 | VGA_COLOR_DARK_GREY => 8 | VGA_COLOR_LIGHT_BLUE => 9
  | VGA_COLOR_LIGHT_GREEN => 10 | VGA_COLOR_LIGHT_CYAN => 11 | VGA_COLOR_LIGHT_RED => 12
  | VGA_COLOR_LIGHT_MAGENTA => 13 | VGA_COLOR_LIGHT_BROWN => 14 | VGA_COLOR_WHITE => 15
  end.

Definition vga_entry_color (fg bg : vga_color) : Z :=
  w8 (Z.lor (color_value fg) (Z.shiftl (color_value bg) 4)).

(** [uc] is converted to unsigned char by the call. *)
Definition vga_entry (uc color : Z) : Z :=
  w16 (Z.lor (w8 uc) (Z.shiftl (w8 color) 8)).

(** ** The terminal *)

Record terminal : Type := Terminal {
  terminal_row : Z;
  terminal_column : Z;
  terminal_color : Z;
  terminal_buffer : list Z;
}.

(** A store to [terminal_buffer[index]]; video memory has 2000 cells. *)
Definition buffer_set (index v : Z) (buf : list Z) : res (list Z) :=
  _ ← guard_bounds ((0 <=? index) && (index <? Z.of_nat (length buf)));
  Ok (<[Z.to_nat index := v]> buf).
Definition buffer_get (index : Z) (buf : list Z) : res Z :=
  _ ← guard_bounds ((0 <=? index) && (index <? Z.of_nat (length buf)));
  Ok (nth (Z.to_nat index) buf 0).

Definition terminal_init (t : terminal) : res terminal :=
  let color := vga_entry_color VGA_COLOR_LIGHT_GREY VGA_COLOR_BLACK in
  buf ← for_res 25 0 (fun y buf =>
    for_res 80 0 (fun x buf =>
      buffer_set (y * VGA_WIDTH + x) (vga_entry 32 color) buf) buf) (terminal_buffer t);
  Ok (Terminal 0 0 color buf).

Definition terminal_setcolor (color : Z) (t : terminal) : terminal :=
  Terminal (terminal_row t) (terminal_column t) color (terminal_buffer t).

(** The two loops of the scroll. *)
Definition scroll_up (buf : list Z) : res (list Z) :=
  for_res 24 0 (fun y buf =>
    for_res 80 0 (fun x buf =>
      v ← buffer_get (y * VGA_WIDTH + x + VGA_WIDTH) buf;
      buffer_set (y * VGA_WIDTH + x) v buf) buf) buf.
Definition clear_last_row (color : Z) (buf : list Z) : res (list Z) :=
  for_res 80 0 (fun x buf =>
    buffer_set ((VGA_HEIGHT - 1) * VGA_WIDTH + x) (vga_entry 32 color) buf) buf.

Definition _terminal_increment_row (t : terminal) : res terminal :=
  let row := w32 (terminal_row t + 1) in
  if VGA_HEIGHT <=? row then
    buf ← scroll_up (terminal_buffer t);
    buf ← clear_last_row (terminal_color t) buf;
    Ok (Terminal (VGA_HEIGHT - 1) (terminal_column t) (terminal_color t) buf)
  else Ok (Terminal row (terminal_column t) (terminal_color t) (terminal_buffer t)).

Definition terminal_putentryat (c color x y : Z) (t : terminal) : res terminal :=
  buf ← buffer_set (w32 (y * VGA_WIDTH + x)) (vga_entry c color) (terminal_buffer t);
  Ok (Terminal (terminal_row t) (terminal_column t) (terminal_color t) buf).

Definition terminal_put_char (c : Z) (t : terminal) : res terminal :=
  if w8 c =? 10 then
    _terminal_increment_row (Terminal (terminal_row t) 0 (terminal_color t) (terminal_buffer t))
  else
    t ← terminal_putentryat c (terminal_color t) (terminal_column t) (terminal_row t) t;
    let column := w32 (terminal_column t + 1) in
    if VGA_WIDTH <=? column then
      _terminal_increment_row (Terminal (terminal_row t) 0 (terminal_color t) (terminal_buffer t))
    else Ok (Terminal (terminal_row t) column (terminal_color t) (terminal_buffer t)).

(** ** The specification: an endless sheet *)

(** The cells in reading order, a whole number of rows; the cursor; the colour. *)
Record paper : Type := Paper {
  p_cells : list Z;
  p_row : Z;
  p_col : Z;
  p_color : Z;
}.

Definition blank_row (color : Z) : list Z := replicate 80 (vga_entry 32 color).

(** The cursor goes to the next row; a blank one is added below the last. *)
Definition paper_newline (p : paper) : paper :=
  let row := p_row p + 1 in
  Paper (if row * 80 <? Z.of_nat (length (p_cells p)) then p_cells p
         else p_cells p ++ blank_row (p_color p)) row 0 (p_color p).

Definition paper_put_char (c : Z) (p : paper) : paper :=
  if w8 c =? 10 then paper_newline p else
  let p' := Paper (<[Z.to_nat (p_row p * 80 + p_col p) := vga_entry c (p_color p)]> (p_cells p))
              (p_row p) (p_col p + 1) (p_color p) in
  if p_col p' =? 80 then paper_newline p' else p'.

(** The screen shows the last 25 rows of the sheet. *)
Record shows (t : terminal) (p : paper) : Prop := {
  shows_window : terminal_buffer t = drop (length (p_cells p) - 2000) (p_cells p);
  shows_rows : exists n : nat, length (p_cells p) = (n * 80)%nat /\ (25 <= n)%nat /\
    p_row p = Z.of_nat n - 25 + terminal_row t;
  shows_col : p_col p = terminal_column t;
  shows_color : p_color p = terminal_color t;
  shows_cursor : 0 <= terminal_row t < 25 /\ 0 <= terminal_column t < 80;
}.

(** ** The loops over the buffer *)

Lemma buffer_set_ok index v buf : 0 <= index < Z.of_nat (length buf) ->
  buffer_set index v buf = Ok (<[Z.to_nat index := v]> buf).
Proof.
  intros. unfold buffer_set. destruct (Z.leb_spec 0 index), (Z.ltb_spec index (Z.of_nat (length buf)));
    try lia. done.
Qed.

Lemma buffer_get_ok index buf : 0 <= index < Z.of_nat (length buf) ->
  buffer_get index buf = Ok (nth (Z.to_nat index) buf 0).
Proof.
  intros. unfold buffer_get. destruct (Z.leb_spec 0 index), (Z.ltb_spec index (Z.of_nat (length buf)));
    try lia. done.
Qed.

(** What a sweep of the buffer has done after [k] cells: cell [i] holds [f i]
    below [k] and is as it was from [k] on. *)
Definition swept (f : nat -> Z) (buf0 : list Z) (k : Z) (buf : list Z) : Prop :=
  length buf = length buf0 /\
  forall i, (i < length buf0)%nat ->
    nth i buf 0 = if Z.of_nat i <? k then f i else nth i buf0 0.

Lemma swept_set f buf0 k buf : 0 <= k < Z.of_nat (length buf0) -> swept f buf0 k buf ->
  swept f buf0 (k + 1) (<[Z.to_nat k := f (Z.to_nat k)]> buf).
Proof.
  intros Hk [Hlen Hf]. split; [by rewrite length_insert|]. intros i Hi.
  rewrite !nth_lookup. destruct (decide (i = Z.to_nat k)) as [-> |Hne].
  - rewrite list_lookup_insert_eq by lia.
    by destruct (Z.ltb_spec (Z.of_nat (Z.to_nat k)) (k + 1)); [|lia].
  - rewrite list_lookup_insert_ne by lia. rewrite <- nth_lookup, Hf, <- nth_lookup by done.
    destruct (Z.ltb_spec (Z.of_nat i) k), (Z.ltb_spec (Z.of_nat i) (k + 1)); (done || lia).
Qed.

(** A doubly nested loop sweeps row by row. *)
Lemma sweep_rows f buf0 (rows : nat) (body : Z -> Z -> list Z -> res (list Z)) :
  Z.of_nat rows * 80 <= Z.of_nat (length buf0) ->
  (forall y x buf, 0 <= y < Z.of_nat rows -> 0 <= x < 80 -> swept f buf0 (y * 80 + x) buf ->
     body y x buf = Ok (<[Z.to_nat (y * 80 + x) := f (Z.to_nat (y * 80 + x))]> buf)) ->
  exists buf, for_res rows 0 (fun y buf => for_res 80 0 (body y) buf) buf0 = Ok buf /\
    swept f buf0 (Z.of_nat rows * 80) buf.
Proof.
  intros Hrows Hbody.
  destruct (for_res_ind (fun y buf => swept f buf0 (y * 80) buf)
    (fun y buf => for_res 80 0 (body y) buf) rows 0 buf0) as (buf & H & Hs).
  - split; [done|]. intros i Hi. by destruct (Z.ltb_spec (Z.of_nat i) (0 * 80)); [lia|].
  - intros y buf Hy Hsw.
    destruct (for_res_ind (fun x buf => swept f buf0 (y * 80 + x) buf) (body y) 80 0 buf)
      as (buf' & H' & Hs').
    + by rewrite Z.add_0_r.
    + intros x b Hx Hb. rewrite Hbody by (done || lia). eexists; split; [done|].
      rewrite Z.add_assoc. apply swept_set; [lia|done].
    + exists buf'. split; [done|]. by replace ((y + 1) * 80) with (y * 80 + (0 + Z.of_nat 80)) by lia.
  - exists buf. split; [done|]. by rewrite Z.add_0_l in Hs.
Qed.

Lemma list_eq_nth_Z (l1 l2 : list Z) : length l1 = length l2 ->
  (forall i, (i < length l1)%nat -> nth i l1 0 = nth i l2 0) -> l1 = l2.
Proof. intros Hl H. by apply (nth_ext _ _ 0 0). Qed.

Lemma scroll_up_ok buf : length buf = 2000%nat ->
  scroll_up buf = Ok (drop 80 buf ++ drop 1920 buf).
Proof.
  intros Hlen.
  destruct (sweep_rows (fun i => nth (i + 80) buf 0) buf 24
    (fun y x buf => v ← buffer_get (y * VGA_WIDTH + x + VGA_WIDTH) buf;
      buffer_set (y * VGA_WIDTH + x) v buf)) as (b & H & Hs & Hn); [lia| |].
  - intros y x b Hy Hx [Hl Hn]. unfold VGA_WIDTH.
    rewrite buffer_get_ok, bind_Ok_r, buffer_set_ok by lia. do 2 f_equal.
    rewrite Hn by lia. destruct (Z.ltb_spec (Z.of_nat (Z.to_nat (y * 80 + x + 80))) (y * 80 + x));
      [lia|]. f_equal. lia.
  - unfold scroll_up. rewrite H. f_equal. apply list_eq_nth_Z.
    + rewrite length_app, !length_drop. lia.
    + intros i Hi. rewrite Hn by lia.
      destruct (Z.ltb_spec (Z.of_nat i) (Z.of_nat 24 * 80)).
      * rewrite app_nth1 by (rewrite length_drop; lia).
        rewrite !nth_lookup, lookup_drop. do 2 f_equal. lia.
      * rewrite app_nth2 by (rewrite length_drop; lia). rewrite length_drop.
        rewrite !nth_lookup, lookup_drop. do 2 f_equal. lia.
Qed.

Lemma clear_last_row_ok color buf : length buf = 2000%nat ->
  clear_last_row color buf = Ok (take 1920 buf ++ blank_row color).
Proof.
  intros Hlen. unfold clear_last_row.
  destruct (for_res_ind (fun x b => length b = 2000%nat /\ forall i, (i < 2000)%nat ->
      nth i b 0 = if (1920 <=? Z.of_nat i) && (Z.of_nat i <? 1920 + x)
                  then vga_entry 32 color else nth i buf 0)
    (fun x buf => buffer_set ((VGA_HEIGHT - 1) * VGA_WIDTH + x) (vga_entry 32 color) buf)
    80 0 buf) as (b & -> & Hl & Hn).
  - split; [done|]. intros i Hi.
    destruct (Z.leb_spec 1920 (Z.of_nat i)), (Z.ltb_spec (Z.of_nat i) (1920 + 0)); (lia || done).
  - intros x b Hx [Hl Hn]. unfold VGA_HEIGHT, VGA_WIDTH. rewrite buffer_set_ok by lia.
    eexists; split; [done|]. split; [by rewrite length_insert|]. intros i Hi.
    rewrite nth_lookup. destruct (decide (i = Z.to_nat ((25 - 1) * 80 + x))) as [-> |Hne].
    + rewrite list_lookup_insert_eq by lia.
      destruct (Z.leb_spec 1920 (Z.of_nat (Z.to_nat ((25 - 1) * 80 + x)))),
        (Z.ltb_spec (Z.of_nat (Z.to_nat ((25 - 1) * 80 + x))) (1920 + (x + 1))); (lia || done).
    + rewrite list_lookup_insert_ne by lia. rewrite <- nth_lookup, Hn by done.
      destruct (Z.leb_spec 1920 (Z.of_nat i)), (Z.ltb_spec (Z.of_nat i) (1920 + x)),
        (Z.ltb_spec (Z.of_nat i) (1920 + (x + 1))); (lia || done).
  - f_equal. apply list_eq_nth_Z.
    + rewrite length_app, length_take. unfold blank_row. rewrite length_replicate. lia.
    + intros i Hi. rewrite Hn by lia. unfold blank_row.
      destruct (Z.leb_spec 1920 (Z.of_nat i)).
      * rewrite app_nth2 by (rewrite length_take; lia).
        destruct (Z.ltb_spec (Z.of_nat i) (1920 + (0 + Z.of_nat 80))); [|lia].
        cbn [andb]. rewrite nth_lookup, lookup_replicate_2; [done|]. rewrite length_take. lia.
      * cbn [andb]. rewrite app_nth1 by (rewrite length_take; lia).
        by rewrite !nth_lookup, lookup_take_lt by lia.
Qed.

(** ** The terminal shows the sheet *)

Ltac tcbn := cbn [terminal_row terminal_column terminal_color terminal_buffer
  p_cells p_row p_col p_color].

Lemma scroll_ok color buf : length buf = 2000%nat ->
  (b ← scroll_up buf; clear_last_row color b) = Ok (drop 80 buf ++ blank_row color).
Proof.
  intros Hlen. rewrite scroll_up_ok, bind_Ok_r by done.
  rewrite clear_last_row_ok by (rewrite length_app, !length_drop; lia).
  rewrite take_app_le by (rewrite length_drop; lia).
  by rewrite take_ge by (rewrite length_drop; lia).
Qed.

Lemma length_blank_row color : length (blank_row color) = 80%nat.
Proof. by unfold blank_row; rewrite length_replicate. Qed.

Lemma shows_length t p : shows t p -> length (terminal_buffer t) = 2000%nat.
Proof.
  intros [-> (n & Hn & Hge & _) _ _ _]. rewrite length_drop. lia.
Qed.

Lemma newline_shows t p : shows t p ->
  exists t', _terminal_increment_row (Terminal (terminal_row t) 0 (terminal_color t)
      (terminal_buffer t)) = Ok t' /\ shows t' (paper_newline p).
Proof.
  intros Hs. pose proof (shows_length _ _ Hs) as Hlen.
  destruct Hs as [Hw (n & Hn & Hge & Hr) Hc Hco [Hcr Hcc]].
  unfold _terminal_increment_row, paper_newline, VGA_HEIGHT.
  tcbn.
  rewrite w32_id by (unfold is_u32; lia).
  destruct (Z.leb_spec 25 (terminal_row t + 1)).
  - pose proof (scroll_ok (terminal_color t) _ Hlen) as Hscroll.
    apply bind_Ok in Hscroll as (b & -> & Hclear). rewrite bind_Ok_r, Hclear.
    eexists; split; [done|]. destruct (Z.ltb_spec ((p_row p + 1) * 80) (Z.of_nat (length (p_cells p)))); [lia|].
    split; tcbn; [|exists (S n)|done|done|lia].
    + rewrite length_app, length_blank_row, Hw, drop_drop, Hco.
      rewrite drop_app_le by lia. do 2 f_equal. lia.
    + rewrite length_app, length_blank_row. lia.
  - eexists; split; [done|].
    destruct (Z.ltb_spec ((p_row p + 1) * 80) (Z.of_nat (length (p_cells p)))); [|lia].
    split; tcbn; [done|exists n; lia|done|done|lia].
Qed.

Lemma put_char_shows c t p : shows t p ->
  exists t', terminal_put_char c t = Ok t' /\ shows t' (paper_put_char c p).
Proof.
  intros Hs. pose proof (shows_length _ _ Hs) as Hlen.
  unfold terminal_put_char, paper_put_char.
  destruct (Z.eqb_spec (w8 c) 10) as [_|_]; [by apply newline_shows|].
  pose proof Hs as [Hw (n & Hn & Hge & Hr) Hc Hco [Hcr Hcc]].
  unfold terminal_putentryat, VGA_WIDTH. rewrite (w32_id (_ * 80 + _)) by (unfold is_u32; lia).
  rewrite buffer_set_ok, !bind_Ok_r by lia.
  tcbn.
  rewrite (w32_id (terminal_column t + 1)) by (unfold is_u32; lia).
  set (buf := <[Z.to_nat (terminal_row t * 80 + terminal_column t) :=
    vga_entry c (terminal_color t)]> (terminal_buffer t)).
  set (cells := <[Z.to_nat (p_row p * 80 + p_col p) := vga_entry c (p_color p)]> (p_cells p)).
  assert (buf = drop (length cells - 2000) cells) as Hbuf.
  { unfold buf, cells. rewrite length_insert, Hw, Hco.
    rewrite drop_insert_ge by lia. f_equal. lia. }
  destruct (Z.leb_spec 80 (terminal_column t + 1)).
  - rewrite Hc. destruct (Z.eqb_spec (terminal_column t + 1) 80); [|lia].
    apply (newline_shows (Terminal (terminal_row t) (terminal_column t) (terminal_color t) buf)
      (Paper cells (p_row p) (terminal_column t) (p_color p))).
    split; tcbn; [done|exists n|lia|done|lia].
    unfold cells. rewrite length_insert. lia.
  - rewrite Hc. destruct (Z.eqb_spec (terminal_column t + 1) 80); [lia|].
    eexists; split; [done|]. split; tcbn; [done|exists n|lia|done|lia].
    unfold cells. rewrite length_insert. lia.
Qed.

Inductive term_op : Type :=
  | PutChar (c : Z)
  | SetColor (color : Z).

Definition term_step (op : term_op) (t : terminal) : res terminal :=
  match op with PutChar c => terminal_put_char c t | SetColor c => Ok (terminal_setcolor c t) end.
Fixpoint term_run (ops : list term_op) (t : terminal) : res terminal :=
  match ops with [] => Ok t | op :: ops => t ← term_step op t; term_run ops t end.

Definition paper_step (op : term_op) (p : paper) : paper :=
  match op with
  | PutChar c => paper_put_char c p
  | SetColor c => Paper (p_cells p) (p_row p) (p_col p) c
  end.
Definition paper_run (ops : list term_op) (p : paper) : paper :=
  fold_left (fun p op => paper_step op p) ops p.

(** A fresh sheet: 25 blank rows, light grey on black. *)
Definition fresh_paper : paper := Paper (replicate 2000 (vga_entry 32 7)) 0 0 7.

Lemma term_run_shows ops : forall t p, shows t p ->
  exists t', term_run ops t = Ok t' /\ shows t' (paper_run ops p).
Proof.
  induction ops as [|op ops IH]; intros t p Hs; [by eexists|]. cbn [term_run].
  assert (exists t', term_step op t = Ok t' /\ shows t' (paper_step op p)) as (t' & -> & Hs').
  { destruct op as [c|c]; [by apply put_char_shows|]. eexists; split; [done|]. by destruct Hs. }
  rewrite bind_Ok_r. cbn. by apply IH.
Qed.

Lemma terminal_init_fresh t : length (terminal_buffer t) = 2000%nat ->
  exists t', terminal_init t = Ok t' /\ shows t' fresh_paper.
Proof.
  intros Hlen.
  set (v := vga_entry 32 (vga_entry_color VGA_COLOR_LIGHT_GREY VGA_COLOR_BLACK)).
  destruct (sweep_rows (fun _ => v) (terminal_buffer t) 25
    (fun y x buf => buffer_set (y * VGA_WIDTH + x) v buf)) as (b & H & Hs & Hn); [lia| |].
  - intros y x b Hy Hx [Hl _]. unfold VGA_WIDTH. apply buffer_set_ok. lia.
  - unfold terminal_init. fold v. rewrite H, bind_Ok_r. eexists; split; [done|].
    unfold fresh_paper. split; tcbn; rewrite ?length_replicate; [|exists 25%nat; lia|done|done|lia].
    rewrite drop_0. apply list_eq_nth_Z; [rewrite length_replicate; lia|].
    intros i Hi. rewrite Hn by lia. destruct (Z.ltb_spec (Z.of_nat i) (Z.of_nat 25 * 80)); [|lia].
    by rewrite nth_lookup, lookup_replicate_2 by lia.
Qed.

(** ** Reading order on the sheet *)

Definition paper_pos (p : paper) : Z := p_row p * 80 + p_col p.
Definition paper_ok (p : paper) : Prop :=
  0 <= p_row p /\ 0 <= p_col p < 80 /\ (p_row p + 1) * 80 <= Z.of_nat (length (p_cells p)) /\
  Z.of_nat (length (p_cells p)) mod 80 = 0.

Lemma paper_put_char_at c p : paper_ok p -> w8 c <> 10 ->
  let p' := paper_put_char c p in
  paper_ok p' /\ paper_pos p' = paper_pos p + 1 /\ p_color p' = p_color p /\
  (length (p_cells p) <= length (p_cells p'))%nat /\
  forall i, (i < length (p_cells p))%nat -> nth i (p_cells p') 0 =
    if decide (i = Z.to_nat (paper_pos p)) then vga_entry c (p_color p) else nth i (p_cells p) 0.
Proof.
  intros (Hr & Hc & Hl & Hm) Hne. cbv zeta. unfold paper_put_char.
  destruct (Z.eqb_spec (w8 c) 10) as [|_]; [done|]. tcbn. fold (paper_pos p).
  set (v := vga_entry c (p_color p)).
  assert (forall i, nth i (<[Z.to_nat (paper_pos p) := v]> (p_cells p)) 0 =
    if decide (i = Z.to_nat (paper_pos p)) then v else nth i (p_cells p) 0) as Hi.
  { intros i. rewrite !nth_lookup. case_decide as E.
    - subst i. rewrite list_lookup_insert_eq; [done|]. unfold paper_pos. lia.
    - by rewrite list_lookup_insert_ne by done. }
  destruct (Z.eqb_spec (p_col p + 1) 80) as [E|E].
  - unfold paper_newline, paper_ok, paper_pos. tcbn. rewrite length_insert.
    destruct (Z.ltb_spec ((p_row p + 1) * 80) (Z.of_nat (length (p_cells p))));
      rewrite ?length_app, ?length_insert, ?length_blank_row; split_and!; try (done || zmod).
    intros i Hlt. rewrite app_nth1 by (rewrite length_insert; lia). apply Hi.
  - unfold paper_ok, paper_pos. tcbn. rewrite length_insert.
    split_and!; (done || lia).
Qed.

(** Printing text without a newline fills consecutive cells. *)
Lemma paper_text s : forall p, paper_ok p -> Forall (fun c => w8 c <> 10) s ->
  let p' := paper_run (map PutChar s) p in
  paper_ok p' /\ paper_pos p' = paper_pos p + Z.of_nat (length s) /\
  (length (p_cells p) <= length (p_cells p'))%nat /\
  (forall i, (i < length s)%nat ->
     nth (Z.to_nat (paper_pos p) + i) (p_cells p') 0 = vga_entry (nth i s 0) (p_color p)) /\
  forall i, (i < Z.to_nat (paper_pos p))%nat -> nth i (p_cells p') 0 = nth i (p_cells p) 0.
Proof.
  induction s as [|c s IH]; intros p Hok Hs; cbv zeta.
  - cbn. split_and!; [done|lia|lia|intros; lia|done].
  - inversion_clear Hs as [|? ? Hc Hs']. cbn [map paper_run fold_left].
    destruct (paper_put_char_at c p Hok Hc) as (Hok1 & Hpos & Hcol & Hlen & Hn).
    destruct (IH (paper_put_char c p) Hok1 Hs') as (Hok2 & Hpos2 & Hlen2 & Ht & Hb).
    assert (0 <= paper_pos p /\ (Z.to_nat (paper_pos p) < length (p_cells p))%nat) as [Hp0 Hp].
    { destruct Hok as (? & ? & ? & ?). unfold paper_pos. lia. }
    change (fold_left _ (map PutChar s) _) with (paper_run (map PutChar s) (paper_put_char c p)).
    split_and!; [done|cbn [length]; lia|lia| |].
    + intros [|i] Hi.
      * rewrite Nat.add_0_r, Hb by lia. rewrite Hn by lia. by rewrite decide_True by lia.
      * cbn [length] in Hi. specialize (Ht i ltac:(lia)). rewrite Hpos, Hcol in Ht.
        replace (Z.to_nat (paper_pos p) + S i)%nat with (Z.to_nat (paper_pos p + 1) + i)%nat by lia.
        done.
    + intros i Hi. rewrite Hb by lia. rewrite Hn by lia. by rewrite decide_False by lia.
Qed.

(** ** Properties *)

(** C11: Whatever characters are printed and colours set after initialisation,
    the terminal never leaves the video memory and always shows the last 25
    rows of the endless sheet on which the same operations are written, with
    the cursor on the same cell. *)
Theorem terminal_refines_paper t ops : length (terminal_buffer t) = 2000%nat ->
  exists t0 t', terminal_init t = Ok t0 /\ term_run ops t0 = Ok t' /\
    shows t' (paper_run ops fresh_paper).
Proof.
  intros Hlen. destruct (terminal_init_fresh t Hlen) as (t0 & H0 & Hs0).
  destruct (term_run_shows ops t0 _ Hs0) as (t' & H & Hs). by exists t0, t'.
Qed.

(** Printing text without a newline at a terminal that shows a sheet writes
    the characters, in the current colour, to consecutive cells of the sheet in
    reading order from the cursor on, wrapping at the right margin, and leaves
    every cell before the cursor as it was. *)
Theorem terminal_prints_in_order t p s : shows t p -> paper_ok p ->
  Forall (fun c => w8 c <> 10) s ->
  exists t' p', term_run (map PutChar s) t = Ok t' /\ shows t' p' /\
    (forall i, (i < length s)%nat ->
       nth (Z.to_nat (paper_pos p) + i) (p_cells p') 0 =
       vga_entry (nth i s 0) (terminal_color t)) /\
    forall i, (i < Z.to_nat (paper_pos p))%nat -> nth i (p_cells p') 0 = nth i (p_cells p) 0.
Proof.
  intros Hs Hok Htext. destruct (term_run_shows (map PutChar s) t p Hs) as (t' & H & Hs').
  destruct (paper_text s p Hok Htext) as (_ & _ & _ & Hw & Hb).
  exists t', (paper_run (map PutChar s) p). rewrite <- (shows_color _ _ Hs). by split_and!.
Qed.

(** ** Witnesses *)

Definition dark_screen : terminal := Terminal 7 7 0 (replicate 2000 0).

Lemma terminal_refines_paper_witness : exists t0 t',
  terminal_init dark_screen = Ok t0 /\
  term_run (replicate 26 (PutChar 10) ++ [SetColor 4; PutChar 65]) t0 = Ok t' /\
  nth 1920 (terminal_buffer t') 0 = 1089.
Proof.
  destruct (terminal_refines_paper dark_screen (replicate 26 (PutChar 10) ++ [SetColor 4; PutChar 65]))
    as (t0 & t' & H0 & H & Hs); [reflexivity|].
  exists t0, t'. split; [exact H0|]. split; [exact H|].
  rewrite (shows_window _ _ Hs). vm_compute. reflexivity.
Defined.

Lemma terminal_prints_in_order_witness : exists t' p',
  term_run (map PutChar [72; 105]) (Terminal 0 0 7 (replicate 2000 (vga_entry 32 7))) = Ok t' /\
  shows t' p' /\ nth 1 (p_cells p') 0 = vga_entry 105 7.
Proof.
  destruct (terminal_prints_in_order (Terminal 0 0 7 (replicate 2000 (vga_entry 32 7)))
    fresh_paper [72; 105]) as (t' & p' & H & Hs & Hw & _).
  - split; [reflexivity|exists 25%nat; split_and!; [reflexivity|lia|reflexivity]
      |reflexivity|reflexivity|cbn; lia].
  - unfold paper_ok. cbn. split_and!; (reflexivity || lia).
  - repeat constructor; vm_compute; congruence.
  - exists t', p'. split; [exact H|]. split; [exact Hs|]. apply (Hw 1%nat). cbn. lia.
Defined.
