(* ===== verification/Format.v ===== *)
(** * Formatted output (src/src/std/io.c)

    [put_char] is a parameter: a [Sink] of characters. The functions above it
    are those of io.c: numbers, strings and [fmt_print]. The variable arguments
    are the 32-bit words that i386 passes on the stack. *)
From S2P Require Import Prelude Memory.

#[local] Open Scope Z_scope.

(** ** A sink of characters *)

Class Sink (S : Type) : Type := put_char : Z -> S -> res S.

(** What a sink promises: in a good state it takes every character, and its
    output grows by that character. *)
Class SinkOk (S : Type) `{Sink S} : Type := {
  sink_ok : S -> Prop;
  sink_out : S -> list Z;
  put_char_ok : forall c s, sink_ok s ->
    exists s', put_char c s = Ok s' /\ sink_ok s' /\ sink_out s' = sink_out s ++ [w8 c];
}.

(** A list of characters is a sink. *)
#[export] Instance list_sink : Sink (list Z) := fun c s => Ok (s ++ [w8 c]).
#[export] Program Instance list_sink_ok : SinkOk (list Z) := {
  sink_ok _ := True; sink_out s := s;
}.
Next Obligation. intros c s _. by eexists. Qed.

Section io.
Context {S : Type} `{Sink S}.

Definition write (m : mem) (str : String_t) (s : S) : res S :=
  for_res (Z.to_nat (str_length str)) 0 (fun i s => put_char (ld8 m (str_data str + i)) s) s.

Definition write_string (fuel : nat) (m : mem) (data : Z) (s : S) : res S :=
  str ← str_literal fuel m data; write m str s.

(** [write_string] of a literal. *)
Definition write_text (t : string) (s : S) : res S :=
  foldl (fun r c => s ← r; put_char c s) (Ok s) (text t).

(** ** Numbers *)

(** [while (n > 0) { digits[num_digits] = n % base; num_digits += 1; n /= base; }],
    [digit] and [shift] being the remainder and the quotient. *)
Definition digits_body (digit shift : Z -> Z) (st : Z * list Z * Z)
  : res (step (Z * list Z * Z) (list Z * Z)) :=
  let '(n, digits, num_digits) := st in
  if 0 <? n then
    _ ← guard_bounds (num_digits <? Z.of_nat (length digits));
    Ok (Next (shift n, <[Z.to_nat num_digits := digit n]> digits, num_digits + 1))
  else Ok (Stop (digits, num_digits)).

(** The digits in the correct direction. *)
Definition put_digits (chr : Z -> Z) (digits : list Z) (num_digits : Z) (s : S) : res S :=
  for_res (Z.to_nat num_digits) 0
    (fun i s => put_char (chr (nth (Z.to_nat (num_digits - i - 1)) digits 0)) s) s.

Definition put_uint (n : Z) (s : S) : res S :=
  if n =? 0 then put_char 48 s else
  '(digits, num_digits) ←
    loop 65 (digits_body (fun n => n mod 10) (fun n => n / 10)) (n, replicate 19 0, 0);
  put_digits (fun d => d + 48) digits num_digits s.

Definition put_hex (n : Z) (s : S) : res S :=
  if n =? 0 then put_char 48 s else
  '(digits, num_digits) ←
    loop 65 (digits_body (fun n => Z.land n 15) (fun n => Z.shiftr n 4)) (n, replicate 16 0, 0);
  put_digits (fun c => if (0 <=? c) && (c <=? 9) then c + 48 else c - 10 + 65)
    digits num_digits s.

(** [n] is an [int]; its negation wraps, and [put_uint] gets it as a
    [uint64_t]. *)
Definition put_int (n : Z) (s : S) : res S :=
  if n =? 0 then put_char 48 s else
  '(n, s) ← (if n <? 0 then s ← put_char 45 s; Ok (s32 (- n), s) else Ok (n, s));
  put_uint (w64 n) s.
End io.

(** ** Format specifiers *)

Inductive Fmt_Print_Data_Type : Type :=
  | FMT_PRINT_DT_UNKNOWN | FMT_PRINT_DT_CHAR | FMT_PRINT_DT_UINT | FMT_PRINT_DT_INT
  | FMT_PRINT_DT_HEX | FMT_PRINT_DT_STRING.

Inductive Fmt_Print_Length_Modifier : Type :=
  | FMT_PRINT_LM_NONE | FMT_PRINT_LM_L | FMT_PRINT_LM_H | FMT_PRINT_LM_HH.

Record Fmt_Print_Specifier : Type := Specifier {
  data_type : Fmt_Print_Data_Type;
  length_modifier : Fmt_Print_Length_Modifier;
}.

(** Returns the specifier and the new [*fmt]. *)
Definition parse_specifier (m : mem) (fmt : Z) : Fmt_Print_Specifier * Z :=
  let '(lm, fmt) :=
    if ld8 m fmt =? 104 (* h *) then
      let fmt := fmt + 1 in
      if ld8 m fmt =? 104 then (FMT_PRINT_LM_HH, fmt + 1) else (FMT_PRINT_LM_H, fmt)
    else if ld8 m fmt =? 108 (* l *) then (FMT_PRINT_LM_L, fmt + 1)
    else (FMT_PRINT_LM_NONE, fmt) in
  let c := ld8 m fmt in
  let dt :=
    if c =? 99 (* c *) then FMT_PRINT_DT_CHAR
    else if c =? 117 (* u *) then FMT_PRINT_DT_UINT
    else if c =? 100 (* d *) then FMT_PRINT_DT_INT
    else if c =? 120 (* x *) then FMT_PRINT_DT_HEX
    else if c =? 115 (* s *) then FMT_PRINT_DT_STRING
    else FMT_PRINT_DT_UNKNOWN in
  (Specifier dt lm, fmt + 1).

(** ** [fmt_print] *)

(** [va_arg] of a 4-byte and of an 8-byte type. *)
Definition va_arg32 (args : list Z) : res (Z * list Z) :=
  match args with a :: args => Ok (a, args) | [] => Err OutOfBounds end.
Definition va_arg64 (args : list Z) : res (Z * list Z) :=
  '(lo, args) ← va_arg32 args; '(hi, args) ← va_arg32 args; Ok (lo + 4294967296 * hi, args).

Section fmt_print.
Context {S : Type} `{Sink S}.

(** An unsigned argument of the length the modifier gives. *)
Definition va_arg_uint (lm : Fmt_Print_Length_Modifier) (args : list Z) : res (Z * list Z) :=
  match lm with
  | FMT_PRINT_LM_NONE => va_arg32 args
  | FMT_PRINT_LM_L => va_arg64 args
  | FMT_PRINT_LM_H => '(a, args) ← va_arg32 args; Ok (w16 a, args)
  | FMT_PRINT_LM_HH => '(a, args) ← va_arg32 args; Ok (w8 a, args)
  end.

Definition put_specifier (fuel : nat) (m : mem) (sp : Fmt_Print_Specifier)
    (args : list Z) (s : S) : res (list Z * S) :=
  match data_type sp with
  | FMT_PRINT_DT_CHAR =>
      '(next, args) ← va_arg32 args; s ← put_char (w8 next) s; Ok (args, s)
  | FMT_PRINT_DT_UINT =>
      '(next, args) ← va_arg_uint (length_modifier sp) args; s ← put_uint next s; Ok (args, s)
  | FMT_PRINT_DT_INT =>
      '(next, args) ← va_arg32 args; s ← put_int (s32 next) s; Ok (args, s)
  | FMT_PRINT_DT_HEX =>
      '(next, args) ← va_arg_uint (length_modifier sp) args; s ← put_hex next s; Ok (args, s)
  | FMT_PRINT_DT_STRING =>
      '(next, args) ← va_arg32 args; s ← write_string fuel m next s; Ok (args, s)
  | FMT_PRINT_DT_UNKNOWN =>
      s ← write_text "%(UNKNOWN_SPECIFIER)" s; Ok (args, s)
  end.

Definition fmt_body (fuel : nat) (m : mem) (st : Z * list Z * S)
  : res (step (Z * list Z * S) (list Z * S)) :=
  let '(p_fmt, args, s) := st in
  let c := ld8 m p_fmt in
  if c =? 0 then Ok (Stop (args, s)) else
  if c =? 37 (* % *) then
    let '(specifier, p_fmt) := parse_specifier m (p_fmt + 1) in
    '(args, s) ← put_specifier fuel m specifier args s;
    Ok (Next (p_fmt, args, s))
  else s ← put_char c s; Ok (Next (p_fmt + 1, args, s)).

(** The arguments that are left, up to the 0 that the macro [fmt_print] adds. *)
Definition extra_body (st : Z * list Z * S) : res (step (Z * list Z * S) S) :=
  let '(next, args, s) := st in
  if next =? 0 then Ok (Stop s) else
  s ← write_text " %(EXTRA_ARGUMENT)" s;
  '(next, args) ← va_arg32 args; Ok (Next (next, args, s)).

Definition fmt_print_impl (fuel : nat) (m : mem) (fmt : Z) (args : list Z) (s : S) : res S :=
  '(args, s) ← loop fuel (fmt_body fuel m) (fmt, args, s);
  '(next, args) ← va_arg32 args;
  loop fuel extra_body (next, args, s).

Definition fmt_print (fuel : nat) (m : mem) (fmt : Z) (args : list Z) (s : S) : res S :=
  fmt_print_impl fuel m fmt (args ++ [0]) s.

(** [fmt_print] of a string literal, which the compiler has put somewhere, with
    arguments that are numbers. *)
Definition fmt_print_lit (fuel : nat) (fmt : list Z) (args : list Z) (s : S) : res S :=
  fmt_print fuel (st_bytes ∅ 0 (fmt ++ [0])) 0 args s.
End fmt_print.

(** ** The digits of a number *)

(** Least significant first. *)
Fixpoint lsd (f : nat) (base n : Z) : list Z :=
  match f with
  | O => []
  | Datatypes.S f => if 0 <? n then n mod base :: lsd f base (n / base) else []
  end.

Definition value (base : Z) (ds : list Z) : Z := foldl (fun a d => a * base + d) 0 ds.

(** [ds] is the usual numeral of [n]: its digits, the most significant one first
    and not 0 unless it is the only one. *)
Definition numeral (base n : Z) (ds : list Z) : Prop :=
  value base ds = n /\ Forall (fun d => 0 <= d < base) ds /\
  (n = 0 -> ds = [0]) /\ (0 < n -> exists d ds', ds = d :: ds' /\ d <> 0).

Lemma value_app base ds d : value base (ds ++ [d]) = value base ds * base + d.
Proof. unfold value. by rewrite foldl_app. Qed.

Lemma half_lt base n f : 2 <= base -> 0 < n < 2 ^ Z.of_nat (S f) ->
  0 <= n / base < 2 ^ Z.of_nat f.
Proof.
  intros Hb Hn. split; [apply Z.div_pos; lia|]. apply Z.div_lt_upper_bound; [lia|].
  rewrite Nat2Z.inj_succ, Z.pow_succ_r in Hn by lia. nia.
Qed.

Section lsd.
Context (base : Z) (Hbase : 2 <= base).

Lemma lsd_value f : forall n, 0 <= n < 2 ^ Z.of_nat f -> value base (rev (lsd f base n)) = n.
Proof.
  induction f as [|f IH]; intros n Hn; cbn [lsd].
  - cbn in Hn. cbn. lia.
  - destruct (Z.ltb_spec 0 n); [|cbn; lia]. cbn [rev].
    rewrite value_app, IH by (apply half_lt; lia).
    pose proof (Z.div_mod n base). lia.
Qed.

Lemma lsd_digits f : forall n, Forall (fun d => 0 <= d < base) (lsd f base n).
Proof.
  induction f as [|f IH]; intros n; cbn [lsd]; [constructor|].
  destruct (0 <? n); [|constructor]. constructor; [apply Z.mod_pos_bound; lia|done].
Qed.

Lemma lsd_leading f : forall n, 0 < n < 2 ^ Z.of_nat f ->
  exists d ds, rev (lsd f base n) = d :: ds /\ d <> 0.
Proof.
  induction f as [|f IH]; intros n Hn; cbn [lsd]; [cbn in Hn; lia|].
  destruct (Z.ltb_spec 0 n); [|lia]. cbn [rev].
  pose proof (half_lt base n f Hbase Hn) as Hh.
  destruct (Z.eq_dec (n / base) 0) as [E|E].
  - rewrite E. exists (n mod base), []. split; [by destruct f|].
    pose proof (Z.div_mod n base). lia.
  - destruct (IH (n / base) ltac:(lia)) as (d & ds & -> & Hd). by eexists _, _.
Qed.

Lemma lsd_numeral f n : 0 < n < 2 ^ Z.of_nat f -> numeral base n (rev (lsd f base n)).
Proof.
  intros Hn. split_and!; [apply lsd_value; lia| |lia|intros _; by apply lsd_leading].
  apply Forall_rev, lsd_digits.
Qed.

Lemma lsd_length f (c : nat) : forall n, 0 <= n < 2 ^ Z.of_nat f ->
  (length (lsd f base n) <= c)%nat <-> n < base ^ Z.of_nat c.
Proof.
  revert c; induction f as [|f IH]; intros c n Hn; cbn [lsd].
  - cbn in *. pose proof (Z.pow_pos_nonneg base (Z.of_nat c)). lia.
  - destruct (Z.ltb_spec 0 n); cbn [length].
    + destruct c as [|c]; [cbn; lia|]. rewrite <- Nat.succ_le_mono.
      rewrite IH by (apply half_lt; lia). rewrite Nat2Z.inj_succ, Z.pow_succ_r by lia.
      split; intros H1.
      * pose proof (Z.div_mod n base). pose proof (Z.mod_pos_bound n base). nia.
      * apply Z.div_lt_upper_bound; lia.
    + pose proof (Z.pow_pos_nonneg base (Z.of_nat c)). lia.
Qed.

(** The digit loop of [put_uint] and [put_hex] fills the array with them, or
    runs over its end. *)
Lemma digits_loop (digit shift : Z -> Z) :
  (forall n, 0 <= n -> digit n = n mod base) -> (forall n, 0 <= n -> shift n = n / base) ->
  forall f n digits k, 0 <= n < 2 ^ Z.of_nat f -> 0 <= k <= Z.of_nat (length digits) ->
  let k' := k + Z.of_nat (length (lsd f base n)) in
  if k' <=? Z.of_nat (length digits) then
    exists digits', loop (S f) (digits_body digit shift) (n, digits, k) = Ok (digits', k') /\
      length digits' = length digits /\
      take (Z.to_nat k') digits' = take (Z.to_nat k) digits ++ lsd f base n
  else loop (S f) (digits_body digit shift) (n, digits, k) = Err OutOfBounds.
Proof.
  intros Hd Hs f. induction f as [|f IH]; intros n digits k Hn Hk; cbv zeta.
  - cbn in Hn. assert (n = 0) as -> by lia. cbn. rewrite Z.add_0_r.
    destruct (Z.leb_spec k (Z.of_nat (length digits))); [|lia].
    eexists; split_and!; [done|done|by rewrite app_nil_r].
  - cbn [lsd]. set (fuel := S f). cbn [loop digits_body].
    destruct (Z.ltb_spec 0 n) as [Hp|Hp]; cbn [length].
    2:{ destruct (Z.leb_spec (k + Z.of_nat 0) (Z.of_nat (length digits))); [|lia].
        eexists; split_and!; [by rewrite Z.add_0_r|done|]. rewrite Z.add_0_r, app_nil_r. done. }
    destruct (Z.ltb_spec k (Z.of_nat (length digits))) as [Hlt|Hge].
    2:{ destruct (Z.leb_spec (k + Z.of_nat (S (length (lsd f base (n / base)))))
          (Z.of_nat (length digits))); [lia|done]. }
    res_step. rewrite Hd, Hs by lia.
    specialize (IH (n / base) (<[Z.to_nat k := n mod base]> digits) (k + 1)).
    rewrite length_insert in IH.
    specialize (IH (half_lt base n f Hbase ltac:(lia)) ltac:(lia)). cbv zeta in IH.
    replace (k + Z.of_nat (S (length (lsd f base (n / base)))))
      with (k + 1 + Z.of_nat (length (lsd f base (n / base)))) by lia.
    case_match; [|done]. destruct IH as (digits' & H1 & H2 & H3).
    exists digits'. split_and!; [done|done|]. rewrite H3.
    rewrite Z2Nat.inj_add, Nat.add_1_r by lia.
    rewrite (take_S_r _ _ (n mod base)), take_insert_ge by
      (rewrite ?list_lookup_insert_eq; (done || lia)).
    by rewrite <- app_assoc.
Qed.
End lsd.

(** ** What a function prints *)

Section prints.
Context {S : Type} `{SK : Sink S} `{SKO : !SinkOk S}.

(** [f] succeeds in every good state and appends [cs] to the output. *)
Definition prints (f : S -> res S) (cs : list Z) : Prop :=
  forall s, sink_ok s -> exists s', f s = Ok s' /\ sink_ok s' /\
    sink_out s' = sink_out s ++ cs.

Lemma prints_char c : prints (put_char c) [w8 c].
Proof. intros s Hs. by apply put_char_ok. Qed.

Lemma prints_nil : prints (fun s => Ok s) [].
Proof. intros s Hs. exists s. by rewrite app_nil_r. Qed.

Lemma prints_bind f g a b : prints f a -> prints g b ->
  prints (fun s => s ← f s; g s) (a ++ b).
Proof.
  intros Hf Hg s Hs. destruct (Hf s Hs) as (s1 & H1 & Hs1 & Ho1).
  destruct (Hg s1 Hs1) as (s2 & H2 & Hs2 & Ho2). exists s2.
  rewrite H1, bind_Ok_r, Ho2, Ho1, app_assoc. by split_and!.
Qed.

(** A counted loop that prints one character per turn. *)
Lemma prints_for n (f : Z -> Z) : forall i,
  prints (for_res n i (fun i s => put_char (f i) s))
    (map (fun j => w8 (f (i + Z.of_nat j))) (seq 0 n)).
Proof.
  induction n as [|n IH]; intros i; [by apply prints_nil|].
  assert (map (fun j => w8 (f (i + Z.of_nat j))) (seq 0 (Datatypes.S n)) =
    [w8 (f i)] ++ map (fun j => w8 (f (i + 1 + Z.of_nat j))) (seq 0 n)) as ->.
  { cbn. rewrite Z.add_0_r. f_equal. rewrite <- seq_shift, map_map.
    apply map_ext. intros j. do 2 f_equal. lia. }
  apply (prints_bind (put_char (f i)) _ _ _ (prints_char _) (IH (i + 1))).
Qed.

Lemma prints_text_from l : forall f a, prints f a ->
  prints (fun s => foldl (fun r c => s ← r; put_char c s) (f s) l) (a ++ map w8 l).
Proof.
  induction l as [|c l IH]; intros f a Hf; cbn; [by rewrite app_nil_r|].
  change (w8 c :: map w8 l) with ([w8 c] ++ map w8 l). rewrite app_assoc.
  apply (IH (fun s => s ← f s; put_char c s)). by apply prints_bind; [|apply prints_char].
Qed.

Lemma text_bytes t : map w8 (text t) = text t.
Proof.
  unfold text. rewrite map_map. apply map_ext. intros a. apply w8_id. unfold is_u8.
  pose proof (Ascii.N_ascii_bounded a). lia.
Qed.

Lemma prints_write_text t : prints (write_text t) (text t).
Proof. rewrite <- text_bytes. apply (prints_text_from _ _ _ prints_nil). Qed.

Lemma prints_write_string fuel m a l : cstring m a l -> (length l < fuel)%nat ->
  prints (write_string fuel m a) l.
Proof.
  intros Hc Hf s Hs. unfold write_string, str_literal. rewrite (strlen_ok m a l fuel Hc Hf).
  rewrite !bind_Ok_r. unfold write. cbn [str_length str_data]. rewrite Nat2Z.id.
  destruct (prints_for (length l) (fun i => ld8 m (a + i)) 0 s Hs) as (s' & H & Hs' & Ho).
  exists s'. split_and!; [done|done|]. rewrite Ho. f_equal.
  destruct Hc as (Hb & _). rewrite <- Hb at 2. unfold bytes_at. apply map_ext. intros i.
  apply w8_id. apply ld8_range.
Qed.

Lemma map_nth_rev (chr : Z -> Z) (l : list Z) : forall n, (n <= length l)%nat ->
  map (fun j => chr (nth (Z.to_nat (Z.of_nat n - (0 + Z.of_nat j) - 1)) l 0)) (seq 0 n) =
  map chr (rev (take n l)).
Proof.
  intros n Hn. apply (nth_ext _ _ 0 0).
  { rewrite !length_map, length_rev, length_seq, length_take. lia. }
  intros j Hj. rewrite length_map, length_seq in Hj.
  rewrite !nth_lookup, !list_lookup_fmap, lookup_seq_lt by lia. cbn.
  replace (rev (take n l)) with (reverse (take n l)) by (symmetry; apply rev_alt).
  rewrite reverse_lookup by (rewrite length_take; lia).
  rewrite length_take.
  rewrite lookup_take_lt by lia. rewrite Nat.min_l by lia.
  destruct (lookup_lt_is_Some_2 l (n - Datatypes.S j)) as [x Hx]; [lia|].
  replace (Z.to_nat (Z.of_nat n - (0 + Z.of_nat j) - 1)) with (n - Datatypes.S j)%nat by lia.
  by rewrite nth_lookup, Hx.
Qed.

Lemma prints_digits chr digits (k : nat) : (k <= length digits)%nat ->
  prints (put_digits chr digits (Z.of_nat k)) (map (fun d => w8 (chr d)) (rev (take k digits))).
Proof.
  intros Hk. unfold put_digits. rewrite Nat2Z.id.
  rewrite <- (map_nth_rev (fun d => w8 (chr d)) digits k Hk).
  apply (prints_for k (fun i => chr (nth (Z.to_nat (Z.of_nat k - i - 1)) digits 0)) 0).
Qed.

(** [put_uint] and [put_hex] print the numeral; a number with more digits than
    the array holds overruns it. *)
Lemma prints_numeral (base : Z) (cap : nat) digit shift chr n :
  2 <= base -> (forall n, 0 <= n -> digit n = n mod base) ->
  (forall n, 0 <= n -> shift n = n / base) -> 0 < n < 2 ^ 64 ->
  exists ds, numeral base n ds /\
  if n <? base ^ Z.of_nat cap then
    prints (fun s => '(digits, num_digits) ←
        loop 65 (digits_body digit shift) (n, replicate cap 0, 0);
      put_digits chr digits num_digits s) (map (fun d => w8 (chr d)) ds)
  else forall s : S, ('(digits, num_digits) ←
        loop 65 (digits_body digit shift) (n, replicate cap 0, 0);
      put_digits chr digits num_digits s) = Err OutOfBounds.
Proof.
  intros Hb Hd Hs Hn. change (2 ^ 64) with (2 ^ Z.of_nat 64) in Hn.
  exists (rev (lsd 64 base n)). split; [by apply lsd_numeral|].
  pose proof (digits_loop base Hb digit shift Hd Hs 64 n (replicate cap 0) 0
    ltac:(lia) ltac:(lia)) as Hl. cbv zeta in Hl. rewrite length_replicate, Z.add_0_l in Hl.
  pose proof (lsd_length base Hb 64 cap n ltac:(lia)) as Hlen.
  destruct (Z.leb_spec (Z.of_nat (length (lsd 64 base n))) (Z.of_nat cap)) as [Hle|Hgt];
    destruct (Z.ltb_spec n (base ^ Z.of_nat cap)) as [Hlt|Hge]; try lia.
  - destruct Hl as (digits & -> & Hdl & Ht). rewrite Nat2Z.id in Ht. change (Z.to_nat 0) with 0%nat in Ht.
    rewrite take_0 in Ht. cbn [app] in Ht.
    intros s Hs'. rewrite bind_Ok_r. 
    pose proof (prints_digits chr digits (length (lsd 64 base n)) ltac:(lia) s Hs') as Hp.
    rewrite Ht in Hp. exact Hp.
  - intros s. by rewrite Hl.
Qed.

Lemma numeral_zero base ds : numeral base 0 ds -> ds = [0].
Proof. intros (_ & _ & H & _). auto. Qed.
End prints.

(** ** Numbers, printed *)

Definition dec_char (d : Z) : Z := d + 48.
Definition hex_char (d : Z) : Z := if d <=? 9 then d + 48 else d + 55.

(** The numeral in characters. *)
Definition numeral_text (base : Z) (chr : Z -> Z) (n : Z) (cs : list Z) : Prop :=
  exists ds, numeral base n ds /\ cs = map chr ds.

Section print_numbers.
Context {S : Type} `{SK : Sink S} `{SKO : !SinkOk S}.

Lemma numeral_0 base chr : 2 <= base -> numeral_text base chr 0 [chr 0].
Proof.
  intros Hb. exists [0]. split; [|done]. split_and!; [done| |done|lia].
  repeat constructor; lia.
Qed.

Lemma prints_put_uint n : 0 <= n < 10 ^ 19 ->
  exists cs, numeral_text 10 dec_char n cs /\ prints (put_uint n) cs.
Proof.
  intros Hn. unfold put_uint. destruct (Z.eqb_spec n 0) as [-> |Hz].
  { exists [48]. split; [by apply numeral_0|]. apply (prints_char 48). }
  destruct (prints_numeral 10 19 (fun n => n mod 10) (fun n => n / 10) (fun d => d + 48) n)
    as (ds & Hnum & H); [lia|done|done|lia|].
  destruct (Z.ltb_spec n (10 ^ Z.of_nat 19)); [|lia].
  exists (map dec_char ds). split; [by exists ds|].
  assert (map dec_char ds = map (fun d => w8 (d + 48)) ds) as ->; [|done].
  destruct Hnum as (_ & Hd & _). apply map_ext_Forall. eapply Forall_impl; [done|].
  intros d Hd'. cbn. unfold dec_char. rewrite w8_id; [done|]. unfold is_u8. cbn in *. lia.
Qed.

Lemma put_uint_overrun n s : 10 ^ 19 <= n < 2 ^ 64 -> put_uint n s = Err OutOfBounds.
Proof.
  intros Hn. unfold put_uint. destruct (Z.eqb_spec n 0); [lia|].
  destruct (prints_numeral 10 19 (fun n => n mod 10) (fun n => n / 10) (fun d => d + 48) n)
    as (ds & _ & H); [lia|done|done|lia|].
  destruct (Z.ltb_spec n (10 ^ Z.of_nat 19)); [lia|]. apply H.
Qed.

Lemma prints_put_hex n : 0 <= n < 2 ^ 64 ->
  exists cs, numeral_text 16 hex_char n cs /\ prints (put_hex n) cs.
Proof.
  intros Hn. unfold put_hex. destruct (Z.eqb_spec n 0) as [-> |Hz].
  { exists [48]. split; [by apply numeral_0|]. apply (prints_char 48). }
  destruct (prints_numeral 16 16 (fun n => Z.land n 15) (fun n => Z.shiftr n 4)
    (fun c => if (0 <=? c) && (c <=? 9) then c + 48 else c - 10 + 65) n)
    as (ds & Hnum & H); [lia| | |lia|].
  { intros k _. apply (land_ones_mod k 4). lia. }
  { intros k _. by rewrite Z.shiftr_div_pow2. }
  destruct (Z.ltb_spec n (16 ^ Z.of_nat 16)); [|lia].
  exists (map hex_char ds). split; [by exists ds|].
  assert (map hex_char ds = map (fun d => w8 (if (0 <=? d) && (d <=? 9) then d + 48
    else d - 10 + 65)) ds) as ->; [|done].
  destruct Hnum as (_ & Hd & _). apply map_ext_Forall. eapply Forall_impl; [done|].
  intros d Hd'. cbn. unfold hex_char. cbn in Hd'.
  destruct (Z.leb_spec 0 d), (Z.leb_spec d 9); cbn [andb]; rewrite w8_id;
    unfold is_u8; lia.
Qed.

(** The text of a signed number. *)
Definition int_text (n : Z) (cs : list Z) : Prop :=
  exists ds, numeral_text 10 dec_char (Z.abs n) ds /\
    cs = if n <? 0 then 45 :: ds else ds.

Lemma prints_put_int n : -2147483648 < n < 2147483648 ->
  exists cs, int_text n cs /\ prints (put_int n) cs.
Proof.
  intros Hn. unfold put_int, int_text. destruct (Z.eqb_spec n 0) as [-> |Hz].
  { exists [48]. split; [|apply (prints_char 48)]. exists [48].
    split; [by apply numeral_0|done]. }
  destruct (prints_put_uint (Z.abs n)) as (cs & Ht & Hp); [lia|].
  destruct (Z.ltb_spec n 0) as [Hneg|Hpos].
  - exists (45 :: cs). split; [by exists cs|]. change (45 :: cs) with ([45] ++ cs).
    intros s Hs. destruct (prints_bind (put_char 45) _ _ _ (prints_char 45) Hp s Hs)
      as (s' & H & Hr). exists s'. split; [|done]. rewrite <- H.
    destruct (put_char 45 s) as [s1|e]; [|done]. rewrite !bind_Ok_r.
    f_equal. rewrite s32_id by lia. unfold w64. rewrite Z.mod_small; lia.
  - exists cs. split; [by exists cs|]. intros s Hs. rewrite bind_Ok_r.
    replace (w64 n) with (Z.abs n) by (unfold w64; rewrite Z.mod_small; lia).
    by apply Hp.
Qed.
End print_numbers.

(** ** Formats as lists of items *)

(** A character printed as it is, or a conversion with its argument. *)
Inductive item : Type :=
  | Lit (c : Z)
  | IChar (c : Z)
  | IUint (lm : Fmt_Print_Length_Modifier) (n : Z)
  | IInt (n : Z)
  | IHex (lm : Fmt_Print_Length_Modifier) (n : Z)
  | IStr (a : Z) (s : list Z).

Definition lm_format (lm : Fmt_Print_Length_Modifier) : list Z :=
  match lm with
  | FMT_PRINT_LM_NONE => [] | FMT_PRINT_LM_L => [108]
  | FMT_PRINT_LM_H => [104] | FMT_PRINT_LM_HH => [104; 104]
  end.
Definition item_format (it : item) : list Z :=
  match it with
  | Lit c => [c]
  | IChar _ => [37; 99]
  | IUint lm _ => 37 :: lm_format lm ++ [117]
  | IInt _ => [37; 100]
  | IHex lm _ => 37 :: lm_format lm ++ [120]
  | IStr _ _ => [37; 115]
  end.

(** The stack words of the arguments. *)
Definition uint_args (lm : Fmt_Print_Length_Modifier) (n : Z) : list Z :=
  match lm with FMT_PRINT_LM_L => [n mod 4294967296; n / 4294967296] | _ => [n] end.
Definition item_args (it : item) : list Z :=
  match it with
  | Lit _ => [] | IChar c => [c] | IUint lm n => uint_args lm n | IInt n => [w32 n]
  | IHex lm n => uint_args lm n | IStr a _ => [a]
  end.

(** What an argument of that length is printed as. *)
Definition uint_value (lm : Fmt_Print_Length_Modifier) (n : Z) : Z :=
  match lm with FMT_PRINT_LM_H => w16 n | FMT_PRINT_LM_HH => w8 n | _ => n end.
Definition item_text (it : item) (cs : list Z) : Prop :=
  match it with
  | Lit c => cs = [c]
  | IChar c => cs = [w8 c]
  | IUint lm n => numeral_text 10 dec_char (uint_value lm n) cs
  | IInt n => int_text n cs
  | IHex lm n => numeral_text 16 hex_char (uint_value lm n) cs
  | IStr _ s => cs = s
  end.

Definition item_ok (fuel : nat) (m : mem) (it : item) : Prop :=
  match it with
  | Lit c => 0 < c < 256 /\ c <> 37
  | IChar c => True
  | IUint lm n => 0 <= n < (if lm is FMT_PRINT_LM_L then 10 ^ 19 else 2 ^ 32)
  | IInt n => -2147483648 < n < 2147483648
  | IHex lm n => 0 <= n < (if lm is FMT_PRINT_LM_L then 2 ^ 64 else 2 ^ 32)
  | IStr a s => cstring m a s /\ (length s < fuel)%nat
  end.

Lemma cstring_cons m a c s :
  cstring m a (c :: s) <-> ld8 m a = c /\ c <> 0 /\ cstring m (a + 1) s.
Proof.
  unfold cstring, bytes_at. cbn [length seq map]. rewrite Z.add_0_r, <- seq_shift, map_map.
  assert (map (fun j => ld8 m (a + Z.of_nat (S j))) (seq 0 (length s)) =
    map (fun i => ld8 m (a + 1 + Z.of_nat i)) (seq 0 (length s))) as ->.
  { apply map_ext. intros j. f_equal. lia. }
  replace (a + Z.of_nat (S (length s))) with (a + 1 + Z.of_nat (length s)) by lia.
  rewrite Forall_cons. split.
  - intros ([= H1 H2] & [H3 H4] & H5). by rewrite !H2.
  - intros (-> & H3 & H2 & H4 & H5). by rewrite H2.
Qed.

Lemma cstring_end m a : cstring m a [] <-> ld8 m a = 0.
Proof. unfold cstring. cbn. rewrite Z.add_0_r. split; [by intros (_ & _ & ?)|done]. Qed.

Lemma parse_specifier_ok m p lm t dt rest :
  cstring m p (lm_format lm ++ t :: rest) ->
  (t, dt) ∈ [(99, FMT_PRINT_DT_CHAR); (117, FMT_PRINT_DT_UINT); (100, FMT_PRINT_DT_INT);
    (120, FMT_PRINT_DT_HEX); (115, FMT_PRINT_DT_STRING)] ->
  parse_specifier m p = (Specifier dt lm, p + Z.of_nat (length (lm_format lm)) + 1).
Proof.
  intros Hc Ht. unfold parse_specifier.
  assert (t <> 104 /\ t <> 108) as [Hh Hl] by (clear Hc; set_unfold in Ht; naive_solver).
  assert ((if t =? 99 then FMT_PRINT_DT_CHAR else if t =? 117 then FMT_PRINT_DT_UINT
    else if t =? 100 then FMT_PRINT_DT_INT else if t =? 120 then FMT_PRINT_DT_HEX
    else if t =? 115 then FMT_PRINT_DT_STRING else FMT_PRINT_DT_UNKNOWN) = dt) as Hdt
    by (clear Hc; set_unfold in Ht; naive_solver).
  destruct lm; cbn [lm_format app length] in *; rewrite !cstring_cons in Hc.
  - destruct Hc as (H0 & _). rewrite H0. destruct (Z.eqb_spec t 104), (Z.eqb_spec t 108); try done.
    cbv beta iota zeta. rewrite H0, Hdt. f_equal; lia.
  - destruct Hc as (H0 & _ & H1 & _). rewrite H0. cbn [Z.eqb Pos.eqb]. cbv beta iota zeta.
    rewrite H1, Hdt. f_equal; lia.
  - destruct Hc as (H0 & _ & H1 & _). rewrite H0. cbn [Z.eqb Pos.eqb]. cbv beta iota zeta.
    rewrite H1. destruct (Z.eqb_spec t 104); [done|]. rewrite H1, Hdt. f_equal; lia.
  - destruct Hc as (H0 & _ & H1 & _ & H2 & _). rewrite H0. cbn [Z.eqb Pos.eqb].
    cbv beta iota zeta. rewrite H1. cbn [Z.eqb Pos.eqb]. rewrite H2, Hdt. f_equal; lia.
Qed.

Section print_items.
Context {S : Type} `{SK : Sink S} `{SKO : !SinkOk S}.

Lemma va_arg_uint_ok lm n args :
  0 <= n < (if lm is FMT_PRINT_LM_L then 2 ^ 64 else 2 ^ 32) ->
  va_arg_uint lm (uint_args lm n ++ args) = Ok (uint_value lm n, args).
Proof.
  intros Hn. destruct lm; cbn; try done. do 2 f_equal.
  pose proof (Z.div_mod n 4294967296). lia.
Qed.

Lemma uint_value_range lm n b :
  0 <= n < (if lm is FMT_PRINT_LM_L then b else 2 ^ 32) -> 2 ^ 32 <= b ->
  0 <= uint_value lm n < b.
Proof. destruct lm; cbn; zmod. Qed.

(** One turn of the format loop handles one item. *)
Lemma fmt_item fuel m it p rest args (s : S) :
  item_ok fuel m it -> cstring m p (item_format it ++ rest) -> sink_ok s ->
  exists cs s', fmt_body fuel m (p, item_args it ++ args, s) =
      Ok (Next (p + Z.of_nat (length (item_format it)), args, s')) /\
    item_text it cs /\ sink_ok s' /\ sink_out s' = sink_out s ++ cs.
Proof.
  intros Hok Hc Hs. unfold fmt_body.
  destruct it as [c|c|lm n|n|lm n|a l]; cbn [item_format item_args app] in *;
    pose proof (proj1 (cstring_cons _ _ _ _) Hc) as (Hp & _ & Hr); rewrite Hp.
  1: { cbn in Hok. destruct (Z.eqb_spec c 0), (Z.eqb_spec c 37); try lia.
       destruct (prints_char c s Hs) as (s' & -> & Hs' & Ho). rewrite bind_Ok_r.
       exists [c], s'. rewrite w8_id in Ho by (unfold is_u8; lia). done. }
  all: cbn [Z.eqb Pos.eqb]; cbv beta iota; rewrite <- ?app_assoc in Hr; cbn [app] in Hr.
  - rewrite (parse_specifier_ok m (p + 1) FMT_PRINT_LM_NONE 99 FMT_PRINT_DT_CHAR rest)
      by (done || set_solver).
    cbn [put_specifier data_type va_arg32]. rewrite bind_Ok_r.
    destruct (prints_char (w8 c) s Hs) as (s' & -> & Hs' & Ho). rewrite !bind_Ok_r.
    exists [w8 c], s'. rewrite w8_id in Ho by apply w8_range.
    split_and!; [do 4 f_equal; cbn; lia|done..].
  - rewrite (parse_specifier_ok m (p + 1) lm 117 FMT_PRINT_DT_UINT rest) by (done || set_solver).
    cbn [put_specifier data_type length_modifier].
    rewrite va_arg_uint_ok, bind_Ok_r by (cbn in Hok; destruct lm; lia).
    destruct (prints_put_uint (uint_value lm n)) as (cs & Ht & Hpr);
      [apply uint_value_range; [exact Hok|lia]|].
    destruct (Hpr s Hs) as (s' & -> & Hs' & Ho). rewrite !bind_Ok_r.
    exists cs, s'. split_and!; [|done..].
    do 4 f_equal. cbn [length]. rewrite length_app. cbn [length]. lia.
  - rewrite (parse_specifier_ok m (p + 1) FMT_PRINT_LM_NONE 100 FMT_PRINT_DT_INT rest)
      by (done || set_solver).
    cbn [put_specifier data_type va_arg32]. rewrite bind_Ok_r.
    assert (s32 (w32 n) = n) as ->.
    { rewrite <- (s32_id n) at 2 by (cbn in Hok; lia). unfold s32, w32.
      by rewrite Z.mod_mod by lia. }
    destruct (prints_put_int n) as (cs & Ht & Hpr); [exact Hok|].
    destruct (Hpr s Hs) as (s' & -> & Hs' & Ho). rewrite !bind_Ok_r.
    exists cs, s'. split_and!; [do 4 f_equal; cbn; lia|done..].
  - rewrite (parse_specifier_ok m (p + 1) lm 120 FMT_PRINT_DT_HEX rest) by (done || set_solver).
    cbn [put_specifier data_type length_modifier].
    rewrite va_arg_uint_ok, bind_Ok_r by (cbn in Hok; destruct lm; lia).
    destruct (prints_put_hex (uint_value lm n)) as (cs & Ht & Hpr);
      [apply uint_value_range; [exact Hok|lia]|].
    destruct (Hpr s Hs) as (s' & -> & Hs' & Ho). rewrite !bind_Ok_r.
    exists cs, s'. split_and!; [|done..].
    do 4 f_equal. cbn [length]. rewrite length_app. cbn [length]. lia.
  - rewrite (parse_specifier_ok m (p + 1) FMT_PRINT_LM_NONE 115 FMT_PRINT_DT_STRING rest)
      by (done || set_solver).
    cbn [put_specifier data_type va_arg32]. rewrite bind_Ok_r.
    destruct Hok as [Hcs Hf].
    destruct (prints_write_string fuel m a l Hcs Hf s Hs) as (s' & -> & Hs' & Ho).
    rewrite !bind_Ok_r. exists l, s'. split_and!; [do 4 f_equal; cbn; lia|done..].
Qed.

Lemma fmt_items fuel m items : forall n p args (s : S),
  Forall (item_ok fuel m) items -> cstring m p (concat (map item_format items)) ->
  (length items < n)%nat -> sink_ok s ->
  exists css s', loop n (fmt_body fuel m) (p, concat (map item_args items) ++ args, s) =
      Ok (args, s') /\
    Forall2 item_text items css /\ sink_ok s' /\ sink_out s' = sink_out s ++ concat css.
Proof.
  induction items as [|it items IH]; intros [|n] p args s Hok Hc Hn Hs; try (cbn in Hn; lia).
  - cbn in Hc. rewrite cstring_end in Hc. cbn [loop fmt_body map concat app]. rewrite Hc.
    exists [], s. cbn. by rewrite app_nil_r.
  - inversion_clear Hok as [|? ? Hit Hits]. cbn [map concat] in *.
    destruct (fmt_item fuel m it p _ (concat (map item_args items) ++ args) s Hit Hc Hs)
      as (cs & s1 & Hb & Ht & Hs1 & Ho1).
    cbn [loop]. rewrite <- app_assoc, Hb.
    destruct (IH n (p + Z.of_nat (length (item_format it))) args s1) as
      (css & s2 & -> & Hts & Hs2 & Ho2); [done| |cbn in Hn; lia|done|].
    + clear -Hc. revert p Hc. generalize (item_format it) as l.
      induction l as [|c l IH]; intros p Hc; [by rewrite Z.add_0_r|].
      cbn [app] in Hc. rewrite cstring_cons in Hc. destruct Hc as (_ & _ & Hc).
      apply IH in Hc. cbn [length].
      by replace (p + Z.of_nat (Datatypes.S (length l))) with (p + 1 + Z.of_nat (length l)) by lia.
    + exists (cs :: css), s2. split_and!; [done|by constructor|done|].
      cbn. by rewrite Ho2, Ho1, app_assoc.
Qed.
End print_items.

(** Formats without conversions. *)
Lemma lits_format cs : concat (map item_format (map Lit cs)) = cs.
Proof. induction cs as [|c cs IH]; cbn; [done|by f_equal]. Qed.

Lemma lits_args cs : concat (map item_args (map Lit cs)) = [].
Proof. by induction cs. Qed.

Lemma lits_text cs : forall css, Forall2 item_text (map Lit cs) css -> concat css = cs.
Proof.
  induction cs as [|c cs IH]; intros css H; inversion H; subst; [done|].
  cbn in *. subst. cbn. f_equal. auto.
Qed.

Section print_format.
Context {S : Type} `{SK : Sink S} `{SKO : !SinkOk S}.

Lemma fmt_print_ok fuel m fmt items (s : S) :
  cstring m fmt (concat (map item_format items)) -> Forall (item_ok fuel m) items ->
  (length items < fuel)%nat -> sink_ok s ->
  exists css s', fmt_print fuel m fmt (concat (map item_args items)) s = Ok s' /\
    Forall2 item_text items css /\ sink_ok s' /\ sink_out s' = sink_out s ++ concat css.
Proof.
  intros Hc Hok Hf Hs. unfold fmt_print, fmt_print_impl.
  destruct (fmt_items fuel m items fuel fmt [0] s Hok Hc Hf Hs) as (css & s' & -> & Ht & Hr).
  rewrite bind_Ok_r. cbn [va_arg32]. rewrite bind_Ok_r.
  destruct fuel as [|fuel]; [lia|]. cbn. by exists css, s'.
Qed.

(** A literal without string arguments. *)
Lemma fmt_print_lit_ok fuel items (s : S) :
  Forall (fun c => 0 < c < 256) (concat (map item_format items)) ->
  Forall (item_ok fuel ∅) items -> Forall (fun it => if it is IStr _ _ then False else True) items ->
  (length items < fuel)%nat -> sink_ok s ->
  exists css s', fmt_print_lit fuel (concat (map item_format items)) (concat (map item_args items)) s
      = Ok s' /\ Forall2 item_text items css /\ sink_ok s' /\ sink_out s' = sink_out s ++ concat css.
Proof.
  intros Hb Hok Hn Hf Hs. apply fmt_print_ok; [by apply cstring_stored| |done|done].
  rewrite Forall_forall in *. intros it Hit. specialize (Hok it Hit). specialize (Hn it Hit).
  by destruct it.
Qed.
End print_format.

(** ** Properties *)

(** C12: [fmt_print] with a format made of characters other than [%] and the
    conversions c, u, d, x, s with the length modifiers l, h, hh, and with the
    words of matching arguments, prints the characters as they are and for
    every conversion the text of its argument: the numeral without leading
    zeros of the value cut to the length the modifier gives, the signed number,
    the string; nothing else, and it returns. *)
Theorem fmt_print_correct {S : Type} `{SK : Sink S} `{SKO : !SinkOk S}
    fuel m fmt items (s : S) :
  cstring m fmt (concat (map item_format items)) -> Forall (item_ok fuel m) items ->
  (length items < fuel)%nat -> sink_ok s ->
  exists css s', fmt_print fuel m fmt (concat (map item_args items)) s = Ok s' /\
    Forall2 item_text items css /\ sink_ok s' /\ sink_out s' = sink_out s ++ concat css.
Proof. apply fmt_print_ok. Qed.

(** [put_uint] overruns its array of 19 digits exactly for the numbers of 20
    digits that a [uint64_t] can hold; below, it prints the numeral. *)
Theorem put_uint_digits {S : Type} `{SK : Sink S} `{SKO : !SinkOk S} n (s : S) :
  0 <= n < 2 ^ 64 -> sink_ok s ->
  if n <? 10 ^ 19 then
    exists cs s', put_uint n s = Ok s' /\ numeral_text 10 dec_char n cs /\
      sink_out s' = sink_out s ++ cs
  else put_uint n s = Err OutOfBounds.
Proof.
  intros Hn Hs. destruct (Z.ltb_spec n (10 ^ 19)).
  - destruct (prints_put_uint n) as (cs & Ht & Hp); [lia|].
    destruct (Hp s Hs) as (s' & H1 & _ & Ho). by exists cs, s'.
  - apply put_uint_overrun. lia.
Qed.

(** The most negative [int] cannot be printed: its negation wraps to itself,
    and as a 64-bit number it has 20 digits. *)
Theorem put_int_min_overruns {S : Type} `{SK : Sink S} `{SKO : !SinkOk S} (s : S) :
  sink_ok s -> put_int (-2147483648) s = Err OutOfBounds.
Proof.
  intros Hs. unfold put_int. cbn [Z.eqb Z.ltb Z.compare].
  destruct (put_char_ok 45 s Hs) as (s' & -> & _). rewrite !bind_Ok_r.
  apply put_uint_overrun. vm_compute. split; congruence.
Qed.

(** A [%] at the end of the format makes [fmt_print] skip the terminating
    NUL: it goes on with the bytes behind the format string. *)
Theorem trailing_percent_reads_on {S : Type} `{SK : Sink S} `{SKO : !SinkOk S}
    fuel m fmt cs (s : S) :
  cstring m fmt [37] -> cstring m (fmt + 2) cs -> Forall (fun c => 0 < c < 256 /\ c <> 37) cs ->
  (length cs + 1 < fuel)%nat -> sink_ok s ->
  exists s', fmt_print fuel m fmt [] s = Ok s' /\
    sink_out s' = sink_out s ++ text "%(UNKNOWN_SPECIFIER)" ++ cs.
Proof.
  intros Hc Hcs Hok Hf Hs. apply cstring_cons in Hc as (Hp & _ & Hend%cstring_end).
  destruct fuel as [|fuel]; [lia|]. unfold fmt_print, fmt_print_impl. cbn [loop app].
  unfold fmt_body at 1. rewrite Hp. cbn [Z.eqb Pos.eqb]. cbv beta iota.
  unfold parse_specifier. rewrite Hend. cbn [Z.eqb Pos.eqb]. cbv beta iota zeta. rewrite Hend.
  cbn [Z.eqb Pos.eqb put_specifier data_type].
  destruct (prints_write_text "%(UNKNOWN_SPECIFIER)" s Hs) as (s1 & -> & Hs1 & Ho1).
  rewrite !bind_Ok_r. replace (fmt + 1 + 1) with (fmt + 2) by lia.
  destruct (fmt_items (Datatypes.S fuel) m (map Lit cs) fuel (fmt + 2) [0] s1)
    as (css & s2 & Hl & Ht & Hs2 & Ho2).
  - apply Forall_fmap. exact Hok.
  - by rewrite lits_format.
  - rewrite length_map. lia.
  - done.
  - rewrite lits_args in Hl. cbn [app] in Hl. rewrite Hl, bind_Ok_r. cbn [va_arg32].
    rewrite bind_Ok_r. cbn. exists s2. split; [done|].
    by rewrite Ho2, Ho1, (lits_text cs css Ht), <- app_assoc.
Qed.

(** ** Witnesses *)

(** "%hhx-%d %s" at 100, "ok" at 200. *)
Definition sample_items : list item :=
  [IHex FMT_PRINT_LM_HH 2748; Lit 45; IInt (-7); Lit 32; IStr 200 [111; 107]].
Definition sample_memory : mem :=
  st_bytes (st_bytes (st_bytes ∅ 100 (concat (map item_format sample_items) ++ [0]))
    200 [111; 107; 0]) 300 [37; 0; 104; 105; 0].

Lemma fmt_print_correct_witness : exists css s',
  fmt_print 100 sample_memory 100 [2748; 4294967289; 200] [] = Ok s' /\
  Forall2 item_text sample_items css /\ s' = concat css /\
  s' = [66; 67; 45; 45; 55; 32; 111; 107].
Proof.
  destruct (fmt_print_correct 100 sample_memory 100 sample_items ([] : list Z))
    as (css & s' & H & Ht & _ & Ho).
  - split_and!; [vm_compute; reflexivity|repeat constructor; discriminate|vm_compute; reflexivity].
  - repeat constructor; cbn; lia.
  - cbn. lia.
  - exact I.
  - exists css, s'. split; [exact H|]. split; [exact Ht|]. split; [exact Ho|].
    vm_compute in H. injection H as <-. reflexivity.
Defined.

Lemma put_uint_digits_witness :
  (exists cs s', put_uint 1234 [] = Ok s' /\ numeral_text 10 dec_char 1234 cs /\ s' = [] ++ cs) /\
  put_uint 18446744073709551615 ([] : list Z) = Err OutOfBounds.
Proof.
  split.
  - refine (put_uint_digits 1234 ([] : list Z) _ I). lia.
  - refine (put_uint_digits 18446744073709551615 ([] : list Z) _ I). lia.
Defined.

Lemma put_int_min_overruns_witness : put_int (-2147483648) ([] : list Z) = Err OutOfBounds.
Proof. apply put_int_min_overruns. exact I. Defined.

Lemma trailing_percent_reads_on_witness : exists s',
  fmt_print 100 sample_memory 300 [] [] = Ok s' /\
  s' = [] ++ text "%(UNKNOWN_SPECIFIER)" ++ [104; 105].
Proof.
  refine (trailing_percent_reads_on 100 sample_memory 300 [104; 105] ([] : list Z) _ _ _ _ I).
  - split_and!; [vm_compute; reflexivity|repeat constructor; discriminate|vm_compute; reflexivity].
  - split_and!; [vm_compute; reflexivity|repeat constructor; discriminate|vm_compute; reflexivity].
  - repeat constructor; discriminate.
  - cbn. lia.
Defined.
