(* ===== verification/KernelTests.v ===== *)
(** * The kernel's tests (src/src/tests/tests.c and runner.c)

    The tests of the page frame allocator and of the virtual allocator, the
    runner that prints their names and outcomes and counts them, and what it
    prints: every test of the repository passes in the model. The state is the
    heap and whatever [put_char] writes to; the run begins where [memory_init]
    leaves an empty heap. *)
From S2P Require Import Prelude Memory PageFrames Allocator Format.

#[local] Open Scope Z_scope.

Section tests.
Context {T : Type} `{SK : Sink T}.
(** The linker's addresses, where the compiler puts a string literal, and what
    [__FILE__] is. *)
Context (tables_addr kernel_end : Z) (str : string -> Z) (file : string) (fuel : nat).
#[local] Instance test_frames : FrameSource pfa := pfa_source tables_addr kernel_end.

Definition world : Type := heap pfa * T.
Definition test_fn : Type := world -> res (bool * world).

(** ** The runner *)

Definition say (fmt : list Z) (w : world) : res world :=
  s ← fmt_print_lit fuel fmt [] w.2; Ok (w.1, s).
Definition say_at (fmt : string) (args : list Z) (w : world) : res world :=
  s ← fmt_print fuel (h_mem w.1) (str fmt) args w.2; Ok (w.1, s).

Definition newline : string := String (Ascii.ascii_of_nat 10) EmptyString.

Definition test_assert_impl (line : Z) (cond_str : string) (cond : bool) : test_fn := fun w =>
  if cond then Ok (true, w) else
  w ← say ([10] ++ text "ASSERTION FAILED" ++ [10]) w;
  w ← say_at ("%s:%d: %s is false." +:+ newline) [str file; w32 line; str cond_str] w;
  Ok (false, w).

(** [TEST_ASSERT]s in a row: the first that fails ends the test. *)
Fixpoint test_asserts (cs : list (Z * string * bool)) : test_fn := fun w =>
  match cs with
  | [] => Ok (true, w)
  | (line, cond_str, cond) :: cs =>
      '(ok, w) ← test_assert_impl line cond_str cond w;
      if (ok : bool) then test_asserts cs w else Ok (false, w)
  end.

Record Test : Type := mk_test { test_name : string; test_function : test_fn }.
Record Test_Suite : Type := mk_suite {
  suite_name : string;
  setup : option (world -> res world);
  cleanup : option (world -> res world);
  suite_tests : list Test;
}.

Definition call_if (f : option (world -> res world)) (w : world) : res world :=
  match f with Some f => f w | None => Ok w end.

(** The numbers of tests that passed and failed go along. *)
Definition run_test (suite : Test_Suite) (t : Test) (st : Z * Z * world) : res (Z * Z * world) :=
  let '(passed, failed, w) := st in
  w ← say_at "    Running test %s... " [str (test_name t)] w;
  w ← call_if (setup suite) w;
  '(result, w) ← test_function t w;
  w ← call_if (cleanup suite) w;
  if (result : bool)
  then w ← say (text "OK!" ++ [10]) w; Ok (passed + 1, failed, w)
  else w ← say (text "FAIL!" ++ [10]) w; Ok (passed, failed + 1, w).

Fixpoint run_tests (suite : Test_Suite) (ts : list Test) (st : Z * Z * world) : res (Z * Z * world) :=
  match ts with [] => Ok st | t :: ts => st ← run_test suite t st; run_tests suite ts st end.

Fixpoint run_suites (suites : list Test_Suite) (st : Z * Z * world) : res (Z * Z * world) :=
  match suites with
  | [] => Ok st
  | suite :: suites =>
      let '(passed, failed, w) := st in
      w ← say_at (newline +:+ "---------- SUITE %s ----------" +:+ newline) [str (suite_name suite)] w;
      st ← run_tests suite (suite_tests suite) (passed, failed, w);
      run_suites suites st
  end.

(** [kernel_test] after [kernel_init]: the counts and the state in which it
    halts. *)
Definition kernel_test (suites : list Test_Suite) (w : world) : res (Z * Z * world) :=
  '(passed, failed, w) ← run_suites suites (0, 0, w);
  w ← say ([10] ++ text "--------------------------------------------------" ++ [10]) w;
  w ← say_at ("PASSED: %d, FAILED: %d" +:+ newline) [w32 passed; w32 failed] w;
  Ok (passed, failed, w).

(** ** Page frame allocator *)

Definition with_frames (w : world) (p : pfa) : world :=
  (Heap (h_mem w.1) (free_segments_head w.1) (next_page_virt_addr w.1) p, w.2).
Definition commit (virt : Z) (w : world) : res (bool * world) :=
  '(b, p) ← pfa_commit_page tables_addr kernel_end virt (h_frames w.1); Ok (b, with_frames w p).
Definition uncommit_all (w : world) : res world :=
  p ← pfa_uncommit_all (h_frames w.1); Ok (with_frames w p).

Definition test_page_frame_allocator_virt_to_tables_index : test_fn := fun w =>
  let index_is_0 := "mapped_virt_to_pfa_tables_index(virt) == 0"%string in
  let index_is_1 := "mapped_virt_to_pfa_tables_index(virt) == 1"%string in
  i1 ← mapped_virt_to_pfa_tables_index 0xC0800000;
  i2 ← mapped_virt_to_pfa_tables_index 0xC0801000;
  i3 ← mapped_virt_to_pfa_tables_index 0xC0C00000;
  i4 ← mapped_virt_to_pfa_tables_index 0xC0C12000;
  i5 ← mapped_virt_to_pfa_tables_index 0xFFFFFFFF;
  test_asserts [(7, index_is_0, i1 =? 0); (9, index_is_0, i2 =? 0); (11, index_is_1, i3 =? 1);
    (13, index_is_1, i4 =? 1); (15, "mapped_virt_to_pfa_tables_index(virt) == 253"%string, i5 =? 253)] w.

Definition test_page_frame_allocator_tables_index_to_virt : test_fn := fun w =>
  v1 ← pfa_tables_index_to_mapped_virt 0;
  v2 ← pfa_tables_index_to_mapped_virt 1;
  v3 ← pfa_tables_index_to_mapped_virt 2;
  v4 ← pfa_tables_index_to_mapped_virt 253;
  test_asserts
    [(21, "pfa_tables_index_to_mapped_virt(index) == (void *)0xC0800000"%string, v1 =? 0xC0800000);
     (23, "pfa_tables_index_to_mapped_virt(index) == (void *)0xC0C00000"%string, v2 =? 0xC0C00000);
     (25, "pfa_tables_index_to_mapped_virt(index) == (void *)0xC1000000"%string, v3 =? 0xC1000000);
     (27, "pfa_tables_index_to_mapped_virt(index) == (void *)0xFFC00000"%string, v4 =? 0xFFC00000)] w.

(** The entries for an address: [page_directory\[...\]] and
    [pfa_page_tables\[...\]\[...\]]. *)
Definition directory_entry (w : world) (virt : Z) : Z :=
  elem (page_directory (h_frames w.1)) (mapped_virt_to_page_directory_entry virt).
Definition table_entry_of (w : world) (index virt : Z) : Z :=
  elem (pfa_page_tables (h_frames w.1)) (index, mapped_virt_to_page_table_entry virt).
Definition bitmap_word (w : world) (i : Z) : Z := elem (pfa_page_bitmap (h_frames w.1)) i.

Definition test_page_frame_allocator_commit_one_page : test_fn := fun w =>
  let virt := 0xC0800000 in
  '(_, w) ← commit virt w;
  page_tables_index ← mapped_virt_to_pfa_tables_index virt;
  page_table_phys ← pfa_tables_index_to_table_phys tables_addr kernel_end page_tables_index;
  test_asserts
    [(39, "page_directory[page_directory_entry] == ((size_t)page_table_phys.value | 0x27)"%string,
        directory_entry w virt =? Z.lor page_table_phys 0x27);
     (40, "pfa_page_tables[page_tables_index][page_table_entry] == 0xa00027"%string,
        table_entry_of w page_tables_index virt =? 0xa00027);
     (42, "pfa_page_bitmap[0] == 0x00000001"%string, bitmap_word w 0 =? 1)] w.

Definition test_page_frame_allocator_resets_fully_after_uncommit_all : test_fn := fun w =>
  '(_, w) ← commit 0xC0800000 w;
  '(_, w) ← commit 0xC0801000 w;
  '(_, w) ← commit 0xC0C00000 w;
  w ← uncommit_all w;
  test_asserts
    [(69, "page_directory[page_directory_entry1] == 0"%string, directory_entry w 0xC0800000 =? 0);
     (70, "page_directory[page_directory_entry2] == 0"%string, directory_entry w 0xC0801000 =? 0);
     (71, "page_directory[page_directory_entry3] == 0"%string, directory_entry w 0xC0C00000 =? 0);
     (75, "pfa_page_tables[i][j] == 0"%string,
        forallb (fun i => forallb (fun j => elem (pfa_page_tables (h_frames w.1)) (i, j) =? 0) (seqZ 0 1024))
          (seqZ 0 TABLES))] w.

Definition test_page_frame_allocator_can_commit_multiple_pages : test_fn := fun w =>
  let virt1 := 0xC0800000 in
  let virt2 := 0xC0801000 in
  let virt3 := 0xC0C00000 in
  '(_, w) ← commit virt1 w;
  '(_, w) ← commit virt2 w;
  '(_, w) ← commit virt3 w;
  low_page_tables_index ← mapped_virt_to_pfa_tables_index virt1;
  low_page_table_phys ← pfa_tables_index_to_table_phys tables_addr kernel_end low_page_tables_index;
  high_page_tables_index ← mapped_virt_to_pfa_tables_index virt3;
  high_page_table_phys ← pfa_tables_index_to_table_phys tables_addr kernel_end high_page_tables_index;
  test_asserts
    [(105, "page_directory[low_page_directory_entry] == ((size_t)low_page_table_phys.value | 0x27)"%string,
        directory_entry w virt1 =? Z.lor low_page_table_phys 0x27);
     (106, "pfa_page_tables[low_page_tables_index][page_table_entry1] == 0xa00027"%string,
        table_entry_of w low_page_tables_index virt1 =? 0xa00027);
     (107, "pfa_page_tables[low_page_tables_index][page_table_entry2] == 0xa01027"%string,
        table_entry_of w low_page_tables_index virt2 =? 0xa01027);
     (113, "page_directory[high_page_directory_entry] == ((size_t)high_page_table_phys.value | 0x27)"%string,
        directory_entry w virt3 =? Z.lor high_page_table_phys 0x27);
     (114, "pfa_page_tables[high_page_tables_index][page_table_entry3] == 0xa02027"%string,
        table_entry_of w high_page_tables_index virt3 =? 0xa02027);
     (116, "pfa_page_bitmap[0] == 0x00000007"%string, bitmap_word w 0 =? 7)] w.

Definition test_page_frame_allocator_commit_more_than_32_pages_bitmap_is_correct : test_fn := fun w =>
  w ← for_res 33 0 (fun k w => '(_, w) ← commit (0xC0800000 + k * PAGE_SIZE) w; Ok w) w;
  test_asserts [(126, "pfa_page_bitmap[0] == 0xffffffff"%string, bitmap_word w 0 =? 0xffffffff);
                (127, "pfa_page_bitmap[1] == 0x00000001"%string, bitmap_word w 1 =? 1)] w.

(** The bitmap is copied to the heap and back word by word. *)
Definition save_bitmap (m : mem) (a : Z) (bm : gmap Z Z) : mem :=
  for_up (Z.to_nat BITMAP_LEN) 0 (fun i m => st32 m (a + 4 * i) (elem bm i)) m.
Definition load_bitmap (m : mem) (a : Z) (bm : gmap Z Z) : gmap Z Z :=
  for_up (Z.to_nat BITMAP_LEN) 0 (fun i bm => <[i := ld32 m (a + 4 * i)]> bm) bm.

Definition with_bitmap (w : world) (bm : gmap Z Z) : world := with_frames w (set_bitmap (h_frames w.1) bm).

Definition test_page_frame_allocator_commit_fails_when_no_pages_left : test_fn := fun w =>
  '(old_page_bitmap, h) ← memory_allocate fuel (BITMAP_LEN * 4) w.1;
  let m := save_bitmap (h_mem h) old_page_bitmap (pfa_page_bitmap (h_frames h)) in
  let w := (Heap m (free_segments_head h) (next_page_virt_addr h) (h_frames h), w.2) in
  let w := with_bitmap w full_bitmap in
  '(success, w) ← commit 0xC0800000 w;
  let w := with_bitmap w (load_bitmap (h_mem w.1) old_page_bitmap (pfa_page_bitmap (h_frames w.1))) in
  h ← memory_free fuel old_page_bitmap w.1;
  h ← memory_free_all h;
  test_asserts [(198, "!success"%string, negb success)] (h, w.2).

(** ** Virtual allocator *)

(** [allocations\[i\] = memory_allocate((i + 1) * 32 - 4)] for the 100 entries. *)
Fixpoint allocations (n : nat) (i : Z) (h : heap pfa) : res (list Z * heap pfa) :=
  match n with
  | O => Ok ([], h)
  | S n => '(a, h) ← memory_allocate fuel ((i + 1) * 32 - 4) h;
           '(l, h) ← allocations n (i + 1) h; Ok (a :: l, h)
  end.
(** The order of the third test: [for n < 4: for (i = n; i < 100; i += 4)]. *)
Definition every_fourth (l : list Z) : list Z :=
  mjoin (map (fun n => omap (fun i => rev l !! (n + 4 * i)%nat) (seq 0 25)) (seq 0 4)).
Definition free_in_order (order : list Z -> list Z) : test_fn := fun w =>
  '(l, h) ← allocations 100 0 w.1;
  h ← foldl (fun r a => h ← r; memory_free fuel a h) (Ok h) (order l);
  Ok (true, (h, w.2)).
Definition one_segment_left (line : Z) : test_fn := fun w =>
  test_asserts
    [(line, "free_segments_head->length == 163840"%string, seg_len (h_mem w.1) (free_segments_head w.1) =? 163840);
     (line + 1, "free_segments_head->next == 0"%string, seg_next (h_mem w.1) (free_segments_head w.1) =? 0)] w.

Definition test_virtual_allocator_in_order_freeing : test_fn := fun w =>
  '(_, w) ← free_in_order id w; one_segment_left 146 w.
Definition test_virtual_allocator_reverse_order_freeing : test_fn := fun w =>
  '(_, w) ← free_in_order (@rev Z) w; one_segment_left 162 w.
Definition test_virtual_allocator_out_of_order_freeing : test_fn := fun w =>
  '(_, w) ← free_in_order every_fourth w; one_segment_left 180 w.

(** ** The suites *)

Definition free_all (w : world) : res world := h ← memory_free_all w.1; Ok (h, w.2).

Definition suites : list Test_Suite :=
  [mk_suite "page_frame_allocator" None (Some uncommit_all)
     [mk_test "test_page_frame_allocator_commit_fails_when_no_pages_left"
        test_page_frame_allocator_commit_fails_when_no_pages_left;
      mk_test "test_page_frame_allocator_resets_fully_after_uncommit_all"
        test_page_frame_allocator_resets_fully_after_uncommit_all;
      mk_test "test_page_frame_allocator_virt_to_tables_index" test_page_frame_allocator_virt_to_tables_index;
      mk_test "test_page_frame_allocator_tables_index_to_virt" test_page_frame_allocator_tables_index_to_virt;
      mk_test "test_page_frame_allocator_commit_one_page" test_page_frame_allocator_commit_one_page;
      mk_test "test_page_frame_allocator_can_commit_multiple_pages"
        test_page_frame_allocator_can_commit_multiple_pages;
      mk_test "test_page_frame_allocator_commit_more_than_32_pages_bitmap_is_correct"
        test_page_frame_allocator_commit_more_than_32_pages_bitmap_is_correct];
   mk_suite "virtual_allocator" None (Some free_all)
     [mk_test "test_virtual_allocator_in_order_freeing" test_virtual_allocator_in_order_freeing;
      mk_test "test_virtual_allocator_reverse_order_freeing" test_virtual_allocator_reverse_order_freeing;
      mk_test "test_virtual_allocator_out_of_order_freeing" test_virtual_allocator_out_of_order_freeing]].
End tests.

(** ** The run *)

(** The literals one after the other from [base]. *)
Fixpoint literal_at (base : Z) (ls : list string) (s : string) : Z :=
  match ls with
  | [] => 0
  | l :: ls => if decide (l = s) then base else literal_at (base + Z.of_nat (String.length l) + 1) ls s
  end.
Definition literal_bytes (ls : list string) : list Z := mjoin (map (fun s => text s ++ [0]) ls).

#[local] Instance out_list : Sink (list Z) := fun c s => Ok (s ++ [c]).
#[local] Open Scope string_scope.

(** A suite of a test that passes and one that fails, run from a heap whose
    memory holds the literals. *)
Definition sample_literals : list string :=
  ["passing"; "failing"; "sample"; "a.c"; "1 == 2"; "%s:%d: %s is false." +:+ newline; "    Running test %s... ";
   newline +:+ "---------- SUITE %s ----------" +:+ newline; "PASSED: %d, FAILED: %d" +:+ newline].
Definition sample_str : string -> Z := literal_at 0xC0100000 sample_literals.
Definition sample_world : world (T := list Z) :=
  (boot_heap (st_bytes ∅ 0xC0100000 (literal_bytes sample_literals)) pfa_empty, []).
Definition sample_suite : Test_Suite (T := list Z) :=
  mk_suite "sample" None (Some Ok)
    [mk_test "passing" (test_asserts sample_str "a.c" 1000 [(1, "1 == 1", true)]);
     mk_test "failing" (test_asserts sample_str "a.c" 1000 [(7, "1 == 2", false); (8, "1 == 1", true)])].

Example runner_prints :
  ('(passed, failed, w) ← kernel_test sample_str 1000 [sample_suite] sample_world; Ok (passed, failed, w.2)) =
  Ok (1, 1, text (newline +:+ "---------- SUITE sample ----------" +:+ newline +:+
    "    Running test passing... OK!" +:+ newline +:+
    "    Running test failing... " +:+ newline +:+ "ASSERTION FAILED" +:+ newline +:+
    "a.c:7: 1 == 2 is false." +:+ newline +:+ "FAIL!" +:+ newline +:+
    newline +:+ "--------------------------------------------------" +:+ newline +:+
    "PASSED: 1, FAILED: 1" +:+ newline)).
Proof. vm_compute. reflexivity. Qed.

Close Scope string_scope.

(** ** The repository's tests pass *)

Section pass.
Context {T : Type} `{SK : Sink T} (str : string -> Z) (file : string) (fuel : nat).
Abbreviation passed r := (exists w', r = Ok (true, w')).

Lemma asserts_pass cs (w : world (T := T)) : forallb snd cs = true -> test_asserts str file fuel cs w = Ok (true, w).
Proof.
  induction cs as [|[[line c] b] cs IH]; cbn; [done|]. intros [-> H]%andb_true_iff.
  unfold test_assert_impl. rewrite bind_Ok_r. by apply IH.
Qed.

Lemma index_tests_pass (w : world (T := T)) :
  passed (test_page_frame_allocator_virt_to_tables_index str file fuel w) /\
  passed (test_page_frame_allocator_tables_index_to_virt str file fuel w).
Proof. split; exists w; by apply asserts_pass. Qed.

Lemma commit_frames (w : world (T := T)) virt b p :
  pfa_commit_page sample_tables sample_end virt (h_frames w.1) = Ok (b, p) ->
  commit sample_tables sample_end virt w = Ok (b, with_frames w p).
Proof. intros H. unfold commit. by rewrite H. Qed.

(** Three pages, two of them in one table: after [pfa_uncommit_all] every entry
    is zero, from any reachable state with three free frames. *)
Lemma resets_passes (w : world (T := T)) p1 p2 p3 :
  pfa_ok sample_tables (h_frames w.1) ->
  pfa_commit_page sample_tables sample_end 0xC0800000 (h_frames w.1) = Ok (true, p1) ->
  pfa_commit_page sample_tables sample_end 0xC0801000 p1 = Ok (true, p2) ->
  pfa_commit_page sample_tables sample_end 0xC0C00000 p2 = Ok (true, p3) ->
  passed (test_page_frame_allocator_resets_fully_after_uncommit_all sample_tables sample_end str file fuel w).
Proof.
  intros Hok H1 H2 H3. pose proof linker_sample as Hlink.
  assert (pfa_ok sample_tables p3) as Hok3.
  { assert (in_heap 0xC0800000 /\ in_heap 0xC0801000 /\ in_heap 0xC0C00000) as (V1 & V2 & V3)
      by (unfold in_heap, heap_start; pf_unfold; lia).
    refine (commit_ok _ _ _ _ _ _ _ V3 H3). refine (commit_ok _ _ _ _ _ _ _ V2 H2). exact (commit_ok _ _ _ _ _ _ Hok V1 H1). }
  destruct (pfa_uncommit_all_ok sample_tables sample_end p3 Hok3) as (t & Ht & [Hdir Htab _]).
  exists (with_frames w t). unfold test_page_frame_allocator_resets_fully_after_uncommit_all.
  rewrite (commit_frames w _ _ _ H1), bind_Ok_r, (commit_frames (with_frames w p1) _ _ _ H2), bind_Ok_r,
    (commit_frames (with_frames (with_frames w p1) p2) _ _ _ H3), bind_Ok_r.
  unfold uncommit_all. cbn [with_frames h_frames fst snd h_mem free_segments_head next_page_virt_addr].
  rewrite Ht, !bind_Ok_r.
  assert (forall v, in_heap v -> elem (page_directory t) (mapped_virt_to_page_directory_entry v) = 0) as Hd.
  { intros v Hv. pose proof (tables_index_range v Hv) as Hi. unfold mapped_virt_to_page_directory_entry.
    rewrite Z.shiftr_div_pow2 by lia. change (2 ^ 22) with 4194304.
    replace (v / 4194304) with (770 + tables_index v) by (unfold tables_index; lia).
    rewrite Hdir by done. by rewrite decide_True by lia. }
  apply asserts_pass. unfold directory_entry. cbn [forallb fst snd h_frames].
  rewrite !Hd by (unfold in_heap, heap_start; pf_unfold; lia). cbn [Z.eqb andb]. rewrite andb_true_r.
  apply forallb_forall. intros i Hi. apply forallb_forall. intros j Hj.
  apply list_elem_of_In, elem_of_seqZ in Hi, Hj. rewrite Htab by lia. by rewrite decide_True by lia.
Qed.
End pass.

(** *** A commit without frames *)

Lemma ld8_save_bitmap m a bm x : x < a \/ a + 4 * BITMAP_LEN <= x -> ld8 (save_bitmap m a bm) x = ld8 m x.
Proof.
  intros Hx. unfold save_bitmap.
  apply (for_up_ind (fun _ m' => ld8 m' x = ld8 m x)); [done|]. intros k m' Hk IH. unfold BITMAP_LEN in *.
  rewrite ld8_st32_ne by lia. exact IH.
Qed.

Lemma ld32_save_bitmap m a bm i : 0 <= i < BITMAP_LEN -> ld32 (save_bitmap m a bm) (a + 4 * i) = elem bm i.
Proof.
  intros Hi. unfold save_bitmap.
  pose proof (for_up_ind (fun k m' => forall j, 0 <= j < k -> ld32 m' (a + 4 * j) = elem bm j)
    (fun i m => st32 m (a + 4 * i) (elem bm i)) (Z.to_nat BITMAP_LEN) 0 m) as H.
  apply H; [intros; lia| |unfold BITMAP_LEN in *; lia]. intros k m' Hk IH j Hj.
  destruct (decide (j = k)) as [->|Hne]; [rewrite ld32_st32_eq; apply w32_id, elem_range|].
  rewrite ld32_st32_ne by lia. apply IH. lia.
Qed.

Lemma elem_load_bitmap m a bm i : 0 <= i < BITMAP_LEN -> elem (load_bitmap m a bm) i = ld32 m (a + 4 * i).
Proof.
  intros Hi. unfold load_bitmap.
  pose proof (for_up_ind (fun k bm' => forall j, 0 <= j < k -> elem bm' j = ld32 m (a + 4 * j))
    (fun i bm => <[i := ld32 m (a + 4 * i)]> bm) (Z.to_nat BITMAP_LEN) 0 bm) as H.
  apply H; [intros; lia| |unfold BITMAP_LEN in *; lia]. intros k bm' Hk IH j Hj.
  destruct (decide (j = k)) as [->|Hne].
  - rewrite elem_insert_eq. apply w32_id, ld32_range.
  - rewrite elem_insert_ne by done. apply IH. lia.
Qed.

(** The copy comes back as it was. *)
Lemma restored_bits m a bm bm' n : 0 <= n < PAGES ->
  bit_at (load_bitmap (save_bitmap m a bm) a bm') n = bit_at bm n.
Proof.
  intros Hn. unfold bit_at. rewrite elem_load_bitmap, ld32_save_bitmap by (unfold PAGES in Hn; zmod). done.
Qed.

Lemma set_bitmap_ok s bm : (forall n, 0 <= n < PAGES -> bit_at bm n = bit_at (pfa_page_bitmap s) n) ->
  pfa_ok sample_tables s -> pfa_ok sample_tables (set_bitmap s bm).
Proof.
  intros Hb [Hd Ht Hi]. split; cbn; [done| |done]. intros i j Hi' Hj.
  destruct (Ht i j Hi' Hj) as [?|(? & n & Hn & Hbn & ?)]; [by left|right].
  split; [done|]. exists n. split_and!; (done || lia || by rewrite Hb).
Qed.

Section full.
#[local] Opaque save_bitmap load_bitmap full_bitmap pfa_uncommit_all.
#[local] Existing Instance sample_heap.
#[local] Instance tests_heap_ok : FrameSourceOk pfa := pfa_source_ok sample_tables sample_end.
Context {T : Type} `{SK : Sink T} (str : string -> Z) (file : string) (fuel : nat).

(** From any heap in which the block of the copy can be had, with a free segment
    above it. *)
Lemma commit_fails_passes (w : world (T := T)) h fl bl :
  memory_allocate fuel (BITMAP_LEN * 4) w.1 = Ok (heap_start + 4, h) ->
  heap_inv h fl ((heap_start, BITMAP_LEN * 4 + 4) :: bl) -> ld32 (h_mem h) heap_start = BITMAP_LEN * 4 + 4 ->
  Exists (fun '(s, _) => heap_start < s) fl -> (length fl + 1 < fuel)%nat ->
  exists w', test_page_frame_allocator_commit_fails_when_no_pages_left sample_tables sample_end str file fuel w =
    Ok (true, w').
Proof.
  intros Hal Hinv Hhd Hex Hf. unfold test_page_frame_allocator_commit_fails_when_no_pages_left.
  change (@memory_allocate pfa (test_frames sample_tables sample_end)) with (@memory_allocate pfa sample_heap).
  rewrite Hal, bind_Ok_r. cbv beta iota zeta. set (m := save_bitmap _ _ _).
  assert (heap_inv (Heap m (free_segments_head h) (next_page_virt_addr h) (h_frames h)) fl
    ((heap_start, BITMAP_LEN * 4 + 4) :: bl)) as Hinv1.
  { apply (heap_inv_write h _ _ heap_start (BITMAP_LEN * 4 + 4)); [done|by left|].
    intros x Hx. apply ld8_save_bitmap. lia. }
  unfold commit. cbn [fst snd with_bitmap with_frames h_frames h_mem free_segments_head next_page_virt_addr].
  rewrite (commit_full sample_tables sample_end (set_bitmap (h_frames h) full_bitmap) 0xC0800000 eq_refl full_bitmap_full).
  rewrite !bind_Ok_r. cbn [fst snd with_bitmap with_frames h_frames h_mem free_segments_head next_page_virt_addr].
  set (bm := load_bitmap _ _ _). set (p := set_bitmap _ bm).
  assert (pfa_ok sample_tables p) as Hp.
  { change p with (set_bitmap (h_frames h) bm). apply set_bitmap_ok; [|exact (inv_frames Hinv)].
    intros n Hn. by apply restored_bits. }
  assert (heap_inv (Heap m (free_segments_head h) (next_page_virt_addr h) p) fl
    ((heap_start, BITMAP_LEN * 4 + 4) :: bl)) as Hinv2.
  { destruct Hinv1 as [? ? ? ? ? _ Hm]. by split. }
  destruct (memory_free_ok _ fl [] heap_start (BITMAP_LEN * 4 + 4) bl fuel Hinv2)
    as (pre & post & h2 & _ & _ & _ & -> & Hinv3 & _); [|done|done|].
  { cbn [h_mem]. enough (ld32 m heap_start = BITMAP_LEN * 4 + 4) by lia. rewrite <- Hhd.
    apply ld32_frame. intros x Hx. apply ld8_save_bitmap. lia. }
  rewrite bind_Ok_r. unfold memory_free_all.
  destruct (pfa_uncommit_all_ok sample_tables sample_end (h_frames h2) (inv_frames Hinv3)) as (t & -> & _).
  rewrite !bind_Ok_r. eexists. by apply asserts_pass.
Qed.
End full.

Section boot.
#[local] Existing Instance sample_heap.
#[local] Existing Instance tests_heap_ok.
Context {T : Type} `{SK : Sink T}.

Definition tests_fuel : nat := Z.to_nat 140000.
Lemma tests_fuel_big n : n < 140000 -> (Z.to_nat n < tests_fuel)%nat.
Proof. unfold tests_fuel. lia. Qed.
#[local] Opaque tests_fuel.
Definition boot_world (s : T) : world := (boot_heap ∅ pfa_empty, s).
Definition passes (t : test_fn (T := T)) (s : T) : Prop := exists w', t (boot_world s) = Ok (true, w').

Lemma pass_evaluates (r : res (bool * world (T := T))) :
  match r with Ok (b, _) => b | Err _ => false end = true -> exists w', r = Ok (true, w').
Proof. destruct r as [[[] w']|]; [by exists w'|done..]. Qed.

Definition copy_heap : heap pfa :=
  match memory_allocate tests_fuel (BITMAP_LEN * 4) (boot_heap ∅ pfa_empty) with
  | Ok (_, h) => h | Err _ => boot_heap ∅ pfa_empty
  end.

Lemma copy_had : exists fl,
  memory_allocate tests_fuel (BITMAP_LEN * 4) (boot_heap ∅ pfa_empty) = Ok (heap_start + 4, copy_heap) /\
  heap_inv copy_heap fl [(heap_start, BITMAP_LEN * 4 + 4)] /\
  ld32 (h_mem copy_heap) heap_start = BITMAP_LEN * 4 + 4 /\
  Exists (fun '(s, _) => heap_start < s) fl /\ (length fl + 1 < tests_fuel)%nat.
Proof.
  destruct (memory_allocate_cases (boot_heap ∅ pfa_empty) [] [] (BITMAP_LEN * 4) tests_fuel)
    as (r & h & E & Hr); [apply boot_heap_inv, pfa_ok_boot|done| |by apply (tests_fuel_big 1)
    |vm_compute; reflexivity|by right|].
  { change (round4 (BITMAP_LEN * 4 + 4)) with 130820. split; [by apply (tests_fuel_big 0)|by apply tests_fuel_big]. }
  assert (copy_heap = h) as Eh by (unfold copy_heap; by rewrite E).
  assert (match memory_allocate tests_fuel (BITMAP_LEN * 4) (boot_heap ∅ pfa_empty) with
    Ok (r, _) => r =? heap_start + 4 | Err _ => false end = true) as Er by (vm_compute; reflexivity).
  rewrite E in Er. apply Z.eqb_eq in Er as ->. rewrite <- Eh in *.
  assert (0 < heap_start) as Hh by (vm_compute; reflexivity).
  destruct Hr as [(Hr & _)|(s & fl & Hs & _ & Hinv & Hhd & _)]; [clear -Hr Hh; lia|].
  assert (s = heap_start) as -> by (clear -Hs; lia).
  change (round4 (BITMAP_LEN * 4 + 4)) with (BITMAP_LEN * 4 + 4) in Hinv.
  assert (fl = [(heap_start + 130820, 252)]) as ->.
  { eapply lseg_unique; [exact (inv_list Hinv)|]. vm_compute. split_and!; congruence. }
  exists [(heap_start + 130820, 252)]. split_and!; [exact E|exact Hinv|exact Hhd|constructor; lia|].
  by apply (tests_fuel_big 2).
Qed.

(** Each of the repository's tests, from the heap that [memory_init] leaves with
    every frame free. *)
Theorem kernel_tests_pass (str : string -> Z) (file : string) (s : T) :
  Forall (fun suite => Forall (fun t => passes (test_function t) s) (suite_tests suite))
    (suites sample_tables sample_end str file tests_fuel).
Proof.
  repeat constructor; cbn [test_function].
  - destruct copy_had as (fl & Hal & Hinv & Hhd & Hex & Hf). by eapply commit_fails_passes.
  - eapply resets_passes; [apply pfa_ok_boot|vm_compute; reflexivity..].
  - apply index_tests_pass.
  - apply index_tests_pass.
  - apply pass_evaluates. vm_compute. reflexivity.
  - apply pass_evaluates. vm_compute. reflexivity.
  - apply pass_evaluates. vm_compute. reflexivity.
  - apply pass_evaluates. vm_compute. reflexivity.
  - apply pass_evaluates. vm_compute. reflexivity.
  - apply pass_evaluates. vm_compute. reflexivity.
Qed.
End boot.
