(* ===== verification/Ports.v ===== *)
(** * Port input and output (src/src/arch/x86/instructions.c) and the devices
      driven by single registers: the interrupt controllers (src/src/hal/pic.c),
      the serial line (src/src/hal/serial.c) and the PCI configuration space
      (src/src/hal/pci.c)

    The hardware behind the ports is a parameter, a [Machine]; what a property
    needs of it is a class of laws. *)
From S2P Require Import Prelude.

#[local] Open Scope Z_scope.

(** What the in and out instructions do to the machine. *)
Class Machine (M : Type) : Type := {
  mach_out : Z -> Z -> Z -> M -> M;    (* width in bytes, port, data *)
  mach_in : Z -> Z -> M -> Z * M;      (* width in bytes, port *)
}.

(** ** instructions.c *)

Section instructions.
Context {M : Type} `{Machine M}.

Definition out_8 (port data : Z) (s : M) : M := mach_out 1 (w16 port) (w8 data) s.
Definition in_8 (port : Z) (s : M) : Z * M :=
  let '(data, s) := mach_in 1 (w16 port) s in (w8 data, s).
Definition out_16 (port data : Z) (s : M) : M := mach_out 2 (w16 port) (w16 data) s.
Definition in_16 (port : Z) (s : M) : Z * M :=
  let '(data, s) := mach_in 2 (w16 port) s in (w16 data, s).
Definition out_32 (port data : Z) (s : M) : M := mach_out 4 (w16 port) (w32 data) s.
Definition in_32 (port : Z) (s : M) : Z * M :=
  let '(data, s) := mach_in 4 (w16 port) s in (w32 data, s).
End instructions.

(** ** pic.c *)

Definition PICM_COMMAND : Z := 0x20.
Definition PICM_DATA : Z := 0x21.
Definition PICS_COMMAND : Z := 0x40.
Definition PICS_DATA : Z := 0x41.
Definition PIC_ICW1_ICW4 : Z := Z.shiftl 1 0.
Definition PIC_ICW1_INIT : Z := Z.shiftl 1 4.
Definition PIC_ICW3_S_IRQ : Z := Z.shiftl 1 2.
Definition PIC_ICW3_S_ID : Z := 2.
Definition PIC_ICW4_8086 : Z := Z.shiftl 1 0.
Definition PIC_ICW4_AUTO_EOI : Z := Z.shiftl 1 1.

Section pic.
Context {M : Type} `{Machine M}.

Definition pic_init (s : M) : M :=
  (* Master configuration. *)
  let s := out_8 PICM_COMMAND (Z.lor PIC_ICW1_INIT PIC_ICW1_ICW4) s in
  let s := out_8 PICM_DATA 0x20 s in
  let s := out_8 PICM_DATA PIC_ICW3_S_IRQ s in
  let s := out_8 PICM_DATA (Z.lor PIC_ICW4_8086 PIC_ICW4_AUTO_EOI) s in
  (* Slave configuration. *)
  let s := out_8 PICS_COMMAND (Z.lor PIC_ICW1_INIT PIC_ICW1_ICW4) s in
  let s := out_8 PICS_DATA 0x30 s in
  let s := out_8 PICS_DATA PIC_ICW3_S_ID s in
  let s := out_8 PICS_DATA (Z.lor PIC_ICW4_8086 PIC_ICW4_AUTO_EOI) s in
  (* Unmask the PICs. *)
  let s := out_8 PICM_DATA 0 s in
  out_8 PICS_DATA 0 s.
End pic.

(** ** serial.c *)

Definition PORT : Z := 0x3f8.

Section serial.
Context {M : Type} `{Machine M}.

Definition serial_init (s : M) : bool * M :=
  let s := out_8 (PORT + 1) 0x00 s in
  let s := out_8 (PORT + 3) 0x80 s in
  let s := out_8 (PORT + 0) 0x03 s in
  let s := out_8 (PORT + 1) 0x00 s in
  let s := out_8 (PORT + 3) 0x03 s in
  let s := out_8 (PORT + 2) 0xC7 s in
  let s := out_8 (PORT + 4) 0x0B s in
  let s := out_8 (PORT + 4) 0x1E s in
  let s := out_8 (PORT + 0) 0xAE s in
  let '(v, s) := in_8 (PORT + 0) s in
  if negb (v =? 0xAE) then (false, s) else
  (true, out_8 (PORT + 4) 0x0F s).

Definition serial_is_transmit_empty (s : M) : bool * M :=
  let '(v, s) := in_8 (PORT + 5) s in (negb (Z.land v 0x20 =? 0), s).

(** [while (serial_is_transmit_empty() == 0); out_8(PORT, a);] *)
Definition serial_wait (fuel : nat) (s : M) : res M :=
  loop fuel (fun s => let '(empty, s) := serial_is_transmit_empty s in
    if (empty : bool) then Ok (Stop s) else Ok (Next s)) s.
Definition serial_write (fuel : nat) (a : Z) (s : M) : res M :=
  s ← serial_wait fuel s; Ok (out_8 PORT a s).
End serial.

(** ** pci.c: the registers *)

Definition PCI_CONFIG_ADDRESS : Z := 0xCF8.
Definition PCI_CONFIG_DATA : Z := 0xCFC.
Definition PCI_ADDRESS_ENABLE : Z := 0x80000000.

Definition pci_get_register_address (bus device function reg : Z) : res Z :=
  _ ← assert "reg does not point to a 32-bit aligned region." (Z.land reg 0x3 =? 0);
  Ok (w32 (Z.lor (Z.lor (Z.lor (Z.lor PCI_ADDRESS_ENABLE (Z.shiftl bus 16))
    (Z.shiftl device 11)) (Z.shiftl function 8)) reg)).

Section pci.
Context {M : Type} `{Machine M}.

Definition pci_read_register (bus device function reg : Z) (s : M) : res (Z * M) :=
  address ← pci_get_register_address bus device function reg;
  let s := out_32 PCI_CONFIG_ADDRESS address s in
  Ok (in_32 PCI_CONFIG_DATA s).

Definition pci_write_register (bus device function reg value : Z) (s : M) : res M :=
  address ← pci_get_register_address bus device function reg;
  let s := out_32 PCI_CONFIG_ADDRESS address s in
  Ok (out_32 PCI_CONFIG_DATA value s).
End pci.

(** ** A machine that records *)

Inductive io : Type :=
  | Out (width port data : Z)
  | In (width port data : Z).

(** Every access is logged; reads take their values from a script. *)
Record recorder : Type := Recorder { script : list Z; log : list io }.

#[export] Instance recorder_machine : Machine recorder := {
  mach_out w p d s := Recorder (script s) (log s ++ [Out w p d]);
  mach_in w p s := (hd 0 (script s), Recorder (tl (script s)) (log s ++ [In w p (hd 0 (script s))]));
}.

(** ** The PCI configuration mechanism *)

(** Writing the address port selects a register by the bit fields of the
    address; reading the data port then yields that register. *)
Class PciConfig (M : Type) `{Machine M} : Type := {
  pci_register : M -> Z -> Z -> Z -> Z -> Z;  (* bus, device, function, offset *)
  pci_select : M -> Z;
  pci_out_address : forall a s, 0 <= a < 2 ^ 32 ->
    pci_select (out_32 0xCF8 a s) = a /\
    forall b d f r, pci_register (out_32 0xCF8 a s) b d f r = pci_register s b d f r;
  pci_in_data : forall s, Z.testbit (pci_select s) 31 = true ->
    (in_32 0xCFC s).1 =
      pci_register s (pci_select s / 65536 mod 256) (pci_select s / 2048 mod 32)
        (pci_select s / 256 mod 8) (pci_select s mod 256 - pci_select s mod 4);
}.

Lemma pci_address_value bus device function reg :
  is_u8 bus -> 0 <= device < 32 -> 0 <= function < 8 -> is_u8 reg -> reg mod 4 = 0 ->
  pci_get_register_address bus device function reg =
    Ok (2147483648 + bus * 65536 + device * 2048 + function * 256 + reg).
Proof.
  intros Hb Hd Hf Hr H4. unfold pci_get_register_address.
  change 0x3 with (2 ^ 2 - 1). rewrite land_ones_mod by lia. change (2 ^ 2) with 4.
  rewrite H4, Z.eqb_refl. res_step. f_equal.
  unfold is_u8 in *.
  rewrite (Z.lor_comm _ reg), (Z.lor_comm _ (Z.shiftl function 8)),
    (Z.lor_comm _ (Z.shiftl device 11)), (Z.lor_comm _ (Z.shiftl bus 16)).
  replace PCI_ADDRESS_ENABLE with (Z.shiftl 128 24) by done.
  replace (Z.shiftl 128 24) with (Z.shiftl (Z.shiftl 128 8) 16) by done.
  rewrite <- Z.shiftl_lor, (lor_shiftl_add bus 128 8) by lia.
  replace (Z.shiftl (bus + 128 * 2 ^ 8) 16) with (Z.shiftl (Z.shiftl (bus + 128 * 2 ^ 8) 5) 11)
    by (rewrite Z.shiftl_shiftl by lia; done).
  rewrite <- Z.shiftl_lor, (lor_shiftl_add device _ 5) by lia.
  replace (Z.shiftl (device + (bus + 128 * 2 ^ 8) * 2 ^ 5) 11)
    with (Z.shiftl (Z.shiftl (device + (bus + 128 * 2 ^ 8) * 2 ^ 5) 3) 8)
    by (rewrite Z.shiftl_shiftl by lia; done).
  rewrite <- Z.shiftl_lor, (lor_shiftl_add function _ 3) by lia.
  rewrite (lor_shiftl_add reg _ 8) by lia. rewrite w32_id by (unfold is_u32; lia). lia.
Qed.

(** ** The serial line *)

(** The transmitter becomes empty after a bounded number of polls; a byte
    written then is sent. *)
Class SerialLine (M : Type) `{Machine M} : Type := {
  ser_ok : M -> Prop;
  ser_ready : M -> Prop;
  ser_wait : M -> nat;
  ser_sent : M -> list Z;
  ser_bound : nat;
  ser_wait_bound : forall s, ser_ok s -> (ser_wait s <= ser_bound)%nat;
  ser_status : forall s, ser_ok s ->
    let '(v, s') := in_8 (PORT + 5) s in
    ser_ok s' /\ ser_sent s' = ser_sent s /\
    (if Z.land v 0x20 =? 0 then (ser_wait s' < ser_wait s)%nat else ser_ready s');
  ser_data : forall s a, ser_ok s -> ser_ready s ->
    ser_ok (out_8 PORT a s) /\ ser_sent (out_8 PORT a s) = ser_sent s ++ [w8 a];
}.

Lemma serial_write_sends {M : Type} `{HM : Machine M} `{SL : !SerialLine M} fuel a s :
  ser_ok s -> (ser_bound < fuel)%nat ->
  exists s', serial_write fuel a s = Ok s' /\ ser_ok s' /\ ser_sent s' = ser_sent s ++ [w8 a].
Proof.
  intros Hs Hf. unfold serial_write, serial_wait.
  edestruct (loop_spec (fun s => let '(empty, s) := serial_is_transmit_empty s in
      if (empty : bool) then Ok (Stop s) else Ok (Next s))
    (fun t => ser_ok t /\ ser_sent t = ser_sent s)
    (fun t => ser_ok t /\ ser_sent t = ser_sent s /\ ser_ready t) ser_wait)
    with (n := fuel) (s := s) as (t & -> & Ht & Hsent & Hr).
  - intros t [Ht Hsent]. unfold serial_is_transmit_empty.
    pose proof (ser_status t Ht) as Hst. destruct (in_8 (PORT + 5) t) as [v t'].
    destruct Hst as (Ht' & Hs' & Hw). destruct (Z.land v 32 =? 0); cbn.
    + split; [split; [done|congruence]|done].
    + split_and!; [done|congruence|done].
  - done.
  - pose proof (ser_wait_bound s Hs). lia.
  - rewrite bind_Ok_r. destruct (ser_data t a Ht Hr) as [Hok Hout].
    eexists; split_and!; [done|done|]. by rewrite Hout, Hsent.
Qed.

(** ** Reading a register *)

(** An aligned register, and the machine after the two accesses. *)
Lemma pci_read_register_value {M : Type} `{HM : Machine M} `{PC : !PciConfig M}
    bus device function reg (s : M) :
  is_u8 bus -> 0 <= device < 32 -> 0 <= function < 8 -> is_u8 reg -> reg mod 4 = 0 ->
  exists a, pci_read_register bus device function reg s =
    Ok (pci_register s bus device function reg, (in_32 0xCFC (out_32 0xCF8 a s)).2).
Proof.
  intros Hb Hd Hf Hr H4. unfold pci_read_register. rewrite pci_address_value, bind_Ok_r by done. cbv zeta.
  set (a := 2147483648 + bus * 65536 + device * 2048 + function * 256 + reg). exists a.
  assert (0 <= a < 2 ^ 32) as Ha by (unfold a, is_u8 in *; lia).
  destruct (pci_out_address a s Ha) as [Hsel Hreg].
  pose proof (pci_in_data (out_32 PCI_CONFIG_ADDRESS a s)) as Hin.
  change PCI_CONFIG_ADDRESS with 0xCF8 in *. rewrite Hsel, Hreg in Hin.
  change PCI_CONFIG_DATA with 0xCFC.
  destruct (in_32 0xCFC (out_32 0xCF8 a s)) as [v s'] eqn:E. cbn [fst snd] in *.
  rewrite Hin.
  - do 3 f_equal; unfold a, is_u8 in *; zmod.
  - change 31 with (31 + 0). unfold a. rewrite Z.testbit_true by lia. unfold is_u8 in *. zmod.
Qed.

(** ** Properties *)

(** [pci_read_register] of a device below 32 and a function below 8 returns
    the 32-bit register at that offset of exactly that function's
    configuration space; an unaligned offset stops the kernel. *)
Theorem pci_read_register_ok {M : Type} `{HM : Machine M} `{PC : !PciConfig M}
    bus device function reg (s : M) :
  is_u8 bus -> 0 <= device < 32 -> 0 <= function < 8 -> is_u8 reg ->
  if reg mod 4 =? 0 then
    exists s', pci_read_register bus device function reg s =
      Ok (pci_register s bus device function reg, s')
  else pci_read_register bus device function reg s =
    Err (AssertFail "reg does not point to a 32-bit aligned region.").
Proof.
  intros Hb Hd Hf Hr. destruct (Z.eqb_spec (reg mod 4) 0) as [H4|H4].
  - destruct (pci_read_register_value bus device function reg s) as (a & ->); [done..|]. by eexists.
  - unfold pci_read_register, pci_get_register_address. change 0x3 with (2 ^ 2 - 1).
    rewrite land_ones_mod by lia. change (2 ^ 2) with 4.
    by destruct (Z.eqb_spec (reg mod 4) 0).
Qed.

(** [pic_init] is ten byte writes: the four initialisation words and the
    mask for the master at 0x20 and 0x21, with vectors from 0x20 on, and the
    same with vectors from 0x30 on for a slave expected at 0x40 and 0x41; no
    byte goes to 0xA0 or 0xA1, where the slave controller of a PC is. *)
Theorem pic_init_writes sc l :
  log (pic_init (Recorder sc l)) = l ++
    [Out 1 0x20 0x11; Out 1 0x21 0x20; Out 1 0x21 0x04; Out 1 0x21 0x03;
     Out 1 0x40 0x11; Out 1 0x41 0x30; Out 1 0x41 0x02; Out 1 0x41 0x03;
     Out 1 0x21 0x00; Out 1 0x41 0x00].
Proof. cbn. by rewrite <- !app_assoc. Qed.

(** [serial_write] polls until the transmitter is empty and then sends
    exactly the one byte. *)
Theorem serial_write_ok {M : Type} `{HM : Machine M} `{SL : !SerialLine M} fuel a (s : M) :
  ser_ok s -> (ser_bound < fuel)%nat ->
  exists s', serial_write fuel a s = Ok s' /\ ser_ok s' /\ ser_sent s' = ser_sent s ++ [w8 a].
Proof. apply serial_write_sends. Qed.

(** [serial_init] reports success exactly when the byte sent in loopback
    mode comes back, and only then switches the line to normal operation. *)
Theorem serial_init_loopback v sc l :
  let '(ok, s) := serial_init (Recorder (v :: sc) l) in
  ok = (w8 v =? 0xAE) /\
  log s = l ++ [Out 1 0x3F9 0x00; Out 1 0x3FB 0x80; Out 1 0x3F8 0x03; Out 1 0x3F9 0x00;
    Out 1 0x3FB 0x03; Out 1 0x3FA 0xC7; Out 1 0x3FC 0x0B; Out 1 0x3FC 0x1E;
    Out 1 0x3F8 0xAE; In 1 0x3F8 v] ++ (if ok then [Out 1 0x3FC 0x0F] else []).
Proof.
  unfold serial_init. cbn -[w8]. destruct (Z.eqb_spec (w8 v) 174); cbn -[w8]; (split; [done|]);
    by rewrite <- !app_assoc.
Qed.

(** ** Witnesses: a machine with a configuration space and a serial line *)

Record sim : Type := Sim {
  sim_address : Z;
  sim_config : Z -> Z -> Z -> Z -> Z;
  sim_busy : nat;
  sim_sent : list Z;
}.

#[local] Instance sim_machine : Machine sim := {
  mach_out w p d s :=
    if (w =? 4) && (p =? 0xCF8) then Sim d (sim_config s) (sim_busy s) (sim_sent s)
    else if (w =? 1) && (p =? 0x3F8) then Sim (sim_address s) (sim_config s) 3 (sim_sent s ++ [d])
    else s;
  mach_in w p s :=
    let a := sim_address s in
    if (w =? 4) && (p =? 0xCFC) then
      (sim_config s (a / 65536 mod 256) (a / 2048 mod 32) (a / 256 mod 8) (a mod 256 - a mod 4), s)
    else if (w =? 1) && (p =? 0x3FD) then
      (if (sim_busy s =? 0)%nat then 0x60 else 0,
       Sim a (sim_config s) (pred (sim_busy s)) (sim_sent s))
    else (0, s);
}.

#[local] Program Instance sim_pci : PciConfig sim := {
  pci_register s b d f r := w32 (sim_config s b d f r);
  pci_select := sim_address;
}.
Next Obligation.
  intros a s Ha. unfold out_32. cbn -[w32]. by rewrite w32_id.
Qed.
Next Obligation. done. Qed.

#[local] Program Instance sim_serial : SerialLine sim := {
  ser_ok s := (sim_busy s <= 3)%nat;
  ser_ready s := True;
  ser_wait := sim_busy;
  ser_sent := sim_sent;
  ser_bound := 3;
}.
Next Obligation. done. Qed.
Next Obligation.
  intros [a c [|b] l] Hs; [done|].
  change ((b <= 3)%nat /\ l = l /\ (b < S b)%nat). cbn in Hs. split_and!; (done || lia).
Qed.
Next Obligation. intros s a Hs _. cbn -[w8]. by split. Qed.

Lemma pci_read_register_ok_witness : exists s',
  pci_read_register 0 1 1 8 (Sim 0 (fun b d f r => b + d + f + r) 0 []) = Ok (10, s').
Proof.
  refine (pci_read_register_ok 0 1 1 8 (Sim 0 (fun b d f r => b + d + f + r) 0 []) _ _ _ _);
    unfold is_u8; lia.
Defined.

Lemma serial_write_ok_witness : exists s',
  serial_write 4 65 (Sim 0 (fun _ _ _ _ => 0) 2 [72]) = Ok s' /\ (sim_busy s' <= 3)%nat /\
  sim_sent s' = [72; 65].
Proof.
  refine (serial_write_ok 4 65 (Sim 0 (fun _ _ _ _ => 0) 2 [72]) _ _); cbn; lia.
Defined.
