(* ===== verification/Ata.v ===== *)
(** * The ATA driver (src/src/hal/ata.c) and [pci_init] (src/src/hal/pci.c)

    Drive selection, identification and the transfer of one sector by
    programmed input and output. The machine behind the ports takes the
    printed characters as well ([Machine] and [Sink] of the same state); what
    a property needs of a drive is the class [AtaDrive]. The arrays
    [ide_channels] and [ide_drives] are the record [ide]. A written sector and
    a flush keep the drive busy, and [ata_write_sector] does not wait for it:
    [PromptDrive] is what transfers that follow a write rely on, and the last
    section shows what happens on a drive that is slower. *)
From S2P Require Import Prelude Memory Format Ports.

#[local] Open Scope Z_scope.

(** ** The driver's state *)

Record IDE_Channel_Info : Type := Channel {
  io_base : Z;
  control_base : Z;
  bus_master : Z;
}.

Inductive IDE_Drive_Type : Type := DRIVE_TYPE_ATA | DRIVE_TYPE_UNKNOWN.

Record IDE_Drive_Info : Type := Drive {
  missing : bool;
  type : IDE_Drive_Type;
  udma_mode : Z;
  lba28_addressable_sector_count : Z;
  lba48_addressable_sector_count : Z;
}.

Definition IDE_BUS_PRIM : Z := 0.
Definition IDE_BUS_SND : Z := 1.

Definition no_channel : IDE_Channel_Info := Channel 0 0 0.
Definition no_drive : IDE_Drive_Info := Drive false DRIVE_TYPE_ATA 0 0 0.

(** The two arrays, zero at the start. *)
Record ide : Type := Ide {
  ide_channels : gmap Z IDE_Channel_Info;
  ide_drives : gmap (Z * Z) IDE_Drive_Info;
}.
Definition ide_zero : ide := Ide ∅ ∅.
Definition channel (d : ide) (bus : Z) : IDE_Channel_Info := default no_channel (ide_channels d !! bus).
Definition drive_info (d : ide) (bus drive : Z) : IDE_Drive_Info :=
  default no_drive (ide_drives d !! (bus, drive)).
Definition set_channel (d : ide) (bus : Z) (io control : Z) : ide :=
  Ide (<[bus := Channel (w16 io) (w16 control) (bus_master (channel d bus))]> (ide_channels d))
    (ide_drives d).
Definition set_drive (d : ide) (bus drive : Z) (i : IDE_Drive_Info) : ide :=
  Ide (ide_channels d) (<[(bus, drive) := i]> (ide_drives d)).
Definition set_missing (d : ide) (bus drive : Z) : ide :=
  let i := drive_info d bus drive in
  set_drive d bus drive (Drive true (type i) (udma_mode i)
    (lba28_addressable_sector_count i) (lba48_addressable_sector_count i)).

(** ** Ports and bits *)

Section ports.
Context (d : ide) (bus : Z).
Definition ATA_DATA : Z := io_base (channel d bus) + 0.
Definition ATA_ERROR : Z := io_base (channel d bus) + 1.
Definition ATA_SECTOR_COUNT : Z := io_base (channel d bus) + 2.
Definition ATA_LBALOW_OR_SECTORNUM : Z := io_base (channel d bus) + 3.
Definition ATA_LBAMID_OR_CYLINDERLOW : Z := io_base (channel d bus) + 4.
Definition ATA_LBAHIGH_OR_CYLINDERHIGH : Z := io_base (channel d bus) + 5.
Definition ATA_DRIVE_OR_HEAD : Z := io_base (channel d bus) + 6.
Definition ATA_STATUS : Z := io_base (channel d bus) + 7.
Definition ATA_COMMAND : Z := io_base (channel d bus) + 7.
Definition ATA_DEV_CONTROL : Z := control_base (channel d bus) + 0.
End ports.

Definition ATA_DRIVE_OR_HEAD_LBA : Z := Z.shiftl 1 6.
Definition ATA_STATUS_ERROR : Z := Z.shiftl 1 0.
Definition ATA_STATUS_DRQ : Z := Z.shiftl 1 3.
Definition ATA_STATUS_DRIVE_FAULT : Z := Z.shiftl 1 5.
Definition ATA_STATUS_BUSY : Z := Z.shiftl 1 7.
Definition ATA_COMMAND_IDENTIFY : Z := 0xEC.
Definition ATA_COMMAND_READ_SECTORS : Z := 0x20.
Definition ATA_COMMAND_WRITE_SECTORS : Z := 0x30.
Definition ATA_COMMAND_CACHE_FLUSH : Z := 0xE7.

(** [v & mask] as a condition. *)
Definition has (v mask : Z) : bool := negb (Z.land v mask =? 0).

(** The builtins: [clz] of 0 is not specified, and is an argument. *)
Definition builtin_clz (clz_zero v : Z) : Z := if v =? 0 then clz_zero else 31 - Z.log2 v.
Definition builtin_ffs (v : Z) : Z :=
  match find_up 32 0 (Z.testbit v) with Some i => i + 1 | None => 0 end.

Section ata.
Context {M : Type} `{Machine M} `{Sink M}.

Definition ide_select_drive (d : ide) (bus drive : Z) (s : M) : res M :=
  _ ← assert "Invalid drive number." ((drive =? 0) || (drive =? 1));
  let s := out_8 (ATA_DRIVE_OR_HEAD d bus) (Z.lor 0xA (Z.shiftl drive 4)) s in
  Ok (for_up 4 0 (fun _ s => (in_8 (ATA_STATUS d bus) s).2) s).

(** [while (cond(status)) status = in_8(ATA_STATUS(bus));] *)
Definition poll (fuel : nat) (d : ide) (bus : Z) (cond : Z -> bool) (status : Z) (s : M)
  : res (Z * M) :=
  loop fuel (fun '(status, s) =>
    if cond status then Ok (Next (in_8 (ATA_STATUS d bus) s)) else Ok (Stop (status, s))) (status, s).

(** ** [ide_init] *)

(** [for (i < 256) identify_data[i] = in_16(ATA_DATA(bus));] *)
Fixpoint read_words (d : ide) (bus : Z) (n : nat) (s : M) : list Z * M :=
  match n with
  | O => ([], s)
  | S n => let '(v, s) := in_16 (ATA_DATA d bus) s in
           let '(vs, s) := read_words d bus n s in (v :: vs, s)
  end.

(** What the identify data say of the drive. *)
Definition identified (i : IDE_Drive_Info) (identify_data : list Z) : IDE_Drive_Info :=
  let word k := nth k identify_data 0 in
  let active_udma_mode := Z.shiftr (word 88%nat) 8 in
  let lba28 := Z.lor (word 60%nat) (Z.shiftl (word 61%nat) 16) in
  let lba48 :=
    if has (word 83%nat) (Z.shiftl 1 10)
    then Z.lor (Z.lor (Z.lor (word 100%nat) (Z.shiftl (word 101%nat) 16))
      (Z.shiftl (word 102%nat) 32)) (Z.shiftl (word 103%nat) 48)
    else lba48_addressable_sector_count i in
  Drive (missing i) (type i) (builtin_ffs active_udma_mode) lba28 lba48.

(** The warning about the mode. *)
Definition warn_udma (fuel : nat) (clz_zero bus drive : Z) (identify_data : list Z) (s : M) : res M :=
  let supported_udma_modes := Z.land (nth 88 identify_data 0) 0xFF in
  let active_udma_mode := Z.shiftr (nth 88 identify_data 0) 8 in
  if builtin_clz clz_zero supported_udma_modes <? builtin_clz clz_zero active_udma_mode then
    s ← fmt_print_lit fuel (text "WARNING: The active udma mode is not the maximum supported." ++ [10]) [] s;
    s ← fmt_print_lit fuel (text "  bus: %hhx, drive: %hhx" ++ [10]) [bus; drive] s;
    fmt_print_lit fuel (text "  active bitmask: %hhx, supported bitmask: %hhx" ++ [10])
      [active_udma_mode; supported_udma_modes] s
  else Ok s.

(** The body of the loops over the buses and drives. *)
Definition identify_drive (fuel : nat) (clz_zero bus drive : Z) (d : ide) (s : M) : res (ide * M) :=
  if missing (drive_info d bus drive) then Ok (d, s) else
  s ← ide_select_drive d bus drive s;
  let s := out_8 (ATA_DEV_CONTROL d bus) 0x2 s in
  let '(status, s) := in_8 (ATA_STATUS d bus) s in
  '(status, s) ← poll fuel d bus (fun v => has v ATA_STATUS_BUSY) status s;
  let s := out_8 (ATA_SECTOR_COUNT d bus) 0 s in
  let s := out_8 (ATA_LBALOW_OR_SECTORNUM d bus) 0 s in
  let s := out_8 (ATA_LBAMID_OR_CYLINDERLOW d bus) 0 s in
  let s := out_8 (ATA_LBAHIGH_OR_CYLINDERHIGH d bus) 0 s in
  let s := out_8 (ATA_COMMAND d bus) ATA_COMMAND_IDENTIFY s in
  if status =? 0 then Ok (set_missing d bus drive, s) else
  '(status, s) ← poll fuel d bus (fun v => has v ATA_STATUS_BUSY) status s;
  '(status, s) ← poll fuel d bus
    (fun v => negb (has v (Z.lor ATA_STATUS_ERROR ATA_STATUS_DRQ))) status s;
  let i := drive_info d bus drive in
  let set_type t := Drive (missing i) t (udma_mode i) (lba28_addressable_sector_count i)
    (lba48_addressable_sector_count i) in
  if has status ATA_STATUS_ERROR
  then Ok (set_drive d bus drive (set_type DRIVE_TYPE_UNKNOWN), s) else
  let '(identify_data, s) := read_words d bus 256 s in
  s ← warn_udma fuel clz_zero bus drive identify_data s;
  Ok (set_drive d bus drive (identified (set_type DRIVE_TYPE_ATA) identify_data), s).

Definition ide_init (fuel : nat) (clz_zero : Z) (primary_pci_native secondary_pci_native : bool)
    (bar0 bar1 bar2 bar3 bar4 : Z) (d : ide) (s : M) : res (bool * ide * M) :=
  let d := if primary_pci_native then set_channel d IDE_BUS_PRIM bar0 bar1
           else set_channel d IDE_BUS_PRIM 0x1F0 0x3F6 in
  let d := if secondary_pci_native then set_channel d IDE_BUS_PRIM bar2 bar3
           else set_channel d IDE_BUS_SND 0x170 0x376 in
  let '(primary_status, s) := in_8 (ATA_STATUS d IDE_BUS_PRIM) s in
  let '(secondary_status, s) := in_8 (ATA_STATUS d IDE_BUS_SND) s in
  let d := if primary_status =? 0xFF
           then set_missing (set_missing d IDE_BUS_PRIM 0) IDE_BUS_PRIM 1 else d in
  let d := if secondary_status =? 0xFF
           then set_missing (set_missing d IDE_BUS_SND 0) IDE_BUS_SND 1 else d in
  '(d, s) ← for_res 2 0 (fun bus st => for_res 2 0
    (fun drive '(d, s) => identify_drive fuel clz_zero bus drive d s) st) (d, s);
  Ok (true, d, s).

(** ** Sector transfers *)

Definition ata_prepare_transfer (fuel : nat) (d : ide) (bus drive lba28 : Z) (s : M) : res M :=
  _ ← assert "Invalid drive number." ((drive =? 0) || (drive =? 1));
  _ ← assert "lba28 can be at most 28 bits." (lba28 <=? 0xFFFFFFF);
  let drive_or_head_value := w8 (Z.lor (Z.lor (Z.lor 0xA0 (Z.shiftl drive 4)) ATA_DRIVE_OR_HEAD_LBA)
    (Z.land (Z.shiftr lba28 24) 0x0F)) in
  let s := out_8 (ATA_DRIVE_OR_HEAD d bus) drive_or_head_value s in
  let s := out_8 (ATA_SECTOR_COUNT d bus) 1 s in
  let '(v, s) := in_8 (ATA_SECTOR_COUNT d bus) s in
  s ← fmt_print_lit fuel (text "%hhx" ++ [10]) [v] s;
  let s := out_8 (ATA_LBALOW_OR_SECTORNUM d bus) (Z.land lba28 0xFF) s in
  let s := out_8 (ATA_LBAMID_OR_CYLINDERLOW d bus) (Z.land (Z.shiftr lba28 8) 0xFF) s in
  Ok (out_8 (ATA_LBAHIGH_OR_CYLINDERHIGH d bus) (Z.land (Z.shiftr lba28 16) 0xFF) s).

(** The common part of the two transfers: select, prepare, give the command
    and poll until the drive wants data. *)
Definition ata_start (fuel : nat) (d : ide) (bus drive lba28 command : Z) (s : M) : res (Z * M) :=
  s ← ide_select_drive d bus drive s;
  s ← ata_prepare_transfer fuel d bus drive lba28 s;
  let s := out_8 (ATA_COMMAND d bus) command s in
  let '(status, s) := in_8 (ATA_STATUS d bus) s in
  '(status, s) ← poll fuel d bus (fun v => has v ATA_STATUS_BUSY) status s;
  '(status, s) ← poll fuel d bus (fun v => negb (has v
    (Z.lor (Z.lor ATA_STATUS_DRQ ATA_STATUS_ERROR) ATA_STATUS_DRIVE_FAULT))) status s;
  let failed := has status (Z.lor ATA_STATUS_ERROR ATA_STATUS_DRIVE_FAULT) in
  s ← (if failed then
         let '(v, s) := in_8 (ATA_ERROR d bus) s in
         fmt_print_lit fuel (text "Error: %hhx" ++ [10]) [v] s
       else Ok s);
  _ ← assert "Error should not occur." (negb failed);
  Ok (status, s).

Definition ata_read_sector (fuel : nat) (d : ide) (bus drive lba28 buffer : Z) (m : mem) (s : M)
  : res (mem * M) :=
  '(_, s) ← ata_start fuel d bus drive lba28 ATA_COMMAND_READ_SECTORS s;
  Ok (for_up 256 0 (fun i '(m, s) =>
    let '(v, s) := in_16 (ATA_DATA d bus) s in (st16 m (buffer + 2 * i) v, s)) (m, s)).

Definition ata_write_sector (fuel : nat) (d : ide) (bus drive lba28 buffer : Z) (m : mem) (s : M)
  : res M :=
  '(status, s) ← ata_start fuel d bus drive lba28 ATA_COMMAND_WRITE_SECTORS s;
  let s := for_up 256 0 (fun i s => out_16 (ATA_DATA d bus) (ld16 m (buffer + 2 * i)) s) s in
  let s := out_8 (ATA_COMMAND d bus) ATA_COMMAND_CACHE_FLUSH s in
  '(_, s) ← poll fuel d bus (fun v => has v ATA_STATUS_BUSY) status s;
  Ok s.

(** ** [pci_init] *)

Definition pci_init (fuel : nat) (clz_zero : Z) (d : ide) (s : M) : res (bool * ide * M) :=
  let ide_bus := 0 in let ide_device := 1 in let ide_function := 1 in
  '(fields, s) ← pci_read_register ide_bus ide_device ide_function 8 s;
  let class_code := Z.land (Z.shiftr fields 24) 0xFF in
  let subclass := Z.land (Z.shiftr fields 16) 0xFF in
  _ ← assert "The device is not an IDE device." ((class_code =? 1) && (subclass =? 1));
  let prog_if := Z.land (Z.shiftr fields 8) 0xFF in
  let '(prog_if, fields, should_write_prog_if) :=
    if has prog_if 0x2
    then let prog_if := Z.lor prog_if 0x1 in (prog_if, Z.lor fields (Z.shiftl prog_if 8), true)
    else (prog_if, fields, false) in
  let '(prog_if, fields, should_write_prog_if) :=
    if has prog_if 0x8
    then let prog_if := Z.lor prog_if 0x4 in (prog_if, Z.lor fields (Z.shiftl prog_if 8), true)
    else (prog_if, fields, should_write_prog_if) in
  let primary_pci_native := has prog_if 0x1 in
  let secondary_pci_native := has prog_if 0x4 in
  s ← (if (should_write_prog_if : bool)
       then pci_write_register ide_bus ide_device ide_function 8 fields s else Ok s);
  '(fields, s) ← pci_read_register ide_bus ide_device ide_function 12 s;
  let header_type := Z.land (Z.shiftr fields 24) 0xFF in
  _ ← assert "Unexpected header type." (header_type =? 0);
  '(bar0, s) ← pci_read_register ide_bus ide_device ide_function 16 s;
  '(bar1, s) ← pci_read_register ide_bus ide_device ide_function 20 s;
  '(bar2, s) ← pci_read_register ide_bus ide_device ide_function 24 s;
  '(bar3, s) ← pci_read_register ide_bus ide_device ide_function 28 s;
  '(bar4, s) ← pci_read_register ide_bus ide_device ide_function 32 s;
  ide_init fuel clz_zero primary_pci_native secondary_pci_native
    (w16 bar0) (w16 bar1) (w16 bar2) (w16 bar3) (w16 bar4) d s.
End ata.

(** ** What the driver relies on in a drive

    The abstract state of a drive: the registers of its channel, what it is
    doing, and its sectors of 512 bytes. The transitions are those of the
    protocol for programmed input and output: after a command [BSY] is set for
    a while, then either [DRQ] or an error bit is; every word moved through the
    data port advances the transfer. After the last word read the drive takes
    the next command; after the last word written, and after CACHE FLUSH,
    [BSY] is set again while the drive works. *)
Inductive phase : Type :=
  | Idle
  | Working (n : nat)
  | Busy (command lba : Z) (n : nat)
  | Settling (command lba : Z) (n : nat)
  | DataIn (lba : Z) (i : nat)
  | DataOut (lba : Z) (bytes : list Z)
  | IdentifyIn (i : nat).

Record dstate : Type := DState {
  d_regs : gmap Z Z;
  d_phase : phase;
  d_disk : gmap Z (list Z);
}.
Definition d_reg (st : dstate) (k : Z) : Z := default 0 (d_regs st !! k).
Definition d_sector (st : dstate) (lba : Z) : list Z := default (replicate 512 0) (d_disk st !! lba).
Definition set_reg (st : dstate) (k v : Z) : dstate :=
  DState (<[k := v]> (d_regs st)) (d_phase st) (d_disk st).
Definition set_phase (st : dstate) (p : phase) : dstate := DState (d_regs st) p (d_disk st).
Definition set_sector (st : dstate) (lba : Z) (bytes : list Z) : dstate :=
  DState (d_regs st) (d_phase st) (<[lba := bytes]> (d_disk st)).
Definition d_lba (st : dstate) : Z :=
  d_reg st 3 + 256 * d_reg st 4 + 65536 * d_reg st 5 + 16777216 * (d_reg st 6 mod 16).

(** The phase that follows a command, and the phases of a transfer. *)
Definition data_phase (command lba : Z) : phase :=
  if command =? ATA_COMMAND_READ_SECTORS then DataIn lba 0
  else if command =? ATA_COMMAND_IDENTIFY then IdentifyIn 0 else DataOut lba [].
Definition in_phase (lba : Z) (i : nat) : phase := if (i =? 256)%nat then Idle else DataIn lba i.
Definition identify_phase (i : nat) : phase := if (i =? 256)%nat then Idle else IdentifyIn i.
(** Busy for [n] more reads of the status at most, without data to move. *)
Definition after_work (n : nat) : phase := match n with O => Idle | S _ => Working n end.
(** The drive that the drive register selects. *)
Definition selected (st : dstate) : Z := d_reg st 6 / 16 mod 2.

Class AtaDrive (M : Type) `{HM : Machine M} `{SK : Sink M} `{SKO : !SinkOk M} : Type := {
  ad_base : Z;       (* the first port of the channel *)
  ad_number : Z;     (* drive 0 or 1 *)
  ad_sectors : Z;
  ad_latency : nat;  (* how long a command keeps the drive busy ... *)
  ad_hold : nat;     (* ... and how long a written sector or a flush does *)
  ad_ok : M -> Prop;
  ad_state : M -> dstate;
  ad_number_ok : ad_number = 0 \/ ad_number = 1;
  ad_sectors_ok : ad_sectors <= 268435456;
  ad_sector_ok : forall s lba, ad_ok s ->
    length (d_sector (ad_state s) lba) = 512%nat /\ Forall is_u8 (d_sector (ad_state s) lba);
  (* a register is written; reading registers changes nothing *)
  ad_register : forall s k v, ad_ok s -> d_phase (ad_state s) = Idle -> 2 <= k <= 6 ->
    let s' := out_8 (ad_base + k) v s in
    ad_ok s' /\ ad_state s' = set_reg (ad_state s) k (w8 v);
  ad_quiet : forall s k, ad_ok s -> d_phase (ad_state s) = Idle -> 1 <= k <= 7 ->
    let s' := (in_8 (ad_base + k) s).2 in ad_ok s' /\ ad_state s' = ad_state s;
  (* a transfer command for this drive in LBA mode is accepted *)
  ad_accept : forall s c, ad_ok s -> d_phase (ad_state s) = Idle ->
    c = ATA_COMMAND_READ_SECTORS \/ c = ATA_COMMAND_WRITE_SECTORS ->
    d_reg (ad_state s) 6 / 16 = 14 + ad_number -> d_reg (ad_state s) 2 = 1 ->
    0 <= d_lba (ad_state s) < ad_sectors ->
    let s' := out_8 (ad_base + 7) c s in
    ad_ok s' /\ exists n, (n <= ad_latency)%nat /\
      ad_state s' = set_phase (ad_state s) (Busy c (d_lba (ad_state s)) n);
  (* the status while the command is executed *)
  ad_busy : forall s c lba n, ad_ok s -> d_phase (ad_state s) = Busy c lba n ->
    let '(v, s') := in_8 (ad_base + 7) s in
    ad_ok s' /\
      if has v 0x80 then exists n', (n' < n)%nat /\
        ad_state s' = set_phase (ad_state s) (Busy c lba n')
      else if has v 0x29 then has v 0x21 = false /\
        ad_state s' = set_phase (ad_state s) (data_phase c lba)
      else exists n', (n' < n)%nat /\ ad_state s' = set_phase (ad_state s) (Settling c lba n');
  ad_settling : forall s c lba n, ad_ok s -> d_phase (ad_state s) = Settling c lba n ->
    let '(v, s') := in_8 (ad_base + 7) s in
    ad_ok s' /\ has v 0x80 = false /\
      if has v 0x29 then has v 0x21 = false /\
        ad_state s' = set_phase (ad_state s) (data_phase c lba)
      else exists n', (n' < n)%nat /\ ad_state s' = set_phase (ad_state s) (Settling c lba n');
  (* the data port *)
  ad_read_word : forall s lba i, ad_ok s -> (i < 256)%nat -> d_phase (ad_state s) = DataIn lba i ->
    let '(v, s') := in_16 ad_base s in
    v = nth (2 * i) (d_sector (ad_state s) lba) 0 + 256 * nth (2 * i + 1) (d_sector (ad_state s) lba) 0 /\
    ad_ok s' /\ ad_state s' = set_phase (ad_state s) (in_phase lba (S i));
  ad_write_word : forall s lba bytes v, ad_ok s -> d_phase (ad_state s) = DataOut lba bytes ->
    (length bytes + 2 <= 512)%nat -> Forall is_u8 bytes ->
    let s' := out_16 ad_base v s in
    let bytes' := bytes ++ [w8 v; w8 (v / 256)] in
    ad_ok s' /\
      if (length bytes' =? 512)%nat
      then exists n, (n <= ad_hold)%nat /\
        ad_state s' = set_phase (set_sector (ad_state s) lba bytes') (after_work n)
      else ad_state s' = set_phase (ad_state s) (DataOut lba bytes');
  (* flushing the cache *)
  ad_flush : forall s, ad_ok s -> d_phase (ad_state s) = Idle ->
    let s' := out_8 (ad_base + 7) ATA_COMMAND_CACHE_FLUSH s in
    ad_ok s' /\ exists n, (n <= ad_hold)%nat /\ ad_state s' = set_phase (ad_state s) (after_work n);
  (* while the drive works: the status says so, and what is written to the
     registers is ignored, as the machine does on which the README says the
     kernel was tested *)
  ad_working : forall s n, ad_ok s -> d_phase (ad_state s) = Working (S n) ->
    let '(v, s') := in_8 (ad_base + 7) s in
    ad_ok s' /\ has v 0x80 = true /\ exists n', (n' <= n)%nat /\
      ad_state s' = set_phase (ad_state s) (after_work n');
  ad_ignored : forall s n k v, ad_ok s -> d_phase (ad_state s) = Working (S n) ->
    2 <= k <= 6 \/ k = 7 /\ v = ATA_COMMAND_CACHE_FLUSH ->
    let s' := out_8 (ad_base + k) v s in
    ad_ok s' /\ exists n', (n' <= S n)%nat /\ ad_state s' = set_phase (ad_state s) (after_work n');
  (* printing *)
  ad_sink : forall s, ad_ok s -> sink_ok s;
  ad_print : forall c s s', ad_ok s -> put_char c s = Ok s' -> ad_ok s' /\ ad_state s' = ad_state s;
}.

(** A drive that is done with a written sector, or with a flush, within the four
    reads of the status (the 400 ns) by which [ide_select_drive] delays the next
    transfer. The protocol does not promise it, and nothing else in the code
    waits for it: [ata_write_sector] polls a status it read before the data were
    written. What does several transfers, the first of them a write, has this
    hypothesis; [write_then_read_hangs] shows that it cannot be dropped. *)
Class PromptDrive (M : Type) `{AD : AtaDrive M} : Prop :=
  prompt_drive : (ad_hold <= 4)%nat.

(** The state between two transfers: idle, or done within those four reads. *)
Definition at_rest (st : dstate) : Prop := exists n, (n <= 4)%nat /\ d_phase st = after_work n.

Lemma idle_at_rest st : d_phase st = Idle -> at_rest st.
Proof. intros H. exists O. split; [lia|done]. Qed.

(** [w] reads of the status, as [ide_select_drive] makes four: time for the
    drive. *)
Definition status_reads {M} `{HM : Machine M} (d : ide) (bus : Z) (w : nat) (s : M) : M :=
  for_up w 0 (fun _ s => (in_8 (ATA_STATUS d bus) s).2) s.

(** ** The steps of a transfer *)

Section drive.
Context {M : Type} `{HM : Machine M} `{SK : Sink M} `{SKO : !SinkOk M} `{AD : !AtaDrive M}.

(** The machine is in a good state and the drive in this one. *)
Definition at_state (st : dstate) (s : M) : Prop := ad_ok s /\ ad_state s = st.

(** Printing leaves the drive alone. *)
#[local] Program Instance drive_sink st : SinkOk M := {
  sink_ok := at_state st; sink_out s := @sink_out M SK SKO s;
}.
Next Obligation.
  intros st c s [Hs <-]. destruct (put_char_ok c s (ad_sink s Hs)) as (s' & Hp & _ & Ho).
  exists s'. destruct (ad_print c s s' Hs Hp). by split_and!.
Qed.

(** A byte, printed in hexadecimal and followed by a newline. *)
Lemma print_byte fuel v st (s : M) : 0 <= v < 256 -> (2 < fuel)%nat -> at_state st s ->
  exists s', fmt_print_lit fuel (text "%hhx" ++ [10]) [v] s = Ok s' /\ at_state st s'.
Proof.
  intros Hv Hf Hs. set (items := [IHex FMT_PRINT_LM_HH v; Lit 10]).
  destruct (fmt_print_lit_ok (SKO := drive_sink st) fuel items s) as (css & s' & H & _ & Hs' & _).
  - repeat constructor.
  - repeat constructor; cbn; lia.
  - repeat constructor.
  - cbn. lia.
  - done.
  - exists s'. split; [exact H|done].
Qed.

Context (d : ide) (bus : Z) (Hbase : io_base (channel d bus) = ad_base).

(** Writing the registers of an idle drive. *)
Lemma write_register k v st (s : M) : at_state st s -> d_phase st = Idle -> 2 <= k <= 6 ->
  at_state (set_reg st k (w8 v)) (out_8 (ad_base + k) v s).
Proof. intros [Hs <-] Hi Hk. destruct (ad_register s k v Hs Hi Hk). by split. Qed.

Lemma read_register k st (s : M) : at_state st s -> d_phase st = Idle -> 1 <= k <= 7 ->
  at_state st (in_8 (ad_base + k) s).2.
Proof. intros [Hs <-] Hi Hk. destruct (ad_quiet s k Hs Hi Hk). by split. Qed.

(** A read of the status brings a working drive nearer to being idle. *)
Lemma read_status_working n disk st (s : M) : at_state st s -> d_disk st = disk ->
  d_phase st = after_work n -> exists n' st', (n' <= pred n)%nat /\
    at_state st' (in_8 (ad_base + 7) s).2 /\ d_disk st' = disk /\ d_phase st' = after_work n'.
Proof.
  intros Hs Hd Hp. destruct n as [|n].
  - exists O, st. split_and!; [done|by apply read_register|done|done].
  - destruct Hs as [Hs <-]. pose proof (ad_working s n Hs Hp) as H.
    destruct (in_8 (ad_base + 7) s) as [v s']. destruct H as (Hs' & _ & n' & Hn & Hst).
    exists n', (set_phase (ad_state s) (after_work n')). split_and!; [cbn; lia|by split|done|done].
Qed.

Lemma status_reads_ok w n st (s : M) : at_state st s -> d_phase st = after_work n ->
  exists n' st', (n' <= n - w)%nat /\ at_state st' (status_reads d bus w s) /\
    d_disk st' = d_disk st /\ d_phase st' = after_work n'.
Proof.
  intros Hs Hp. unfold status_reads, ATA_STATUS. rewrite Hbase.
  destruct (for_up_ind (fun i s => exists n' st', (n' <= n - Z.to_nat i)%nat /\ at_state st' s /\
    d_disk st' = d_disk st /\ d_phase st' = after_work n')
    (fun _ s => (in_8 (ad_base + 7) s).2) w 0 s) as (k & st' & Hk & H).
  - exists n, st. split_and!; [cbn; lia|done..].
  - intros i t Hi (k & st1 & Hk & Hs1 & Hd1 & Hp1).
    destruct (read_status_working k _ st1 t Hs1 Hd1 Hp1) as (k' & st2 & Hk' & H2 & Hd2 & Hp2).
    exists k', st2. split_and!; [lia|done..].
  - exists k, st'. split; [lia|exact H].
Qed.

(** The four reads of [ide_select_drive] are enough for a drive at rest. *)
Lemma select_ok st (s : M) : at_state st s -> at_rest st ->
  exists s' st', ide_select_drive d bus ad_number s = Ok s' /\ at_state st' s' /\
    d_phase st' = Idle /\ d_disk st' = d_disk st.
Proof.
  intros Hs (n & Hn & Hp). unfold ide_select_drive.
  assert ((ad_number =? 0) || (ad_number =? 1) = true) as -> by
    (destruct ad_number_ok as [-> | ->]; done).
  res_step. change (for_up 4 0 _ ?s) with (status_reads d bus 4 s).
  unfold ATA_DRIVE_OR_HEAD. rewrite Hbase. set (s1 := out_8 (ad_base + 6) _ s).
  assert (exists n1 st1, (n1 <= 4)%nat /\ at_state st1 s1 /\ d_disk st1 = d_disk st /\
    d_phase st1 = after_work n1) as (n1 & st1 & Hn1 & Hs1 & Hd1 & Hp1).
  { destruct n as [|n].
    - exists O. eexists. split_and!; [lia|by apply write_register|done|done].
    - destruct Hs as [Hs <-]. destruct (ad_ignored s n 6 (Z.lor 0xA (Z.shiftl ad_number 4)) Hs Hp)
        as (Hs' & n' & Hn' & Hst'); [left; lia|].
      exists n'. eexists. split_and!; [lia|by split|done|done]. }
  destruct (status_reads_ok 4 n1 st1 s1 Hs1 Hp1) as (k & st' & Hk & Hs' & Hd' & Hp').
  eexists _, st'. split; [reflexivity|]. replace k with O in Hp' by lia.
  split_and!; [done|done|congruence].
Qed.

(** The value for the drive register. *)
Lemma drive_or_head_value lba : 0 <= lba < 268435456 ->
  w8 (Z.lor (Z.lor (Z.lor 0xA0 (Z.shiftl ad_number 4)) ATA_DRIVE_OR_HEAD_LBA)
    (Z.land (Z.shiftr lba 24) 0x0F)) = lba / 16777216 + (14 + ad_number) * 16.
Proof.
  intros Hl. assert (0 <= lba / 16777216 < 16) as Hr by zmod.
  rewrite Z.shiftr_div_pow2 by lia. change (2 ^ 24) with 16777216.
  change 15 with (2 ^ 4 - 1). rewrite land_ones_mod by lia. change (2 ^ 4) with 16.
  rewrite (Z.mod_small _ 16) by lia. rewrite Z.lor_comm.
  replace (Z.lor (Z.lor 160 (Z.shiftl ad_number 4)) ATA_DRIVE_OR_HEAD_LBA)
    with (Z.shiftl (14 + ad_number) 4) by (destruct ad_number_ok as [-> | ->]; done).
  rewrite lor_shiftl_add by lia. apply w8_id. unfold is_u8.
  destruct ad_number_ok as [-> | ->]; lia.
Qed.

Lemma land_255 a : Z.land a 0xFF = a mod 256.
Proof. change 0xFF with (2 ^ 8 - 1). by rewrite land_ones_mod by lia. Qed.

(** The pieces of a 28-bit address. *)
Lemma lba_pieces lba n : 0 <= lba < 268435456 -> n = 0 \/ n = 1 ->
  w8 (lba mod 256) + 256 * w8 (lba / 256 mod 256) + 65536 * w8 (lba / 65536 mod 256) +
    16777216 * (w8 (lba / 16777216 + (14 + n) * 16) mod 16) = lba /\
  w8 (lba / 16777216 + (14 + n) * 16) / 16 = 14 + n.
Proof.
  intros Hl Hn. assert (0 <= lba / 16777216 < 16) by zmod.
  rewrite !(w8_id (_ mod 256)) by zmod. rewrite w8_id by (unfold is_u8; lia).
  rewrite Z.mod_add, (Z.mod_small _ 16) by lia. rewrite Z.div_add, (Z.div_small _ 16) by lia.
  split; [|lia]. replace 16777216 with (256 * 256 * 256) by lia.
  replace 65536 with (256 * 256) by lia. rewrite <- !Z.div_div by lia. 
  pose proof (Z.div_mod lba 256). pose proof (Z.div_mod (lba / 256) 256).
  pose proof (Z.div_mod (lba / 256 / 256) 256). lia.
Qed.

(** The registers for sector [lba]. *)
Definition prepared (lba : Z) (st st' : dstate) : Prop :=
  d_phase st' = Idle /\ d_disk st' = d_disk st /\ d_lba st' = lba /\ d_reg st' 2 = 1 /\
  d_reg st' 6 / 16 = 14 + ad_number.

Lemma prepare_ok fuel lba st (s : M) : at_state st s -> d_phase st = Idle ->
  0 <= lba < 268435456 -> (2 < fuel)%nat ->
  exists s' st', ata_prepare_transfer fuel d bus ad_number lba s = Ok s' /\ at_state st' s' /\
    prepared lba st st'.
Proof.
  intros Hs Hi Hl Hf. unfold ata_prepare_transfer.
  assert ((ad_number =? 0) || (ad_number =? 1) = true) as -> by
    (destruct ad_number_ok as [-> | ->]; done).
  destruct (Z.leb_spec lba 0xFFFFFFF); [|lia]. res_step. rewrite drive_or_head_value by done.
  unfold ATA_DRIVE_OR_HEAD, ATA_SECTOR_COUNT, ATA_LBALOW_OR_SECTORNUM, ATA_LBAMID_OR_CYLINDERLOW,
    ATA_LBAHIGH_OR_CYLINDERHIGH. rewrite Hbase.
  pose proof (write_register 6 (lba / 16777216 + (14 + ad_number) * 16) st s Hs Hi ltac:(lia)) as H1.
  set (s1 := out_8 (ad_base + 6) _ s) in *. set (st1 := set_reg st 6 _) in *.
  pose proof (write_register 2 1 st1 s1 H1 Hi ltac:(lia)) as H2.
  set (s2 := out_8 (ad_base + 2) 1 s1) in *. set (st2 := set_reg st1 2 _) in *.
  pose proof (read_register 2 st2 s2 H2 Hi ltac:(lia)) as H3.
  assert (0 <= (in_8 (ad_base + 2) s2).1 < 256) as Hv.
  { unfold in_8. destruct (mach_in _ _ _). apply w8_range. }
  destruct (in_8 (ad_base + 2) s2) as [v s3]. cbn [fst snd] in *.
  destruct (print_byte fuel v st2 s3 Hv Hf H3) as (s4 & -> & H4). rewrite bind_Ok_r.
  pose proof (write_register 3 (Z.land lba 0xFF) st2 s4 H4 Hi ltac:(lia)) as H5.
  set (s5 := out_8 (ad_base + 3) _ s4) in *. set (st5 := set_reg st2 3 _) in *.
  pose proof (write_register 4 (Z.land (Z.shiftr lba 8) 0xFF) st5 s5 H5 Hi ltac:(lia)) as H6.
  set (s6 := out_8 (ad_base + 4) _ s5) in *. set (st6 := set_reg st5 4 _) in *.
  pose proof (write_register 5 (Z.land (Z.shiftr lba 16) 0xFF) st6 s6 H6 Hi ltac:(lia)) as H7.
  do 2 eexists. split; [reflexivity|]. split; [exact H7|].
  unfold prepared, d_lba, d_reg, st6, st5, st2, st1. cbn [set_reg d_regs d_phase d_disk].
  rewrite !lookup_insert_ne by done. repeat (rewrite lookup_insert_eq || rewrite lookup_insert_ne by done).
  cbn [default]. rewrite !land_255, !Z.shiftr_div_pow2 by lia.
  change (2 ^ 8) with 256. change (2 ^ 16) with 65536.
  split_and!; [done|done| |done|]; by apply (lba_pieces lba ad_number Hl ad_number_ok).
Qed.

(** The status tells that data can be moved. *)
Definition data_ready (c lba : Z) (st : dstate) (v : Z) (s : M) : Prop :=
  has v 0x29 = true /\ has v 0x21 = false /\ has v 0x80 = false /\ at_state (set_phase st (data_phase c lba)) s.
(** [BSY] has cleared. *)
Definition not_busy (c lba : Z) (st : dstate) (n : nat) (v : Z) (s : M) : Prop :=
  data_ready c lba st v s \/
  has v 0x29 = false /\ exists n', (n' < n)%nat /\ at_state (set_phase st (Settling c lba n')) s.

Lemma status_port : ATA_STATUS d bus = ad_base + 7.
Proof. unfold ATA_STATUS. by rewrite Hbase. Qed.

Lemma poll_settling c lba st : forall n v (s : M) fuel, (n + 1 < fuel)%nat ->
  at_state (set_phase st (Settling c lba n)) s -> has v 0x29 = false ->
  exists v' s', poll fuel d bus (fun v => negb (has v 0x29)) v s = Ok (v', s') /\
    data_ready c lba st v' s'.
Proof.
  intros n. induction n as [n IH] using lt_wf_ind. intros v s [|fuel] Hf [Hs Hst] Hv; [lia|].
  unfold poll. cbn [loop]. rewrite Hv. cbn [negb].
  pose proof (ad_settling s c lba n Hs ltac:(by rewrite Hst)) as H1. rewrite <- status_port in H1.
  destruct (in_8 (ATA_STATUS d bus) s) as [v1 s1]. destruct H1 as (Hs1 & Hb1 & H1). rewrite Hst in H1.
  destruct (has v1 0x29) eqn:E.
  - destruct H1 as [He Hst1]. destruct fuel as [|fuel]; [lia|]. cbn [loop]. rewrite E.
    do 2 eexists. split; [done|]. by split_and!.
  - destruct H1 as (n' & Hn & H1).
    change (loop fuel _ (v1, s1)) with (poll fuel d bus (fun v => negb (has v 0x29)) v1 s1).
    apply (IH n' Hn); [lia|by split|done].
Qed.

Lemma poll_busy c lba st : forall n v (s : M) fuel, (n + 1 < fuel)%nat ->
  at_state (set_phase st (Busy c lba n)) s -> has v 0x80 = true ->
  exists v' s', poll fuel d bus (fun v => has v 0x80) v s = Ok (v', s') /\
    not_busy c lba st n v' s'.
Proof.
  intros n. induction n as [n IH] using lt_wf_ind. intros v s [|fuel] Hf [Hs Hst] Hv; [lia|].
  unfold poll. cbn [loop]. rewrite Hv.
  pose proof (ad_busy s c lba n Hs ltac:(by rewrite Hst)) as H1. rewrite <- status_port in H1.
  destruct (in_8 (ATA_STATUS d bus) s) as [v1 s1]. destruct H1 as (Hs1 & H1). rewrite Hst in H1.
  destruct (has v1 0x80) eqn:E.
  - destruct H1 as (n' & Hn & H1).
    change (loop fuel _ (v1, s1)) with (poll fuel d bus (fun v => has v 0x80) v1 s1).
    destruct (IH n' Hn v1 s1 fuel) as (v' & s' & Hp & Hr); [lia|by split|done|].
    exists v', s'. split; [done|]. destruct Hr as [Hr|(Hr & k & Hk & Hrs)]; [by left|right].
    split; [done|]. exists k. split; [lia|done].
  - destruct fuel as [|fuel]; [lia|]. cbn [loop]. rewrite E. do 2 eexists. split; [done|].
    destruct (has v1 0x29) eqn:E1.
    + destruct H1 as [He Hst1]. left. by split_and!.
    + right. split; [done|]. destruct H1 as (n' & Hn & H1). exists n'. by split.
Qed.

(** Up to the point where the drive wants the data moved. *)
Lemma start_ok fuel lba c st (s : M) : at_state st s -> at_rest st ->
  0 <= lba < ad_sectors -> (ad_latency + 2 < fuel)%nat ->
  c = ATA_COMMAND_READ_SECTORS \/ c = ATA_COMMAND_WRITE_SECTORS ->
  exists v s' st', ata_start fuel d bus ad_number lba c s = Ok (v, s') /\ has v 0x80 = false /\
    at_state st' s' /\ d_phase st' = data_phase c lba /\ d_disk st' = d_disk st.
Proof.
  intros Hs Hi Hl Hf Hc. pose proof ad_sectors_ok. unfold ata_start.
  destruct (select_ok st s Hs Hi) as (s1 & st1 & -> & H1 & Hi1 & Hd1). rewrite bind_Ok_r.
  destruct (prepare_ok fuel lba st1 s1 H1 Hi1) as (s2 & st2 & -> & H2 & Hi2 & Hd2 & Hl2 & Hr2 & Hr6);
    [lia|lia|]. rewrite Hd1 in Hd2. rewrite bind_Ok_r. cbv zeta.
  unfold ATA_COMMAND. rewrite Hbase. destruct H2 as [Hok2 <-].
  destruct (ad_accept s2 c Hok2 Hi2 Hc Hr6 Hr2 ltac:(by rewrite Hl2)) as (Hok3 & n & Hn & Hst3).
  set (s3 := out_8 (ad_base + 7) c s2) in *. rewrite Hl2 in Hst3. set (st2 := ad_state s2) in *.
  assert (exists v s4, in_8 (ATA_STATUS d bus) s3 = (v, s4) /\
    (has v 0x80 = false /\ not_busy c lba st2 n v s4 \/
     has v 0x80 = true /\ exists n', (n' < n)%nat /\ at_state (set_phase st2 (Busy c lba n')) s4))
    as (v & s4 & -> & H4).
  { rewrite status_port.
    pose proof (ad_busy s3 c lba n Hok3 ltac:(by rewrite Hst3)) as H4. rewrite Hst3 in H4.
    destruct (in_8 (ad_base + 7) s3) as [v s4]. exists v, s4. split; [done|].
    destruct H4 as (Hok4 & H4). destruct (has v 0x80) eqn:E80; [right|left].
    - split; [done|]. destruct H4 as (n' & Hn' & H4). exists n'. by split.
    - split; [done|]. destruct (has v 0x29) eqn:E.
      + destruct H4 as [He H4]. left. by split_and!.
      + right. split; [done|]. destruct H4 as (n' & Hn' & H4). exists n'. by split. }
  assert (exists v1 s5, poll fuel d bus (fun v => has v ATA_STATUS_BUSY) v s4 = Ok (v1, s5) /\
    not_busy c lba st2 n v1 s5) as (v1 & s5 & -> & H5).
  { destruct H4 as [[Hv Hnb]|(Hv & n' & Hn' & H4)].
    - destruct fuel as [|fuel]; [lia|]. exists v, s4. split; [|done]. unfold poll. cbn [loop].
      change ATA_STATUS_BUSY with 0x80. by rewrite Hv.
    - destruct (poll_busy c lba st2 n' v s4 fuel) as (v1 & s5 & Hp & H5); [lia|done|done|].
      exists v1, s5. split; [exact Hp|]. destruct H5 as [H5|(H5 & k & Hk & H5')]; [by left|right].
      split; [done|]. exists k. split; [lia|done]. }
  rewrite bind_Ok_r. cbv beta iota.
  assert (exists v2 s6, poll fuel d bus (fun v => negb (has v
      (Z.lor (Z.lor ATA_STATUS_DRQ ATA_STATUS_ERROR) ATA_STATUS_DRIVE_FAULT))) v1 s5 = Ok (v2, s6) /\
    data_ready c lba st2 v2 s6) as (v2 & s6 & -> & _ & H21 & H80 & H6).
  { change (Z.lor (Z.lor ATA_STATUS_DRQ ATA_STATUS_ERROR) ATA_STATUS_DRIVE_FAULT) with 0x29.
    destruct H5 as [H5|(H5 & k & Hk & H5')].
    - destruct fuel as [|fuel]; [lia|]. exists v1, s5. split; [|done]. unfold poll. cbn [loop].
      by rewrite (proj1 H5).
    - apply (poll_settling c lba st2 k); [lia|done|done]. }
  rewrite bind_Ok_r. cbv beta iota zeta.
  change (Z.lor ATA_STATUS_ERROR ATA_STATUS_DRIVE_FAULT) with 0x21. rewrite H21.
  cbn [negb assert]. rewrite !bind_Ok_r. exists v2, s6, (set_phase st2 (data_phase c lba)).
  split_and!; [done|done|apply H6..|done|exact Hd2].
Qed.

(** ** The data port *)

(** The 256 words of a sector go to the buffer. *)
Lemma read_words_ok lba st buffer m (s : M) : at_state st s -> d_phase st = DataIn lba 0 ->
  let '(m', s') := for_up 256 0 (fun i '(m, s) =>
    let '(v, s) := in_16 (ATA_DATA d bus) s in (st16 m (buffer + 2 * i) v, s)) (m, s) in
  at_state (set_phase st Idle) s' /\
  forall x, ld8 m' x = if decide (buffer <= x < buffer + 512)
    then nth (Z.to_nat (x - buffer)) (d_sector st lba) 0 else ld8 m x.
Proof.
  intros [Hs Hst] Hp.
  pose proof (for_up_ind (fun k '(m', s') =>
    at_state (set_phase st (in_phase lba (Z.to_nat k))) s' /\
    forall x, ld8 m' x = if decide (buffer <= x < buffer + 2 * k)
      then nth (Z.to_nat (x - buffer)) (d_sector st lba) 0 else ld8 m x)
    (fun i '(m, s) =>
      let '(v, s) := in_16 (ATA_DATA d bus) s in (st16 m (buffer + 2 * i) v, s)) 256 0 (m, s)) as H.
  destruct (for_up 256 0 _ (m, s)) as [m' s']. apply H; clear H.
  - split.
    + split; [done|]. rewrite Hst. destruct st. cbn in Hp. by subst.
    + intros x. rewrite decide_False by lia. done.
  - intros k [m1 s1] Hk [[Hs1 Hst1] Hm1].
    unfold ATA_DATA. rewrite Hbase, Z.add_0_r.
    pose proof (ad_read_word s1 lba (Z.to_nat k) Hs1 ltac:(lia)) as H.
    rewrite Hst1 in H. unfold in_phase in H at 1. destruct (Nat.eqb_spec (Z.to_nat k) 256); [lia|].
    specialize (H eq_refl). destruct (in_16 ad_base s1) as [v s2]. destruct H as (Hv & Hs2 & Hst2).
    replace (S (Z.to_nat k)) with (Z.to_nat (k + 1)) in Hst2 by lia.
    split; [by split|]. intros x.
    destruct (ad_sector_ok s1 lba Hs1) as [Hlen Hb]. rewrite Hst1 in Hlen, Hb.
    change (d_sector (set_phase st (in_phase lba (Z.to_nat k))) lba) with (d_sector st lba) in *.
    assert (forall j, 0 <= nth j (d_sector st lba) 0 < 256) as Hb'.
    { intros j. destruct (nth_in_or_default j (d_sector st lba) 0) as [Hin| ->]; [|lia].
      rewrite Forall_forall in Hb. apply Hb. by apply list_elem_of_In. }
    pose proof (Hb' (2 * Z.to_nat k)%nat). pose proof (Hb' (2 * Z.to_nat k + 1)%nat).
    unfold st16. rewrite !ld8_st8. rewrite Hm1.
    destruct (decide (buffer + 2 * k + 1 = x)) as [<- |].
    + rewrite decide_True by lia. replace (Z.to_nat (buffer + 2 * k + 1 - buffer))
        with (2 * Z.to_nat k + 1)%nat by lia. rewrite Hv. zmod.
    + destruct (decide (buffer + 2 * k = x)) as [<- |].
      * rewrite decide_True by lia. replace (Z.to_nat (buffer + 2 * k - buffer))
          with (2 * Z.to_nat k)%nat by lia. rewrite Hv. zmod.
      * do 2 case_decide; try lia; done.
Qed.

Lemma bytes_at_snoc2 m a (k : nat) :
  bytes_at m a (2 * k) ++ [ld8 m (a + 2 * Z.of_nat k); ld8 m (a + 2 * Z.of_nat k + 1)] =
  bytes_at m a (2 * S k).
Proof.
  unfold bytes_at. replace (2 * S k)%nat with (2 * k + 2)%nat by lia.
  rewrite seq_app, map_app. cbn. do 2 f_equal; [f_equal; lia|f_equal; f_equal; lia].
Qed.

Lemma bytes_at_u8 m a n : Forall is_u8 (bytes_at m a n).
Proof. unfold bytes_at. apply Forall_fmap, Forall_forall. intros i _. apply ld8_range. Qed.

(** The 256 words of the buffer go to the sector, and the drive works on it. *)
Lemma write_words_ok lba st buffer m (s : M) : at_state st s -> d_phase st = DataOut lba [] ->
  exists n, (n <= ad_hold)%nat /\
  at_state (set_phase (set_sector st lba (bytes_at m buffer 512)) (after_work n))
    (for_up 256 0 (fun i s => out_16 (ATA_DATA d bus) (ld16 m (buffer + 2 * i)) s) s).
Proof.
  intros [Hs Hst] Hp.
  pose proof (for_up_ind (fun k s' =>
    if k =? 256 then exists n, (n <= ad_hold)%nat /\
      at_state (set_phase (set_sector st lba (bytes_at m buffer 512)) (after_work n)) s'
    else at_state (set_phase st (DataOut lba (bytes_at m buffer (2 * Z.to_nat k)))) s')
    (fun i s => out_16 (ATA_DATA d bus) (ld16 m (buffer + 2 * i)) s) 256 0 s) as H.
  apply H; clear H.
  - split; [done|]. rewrite Hst. destruct st. cbn in Hp. by subst.
  - intros k s1 Hk H1. destruct (Z.eqb_spec k 256); [lia|]. destruct H1 as [Hs1 Hst1].
    unfold ATA_DATA. rewrite Hbase, Z.add_0_r. set (v := ld16 m (buffer + 2 * k)).
    pose proof (ad_write_word s1 lba (bytes_at m buffer (2 * Z.to_nat k)) v Hs1
      ltac:(by rewrite Hst1)) as H.
    rewrite length_bytes_at in H. specialize (H ltac:(lia) (bytes_at_u8 _ _ _)). cbv zeta in H.
    assert (w8 v = ld8 m (buffer + 2 * Z.of_nat (Z.to_nat k)) /\
      w8 (v / 256) = ld8 m (buffer + 2 * Z.of_nat (Z.to_nat k) + 1)) as [E1 E2].
    { rewrite !Z2Nat.id by lia. unfold v, ld16. pose proof (ld8_range m (buffer + 2 * k)).
      pose proof (ld8_range m (buffer + 2 * k + 1)). zmod. }
    rewrite E1, E2, bytes_at_snoc2, length_bytes_at in H. destruct H as [Hs2 H].
    replace (S (Z.to_nat k)) with (Z.to_nat (k + 1)) in H by lia. rewrite Hst1 in H.
    destruct (Z.eqb_spec (k + 1) 256) as [E|E].
    + rewrite E in H. destruct H as (n' & Hn & H). exists n'. by split_and!.
    + destruct (Nat.eqb_spec (2 * Z.to_nat (k + 1)) 512); [lia|]. by split.
Qed.

(** The flush: whether the drive is still working or idle, it works for no
    longer than it would after a sector. *)
Lemma flush_ok n st (s : M) : at_state st s -> d_phase st = after_work n -> (n <= ad_hold)%nat ->
  exists n' st', (n' <= ad_hold)%nat /\
    at_state st' (out_8 (ad_base + 7) ATA_COMMAND_CACHE_FLUSH s) /\
    d_phase st' = after_work n' /\ d_disk st' = d_disk st.
Proof.
  intros [Hs <-] Hp Hn. destruct n as [|n].
  - destruct (ad_flush s Hs Hp) as (Hs' & n' & Hn' & Hst'). exists n'. eexists.
    split_and!; [done|by split|done|done].
  - destruct (ad_ignored s n 7 ATA_COMMAND_CACHE_FLUSH Hs Hp) as (Hs' & n' & Hn' & Hst'); [by right|].
    exists n'. eexists. split_and!; [lia|by split|done|done].
Qed.

(** ** The transfers *)

Lemma ata_read_sector_ok fuel lba buffer m (s : M) : ad_ok s -> at_rest (ad_state s) ->
  0 <= lba < ad_sectors -> (ad_latency + 2 < fuel)%nat ->
  exists m' s', ata_read_sector fuel d bus ad_number lba buffer m s = Ok (m', s') /\
    ad_ok s' /\ d_phase (ad_state s') = Idle /\ d_disk (ad_state s') = d_disk (ad_state s) /\
    bytes_at m' buffer 512 = d_sector (ad_state s) lba /\
    forall x, x < buffer \/ buffer + 512 <= x -> ld8 m' x = ld8 m x.
Proof.
  intros Hs Hi Hl Hf. unfold ata_read_sector.
  destruct (start_ok fuel lba ATA_COMMAND_READ_SECTORS (ad_state s) s) as
    (v & s1 & st1 & -> & _ & H1 & Hp1 & Hd1); [by split|done|done|done|by left|].
  rewrite bind_Ok_r. cbv beta iota.
  pose proof (read_words_ok lba st1 buffer m s1 H1 Hp1) as H.
  destruct (for_up 256 0 _ (m, s1)) as [m' s']. destruct H as [[Hok' Hst'] Hm'].
  exists m', s'. rewrite Hst'. split_and!; [done|done|done|done| |].
  - assert (d_sector (ad_state s) lba = d_sector st1 lba) as -> by (unfold d_sector; by rewrite Hd1).
    destruct (ad_sector_ok s' lba Hok') as [Hlen _]. rewrite Hst' in Hlen.
    change (d_sector (set_phase st1 Idle) lba) with (d_sector st1 lba) in Hlen.
    apply list_eq_same_length with (n := 512%nat); [done|by rewrite length_bytes_at|].
    intros k x y Hk Hx Hy. rewrite lookup_bytes_at in Hx by lia. injection Hx as <-.
    rewrite Hm', decide_True by lia. replace (Z.to_nat (buffer + Z.of_nat k - buffer)) with k by lia.
    rewrite nth_lookup. by rewrite Hy.
  - intros x Hx. rewrite Hm', decide_False by lia. done.
Qed.

Lemma ata_write_sector_ok fuel lba buffer m (s : M) : ad_ok s -> at_rest (ad_state s) ->
  0 <= lba < ad_sectors -> (ad_latency + 2 < fuel)%nat ->
  exists s' n, ata_write_sector fuel d bus ad_number lba buffer m s = Ok s' /\
    ad_ok s' /\ (n <= ad_hold)%nat /\ d_phase (ad_state s') = after_work n /\
    d_disk (ad_state s') = <[lba := bytes_at m buffer 512]> (d_disk (ad_state s)).
Proof.
  intros Hs Hi Hl Hf. unfold ata_write_sector.
  destruct (start_ok fuel lba ATA_COMMAND_WRITE_SECTORS (ad_state s) s) as
    (v & s1 & st1 & -> & Hv & H1 & Hp1 & Hd1); [by split|done|done|done|by right|].
  rewrite bind_Ok_r. cbv beta iota zeta.
  destruct (write_words_ok lba st1 buffer m s1 H1 Hp1) as (n & Hn & H2).
  set (s2 := for_up 256 0 _ s1) in *. unfold ATA_COMMAND. rewrite Hbase.
  destruct (flush_ok n _ s2 H2 eq_refl Hn) as (n' & st3 & Hn' & [H3 <-] & Hp3 & Hd3).
  set (s3 := out_8 _ _ s2) in *. destruct fuel as [|fuel]; [lia|]. unfold poll. cbn [loop].
  change ATA_STATUS_BUSY with 0x80. rewrite Hv, bind_Ok_r. exists s3, n'.
  split_and!; [done|done|done|done|]. rewrite Hd3. cbn. by rewrite Hd1.
Qed.
End drive.

(** ** Properties *)

(** [ata_read_sector] of a sector the drive has puts its 512 bytes into the
    buffer, changes no other memory and leaves the sectors as they are; it
    returns whatever the drive's latency, given the fuel for it. *)
Theorem ata_read_sector_reads {M : Type} `{HM : Machine M} `{SK : Sink M} `{SKO : !SinkOk M}
    `{AD : !AtaDrive M} (d : ide) bus fuel lba buffer m (s : M) :
  io_base (channel d bus) = ad_base -> ad_ok s -> at_rest (ad_state s) ->
  0 <= lba < ad_sectors -> (ad_latency + 2 < fuel)%nat ->
  exists m' s', ata_read_sector fuel d bus ad_number lba buffer m s = Ok (m', s') /\
    ad_ok s' /\ d_phase (ad_state s') = Idle /\ d_disk (ad_state s') = d_disk (ad_state s) /\
    bytes_at m' buffer 512 = d_sector (ad_state s) lba /\
    forall x, x < buffer \/ buffer + 512 <= x -> ld8 m' x = ld8 m x.
Proof. intros Hb. by apply ata_read_sector_ok. Qed.

(** C26: [ata_write_sector] returns with the buffer in the sector and the other
    sectors as they were. It does not wait for the drive: once the drive is
    done, after [w] more reads of the status where it needs at most [w + 4]
    ([w = 0] for a [PromptDrive]), [ata_read_sector] of the sector returns the
    bytes that were written. *)
Theorem ata_write_then_read {M : Type} `{HM : Machine M} `{SK : Sink M} `{SKO : !SinkOk M}
    `{AD : !AtaDrive M} (d : ide) bus fuel lba buffer buffer' m (s : M) :
  io_base (channel d bus) = ad_base -> ad_ok s -> at_rest (ad_state s) ->
  0 <= lba < ad_sectors -> (ad_latency + 2 < fuel)%nat ->
  exists s1, ata_write_sector fuel d bus ad_number lba buffer m s = Ok s1 /\ ad_ok s1 /\
    d_disk (ad_state s1) = <[lba := bytes_at m buffer 512]> (d_disk (ad_state s)) /\
    forall w, (ad_hold <= w + 4)%nat -> exists m2 s2,
      ata_read_sector fuel d bus ad_number lba buffer' m (status_reads d bus w s1) = Ok (m2, s2) /\
      bytes_at m2 buffer' 512 = bytes_at m buffer 512 /\
      d_disk (ad_state s2) = d_disk (ad_state s1).
Proof.
  intros Hb Hs Hi Hl Hf.
  destruct (ata_write_sector_ok d bus Hb fuel lba buffer m s Hs Hi Hl Hf)
    as (s1 & n & Hw & Hs1 & Hn & Hp1 & Hd1).
  exists s1. split_and!; [done..|]. intros w Hw4.
  destruct (status_reads_ok d bus Hb w n (ad_state s1) s1 ltac:(by split) Hp1)
    as (k & st & Hk & [Hsw <-] & Hdw & Hpw).
  destruct (ata_read_sector_ok d bus Hb fuel lba buffer' m (status_reads d bus w s1))
    as (m2 & s2 & Hr & _ & _ & Hd2 & Hm2 & _); [done|exists k; split; [lia|done]|done|done|].
  exists m2, s2. split_and!; [done| |congruence].
  rewrite Hm2. unfold d_sector. by rewrite Hdw, Hd1, lookup_insert_eq.
Qed.

(** ** Identification *)

(** The recording machine, whose characters are dropped. *)
#[local] Instance recorder_sink : Sink recorder := fun c s => Ok s.

(** With nothing on either channel (both status registers float at 0xFF)
    [ide_init] touches no other port, marks all four drives missing and stores
    the ports; but those of a secondary channel in native mode replace the
    primary ones, and the secondary channel keeps the ports 0. *)
Theorem ide_init_no_drives fuel clz_zero (primary_native secondary_native : bool)
    bar0 bar1 bar2 bar3 bar4 l :
  let prim : Z * Z := if secondary_native then (w16 bar2, w16 bar3)
              else if primary_native then (w16 bar0, w16 bar1) else (0x1F0, 0x3F6) in
  let snd : Z * Z := if secondary_native then (0, 0) else (0x170, 0x376) in
  exists d, ide_init fuel clz_zero primary_native secondary_native bar0 bar1 bar2 bar3 bar4 ide_zero
      (Recorder [0xFF; 0xFF] l) =
    Ok (true, d, Recorder [] (l ++ [In 1 (w16 (prim.1 + 7)) 0xFF; In 1 (w16 (snd.1 + 7)) 0xFF])) /\
    (io_base (channel d IDE_BUS_PRIM), control_base (channel d IDE_BUS_PRIM)) = prim /\
    (io_base (channel d IDE_BUS_SND), control_base (channel d IDE_BUS_SND)) = snd /\
    forall bus drive, 0 <= bus < 2 -> 0 <= drive < 2 -> missing (drive_info d bus drive) = true.
Proof.
  cbv zeta. destruct primary_native, secondary_native.
  all: eexists; split; [cbn -[w16]; rewrite <- app_assoc; reflexivity|].
  all: split; [reflexivity|]; split; [reflexivity|]; intros bus drive Hb Hd.
  all: assert (bus = 0 \/ bus = 1) as [-> | ->] by lia;
    assert (drive = 0 \/ drive = 1) as [-> | ->] by lia; reflexivity.
Qed.

(** ** Witnesses: a drive *)

(** A drive as master of the primary channel, and a console. *)
Record pio : Type := Pio { p_state : dstate; p_out : list Z }.

(** 1000 sectors, and the modes 0 to 2 of which 2 is active. *)
Definition pio_identify : list Z := map (fun i => if i =? 60 then 1000 else if i =? 88 then 0x0407 else 0) (seqZ 0 256).

(** It works on a sector, and on a flush, for [hold] reads of the status. *)
Definition pio_out (hold : nat) (w p v : Z) (st : dstate) : dstate :=
  match d_phase st with
  | Idle =>
      if (w =? 1) && (0x1F2 <=? p) && (p <=? 0x1F6) then set_reg st (p - 0x1F0) v
      else if (w =? 1) && (p =? 0x1F7) && ((v =? 0x20) || (v =? 0x30) || ((v =? 0xEC) && (selected st =? 0)))
      then set_phase st (Busy v (d_lba st) 2)
      else if (w =? 1) && (p =? 0x1F7) && (v =? 0xE7) then set_phase st (after_work hold) else st
  | DataOut lba bytes =>
      if (w =? 2) && (p =? 0x1F0) then
        let bytes' := bytes ++ [w8 v; w8 (v / 256)] in
        if (length bytes' =? 512)%nat then set_phase (set_sector st lba bytes') (after_work hold)
        else set_phase st (DataOut lba bytes')
      else st
  | _ => st
  end.
Definition pio_in (w p : Z) (st : dstate) : Z * dstate :=
  if (w =? 1) && (p =? 0x1F7) then
    match d_phase st with
    | Busy c lba (S n) => (0x80, set_phase st (Busy c lba n))
    | Busy c lba O | Settling c lba _ => (0x58, set_phase st (data_phase c lba))
    | Working (S n) => (0x80, set_phase st (after_work n))
    | _ => (if selected st =? 0 then 0x50 else 0, st)
    end
  else if (w =? 2) && (p =? 0x1F0) then
    match d_phase st with
    | DataIn lba i => (nth (2 * i) (d_sector st lba) 0 + 256 * nth (2 * i + 1) (d_sector st lba) 0,
        set_phase st (in_phase lba (S i)))
    | IdentifyIn i => (nth i pio_identify 0, set_phase st (identify_phase (S i)))
    | _ => (0, st)
    end
  else (d_reg st (p - 0x1F0), st).

#[export] Instance pio_sink : Sink pio := fun c s => Ok (Pio (p_state s) (p_out s ++ [w8 c])).
#[export] Program Instance pio_sink_ok : SinkOk pio := { sink_ok _ := True; sink_out := p_out }.
Next Obligation. intros c s _. by eexists. Qed.

Definition sector_ok (l : list Z) : Prop := length l = 512%nat /\ Forall is_u8 l.
Definition disk_ok (st : dstate) : Prop := map_Forall (fun _ => sector_ok) (d_disk st).

Lemma disk_ok_sector st lba : disk_ok st -> sector_ok (d_sector st lba).
Proof.
  intros H. unfold d_sector. destruct (d_disk st !! lba) as [l|] eqn:E; [by apply (H lba)|].
  change (sector_ok (replicate 512 0)). split; [apply length_replicate|]. apply Forall_replicate. unfold is_u8. lia.
Qed.

Lemma sector_ok_word l i : sector_ok l -> 0 <= nth i l 0 < 256.
Proof.
  intros [_ H]. destruct (nth_in_or_default i l 0) as [Hin| ->]; [|lia].
  rewrite Forall_forall in H. apply H. by apply list_elem_of_In.
Qed.

Section pio.
Variable hold : nat.

#[local] Instance pio_ports : Machine pio := {
  mach_out w p v s := Pio (pio_out hold w p v (p_state s)) (p_out s);
  mach_in w p s := let '(v, st) := pio_in w p (p_state s) in (v, Pio st (p_out s));
}.

Lemma pio_register s k v : d_phase (p_state s) = Idle -> 2 <= k <= 6 ->
  out_8 (0x1F0 + k) v s = Pio (set_reg (p_state s) k (w8 v)) (p_out s).
Proof.
  intros Hp Hk. unfold out_8. cbn -[w16 w8]. unfold pio_out. rewrite Hp.
  rewrite w16_id by (unfold is_u16; lia). cbn [Z.eqb Pos.eqb andb].
  destruct (Z.leb_spec 498 (496 + k)), (Z.leb_spec (496 + k) 502); try lia. cbn [andb].
  do 2 f_equal. lia.
Qed.

#[local] Program Instance pio_laws : AtaDrive pio := {
  ad_base := 0x1F0; ad_number := 0; ad_sectors := 1000; ad_latency := 2; ad_hold := hold;
  ad_ok s := disk_ok (p_state s); ad_state := p_state;
}.
Next Obligation. by left. Qed.
Next Obligation. lia. Qed.
Next Obligation. intros s lba Hs. by apply disk_ok_sector. Qed.
Next Obligation. intros s k v Hs Hp Hk. rewrite pio_register by done. by split. Qed.
Next Obligation.
  intros s k Hs Hp Hk. unfold in_8. cbn -[w16 w8]. unfold pio_in. rewrite Hp.
  rewrite w16_id by (unfold is_u16; lia). cbn [Z.eqb Pos.eqb andb].
  destruct (496 + k =? 503); by split.
Qed.
Next Obligation.
  intros s c Hs Hp Hc _ _ _. unfold out_8. cbn -[w16 w8]. unfold pio_out. rewrite Hp.
  split; [destruct Hc as [-> | ->]; exact Hs|]. exists 2%nat. split; [lia|].
  by destruct Hc as [-> | ->].
Qed.
Next Obligation.
  intros s c lba n Hs Hp. unfold in_8. cbn -[w16 w8]. unfold pio_in. cbn. rewrite Hp.
  destruct n as [|n]; cbn; (split; [done|]); [done|]. exists n. split; [lia|done].
Qed.
Next Obligation.
  intros s c lba n Hs Hp. unfold in_8. cbn -[w16 w8]. unfold pio_in. cbn. rewrite Hp. by cbn.
Qed.
Next Obligation.
  intros s lba i Hs Hi Hp. unfold in_16. cbn -[w16 nth Nat.mul Nat.add]. unfold pio_in.
  cbn -[w16 nth Nat.mul Nat.add]. rewrite Hp. pose proof (disk_ok_sector _ lba Hs) as Hsec.
  pose proof (sector_ok_word _ (2 * i) Hsec). pose proof (sector_ok_word _ (2 * i + 1) Hsec).
  split_and!; [|done..]. apply w16_id. unfold is_u16. lia.
Qed.
Next Obligation.
  intros s lba bytes v Hs Hp Hlen Hb. unfold out_16. cbn -[w16 w8]. unfold pio_out. rewrite Hp.
  cbn [w16 Z.eqb Pos.eqb andb]. change (w16 496) with 496. cbn [Z.eqb Pos.eqb andb].
  assert (w8 (w16 v) = w8 v /\ w8 (w16 v / 256) = w8 (v / 256)) as [-> ->] by zmod.
  destruct (Nat.eqb_spec (length (bytes ++ [w8 v; w8 (v / 256)])) 512) as [E|E]; [|done].
  split; [|by exists hold]. apply map_Forall_insert_2; [|done]. split; [done|]. apply Forall_app.
  split; [done|]. repeat constructor; unfold is_u8; apply w8_range.
Qed.
Next Obligation.
  intros s Hs Hp. unfold out_8. cbn. unfold pio_out. rewrite Hp. split; [done|]. by exists hold.
Qed.
Next Obligation.
  intros s n Hs Hp. unfold in_8. cbn -[w16 w8]. unfold pio_in. cbn. rewrite Hp. cbn.
  split; [done|]. split; [done|]. by exists n.
Qed.
Next Obligation.
  intros s n k v Hs Hp Hk. unfold out_8. cbn -[w16 w8]. unfold pio_out. rewrite Hp.
  split; [done|]. exists (S n). split; [done|]. destruct s as [[] ?]. cbn in *. by subst.
Qed.
Next Obligation. done. Qed.
Next Obligation. intros c s s' Hs [= <-]. by split. Qed.

End pio.

(** The drive of the samples is done after three reads of the status. *)
#[export] Instance pio_machine : Machine pio := pio_ports 3.
#[export] Instance pio_drive : AtaDrive pio := pio_laws 3.
#[export] Instance pio_prompt : PromptDrive pio.
Proof. unfold PromptDrive. cbn. lia. Qed.

(** The driver's state for the legacy ports, and a drive with a sector 5. *)
Definition legacy : ide := set_channel ide_zero IDE_BUS_PRIM 0x1F0 0x3F6.
Definition sample_sector : list Z := map (fun i => Z.of_nat i mod 251) (seq 0 512).
Definition sample_drive : pio := Pio (DState ∅ Idle {[5 := sample_sector]}) [].

Lemma sample_drive_ok : disk_ok (p_state sample_drive).
Proof.
  apply map_Forall_singleton. split; [done|]. apply Forall_fmap, Forall_forall. intros i _.
  unfold is_u8. cbn. pose proof (Z.mod_pos_bound (Z.of_nat i) 251). lia.
Qed.

Lemma ata_read_sector_reads_witness : exists m' s',
  ata_read_sector 20 legacy IDE_BUS_PRIM 0 5 4096 ∅ sample_drive = Ok (m', s') /\
  bytes_at m' 4096 512 = sample_sector.
Proof.
  destruct (ata_read_sector_reads legacy IDE_BUS_PRIM 20 5 4096 ∅ sample_drive)
    as (m' & s' & H & _ & _ & _ & Hm & _);
    [reflexivity|exact sample_drive_ok|by apply idle_at_rest|cbn; lia|cbn; lia|].
  exists m', s'. split; [exact H|]. rewrite Hm. reflexivity.
Defined.

Lemma ata_write_then_read_witness : exists s1 m2 s2,
  ata_write_sector 20 legacy IDE_BUS_PRIM 0 7 4096 (st8 ∅ 4100 9) sample_drive = Ok s1 /\
  ata_read_sector 20 legacy IDE_BUS_PRIM 0 7 8192 (st8 ∅ 4100 9) s1 = Ok (m2, s2) /\
  bytes_at m2 8192 5 = [0; 0; 0; 0; 9] /\ d_sector (p_state s2) 5 = sample_sector.
Proof.
  destruct (ata_write_then_read legacy IDE_BUS_PRIM 20 7 4096 8192 (st8 ∅ 4100 9) sample_drive)
    as (s1 & H1 & _ & Hd1 & H);
    [reflexivity|exact sample_drive_ok|by apply idle_at_rest|cbn; lia|cbn; lia|].
  destruct (H O) as (m2 & s2 & H2 & H3 & H4); [cbn; lia|].
  exists s1, m2, s2. split; [exact H1|]. split; [exact H2|]. split.
  - assert (take 5 (bytes_at m2 8192 512) = bytes_at m2 8192 5) as <- by done.
    rewrite H3. reflexivity.
  - change (d_disk (p_state s2) = d_disk (p_state s1)) in H4.
    change (d_disk (p_state s1) = <[7 := bytes_at (st8 ∅ 4100 9) 4096 512]> (d_disk (p_state sample_drive))) in Hd1.
    unfold d_sector. rewrite H4, Hd1. reflexivity.
Defined.

(** ** A drive that works for longer

    The same drive with any [hold] satisfies the laws ([pio_laws]). When it is
    still working after the four reads of [ide_select_drive], the registers and
    the command of the next transfer are ignored, and the transfer polls a
    drive that has nothing to transfer. *)
Section slow_drive.
Variable hold : nat.
#[local] Instance slow_machine : Machine pio := pio_ports hold.
#[local] Instance slow_laws : AtaDrive pio := pio_laws hold.
Context (d : ide) (bus : Z) (Hbase : io_base (channel d bus) = 0x1F0).

Lemma slow_ignored n k v (s : pio) : d_phase (p_state s) = Working n -> out_8 (0x1F0 + k) v s = s.
Proof.
  intros Hp. destruct s as [st l]. unfold out_8. cbn -[w16 w8] in *. unfold pio_out. by rewrite Hp.
Qed.

Lemma slow_status n (s : pio) : d_phase (p_state s) = Working (S n) ->
  in_8 (ATA_STATUS d bus) s = (0x80, Pio (set_phase (p_state s) (after_work n)) (p_out s)).
Proof.
  intros Hp. unfold ATA_STATUS. rewrite Hbase. unfold in_8. cbn -[w16 w8]. unfold pio_in. cbn.
  rewrite Hp. done.
Qed.

Lemma slow_statuses w : forall i st l n,
  for_up w i (fun _ s => (in_8 (ATA_STATUS d bus) s).2) (Pio (set_phase st (after_work (w + n))) l) =
  Pio (set_phase st (after_work n)) l.
Proof.
  induction w as [|w IH]; intros i st l n; [done|]. cbn [for_up].
  rewrite (slow_status (w + n)) by done. exact (IH _ (set_phase st (after_work (w + n))) l n).
Qed.

(** An idle drive never asks for data. *)
Lemma slow_poll_data fuel v (s : pio) : d_phase (p_state s) = Idle -> has v 0x29 = false ->
  poll fuel d bus (fun v => negb (has v 0x29)) v s = Err OutOfFuel.
Proof.
  intros Hp Hv. unfold poll.
  apply (loop_diverges _ (fun '(v, s) => d_phase (p_state s) = Idle /\ has v 0x29 = false)); [|done].
  intros [v1 s1] [Hp1 ->]. cbn [negb]. eexists. split; [reflexivity|].
  unfold ATA_STATUS. rewrite Hbase. unfold in_8. cbn -[w16 w8 has]. unfold pio_in. cbn -[has].
  rewrite Hp1. destruct (selected (p_state s1) =? 0); by cbn.
Qed.

(** Nor does one that becomes idle while its status is polled. *)
Lemma slow_poll_busy : forall n fuel v (s : pio), d_phase (p_state s) = after_work n ->
  v = 0x80 \/ n = O /\ has v 0x80 = false /\ has v 0x29 = false ->
  poll fuel d bus (fun v => has v 0x80) v s = Err OutOfFuel \/
  exists v' s', poll fuel d bus (fun v => has v 0x80) v s = Ok (v', s') /\
    d_phase (p_state s') = Idle /\ has v' 0x29 = false.
Proof.
  assert (forall fuel v (s : pio), d_phase (p_state s) = Idle -> has v 0x80 = false -> has v 0x29 = false ->
    poll fuel d bus (fun v => has v 0x80) v s = Err OutOfFuel \/
    exists v' s', poll fuel d bus (fun v => has v 0x80) v s = Ok (v', s') /\
      d_phase (p_state s') = Idle /\ has v' 0x29 = false) as Hidle.
  { intros [|fuel] v s Hp H1 H2; [by left|right]. exists v, s. unfold poll. cbn [loop]. by rewrite H1. }
  induction n as [|n IH]; intros fuel v s Hp [-> |(Hn & H1 & H2)]; try done; [|by apply Hidle|].
  all: destruct fuel as [|fuel]; [by left|]; unfold poll; cbn [loop]; change (has 0x80 0x80) with true.
  - cbv iota. match goal with |- context [loop fuel _ ?q] => destruct q as [v1 s1] eqn:E end.
    change (loop fuel _ _) with (poll fuel d bus (fun v => has v 0x80) v1 s1).
    unfold ATA_STATUS in E. rewrite Hbase in E. unfold in_8 in E. cbn -[w16 w8] in E.
    unfold pio_in in E. cbn in E. rewrite Hp in E. cbn in E.
    destruct (selected (p_state s) =? 0); injection E as <- <-; by apply Hidle.
  - cbv iota. rewrite (slow_status n s Hp).
    change (loop fuel _ _) with (poll fuel d bus (fun v => has v 0x80) 0x80
      (Pio (set_phase (p_state s) (after_work n)) (p_out s))).
    apply IH; [done|by left].
Qed.

(** A read that is started while the drive works for more than four reads of the
    status never returns. *)
Lemma read_while_working n fuel lba buffer m (s : pio) : disk_ok (p_state s) ->
  d_phase (p_state s) = Working (5 + n) -> 0 <= lba < 268435456 -> (2 < fuel)%nat ->
  ata_read_sector fuel d bus 0 lba buffer m s = Err OutOfFuel.
Proof.
  intros Hok Hp Hl Hf. unfold ata_read_sector, ata_start. cbn [Nat.add] in Hp.
  assert (exists l, ide_select_drive d bus 0 s =
    Ok (Pio (set_phase (p_state s) (Working (S n))) l)) as [l ->].
  { unfold ide_select_drive. res_step. unfold ATA_DRIVE_OR_HEAD. rewrite Hbase, (slow_ignored _ _ _ _ Hp).
    destruct s as [st l]. exists l. apply (f_equal Ok). cbn [p_state] in Hp.
    refine (eq_trans (f_equal _ _) (slow_statuses 4 0 st l (S n))).
    destruct st. cbn in *. by subst. }
  rewrite bind_Ok_r. unfold ata_prepare_transfer.
  assert ((lba <=? 0xFFFFFFF) = true) as -> by lia. res_step.
  unfold ATA_DRIVE_OR_HEAD, ATA_SECTOR_COUNT, ATA_LBALOW_OR_SECTORNUM, ATA_LBAMID_OR_CYLINDERLOW,
    ATA_LBAHIGH_OR_CYLINDERHIGH, ATA_COMMAND. rewrite Hbase.
  set (st1 := set_phase (p_state s) (Working (S n))).
  rewrite !(slow_ignored (S n) _ _ (Pio st1 l)) by done.
  assert (exists v, in_8 (0x1F0 + 2) (Pio st1 l) = (v, Pio st1 l) /\ 0 <= v < 256) as (v & -> & Hv).
  { unfold in_8. cbn. eexists. split; [done|]. apply w8_range. }
  assert (at_state st1 (Pio st1 l)) as Hat.
  { split; [exact Hok|]. reflexivity. }
  destruct (print_byte fuel v st1 (Pio st1 l) Hv Hf Hat) as (s2 & -> & _ & H2).
  change (p_state s2 = st1) in H2. cbn [Z.eqb orb assert]. rewrite !bind_Ok_r. cbv zeta.
  rewrite !(slow_ignored (S n) _ _ s2) by (by rewrite H2).
    rewrite (slow_status n s2) by (by rewrite H2). rewrite H2. cbv zeta.
  destruct (slow_poll_busy n fuel 0x80 (Pio (set_phase st1 (after_work n)) (p_out s2)))
    as [E|(v' & s' & E & Hp' & Hv')]; [done|by left| |].
  all: change ATA_STATUS_BUSY with 0x80; rewrite E.
  - done.
  - rewrite bind_Ok_r. cbv beta iota.
    change (Z.lor (Z.lor ATA_STATUS_DRQ ATA_STATUS_ERROR) ATA_STATUS_DRIVE_FAULT) with 0x29.
    by rewrite slow_poll_data.
Qed.
End slow_drive.

(** [ata_write_sector] does not wait: on a drive that satisfies the laws and
    works on a sector for five reads of the status, it returns, and a read that
    follows it polls for ever. *)
Theorem write_then_read_hangs :
  let HM := pio_ports 5 in
  exists s1, @ata_write_sector pio HM _ 20 legacy IDE_BUS_PRIM 0 7 4096 ∅ sample_drive = Ok s1 /\
    forall fuel lba buffer m, 0 <= lba < 268435456 -> (2 < fuel)%nat ->
      @ata_read_sector pio HM _ fuel legacy IDE_BUS_PRIM 0 lba buffer m s1 = Err OutOfFuel.
Proof.
  assert (exists s1, @ata_write_sector pio (pio_ports 5) _ 20 legacy IDE_BUS_PRIM 0 7 4096 ∅ sample_drive =
    Ok s1 /\ d_phase (p_state s1) = Working 5 /\ disk_ok (p_state s1)) as (s1 & H & Hp & Hd).
  { eexists. split; [vm_compute; reflexivity|]. split; [reflexivity|]. apply (bool_decide_unpack _). vm_compute. exact I. }
  exists s1. split; [exact H|]. intros fuel lba buffer m Hl Hf.
  exact (read_while_working 5 legacy IDE_BUS_PRIM eq_refl 0 fuel lba buffer m s1 Hd Hp Hl Hf).
Qed.
