(* ===== verification/Boot.v ===== *)
(** * Boot: the segment descriptors and the first page tables
      (src/src/arch/x86/boot/gdt.c and bootstrap.c)

    [gdt_init] fills five descriptors; [bootstrap] copies the Multiboot
    information behind the boot image and builds the page tables the kernel
    starts on. The privileged instructions (lgdt, loading CR3 and CR0) and the
    far jump are not modelled; what the processor would read is. *)
From S2P Require Import Prelude Memory PageFrames.

#[local] Open Scope Z_scope.

(** ** gdt.c *)

Record Segment_Descriptor : Type := {
  limit_low : Z;              (* uint16_t *)
  base_low : Z;               (* uint16_t *)
  base_mid : Z;               (* uint8_t *)
  access_byte : Z;            (* uint8_t *)
  limit_high_and_flags : Z;   (* uint8_t *)
  base_high : Z;              (* uint8_t *)
}.

Definition GDT_AB_ACCESSED : Z := Z.shiftl 1 0.
Definition GDT_AB_RW : Z := Z.shiftl 1 1.
Definition GDT_AB_DIR_CONFORM : Z := Z.shiftl 1 2.
Definition GDT_AB_EXEC : Z := Z.shiftl 1 3.
Definition GDT_AB_DATACODE : Z := Z.shiftl 1 4.
Definition GDT_AB_PRIV_3 : Z := Z.shiftl 3 5.
Definition GDT_AB_PRESENT : Z := Z.shiftl 1 7.
Definition GDT_FLAGS_LONG : Z := Z.shiftl 1 3.
Definition GDT_FLAGS_SIZE32 : Z := Z.shiftl 1 2.
Definition GDT_FLAGS_GRAN4K : Z := Z.shiftl 1 3.

Definition gdt_create_descriptor (base limit access flags : Z) : Segment_Descriptor := {|
  limit_low := w16 (Z.land limit 0xffff);
  base_low := w16 (Z.land base 0xffff);
  base_mid := w8 (Z.land (Z.shiftr base 16) 0xff);
  access_byte := access;
  limit_high_and_flags := w8 (Z.lor (Z.land (Z.shiftr limit 16) 0xf) (Z.shiftl flags 4));
  base_high := w8 (Z.land (Z.shiftr base 24) 0xff);
|}.

Definition lors (l : list Z) : Z := foldl Z.lor 0 l.

Definition gdt_init : list Segment_Descriptor :=
  let flags := lors [GDT_FLAGS_GRAN4K; GDT_FLAGS_SIZE32] in
  [ (* Null descriptor. *)
    {| limit_low := 0; base_low := 0; base_mid := 0; access_byte := 0;
       limit_high_and_flags := 0; base_high := 0 |};
    (* Kernel code descriptor. *)
    gdt_create_descriptor 0 0xfffff
      (lors [GDT_AB_ACCESSED; GDT_AB_RW; GDT_AB_DIR_CONFORM; GDT_AB_EXEC; GDT_AB_DATACODE;
             GDT_AB_PRESENT]) flags;
    (* Kernel data descriptor. *)
    gdt_create_descriptor 0 0xfffff
      (lors [GDT_AB_ACCESSED; GDT_AB_RW; GDT_AB_DATACODE; GDT_AB_PRESENT]) flags;
    (* User code descriptor. *)
    gdt_create_descriptor 0 0xfffff
      (lors [GDT_AB_ACCESSED; GDT_AB_RW; GDT_AB_DIR_CONFORM; GDT_AB_EXEC; GDT_AB_PRIV_3;
             GDT_AB_DATACODE; GDT_AB_PRESENT]) flags;
    (* User data descriptor. *)
    gdt_create_descriptor 0 0xfffff
      (lors [GDT_AB_ACCESSED; GDT_AB_RW; GDT_AB_PRIV_3; GDT_AB_DATACODE; GDT_AB_PRESENT]) flags ].

(** [gdtr.size = sizeof(gdt) - 1]: a packed descriptor has 8 bytes. *)
Definition gdtr_size : Z := Z.of_nat (length gdt_init) * 8 - 1.

(** What the processor reads in a descriptor. *)
Definition seg_base (d : Segment_Descriptor) : Z :=
  base_low d + 65536 * base_mid d + 16777216 * base_high d.
Definition seg_limit (d : Segment_Descriptor) : Z :=
  let limit := limit_low d + 65536 * (limit_high_and_flags d mod 16) in
  if Z.testbit (limit_high_and_flags d) 7 then limit * 4096 + 4095 else limit.
Definition seg_flags (d : Segment_Descriptor) : Z := limit_high_and_flags d / 16.
Definition seg_present (d : Segment_Descriptor) : bool := Z.testbit (access_byte d) 7.
Definition seg_dpl (d : Segment_Descriptor) : Z := access_byte d / 32 mod 4.
Definition seg_executable (d : Segment_Descriptor) : bool :=
  Z.testbit (access_byte d) 4 && Z.testbit (access_byte d) 3.

(** ** bootstrap.c: the Multiboot information *)

Definition boot_memory_copy (m : mem) (dst src size : Z) : mem :=
  for_up (Z.to_nat size) 0 (fun i m => st8 m (dst + i) (ld8 m (src + i))) m.

(** [sizeof(Multiboot_Info)] and the offsets of the fields used. *)
Definition MULTIBOOT_INFO_SIZE : Z := 116.
Definition mmap_length_off : Z := 44.
Definition mmap_addr_off : Z := 48.

(** Returns [b_info] and the memory. *)
Definition bootstrap_copy (boot_end boot_info : Z) (m : mem) : Z * mem :=
  let b_info := boot_end in
  let m := boot_memory_copy m b_info boot_info MULTIBOOT_INFO_SIZE in
  let new_mmap_addr := b_info + MULTIBOOT_INFO_SIZE in
  let m := boot_memory_copy m new_mmap_addr (ld32 m (b_info + mmap_addr_off))
             (ld32 m (b_info + mmap_length_off)) in
  (b_info, st32 m (b_info + mmap_addr_off) new_mmap_addr).

(** ** bootstrap.c: the page tables *)

Record boot_tables : Type := BootTables {
  boot_directory : gmap Z Z;
  low_page_table : gmap Z Z;
  kernel_page_table1 : gmap Z Z;
  kernel_page_table2 : gmap Z Z;
}.

(** [for (phys = ..; phys < phys_end; phys += PAGE_SIZE)
      { table[(virt >> 12) & 0x3FF] = phys | flags; virt += PAGE_SIZE; }] *)
Definition map_body (phys_end : Z) (st : Z * Z * gmap Z Z)
  : res (step (Z * Z * gmap Z Z) (gmap Z Z)) :=
  let '(phys, virt, table) := st in
  if phys <? phys_end then
    Ok (Next (w32 (phys + PAGE_SIZE), w32 (virt + PAGE_SIZE),
      <[Z.land (Z.shiftr virt 12) 0x3FF := Z.lor phys PAGE_TABLE_FLAGS]> table))
  else Ok (Stop table).

Section bootstrap.
(** Addresses of the tables (physical: the boot image is not relocated) and
    the linker's [__kernel_phys_end]. *)
Context (low_addr table1_addr table2_addr kernel_phys_end : Z).

Definition bootstrap_tables (fuel : nat) (t : boot_tables) : res boot_tables :=
  let dir := <[Z.shiftr 0 22 := Z.lor low_addr PAGE_DIR_FLAGS]> (boot_directory t) in
  low ← loop fuel (map_body 0x200000) (0, 0, low_page_table t);
  let kernel_phys_mid := w32 (kernel_phys_start + 4 * MiB) in
  let dir := <[Z.shiftr 0xC0000000 22 := Z.lor table1_addr PAGE_DIR_FLAGS]> dir in
  table1 ← loop fuel (map_body kernel_phys_mid)
    (kernel_phys_start, 0xC0000000, kernel_page_table1 t);
  let dir := <[Z.shiftr 0xC0400000 22 := Z.lor table2_addr PAGE_DIR_FLAGS]> dir in
  table2 ← loop fuel (map_body kernel_phys_end)
    (kernel_phys_mid, 0xC0400000, kernel_page_table2 t);
  Ok (BootTables dir low table1 table2).

(** The processor's walk: the directory entry gives the table, the table
    entry the frame; bit 0 is the present bit. *)
Definition table_at (t : boot_tables) (addr : Z) : option (gmap Z Z) :=
  if addr =? low_addr then Some (low_page_table t)
  else if addr =? table1_addr then Some (kernel_page_table1 t)
  else if addr =? table2_addr then Some (kernel_page_table2 t) else None.
Definition boot_translate (t : boot_tables) (virt : Z) : option Z :=
  let pde := elem (boot_directory t) (virt / 4194304) in
  if pde mod 2 =? 0 then None else
  table ← table_at t (pde - pde mod 4096);
  let pte := elem table (virt / 4096 mod 1024) in
  if pte mod 2 =? 0 then None else Some (pte - pte mod 4096 + virt mod 4096).
End bootstrap.

(** ** The loop that fills a table *)

Lemma map_loop phys0 phys_end virt0 table fuel :
  phys0 mod 4096 = 0 -> phys_end mod 4096 = 0 -> 0 <= phys0 <= phys_end ->
  phys_end <= phys0 + 4194304 -> phys_end + 4096 <= 4294967296 ->
  virt0 mod 4194304 = 0 -> 0 <= virt0 -> virt0 + 4194304 < 4294967296 ->
  (1024 < fuel)%nat ->
  exists t, loop fuel (map_body phys_end) (phys0, virt0, table) = Ok t /\
    forall i, t !! i = if (0 <=? i) && (i <? (phys_end - phys0) / 4096)
      then Some (phys0 + i * 4096 + 39) else table !! i.
Proof.
  intros Hp0 Hpe Hle Hmax Hw Hv0 Hv0' Hvw Hf.
  destruct (loop_spec (map_body phys_end)
    (fun '(p, v, t) => exists k, 0 <= k /\ p = phys0 + k * 4096 /\ v = virt0 + k * 4096 /\
       p <= phys_end /\ forall i, t !! i = if (0 <=? i) && (i <? k)
         then Some (phys0 + i * 4096 + 39) else table !! i)
    (fun t => forall i, t !! i = if (0 <=? i) && (i <? (phys_end - phys0) / 4096)
         then Some (phys0 + i * 4096 + 39) else table !! i)
    (fun '(p, v, t) => Z.to_nat ((phys_end - p) / 4096)))
    with (n := fuel) (s := (phys0, virt0, table)) as (t & Ht & Hi); [| | |by exists t].
  - intros [[p v] t] (k & Hk & -> & -> & Hpk & Ht). unfold map_body.
    destruct (Z.ltb_spec (phys0 + k * 4096) phys_end) as [Hlt|Hge].
    + unfold PAGE_SIZE, PAGE_TABLE_FLAGS.
      rewrite !w32_id by (unfold is_u32; lia). rewrite lor_flags by zmod.
      rewrite Z.shiftr_div_pow2 by lia. change 0x3FF with (2 ^ 10 - 1).
      rewrite land_ones_mod by lia. change (2 ^ 12) with 4096. change (2 ^ 10) with 1024.
      replace ((virt0 + k * 4096) / 4096 mod 1024) with k by zmod.
      split; [|zmod]. exists (k + 1). split_and!; [lia|lia|lia|zmod|]. intros i.
      destruct (Z.eq_dec k i) as [-> |Hne].
      * rewrite lookup_insert_eq. by destruct (Z.leb_spec 0 i), (Z.ltb_spec i (i + 1)); try lia.
      * rewrite lookup_insert_ne, Ht by done.
        destruct (Z.leb_spec 0 i), (Z.ltb_spec i k), (Z.ltb_spec i (k + 1)); (done || lia).
    + intros i. rewrite Ht. assert (k = (phys_end - phys0) / 4096) as -> by zmod. done.
  - exists 0. split_and!; [lia..|]. intros i.
    destruct (Z.leb_spec 0 i), (Z.ltb_spec i 0); (done || lia).
  - assert ((phys_end - phys0) / 4096 <= 1024) by zmod. lia.
Qed.

(** What a filled table of page entries yields for an address. *)
Lemma boot_pte table phys0 n i : phys0 mod 4096 = 0 -> 0 <= phys0 -> 0 <= i ->
  phys0 + n * 4096 <= 4294967296 ->
  (forall i, table !! i = if (0 <=? i) && (i <? n)
      then Some (phys0 + i * 4096 + 39) else (∅ : gmap Z Z) !! i) ->
  elem table i = if i <? n then phys0 + i * 4096 + 39 else 0.
Proof.
  intros Hp Hp0 Hi Hn Ht. unfold elem. rewrite Ht, lookup_empty.
  destruct (Z.leb_spec 0 i); [|lia]. cbn [andb].
  destruct (Z.ltb_spec i n); [|done]. cbn. apply w32_id. unfold is_u32. zmod.
Qed.

Section boot_tables.
Context (low_addr table1_addr table2_addr kernel_phys_end : Z).

(** The tables are distinct pages of the boot image; the kernel ends on a page
    boundary and has at most 8 MiB (both by link.ld). *)
Record boot_layout : Prop := {
  low_page : low_addr mod 4096 = 0 /\ 0 <= low_addr < 2097152;
  table1_page : table1_addr mod 4096 = 0 /\ 0 <= table1_addr < 2097152;
  table2_page : table2_addr mod 4096 = 0 /\ 0 <= table2_addr < 2097152;
  tables_apart : low_addr <> table1_addr /\ low_addr <> table2_addr /\
    table1_addr <> table2_addr;
  kernel_end_page : kernel_phys_end mod 4096 = 0;
  kernel_size : kernel_phys_start <= kernel_phys_end <= kernel_phys_start + MAX_KERNEL_SIZE;
}.

Definition empty_tables : boot_tables := BootTables ∅ ∅ ∅ ∅.

Lemma bootstrap_tables_ok fuel : boot_layout -> (1024 < fuel)%nat ->
  exists low t1 t2,
  bootstrap_tables low_addr table1_addr table2_addr kernel_phys_end fuel empty_tables =
    Ok (BootTables (<[769 := table2_addr + 39]> (<[768 := table1_addr + 39]>
         (<[0 := low_addr + 39]> ∅))) low t1 t2) /\
  (forall i, 0 <= i -> elem low i = if i <? 512 then i * 4096 + 39 else 0) /\
  (forall i, 0 <= i -> elem t1 i = if i <? 1024 then 2097152 + i * 4096 + 39 else 0) /\
  (forall i, 0 <= i -> elem t2 i =
     if i <? (kernel_phys_end - 6291456) / 4096 then 6291456 + i * 4096 + 39 else 0).
Proof.
  intros [Hl H1 H2 Hapart Hke Hks] Hf. unfold kernel_phys_start in Hks. pf_unfold.
  unfold bootstrap_tables, empty_tables. cbn [boot_directory low_page_table
    kernel_page_table1 kernel_page_table2].
  destruct (map_loop 0 0x200000 0 ∅ fuel) as (low & -> & Hlow);
    try (done || lia).
  rewrite bind_Ok_r. change (w32 (kernel_phys_start + 4 * MiB)) with 6291456.
  change kernel_phys_start with 2097152.
  destruct (map_loop 2097152 6291456 0xC0000000 ∅ fuel) as (t1 & -> & Ht1);
    try (done || lia).
  rewrite bind_Ok_r.
  assert (exists t2, loop fuel (map_body kernel_phys_end) (6291456, 0xC0400000, ∅) = Ok t2 /\
    forall i, t2 !! i = if (0 <=? i) && (i <? (kernel_phys_end - 6291456) / 4096)
      then Some (6291456 + i * 4096 + 39) else (∅ : gmap Z Z) !! i) as (t2 & -> & Ht2).
  { destruct (Z.le_gt_cases 6291456 kernel_phys_end).
    - apply map_loop; (done || lia).
    - destruct fuel as [|fuel]; [lia|]. exists ∅. cbn [loop]. unfold map_body.
      destruct (Z.ltb_spec 6291456 kernel_phys_end); [lia|]. split; [done|]. intros i.
      destruct (Z.leb_spec 0 i), (Z.ltb_spec i ((kernel_phys_end - 6291456) / 4096));
        try done. zmod. }
  rewrite bind_Ok_r. unfold PAGE_DIR_FLAGS. rewrite !lor_flags by lia.
  do 3 eexists. split; [done|]. split_and!; intros i Hi.
  - by rewrite (boot_pte low 0 512 i) by (done || lia).
  - by rewrite (boot_pte t1 2097152 1024 i) by (done || lia).
  - assert (6291456 + (kernel_phys_end - 6291456) / 4096 * 4096 <= 4294967296)
      by (clear -Hke Hks; zmod).
    by rewrite (boot_pte t2 6291456 ((kernel_phys_end - 6291456) / 4096) i) by (done || lia).
Qed.
End boot_tables.

(** ** The copied memory map *)

Lemma ld32_moved m m' a a' : (forall i, 0 <= i < 4 -> ld8 m' (a' + i) = ld8 m (a + i)) ->
  ld32 m' a' = ld32 m a.
Proof.
  intros H. unfold ld32, ld16. rewrite <- !Z.add_assoc.
  pose proof (H 0 ltac:(lia)) as H0. rewrite !Z.add_0_r in H0.
  by rewrite H0, (H 1), (H 2), (H (2 + 1)) by lia.
Qed.

Lemma mmap_at_moved m m' segs : forall a a',
  mmap_at m a segs -> Forall (fun s => 20 <= size s) segs ->
  (forall i, 0 <= i < mmap_bytes segs -> ld8 m' (a' + i) = ld8 m (a + i)) ->
  mmap_at m' a' segs.
Proof.
  induction segs as [|s segs IH]; intros a a' Hm Hsz Hb; cbn in *; [done|].
  destruct Hm as [Hs Hm]. inversion_clear Hsz as [|? ? Hs20 Hsz'].
  pose proof (mmap_bytes_nonneg _ _ _ Hm) as Hnn. split.
  - rewrite <- Hs. unfold segment_at, ld64. rewrite <- !Z.add_assoc.
    f_equal; [| |f_equal; [|f_equal]|]; [..|apply ld32_moved].
    all: try (apply ld32_moved || (f_equal; [|f_equal]; apply ld32_moved)).
    all: intros i Hi; rewrite <- ?Z.add_assoc; apply Hb; lia.
  - apply (IH (a + size s + 4)); [done|done|]. intros i Hi.
    replace (a' + size s + 4 + i) with (a' + (size s + 4 + i)) by lia.
    replace (a + size s + 4 + i) with (a + (size s + 4 + i)) by lia. apply Hb. lia.
Qed.

Lemma ld8_boot_memory_copy m dst src n b :
  0 <= n -> dst <= src \/ src + n <= dst ->
  ld8 (boot_memory_copy m dst src n) b =
    if decide (dst <= b < dst + n) then ld8 m (src + (b - dst)) else ld8 m b.
Proof. exact (ld8_memory_copy m dst src n b). Qed.

Lemma bootstrap_copy_bytes m boot_end boot_info A L :
  0 < boot_end -> boot_end <= boot_info \/ boot_info + 116 <= boot_end ->
  ld32 m (boot_info + 48) = A -> ld32 m (boot_info + 44) = L ->
  A + L <= boot_end \/ boot_end + 116 <= A -> boot_end + 116 < 4294967296 ->
  let '(b, m') := bootstrap_copy boot_end boot_info m in
  b = boot_end /\ ld32 m' (b + 44) = L /\ ld32 m' (b + 48) = b + 116 /\
  forall i, 0 <= i < L -> ld8 m' (b + 116 + i) = ld8 m (A + i).
Proof.
  intros Hb Hov HA HL Hsrc Hmax. unfold bootstrap_copy, MULTIBOOT_INFO_SIZE, mmap_addr_off,
    mmap_length_off. cbv zeta.
  set (m1 := boot_memory_copy m boot_end boot_info 116).
  assert (forall x, ld8 m1 x = if decide (boot_end <= x < boot_end + 116)
    then ld8 m (boot_info + (x - boot_end)) else ld8 m x) as H1
    by (intros x; apply ld8_boot_memory_copy; lia).
  assert (forall o, 0 <= o <= 112 -> ld32 m1 (boot_end + o) = ld32 m (boot_info + o)) as Hinfo.
  { intros o Ho. apply ld32_moved. intros i Hi. rewrite H1, decide_True by lia. f_equal. lia. }
  rewrite !Hinfo, HA, HL by lia. pose proof (ld32_range m (boot_info + 44)) as HLr. rewrite HL in HLr.
  set (m2 := boot_memory_copy m1 (boot_end + 116) A L).
  assert (forall x, ld8 m2 x = if decide (boot_end + 116 <= x < boot_end + 116 + L)
    then ld8 m1 (A + (x - (boot_end + 116))) else ld8 m1 x) as H2.
  { intros x. apply ld8_boot_memory_copy; lia. }
  split; [reflexivity|split; [|split]].
  - rewrite <- HL, <- (Hinfo 44) by lia. rewrite ld32_st32_ne by lia.
    apply ld32_frame. intros x Hx. rewrite H2, decide_False by lia. reflexivity.
  - rewrite ld32_st32_eq. apply w32_id. unfold is_u32. lia.
  - intros i Hi. rewrite ld8_st32_ne by lia. rewrite H2, decide_True by lia.
    replace (boot_end + 116 + i - (boot_end + 116)) with i by lia.
    rewrite H1, decide_False by lia. reflexivity.
Qed.

(** ** The walk *)

(** Splits the comparisons of the goal; every case is arithmetic. *)
Ltac zcases :=
  repeat match goal with
  | |- context [?a <? ?b] => destruct (Z.ltb_spec a b)
  | |- context [?a <=? ?b] => destruct (Z.leb_spec a b)
  end; cbn [andb]; first [done | f_equal; zmod | exfalso; zmod].

Section walk.
Context (low_addr table1_addr table2_addr : Z) (t : boot_tables).

Lemma walk_none v : elem (boot_directory t) (v / 4194304) = 0 ->
  boot_translate low_addr table1_addr table2_addr t v = None.
Proof. intros H. unfold boot_translate. by rewrite H. Qed.

Lemma walk_table addr table v :
  elem (boot_directory t) (v / 4194304) = addr + 39 -> addr mod 4096 = 0 ->
  table_at low_addr table1_addr table2_addr t addr = Some table ->
  boot_translate low_addr table1_addr table2_addr t v =
    let pte := elem table (v / 4096 mod 1024) in
    if pte mod 2 =? 0 then None else Some (pte - pte mod 4096 + v mod 4096).
Proof.
  intros H Ha Ht. unfold boot_translate. rewrite H.
  replace ((addr + 39) mod 2 =? 0) with false by zbool.
  replace (addr + 39 - (addr + 39) mod 4096) with addr by zmod. by rewrite Ht.
Qed.

(** A present entry [p + 39] for the page [p]. *)
Lemma pte_present p v : p mod 4096 = 0 ->
  (let pte := p + 39 in
   if pte mod 2 =? 0 then None else Some (pte - pte mod 4096 + v mod 4096)) =
  Some (p + v mod 4096).
Proof.
  intros Hp. cbv zeta. replace ((p + 39) mod 2 =? 0) with false by zbool. f_equal. zmod.
Qed.
End walk.

(** The directory of [bootstrap_tables_ok]. *)
Section directory.
Context (low_addr table1_addr table2_addr kernel_phys_end : Z).
Context (Hlay : boot_layout low_addr table1_addr table2_addr kernel_phys_end).
Context (low t1 t2 : gmap Z Z).

Definition filled_tables : boot_tables :=
  BootTables (<[769 := table2_addr + 39]> (<[768 := table1_addr + 39]>
    (<[0 := low_addr + 39]> ∅))) low t1 t2.

Lemma filled_directory i : elem (boot_directory filled_tables) i =
  if i =? 769 then table2_addr + 39 else if i =? 768 then table1_addr + 39
  else if i =? 0 then low_addr + 39 else 0.
Proof.
  destruct Hlay as [[_ H0] [_ H1] [_ H2] _ _ _]. unfold elem, filled_tables. cbn [boot_directory].
  destruct (Z.eqb_spec i 769) as [-> |];
    [rewrite lookup_insert_eq; apply w32_id; unfold is_u32; lia|].
  rewrite lookup_insert_ne by done. destruct (Z.eqb_spec i 768) as [-> |];
    [rewrite lookup_insert_eq; apply w32_id; unfold is_u32; lia|].
  rewrite lookup_insert_ne by done. destruct (Z.eqb_spec i 0) as [-> |];
    [rewrite lookup_insert_eq; apply w32_id; unfold is_u32; lia|].
  by rewrite lookup_insert_ne by done.
Qed.

Lemma filled_table_at :
  table_at low_addr table1_addr table2_addr filled_tables low_addr = Some low /\
  table_at low_addr table1_addr table2_addr filled_tables table1_addr = Some t1 /\
  table_at low_addr table1_addr table2_addr filled_tables table2_addr = Some t2.
Proof.
  destruct Hlay as [_ _ _ (Ha1 & Ha2 & Ha3) _ _]. unfold table_at. rewrite !Z.eqb_refl.
  destruct (Z.eqb_spec table1_addr low_addr); [congruence|].
  destruct (Z.eqb_spec table2_addr low_addr); [congruence|].
  destruct (Z.eqb_spec table2_addr table1_addr); [congruence|]. done.
Qed.

(** The entry of [v], when its table maps [n] pages from [p0] on. *)
Lemma filled_walk addr table p0 n v : elem (boot_directory filled_tables) (v / 4194304) = addr + 39 ->
  addr mod 4096 = 0 ->
  table_at low_addr table1_addr table2_addr filled_tables addr = Some table ->
  (forall i, 0 <= i -> elem table i = if i <? n then p0 + i * 4096 + 39 else 0) ->
  p0 mod 4096 = 0 ->
  boot_translate low_addr table1_addr table2_addr filled_tables v =
    if v / 4096 mod 1024 <? n then Some (p0 + v mod 4194304) else None.
Proof.
  intros Hd Ha Htab Hent Hp. rewrite (walk_table _ _ _ _ addr table v Hd Ha Htab).
  rewrite Hent by zmod. destruct (v / 4096 mod 1024 <? n); [|done].
  rewrite pte_present by zmod. f_equal. zmod.
Qed.
End directory.

(** ** Properties *)


(** [bootstrap] leaves at the end of the boot image a Multiboot information
    whose memory map length is the one the boot loader gave and whose map
    address is the copy right behind it, and that copy reads as the same list
    of segments, when the pieces do not overlap in the way a forward copy
    cannot handle. *)
Theorem bootstrap_copy_keeps_map m boot_end boot_info A segs :
  0 < boot_end -> boot_end + 116 < 4294967296 ->
  boot_end <= boot_info \/ boot_info + 116 <= boot_end ->
  ld32 m (boot_info + 48) = A -> ld32 m (boot_info + 44) = mmap_bytes segs ->
  A + mmap_bytes segs <= boot_end \/ boot_end + 116 <= A ->
  mmap_at m A segs -> Forall (fun s => 20 <= size s) segs ->
  exists m', bootstrap_copy boot_end boot_info m = (boot_end, m') /\
    ld32 m' (boot_end + 44) = mmap_bytes segs /\
    ld32 m' (boot_end + 48) = boot_end + 116 /\
    mmap_at m' (ld32 m' (boot_end + 48)) segs.
Proof.
  intros Hb Hmax Hov HA HL Hsrc Hm Hsz.
  pose proof (bootstrap_copy_bytes m boot_end boot_info A _ Hb Hov HA HL Hsrc Hmax) as H.
  destruct (bootstrap_copy boot_end boot_info m) as [b m']. destruct H as (-> & Hlen & Haddr & Hbytes).
  exists m'. split_and!; [done|done|done|]. rewrite Haddr. by apply (mmap_at_moved m m' segs A).
Qed.

(** A segment descriptor gives back, as the processor reads it, the base,
    the 20 bits of limit and the flags it was made from. *)
Theorem gdt_descriptor_fields base limit access flags :
  is_u32 base -> 0 <= limit < 2 ^ 20 -> 0 <= flags < 16 ->
  let d := gdt_create_descriptor base limit access flags in
  seg_base d = base /\ seg_flags d = flags /\ access_byte d = access /\
  seg_limit d = if Z.testbit flags 3 then limit * 4096 + 4095 else limit.
Proof.
  intros Hb Hl Hf. cbv zeta. unfold seg_base, seg_flags, seg_limit, gdt_create_descriptor.
  cbn [base_low base_mid base_high limit_low limit_high_and_flags access_byte].
  change 0xffff with (2 ^ 16 - 1). change 0xff with (2 ^ 8 - 1). change 0xf with (2 ^ 4 - 1).
  rewrite !land_ones_mod, !Z.shiftr_div_pow2 by lia. rewrite lor_shiftl_add by zmod.
  change (2 ^ 16) with 65536. change (2 ^ 8) with 256. change (2 ^ 4) with 16.
  change (2 ^ 24) with 16777216. change (2 ^ 20) with 1048576 in *.
  rewrite (w8_id (_ + flags * 16)) by zmod.
  assert (Z.testbit (limit / 65536 mod 16 + flags * 16) 7 = Z.testbit flags 3) as ->.
  { rewrite <- (Z.div_pow2_bits _ 4 3) by lia. f_equal. change (2 ^ 4) with 16. zmod. }
  split_and!; [zmod|zmod|done|].
  replace (w16 (limit mod 65536) + 65536 * ((limit / 65536 mod 16 + flags * 16) mod 16))
    with limit by zmod. done.
Qed.

(** The descriptor table is flat: entries 1 to 4 are present and span the
    4 GiB from address 0, with the kernel's code and data at privilege 0 and the
    user's at privilege 3, only the code being executable; entry 0 is null and
    the table register covers exactly the five. *)
Theorem gdt_init_flat :
  gdtr_size = 39 /\ map access_byte (take 1 gdt_init) = [0] /\
  Forall (fun d => seg_base d = 0 /\ seg_limit d = 4294967295 /\ seg_present d = true)
    (drop 1 gdt_init) /\
  map seg_dpl (drop 1 gdt_init) = [0; 0; 3; 3] /\
  map seg_executable (drop 1 gdt_init) = [true; false; true; false].
Proof.
  split_and!; [reflexivity|reflexivity| |reflexivity|reflexivity].
  repeat constructor.
Qed.

(** ** Witnesses *)

Lemma sample_layout : boot_layout 1056768 1060864 1064960 8388608.
Proof.
  split; unfold kernel_phys_start, MAX_KERNEL_SIZE, MiB;
    try (split; [reflexivity|lia]); (lia || reflexivity).
Qed.


(** A boot loader's information at 0x10000 and its map at 0x1000. *)
Definition sample_boot : mem := st32 (st32 qemu_mem 65580 (mmap_bytes qemu_mmap)) 65584 4096.

Lemma bootstrap_copy_keeps_map_witness : exists m',
  bootstrap_copy 1073152 65536 sample_boot = (1073152, m') /\
  ld32 m' (1073152 + 44) = mmap_bytes qemu_mmap /\ ld32 m' (1073152 + 48) = 1073152 + 116 /\
  mmap_at m' (ld32 m' (1073152 + 48)) qemu_mmap.
Proof.
  apply (bootstrap_copy_keeps_map sample_boot 1073152 65536 4096 qemu_mmap);
    try lia; try (vm_compute; reflexivity).
  - left. vm_compute. congruence.
  - repeat split; vm_compute; reflexivity.
  - repeat constructor; vm_compute; congruence.
Defined.

Lemma gdt_descriptor_fields_witness :
  let d := gdt_create_descriptor 0x12345678 0xABCDE 0x9A 0xC in
  seg_base d = 0x12345678 /\ seg_flags d = 0xC /\ access_byte d = 0x9A /\
  seg_limit d = if Z.testbit 0xC 3 then 0xABCDE * 4096 + 4095 else 0xABCDE.
Proof. apply (gdt_descriptor_fields 0x12345678 0xABCDE 0x9A 0xC); unfold is_u32; lia. Defined.
