(* ===== verification/Interrupts.v ===== *)
(** * Interrupts (src/src/arch/x86/interrupts.c and interrupts_def.h)

    The gate descriptors of the IDT and their encoding, [interrupts_init], which
    fills the table with the 256 entry stubs of asm_stubs.s, the handlers that
    drivers register and the dispatch to them. The stubs are assembled code: a
    type of their names and a parameter for their addresses stand for them. *)
From S2P Require Import Prelude Memory PageFrames Ports Boot.

#[local] Open Scope Z_scope.

Record Gate_Descriptor : Type := {
  offset_low : Z;        (* uint16_t *)
  segment_selector : Z;  (* uint16_t *)
  reserved : Z;          (* uint8_t *)
  flags : Z;             (* uint8_t *)
  offset_high : Z;       (* uint16_t *)
}.

Definition interrupts_create_descriptor (offset selector flgs : Z) : Gate_Descriptor := {|
  offset_low := w16 (Z.land offset 0xffff);
  segment_selector := selector;
  reserved := 0;
  flags := flgs;
  offset_high := w16 (Z.land (Z.shiftr offset 16) 0xffff);
|}.

Definition IDT_GATE_TASK : Z := 0x5.
Definition IDT_GATE_INT16 : Z := 0x6.
Definition IDT_GATE_TRAP16 : Z := 0x7.
Definition IDT_GATE_INT32 : Z := 0xE.
Definition IDT_GATE_TRAP32 : Z := 0xF.
Definition IDT_PRIV_1 : Z := Z.shiftl 1 5.
Definition IDT_PRIV_2 : Z := Z.shiftl 2 5.
Definition IDT_PRIV_3 : Z := Z.shiftl 3 5.
Definition IDT_PRESENT : Z := Z.shiftl 1 7.

(** The registers an entry stub saves and the CPU pushes. *)
Record Interrupt_Frame : Type := {
  frame_edi : Z; frame_esi : Z; frame_ebp : Z; frame_ebx : Z;
  frame_edx : Z; frame_ecx : Z; frame_eax : Z;
  frame_error_code : Z; frame_error_code_high : Z;
  frame_eip : Z; frame_cs : Z; frame_cs_high : Z; frame_eflags : Z;
  frame_esp : Z; frame_ss : Z; frame_ss_high : Z;
}.

(** ** The entry stubs *)

Inductive exc_stub : Type :=
  | exc_start_0 | exc_start_1 | exc_start_2 | exc_start_3 | exc_start_4 | exc_start_5
  | exc_start_6 | exc_start_7 | exc_start_8 | exc_start_9 | exc_start_10 | exc_start_11
  | exc_start_12 | exc_start_13 | exc_start_14 | exc_start_15 | exc_start_16
  | exc_start_17 | exc_start_18 | exc_start_19 | exc_start_20 | exc_start_21
  | exc_start_22 | exc_start_23 | exc_start_24 | exc_start_25 | exc_start_26
  | exc_start_27 | exc_start_28 | exc_start_29 | exc_start_30 | exc_start_31.

Inductive int_stub : Type :=
  | int_start_32 | int_start_33 | int_start_34 | int_start_35 | int_start_36
  | int_start_37 | int_start_38 | int_start_39 | int_start_40 | int_start_41
  | int_start_42 | int_start_43 | int_start_44 | int_start_45 | int_start_46
  | int_start_47 | int_start_48 | int_start_49 | int_start_50 | int_start_51
  | int_start_52 | int_start_53 | int_start_54 | int_start_55 | int_start_56
  | int_start_57 | int_start_58 | int_start_59 | int_start_60 | int_start_61
  | int_start_62 | int_start_63 | int_start_64 | int_start_65 | int_start_66
  | int_start_67 | int_start_68 | int_start_69 | int_start_70 | int_start_71
  | int_start_72 | int_start_73 | int_start_74 | int_start_75 | int_start_76
  | int_start_77 | int_start_78 | int_start_79 | int_start_80 | int_start_81
  | int_start_82 | int_start_83 | int_start_84 | int_start_85 | int_start_86
  | int_start_87 | int_start_88 | int_start_89 | int_start_90 | int_start_91
  | int_start_92 | int_start_93 | int_start_94 | int_start_95 | int_start_96
  | int_start_97 | int_start_98 | int_start_99 | int_start_100 | int_start_101
  | int_start_102 | int_start_103 | int_start_104 | int_start_105 | int_start_106
  | int_start_107 | int_start_108 | int_start_109 | int_start_110 | int_start_111
  | int_start_112 | int_start_113 | int_start_114 | int_start_115 | int_start_116
  | int_start_117 | int_start_118 | int_start_119 | int_start_120 | int_start_121
  | int_start_122 | int_start_123 | int_start_124 | int_start_125 | int_start_126
  | int_start_127 | int_start_128 | int_start_129 | int_start_130 | int_start_131
  | int_start_132 | int_start_133 | int_start_134 | int_start_135 | int_start_136
  | int_start_137 | int_start_138 | int_start_139 | int_start_140 | int_start_141
  | int_start_142 | int_start_143 | int_start_144 | int_start_145 | int_start_146
  | int_start_147 | int_start_148 | int_start_149 | int_start_150 | int_start_151
  | int_start_152 | int_start_153 | int_start_154 | int_start_155 | int_start_156
  | int_start_157 | int_start_158 | int_start_159 | int_start_160 | int_start_161
  | int_start_162 | int_start_163 | int_start_164 | int_start_165 | int_start_166
  | int_start_167 | int_start_168 | int_start_169 | int_start_170 | int_start_171
  | int_start_172 | int_start_173 | int_start_174 | int_start_175 | int_start_176
  | int_start_177 | int_start_178 | int_start_179 | int_start_180 | int_start_181
  | int_start_182 | int_start_183 | int_start_184 | int_start_185 | int_start_186
  | int_start_187 | int_start_188 | int_start_189 | int_start_190 | int_start_191
  | int_start_192 | int_start_193 | int_start_194 | int_start_195 | int_start_196
  | int_start_197 | int_start_198 | int_start_199 | int_start_200 | int_start_201
  | int_start_202 | int_start_203 | int_start_204 | int_start_205 | int_start_206
  | int_start_207 | int_start_208 | int_start_209 | int_start_210 | int_start_211
  | int_start_212 | int_start_213 | int_start_214 | int_start_215 | int_start_216
  | int_start_217 | int_start_218 | int_start_219 | int_start_220 | int_start_221
  | int_start_222 | int_start_223 | int_start_224 | int_start_225 | int_start_226
  | int_start_227 | int_start_228 | int_start_229 | int_start_230 | int_start_231
  | int_start_232 | int_start_233 | int_start_234 | int_start_235 | int_start_236
  | int_start_237 | int_start_238 | int_start_239 | int_start_240 | int_start_241
  | int_start_242 | int_start_243 | int_start_244 | int_start_245 | int_start_246
  | int_start_247 | int_start_248 | int_start_249 | int_start_250 | int_start_251
  | int_start_252 | int_start_253 | int_start_254 | int_start_255.

Inductive stub : Type :=
  | Exc (e : exc_stub)
  | Int (i : int_stub).

(** ** The table, entry by entry *)

Section idt.
(** [gate s] is [interrupts_create_descriptor((uint32_t)s, segment_selector, flags)]. *)
Context {G : Type} (gate : stub -> G).

Definition idt_entries_0_23 (idt : gmap Z G) : gmap Z G :=
  let idt := <[0 := gate (Exc exc_start_0)]> idt in
  let idt := <[1 := gate (Exc exc_start_1)]> idt in
  let idt := <[2 := gate (Exc exc_start_2)]> idt in
  let idt := <[3 := gate (Exc exc_start_3)]> idt in
  let idt := <[4 := gate (Exc exc_start_4)]> idt in
  let idt := <[5 := gate (Exc exc_start_5)]> idt in
  let idt := <[6 := gate (Exc exc_start_6)]> idt in
  let idt := <[7 := gate (Exc exc_start_7)]> idt in
  let idt := <[8 := gate (Exc exc_start_8)]> idt in
  let idt := <[9 := gate (Exc exc_start_9)]> idt in
  let idt := <[10 := gate (Exc exc_start_10)]> idt in
  let idt := <[11 := gate (Exc exc_start_11)]> idt in
  let idt := <[12 := gate (Exc exc_start_12)]> idt in
  let idt := <[13 := gate (Exc exc_start_13)]> idt in
  let idt := <[14 := gate (Exc exc_start_14)]> idt in
  let idt := <[15 := gate (Exc exc_start_15)]> idt in
  let idt := <[16 := gate (Exc exc_start_16)]> idt in
  let idt := <[17 := gate (Exc exc_start_17)]> idt in
  let idt := <[18 := gate (Exc exc_start_18)]> idt in
  let idt := <[19 := gate (Exc exc_start_19)]> idt in
  let idt := <[20 := gate (Exc exc_start_20)]> idt in
  let idt := <[21 := gate (Exc exc_start_21)]> idt in
  let idt := <[22 := gate (Exc exc_start_22)]> idt in
  let idt := <[23 := gate (Exc exc_start_23)]> idt in
  idt.

Definition idt_entries_24_31 (idt : gmap Z G) : gmap Z G :=
  let idt := <[24 := gate (Exc exc_start_24)]> idt in
  let idt := <[25 := gate (Exc exc_start_25)]> idt in
  let idt := <[26 := gate (Exc exc_start_26)]> idt in
  let idt := <[27 := gate (Exc exc_start_27)]> idt in
  let idt := <[28 := gate (Exc exc_start_28)]> idt in
  let idt := <[29 := gate (Exc exc_start_29)]> idt in
  let idt := <[30 := gate (Exc exc_start_30)]> idt in
  let idt := <[31 := gate (Exc exc_start_31)]> idt in
  idt.

Definition idt_entries_32_55 (idt : gmap Z G) : gmap Z G :=
  let idt := <[32 := gate (Int int_start_32)]> idt in
  let idt := <[33 := gate (Int int_start_33)]> idt in
  let idt := <[34 := gate (Int int_start_34)]> idt in
  let idt := <[35 := gate (Int int_start_35)]> idt in
  let idt := <[36 := gate (Int int_start_36)]> idt in
  let idt := <[37 := gate (Int int_start_37)]> idt in
  let idt := <[38 := gate (Int int_start_38)]> idt in
  let idt := <[39 := gate (Int int_start_39)]> idt in
  let idt := <[40 := gate (Int int_start_40)]> idt in
  let idt := <[41 := gate (Int int_start_41)]> idt in
  let idt := <[42 := gate (Int int_start_42)]> idt in
  let idt := <[43 := gate (Int int_start_43)]> idt in
  let idt := <[44 := gate (Int int_start_44)]> idt in
  let idt := <[45 := gate (Int int_start_45)]> idt in
  let idt := <[46 := gate (Int int_start_46)]> idt in
  let idt := <[47 := gate (Int int_start_47)]> idt in
  let idt := <[48 := gate (Int int_start_48)]> idt in
  let idt := <[49 := gate (Int int_start_49)]> idt in
  let idt := <[50 := gate (Int int_start_50)]> idt in
  let idt := <[51 := gate (Int int_start_51)]> idt in
  let idt := <[52 := gate (Int int_start_52)]> idt in
  let idt := <[53 := gate (Int int_start_53)]> idt in
  let idt := <[54 := gate (Int int_start_54)]> idt in
  let idt := <[55 := gate (Int int_start_55)]> idt in
  idt.

Definition idt_entries_56_79 (idt : gmap Z G) : gmap Z G :=
  let idt := <[56 := gate (Int int_start_56)]> idt in
  let idt := <[57 := gate (Int int_start_57)]> idt in
  let idt := <[58 := gate (Int int_start_58)]> idt in
  let idt := <[59 := gate (Int int_start_59)]> idt in
  let idt := <[60 := gate (Int int_start_60)]> idt in
  let idt := <[61 := gate (Int int_start_61)]> idt in
  let idt := <[62 := gate (Int int_start_62)]> idt in
  let idt := <[63 := gate (Int int_start_63)]> idt in
  let idt := <[64 := gate (Int int_start_64)]> idt in
  let idt := <[65 := gate (Int int_start_65)]> idt in
  let idt := <[66 := gate (Int int_start_66)]> idt in
  let idt := <[67 := gate (Int int_start_67)]> idt in
  let idt := <[68 := gate (Int int_start_68)]> idt in
  let idt := <[69 := gate (Int int_start_69)]> idt in
  let idt := <[70 := gate (Int int_start_70)]> idt in
  let idt := <[71 := gate (Int int_start_71)]> idt in
  let idt := <[72 := gate (Int int_start_72)]> idt in
  let idt := <[73 := gate (Int int_start_73)]> idt in
  let idt := <[74 := gate (Int int_start_74)]> idt in
  let idt := <[75 := gate (Int int_start_75)]> idt in
  let idt := <[76 := gate (Int int_start_76)]> idt in
  let idt := <[77 := gate (Int int_start_77)]> idt in
  let idt := <[78 := gate (Int int_start_78)]> idt in
  let idt := <[79 := gate (Int int_start_79)]> idt in
  idt.

Definition idt_entries_80_103 (idt : gmap Z G) : gmap Z G :=
  let idt := <[80 := gate (Int int_start_80)]> idt in
  let idt := <[81 := gate (Int int_start_81)]> idt in
  let idt := <[82 := gate (Int int_start_82)]> idt in
  let idt := <[83 := gate (Int int_start_83)]> idt in
  let idt := <[84 := gate (Int int_start_84)]> idt in
  let idt := <[85 := gate (Int int_start_85)]> idt in
  let idt := <[86 := gate (Int int_start_86)]> idt in
  let idt := <[87 := gate (Int int_start_87)]> idt in
  let idt := <[88 := gate (Int int_start_88)]> idt in
  let idt := <[89 := gate (Int int_start_89)]> idt in
  let idt := <[90 := gate (Int int_start_90)]> idt in
  let idt := <[91 := gate (Int int_start_91)]> idt in
  let idt := <[92 := gate (Int int_start_92)]> idt in
  let idt := <[93 := gate (Int int_start_93)]> idt in
  let idt := <[94 := gate (Int int_start_94)]> idt in
  let idt := <[95 := gate (Int int_start_95)]> idt in
  let idt := <[96 := gate (Int int_start_96)]> idt in
  let idt := <[97 := gate (Int int_start_97)]> idt in
  let idt := <[98 := gate (Int int_start_98)]> idt in
  let idt := <[99 := gate (Int int_start_99)]> idt in
  let idt := <[100 := gate (Int int_start_100)]> idt in
  let idt := <[101 := gate (Int int_start_101)]> idt in
  let idt := <[102 := gate (Int int_start_102)]> idt in
  let idt := <[103 := gate (Int int_start_103)]> idt in
  idt.

Definition idt_entries_104_127 (idt : gmap Z G) : gmap Z G :=
  let idt := <[104 := gate (Int int_start_104)]> idt in
  let idt := <[105 := gate (Int int_start_105)]> idt in
  let idt := <[106 := gate (Int int_start_106)]> idt in
  let idt := <[107 := gate (Int int_start_107)]> idt in
  let idt := <[108 := gate (Int int_start_108)]> idt in
  let idt := <[109 := gate (Int int_start_109)]> idt in
  let idt := <[110 := gate (Int int_start_110)]> idt in
  let idt := <[111 := gate (Int int_start_111)]> idt in
  let idt := <[112 := gate (Int int_start_112)]> idt in
  let idt := <[113 := gate (Int int_start_113)]> idt in
  let idt := <[114 := gate (Int int_start_114)]> idt in
  let idt := <[115 := gate (Int int_start_115)]> idt in
  let idt := <[116 := gate (Int int_start_116)]> idt in
  let idt := <[117 := gate (Int int_start_117)]> idt in
  let idt := <[118 := gate (Int int_start_118)]> idt in
  let idt := <[119 := gate (Int int_start_119)]> idt in
  let idt := <[120 := gate (Int int_start_120)]> idt in
  let idt := <[121 := gate (Int int_start_121)]> idt in
  let idt := <[122 := gate (Int int_start_122)]> idt in
  let idt := <[123 := gate (Int int_start_123)]> idt in
  let idt := <[124 := gate (Int int_start_124)]> idt in
  let idt := <[125 := gate (Int int_start_125)]> idt in
  let idt := <[126 := gate (Int int_start_126)]> idt in
  let idt := <[127 := gate (Int int_start_127)]> idt in
  idt.

Definition idt_entries_128_151 (idt : gmap Z G) : gmap Z G :=
  let idt := <[128 := gate (Int int_start_128)]> idt in
  let idt := <[129 := gate (Int int_start_129)]> idt in
  let idt := <[130 := gate (Int int_start_130)]> idt in
  let idt := <[131 := gate (Int int_start_131)]> idt in
  let idt := <[132 := gate (Int int_start_132)]> idt in
  let idt := <[133 := gate (Int int_start_133)]> idt in
  let idt := <[134 := gate (Int int_start_134)]> idt in
  let idt := <[135 := gate (Int int_start_135)]> idt in
  let idt := <[136 := gate (Int int_start_136)]> idt in
  let idt := <[137 := gate (Int int_start_137)]> idt in
  let idt := <[138 := gate (Int int_start_138)]> idt in
  let idt := <[139 := gate (Int int_start_139)]> idt in
  let idt := <[140 := gate (Int int_start_140)]> idt in
  let idt := <[141 := gate (Int int_start_141)]> idt in
  let idt := <[142 := gate (Int int_start_142)]> idt in
  let idt := <[143 := gate (Int int_start_143)]> idt in
  let idt := <[144 := gate (Int int_start_144)]> idt in
  let idt := <[145 := gate (Int int_start_145)]> idt in
  let idt := <[146 := gate (Int int_start_146)]> idt in
  let idt := <[147 := gate (Int int_start_147)]> idt in
  let idt := <[148 := gate (Int int_start_148)]> idt in
  let idt := <[149 := gate (Int int_start_149)]> idt in
  let idt := <[150 := gate (Int int_start_150)]> idt in
  let idt := <[151 := gate (Int int_start_151)]> idt in
  idt.

Definition idt_entries_152_175 (idt : gmap Z G) : gmap Z G :=
  let idt := <[152 := gate (Int int_start_152)]> idt in
  let idt := <[153 := gate (Int int_start_153)]> idt in
  let idt := <[154 := gate (Int int_start_154)]> idt in
  let idt := <[155 := gate (Int int_start_155)]> idt in
  let idt := <[156 := gate (Int int_start_156)]> idt in
  let idt := <[157 := gate (Int int_start_157)]> idt in
  let idt := <[158 := gate (Int int_start_158)]> idt in
  let idt := <[159 := gate (Int int_start_159)]> idt in
  let idt := <[160 := gate (Int int_start_160)]> idt in
  let idt := <[161 := gate (Int int_start_161)]> idt in
  let idt := <[162 := gate (Int int_start_162)]> idt in
  let idt := <[163 := gate (Int int_start_163)]> idt in
  let idt := <[164 := gate (Int int_start_164)]> idt in
  let idt := <[165 := gate (Int int_start_165)]> idt in
  let idt := <[166 := gate (Int int_start_166)]> idt in
  let idt := <[167 := gate (Int int_start_167)]> idt in
  let idt := <[168 := gate (Int int_start_168)]> idt in
  let idt := <[169 := gate (Int int_start_169)]> idt in
  let idt := <[170 := gate (Int int_start_170)]> idt in
  let idt := <[171 := gate (Int int_start_171)]> idt in
  let idt := <[172 := gate (Int int_start_172)]> idt in
  let idt := <[173 := gate (Int int_start_173)]> idt in
  let idt := <[174 := gate (Int int_start_174)]> idt in
  let idt := <[175 := gate (Int int_start_175)]> idt in
  idt.

Definition idt_entries_176_199 (idt : gmap Z G) : gmap Z G :=
  let idt := <[176 := gate (Int int_start_176)]> idt in
  let idt := <[177 := gate (Int int_start_177)]> idt in
  let idt := <[178 := gate (Int int_start_178)]> idt in
  let idt := <[179 := gate (Int int_start_179)]> idt in
  let idt := <[180 := gate (Int int_start_180)]> idt in
  let idt := <[181 := gate (Int int_start_181)]> idt in
  let idt := <[182 := gate (Int int_start_182)]> idt in
  let idt := <[183 := gate (Int int_start_183)]> idt in
  let idt := <[184 := gate (Int int_start_184)]> idt in
  let idt := <[185 := gate (Int int_start_185)]> idt in
  let idt := <[186 := gate (Int int_start_186)]> idt in
  let idt := <[187 := gate (Int int_start_187)]> idt in
  let idt := <[188 := gate (Int int_start_188)]> idt in
  let idt := <[189 := gate (Int int_start_189)]> idt in
  let idt := <[190 := gate (Int int_start_190)]> idt in
  let idt := <[191 := gate (Int int_start_191)]> idt in
  let idt := <[192 := gate (Int int_start_192)]> idt in
  let idt := <[193 := gate (Int int_start_193)]> idt in
  let idt := <[194 := gate (Int int_start_194)]> idt in
  let idt := <[195 := gate (Int int_start_195)]> idt in
  let idt := <[196 := gate (Int int_start_196)]> idt in
  let idt := <[197 := gate (Int int_start_197)]> idt in
  let idt := <[198 := gate (Int int_start_198)]> idt in
  let idt := <[199 := gate (Int int_start_199)]> idt in
  idt.

Definition idt_entries_200_223 (idt : gmap Z G) : gmap Z G :=
  let idt := <[200 := gate (Int int_start_200)]> idt in
  let idt := <[201 := gate (Int int_start_201)]> idt in
  let idt := <[202 := gate (Int int_start_202)]> idt in
  let idt := <[203 := gate (Int int_start_203)]> idt in
  let idt := <[204 := gate (Int int_start_204)]> idt in
  let idt := <[205 := gate (Int int_start_205)]> idt in
  let idt := <[206 := gate (Int int_start_206)]> idt in
  let idt := <[207 := gate (Int int_start_207)]> idt in
  let idt := <[208 := gate (Int int_start_208)]> idt in
  let idt := <[209 := gate (Int int_start_209)]> idt in
  let idt := <[210 := gate (Int int_start_210)]> idt in
  let idt := <[211 := gate (Int int_start_211)]> idt in
  let idt := <[212 := gate (Int int_start_212)]> idt in
  let idt := <[213 := gate (Int int_start_213)]> idt in
  let idt := <[214 := gate (Int int_start_214)]> idt in
  let idt := <[215 := gate (Int int_start_215)]> idt in
  let idt := <[216 := gate (Int int_start_216)]> idt in
  let idt := <[217 := gate (Int int_start_217)]> idt in
  let idt := <[218 := gate (Int int_start_218)]> idt in
  let idt := <[219 := gate (Int int_start_219)]> idt in
  let idt := <[220 := gate (Int int_start_220)]> idt in
  let idt := <[221 := gate (Int int_start_221)]> idt in
  let idt := <[222 := gate (Int int_start_222)]> idt in
  let idt := <[223 := gate (Int int_start_223)]> idt in
  idt.

Definition idt_entries_224_247 (idt : gmap Z G) : gmap Z G :=
  let idt := <[224 := gate (Int int_start_224)]> idt in
  let idt := <[225 := gate (Int int_start_225)]> idt in
  let idt := <[226 := gate (Int int_start_226)]> idt in
  let idt := <[227 := gate (Int int_start_227)]> idt in
  let idt := <[228 := gate (Int int_start_228)]> idt in
  let idt := <[229 := gate (Int int_start_229)]> idt in
  let idt := <[230 := gate (Int int_start_230)]> idt in
  let idt := <[231 := gate (Int int_start_231)]> idt in
  let idt := <[232 := gate (Int int_start_232)]> idt in
  let idt := <[233 := gate (Int int_start_233)]> idt in
  let idt := <[234 := gate (Int int_start_234)]> idt in
  let idt := <[235 := gate (Int int_start_235)]> idt in
  let idt := <[236 := gate (Int int_start_236)]> idt in
  let idt := <[237 := gate (Int int_start_237)]> idt in
  let idt := <[238 := gate (Int int_start_238)]> idt in
  let idt := <[239 := gate (Int int_start_239)]> idt in
  let idt := <[240 := gate (Int int_start_240)]> idt in
  let idt := <[241 := gate (Int int_start_241)]> idt in
  let idt := <[242 := gate (Int int_start_242)]> idt in
  let idt := <[243 := gate (Int int_start_243)]> idt in
  let idt := <[244 := gate (Int int_start_244)]> idt in
  let idt := <[245 := gate (Int int_start_245)]> idt in
  let idt := <[246 := gate (Int int_start_246)]> idt in
  let idt := <[247 := gate (Int int_start_247)]> idt in
  idt.

Definition idt_entries_248_255 (idt : gmap Z G) : gmap Z G :=
  let idt := <[248 := gate (Int int_start_248)]> idt in
  let idt := <[249 := gate (Int int_start_249)]> idt in
  let idt := <[250 := gate (Int int_start_250)]> idt in
  let idt := <[251 := gate (Int int_start_251)]> idt in
  let idt := <[252 := gate (Int int_start_252)]> idt in
  let idt := <[253 := gate (Int int_start_253)]> idt in
  let idt := <[254 := gate (Int int_start_254)]> idt in
  let idt := <[255 := gate (Int int_start_255)]> idt in
  idt.

Definition idt_fill (idt : gmap Z G) : gmap Z G :=
  let idt := idt_entries_0_23 idt in
  let idt := idt_entries_24_31 idt in
  let idt := idt_entries_32_55 idt in
  let idt := idt_entries_56_79 idt in
  let idt := idt_entries_80_103 idt in
  let idt := idt_entries_104_127 idt in
  let idt := idt_entries_128_151 idt in
  let idt := idt_entries_152_175 idt in
  let idt := idt_entries_176_199 idt in
  let idt := idt_entries_200_223 idt in
  let idt := idt_entries_224_247 idt in
  let idt := idt_entries_248_255 idt in
  idt.
End idt.

(** ** State and operations *)

Record interrupts (H : Type) : Type := Interrupts {
  idt : gmap Z Gate_Descriptor;
  idtr_size : Z;
  idtr_offset : Z;
  registered_handlers : gmap Z H;
  interrupts_enabled : bool;
}.
Arguments Interrupts {H} _ _ _ _ _.
Arguments idt {H} _.
Arguments idtr_size {H} _.
Arguments idtr_offset {H} _.
Arguments registered_handlers {H} _.
Arguments interrupts_enabled {H} _.

(** A handler runs on the rest of the kernel's state [W]. *)
Definition Registered_Handler (W : Type) : Type := Interrupt_Frame -> W -> res W.
Definition default_registered_handler {W} : Registered_Handler W := fun frame w => Ok w.

Definition HANDLERS : Z := 256 - 32.

Section operations.
Context {W : Type} {M : Type} `{Machine M}.
(** The addresses of the stubs and of the table. *)
Context (stub_addr : stub -> Z) (idt_addr : Z).

Definition handlers_fill (hs : gmap Z (Registered_Handler W)) : gmap Z (Registered_Handler W) :=
  for_up (Z.to_nat HANDLERS) 0 (fun i hs => <[i := default_registered_handler]> hs) hs.

Definition interrupts_init (st : interrupts (Registered_Handler W)) (s : M)
  : interrupts (Registered_Handler W) * M :=
  let s := pic_init s in
  let segment_selector := 0x8 in
  let flags := Z.lor (Z.lor IDT_GATE_INT32 IDT_PRIV_3) IDT_PRESENT in
  let gate := fun f => interrupts_create_descriptor (stub_addr f) segment_selector flags in
  (Interrupts (idt_fill gate (idt st)) (256 * 8 - 1) (w32 idt_addr)
     (handlers_fill (registered_handlers st)) true, s).

(** An index outside [registered_handlers] reads or writes past the array. *)
Definition c_interrupt_dispatch (vector : Z) (frame : Interrupt_Frame)
    (st : interrupts (Registered_Handler W)) (w : W) : res W :=
  match registered_handlers st !! (vector - 32) with
  | Some handler => handler frame w
  | None => Err OutOfBounds
  end.

Definition interrupts_register_handler (vector : Z) (handler : Registered_Handler W)
    (st : interrupts (Registered_Handler W)) : res (interrupts (Registered_Handler W)) :=
  _ ← guard_bounds ((0 <=? vector - 32) && (vector - 32 <? HANDLERS));
  Ok (Interrupts (idt st) (idtr_size st) (idtr_offset st)
    (<[vector - 32 := handler]> (registered_handlers st)) (interrupts_enabled st)).
End operations.

(** ** The processor's view *)

(** The address a gate jumps to, its privilege level, its type and whether it
    is present, as the processor reads them. *)
Definition gate_offset (g : Gate_Descriptor) : Z := offset_low g + 65536 * offset_high g.
Definition gate_type (g : Gate_Descriptor) : Z := flags g mod 32.
Definition gate_dpl (g : Gate_Descriptor) : Z := flags g / 32 mod 4.
Definition gate_present (g : Gate_Descriptor) : bool := Z.testbit (flags g) 7.

(** The vector a stub pushes for its handler. *)

Definition exc_vector (e : exc_stub) : Z :=
  match e with
  | exc_start_0 => 0 | exc_start_1 => 1 | exc_start_2 => 2 | exc_start_3 => 3
  | exc_start_4 => 4 | exc_start_5 => 5 | exc_start_6 => 6 | exc_start_7 => 7
  | exc_start_8 => 8 | exc_start_9 => 9 | exc_start_10 => 10 | exc_start_11 => 11
  | exc_start_12 => 12 | exc_start_13 => 13 | exc_start_14 => 14 | exc_start_15 => 15
  | exc_start_16 => 16 | exc_start_17 => 17 | exc_start_18 => 18 | exc_start_19 => 19
  | exc_start_20 => 20 | exc_start_21 => 21 | exc_start_22 => 22 | exc_start_23 => 23
  | exc_start_24 => 24 | exc_start_25 => 25 | exc_start_26 => 26 | exc_start_27 => 27
  | exc_start_28 => 28 | exc_start_29 => 29 | exc_start_30 => 30 | exc_start_31 => 31
  end.
Definition int_vector (i : int_stub) : Z :=
  match i with
  | int_start_32 => 32 | int_start_33 => 33 | int_start_34 => 34 | int_start_35 => 35
  | int_start_36 => 36 | int_start_37 => 37 | int_start_38 => 38 | int_start_39 => 39
  | int_start_40 => 40 | int_start_41 => 41 | int_start_42 => 42 | int_start_43 => 43
  | int_start_44 => 44 | int_start_45 => 45 | int_start_46 => 46 | int_start_47 => 47
  | int_start_48 => 48 | int_start_49 => 49 | int_start_50 => 50 | int_start_51 => 51
  | int_start_52 => 52 | int_start_53 => 53 | int_start_54 => 54 | int_start_55 => 55
  | int_start_56 => 56 | int_start_57 => 57 | int_start_58 => 58 | int_start_59 => 59
  | int_start_60 => 60 | int_start_61 => 61 | int_start_62 => 62 | int_start_63 => 63
  | int_start_64 => 64 | int_start_65 => 65 | int_start_66 => 66 | int_start_67 => 67
  | int_start_68 => 68 | int_start_69 => 69 | int_start_70 => 70 | int_start_71 => 71
  | int_start_72 => 72 | int_start_73 => 73 | int_start_74 => 74 | int_start_75 => 75
  | int_start_76 => 76 | int_start_77 => 77 | int_start_78 => 78 | int_start_79 => 79
  | int_start_80 => 80 | int_start_81 => 81 | int_start_82 => 82 | int_start_83 => 83
  | int_start_84 => 84 | int_start_85 => 85 | int_start_86 => 86 | int_start_87 => 87
  | int_start_88 => 88 | int_start_89 => 89 | int_start_90 => 90 | int_start_91 => 91
  | int_start_92 => 92 | int_start_93 => 93 | int_start_94 => 94 | int_start_95 => 95
  | int_start_96 => 96 | int_start_97 => 97 | int_start_98 => 98 | int_start_99 => 99
  | int_start_100 => 100 | int_start_101 => 101 | int_start_102 => 102
  | int_start_103 => 103 | int_start_104 => 104 | int_start_105 => 105
  | int_start_106 => 106 | int_start_107 => 107 | int_start_108 => 108
  | int_start_109 => 109 | int_start_110 => 110 | int_start_111 => 111
  | int_start_112 => 112 | int_start_113 => 113 | int_start_114 => 114
  | int_start_115 => 115 | int_start_116 => 116 | int_start_117 => 117
  | int_start_118 => 118 | int_start_119 => 119 | int_start_120 => 120
  | int_start_121 => 121 | int_start_122 => 122 | int_start_123 => 123
  | int_start_124 => 124 | int_start_125 => 125 | int_start_126 => 126
  | int_start_127 => 127 | int_start_128 => 128 | int_start_129 => 129
  | int_start_130 => 130 | int_start_131 => 131 | int_start_132 => 132
  | int_start_133 => 133 | int_start_134 => 134 | int_start_135 => 135
  | int_start_136 => 136 | int_start_137 => 137 | int_start_138 => 138
  | int_start_139 => 139 | int_start_140 => 140 | int_start_141 => 141
  | int_start_142 => 142 | int_start_143 => 143 | int_start_144 => 144
  | int_start_145 => 145 | int_start_146 => 146 | int_start_147 => 147
  | int_start_148 => 148 | int_start_149 => 149 | int_start_150 => 150
  | int_start_151 => 151 | int_start_152 => 152 | int_start_153 => 153
  | int_start_154 => 154 | int_start_155 => 155 | int_start_156 => 156
  | int_start_157 => 157 | int_start_158 => 158 | int_start_159 => 159
  | int_start_160 => 160 | int_start_161 => 161 | int_start_162 => 162
  | int_start_163 => 163 | int_start_164 => 164 | int_start_165 => 165
  | int_start_166 => 166 | int_start_167 => 167 | int_start_168 => 168
  | int_start_169 => 169 | int_start_170 => 170 | int_start_171 => 171
  | int_start_172 => 172 | int_start_173 => 173 | int_start_174 => 174
  | int_start_175 => 175 | int_start_176 => 176 | int_start_177 => 177
  | int_start_178 => 178 | int_start_179 => 179 | int_start_180 => 180
  | int_start_181 => 181 | int_start_182 => 182 | int_start_183 => 183
  | int_start_184 => 184 | int_start_185 => 185 | int_start_186 => 186
  | int_start_187 => 187 | int_start_188 => 188 | int_start_189 => 189
  | int_start_190 => 190 | int_start_191 => 191 | int_start_192 => 192
  | int_start_193 => 193 | int_start_194 => 194 | int_start_195 => 195
  | int_start_196 => 196 | int_start_197 => 197 | int_start_198 => 198
  | int_start_199 => 199 | int_start_200 => 200 | int_start_201 => 201
  | int_start_202 => 202 | int_start_203 => 203 | int_start_204 => 204
  | int_start_205 => 205 | int_start_206 => 206 | int_start_207 => 207
  | int_start_208 => 208 | int_start_209 => 209 | int_start_210 => 210
  | int_start_211 => 211 | int_start_212 => 212 | int_start_213 => 213
  | int_start_214 => 214 | int_start_215 => 215 | int_start_216 => 216
  | int_start_217 => 217 | int_start_218 => 218 | int_start_219 => 219
  | int_start_220 => 220 | int_start_221 => 221 | int_start_222 => 222
  | int_start_223 => 223 | int_start_224 => 224 | int_start_225 => 225
  | int_start_226 => 226 | int_start_227 => 227 | int_start_228 => 228
  | int_start_229 => 229 | int_start_230 => 230 | int_start_231 => 231
  | int_start_232 => 232 | int_start_233 => 233 | int_start_234 => 234
  | int_start_235 => 235 | int_start_236 => 236 | int_start_237 => 237
  | int_start_238 => 238 | int_start_239 => 239 | int_start_240 => 240
  | int_start_241 => 241 | int_start_242 => 242 | int_start_243 => 243
  | int_start_244 => 244 | int_start_245 => 245 | int_start_246 => 246
  | int_start_247 => 247 | int_start_248 => 248 | int_start_249 => 249
  | int_start_250 => 250 | int_start_251 => 251 | int_start_252 => 252
  | int_start_253 => 253 | int_start_254 => 254 | int_start_255 => 255
  end.
Definition stub_vector (s : stub) : Z :=
  match s with Exc e => exc_vector e | Int i => int_vector i end.

Definition all_stubs : list stub := (* in the order of the declarations *)
  [Exc exc_start_0; Exc exc_start_1; Exc exc_start_2; Exc exc_start_3; Exc exc_start_4;
   Exc exc_start_5; Exc exc_start_6; Exc exc_start_7; Exc exc_start_8; Exc exc_start_9;
   Exc exc_start_10; Exc exc_start_11; Exc exc_start_12; Exc exc_start_13;
   Exc exc_start_14; Exc exc_start_15; Exc exc_start_16; Exc exc_start_17;
   Exc exc_start_18; Exc exc_start_19; Exc exc_start_20; Exc exc_start_21;
   Exc exc_start_22; Exc exc_start_23; Exc exc_start_24; Exc exc_start_25;
   Exc exc_start_26; Exc exc_start_27; Exc exc_start_28; Exc exc_start_29;
   Exc exc_start_30; Exc exc_start_31; Int int_start_32; Int int_start_33;
   Int int_start_34; Int int_start_35; Int int_start_36; Int int_start_37;
   Int int_start_38; Int int_start_39; Int int_start_40; Int int_start_41;
   Int int_start_42; Int int_start_43; Int int_start_44; Int int_start_45;
   Int int_start_46; Int int_start_47; Int int_start_48; Int int_start_49;
   Int int_start_50; Int int_start_51; Int int_start_52; Int int_start_53;
   Int int_start_54; Int int_start_55; Int int_start_56; Int int_start_57;
   Int int_start_58; Int int_start_59; Int int_start_60; Int int_start_61;
   Int int_start_62; Int int_start_63; Int int_start_64; Int int_start_65;
   Int int_start_66; Int int_start_67; Int int_start_68; Int int_start_69;
   Int int_start_70; Int int_start_71; Int int_start_72; Int int_start_73;
   Int int_start_74; Int int_start_75; Int int_start_76; Int int_start_77;
   Int int_start_78; Int int_start_79; Int int_start_80; Int int_start_81;
   Int int_start_82; Int int_start_83; Int int_start_84; Int int_start_85;
   Int int_start_86; Int int_start_87; Int int_start_88; Int int_start_89;
   Int int_start_90; Int int_start_91; Int int_start_92; Int int_start_93;
   Int int_start_94; Int int_start_95; Int int_start_96; Int int_start_97;
   Int int_start_98; Int int_start_99; Int int_start_100; Int int_start_101;
   Int int_start_102; Int int_start_103; Int int_start_104; Int int_start_105;
   Int int_start_106; Int int_start_107; Int int_start_108; Int int_start_109;
   Int int_start_110; Int int_start_111; Int int_start_112; Int int_start_113;
   Int int_start_114; Int int_start_115; Int int_start_116; Int int_start_117;
   Int int_start_118; Int int_start_119; Int int_start_120; Int int_start_121;
   Int int_start_122; Int int_start_123; Int int_start_124; Int int_start_125;
   Int int_start_126; Int int_start_127; Int int_start_128; Int int_start_129;
   Int int_start_130; Int int_start_131; Int int_start_132; Int int_start_133;
   Int int_start_134; Int int_start_135; Int int_start_136; Int int_start_137;
   Int int_start_138; Int int_start_139; Int int_start_140; Int int_start_141;
   Int int_start_142; Int int_start_143; Int int_start_144; Int int_start_145;
   Int int_start_146; Int int_start_147; Int int_start_148; Int int_start_149;
   Int int_start_150; Int int_start_151; Int int_start_152; Int int_start_153;
   Int int_start_154; Int int_start_155; Int int_start_156; Int int_start_157;
   Int int_start_158; Int int_start_159; Int int_start_160; Int int_start_161;
   Int int_start_162; Int int_start_163; Int int_start_164; Int int_start_165;
   Int int_start_166; Int int_start_167; Int int_start_168; Int int_start_169;
   Int int_start_170; Int int_start_171; Int int_start_172; Int int_start_173;
   Int int_start_174; Int int_start_175; Int int_start_176; Int int_start_177;
   Int int_start_178; Int int_start_179; Int int_start_180; Int int_start_181;
   Int int_start_182; Int int_start_183; Int int_start_184; Int int_start_185;
   Int int_start_186; Int int_start_187; Int int_start_188; Int int_start_189;
   Int int_start_190; Int int_start_191; Int int_start_192; Int int_start_193;
   Int int_start_194; Int int_start_195; Int int_start_196; Int int_start_197;
   Int int_start_198; Int int_start_199; Int int_start_200; Int int_start_201;
   Int int_start_202; Int int_start_203; Int int_start_204; Int int_start_205;
   Int int_start_206; Int int_start_207; Int int_start_208; Int int_start_209;
   Int int_start_210; Int int_start_211; Int int_start_212; Int int_start_213;
   Int int_start_214; Int int_start_215; Int int_start_216; Int int_start_217;
   Int int_start_218; Int int_start_219; Int int_start_220; Int int_start_221;
   Int int_start_222; Int int_start_223; Int int_start_224; Int int_start_225;
   Int int_start_226; Int int_start_227; Int int_start_228; Int int_start_229;
   Int int_start_230; Int int_start_231; Int int_start_232; Int int_start_233;
   Int int_start_234; Int int_start_235; Int int_start_236; Int int_start_237;
   Int int_start_238; Int int_start_239; Int int_start_240; Int int_start_241;
   Int int_start_242; Int int_start_243; Int int_start_244; Int int_start_245;
   Int int_start_246; Int int_start_247; Int int_start_248; Int int_start_249;
   Int int_start_250; Int int_start_251; Int int_start_252; Int int_start_253;
   Int int_start_254; Int int_start_255].

(** Entries written one after the other from index [i] on. *)
Fixpoint fill_from {A} (i : Z) (l : list A) (t : gmap Z A) : gmap Z A :=
  match l with [] => t | x :: l => fill_from (i + 1) l (<[i := x]> t) end.

Lemma fill_from_lookup {A} (l : list A) : forall i (t : gmap Z A) v,
  fill_from i l t !! v =
    if (i <=? v) && (v <? i + Z.of_nat (length l)) then l !! Z.to_nat (v - i) else t !! v.
Proof.
  induction l as [|x l IH]; intros i t v; cbn [fill_from length].
  - destruct (Z.leb_spec i v), (Z.ltb_spec v (i + Z.of_nat 0)); (done || lia).
  - rewrite IH. destruct (Z.leb_spec i v), (Z.leb_spec (i + 1) v),
      (Z.ltb_spec v (i + 1 + Z.of_nat (length l))), (Z.ltb_spec v (i + Z.of_nat (S (length l))));
      try lia; cbn [andb].
    all: first [ by rewrite lookup_insert_ne by lia
      | by replace (Z.to_nat (v - i)) with (S (Z.to_nat (v - (i + 1)))) by lia
      | assert (v = i) as -> by lia; by rewrite lookup_insert_eq, Z.sub_diag ].
Qed.

(** The table is filled with the gates of the 256 stubs in order. *)
Lemma idt_fill_list {G} (gate : stub -> G) t : idt_fill gate t = fill_from 0 (map gate all_stubs) t.
Proof. reflexivity. Qed.

Lemma all_stubs_vector v s : all_stubs !! v = Some s -> stub_vector s = Z.of_nat v.
Proof.
  assert (forall l i, map stub_vector l = seqZ i (Z.of_nat (length l)) ->
    forall v s, l !! v = Some s -> stub_vector s = i + Z.of_nat v) as H.
  { intros l i Hl v' s' Hv. apply (list_lookup_fmap_Some_2 stub_vector) in Hv.
    change (stub_vector <$> l) with (map stub_vector l) in Hv. rewrite Hl in Hv.
    by apply lookup_seqZ in Hv as [-> _]. }
  intros Hv. apply (H all_stubs 0); [|done]. vm_compute. reflexivity.
Qed.

Lemma idt_entry {G} (gate : stub -> G) t v : 0 <= v < 256 ->
  exists s, stub_vector s = v /\ idt_fill gate t !! v = Some (gate s).
Proof.
  intros Hv. rewrite idt_fill_list, fill_from_lookup, length_map.
  change (Z.of_nat (length all_stubs)) with 256.
  destruct (Z.leb_spec 0 v), (Z.ltb_spec v (0 + 256)); try lia. cbn [andb].
  destruct (lookup_lt_is_Some_2 all_stubs (Z.to_nat (v - 0))) as [s Hs].
  { change (length all_stubs) with 256%nat. lia. }
  exists s. split; [rewrite (all_stubs_vector _ _ Hs); lia|].
  change (map gate all_stubs) with (gate <$> all_stubs). by rewrite list_lookup_fmap, Hs.
Qed.

Lemma handlers_fill_lookup {W} (hs : gmap Z (Registered_Handler W)) v :
  handlers_fill hs !! v =
    if (0 <=? v) && (v <? 224) then Some default_registered_handler else hs !! v.
Proof.
  unfold handlers_fill, HANDLERS.
  pose proof (for_up_ind (fun i (t : gmap Z (Registered_Handler W)) => 0 <= i /\ forall v,
      t !! v = if (0 <=? v) && (v <? i) then Some default_registered_handler else hs !! v)
    (fun i hs => <[i := default_registered_handler]> hs) (Z.to_nat (256 - 32)) 0 hs) as H.
  destruct H as [_ H]; [| |apply H].
  - split; [lia|]. intros k. destruct (Z.leb_spec 0 k), (Z.ltb_spec k 0); (done || lia).
  - intros k t Hk [Hk0 Ht]. split; [lia|]. intros j. destruct (Z.eq_dec k j) as [-> |Hne].
    + rewrite lookup_insert_eq. destruct (Z.leb_spec 0 j), (Z.ltb_spec j (j + 1)); (done || lia).
    + rewrite lookup_insert_ne, Ht by done.
      destruct (Z.leb_spec 0 j), (Z.ltb_spec j k), (Z.ltb_spec j (k + 1)); (done || lia).
Qed.

Lemma descriptor_offset o s f : is_u32 o -> gate_offset (interrupts_create_descriptor o s f) = o.
Proof.
  intros Ho. unfold gate_offset, interrupts_create_descriptor. cbn [offset_low offset_high].
  change 65535 with (2 ^ 16 - 1). rewrite !land_ones_mod, Z.shiftr_div_pow2 by lia.
  change (2 ^ 16) with 65536. zmod.
Qed.

(** ** Properties *)

(** C37: After [interrupts_init] each of the 256 vectors has a gate to the stub
    that pushes that vector: an interrupt gate of 32 bits, present, that user
    code may call, whose code segment is entry 1 of the descriptor table, which
    is the present, executable, flat one of privilege 0. The table register
    covers exactly the 256 gates, every driver vector has the default handler,
    and interrupts are on. *)
Theorem interrupts_init_installs {W M} `{HM : Machine M} stub_addr idt_addr
    (st : interrupts (Registered_Handler W)) (s : M) :
  (forall f, is_u32 (stub_addr f)) ->
  let '(st', s') := interrupts_init stub_addr idt_addr st s in
  s' = pic_init s /\ idtr_size st' = 256 * 8 - 1 /\ interrupts_enabled st' = true /\
  (forall v, 0 <= v < 256 -> exists f g, stub_vector f = v /\ idt st' !! v = Some g /\
     gate_offset g = stub_addr f /\ gate_type g = IDT_GATE_INT32 /\ gate_dpl g = 3 /\
     gate_present g = true /\
     exists d, gdt_init !! Z.to_nat (segment_selector g / 8) = Some d /\
       segment_selector g mod 8 = 0 /\ seg_present d = true /\ seg_executable d = true /\
       seg_dpl d = 0 /\ seg_base d = 0) /\
  (forall v, 32 <= v < 256 ->
     registered_handlers st' !! (v - 32) = Some default_registered_handler).
Proof.
  intros Haddr. unfold interrupts_init. cbv zeta.
  cbn [idt idtr_size interrupts_enabled registered_handlers].
  split_and!; [done|done|done| |].
  - intros v Hv.
    destruct (idt_entry (fun f => interrupts_create_descriptor (stub_addr f) 0x8
      (Z.lor (Z.lor IDT_GATE_INT32 IDT_PRIV_3) IDT_PRESENT)) (idt st) v Hv) as (f & Hf & ->).
    exists f. eexists. split; [done|]. split; [done|].
    rewrite descriptor_offset by done. split_and!; [done..|].
    exists (nth 1 gdt_init (gdt_create_descriptor 0 0 0 0)). split_and!; reflexivity.
  - intros v Hv. rewrite handlers_fill_lookup.
    destruct (Z.leb_spec 0 (v - 32)), (Z.ltb_spec (v - 32) 224); (done || lia).
Qed.

(** A gate gives back, as the processor reads it, the address, the selector
    and the attributes it was made from. *)
Theorem gate_fields o selector fl : is_u32 o ->
  let g := interrupts_create_descriptor o selector fl in
  gate_offset g = o /\ segment_selector g = selector /\ flags g = fl /\ reserved g = 0.
Proof. intros Ho. cbv zeta. rewrite descriptor_offset by done. done. Qed.

(** Once a driver has registered a handler for a vector from 32 to 255, that
    vector dispatches to it and every other vector to what it did before; a
    vector outside that range is written outside the array. *)
Theorem register_then_dispatch {W} vector (handler : Registered_Handler W) st :
  if (32 <=? vector) && (vector <? 256) then
    exists st', interrupts_register_handler vector handler st = Ok st' /\
      (forall frame w, c_interrupt_dispatch vector frame st' w = handler frame w) /\
      (forall v frame w, v <> vector ->
         c_interrupt_dispatch v frame st' w = c_interrupt_dispatch v frame st w) /\
      idt st' = idt st
  else interrupts_register_handler vector handler st = Err OutOfBounds.
Proof.
  unfold interrupts_register_handler, HANDLERS.
  destruct (Z.leb_spec 32 vector), (Z.ltb_spec vector 256); cbn [andb].
  - destruct (Z.leb_spec 0 (vector - 32)), (Z.ltb_spec (vector - 32) (256 - 32)); try lia.
    cbn [andb]. res_step. eexists; split; [done|].
    unfold c_interrupt_dispatch. cbn [registered_handlers idt]. split_and!; [| |done].
    + intros frame w. by rewrite lookup_insert_eq.
    + intros v frame w Hne. by rewrite lookup_insert_ne by lia.
  - destruct (Z.ltb_spec (vector - 32) (256 - 32)); [lia|]. by rewrite andb_false_r.
  - destruct (Z.leb_spec 0 (vector - 32)); [lia|]. done.
  - lia.
Qed.

(** ** Witnesses *)

Definition no_interrupts : interrupts (Registered_Handler Z) := Interrupts ∅ 0 0 ∅ false.

Lemma interrupts_init_installs_witness :
  let '(st, s) := interrupts_init (fun f => 3221225472 + 16 * stub_vector f) 0
    no_interrupts (Recorder [] []) in
  s = pic_init (Recorder [] []) /\
  exists g, idt st !! 33 = Some g /\ gate_offset g = 3221226000.
Proof.
  pose proof (interrupts_init_installs (fun f => 3221225472 + 16 * stub_vector f) 0
    no_interrupts (Recorder [] [])) as H.
  destruct (interrupts_init _ _ _ _) as [st s].
  destruct H as (Hs & _ & _ & Hg & _).
  - intros [[]|[]]; split; vm_compute; congruence.
  - split; [exact Hs|]. destruct (Hg 33) as (f & g & Hf & Hl & Ho & _); [lia|].
    exists g. split; [exact Hl|]. rewrite Ho, Hf. reflexivity.
Defined.

Lemma gate_fields_witness :
  let g := interrupts_create_descriptor 0xC0101234 8 0xEE in
  gate_offset g = 0xC0101234 /\ segment_selector g = 8 /\ flags g = 0xEE /\ reserved g = 0.
Proof. apply (gate_fields 0xC0101234 8 0xEE). unfold is_u32. lia. Defined.
