(* ===== verification/Console.v ===== *)
(** * The console: [put_char] of src/src/std/io.c and what the kernel prints
      when it stops (src/src/kernel/kernel.c, src/src/arch/x86/interrupts.c)

    Every character goes to the terminal and to the serial line. The state is
    the terminal and the machine behind the ports; with the laws of a serial
    line it is a sink of characters, so that what Format.v shows of [fmt_print]
    holds of the kernel's own output. *)
From S2P Require Import Prelude Memory Terminal Format Ports Interrupts.

#[local] Open Scope Z_scope.

(** ** [put_char] *)

Record console (M : Type) : Type := Console {
  c_screen : terminal;
  c_ports : M;
}.
Arguments Console {M}.
Arguments c_screen {M}.
Arguments c_ports {M}.

(** The fuel for the polling loop of [serial_write]. *)
Class PollFuel : Type := poll_fuel : nat.

#[export] Instance console_machine {M : Type} `{Machine M} : Machine (console M) := {
  mach_out w p d s := Console (c_screen s) (mach_out w p d (c_ports s));
  mach_in w p s := let '(v, m) := mach_in w p (c_ports s) in (v, Console (c_screen s) m);
}.

Definition console_put_char {M : Type} `{Machine M} `{PollFuel} (c : Z) (s : console M) : res (console M) :=
  t ← terminal_put_char c (c_screen s);
  m ← serial_write poll_fuel c (c_ports s);
  Ok (Console t m).

#[export] Instance console_sink {M : Type} `{Machine M} `{PollFuel} : Sink (console M) :=
  console_put_char.

(** ** Stopping *)

Section stopping.
Context {M : Type} `{Machine M} `{PollFuel}.

(** [assert] of kernel.c: it returns, or prints and halts; the result says
    which, with the state then. Strings are addresses in the memory [m], in
    which the compiler has put the format, too. *)
Definition kernel_assert (fuel : nat) (m : mem) (format file line func : Z) (condition : bool)
    (message : Z) (s : console M) : res (bool * console M) :=
  if condition then Ok (true, s) else
  s ← fmt_print_lit fuel (text "ASSERTION FAILED" ++ [10]) [] s;
  s ← fmt_print fuel m format [file; func; w32 line; message] s;
  Ok (false, s).

Definition keyboard_handler (fuel : nat) (frame : Interrupt_Frame) (s : console M) : res (console M) :=
  fmt_print_lit fuel (text "Key press!") [] s.

(** The state in which the handler halts. *)
Definition c_exception_handler (fuel : nat) (vector : Z) (frame : Interrupt_Frame) (s : console M)
  : res (console M) :=
  s ← fmt_print_lit fuel (text "Got exception %d!" ++ [10]) [w32 vector] s;
  s ← fmt_print_lit fuel (text "  edi: %x" ++ [10]) [frame_edi frame] s;
  s ← fmt_print_lit fuel (text "  esi: %x" ++ [10]) [frame_esi frame] s;
  s ← fmt_print_lit fuel (text "  ebp: %x" ++ [10]) [frame_ebp frame] s;
  s ← fmt_print_lit fuel (text "  ebx: %x" ++ [10]) [frame_ebx frame] s;
  s ← fmt_print_lit fuel (text "  edx: %x" ++ [10]) [frame_edx frame] s;
  s ← fmt_print_lit fuel (text "  ecx: %x" ++ [10]) [frame_ecx frame] s;
  s ← fmt_print_lit fuel (text "  eax: %x" ++ [10]) [frame_eax frame] s;
  s ← fmt_print_lit fuel (text "  error_code: %hx" ++ [10]) [frame_error_code frame] s;
  s ← fmt_print_lit fuel (text "  eip: %x" ++ [10]) [frame_eip frame] s;
  s ← fmt_print_lit fuel (text "  cs: %hx" ++ [10]) [frame_cs frame] s;
  s ← fmt_print_lit fuel (text "  eflags: %x" ++ [10]) [frame_eflags frame] s;
  s ← fmt_print_lit fuel (text "  esp: %x" ++ [10]) [frame_esp frame] s;
  fmt_print_lit fuel (text "  ss: %hx" ++ [10]) [frame_ss frame] s.
End stopping.

(** ** The console is a sink *)

Definition paper_print (l : list Z) (p : paper) : paper := foldl (fun p c => paper_put_char c p) p l.

Lemma paper_print_app l l' p : paper_print (l ++ l') p = paper_print l' (paper_print l p).
Proof. apply foldl_app. Qed.

(** The terminal looks at the low byte of a character only. *)
Lemma paper_put_char_w8 c p : paper_put_char (w8 c) p = paper_put_char c p.
Proof.
  unfold paper_put_char, vga_entry. by rewrite (w8_id (w8 c)) by apply w8_range.
Qed.

Section sink.
Context {M : Type} `{HM : Machine M} `{SL : !SerialLine M} `{PF : PollFuel}.
Context (Hfuel : (ser_bound < poll_fuel)%nat).

(** Since the line had sent [sent] and the screen shown [p], both have got the
    same characters. *)
Definition in_step (sent : list Z) (p : paper) (s : console M) : Prop :=
  ser_ok (c_ports s) /\ exists l, ser_sent (c_ports s) = sent ++ l /\ shows (c_screen s) (paper_print l p).

Lemma console_put_char_step sent p c s : in_step sent p s ->
  exists s', console_put_char c s = Ok s' /\ in_step sent p s' /\
    ser_sent (c_ports s') = ser_sent (c_ports s) ++ [w8 c].
Proof.
  intros [Hs (l & Hl & Hp)]. destruct (put_char_shows c _ _ Hp) as (t' & Ht & Hp').
  destruct (serial_write_sends poll_fuel c (c_ports s) Hs Hfuel) as (m' & Hm & Hs' & Hl').
  exists (Console t' m'). unfold console_put_char. rewrite Ht, bind_Ok_r, Hm, bind_Ok_r.
  split; [done|]. split; [|done]. split; [done|]. exists (l ++ [w8 c]). cbn [c_screen c_ports].
  rewrite Hl', Hl, paper_print_app, app_assoc. split; [done|]. cbn. by rewrite paper_put_char_w8.
Qed.

Program Definition console_sink_ok (sent : list Z) (p : paper) : SinkOk (console M) := {|
  sink_ok := in_step sent p;
  sink_out s := ser_sent (c_ports s);
|}.
Next Obligation. intros sent p c s. apply console_put_char_step. Qed.

(** A printing function that prints these items. *)
Definition prints_items (f : console M -> res (console M)) (items : list item) : Prop :=
  forall sent p s, in_step sent p s -> exists css s', f s = Ok s' /\ Forall2 item_text items css /\
    in_step sent p s' /\ ser_sent (c_ports s') = ser_sent (c_ports s) ++ concat css.

Lemma prints_items_bind f g items items' : prints_items f items -> prints_items g items' ->
  prints_items (fun s => s ← f s; g s) (items ++ items').
Proof.
  intros Hf Hg sent p s Hs. destruct (Hf sent p s Hs) as (css & s1 & H1 & Hc & Hs1 & Ho1).
  destruct (Hg sent p s1 Hs1) as (css' & s2 & H2 & Hc' & Hs2 & Ho2).
  exists (css ++ css'), s2. rewrite H1, bind_Ok_r. split; [done|]. split; [by apply Forall2_app|].
  split; [done|]. by rewrite Ho2, Ho1, concat_app, app_assoc.
Qed.

Lemma prints_literal fuel fmt args items :
  fmt = concat (map item_format items) -> args = concat (map item_args items) ->
  Forall (fun c => 0 < c < 256) fmt -> Forall (item_ok fuel ∅) items ->
  Forall (fun it => if it is IStr _ _ then False else True) items -> (length items < fuel)%nat ->
  prints_items (fmt_print_lit fuel fmt args) items.
Proof.
  intros -> -> Hb Hok Hn Hf sent p s Hs.
  by apply (fmt_print_lit_ok (SKO := console_sink_ok sent p) fuel items s).
Qed.
End sink.

(** ** The report of an exception *)

Definition lits (s : string) : list item := map Lit (text s).
Definition register_line (name : string) (lm : Fmt_Print_Length_Modifier) (v : Z) : list item :=
  lits "  " ++ lits name ++ lits ": " ++ [IHex lm v; Lit 10].

Lemma lits_ok fuel m s : Forall (fun c => 0 < c < 256 /\ c <> 37) (text s) -> Forall (item_ok fuel m) (lits s).
Proof. intros Hs. apply Forall_fmap. exact Hs. Qed.
Lemma lits_plain s : Forall (fun it => if it is IStr _ _ then False else True) (lits s).
Proof. apply Forall_fmap, Forall_true. done. Qed.

(** The lines that [c_exception_handler] prints. *)
Definition exception_report (vector : Z) (frame : Interrupt_Frame) : list item :=
  (lits "Got exception " ++ [IInt vector] ++ lits "!" ++ [Lit 10]) ++
  register_line "edi" FMT_PRINT_LM_NONE (frame_edi frame) ++
  register_line "esi" FMT_PRINT_LM_NONE (frame_esi frame) ++
  register_line "ebp" FMT_PRINT_LM_NONE (frame_ebp frame) ++
  register_line "ebx" FMT_PRINT_LM_NONE (frame_ebx frame) ++
  register_line "edx" FMT_PRINT_LM_NONE (frame_edx frame) ++
  register_line "ecx" FMT_PRINT_LM_NONE (frame_ecx frame) ++
  register_line "eax" FMT_PRINT_LM_NONE (frame_eax frame) ++
  register_line "error_code" FMT_PRINT_LM_H (frame_error_code frame) ++
  register_line "eip" FMT_PRINT_LM_NONE (frame_eip frame) ++
  register_line "cs" FMT_PRINT_LM_H (frame_cs frame) ++
  register_line "eflags" FMT_PRINT_LM_NONE (frame_eflags frame) ++
  register_line "esp" FMT_PRINT_LM_NONE (frame_esp frame) ++
  register_line "ss" FMT_PRINT_LM_H (frame_ss frame).

(** The fields hold words of their width. *)
Definition frame_ok (f : Interrupt_Frame) : Prop :=
  Forall is_u32 [frame_edi f; frame_esi f; frame_ebp f; frame_ebx f; frame_edx f; frame_ecx f;
    frame_eax f; frame_eip f; frame_eflags f; frame_esp f] /\
  Forall is_u16 [frame_error_code f; frame_cs f; frame_ss f].

Section report.
Context {M : Type} `{HM : Machine M} `{SL : !SerialLine M} `{PF : PollFuel}.
Context (Hfuel : (ser_bound < poll_fuel)%nat).

Lemma prints_register fuel name lm v fmt : fmt = concat (map item_format (register_line name lm v)) ->
  Forall (fun c => 0 < c < 256) fmt -> Forall (fun c => 0 < c < 256 /\ c <> 37) (text name) ->
  is_u32 v -> lm = FMT_PRINT_LM_NONE \/ lm = FMT_PRINT_LM_H -> (length (text name) + 6 < fuel)%nat ->
  prints_items (fmt_print_lit fuel fmt [v]) (register_line name lm v).
Proof.
  intros Hfmt Hb Hname Hv Hlm Hf.
  apply (prints_literal Hfuel); [done| |done| | |].
  - unfold register_line. rewrite !map_app, !concat_app. unfold lits. rewrite !lits_args. by destruct Hlm as [-> | ->].
  - assert (Forall (item_ok fuel ∅) [IHex lm v; Lit 10]).
    { constructor; [|by repeat constructor]. cbn. unfold is_u32 in Hv. destruct Hlm as [-> | ->]; cbn; lia. }
    unfold register_line. repeat apply Forall_app_2; try apply lits_ok; done || by apply (bool_decide_unpack _).
  - unfold register_line. repeat apply Forall_app_2; try apply lits_plain. by repeat constructor.
  - unfold register_line, lits. rewrite !length_app, !length_map. cbn. lia.
Qed.

Lemma exception_prints fuel vector frame : -2147483648 < vector < 2147483648 -> frame_ok frame ->
  (20 < fuel)%nat -> prints_items (c_exception_handler fuel vector frame) (exception_report vector frame).
Proof.
  intros Hv [H32 H16] Hf. unfold frame_ok in *. rewrite !Forall_cons_iff in H32. rewrite !Forall_cons_iff in H16.
  destruct H32 as (?&?&?&?&?&?&?&?&?&?&_), H16 as (?&?&?&_).
  assert (forall x, is_u16 x -> is_u32 x) as Hw by (unfold is_u16, is_u32; intros; lia).
  unfold c_exception_handler, exception_report.
  apply (prints_items_bind (fmt_print_lit fuel (text "Got exception %d!" ++ [10]) [w32 vector])).
  { apply (prints_literal Hfuel); [done|done|by apply (bool_decide_unpack _)| | |cbn; lia].
    - repeat constructor; (done || (cbn; lia)).
    - repeat constructor. }
  repeat (apply prints_items_bind; [apply prints_register; [reflexivity|by apply (bool_decide_unpack _)
    |by apply (bool_decide_unpack _)|auto|auto|cbn; lia]|]).
  apply prints_register; [reflexivity|by apply (bool_decide_unpack _)
    |by apply (bool_decide_unpack _)|auto|auto|cbn; lia].
Qed.
End report.

(** C25: what the kernel prints with [fmt_print] goes to both devices: the serial
    line has sent exactly the text the format denotes, and the screen shows the
    sheet of paper with the same text added. *)
Theorem console_prints {M : Type} `{HM : Machine M} `{SL : !SerialLine M} `{PF : PollFuel}
    fuel m fmt items p (s : console M) :
  (ser_bound < poll_fuel)%nat -> ser_ok (c_ports s) -> shows (c_screen s) p ->
  cstring m fmt (concat (map item_format items)) -> Forall (item_ok fuel m) items ->
  (length items < fuel)%nat ->
  exists css s', fmt_print fuel m fmt (concat (map item_args items)) s = Ok s' /\
    Forall2 item_text items css /\ ser_ok (c_ports s') /\
    ser_sent (c_ports s') = ser_sent (c_ports s) ++ concat css /\
    shows (c_screen s') (paper_print (concat css) p).
Proof.
  intros Hpf Hs Hp Hc Hok Hf. set (sent := ser_sent (c_ports s)).
  assert (in_step sent p s) as Hin by (split; [done|]; exists []; by rewrite app_nil_r).
  destruct (fmt_print_ok (SKO := console_sink_ok Hpf sent p) fuel m fmt items s Hc Hok Hf Hin)
    as (css & s' & H & Ht & [Hs' (l & Hl & Hp')] & Ho). cbn in Ho.
  exists css, s'. split_and!; [done..|]. rewrite Ho in Hl. by apply app_inv_head in Hl as ->.
Qed.

(** C38: an exception prints its number and the interrupted registers, cut to the
    widths of the frame's fields, on both devices before the processor stops. *)
Theorem exception_reported {M : Type} `{HM : Machine M} `{SL : !SerialLine M} `{PF : PollFuel}
    fuel vector frame p (s : console M) :
  (ser_bound < poll_fuel)%nat -> ser_ok (c_ports s) -> shows (c_screen s) p ->
  -2147483648 < vector < 2147483648 -> frame_ok frame -> (20 < fuel)%nat ->
  exists css s', c_exception_handler fuel vector frame s = Ok s' /\
    Forall2 item_text (exception_report vector frame) css /\
    ser_sent (c_ports s') = ser_sent (c_ports s) ++ concat css /\
    shows (c_screen s') (paper_print (concat css) p).
Proof.
  intros Hpf Hs Hp Hv Hfr Hf. set (sent := ser_sent (c_ports s)).
  assert (in_step sent p s) as Hin by (split; [done|]; exists []; by rewrite app_nil_r).
  destruct (exception_prints Hpf fuel vector frame Hv Hfr Hf sent p s Hin)
    as (css & s' & H & Ht & [Hs' (l & Hl & Hp')] & Ho).
  exists css, s'. split_and!; [done..|]. rewrite Ho in Hl. by apply app_inv_head in Hl as ->.
Qed.

(** The report of a failed assertion. *)
Definition assertion_report (file func message : Z) (file_s func_s message_s : list Z) (line : Z) : list item :=
  [IStr file file_s; Lit 58; IStr func func_s; Lit 58; IInt line; Lit 58; Lit 32; IStr message message_s; Lit 10].

(** C28: [assert] of a true condition does nothing; of a false one it prints
    where it was and the message, on the serial line too, and halts. *)
Theorem kernel_assert_reports {M : Type} `{HM : Machine M} `{SL : !SerialLine M} `{PF : PollFuel}
    fuel m format file line func (condition : bool) message file_s func_s message_s p (s : console M) :
  (ser_bound < poll_fuel)%nat -> ser_ok (c_ports s) -> shows (c_screen s) p ->
  cstring m format (text "%s:%s:%d: %s" ++ [10]) -> cstring m file file_s -> cstring m func func_s ->
  cstring m message message_s -> 0 <= line < 2147483648 ->
  (length file_s < fuel)%nat -> (length func_s < fuel)%nat -> (length message_s < fuel)%nat ->
  (20 < fuel)%nat ->
  if condition then kernel_assert fuel m format file line func condition message s = Ok (true, s)
  else exists line_s s', kernel_assert fuel m format file line func condition message s = Ok (false, s') /\
    int_text line line_s /\
    let report := text "ASSERTION FAILED" ++ [10] ++ file_s ++ [58] ++ func_s ++ [58] ++ line_s ++
      [58; 32] ++ message_s ++ [10] in
    ser_sent (c_ports s') = ser_sent (c_ports s) ++ report /\
    shows (c_screen s') (paper_print report p).
Proof.
  intros Hpf Hs Hp Hfmt Hfile Hfunc Hmsg Hline Hf1 Hf2 Hf3 Hf. destruct condition; [done|].
  set (sent := ser_sent (c_ports s)).
  assert (in_step sent p s) as Hin by (split; [done|]; exists []; by rewrite app_nil_r).
  assert (prints_items (fmt_print_lit fuel (text "ASSERTION FAILED" ++ [10]) [])
    (lits "ASSERTION FAILED" ++ [Lit 10])) as H1.
  { apply (prints_literal Hpf); [done|done|by apply (bool_decide_unpack _)| | |cbn; lia];
      repeat constructor; (done || (cbn; lia)). }
  set (items := assertion_report file func message file_s func_s message_s line).
  assert (prints_items (fmt_print fuel m format [file; func; w32 line; message]) items) as H2.
  { intros sent' p' s1 Hs1.
    apply (fmt_print_ok (SKO := console_sink_ok Hpf sent' p') fuel m format items s1); [exact Hfmt| |cbn; lia|done].
    unfold items, assertion_report. rewrite !Forall_cons_iff. cbn [item_ok].
    split_and!; (assumption || lia || apply Forall_nil_2). }
  destruct (prints_items_bind _ _ _ _ H1 H2 sent p s Hin) as (css & s' & H & Ht & [_ (l & Hl & Hp')] & Ho).
  rewrite Ho in Hl. apply app_inv_head in Hl as <-.
  apply Forall2_app_inv_l in Ht as (cs1 & cs2 & Ht1 & Ht2 & ->).
  apply (lits_text (text "ASSERTION FAILED" ++ [10])) in Ht1.
  assert (exists line_s, int_text line line_s /\
    concat cs2 = file_s ++ [58] ++ func_s ++ [58] ++ line_s ++ [58; 32] ++ message_s ++ [10])
    as (line_s & Hline_s & E2).
  { clear - Ht2. unfold items, assertion_report in Ht2.
    repeat (apply Forall2_cons_inv_l in Ht2 as (? & ? & ? & Ht2 & ->)). apply Forall2_nil_inv_l in Ht2 as ->.
    cbn [item_text] in *. simplify_eq. eexists. split; [eassumption|].
    cbn [concat app]. rewrite <- ?app_assoc. cbn [app]. by rewrite ?app_nil_r. }
  exists line_s, s'. split.
  { unfold kernel_assert. destruct (fmt_print_lit fuel _ [] s); [|done]. cbn [mbind res_bind] in H |- *. by rewrite H. }
  split; [done|]. cbv zeta.
  rewrite concat_app, Ht1, E2, <- !app_assoc in *. by split.
Qed.

(** ** Witnesses: a line that is ready at once *)

Record wire : Type := Wire { wire_sent : list Z }.

#[local] Instance wire_machine : Machine wire := {
  mach_out w p d s := if (w =? 1) && (p =? 0x3F8) then Wire (wire_sent s ++ [d]) else s;
  mach_in w p s := (if p =? 0x3FD then 0x60 else 0, s);
}.

#[local] Program Instance wire_serial : SerialLine wire := {
  ser_ok _ := True; ser_ready _ := True; ser_wait _ := O; ser_sent := wire_sent; ser_bound := O;
}.
Next Obligation. done. Qed.
Next Obligation. intros [l] _. cbn. done. Qed.
Next Obligation. intros [l] a _ _. cbn -[w8]. by split. Qed.

#[local] Instance one_poll : PollFuel := 1%nat.

(** An empty screen. *)
Definition quiet_console : console wire :=
  Console (Terminal 0 0 7 (replicate 2000 (vga_entry 32 7))) (Wire []).

Lemma quiet_shows : shows (c_screen quiet_console) fresh_paper.
Proof.
  split; [vm_compute; reflexivity|exists 25%nat; vm_compute; repeat split; lia|done|done|cbn; lia].
Qed.

Definition hi_memory : mem := st_bytes ∅ 100 (text "Hi %u" ++ [0]).

Lemma console_prints_witness : exists s',
  fmt_print 10 hi_memory 100 [42] quiet_console = Ok s' /\
  wire_sent (c_ports s') = text "Hi 42".
Proof.
  destruct (console_prints 10 hi_memory 100 (lits "Hi " ++ [IUint FMT_PRINT_LM_NONE 42]) fresh_paper quiet_console)
    as (css & s' & H & _).
  - exact Nat.lt_0_1.
  - exact I.
  - exact quiet_shows.
  - apply (cstring_stored ∅ 100 (text "Hi %u")). by apply (bool_decide_unpack _).
  - repeat constructor; (done || (cbn; lia)).
  - cbn. lia.
  - exists s'. split; [exact H|]. assert (fmt_print 10 hi_memory 100 [42] quiet_console = Ok s') as E by exact H.
    vm_compute in E. injection E as <-. reflexivity.
Defined.

Definition sample_frame : Interrupt_Frame := {|
  frame_edi := 1; frame_esi := 2; frame_ebp := 3; frame_ebx := 4; frame_edx := 5; frame_ecx := 6;
  frame_eax := 0xABCD; frame_error_code := 0; frame_error_code_high := 0; frame_eip := 0xC0100000;
  frame_cs := 8; frame_cs_high := 0; frame_eflags := 2; frame_esp := 0; frame_ss := 16; frame_ss_high := 0;
|}.

Lemma exception_reported_witness : exists s',
  c_exception_handler 21 13 sample_frame quiet_console = Ok s' /\
  take 18 (wire_sent (c_ports s')) = text "Got exception 13!" ++ [10].
Proof.
  destruct (exception_reported 21 13 sample_frame fresh_paper quiet_console) as (css & s' & H & _).
  - exact Nat.lt_0_1.
  - exact I.
  - exact quiet_shows.
  - lia.
  - split; repeat constructor; (done || (unfold is_u32, is_u16; cbn; lia)).
  - lia.
  - exists s'. split; [exact H|]. assert (c_exception_handler 21 13 sample_frame quiet_console = Ok s') as E by exact H.
    vm_compute in E. injection E as <-. vm_compute. reflexivity.
Defined.

(** The strings of an assertion. *)
Definition assert_memory : mem :=
  st_bytes (st_bytes (st_bytes (st_bytes ∅ 0 (text "%s:%s:%d: %s" ++ [10; 0]))
    100 (text "pci.c" ++ [0])) 200 (text "pci_init" ++ [0])) 300 (text "No." ++ [0]).

Lemma kernel_assert_reports_witness : exists line_s s',
  kernel_assert 30 assert_memory 0 100 14 200 false 300 quiet_console = Ok (false, s') /\
  wire_sent (c_ports s') = text "ASSERTION FAILED" ++ [10] ++ text "pci.c" ++ [58] ++ text "pci_init" ++ [58] ++
    line_s ++ [58; 32] ++ text "No." ++ [10].
Proof.
  destruct (kernel_assert_reports 30 assert_memory 0 100 14 200 false 300 (text "pci.c") (text "pci_init")
    (text "No.") fresh_paper quiet_console) as (line_s & s' & H & _ & Hsent & _);
    [exact Nat.lt_0_1|exact I|exact quiet_shows| | | | |lia|cbn; lia|cbn; lia|cbn; lia|lia|].
  - split; [vm_compute; reflexivity|]. split; [by apply (bool_decide_unpack _)|]. vm_compute. reflexivity.
  - split; [vm_compute; reflexivity|]. split; [by apply (bool_decide_unpack _)|]. vm_compute. reflexivity.
  - split; [vm_compute; reflexivity|]. split; [by apply (bool_decide_unpack _)|]. vm_compute. reflexivity.
  - split; [vm_compute; reflexivity|]. split; [by apply (bool_decide_unpack _)|]. vm_compute. reflexivity.
  - exists line_s, s'. split; [exact H|exact Hsent].
Defined.
