(* ===== verification/Ide.v ===== *)
(** * Finding the drive ([ide_init] of src/src/hal/ata.c, [pci_init] of
      src/src/hal/pci.c)

    A controller in compatibility mode with one drive, the master of the
    primary channel: what the start of the kernel relies on is the class
    [IdeController], and [ide_init] then identifies exactly that drive. *)
From S2P Require Import Prelude Memory Terminal Format Ports Ata Console.

#[local] Open Scope Z_scope.

(** ** What the start relies on in the controller *)

(** The ports of the interrupt controllers, the status of the secondary channel,
    the control register of the primary one, and the configuration space. *)
Definition other_ports : list Z := [0x20; 0x21; 0x40; 0x41; 0x177; 0x3F6; 0xCF8; 0xCFC].

Class IdeController (M : Type) `{AD : AtaDrive M} `{PC : !PciConfig M} : Type := {
  ic_legacy : ad_base = 0x1F0;
  ic_master : ad_number = 0;
  ic_identify : list Z;
  ic_words : Forall is_u16 ic_identify;
  (* they do not touch the drive *)
  ic_out : forall w p v s, ad_ok s -> p ∈ other_ports ->
    ad_ok (mach_out w p v s) /\ ad_state (mach_out w p v s) = ad_state s;
  ic_in : forall w p s, ad_ok s -> p ∈ other_ports ->
    ad_ok (mach_in w p s).2 /\ ad_state (mach_in w p s).2 = ad_state s;
  (* nothing on the secondary channel *)
  ic_secondary : forall s, ad_ok s -> (in_8 0x177 s).1 = 0xFF;
  (* the configuration space: an IDE controller without a native mode *)
  ic_class : forall s, ad_ok s -> pci_register s 0 1 1 8 / 65536 = 0x0101;
  ic_prog_if : forall s, ad_ok s -> pci_register s 0 1 1 8 / 256 mod 16 = 0;
  ic_header : forall s, ad_ok s -> pci_register s 0 1 1 12 / 16777216 = 0;
  (* the status of an idle drive, and of the slave that is not there *)
  ic_status : forall s, ad_ok s -> d_phase (ad_state s) = Idle ->
    let v := (in_8 (ad_base + 7) s).1 in
    if selected (ad_state s) =? 0 then v <> 0 /\ has v 0x80 = false /\ has v 0x9 = false else v = 0;
  (* IDENTIFY *)
  ic_accept : forall s, ad_ok s -> d_phase (ad_state s) = Idle ->
    let s' := out_8 (ad_base + 7) ATA_COMMAND_IDENTIFY s in
    ad_ok s' /\
    if selected (ad_state s) =? 0 then exists lba n, (n <= ad_latency)%nat /\
      ad_state s' = set_phase (ad_state s) (Busy ATA_COMMAND_IDENTIFY lba n)
    else ad_state s' = ad_state s;
  ic_busy : forall s lba n, ad_ok s -> d_phase (ad_state s) = Busy ATA_COMMAND_IDENTIFY lba n ->
    let v := (in_8 (ad_base + 7) s).1 in has v 0x80 = true -> has v 0x9 = false;
  ic_word : forall s i, ad_ok s -> (i < 256)%nat -> d_phase (ad_state s) = IdentifyIn i ->
    let '(v, s') := in_16 ad_base s in
    v = nth i ic_identify 0 /\ ad_ok s' /\ ad_state s' = set_phase (ad_state s) (identify_phase (S i));
}.

(** ** Bits of the status *)

Lemma has_lor v a b : has v (Z.lor a b) = has v a || has v b.
Proof.
  unfold has. rewrite Z.land_lor_distr_r.
  destruct (Z.eqb_spec (Z.land v a) 0) as [-> |Ha], (Z.eqb_spec (Z.land v b) 0) as [-> |Hb]; cbn [negb orb].
  - done.
  - rewrite Z.lor_0_l. by destruct (Z.eqb_spec (Z.land v b) 0).
  - rewrite Z.lor_0_r. by destruct (Z.eqb_spec (Z.land v a) 0).
  - destruct (Z.eqb_spec (Z.lor (Z.land v a) (Z.land v b)) 0) as [E|]; [|done].
    by apply Z.lor_eq_0_iff in E as [??].
Qed.

Lemma has_data v : has v 0x29 = true -> has v 0x21 = false -> has v 0x9 = true /\ has v 0x1 = false.
Proof.
  change 0x29 with (Z.lor 0x8 0x21). change 0x21 with (Z.lor 0x20 0x1). change 0x9 with (Z.lor 0x8 0x1).
  rewrite !has_lor. by destruct (has v 0x8), (has v 0x20), (has v 0x1).
Qed.

Lemma has_no_data v : has v 0x29 = false -> has v 0x9 = false.
Proof.
  change 0x29 with (Z.lor 0x20 0x9). rewrite has_lor. by destruct (has v 0x20), (has v 0x9).
Qed.

Section identify.
Context {M : Type} `{HM : Machine M} `{SK : Sink M} `{SKO : !SinkOk M} `{AD : !AtaDrive M}
  `{PC : !PciConfig M} `{IC : !IdeController M}.
Context (d : ide) (bus : Z) (Hbase : io_base (channel d bus) = ad_base).

(** The command is being executed, and the status read last wants more. *)
Definition identifying (st : dstate) (v : Z) (s : M) (n : nat) : Prop :=
  has v 0x9 = false /\ exists lba,
    at_state (set_phase st (Busy ATA_COMMAND_IDENTIFY lba n)) s \/
    at_state (set_phase st (Settling ATA_COMMAND_IDENTIFY lba n)) s.
Definition identified_in (st : dstate) (v : Z) (s : M) : Prop :=
  has v 0x9 = true /\ has v 0x1 = false /\ at_state (set_phase st (IdentifyIn 0)) s.

(** A poll of the status. *)
Lemma identify_turn st v s n : identifying st v s n ->
  let '(v', s') := in_8 (ad_base + 7) s in
  identified_in st v' s' \/ exists n', (n' < n)%nat /\ identifying st v' s' n'.
Proof.
  intros (Hv & lba & [[Hs Hst]|[Hs Hst]]).
  - pose proof (ad_busy s ATA_COMMAND_IDENTIFY lba n Hs ltac:(by rewrite Hst)) as H.
    pose proof (ic_busy s lba n Hs ltac:(by rewrite Hst)) as Hb. rewrite Hst in H.
    destruct (in_8 (ad_base + 7) s) as [v' s']. cbn [fst] in Hb. destruct H as [Hs' H].
    destruct (has v' 0x80).
    + destruct H as (n' & Hn & H). right. exists n'. split; [done|]. split; [by apply Hb|].
      exists lba. left. by split.
    + destruct (has v' 0x29) eqn:E.
      * destruct H as [H21 H]. left. destruct (has_data v' E H21). by split_and!.
      * destruct H as (n' & Hn & H). right. exists n'. split; [done|]. split; [by apply has_no_data|].
        exists lba. right. by split.
  - pose proof (ad_settling s ATA_COMMAND_IDENTIFY lba n Hs ltac:(by rewrite Hst)) as H. rewrite Hst in H.
    destruct (in_8 (ad_base + 7) s) as [v' s']. destruct H as (Hs' & _ & H).
    destruct (has v' 0x29) eqn:E.
    + destruct H as [H21 H]. left. destruct (has_data v' E H21). by split_and!.
    + destruct H as (n' & Hn & H). right. exists n'. split; [done|]. split; [by apply has_no_data|].
      exists lba. right. by split.
Qed.

Lemma poll_identify st : forall n v s fuel, (n + 2 < fuel)%nat -> identifying st v s n ->
  exists v' s', poll fuel d bus (fun v => negb (has v (Z.lor ATA_STATUS_ERROR ATA_STATUS_DRQ))) v s = Ok (v', s') /\
    identified_in st v' s'.
Proof.
  change (Z.lor ATA_STATUS_ERROR ATA_STATUS_DRQ) with 0x9.
  intros n. induction n as [n IH] using lt_wf_ind. intros v s [|fuel] Hf Hid; [lia|].
  unfold poll. cbn [loop]. rewrite (proj1 Hid). cbn [negb].
  unfold ATA_STATUS. rewrite Hbase. pose proof (identify_turn st v s n Hid) as H.
  destruct (in_8 (ad_base + 7) s) as [v1 s1]. destruct H as [H|(n' & Hn & H)].
  - destruct fuel as [|fuel]; [lia|]. cbn [loop]. rewrite (proj1 H). exists v1, s1. by split.
  - destruct (IH n' Hn v1 s1 fuel) as (v' & s' & Hp & Hi); [lia|done|]. exists v', s'. split; [|done].
    unfold poll, ATA_STATUS in Hp. by rewrite Hbase in Hp.
Qed.

(** Reading the words. *)
Lemma read_identify st : forall n (i : nat) s, (i + n = 256)%nat -> at_state (set_phase st (identify_phase i)) s ->
  exists s', read_words d bus n s = (map (fun k => nth k ic_identify 0) (seq i n), s') /\
    at_state (set_phase st Idle) s'.
Proof.
  induction n as [|n IH]; intros i s Hi [Hs Hst]; cbn [read_words seq map].
  - exists s. split; [done|]. replace i with 256%nat in Hst by lia. by split.
  - unfold ATA_DATA. rewrite Hbase, Z.add_0_r. unfold identify_phase in Hst.
    destruct (Nat.eqb_spec i 256); [lia|].
    pose proof (ic_word s i Hs ltac:(lia) ltac:(by rewrite Hst)) as H. rewrite Hst in H.
    destruct (in_16 ad_base s) as [v s1]. destruct H as (-> & Hs1 & Hst1).
    destruct (IH (S i) s1) as (s' & H & Hs'); [lia|by split|].
    rewrite H. by exists s'.
Qed.

Lemma identify_word k : 0 <= nth k ic_identify 0 < 65536.
Proof.
  destruct (nth_in_or_default k ic_identify 0) as [Hin| ->]; [|lia].
  pose proof ic_words as H. rewrite Forall_forall in H. by apply H, list_elem_of_In.
Qed.

(** Printing leaves the drive alone. *)
Lemma print_ok fuel fmt args items st s : fmt = concat (map item_format items) ->
  args = concat (map item_args items) -> Forall (fun c => 0 < c < 256) fmt -> Forall (item_ok fuel ∅) items ->
  Forall (fun it => if it is IStr _ _ then False else True) items -> (length items < fuel)%nat ->
  at_state st s -> exists s', fmt_print_lit fuel fmt args s = Ok s' /\ at_state st s'.
Proof.
  intros -> -> Hb Hok Hn Hf Hs.
  destruct (fmt_print_lit_ok (SKO := drive_sink st) fuel items s) as (css & s' & H & _ & Hs' & _); try done.
  by exists s'.
Qed.

Definition lit (s : string) : list item := map Lit (text s).

Lemma warn_ok fuel clz_zero (b n : Z) st s : 0 <= b < 2 -> 0 <= n < 2 -> (80 < fuel)%nat -> at_state st s ->
  exists s', warn_udma fuel clz_zero b n (map (fun k => nth k ic_identify 0) (seq 0 256)) s = Ok s' /\
    at_state st s'.
Proof.
  intros Hb Hn Hf Hs. unfold warn_udma.
  replace (nth 88 (map (fun k => nth k ic_identify 0) (seq 0 256)) 0) with (nth 88 ic_identify 0) by done.
  set (w := nth 88 ic_identify 0). pose proof (identify_word 88 : 0 <= w < 65536) as Hw.
  assert (0 <= Z.land w 0xFF < 256) as Hsup by (rewrite land_255; zmod).
  assert (0 <= Z.shiftr w 8 < 256) as Hact by (rewrite Z.shiftr_div_pow2 by lia; change (2 ^ 8) with 256; zmod).
  destruct (_ <? _); [|by exists s].
  destruct (print_ok fuel (text "WARNING: The active udma mode is not the maximum supported." ++ [10]) []
    (lit "WARNING: The active udma mode is not the maximum supported." ++ [Lit 10]) st s) as (s1 & -> & H1);
    [reflexivity|reflexivity|by apply (bool_decide_unpack _)|repeat constructor; cbn; lia
    |by repeat constructor|cbn; lia|done|]. rewrite bind_Ok_r.
  destruct (print_ok fuel (text "  bus: %hhx, drive: %hhx" ++ [10]) [b; n]
    (lit "  bus: " ++ [IHex FMT_PRINT_LM_HH b] ++ lit ", drive: " ++ [IHex FMT_PRINT_LM_HH n; Lit 10]) st s1)
    as (s2 & -> & H2);
    [reflexivity|reflexivity|by apply (bool_decide_unpack _)|repeat constructor; cbn; lia
    |by repeat constructor|cbn; lia|done|]. rewrite bind_Ok_r.
  apply (print_ok fuel (text "  active bitmask: %hhx, supported bitmask: %hhx" ++ [10])
    [Z.shiftr w 8; Z.land w 0xFF]
    (lit "  active bitmask: " ++ [IHex FMT_PRINT_LM_HH (Z.shiftr w 8)] ++ lit ", supported bitmask: " ++
      [IHex FMT_PRINT_LM_HH (Z.land w 0xFF); Lit 10]));
    [reflexivity|reflexivity|by apply (bool_decide_unpack _)|repeat constructor; cbn; lia
    |by repeat constructor|cbn; lia|done].
Qed.

(** ** The body of the loop *)

Lemma select_drive (n : Z) st s : n = 0 \/ n = 1 -> at_state st s -> d_phase st = Idle ->
  exists s' st', ide_select_drive d bus n s = Ok s' /\ at_state st' s' /\ d_phase st' = Idle /\
    d_disk st' = d_disk st /\ selected st' = n.
Proof.
  intros Hn Hs Hi. unfold ide_select_drive.
  assert ((n =? 0) || (n =? 1) = true) as -> by (by destruct Hn as [-> | ->]).
  res_step. set (st' := set_reg st 6 (w8 (Z.lor 0xA (Z.shiftl n 4)))). eexists _, st'. split; [done|].
  split_and!; [|done|done|].
  - unfold ATA_DRIVE_OR_HEAD, ATA_STATUS. rewrite Hbase. apply (for_up_ind (fun _ => at_state st') _ 4 0).
    + by apply write_register.
    + intros k t _ Ht. by apply read_register.
  - unfold selected, d_reg, st', set_reg. cbn [d_regs]. rewrite lookup_insert_eq. by destruct Hn as [-> | ->].
Qed.

Context (Hcontrol : control_base (channel d bus) = 0x3F6).

(** Disabling interrupts does not touch the drive. *)
Lemma control_ok st s v : at_state st s -> at_state st (out_8 (ATA_DEV_CONTROL d bus) v s).
Proof.
  intros [Hs <-]. unfold ATA_DEV_CONTROL, out_8. rewrite Hcontrol. change (w16 (0x3F6 + 0)) with 0x3F6.
  destruct (ic_out 1 0x3F6 (w8 v) s Hs) as [? ?]; [set_solver|by split].
Qed.

(** Up to the command: the status read, and the state in which the command is
    given. *)
Lemma before_command (n : Z) st s : n = 0 \/ n = 1 -> at_state st s -> d_phase st = Idle ->
  exists s1 st1, ide_select_drive d bus n s = Ok s1 /\
  let '(v, s2) := in_8 (ATA_STATUS d bus) (out_8 (ATA_DEV_CONTROL d bus) 0x2 s1) in
  let s3 := out_8 (ATA_LBAHIGH_OR_CYLINDERHIGH d bus) 0 (out_8 (ATA_LBAMID_OR_CYLINDERLOW d bus) 0
    (out_8 (ATA_LBALOW_OR_SECTORNUM d bus) 0 (out_8 (ATA_SECTOR_COUNT d bus) 0 s2))) in
  at_state st1 s3 /\ d_phase st1 = Idle /\ d_disk st1 = d_disk st /\ selected st1 = n /\
  if n =? 0 then v <> 0 /\ has v 0x80 = false /\ has v 0x9 = false else v = 0.
Proof.
  intros Hn Hs Hi. destruct (select_drive n st s Hn Hs Hi) as (s1 & st1 & H1 & Hs1 & Hi1 & Hd1 & Hsel).
  exists s1, (set_reg (set_reg (set_reg (set_reg st1 2 (w8 0)) 3 (w8 0)) 4 (w8 0)) 5 (w8 0)). split; [exact H1|].
  pose proof (control_ok st1 s1 0x2 Hs1) as Hs2. set (s2 := out_8 (ATA_DEV_CONTROL d bus) 0x2 s1) in *.
  unfold ATA_STATUS, ATA_LBAHIGH_OR_CYLINDERHIGH, ATA_LBAMID_OR_CYLINDERLOW, ATA_LBALOW_OR_SECTORNUM,
    ATA_SECTOR_COUNT. rewrite Hbase.
  pose proof (read_register 7 st1 s2 Hs2 Hi1 ltac:(lia)) as Hs3.
  pose proof (ic_status s2 (proj1 Hs2) ltac:(by rewrite (proj2 Hs2))) as Hv. cbv zeta in Hv.
  rewrite (proj2 Hs2), Hsel in Hv. destruct (in_8 (ad_base + 7) s2) as [v s3]. cbn [fst snd] in *.
  pose proof (write_register 2 0 st1 s3 Hs3 Hi1 ltac:(lia)) as Hs4.
  pose proof (write_register 3 0 _ _ Hs4 Hi1 ltac:(lia)) as Hs5.
  pose proof (write_register 4 0 _ _ Hs5 Hi1 ltac:(lia)) as Hs6.
  pose proof (write_register 5 0 _ _ Hs6 Hi1 ltac:(lia)) as Hs7.
  split; [exact Hs7|]. split; [done|]. split; [done|]. split; [|done].
  unfold selected, d_reg, set_reg. cbn [d_regs]. by rewrite !lookup_insert_ne by done.
Qed.

Definition identify_words : list Z := map (fun k => nth k ic_identify 0) (seq 0 256).

(** The master is identified. *)
Lemma identify_master fuel clz_zero st s : 0 <= bus < 2 -> (ad_latency + 80 < fuel)%nat ->
  at_state st s -> d_phase st = Idle -> missing (drive_info d bus 0) = false ->
  let i := drive_info d bus 0 in
  exists s' st', identify_drive fuel clz_zero bus 0 d s =
      Ok (set_drive d bus 0 (identified (Drive false DRIVE_TYPE_ATA (udma_mode i)
        (lba28_addressable_sector_count i) (lba48_addressable_sector_count i)) identify_words), s') /\
    at_state st' s' /\ d_phase st' = Idle /\ d_disk st' = d_disk st.
Proof.
  intros Hbus Hf Hs Hi Hm i. unfold identify_drive. rewrite Hm.
  destruct (before_command 0 st s (or_introl eq_refl) Hs Hi) as (s1 & st1 & -> & H). rewrite bind_Ok_r. cbv zeta.
  destruct (in_8 (ATA_STATUS d bus) _) as [v s2]. destruct H as (Hs3 & Hi3 & Hd3 & Hsel & Hv0 & Hv80 & Hv9).
  destruct fuel as [|fuel]; [lia|].
  assert (forall s, poll (S fuel) d bus (fun v => has v ATA_STATUS_BUSY) v s = Ok (v, s)) as Hpoll.
  { intros s'. unfold poll. cbn [loop]. change ATA_STATUS_BUSY with 0x80. by rewrite Hv80. }
  rewrite Hpoll, bind_Ok_r. set (s3 := out_8 (ATA_LBAHIGH_OR_CYLINDERHIGH d bus) 0 _) in *.
  unfold ATA_COMMAND. rewrite Hbase. destruct (Z.eqb_spec v 0); [done|].
  destruct (ic_accept s3 (proj1 Hs3) ltac:(by rewrite (proj2 Hs3))) as [Hs4 H4].
  rewrite (proj2 Hs3), Hsel in H4. destruct H4 as (lba & k & Hk & H4).
  set (s4 := out_8 (ad_base + 7) ATA_COMMAND_IDENTIFY s3) in *. rewrite Hpoll, bind_Ok_r.
  assert (identifying st1 v s4 k) as Hid by (split; [done|]; exists lba; left; by split).
  destruct (poll_identify st1 k v s4 (S fuel)) as (v5 & s5 & -> & Hv5 & Hv51 & Hs5); [lia|done|].
  rewrite bind_Ok_r. change (has v5 ATA_STATUS_ERROR) with (has v5 0x1). rewrite Hv51.
  destruct (read_identify st1 256 0 s5 eq_refl Hs5) as (s6 & -> & Hs6).
  destruct (warn_ok (S fuel) clz_zero bus 0 (set_phase st1 Idle) s6) as (s7 & -> & Hs7);
    [lia|lia|lia|done|].
  rewrite bind_Ok_r. subst i. rewrite ?Hm.
  eexists s7, _. split; [reflexivity|]. by split_and!.
Qed.

(** The slave that is not there is found missing. *)
Lemma identify_slave fuel clz_zero st s : (0 < fuel)%nat -> at_state st s -> d_phase st = Idle ->
  missing (drive_info d bus 1) = false ->
  exists s' st', identify_drive fuel clz_zero bus 1 d s = Ok (set_missing d bus 1, s') /\
    at_state st' s' /\ d_phase st' = Idle /\ d_disk st' = d_disk st.
Proof.
  intros Hf Hs Hi Hm. unfold identify_drive. rewrite Hm.
  destruct (before_command 1 st s (or_intror eq_refl) Hs Hi) as (s1 & st1 & -> & H). rewrite bind_Ok_r. cbv zeta.
  destruct (in_8 (ATA_STATUS d bus) _) as [v s2]. destruct H as (Hs3 & Hi3 & Hd3 & Hsel & ->).
  destruct fuel as [|fuel]; [lia|].
  change (poll (S fuel) d bus (fun v => has v ATA_STATUS_BUSY) 0 s2) with (@Ok (Z * M) (0, s2)).
  rewrite bind_Ok_r. cbn [Z.eqb]. set (s3 := out_8 (ATA_LBAHIGH_OR_CYLINDERHIGH d bus) 0 _) in *.
  unfold ATA_COMMAND. rewrite Hbase.
  destruct (ic_accept s3 (proj1 Hs3) ltac:(by rewrite (proj2 Hs3))) as [Hs4 H4].
  rewrite (proj2 Hs3), Hsel in H4. cbn in H4. eexists _, st1. split; [reflexivity|]. by split_and!.
Qed.
End identify.

(** ** [ide_init] *)

(** The arrays before the drives are looked at: the legacy ports, and nothing
    on the secondary channel. *)
Definition legacy_ide : ide :=
  let d := set_channel ide_zero IDE_BUS_PRIM 0x1F0 0x3F6 in
  let d := set_channel d IDE_BUS_SND 0x170 0x376 in
  set_missing (set_missing d IDE_BUS_SND 0) IDE_BUS_SND 1.

Section ide_init.
Context {M : Type} `{HM : Machine M} `{SK : Sink M} `{SKO : !SinkOk M} `{AD : !AtaDrive M}
  `{PC : !PciConfig M} `{IC : !IdeController M}.

Definition master_info : IDE_Drive_Info := identified no_drive identify_words.
Definition found_ide : ide := set_missing (set_drive legacy_ide IDE_BUS_PRIM 0 master_info) IDE_BUS_PRIM 1.

Lemma status_not_floating st (s : M) : at_state st s -> d_phase st = Idle ->
  (in_8 (ad_base + 7) s).1 <> 0xFF.
Proof.
  intros [Hs Hst] Hi. pose proof (ic_status s Hs ltac:(by rewrite Hst)) as H. cbv zeta in H.
  destruct (_ =? 0); [|lia]. destruct H as (_ & H & _). intros E. by rewrite E in H.
Qed.

Lemma ide_init_ok fuel clz_zero bar0 bar1 bar2 bar3 bar4 st (s : M) : (ad_latency + 80 < fuel)%nat ->
  at_state st s -> d_phase st = Idle ->
  exists s' st', ide_init fuel clz_zero false false bar0 bar1 bar2 bar3 bar4 ide_zero s =
      Ok (true, found_ide, s') /\ at_state st' s' /\ d_phase st' = Idle /\ d_disk st' = d_disk st.
Proof.
  intros Hf Hs Hi. unfold ide_init.
  set (d0 := set_channel (set_channel ide_zero IDE_BUS_PRIM 0x1F0 0x3F6) IDE_BUS_SND 0x170 0x376).
  assert (ATA_STATUS d0 IDE_BUS_PRIM = ad_base + 7) as E1 by (by rewrite ic_legacy).
  assert (ATA_STATUS d0 IDE_BUS_SND = 0x177) as E2 by done.
  rewrite E1, E2. pose proof (status_not_floating st s Hs Hi) as Hff.
  pose proof (read_register 7 st s Hs Hi ltac:(lia)) as Hs1.
  destruct (in_8 (ad_base + 7) s) as [v1 s1]. cbn [fst snd] in Hff, Hs1.
  pose proof (ic_secondary s1 (proj1 Hs1)) as H2.
  assert (at_state st (in_8 0x177 s1).2) as Hs2.
  { destruct (ic_in 1 0x177 s1 (proj1 Hs1)) as [Ha Hb]; [set_solver|]. unfold in_8. change (w16 0x177) with 0x177.
    destruct (mach_in 1 0x177 s1). split; [exact Ha|]. etransitivity; [exact Hb|apply Hs1]. }
  destruct (in_8 0x177 s1) as [v2 s2]. cbn [fst snd] in H2, Hs2. subst v2.
  destruct (Z.eqb_spec v1 0xFF); [done|]. cbn [Z.eqb Pos.eqb].
  change (set_missing (set_missing d0 IDE_BUS_SND 0) IDE_BUS_SND 1) with legacy_ide. cbn [for_res].
  change (0 + 1) with 1.
  assert (forall d, ide_channels d = ide_channels legacy_ide ->
    io_base (channel d 0) = ad_base /\ control_base (channel d 0) = 0x3F6) as Hch.
  { intros d E. unfold channel. rewrite E. split; [by rewrite ic_legacy|done]. }
  destruct (Hch legacy_ide eq_refl) as [Hb Hc].
  destruct (identify_master legacy_ide 0 Hb Hc fuel clz_zero st s2) as (s3 & st3 & -> & Hs3 & Hi3 & Hd3);
    [lia|lia|done|done|done|]. rewrite bind_Ok_r.
  change (set_drive legacy_ide 0 0 _) with (set_drive legacy_ide IDE_BUS_PRIM 0 master_info).
  destruct (Hch (set_drive legacy_ide IDE_BUS_PRIM 0 master_info) eq_refl) as [Hb' Hc'].
  destruct (identify_slave _ 0 Hb' Hc' fuel clz_zero st3 s3) as (s4 & st4 & -> & Hs4 & Hi4 & Hd4);
    [lia|done|done|done|]. rewrite !bind_Ok_r.
  fold IDE_BUS_PRIM. change (set_missing (set_drive legacy_ide IDE_BUS_PRIM 0 master_info) 0 1) with found_ide.
  assert (forall q, q = 0 \/ q = 1 -> identify_drive fuel clz_zero 1 q found_ide s4 = Ok (found_ide, s4)) as Hsnd
    by (intros q [-> | ->]; reflexivity).
  rewrite !Hsnd by auto. rewrite !bind_Ok_r.
  exists s4, st4. split; [reflexivity|]. split_and!; [done..|]. by rewrite Hd4, Hd3.
Qed.

(** ** [pci_init] *)

(** A register of the controller, read. *)
Lemma pci_read_at reg st (s : M) : is_u8 reg -> reg mod 4 = 0 -> at_state st s ->
  exists s', pci_read_register 0 1 1 reg s = Ok (pci_register s 0 1 1 reg, s') /\ at_state st s'.
Proof.
  intros Hr H4 [Hs <-].
  destruct (pci_read_register_value 0 1 1 reg s) as (a & ->); [unfold is_u8; lia|lia|lia|done|done|].
  eexists. split; [done|].
  destruct (ic_out 4 (w16 0xCF8) (w32 a) s Hs ltac:(set_solver)) as [Ho Eo].
  destruct (ic_in 4 (w16 0xCFC) _ Ho ltac:(set_solver)) as [Hi Ei].
  unfold in_32, out_32. destruct (mach_in 4 (w16 0xCFC) _) as [v s']. cbn [fst snd] in *.
  split; [done|]. by rewrite Ei, Eo.
Qed.

(** A byte of a register. *)
Lemma register_byte f k : 0 <= k -> Z.land (Z.shiftr f k) 0xFF = f / 2 ^ k mod 256.
Proof. intros Hk. by rewrite land_255, Z.shiftr_div_pow2. Qed.

Lemma no_native_mode p m : p mod 16 = 0 -> m = 0x1 \/ m = 0x2 \/ m = 0x4 \/ m = 0x8 -> has p m = false.
Proof.
  intros Hp Hm. unfold has. assert (Z.land p m = Z.land (p mod 16) m) as ->.
  { change 16 with (2 ^ 4). rewrite <- Z.land_ones, <- Z.land_assoc by lia.
    destruct Hm as [-> |[-> |[-> | ->]]]; reflexivity. }
  by rewrite Hp, Z.land_0_l.
Qed.

Lemma pci_init_ok fuel clz_zero st (s : M) : (ad_latency + 80 < fuel)%nat -> at_state st s -> d_phase st = Idle ->
  exists s' st', pci_init fuel clz_zero ide_zero s = Ok (true, found_ide, s') /\
    at_state st' s' /\ d_phase st' = Idle /\ d_disk st' = d_disk st.
Proof.
  intros Hf Hs Hi. unfold pci_init. cbv zeta.
  destruct (pci_read_at 8 st s ltac:(unfold is_u8; lia) eq_refl Hs) as (s1 & -> & Hs1). rewrite bind_Ok_r.
  set (f := pci_register s 0 1 1 8).
  assert (f / 65536 = 0x0101) as Hclass by (by apply ic_class, Hs).
  assert (f / 256 mod 16 = 0) as Hprog by (by apply ic_prog_if, Hs).
  rewrite !register_byte by lia.
  assert (f / 2 ^ 24 mod 256 = 1 /\ f / 2 ^ 16 mod 256 = 1) as [-> ->].
  { change (2 ^ 24) with (65536 * 256). rewrite <- Z.div_div by lia. change (2 ^ 16) with 65536. by rewrite Hclass. }
  cbn [Z.eqb Pos.eqb andb]. res_step.
  assert ((f / 2 ^ 8 mod 256) mod 16 = 0) as Hp by (change (2 ^ 8) with 256; zmod).
  rewrite !(no_native_mode (f / 2 ^ 8 mod 256)) by auto. rewrite bind_Ok_r.
  destruct (pci_read_at 12 st s1 ltac:(unfold is_u8; lia) eq_refl Hs1) as (s2 & -> & Hs2). rewrite bind_Ok_r.
  rewrite register_byte by lia. change (2 ^ 24) with 16777216. rewrite (ic_header s1) by apply Hs1. res_step.
  destruct (pci_read_at 16 st s2 ltac:(unfold is_u8; lia) eq_refl Hs2) as (s3 & -> & Hs3). rewrite bind_Ok_r.
  destruct (pci_read_at 20 st s3 ltac:(unfold is_u8; lia) eq_refl Hs3) as (s4 & -> & Hs4). rewrite bind_Ok_r.
  destruct (pci_read_at 24 st s4 ltac:(unfold is_u8; lia) eq_refl Hs4) as (s5 & -> & Hs5). rewrite bind_Ok_r.
  destruct (pci_read_at 28 st s5 ltac:(unfold is_u8; lia) eq_refl Hs5) as (s6 & -> & Hs6). rewrite bind_Ok_r.
  destruct (pci_read_at 32 st s6 ltac:(unfold is_u8; lia) eq_refl Hs6) as (s7 & -> & Hs7). rewrite bind_Ok_r.
  by apply ide_init_ok.
Qed.

(** C24: [pci_init] with an IDE controller in compatibility mode whose only drive
    is the master of the primary channel ends, finds exactly that drive and leaves it idle with its sectors as
    they were; what it stores of the drive is what the identify data say: the
    number of sectors in words 60 and 61, the mode from word 88. *)
Theorem pci_init_finds_drive fuel clz_zero (s : M) :
  (ad_latency + 80 < fuel)%nat -> ad_ok s -> d_phase (ad_state s) = Idle ->
  exists d s', pci_init fuel clz_zero ide_zero s = Ok (true, d, s') /\
    ad_ok s' /\ d_phase (ad_state s') = Idle /\ d_disk (ad_state s') = d_disk (ad_state s) /\
    io_base (channel d IDE_BUS_PRIM) = ad_base /\
    (forall bus n, 0 <= bus < 2 -> 0 <= n < 2 ->
      missing (drive_info d bus n) = negb ((bus =? 0) && (n =? 0))) /\
    type (drive_info d IDE_BUS_PRIM 0) = DRIVE_TYPE_ATA /\
    lba28_addressable_sector_count (drive_info d IDE_BUS_PRIM 0) =
      nth 60 ic_identify 0 + 65536 * nth 61 ic_identify 0 /\
    udma_mode (drive_info d IDE_BUS_PRIM 0) = builtin_ffs (nth 88 ic_identify 0 / 256).
Proof.
  intros Hf Hs Hi.
  destruct (pci_init_ok fuel clz_zero (ad_state s) s Hf ltac:(by split) Hi)
    as (s' & st' & H & [Hs' <-] & Hi' & Hd').
  exists found_ide, s'. split_and!; [done..|by rewrite ic_legacy| |done| |].
  - intros bus n Hb Hn. assert (bus = 0 \/ bus = 1) as [-> | ->] by lia;
      assert (n = 0 \/ n = 1) as [-> | ->] by lia; reflexivity.
  - change (Z.lor (nth 60 ic_identify 0) (Z.shiftl (nth 61 ic_identify 0) 16) =
      nth 60 ic_identify 0 + 65536 * nth 61 ic_identify 0).
    rewrite lor_shiftl_add by (apply identify_word || lia). lia.
  - change (builtin_ffs (Z.shiftr (nth 88 ic_identify 0) 8) = builtin_ffs (nth 88 ic_identify 0 / 256)).
    by rewrite Z.shiftr_div_pow2.
Qed.
End ide_init.

(** ** Witnesses: a computer

    The drive of Ata.v behind the ports of the primary channel, nothing on the
    secondary one, an IDE controller without a native mode in the configuration
    space, and a serial line with a divisor latch and a loopback mode. *)

Record pc : Type := Pc {
  x_drive : dstate;
  x_address : Z;
  x_lcr : Z;
  x_mcr : Z;
  x_looped : Z;
  x_sent : list Z;
}.
Definition with_drive (m : pc) (d : dstate) : pc :=
  Pc d (x_address m) (x_lcr m) (x_mcr m) (x_looped m) (x_sent m).

Definition pc_register (bus device function reg : Z) : Z :=
  if (bus =? 0) && (device =? 1) && (function =? 1)
  then (if reg =? 0 then 0x70108086 else if reg =? 8 then 0x01018000 else 0)
  else 0xFFFFFFFF.

Definition drive_port (p : Z) : bool := (0x1F0 <=? p) && (p <=? 0x1F7).

Definition pc_write (w p v : Z) (m : pc) : pc :=
  if drive_port p then with_drive m (pio_out 3 w p v (x_drive m))
  else if (w =? 4) && (p =? 0xCF8) then Pc (x_drive m) v (x_lcr m) (x_mcr m) (x_looped m) (x_sent m)
  else if (w =? 1) && (p =? 0x3FB) then Pc (x_drive m) (x_address m) v (x_mcr m) (x_looped m) (x_sent m)
  else if (w =? 1) && (p =? 0x3FC) then Pc (x_drive m) (x_address m) (x_lcr m) v (x_looped m) (x_sent m)
  else if (w =? 1) && (p =? 0x3F8) then
    if has (x_lcr m) 0x80 then m
    else if has (x_mcr m) 0x10 then Pc (x_drive m) (x_address m) (x_lcr m) (x_mcr m) v (x_sent m)
    else Pc (x_drive m) (x_address m) (x_lcr m) (x_mcr m) (x_looped m) (x_sent m ++ [v])
  else m.
Definition pc_read (w p : Z) (m : pc) : Z * pc :=
  if drive_port p then let '(v, d) := pio_in w p (x_drive m) in (v, with_drive m d)
  else if (w =? 4) && (p =? 0xCFC) then
    let a := x_address m in
    (pc_register (a / 65536 mod 256) (a / 2048 mod 32) (a / 256 mod 8) (a mod 256 - a mod 4), m)
  else if (w =? 1) && (p =? 0x3FD) then (0x60, m)
  else if (w =? 1) && (p =? 0x3F8) then (x_looped m, m)
  else (0xFF, m).

#[local] Instance pc_machine : Machine pc := { mach_out := pc_write; mach_in := pc_read; }.
#[local] Existing Instance one_poll.

#[local] Program Instance pc_serial : SerialLine pc := {
  ser_ok m := has (x_lcr m) 0x80 = false /\ has (x_mcr m) 0x10 = false;
  ser_ready _ := True; ser_wait _ := O; ser_sent := x_sent; ser_bound := O;
}.
Next Obligation. done. Qed.
Next Obligation. intros m Hm. done. Qed.
Next Obligation.
  intros m a [Hl Hm] _. unfold out_8. cbn -[w8]. unfold pc_write. cbn -[w8 has]. rewrite Hl, Hm. by split.
Qed.

(** Printing on this machine. *)
Definition pc_fine (s : console pc) : Prop := ser_ok (c_ports s) /\ exists p, shows (c_screen s) p.

Lemma pc_put_char c s : pc_fine s -> exists s', console_put_char c s = Ok s' /\ pc_fine s' /\
  x_drive (c_ports s') = x_drive (c_ports s) /\ x_sent (c_ports s') = x_sent (c_ports s) ++ [w8 c].
Proof.
  intros [Hs [p Hp]]. destruct (put_char_shows c _ _ Hp) as (t' & Ht & Hp').
  destruct s as [t m]. cbn [c_screen c_ports] in *. unfold console_put_char. cbn [c_screen c_ports].
  rewrite Ht, bind_Ok_r. change (serial_write poll_fuel c m) with (Ok (out_8 PORT c m)). rewrite bind_Ok_r.
  eexists. split; [done|]. destruct (ser_data m c Hs I) as [Hs' Ho]. cbn [c_ports].
  split; [split; [done|by eexists]|]. split; [|exact Ho].
  unfold out_8. cbn -[w8]. unfold pc_write. cbn -[w8 has]. destruct Hs as [-> ->]. done.
Qed.

#[local] Program Instance pc_sink_ok : SinkOk (console pc) := {
  sink_ok := pc_fine; sink_out s := x_sent (c_ports s);
}.
Next Obligation. intros c s Hs. destruct (pc_put_char c s Hs) as (s' & ? & ? & _ & ?). by exists s'. Qed.

(** The ports of the drive are those of the machine of Ata.v. *)
Lemma drive_port_k k : 0 <= k <= 7 -> w16 (0x1F0 + k) = 0x1F0 + k /\ drive_port (0x1F0 + k) = true.
Proof.
  intros Hk. split; [apply w16_id; unfold is_u16; lia|]. unfold drive_port. apply andb_true_intro. split; lia.
Qed.

Lemma pc_out_8 k v t m : 0 <= k <= 7 -> out_8 (0x1F0 + k) v (Console t m) =
  Console t (with_drive m (p_state (out_8 (0x1F0 + k) v (Pio (x_drive m) [])))).
Proof.
  intros Hk. destruct (drive_port_k k Hk) as [Hw Hp]. unfold out_8. rewrite Hw. cbn -[w8].
  unfold pc_write. by rewrite Hp.
Qed.
Lemma pc_out_16 v t m : out_16 0x1F0 v (Console t m) =
  Console t (with_drive m (p_state (out_16 0x1F0 v (Pio (x_drive m) [])))).
Proof. done. Qed.
Lemma pc_in_8 k t m : 0 <= k <= 7 -> in_8 (0x1F0 + k) (Console t m) =
  let '(v, s) := in_8 (0x1F0 + k) (Pio (x_drive m) []) in (v, Console t (with_drive m (p_state s))).
Proof.
  intros Hk. destruct (drive_port_k k Hk) as [Hw Hp]. unfold in_8. rewrite Hw. cbn -[w8].
  unfold pc_read. rewrite Hp. by destruct (pio_in 1 _ _).
Qed.
Lemma pc_in_16 t m : in_16 0x1F0 (Console t m) =
  let '(v, s) := in_16 0x1F0 (Pio (x_drive m) []) in (v, Console t (with_drive m (p_state s))).
Proof. unfold in_16. cbn -[w16 pio_in]. change (w16 496) with 496. unfold pc_read. cbn -[pio_in]. by destruct (pio_in 2 496 _). Qed.

(** What a law says of the small machine, it says of this one. *)
Ltac from_pio H :=
  match goal with
  | |- context [out_8 _ _ (Console _ _)] => rewrite pc_out_8 by lia
  | |- context [in_8 _ (Console _ _)] => rewrite pc_in_8 by lia
  | |- context [out_16 _ _ (Console _ _)] => rewrite pc_out_16
  | |- context [in_16 _ (Console _ _)] => rewrite pc_in_16
  end;
  cbn [c_screen c_ports] in *; revert H;
  cbn [ad_base ad_number ad_sectors ad_latency ad_hold ad_ok ad_state pio_drive pio_laws p_state].

#[local] Program Instance pc_ata : AtaDrive (console pc) := {
  ad_base := 0x1F0; ad_number := 0; ad_sectors := 1000; ad_latency := 2; ad_hold := 3;
  ad_ok s := disk_ok (x_drive (c_ports s)) /\ pc_fine s; ad_state s := x_drive (c_ports s);
}.
Next Obligation. by left. Qed.
Next Obligation. lia. Qed.
Next Obligation. intros s lba [Hs _]. by apply disk_ok_sector. Qed.
Next Obligation.
  intros [t m] k v [Hs Hf] Hp Hk. pose proof (ad_register (Pio (x_drive m) []) k v Hs Hp Hk) as H.
  from_pio H. intros [? ?]. by split.
Qed.
Next Obligation.
  intros [t m] k [Hs Hf] Hp Hk. pose proof (ad_quiet (Pio (x_drive m) []) k Hs Hp Hk) as H.
  from_pio H. destruct (in_8 _ _) as [v [d l]]. intros [? ?]. by split.
Qed.
Next Obligation.
  intros [t m] c [Hs Hf] Hp Hc H1 H2 H3. pose proof (ad_accept (Pio (x_drive m) []) c Hs Hp Hc H1 H2 H3) as H.
  from_pio H. intros [? ?]. by split.
Qed.
Next Obligation.
  intros [t m] c lba n [Hs Hf] Hp. pose proof (ad_busy (Pio (x_drive m) []) c lba n Hs Hp) as H.
  from_pio H. destruct (in_8 _ _) as [v [d l]]. intros [? ?]. by split.
Qed.
Next Obligation.
  intros [t m] c lba n [Hs Hf] Hp. pose proof (ad_settling (Pio (x_drive m) []) c lba n Hs Hp) as H.
  from_pio H. destruct (in_8 _ _) as [v [d l]]. intros [? ?]. by split.
Qed.
Next Obligation.
  intros [t m] lba i [Hs Hf] Hi Hp. pose proof (ad_read_word (Pio (x_drive m) []) lba i Hs Hi Hp) as H.
  from_pio H. destruct (in_16 _ _) as [v [d l]]. intros (? & ? & ?). by split.
Qed.
Next Obligation.
  intros [t m] lba bytes v [Hs Hf] Hp Hl Hb. pose proof (ad_write_word (Pio (x_drive m) []) lba bytes v Hs Hp Hl Hb) as H.
  from_pio H. intros [? ?]. split; [by split|done].
Qed.
Next Obligation.
  intros [t m] [Hs Hf] Hp. pose proof (ad_flush (Pio (x_drive m) []) Hs Hp) as H.
  from_pio H. intros [? ?]. by split.
Qed.
Next Obligation.
  intros [t m] n [Hs Hf] Hp. pose proof (ad_working (Pio (x_drive m) []) n Hs Hp) as H.
  from_pio H. destruct (in_8 _ _) as [v [d l]]. intros [? ?]. by split.
Qed.
Next Obligation.
  intros [t m] n k v [Hs Hf] Hp Hk. pose proof (ad_ignored (Pio (x_drive m) []) n k v Hs Hp Hk) as H.
  from_pio H. intros [? ?]. by split.
Qed.
Next Obligation. by intros s []. Qed.
Next Obligation.
  intros c s s' [Hs Hf] Hc. destruct (pc_put_char c s Hf) as (s1 & H1 & Hf1 & Hd & _).
  change (console_put_char c s = Ok s') in Hc. rewrite H1 in Hc. injection Hc as <-. split; [|done]. split; [by rewrite Hd|done].
Qed.

#[export] Instance pc_prompt : PromptDrive (console pc).
Proof. unfold PromptDrive. cbn. lia. Qed.

#[local] Program Instance pc_config : PciConfig (console pc) := {
  pci_register s b d f r := pc_register b d f r;
  pci_select s := x_address (c_ports s);
}.
Next Obligation.
  intros a [t m] Ha. split; [|done]. change (w32 a = a). by apply w32_id.
Qed.
Next Obligation.
  intros [t m] _. set (a := x_address m).
  change (w32 (pc_register (a / 65536 mod 256) (a / 2048 mod 32) (a / 256 mod 8) (a mod 256 - a mod 4)) =
    pc_register (a / 65536 mod 256) (a / 2048 mod 32) (a / 256 mod 8) (a mod 256 - a mod 4)).
  apply w32_id. unfold pc_register, is_u32. repeat case_match; lia.
Qed.

(** The other ports: the drive, the line and the screen are as they were. *)
Lemma pc_other w p v (s : console pc) : ad_ok s -> p ∈ other_ports ->
  (ad_ok (mach_out w p v s) /\ ad_state (mach_out w p v s) = ad_state s) /\
  (ad_ok (mach_in w p s).2 /\ ad_state (mach_in w p s).2 = ad_state s).
Proof.
  destruct s as [t m]. intros Hs Hp. unfold other_ports in Hp. cbn -[pc_write pc_read] in *.
  assert (pc_read w p m = ((pc_read w p m).1, m) /\ (pc_write w p v m = m \/
    pc_write w p v m = Pc (x_drive m) v (x_lcr m) (x_mcr m) (x_looped m) (x_sent m))) as [Hr Hw].
  { unfold pc_read, pc_write.
    repeat (apply elem_of_cons in Hp as [-> |Hp]; [|try (by apply not_elem_of_nil in Hp)]); cbn;
      destruct (w =? 4), (w =? 1); cbn; auto. }
  rewrite Hr. split; [|done]. by destruct Hw as [-> | ->].
Qed.

Lemma pio_identify_words : Forall is_u16 pio_identify.
Proof. apply (bool_decide_unpack _). vm_compute. exact I. Qed.

#[local] Program Instance pc_ide : IdeController (console pc) := { ic_identify := pio_identify }.
Next Obligation. done. Qed.
Next Obligation. done. Qed.
Next Obligation. apply pio_identify_words. Qed.
Next Obligation. intros w p v s Hs Hp. by apply (pc_other w p v s). Qed.
Next Obligation. intros w p s Hs Hp. by apply (pc_other w p 0 s). Qed.
Next Obligation. done. Qed.
Next Obligation. done. Qed.
Next Obligation. done. Qed.
Next Obligation. done. Qed.
Next Obligation.
  intros [t m] Hs Hp. cbn [ad_base pc_ata ad_state c_ports] in *. rewrite pc_in_8 by lia. unfold in_8.
  cbn -[w8 has pio_in]. unfold pio_in. cbn -[w8 has]. rewrite Hp. by destruct (selected (x_drive m) =? 0).
Qed.
Next Obligation.
  intros [t m] Hs Hp. cbn [ad_base pc_ata ad_ok ad_state c_ports ad_latency] in *. rewrite pc_out_8 by lia.
  unfold out_8. cbn -[w8 pio_out]. unfold pio_out. rewrite Hp. cbn.
  destruct (selected (x_drive m) =? 0); cbn; (split; [exact Hs|]); [|done]. exists (d_lba (x_drive m)), 2%nat. by split.
Qed.
Next Obligation.
  intros [t m] lba n Hs Hp. cbn [ad_base pc_ata ad_state c_ports] in *. rewrite pc_in_8 by lia. unfold in_8.
  cbn -[w8 has pio_in]. unfold pio_in. cbn -[w8 has]. rewrite Hp. by destruct n.
Qed.
Next Obligation.
  intros [t m] i Hs Hi Hp. cbn [ad_base pc_ata ad_ok ad_state c_ports] in *. rewrite pc_in_16. unfold in_16.
  cbn -[w16 pio_in nth pio_identify]. unfold pio_in. cbn -[w16 nth pio_identify]. rewrite Hp.
  split; [|by split]. cbn -[w16 nth pio_identify]. rewrite w16_id; [done|].
  destruct (nth_in_or_default i pio_identify 0) as [Hin| ->]; [|done].
  pose proof pio_identify_words as H. rewrite Forall_forall in H. by apply H, list_elem_of_In.
Qed.

(** A machine with the sample drive, and a screen. *)
Definition sample_pc : pc := Pc (p_state sample_drive) 0 0 0 0 [].
Definition sample_computer : console pc := Console (c_screen quiet_console) sample_pc.

Lemma pci_init_finds_drive_witness : exists d s',
  pci_init 100 0 ide_zero sample_computer = Ok (true, d, s') /\
  lba28_addressable_sector_count (drive_info d IDE_BUS_PRIM 0) = 1000 /\
  udma_mode (drive_info d IDE_BUS_PRIM 0) = 3.
Proof.
  destruct (pci_init_finds_drive 100 0 sample_computer) as (d & s' & H & _ & _ & _ & _ & _ & _ & Hl & Hu).
  - cbn. lia.
  - split; [exact sample_drive_ok|]. split; [by split|]. eexists. exact quiet_shows.
  - reflexivity.
  - exists d, s'. split; [exact H|]. split; [rewrite Hl|rewrite Hu]; reflexivity.
Defined.
