(* ===== verification/TagLayout.v ===== *)
(** * TagFS: the layout of an image (src/tagfs/utils.c)

    The image is a memory that starts at address 0 (the C code adds [base]).
    The structures are packed; field offsets are written out. Indices are [int],
    sizes computed from the header are 32-bit products that wrap. An access
    that an index from the disk could take outside the mapping is guarded. *)
From S2P Require Import Prelude Memory.

#[local] Open Scope Z_scope.

Inductive Failure : Type :=
  | FAIL_PARSE_ARGS
  | FAIL_IMG_NOT_FOUND
  | FAIL_UNSPECIFIED
  | FAIL_GENERIC.
#[export] Instance failure_eq_dec : EqDecision Failure.
Proof. solve_decision. Defined.

Section layout.
Context (img : mem).

(** [FS_Metadata], at the start of the image. *)
Definition fs_jump : Z := ld32 img 0.
Definition fs_version : Z := ld32 img 4.
Definition fs_sector_count : Z := ld32 img 8.
Definition fs_sector_size : Z := ld32 img 12.
Definition fs_file_meta_sector_count : Z := ld32 img 16.
Definition fs_tag_meta_sector_count : Z := ld32 img 20.
Definition fs_tag_file_sector_count : Z := ld32 img 24.
Definition fs_fat_sector_count : Z := ld32 img 28.
Definition fs_free_file_id : Z := ld16 img 32.
Definition fs_free_tag_id : Z := ld16 img 34.

(** The length of the mapping, [sector_count * sector_size]. *)
Definition img_size : Z := w32 (fs_sector_count * fs_sector_size).
Definition in_image (a n : Z) : bool := (0 <=? a) && (a + n <=? img_size).

Definition get_file_metadata : Z := fs_sector_size.
Definition get_tag_metadata : Z := w32 ((1 + fs_file_meta_sector_count) * fs_sector_size).
Definition get_tag_file_array : Z :=
  w32 ((1 + fs_file_meta_sector_count + fs_tag_meta_sector_count) * fs_sector_size).
Definition get_fat : Z :=
  w32 ((1 + fs_file_meta_sector_count + fs_tag_meta_sector_count +
        fs_tag_file_sector_count) * fs_sector_size).
Definition get_data : Z :=
  w32 ((1 + fs_file_meta_sector_count + fs_tag_meta_sector_count +
        fs_tag_file_sector_count + fs_fat_sector_count) * fs_sector_size).

(** [File_Metadata] number [i] (32 bytes: first_data_sector, size, name),
    [Tag_Metadata] (32 bytes: name), [Tag_File_Entry] (4 bytes: tag_id, file_id). *)
Definition file_entry (i : Z) : Z := get_file_metadata + 32 * i.
Definition tag_entry (i : Z) : Z := get_tag_metadata + 32 * i.
Definition tag_file_entry (i : Z) : Z := get_tag_file_array + 4 * i.
Definition first_data_sector (fm : Z) : Z := ld32 img fm.
Definition file_size (fm : Z) : Z := ld32 img (fm + 4).
Definition name_of (fm : Z) : Z := fm + 8.

Definition count_file_meta_entries : Z :=
  s32 (w32 (fs_file_meta_sector_count * fs_sector_size) / 32).

(** [strcmp(s, at) == 0] for a string [s] outside the image. *)
Definition name_eq (s : list Z) (at_ : Z) : bool :=
  bool_decide (bytes_at img at_ (length s) = s) && (ld8 img (at_ + Z.of_nat (length s)) =? 0).

Definition get_file_id_from_name (name : list Z) : Z :=
  match find_up (Z.to_nat count_file_meta_entries) 0
          (fun i => name_eq name (name_of (file_entry i))) with
  | Some i => w16 (i + 1)
  | None => 0
  end.

Definition file_metadata_entry_is_free (fm : Z) : bool := ld8 img (name_of fm) =? 0.
Definition tag_metadata_entry_is_free (tm : Z) : bool := ld8 img tm =? 0.
Definition tag_file_entry_is_free (tf : Z) : bool := ld16 img tf =? 0.

(** Entry [i] of the FAT. *)
Definition fat_addr (i : Z) : Z := get_fat + 2 * i.
Definition fat_entry (i : Z) : Z := ld16 img (fat_addr i).
Definition fat_count : Z := s32 (w32 (fs_fat_sector_count * fs_sector_size) / 2).

Definition find_free_fat : Z :=
  match find_up (Z.to_nat fat_count) 0 (fun i => fat_entry i =? 0) with
  | Some i => i
  | None => -1
  end.

Definition fat_get (i : Z) : res Z :=
  _ ← guard_bounds (in_image (fat_addr i) 2); Ok (fat_entry i).
Definition fat_set (i v : Z) : res mem :=
  _ ← guard_bounds (in_image (fat_addr i) 2); Ok (st16 img (fat_addr i) v).

(** The address of data sector [i], [data + sector_size * i]. *)
Definition data_addr (i : Z) : Z := get_data + w32 (fs_sector_size * i).
End layout.

(** [memcpy] out of and into the image. *)
Definition img_read (img : mem) (a n : Z) : res (list Z) :=
  _ ← guard_bounds (in_image img a n); Ok (bytes_at img a (Z.to_nat n)).
Definition img_write (img : mem) (a : Z) (l : list Z) : res mem :=
  _ ← guard_bounds (in_image img a (Z.of_nat (length l))); Ok (st_bytes img a l).

(** ** Well-formed images *)

(** The header describes sections that fit the image, a data sector for every
    entry of the FAT, and sizes that no computation of the code overflows. *)
Record layout_ok (img : mem) : Prop := {
  lay_sector : 64 <= fs_sector_size img /\ fs_sector_size img mod 32 = 0;
  lay_total : fs_sector_count img * fs_sector_size img < 2147483648;
  lay_fat : fs_fat_sector_count img * fs_sector_size img / 2 < 65535;
  lay_files : fs_file_meta_sector_count img * fs_sector_size img / 32 < 65536;
  lay_data : (1 + fs_file_meta_sector_count img + fs_tag_meta_sector_count img +
    fs_tag_file_sector_count img + fs_fat_sector_count img +
    fs_fat_sector_count img * fs_sector_size img / 2) * fs_sector_size img <=
      fs_sector_count img * fs_sector_size img;
}.

Arguments lay_sector {img} _.
Arguments lay_total {img} _.
Arguments lay_fat {img} _.
Arguments lay_files {img} _.
Arguments lay_data {img} _.

Section layout_facts.
Context (img : mem) (Hok : layout_ok img).

Abbreviation ss := (fs_sector_size img).
Abbreviation fm := (fs_file_meta_sector_count img).
Abbreviation tm := (fs_tag_meta_sector_count img).
Abbreviation tf := (fs_tag_file_sector_count img).
Abbreviation fc := (fs_fat_sector_count img).

Lemma header_range : 0 <= fm /\ 0 <= tm /\ 0 <= tf /\ 0 <= fc /\ 0 <= fs_sector_count img.
Proof. split_and!; apply ld32_range. Qed.

(** Every section starts where its sum says, without wrapping. *)
Lemma layout_sums :
  0 <= fm * ss /\ 0 <= tm * ss /\ 0 <= tf * ss /\ 0 <= fc * ss /\
  get_tag_metadata img = ss + fm * ss /\
  get_tag_file_array img = ss + fm * ss + tm * ss /\
  get_fat img = ss + fm * ss + tm * ss + tf * ss /\
  get_data img = ss + fm * ss + tm * ss + tf * ss + fc * ss /\
  fat_count img = fc * ss / 2 /\ count_file_meta_entries img = fm * ss / 32 /\
  img_size img = fs_sector_count img * ss /\
  get_data img + fat_count img * ss <= img_size img /\ img_size img < 2147483648.
Proof.
  destruct header_range as (H1 & H2 & H3 & H4 & H5).
  destruct (lay_sector Hok) as [Hs _]. pose proof (lay_total Hok) as Ht.
  pose proof (lay_data Hok) as Hd. set (n := fc * ss / 2) in *.
  assert (0 <= fm * ss /\ 0 <= tm * ss /\ 0 <= tf * ss /\ 0 <= fc * ss) as (P1 & P2 & P3 & P4)
    by (split_and!; nia).
  assert (0 <= n) as Hn by (apply Z.div_pos; lia).
  assert (0 <= n * ss) by nia.
  assert ((1 + fm + tm + tf + fc + n) * ss =
    ss + fm * ss + tm * ss + tf * ss + fc * ss + n * ss) as E by ring.
  rewrite E in Hd.
  unfold get_tag_metadata, get_tag_file_array, get_fat, get_data, fat_count,
    count_file_meta_entries, img_size.
  replace ((1 + fm) * ss) with (ss + fm * ss) by ring.
  replace ((1 + fm + tm) * ss) with (ss + fm * ss + tm * ss) by ring.
  replace ((1 + fm + tm + tf) * ss) with (ss + fm * ss + tm * ss + tf * ss) by ring.
  replace ((1 + fm + tm + tf + fc) * ss)
    with (ss + fm * ss + tm * ss + tf * ss + fc * ss) by ring.
  rewrite !w32_id by (unfold is_u32; lia). fold n. rewrite !s32_id.
  2,3: split; [|apply Z.div_lt_upper_bound; lia].
  2,3: pose proof (Z.div_pos (fm * ss) 32); lia.
  split_and!; (done || lia).
Qed.

(** A data sector of a FAT index lies behind the FAT and inside the image. *)
Lemma data_addr_ok i : 0 <= i < fat_count img ->
  data_addr img i = get_data img + i * ss /\
  get_data img + i * ss + ss <= img_size img.
Proof.
  intros Hi. destruct layout_sums as (? & ? & ? & ? & _ & _ & _ & Hd & _ & _ & _ & He & Hm).
  destruct (lay_sector Hok) as [Hs _].
  assert (i * ss + ss <= fat_count img * ss) by nia. assert (0 <= i * ss) by nia.
  unfold data_addr. rewrite w32_id by (unfold is_u32; lia). lia.
Qed.

(** The data is behind the header and the file entries. *)
Lemma data_start i : 0 <= i < fat_count img ->
  64 <= data_addr img i /\ get_tag_metadata img <= data_addr img i /\
  get_data img <= data_addr img i.
Proof.
  intros Hi. destruct (data_addr_ok i Hi) as [-> _].
  destruct layout_sums as (? & ? & ? & ? & Ht & _ & _ & Hd & Hc & _).
  destruct (lay_sector Hok) as [Hs _]. destruct header_range as (_ & _ & _ & Hf & _).
  assert (0 <= i * ss) by nia.
  assert (1 <= fc) as Hfc.
  { destruct (Z.eq_dec fc 0) as [E|]; [|lia]. rewrite E, Z.mul_0_l, Z.div_0_l in Hc by lia. lia. }
  assert (ss <= fc * ss) by nia. lia.
Qed.

(** Different sectors do not overlap. *)
Lemma sectors_apart i j : 0 <= i < fat_count img -> 0 <= j < fat_count img -> i <> j ->
  data_addr img i + ss <= data_addr img j \/ data_addr img j + ss <= data_addr img i.
Proof.
  intros Hi Hj Hne. destruct (data_addr_ok i Hi) as [-> _], (data_addr_ok j Hj) as [-> _].
  destruct (lay_sector Hok) as [Hs _]. nia.
Qed.

Lemma fat_addr_ok i : 0 <= i < fat_count img ->
  get_fat img <= fat_addr img i /\ fat_addr img i + 2 <= get_data img /\
  in_image img (fat_addr img i) 2 = true.
Proof.
  intros Hi. destruct layout_sums as (? & ? & ? & ? & _ & _ & Hf & Hd & Hc & _ & _ & He & _).
  assert (2 * fat_count img <= fc * ss) by (rewrite Hc; pose proof (Z.mul_div_le (fc * ss) 2); lia).
  assert (0 <= fat_count img * ss) by (destruct (lay_sector Hok); nia).
  unfold fat_addr, in_image. destruct (lay_sector Hok) as [Hs _].
  split_and!; [lia|lia|].
  destruct (Z.leb_spec 0 (get_fat img + 2 * i)), (Z.leb_spec (get_fat img + 2 * i + 2) (img_size img));
    (done || lia).
Qed.

Lemma fat_get_ok i : 0 <= i < fat_count img -> fat_get img i = Ok (fat_entry img i).
Proof. intros Hi. unfold fat_get. by destruct (fat_addr_ok i Hi) as (_ & _ & ->). Qed.

Lemma file_entry_ok i : 0 <= i < count_file_meta_entries img ->
  ss <= file_entry img i /\ file_entry img i + 32 <= get_tag_metadata img.
Proof.
  intros Hi. destruct layout_sums as (? & ? & ? & ? & Ht & _ & _ & _ & _ & Hc & _).
  assert (32 * count_file_meta_entries img <= fm * ss)
    by (rewrite Hc; pose proof (Z.mul_div_le (fm * ss) 32); lia).
  unfold file_entry, get_file_metadata. lia.
Qed.
End layout_facts.

(** ** Changes that leave the header alone *)

Definition same_header (img img' : mem) : Prop :=
  forall a, 0 <= a < 36 -> ld8 img' a = ld8 img a.

Lemma same_header_layout img img' : same_header img img' ->
  fs_sector_count img' = fs_sector_count img /\ fs_sector_size img' = fs_sector_size img /\
  fs_file_meta_sector_count img' = fs_file_meta_sector_count img /\
  fs_tag_meta_sector_count img' = fs_tag_meta_sector_count img /\
  fs_tag_file_sector_count img' = fs_tag_file_sector_count img /\
  fs_fat_sector_count img' = fs_fat_sector_count img.
Proof. intros H. split_and!; apply ld32_frame; intros; apply H; lia. Qed.

(** [hdr_rewrite H] turns every quantity computed from the new header into the
    one computed from the old. *)
Ltac hdr_rewrite H :=
  let E1 := fresh in let E2 := fresh in let E3 := fresh in
  let E4 := fresh in let E5 := fresh in let E6 := fresh in
  destruct (same_header_layout _ _ H) as (E1 & E2 & E3 & E4 & E5 & E6);
  rewrite ?E1, ?E2, ?E3, ?E4, ?E5, ?E6; clear E1 E2 E3 E4 E5 E6.

Section same_header.
Context (img img' : mem) (H : same_header img img').

Lemma sh_file_entry i : file_entry img' i = file_entry img i.
Proof. unfold file_entry, get_file_metadata. by hdr_rewrite H. Qed.
Lemma sh_fat_addr i : fat_addr img' i = fat_addr img i.
Proof. unfold fat_addr, get_fat. by hdr_rewrite H. Qed.
Lemma sh_data_addr i : data_addr img' i = data_addr img i.
Proof. unfold data_addr, get_data. by hdr_rewrite H. Qed.
Lemma sh_fat_count : fat_count img' = fat_count img.
Proof. unfold fat_count. by hdr_rewrite H. Qed.
Lemma sh_count : count_file_meta_entries img' = count_file_meta_entries img.
Proof. unfold count_file_meta_entries. by hdr_rewrite H. Qed.
Lemma sh_img_size : img_size img' = img_size img.
Proof. unfold img_size. by hdr_rewrite H. Qed.
Lemma sh_in_image a n : in_image img' a n = in_image img a n.
Proof. unfold in_image. by rewrite sh_img_size. Qed.
Lemma sh_sector_size : fs_sector_size img' = fs_sector_size img.
Proof. by hdr_rewrite H. Qed.
Lemma sh_layout_ok : layout_ok img -> layout_ok img'.
Proof. intros [H1 H2 H3 H4 H5]. split; by hdr_rewrite H. Qed.

(** Entries and names read the same when their bytes do. *)
Lemma sh_fat_entry i : (forall x, fat_addr img i <= x < fat_addr img i + 2 ->
  ld8 img' x = ld8 img x) -> fat_entry img' i = fat_entry img i.
Proof. intros Hb. unfold fat_entry. rewrite sh_fat_addr. by apply ld16_frame. Qed.

Lemma sh_find_free_fat : (forall i, 0 <= i < fat_count img -> fat_entry img' i = fat_entry img i) ->
  find_free_fat img' = find_free_fat img.
Proof.
  intros Hf. unfold find_free_fat. rewrite sh_fat_count.
  enough (find_up (Z.to_nat (fat_count img)) 0 (fun i => fat_entry img' i =? 0) =
    find_up (Z.to_nat (fat_count img)) 0 (fun i => fat_entry img i =? 0)) as ->; [done|].
  apply find_up_ext. intros i Hi. rewrite Hf; [done|]. lia.
Qed.
End same_header.

Lemma name_eq_frame img img' s a :
  (forall x, a <= x < a + Z.of_nat (length s) + 1 -> ld8 img' x = ld8 img x) ->
  name_eq img' s a = name_eq img s a.
Proof.
  intros H. unfold name_eq. rewrite H by lia.
  assert (bytes_at img' a (length s) = bytes_at img a (length s)) as ->; [|done].
  apply bytes_at_ext. intros i Hi. apply H. lia.
Qed.

(** ** Names in the image *)

(** A name as the image stores it: bytes other than NUL. *)
Definition name_ok (name : list Z) : Prop := Forall (fun c => 0 < c < 256) name.

Lemma name_eq_stored img a name : name_ok name ->
  name_eq (st_bytes img a (name ++ [0])) name a = true.
Proof.
  intros Hn. unfold name_eq. rewrite ld8_st_bytes, length_app. cbn [length].
  rewrite decide_True by lia.
  replace (Z.to_nat (a + Z.of_nat (length name) - a)) with (length name) by lia.
  rewrite lookup_app_r, Nat.sub_diag by lia. cbn. rewrite andb_true_r, bool_decide_eq_true.
  apply list_eq_same_length with (n := length name); [done|apply length_bytes_at|].
  intros k x y Hk Hx Hy. rewrite lookup_bytes_at in Hx by done. injection Hx as <-.
  rewrite ld8_st_bytes, length_app. cbn [length]. rewrite decide_True by lia.
  replace (Z.to_nat (a + Z.of_nat k - a)) with k by lia.
  rewrite lookup_app_l, Hy by done. cbn. apply w8_id. unfold name_ok in Hn. rewrite Forall_lookup in Hn.
  apply Hn in Hy. unfold is_u8. lia.
Qed.

(** At most one name is stored at an address. *)
Lemma name_eq_inj img a s t : name_ok s -> name_ok t ->
  name_eq img s a = true -> name_eq img t a = true -> s = t.
Proof.
  intros Hs Ht [Es%bool_decide_eq_true_1 Zs%Z.eqb_eq]%andb_prop
    [Et%bool_decide_eq_true_1 Zt%Z.eqb_eq]%andb_prop.
  assert (forall u, name_ok u -> Forall (fun c => c <> 0) u) as Hnz
    by (intros u Hu; eapply Forall_impl; [exact Hu|]; cbn; lia).
  apply (cstring_inj img a); unfold cstring; auto.
Qed.

(** A name ends inside its entry, so it is not free. *)
Lemma name_eq_used img a name : name_ok name -> name <> [] -> name_eq img name a = true ->
  ld8 img a <> 0.
Proof.
  intros Hn Hne [E%bool_decide_eq_true_1 _]%andb_prop. destruct name as [|c name]; [done|].
  cbn [length bytes_at seq map] in E. unfold bytes_at in E. cbn in E. rewrite Z.add_0_r in E.
  injection E as E _. inversion Hn as [|? ? H _]. lia.
Qed.

(** ** Files *)

(** [chain img l]: the FAT links the sectors [l] in this order and marks the
    last one with 0xffff. No link leads to sector 0, since an entry 0 is free. *)
Fixpoint chain (img : mem) (l : list Z) : Prop :=
  match l with
  | [] => False
  | i :: l' => 0 <= i < fat_count img /\
      match l' with
      | [] => fat_entry img i = 0xffff
      | j :: _ => fat_entry img i = j /\ j <> 0 /\ chain img l'
      end
  end.

Definition sector (img : mem) (i : Z) : list Z :=
  bytes_at img (data_addr img i) (Z.to_nat (fs_sector_size img)).

(** The bytes of a chain; a file's content is their beginning. *)
Definition chain_bytes (img : mem) (l : list Z) : list Z := concat (map (sector img) l).

(** The entry found under [name] describes a file stored in the sectors [l]. *)
Record file_at (img : mem) (name : list Z) (id : Z) (l : list Z) : Prop := {
  fa_id : get_file_id_from_name img name = id /\ 0 < id <= count_file_meta_entries img;
  fa_first : hd 0xffff l = first_data_sector img (file_entry img (id - 1));
  fa_chain : chain img l;
  fa_size : file_size img (file_entry img (id - 1)) <= Z.of_nat (length l) * fs_sector_size img;
}.

Definition content (img : mem) (id : Z) (l : list Z) : list Z :=
  take (Z.to_nat (file_size img (file_entry img (id - 1)))) (chain_bytes img l).

Lemma chain_range img l i : chain img l -> i ∈ l -> 0 <= i < fat_count img.
Proof.
  induction l as [|j l IH]; [by intros []|]. intros [Hj Hl] [-> |Hi]%elem_of_cons; [done|].
  destruct l as [|k l]; [by apply elem_of_nil in Hi|]. destruct Hl as (_ & _ & Hl). auto.
Qed.

(** One link of a chain. *)
Lemma chain_lookup img l (k : nat) i : chain img l -> l !! k = Some i ->
  match l !! S k with Some j => fat_entry img i = j | None => fat_entry img i = 0xffff end.
Proof.
  revert k; induction l as [|x l IH]; intros k Hc Hk; [done|].
  destruct Hc as [Hx Hl]. destruct k as [|k].
  - injection Hk as ->. destruct l; [done|]. by destruct Hl.
  - cbn in Hk. destruct l as [|y l]; [done|]. destruct Hl as (_ & _ & Hl).
    apply (IH k Hl Hk).
Qed.

Lemma length_sector img i : length (sector img i) = Z.to_nat (fs_sector_size img).
Proof. apply length_bytes_at. Qed.

Lemma length_chain_bytes img l :
  length (chain_bytes img l) = (length l * Z.to_nat (fs_sector_size img))%nat.
Proof.
  unfold chain_bytes. induction l as [|i l IH]; [done|]. cbn.
  by rewrite length_app, length_sector, IH.
Qed.

(** A piece of a sector is a piece of the chain's bytes. *)
Lemma chain_bytes_slice img l (k : nat) i (off n : nat) :
  l !! k = Some i -> (off + n <= Z.to_nat (fs_sector_size img))%nat ->
  take n (drop off (sector img i)) =
  take n (drop (k * Z.to_nat (fs_sector_size img) + off) (chain_bytes img l)).
Proof.
  revert k; induction l as [|x l IH]; intros k Hk Hn; [done|]. unfold chain_bytes. cbn [map concat].
  destruct k as [|k].
  - injection Hk as ->. cbn [Nat.mul Nat.add].
    rewrite drop_app_le, take_app_le by (rewrite ?length_drop, length_sector; lia). done.
  - cbn in Hk. rewrite (IH k Hk Hn). rewrite drop_app_ge by (rewrite length_sector; lia).
    rewrite length_sector. do 2 f_equal. lia.
Qed.

Lemma bytes_at_slice m a n (off c : nat) : (off + c <= n)%nat ->
  bytes_at m (a + Z.of_nat off) c = take c (drop off (bytes_at m a n)).
Proof.
  intros H. apply list_eq_same_length with (n := c).
  - by rewrite length_take, length_drop, length_bytes_at; lia.
  - apply length_bytes_at.
  - intros i x y Hi Hx Hy. rewrite lookup_bytes_at in Hx by done.
    rewrite lookup_take_lt, lookup_drop, lookup_bytes_at in Hy by lia.
    injection Hx as <-. injection Hy as <-. f_equal. lia.
Qed.

(** Two chains from the same sector are the same, so a chain has no sector
    twice. *)
Lemma chain_unique img l : forall l', chain img l -> chain img l' -> layout_ok img ->
  hd_error l = hd_error l' -> l = l'.
Proof.
  induction l as [|i l IH]; intros [|i' l'] Hc Hc' Hok Hh; try done. injection Hh as <-.
  f_equal. destruct Hc as [Hi Hl], Hc' as [_ Hl'].
  pose proof (layout_sums img Hok) as (_ & _ & _ & _ & _ & _ & _ & _ & Hfc & _).
  pose proof (lay_fat Hok) as Hmax.
  destruct l as [|j l], l' as [|j' l']; [done| | |].
  - destruct Hl' as (Hj & _ & Hc'). destruct Hc' as [Hr _]. lia.
  - destruct Hl as (Hj & _ & Hc). destruct Hc as [Hr _]. lia.
  - destruct Hl as (Hj & _ & Hc), Hl' as (Hj' & _ & Hc'). apply IH; [done..|].
    cbn. congruence.
Qed.

Lemma chain_drop img l k : chain img l -> (k < length l)%nat -> chain img (drop k l).
Proof.
  revert k; induction l as [|i l IH]; intros [|k] Hc Hk; cbn in *; [done|lia|done|].
  destruct Hc as [_ Hl]. destruct l as [|j l]; [cbn in Hk; lia|].
  apply IH; [by destruct Hl as (_ & _ & ?)|lia].
Qed.

Lemma chain_NoDup img l : layout_ok img -> chain img l -> NoDup l.
Proof.
  intros Hok Hc. apply NoDup_alt. intros p q x Hp Hq.
  assert (drop p l = drop q l) as E.
  { apply (chain_unique img).
    - apply chain_drop; [done|]. by eapply lookup_lt_Some.
    - apply chain_drop; [done|]. by eapply lookup_lt_Some.
    - done.
    - rewrite (drop_S _ _ _ Hp), (drop_S _ _ _ Hq). done. }
  apply (f_equal length) in E. rewrite !length_drop in E.
  apply lookup_lt_Some in Hp, Hq. lia.
Qed.

Lemma chain_length img l : layout_ok img -> chain img l ->
  Z.of_nat (length l) <= Z.max 0 (fat_count img).
Proof.
  intros Hok Hc.
  assert (l ⊆+ seqZ 0 (fat_count img)) as Hsub.
  { apply NoDup_submseteq; [by eapply chain_NoDup|]. intros x Hx.
    apply elem_of_seqZ. pose proof (chain_range img l x Hc Hx). lia. }
  apply submseteq_length in Hsub. rewrite length_seqZ in Hsub. lia.
Qed.

(** Byte [p] of a chain. *)
Lemma chain_bytes_lookup img l p : 0 < fs_sector_size img -> 0 <= p ->
  chain_bytes img l !! Z.to_nat p =
    i ← l !! Z.to_nat (p / fs_sector_size img);
    Some (ld8 img (data_addr img i + p mod fs_sector_size img)).
Proof.
  intros Hs. set (ss := fs_sector_size img) in *. revert p.
  induction l as [|i l IH]; intros p Hp; [done|]. unfold chain_bytes. cbn [map concat].
  destruct (Z.lt_ge_cases p ss) as [Hlt|Hge].
  - rewrite lookup_app_l by (rewrite length_sector; fold ss; lia).
    rewrite (Z.div_small p ss), (Z.mod_small p ss) by lia. cbn [lookup list_lookup Z.to_nat].
    unfold sector. rewrite lookup_bytes_at by (fold ss; lia).
    by rewrite Z2Nat.id by lia.
  - rewrite lookup_app_r by (rewrite length_sector; fold ss; lia).
    rewrite length_sector. fold ss.
    replace (Z.to_nat p - Z.to_nat ss)%nat with (Z.to_nat (p - ss)) by lia.
    fold (chain_bytes img l). rewrite IH by lia.
    assert (p / ss = (p - ss) / ss + 1) as ->.
    { rewrite <- (Z.div_add (p - ss) 1 ss) by lia. f_equal. lia. }
    assert ((p - ss) mod ss = p mod ss) as ->.
    { rewrite <- (Z.mod_add (p - ss) 1 ss) by lia. f_equal. lia. }
    pose proof (Z.div_pos (p - ss) ss ltac:(lia) ltac:(lia)).
    by replace (Z.to_nat ((p - ss) / ss + 1)) with (S (Z.to_nat ((p - ss) / ss))) by lia.
Qed.

(** ** Changes to the data and to one entry *)

(** [img'] differs from [img] at most in [a .. a+n). *)
Definition only_in (a n : Z) (img img' : mem) : Prop :=
  forall x, x < a \/ a + n <= x -> ld8 img' x = ld8 img x.

Lemma only_in_st_bytes img a l : only_in a (Z.of_nat (length l)) img (st_bytes img a l).
Proof. intros x Hx. rewrite ld8_st_bytes. by rewrite decide_False by lia. Qed.

Lemma only_in_st32 img a v : only_in a 4 img (st32 img a v).
Proof. intros x Hx. by apply ld8_st32_ne. Qed.

Section only_in.
Context (img img' : mem) (a n : Z) (Hin : only_in a n img img').

Lemma only_in_header : 36 <= a -> same_header img img'.
Proof. intros Ha x Hx. apply Hin. lia. Qed.

Lemma only_in_id name : 36 <= a -> (length name < 24)%nat ->
  (forall i, 0 <= i < count_file_meta_entries img ->
     file_entry img i + 32 <= a \/ a + n <= file_entry img i + 8) ->
  get_file_id_from_name img' name = get_file_id_from_name img name.
Proof.
  intros Ha Hlen Hd. pose proof (only_in_header Ha) as Hh.
  unfold get_file_id_from_name. rewrite (sh_count _ _ Hh).
  rewrite (find_up_ext _ _ (fun i => name_eq img' name (name_of (file_entry img' i)))
    (fun i => name_eq img name (name_of (file_entry img i)))); [done|].
  intros i Hi. rewrite (sh_file_entry _ _ Hh). apply name_eq_frame. intros x Hx.
  apply Hin. unfold name_of in Hx. specialize (Hd i ltac:(lia)). lia.
Qed.

Lemma only_in_chain l : layout_ok img -> 36 <= a -> chain img l ->
  a + n <= get_fat img \/ get_data img <= a -> chain img' l.
Proof.
  intros Hok Ha Hc Hd. pose proof (only_in_header Ha) as Hh.
  assert (forall i, 0 <= i < fat_count img -> fat_entry img' i = fat_entry img i) as He.
  { intros i Hi. apply (sh_fat_entry _ _ Hh). intros x Hx. apply Hin.
    destruct (fat_addr_ok img Hok i Hi) as (? & ? & _). lia. }
  induction l as [|i l IH]; [done|]. destruct Hc as [Hi Hl].
  cbn [chain]. rewrite (sh_fat_count _ _ Hh), He by done. split; [done|].
  destruct l as [|j l]; [done|]. destruct Hl as (? & ? & ?). auto.
Qed.

Lemma only_in_file_size fm : a + n <= fm + 4 \/ fm + 8 <= a -> file_size img' fm = file_size img fm.
Proof. intros Hd. apply ld32_frame. intros x Hx. apply Hin. lia. Qed.
Lemma only_in_first fm : a + n <= fm \/ fm + 4 <= a ->
  first_data_sector img' fm = first_data_sector img fm.
Proof. intros Hd. apply ld32_frame. intros x Hx. apply Hin. lia. Qed.

Lemma only_in_chain_bytes l : 36 <= a ->
  Forall (fun i => a + n <= data_addr img i \/ data_addr img i + fs_sector_size img <= a) l ->
  0 <= fs_sector_size img -> chain_bytes img' l = chain_bytes img l.
Proof.
  intros Ha Hl Hss. pose proof (only_in_header Ha) as Hh. unfold chain_bytes. f_equal.
  apply map_ext_Forall. eapply Forall_impl; [exact Hl|]. intros i Hi. cbn in Hi. unfold sector.
  rewrite (sh_sector_size _ _ Hh), (sh_data_addr _ _ Hh). apply bytes_at_ext.
  intros k Hk. apply Hin. lia.
Qed.
End only_in.

(** What one byte of a chain becomes when a sector is overwritten in part. *)
Definition splice (o : Z) (data old : list Z) : list Z :=
  take (Z.to_nat o) old ++ data ++ drop (Z.to_nat o + length data) old.

Lemma splice_lookup o data old (p : nat) : 0 <= o ->
  (Z.to_nat o + length data <= length old)%nat ->
  splice o data old !! p =
    if decide (Z.to_nat o <= p < Z.to_nat o + length data)%nat
    then data !! (p - Z.to_nat o)%nat else old !! p.
Proof.
  intros Ho Hlen. unfold splice. case_decide as E.
  - rewrite lookup_app_r by (rewrite length_take; lia). rewrite length_take.
    rewrite lookup_app_l by lia. f_equal. lia.
  - destruct (decide (p < Z.to_nat o)%nat).
    + rewrite lookup_app_l by (rewrite length_take; lia). by rewrite lookup_take_lt by lia.
    + rewrite lookup_app_r by (rewrite length_take; lia). rewrite length_take.
      rewrite lookup_app_r by lia. rewrite lookup_drop. f_equal. lia.
Qed.

(** The byte [p] of a chain and the [k]-th sector of [ss] bytes of it. *)
Lemma sector_inside p k ss : 0 < ss -> p / ss = k -> p = k * ss + p mod ss.
Proof. intros Hss <-. rewrite (Z.div_mod p ss) at 1 by lia. ring. Qed.

Lemma sector_apart p k ss : 0 < ss -> p / ss <> k -> p < k * ss \/ k * ss + ss <= p.
Proof.
  intros Hss Hne. pose proof (Z.div_mod p ss ltac:(lia)). pose proof (Z.mod_pos_bound p ss Hss).
  destruct (Z.lt_ge_cases (p / ss) k); [left|right]; nia.
Qed.

Lemma overwrite_chain_bytes img l (k : nat) i off data :
  layout_ok img -> chain img l -> l !! k = Some i -> 0 <= off ->
  off + Z.of_nat (length data) <= fs_sector_size img -> Forall is_u8 data ->
  chain_bytes (st_bytes img (data_addr img i + off) data) l =
    splice (Z.of_nat k * fs_sector_size img + off) data (chain_bytes img l).
Proof.
  intros Hok Hc Hk Hoff Hlen Hbytes. destruct (lay_sector Hok) as [Hss _].
  pose proof (chain_NoDup img l Hok Hc) as Hnd.
  assert (0 <= i < fat_count img) as Hi.
  { eapply chain_range; [done|]. by eapply list_elem_of_lookup_2. }
  pose proof (layout_sums img Hok) as (? & ? & ? & ? & _ & _ & _ & Hd & _ & _ & _ & He & Hmax).
  destruct (data_addr_ok img Hok i Hi) as [Hai _].
  destruct (data_start img Hok i Hi) as (Hst & _ & _).
  set (ss := fs_sector_size img) in *.
  set (img' := st_bytes _ _ data). pose proof (only_in_st_bytes img (data_addr img i + off) data) as Hin.
  fold img' in Hin. assert (same_header img img') as Hh by (apply (only_in_header _ _ _ _ Hin); lia).
  assert (Hlk := lookup_lt_Some _ _ _ Hk).
  assert (Z.of_nat k * ss + ss <= Z.of_nat (length l) * ss) by nia.
  assert (length (chain_bytes img l) = Z.to_nat (Z.of_nat (length l) * ss)) as Hcl
    by (rewrite length_chain_bytes; fold ss; nia).
  assert (length (chain_bytes img' l) = length (chain_bytes img l)) as Hcl'
    by (rewrite !length_chain_bytes; by rewrite (sh_sector_size _ _ Hh)).
  assert (0 <= Z.of_nat k * ss) by nia.
  apply list_eq. intros p. rewrite splice_lookup by lia.
  destruct (decide (p < length (chain_bytes img l))%nat) as [Hp|Hp].
  2:{ rewrite decide_False by lia. rewrite !lookup_ge_None_2 by lia. done. }
  pose proof (chain_bytes_lookup img l (Z.of_nat p) ltac:(fold ss; lia) ltac:(lia)) as E1.
  pose proof (chain_bytes_lookup img' l (Z.of_nat p)) as E2.
  rewrite (sh_sector_size _ _ Hh) in E2. fold ss in E1, E2.
  specialize (E2 ltac:(lia) ltac:(lia)). rewrite Nat2Z.id in E1, E2. rewrite E1, E2.
  pose proof (Z.mod_pos_bound (Z.of_nat p) ss ltac:(lia)) as Hm.
  assert (0 <= Z.of_nat p / ss) as Hq by (apply Z.div_pos; lia).
  destruct (lookup_lt_is_Some_2 l (Z.to_nat (Z.of_nat p / ss))) as [j Hj].
  { assert (Z.of_nat p / ss < Z.of_nat (length l)) by (apply Z.div_lt_upper_bound; nia). lia. }
  rewrite Hj. cbn [mbind option_bind]. rewrite (sh_data_addr _ _ Hh).
  unfold img'. rewrite ld8_st_bytes.
  destruct (decide (j = i)) as [-> |Hji].
  - assert (Z.to_nat (Z.of_nat p / ss) = k) as Ek by (by eapply NoDup_lookup).
    assert (Z.of_nat p = Z.of_nat k * ss + Z.of_nat p mod ss) as Ep.
    { apply sector_inside; lia. }
    do 2 case_decide; try lia; [|done].
    replace (Z.to_nat (data_addr img i + Z.of_nat p mod ss - (data_addr img i + off)))
      with (p - Z.to_nat (Z.of_nat k * ss + off))%nat by lia.
    destruct (lookup_lt_is_Some_2 data (p - Z.to_nat (Z.of_nat k * ss + off))) as [b Hb]; [lia|].
    rewrite Hb. cbn. rewrite w8_id; [done|]. rewrite Forall_lookup in Hbytes. eauto.
  - assert (Z.to_nat (Z.of_nat p / ss) <> k) as Ek by (intros <-; congruence).
    assert (Z.of_nat p < Z.of_nat k * ss \/ Z.of_nat k * ss + ss <= Z.of_nat p) as Hout.
    { apply sector_apart; lia. }
    assert (0 <= j < fat_count img) as Hjr.
    { eapply chain_range; [done|]. by eapply list_elem_of_lookup_2. }
    pose proof (sectors_apart img Hok i j Hi Hjr ltac:(done)) as Hap. fold ss in Hap.
    do 2 case_decide; (lia || done).
Qed.

Section fat_set.
Context (img : mem) (Hok : layout_ok img).

(** Setting one entry of the FAT: that entry changes, nothing else does. *)
Lemma fat_set_ok i v : 0 <= i < fat_count img ->
  exists img', fat_set img i v = Ok img' /\ layout_ok img' /\ same_header img img' /\
    only_in (fat_addr img i) 2 img img' /\
    forall k, 0 <= k < fat_count img ->
      fat_entry img' k = if k =? i then w16 v else fat_entry img k.
Proof.
  intros Hi. destruct (fat_addr_ok img Hok i Hi) as (H1 & H2 & Hin).
  unfold fat_set. rewrite Hin. res_step. eexists; split; [done|].
  assert (only_in (fat_addr img i) 2 img (st16 img (fat_addr img i) v)) as Ho
    by (intros x Hx; apply ld8_st16_ne; lia).
  pose proof (layout_sums img Hok) as (?&?&?&?&_&_&Hfat&_). destruct (lay_sector Hok) as [Hss _].
  assert (same_header img (st16 img (fat_addr img i) v)) as Hh.
  { apply (only_in_header _ _ _ _ Ho). lia. }
  split_and!; [by apply (sh_layout_ok _ _ Hh)|done|done|]. intros k Hk.
  unfold fat_entry. rewrite (sh_fat_addr _ _ Hh). destruct (Z.eqb_spec k i) as [-> |Hne].
  - apply ld16_st16_eq.
  - apply ld16_frame. intros x Hx. apply Ho. unfold fat_addr in *. lia.
Qed.
End fat_set.
