(* ===== verification/FuseDriver.v ===== *)
(** * The FUSE driver of TagFS (src/tagfs/FUSE_driver/src/tagfs.c)

    The operations that libfuse calls, on the mapped image. A path is the list
    of its characters without the NUL; an operation returns its result, 0 or a
    count or a negated error number, and the new image. [main], which opens the
    image and enters libfuse, is not modelled. *)
From S2P Require Import Prelude Memory TagLayout.

#[local] Open Scope Z_scope.

Definition ENOENT : Z := 2.
Definition ENOSPC : Z := 28.
Definition ENAMETOOLONG : Z := 36.
Definition EBADFD : Z := 77.

Definition S_IFMT : Z := 61440.   (* 0170000 *)
Definition S_IFREG : Z := 32768.  (* 0100000 *)
Definition S_IFDIR : Z := 16384.  (* 0040000 *)
Definition S_IRWXU : Z := 448.
Definition S_IRWXG : Z := 56.
Definition S_IRWXO : Z := 7.
Definition S_ISREG (mode : Z) : bool := Z.land mode S_IFMT =? S_IFREG.

(** The fields of [struct stat] that the driver writes. *)
Record stat : Type := Stat {
  st_ino : Z; st_mode : Z; st_nlink : Z; st_size : Z; st_blksize : Z; st_blocks : Z;
}.

Definition CEIL_DIV (m n : Z) : Z := (m + n - 1) / n.
Definition mode_of (kind : Z) : Z := Z.lor (Z.lor (Z.lor kind S_IRWXU) S_IRWXG) S_IRWXO.

(** ** getattr and readdir *)

Definition tagfs_getattr (img : mem) (path : list Z) (st : stat) : Z * stat :=
  let st := Stat (st_ino st) (st_mode st) 0 (st_size st) 512 (st_blocks st) in
  if bool_decide (path = [47]) then
    let st := Stat (st_ino st) (mode_of S_IFDIR) (st_nlink st) (st_size st) 512 (st_blocks st) in
    (0, for_up (Z.to_nat (count_file_meta_entries img)) 0 (fun i st =>
      let fm := file_entry img i in
      if negb (ld8 img (name_of fm) =? 0) then
        Stat (st_ino st) (st_mode st) (st_nlink st) (st_size st + file_size img fm)
          (st_blksize st) (st_blocks st + CEIL_DIV (file_size img fm) (st_blksize st))
      else st) st)
  else
    let st := Stat (st_ino st) (mode_of S_IFREG) (st_nlink st) (st_size st) 512 (st_blocks st) in
    match find_up (Z.to_nat (count_file_meta_entries img)) 0
            (fun i => name_eq img (tl path) (name_of (file_entry img i))) with
    | Some i =>
        let size := file_size img (file_entry img i) in
        (0, Stat (i + 1) (st_mode st) (st_nlink st) size (st_blksize st)
              (CEIL_DIV size (st_blksize st)))
    | None => (- ENOENT, st)
    end.

(** The calls of [filler]: the address of the name and the [stat]. *)
Definition tagfs_readdir (img : mem) (path : list Z) : Z * list (Z * stat) :=
  if bool_decide (path = [47]) then
    (0, for_up (Z.to_nat (count_file_meta_entries img)) 0 (fun i out =>
      let fm := file_entry img i in
      if negb (file_metadata_entry_is_free img fm)
      then out ++ [(name_of fm, Stat (i + 1) (mode_of S_IFREG) 0 (file_size img fm) 0 0)]
      else out) [])
  else (0, []).

(** ** read *)

(** [for (; count > 0; count--)]: follow the FAT; None stands for the early
    [return -EBADFD]. *)
Definition skip_body (img : mem) (st : Z * Z) : res (step (Z * Z) (option Z)) :=
  let '(count, fat_index) := st in
  if 0 <? count then
    next ← fat_get img fat_index;
    if next =? 0xffff then Ok (Stop None) else Ok (Next (count - 1, next))
  else Ok (Stop (Some fat_index)).

(** The loop over the sectors after the first: [buf_index], [fat_index] and the
    bytes copied so far. *)
Definition read_body (img : mem) (size filesize : Z) (st : Z * Z * list Z)
  : res (step (Z * Z * list Z) (Z * list Z)) :=
  let '(buf_index, fat_index, buf) := st in
  if buf_index <? size then
    if filesize <=? buf_index then Ok (Stop (buf_index, buf)) else
    fat_index ← fat_get img fat_index;
    let bytes_to_read :=
      if size <=? buf_index + fs_sector_size img then size - buf_index else fs_sector_size img in
    bytes ← img_read img (data_addr img fat_index) bytes_to_read;
    Ok (Next (buf_index + bytes_to_read, fat_index, buf ++ bytes))
  else Ok (Stop (buf_index, buf)).

(** Returns the result and what was copied to [buf]. *)
Definition tagfs_read (fuel : nat) (img : mem) (path : list Z) (size offset : Z)
  : res (Z * list Z) :=
  let file_id := get_file_id_from_name img (tl path) in
  if file_id =? 0 then Ok (- ENOENT, []) else
  let this := file_entry img (file_id - 1) in
  if file_size img this <=? offset then Ok (0, []) else
  let sector_skip_count := s32 (offset / fs_sector_size img) in
  let byte_skip_count := s32 (offset mod fs_sector_size img) in
  skipped ← loop fuel (skip_body img) (sector_skip_count, s32 (first_data_sector img this));
  match skipped with
  | None => Ok (- EBADFD, [])
  | Some fat_index =>
      let room := w32 (fs_sector_size img - byte_skip_count) in
      if size <=? room then
        bytes ← img_read img (data_addr img fat_index + byte_skip_count) size;
        Ok (s32 size, bytes)
      else
        bytes ← img_read img (data_addr img fat_index + byte_skip_count) room;
        '(n, buf) ← loop fuel (read_body img size (file_size img this)) (room, fat_index, bytes);
        Ok (s32 n, buf)
  end.

(** ** mknod *)

Definition tagfs_mknod (img : mem) (path : list Z) (mode : Z) : Z * mem :=
  let path := tl path in
  if S_ISREG mode then
    if 24 <=? Z.of_nat (length path) then (- ENAMETOOLONG, img) else
    match find_up (Z.to_nat (count_file_meta_entries img)) 0
            (fun i => file_metadata_entry_is_free img (file_entry img i)) with
    | None => (- ENOSPC, img)
    | Some i =>
        let this := file_entry img i in
        let img := st32 img this 0xffff in
        let img := st32 img (this + 4) 0 in
        (0, st_bytes img (name_of this) (path ++ [0]))
    end
  else (-38, img).

(** ** write *)

(** The loop over the sectors after the first. The [fat_index] it declares
    hides the outer one. *)
Definition write_body (buf : list Z) (size : Z) (st : Z * mem)
  : res (step (Z * mem) (bool * Z * mem)) :=
  let '(buf_index, img) := st in
  if buf_index <? size then
    let fat_index := find_free_fat img in
    if fat_index =? -1 then Ok (Stop (false, buf_index, img)) else
    let bytes_to_write :=
      if size <=? buf_index + fs_sector_size img then size - buf_index else fs_sector_size img in
    img ← img_write img (data_addr img fat_index)
            (take (Z.to_nat bytes_to_write) (drop (Z.to_nat buf_index) buf));
    Ok (Next (buf_index + bytes_to_write, img))
  else Ok (Stop (true, buf_index, img)).

(** [if (end > size) size = end;] *)
Definition grow_size (img : mem) (this end_ : Z) : mem :=
  if file_size img this <? w64 end_ then st32 img (this + 4) end_ else img.

(** The data, from the position in the chain on. *)
Definition tagfs_write_data (fuel : nat) (img : mem) (this fat_index byte_skip_count : Z) (buf : list Z)
    (size offset : Z) : res (Z * mem) :=
  let room := w32 (fs_sector_size img - byte_skip_count) in
  if size <=? room then
    img ← img_write img (data_addr img fat_index + byte_skip_count) (take (Z.to_nat size) buf);
    entry ← fat_get img fat_index;
    img ← (if entry =? 0 then fat_set img fat_index 0xffff else Ok img);
    Ok (s32 size, grow_size img this (offset + size))
  else
    img ← img_write img (data_addr img fat_index + byte_skip_count) (take (Z.to_nat room) buf);
    '(finished, buf_index, img) ← loop fuel (write_body buf size) (room, img);
    if (finished : bool)
    then Ok (s32 buf_index, grow_size img this (offset + buf_index))
    else Ok (s32 buf_index, img).

Definition tagfs_write (fuel : nat) (img : mem) (path : list Z) (buf : list Z)
    (size offset : Z) : res (Z * mem) :=
  let file_id := get_file_id_from_name img (tl path) in
  if file_id =? 0 then Ok (- ENOENT, img) else
  let this := file_entry img (file_id - 1) in
  let start :=
    if first_data_sector img this =? 0xffff then
      let fat_index := find_free_fat img in
      if fat_index =? -1 then None else Some (fat_index, st32 img this fat_index)
    else Some (s32 (first_data_sector img this), img) in
  match start with
  | None => Ok (0, img)
  | Some (fat_index, img) =>
  let filesize := file_size img this in
  let '(skip_count, byte_skip_count) :=
    if offset <? filesize
    then (s32 (offset / fs_sector_size img), s32 (offset mod fs_sector_size img))
    else (s32 (filesize / fs_sector_size img), s32 (filesize mod fs_sector_size img)) in
  skipped ← loop fuel (skip_body img) (skip_count, fat_index);
  match skipped with
  | None => Ok (- EBADFD, img)
  | Some fat_index => tagfs_write_data fuel img this fat_index byte_skip_count buf size offset
  end
  end.

(** ** unlink *)

Definition unlink_body (st : Z * mem) : res (step (Z * mem) mem) :=
  let '(fat_index, img) := st in
  old_fat_entry ← fat_get img fat_index;
  img ← fat_set img fat_index 0;
  if old_fat_entry =? 0xffff then Ok (Stop img) else
  fat_index ← fat_get img fat_index;
  Ok (Next (fat_index, img)).

Definition tagfs_unlink (fuel : nat) (img : mem) (name : list Z) : res (Z * mem) :=
  let file_id := get_file_id_from_name img (tl name) in
  if file_id =? -1 then Ok (- ENOENT, img) else
  let this := file_entry img (file_id - 1) in
  let img := st8 img (name_of this) 0 in
  if first_data_sector img this =? 0xffff then Ok (0, img) else
  img ← loop fuel unlink_body (s32 (first_data_sector img this), img);
  Ok (0, img).

(** ** Following a chain *)

Section chains.
Context (img : mem) (Hok : layout_ok img).

Lemma fat_get_chain l (k : nat) i : chain img l -> l !! k = Some i ->
  fat_get img i = Ok (fat_entry img i).
Proof.
  intros Hc Hk. apply fat_get_ok; [done|]. eapply chain_range; [done|].
  by eapply list_elem_of_lookup_2.
Qed.

(** Skipping [c] sectors from position [k] of the chain arrives at position
    [k + c], or reports that the chain ended. *)
Lemma skip_ok l : chain img l -> forall (c k : nat) i fuel, l !! k = Some i -> (c < fuel)%nat ->
  loop fuel (skip_body img) (Z.of_nat c, i) = Ok (l !! (k + c)%nat).
Proof.
  intros Hc c. induction c as [|c IH]; intros k i [|fuel] Hk Hf; try lia; cbn [loop skip_body].
  - cbn. by rewrite Nat.add_0_r, Hk.
  - destruct (Z.ltb_spec 0 (Z.of_nat (S c))); [|lia].
    rewrite (fat_get_chain l k i Hc Hk), bind_Ok_r.
    pose proof (chain_lookup img l k i Hc Hk) as Hn.
    destruct (l !! S k) as [j|] eqn:Hj.
    + rewrite Hn. assert (0 <= j < fat_count img) as Hr.
      { eapply chain_range; [done|]. by eapply list_elem_of_lookup_2. }
      pose proof (layout_sums img Hok) as (_ & _ & _ & _ & _ & _ & _ & _ & Hfc & _).
      pose proof (lay_fat Hok). destruct (Z.eqb_spec j 0xffff); [lia|].
      replace (Z.of_nat (S c) - 1) with (Z.of_nat c) by lia.
      rewrite (IH (S k) j) by (done || lia). do 2 f_equal. lia.
    + rewrite Hn. cbn. rewrite lookup_ge_None_2; [done|].
      apply lookup_ge_None in Hj. lia.
Qed.

(** Reading part of a sector of the chain. *)
Lemma read_sector l (k : nat) i off n : chain img l -> l !! k = Some i ->
  0 <= off -> 0 <= n -> off + n <= fs_sector_size img ->
  img_read img (data_addr img i + off) n =
    Ok (take (Z.to_nat n) (drop (k * Z.to_nat (fs_sector_size img) + Z.to_nat off)
      (chain_bytes img l))).
Proof.
  intros Hc Hk Ho Hn Hs. assert (0 <= i < fat_count img) as Hr.
  { eapply chain_range; [done|]. by eapply list_elem_of_lookup_2. }
  destruct (data_addr_ok img Hok i Hr) as [Ha Hb].
  pose proof (layout_sums img Hok) as (? & ? & ? & ? & _ & _ & _ & Hd & _).
  destruct (lay_sector Hok) as [Hss _]. assert (0 <= i * fs_sector_size img) by nia.
  unfold img_read, in_image.
  destruct (Z.leb_spec 0 (data_addr img i + off)), (Z.leb_spec (data_addr img i + off + n) (img_size img));
    try lia. cbn [andb]. res_step. f_equal.
  rewrite <- (chain_bytes_slice img l k i) by (done || lia).
  replace off with (Z.of_nat (Z.to_nat off)) at 1 by lia.
  apply bytes_at_slice. lia.
Qed.

(** The loop over the further sectors copies the chain's bytes in order. *)
Lemma read_loop l o size filesize : chain img l -> 0 <= o -> o + size <= filesize ->
  filesize <= Z.of_nat (length l) * fs_sector_size img ->
  forall (left k : nat) i b fuel, l !! k = Some i -> (length l - k <= left)%nat ->
  (left < fuel)%nat -> 0 < b <= size ->
  (b = size \/ o + b = Z.of_nat (S k) * fs_sector_size img) ->
  loop fuel (read_body img size filesize)
    (b, i, take (Z.to_nat b) (drop (Z.to_nat o) (chain_bytes img l))) =
  Ok (size, take (Z.to_nat size) (drop (Z.to_nat o) (chain_bytes img l))).
Proof.
  intros Hc Ho Hof Hfl left. destruct (lay_sector Hok) as [Hss _].
  induction left as [|left IH]; intros k i b [|fuel] Hk Hlen Hf Hb Hpos; try lia.
  { apply lookup_lt_Some in Hk. lia. }
  cbn [loop read_body]. destruct (Z.ltb_spec b size) as [Hlt|Hge].
  2:{ assert (b = size) as -> by lia. done. }
  destruct Hpos as [->|Hpos]; [lia|]. destruct (Z.leb_spec filesize b); [lia|].
  rewrite (fat_get_chain l k i Hc Hk), bind_Ok_r.
  destruct (lookup_lt_is_Some_2 l (S k)) as [j Hj]; [nia|].
  pose proof (chain_lookup img l k i Hc Hk) as Hn. rewrite Hj in Hn. rewrite Hn.
  set (c := if size <=? b + fs_sector_size img then size - b else fs_sector_size img).
  assert (0 < c <= fs_sector_size img /\ b + c <= size /\
    (b + c = size \/ c = fs_sector_size img)) as (Hc1 & Hc2 & Hc3).
  { unfold c. destruct (Z.leb_spec size (b + fs_sector_size img)); lia. }
  rewrite <- (Z.add_0_r (data_addr img j)), (read_sector l (S k)) by (done || lia).
  rewrite bind_Ok_r.
  assert (take (Z.to_nat b) (drop (Z.to_nat o) (chain_bytes img l)) ++
    take (Z.to_nat c) (drop (S k * Z.to_nat (fs_sector_size img) + Z.to_nat 0) (chain_bytes img l))
    = take (Z.to_nat (b + c)) (drop (Z.to_nat o) (chain_bytes img l))) as ->.
  { replace (Z.to_nat (b + c)) with (Z.to_nat b + Z.to_nat c)%nat by lia.
    rewrite <- take_take_drop, drop_drop. do 3 f_equal. nia. }
  apply (IH (S k) j); [done|lia|lia|lia|].
  destruct Hc3 as [?|Hcs]; [by left|right]. rewrite Hcs. lia.
Qed.
End chains.

Section read.
Context (img : mem) (Hok : layout_ok img).

Lemma first_in_range name id l : file_at img name id l ->
  s32 (first_data_sector img (file_entry img (id - 1))) =
    first_data_sector img (file_entry img (id - 1)) /\
  l !! 0%nat = Some (first_data_sector img (file_entry img (id - 1))).
Proof.
  intros [_ Hf Hc _]. destruct l as [|i l]; [done|]. cbn in Hf. rewrite <- Hf.
  destruct Hc as [Hi _]. pose proof (layout_sums img Hok) as (_&_&_&_&_&_&_&_&Hfc&_).
  pose proof (lay_fat Hok). split; [|done]. apply s32_id. lia.
Qed.

Lemma tagfs_read_ok name id l fuel n o : file_at img (tl name) id l ->
  0 <= o -> 0 < n -> o + n <= file_size img (file_entry img (id - 1)) -> n < 2147483648 ->
  (length l + 1 < fuel)%nat ->
  tagfs_read fuel img name n o =
    Ok (n, take (Z.to_nat n) (drop (Z.to_nat o) (chain_bytes img l))).
Proof.
  intros Hfa Ho Hn Hsz Hmax Hf. pose proof (first_in_range _ _ _ Hfa) as [Hs0 H0].
  pose proof Hfa as [[Hid Hidr] _ Hc Hfs]. unfold tagfs_read. rewrite Hid.
  destruct (Z.eqb_spec id 0); [lia|]. cbv zeta.
  set (this := file_entry img (id - 1)) in *.
  destruct (Z.leb_spec (file_size img this) o); [lia|].
  destruct (lay_sector Hok) as [Hss _]. pose proof (ld32_range img (this + 4)) as Hr.
  fold (file_size img this) in Hr. rewrite Hs0.
  set (ss := fs_sector_size img) in *.
  assert (0 <= o / ss /\ o / ss < 2147483648) as [Hq0 Hq1].
  { split; [apply Z.div_pos; lia|]. apply Z.div_lt_upper_bound; nia. }
  pose proof (Z.mod_pos_bound o ss ltac:(lia)) as Hm. pose proof (Z.div_mod o ss ltac:(lia)) as Hdm.
  pose proof (ld32_range img 12) as Hssr. fold (fs_sector_size img) in Hssr. fold ss in Hssr.
  assert (ss < 2147483648) as Hssm.
  { pose proof (layout_sums img Hok) as (? & ? & ? & ? & _ & _ & _ & Hd & _ & _ & _ & He & Hi).
    fold ss in Hd, He. assert (0 <= fat_count img * ss); [|lia].
    assert (0 <= fat_count img); [|nia]. pose proof (first_in_range _ _ _ Hfa) as [_ Hx].
    pose proof (chain_range img l _ Hc (list_elem_of_lookup_2 _ _ _ Hx)). lia. }
  rewrite !s32_id by lia.
  destruct (lookup_lt_is_Some_2 l (Z.to_nat (o / ss))) as [i Hi]; [nia|].
  replace (o / ss) with (Z.of_nat (Z.to_nat (o / ss))) at 1 by lia.
  rewrite (skip_ok img Hok l Hc _ 0 _ fuel H0), bind_Ok_r by (apply lookup_lt_Some in Hi; lia).
  cbn [Nat.add]. rewrite Hi. rewrite w32_id by (unfold is_u32; lia).
  assert (Z.to_nat (o / ss) * Z.to_nat ss + Z.to_nat (o mod ss) = Z.to_nat o)%nat as Epos by nia.
  destruct (Z.leb_spec n (ss - o mod ss)).
  - rewrite (read_sector img Hok l (Z.to_nat (o / ss)) i (o mod ss) n) by (done || lia).
    rewrite bind_Ok_r. fold ss. by rewrite Epos.
  - rewrite (read_sector img Hok l (Z.to_nat (o / ss)) i) by (done || lia).
    rewrite bind_Ok_r. fold ss. rewrite Epos.
    rewrite (read_loop img Hok l o n (file_size img this)
      Hc Ho Hsz Hfs (length l) (Z.to_nat (o / ss)) i); [|done|lia|lia|lia|].
    + rewrite bind_Ok_r. cbv beta iota. by rewrite s32_id by lia.
    + right. fold ss. rewrite Nat2Z.inj_succ, Z2Nat.id by lia. lia.
Qed.
End read.

(** ** Writing inside a file *)

Section write.
Context (img : mem) (Hok : layout_ok img).

Lemma file_entry_place i : 0 <= i < count_file_meta_entries img ->
  32 <= file_entry img i /\ file_entry img i + 32 <= get_tag_metadata img.
Proof.
  intros Hi. pose proof (file_entry_ok img Hok i Hi). destruct (lay_sector Hok). lia.
Qed.

(** Changing the size of one entry keeps every name and every chain. *)
Lemma grow_size_keeps i e name : 0 <= i < count_file_meta_entries img ->
  (length name < 24)%nat -> 0 <= e < 4294967296 ->
  let img' := grow_size img (file_entry img i) e in
  only_in (file_entry img i + 4) 4 img img' /\ layout_ok img' /\
  get_file_id_from_name img' name = get_file_id_from_name img name /\
  file_size img' (file_entry img i) = Z.max (file_size img (file_entry img i)) e.
Proof.
  intros Hi Hn He. cbv zeta. destruct (file_entry_place i Hi) as [Hp1 Hp2].
  assert (only_in (file_entry img i + 4) 4 img (grow_size img (file_entry img i) e)) as Hin.
  { unfold grow_size. destruct (_ <? _); [apply only_in_st32|done]. }
  assert (same_header img (grow_size img (file_entry img i) e)) as Hh
    by (apply (only_in_header _ _ _ _ Hin); lia).
  split_and!; [done|by apply (sh_layout_ok _ _ Hh)| |].
  - apply (only_in_id _ _ _ _ Hin); [lia|done|]. intros j Hj.
    unfold file_entry. lia.
  - unfold grow_size, w64. rewrite Z.mod_small by lia.
    destruct (Z.ltb_spec (file_size img (file_entry img i)) e); [|lia].
    unfold file_size at 1. rewrite ld32_st32_eq, w32_id by (unfold is_u32; lia). lia.
Qed.

(** Changing bytes of a data sector keeps every name, entry and chain. *)
Lemma data_write_keeps i off data name : 0 <= i < fat_count img -> 0 <= off ->
  (length name < 24)%nat ->
  let img' := st_bytes img (data_addr img i + off) data in
  same_header img img' /\ layout_ok img' /\
  get_file_id_from_name img' name = get_file_id_from_name img name /\
  (forall x, x < get_data img -> ld8 img' x = ld8 img x) /\
  (forall l, chain img l -> chain img' l).
Proof.
  intros Hi Hoff Hn. cbv zeta. set (img' := st_bytes _ _ _).
  pose proof (only_in_st_bytes img (data_addr img i + off) data) as Hin. fold img' in Hin.
  destruct (data_start img Hok i Hi) as (H1 & H2 & H3).
  assert (same_header img img') as Hh by (apply (only_in_header _ _ _ _ Hin); lia).
  split_and!; [done|by apply (sh_layout_ok _ _ Hh)| | |].
  - apply (only_in_id _ _ _ _ Hin); [lia|done|]. intros j Hj.
    destruct (file_entry_place j Hj). lia.
  - intros x Hx. apply Hin. lia.
  - intros l Hc. apply (only_in_chain _ _ _ _ Hin); [done|lia|done|]. lia.
Qed.

(** Where an offset inside a file falls: the sector of the chain. *)
Lemma offset_place name id l o : file_at img name id l -> 0 <= o ->
  o < file_size img (file_entry img (id - 1)) ->
  exists i, l !! Z.to_nat (o / fs_sector_size img) = Some i /\ 0 <= i < fat_count img /\
    0 <= o / fs_sector_size img < 2147483648 /\ fs_sector_size img < 2147483648 /\
    0 <= o mod fs_sector_size img < fs_sector_size img.
Proof.
  intros Hfa Ho Hlt. pose proof (first_in_range img Hok _ _ _ Hfa) as [_ Hx].
  destruct Hfa as [_ _ Hc Hfs]. destruct (lay_sector Hok) as [Hss _].
  pose proof (ld32_range img (file_entry img (id - 1) + 4)) as Hr.
  fold (file_size img (file_entry img (id - 1))) in Hr.
  pose proof (chain_range img l _ Hc (list_elem_of_lookup_2 _ _ _ Hx)) as H0.
  pose proof (layout_sums img Hok) as (? & ? & ? & ? & _ & _ & _ & Hd & _ & _ & _ & He & Hi).
  set (ss := fs_sector_size img) in *.
  assert (ss <= fat_count img * ss) by nia.
  assert (0 <= o / ss /\ o / ss < Z.of_nat (length l) /\ o / ss < 2147483648) as (? & ? & ?).
  { split_and!; [apply Z.div_pos; lia|apply Z.div_lt_upper_bound; nia..]. }
  destruct (lookup_lt_is_Some_2 l (Z.to_nat (o / ss))) as [i Hl]; [lia|].
  exists i. split; [done|]. split; [eapply chain_range; [done|]; by eapply list_elem_of_lookup_2|].
  pose proof (Z.mod_pos_bound o ss). lia.
Qed.

(** A chain has no free entry, and starts below 0xffff. *)
Lemma chain_entry_used l (k : nat) i : chain img l -> l !! k = Some i -> fat_entry img i <> 0.
Proof.
  intros Hc. revert k; induction l as [|x l IH]; intros [|k] Hk; try done.
  - injection Hk as ->. destruct Hc as [_ Hl]. destruct l as [|y l]; [lia|].
    destruct Hl as (-> & Hy & _). done.
  - destruct Hc as [_ Hl]. destruct l as [|y l]; [done|]. destruct Hl as (_ & _ & Hl). eauto.
Qed.

(** Writing into a sector of the data. *)
Lemma img_write_sector i off bytes : 0 <= i < fat_count img -> 0 <= off ->
  off + Z.of_nat (length bytes) <= fs_sector_size img ->
  img_write img (data_addr img i + off) bytes = Ok (st_bytes img (data_addr img i + off) bytes).
Proof.
  intros Hi Hoff Hlen. destruct (data_addr_ok img Hok i Hi) as [Ha Hb].
  pose proof (data_start img Hok i Hi) as (Hst & _).
  pose proof (layout_sums img Hok) as (_&_&_&_&_&_&_&_&_&_&Hsz&He&Hmax). unfold img_write, in_image.
  destruct (Z.leb_spec 0 (data_addr img i + off)),
    (Z.leb_spec (data_addr img i + off + Z.of_nat (length bytes)) (img_size img)); try lia.
  done.
Qed.

(** The position of a write: the offset, or the end of the file if it is behind. *)
Definition write_pos (this o : Z) : Z := if o <? file_size img this then o else file_size img this.

Lemma write_pos_range name id l o : file_at img (tl name) id l -> 0 <= o ->
  let pos := write_pos (file_entry img (id - 1)) o in
  0 <= pos <= Z.of_nat (length l) * fs_sector_size img /\ pos <= o /\
  0 <= pos / fs_sector_size img <= Z.of_nat (length l) /\ Z.of_nat (length l) < 2147483648 /\
  0 <= pos mod fs_sector_size img < fs_sector_size img /\ fs_sector_size img < 2147483648.
Proof.
  intros Hfa Ho pos. pose proof (first_in_range img Hok _ _ _ Hfa) as [_ Hx].
  destruct Hfa as [_ _ Hc Hfs]. destruct (lay_sector Hok) as [Hss _].
  pose proof (ld32_range img (file_entry img (id - 1) + 4)) as Hr.
  fold (file_size img (file_entry img (id - 1))) in Hr.
  pose proof (chain_range img l _ Hc (list_elem_of_lookup_2 _ _ _ Hx)) as H0.
  pose proof (chain_length img l Hok Hc) as Hcl.
  pose proof (layout_sums img Hok) as (? & ? & ? & ? & _ & _ & _ & Hd & _ & _ & _ & He & Hi).
  assert (0 <= pos <= Z.of_nat (length l) * fs_sector_size img /\ pos <= o) as [Hp Hpo].
  { unfold pos, write_pos. destruct (Z.ltb_spec o (file_size img (file_entry img (id - 1)))); lia. }
  clearbody pos. set (ss := fs_sector_size img) in *. assert (ss <= fat_count img * ss) by nia.
  pose proof (Z.mod_pos_bound pos ss). split_and!; try lia; [apply Z.div_pos; lia| |nia].
  apply Z.div_le_upper_bound; lia.
Qed.

(** [tagfs_write] of a file with a sector goes to the position's sector, or
    fails when the file ends with its last sector. *)
Lemma tagfs_write_steps name id l fuel buf size o : file_at img (tl name) id l -> 0 <= o ->
  (length l + 1 < fuel)%nat ->
  let this := file_entry img (id - 1) in let pos := write_pos this o in
  tagfs_write fuel img name buf size o =
    match l !! Z.to_nat (pos / fs_sector_size img) with
    | Some i => tagfs_write_data fuel img this i (pos mod fs_sector_size img) buf size o
    | None => Ok (- EBADFD, img)
    end.
Proof.
  intros Hfa Ho Hf this pos. destruct (write_pos_range name id l o Hfa Ho) as (Hp & _ & Hq & Hl & Hm & Hss).
  fold this pos in Hp, Hq, Hm. pose proof (first_in_range img Hok _ _ _ Hfa) as [Hs0 H0].
  destruct Hfa as [[Hid Hidr] _ Hc _]. unfold tagfs_write. rewrite Hid.
  destruct (Z.eqb_spec id 0); [lia|]. cbv zeta. fold this in Hs0, H0 |- *.
  pose proof (chain_range img l _ Hc (list_elem_of_lookup_2 _ _ _ H0)) as Hfr.
  pose proof (layout_sums img Hok) as (_&_&_&_&_&_&_&_&Hfc&_). pose proof (lay_fat Hok).
  destruct (Z.eqb_spec (first_data_sector img this) 0xffff); [lia|]. rewrite Hs0.
  set (ss := fs_sector_size img) in *.
  replace (if o <? file_size img this then (s32 (o / ss), s32 (o mod ss))
    else (s32 (file_size img this / ss), s32 (file_size img this mod ss)))
    with (pos / ss, pos mod ss).
  2:{ unfold pos, write_pos in *. destruct (o <? file_size img this); rewrite !s32_id by lia; done. }
  replace (pos / ss) with (Z.of_nat (Z.to_nat (pos / ss))) at 1 by lia.
  by rewrite (skip_ok img Hok l Hc _ 0 _ fuel H0), bind_Ok_r by lia.
Qed.

(** A write that begins inside the file or at its end, in a sector it has, and
    fits that sector. *)
Lemma tagfs_write_fits name id l fuel buf o i : file_at img (tl name) id l ->
  0 <= o <= file_size img (file_entry img (id - 1)) ->
  l !! Z.to_nat (o / fs_sector_size img) = Some i ->
  o mod fs_sector_size img + Z.of_nat (length buf) <= fs_sector_size img ->
  (length l + 1 < fuel)%nat -> (length (tl name) < 24)%nat ->
  tagfs_write fuel img name buf (Z.of_nat (length buf)) o =
    Ok (Z.of_nat (length buf),
        grow_size (st_bytes img (data_addr img i + o mod fs_sector_size img) buf)
          (file_entry img (id - 1)) (o + Z.of_nat (length buf))).
Proof.
  intros Hfa Ho Hl Hroom Hf Hname. destruct (write_pos_range name id l o Hfa) as (_ & _ & _ & _ & Hm & Hss); [lia|].
  assert (write_pos (file_entry img (id - 1)) o = o) as Hpos
    by (unfold write_pos; destruct (Z.ltb_spec o (file_size img (file_entry img (id - 1)))); lia).
  cbv zeta in Hm. rewrite Hpos in Hm. pose proof Hfa as [_ _ Hc _].
  rewrite (tagfs_write_steps name id l) by (done || lia). cbv zeta. rewrite Hpos, Hl.
  assert (0 <= i < fat_count img) as Hi
    by (eapply chain_range; [done|]; by eapply list_elem_of_lookup_2).
  unfold tagfs_write_data. set (ss := fs_sector_size img) in *.
  rewrite w32_id by (unfold is_u32; lia).
  destruct (Z.leb_spec (Z.of_nat (length buf)) (ss - o mod ss)); [|lia].
  rewrite Nat2Z.id, take_ge by lia.
  rewrite img_write_sector, bind_Ok_r by (fold ss; done || lia).
  destruct (data_start img Hok i Hi) as (Hst & _).
  destruct (data_write_keeps i (o mod ss) buf (tl name) Hi ltac:(lia) Hname)
    as (Hh & Hok' & _ & Hlow & Hck).
  rewrite (fat_get_chain _ Hok' l (Z.to_nat (o / ss)) i) by (try done; by apply Hck).
  rewrite bind_Ok_r.
  destruct (Z.eqb_spec (fat_entry (st_bytes img (data_addr img i + o mod ss) buf) i) 0) as [E|_].
  { exfalso. destruct (fat_addr_ok img Hok i Hi) as (_ & Hfa2 & _).
    rewrite (sh_fat_entry _ _ Hh i) in E by (intros x Hx; apply Hlow; lia).
    by apply (chain_entry_used l _ i Hc Hl) in E. }
  by rewrite bind_Ok_r, s32_id by lia.
Qed.

Lemma tagfs_write_place name id l fuel buf o : file_at img (tl name) id l ->
  0 <= o < file_size img (file_entry img (id - 1)) -> (0 < length buf)%nat ->
  o mod fs_sector_size img + Z.of_nat (length buf) <= fs_sector_size img ->
  (length l + 1 < fuel)%nat -> (length (tl name) < 24)%nat ->
  exists i, l !! Z.to_nat (o / fs_sector_size img) = Some i /\
    tagfs_write fuel img name buf (Z.of_nat (length buf)) o =
      Ok (Z.of_nat (length buf),
          grow_size (st_bytes img (data_addr img i + o mod fs_sector_size img) buf)
            (file_entry img (id - 1)) (o + Z.of_nat (length buf))).
Proof.
  intros Hfa Ho Hn Hroom Hf Hname.
  destruct (offset_place _ _ _ o Hfa) as (i & Hl & _); [lia..|].
  exists i. split; [done|]. apply (tagfs_write_fits name id l); (done || lia).
Qed.
End write.

(** Growing the size of a file entry keeps files and chains. *)
Lemma grow_size_file img name id l e : layout_ok img -> file_at img name id l ->
  (length name < 24)%nat -> 0 <= e < 4294967296 ->
  e <= Z.of_nat (length l) * fs_sector_size img ->
  let img' := grow_size img (file_entry img (id - 1)) e in
  layout_ok img' /\ same_header img img' /\ file_at img' name id l /\
  file_size img' (file_entry img' (id - 1)) = Z.max (file_size img (file_entry img (id - 1))) e /\
  forall l', chain img l' -> chain img' l' /\ chain_bytes img' l' = chain_bytes img l'.
Proof.
  intros Hok Hfa Hname He Hel. cbv zeta. pose proof Hfa as [[Hid Hidr] Hfd Hc Hfs].
  destruct (grow_size_keeps img Hok (id - 1) e name ltac:(lia) Hname He) as (Hin & Hok' & Hid' & Hsz').
  set (img' := grow_size img (file_entry img (id - 1)) e) in *.
  destruct (file_entry_place img Hok (id - 1)) as [Hp1 Hp2]; [lia|].
  assert (same_header img img') as Hh by (apply (only_in_header _ _ _ _ Hin); lia).
  pose proof (layout_sums img Hok) as (? & ? & ? & ? & Ht & Htf & Hfat & Hd & _).
  assert (forall l', chain img l' -> chain img' l' /\ chain_bytes img' l' = chain_bytes img l') as Hkeep.
  { intros l' Hc'. split.
    - apply (only_in_chain _ _ _ _ Hin); [done|lia|done|lia].
    - apply (only_in_chain_bytes _ _ _ _ Hin); [lia| |destruct (lay_sector Hok); lia].
      apply Forall_forall. intros j Hj.
      destruct (data_start img Hok j) as (_ & Hds & _); [by eapply chain_range|lia]. }
  split_and!; [done|done| |by rewrite (sh_file_entry _ _ Hh)|done].
  split; rewrite ?(sh_file_entry _ _ Hh), ?(sh_count _ _ Hh), ?(sh_sector_size _ _ Hh).
  - by rewrite Hid'.
  - rewrite Hfd. symmetry. apply (only_in_first _ _ _ _ Hin). lia.
  - by apply Hkeep.
  - rewrite Hsz'. lia.
Qed.

(** Overwriting bytes of one of its sectors keeps a file where it is. *)
Lemma data_write_file img name id l (k : nat) i off data : layout_ok img ->
  file_at img name id l -> (length name < 24)%nat -> l !! k = Some i -> 0 <= off ->
  off + Z.of_nat (length data) <= fs_sector_size img ->
  let img' := st_bytes img (data_addr img i + off) data in
  layout_ok img' /\ same_header img img' /\ file_at img' name id l /\
  file_size img' (file_entry img' (id - 1)) = file_size img (file_entry img (id - 1)) /\
  forall l', chain img l' -> l ## l' -> chain img' l' /\ chain_bytes img' l' = chain_bytes img l'.
Proof.
  intros Hok Hfa Hname Hk Hoff Hlen. cbv zeta. pose proof Hfa as [[Hid Hidr] Hfd Hc Hfs].
  assert (i ∈ l) as Hil by (by eapply list_elem_of_lookup_2).
  pose proof (chain_range img l i Hc Hil) as Hi.
  destruct (data_write_keeps img Hok i off data name Hi Hoff Hname) as (Hh & Hok' & Hid' & Hlow & Hck).
  pose proof (only_in_st_bytes img (data_addr img i + off) data) as Hin.
  set (img' := st_bytes img (data_addr img i + off) data) in *.
  destruct (file_entry_place img Hok (id - 1)) as [Hp1 Hp2]; [lia|].
  destruct (data_start img Hok i Hi) as (Hs1 & Hs2 & Hs3).
  pose proof (layout_sums img Hok) as (? & ? & ? & ? & Ht & Htf & Hfat & Hd & _).
  assert (file_size img' (file_entry img (id - 1)) = file_size img (file_entry img (id - 1))) as Hsz
    by (apply (only_in_file_size _ _ _ _ Hin); lia).
  split_and!; [done|done| |by rewrite (sh_file_entry _ _ Hh)|].
  - split; rewrite ?(sh_file_entry _ _ Hh), ?(sh_count _ _ Hh), ?(sh_sector_size _ _ Hh).
    + by rewrite Hid'.
    + rewrite Hfd. symmetry. apply (only_in_first _ _ _ _ Hin). lia.
    + by apply Hck.
    + by rewrite Hsz.
  - intros l' Hc' Hdis. split; [by apply Hck|].
    apply (only_in_chain_bytes _ _ _ _ Hin); [lia| |destruct (lay_sector Hok); lia].
    apply Forall_forall. intros j Hj. assert (i <> j) as Hij by (intros ->; by apply (Hdis j)).
    destruct (sectors_apart img Hok i j Hi (chain_range img l' j Hc' Hj) Hij); lia.
Qed.

(** A write that fits its sector ends inside the chain and below 4 GiB. *)
Lemma write_end img l o n i : layout_ok img -> chain img l ->
  l !! Z.to_nat (o / fs_sector_size img) = Some i -> 0 <= o / fs_sector_size img ->
  o mod fs_sector_size img + n <= fs_sector_size img ->
  o + n <= Z.of_nat (length l) * fs_sector_size img /\
  Z.of_nat (length l) * fs_sector_size img < 4294967296.
Proof.
  intros Hok Hc Hl Hq Hroom. pose proof (chain_length img l Hok Hc) as Hcl.
  apply lookup_lt_Some in Hl. destruct (lay_sector Hok) as [Hss _].
  pose proof (layout_sums img Hok) as (?&?&?&?&_&_&_&?&_&_&_&He&Hmax).
  pose proof (Z.div_mod o (fs_sector_size img)) as Hdm. set (ss := fs_sector_size img) in *.
  pose proof (Z.mul_le_mono_nonneg_r (o / ss + 1) (Z.of_nat (length l)) ss) as Hm1.
  pose proof (Z.mul_le_mono_nonneg_r (Z.of_nat (length l)) (Z.max 0 (fat_count img)) ss) as Hm2.
  destruct (Z.max_spec 0 (fat_count img)) as [[_ E]|[_ E]]; rewrite E in *; lia.
Qed.

(** Below the data, an in-place write changes the size in the entry only. *)
Lemma tagfs_write_low img name id l fuel buf o r img' : layout_ok img ->
  file_at img (tl name) id l -> 0 <= o < file_size img (file_entry img (id - 1)) ->
  (0 < length buf)%nat -> o mod fs_sector_size img + Z.of_nat (length buf) <= fs_sector_size img ->
  (length l + 1 < fuel)%nat -> (length (tl name) < 24)%nat ->
  tagfs_write fuel img name buf (Z.of_nat (length buf)) o = Ok (r, img') ->
  let e := file_entry img (id - 1) in
  forall x, x < get_data img -> x < e + 4 \/ e + 8 <= x -> ld8 img' x = ld8 img x.
Proof.
  intros Hok Hfa Ho Hn Hroom Hf Hname Hw e x Hx He.
  destruct (tagfs_write_place img Hok name id l fuel buf o Hfa Ho Hn Hroom Hf Hname) as (i & Hl & Hw').
  rewrite Hw in Hw'. injection Hw' as _ ->.
  destruct (offset_place img Hok _ _ _ o Hfa) as (i' & Hl' & Hi & Hq & Hss & Hm); [lia..|].
  rewrite Hl in Hl'. injection Hl' as <-. destruct (data_start img Hok i Hi) as (_ & _ & Hd). fold e.
  assert (ld8 (st_bytes img (data_addr img i + o mod fs_sector_size img) buf) x = ld8 img x) as Hb
    by (apply (only_in_st_bytes img (data_addr img i + o mod fs_sector_size img) buf); lia).
  unfold grow_size. destruct (_ <? _); [|done]. by rewrite ld8_st32_ne by lia.
Qed.

(** What storing the bytes and the size does to the image as a whole. *)
Lemma fitting_effect img name id l buf o i : layout_ok img -> file_at img name id l ->
  0 <= o -> l !! Z.to_nat (o / fs_sector_size img) = Some i -> Forall is_u8 buf ->
  o mod fs_sector_size img + Z.of_nat (length buf) <= fs_sector_size img -> (length name < 24)%nat ->
  let img' := grow_size (st_bytes img (data_addr img i + o mod fs_sector_size img) buf)
    (file_entry img (id - 1)) (o + Z.of_nat (length buf)) in
  layout_ok img' /\ same_header img img' /\ file_at img' name id l /\
  chain_bytes img' l = splice o buf (chain_bytes img l) /\
  file_size img' (file_entry img' (id - 1)) =
    Z.max (file_size img (file_entry img (id - 1))) (o + Z.of_nat (length buf)) /\
  forall l', chain img l' -> l ## l' -> chain img' l' /\ chain_bytes img' l' = chain_bytes img l'.
Proof.
  intros Hok Hfa Ho Hl Hbytes Hroom Hname img'. pose proof Hfa as [_ _ Hc Hfs].
  destruct (lay_sector Hok) as [Hss _]. pose proof (Z.mod_pos_bound o (fs_sector_size img) ltac:(lia)) as Hm.
  pose proof (Z.div_pos o (fs_sector_size img) Ho ltac:(lia)) as Hq.
  destruct (data_write_file img name id l _ i (o mod fs_sector_size img) buf Hok Hfa Hname Hl
    ltac:(lia) Hroom) as (Hok1 & Hh1 & Hfa1 & Hsz1 & Hkeep1).
  pose proof (overwrite_chain_bytes img l _ i (o mod fs_sector_size img) buf Hok Hc Hl ltac:(lia)
    Hroom Hbytes) as Hov. unfold img'.
  set (img1 := st_bytes img (data_addr img i + o mod fs_sector_size img) buf) in *.
  pose proof (write_end img l o (Z.of_nat (length buf)) i Hok Hc Hl Hq Hroom) as [He1 He2].
  rewrite <- (sh_file_entry _ _ Hh1).
  destruct (grow_size_file img1 name id l (o + Z.of_nat (length buf)) Hok1 Hfa1 Hname)
    as (Hok2 & Hh2 & Hfa2 & Hsz2 & Hkeep2);
    [lia|by rewrite (sh_sector_size _ _ Hh1)|].
  split_and!; [done|intros x Hx; rewrite Hh2, Hh1 by done; done|done| | |].
  - destruct (Hkeep2 l) as [_ ->]; [by destruct Hfa1|]. rewrite Hov. f_equal.
    rewrite Z2Nat.id by lia. pose proof (Z.div_mod o (fs_sector_size img)). lia.
  - by rewrite Hsz2, Hsz1, (sh_file_entry _ _ Hh1).
  - intros l' Hc' Hd. destruct (Hkeep1 l' Hc' Hd) as [Hc1 Hb1].
    destruct (Hkeep2 l' Hc1) as [Hc2 Hb2]. split; [done|by rewrite Hb2].
Qed.

(** What an in-place write does to the image as a whole. *)
Lemma tagfs_write_effect img name id l fuel buf o : layout_ok img ->
  file_at img (tl name) id l -> 0 <= o < file_size img (file_entry img (id - 1)) ->
  (0 < length buf)%nat -> Forall is_u8 buf ->
  o mod fs_sector_size img + Z.of_nat (length buf) <= fs_sector_size img ->
  (length l + 1 < fuel)%nat -> (length (tl name) < 24)%nat ->
  exists img', tagfs_write fuel img name buf (Z.of_nat (length buf)) o =
      Ok (Z.of_nat (length buf), img') /\
    layout_ok img' /\ same_header img img' /\ file_at img' (tl name) id l /\
    chain_bytes img' l = splice o buf (chain_bytes img l) /\
    file_size img' (file_entry img' (id - 1)) =
      Z.max (file_size img (file_entry img (id - 1))) (o + Z.of_nat (length buf)) /\
    forall l', chain img l' -> l ## l' -> chain img' l' /\ chain_bytes img' l' = chain_bytes img l'.
Proof.
  intros Hok Hfa Ho Hn Hbytes Hroom Hf Hname.
  destruct (tagfs_write_place img Hok name id l fuel buf o Hfa Ho Hn Hroom Hf Hname)
    as (i & Hl & ->). eexists; split; [done|]. apply fitting_effect; (done || lia).
Qed.

(** ** Creating *)

Lemma mknod_place img i path : layout_ok img -> 0 <= i < count_file_meta_entries img ->
  (length path < 24)%nat -> name_ok path ->
  let this := file_entry img i in
  let img' := st_bytes (st32 (st32 img this 0xffff) (this + 4) 0) (name_of this) (path ++ [0]) in
  only_in this 32 img img' /\ first_data_sector img' this = 0xffff /\ file_size img' this = 0 /\
  name_eq img' path (name_of this) = true.
Proof.
  intros Hok Hi Hlen Hb. cbv zeta. set (this := file_entry img i).
  set (img1 := st32 img this 0xffff). set (img2 := st32 img1 (this + 4) 0).
  unfold name_of. set (img' := st_bytes img2 (this + 8) (path ++ [0])).
  assert (forall x, x < this + 8 \/ this + 32 <= x -> ld8 img' x = ld8 img2 x) as H2.
  { intros x Hx. apply only_in_st_bytes. rewrite length_app. cbn [length]. lia. }
  split_and!.
  - intros x Hx. rewrite H2 by lia. unfold img2, img1. by rewrite !ld8_st32_ne by lia.
  - unfold first_data_sector. rewrite (ld32_frame img2) by (intros; apply H2; lia).
    unfold img2, img1. rewrite ld32_st32_ne, ld32_st32_eq by lia. done.
  - unfold file_size. rewrite (ld32_frame img2) by (intros; apply H2; lia).
    unfold img2. by rewrite ld32_st32_eq.
  - by apply name_eq_stored.
Qed.

(** ** Deleting *)

(** One turn of the loop of [tagfs_unlink]. *)
Lemma unlink_turn img i : layout_ok img -> 0 <= i < fat_count img ->
  exists img', layout_ok img' /\ same_header img img' /\ only_in (fat_addr img i) 2 img img' /\
    (forall k, 0 <= k < fat_count img ->
       fat_entry img' k = if k =? i then 0 else fat_entry img k) /\
    unlink_body (i, img) =
      Ok (if fat_entry img i =? 0xffff then Stop img' else Next (0, img')).
Proof.
  intros Hok Hi. destruct (fat_set_ok img Hok i 0 Hi) as (img' & Hset & Hok' & Hh & Ho & Hf).
  exists img'. split_and!; [done|done|done|exact Hf|]. unfold unlink_body.
  rewrite (fat_get_ok img Hok i Hi), bind_Ok_r, Hset, bind_Ok_r.
  destruct (fat_entry img i =? 65535); [done|].
  rewrite fat_get_ok by (try done; by rewrite (sh_fat_count _ _ Hh)). rewrite bind_Ok_r.
  by rewrite Hf, Z.eqb_refl.
Qed.

(** An entry 0 that is already free keeps the loop going for ever. *)
Lemma unlink_spins fuel img : layout_ok img -> 0 < fat_count img -> fat_entry img 0 = 0 ->
  loop fuel unlink_body (0, img) = Err OutOfFuel.
Proof.
  intros Hok Hc H0. apply (loop_diverges _ (fun '(i, m) => i = 0 /\ layout_ok m /\
    0 < fat_count m /\ fat_entry m 0 = 0)); [|done].
  intros [i m] (-> & Hm & Hcm & Hm0).
  destruct (unlink_turn m 0 Hm ltac:(lia)) as (m' & Hm' & Hh & _ & Hf & ->).
  rewrite Hm0. cbn [Z.eqb]. exists (0, m'). split; [done|]. split; [done|]. split; [done|].
  rewrite (sh_fat_count _ _ Hh), Hf by lia. done.
Qed.

(** No sector after the first of a chain is sector 0. *)
Lemma chain_linked_nonzero img l (k : nat) i : chain img l -> l !! S k = Some i -> i <> 0.
Proof.
  revert k; induction l as [|x l IH]; intros k Hc Hk; [done|].
  destruct Hc as [_ Hl]. destruct l as [|y l]; [done|]. destruct Hl as (_ & Hy & Hc).
  destruct k as [|k]; [by injection Hk as <-|]. by apply (IH k).
Qed.

(** What the loop does from sector [i]: it ends at once at an end mark. From a
    linked sector it goes to sector 0, whatever the link says, because the entry
    it follows has just been cleared; it ends there if sector 0 has an end mark. *)
Lemma unlink_loop img i fuel : layout_ok img -> 0 <= i < fat_count img ->
  if fat_entry img i =? 0xffff then
    exists img', loop (S fuel) unlink_body (i, img) = Ok img' /\ same_header img img' /\
      (forall x, x < get_fat img -> ld8 img' x = ld8 img x) /\
      forall k, 0 <= k < fat_count img ->
        fat_entry img' k = if k =? i then 0 else fat_entry img k
  else if negb (i =? 0) && (fat_entry img 0 =? 0xffff) then
    exists img', loop (S (S fuel)) unlink_body (i, img) = Ok img' /\
      forall k, 0 <= k < fat_count img ->
        fat_entry img' k = if (k =? i) || (k =? 0) then 0 else fat_entry img k
  else forall n, loop n unlink_body (i, img) = Err OutOfFuel.
Proof.
  intros Hok Hi. destruct (unlink_turn img i Hok Hi) as (img1 & Hok1 & Hh & Ho & Hf & Hbody).
  destruct (fat_entry img i =? 65535).
  { exists img1. cbn [loop]. rewrite Hbody. split_and!; [done|done| |done].
    intros x Hx. apply Ho. destruct (fat_addr_ok img Hok i Hi). lia. }
  pose proof (sh_fat_count _ _ Hh) as Hcnt.
  destruct (unlink_turn img1 0 Hok1) as (img2 & Hok2 & Hh2 & _ & Hf2 & Hbody2); [lia|].
  rewrite Hf in Hbody2 by lia. rewrite (Z.eqb_sym 0 i) in Hbody2.
  destruct (Z.eqb_spec i 0) as [Hi0|Hi0]; cbn [negb andb].
  - intros [|n]; [done|]. cbn [loop]. rewrite Hbody. apply unlink_spins; [done|lia|].
    rewrite Hf by lia. by rewrite Hi0.
  - destruct (fat_entry img 0 =? 65535) eqn:E0.
    + exists img2. cbn [loop]. rewrite Hbody. cbn [loop]. rewrite Hbody2. split; [done|].
      intros k Hk. rewrite Hf2, Hf by lia. by destruct (k =? i), (k =? 0).
    + intros [|[|n]]; [done|cbn [loop]; by rewrite Hbody|]. cbn [loop]. rewrite Hbody.
      rewrite Hbody2. apply unlink_spins; [done|rewrite (sh_fat_count _ _ Hh2); lia|].
      rewrite Hf2 by lia. done.
Qed.

(** Clearing one byte of the header sector or of an entry, before the loop. *)
Lemma unlink_clear img i : layout_ok img -> -1 <= i < count_file_meta_entries img ->
  let img' := st8 img (name_of (file_entry img i)) 0 in
  same_header img img' /\ layout_ok img' /\
  first_data_sector img' (file_entry img i) = first_data_sector img (file_entry img i) /\
  forall k, 0 <= k < fat_count img -> fat_entry img' k = fat_entry img k.
Proof.
  intros Hok Hi. cbv zeta. set (a := name_of (file_entry img i)).
  assert (only_in a 1 img (st8 img a 0)) as Hin by (intros x Hx; apply ld8_st8_ne; lia).
  destruct (lay_sector Hok) as [Hss _].
  pose proof (layout_sums img Hok) as (?&?&?&?&Ht&_&Hfat&_&_&Hcnt&_).
  pose proof (Z.mul_div_le (fs_file_meta_sector_count img * fs_sector_size img) 32).
  assert (40 <= a /\ a < get_fat img) as [Ha1 Ha2]
    by (unfold a, name_of, file_entry, get_file_metadata; lia).
  assert (same_header img (st8 img a 0)) as Hh by (apply (only_in_header _ _ _ _ Hin); lia).
  split_and!; [done|by apply (sh_layout_ok _ _ Hh)| |].
  - apply (only_in_first _ _ _ _ Hin). unfold a, name_of. lia.
  - intros k Hk. apply (sh_fat_entry _ _ Hh). intros x Hx. apply Hin.
    destruct (fat_addr_ok img Hok k Hk). lia.
Qed.

(** ** An image of 35 sectors of 64 bytes

    One sector of file entries (two of them), one of FAT (32 entries), 32 data
    sectors. The file "a" has 100 bytes in the sectors 2 and 3. *)
Definition blank_image : mem :=
  st32 (st32 (st32 (st32 ∅ 8 35) 12 64) 16 1) 28 1.

Definition add_file (img : mem) (i : Z) (name : list Z) (size first : Z) : mem :=
  st_bytes (st32 (st32 img (64 + 32 * i) first) (64 + 32 * i + 4) size) (64 + 32 * i + 8)
    (name ++ [0]).

Definition sample_image (fat0 : Z) : mem :=
  let img := add_file blank_image 0 [97] 100 2 in
  let img := st16 (st16 (st16 img 128 fat0) 132 3) 134 0xffff in
  st_bytes (st_bytes img 320 (seqZ 1 64)) 384 (seqZ 65 36).

Lemma sample_image_layout fat0 : fat0 = 0 \/ fat0 = 0xffff -> layout_ok (sample_image fat0).
Proof.
  intros [-> | ->]; split;
    (split || idtac); apply (bool_decide_unpack _); vm_compute; exact I.
Qed.

Lemma sample_image_file fat0 : fat0 = 0 \/ fat0 = 0xffff -> file_at (sample_image fat0) [97] 1 [2; 3].
Proof.
  intros [-> | ->]; split; cbn [chain]; repeat split;
    apply (bool_decide_unpack _); vm_compute; exact I.
Qed.

(** ** What the driver promises *)

(** Every use of the sample image by its facts, at concrete numbers. *)
Ltac sample :=
  match goal with
  | |- layout_ok _ => apply sample_image_layout; auto
  | |- file_at _ _ _ _ => apply sample_image_file; auto
  | |- context [sample_image] => vm_compute; first [done | congruence | split; (done || congruence)]
  | |- _ => cbn; lia
  end.

(** Reading inside a file, by its content. *)
Lemma tagfs_read_content_ok img name id l fuel n o : layout_ok img ->
  file_at img (tl name) id l -> 0 <= o -> 0 < n ->
  o + n <= file_size img (file_entry img (id - 1)) -> n < 2147483648 ->
  (length l + 1 < fuel)%nat ->
  tagfs_read fuel img name n o =
    Ok (n, take (Z.to_nat n) (drop (Z.to_nat o) (content img id l))).
Proof.
  intros Hok Hfa Ho Hn Hsz Hmax Hf. rewrite (tagfs_read_ok img Hok name id l fuel n o) by done.
  do 2 f_equal. unfold content. rewrite skipn_firstn_comm, take_take. f_equal. lia.
Qed.

(** C13: reading [n] bytes at offset [o] of a file, all of them inside the file,
    copies exactly those bytes of its content: the driver skips the right number
    of sectors, starts at the right byte, follows the FAT and stops in time. *)
Theorem tagfs_read_content img name id l fuel n o : layout_ok img ->
  file_at img (tl name) id l -> 0 <= o -> 0 < n ->
  o + n <= file_size img (file_entry img (id - 1)) -> n < 2147483648 ->
  (length l + 1 < fuel)%nat ->
  tagfs_read fuel img name n o =
    Ok (n, take (Z.to_nat n) (drop (Z.to_nat o) (content img id l))).
Proof. apply tagfs_read_content_ok. Qed.

Lemma tagfs_read_content_witness :
  tagfs_read 10 (sample_image 0) [47; 97] 40 50 = Ok (40, seqZ 51 40).
Proof.
  rewrite (tagfs_read_content (sample_image 0) [47; 97] 1 [2; 3] 10 40 50) by sample.
  vm_compute. reflexivity.
Defined.

(** A read that starts inside the file and stays inside one sector returns
    all the bytes it was asked for, even those behind the end of the file: the
    count is not cut down to the size, and what lies in the rest of the sector
    is handed out. *)
Theorem tagfs_read_past_end img name id l i fuel n o : layout_ok img ->
  file_at img (tl name) id l -> 0 <= o < file_size img (file_entry img (id - 1)) -> 0 < n ->
  o mod fs_sector_size img + n <= fs_sector_size img ->
  l !! Z.to_nat (o / fs_sector_size img) = Some i -> (length l + 1 < fuel)%nat ->
  tagfs_read fuel img name n o =
    Ok (n, bytes_at img (data_addr img i + o mod fs_sector_size img) (Z.to_nat n)).
Proof.
  intros Hok Hfa Ho Hn Hroom Hl Hf. pose proof (first_in_range img Hok _ _ _ Hfa) as [Hs0 H0].
  destruct (offset_place img Hok _ _ _ o Hfa) as (i' & Hl' & Hi & Hq & Hss & Hm); [lia..|].
  rewrite Hl in Hl'. injection Hl' as <-. pose proof Hfa as [[Hid Hidr] _ Hc _].
  unfold tagfs_read. rewrite Hid. destruct (Z.eqb_spec id 0); [lia|]. cbv zeta.
  destruct (Z.leb_spec (file_size img (file_entry img (id - 1))) o); [lia|].
  set (ss := fs_sector_size img) in *. rewrite Hs0, !s32_id by lia.
  replace (o / ss) with (Z.of_nat (Z.to_nat (o / ss))) at 1 by lia.
  rewrite (skip_ok img Hok l Hc _ 0 _ fuel H0), bind_Ok_r by (apply lookup_lt_Some in Hl; lia).
  cbn [Nat.add]. rewrite Hl, w32_id by (unfold is_u32; lia).
  destruct (Z.leb_spec n (ss - o mod ss)); [|lia].
  destruct (data_addr_ok img Hok i Hi) as [Ha Hb]. destruct (data_start img Hok i Hi) as (Hst & _).
  fold ss in Hb. unfold img_read, in_image.
  destruct (Z.leb_spec 0 (data_addr img i + o mod ss)),
    (Z.leb_spec (data_addr img i + o mod ss + n) (img_size img)); try lia.
  cbn [andb]. by res_step.
Qed.

Lemma tagfs_read_past_end_witness :
  tagfs_read 10 (sample_image 0) [47; 97] 10 95 = Ok (10, [96; 97; 98; 99; 100; 0; 0; 0; 0; 0]).
Proof.
  rewrite (tagfs_read_past_end (sample_image 0) [47; 97] 1 [2; 3] 3 10 10 95) by sample.
  vm_compute. reflexivity.
Defined.

(** C14: a write that starts inside the file and fits its sector stores the bytes,
    leaves every other chain of sectors and the rest of the file as they were,
    grows the size when it passes the end, and a read of the same range returns
    what was written. *)
Theorem tagfs_write_read_back img name id l fuel buf o : layout_ok img ->
  file_at img (tl name) id l -> 0 <= o < file_size img (file_entry img (id - 1)) ->
  (0 < length buf)%nat -> Forall is_u8 buf ->
  o mod fs_sector_size img + Z.of_nat (length buf) <= fs_sector_size img ->
  (length l + 1 < fuel)%nat -> (length (tl name) < 24)%nat ->
  exists img', tagfs_write fuel img name buf (Z.of_nat (length buf)) o =
      Ok (Z.of_nat (length buf), img') /\
    file_at img' (tl name) id l /\
    file_size img' (file_entry img' (id - 1)) =
      Z.max (file_size img (file_entry img (id - 1))) (o + Z.of_nat (length buf)) /\
    chain_bytes img' l = splice o buf (chain_bytes img l) /\
    (forall l', chain img l' -> l ## l' -> chain_bytes img' l' = chain_bytes img l') /\
    tagfs_read fuel img' name (Z.of_nat (length buf)) o = Ok (Z.of_nat (length buf), buf).
Proof.
  intros Hok Hfa Ho Hn Hbytes Hroom Hf Hname.
  destruct (tagfs_write_effect img name id l fuel buf o Hok Hfa Ho Hn Hbytes Hroom Hf Hname)
    as (img' & Hw & Hok' & Hh & Hfa' & Hcb & Hsz & Hkeep).
  destruct (offset_place img Hok _ _ _ o Hfa) as (i & Hl & _ & Hq & Hss & Hm); [lia..|].
  destruct Hfa as [_ _ Hc _].
  destruct (write_end img l o (Z.of_nat (length buf)) i Hok Hc Hl (proj1 Hq) Hroom) as [He1 He2].
  exists img'. split_and!; [done..| |].
  - intros l' Hc' Hd. by destruct (Hkeep l' Hc' Hd).
  - rewrite (tagfs_read_ok img' Hok' name id l) by (done || lia). do 2 f_equal. rewrite Hcb.
    assert (length (chain_bytes img l) = Z.to_nat (Z.of_nat (length l) * fs_sector_size img)) as Hlen
      by (rewrite length_chain_bytes; pose proof (lay_sector Hok); nia).
    apply list_eq. intros p. destruct (decide (p < length buf)%nat) as [Hp|Hp].
    + rewrite lookup_take_lt, lookup_drop, splice_lookup, decide_True by lia. f_equal. lia.
    + rewrite !lookup_ge_None_2; [done| |]; rewrite ?length_take; lia.
Qed.

Lemma tagfs_write_read_back_witness :
  exists img', tagfs_write 10 (sample_image 0) [47; 97] [7; 8; 9] 3 99 = Ok (3, img') /\
    file_size img' (file_entry img' 0) = 102.
Proof.
  destruct (tagfs_write_read_back (sample_image 0) [47; 97] 1 [2; 3] 10 [7; 8; 9] 99)
    as (img' & Hw & _ & Hsz & _); [try sample..|].
  - apply (bool_decide_unpack _). vm_compute. exact I.
  - exists img'. split; [exact Hw|]. change 0 with (1 - 1). rewrite Hsz. vm_compute. reflexivity.
Defined.

(** C15: [mknod] of a regular file takes the first free entry: the file exists
    afterwards under that number with size 0 and no sector, its name reads back,
    and nothing outside the 32 bytes of the entry changes; when no file had the
    name, the new file is found under it. (That a file has the name already is not
    looked at, and then there are two.) A name of 24 or more
    characters or a full table is refused and changes nothing. *)
Theorem tagfs_mknod_creates img c path mode : layout_ok img -> S_ISREG mode = true ->
  name_ok path ->
  if 24 <=? Z.of_nat (length path) then tagfs_mknod img (c :: path) mode = (- ENAMETOOLONG, img)
  else match find_up (Z.to_nat (count_file_meta_entries img)) 0
               (fun i => file_metadata_entry_is_free img (file_entry img i)) with
  | None => tagfs_mknod img (c :: path) mode = (- ENOSPC, img)
  | Some i => exists img', tagfs_mknod img (c :: path) mode = (0, img') /\
      only_in (file_entry img i) 32 img img' /\ layout_ok img' /\
      first_data_sector img' (file_entry img' i) = 0xffff /\
      file_size img' (file_entry img' i) = 0 /\
      name_eq img' path (name_of (file_entry img' i)) = true /\
      (get_file_id_from_name img path = 0 -> get_file_id_from_name img' path = i + 1)
  end.
Proof.
  intros Hok Hreg Hb. unfold tagfs_mknod. cbn [tl]. rewrite Hreg.
  destruct (Z.leb_spec 24 (Z.of_nat (length path))) as [|Hlen]; [done|].
  destruct (find_up _ _ _) as [i|] eqn:E; [|done].
  apply find_up_Some in E as (Hi & Hfree & Hfirst).
  destruct (mknod_place img i path Hok ltac:(lia) ltac:(lia) Hb) as (Hin & Hfd & Hsz & Hnm).
  cbv zeta. eexists; split; [done|]. revert Hin Hfd Hsz Hnm. generalize (st_bytes
    (st32 (st32 img (file_entry img i) 65535) (file_entry img i + 4) 0)
    (name_of (file_entry img i)) (path ++ [0])). intros img' Hin Hfd Hsz Hnm.
  destruct (file_entry_place img Hok i) as [Hp1 Hp2]; [lia|].
  pose proof (file_entry_ok img Hok i ltac:(lia)) as [Hp3 _]. destruct (lay_sector Hok) as [Hss _].
  assert (same_header img img') as Hh by (apply (only_in_header _ _ _ _ Hin); lia).
  rewrite (sh_file_entry _ _ Hh).
  split_and!; [done|by apply (sh_layout_ok _ _ Hh)|done..|]. intros Hnone.
  pose proof (layout_sums img Hok) as (?&?&?&?&_&_&_&_&_&Hcnt&_). pose proof (lay_files Hok).
  unfold get_file_id_from_name in *. rewrite (sh_count _ _ Hh).
  destruct (find_up _ _ (fun j => name_eq img _ _)) as [j|] eqn:Ej.
  { apply find_up_Some in Ej as (Hj & _). rewrite w16_id in Hnone by (unfold is_u16; lia). lia. }
  rewrite find_up_None in Ej.
  destruct (find_up _ _ _) as [j|] eqn:Ej'.
  - apply find_up_Some in Ej' as (Hj & Hjn & _).
    destruct (Z.eq_dec j i) as [-> |Hji]; [by rewrite w16_id by (unfold is_u16; lia)|].
    rewrite (sh_file_entry _ _ Hh), (name_eq_frame img) in Hjn; [rewrite Ej in Hjn; [done|lia]|].
    intros x Hx. apply Hin. unfold name_of, file_entry in *. lia.
  - rewrite find_up_None in Ej'. specialize (Ej' i ltac:(lia)).
    rewrite (sh_file_entry _ _ Hh), Hnm in Ej'. done.
Qed.

Lemma tagfs_mknod_creates_witness :
  fst (tagfs_mknod (sample_image 0) [47; 98] 33188) = 0 /\
  get_file_id_from_name (snd (tagfs_mknod (sample_image 0) [47; 98] 33188)) [98] = 2.
Proof.
  assert (name_ok [98]) as Hb by (by repeat constructor).
  pose proof (tagfs_mknod_creates (sample_image 0) 47 [98] 33188
    (sample_image_layout 0 ltac:(auto)) ltac:(reflexivity) Hb) as H.
  assert (find_up (Z.to_nat (count_file_meta_entries (sample_image 0))) 0
    (fun i => file_metadata_entry_is_free (sample_image 0) (file_entry (sample_image 0) i)) = Some 1) as E
    by (vm_compute; reflexivity).
  rewrite E in H. cbn [length Z.of_nat Z.leb] in H. change (24 <=? Z.of_nat 1) with false in H.
  destruct H as (img' & -> & _ & _ & _ & _ & _ & Hid). split; [done|]. apply Hid.
  vm_compute. reflexivity.
Defined.

(** Deleting a file of one sector frees its name and its sector and leaves
    every other entry of the FAT as it was. *)
Theorem tagfs_unlink_one_sector img name id i fuel : layout_ok img ->
  file_at img (tl name) id [i] -> (0 < fuel)%nat ->
  exists img', tagfs_unlink fuel img name = Ok (0, img') /\
    file_metadata_entry_is_free img' (file_entry img' (id - 1)) = true /\
    forall k, 0 <= k < fat_count img ->
      fat_entry img' k = if k =? i then 0 else fat_entry img k.
Proof.
  intros Hok Hfa Hfuel. pose proof (first_in_range img Hok _ _ _ Hfa) as [Hs0 H0].
  destruct Hfa as [[Hid Hidr] Hfd [Hi Hend] _]. cbn in Hfd. injection H0 as H0.
  destruct (unlink_clear img (id - 1) Hok ltac:(lia)) as (Hh & Hok1 & Hfd1 & Hfat1).
  pose proof (layout_sums img Hok) as (?&?&?&?&Ht&_&Hfat&_&Hfc&_). pose proof (lay_fat Hok).
  pose proof (file_entry_ok img Hok (id - 1) ltac:(lia)) as [Hp1 Hp2].
  unfold tagfs_unlink. rewrite Hid. destruct (Z.eqb_spec id (-1)); [lia|]. cbv zeta.
  rewrite Hfd1. destruct (Z.eqb_spec (first_data_sector img (file_entry img (id - 1))) 65535); [lia|].
  rewrite Hs0, <- H0. destruct fuel as [|fuel]; [lia|].
  set (img1 := st8 _ _ 0) in *.
  pose proof (unlink_loop img1 i fuel Hok1) as Hl. rewrite (sh_fat_count _ _ Hh) in Hl.
  specialize (Hl Hi). rewrite Hfat1, Hend in Hl by done.
  destruct Hl as (img2 & -> & Hh2 & Hlow & Hf). exists img2. rewrite bind_Ok_r. split_and!; [done| |].
  - rewrite (sh_file_entry _ _ Hh2), (sh_file_entry _ _ Hh). unfold file_metadata_entry_is_free.
    assert (get_fat img1 = get_fat img) as Eg.
    { pose proof (sh_fat_addr _ _ Hh 0) as E. unfold fat_addr in E. lia. }
    rewrite Hlow by (rewrite Eg; unfold name_of; lia). unfold img1. by rewrite ld8_st8_eq.
  - intros k Hk. rewrite Hf by done. by rewrite Hfat1.
Qed.

Lemma tagfs_unlink_one_sector_witness :
  let img := add_file (st16 blank_image 138 0xffff) 0 [98] 10 5 in
  exists img', tagfs_unlink 1 img [47; 98] = Ok (0, img') /\ fat_entry img' 5 = 0.
Proof.
  cbv zeta. set (img := add_file _ _ _ _ _).
  assert (layout_ok img) as Hok.
  { split; (split || idtac); apply (bool_decide_unpack _); vm_compute; exact I. }
  assert (file_at img [98] 1 [5]) as Hfa.
  { split; cbn [chain]; repeat split; apply (bool_decide_unpack _); vm_compute; exact I. }
  destruct (tagfs_unlink_one_sector img [47; 98] 1 5 1 Hok Hfa) as (img' & Hu & _ & Hf); [lia|].
  exists img'. split; [exact Hu|]. rewrite Hf; [done|]. split; [done|].
  vm_compute. reflexivity.
Defined.

(** C40: deleting a file of two or more sectors does not free its chain. The loop
    clears the entry of the first sector before it reads the link from it, so it
    goes on at sector 0: if that sector ends a chain, its entry is freed (it
    belongs to another file) and the rest of the deleted file stays allocated;
    otherwise the loop never ends. *)
Theorem tagfs_unlink_chain img name id i j l fuel : layout_ok img ->
  file_at img (tl name) id (i :: j :: l) ->
  if negb (i =? 0) && (fat_entry img 0 =? 0xffff) then
    exists img', tagfs_unlink (S (S fuel)) img name = Ok (0, img') /\
      fat_entry img' 0 = 0 /\ fat_entry img' i = 0 /\
      forall k, k ∈ j :: l -> fat_entry img' k = fat_entry img k /\ fat_entry img k <> 0
  else forall n, tagfs_unlink n img name = Err OutOfFuel.
Proof.
  intros Hok Hfa. pose proof (first_in_range img Hok _ _ _ Hfa) as [Hs0 H0].
  destruct Hfa as [[Hid Hidr] Hfd Hc _]. cbn in Hfd. injection H0 as H0.
  pose proof (chain_NoDup _ _ Hok Hc) as Hnd.
  pose proof Hc as [Hi (Hij & Hj0 & Hc')].
  destruct (unlink_clear img (id - 1) Hok ltac:(lia)) as (Hh & Hok1 & Hfd1 & Hfat1).
  pose proof (layout_sums img Hok) as (?&?&?&?&Ht&_&Hfat&_&Hfc&_). pose proof (lay_fat Hok).
  assert (forall n, tagfs_unlink n img name =
    img ← loop n unlink_body (i, st8 img (name_of (file_entry img (id - 1))) 0); Ok (0, img)) as Hun.
  { intros n. unfold tagfs_unlink. rewrite Hid. destruct (Z.eqb_spec id (-1)); [lia|]. cbv zeta.
    rewrite Hfd1. destruct (Z.eqb_spec (first_data_sector img (file_entry img (id - 1))) 65535); [lia|].
    by rewrite Hs0, <- H0. }
  set (img1 := st8 _ _ 0) in *.
  pose proof (unlink_loop img1 i fuel Hok1) as Hl. rewrite (sh_fat_count _ _ Hh) in Hl.
  specialize (Hl Hi). rewrite !Hfat1 in Hl by lia.
  assert (0 <= j < fat_count img) as Hj by (by destruct Hc').
  destruct (Z.eqb_spec (fat_entry img i) 65535) as [E|_]; [lia|].
  destruct (negb (i =? 0) && (fat_entry img 0 =? 65535)) eqn:E0.
  - destruct Hl as (img2 & Hl2 & Hf). exists img2. rewrite Hun, Hl2, bind_Ok_r.
    apply andb_prop in E0 as [_ E0%Z.eqb_eq].
    split_and!; [done| | |].
    + rewrite Hf by lia. by rewrite orb_true_r.
    + rewrite Hf by lia. by rewrite Z.eqb_refl.
    + intros k Hk. assert (0 <= k < fat_count img) as Hkr by (by eapply chain_range).
      apply list_elem_of_lookup in Hk as [p Hp].
      pose proof (chain_entry_used img (j :: l) p k Hc' Hp) as Hne. split; [|done].
      rewrite Hf, Hfat1 by lia.
      apply NoDup_cons in Hnd as [Hni _].
      destruct (Z.eqb_spec k i) as [-> |]; [by destruct Hni; eapply list_elem_of_lookup_2|].
      destruct (Z.eqb_spec k 0) as [-> |]; [|done]. exfalso.
      destruct p as [|p]; [by injection Hp|].
      by apply (chain_linked_nonzero img (j :: l) p 0 Hc' Hp).
  - intros n. by rewrite Hun, Hl.
Qed.

Lemma tagfs_unlink_chain_witness :
  (forall n, tagfs_unlink n (sample_image 0) [47; 97] = Err OutOfFuel) /\
  exists img', tagfs_unlink 2 (sample_image 0xffff) [47; 97] = Ok (0, img') /\
    fat_entry img' 0 = 0 /\ fat_entry img' 3 = 0xffff.
Proof.
  split.
  - pose proof (tagfs_unlink_chain (sample_image 0) [47; 97] 1 2 3 [] 0
      (sample_image_layout 0 ltac:(auto)) (sample_image_file 0 ltac:(auto))) as H.
    assert ((fat_entry (sample_image 0) 0 =? 0xffff) = false) as E by (vm_compute; reflexivity).
    rewrite E in H. exact H.
  - pose proof (tagfs_unlink_chain (sample_image 0xffff) [47; 97] 1 2 3 [] 0
      (sample_image_layout 0xffff ltac:(auto)) (sample_image_file 0xffff ltac:(auto))) as H.
    assert ((fat_entry (sample_image 0xffff) 0 =? 0xffff) = true) as E by (vm_compute; reflexivity).
    rewrite E in H. destruct H as (img' & Hu & H0 & _ & Hk). exists img'.
    split; [exact Hu|]. split; [exact H0|].
    destruct (Hk 3) as [-> _]; [by left|]. vm_compute. reflexivity.
Defined.

(** Deleting a name that does not exist is not refused. The lookup answers
    0, the driver checks for -1 and takes the 32 bytes in front of the table for
    the entry; when these are zero, as in a formatted image, it frees sector 0
    or never ends. *)
Theorem tagfs_unlink_missing img name fuel : layout_ok img -> 0 < fat_count img ->
  get_file_id_from_name img (tl name) = 0 -> ld32 img (fs_sector_size img - 32) = 0 ->
  if fat_entry img 0 =? 0xffff then
    exists img', tagfs_unlink (S fuel) img name = Ok (0, img') /\ fat_entry img' 0 = 0
  else forall n, tagfs_unlink n img name = Err OutOfFuel.
Proof.
  intros Hok Hcnt Hid Hz.
  pose proof (layout_sums img Hok) as (?&?&?&?&_&_&_&_&_&Hfm&_).
  pose proof (Z.div_pos (fs_file_meta_sector_count img * fs_sector_size img) 32 ltac:(lia) ltac:(lia)).
  destruct (unlink_clear img (-1) Hok ltac:(lia)) as (Hh & Hok1 & Hfd1 & Hfat1).
  assert (first_data_sector img (file_entry img (-1)) = 0) as Hf0.
  { unfold first_data_sector, file_entry, get_file_metadata. by replace (fs_sector_size img + 32 * -1) with (fs_sector_size img - 32) by lia. }
  assert (forall n, tagfs_unlink n img name =
    img ← loop n unlink_body (0, st8 img (name_of (file_entry img (-1))) 0); Ok (0, img)) as Hun.
  { intros n. unfold tagfs_unlink. rewrite Hid. cbv zeta. change (0 =? -1) with false.
    change (0 - 1) with (-1). cbv iota. by rewrite Hfd1, Hf0. }
  set (img1 := st8 _ _ 0) in *.
  pose proof (unlink_loop img1 0 fuel Hok1) as Hl. rewrite (sh_fat_count _ _ Hh) in Hl.
  specialize (Hl ltac:(lia)). rewrite !Hfat1 in Hl by lia.
  destruct (fat_entry img 0 =? 65535).
  - destruct Hl as (img2 & Hl2 & _ & _ & Hf). exists img2. rewrite Hun, Hl2, bind_Ok_r.
    split; [done|]. by rewrite Hf by lia.
  - intros n. by rewrite Hun, Hl.
Qed.

Lemma tagfs_unlink_missing_witness :
  (exists img', tagfs_unlink 1 (sample_image 0xffff) [47; 122] = Ok (0, img') /\
     fat_entry img' 0 = 0) /\
  tagfs_unlink 1000 (sample_image 0) [47; 122] = Err OutOfFuel.
Proof.
  split.
  - pose proof (tagfs_unlink_missing (sample_image 0xffff) [47; 122] 0
      (sample_image_layout 0xffff ltac:(auto)) ltac:(vm_compute; reflexivity)
      ltac:(vm_compute; reflexivity) ltac:(vm_compute; reflexivity)) as H.
    assert ((fat_entry (sample_image 0xffff) 0 =? 0xffff) = true) as E by (vm_compute; reflexivity).
    rewrite E in H. exact H.
  - pose proof (tagfs_unlink_missing (sample_image 0) [47; 122] 0
      (sample_image_layout 0 ltac:(auto)) ltac:(vm_compute; reflexivity)
      ltac:(vm_compute; reflexivity) ltac:(vm_compute; reflexivity)) as H.
    assert ((fat_entry (sample_image 0) 0 =? 0xffff) = false) as E by (vm_compute; reflexivity).
    rewrite E in H. exact (H 1000%nat).
Defined.

(** A loop that appends what [f] gives for each index collects it in order. *)
Lemma for_up_collect {A} (f : Z -> list A) n i out :
  for_up n i (fun k out => out ++ f k) out = out ++ concat (map f (seqZ i (Z.of_nat n))).
Proof.
  revert i out; induction n as [|n IH]; intros i out; cbn [for_up].
  - by rewrite app_nil_r.
  - rewrite IH, (seqZ_cons i) by lia. cbn [map concat].
    rewrite <- app_assoc.
    by replace (Z.pred (Z.of_nat (S n))) with (Z.of_nat n) by lia.
Qed.

Lemma for_up_ext {S} (f g : Z -> S -> S) n i s :
  (forall k t, i <= k < i + Z.of_nat n -> f k t = g k t) -> for_up n i f s = for_up n i g s.
Proof.
  revert i s; induction n as [|n IH]; intros i s H; cbn [for_up]; [done|].
  rewrite H by lia. apply IH. intros k t Hk. apply H. lia.
Qed.

Lemma tagfs_readdir_entries img x :
  x ∈ snd (tagfs_readdir img [47]) <->
  exists i, 0 <= i < Z.of_nat (Z.to_nat (count_file_meta_entries img)) /\
    file_metadata_entry_is_free img (file_entry img i) = false /\
    x = (name_of (file_entry img i),
         Stat (i + 1) (mode_of S_IFREG) 0 (file_size img (file_entry img i)) 0 0).
Proof.
  unfold tagfs_readdir. rewrite bool_decide_true by done. cbn [snd].
  rewrite (for_up_ext _ (fun i out => out ++ (if negb (file_metadata_entry_is_free img (file_entry img i))
    then [(name_of (file_entry img i), Stat (i + 1) (mode_of S_IFREG) 0
      (file_size img (file_entry img i)) 0 0)] else []))), for_up_collect.
  2:{ intros k t _. cbv zeta. destruct (negb _); [done|by rewrite app_nil_r]. }
  cbn [app]. rewrite list_elem_of_In, in_concat. setoid_rewrite in_map_iff. split.
  - intros (y & (i & <- & Hi) & Hx). apply list_elem_of_In, elem_of_seqZ in Hi.
    exists i. destruct (file_metadata_entry_is_free _ _); [done|]. destruct Hx as [<-|[]].
    split_and!; (done || lia).
  - intros (i & Hi & Hfree & ->). eexists. split; [exists i; split; [reflexivity|]|].
    + apply list_elem_of_In, elem_of_seqZ. lia.
    + rewrite Hfree. by left.
Qed.

(** What [readdir] lists, [getattr] confirms: for an entry that carries the
    name [s] alone, [getattr] of the path finds the same inode number, size and
    mode. *)
Theorem tagfs_readdir_getattr img a st s st0 :
  (a, st) ∈ snd (tagfs_readdir img [47]) -> name_eq img s a = true ->
  (forall i j, 0 <= i < count_file_meta_entries img -> 0 <= j < count_file_meta_entries img ->
     name_eq img s (name_of (file_entry img i)) = true ->
     name_eq img s (name_of (file_entry img j)) = true -> i = j) ->
  exists st', tagfs_getattr img (47 :: s) st0 = (0, st') /\
    st_ino st' = st_ino st /\ st_size st' = st_size st /\ st_mode st' = st_mode st.
Proof.
  intros (i & Hi & Hfree & [= -> ->])%tagfs_readdir_entries Hn Huniq.
  assert (s <> []) as Hs.
  { intros ->. apply andb_prop in Hn as [_ Hn]. cbn [length Z.of_nat] in Hn.
    rewrite Z.add_0_r in Hn. unfold file_metadata_entry_is_free in Hfree. congruence. }
  unfold tagfs_getattr. rewrite bool_decide_false by congruence. cbv zeta. cbn [tl].
  assert (find_up (Z.to_nat (count_file_meta_entries img)) 0
    (fun j => name_eq img s (name_of (file_entry img j))) = Some i) as ->.
  { apply find_up_Some. split_and!; [lia..|done|]. intros j Hj.
    destruct (name_eq img s (name_of (file_entry img j))) eqn:E; [|done].
    rewrite (Huniq j i) in Hj; [lia|lia|lia|done|done]. }
  eexists; split; [done|]. done.
Qed.

Lemma tagfs_readdir_getattr_witness :
  exists st', tagfs_getattr (sample_image 0) [47; 97] (Stat 0 0 0 0 0 0) = (0, st') /\
    st_ino st' = 1 /\ st_size st' = 100 /\ st_mode st' = 33279.
Proof.
  apply (tagfs_readdir_getattr (sample_image 0) 72 (Stat 1 33279 0 100 0 0) [97] (Stat 0 0 0 0 0 0)).
  - assert (snd (tagfs_readdir (sample_image 0) [47]) = [(72, Stat 1 33279 0 100 0 0)]) as ->
      by (vm_compute; reflexivity). by left.
  - vm_compute. reflexivity.
  - assert (count_file_meta_entries (sample_image 0) = 2) as -> by (vm_compute; reflexivity).
    assert (name_eq (sample_image 0) [97] (name_of (file_entry (sample_image 0) 1)) = false) as E
      by (vm_compute; reflexivity).
    assert (forall i, 0 <= i < 2 ->
      name_eq (sample_image 0) [97] (name_of (file_entry (sample_image 0) i)) = true -> i = 0) as H.
    { intros i Hi Hni. destruct (Z.eq_dec i 1) as [-> |]; [congruence|lia]. }
    intros i j Hi Hj Hni Hnj. rewrite (H i Hi Hni), (H j Hj Hnj). reflexivity.
Defined.
