(* ===== verification/TagFrame.v ===== *)
(** * What a change to the data of some sectors keeps

    The image builder writes whole files into free sectors. [kept l img img']
    says that only the sectors [l] and their FAT entries changed; the lemmas
    carry other files, their chains and their bytes over such a change. *)
From S2P Require Import Prelude Memory TagLayout.

#[local] Open Scope Z_scope.

Record kept (l : list Z) (img img' : mem) : Prop := {
  kept_header : same_header img img';
  kept_low : forall x, x < get_fat img -> ld8 img' x = ld8 img x;
  kept_fat : forall k, 0 <= k < fat_count img -> k ∉ l -> fat_entry img' k = fat_entry img k;
  kept_sector : forall k, 0 <= k < fat_count img -> k ∉ l -> sector img' k = sector img k;
}.

Lemma sh_get_fat img img' : same_header img img' -> get_fat img' = get_fat img.
Proof. intros H. unfold get_fat. by hdr_rewrite H. Qed.
Lemma sh_get_tag_metadata img img' : same_header img img' ->
  get_tag_metadata img' = get_tag_metadata img.
Proof. intros H. unfold get_tag_metadata. by hdr_rewrite H. Qed.

Lemma same_header_trans img1 img2 img3 :
  same_header img1 img2 -> same_header img2 img3 -> same_header img1 img3.
Proof. intros H1 H2 x Hx. by rewrite H2, H1. Qed.

Lemma kept_trans l l' img1 img2 img3 :
  kept l img1 img2 -> kept l' img2 img3 -> kept (l ++ l') img1 img3.
Proof.
  intros [Hh1 Hl1 Hf1 Hs1] [Hh2 Hl2 Hf2 Hs2]. split.
  - by eapply same_header_trans.
  - intros x Hx. rewrite Hl2, Hl1; [done|done|by rewrite (sh_get_fat _ _ Hh1)].
  - intros k Hk Hn. apply not_elem_of_app in Hn as [Hn1 Hn2].
    rewrite Hf2, Hf1; [done..| |done]. by rewrite (sh_fat_count _ _ Hh1).
  - intros k Hk Hn. apply not_elem_of_app in Hn as [Hn1 Hn2].
    rewrite Hs2, Hs1; [done..| |done]. by rewrite (sh_fat_count _ _ Hh1).
Qed.

Lemma kept_mono l l' img img' : kept l img img' -> (forall k, k ∈ l -> k ∈ l') -> kept l' img img'.
Proof.
  intros [H1 H2 H3 H4] Hs. split; [done|done|intros; apply H3; auto|intros; apply H4; auto].
Qed.

Section kept.
Context (img : mem) (Hok : layout_ok img).

(** Sections in order: entries, tags, FAT, data. *)
Lemma section_order : 64 <= fs_sector_size img /\ fs_sector_size img <= get_tag_metadata img /\
  get_tag_metadata img <= get_tag_file_array img /\ get_tag_file_array img <= get_fat img /\
  get_fat img <= get_data img.
Proof.
  pose proof (layout_sums img Hok) as (?&?&?&?&?&?&?&?&_). destruct (lay_sector Hok). lia.
Qed.

Lemma fat_count_nonneg : 0 <= fat_count img.
Proof.
  pose proof (layout_sums img Hok) as (_&_&_&?&_&_&_&_&->&_). by apply Z.div_pos.
Qed.

Lemma sector_frame img' i : same_header img img' ->
  (forall x, data_addr img i <= x < data_addr img i + fs_sector_size img -> ld8 img' x = ld8 img x) ->
  sector img' i = sector img i.
Proof.
  intros Hh Hx. unfold sector. rewrite (sh_sector_size _ _ Hh), (sh_data_addr _ _ Hh).
  destruct (lay_sector Hok). apply bytes_at_ext. intros k Hk. apply Hx. lia.
Qed.

(** Writing into data sector [i]. *)
Lemma kept_data i bytes : 0 <= i < fat_count img ->
  Z.of_nat (length bytes) <= fs_sector_size img ->
  kept [i] img (st_bytes img (data_addr img i) bytes).
Proof.
  intros Hi Hlen. pose proof (only_in_st_bytes img (data_addr img i) bytes) as Hin.
  destruct (data_start img Hok i Hi) as (H1 & H2 & H3). pose proof section_order as (?&?&?&?&?).
  assert (same_header img (st_bytes img (data_addr img i) bytes)) as Hh
    by (apply (only_in_header _ _ _ _ Hin); lia).
  split; [done|intros x Hx; apply Hin; lia| |].
  - intros k Hk _. apply (sh_fat_entry _ _ Hh). intros x Hx. apply Hin.
    destruct (fat_addr_ok img Hok k Hk). lia.
  - intros k Hk Hn. apply sector_frame; [done|]. intros x Hx. apply Hin.
    assert (i <> k) as Hik by (intros ->; apply Hn; by left).
    destruct (sectors_apart img Hok i k Hi Hk Hik); lia.
Qed.

(** Changing FAT entry [i]. *)
Lemma kept_fat_set i v : 0 <= i < fat_count img ->
  exists img', fat_set img i v = Ok img' /\ kept [i] img img' /\ fat_entry img' i = w16 v /\
    forall k, 0 <= k < fat_count img -> sector img' k = sector img k.
Proof.
  intros Hi. destruct (fat_set_ok img Hok i v Hi) as (img' & Hs & Hok' & Hh & Ho & Hf).
  destruct (fat_addr_ok img Hok i Hi) as (H1 & H2 & _).
  assert (forall k, 0 <= k < fat_count img -> sector img' k = sector img k) as Hsec.
  { intros k Hk. apply sector_frame; [done|]. intros x Hx. apply Ho.
    destruct (data_start img Hok k Hk). lia. }
  exists img'. split_and!; [done| |by rewrite Hf, Z.eqb_refl by done|done].
  split; [done|intros x Hx; apply Ho; lia| |auto].
  intros k Hk Hn. rewrite Hf by done. destruct (Z.eqb_spec k i) as [-> |]; [|done].
  destruct Hn. by left.
Qed.

(** A change below the data, outside the FAT and the header: an entry or a tag. *)
Lemma kept_entry img' a n : only_in a n img img' -> 36 <= a -> a + n <= get_fat img ->
  same_header img img' /\
  (forall k, 0 <= k < fat_count img -> fat_entry img' k = fat_entry img k) /\
  forall k, 0 <= k < fat_count img -> sector img' k = sector img k.
Proof.
  intros Hin Ha Hn. assert (same_header img img') as Hh by (apply (only_in_header _ _ _ _ Hin); lia).
  pose proof section_order as (?&?&?&?&?). split_and!; [done| |].
  - intros k Hk. apply (sh_fat_entry _ _ Hh). intros x Hx. apply Hin.
    destruct (fat_addr_ok img Hok k Hk). lia.
  - intros k Hk. apply sector_frame; [done|]. intros x Hx. apply Hin.
    destruct (data_start img Hok k Hk). lia.
Qed.

(** A chain is carried over when its FAT entries are, its bytes when its
    sectors are. *)
Lemma chain_keep img' l : same_header img img' -> chain img l ->
  (forall k, k ∈ l -> fat_entry img' k = fat_entry img k) -> chain img' l.
Proof.
  intros Hh. induction l as [|i l IH]; [done|]. intros [Hi Hl] He. cbn [chain].
  rewrite (sh_fat_count _ _ Hh), He by (by left). split; [done|].
  destruct l as [|j l]; [done|]. destruct Hl as (? & ? & ?). split_and!; [done..|].
  apply IH; [done|]. intros k Hk. apply He. by right.
Qed.

Lemma chain_bytes_keep img' l : (forall k, k ∈ l -> sector img' k = sector img k) ->
  chain_bytes img' l = chain_bytes img l.
Proof.
  intros H. unfold chain_bytes. f_equal. apply map_ext_Forall. by apply Forall_forall.
Qed.

(** Names and entries are carried over when the entries are. *)
Lemma id_keep img' name : same_header img img' -> (length name < 24)%nat ->
  (forall x, x < get_tag_metadata img -> ld8 img' x = ld8 img x) ->
  get_file_id_from_name img' name = get_file_id_from_name img name.
Proof.
  intros Hh Hlen Hx. unfold get_file_id_from_name. rewrite (sh_count _ _ Hh).
  rewrite (find_up_ext _ _ (fun i => name_eq img' name (name_of (file_entry img' i)))
    (fun i => name_eq img name (name_of (file_entry img i)))); [done|].
  intros i Hi. rewrite (sh_file_entry _ _ Hh). apply name_eq_frame. intros x Hn. apply Hx.
  destruct (file_entry_ok img Hok i ltac:(lia)). unfold name_of in Hn. lia.
Qed.

Lemma file_keep img' name id l : same_header img img' -> file_at img name id l ->
  (length name < 24)%nat ->
  (forall x, x < get_tag_metadata img -> ld8 img' x = ld8 img x) ->
  (forall k, k ∈ l -> fat_entry img' k = fat_entry img k) ->
  (forall k, k ∈ l -> sector img' k = sector img k) ->
  file_at img' name id l /\ content img' id l = content img id l.
Proof.
  intros Hh [[Hid Hidr] Hfd Hc Hs] Hlen Hx He Hsec.
  destruct (file_entry_ok img Hok (id - 1) ltac:(lia)) as [Hp1 Hp2].
  assert (file_size img' (file_entry img (id - 1)) = file_size img (file_entry img (id - 1))) as Hsz
    by (apply ld32_frame; intros b Hb; apply Hx; lia).
  split.
  - split; rewrite ?(sh_file_entry _ _ Hh), ?(sh_count _ _ Hh), ?(sh_sector_size _ _ Hh).
    + split; [|done]. by rewrite id_keep.
    + rewrite Hfd. symmetry. apply ld32_frame. intros b Hb. apply Hx. lia.
    + by apply chain_keep.
    + by rewrite Hsz.
  - unfold content. by rewrite (sh_file_entry _ _ Hh), Hsz, chain_bytes_keep.
Qed.
End kept.
