(* ===== verification/FuseNew.v ===== *)
(** * The FUSE driver's first write to a file

    A new file's entry has no first sector; [tagfs_write]
    (src/tagfs/FUSE_driver/src/tagfs.c) gives it the first free one, which it
    marks in the FAT. [first_write] is the image without the mark. *)
From S2P Require Import Prelude Memory TagLayout FuseDriver TagFrame.

#[local] Open Scope Z_scope.

(** A file that has been made and not written. *)
Record new_file (img : mem) (name : list Z) (id : Z) : Prop := {
  nf_id : get_file_id_from_name img name = id /\ 0 < id <= count_file_meta_entries img;
  nf_first : first_data_sector img (file_entry img (id - 1)) = 0xffff;
  nf_size : file_size img (file_entry img (id - 1)) = 0;
}.

(** The data in sector [q], and the entry of the file that has it. *)
Definition first_write (img : mem) (this q o : Z) (bytes : list Z) : mem :=
  grow_size (st32 (st_bytes img (data_addr img q) bytes) this q) this (o + Z.of_nat (length bytes)).

Lemma find_free_range img q : find_free_fat img = q -> 0 <= q ->
  q < fat_count img /\ fat_entry img q = 0.
Proof.
  unfold find_free_fat. intros H Hq. destruct (find_up _ _ _) as [i|] eqn:E; [|lia]. subst i.
  apply find_up_Some in E as (Hr & Hz & _). split; [lia|by apply Z.eqb_eq].
Qed.

(** Stores to different places commute. *)
Lemma st_bytes_st32 m a v b l : a + 4 <= b \/ b + Z.of_nat (length l) <= a ->
  st_bytes (st32 m a v) b l ≡ st32 (st_bytes m b l) a v.
Proof.
  intros Hab x. rewrite ld8_st_bytes. case_decide as Hx.
  - by rewrite ld8_st32_ne, ld8_st_bytes, decide_True by lia.
  - apply ld8_st32_shift; [done|]. by rewrite ld8_st_bytes, decide_False.
Qed.
Lemma st16_st32 m a v b w : a + 4 <= b \/ b + 2 <= a -> st16 (st32 m a v) b w ≡ st32 (st16 m b w) a v.
Proof.
  intros Hab x. destruct (decide (b <= x < b + 2)) as [Hx|Hx].
  - rewrite (ld8_st32_ne (st16 m b w)) by lia. unfold st16. rewrite !ld8_st8, ld8_st32_ne by lia. done.
  - rewrite ld8_st16_ne by lia. apply ld8_st32_shift; [done|]. by rewrite ld8_st16_ne by lia.
Qed.

(** The entry's places in the image. *)
Lemma entry_apart img id q : layout_ok img -> 0 < id <= count_file_meta_entries img -> 0 <= q < fat_count img ->
  let this := file_entry img (id - 1) in
  64 <= this /\ this + 32 <= fat_addr img q /\ fat_addr img q + 2 <= data_addr img q.
Proof.
  intros Hok Hid Hq. cbv zeta. destruct (file_entry_ok img Hok (id - 1)) as [He1 He2]; [lia|].
  pose proof (section_order img Hok) as (?&?&?&?&?). destruct (fat_addr_ok img Hok q Hq) as (Hf1 & Hf2 & _).
  destruct (data_start img Hok q Hq) as (_ & _ & Hd). lia.
Qed.

Lemma first_write_alt img id q o bytes : layout_ok img -> 0 < id <= count_file_meta_entries img ->
  0 <= q < fat_count img -> file_size img (file_entry img (id - 1)) = 0 -> 0 <= o -> (0 < length bytes)%nat ->
  o + Z.of_nat (length bytes) < 2 ^ 64 ->
  let this := file_entry img (id - 1) in
  first_write img this q o bytes =
    st32 (st32 (st_bytes img (data_addr img q) bytes) this q) (this + 4) (o + Z.of_nat (length bytes)).
Proof.
  intros Hok Hid Hq Hsz Ho Hn Hend this. destruct (entry_apart img id q Hok Hid Hq) as (H1 & H2 & H3). fold this in H1, H2.
  unfold first_write, grow_size. assert (file_size (st32 (st_bytes img (data_addr img q) bytes) this q) this = 0) as ->.
  { rewrite <- Hsz. apply ld32_frame. intros x Hx. rewrite ld8_st32_ne, ld8_st_bytes, decide_False by lia. done. }
  unfold w64. rewrite Z.mod_small by lia. by rewrite (proj2 (Z.ltb_lt _ _)) by lia.
Qed.

Section host.
Context (img : mem) (Hok : layout_ok img).

(** The FUSE driver marks the sector. *)
Lemma tagfs_write_new name id q fuel bytes o : new_file img (tl name) id -> find_free_fat img = q -> 0 <= q ->
  0 <= o -> (0 < length bytes)%nat -> Z.of_nat (length bytes) <= fs_sector_size img ->
  fs_sector_size img < 2147483648 -> o + Z.of_nat (length bytes) < 2 ^ 64 -> (0 < fuel)%nat ->
  exists img', tagfs_write fuel img name bytes (Z.of_nat (length bytes)) o = Ok (s32 (Z.of_nat (length bytes)), img') /\
    img' ≡ st16 (first_write img (file_entry img (id - 1)) q o bytes) (fat_addr img q) 0xffff.
Proof.
  intros [[Hid Hidr] Hnf Hns] Hq Hq0 Ho Hlen Hss Hmax Hend Hf. destruct (find_free_range img q Hq Hq0) as [Hqc Hqz].
  unfold tagfs_write. rewrite Hid. destruct (Z.eqb_spec id 0); [lia|].
  set (this := file_entry img (id - 1)) in *. rewrite Hnf, Hq. cbn [Z.eqb Pos.eqb].
  destruct (Z.eqb_spec q (-1)); [lia|].
  destruct (entry_apart img id q Hok Hidr ltac:(lia)) as (Hp1 & Hp2 & Hp3). fold this in Hp1, Hp2.
  set (img1 := st32 img this q).
  assert (same_header img img1) as Hh1 by (intros x Hx; unfold img1; by rewrite ld8_st32_ne by lia).
  assert (file_size img1 this = 0) as E.
  { rewrite <- Hns. apply ld32_frame. intros x Hx. unfold img1. by rewrite ld8_st32_ne by lia. }
  destruct (lay_sector Hok) as [Hss64 _].
  rewrite E, (proj2 (Z.ltb_ge o 0)), (sh_sector_size _ _ Hh1), Z.div_0_l, Z.mod_0_l by lia.
  destruct fuel as [|fuel]; [lia|]. cbn [loop skip_body]. change (0 <? s32 0) with false. cbv iota. rewrite bind_Ok_r.
  change (s32 0) with 0. set (sz := Z.of_nat (length bytes)) in *. pose proof (sh_layout_ok _ _ Hh1 Hok) as Hok1.
  pose proof (sh_fat_count _ _ Hh1) as Hc1.
  unfold tagfs_write_data. rewrite (sh_sector_size _ _ Hh1), Z.sub_0_r, w32_id by (unfold is_u32; lia).
  rewrite (proj2 (Z.leb_le sz _)) by lia. rewrite (take_ge bytes) by lia.
  rewrite (img_write_sector img1 Hok1 q 0 bytes), bind_Ok_r, Z.add_0_r, (sh_data_addr _ _ Hh1) by (rewrite ?Hc1, ?(sh_sector_size _ _ Hh1); lia).
  set (img2 := st_bytes img1 (data_addr img q) bytes).
  assert (same_header img img2) as Hh2
    by (intros x Hx; unfold img2; rewrite ld8_st_bytes, decide_False by lia; by apply Hh1).
  destruct (fat_addr_ok img Hok q) as (_ & _ & Hin); [lia|].
  rewrite fat_get_ok by (rewrite ?(sh_fat_count _ _ Hh2); lia || by apply (sh_layout_ok _ _ Hh2)).
  assert (fat_entry img2 q = 0) as ->.
  { rewrite (sh_fat_entry _ _ Hh2); [done|]. intros x Hx. unfold img2, img1.
    by rewrite ld8_st_bytes, decide_False, ld8_st32_ne by lia. }
  rewrite bind_Ok_r. change (0 =? 0) with true. cbv iota. unfold fat_set.
  rewrite (sh_in_image _ _ Hh2), (sh_fat_addr _ _ Hh2), Hin. res_step. eexists. split; [reflexivity|].
  unfold grow_size. assert (file_size (st16 img2 (fat_addr img q) 65535) this = 0) as ->.
  { rewrite <- E. apply ld32_frame. intros x Hx. unfold img2.
    by rewrite ld8_st16_ne, ld8_st_bytes, decide_False by lia. }
  unfold w64. rewrite Z.mod_small, (proj2 (Z.ltb_lt 0 _)) by lia.
  unfold this. rewrite (first_write_alt img id q o bytes) by (done || lia). fold this sz.
  rewrite !st16_st32 by lia. unfold img2, img1. by rewrite st_bytes_st32, st16_st32 by lia.
Qed.
End host.

(** ** What the image is then *)

Section after.
Context (img : mem) (id q o : Z) (bytes : list Z) (Hok : layout_ok img).
Context (Hid : 0 < id <= count_file_meta_entries img) (Hq : 0 <= q < fat_count img).
Context (Hsz : file_size img (file_entry img (id - 1)) = 0) (Ho : 0 <= o).
Context (Hn : 0 < Z.of_nat (length bytes) ) (Hend : o + Z.of_nat (length bytes) < 4294967296).

Abbreviation this := (file_entry img (id - 1)).
Abbreviation img' := (first_write img this q o bytes).

(** Below the data, only the first two words of the entry change. *)
Lemma first_write_low x : x < get_data img -> x < this \/ this + 8 <= x -> ld8 img' x = ld8 img x.
Proof.
  intros Hx Hx'. destruct (data_start img Hok q Hq) as (_ & _ & Hd).
  rewrite (first_write_alt img id q o bytes) by (done || lia).
  by rewrite !ld8_st32_ne, ld8_st_bytes, decide_False by lia.
Qed.

Lemma first_write_header : same_header img img'.
Proof.
  destruct (entry_apart img id q Hok Hid Hq) as (H1 & _ & _). pose proof (section_order img Hok) as (?&?&?&?&?).
  intros x Hx. apply first_write_low; lia.
Qed.

Lemma first_write_entry : first_data_sector img' this = q /\ file_size img' this = o + Z.of_nat (length bytes) /\
  bytes_at img' (data_addr img q) (length bytes) = map w8 bytes.
Proof.
  destruct (entry_apart img id q Hok Hid Hq) as (H1 & H2 & H3). pose proof (s32_range (w32 (fs_fat_sector_count img * fs_sector_size img) / 2)) as Hc.
  fold (fat_count img) in Hc.
  rewrite (first_write_alt img id q o bytes) by (done || lia).
  unfold first_data_sector, file_size. rewrite ld32_st32_eq. split_and!.
  - rewrite (ld32_frame (st32 (st_bytes img (data_addr img q) bytes) this q)); [rewrite ld32_st32_eq; apply w32_id|].
    + unfold is_u32. lia.
    + intros x Hx. by rewrite ld8_st32_ne by lia.
  - apply w32_id. unfold is_u32. lia.
  - apply list_eq. intros j. destruct (decide (j < length bytes)%nat) as [Hj|Hj].
    + rewrite lookup_bytes_at, !ld8_st32_ne, ld8_st_bytes, decide_True, list_lookup_fmap by lia.
      replace (Z.to_nat (data_addr img q + Z.of_nat j - data_addr img q)) with j by lia.
      destruct (lookup_lt_is_Some_2 bytes j Hj) as [c ->]. done.
    + rewrite !lookup_ge_None_2 by (rewrite ?length_map, ?length_bytes_at; lia). done.
Qed.

End after.

Lemma map_w8 l : Forall is_u8 l -> map w8 l = l.
Proof. induction 1 as [|x l Hx _ IH]; [done|]. cbn [map]. by rewrite w8_id, IH. Qed.
