(* ===== verification/Tfsfmt.v ===== *)
(** * The image builder (src/tagfs/tfsfmt/src/tfsfmt.c)

    [format_image], [write_files] and [write_tag] on the mapped image. The
    host's file system is a function from paths to contents, and the success
    of [mmap] and [msync] are arguments; what is printed on stderr is a list
    of warnings. The parsed options are arguments (flags.c parses them). *)
From S2P Require Import Prelude Memory TagLayout FuseDriver TagFrame.

#[local] Open Scope Z_scope.

(** A run of the program ends by [exit] or goes on with a value. *)
Inductive outcome (A : Type) : Type :=
  | Exit (code : Failure)
  | Done (a : A).
Arguments Exit {A} code.
Arguments Done {A} a.

(** The host: is the image there, do [mmap] and [msync] succeed. *)
Record host : Type := Host {
  h_image : option mem;
  h_mmap_ok : bool;
  h_msync_ok : bool;
}.

(** ** format *)

Record Format_Options : Type := {
  o_sector_count : Z;
  o_sector_size : Z;
  o_file_meta_sector_count : Z;
  o_tag_meta_sector_count : Z;
  o_tag_file_sector_count : Z;
  o_fat_sector_count : Z;
}.

Definition default_options : Format_Options := {|
  o_sector_count := 1000;
  o_sector_size := 512;
  o_file_meta_sector_count := 10;
  o_tag_meta_sector_count := 10;
  o_tag_file_sector_count := 10;
  o_fat_sector_count := 2;
|}.

(** [memset(mapped_img, 0, n)]. *)
Definition memset_zero (img : mem) (n : Z) : mem :=
  for_up (Z.to_nat n) 0 (fun i img => st8 img i 0) img.

Definition format_image (h : host) (options : Format_Options) : outcome mem :=
  match h_image h with
  | None => Exit FAIL_IMG_NOT_FOUND
  | Some img =>
      if negb (h_mmap_ok h) then Exit FAIL_GENERIC else
      let img := memset_zero img (o_sector_count options * o_sector_size options) in
      let img := st32 img 4 1 in
      let img := st32 img 8 (o_sector_count options) in
      let img := st32 img 12 (o_sector_size options) in
      let img := st32 img 16 (o_file_meta_sector_count options) in
      let img := st32 img 20 (o_tag_meta_sector_count options) in
      let img := st32 img 24 (o_tag_file_sector_count options) in
      let img := st32 img 28 (o_fat_sector_count options) in
      if negb (h_msync_ok h) then Exit FAIL_GENERIC else Done img
  end.

(** ** Tags *)

(** A [for] loop with a [uint16_t] index below an [unsigned int] bound. *)
Definition search16_body (count : Z) (test : Z -> bool) (i : Z) : res (step Z (option Z)) :=
  if i <? count then if test i then Ok (Stop (Some i)) else Ok (Next (w16 (i + 1)))
  else Ok (Stop None).
Definition search16 (fuel : nat) (count : Z) (test : Z -> bool) : res (option Z) :=
  loop fuel (search16_body count test) 0.

Fixpoint filter_valid_tag_names (tag_names : list cstr) : res (list (list Z)) :=
  match tag_names with
  | [] => Ok []
  | name :: tag_names =>
      name ← non_null name;
      names ← filter_valid_tag_names tag_names;
      Ok (if Z.of_nat (length name) <? 28 then name :: names else names)
  end.

Definition tag_meta_entry_count (img : mem) : Z :=
  w32 (fs_tag_meta_sector_count img * fs_sector_size img) / 32.

Definition find_or_create_tag (fuel : nat) (img : mem) (name : list Z) : res (Z * mem) :=
  let count := tag_meta_entry_count img in
  found ← search16 fuel count (fun i => name_eq img name (tag_entry img i));
  match found with
  | Some index => Ok (w16 (index + 1), img)
  | None =>
      found ← search16 fuel count (fun i => tag_metadata_entry_is_free img (tag_entry img i));
      match found with
      | Some index => Ok (w16 (index + 1), st_bytes img (tag_entry img index) (name ++ [0]))
      | None => Ok (0, img)
      end
  end.

Definition tag_file_entry_count (img : mem) : Z :=
  s32 (w32 (fs_tag_file_sector_count img * fs_sector_size img) / 4).
Definition tf_tag_id (img : mem) (i : Z) : Z := ld16 img (tag_file_entry img i).
Definition tf_file_id (img : mem) (i : Z) : Z := ld16 img (tag_file_entry img i + 2).

Definition link_tag_to_file (img : mem) (tag_id file_id : Z) : bool * mem :=
  let count := Z.to_nat (tag_file_entry_count img) in
  match find_up count 0
          (fun i => (tf_tag_id img i =? tag_id) && (tf_file_id img i =? file_id)) with
  | Some _ => (true, img)
  | None =>
      match find_up count 0 (fun i => tf_tag_id img i =? 0) with
      | Some i =>
          let entry := tag_file_entry img i in
          (true, st16 (st16 img entry tag_id) (entry + 2) file_id)
      | None => (false, img)
      end
  end.

(** ** write-files *)

Inductive warning : Type :=
  | FileNotFound
  | FileTooBig
  | NameTooLong
  | MetadataFull
  | Truncated
  | TagMapFull
  | TagsFull.

(** [strtok(spec, ":")]: leading colons are skipped, and without another
    character it returns [NULL], which [strrchr] then reads; what follows the
    colon that ends the token is what [strtok(NULL, "\0")] returns, unless
    empty. *)
Fixpoint skip_colons (s : list Z) : list Z :=
  match s with
  | c :: s' => if c =? 58 then skip_colons s' else s
  | [] => []
  end.
Fixpoint split_colon (s : list Z) : list Z * list Z :=
  match s with
  | [] => ([], [])
  | c :: s' => if c =? 58 then ([], s') else let '(a, b) := split_colon s' in (c :: a, b)
  end.

(** What follows the last slash: [strrchr(path, '/') + 1], or the path. *)
Fixpoint base_name (s : list Z) : list Z :=
  match s with
  | [] => []
  | c :: s' => if c =? 47 then base_name s' else if bool_decide (47 ∈ s') then base_name s' else s
  end.

Definition parse_file_spec (spec : list Z) : res (list Z * list Z) :=
  match skip_colons spec with
  | [] => Err OutOfBounds
  | spec =>
      let '(src_file_path, rest) := split_colon spec in
      match rest with
      | [] => Ok (src_file_path, base_name src_file_path)
      | _ => Ok (src_file_path, rest)
      end
  end.

Definition is_tagfs_file (dst_file_name : list Z) (file_size : Z) : option warning :=
  if 4294967295 <? file_size then Some FileTooBig else
  if 24 <=? Z.of_nat (length dst_file_name) then Some NameTooLong else None.

(** The loop [for (; fat_index < num_fat_entries; fat_index++)] from [i] on. *)
Definition next_free_fat (img : mem) (i : Z) : option Z :=
  find_up (Z.to_nat (fat_count img - i)) i (fun k => fat_entry img k =? 0).

(** The loop that copies the file, [fread] giving the bytes from the position
    on; its state is [fat_index], [bytes_copied] and the image, and it stops
    with [bytes_copied], the image and whether the file was truncated. *)
Definition copy_body (src : list Z) (st : Z * Z * mem)
  : res (step (Z * Z * mem) (Z * mem * bool)) :=
  let '(fat_index, bytes_copied, img) := st in
  let bytes := take (Z.to_nat (fs_sector_size img)) (drop (Z.to_nat bytes_copied) src) in
  img ← img_write img (data_addr img fat_index) bytes;
  let bytes_copied := bytes_copied + Z.of_nat (length bytes) in
  if bytes_copied =? Z.of_nat (length src) then
    img ← fat_set img fat_index 0xffff; Ok (Stop (bytes_copied, img, false))
  else
    match next_free_fat img (fat_index + 1) with
    | None => img ← fat_set img fat_index 0xffff; Ok (Stop (bytes_copied, img, true))
    | Some next => img ← fat_set img fat_index next; Ok (Next (next, bytes_copied, img))
    end.

(** [for (int i = 0; i < tags_count; i++)]: create the tags and link them. *)
Fixpoint link_tags (fuel : nat) (tags : list (list Z)) (file_id : Z) (img : mem)
  : res (list warning * mem) :=
  match tags with
  | [] => Ok ([], img)
  | tag :: tags =>
      '(tag_id, img) ← find_or_create_tag fuel img tag;
      let '(ws, img) :=
        if 0 <? tag_id then
          let '(linked, img) := link_tag_to_file img tag_id file_id in
          (if linked then [] else [TagMapFull], img)
        else ([TagsFull], img) in
      '(ws', img) ← link_tags fuel tags file_id img;
      Ok (ws ++ ws', img)
  end.

(** The body of the loop over the file specifications. *)
Definition write_file (fuel : nat) (fopen : list Z -> option (list Z)) (tags : list (list Z))
    (spec : list Z) (img : mem) : res (list warning * mem) :=
  '(src_file_path, dst_file_name) ← parse_file_spec spec;
  match fopen src_file_path with
  | None => Ok ([FileNotFound], img)
  | Some src =>
      match is_tagfs_file dst_file_name (Z.of_nat (length src)) with
      | Some w => Ok ([w], img)
      | None =>
          entry ← search16 fuel (w32 (fs_file_meta_sector_count img * fs_sector_size img) / 32)
                    (fun i => file_metadata_entry_is_free img (file_entry img i));
          match entry with
          | None => Ok ([MetadataFull], img)
          | Some entry =>
              match next_free_fat img 0 with
              | None => Ok ([Truncated], img)
              | Some fat_index =>
                  let file_id := w16 (entry + 1) in
                  let this := file_entry img (file_id - 1) in
                  let img := st32 img this fat_index in
                  '(bytes_copied, img, truncated) ← loop fuel (copy_body src) (fat_index, 0, img);
                  let img := st32 img (this + 4) bytes_copied in
                  let img := st_bytes img (name_of this) (dst_file_name ++ [0]) in
                  '(ws, img) ← link_tags fuel tags file_id img;
                  Ok ((if (truncated : bool) then [Truncated] else []) ++ ws, img)
              end
          end
      end
  end.

Fixpoint write_specs (fuel : nat) (fopen : list Z -> option (list Z)) (tags : list (list Z))
    (specs : list cstr) (img : mem) : res (list warning * mem) :=
  match specs with
  | [] => Ok ([], img)
  | spec :: specs =>
      spec ← non_null spec;
      '(ws, img) ← write_file fuel fopen tags spec img;
      '(ws', img) ← write_specs fuel fopen tags specs img;
      Ok (ws ++ ws', img)
  end.

Definition write_files (fuel : nat) (h : host) (fopen : list Z -> option (list Z))
    (tags specs : list cstr) : res (outcome (list warning * mem)) :=
  tags ← filter_valid_tag_names tags;
  match h_image h with
  | None => Ok (Exit FAIL_IMG_NOT_FOUND)
  | Some img =>
      if negb (h_mmap_ok h) then Ok (Exit FAIL_GENERIC) else
      '(ws, img) ← write_specs fuel fopen tags specs img;
      if negb (h_msync_ok h) then Ok (Exit FAIL_GENERIC) else Ok (Done (ws, img))
  end.

(** ** write-tag *)

(** [while (tag_metadata_entry_is_free(tag_meta)) tag_meta++;] *)
Definition skip_body_tag (img : mem) (tag_meta : Z) : res (step Z Z) :=
  _ ← guard_bounds (in_image img tag_meta 1);
  if tag_metadata_entry_is_free img tag_meta then Ok (Next (tag_meta + 32))
  else Ok (Stop tag_meta).

Definition write_tag (fuel : nat) (h : host) (tag_name : cstr) : res (outcome mem) :=
  match h_image h with
  | None => Ok (Exit FAIL_IMG_NOT_FOUND)
  | Some img =>
      if negb (h_mmap_ok h) then Ok (Exit FAIL_GENERIC) else
      tag_meta ← loop fuel (skip_body_tag img) (get_tag_metadata img);
      tag_name ← non_null tag_name;
      if 28 <=? Z.of_nat (length tag_name) then Ok (Exit FAIL_GENERIC) else
      _ ← guard_bounds (in_image img tag_meta (Z.of_nat (length tag_name) + 1));
      let img := st_bytes img tag_meta (tag_name ++ [0]) in
      if negb (h_msync_ok h) then Ok (Exit FAIL_GENERIC) else Ok (Done img)
  end.

(** ** The sectors a file goes to *)

(** The sectors [write_files] takes from sector [i] on for [n] more sectors
    than one: always the next free one, as far as there are any. *)
Fixpoint taken (img : mem) (n : nat) (i : Z) : list Z :=
  i :: match n with
       | O => []
       | S n' => match next_free_fat img (i + 1) with
                 | Some j => taken img n' j
                 | None => []
                 end
       end.

Lemma next_free_Some img i j : 0 <= i -> next_free_fat img i = Some j ->
  i <= j < fat_count img /\ fat_entry img j = 0 /\
  forall k, i <= k < j -> fat_entry img k <> 0.
Proof.
  intros Hi (Hr & H0 & Hlt)%find_up_Some. apply Z.eqb_eq in H0.
  split_and!; [lia..|done|]. intros k Hk. by apply Z.eqb_neq, Hlt.
Qed.

Lemma next_free_ext img img' i : same_header img img' ->
  (forall k, i <= k < fat_count img -> fat_entry img' k = fat_entry img k) ->
  next_free_fat img' i = next_free_fat img i.
Proof.
  intros Hh Hf. unfold next_free_fat. rewrite (sh_fat_count _ _ Hh). apply find_up_ext.
  intros k Hk. rewrite Hf; [done|]. lia.
Qed.

Lemma taken_ext img img' n i : same_header img img' -> 0 <= i ->
  (forall k, i < k < fat_count img -> fat_entry img' k = fat_entry img k) ->
  taken img' n i = taken img n i.
Proof.
  intros Hh. revert i; induction n as [|n IH]; intros i Hi Hf; cbn [taken]; [done|].
  rewrite (next_free_ext img) by (done || (intros; apply Hf; lia)).
  destruct (next_free_fat img (i + 1)) as [j|] eqn:E; [|done].
  apply next_free_Some in E as (Hj & _); [|lia]. rewrite IH; [done|lia|]. intros k Hk. apply Hf. lia.
Qed.

Lemma taken_range img n i k : 0 <= i < fat_count img -> k ∈ taken img n i ->
  i <= k < fat_count img /\ (k = i \/ fat_entry img k = 0 /\ i < k).
Proof.
  revert i; induction n as [|n IH]; intros i Hi; cbn [taken].
  - intros ->%list_elem_of_singleton. lia.
  - destruct (next_free_fat img (i + 1)) as [j|] eqn:E.
    + apply next_free_Some in E as (Hj & H0 & _); [|lia]. intros [->|Hk]%elem_of_cons; [lia|].
      apply IH in Hk; [|lia]. destruct Hk as [Hk [->|[Hf Hjk]]]; (split; [lia|right]); split; (done || lia).
    + intros ->%list_elem_of_singleton. lia.
Qed.

Lemma taken_hd img n i : exists l, taken img n i = i :: l.
Proof. destruct n; cbn [taken]; eauto. Qed.

Lemma length_taken img n i : (1 <= length (taken img n i) <= S n)%nat.
Proof.
  revert i; induction n as [|n IH]; intros i; cbn [taken length]; [lia|].
  destruct (next_free_fat img (i + 1)); cbn; [|lia]. specialize (IH z). lia.
Qed.

(** ** The copy loop *)

Lemma img_write_data img i bytes : layout_ok img -> 0 <= i < fat_count img ->
  Z.of_nat (length bytes) <= fs_sector_size img ->
  img_write img (data_addr img i) bytes = Ok (st_bytes img (data_addr img i) bytes).
Proof.
  intros Hok Hi Hlen. destruct (data_addr_ok img Hok i Hi) as [Ha Hb].
  destruct (data_start img Hok i Hi) as (H1 & _). unfold img_write, in_image.
  destruct (Z.leb_spec 0 (data_addr img i)),
    (Z.leb_spec (data_addr img i + Z.of_nat (length bytes)) (img_size img)); try lia.
  cbn [andb]. by res_step.
Qed.

Lemma sector_written img i bytes : layout_ok img -> 0 <= i < fat_count img -> Forall is_u8 bytes ->
  Z.of_nat (length bytes) <= fs_sector_size img ->
  take (length bytes) (sector (st_bytes img (data_addr img i) bytes) i) = bytes.
Proof.
  intros Hok Hi Hb Hlen. destruct (kept_data img Hok i bytes Hi Hlen) as [Hh _ _ _].
  unfold sector. rewrite (sh_sector_size _ _ Hh), (sh_data_addr _ _ Hh).
  apply list_eq_same_length with (n := length bytes); [done|
    rewrite length_take, length_bytes_at; lia|].
  intros k x y Hk Hx Hy. rewrite lookup_take_lt, lookup_bytes_at in Hx by lia. injection Hx as <-.
  rewrite ld8_st_bytes, decide_True by lia.
  replace (Z.to_nat (data_addr img i + Z.of_nat k - data_addr img i)) with k by lia.
  rewrite Hy. cbn. rewrite w8_id; [done|]. rewrite Forall_lookup in Hb. eauto.
Qed.

(** One round of the loop: the bytes go to sector [i]; [v] is the link. *)
Lemma copy_round img i bytes v : layout_ok img -> 0 <= i < fat_count img -> Forall is_u8 bytes ->
  Z.of_nat (length bytes) <= fs_sector_size img ->
  let img1 := st_bytes img (data_addr img i) bytes in
  next_free_fat img1 (i + 1) = next_free_fat img (i + 1) /\
  exists img2, fat_set img1 i v = Ok img2 /\ kept [i] img img2 /\ layout_ok img2 /\
    fat_entry img2 i = w16 v /\ take (length bytes) (sector img2 i) = bytes.
Proof.
  intros Hok Hi Hb Hlen. cbv zeta. pose proof (kept_data img Hok i bytes Hi Hlen) as Hk1.
  pose proof (sector_written img i bytes Hok Hi Hb Hlen) as Hw.
  set (img1 := st_bytes img (data_addr img i) bytes) in *.
  pose proof (kept_header _ _ _ Hk1) as Hh1. pose proof (sh_layout_ok _ _ Hh1 Hok) as Hok1.
  split.
  { apply next_free_ext; [done|]. intros k Hk. apply (kept_fat _ _ _ Hk1); [lia|].
    intros ->%list_elem_of_singleton. lia. }
  destruct (kept_fat_set img1 Hok1 i v) as (img2 & Hs & Hk2 & Hf & Hsec);
    [by rewrite (sh_fat_count _ _ Hh1)|].
  exists img2. split_and!; [done| | |done|].
  - apply (kept_mono ([i] ++ [i])); [by eapply kept_trans|]. intros k Hk.
    apply elem_of_app in Hk. tauto.
  - apply (sh_layout_ok _ _ (kept_header _ _ _ Hk2) Hok1).
  - rewrite Hsec; [done|]. by rewrite (sh_fat_count _ _ Hh1).
Qed.

(** The last round: the sector's entry gets the end mark. *)
Lemma copy_end img i bytes : layout_ok img -> 0 <= i < fat_count img -> Forall is_u8 bytes ->
  Z.of_nat (length bytes) <= fs_sector_size img ->
  exists img2, fat_set (st_bytes img (data_addr img i) bytes) i 0xffff = Ok img2 /\
    kept [i] img img2 /\ chain img2 [i] /\ take (length bytes) (chain_bytes img2 [i]) = bytes.
Proof.
  intros Hok Hi Hb Hlen. destruct (copy_round img i bytes 0xffff Hok Hi Hb Hlen)
    as (_ & img2 & Hset & Hk & Hok2 & Hfe & Hsec). exists img2. split_and!; [done..| |].
  - cbn [chain]. by rewrite (sh_fat_count _ _ (kept_header _ _ _ Hk)).
  - unfold chain_bytes. cbn [map concat]. by rewrite app_nil_r.
Qed.

(** A round before the last: the entry gets the link to [j], and what the rest
    of the loop does from [j] on completes the chain. *)
Lemma copy_more img i bytes j n : layout_ok img -> 0 <= i < fat_count img -> Forall is_u8 bytes ->
  Z.of_nat (length bytes) = fs_sector_size img -> next_free_fat img (i + 1) = Some j ->
  i < j < fat_count img /\
  exists img2, fat_set (st_bytes img (data_addr img i) bytes) i j = Ok img2 /\
    layout_ok img2 /\ same_header img img2 /\ taken img2 n j = taken img n j /\
    forall img3, kept (taken img n j) img2 img3 -> chain img3 (taken img n j) ->
      kept (i :: taken img n j) img img3 /\ chain img3 (i :: taken img n j) /\
      chain_bytes img3 (i :: taken img n j) = bytes ++ chain_bytes img3 (taken img n j).
Proof.
  intros Hok Hi Hb Hlen Ej. destruct (copy_round img i bytes j Hok Hi Hb ltac:(lia))
    as (_ & img2 & Hset & Hk & Hok2 & Hfe & Hsec). pose proof (kept_header _ _ _ Hk) as Hh.
  apply next_free_Some in Ej as (Hj & Hj0 & _); [|lia]. split; [lia|]. exists img2.
  pose proof (layout_sums img Hok) as (_&_&_&_&_&_&_&_&Hfc&_). pose proof (lay_fat Hok).
  rewrite w16_id in Hfe by (unfold is_u16; lia). destruct (lay_sector Hok) as [Hs64 _].
  split_and!; [done..| |].
  { apply taken_ext; [done|lia|]. intros k Hkr. apply (kept_fat _ _ _ Hk); [lia|].
    intros ->%list_elem_of_singleton. lia. }
  intros img3 Hk3 Hc3. pose proof (kept_header _ _ _ Hk3) as Hh3.
  assert (i ∉ taken img n j) as Hil by (intros Hin; apply taken_range in Hin; lia).
  assert (fat_entry img3 i = j /\ sector img3 i = bytes) as [Hfi Hsi].
  { split.
    - rewrite (kept_fat _ _ _ Hk3 i) by (try done; by rewrite (sh_fat_count _ _ Hh)). done.
    - rewrite (kept_sector _ _ _ Hk3 i) by (try done; by rewrite (sh_fat_count _ _ Hh)).
      rewrite <- Hsec. symmetry. apply take_ge.
      rewrite length_sector, (sh_sector_size _ _ Hh). lia. }
  destruct (taken_hd img n j) as [t Ht]. rewrite Ht in *. split_and!.
  - by apply (kept_trans [i] (j :: t) img img2 img3).
  - change (0 <= i < fat_count img3 /\ fat_entry img3 i = j /\ j <> 0 /\ chain img3 (j :: t)).
    rewrite (sh_fat_count _ _ Hh3), (sh_fat_count _ _ Hh). split_and!; (done || lia).
  - unfold chain_bytes. cbn [map concat]. by rewrite Hsi.
Qed.

Lemma take_length_take {A} (n : nat) (l : list A) : take (length (take n l)) l = take n l.
Proof.
  rewrite length_take. destruct (Nat.le_ge_cases n (length l)) as [H|H].
  - by rewrite Nat.min_l.
  - by rewrite Nat.min_r, !take_ge by lia.
Qed.

(** The whole loop, from [bytes_copied = b]: the sectors [taken] become the
    chain of as many bytes of the source as fit them. *)
Lemma copy_loop src (ss : Z) : Forall is_u8 src -> forall n img i b fuel, layout_ok img ->
  fs_sector_size img = ss -> 0 <= i < fat_count img -> 0 <= b <= Z.of_nat (length src) ->
  Z.of_nat (length src) - b <= (Z.of_nat n + 1) * ss ->
  (n = O \/ Z.of_nat n * ss < Z.of_nat (length src) - b) -> (n < fuel)%nat ->
  let l := taken img n i in
  let m := Z.min (Z.of_nat (length src) - b) (Z.of_nat (length l) * ss) in
  exists img', loop fuel (copy_body src) (i, b, img) =
      Ok (b + m, img', bool_decide (length l < S n)%nat) /\
    kept l img img' /\ chain img' l /\
    take (Z.to_nat m) (chain_bytes img' l) = take (Z.to_nat m) (drop (Z.to_nat b) src).
Proof.
  intros Hbytes. induction n as [|n IH]; intros img i b [|fuel] Hok Hss Hi Hb Hle Hn Hf; try lia;
    cbv zeta; destruct (lay_sector Hok) as [Hs64 _]; rewrite Hss in Hs64;
    cbn [loop copy_body]; rewrite Hss; set (bytes := take _ (drop _ src));
    assert (length bytes = Z.to_nat (Z.min ss (Z.of_nat (length src) - b))) as Hlen
      by (unfold bytes; rewrite length_take, length_drop; lia);
    assert (Forall is_u8 bytes) as Hbu by (by apply Forall_take, Forall_drop);
    assert (take (length bytes) (drop (Z.to_nat b) src) = bytes) as Htk by apply take_length_take;
    rewrite img_write_data by (done || lia); rewrite bind_Ok_r;
    destruct (copy_end img i bytes Hok Hi Hbu ltac:(lia)) as (img2 & Hset & Hk & Hc & Hcb).
  - destruct (Z.eqb_spec (b + Z.of_nat (length bytes)) (Z.of_nat (length src))); [|lia].
    rewrite Hset, bind_Ok_r. exists img2. cbn [taken length].
    replace (Z.to_nat (Z.min _ _)) with (length bytes) by lia. rewrite Hcb, Htk.
    split_and!; [|done..]. f_equal. f_equal. f_equal. lia.
  - destruct Hn as [Hn|Hn]; [done|].
    destruct (Z.eqb_spec (b + Z.of_nat (length bytes)) (Z.of_nat (length src))); [lia|].
    cbn [taken]. destruct (copy_round img i bytes 0 Hok Hi Hbu ltac:(lia)) as (Hnext & _).
    rewrite Hnext. destruct (next_free_fat img (i + 1)) as [j|] eqn:Ej.
    + destruct (copy_more img i bytes j n Hok Hi Hbu ltac:(lia) Ej)
        as (Hj & img1 & Hset1 & Hok1 & Hh1 & Et & Hrest).
      rewrite Hset1, bind_Ok_r.
      specialize (IH img1 j (b + Z.of_nat (length bytes)) fuel Hok1).
      rewrite (sh_sector_size _ _ Hh1), (sh_fat_count _ _ Hh1), Et in IH.
      destruct IH as (img3 & Hloop & Hk3 & Hc3 & Hb3); [done|lia..|].
      destruct (Hrest img3 Hk3 Hc3) as (Hk4 & Hc4 & Hb4). exists img3.
      rewrite Hloop, Hb4. cbn [length]. set (l' := taken img n j) in *.
      split_and!; [|done..|].
      * f_equal. f_equal; [f_equal; lia|apply bool_decide_ext; lia].
      * rewrite take_app_ge by lia. replace (Z.to_nat _ - length bytes)%nat with (Z.to_nat
          (Z.min (Z.of_nat (length src) - (b + Z.of_nat (length bytes))) (Z.of_nat (length l') * ss)))
          by lia.
        rewrite Hb3. replace (Z.to_nat (b + Z.of_nat (length bytes)))
          with (Z.to_nat b + length bytes)%nat by lia.
        rewrite <- drop_drop, <- Htk at 1. rewrite take_take_drop. f_equal. lia.
    + rewrite Hset, bind_Ok_r. exists img2. cbn [length].
      replace (Z.to_nat (Z.min _ _)) with (length bytes) by lia. rewrite Hcb, Htk.
      split_and!; [|done..]. do 3 f_equal. lia.
Qed.

(** ** Searching with a 16-bit index *)

Lemma search16_from (count : Z) test : count <= 65535 -> forall left i fuel, 0 <= i ->
  Z.of_nat left = Z.max 0 (count - i) -> (left < fuel)%nat ->
  loop fuel (search16_body count test) i = Ok (find_up left i test).
Proof.
  intros Hc. induction left as [|left IH]; intros i [|fuel] Hi Hl Hf; try lia;
    cbn [loop find_up]; unfold search16_body at 1; destruct (Z.ltb_spec i count); try lia; [done|].
  destruct (test i); [done|]. rewrite w16_id by (unfold is_u16; lia). apply IH; lia.
Qed.

(** Below 65536 entries the loop is a search. *)
Lemma search16_find fuel count test : 0 <= count <= 65535 -> (Z.to_nat count < fuel)%nat ->
  search16 fuel count test = Ok (find_up (Z.to_nat count) 0 test).
Proof. intros Hc Hf. apply search16_from; lia. Qed.

(** With more, an unsuccessful search never ends: the index wraps. *)
Lemma search16_wraps fuel count test : 65535 < count ->
  (forall i, 0 <= i < 65536 -> test i = false) -> search16 fuel count test = Err OutOfFuel.
Proof.
  intros Hc Ht. apply (loop_diverges _ (fun i => 0 <= i < 65536)); [|lia].
  intros i Hi. unfold search16_body. rewrite Ht by done. destruct (Z.ltb_spec i count); [|lia].
  eexists. split; [done|]. apply w16_range.
Qed.

(** ** Tags *)

(** The tag sections lie between the file entries and the FAT. *)
Definition tags_only (img img' : mem) : Prop :=
  only_in (get_tag_metadata img) (get_fat img - get_tag_metadata img) img img'.

Section tags.
Context (img : mem) (Hok : layout_ok img) (Hcount : tag_meta_entry_count img <= 65535).

Lemma tag_counts : 0 <= tag_meta_entry_count img /\ 0 <= tag_file_entry_count img /\
  get_tag_metadata img + 32 * tag_meta_entry_count img <= get_tag_file_array img /\
  get_tag_file_array img + 4 * tag_file_entry_count img <= get_fat img.
Proof.
  pose proof (layout_sums img Hok) as (?&?&?&?&Ht&Htf&Hf&Hd&_&_&Hsz&He&Hm).
  pose proof (fat_count_nonneg img Hok). destruct (lay_sector Hok) as [Hss _].
  assert (0 <= fat_count img * fs_sector_size img) by nia.
  unfold tag_meta_entry_count, tag_file_entry_count. rewrite !w32_id by (unfold is_u32; lia).
  set (a := fs_tag_meta_sector_count img * fs_sector_size img) in *.
  set (b := fs_tag_file_sector_count img * fs_sector_size img) in *.
  assert (b / 4 <= b) by (apply Z.div_le_upper_bound; lia). pose proof (Z.div_pos b 4).
  rewrite s32_id by lia. pose proof (Z.mul_div_le a 32). pose proof (Z.mul_div_le b 4).
  pose proof (Z.div_pos a 32). lia.
Qed.

Lemma tag_entry_eq img' i : same_header img img' -> tag_entry img' i = tag_entry img i.
Proof. intros Hh. unfold tag_entry. by rewrite (sh_get_tag_metadata _ _ Hh). Qed.

(** What [find_or_create_tag] does: the answer is the first tag of that name;
    if there is none, the first free entry gets the name. *)
Lemma find_or_create_tag_cases fuel name : (Z.to_nat (tag_meta_entry_count img) < fuel)%nat ->
  let find m := find_up (Z.to_nat (tag_meta_entry_count img)) 0 m in
  find_or_create_tag fuel img name = Ok
    match find (fun i => name_eq img name (tag_entry img i)) with
    | Some i => (i + 1, img)
    | None =>
        match find (fun i => tag_metadata_entry_is_free img (tag_entry img i)) with
        | Some i => (i + 1, st_bytes img (tag_entry img i) (name ++ [0]))
        | None => (0, img)
        end
    end.
Proof.
  intros Hf. cbv zeta. pose proof tag_counts as (? & _). unfold find_or_create_tag.
  rewrite !search16_find by lia. rewrite bind_Ok_r.
  destruct (find_up _ _ (fun i => name_eq img name _)) as [i|] eqn:E1.
  { apply find_up_Some in E1 as (Hi & _).
    destruct (Z.eq_dec (tag_meta_entry_count img) 65536); [lia|].
    rewrite w16_id by (unfold is_u16; lia). done. }
  rewrite bind_Ok_r.
  destruct (find_up _ _ (fun i => tag_metadata_entry_is_free img _)) as [i|] eqn:E2; [|done].
  apply find_up_Some in E2 as (Hi & _). by rewrite w16_id by (unfold is_u16; lia).
Qed.

Lemma tag_entry_place i : 0 <= i < tag_meta_entry_count img ->
  get_tag_metadata img <= tag_entry img i /\ tag_entry img i + 32 <= get_tag_file_array img.
Proof. intros Hi. pose proof tag_counts. unfold tag_entry. lia. Qed.

Lemma tag_file_entry_place i : 0 <= i < tag_file_entry_count img ->
  get_tag_file_array img <= tag_file_entry img i /\ tag_file_entry img i + 4 <= get_fat img.
Proof. intros Hi. pose proof tag_counts. unfold tag_file_entry. lia. Qed.

(** Storing a tag name changes one entry: the other tags keep theirs. *)
Lemma store_tag name i : 0 <= i < tag_meta_entry_count img -> (length name < 28)%nat ->
  let img' := st_bytes img (tag_entry img i) (name ++ [0]) in
  tags_only img img' /\ same_header img img' /\
  (forall k u, k <> i -> (length u < 32)%nat ->
     name_eq img' u (tag_entry img k) = name_eq img u (tag_entry img k)) /\
  forall k, k <> i -> tag_metadata_entry_is_free img' (tag_entry img k) =
    tag_metadata_entry_is_free img (tag_entry img k).
Proof.
  intros Hi Hlen. cbv zeta. destruct (tag_entry_place i Hi) as [H1 H2].
  pose proof (only_in_st_bytes img (tag_entry img i) (name ++ [0])) as Hin.
  set (img' := st_bytes _ _ _) in *. rewrite length_app in Hin. cbn [length] in Hin.
  pose proof (section_order img Hok) as (?&?&?&?&?).
  split_and!.
  - intros x Hx. apply Hin. lia.
  - apply (only_in_header _ _ _ _ Hin). lia.
  - intros k u Hk Hu. apply name_eq_frame. intros x Hx. apply Hin. unfold tag_entry in *. lia.
  - intros k Hk. unfold tag_metadata_entry_is_free. f_equal. apply Hin. unfold tag_entry in *. lia.
Qed.

(** Linking writes one entry of the map. *)
Lemma store_link i t f : 0 <= i < tag_file_entry_count img ->
  let img' := st16 (st16 img (tag_file_entry img i) t) (tag_file_entry img i + 2) f in
  tags_only img img' /\ same_header img img' /\ tf_tag_id img' i = w16 t /\
  tf_file_id img' i = w16 f /\
  forall k, k <> i -> tf_tag_id img' k = tf_tag_id img k /\ tf_file_id img' k = tf_file_id img k.
Proof.
  intros Hi. cbv zeta. destruct (tag_file_entry_place i Hi) as [H1 H2].
  pose proof (section_order img Hok) as (?&?&?&?&?).
  set (a := tag_file_entry img i) in *. set (img1 := st16 img a t). set (img2 := st16 img1 (a + 2) f).
  assert (only_in a 4 img img2) as Hin.
  { intros x Hx. unfold img2, img1. by rewrite !ld8_st16_ne by lia. }
  assert (same_header img img2) as Hh by (apply (only_in_header _ _ _ _ Hin); lia).
  assert (forall k, tag_file_entry img2 k = tag_file_entry img k) as He.
  { intros k. unfold tag_file_entry, get_tag_file_array. by hdr_rewrite Hh. }
  split_and!; [intros x Hx; apply Hin; lia|done| | |].
  - unfold tf_tag_id. rewrite He. fold a. unfold img2.
    rewrite (ld16_frame img1) by (intros; apply ld8_st16_ne; lia). apply ld16_st16_eq.
  - unfold tf_file_id. rewrite He. apply ld16_st16_eq.
  - intros k Hk. unfold tf_tag_id, tf_file_id. rewrite He.
    split; apply ld16_frame; intros x Hx; apply Hin; unfold a, tag_file_entry in *; lia.
Qed.
End tags.

Lemma tags_only_trans img1 img2 img3 : same_header img1 img2 ->
  tags_only img1 img2 -> tags_only img2 img3 -> tags_only img1 img3.
Proof.
  intros Hh H1 H2 x Hx. unfold tags_only in *.
  rewrite (sh_get_fat _ _ Hh), (sh_get_tag_metadata _ _ Hh) in H2. by rewrite H2, H1.
Qed.

Lemma sh_tag_count img img' : same_header img img' ->
  tag_meta_entry_count img' = tag_meta_entry_count img.
Proof. intros Hh. unfold tag_meta_entry_count. by hdr_rewrite Hh. Qed.
Lemma sh_tag_file_count img img' : same_header img img' ->
  tag_file_entry_count img' = tag_file_entry_count img.
Proof. intros Hh. unfold tag_file_entry_count. by hdr_rewrite Hh. Qed.

Lemma find_or_create_tag_ok img fuel name : layout_ok img ->
  tag_meta_entry_count img <= 65535 -> (Z.to_nat (tag_meta_entry_count img) < fuel)%nat ->
  (length name < 28)%nat ->
  exists id img', find_or_create_tag fuel img name = Ok (id, img') /\ tags_only img img' /\
    same_header img img' /\ 0 <= id <= tag_meta_entry_count img.
Proof.
  intros Hok Hc Hf Hlen. rewrite find_or_create_tag_cases by done.
  pose proof (tag_counts img Hok) as (? & _).
  destruct (find_up _ _ (fun i => name_eq _ _ _)) as [i|] eqn:E1.
  { apply find_up_Some in E1 as (Hi & _). do 2 eexists. split_and!; [done|done|done|lia|lia]. }
  clear E1. destruct (find_up _ _ _) as [i|] eqn:E2.
  - apply find_up_Some in E2 as (Hi & _).
    destruct (store_tag img Hok name i ltac:(lia) Hlen) as (Ht & Hh & _).
    do 2 eexists. split_and!; [done|done|done|lia|lia].
  - do 2 eexists. split_and!; [done|done|done|lia|lia].
Qed.

Lemma link_tag_to_file_ok img t f : layout_ok img ->
  exists ok img', link_tag_to_file img t f = (ok, img') /\ tags_only img img' /\
    same_header img img'.
Proof.
  intros Hok. unfold link_tag_to_file. pose proof (tag_counts img Hok) as (_ & ? & _).
  destruct (find_up _ _ _) as [i|]; [do 2 eexists; by split_and!|].
  destruct (find_up _ _ _) as [i|] eqn:E; [|do 2 eexists; by split_and!].
  apply find_up_Some in E as (Hi & _).
  destruct (store_link img Hok i t f ltac:(lia)) as (Ht & Hh & _). do 2 eexists. by split_and!.
Qed.

(** Linking a file to its tags touches the tag sections only. *)
(** The warnings about tags. *)
Definition tag_warning (w : warning) : Prop := w = TagMapFull \/ w = TagsFull.

Lemma link_tags_ok fuel tags file_id : Forall (fun u => length u < 28)%nat tags -> forall img,
  layout_ok img -> tag_meta_entry_count img <= 65535 ->
  (Z.to_nat (tag_meta_entry_count img) < fuel)%nat ->
  exists ws img', link_tags fuel tags file_id img = Ok (ws, img') /\ tags_only img img' /\
    same_header img img' /\ Forall tag_warning ws /\ (tags = [] -> ws = []).
Proof.
  induction 1 as [|tag tags Htag _ IH]; intros img Hok Hc Hf; cbn [link_tags]; [do 2 eexists; by split_and!|].
  destruct (find_or_create_tag_ok img fuel tag Hok Hc Hf Htag) as (id & img1 & -> & Ht1 & Hh1 & _).
  rewrite bind_Ok_r. cbv beta iota. pose proof (sh_layout_ok _ _ Hh1 Hok) as Hok1.
  assert (exists ws img2, (if 0 <? id then
      let '(linked, img) := link_tag_to_file img1 id file_id in
      (if linked then [] else [TagMapFull], img) else ([TagsFull], img1)) = (ws, img2) /\
    tags_only img1 img2 /\ same_header img1 img2 /\ Forall tag_warning ws) as (ws & img2 & -> & Ht2 & Hh2 & Hws).
  { destruct (0 <? id); [|do 2 eexists; split_and!; [done..|repeat constructor; by right]].
    destruct (link_tag_to_file_ok img1 id file_id Hok1) as (ok & img2 & -> & Ht2 & Hh2).
    do 2 eexists. split_and!; [done..|]. destruct ok; repeat constructor. }
  assert (same_header img img2) as Hh by (by eapply same_header_trans).
  destruct (IH img2) as (ws' & img3 & -> & Ht3 & Hh3 & Hws' & _);
    [by apply (sh_layout_ok _ _ Hh)|by rewrite (sh_tag_count _ _ Hh)..|].
  do 2 eexists. split_and!; [done| |by eapply same_header_trans|by apply Forall_app|done].
  apply (tags_only_trans _ img2); [done| |done]. by apply (tags_only_trans _ img1).
Qed.

Lemma take_min_length {A} (z : Z) (m : nat) (l : list A) :
  z = Z.of_nat m -> take (Z.to_nat (Z.min (Z.of_nat (length l)) z)) l = take m l.
Proof.
  intros ->. destruct (Z.le_ge_cases (Z.of_nat (length l)) (Z.of_nat m)).
  - rewrite Z.min_l, !take_ge by lia. done.
  - by rewrite Z.min_r, Nat2Z.id by lia.
Qed.

(** ** Writing one file *)

(** The number of sectors needed after the first. *)
Definition more_sectors (img : mem) (src : list Z) : nat :=
  Z.to_nat ((Z.of_nat (length src) - 1) / fs_sector_size img).

Lemma more_sectors_bounds img src : 0 < fs_sector_size img ->
  Z.of_nat (length src) <= (Z.of_nat (more_sectors img src) + 1) * fs_sector_size img /\
  (more_sectors img src = O \/
   Z.of_nat (more_sectors img src) * fs_sector_size img < Z.of_nat (length src)).
Proof.
  intros Hss. unfold more_sectors. set (ss := fs_sector_size img) in *.
  pose proof (Z.div_mod (Z.of_nat (length src) - 1) ss ltac:(lia)) as Hdm.
  pose proof (Z.mod_pos_bound (Z.of_nat (length src) - 1) ss Hss) as Hm.
  destruct (Z.lt_ge_cases ((Z.of_nat (length src) - 1) / ss) 0) as [Hneg|Hpos].
  - assert (length src = O) as E.
    { destruct (length src); [done|]. exfalso.
      pose proof (Z.div_pos (Z.of_nat (S n) - 1) ss). lia. }
    replace (Z.to_nat _) with O by lia. split; [lia|by left].
  - rewrite Z2Nat.id by done. split; [lia|]. right. lia.
Qed.

(** The file entry and what has been stored in it. *)
Lemma store_entry img i size name : layout_ok img -> 0 <= i < count_file_meta_entries img ->
  (length name < 24)%nat -> name_ok name -> 0 <= size < 4294967296 ->
  let this := file_entry img i in
  let img' := st_bytes (st32 img (this + 4) size) (name_of this) (name ++ [0]) in
  only_in this 32 img img' /\ same_header img img' /\
  first_data_sector img' this = first_data_sector img this /\ file_size img' this = size /\
  name_eq img' name (name_of this) = true.
Proof.
  intros Hok Hi Hlen Hn Hs. cbv zeta. set (this := file_entry img i). unfold name_of.
  pose proof (only_in_st32 img (this + 4) size) as H1.
  set (img1 := st32 img (this + 4) size) in *.
  pose proof (only_in_st_bytes img1 (this + 8) (name ++ [0])) as H2.
  rewrite length_app in H2. cbn [length] in H2. set (img2 := st_bytes _ _ (name ++ [0])) in *.
  assert (only_in this 32 img img2) as Hin by (intros x Hx; rewrite H2, H1 by lia; done).
  pose proof (file_entry_place img Hok i Hi) as [Hp1 Hp2]. pose proof (section_order img Hok).
  destruct (file_entry_ok img Hok i Hi) as [Hp3 _]. fold this in Hp1, Hp2, Hp3.
  split_and!; [done|apply (only_in_header _ _ _ _ Hin); lia| | |by apply name_eq_stored].
  - unfold first_data_sector. rewrite (ld32_frame img1) by (intros; apply H2; lia).
    apply ld32_st32_ne. lia.
  - unfold file_size. rewrite (ld32_frame img1) by (intros; apply H2; lia).
    unfold img1. rewrite ld32_st32_eq. apply w32_id. unfold is_u32. lia.
Qed.

(** What [write_file] leaves behind: the entry [i] filled in, the sectors [l]
    chained and filled, everything else below the tags and all other sectors as
    they were. *)
Record added (img img' : mem) (i : Z) (name : list Z) (l : list Z) (size : Z) (bytes : list Z)
  : Prop := {
  ad_header : same_header img img';
  ad_low : forall x, x < get_tag_metadata img ->
    x < file_entry img i \/ file_entry img i + 32 <= x -> ld8 img' x = ld8 img x;
  ad_fat : forall k, 0 <= k < fat_count img -> k ∉ l -> fat_entry img' k = fat_entry img k;
  ad_sector : forall k, 0 <= k < fat_count img -> k ∉ l -> sector img' k = sector img k;
  ad_first : first_data_sector img' (file_entry img i) = hd 0xffff l;
  ad_size : file_size img' (file_entry img i) = size;
  ad_name : name_eq img' name (name_of (file_entry img i)) = true;
  ad_chain : chain img' l;
  ad_bytes : take (Z.to_nat size) (chain_bytes img' l) = bytes;
}.

Section added.
Context (img img' : mem) (i : Z) (name l : list Z) (size : Z) (bytes : list Z).
Context (Hok : layout_ok img) (Hi : 0 <= i < count_file_meta_entries img).
Context (Hname : name_ok name) (Hlen : (length name < 24)%nat).
Context (Had : added img img' i name l size bytes).

Lemma added_other_entry j u : 0 <= j < count_file_meta_entries img -> j <> i ->
  (length u < 24)%nat ->
  name_eq img' u (name_of (file_entry img j)) = name_eq img u (name_of (file_entry img j)).
Proof.
  intros Hj Hji Hu. apply name_eq_frame. intros x Hx. apply (ad_low _ _ _ _ _ _ _ Had).
  - destruct (file_entry_ok img Hok j Hj). unfold name_of in Hx. lia.
  - unfold name_of, file_entry in *. lia.
Qed.

Lemma id_range j : 0 <= j < count_file_meta_entries img -> w16 (j + 1) = j + 1.
Proof.
  intros Hj. pose proof (layout_sums img Hok) as (_&_&_&_&_&_&_&_&_&Hc&_).
  pose proof (lay_files Hok). apply w16_id. unfold is_u16. lia.
Qed.

(** The new file. *)
Lemma added_file : get_file_id_from_name img name = 0 ->
  0 <= size <= Z.of_nat (length l) * fs_sector_size img ->
  file_at img' name (i + 1) l /\ content img' (i + 1) l = bytes.
Proof.
  intros Hnone Hs. destruct Had as [Hh Hlow Hfat Hsec Hfd Hsz Hnm Hc Hb].
  replace (i + 1 - 1) with i in * by lia.
  assert (file_entry img' i = file_entry img i) as He by apply (sh_file_entry _ _ Hh).
  split; [|unfold content; replace (i + 1 - 1) with i by lia; by rewrite He, Hsz].
  split; replace (i + 1 - 1) with i by lia; rewrite ?He, ?(sh_count _ _ Hh), ?(sh_sector_size _ _ Hh).
  - split; [|lia]. unfold get_file_id_from_name in *. rewrite (sh_count _ _ Hh).
    destruct (find_up _ _ (fun j => name_eq img name _)) as [j|] eqn:Ej.
    { apply find_up_Some in Ej as (Hj & _). rewrite id_range in Hnone by lia. lia. }
    rewrite find_up_None in Ej.
    assert (find_up (Z.to_nat (count_file_meta_entries img)) 0
      (fun j => name_eq img' name (name_of (file_entry img' j))) = Some i) as ->;
      [|by apply id_range].
    apply find_up_Some. rewrite He. split_and!; [lia|lia|done|].
    intros j Hj. rewrite (sh_file_entry _ _ Hh), added_other_entry by lia. apply Ej. lia.
  - by rewrite Hfd.
  - done.
  - rewrite Hsz. lia.
Qed.

(** Every other file. *)
Lemma added_others u id l' : file_metadata_entry_is_free img (file_entry img i) = true ->
  (forall k, k ∈ l -> fat_entry img k = 0) ->
  u <> name -> name_ok u -> u <> [] -> (length u < 24)%nat ->
  file_at img u id l' -> file_at img' u id l' /\ content img' id l' = content img id l'.
Proof.
  intros Hfree Hl Hne Hu Hu0 Hulen Hfa. destruct Had as [Hh Hlow Hfat Hsec Hfd Hsz Hnm Hc Hb].
  destruct Hfa as [[Hid Hidr] Hfd' Hc' Hs'].
  assert (forall k, k ∈ l' -> 0 <= k < fat_count img /\ k ∉ l) as Hk.
  { intros k Hk. split; [by eapply chain_range|]. intros Hkl.
    apply list_elem_of_lookup in Hk as [p Hp].
    by apply (chain_entry_used img l' p k Hc' Hp), Hl. }
  assert (name_eq img u (name_of (file_entry img i)) = false) as Hui.
  { destruct (name_eq img u _) eqn:E; [|done]. exfalso.
    apply name_eq_used in E; [|done..]. unfold file_metadata_entry_is_free in Hfree.
    by apply Z.eqb_eq in Hfree. }
  assert (get_file_id_from_name img' u = id) as Hid'.
  { rewrite <- Hid. unfold get_file_id_from_name. rewrite (sh_count _ _ Hh).
    rewrite (find_up_ext _ _ (fun j => name_eq img' u (name_of (file_entry img' j)))
      (fun j => name_eq img u (name_of (file_entry img j)))); [done|].
    intros j Hj. rewrite (sh_file_entry _ _ Hh).
    destruct (Z.eq_dec j i) as [-> |]; [|apply added_other_entry; (done || lia)].
    rewrite Hui. destruct (name_eq img' u _) eqn:E; [|done]. exfalso.
    apply Hne. by apply (name_eq_inj img' (name_of (file_entry img i))). }
  assert (id - 1 <> i) as Hidi.
  { intros <-. unfold get_file_id_from_name in Hid.
    destruct (find_up _ _ _) as [j|] eqn:E; [|lia].
    apply find_up_Some in E as (Hj & Hn & _). rewrite id_range in Hid by lia.
    replace (id - 1) with j in Hui by lia. congruence. }
  destruct (file_entry_ok img Hok (id - 1) ltac:(lia)) as [Hp1 Hp2].
  assert (forall x, file_entry img (id - 1) <= x < file_entry img (id - 1) + 32 ->
    ld8 img' x = ld8 img x) as Hent.
  { intros x Hx. apply Hlow; [lia|]. unfold file_entry in *. lia. }
  assert (file_size img' (file_entry img (id - 1)) = file_size img (file_entry img (id - 1))) as Hse
    by (apply ld32_frame; intros b Hbx; apply Hent; lia).
  split.
  - split; rewrite ?(sh_file_entry _ _ Hh), ?(sh_count _ _ Hh), ?(sh_sector_size _ _ Hh).
    + done.
    + rewrite Hfd'. symmetry. apply ld32_frame. intros b Hbx. apply Hent. lia.
    + apply (chain_keep img); [done|done|]. intros k Hkl. apply Hfat; by apply Hk.
    + by rewrite Hse.
  - unfold content. rewrite (sh_file_entry _ _ Hh), Hse.
    rewrite (chain_bytes_keep img); [done|]. intros k Hkl. apply Hsec; by apply Hk.
Qed.
End added.

(** The change of the entry [i] and of the tags, on top of the copied data. *)
Lemma added_intro img img1 img2 img3 img4 i f name l src : layout_ok img ->
  0 <= i < count_file_meta_entries img -> (length name < 24)%nat -> name_ok name ->
  Z.of_nat (length src) < 4294967296 -> is_u32 f -> hd 0xffff l = f ->
  let this := file_entry img i in
  let size := Z.min (Z.of_nat (length src)) (Z.of_nat (length l) * fs_sector_size img) in
  img1 = st32 img this f -> kept l img1 img2 -> chain img2 l ->
  take (Z.to_nat size) (chain_bytes img2 l) = take (Z.to_nat size) src ->
  img3 = st_bytes (st32 img2 (this + 4) size) (name_of this) (name ++ [0]) ->
  tags_only img3 img4 -> same_header img3 img4 ->
  added img img4 i name l size (take (Z.to_nat size) src).
Proof.
  intros Hok Hi Hlen Hname Hsrc Hf Hhd this size E1 Hk2 Hc2 Hb2 E3 Ht4 Hh4.
  destruct (file_entry_ok img Hok i Hi) as [Hp1 Hp2]. fold this in Hp1, Hp2.
  pose proof (section_order img Hok) as (Ho1&Ho2&Ho3&Ho4&Ho5).
  pose proof (only_in_st32 img this f) as Hin1. rewrite <- E1 in Hin1.
  destruct (kept_entry img Hok img1 this 4 Hin1) as (Hh1 & Hfat1 & Hsec1); [lia|lia|].
  pose proof (sh_layout_ok _ _ Hh1 Hok) as Hok1.
  destruct Hk2 as [Hh2 Hlow2 Hfat2 Hsec2]. pose proof (sh_layout_ok _ _ Hh2 Hok1) as Hok2.
  assert (same_header img img2) as Hh12 by (by eapply same_header_trans).
  assert (file_entry img2 i = this) as He2 by apply (sh_file_entry _ _ Hh12).
  assert (0 <= i < count_file_meta_entries img2) as Hi2 by (by rewrite (sh_count _ _ Hh12)).
  assert (0 <= size < 4294967296) as Hsz by (unfold size; lia).
  destruct (store_entry img2 i size name Hok2 Hi2 Hlen Hname Hsz) as (Hin3 & Hh3 & Hfd3 & Hsz3 & Hnm3).
  rewrite He2, <- E3 in *.
  destruct (kept_entry img2 Hok2 img3 this 32 Hin3) as (_ & Hfat3 & Hsec3);
    [lia|rewrite (sh_get_fat _ _ Hh12); lia|].
  assert (same_header img img3) as Hh13 by (by eapply same_header_trans).
  pose proof (sh_layout_ok _ _ Hh3 Hok2) as Hok3.
  destruct (kept_entry img3 Hok3 img4 _ _ Ht4) as (_ & Hfat4 & Hsec4);
    [rewrite (sh_get_tag_metadata _ _ Hh13); lia|lia|].
  assert (forall x, x < get_tag_metadata img -> ld8 img4 x = ld8 img3 x) as Hlow4.
  { intros x Hx. apply Ht4. rewrite (sh_get_tag_metadata _ _ Hh13). lia. }
  assert (forall k, 0 <= k < fat_count img -> fat_entry img4 k = fat_entry img2 k /\
    sector img4 k = sector img2 k) as Hfs.
  { intros k Hk. split.
    - rewrite Hfat4, Hfat3 by (by rewrite ?(sh_fat_count _ _ Hh13), ?(sh_fat_count _ _ Hh12)). done.
    - rewrite Hsec4, Hsec3 by (by rewrite ?(sh_fat_count _ _ Hh13), ?(sh_fat_count _ _ Hh12)). done. }
  split.
  - by eapply same_header_trans.
  - intros x Hx Hout. rewrite Hlow4, Hin3 by (done || lia).
    rewrite Hlow2, Hin1; [done|lia|rewrite (sh_get_fat _ _ Hh1); lia].
  - intros k Hk Hkl. rewrite (proj1 (Hfs k Hk)), Hfat2 by (try done; by rewrite (sh_fat_count _ _ Hh1)).
    by apply Hfat1.
  - intros k Hk Hkl. rewrite (proj2 (Hfs k Hk)), Hsec2 by (try done; by rewrite (sh_fat_count _ _ Hh1)).
    by apply Hsec1.
  - unfold first_data_sector in *. rewrite (ld32_frame img3) by (intros; apply Hlow4; lia).
    fold this. rewrite Hfd3, (ld32_frame img1), E1, ld32_st32_eq, Hhd.
    + by apply w32_id.
    + intros b Hb. apply Hlow2. rewrite (sh_get_fat _ _ Hh1). lia.
  - unfold file_size in *. fold this. by rewrite (ld32_frame img3) by (intros; apply Hlow4; lia).
  - fold this. rewrite (name_eq_frame img3); [done|]. intros x Hx. apply Hlow4.
    unfold name_of in Hx. lia.
  - apply (chain_keep img2); [by eapply same_header_trans|done|]. intros k Hk.
    apply Hfs. rewrite <- (sh_fat_count _ _ Hh12). by eapply chain_range.
  - rewrite (chain_bytes_keep img2); [done|]. intros k Hk.
    apply Hfs. rewrite <- (sh_fat_count _ _ Hh12). by eapply chain_range.
Qed.

(** The count of file entries as [unsigned int] and as [int]. *)
Lemma file_count_unsigned img : layout_ok img ->
  w32 (fs_file_meta_sector_count img * fs_sector_size img) / 32 = count_file_meta_entries img.
Proof.
  intros Hok. unfold count_file_meta_entries. set (a := _ * _).
  pose proof (w32_range a). pose proof (Z.div_pos (w32 a) 32). rewrite s32_id; [done|].
  split; [lia|apply Z.div_lt_upper_bound; lia].
Qed.

(** The successful run of [write_file]. *)
Lemma write_file_added fuel fopen tags spec img path name src i f : layout_ok img ->
  tag_meta_entry_count img <= 65535 -> parse_file_spec spec = Ok (path, name) ->
  fopen path = Some src -> Forall is_u8 src -> Z.of_nat (length src) < 4294967296 ->
  (length name < 24)%nat -> name_ok name ->
  find_up (Z.to_nat (count_file_meta_entries img)) 0
    (fun k => file_metadata_entry_is_free img (file_entry img k)) = Some i ->
  next_free_fat img 0 = Some f -> Forall (fun u => length u < 28)%nat tags ->
  (Z.to_nat (count_file_meta_entries img) < fuel)%nat ->
  (Z.to_nat (tag_meta_entry_count img) < fuel)%nat -> (more_sectors img src < fuel)%nat ->
  let l := taken img (more_sectors img src) f in
  let size := Z.min (Z.of_nat (length src)) (Z.of_nat (length l) * fs_sector_size img) in
  exists ws img', write_file fuel fopen tags spec img =
      Ok ((if bool_decide (length l < S (more_sectors img src))%nat then [Truncated] else []) ++ ws, img') /\
    added img img' i name l size (take (Z.to_nat size) src) /\ Forall tag_warning ws /\ (tags = [] -> ws = []).
Proof.
  intros Hok Htc Hspec Hopen Hbytes Hsrc Hlen Hname Hfi Hff Htags Hf1 Hf2 Hf3 l size.
  pose proof (layout_sums img Hok) as (?&_&_&_&_&_&_&_&Hfc&Hcnt&_).
  pose proof (lay_files Hok). pose proof (lay_fat Hok). destruct (lay_sector Hok) as [Hss _].
  pose proof Hfi as (Hi & Hfree & _)%find_up_Some.
  pose proof (next_free_Some img 0 f ltac:(lia) Hff) as (Hf & Hf0 & _).
  unfold write_file. rewrite Hspec, bind_Ok_r, Hopen. unfold is_tagfs_file.
  destruct (Z.ltb_spec 4294967295 (Z.of_nat (length src))); [lia|].
  destruct (Z.leb_spec 24 (Z.of_nat (length name))); [lia|].
  rewrite (file_count_unsigned img Hok).
  rewrite search16_find, Hfi, bind_Ok_r, Hff by lia. cbv zeta.
  rewrite (w16_id (i + 1)), Z.add_simpl_r by (unfold is_u16; lia).
  set (this := file_entry img i). set (img1 := st32 img this f).
  destruct (file_entry_ok img Hok i ltac:(lia)) as [Hp1 Hp2]. fold this in Hp1, Hp2.
  pose proof (section_order img Hok) as (Ho1&Ho2&Ho3&Ho4&Ho5).
  destruct (kept_entry img Hok img1 this 4) as (Hh1 & Hfat1 & Hsec1);
    [apply only_in_st32|lia|lia|].
  pose proof (sh_layout_ok _ _ Hh1 Hok) as Hok1.
  pose proof (more_sectors_bounds img src ltac:(lia)) as [Hm1 Hm2].
  assert (taken img1 (more_sectors img src) f = l) as Et
    by (apply taken_ext; [done|lia|intros; apply Hfat1; lia]).
  destruct (copy_loop src (fs_sector_size img) Hbytes (more_sectors img src) img1 f 0 fuel Hok1)
    as (img2 & Hloop & Hk2 & Hc2 & Hb2);
    [by rewrite (sh_sector_size _ _ Hh1)|by rewrite (sh_fat_count _ _ Hh1)|lia|lia|
     destruct Hm2; [by left|right; lia]|done|].
  rewrite Et, Z.sub_0_r in *. fold size in Hloop, Hb2. rewrite Hloop, bind_Ok_r.
  cbv beta iota zeta. rewrite Z.add_0_l.
  set (img3 := st_bytes (st32 img2 (this + 4) size) (name_of this) (name ++ [0])).
  assert (same_header img img2) as Hh2 by (eapply same_header_trans; [done|apply (kept_header _ _ _ Hk2)]).
  assert (0 <= size < 4294967296) as Hsz by (unfold size; lia).
  destruct (store_entry img2 i size name (sh_layout_ok _ _ Hh2 Hok)) as (_ & Hh3 & _);
    [by rewrite (sh_count _ _ Hh2); lia|done..|].
  rewrite (sh_file_entry _ _ Hh2) in Hh3. fold this img3 in Hh3.
  assert (same_header img img3) as Hh13 by (by eapply same_header_trans).
  destruct (link_tags_ok fuel tags (i + 1) Htags img3) as (ws & img4 & -> & Ht4 & Hh4 & Hws);
    [by apply (sh_layout_ok _ _ Hh13)|by rewrite (sh_tag_count _ _ Hh13)..|].
  rewrite bind_Ok_r. cbv beta iota. do 2 eexists. split; [reflexivity|]. split; [|exact Hws].
  destruct (taken_hd img (more_sectors img src) f) as [t Ht]. fold l in Ht.
  apply (added_intro img img1 img2 img3 img4 i f); try done.
  - lia.
  - unfold is_u32. lia.
  - by rewrite Ht.
Qed.

(** ** A formatted image *)

Lemma ld8_memset img n x : 0 <= n ->
  ld8 (memset_zero img n) x = if decide (0 <= x < n) then 0 else ld8 img x.
Proof.
  intros Hn. change (memset_zero img n) with (memory_fill img 0 n 0).
  by rewrite (ld8_memory_fill img 0 n 0 x Hn), Z.add_0_l.
Qed.

(** The options describe sections that fit an image of less than 2 GiB. *)
Record options_fit (o : Format_Options) : Prop := {
  of_nonneg : 0 <= o_sector_count o /\ 0 <= o_file_meta_sector_count o /\
    0 <= o_tag_meta_sector_count o /\ 0 <= o_tag_file_sector_count o /\ 0 <= o_fat_sector_count o;
  of_sector : 64 <= o_sector_size o /\ o_sector_size o mod 32 = 0;
  of_total : o_sector_count o * o_sector_size o < 2147483648;
  of_fat : o_fat_sector_count o * o_sector_size o / 2 < 65535;
  of_files : o_file_meta_sector_count o * o_sector_size o / 32 < 65536;
  of_data : (1 + o_file_meta_sector_count o + o_tag_meta_sector_count o +
    o_tag_file_sector_count o + o_fat_sector_count o +
    o_fat_sector_count o * o_sector_size o / 2) * o_sector_size o <=
      o_sector_count o * o_sector_size o;
}.

(** The header that [format_image] writes. *)
Definition write_header (img : mem) (o : Format_Options) : mem :=
  st32 (st32 (st32 (st32 (st32 (st32 (st32 img 4 1) 8 (o_sector_count o)) 12 (o_sector_size o))
    16 (o_file_meta_sector_count o)) 20 (o_tag_meta_sector_count o))
    24 (o_tag_file_sector_count o)) 28 (o_fat_sector_count o).

Lemma write_header_frame img o x : x < 4 \/ 32 <= x -> ld8 (write_header img o) x = ld8 img x.
Proof. intros Hx. unfold write_header. by rewrite !ld8_st32_ne by lia. Qed.

Lemma write_header_fields img o :
  fs_version (write_header img o) = 1 /\
  fs_sector_count (write_header img o) = w32 (o_sector_count o) /\
  fs_sector_size (write_header img o) = w32 (o_sector_size o) /\
  fs_file_meta_sector_count (write_header img o) = w32 (o_file_meta_sector_count o) /\
  fs_tag_meta_sector_count (write_header img o) = w32 (o_tag_meta_sector_count o) /\
  fs_tag_file_sector_count (write_header img o) = w32 (o_tag_file_sector_count o) /\
  fs_fat_sector_count (write_header img o) = w32 (o_fat_sector_count o).
Proof.
  unfold fs_version, fs_sector_count, fs_sector_size, fs_file_meta_sector_count,
    fs_tag_meta_sector_count, fs_tag_file_sector_count, fs_fat_sector_count, write_header.
  split_and!; repeat (rewrite ld32_st32_eq || rewrite ld32_st32_ne by lia); done.
Qed.

Lemma of_range o : options_fit o ->
  is_u32 (o_sector_count o) /\ is_u32 (o_sector_size o) /\ is_u32 (o_file_meta_sector_count o) /\
  is_u32 (o_tag_meta_sector_count o) /\ is_u32 (o_tag_file_sector_count o) /\
  is_u32 (o_fat_sector_count o).
Proof.
  intros [(H1&H2&H3&H4&H5) [H6 _] H7 H8 H9 H10].
  assert (0 <= o_fat_sector_count o * o_sector_size o / 2) by (apply Z.div_pos; nia).
  set (n := o_fat_sector_count o * o_sector_size o / 2) in *. unfold is_u32.
  assert (1 + o_file_meta_sector_count o + o_tag_meta_sector_count o + o_tag_file_sector_count o +
    o_fat_sector_count o + n <= o_sector_count o) by nia.
  assert (o_sector_count o * 64 <= o_sector_count o * o_sector_size o) by nia.
  assert (o_sector_size o <= o_sector_count o * o_sector_size o) by nia. lia.
Qed.

Lemma format_layout img o : options_fit o -> layout_ok (write_header img o).
Proof.
  intros Ho. destruct (of_range o Ho) as (R1&R2&R3&R4&R5&R6). destruct Ho as [_ H2 H3 H4 H5 H6].
  destruct (write_header_fields img o) as (_&E1&E2&E3&E4&E5&E6).
  rewrite w32_id in E1, E2, E3, E4, E5, E6 by done.
  split; rewrite ?E1, ?E2, ?E3, ?E4, ?E5, ?E6; done.
Qed.

(** Nothing is stored in a formatted image: every byte behind the header is 0,
    so all entries and the FAT are free. *)
Record empty_image (img : mem) : Prop := {
  em_layout : layout_ok img;
  em_zero : forall x, 36 <= x < img_size img -> ld8 img x = 0;
  em_files : forall i, 0 <= i < count_file_meta_entries img ->
    file_metadata_entry_is_free img (file_entry img i) = true;
  em_tags : forall i, 0 <= i < tag_meta_entry_count img ->
    tag_metadata_entry_is_free img (tag_entry img i) = true;
  em_links : forall i, 0 <= i < tag_file_entry_count img -> tf_tag_id img i = 0;
  em_fat : forall k, 0 <= k < fat_count img -> fat_entry img k = 0;
}.

Lemma zero_ld16 m a : ld8 m a = 0 -> ld8 m (a + 1) = 0 -> ld16 m a = 0.
Proof. unfold ld16. intros -> ->. done. Qed.

Lemma zeros_empty img : layout_ok img ->
  (forall x, 36 <= x < img_size img -> ld8 img x = 0) -> empty_image img.
Proof.
  intros Hok Hz. pose proof (section_order img Hok) as (?&?&?&?&?).
  pose proof (layout_sums img Hok) as (?&?&?&?&_&_&_&_&_&_&_&Hd&_).
  pose proof (fat_count_nonneg img Hok).
  assert (0 <= fat_count img * fs_sector_size img) by nia.
  split; [done|done| | | |].
  - intros i Hi. destruct (file_entry_ok img Hok i Hi). apply Z.eqb_eq, Hz. unfold name_of. lia.
  - intros i Hi. destruct (tag_entry_place img Hok i Hi). apply Z.eqb_eq, Hz. lia.
  - intros i Hi. destruct (tag_file_entry_place img Hok i Hi). apply zero_ld16; apply Hz; lia.
  - intros k Hk. destruct (fat_addr_ok img Hok k Hk) as (? & ? & _). apply zero_ld16; apply Hz; lia.
Qed.

Lemma format_image_ok h img o : h_image h = Some img -> h_mmap_ok h = true ->
  h_msync_ok h = true -> options_fit o ->
  exists img', format_image h o = Done img' /\ empty_image img' /\
    fs_sector_size img' = o_sector_size o /\
    count_file_meta_entries img' = o_file_meta_sector_count o * o_sector_size o / 32 /\
    tag_meta_entry_count img' = o_tag_meta_sector_count o * o_sector_size o / 32 /\
    fat_count img' = o_fat_sector_count o * o_sector_size o / 2 /\
    img_size img' = o_sector_count o * o_sector_size o.
Proof.
  intros Himg Hmm Hms Ho. unfold format_image. rewrite Himg, Hmm, Hms. cbn [negb].
  set (img0 := memset_zero _ _). eexists. split; [reflexivity|].
  change (st32 _ 28 _) with (write_header img0 o).
  pose proof (format_layout img0 o Ho) as Hok.
  destruct (of_range o Ho) as (R1&R2&R3&R4&R5&R6).
  pose proof (write_header_fields img0 o) as (_&E1&E2&E3&E4&E5&E6).
  rewrite w32_id in E1, E2, E3, E4, E5, E6 by done.
  pose proof (layout_sums _ Hok) as (?&Htm&?&?&Ht1&Ht2&_&_&Hfc&Hcnt&Hsz&_&Hmax).
  rewrite E1, E2 in Hsz. split_and!; [|done|by rewrite Hcnt, E3, E2| |by rewrite Hfc, E6, E2|done].
  - apply zeros_empty; [done|]. intros x Hx. rewrite write_header_frame by lia.
    unfold img0. rewrite ld8_memset by lia. by rewrite decide_True by lia.
  - unfold tag_meta_entry_count. rewrite w32_id; [by rewrite E4, E2|].
    pose proof (section_order _ Hok) as (?&?&?&?&?).
    pose proof (fat_count_nonneg _ Hok). pose proof (layout_sums _ Hok) as (_&_&_&_&_&_&_&_&_&_&_&Hd&_).
    assert (0 <= fat_count (write_header img0 o) * fs_sector_size (write_header img0 o)) by nia.
    unfold is_u32. lia.
Qed.

(** In an empty image the sectors taken are those from the first on. *)
Lemma taken_empty img n i : (forall k, 0 <= k < fat_count img -> fat_entry img k = 0) ->
  0 <= i -> i + Z.of_nat n < fat_count img -> length (taken img n i) = S n.
Proof.
  intros Hz. revert i; induction n as [|n IH]; intros i Hi Hn; [done|]. cbn [taken].
  assert (next_free_fat img (i + 1) = Some (i + 1)) as ->.
  { apply find_up_Some. rewrite Hz by lia. split_and!; (done || lia). }
  cbn [length]. rewrite IH by lia. done.
Qed.

Lemma empty_lookup img name : empty_image img -> name_ok name -> name <> [] ->
  get_file_id_from_name img name = 0.
Proof.
  intros He Hn Hne. unfold get_file_id_from_name.
  destruct (find_up _ _ _) as [i|] eqn:E; [|done]. exfalso.
  apply find_up_Some in E as (Hi & Hnm & _). apply name_eq_used in Hnm; [|done..].
  pose proof (em_files _ He i ltac:(lia)) as Hf. by apply Z.eqb_eq in Hf.
Qed.

Lemma find_up_first (n : nat) i test : (0 < n)%nat -> test i = true -> find_up n i test = Some i.
Proof. intros Hn Ht. destruct n; [lia|]. cbn [find_up]. by rewrite Ht. Qed.

(** ** A small image and host *)

(** 37 sectors of 64 bytes: header, entries, tags, links, FAT and 32 of data. *)
Definition small_options : Format_Options := {|
  o_sector_count := 37; o_sector_size := 64; o_file_meta_sector_count := 1;
  o_tag_meta_sector_count := 1; o_tag_file_sector_count := 1; o_fat_sector_count := 1;
|}.
Definition small_image : mem :=
  match format_image (Host (Some ∅) true true) small_options with
  | Done img => img
  | Exit _ => ∅
  end.

(** A host with one file, "/x/a", of 100 bytes. *)
Definition small_host (path : list Z) : option (list Z) :=
  if bool_decide (path = [47; 120; 47; 97]) then Some (seqZ 1 100) else None.

Lemma small_image_layout : layout_ok small_image.
Proof. split; (split || idtac); apply (bool_decide_unpack _); vm_compute; exact I. Qed.

Lemma small_bytes : Forall is_u8 (seqZ 1 100).
Proof. apply Forall_forall. intros x Hx%elem_of_seqZ. unfold is_u8. lia. Qed.

(** A closed fact about the small image, by evaluation. *)
Ltac small :=
  match goal with
  | |- Forall is_u8 _ => exact small_bytes
  | |- Forall _ _ => repeat constructor; cbn; lia
  | |- name_ok _ => by repeat constructor
  | |- _ => vm_compute; first [done | congruence | lia | exact I]
  end.

(** ** What the builder promises *)

Lemma taken_free img n f k : 0 <= f < fat_count img -> fat_entry img f = 0 ->
  k ∈ taken img n f -> fat_entry img k = 0.
Proof. intros Hf Hf0 Hk. apply taken_range in Hk as [_ [-> |[? _]]]; done. Qed.

(** [write-files] of one file with a free entry and a free sector makes the
    file: it is found under its name, its chain is the first free sectors of the
    FAT in order, and its content is the source, cut only when the free sectors
    run out. Every file that was there is still there with the same content. *)
Theorem write_file_creates fuel fopen tags spec img path name src i f : layout_ok img ->
  tag_meta_entry_count img <= 65535 -> parse_file_spec spec = Ok (path, name) ->
  fopen path = Some src -> Forall is_u8 src -> Z.of_nat (length src) < 4294967296 ->
  (length name < 24)%nat -> name_ok name -> get_file_id_from_name img name = 0 ->
  find_up (Z.to_nat (count_file_meta_entries img)) 0
    (fun k => file_metadata_entry_is_free img (file_entry img k)) = Some i ->
  next_free_fat img 0 = Some f -> Forall (fun u => length u < 28)%nat tags ->
  (Z.to_nat (count_file_meta_entries img) < fuel)%nat ->
  (Z.to_nat (tag_meta_entry_count img) < fuel)%nat -> (more_sectors img src < fuel)%nat ->
  let l := taken img (more_sectors img src) f in
  exists ws img', write_file fuel fopen tags spec img = Ok (ws, img') /\
    file_at img' name (i + 1) l /\
    content img' (i + 1) l = take (length l * Z.to_nat (fs_sector_size img)) src /\
    forall u id l', u <> name -> name_ok u -> u <> [] -> (length u < 24)%nat ->
      file_at img u id l' -> file_at img' u id l' /\ content img' id l' = content img id l'.
Proof.
  intros Hok Htc Hspec Hopen Hbytes Hsrc Hlen Hname Hnone Hfi Hff Htags Hf1 Hf2 Hf3 l.
  destruct (write_file_added fuel fopen tags spec img path name src i f)
    as (ws & img' & Hw & Had & _); [done..|]. fold l in Hw, Had.
  pose proof Hfi as (Hi & Hfree & _)%find_up_Some. destruct (lay_sector Hok) as [Hss _].
  pose proof (next_free_Some img 0 f ltac:(lia) Hff) as (Hf & Hf0 & _).
  assert (0 <= Z.of_nat (length l) * fs_sector_size img) by nia.
  destruct (added_file img img' i name l _ _ Hok ltac:(lia) Hlen Had Hnone) as [Hfa Hco]; [lia|].
  eexists _, img'. split_and!; [exact Hw|done| |].
  - rewrite Hco. apply take_min_length. lia.
  - intros u id l' Hu1 Hu2 Hu3 Hu4 Hu.
    apply (added_others img img' i name l _ _ Hok ltac:(lia) Hname Hlen Had); try done.
    intros k. by apply taken_free.
Qed.

(** Writing a file and reading it back. *)
Lemma write_file_read_ok fuel fuel' fopen tags spec img path name src i f c o n :
  layout_ok img -> tag_meta_entry_count img <= 65535 -> parse_file_spec spec = Ok (path, name) ->
  fopen path = Some src -> Forall is_u8 src -> Z.of_nat (length src) < 4294967296 ->
  (length name < 24)%nat -> name_ok name -> get_file_id_from_name img name = 0 ->
  find_up (Z.to_nat (count_file_meta_entries img)) 0
    (fun k => file_metadata_entry_is_free img (file_entry img k)) = Some i ->
  next_free_fat img 0 = Some f -> Forall (fun u => length u < 28)%nat tags ->
  (Z.to_nat (count_file_meta_entries img) < fuel)%nat ->
  (Z.to_nat (tag_meta_entry_count img) < fuel)%nat -> (more_sectors img src < fuel)%nat ->
  length (taken img (more_sectors img src) f) = S (more_sectors img src) ->
  0 <= o -> 0 < n -> o + n <= Z.of_nat (length src) -> n < 2147483648 ->
  (more_sectors img src + 2 < fuel')%nat ->
  exists ws img', write_file fuel fopen tags spec img = Ok (ws, img') /\
    tagfs_read fuel' img' (c :: name) n o =
      Ok (n, take (Z.to_nat n) (drop (Z.to_nat o) src)).
Proof.
  intros Hok Htc Hspec Hopen Hbytes Hsrc Hlen Hname Hnone Hfi Hff Htags Hf1 Hf2 Hf3 Hl Ho Hn Hon Hmax Hf'.
  destruct (write_file_added fuel fopen tags spec img path name src i f)
    as (ws & img' & Hw & Had & _); [done..|]. rewrite Hl in Had.
  set (l := taken img (more_sectors img src) f) in *.
  pose proof Hfi as (Hi & Hfree & _)%find_up_Some. destruct (lay_sector Hok) as [Hss _].
  pose proof (more_sectors_bounds img src ltac:(lia)) as [Hm _].
  rewrite Z.min_l, Nat2Z.id, take_ge in Had by lia.
  destruct (added_file img img' i name l _ _ Hok ltac:(lia) Hlen Had Hnone) as [Hfa Hco]; [lia|].
  pose proof (ad_header _ _ _ _ _ _ _ Had) as Hh.
  eexists _, img'. split; [exact Hw|].
  assert (file_size img' (file_entry img' (i + 1 - 1)) = Z.of_nat (length src)) as Hsz.
  { replace (i + 1 - 1) with i by lia. rewrite (sh_file_entry _ _ Hh).
    apply (ad_size _ _ _ _ _ _ _ Had). }
  rewrite (tagfs_read_content_ok img' (c :: name) (i + 1) l); [by rewrite Hco|
    by apply (sh_layout_ok _ _ Hh)|done|done|done|by rewrite Hsz|done|lia].
Qed.

(** A file that [write-files] stores is read back by the FUSE driver: when the
    free sectors suffice, reading any range of it gives that range of the
    source. *)
Theorem write_file_then_read fuel fuel' fopen tags spec img path name src i f c o n :
  layout_ok img -> tag_meta_entry_count img <= 65535 -> parse_file_spec spec = Ok (path, name) ->
  fopen path = Some src -> Forall is_u8 src -> Z.of_nat (length src) < 4294967296 ->
  (length name < 24)%nat -> name_ok name -> get_file_id_from_name img name = 0 ->
  find_up (Z.to_nat (count_file_meta_entries img)) 0
    (fun k => file_metadata_entry_is_free img (file_entry img k)) = Some i ->
  next_free_fat img 0 = Some f -> Forall (fun u => length u < 28)%nat tags ->
  (Z.to_nat (count_file_meta_entries img) < fuel)%nat ->
  (Z.to_nat (tag_meta_entry_count img) < fuel)%nat -> (more_sectors img src < fuel)%nat ->
  length (taken img (more_sectors img src) f) = S (more_sectors img src) ->
  0 <= o -> 0 < n -> o + n <= Z.of_nat (length src) -> n < 2147483648 ->
  (more_sectors img src + 2 < fuel')%nat ->
  exists ws img', write_file fuel fopen tags spec img = Ok (ws, img') /\
    tagfs_read fuel' img' (c :: name) n o =
      Ok (n, take (Z.to_nat n) (drop (Z.to_nat o) src)).
Proof. apply write_file_read_ok. Qed.

(** C32: [format] of an existing image with options that fit makes an empty file
    system whatever the image held before: the header describes sections that
    fit, every file entry, tag, link and FAT entry is free. A missing image and
    a failing [mmap] or [msync] end the program with the code for them. *)
Theorem format_image_empty h o : options_fit o ->
  match h_image h with
  | None => format_image h o = Exit FAIL_IMG_NOT_FOUND
  | Some _ =>
      if h_mmap_ok h && h_msync_ok h then
        exists img', format_image h o = Done img' /\ empty_image img' /\
          fs_sector_size img' = o_sector_size o /\
          count_file_meta_entries img' = o_file_meta_sector_count o * o_sector_size o / 32 /\
          tag_meta_entry_count img' = o_tag_meta_sector_count o * o_sector_size o / 32 /\
          fat_count img' = o_fat_sector_count o * o_sector_size o / 2 /\
          img_size img' = o_sector_count o * o_sector_size o
      else format_image h o = Exit FAIL_GENERIC
  end.
Proof.
  intros Ho. destruct (h_image h) as [img|] eqn:Himg; [|unfold format_image; by rewrite Himg].
  destruct (h_mmap_ok h) eqn:Hmm; [destruct (h_msync_ok h) eqn:Hms|]; cbn [andb].
  - by apply (format_image_ok h img).
  - unfold format_image. by rewrite Himg, Hmm, Hms.
  - unfold format_image. by rewrite Himg, Hmm.
Qed.

Lemma format_image_empty_witness :
  exists img', format_image (Host (Some ∅) true true) default_options = Done img' /\
    empty_image img' /\ fat_count img' = 512.
Proof.
  assert (options_fit default_options) as Ho by (split; cbn; (split_and! || idtac); (done || lia)).
  destruct (format_image_empty (Host (Some ∅) true true) default_options Ho)
    as (img' & Hf & He & _ & _ & _ & Hfc & _).
  exists img'. split; [exact Hf|]. split; [exact He|]. rewrite Hfc. vm_compute. reflexivity.
Defined.

(** The theorem below, for the runs from the command line. *)
Lemma format_write_read_ok h img0 o fuel fuel' fopen tags spec path name src c off n :
  h_image h = Some img0 -> h_mmap_ok h = true -> h_msync_ok h = true -> options_fit o ->
  1 <= o_file_meta_sector_count o -> o_tag_meta_sector_count o * o_sector_size o / 32 <= 65535 ->
  parse_file_spec spec = Ok (path, name) -> fopen path = Some src -> Forall is_u8 src ->
  (length name < 24)%nat -> name_ok name -> name <> [] ->
  Forall (fun u => length u < 28)%nat tags -> Z.of_nat (length src) + 65536 < Z.of_nat fuel ->
  (length src + 2 < fuel')%nat -> 0 <= off -> 0 < n -> off + n <= Z.of_nat (length src) ->
  Z.of_nat (length src) <= o_fat_sector_count o * o_sector_size o / 2 * o_sector_size o ->
  exists img ws img', format_image h o = Done img /\
    write_file fuel fopen tags spec img = Ok (ws, img') /\
    tagfs_read fuel' img' (c :: name) n off =
      Ok (n, take (Z.to_nat n) (drop (Z.to_nat off) src)).
Proof.
  intros Himg Hmm Hms Ho Hfm Htg Hspec Hopen Hbytes Hlen Hname Hne Htags Hf Hf' Hoff Hn Hon Hfit.
  destruct (format_image_ok h img0 o Himg Hmm Hms Ho) as (img & Hform & He & Ess & Ecnt & Etag & Efat & Esz).
  pose proof (em_layout _ He) as Hok. destruct (lay_sector Hok) as [Hss _].
  pose proof (lay_files Hok). pose proof (layout_sums img Hok) as (_&_&_&_&_&_&_&_&_&Hcnt&_&_&Hmax).
  rewrite <- Efat, <- Ess in Hfit. rewrite <- Etag in Htg.
  pose proof (more_sectors_bounds img src ltac:(lia)) as [_ Hm].
  assert (Z.of_nat (more_sectors img src) < fat_count img) as Hms'.
  { destruct Hm as [-> |Hm]; nia. }
  assert (more_sectors img src <= length src)%nat by (destruct Hm as [-> |Hm]; nia).
  assert (1 <= count_file_meta_entries img) as Hc1.
  { rewrite Ecnt. apply Z.div_le_lower_bound; [lia|]. rewrite <- Ess. nia. }
  assert (Z.of_nat (length src) < 2147483648) as Hsrc.
  { pose proof (layout_sums img Hok) as (?&?&?&?&_&_&_&Hd&_&_&_&Hd'&_). nia. }
  pose proof (empty_lookup img name He Hname Hne) as Hnew.
  destruct (write_file_read_ok fuel fuel' fopen tags spec img path name src 0 0 c off n)
    as (ws & img' & Hw & Hr); try done; try lia.
  - apply find_up_first; [lia|]. apply (em_files _ He). lia.
  - apply find_up_first; [lia|]. rewrite (em_fat _ He); [done|lia].
  - apply taken_empty; [apply (em_fat _ He)|lia..].
  - by exists img, ws, img'.
Qed.

(** Format, write, read: on a freshly formatted image a file that fits the
    data sectors is stored by [write-files] and any range of it is read back
    through the FUSE driver as it was in the source. *)
Theorem format_write_read h img0 o fuel fuel' fopen tags spec path name src c off n :
  h_image h = Some img0 -> h_mmap_ok h = true -> h_msync_ok h = true -> options_fit o ->
  1 <= o_file_meta_sector_count o -> o_tag_meta_sector_count o * o_sector_size o / 32 <= 65535 ->
  parse_file_spec spec = Ok (path, name) -> fopen path = Some src -> Forall is_u8 src ->
  (length name < 24)%nat -> name_ok name -> name <> [] ->
  Forall (fun u => length u < 28)%nat tags -> Z.of_nat (length src) + 65536 < Z.of_nat fuel ->
  (length src + 2 < fuel')%nat -> 0 <= off -> 0 < n -> off + n <= Z.of_nat (length src) ->
  Z.of_nat (length src) <= o_fat_sector_count o * o_sector_size o / 2 * o_sector_size o ->
  exists img ws img', format_image h o = Done img /\
    write_file fuel fopen tags spec img = Ok (ws, img') /\
    tagfs_read fuel' img' (c :: name) n off =
      Ok (n, take (Z.to_nat n) (drop (Z.to_nat off) src)).
Proof. apply format_write_read_ok. Qed.

Lemma format_write_read_witness : exists img ws img',
  format_image (Host (Some (st8 ∅ 200 7)) true true) default_options = Done img /\
  write_file (Z.to_nat 70000) small_host [] [47; 120; 47; 97] img = Ok (ws, img') /\
  tagfs_read 200 img' [47; 97] 30 70 = Ok (30, seqZ 71 30).
Proof.
  assert (options_fit default_options) as Ho by (split; cbn; (split_and! || idtac); (done || lia)).
  destruct (format_write_read (Host (Some (st8 ∅ 200 7)) true true) (st8 ∅ 200 7) default_options
    (Z.to_nat 70000) 200 small_host [] [47; 120; 47; 97] [47; 120; 47; 97] [97] (seqZ 1 100) 47 70 30)
    as (img & ws & img' & H1 & H2 & H3);
    [reflexivity | reflexivity | reflexivity | exact Ho | cbn; lia | vm_compute; discriminate | reflexivity | reflexivity
    | exact small_bytes | cbn; lia | by repeat constructor | discriminate | constructor
    | rewrite Z2Nat.id by lia; vm_compute; reflexivity | vm_compute; lia | lia | lia
    | vm_compute; discriminate | vm_compute; discriminate |].
  exists img, ws, img'. split; [exact H1|]. split; [exact H2|]. rewrite H3.
  vm_compute. reflexivity.
Defined.

Lemma write_file_creates_witness :
  exists ws img', write_file 100 small_host [[116]] [47; 120; 47; 97] small_image = Ok (ws, img') /\
    file_at img' [97] 1 [0; 1] /\ content img' 1 [0; 1] = seqZ 1 100.
Proof.
  destruct (write_file_creates 100 small_host [[116]] [47; 120; 47; 97] small_image
    [47; 120; 47; 97] [97] (seqZ 1 100) 0 0 small_image_layout) as (ws & img' & Hw & Hfa & Hc & _);
    [small..|].
  exists ws, img'. split; [exact Hw|].
  assert (taken small_image (more_sectors small_image (seqZ 1 100)) 0 = [0; 1]) as E
    by (vm_compute; reflexivity).
  rewrite E in Hfa, Hc. split; [exact Hfa|]. change 1 with (0 + 1) at 1. rewrite Hc.
  vm_compute. reflexivity.
Defined.

Lemma write_file_then_read_witness :
  exists ws img', write_file 100 small_host [] [47; 120; 47; 97; 58; 98] small_image = Ok (ws, img') /\
    tagfs_read 10 img' [47; 98] 50 40 = Ok (50, seqZ 41 50).
Proof.
  destruct (write_file_then_read 100 10 small_host [] [47; 120; 47; 97; 58; 98] small_image
    [47; 120; 47; 97] [98] (seqZ 1 100) 0 0 47 40 50 small_image_layout) as (ws & img' & Hw & Hr);
    [small..|].
  exists ws, img'. split; [exact Hw|]. rewrite Hr. vm_compute. reflexivity.
Defined.
