(* ===== verification/FuseVolume.v ===== *)
(** * The FUSE driver as a store of files

    What src/tagfs/FUSE_driver/src/tagfs.c promises to the programs above it,
    without the image: a [volume] holds numbered files with a name, their bytes
    and a number of sectors, and a count of free sectors. [vol_serve] answers
    the requests on it. [represents] says when an image holds a volume;
    [serve] answers the same requests with the operations of FuseDriver.v. The
    theorems are the simulation of [serve_all] by [vol_serve_all] for sessions
    of any length, and that it begins with an image that [tfsfmt] formatted. *)
From stdpp Require Import functions.
From S2P Require Import Prelude Memory TagLayout FuseDriver TagFrame FuseNew Tfsfmt.

#[local] Open Scope Z_scope.

(** ** Requests and replies *)

(** A path is a name behind the slash. *)
Definition path_of (name : list Z) : list Z := 47 :: name.

Inductive request : Type :=
  | Mknod (name : list Z) (mode : Z)
  | Write (name bytes : list Z) (offset : Z)
  | Unlink (name : list Z)
  | Read (name : list Z) (size offset : Z)
  | Getattr (name : list Z) (st : stat)
  | Getattr_root (st : stat)
  | Readdir.

(** The result of the call, with the buffer or the structure it filled, or the
    names and structures it gave to [filler]. *)
Inductive reply : Type :=
  | Code (c : Z)
  | Data (c : Z) (bytes : list Z)
  | Attr (c : Z) (st : stat)
  | Entries (c : Z) (l : list (list Z * stat)).

(** A name that [filler] is given, as the C string at its address. *)
Definition filled (img : mem) (x : Z * stat) : list Z * stat := (c_text (bytes_at img x.1 24), x.2).

Definition serve (fuel : nat) (r : request) (img : mem) : res (reply * mem) :=
  match r with
  | Mknod name mode => let '(c, img) := tagfs_mknod img (path_of name) mode in Ok (Code c, img)
  | Write name bytes o =>
      '(c, img) ← tagfs_write fuel img (path_of name) bytes (Z.of_nat (length bytes)) o;
      Ok (Code c, img)
  | Unlink name => '(c, img) ← tagfs_unlink fuel img (path_of name); Ok (Code c, img)
  | Read name n o => '(c, bytes) ← tagfs_read fuel img (path_of name) n o; Ok (Data c bytes, img)
  | Getattr name st => let '(c, st) := tagfs_getattr img (path_of name) st in Ok (Attr c st, img)
  | Getattr_root st => let '(c, st) := tagfs_getattr img (path_of []) st in Ok (Attr c st, img)
  | Readdir => let '(c, l) := tagfs_readdir img (path_of []) in Ok (Entries c (map (filled img) l), img)
  end.

Fixpoint serve_all (fuel : nat) (rs : list request) (img : mem) : res (list reply * mem) :=
  match rs with
  | [] => Ok ([], img)
  | r :: rs =>
      '(a, img) ← serve fuel r img;
      '(l, img) ← serve_all fuel rs img;
      Ok (a :: l, img)
  end.

(** ** The store *)

(** The error of the rule that file names are distinct. *)
Definition EEXIST : Z := 17.

Record file : Type := File { f_name : list Z; f_data : list Z; f_sectors : nat }.
Record volume : Type := Volume { v_files : gmap Z file; v_free : nat }.

Section volume.
Context (entries ss : Z).

Definition has_name (v : volume) (name : list Z) (j : Z) : bool :=
  match v_files v !! j with Some f => bool_decide (f_name f = name) | None => false end.
Definition vol_find (v : volume) (name : list Z) : option (Z * file) :=
  j ← find_up (Z.to_nat entries) 0 (has_name v name); f ← v_files v !! j; Some (j, f).
Definition vol_slot (v : volume) : option Z :=
  find_up (Z.to_nat entries) 0 (fun j => bool_decide (v_files v !! j = None)).

(** A name is made once: the store keeps the rule that the comment at the head of
    tagfs.c states, and refuses a name it has. *)
Definition vol_mknod (name : list Z) (mode : Z) (v : volume) : Z * volume :=
  if vol_find v name then (- EEXIST, v) else
  if negb (S_ISREG mode) then (-38, v) else
  if 24 <=? Z.of_nat (length name) then (- ENAMETOOLONG, v) else
  match vol_slot v with
  | None => (- ENOSPC, v)
  | Some j => (0, Volume (<[j := File name [] 0]> (v_files v)) (v_free v))
  end.

(** An empty file takes a free sector; a file that fills its sectors gets no
    other one. *)
Definition vol_write (name bytes : list Z) (o : Z) (v : volume) : Z * volume :=
  match vol_find v name with
  | None => (- ENOENT, v)
  | Some (j, f) =>
      let stored (sectors free : nat) :=
        (Z.of_nat (length bytes),
         Volume (<[j := File (f_name f) (splice o bytes (f_data f)) sectors]> (v_files v)) free) in
      match f_sectors f, v_free v with
      | O, O => (0, v)
      | O, S free => stored 1%nat free
      | n, free => if o / ss <? Z.of_nat n then stored n free else (- EBADFD, v)
      end
  end.

Definition vol_unlink (name : list Z) (v : volume) : Z * volume :=
  match vol_find v name with
  | None => (0, v)
  | Some (j, f) => (0, Volume (delete j (v_files v)) (v_free v + f_sectors f))
  end.

Definition vol_read (name : list Z) (n o : Z) (v : volume) : Z * list Z :=
  match vol_find v name with
  | None => (- ENOENT, [])
  | Some (_, f) =>
      if Z.of_nat (length (f_data f)) <=? o then (0, [])
      else (n, take (Z.to_nat n) (drop (Z.to_nat o) (f_data f)))
  end.

Definition vol_getattr (name : list Z) (st : stat) (v : volume) : Z * stat :=
  match vol_find v name with
  | None => (- ENOENT, Stat (st_ino st) (mode_of S_IFREG) 0 (st_size st) 512 (st_blocks st))
  | Some (j, f) =>
      let size := Z.of_nat (length (f_data f)) in
      (0, Stat (j + 1) (mode_of S_IFREG) 0 size 512 (CEIL_DIV size 512))
  end.

(** The root's size is the sum of the files' sizes, in the structure's own. *)
Definition vol_getattr_root (st : stat) (v : volume) : stat :=
  for_up (Z.to_nat entries) 0 (fun j st =>
    match v_files v !! j with
    | Some f =>
        let size := Z.of_nat (length (f_data f)) in
        Stat (st_ino st) (st_mode st) (st_nlink st) (st_size st + size) (st_blksize st)
          (st_blocks st + CEIL_DIV size (st_blksize st))
    | None => st
    end) (Stat (st_ino st) (mode_of S_IFDIR) 0 (st_size st) 512 (st_blocks st)).

(** Every file, in the order of their numbers. *)
Definition vol_entry (v : volume) (j : Z) : list (list Z * stat) :=
  match v_files v !! j with
  | Some f => [(f_name f, Stat (j + 1) (mode_of S_IFREG) 0 (Z.of_nat (length (f_data f))) 0 0)]
  | None => []
  end.
Definition vol_readdir (v : volume) : list (list Z * stat) := concat (map (vol_entry v) (seqZ 0 entries)).

Definition vol_serve (r : request) (v : volume) : reply * volume :=
  match r with
  | Mknod name mode => let '(c, v) := vol_mknod name mode v in (Code c, v)
  | Write name bytes o => let '(c, v) := vol_write name bytes o v in (Code c, v)
  | Unlink name => let '(c, v) := vol_unlink name v in (Code c, v)
  | Read name n o => let '(c, bytes) := vol_read name n o v in (Data c bytes, v)
  | Getattr name st => let '(c, st) := vol_getattr name st v in (Attr c st, v)
  | Getattr_root st => (Attr 0 (vol_getattr_root st v), v)
  | Readdir => (Entries 0 (vol_readdir v), v)
  end.

(** What is asked of a request: a name of characters; a file is made under a name
    that no file has, which the driver does not check ([tagfs_mknod_duplicates]);
    a write begins inside the file or at its end and stays inside one sector; a
    deleted file exists and has one sector at most; a read stays inside the file
    or begins behind it. *)
Definition is_name (name : list Z) : Prop := name_ok name /\ name <> [].
Definition allowed (r : request) (v : volume) : Prop :=
  match r with
  | Mknod name _ => is_name name /\ vol_find v name = None
  | Getattr name _ => is_name name
  | Getattr_root _ | Readdir => True
  | Write name bytes o => is_name name /\ bytes <> [] /\ Forall is_u8 bytes /\ 0 <= o /\
      match vol_find v name with
      | None => True
      | Some (_, f) => o <= Z.of_nat (length (f_data f)) /\ o mod ss + Z.of_nat (length bytes) <= ss
      end
  | Unlink name => is_name name /\
      match vol_find v name with None => False | Some (_, f) => (f_sectors f <= 1)%nat end
  | Read name n o => is_name name /\ 0 <= o /\ 0 < n < 2147483648 /\
      match vol_find v name with
      | None => True
      | Some (_, f) => Z.of_nat (length (f_data f)) <= o \/ o + n <= Z.of_nat (length (f_data f))
      end
  end.
#[export] Instance allowed_dec r v : Decision (allowed r v).
Proof. unfold allowed, is_name, name_ok, is_u8. destruct r; repeat case_match; apply _. Defined.

Fixpoint vol_serve_all (rs : list request) (v : volume) : list reply * volume :=
  match rs with
  | [] => ([], v)
  | r :: rs => let '(a, v) := vol_serve r v in let '(l, v) := vol_serve_all rs v in (a :: l, v)
  end.
Fixpoint all_allowed (rs : list request) (v : volume) : Prop :=
  match rs with
  | [] => True
  | r :: rs => allowed r v /\ all_allowed rs (vol_serve r v).2
  end.
#[export] Instance all_allowed_dec rs v : Decision (all_allowed rs v).
Proof. revert v; induction rs as [|r rs IH]; intros v; cbn; apply _. Defined.

(** No two files have one name. *)
Definition distinct (v : volume) : Prop := forall name i j, 0 <= i < entries -> 0 <= j < entries ->
  has_name v name i = true -> has_name v name j = true -> i = j.
End volume.

(** ** Free sectors *)

Fixpoint count_up (n : nat) (i : Z) (test : Z -> bool) : nat :=
  match n with
  | O => O
  | S n' => (if test i then 1 else 0) + count_up n' (i + 1) test
  end.

Lemma count_up_ext n i test test' : (forall j, i <= j < i + Z.of_nat n -> test j = test' j) ->
  count_up n i test = count_up n i test'.
Proof.
  revert i; induction n as [|n IH]; intros i H; cbn [count_up]; [done|].
  rewrite H by lia. f_equal. apply IH. intros j Hj. apply H. lia.
Qed.

(** The test changes at one place. *)
Lemma count_up_change n i test test' k : i <= k < i + Z.of_nat n ->
  (forall j, i <= j < i + Z.of_nat n -> j <> k -> test' j = test j) ->
  test k = true -> test' k = false -> count_up n i test = S (count_up n i test').
Proof.
  revert i; induction n as [|n IH]; intros i Hk H H1 H0; [lia|]. cbn [count_up].
  destruct (Z.eq_dec i k) as [-> |Hne].
  - rewrite H1, H0. cbn. f_equal. apply count_up_ext. intros j Hj. symmetry. apply H; lia.
  - rewrite H by lia. rewrite (IH (i + 1)) by (done || lia || intros; apply H; lia). lia.
Qed.

Lemma count_up_find n i test : find_up n i test = None <-> count_up n i test = O.
Proof.
  revert i; induction n as [|n IH]; intros i; cbn [find_up count_up]; [done|].
  destruct (test i); cbn; [done|apply IH].
Qed.

(** The test becomes false at the places of a list. *)
Lemma count_up_remove n i test test' l : NoDup l ->
  (forall k, k ∈ l -> i <= k < i + Z.of_nat n /\ test k = true) ->
  (forall k, i <= k < i + Z.of_nat n -> test' k = test k && bool_decide (k ∉ l)) ->
  count_up n i test = (length l + count_up n i test')%nat.
Proof.
  intros Hnd. revert test; induction Hnd as [|k l Hk Hnd IH]; intros test Hl Ht.
  - apply count_up_ext. intros k Hk. rewrite Ht, bool_decide_true by (done || apply not_elem_of_nil).
    by rewrite andb_true_r.
  - destruct (Hl k) as [Hr H1]; [by left|]. set (test1 := fun x => test x && negb (x =? k)).
    rewrite (count_up_change n i test test1 k Hr); [|intros x _ Hx|done|].
    + cbn [length]. rewrite Nat.add_succ_l. f_equal. apply IH.
      * intros x Hx. destruct (Hl x) as [Hxr Hx1]; [by right|]. split; [done|]. unfold test1. rewrite Hx1.
        destruct (Z.eqb_spec x k) as [-> |]; [done|reflexivity].
      * intros x Hx. rewrite Ht by done. unfold test1. rewrite <- andb_assoc. f_equal.
        destruct (Z.eqb_spec x k) as [-> |Hne]; cbn [negb andb].
        -- apply bool_decide_eq_false. intros Hn. apply Hn. by left.
        -- apply bool_decide_ext. rewrite not_elem_of_cons. tauto.
    + unfold test1. rewrite (proj2 (Z.eqb_neq _ _)) by done. apply andb_true_r.
    + unfold test1. by rewrite Z.eqb_refl, andb_false_r.
Qed.

(** From the first place on where the test holds. *)
Lemma count_up_first n i test j : find_up n i test = Some j ->
  count_up n i test = S (count_up (Z.to_nat (i + Z.of_nat n - (j + 1))) (j + 1) test).
Proof.
  revert i; induction n as [|n IH]; intros i; cbn [find_up count_up]; [done|].
  destruct (test i); [intros [= <-]|intros H].
  - cbn. do 2 f_equal. lia.
  - rewrite (IH _ H). cbn. do 2 f_equal. lia.
Qed.

Definition free_sectors (img : mem) : nat :=
  count_up (Z.to_nat (fat_count img)) 0 (fun k => fat_entry img k =? 0).

Lemma free_sectors_ext img img' : same_header img img' ->
  (forall k, 0 <= k < fat_count img -> fat_entry img' k = fat_entry img k) ->
  free_sectors img' = free_sectors img.
Proof.
  intros Hh He. unfold free_sectors. rewrite (sh_fat_count _ _ Hh). apply count_up_ext.
  intros k Hk. by rewrite He by lia.
Qed.

(** One sector is taken. *)
Lemma free_sectors_take img img' i : same_header img img' -> 0 <= i < fat_count img ->
  (forall k, 0 <= k < fat_count img -> k <> i -> fat_entry img' k = fat_entry img k) ->
  fat_entry img i = 0 -> fat_entry img' i <> 0 -> free_sectors img = S (free_sectors img').
Proof.
  intros Hh Hi He H0 H1. unfold free_sectors. rewrite (sh_fat_count _ _ Hh).
  apply (count_up_change _ _ _ _ i); [lia| |lia..].
  intros k Hk Hne. by rewrite He by lia.
Qed.

Lemma find_free_fat_none img : find_free_fat img = -1 <-> free_sectors img = O.
Proof.
  unfold find_free_fat, free_sectors. rewrite <- count_up_find. destruct (find_up _ _ _) as [i|] eqn:E; [|done].
  apply find_up_Some in E as (Hi & _). split; [lia|done].
Qed.

(** ** A change of one file *)

(** Only the entry [j], the sectors [l] and their FAT entries changed. *)
Record touches (j : Z) (l : list Z) (img img' : mem) : Prop := {
  th_header : same_header img img';
  th_low : forall x, x < get_tag_metadata img -> x < file_entry img j \/ file_entry img j + 32 <= x ->
    ld8 img' x = ld8 img x;
  th_fat : forall k, 0 <= k < fat_count img -> k ∉ l -> fat_entry img' k = fat_entry img k;
  th_sector : forall k, 0 <= k < fat_count img -> k ∉ l -> sector img' k = sector img k;
}.

Lemma touches_refl j l img : touches j l img img.
Proof. by split. Qed.

Lemma touches_trans j l img1 img2 img3 :
  touches j l img1 img2 -> touches j l img2 img3 -> touches j l img1 img3.
Proof.
  intros [Hh1 Hl1 Hf1 Hs1] [Hh2 Hl2 Hf2 Hs2]. rewrite (sh_get_tag_metadata _ _ Hh1) in Hl2.
  rewrite (sh_file_entry _ _ Hh1) in Hl2. rewrite (sh_fat_count _ _ Hh1) in Hf2, Hs2.
  split; [by eapply same_header_trans|..]; intros x Hx Hn.
  - by rewrite Hl2, Hl1.
  - by rewrite Hf2, Hf1.
  - by rewrite Hs2, Hs1.
Qed.

Lemma touches_mono j l l' img img' : touches j l img img' -> (forall k, k ∈ l -> k ∈ l') ->
  touches j l' img img'.
Proof. intros [H1 H2 H3 H4] Hs. split; [done|done|intros; apply H3; auto|intros; apply H4; auto]. Qed.

Lemma kept_touches j l img img' : layout_ok img -> kept l img img' -> touches j l img img'.
Proof.
  intros Hok [H1 H2 H3 H4]. pose proof (section_order img Hok) as (?&?&?&?&?).
  split; [done|intros; apply H2; lia|done..].
Qed.

Section touch.
Context (img : mem) (Hok : layout_ok img) (j : Z) (Hj : 0 <= j < count_file_meta_entries img).

Lemma touches_entry l a n img' : only_in a n img img' -> file_entry img j <= a ->
  a + n <= file_entry img j + 32 -> touches j l img img'.
Proof.
  intros Hin Ha Hn. destruct (file_entry_ok img Hok j Hj) as [H1 H2].
  pose proof (section_order img Hok) as (?&?&?&?&?).
  destruct (kept_entry img Hok img' _ _ Hin) as (Hh & Hf & Hs); [lia..|].
  split; [done|intros x Hx Hx'; apply Hin; lia|auto..].
Qed.

Lemma touches_data l i off bytes : 0 <= i < fat_count img -> i ∈ l -> 0 <= off ->
  off + Z.of_nat (length bytes) <= fs_sector_size img ->
  touches j l img (st_bytes img (data_addr img i + off) bytes).
Proof.
  intros Hi Hil Hoff Hlen. pose proof (only_in_st_bytes img (data_addr img i + off) bytes) as Hin.
  destruct (data_start img Hok i Hi) as (H1 & H2 & H3). pose proof (section_order img Hok) as (?&?&?&?&?).
  assert (same_header img (st_bytes img (data_addr img i + off) bytes)) as Hh
    by (apply (only_in_header _ _ _ _ Hin); lia).
  split; [done|intros x Hx _; apply Hin; lia| |].
  - intros k Hk _. apply (sh_fat_entry _ _ Hh). intros x Hx. apply Hin.
    destruct (fat_addr_ok img Hok k Hk). lia.
  - intros k Hk Hn. apply sector_frame; [done..|]. intros x Hx. apply Hin.
    assert (i <> k) as Hik by (by intros ->).
    destruct (sectors_apart img Hok i k Hi Hk Hik); lia.
Qed.

Lemma touches_fat l i v : 0 <= i < fat_count img -> i ∈ l ->
  touches j l img (st16 img (fat_addr img i) v) /\ fat_entry (st16 img (fat_addr img i) v) i = w16 v.
Proof.
  intros Hi Hil. destruct (kept_fat_set img Hok i v Hi) as (img' & Hset & Hk & He & _).
  unfold fat_set in Hset. destruct (fat_addr_ok img Hok i Hi) as (_ & _ & Hin). rewrite Hin in Hset.
  injection Hset as <-. split; [|done]. apply (kept_touches _ _ _ _ Hok). eapply kept_mono; [done|].
  intros k ->%list_elem_of_singleton. done.
Qed.

(** Bytes in a sector, and the size in the entry. *)
Lemma touches_grown l i off bytes e : 0 <= i < fat_count img -> i ∈ l -> 0 <= off ->
  off + Z.of_nat (length bytes) <= fs_sector_size img ->
  let img' := grow_size (st_bytes img (data_addr img i + off) bytes) (file_entry img j) e in
  touches j l img img' /\
  forall x, x < get_data img -> x < file_entry img j + 4 \/ file_entry img j + 8 <= x -> ld8 img' x = ld8 img x.
Proof.
  intros Hi Hil Hoff Hlen. cbv zeta. set (img1 := st_bytes _ _ _).
  assert (touches j l img img1) as T by (by apply touches_data).
  pose proof (th_header _ _ _ _ T) as Hh. destruct (file_entry_ok img Hok j Hj) as [P1 P2].
  pose proof (section_order img Hok) as (?&?&?&?&?).
  assert (only_in (file_entry img j + 4) 4 img1 (grow_size img1 (file_entry img j) e)) as Hin
    by (unfold grow_size; destruct (_ <? _); [apply only_in_st32|done]).
  split.
  - eapply touches_trans; [exact T|]. destruct (kept_entry img1 (sh_layout_ok _ _ Hh Hok) _ _ _ Hin) as (Hh' & Hf & Hs);
      rewrite ?(sh_get_fat _ _ Hh); [lia..|].
    split; [done| |by auto..]. intros x _ Hx. apply Hin. rewrite (sh_file_entry _ _ Hh) in Hx. lia.
  - intros x Hx Hx'. destruct (data_start img Hok i Hi) as (_ & _ & P3). rewrite Hin by lia.
    apply only_in_st_bytes. lia.
Qed.
End touch.

Lemma touches_equiv j l img img1 img' : layout_ok img1 -> touches j l img img1 -> img' ≡ img1 ->
  touches j l img img'.
Proof.
  intros Hok [Hh Hl Hf Hs] He. assert (same_header img1 img') as Hh' by (intros x _; apply He).
  split; [by eapply same_header_trans|intros x Hx Hx'; rewrite He; by apply Hl| |]; intros k Hk Hn.
  - rewrite (sh_fat_entry _ _ Hh'); [by apply Hf|]. intros x _. apply He.
  - rewrite (sector_frame img1 Hok img' k Hh'); [by apply Hs|]. intros x _. apply He.
Qed.

(** ** When an image holds a volume *)

(** The file [f] is in entry [j] with the sectors [l]. *)
Record stored (img : mem) (j : Z) (l : list Z) (f : file) : Prop := {
  so_name : is_name (f_name f) /\ (length (f_name f) < 24)%nat;
  so_entry : name_eq img (f_name f) (name_of (file_entry img j)) = true;
  so_first : first_data_sector img (file_entry img j) = hd 0xffff l;
  so_chain : l = [] \/ chain img l;
  so_size : file_size img (file_entry img j) <= Z.of_nat (length l) * fs_sector_size img;
  so_data : f_data f = take (Z.to_nat (file_size img (file_entry img j))) (chain_bytes img l);
  so_sectors : f_sectors f = length l;
}.

(** No sector belongs to two files. *)
Record represents (img : mem) (ch : Z -> list Z) (v : volume) : Prop := {
  rp_layout : layout_ok img;
  rp_range : forall j f, v_files v !! j = Some f -> 0 <= j < count_file_meta_entries img;
  rp_empty : forall j, 0 <= j < count_file_meta_entries img -> v_files v !! j = None ->
    file_metadata_entry_is_free img (file_entry img j) = true;
  rp_file : forall j f, v_files v !! j = Some f -> stored img j (ch j) f;
  rp_apart : forall i j fi fj, v_files v !! i = Some fi -> v_files v !! j = Some fj -> i <> j ->
    ch i ## ch j;
  rp_free : free_sectors img = v_free v;
}.

Lemma stored_range img j l f i : stored img j l f -> i ∈ l -> 0 <= i < fat_count img.
Proof.
  intros Hs Hi. destruct (so_chain _ _ _ _ Hs) as [-> |Hc]; [by apply not_elem_of_nil in Hi|].
  by eapply chain_range.
Qed.

Lemma stored_used img j l f i : stored img j l f -> i ∈ l -> fat_entry img i <> 0.
Proof.
  intros Hs Hi. destruct (so_chain _ _ _ _ Hs) as [-> |Hc]; [by apply not_elem_of_nil in Hi|].
  apply list_elem_of_lookup in Hi as [k Hk]. by eapply chain_entry_used.
Qed.

(** Another file stays where it is. *)
Lemma stored_keep img img' i j l t f : layout_ok img -> touches j t img img' ->
  0 <= i < count_file_meta_entries img -> i <> j -> l ## t -> stored img i l f -> stored img' i l f.
Proof.
  intros Hok Ht Hi Hij Hd Hs. pose proof Hs as [Hn He Hfd Hc Hsz Hda Hse].
  pose proof (th_header _ _ _ _ Ht) as Hh. pose proof (fun k => stored_range _ _ _ _ k Hs) as Hr.
  destruct (file_entry_ok img Hok i Hi) as [H1 H2]. pose proof (section_order img Hok) as (?&?&?&?&?).
  assert (forall x, file_entry img i <= x < file_entry img i + 32 -> ld8 img' x = ld8 img x) as Hlow.
  { intros x Hx. apply (th_low _ _ _ _ Ht); [lia|]. unfold file_entry in *. lia. }
  assert (file_size img' (file_entry img i) = file_size img (file_entry img i)) as E
    by (apply ld32_frame; intros x Hx; apply Hlow; lia).
  split; rewrite ?(sh_file_entry _ _ Hh), ?(sh_sector_size _ _ Hh), ?E; try done.
  - rewrite (name_eq_frame img); [done|]. intros x Hx. apply Hlow. unfold name_of in Hx. lia.
  - rewrite <- Hfd. apply ld32_frame. intros x Hx. apply Hlow. lia.
  - destruct Hc as [-> |Hc]; [by left|right]. apply (chain_keep img); [done..|].
    intros k Hk. apply (th_fat _ _ _ _ Ht); [eauto|]. intros Hkt. by apply (Hd k).
  - rewrite Hda. f_equal. symmetry. apply chain_bytes_keep. intros k Hk.
    apply (th_sector _ _ _ _ Ht); [eauto|]. intros Hkt. by apply (Hd k).
Qed.

(** The volume after a change of the entry [j]. *)
Lemma represents_change img img' ch v j t l fo n : represents img ch v -> touches j t img img' ->
  0 <= j < count_file_meta_entries img ->
  (forall i f, v_files v !! i = Some f -> i <> j -> ch i ## t /\ ch i ## l) ->
  match fo with
  | Some f => stored img' j l f
  | None => file_metadata_entry_is_free img' (file_entry img j) = true
  end ->
  free_sectors img' = n ->
  represents img' (<[j := l]> ch) (Volume (partial_alter (fun _ => fo) j (v_files v)) n).
Proof.
  intros [Hok Hr He Hf Ha _] Ht Hj Hd Hfo Hn. pose proof (th_header _ _ _ _ Ht) as Hh.
  split; cbn [v_files v_free]; rewrite ?(sh_count _ _ Hh); try done.
  - by apply (sh_layout_ok _ _ Hh).
  - intros i f. destruct (decide (i = j)) as [-> |Hij]; [done|].
    rewrite lookup_partial_alter_ne by done. apply Hr.
  - intros i Hi. rewrite (sh_file_entry _ _ Hh). destruct (decide (i = j)) as [-> |Hij].
    + rewrite lookup_partial_alter_eq. by intros ->.
    + rewrite lookup_partial_alter_ne by done. intros Hnone. rewrite <- (He i Hi Hnone).
      unfold file_metadata_entry_is_free. f_equal. destruct (file_entry_ok img Hok i Hi) as [H1 H2].
      pose proof (section_order img Hok) as (?&?&?&?&?).
      apply (th_low _ _ _ _ Ht); unfold name_of, file_entry in *; lia.
  - intros i f. destruct (decide (i = j)) as [-> |Hij].
    + rewrite lookup_partial_alter_eq, fn_lookup_insert. by intros ->.
    + rewrite lookup_partial_alter_ne, fn_lookup_insert_ne by done. intros Hi.
      eapply stored_keep; [done|done|by eapply Hr|done| |by apply Hf]. by eapply Hd.
  - intros a b fa fb. destruct (decide (a = j)) as [-> |Haj], (decide (b = j)) as [-> |Hbj]; try done;
      rewrite ?lookup_partial_alter_eq, ?(lookup_partial_alter_ne _ _ j), ?fn_lookup_insert,
        ?(fn_lookup_insert_ne _ j) by done; intros H1 H2 Hab.
    + intros k Hk Hk'. destruct (Hd b fb H2 Hbj) as [_ Hbl]. by apply (Hbl k).
    + by eapply Hd.
    + by eapply Ha.
Qed.

(** ** Looking a name up *)

Lemma vol_find_Some entries v name j f : vol_find entries v name = Some (j, f) ->
  find_up (Z.to_nat entries) 0 (has_name v name) = Some j /\ v_files v !! j = Some f /\
  f_name f = name /\ 0 <= j < entries.
Proof.
  unfold vol_find. destruct (find_up _ _ _) as [i|] eqn:E; [|done]. cbn.
  destruct (v_files v !! i) as [g|] eqn:Ei; [|done]. cbn. intros [= -> ->].
  apply find_up_Some in E as (Hj & Hn & _). unfold has_name in Hn. rewrite Ei in Hn.
  apply bool_decide_eq_true in Hn. split_and!; (done || lia).
Qed.

Lemma vol_find_None entries v name : vol_find entries v name = None ->
  find_up (Z.to_nat entries) 0 (has_name v name) = None.
Proof.
  unfold vol_find. destruct (find_up _ _ _) as [i|] eqn:E; [|done]. cbn.
  apply find_up_Some in E as (_ & Hn & _). unfold has_name in Hn.
  by destruct (v_files v !! i).
Qed.

Section lookup.
Context (img : mem) (ch : Z -> list Z) (v : volume) (Hr : represents img ch v).
Abbreviation entries := (count_file_meta_entries img).

Lemma names_agree name j : is_name name -> 0 <= j < entries ->
  name_eq img name (name_of (file_entry img j)) = has_name v name j.
Proof.
  intros [Hn Hne] Hj. unfold has_name. destruct (v_files v !! j) as [f|] eqn:E.
  - destruct (rp_file _ _ _ Hr j f E) as [[[Hfn _] _] He _ _ _ _ _].
    destruct (name_eq img name _) eqn:En; symmetry.
    + apply bool_decide_eq_true. by eapply name_eq_inj.
    + apply bool_decide_eq_false. intros Ef. congruence.
  - pose proof (rp_empty _ _ _ Hr j Hj E) as Hz. unfold file_metadata_entry_is_free in Hz.
    destruct (name_eq img name _) eqn:En; [|done].
    apply name_eq_used in En; [lia|done..].
Qed.

Lemma find_agree name : is_name name ->
  find_up (Z.to_nat entries) 0 (fun i => name_eq img name (name_of (file_entry img i))) =
  find_up (Z.to_nat entries) 0 (has_name v name).
Proof. intros Hn. apply find_up_ext. intros j Hj. apply names_agree; [done|lia]. Qed.

Lemma id_agree name : is_name name ->
  get_file_id_from_name img name =
    match vol_find entries v name with Some (j, _) => j + 1 | None => 0 end.
Proof.
  intros Hn. pose proof (rp_layout _ _ _ Hr) as Hok. unfold get_file_id_from_name. rewrite find_agree by done.
  destruct (vol_find entries v name) as [[j f]|] eqn:E.
  - apply vol_find_Some in E as (-> & _ & _ & Hj). apply w16_id. unfold is_u16.
    pose proof (layout_sums img Hok) as (?&?&?&?&_&_&_&_&_&Hc&_). pose proof (lay_files Hok). lia.
  - by rewrite (vol_find_None _ _ _ E).
Qed.

(** A stored file with sectors, as the other theorems describe files. *)
Lemma stored_file_at name j f : is_name name -> vol_find entries v name = Some (j, f) -> ch j <> [] ->
  file_at img name (j + 1) (ch j) /\ content img (j + 1) (ch j) = f_data f.
Proof.
  intros Hn Hf Hne. pose proof (id_agree name Hn) as Hid. rewrite Hf in Hid.
  apply vol_find_Some in Hf as (_ & Hl & _ & Hj).
  destruct (rp_file _ _ _ Hr j f Hl) as [_ _ Hfd [Hc|Hc] Hsz Hda _]; [done|].
  unfold content. replace (j + 1 - 1) with j by lia. split; [|done].
  split; replace (j + 1 - 1) with j by lia; [split; [done|lia]|done..].
Qed.

Lemma stored_size j f : v_files v !! j = Some f ->
  file_size img (file_entry img j) = Z.of_nat (length (f_data f)).
Proof.
  intros Hl. destruct (rp_file _ _ _ Hr j f Hl) as [_ _ _ _ Hsz Hda _]. rewrite Hda, length_take, length_chain_bytes.
  pose proof (ld32_range img (file_entry img j + 4)). fold (file_size img (file_entry img j)) in *.
  destruct (lay_sector (rp_layout _ _ _ Hr)). nia.
Qed.

Lemma stored_short j f : v_files v !! j = Some f -> f_sectors f = 0%nat -> ch j = [] /\ f_data f = [].
Proof.
  intros Hl Hz. destruct (rp_file _ _ _ Hr j f Hl) as [_ _ _ _ Hsz Hda Hse].
  assert (ch j = []) as E by (apply nil_length_inv; lia). rewrite E in *. split; [done|].
  rewrite Hda. unfold chain_bytes. cbn. by rewrite take_nil.
Qed.
End lookup.

(** ** The operations *)

(** Bytes stored into the first [n] of a list and into the list itself. *)
Lemma splice_take o b (n : Z) old : 0 <= o <= n -> n <= Z.of_nat (length old) ->
  o + Z.of_nat (length b) <= Z.of_nat (length old) ->
  splice o b (take (Z.to_nat n) old) = take (Z.to_nat (Z.max n (o + Z.of_nat (length b)))) (splice o b old).
Proof.
  intros Ho Hn Hb. unfold splice. rewrite take_take, skipn_firstn_comm.
  rewrite (take_app_ge (take _ old)), (take_app_ge b) by (rewrite length_take; lia). rewrite length_take.
  do 2 f_equal; f_equal; lia.
Qed.

(** The loop of [tagfs_unlink] at the last sector of a file. *)
Lemma unlink_end img i fuel : layout_ok img -> 0 <= i < fat_count img -> fat_entry img i = 0xffff ->
  loop (S fuel) unlink_body (i, img) = Ok (st16 img (fat_addr img i) 0).
Proof.
  intros Hok Hi Hend. cbn [loop]. unfold unlink_body at 1.
  rewrite fat_get_ok, bind_Ok_r, Hend by done. unfold fat_set.
  destruct (fat_addr_ok img Hok i Hi) as (_ & _ & ->). by res_step.
Qed.

(** No sector is taken but the first free one. *)
Definition takes_first (img img' : mem) : Prop :=
  forall i, 0 <= i < fat_count img -> fat_entry img i = 0 -> fat_entry img' i <> 0 -> find_free_fat img = i.

Lemma takes_first_keep img img' :
  (forall i, 0 <= i < fat_count img -> fat_entry img' i = fat_entry img i) -> takes_first img img'.
Proof. intros H i Hi E E'. rewrite H in E' by done. done. Qed.
Lemma takes_first_refl img : takes_first img img.
Proof. by apply takes_first_keep. Qed.
#[local] Hint Resolve takes_first_refl : core.

Lemma takes_first_touched img img' j l : touches j l img img' ->
  (forall i, i ∈ l -> fat_entry img i = 0 -> find_free_fat img = i) -> takes_first img img'.
Proof.
  intros Ht Hl i Hi E E'. destruct (decide (i ∈ l)) as [Hin|Hin]; [by apply Hl|].
  by rewrite (th_fat _ _ _ _ Ht) in E'.
Qed.

(** The request is answered as on the volume, and the image holds the volume
    it makes. *)
Definition simulated (fuel : nat) (img : mem) (v : volume) (r : request) : Prop :=
  let s := vol_serve (count_file_meta_entries img) (fs_sector_size img) r v in
  exists img' ch', serve fuel r img = Ok (s.1, img') /\ same_header img img' /\ takes_first img img' /\
    represents img' ch' s.2.

Section operations.
Context (img : mem) (ch : Z -> list Z) (v : volume) (Hr : represents img ch v) (fuel : nat).
Hypothesis Hfuel : (Z.to_nat (fat_count img) + 1 < fuel)%nat.
Abbreviation entries := (count_file_meta_entries img).
Abbreviation ss := (fs_sector_size img).

Lemma slot_agree j : 0 <= j < entries ->
  file_metadata_entry_is_free img (file_entry img j) = bool_decide (v_files v !! j = None).
Proof.
  intros Hj. destruct (v_files v !! j) as [f|] eqn:E.
  - rewrite bool_decide_eq_false_2 by done. destruct (rp_file _ _ _ Hr j f E) as [[[Hn Hne] _] He _ _ _ _ _].
    apply Z.eqb_neq. by eapply name_eq_used.
  - rewrite bool_decide_eq_true_2 by done. by apply (rp_empty _ _ _ Hr).
Qed.

(** A file is made in the first free slot, whether or not its name is taken. *)
Lemma mknod_adds name mode j : is_name name -> S_ISREG mode = true -> Z.of_nat (length name) < 24 ->
  vol_slot entries v = Some j ->
  exists img' ch', tagfs_mknod img (path_of name) mode = (0, img') /\ same_header img img' /\
    takes_first img img' /\
    represents img' ch' (Volume (<[j := File name [] 0]> (v_files v)) (v_free v)).
Proof.
  clear fuel Hfuel.
  intros [Hn Hne] Hreg Hlen E. pose proof (rp_layout _ _ _ Hr) as Hok.
  unfold tagfs_mknod, path_of. cbn [tl]. rewrite Hreg. cbn [negb].
  destruct (Z.leb_spec 24 (Z.of_nat (length name))); [lia|]. unfold vol_slot in E.
  rewrite (find_up_ext _ _ (fun i => file_metadata_entry_is_free img (file_entry img i))
    (fun j => bool_decide (v_files v !! j = None))), E by (intros k Hk; apply slot_agree; lia).
  apply find_up_Some in E as (Hj & _). cbv beta iota zeta.
  destruct (mknod_place img j name Hok ltac:(lia) ltac:(lia) Hn) as (Hin & Hfd & Hsz & Hnm).
  eexists _, (<[j := []]> ch). split; [reflexivity|]. revert Hin Hfd Hsz Hnm.
  generalize (st_bytes (st32 (st32 img (file_entry img j) 65535) (file_entry img j + 4) 0)
    (name_of (file_entry img j)) (name ++ [0])). intros img' Hin Hfd Hsz Hnm.
  assert (touches j [] img img') as Ht by (eapply (touches_entry img Hok); [lia|done|lia..]).
  pose proof (th_header _ _ _ _ Ht) as Hh. split; [done|].
  split; [eapply takes_first_touched; [exact Ht|by intros k ?%not_elem_of_nil]|].
  apply (represents_change img img' ch v j [] [] (Some (File name [] 0))); [done..|lia| | |].
  - intros i f _ _. split; by intros k ? ?%not_elem_of_nil.
  - split; rewrite ?(sh_file_entry _ _ Hh), ?Hsz; cbn; try done; [|by left]. split; [done|lia].
  - rewrite <- (rp_free _ _ _ Hr). apply free_sectors_ext; [done|]. intros k Hk.
    apply (th_fat _ _ _ _ Ht); [done|apply not_elem_of_nil].
Qed.

(** What it answers for a name that no file has. *)
Lemma simulated_mknod name mode : allowed entries ss (Mknod name mode) v -> simulated fuel img v (Mknod name mode).
Proof.
  intros [Hn Hnew]. unfold simulated. cbv zeta. cbn [serve vol_serve]. unfold vol_mknod. rewrite Hnew.
  destruct (S_ISREG mode) eqn:Hreg; cbn [negb].
  2:{ unfold tagfs_mknod. rewrite Hreg. by exists img, ch. }
  destruct (Z.leb_spec 24 (Z.of_nat (length name))) as [Hlong|Hlen].
  { unfold tagfs_mknod, path_of. cbn [tl]. rewrite Hreg, (proj2 (Z.leb_le _ _) Hlong). by exists img, ch. }
  destruct (vol_slot entries v) as [j|] eqn:E.
  - destruct (mknod_adds name mode j Hn Hreg Hlen E) as (img' & ch' & -> & H). by exists img', ch'.
  - unfold tagfs_mknod, path_of. cbn [tl]. rewrite Hreg, (proj2 (Z.leb_gt _ _) Hlen). cbn [negb].
    unfold vol_slot in E.
    rewrite (find_up_ext _ _ (fun i => file_metadata_entry_is_free img (file_entry img i))
      (fun j => bool_decide (v_files v !! j = None))), E by (intros k Hk; apply slot_agree; lia).
    by exists img, ch.
Qed.

Lemma chain_fuel j f : v_files v !! j = Some f -> (length (ch j) + 1 < fuel)%nat.
Proof.
  intros Hl. pose proof (rp_layout _ _ _ Hr) as Hok. destruct (so_chain _ _ _ _ (rp_file _ _ _ Hr j f Hl)) as [-> |Hc].
  - cbn. lia.
  - pose proof (chain_length img _ Hok Hc). lia.
Qed.

Lemma simulated_read name n o : allowed entries ss (Read name n o) v -> simulated fuel img v (Read name n o).
Proof.
  intros (Hn & Ho & Hsz & Hf). pose proof (rp_layout _ _ _ Hr) as Hok.
  assert (tagfs_read fuel img (path_of name) n o = Ok (vol_read entries name n o v)) as H.
  2:{ unfold simulated. cbn [serve vol_serve]. rewrite H, bind_Ok_r. destruct (vol_read entries name n o v).
      by exists img, ch. }
  unfold vol_read, path_of. destruct (vol_find entries v name) as [[j f]|] eqn:E.
  - pose proof (vol_find_Some _ _ _ _ _ E) as (_ & Hl & _ & _). pose proof (stored_size _ _ _ Hr j f Hl) as Hs.
    destruct (Z.leb_spec (Z.of_nat (length (f_data f))) o) as [Hle|Hlt].
    + unfold tagfs_read. cbn [tl]. rewrite (id_agree _ _ _ Hr), E by done.
      apply vol_find_Some in E as (_ & _ & _ & Hj). destruct (Z.eqb_spec (j + 1) 0); [lia|].
      replace (j + 1 - 1) with j by lia. rewrite Hs, (proj2 (Z.leb_le _ _)) by done. done.
    + destruct Hf as [|Hf]; [lia|].
      assert (ch j <> []) as Hne.
      { intros Ec. pose proof (so_size _ _ _ _ (rp_file _ _ _ Hr j f Hl)) as Hx. rewrite Ec in Hx. cbn in Hx. lia. }
      destruct (stored_file_at _ _ _ Hr name j f Hn E Hne) as [Hfa Hc].
      rewrite (tagfs_read_content_ok img (47 :: name) (j + 1) (ch j)); try done; try lia;
        [by rewrite Hc|replace (j + 1 - 1) with j by lia; lia|by eapply chain_fuel].
  - unfold tagfs_read. cbn [tl]. by rewrite (id_agree _ _ _ Hr), E by done.
Qed.

Lemma simulated_getattr name st : is_name name -> simulated fuel img v (Getattr name st).
Proof.
  intros Hn. assert (tagfs_getattr img (path_of name) st = vol_getattr entries name st v) as H.
  2:{ unfold simulated. cbn [serve vol_serve]. rewrite H. destruct (vol_getattr entries name st v).
      by exists img, ch. }
  unfold vol_getattr, tagfs_getattr, path_of. cbn [tl].
  rewrite bool_decide_eq_false_2 by (destruct Hn as [_ Hne]; intros [= E]; done).
  rewrite (find_agree _ _ _ Hr) by done. destruct (vol_find entries v name) as [[j f]|] eqn:E.
  - apply vol_find_Some in E as (-> & Hl & _). cbn. by rewrite (stored_size _ _ _ Hr j f Hl).
  - by rewrite (vol_find_None _ _ _ E).
Qed.

Lemma simulated_getattr_root st : simulated fuel img v (Getattr_root st).
Proof.
  exists img, ch. split; [|done]. cbn [serve vol_serve]. unfold vol_getattr_root, tagfs_getattr, path_of.
  rewrite bool_decide_eq_true_2 by done. cbv zeta. cbn [st_ino st_mode st_nlink st_size st_blksize st_blocks fst].
  do 3 f_equal. apply for_up_ext. intros j t Hj. pose proof (slot_agree j ltac:(lia)) as Hs.
  unfold file_metadata_entry_is_free in Hs. rewrite Hs. destruct (v_files v !! j) as [f|] eqn:E; [|done].
  cbn. by rewrite (stored_size _ _ _ Hr j f E).
Qed.

(** The name of a file as [filler] reads it. *)
Lemma c_text_name m a name : name_ok name -> (length name < 24)%nat -> name_eq m name a = true ->
  c_text (bytes_at m a 24) = name.
Proof.
  intros Hn Hlen [Hb Hz]%andb_true_iff. apply bool_decide_eq_true in Hb. apply Z.eqb_eq in Hz.
  replace 24%nat with (length name + S (23 - length name))%nat by lia.
  rewrite bytes_at_app, Hb. cbn [bytes_at seq map]. unfold bytes_at. cbn [seq map]. rewrite Z.add_0_r, Hz.
  generalize (map (fun k => ld8 m (a + Z.of_nat (length name) + Z.of_nat k)) (seq 1 (23 - length name))).
  clear Hb Hz Hlen. intros rest. induction Hn as [|c name Hc _ IH]; [done|]. cbn [app c_text].
  destruct (Z.eqb_spec c 0); [lia|]. by rewrite IH.
Qed.

Lemma simulated_readdir : simulated fuel img v Readdir.
Proof.
  exists img, ch. split; [|done]. cbn [serve vol_serve]. unfold tagfs_readdir, vol_readdir, path_of.
  rewrite bool_decide_eq_true_2 by done. cbn [fst]. do 3 f_equal.
  rewrite (for_up_ext _ (fun i out => out ++ (if negb (file_metadata_entry_is_free img (file_entry img i))
    then [(name_of (file_entry img i), Stat (i + 1) (mode_of S_IFREG) 0
      (file_size img (file_entry img i)) 0 0)] else []))), for_up_collect.
  2:{ intros k t _. cbv zeta. destruct (negb _); [done|by rewrite app_nil_r]. }
  rewrite app_nil_l, concat_map, map_map. f_equal.
  pose proof (s32_range (w32 (fs_file_meta_sector_count img * ss) / 32)) as Hc. fold entries in Hc.
  assert (0 <= entries) by (rewrite <- (file_count_unsigned img (rp_layout _ _ _ Hr)); apply Z.div_pos; [apply w32_range|lia]).
  rewrite Z2Nat.id by lia. apply map_ext_in. intros j Hj%list_elem_of_In%elem_of_seqZ.
  rewrite slot_agree by lia. unfold vol_entry. destruct (v_files v !! j) as [f|] eqn:E; [|done].
  destruct (rp_file _ _ _ Hr j f E) as [[[Hn _] Hlen] He _ _ _ _ _]. cbn. unfold filled. cbn [fst snd].
  by rewrite (c_text_name _ _ (f_name f)), (stored_size _ _ _ Hr j f E).
Qed.

(** The sectors of another file. *)
Lemma other_apart i j f g t : v_files v !! j = Some f -> v_files v !! i = Some g -> i <> j ->
  (forall k, k ∈ t -> k ∈ ch j) -> ch i ## t.
Proof. intros Hj Hi Hne Hs k Hk Hk'. by apply (rp_apart _ _ _ Hr i j g f Hi Hj Hne k); [|apply Hs]. Qed.

(** The name is cleared: the entry is free, and its sectors belong to no file. *)
Lemma forget_name j f : v_files v !! j = Some f -> let img' := st8 img (name_of (file_entry img j)) 0 in
  touches j [] img img' /\ layout_ok img' /\ file_metadata_entry_is_free img' (file_entry img j) = true /\
  first_data_sector img' (file_entry img j) = first_data_sector img (file_entry img j) /\
  forall k, 0 <= k < fat_count img -> fat_entry img' k = fat_entry img k.
Proof.
  intros Hl. pose proof (rp_layout _ _ _ Hr) as Hok. pose proof (rp_range _ _ _ Hr j f Hl) as Hj.
  destruct (unlink_clear img j Hok ltac:(lia)) as (Hh & Hok' & Hfd & Hfat). split_and!; [|done| |done..].
  - apply (touches_entry img Hok j Hj [] (name_of (file_entry img j)) 1); [|unfold name_of; lia..].
    intros x Hx. apply ld8_st8_ne. lia.
  - unfold file_metadata_entry_is_free. by rewrite ld8_st8_eq.
Qed.

(** Deleting the file of entry [j], by the number of its sectors. *)
Lemma delete_represents j f l img' n : v_files v !! j = Some f -> touches j l img img' ->
  (forall k, k ∈ l -> k ∈ ch j) -> file_metadata_entry_is_free img' (file_entry img j) = true ->
  free_sectors img' = n -> represents img' (<[j := []]> ch) (Volume (delete j (v_files v)) n).
Proof.
  intros Hl Ht Hs Hfree Hn.
  apply (represents_change img img' ch v j l [] None); [done..|by eapply (rp_range _ _ _ Hr)| |done|done].
  intros a g Ha Hne. split; [by apply (other_apart a j f g)|by intros k ? ?%not_elem_of_nil].
Qed.

Lemma delete_sector j f i : v_files v !! j = Some f -> ch j = [i] ->
  let img1 := st8 img (name_of (file_entry img j)) 0 in
  let img2 := st16 img1 (fat_addr img1 i) 0 in
  same_header img img2 /\ takes_first img img2 /\ represents img2 (<[j := []]> ch) (Volume (delete j (v_files v)) (v_free v + 1)).
Proof.
  intros Hl Ec. pose proof (rp_layout _ _ _ Hr) as Hok. pose proof (rp_range _ _ _ Hr j f Hl) as Hj.
  pose proof (rp_file _ _ _ Hr j f Hl) as Hs. rewrite Ec in Hs. assert (i ∈ [i]) as Hii by (by left).
  pose proof (stored_range _ _ _ _ _ Hs Hii) as Hi. destruct (so_chain _ _ _ _ Hs) as [|[_ Hend]]; [done|].
  destruct (forget_name j f Hl) as (Ht1 & Hok1 & Hfree1 & _ & Hfat1). cbv zeta in *.
  set (img1 := st8 img _ 0) in *. pose proof (th_header _ _ _ _ Ht1) as Hh1.
  destruct (touches_fat img1 Hok1 j [i] i 0) as [Ht2 He2]; [by rewrite (sh_fat_count _ _ Hh1)|done|].
  set (img2 := st16 img1 _ 0) in *. pose proof (th_header _ _ _ _ Ht2) as Hh2.
  assert (touches j [i] img img2) as Ht.
  { eapply touches_trans; [|exact Ht2]. eapply touches_mono; [exact Ht1|]. by intros k ?%not_elem_of_nil. }
  split; [by eapply same_header_trans|].
  split; [apply (takes_first_touched _ _ _ _ Ht); intros k ->%list_elem_of_singleton; by rewrite Hend|].
  apply (delete_represents j f [i]); [done|exact Ht| | |].
  - by rewrite Ec.
  - unfold file_metadata_entry_is_free, img2. rewrite ld8_st16_ne; [exact Hfree1|].
    destruct (fat_addr_ok img Hok i Hi) as (Hp & _). rewrite (sh_fat_addr _ _ Hh1).
    destruct (file_entry_ok img Hok j Hj). pose proof (section_order img Hok) as (?&?&?&?&?).
    unfold name_of. lia.
  - rewrite (free_sectors_take img2 img1 i), (free_sectors_ext img img1), (rp_free _ _ _ Hr);
      [lia|done|done|by intros x Hx; rewrite Hh2|
       by rewrite (sh_fat_count _ _ Hh2), (sh_fat_count _ _ Hh1)| |exact He2|by rewrite Hfat1, Hend].
    intros k Hk Hne. symmetry. apply (th_fat _ _ _ _ Ht2);
      [by rewrite <- (sh_fat_count _ _ Hh2)|by intros ->%list_elem_of_singleton].
Qed.

Lemma simulated_unlink name : allowed entries ss (Unlink name) v -> simulated fuel img v (Unlink name).
Proof.
  intros (Hn & Hf). pose proof (rp_layout _ _ _ Hr) as Hok.
  destruct (vol_find entries v name) as [[j f]|] eqn:E; [|done].
  pose proof (vol_find_Some _ _ _ _ _ E) as (_ & Hl & _ & Hj). pose proof (rp_file _ _ _ Hr j f Hl) as Hs.
  unfold simulated. cbn [serve vol_serve]. unfold vol_unlink. rewrite E. cbn [fst snd].
  unfold tagfs_unlink, path_of. cbn [tl]. rewrite (id_agree _ _ _ Hr), E by done.
  destruct (Z.eqb_spec (j + 1) (-1)); [lia|]. replace (j + 1 - 1) with j by lia. cbv zeta.
  destruct (forget_name j f Hl) as (Ht1 & Hok1 & Hfree1 & Hfd1 & Hfat1). cbv zeta in *.
  pose proof (th_header _ _ _ _ Ht1) as Hh1. rewrite Hfd1, (so_first _ _ _ _ Hs), (so_sectors _ _ _ _ Hs).
  destruct (ch j) as [|i [|i' l]] eqn:Ec; cbn [hd].
  - eexists _, (<[j := []]> ch). split; [done|]. split; [done|]. split; [by apply takes_first_keep|].
    eapply delete_represents; [done|exact Ht1|by intros k ?%not_elem_of_nil|done|].
    rewrite (free_sectors_ext img), (rp_free _ _ _ Hr) by done. cbn. lia.
  - destruct (delete_sector j f i Hl Ec) as [Hh Hrep]. assert (i ∈ [i]) as Hii by (by left).
    pose proof (stored_range _ _ _ _ _ Hs Hii) as Hi. destruct (so_chain _ _ _ _ Hs) as [|[_ Hend]]; [done|].
    pose proof (layout_sums img Hok) as (_&_&_&_&_&_&_&_&Hfc&_). pose proof (lay_fat Hok).
    destruct (Z.eqb_spec i 65535); [lia|]. rewrite s32_id by lia. destruct fuel as [|fuel']; [lia|].
    rewrite unlink_end by (try done; rewrite ?(sh_fat_count _ _ Hh1), ?Hfat1; done).
    eexists _, (<[j := []]> ch). split; [reflexivity|]. exact (conj Hh Hrep).
  - pose proof (so_sectors _ _ _ _ Hs) as Hx. cbn in Hx. lia.
Qed.

(** A write into sector [i] of the file of entry [j]. *)
Lemma store_sector name j f bytes o i : is_name name -> vol_find entries v name = Some (j, f) ->
  ch j !! Z.to_nat (o / ss) = Some i -> 0 <= o <= Z.of_nat (length (f_data f)) ->
  o mod ss + Z.of_nat (length bytes) <= ss -> Forall is_u8 bytes ->
  let img' := grow_size (st_bytes img (data_addr img i + o mod ss) bytes) (file_entry img j)
    (o + Z.of_nat (length bytes)) in
  same_header img img' /\ (forall k, 0 <= k < fat_count img -> fat_entry img' k = fat_entry img k) /\
  represents img' (<[j := ch j]> ch)
    (Volume (<[j := File (f_name f) (splice o bytes (f_data f)) (f_sectors f)]> (v_files v)) (v_free v)).
Proof.
  intros Hn E Hi Ho Hroom Hb. cbv zeta. pose proof (rp_layout _ _ _ Hr) as Hok.
  pose proof (vol_find_Some _ _ _ _ _ E) as (_ & Hl & Hnm & Hj).
  pose proof (rp_file _ _ _ Hr j f Hl) as Hs. pose proof (stored_size _ _ _ Hr j f Hl) as Hsz.
  destruct (stored_file_at _ _ _ Hr name j f Hn E) as [Hfa _]; [by intros Ec; rewrite Ec in Hi|].
  pose proof (list_elem_of_lookup_2 _ _ _ Hi) as Hin. pose proof (stored_range _ _ _ _ _ Hs Hin) as Hir.
  destruct (lay_sector Hok) as [Hss _]. pose proof (Z.mod_pos_bound o ss ltac:(lia)) as Hm.
  pose proof (Z.div_pos o ss ltac:(lia) ltac:(lia)) as Hq.
  destruct (write_end img _ o (Z.of_nat (length bytes)) i Hok (fa_chain _ _ _ _ Hfa) Hi Hq Hroom) as [He1 He2].
  destruct (fitting_effect img name (j + 1) (ch j) bytes o i Hok Hfa) as (Hok' & Hh & Hfa' & Hcb & Hsz' & _);
    [lia|done..|rewrite <- Hnm; apply (so_name _ _ _ _ Hs)|].
  replace (j + 1 - 1) with j in * by lia.
  destruct (touches_grown img Hok j Hj [i] i (o mod ss) bytes (o + Z.of_nat (length bytes)) Hir) as [Ht Hlow];
    [by left|lia..|].
  set (img' := grow_size _ _ _) in *. destruct (file_entry_ok img Hok j Hj) as [P1 P2].
  pose proof (section_order img Hok) as (?&?&?&?&?).
  assert (forall k, 0 <= k < fat_count img -> fat_entry img' k = fat_entry img k) as Hfat.
  { intros k Hk. apply (sh_fat_entry _ _ Hh). intros x Hx. destruct (fat_addr_ok img Hok k Hk) as (P3 & P4 & _).
    apply Hlow; lia. }
  split; [done|]. split; [done|].
  apply (represents_change img img' ch v j [i] (ch j) (Some (File _ _ _)) _ Hr Ht Hj).
  - intros a g Ha Hne. split; apply (other_apart a j f g); try done. by intros k ->%list_elem_of_singleton.
  - destruct Hs as [S1 S2 S3 S4 S5 S6 S7]. destruct Hfa' as [_ F2 F3 F4].
    replace (j + 1 - 1) with j in F2, F4 by lia.
    split; cbn [f_name f_data f_sectors]; [done| |by symmetry|by right|done| |done].
    + rewrite (sh_file_entry _ _ Hh), (name_eq_frame img); [done|]. intros x Hx.
      destruct S1 as [_ S1]. unfold name_of in *. apply Hlow; lia.
    + rewrite Hsz', Hcb, S6, Hsz. apply splice_take; rewrite ?length_chain_bytes; lia || nia.
  - rewrite <- (rp_free _ _ _ Hr). by apply (free_sectors_ext img).
Qed.

(** The first write to the file of entry [j], into the free sector [q]. *)
Section first.
Context (j : Z) (f : file) (bytes : list Z) (q : Z) (img' : mem).
Hypothesis Hl : v_files v !! j = Some f.
Hypothesis Hz : f_sectors f = 0%nat.
Hypothesis Hne : bytes <> [].
Hypothesis Hb : Forall is_u8 bytes.
Hypothesis Hroom : Z.of_nat (length bytes) <= ss.
Hypothesis Hq : 0 <= q < fat_count img.
Hypothesis Hq0 : fat_entry img q = 0.
Abbreviation this := (file_entry img j).
Abbreviation img1 := (first_write img this q 0 bytes).
Hypothesis Heq : img' ≡ st16 img1 (fat_addr img q) 0xffff.

Lemma first_facts : layout_ok img /\ 0 <= j < entries /\ file_size img this = 0 /\
  0 < Z.of_nat (length bytes) < 2147483648 /\ ss < 2147483648.
Proof using Hr Hl Hz Hne Hroom Hq.
  clear Hfuel Hb Heq Hq0.
  pose proof (rp_layout _ _ _ Hr) as Hok. pose proof (stored_size _ _ _ Hr j f Hl) as Hsz.
  destruct (stored_short _ _ _ Hr j f Hl Hz) as [_ Ed]. rewrite Ed in Hsz.
  pose proof (layout_sums img Hok) as (_&_&_&_&_&_&_&_&_&_&_&?&?). pose proof (section_order img Hok) as (?&?&?&?&?).
  assert (ss < 2147483648) by (pose proof (Z.mul_le_mono_nonneg 0 (fat_count img) 0 ss); nia).
  split_and!; [done|by eapply (rp_range _ _ _ Hr)..|done| |lia|done]. destruct bytes; [done|cbn; lia].
Qed.

Lemma first_touches : touches j [q] img img' /\ layout_ok img' /\ fat_entry img' q = 0xffff.
Proof using Hr Hl Hz Hne Hroom Hq Heq.
  clear Hfuel Hb Hq0.
  destruct first_facts as (Hok & Hj & Hsz & Hlen & _). assert (q ∈ [q]) as Hqq by (by left).
  replace j with (j + 1 - 1) in Hsz by lia.
  pose proof (first_write_alt img (j + 1) q 0 bytes Hok ltac:(lia) Hq Hsz ltac:(lia) ltac:(lia) ltac:(lia)) as Ealt.
  cbv zeta in Ealt. replace (j + 1 - 1) with j in Ealt by lia.
  assert (touches j [q] img (st_bytes img (data_addr img q) bytes)) as T1.
  { rewrite <- (Z.add_0_r (data_addr img q)). apply (touches_data img Hok); (done || lia). }
  pose proof (th_header _ _ _ _ T1) as H1. pose proof (sh_layout_ok _ _ H1 Hok) as Hok1.
  assert (touches j [q] (st_bytes img (data_addr img q) bytes) img1) as T2.
  { apply (touches_entry _ Hok1 j) with (a := this) (n := 8); rewrite ?(sh_count _ _ H1), ?(sh_file_entry _ _ H1);
      [done| |lia..]. intros x Hx. rewrite Ealt. by rewrite !ld8_st32_ne by lia. }
  pose proof (touches_trans _ _ _ _ _ T1 T2) as T12. pose proof (th_header _ _ _ _ T12) as H2.
  pose proof (sh_layout_ok _ _ H2 Hok) as Hok2.
  destruct (touches_fat img1 Hok2 j [q] q 0xffff) as [T3 Hend]; [by rewrite (sh_fat_count _ _ H2)|done|].
  rewrite (sh_fat_addr _ _ H2) in T3, Hend. pose proof (sh_layout_ok _ _ (th_header _ _ _ _ T3) Hok2) as Hok3.
  assert (touches j [q] img img') as T.
  { eapply touches_equiv; [exact Hok3|eapply touches_trans; [exact T12|exact T3]|exact Heq]. }
  split; [exact T|]. split; [exact (sh_layout_ok _ _ (th_header _ _ _ _ T) Hok)|].
  change (w16 65535) with 65535 in Hend. rewrite <- Hend.
  apply sh_fat_entry; [intros x _; apply Heq|intros x _; apply Heq].
Qed.

Lemma first_stored : stored img' j [q] (File (f_name f) bytes 1).
Proof using Hr Hl Hz Hne Hb Hroom Hq Heq.
  clear Hfuel Hq0.
  destruct first_facts as (Hok & Hj & Hsz & Hlen & _). destruct first_touches as (Ht & Hok' & Hend).
  pose proof (th_header _ _ _ _ Ht) as Hh. destruct (rp_file _ _ _ Hr j f Hl) as [S1 S2 _ _ _ _ _].
  replace j with (j + 1 - 1) in Hsz by lia. assert (0 < j + 1 <= entries) as Hid by lia.
  pose proof (first_write_low img (j + 1) q 0 bytes Hok Hid Hq Hsz ltac:(lia) ltac:(lia) ltac:(lia)) as Hlow.
  destruct (first_write_entry img (j + 1) q 0 bytes Hok Hid Hq Hsz ltac:(lia) ltac:(lia) ltac:(lia))
    as (Hfd & Hsz1 & Hdata). replace (j + 1 - 1) with j in * by lia.
  destruct (entry_apart img (j + 1) q Hok Hid Hq) as (P1 & P2 & P3). replace (j + 1 - 1) with j in * by lia.
  assert (forall x, x < fat_addr img q \/ fat_addr img q + 2 <= x -> ld8 img' x = ld8 img1 x) as Hx
    by (intros x Hx; rewrite Heq; by apply ld8_st16_ne).
  rewrite Z.add_0_l in Hsz1. assert (file_size img' this = Z.of_nat (length bytes)) as Es
    by (rewrite <- Hsz1; apply ld32_frame; intros; apply Hx; lia).
  pose proof (section_order img Hok) as (?&?&?&?&?). destruct (file_entry_ok img Hok j Hj).
  split; rewrite ?(sh_file_entry _ _ Hh), ?(sh_sector_size _ _ Hh), ?Es; cbn [f_name f_data f_sectors length hd]; try done.
  - rewrite (name_eq_frame img); [done|]. intros x Hxx. unfold name_of in *.
    rewrite Hx by lia. apply Hlow; lia.
  - rewrite <- Hfd. apply ld32_frame. intros; apply Hx; lia.
  - right. cbn. by rewrite (sh_fat_count _ _ Hh).
  - lia.
  - unfold chain_bytes. cbn. rewrite app_nil_r. unfold sector. rewrite (sh_data_addr _ _ Hh), (sh_sector_size _ _ Hh).
    pose proof (bytes_at_slice img' (data_addr img q) (Z.to_nat ss) 0 (length bytes) ltac:(lia)) as Hsl.
    rewrite drop_0, Z.add_0_r in Hsl. rewrite Nat2Z.id, <- Hsl.
    rewrite (bytes_at_ext img' img1 _ (data_addr img q)), Hdata by (intros k Hk; apply Hx; lia).
    by rewrite map_w8.
Qed.
End first.

(** To an empty file: the first free sector is taken, if there is one. *)
Lemma write_empty name bytes j f : is_name name -> vol_find entries v name = Some (j, f) ->
  f_sectors f = 0%nat -> bytes <> [] -> Forall is_u8 bytes -> Z.of_nat (length bytes) <= ss ->
  match v_free v with
  | O => tagfs_write fuel img (path_of name) bytes (Z.of_nat (length bytes)) 0 = Ok (0, img)
  | S free => exists img' q,
      tagfs_write fuel img (path_of name) bytes (Z.of_nat (length bytes)) 0 =
        Ok (Z.of_nat (length bytes), img') /\ same_header img img' /\ takes_first img img' /\
      represents img' (<[j := [q]]> ch)
        (Volume (<[j := File (f_name f) bytes 1]> (v_files v)) free)
  end.
Proof.
  intros Hn E Hz Hne Hb Hroom. pose proof (rp_layout _ _ _ Hr) as Hok.
  pose proof (vol_find_Some _ _ _ _ _ E) as (_ & Hl & _ & Hj). pose proof (rp_file _ _ _ Hr j f Hl) as Hs.
  destruct (stored_short _ _ _ Hr j f Hl Hz) as [Ec Ed]. pose proof (so_first _ _ _ _ Hs) as Hfd. rewrite Ec in Hfd.
  pose proof (stored_size _ _ _ Hr j f Hl) as Hsz. rewrite Ed in Hsz.
  assert (get_file_id_from_name img name = j + 1) as Hid by (by rewrite (id_agree _ _ _ Hr), E).
  pose proof (rp_free _ _ _ Hr) as Hfree. destruct (v_free v) as [|free] eqn:Ev.
  - apply find_free_fat_none in Hfree. unfold tagfs_write, path_of. cbn [tl]. rewrite Hid.
    destruct (Z.eqb_spec (j + 1) 0); [lia|]. replace (j + 1 - 1) with j by lia. by rewrite Hfd, Hfree.
  - destruct (find_up (Z.to_nat (fat_count img)) 0 (fun i => fat_entry img i =? 0)) as [q|] eqn:Eq.
    2:{ apply count_up_find in Eq. unfold free_sectors in Hfree. lia. }
    pose proof Eq as (Hq & Hq0%Z.eqb_eq & _)%find_up_Some.
    destruct (first_facts j f bytes q Hl Hz Hne Hroom) as (_ & _ & _ & Hlen & Hmax); [lia|].
    destruct (tagfs_write_new img Hok (path_of name) (j + 1) q fuel bytes 0) as (img' & Hw & Heq);
      [split; replace (j + 1 - 1) with j by lia; [split; [done|lia]|done..]|unfold find_free_fat; by rewrite Eq|lia..|].
    replace (j + 1 - 1) with j in Heq by lia.
    destruct (first_touches j f bytes q img' Hl Hz Hne Hroom ltac:(lia) Heq) as (Ht & Hok' & Hend).
    exists img', q. rewrite s32_id in Hw by lia. split; [done|]. split; [by eapply th_header|].
    split; [eapply takes_first_touched; [exact Ht|]; intros k ->%list_elem_of_singleton _;
      unfold find_free_fat; by rewrite Eq|].
    apply (represents_change img img' ch v j [q] [q] (Some (File (f_name f) bytes 1))); [done..| | |].
    + intros a g Ha _. assert (ch a ## [q]); [|done]. intros k Hk ->%list_elem_of_singleton.
      by apply (stored_used _ _ _ _ _ (rp_file _ _ _ Hr a g Ha) Hk).
    + apply (first_stored j f bytes q img'); (done || lia).
    + pose proof (free_sectors_take img img' q) as Hx. rewrite Hfree in Hx.
      enough (S free = S (free_sectors img')) by lia. apply Hx; [by eapply th_header|lia| |done|lia].
      intros k Hk Hkq. apply (th_fat _ _ _ _ Ht); [done|by intros ->%list_elem_of_singleton].
Qed.

(** To a file with sectors: in place, or refused behind the last one. *)
Lemma write_in_place name bytes o j f : is_name name -> vol_find entries v name = Some (j, f) ->
  f_sectors f <> 0%nat -> 0 <= o <= Z.of_nat (length (f_data f)) -> Forall is_u8 bytes ->
  o mod ss + Z.of_nat (length bytes) <= ss ->
  if o / ss <? Z.of_nat (f_sectors f) then exists img',
    tagfs_write fuel img (path_of name) bytes (Z.of_nat (length bytes)) o = Ok (Z.of_nat (length bytes), img') /\
    same_header img img' /\ (forall k, 0 <= k < fat_count img -> fat_entry img' k = fat_entry img k) /\
    represents img' (<[j := ch j]> ch)
      (Volume (<[j := File (f_name f) (splice o bytes (f_data f)) (f_sectors f)]> (v_files v)) (v_free v))
  else tagfs_write fuel img (path_of name) bytes (Z.of_nat (length bytes)) o = Ok (- EBADFD, img).
Proof.
  intros Hn E Hz Ho Hb Hroom. pose proof (rp_layout _ _ _ Hr) as Hok.
  pose proof (vol_find_Some _ _ _ _ _ E) as (_ & Hl & Hnm & Hj). pose proof (rp_file _ _ _ Hr j f Hl) as Hs.
  pose proof (so_sectors _ _ _ _ Hs) as Hse. pose proof (stored_size _ _ _ Hr j f Hl) as Hsz.
  destruct (stored_file_at _ _ _ Hr name j f Hn E) as [Hfa _]; [intros Ec; by rewrite Ec in Hse|].
  destruct (lay_sector Hok) as [Hss _]. pose proof (Z.div_pos o ss ltac:(lia) ltac:(lia)) as Hq.
  pose proof (chain_fuel j f Hl) as Hf. rewrite Hse. destruct (Z.ltb_spec (o / ss) (Z.of_nat (length (ch j)))) as [Hlt|Hge].
  - destruct (lookup_lt_is_Some_2 (ch j) (Z.to_nat (o / ss))) as [i Hi]; [lia|].
    eexists. split; [|rewrite <- Hse; by eapply store_sector].
    rewrite (tagfs_write_fits img Hok (path_of name) (j + 1) (ch j) fuel bytes o i); try done;
      replace (j + 1 - 1) with j by lia; [done|lia|]. unfold path_of. cbn [tl].
    rewrite <- Hnm. apply (so_name _ _ _ _ Hs).
  - rewrite (tagfs_write_steps img Hok (path_of name) (j + 1) (ch j)) by (done || lia). cbv zeta.
    replace (j + 1 - 1) with j by lia.
    assert (write_pos img (file_entry img j) o = o) as ->
      by (unfold write_pos; destruct (Z.ltb_spec o (file_size img (file_entry img j))); lia).
    by rewrite (lookup_ge_None_2 (ch j)) by lia.
Qed.

Lemma simulated_write name bytes o : allowed entries ss (Write name bytes o) v ->
  simulated fuel img v (Write name bytes o).
Proof.
  intros (Hn & Hne & Hb & Ho & Hf). destruct (lay_sector (rp_layout _ _ _ Hr)) as [Hss _]. unfold simulated. cbn [serve vol_serve]. unfold vol_write.
  destruct (vol_find entries v name) as [[j f]|] eqn:E.
  - destruct Hf as [Hle Hroom]. destruct (f_sectors f) as [|n] eqn:Ez.
    + pose proof (vol_find_Some _ _ _ _ _ E) as (_ & Hl & _). destruct (stored_short _ _ _ Hr j f Hl Ez) as [_ Ed].
      rewrite Ed in *. cbn in Hle. assert (o = 0) as -> by lia. rewrite Z.mod_0_l in Hroom by lia.
      pose proof (write_empty name bytes j f Hn E Ez Hne Hb ltac:(lia)) as Hw.
      destruct (v_free v) as [|free]; [rewrite Hw; by exists img, ch|].
      destruct Hw as (img' & q & -> & Hh & Htf & Hrep). exists img', (<[j := [q]]> ch).
      unfold splice. cbn. by rewrite drop_nil, app_nil_r.
    + pose proof (write_in_place name bytes o j f Hn E ltac:(lia) ltac:(lia) Hb Hroom) as Hw. rewrite Ez in Hw.
      cbv zeta. destruct (o / ss <? Z.of_nat (S n)); [|rewrite Hw; by exists img, ch].
      destruct Hw as (img' & -> & Hh & Hfat & Hrep). exists img', (<[j := ch j]> ch).
      split; [done|]. split; [done|]. split; [by apply takes_first_keep|done].
  - unfold tagfs_write, path_of. cbn [tl]. rewrite (id_agree _ _ _ Hr), E by done. by exists img, ch.
Qed.

Lemma simulation r : allowed entries ss r v -> simulated fuel img v r.
Proof.
  intros Ha. destruct r; [by apply simulated_mknod|by apply simulated_write|by apply simulated_unlink
    |by apply simulated_read|by apply simulated_getattr|apply simulated_getattr_root|apply simulated_readdir].
Qed.
End operations.

(** ** Sessions *)

(** The sectors from [b] on are free, and stay so while there are more free
    sectors than these. *)
Definition low (b : Z) (img : mem) : Prop := forall i, b <= i < fat_count img -> fat_entry img i = 0.

Lemma count_up_le n i test : (count_up n i test <= n)%nat.
Proof. revert i; induction n as [|n IH]; intros i; cbn [count_up]; [lia|]. specialize (IH (i + 1)). destruct (test i); lia. Qed.

Lemma low_step b img img' : 0 <= b -> low b img -> takes_first img img' -> same_header img img' ->
  fat_count img - b < Z.of_nat (free_sectors img) -> low b img'.
Proof.
  intros Hb Hl Ht Hh Hfree i Hi. rewrite (sh_fat_count _ _ Hh) in Hi.
  destruct (Z.eq_dec (fat_entry img' i) 0) as [|Hne]; [done|]. exfalso.
  pose proof (Ht i ltac:(lia) (Hl i Hi) Hne) as Hf. unfold find_free_fat in Hf.
  destruct (find_up _ _ _) as [f|] eqn:E; [subst f|lia]. apply count_up_first in E.
  fold (free_sectors img) in E. rewrite E in Hfree.
  revert Hfree. set (n := Z.to_nat (0 + _ - _)). pose proof (count_up_le n (i + 1) (fun k => fat_entry img k =? 0)).
  lia.
Qed.

(** The volumes that a session's requests find. *)
Fixpoint vol_states (entries ss : Z) (rs : list request) (v : volume) : list volume :=
  match rs with
  | [] => []
  | r :: rs => v :: vol_states entries ss rs (vol_serve entries ss r v).2
  end.

Lemma session rs : forall fuel img ch v, represents img ch v -> (Z.to_nat (fat_count img) + 1 < fuel)%nat ->
  let entries := count_file_meta_entries img in let ss := fs_sector_size img in
  all_allowed entries ss rs v ->
  exists img' ch', serve_all fuel rs img = Ok ((vol_serve_all entries ss rs v).1, img') /\
    same_header img img' /\ represents img' ch' (vol_serve_all entries ss rs v).2 /\
    forall b, 0 <= b -> low b img ->
      Forall (fun u => fat_count img - b < Z.of_nat (v_free u)) (vol_states entries ss rs v) -> low b img'.
Proof.
  induction rs as [|r rs IH]; intros fuel img ch v Hr Hf entries ss Ha; [by exists img, ch|].
  destruct Ha as [Ha Hrs]. destruct (simulation img ch v Hr fuel Hf r Ha) as (img1 & ch1 & E1 & Hh1 & Ht1 & Hr1).
  fold entries ss in E1, Hr1. cbn [serve_all vol_serve_all vol_states]. rewrite E1, bind_Ok_r.
  destruct (vol_serve entries ss r v) as [a v1]. cbn [fst snd] in *.
  destruct (IH fuel img1 ch1 v1 Hr1) as (img2 & ch2 & E2 & Hh2 & Hr2 & Hl2);
    [by rewrite (sh_fat_count _ _ Hh1)|by rewrite (sh_count _ _ Hh1), (sh_sector_size _ _ Hh1)|].
  rewrite (sh_count _ _ Hh1), (sh_sector_size _ _ Hh1) in E2, Hr2, Hl2. rewrite (sh_fat_count _ _ Hh1) in Hl2.
  fold entries ss in E2, Hr2, Hl2.
  rewrite E2, bind_Ok_r. destruct (vol_serve_all entries ss rs v1) as [l v2]. cbn [fst snd] in *.
  exists img2, ch2. split; [done|]. split; [by eapply same_header_trans|]. split; [done|].
  intros b Hb Hl [Hv Hvs]%Forall_cons. apply Hl2; [done| |done].
  apply (low_step b img); try done. by rewrite (rp_free _ _ _ Hr).
Qed.

(** A formatted image holds the empty volume. *)
Lemma count_up_all n i test : (forall j, i <= j < i + Z.of_nat n -> test j = true) -> count_up n i test = n.
Proof.
  revert i; induction n as [|n IH]; intros i H; cbn [count_up]; [done|].
  rewrite H by lia. cbn. f_equal. apply IH. intros j Hj. apply H. lia.
Qed.

Definition blank_volume (sectors : Z) : volume := Volume ∅ (Z.to_nat sectors).

Lemma empty_represents img : empty_image img -> represents img (fun _ => []) (blank_volume (fat_count img)).
Proof.
  intros [Hok _ Hf _ _ Hfat]. split; cbn [v_files v_free blank_volume]; try done.
  - intros j Hj _. by apply Hf.
  - apply count_up_all. intros k Hk. rewrite Hfat by lia. done.
Qed.

(** ** Files that a session does not name *)

Section frame.
Context (entries ss : Z) (name : list Z).

Definition names (r : request) : bool :=
  match r with
  | Mknod n _ | Write n _ _ | Unlink n => bool_decide (n = name)
  | Read _ _ _ | Getattr _ _ | Getattr_root _ | Readdir => false
  end.

Lemma vol_find_same v v' : (forall j, has_name v' name j = has_name v name j) ->
  (forall j, has_name v name j = true -> v_files v' !! j = v_files v !! j) ->
  vol_find entries v' name = vol_find entries v name.
Proof.
  intros Hn Hf. unfold vol_find. rewrite (find_up_ext _ _ (has_name v' name) (has_name v name)) by auto.
  destruct (find_up _ _ _) as [j|] eqn:E; [|done]. apply find_up_Some in E as (_ & Hj & _).
  cbn. by rewrite Hf.
Qed.

(** One entry that does not have the name, before or after. *)
Lemma vol_find_alter v j fo n : has_name v name j = false ->
  match fo with Some f => f_name f <> name | None => True end ->
  vol_find entries (Volume (partial_alter (fun _ => fo) j (v_files v)) n) name = vol_find entries v name.
Proof.
  intros Hj Hfo. apply vol_find_same; intros i; destruct (decide (i = j)) as [-> |Hij].
  - rewrite Hj. unfold has_name. cbn [v_files]. rewrite lookup_partial_alter_eq.
    destruct fo; [by apply bool_decide_eq_false|done].
  - unfold has_name. cbn [v_files]. by rewrite lookup_partial_alter_ne.
  - by rewrite Hj.
  - intros _. cbn [v_files]. by rewrite lookup_partial_alter_ne.
Qed.

Lemma has_other_name v m j f : v_files v !! j = Some f -> f_name f = m -> m <> name -> has_name v name j = false.
Proof. intros Hl <- Hne. unfold has_name. rewrite Hl. by apply bool_decide_eq_false. Qed.

Lemma vol_serve_keeps r v : names r = false ->
  vol_find entries (vol_serve entries ss r v).2 name = vol_find entries v name.
Proof.
  destruct r as [m mode|m bytes o|m|m n o|m st|st|]; cbn [names vol_serve]; try intros Hne%bool_decide_eq_false.
  - unfold vol_mknod. destruct (vol_find entries v m); [done|]. destruct (negb _); [done|]. destruct (_ <=? _); [done|].
    destruct (vol_slot entries v) as [j|] eqn:E; [|done]. apply find_up_Some in E as (_ & Hj & _).
    apply bool_decide_eq_true in Hj. apply (vol_find_alter v j (Some _)); [|done]. unfold has_name. by rewrite Hj.
  - unfold vol_write. destruct (vol_find entries v m) as [[j f]|] eqn:E; [|done].
    apply vol_find_Some in E as (_ & Hl & Hm & _).
    assert (forall d s n, vol_find entries (Volume (<[j := File (f_name f) d s]> (v_files v)) n) name =
      vol_find entries v name) as Hk.
    { intros d s n. apply (vol_find_alter v j (Some _)); [by eapply has_other_name|cbn; congruence]. }
    destruct (f_sectors f), (v_free v); cbv zeta; try destruct (_ <? _); (done || apply Hk).
  - unfold vol_unlink. destruct (vol_find entries v m) as [[j f]|] eqn:E; [|done].
    apply vol_find_Some in E as (_ & Hl & Hm & _).
    apply (vol_find_alter v j None); [by eapply has_other_name|done].
  - intros _. by destruct (vol_read _ _ _ _ _).
  - intros _. by destruct (vol_getattr _ _ _ _).
  - done.
  - done.
Qed.

Lemma vol_serve_all_keeps rs : forall v, Forall (fun r => names r = false) rs ->
  vol_find entries (vol_serve_all entries ss rs v).2 name = vol_find entries v name.
Proof.
  induction rs as [|r rs IH]; intros v H; [done|]. inversion_clear H as [|? ? Hr Hrs]. cbn [vol_serve_all].
  pose proof (vol_serve_keeps r v Hr) as Hk. destruct (vol_serve entries ss r v) as [a v1]. cbn [snd] in Hk.
  rewrite <- Hk, <- (IH v1 Hrs). by destruct (vol_serve_all entries ss rs v1).
Qed.
End frame.

(** ** Names stay distinct *)

Section distinct.
Context (entries ss : Z).

Lemma distinct_alter v j fo n : distinct entries v ->
  match fo with
  | Some f => forall i, 0 <= i < entries -> has_name v (f_name f) i = true -> i = j
  | None => True end ->
  distinct entries (Volume (partial_alter (fun _ => fo) j (v_files v)) n).
Proof.
  intros Hd Hfo name.
  assert (forall i, has_name (Volume (partial_alter (fun _ => fo) j (v_files v)) n) name i =
    if decide (i = j) then match fo with Some f => bool_decide (f_name f = name) | None => false end
    else has_name v name i) as E.
  { intros i. unfold has_name. cbn [v_files]. destruct (decide (i = j)) as [-> |Hij].
    - by rewrite lookup_partial_alter_eq. 
    - by rewrite lookup_partial_alter_ne. }
  intros i k Hi Hk. rewrite !E. destruct (decide (i = j)) as [Hij|Hij], (decide (k = j)) as [Hkj|Hkj].
  - congruence.
  - destruct fo as [f|]; [|done]. intros Hn Hn'. apply bool_decide_eq_true in Hn. subst name.
    destruct (Hkj (Hfo k Hk Hn')).
  - destruct fo as [f|]; [|done]. intros Hn' Hn. apply bool_decide_eq_true in Hn. subst name.
    destruct (Hij (Hfo i Hi Hn')).
  - by apply Hd.
Qed.

Lemma vol_find_None_name v name i : vol_find entries v name = None -> 0 <= i < entries -> has_name v name i = false.
Proof.
  unfold vol_find. intros H Hi. destruct (find_up _ _ _) as [j|] eqn:E.
  - apply find_up_Some in E as (_ & Hj & _). unfold has_name in Hj. cbn in H. by destruct (v_files v !! j).
  - rewrite find_up_None in E. apply E. lia.
Qed.

(** Every request keeps them distinct: a second file of a name is refused. *)
Lemma vol_serve_distinct r v : distinct entries v -> distinct entries (vol_serve entries ss r v).2.
Proof.
  intros Hd. destruct r as [m mode|m bytes o|m|m n o|m st|st|]; cbn [vol_serve].
  - unfold vol_mknod. destruct (vol_find entries v m) eqn:Hm; [done|]. destruct (negb _); [done|].
    destruct (_ <=? _); [done|]. destruct (vol_slot entries v) as [j|] eqn:E; [|done].
    apply (distinct_alter v j (Some _)); [done|]. cbn [f_name]. intros i Hi Hn.
    by rewrite (vol_find_None_name v m i Hm Hi) in Hn.
  - unfold vol_write. destruct (vol_find entries v m) as [[j f]|] eqn:E; [|done].
    apply vol_find_Some in E as (_ & Hl & _ & Hj).
    assert (forall d s n, distinct entries (Volume (<[j := File (f_name f) d s]> (v_files v)) n)) as Hk.
    { intros d s n. apply (distinct_alter v j (Some _)); [done|]. cbn [f_name]. intros i Hi Hn.
      apply (Hd (f_name f)); [done|lia|done|]. unfold has_name. rewrite Hl. by apply bool_decide_eq_true. }
    destruct (f_sectors f), (v_free v); cbv zeta; try destruct (_ <? _); (exact Hd || apply Hk).
  - unfold vol_unlink. destruct (vol_find entries v m) as [[j f]|]; [|done]. by apply (distinct_alter v j None).
  - by destruct (vol_read _ _ _ _ _).
  - by destruct (vol_getattr _ _ _ _).
  - done.
  - done.
Qed.

Lemma vol_serve_all_distinct rs : forall v, distinct entries v -> distinct entries (vol_serve_all entries ss rs v).2.
Proof.
  induction rs as [|r rs IH]; intros v H; [done|]. cbn [vol_serve_all].
  pose proof (vol_serve_distinct r v H) as Hk. destruct (vol_serve entries ss r v) as [a v1]. cbn [snd] in Hk.
  pose proof (IH v1 Hk) as Hall. by destruct (vol_serve_all entries ss rs v1).
Qed.
End distinct.

(** [tagfs_mknod] does not keep the rule: for a name that a file has already it
    returns 0 and makes a second file of that name. *)
Theorem tagfs_mknod_duplicates img ch v name mode i j : represents img ch v ->
  let entries := count_file_meta_entries img in
  is_name name -> Z.of_nat (length name) < 24 -> S_ISREG mode = true ->
  0 <= i < entries -> has_name v name i = true -> vol_slot entries v = Some j ->
  exists img' ch' v', tagfs_mknod img (path_of name) mode = (0, img') /\ represents img' ch' v' /\
    i <> j /\ has_name v' name i = true /\ has_name v' name j = true.
Proof.
  intros Hr entries Hn Hlen Hreg Hi Hname Hslot.
  destruct (mknod_adds img ch v Hr name mode j Hn Hreg Hlen Hslot) as (img' & ch' & E & _ & _ & Hr').
  assert (i <> j) as Hij.
  { intros ->. apply find_up_Some in Hslot as (_ & Hfree & _). apply bool_decide_eq_true in Hfree.
    unfold has_name in Hname. by rewrite Hfree in Hname. }
  do 3 eexists. split; [exact E|]. split; [exact Hr'|]. split; [done|]. unfold has_name in *. cbn [v_files].
  rewrite lookup_insert_eq, lookup_insert_ne by done. split; [done|]. by apply bool_decide_eq_true.
Qed.

(** ** Properties *)

(** C1: the FUSE driver implements the store of files: on an image that holds a
    volume, every session of allowed requests ([allowed]: files are made under
    new names, writes and deletes stay within one sector) returns, with exactly
    the replies of the store, and the image then holds the volume the store has
    become: no bytes are lost, no sector belongs to two files, none is leaked, and
    file names that are distinct stay distinct. *)
Theorem fuse_session_refines_volume rs fuel img ch v : represents img ch v ->
  (Z.to_nat (fat_count img) + 1 < fuel)%nat ->
  let entries := count_file_meta_entries img in let ss := fs_sector_size img in
  all_allowed entries ss rs v ->
  exists img' ch', serve_all fuel rs img = Ok ((vol_serve_all entries ss rs v).1, img') /\
    represents img' ch' (vol_serve_all entries ss rs v).2 /\
    (distinct entries v -> distinct entries (vol_serve_all entries ss rs v).2).
Proof.
  intros Hr Hf entries ss Ha. destruct (session rs fuel img ch v Hr Hf Ha) as (img' & ch' & H & _ & Hr' & _).
  exists img', ch'. split_and!; [done..|]. by apply vol_serve_all_distinct.
Qed.

(** From the formatting on: an image formatted by the builder holds the empty
    volume with every sector free, and each session of allowed requests on it is
    answered as the store does. *)
Theorem formatted_session h o rs fuel : options_fit o -> is_Some (h_image h) ->
  h_mmap_ok h = true -> h_msync_ok h = true ->
  let sectors := o_fat_sector_count o * o_sector_size o / 2 in
  let entries := o_file_meta_sector_count o * o_sector_size o / 32 in
  (Z.to_nat sectors + 1 < fuel)%nat ->
  all_allowed entries (o_sector_size o) rs (blank_volume sectors) ->
  exists img img' ch', format_image h o = Done img /\
    serve_all fuel rs img = Ok ((vol_serve_all entries (o_sector_size o) rs (blank_volume sectors)).1, img') /\
    represents img' ch' (vol_serve_all entries (o_sector_size o) rs (blank_volume sectors)).2.
Proof.
  intros Ho [img0 Himg] Hmm Hms sectors entries Hf Ha.
  destruct (format_image_ok h img0 o Himg Hmm Hms Ho) as (img & Hfo & Hem & Ess & Een & _ & Efc & _).
  pose proof (empty_represents img Hem) as Hr. rewrite Efc in Hr. fold sectors in Efc, Hr. fold entries in Een.
  destruct (session rs fuel img _ _ Hr) as (img' & ch' & H & _ & Hr' & _); [by rewrite Efc|by rewrite Een, Ess|].
  rewrite Een, Ess in H, Hr'. by exists img, img', ch'.
Qed.

(** C17: a session of allowed requests (so no file of several sectors is deleted,
    and no write leaves its sector) that does not make, write or delete [name]
    leaves that file's content as it was, whatever else it does to the other
    files: a read of any range of it
    afterwards returns the bytes it had before. *)
Theorem session_keeps_other_file rs fuel img ch v name j f n o : represents img ch v ->
  (Z.to_nat (fat_count img) + 1 < fuel)%nat ->
  let entries := count_file_meta_entries img in
  all_allowed entries (fs_sector_size img) rs v -> Forall (fun r => names name r = false) rs ->
  is_name name -> vol_find entries v name = Some (j, f) ->
  0 <= o -> 0 < n -> o + n <= Z.of_nat (length (f_data f)) -> n < 2147483648 ->
  exists replies img', serve_all fuel rs img = Ok (replies, img') /\
    tagfs_read fuel img' (path_of name) n o = Ok (n, take (Z.to_nat n) (drop (Z.to_nat o) (f_data f))).
Proof.
  intros Hr Hf entries Ha Hrs Hn Hfind Ho Hn0 Hlen Hmax.
  destruct (session rs fuel img ch v Hr Hf Ha) as (img' & ch' & H & Hh & Hr' & _).
  eexists _, img'. split; [exact H|].
  pose proof (vol_serve_all_keeps entries (fs_sector_size img) name rs v Hrs) as Hk. rewrite Hfind in Hk.
  destruct (simulated_read img' ch' _ Hr' fuel) with (name := name) (n := n) (o := o) as (img2 & ch2 & E & _).
  - by rewrite (sh_fat_count _ _ Hh).
  - cbn [allowed]. rewrite (sh_count _ _ Hh). fold entries. rewrite Hk. split; [done|lia].
  - revert E. cbn [serve vol_serve]. unfold vol_read. rewrite (sh_count _ _ Hh). fold entries. rewrite Hk.
    rewrite (proj2 (Z.leb_gt _ _)) by lia. destruct (tagfs_read _ _ _ _ _) as [[c l]|]; [|done].
    cbn. by intros [= -> ->].
Qed.

(** ** Runs *)

(** Two files are made and written, one grows, the other is deleted. *)
Definition sample_session : list request :=
  [Mknod [97] 33188; Write [97] [1; 2; 3] 0; Mknod [98] 33188; Write [98] [9; 9] 0; Mknod [99] 33188;
   Write [97] [7; 8] 2; Read [97] 4 0; Unlink [98]; Read [98] 1 0; Write [97] [5] 4; Read [97] 3 2;
   Mknod [100] 33188; Read [97] 1 5; Readdir; Getattr_root (Stat 0 0 0 0 0 0)].
Definition sample_replies : list reply :=
  [Code 0; Code 3; Code 0; Code 2; Code (-28); Code 2; Data 4 [1; 2; 7; 8]; Code 0; Data (-2) []; Code 1;
   Data 3 [7; 8; 5]; Code 0; Data 0 [];
   Entries 0 [([97], Stat 1 (mode_of S_IFREG) 0 5 0 0); ([100], Stat 2 (mode_of S_IFREG) 0 0 0 0)];
   Attr 0 (Stat 0 (mode_of S_IFDIR) 0 5 512 1)].

Lemma blank_is_empty : empty_image blank_image.
Proof.
  apply zeros_empty.
  - split; (split || idtac); apply (bool_decide_unpack _); vm_compute; exact I.
  - intros x Hx. unfold blank_image. rewrite !ld8_st32_ne by lia. done.
Qed.

Lemma sample_allowed :
  all_allowed (count_file_meta_entries blank_image) (fs_sector_size blank_image) sample_session
    (blank_volume (fat_count blank_image)).
Proof. apply (bool_decide_unpack _). vm_compute. exact I. Qed.

Lemma fuse_session_refines_volume_witness : exists img' ch',
  serve_all 34 sample_session blank_image = Ok (sample_replies, img') /\
  represents img' ch' (Volume {[0 := File [97] [1; 2; 7; 8; 5] 1; 1 := File [100] [] 0]} 31).
Proof.
  destruct (fuse_session_refines_volume sample_session 34 blank_image _ _ (empty_represents _ blank_is_empty))
    as (img' & ch' & H & Hr & _); [vm_compute; lia|exact sample_allowed|].
  exists img', ch'. split; [rewrite H; vm_compute; reflexivity|].
  refine (eq_ind _ (represents img' ch') Hr _ _). vm_compute. reflexivity.
Defined.

(** The driver lists two files of one name. *)
Example two_files_of_one_name : exists img',
  serve_all 34 [Mknod [97] 33188; Mknod [97] 33188; Readdir] blank_image =
    Ok ([Code 0; Code 0; Entries 0 [([97], Stat 1 (mode_of S_IFREG) 0 0 0 0);
                                    ([97], Stat 2 (mode_of S_IFREG) 0 0 0 0)]], img').
Proof. eexists. vm_compute. reflexivity. Qed.

Lemma formatted_session_witness : exists img img',
  format_image (Host (Some ∅) true true) default_options = Done img /\
  serve_all 600 [Mknod [97] 33188; Write [97] [1; 2; 3] 0; Read [97] 2 1] img =
    Ok ([Code 0; Code 3; Data 2 [2; 3]], img').
Proof.
  destruct (formatted_session (Host (Some ∅) true true) default_options
    [Mknod [97] 33188; Write [97] [1; 2; 3] 0; Read [97] 2 1] 600) as (img & img' & ch' & Hf & H & _).
  - split; cbn; (split_and! || idtac); (done || lia).
  - by eexists.
  - done.
  - done.
  - vm_compute. lia.
  - apply (bool_decide_unpack _). vm_compute. exact I.
  - exists img, img'. split; [exact Hf|]. rewrite H. vm_compute. reflexivity.
Defined.

Lemma session_keeps_other_file_witness : exists img replies img',
  serve_all 34 [Mknod [97] 33188; Write [97] [1; 2; 3; 4] 0] blank_image = Ok ([Code 0; Code 4], img) /\
  serve_all 34 [Mknod [98] 33188; Write [98] [9; 9] 0; Unlink [98]] img = Ok (replies, img') /\
  tagfs_read 34 img' (path_of [97]) 2 1 = Ok (2, [2; 3]).
Proof.
  set (rs := [Mknod [97] 33188; Write [97] [1; 2; 3; 4] 0]).
  assert (all_allowed (count_file_meta_entries blank_image) (fs_sector_size blank_image) rs
    (blank_volume (fat_count blank_image))) as Ha by (apply (bool_decide_unpack _); vm_compute; exact I).
  destruct (session rs 34 blank_image _ _ (empty_represents _ blank_is_empty) ltac:(vm_compute; lia) Ha)
    as (img & ch & E & Hh & Hr & _).
  assert ((vol_serve_all (count_file_meta_entries blank_image) (fs_sector_size blank_image) rs
    (blank_volume (fat_count blank_image))).2 = Volume {[0 := File [97] [1; 2; 3; 4] 1]} 31) as Ev
    by (vm_compute; reflexivity).
  rewrite Ev in Hr. exists img.
  destruct (session_keeps_other_file [Mknod [98] 33188; Write [98] [9; 9] 0; Unlink [98]] 34 img ch _ [97] 0
    (File [97] [1; 2; 3; 4] 1) 2 1 Hr) as (replies & img' & E' & H).
  - rewrite (sh_fat_count _ _ Hh). vm_compute. lia.
  - rewrite (sh_count _ _ Hh), (sh_sector_size _ _ Hh). apply (bool_decide_unpack _). vm_compute. exact I.
  - repeat constructor.
  - by repeat constructor.
  - rewrite (sh_count _ _ Hh). vm_compute. reflexivity.
  - lia.
  - lia.
  - cbn. lia.
  - lia.
  - exists replies, img'. split; [rewrite E; vm_compute; reflexivity|]. split; [exact E'|exact H].
Defined.
