(* ===== verification/FuseLong.v ===== *)
(** * Writes that leave their sector

    The loop of [tagfs_write] for the bytes that do not fit the sector the write
    begins in (src/tagfs/FUSE_driver/src/tagfs.c): it looks for a free sector for
    each piece and never marks the one it finds, so every piece goes to the same
    free sector, and nothing links it to the file. *)
From S2P Require Import Prelude Memory TagLayout FuseDriver TagFrame FuseNew Tfsfmt FuseVolume.

#[local] Open Scope Z_scope.

(** The length of the last piece when [n - b] bytes are left. *)
Definition last_piece (ss n b : Z) : Z := (n - b - 1) mod ss + 1.

Lemma last_piece_next ss n b : 0 < ss -> last_piece ss n (b + ss) = last_piece ss n b.
Proof.
  intros Hss. unfold last_piece. f_equal. replace (n - (b + ss) - 1) with (n - b - 1 + (-1) * ss) by lia.
  by rewrite Z.mod_add by lia.
Qed.

Lemma last_piece_small ss n b : 0 < n - b <= ss -> last_piece ss n b = n - b.
Proof. intros H. unfold last_piece. rewrite Z.mod_small by lia. lia. Qed.

(** The pieces after the first all go to sector [q]. *)
Lemma pieces_pile_up buf q : Forall is_u8 buf -> forall (left : nat) b img fuel, layout_ok img ->
  find_free_fat img = q -> 0 <= q < fat_count img ->
  let n := Z.of_nat (length buf) in 0 <= b < n -> n - b <= Z.of_nat left -> (left < fuel)%nat ->
  let d := last_piece (fs_sector_size img) n b in
  exists img', loop fuel (write_body buf n) (b, img) = Ok (true, n, img') /\
    only_in (data_addr img q) (fs_sector_size img) img img' /\
    bytes_at img' (data_addr img q) (Z.to_nat d) = drop (Z.to_nat (n - d)) buf.
Proof.
  intros Hb. induction left as [|left IH]; intros b img [|fuel] Hok Hq Hqr n Hbn Hleft Hf d; try lia.
  destruct (lay_sector Hok) as [Hss _]. cbn [loop]. unfold write_body at 1. rewrite Hq.
  destruct (Z.ltb_spec b n); [|lia]. destruct (Z.eqb_spec q (-1)); [lia|].
  set (c := if n <=? b + fs_sector_size img then n - b else fs_sector_size img).
  assert (0 < c <= fs_sector_size img /\ b + c <= n) as (Hc & Hbc)
    by (unfold c; destruct (Z.leb_spec n (b + fs_sector_size img)); lia).
  set (piece := take (Z.to_nat c) (drop (Z.to_nat b) buf)).
  assert (Z.of_nat (length piece) = c) as Hpl by (unfold piece; rewrite length_take, length_drop; lia).
  pose proof (img_write_sector img Hok q 0 piece Hqr ltac:(lia) ltac:(lia)) as Hw. rewrite Z.add_0_r in Hw.
  rewrite Hw, bind_Ok_r. set (img1 := st_bytes img (data_addr img q) piece).
  pose proof (only_in_st_bytes img (data_addr img q) piece) as Hin. fold img1 in Hin. rewrite Hpl in Hin.
  destruct (data_start img Hok q Hqr) as (H64 & _ & Hdat).
  assert (same_header img img1) as Hh by (apply (only_in_header _ _ _ _ Hin); lia).
  assert (only_in (data_addr img q) (fs_sector_size img) img img1) as Hin1 by (intros x Hx; apply Hin; lia).
  unfold c in *. destruct (Z.leb_spec n (b + fs_sector_size img)) as [Hle|Hgt].
  - assert (d = n - b) as -> by (by apply last_piece_small; lia). replace (b + (n - b)) with n by lia.
    destruct fuel as [|fuel]; [lia|]. cbn [loop]. unfold write_body at 1. rewrite Z.ltb_irrefl.
    exists img1. split_and!; [done|done|]. replace (n - (n - b)) with b by lia.
    assert (piece = drop (Z.to_nat b) buf) as Ep by (unfold piece; rewrite take_ge; [done|rewrite length_drop; lia]).
    rewrite <- Ep. replace (Z.to_nat (n - b)) with (length piece) by lia. apply bytes_at_st_bytes.
    rewrite Ep. by apply Forall_drop.
  - destruct (IH (b + fs_sector_size img) img1 fuel) as (img' & H' & Hin' & Hbytes);
      rewrite ?(sh_fat_count _ _ Hh), ?(sh_sector_size _ _ Hh), ?(sh_data_addr _ _ Hh), ?last_piece_next in * by lia;
      [by apply (sh_layout_ok _ _ Hh)| |done|lia|lia|lia|].
    + rewrite (sh_find_free_fat _ _ Hh); [done|]. intros i Hi. apply (sh_fat_entry _ _ Hh). intros x Hx. apply Hin.
      destruct (fat_addr_ok img Hok i Hi) as (_ & Hfa & _). lia.
    + exists img'. split_and!; [exact H'| |exact Hbytes]. intros x Hx. by rewrite Hin', Hin1.
Qed.

Section long.
Context (img : mem) (ch : Z -> list Z) (v : volume) (Hr : represents img ch v).
Context (name : list Z) (j : Z) (f : file) (Hn : is_name name).
Context (E : vol_find (count_file_meta_entries img) v name = Some (j, f)).
Context (bytes : list Z) (o i q : Z) (Hi : ch j !! Z.to_nat (o / fs_sector_size img) = Some i).
Context (Ho : 0 <= o <= Z.of_nat (length (f_data f))) (Hb : Forall is_u8 bytes).
Context (Hq : find_free_fat img = q) (Hq0 : 0 <= q).
Abbreviation ss := (fs_sector_size img).
Abbreviation n := (Z.of_nat (length bytes)).
Context (Hlong : ss < o mod ss + n) (Hmax : o + n < 2147483648).
Abbreviation this := (file_entry img j).

(** What the write leaves behind. *)
Record left_behind (img' : mem) : Prop := {
  lb_header : same_header img img';
  lb_low : forall x, x < get_data img -> x < this + 4 \/ this + 8 <= x -> ld8 img' x = ld8 img x;
  lb_sector : forall k, 0 <= k < fat_count img -> k <> i -> k <> q -> sector img' k = sector img k;
  lb_size : file_size img' this = Z.max (file_size img this) (o + n);
  lb_first : sector img' i = take (Z.to_nat (o mod ss)) (sector img i) ++ take (Z.to_nat (ss - o mod ss)) bytes;
  lb_last : let d := last_piece ss n (ss - o mod ss) in
    bytes_at img' (data_addr img q) (Z.to_nat d) = drop (Z.to_nat (n - d)) bytes;
}.

Lemma places : layout_ok img /\ 0 <= j < count_file_meta_entries img /\ 0 <= i < fat_count img /\
  0 <= q < fat_count img /\ 0 <= o mod ss < ss /\ 64 <= ss < 2147483648 /\ v_files v !! j = Some f.
Proof.
  clear Hlong Hb. pose proof (rp_layout _ _ _ Hr) as Hok. destruct (lay_sector Hok) as [Hss _].
  destruct (vol_find_Some _ _ _ _ _ E) as (_ & Hl & _ & Hj).
  pose proof (rp_file _ _ _ Hr j f Hl) as Hs. pose proof (stored_range _ _ _ _ _ Hs (list_elem_of_lookup_2 _ _ _ Hi)) as Hir.
  destruct (find_free_range img q Hq Hq0) as [Hqr _].
  pose proof (layout_sums img Hok) as (?&?&?&?&_&_&_&Hd&_&_&_&?&?). assert (ss <= fat_count img * ss) by nia.
  split_and!; try (done || lia); apply Z.mod_pos_bound; lia.
Qed.

Lemma first_used : i <> q.
Proof.
  destruct places as (_ & _ & _ & _ & _ & _ & Hl). destruct (find_free_range img q Hq Hq0) as [_ Hfree].
  pose proof (stored_used _ _ _ _ _ (rp_file _ _ _ Hr j f Hl) (list_elem_of_lookup_2 _ _ _ Hi)). congruence.
Qed.

(** The sector of the position after the first store. *)
Lemma first_sector img1 : let first := take (Z.to_nat (ss - o mod ss)) bytes in
  img1 = st_bytes img (data_addr img i + o mod ss) first -> length first = Z.to_nat (ss - o mod ss) ->
  take (Z.to_nat (o mod ss)) (sector img i) ++ first = bytes_at img1 (data_addr img i) (Z.to_nat ss).
Proof.
  intros first -> Hfl. destruct places as (_ & _ & _ & _ & Hm & Hss & _).
  replace (Z.to_nat ss) with (Z.to_nat (o mod ss) + length first)%nat by lia. rewrite bytes_at_app. f_equal.
  - unfold sector. replace (Z.to_nat ss) with (Z.to_nat (o mod ss) + length first)%nat by lia.
    rewrite bytes_at_app, take_app_length' by (by rewrite length_bytes_at).
    apply bytes_at_ext. intros k Hk. rewrite ld8_st_bytes, decide_False by lia. done.
  - rewrite Z2Nat.id by lia. symmetry. apply bytes_at_st_bytes. by apply Forall_take.
Qed.

(** The three stores: into the sector of the position, into the free one, and
    the size. *)
Lemma stores_leave img1 img2 : let first := take (Z.to_nat (ss - o mod ss)) bytes in
  img1 = st_bytes img (data_addr img i + o mod ss) first -> length first = Z.to_nat (ss - o mod ss) ->
  only_in (data_addr img i + o mod ss) (ss - o mod ss) img img1 ->
  only_in (data_addr img q) ss img1 img2 ->
  (let d := last_piece ss n (ss - o mod ss) in
   bytes_at img2 (data_addr img q) (Z.to_nat d) = drop (Z.to_nat (n - d)) bytes) ->
  left_behind (grow_size img2 this (o + n)).
Proof.
  intros first E1 Hfl Hin1 Hin2 Hlast. destruct places as (Hok & Hj & Hir & Hqr & Hm & Hss & Hl).
  destruct (data_start img Hok i Hir) as (Hi64 & _ & Hdi). destruct (data_start img Hok q Hqr) as (Hq64 & _ & Hdq).
  assert (same_header img img2) as Hh by (intros x Hx; rewrite Hin2, Hin1 by lia; done).
  destruct (grow_size_keeps img2 (sh_layout_ok _ _ Hh (rp_layout _ _ _ Hr)) j (o + n) []) as (Hin3 & _ & _ & Hsize);
    [by rewrite (sh_count _ _ Hh)|cbn; lia|lia|]. rewrite (sh_file_entry _ _ Hh) in Hin3, Hsize.
  set (img3 := grow_size _ _ _) in *. destruct (file_entry_ok img Hok j Hj) as [P1 P2].
  pose proof (section_order img Hok) as (?&?&?&?&?).
  assert (same_header img2 img3) as Hh3 by (apply (only_in_header _ _ _ _ Hin3); lia).
  assert (same_header img img3) as Hh' by (by eapply same_header_trans). pose proof first_used as Hiq.
  split; [done| | | | |].
  - intros x Hx Hx'. rewrite Hin3, Hin2, Hin1 by lia. done.
  - intros k Hk Hki Hkq. destruct (data_start img Hok k Hk) as (_ & _ & Hdk).
    apply sector_frame; [done..|]. intros x Hx.
    destruct (sectors_apart img Hok i k Hir Hk), (sectors_apart img Hok q k Hqr Hk); try done;
      rewrite Hin3, Hin2, Hin1 by lia; done.
  - rewrite Hsize. f_equal. apply ld32_frame. intros x Hx. rewrite Hin2, Hin1 by lia. done.
  - pose proof (sectors_apart img Hok i q Hir Hqr Hiq). rewrite (first_sector img1 E1 Hfl).
    unfold sector. rewrite (sh_sector_size _ _ Hh'), (sh_data_addr _ _ Hh').
    apply bytes_at_ext. intros k Hk. assert (k < ss) by lia. rewrite Hin3, Hin2 by lia. done.
  - cbv zeta in *. rewrite <- Hlast. apply bytes_at_ext. intros k Hk. apply Hin3. right. lia.
Qed.

Lemma write_long fuel : (length (ch j) + 1 < fuel)%nat -> (length bytes < fuel)%nat ->
  exists img', tagfs_write fuel img (path_of name) bytes n o = Ok (n, img') /\ left_behind img'.
Proof.
  intros Hf Hf'. destruct places as (Hok & Hj & Hir & Hqr & Hm & Hss & Hl).
  destruct (stored_file_at _ _ _ Hr name j f Hn E) as [Hfa _]; [by intros Ec; rewrite Ec in Hi|].
  pose proof (stored_size _ _ _ Hr j f Hl) as Hsz.
  assert (write_pos img this o = o) as Hpos by (unfold write_pos; rewrite Hsz; destruct (Z.ltb_spec o (Z.of_nat (length (f_data f)))); lia).
  rewrite (tagfs_write_steps img Hok (path_of name) (j + 1) (ch j)) by (done || lia). cbv zeta.
  replace (j + 1 - 1) with j by lia. rewrite Hpos, Hi. unfold tagfs_write_data. set (room := ss - o mod ss).
  rewrite (w32_id room) by (unfold is_u32, room; lia). destruct (Z.leb_spec n room); [unfold room in *; lia|].
  set (first := take (Z.to_nat room) bytes).
  assert (Z.of_nat (length first) = room) as Hfl by (unfold first, room in *; rewrite length_take; lia).
  rewrite (img_write_sector img Hok i (o mod ss) first Hir) by (unfold room in *; lia). rewrite bind_Ok_r.
  set (img1 := st_bytes img (data_addr img i + o mod ss) first).
  pose proof (only_in_st_bytes img (data_addr img i + o mod ss) first) as Hin1. fold img1 in Hin1. rewrite Hfl in Hin1.
  destruct (data_start img Hok i Hir) as (Hd64 & _ & Hdi).
  assert (same_header img img1) as Hh1 by (apply (only_in_header _ _ _ _ Hin1); lia).
  destruct (pieces_pile_up bytes q Hb (length bytes) room img1 fuel) as (img2 & -> & Hin2 & Hlast);
    rewrite ?(sh_fat_count _ _ Hh1), ?(sh_sector_size _ _ Hh1), ?(sh_data_addr _ _ Hh1) in *; try (done || (unfold room in *; lia)).
  { by apply (sh_layout_ok _ _ Hh1). }
  { rewrite (sh_find_free_fat _ _ Hh1); [done|]. intros k Hk. apply (sh_fat_entry _ _ Hh1). intros x Hx. apply Hin1.
    destruct (fat_addr_ok img Hok k Hk) as (_ & ? & _). lia. }
  rewrite bind_Ok_r. cbv beta iota. rewrite s32_id by lia. eexists. split; [reflexivity|].
  apply (stores_leave img1); try done. change (length first = Z.to_nat room). lia.
Qed.

(** The FAT is as before, and a file that has grown over its last sector has
    more bytes than its sectors hold. *)
Lemma left_fat img' : left_behind img' -> forall k, 0 <= k < fat_count img -> fat_entry img' k = fat_entry img k.
Proof.
  intros Hlb k Hk. destruct places as (Hok & Hj & _). apply (sh_fat_entry _ _ (lb_header _ Hlb)). intros x Hx.
  destruct (fat_addr_ok img Hok k Hk) as (P1 & P2 & _). destruct (file_entry_ok img Hok j Hj).
  pose proof (section_order img Hok) as (?&?&?&?&?). apply (lb_low _ Hlb); lia.
Qed.

Lemma left_broken img' : left_behind img' -> Z.of_nat (length (ch j)) * ss < o + n ->
  forall ch' v', ~ represents img' ch' v'.
Proof.
  intros Hlb Hover ch' v' Hr'. destruct places as (Hok & Hj & _ & _ & _ & _ & Hl).
  pose proof (lb_header _ Hlb) as Hh. pose proof (rp_file _ _ _ Hr j f Hl) as Hs.
  destruct (file_entry_ok img Hok j Hj) as [P1 P2]. pose proof (section_order img Hok) as (?&?&?&?&?).
  assert (file_metadata_entry_is_free img' (file_entry img' j) = false) as Hused.
  { pose proof (slot_agree _ _ _ Hr j Hj) as Hx. rewrite bool_decide_eq_false_2 in Hx by (by rewrite Hl).
    rewrite <- Hx, (sh_file_entry _ _ Hh). unfold file_metadata_entry_is_free, name_of. f_equal. apply (lb_low _ Hlb); lia. }
  destruct (v_files v' !! j) as [g|] eqn:Eg;
    [|by rewrite (rp_empty _ _ _ Hr' j) in Hused by (by rewrite ?(sh_count _ _ Hh))].
  pose proof (rp_file _ _ _ Hr' j g Eg) as [_ _ Hfd Hc Hsz _ _]. rewrite (sh_file_entry _ _ Hh), (sh_sector_size _ _ Hh) in *.
  assert (first_data_sector img' this = first_data_sector img this) as Efd
    by (apply ld32_frame; intros x Hx; apply (lb_low _ Hlb); lia).
  rewrite Efd, (so_first _ _ _ _ Hs) in Hfd. destruct (so_chain _ _ _ _ Hs) as [Ec|Hcj]; [by rewrite Ec in Hi|].
  assert (chain img' (ch j)) as Hcj'
    by (apply (chain_keep img); [done..|intros k Hk; apply left_fat; [done|by eapply chain_range]]).
  enough (ch' j = ch j) as Ej by (rewrite Ej, (lb_size _ Hlb) in Hsz; lia).
  destruct (ch j) as [|a l] eqn:Ea; [done|]. destruct Hc as [Ec|Hc].
  - rewrite Ec in Hfd. cbn in Hfd. pose proof (chain_range img (a :: l) a Hcj ltac:(by left)) as Hra.
    pose proof (layout_sums img Hok) as (_&_&_&_&_&_&_&_&Hfc&_). pose proof (lay_fat Hok). lia.
  - apply (chain_unique img'); [done..|by apply (rp_layout _ _ _ Hr')|].
    destruct (ch' j) as [|a' l']; [done|]. cbn in Hfd |- *. by subst.
Qed.
End long.

(** C16: A write that leaves its sector returns the full count, but only the
    bytes up to the end of that sector reach the file: of the rest the last
    piece alone is left, in the first free sector, whose FAT entry stays free;
    the FAT is as it was and every other sector too. When the file has grown
    over its last sector, the image holds no volume any more: the entry's size
    is more than its chain holds. *)
Theorem long_write_breaks_volume fuel img ch v name j f bytes o i q : represents img ch v -> is_name name ->
  vol_find (count_file_meta_entries img) v name = Some (j, f) ->
  let ss := fs_sector_size img in let n := Z.of_nat (length bytes) in
  0 <= o <= Z.of_nat (length (f_data f)) -> ch j !! Z.to_nat (o / ss) = Some i ->
  Forall is_u8 bytes -> ss < o mod ss + n -> o + n < 2147483648 ->
  find_free_fat img = q -> 0 <= q ->
  (length (ch j) + 1 < fuel)%nat -> (length bytes < fuel)%nat ->
  exists img', tagfs_write fuel img (path_of name) bytes n o = Ok (n, img') /\
    (forall k, 0 <= k < fat_count img -> fat_entry img' k = fat_entry img k) /\ find_free_fat img' = q /\
    (forall k, 0 <= k < fat_count img -> k <> i -> k <> q -> sector img' k = sector img k) /\
    sector img' i = take (Z.to_nat (o mod ss)) (sector img i) ++ take (Z.to_nat (ss - o mod ss)) bytes /\
    (let d := last_piece ss n (ss - o mod ss) in
     bytes_at img' (data_addr img q) (Z.to_nat d) = drop (Z.to_nat (n - d)) bytes) /\
    (Z.of_nat (length (ch j)) * ss < o + n -> forall ch' v', ~ represents img' ch' v').
Proof.
  intros Hr Hn E ss n Ho Hi Hb Hlong Hmax Hq Hq0 Hf Hf'.
  destruct (write_long img ch v Hr name j f Hn E bytes o i q Hi Ho Hb Hq Hq0 Hlong Hmax fuel Hf Hf') as (img' & H & Hlb).
  assert (forall k, 0 <= k < fat_count img -> fat_entry img' k = fat_entry img k) as Hfat by (by eapply left_fat).
  pose proof Hlb as [Hh _ Hsec _ Hfirst Hlast]. exists img'.
  split_and!; [exact H|exact Hfat| |exact Hsec|exact Hfirst|exact Hlast|].
  - by rewrite (sh_find_free_fat _ _ Hh).
  - intros Hover. by eapply left_broken.
Qed.

(** A hundred bytes at position 60 of a file of 62 bytes in sectors of 64. *)
Definition to_sixty : list request := [Mknod [97] 33188; Write [97] (repeat 7 62) 0].
Definition sixty : mem := match serve_all 34 to_sixty blank_image with Ok (_, img) => img | Err _ => blank_image end.

Lemma long_write_breaks_volume_witness : exists img ch v img', represents img ch v /\
  tagfs_write 200 img (path_of [97]) (repeat 9 100) 100 60 = Ok (100, img') /\
  (forall ch' v', ~ represents img' ch' v').
Proof.
  destruct (session to_sixty 34 blank_image _ _ (empty_represents _ blank_is_empty) ltac:(vm_compute; lia)
    ltac:(apply (bool_decide_unpack _); vm_compute; exact I)) as (img & ch & E & Hh & Hr & _).
  assert ((vol_serve_all (count_file_meta_entries blank_image) (fs_sector_size blank_image) to_sixty
    (blank_volume (fat_count blank_image))).2 = Volume {[0 := File [97] (repeat 7 62) 1]} 31) as Ev
    by (vm_compute; reflexivity).
  rewrite Ev in Hr. assert (img = sixty) as -> by (unfold sixty; by rewrite E).
  pose proof (rp_file _ _ _ Hr 0 _ eq_refl) as Hs. pose proof (so_sectors _ _ _ _ Hs) as Hl. cbn in Hl.
  destruct (ch 0) as [|i [|]] eqn:Ec; try discriminate Hl.
  destruct (long_write_breaks_volume 200 sixty ch _ [97] 0 (File [97] (repeat 7 62) 1) (repeat 9 100) 60 i (find_free_fat sixty) Hr)
    as (img' & H & _ & _ & _ & _ & _ & Hb).
  - by repeat constructor.
  - vm_compute. reflexivity.
  - vm_compute. split; discriminate.
  - rewrite Ec. reflexivity.
  - apply (bool_decide_unpack _). vm_compute. exact I.
  - vm_compute. reflexivity.
  - done.
  - done.
  - vm_compute. discriminate.
  - rewrite Ec. cbn. lia.
  - vm_compute. lia.
  - exists sixty, ch. eexists _, img'. split; [exact Hr|]. split; [exact H|]. apply Hb. rewrite Ec. vm_compute. reflexivity.
Defined.
