(* ===== verification/BuilderTags.v ===== *)
(** * The tags of the image builder

    What [find_or_create_tag], [link_tag_to_file] and [write_tag] of
    src/tagfs/tfsfmt/src/tfsfmt.c do to the tag sections of an image. *)
From S2P Require Import Prelude Memory TagLayout FuseDriver TagFrame Tfsfmt.

#[local] Open Scope Z_scope.

(** Entry [i] is a tag's, and the tag has this name. *)
Definition tag_at (img : mem) (name : list Z) (i : Z) : Prop :=
  0 <= i < tag_meta_entry_count img /\ name_eq img name (tag_entry img i) = true.

(** The tag map links tag [t] to file [f]. *)
Definition linked (img : mem) (t f : Z) : Prop :=
  exists i, 0 <= i < tag_file_entry_count img /\ tf_tag_id img i = t /\ tf_file_id img i = f.

(** ** find_or_create_tag *)

(** What storing the name in the first free entry [i] gives, when there was no
    tag of the name. *)
Lemma created_tag img name i fuel : layout_ok img -> tag_meta_entry_count img <= 65535 ->
  (Z.to_nat (tag_meta_entry_count img) < fuel)%nat -> (length name < 28)%nat ->
  name_ok name -> 0 <= i < tag_meta_entry_count img ->
  tag_metadata_entry_is_free img (tag_entry img i) = true ->
  (forall k, 0 <= k < tag_meta_entry_count img -> name_eq img name (tag_entry img k) = false) ->
  let img' := st_bytes img (tag_entry img i) (name ++ [0]) in
  tags_only img img' /\ same_header img img' /\ tag_at img' name i /\
  (forall u k, name_ok u -> u <> [] -> (length u < 32)%nat -> tag_at img u k -> tag_at img' u k) /\
  find_or_create_tag fuel img' name = Ok (i + 1, img').
Proof.
  intros Hok Hc Hf Hlen Hn Hi Hfree Hnone img'.
  destruct (store_tag img Hok name i Hi Hlen) as (Ht & Hh & Hkeep & _). fold img' in Ht, Hh, Hkeep.
  assert (name_eq img' name (tag_entry img i) = true) as Hat by (by apply name_eq_stored).
  pose proof (sh_tag_count _ _ Hh) as Hcnt.
  split_and!; [done|done| | |].
  - split; [lia|]. by rewrite (tag_entry_eq img img' i Hh).
  - intros u k Hu Hu0 Hulen [Hk Hku]. split; [lia|]. rewrite (tag_entry_eq img img' k Hh).
    destruct (Z.eq_dec k i) as [-> |Hki]; [|by rewrite Hkeep].
    exfalso. apply name_eq_used in Hku; [|done..]. by apply Z.eqb_eq in Hfree.
  - rewrite (find_or_create_tag_cases img') by (rewrite ?Hcnt; (done || by apply (sh_layout_ok _ _ Hh))).
    rewrite Hcnt.
    assert (find_up (Z.to_nat (tag_meta_entry_count img)) 0
      (fun k => name_eq img' name (tag_entry img' k)) = Some i) as ->; [|done].
    apply find_up_Some. rewrite (tag_entry_eq img img' i Hh). split_and!; [lia|lia|done|].
    intros k Hk. rewrite (tag_entry_eq img img' k Hh), Hkeep by lia. apply Hnone. lia.
Qed.

(** C33: [find_or_create_tag] returns the id of the tag of that name, making it in
    the first free entry when there is none: every other tag keeps its entry
    and its name, only the tag sections change, and asking again gives the same
    id and no change. It returns 0, and changes nothing, only when there is no
    such tag and no free entry. *)
Theorem find_or_create_tag_spec img fuel name : layout_ok img ->
  tag_meta_entry_count img <= 65535 -> (Z.to_nat (tag_meta_entry_count img) < fuel)%nat ->
  (length name < 28)%nat -> name_ok name ->
  exists id img', find_or_create_tag fuel img name = Ok (id, img') /\
    tags_only img img' /\ same_header img img' /\
    (forall u k, name_ok u -> u <> [] -> (length u < 32)%nat -> tag_at img u k -> tag_at img' u k) /\
    (0 < id -> tag_at img' name (id - 1)) /\
    find_or_create_tag fuel img' name = Ok (id, img') /\
    (id <= 0 <-> forall k, 0 <= k < tag_meta_entry_count img ->
       name_eq img name (tag_entry img k) = false /\
       tag_metadata_entry_is_free img (tag_entry img k) = false).
Proof.
  intros Hok Hc Hf Hlen Hn. pose proof (find_or_create_tag_cases img Hok Hc fuel name Hf) as E.
  cbv beta zeta in E. pose proof (tag_counts img Hok) as (Hpos & _).
  destruct (find_up _ _ (fun i => name_eq _ _ _)) as [i|] eqn:E1.
  { exists (i + 1), img. apply find_up_Some in E1 as (Hi & Hni & _).
    rewrite Z.add_simpl_r. split_and!; try done; [intros _; split; [lia|done]|].
    split; [lia|]. intros Hall. destruct (Hall i ltac:(lia)). congruence. }
  pose proof (proj1 (find_up_None _ _ _) E1) as Hnone.
  destruct (find_up _ _ (fun i => tag_metadata_entry_is_free _ _)) as [i|] eqn:E2.
  - apply find_up_Some in E2 as (Hi & Hfree & _).
    destruct (created_tag img name i fuel) as (H1 & H2 & H3 & H4 & H5); try done; [lia|
      intros k Hk; apply Hnone; lia|].
    exists (i + 1), (st_bytes img (tag_entry img i) (name ++ [0])). rewrite Z.add_simpl_r.
    split_and!; try done. split; [lia|]. intros Hall. destruct (Hall i ltac:(lia)). congruence.
  - exists 0, img. rewrite find_up_None in E2. split_and!; try done. split; [|lia].
    intros _ k Hk. split; [apply Hnone; lia|apply E2; lia].
Qed.

Lemma find_or_create_tag_spec_witness :
  exists id img', find_or_create_tag 10 small_image [116; 97] = Ok (id, img') /\
    id = 1 /\ tag_at img' [116; 97] 0.
Proof.
  destruct (find_or_create_tag_spec small_image 10 [116; 97] small_image_layout)
    as (id & img' & H & _ & _ & _ & Hat & _); [small..|].
  exists id, img'. split; [exact H|].
  assert (match find_or_create_tag 10 small_image [116; 97] with
    Ok (j, _) => j | Err _ => 0 end = 1) as E by (vm_compute; reflexivity).
  rewrite H in E. subst id.
  split; [reflexivity|]. apply Hat. lia.
Defined.

(** With 65536 tag entries or more [find_or_create_tag] never returns unless
    the tag is among the first 65536: its 16-bit index wraps round. *)
Theorem find_or_create_tag_wraps img fuel name : 65535 < tag_meta_entry_count img ->
  (forall i, 0 <= i < 65536 -> name_eq img name (tag_entry img i) = false) ->
  find_or_create_tag fuel img name = Err OutOfFuel.
Proof. intros Hc Hn. unfold find_or_create_tag. by rewrite (search16_wraps fuel _ _ Hc Hn). Qed.

(** ** link_tag_to_file *)

(** Storing the link in the free entry [i]. *)
Lemma created_link img t f i : layout_ok img -> 0 < t < 65536 -> is_u16 f ->
  0 <= i < tag_file_entry_count img -> tf_tag_id img i = 0 ->
  let img' := st16 (st16 img (tag_file_entry img i) t) (tag_file_entry img i + 2) f in
  tags_only img img' /\ same_header img img' /\ linked img' t f /\
  forall t' f', 0 < t' -> (t', f') <> (t, f) -> linked img' t' f' <-> linked img t' f'.
Proof.
  intros Hok Ht Hf Hi Hfree img'.
  destruct (store_link img Hok i t f Hi) as (H1 & H2 & Ht' & Hf' & Hkeep). fold img' in H1, H2, Ht', Hf', Hkeep.
  rewrite w16_id in Ht', Hf' by (unfold is_u16 in *; lia).
  pose proof (sh_tag_file_count _ _ H2) as Hcnt.
  split_and!; [done|done|exists i; split_and!; (done || lia)|].
  intros t' f' Hpos Hne. split; intros (k & Hk & Et & Ef); rewrite ?Hcnt in *;
    (destruct (Z.eq_dec k i) as [-> |Hki]; [congruence || lia|]);
    destruct (Hkeep k Hki) as [Ea Eb]; exists k; rewrite ?Hcnt; (split; [lia|]); rewrite Ea, Eb in *; done.
Qed.

(** C34: [link_tag_to_file] is true exactly when the link is there afterwards; no
    other link is added or lost, only the tag sections change, and a link that
    is already there changes nothing. It is false, and changes nothing, only
    when every entry of the map is used. *)
Theorem link_tag_to_file_spec img t f : layout_ok img -> 0 < t < 65536 -> is_u16 f ->
  exists b img', link_tag_to_file img t f = (b, img') /\
    tags_only img img' /\ same_header img img' /\
    (b = true <-> linked img' t f) /\
    (forall t' f', 0 < t' -> (t', f') <> (t, f) -> linked img' t' f' <-> linked img t' f') /\
    (linked img t f -> img' = img) /\
    (b = false -> img' = img /\ forall i, 0 <= i < tag_file_entry_count img -> tf_tag_id img i <> 0).
Proof.
  intros Hok Ht Hf. unfold link_tag_to_file. pose proof (tag_counts img Hok) as (_ & Hpos & _).
  destruct (find_up _ _ (fun i => (_ =? t) && _)) as [i|] eqn:E1.
  { apply find_up_Some in E1 as (Hi & [Et%Z.eqb_eq Ef%Z.eqb_eq]%andb_prop & _).
    exists true, img. split_and!; try done. split; [|done]. intros _. exists i. split; [lia|done]. }
  assert (~ linked img t f) as Hno.
  { rewrite find_up_None in E1. intros (i & Hi & Et & Ef). specialize (E1 i ltac:(lia)).
    rewrite Et, Ef, !Z.eqb_refl in E1. done. }
  clear E1. destruct (find_up _ _ _) as [i|] eqn:E2.
  - apply find_up_Some in E2 as (Hi & Hfree%Z.eqb_eq & _).
    destruct (created_link img t f i) as (H1 & H2 & H3 & H4); [done|done|done|lia|done|].
    do 2 eexists. split_and!; try done.
  - exists false, img. split_and!; try done. intros _. split; [done|]. intros i Hi.
    rewrite find_up_None in E2. by apply Z.eqb_neq, E2; lia.
Qed.

Lemma link_tag_to_file_spec_witness :
  exists img', link_tag_to_file small_image 3 5 = (true, img') /\ linked img' 3 5.
Proof.
  destruct (link_tag_to_file_spec small_image 3 5 small_image_layout)
    as (b & img' & H & _ & _ & Hl & _); [lia|unfold is_u16; lia|].
  assert ((link_tag_to_file small_image 3 5).1 = true) as E by (vm_compute; reflexivity).
  rewrite H in E. cbn in E. subst b.
  exists img'. split; [exact H|]. by apply Hl.
Defined.

(** ** write_tag *)

(** The scan passes the free entries. *)
Lemma skip_scan img n a fuel :
  (forall k, 0 <= k < Z.of_nat n -> in_image img (a + 32 * k) 1 = true /\
     tag_metadata_entry_is_free img (a + 32 * k) = true) ->
  loop (n + fuel) (skip_body_tag img) a = loop fuel (skip_body_tag img) (a + 32 * Z.of_nat n).
Proof.
  revert a; induction n as [|n IH]; intros a H; [by rewrite Z.mul_0_r, Z.add_0_r|].
  destruct (H 0 ltac:(lia)) as [H1 H2]. rewrite Z.mul_0_r, Z.add_0_r in H1, H2.
  cbn [Nat.add loop]. unfold skip_body_tag at 1. rewrite H1. cbn [guard_bounds]. rewrite bind_Ok_r, H2.
  rewrite IH; [f_equal; lia|]. intros k Hk. replace (a + 32 + 32 * k) with (a + 32 * (k + 1)) by lia.
  apply H. lia.
Qed.

Lemma in_image_tag img i n : layout_ok img -> 0 <= i < tag_meta_entry_count img -> 0 <= n <= 32 ->
  in_image img (tag_entry img i) n = true.
Proof.
  intros Hok Hi Hn. destruct (tag_entry_place img Hok i Hi).
  pose proof (section_order img Hok) as (?&?&?&?&?). pose proof (fat_count_nonneg img Hok).
  pose proof (layout_sums img Hok) as (?&?&?&?&_&_&_&_&_&_&_&Hd&_).
  assert (0 <= fat_count img * fs_sector_size img) by (destruct (lay_sector Hok); nia).
  unfold in_image. apply andb_true_intro. split; apply Z.leb_le; lia.
Qed.

(** [write-tag] does not add a tag: it goes to the first used entry and puts
    the new name over the tag that is there, so that tag is gone. *)
Theorem write_tag_overwrites fuel h img name old i : h_image h = Some img ->
  h_mmap_ok h = true -> h_msync_ok h = true -> layout_ok img -> (length name < 28)%nat ->
  name_ok name -> name_ok old -> old <> [] -> old <> name -> tag_at img old i ->
  (forall k, 0 <= k < i -> tag_metadata_entry_is_free img (tag_entry img k) = true) ->
  (Z.to_nat i < fuel)%nat ->
  exists img', write_tag fuel h (Some name) = Ok (Done img') /\ tag_at img' name i /\ ~ tag_at img' old i /\
    tag_meta_entry_count img' = tag_meta_entry_count img.
Proof.
  intros Himg Hmm Hms Hok Hlen Hn Hold Hold0 Hne [Hi Hat] Hfree Hf.
  unfold write_tag. rewrite Himg, Hmm. cbn [negb].
  replace fuel with (Z.to_nat i + S (fuel - S (Z.to_nat i)))%nat by lia.
  rewrite skip_scan; [|intros k Hk; split; [apply (in_image_tag img k 1 Hok); lia|apply (Hfree k); lia]].
  rewrite Z2Nat.id by lia. change (get_tag_metadata img + 32 * i) with (tag_entry img i).
  cbn [loop]. unfold skip_body_tag at 1. rewrite (in_image_tag img i 1) by (done || lia).
  pose proof (name_eq_used img _ old Hold Hold0 Hat) as Hused.
  unfold tag_metadata_entry_is_free at 1. destruct (Z.eqb_spec (ld8 img (tag_entry img i)) 0); [done|].
  cbn [guard_bounds]. rewrite !bind_Ok_r. cbn [non_null]. rewrite bind_Ok_r. destruct (Z.leb_spec 28 (Z.of_nat (length name))); [lia|].
  rewrite (in_image_tag img i _) by (done || lia). cbn [guard_bounds]. rewrite bind_Ok_r, Hms. cbn [negb].
  destruct (store_tag img Hok name i Hi Hlen) as (_ & Hh & _).
  eexists. split; [reflexivity|]. set (img' := st_bytes _ _ _) in *.
  assert (name_eq img' name (tag_entry img' i) = true) as Hnew.
  { rewrite (tag_entry_eq img img' i Hh). by apply name_eq_stored. }
  pose proof (sh_tag_count _ _ Hh). split_and!; [split; [lia|done]| |done].
  intros [_ Ho]. apply Hne. by eapply name_eq_inj.
Qed.

(** On a freshly formatted image, which has no used entry, [write-tag] reads on
    past the tag section to the end of the mapping and beyond it. *)
Theorem write_tag_runs_off fuel h img name : h_image h = Some img -> h_mmap_ok h = true ->
  empty_image img -> (Z.to_nat (img_size img) < fuel)%nat ->
  write_tag fuel h (Some name) = Err OutOfBounds.
Proof.
  intros Himg Hmm He Hf. unfold write_tag. rewrite Himg, Hmm. cbn [negb].
  pose proof (em_layout _ He) as Hok. destruct (lay_sector Hok) as [Hss Hss32].
  pose proof (layout_sums img Hok) as (?&?&?&?&Htm&_&_&Hd0&_&_&Hsz&Hd&Hmax).
  pose proof (fat_count_nonneg img Hok).
  assert (0 <= fat_count img * fs_sector_size img) by nia.
  apply Z.mod_divide in Hss32 as [q Hq]; [|lia].
  assert (img_size img = get_tag_metadata img +
    32 * ((fs_sector_count img - 1 - fs_file_meta_sector_count img) * q)) as E
    by (rewrite Hsz, Htm, Hq; ring).
  set (n := (fs_sector_count img - 1 - fs_file_meta_sector_count img) * q) in E.
  replace fuel with (Z.to_nat n + S (fuel - S (Z.to_nat n)))%nat by lia.
  rewrite skip_scan.
  - rewrite Z2Nat.id by lia. rewrite <- E. cbn [loop]. unfold skip_body_tag at 1, in_image.
    destruct (Z.leb_spec (img_size img + 1) (img_size img)); [lia|]. rewrite andb_false_r. done.
  - intros k Hk. split; [unfold in_image; apply andb_true_intro; split; apply Z.leb_le; lia|].
    apply Z.eqb_eq, (em_zero _ He). lia.
Qed.

(** The small image with the tag "a". *)
Definition tagged_image : mem := st_bytes small_image (tag_entry small_image 0) [97; 0].

Lemma tagged_image_layout : layout_ok tagged_image.
Proof.
  apply (sh_layout_ok small_image); [|exact small_image_layout].
  apply (store_tag small_image small_image_layout [97] 0); [small|cbn; lia].
Qed.

Lemma write_tag_overwrites_witness :
  exists img', write_tag 10 (Host (Some tagged_image) true true) (Some [98]) = Ok (Done img') /\
    tag_at img' [98] 0 /\ ~ tag_at img' [97] 0.
Proof.
  destruct (write_tag_overwrites 10 (Host (Some tagged_image) true true) tagged_image [98] [97] 0)
    as (img' & H & Hnew & Hold & _).
  - reflexivity.
  - reflexivity.
  - reflexivity.
  - exact tagged_image_layout.
  - cbn. lia.
  - by repeat constructor.
  - by repeat constructor.
  - discriminate.
  - discriminate.
  - split; [small|]. vm_compute. reflexivity.
  - intros k Hk. exfalso. lia.
  - cbn. lia.
  - exists img'. split; [exact H|]. by split.
Defined.

Lemma write_tag_runs_off_witness :
  exists img, format_image (Host (Some ∅) true true) small_options = Done img /\
    write_tag (Z.to_nat 10000) (Host (Some img) true true) (Some [97]) = Err OutOfBounds.
Proof.
  assert (options_fit small_options) as Ho by (split; cbn; (split_and! || idtac); (done || lia)).
  destruct (format_image_ok (Host (Some ∅) true true) ∅ small_options eq_refl eq_refl eq_refl Ho)
    as (img & Hf & He & _ & _ & _ & _ & Hsz).
  exists img. split; [exact Hf|]. apply (write_tag_runs_off _ _ img); [reflexivity|reflexivity|exact He|].
  rewrite Hsz. cbn [o_sector_count o_sector_size small_options]. lia.
Defined.
