(* ===== verification/Flags.v ===== *)
(** * Command line options (src/tagfs/tfsfmt/src/flags.c)

    The tables of flags and positional arguments, the parser with its required
    checks, and the help text. A pointer to a variable of the caller is the
    variable's name, and the variables are maps from names to values. *)
From S2P Require Import Prelude.

#[local] Open Scope Z_scope.

(** ** Data *)

(** [Flag_Type] with the union: where the value goes. *)
Inductive Flag_Type : Type :=
  | FLAG_CSTR (value : string)
  | FLAG_CSTR_ARRAY (value index : string) (max_len : Z)
  | FLAG_INT (value : string)
  | FLAG_BOOL (value : string).

Record Flag : Type := FlagInfo {
  f_type : Flag_Type;
  f_option : list Z;
  f_description : list Z;
  f_provided : bool;
  f_required : bool;
}.

(** The caller's variables, and [errno]. *)
Record vars : Type := Vars {
  v_cstr : gmap string cstr;
  v_array : gmap (string * Z) cstr;
  v_int : gmap string Z;
  v_bool : gmap string bool;
}.
Definition no_vars : vars := Vars ∅ ∅ ∅ ∅.
Definition get_cstr (v : vars) (x : string) : cstr := default None (v_cstr v !! x).
Definition get_int (v : vars) (x : string) : Z := default 0 (v_int v !! x).
Definition set_cstr (x : string) (a : cstr) (v : vars) : vars :=
  Vars (<[x := a]> (v_cstr v)) (v_array v) (v_int v) (v_bool v).
Definition set_int (x : string) (n : Z) (v : vars) : vars :=
  Vars (v_cstr v) (v_array v) (<[x := n]> (v_int v)) (v_bool v).
Definition set_bool (x : string) (b : bool) (v : vars) : vars :=
  Vars (v_cstr v) (v_array v) (v_int v) (<[x := b]> (v_bool v)).
Definition set_elem (x : string) (i : Z) (a : cstr) (v : vars) : vars :=
  Vars (v_cstr v) (<[(x, i) := a]> (v_array v)) (v_int v) (v_bool v).

(** What is printed, as data. *)
Inductive message : Type :=
  | TooManyOfThis (option : list Z) (max_len : Z)
  | IntegerOutOfRange (option arg : list Z)
  | NotAnInteger (option arg : list Z)
  | TooManyPositionals (expected : Z)
  | UnknownFlag (arg : list Z)
  | ArgumentRequired (option : list Z)
  | OptionRequired (option : list Z).

(** [flags] up to [flag_index], [positionals] up to [positional_index], the
    variables, whether [errno] is [ERANGE], and the messages so far. *)
Record flags_state : Type := FlagsState {
  flags : list Flag;
  positionals : list Flag;
  variables : vars;
  errno_erange : bool;
  messages : list message;
}.
Definition flags_start (v : vars) : flags_state := FlagsState [] [] v false [].

Definition with_vars (f : vars -> vars) (st : flags_state) : flags_state :=
  FlagsState (flags st) (positionals st) (f (variables st)) (errno_erange st) (messages st).
Definition say (m : message) (st : flags_state) : flags_state :=
  FlagsState (flags st) (positionals st) (variables st) (errno_erange st) (messages st ++ [m]).

(** ** Declaring options *)

Definition FLAG_COUNT : Z := 128.
Definition POSITIONAL_COUNT : Z := 128.

Definition add_flag (f : Flag) (st : flags_state) : res flags_state :=
  _ ← assert "flag_index < FLAG_COUNT" (Z.of_nat (length (flags st)) <? FLAG_COUNT);
  Ok (FlagsState (flags st ++ [f]) (positionals st) (variables st) (errno_erange st) (messages st)).

Definition flags_add_cstr_flag (value : string) (option description : list Z) (required : bool)
    (st : flags_state) : res flags_state :=
  add_flag (FlagInfo (FLAG_CSTR value) option description false required) st.
Definition flags_add_cstr_array_flag (value parsed : string) (max_len : Z)
    (option description : list Z) (required : bool) (st : flags_state) : res flags_state :=
  add_flag (FlagInfo (FLAG_CSTR_ARRAY value parsed max_len) option description false required) st.
Definition flags_add_int_flag (value : string) (option description : list Z) (required : bool)
    (st : flags_state) : res flags_state :=
  add_flag (FlagInfo (FLAG_INT value) option description false required) st.
Definition flags_add_bool_flag (value : string) (option description : list Z) (required : bool)
    (st : flags_state) : res flags_state :=
  add_flag (FlagInfo (FLAG_BOOL value) option description false required) st.
Definition flags_add_cstr_positional (value : string) (name description : list Z)
    (st : flags_state) : res flags_state :=
  _ ← assert "positional_index < POSITIONAL_COUNT"
        (Z.of_nat (length (positionals st)) <? POSITIONAL_COUNT);
  Ok (FlagsState (flags st) (positionals st ++ [FlagInfo (FLAG_CSTR value) name description false true])
    (variables st) (errno_erange st) (messages st)).

(** ** [strtol(s, &end, 10)] of the C library

    White space, a sign, digits; without a digit nothing is consumed. The
    result is the value, what is left, and whether [errno] became [ERANGE]. *)
Definition LONG_MAX : Z := 9223372036854775807.
Definition LONG_MIN : Z := -9223372036854775808.
Definition isspace (c : Z) : bool := (c =? 32) || ((9 <=? c) && (c <=? 13)).
Definition isdigit (c : Z) : bool := (48 <=? c) && (c <=? 57).

Fixpoint skip_space (s : list Z) : list Z :=
  match s with
  | c :: s' => if isspace c then skip_space s' else s
  | [] => []
  end.
Fixpoint read_digits (acc : Z) (s : list Z) : Z * list Z :=
  match s with
  | c :: s' => if isdigit c then read_digits (10 * acc + (c - 48)) s' else (acc, s)
  | [] => (acc, [])
  end.
Definition read_sign (s : list Z) : bool * list Z :=
  match s with
  | c :: s' => if c =? 45 then (true, s') else if c =? 43 then (false, s') else (false, s)
  | [] => (false, [])
  end.
Definition strtol (s : list Z) : Z * list Z * bool :=
  let '(negative, digits) := read_sign (skip_space s) in
  match digits with
  | c :: _ =>
      if isdigit c then
        let '(n, rest) := read_digits 0 digits in
        let n := if negative then - n else n in
        if LONG_MAX <? n then (LONG_MAX, rest, true)
        else if n <? LONG_MIN then (LONG_MIN, rest, true) else (n, rest, false)
      else (0, s, false)
  | [] => (0, s, false)
  end.

(** ** Parsing *)

Definition shift_args (argc : Z) (argv : list (list Z)) : cstr * Z * list (list Z) :=
  match argv with
  | [] => (None, argc - 1, [])
  | arg :: argv => (Some arg, argc - 1, argv)
  end.

(** An entry of one of the two tables. *)
Inductive place : Type := InFlags (j : nat) | InPositionals (i : nat).

Definition mark_provided (f : Flag) : Flag :=
  FlagInfo (f_type f) (f_option f) (f_description f) true (f_required f).
Definition set_provided (p : place) (st : flags_state) : flags_state :=
  match p with
  | InFlags j => FlagsState (alter mark_provided j (flags st)) (positionals st) (variables st)
      (errno_erange st) (messages st)
  | InPositionals i => FlagsState (flags st) (alter mark_provided i (positionals st)) (variables st)
      (errno_erange st) (messages st)
  end.

Definition flags_parse_flag (p : place) (flag : Flag) (arg : cstr) (st : flags_state)
  : res (bool * flags_state) :=
  let st := set_provided p st in
  match f_type flag with
  | FLAG_CSTR value => Ok (true, with_vars (set_cstr value arg) st)
  | FLAG_CSTR_ARRAY value index max_len =>
      let i := get_int (variables st) index in
      if max_len <=? i then Ok (false, say (TooManyOfThis (f_option flag) max_len) st)
      else Ok (true, with_vars (set_int index (i + 1)) (with_vars (set_elem value i arg) st))
  | FLAG_INT value =>
      arg ← non_null arg;
      let '(n, arg_end, erange) := strtol arg in
      let st := FlagsState (flags st) (positionals st) (variables st) (errno_erange st || erange)
        (messages st) in
      if errno_erange st then Ok (false, say (IntegerOutOfRange (f_option flag) arg) st) else
      match arg_end with
      | _ :: _ => Ok (false, say (NotAnInteger (f_option flag) arg) st)
      | [] => Ok (true, with_vars (set_int value (s32 n)) st)
      end
  | FLAG_BOOL value => Ok (true, with_vars (set_bool value true) st)
  end.

(** The body of [while (argc > 0)]: [argc], [argv], [positional_i] and the
    state; it stops with [false], or with [true] at the end of the arguments. *)
Definition parse_body (st : Z * list (list Z) * nat * flags_state)
  : res (step (Z * list (list Z) * nat * flags_state) (bool * flags_state)) :=
  let '(argc, argv, positional_i, st) := st in
  if 0 <? argc then
    let '(arg, argc, argv) := shift_args argc argv in
    arg ← non_null arg;
    if negb (bool_decide (head arg = Some 45)) then
      match positionals st !! positional_i with
      | None => Ok (Stop (false, say (TooManyPositionals (Z.of_nat (length (positionals st)))) st))
      | Some flag =>
          '(ok, st) ← flags_parse_flag (InPositionals positional_i) flag (Some arg) st;
          Ok (if (ok : bool) then Next (argc, argv, S positional_i, st) else Stop (false, st))
      end
    else
      match list_find (fun flag => f_option flag = arg) (flags st) with
      | None => Ok (Stop (false, say (UnknownFlag arg) st))
      | Some (j, flag) =>
          let '(value, argc, argv) := shift_args argc argv in
          '(ok, st) ← flags_parse_flag (InFlags j) flag value st;
          Ok (if (ok : bool) then Next (argc, argv, positional_i, st) else Stop (false, st))
      end
  else Ok (Stop (true, st)).

(** Required and not given. *)
Definition lacking (f : Flag) : bool := f_required f && negb (f_provided f).

Definition flags_parse_flags (fuel : nat) (argv : list (list Z)) (st : flags_state)
  : res (bool * flags_state) :=
  '(ok, st) ← loop fuel parse_body (Z.of_nat (length argv), argv, O, st);
  if negb ok then Ok (false, st) else
  match list_find lacking (positionals st) with
  | Some (_, positional) => Ok (false, say (ArgumentRequired (f_option positional)) st)
  | None =>
      match list_find lacking (flags st) with
      | Some (_, flag) => Ok (false, say (OptionRequired (f_option flag)) st)
      | None => Ok (true, st)
      end
  end.

(** The help text. *)
Definition flags_print_help (program_name : list Z) (st : flags_state) : list Z :=
  text "Usage: " ++ program_name ++
  concat (map (fun positional => text " <" ++ f_option positional ++ text ">") (positionals st)) ++
  text " [OPTIONS]" ++ [10; 10] ++
  text "Positional arguments:" ++ [10] ++
  concat (map (fun positional => text "  " ++ f_option positional ++ text ": " ++
    f_description positional ++ [10]) (positionals st)) ++
  [10] ++ text "OPTIONS:" ++ [10] ++
  concat (map (fun flag => text "  " ++ f_option flag ++
    (if f_type flag is FLAG_CSTR_ARRAY _ _ _ then text " (array)" else []) ++
    (if f_required flag then text " (required)" else []) ++
    text ": " ++ f_description flag ++ [10]) (flags st)).

(** ** The command lines the parser is for

    A command line is a list of items: positional arguments, which do not
    begin with a dash, and options with their value. The last option may lack
    its value: the code then takes the null pointer that ends [argv]. *)
Inductive item : Type :=
  | Positional (arg : list Z)
  | Option_ (j : nat) (value : cstr).

(** The value of an argument that [strtol] reads to the end. *)
Definition int_of (s : list Z) : option Z :=
  match strtol s with (n, [], false) => Some (s32 n) | _ => None end.

(** What a value does to the variables. *)
Definition take_value (t : Flag_Type) (a : cstr) (v : vars) : option vars :=
  match t with
  | FLAG_CSTR x => Some (set_cstr x a v)
  | FLAG_CSTR_ARRAY x index max_len =>
      let i := get_int v index in
      if i <? max_len then Some (set_int index (i + 1) (set_elem x i a v)) else None
  | FLAG_INT x => s ← (a : option (list Z)); n ← int_of s; Some (set_int x n v)
  | FLAG_BOOL x => Some (set_bool x true v)
  end.

Section grammar.
Context (fs ps : list Flag).

(** The words of an item. *)
Definition words (i : item) : list (list Z) :=
  match i with
  | Positional a => [a]
  | Option_ j a => default [] (f_option <$> fs !! j) :: match a with Some a => [a] | None => [] end
  end.
Definition command_line (items : list item) : list (list Z) := concat (map words items).

(** What the items do, the first [p] positional arguments being taken. *)
Fixpoint meaning (items : list item) (p : nat) (v : vars) : option vars :=
  match items with
  | [] => Some v
  | Positional a :: items =>
      f ← ps !! p; v ← take_value (f_type f) (Some a) v; meaning items (S p) v
  | Option_ j a :: items => f ← fs !! j; v ← take_value (f_type f) a v; meaning items p v
  end.

(** Only the last option may lack its value, and a positional argument does
    not begin with a dash. *)
Fixpoint well_formed (items : list item) : Prop :=
  match items with
  | [] => True
  | Positional a :: items => head a <> Some 45 /\ well_formed items
  | Option_ _ None :: items => items = []
  | Option_ _ (Some _) :: items => well_formed items
  end.

Fixpoint positional_count (items : list item) : nat :=
  match items with
  | [] => O
  | Positional _ :: items => S (positional_count items)
  | Option_ _ _ :: items => positional_count items
  end.
Definition given (items : list item) (j : nat) : Prop := exists a, Option_ j a ∈ items.

(** Everything required is there. *)
Definition complete (items : list item) : Prop :=
  (forall i f, ps !! i = Some f -> lacking f = true -> (i < positional_count items)%nat) /\
  (forall j f, fs !! j = Some f -> lacking f = true -> given items j).

(** The options: they begin with a dash and are different. *)
Record options_ok : Prop := {
  oo_dash : Forall (fun f => head (f_option f) = Some 45) fs;
  oo_distinct : NoDup (map f_option fs);
}.
End grammar.

(** ** One option *)

Lemma parse_flag_take p flag a st v : errno_erange st = false ->
  take_value (f_type flag) a (variables st) = Some v ->
  flags_parse_flag p flag a st = Ok (true, with_vars (fun _ => v) (set_provided p st)).
Proof.
  intros He Ht. destruct st as [fs ps u e ms]. cbn in He, Ht. subst e.
  assert (errno_erange (set_provided p (FlagsState fs ps u false ms)) = false /\
    variables (set_provided p (FlagsState fs ps u false ms)) = u) as [He Hv] by (by destruct p).
  unfold flags_parse_flag. set (st := set_provided p _) in *. clearbody st. destruct st; cbn in *; subst.
  destruct (f_type flag) as [x|x index max|x|x]; cbn in *.
  - by injection Ht as <-.
  - rewrite Z.leb_antisym. destruct (_ <? _); cbn; [|done]. by injection Ht as <-.
  - destruct a as [s|]; [|done]. cbn in *. unfold int_of in Ht. destruct (strtol s) as [[n [|]] []]; try done.
    cbn in *. by injection Ht as <-.
  - by injection Ht as <-.
Qed.

Lemma parse_flag_true p flag a st st' : errno_erange st = false ->
  flags_parse_flag p flag a st = Ok (true, st') ->
  exists v, take_value (f_type flag) a (variables st) = Some v /\
    st' = with_vars (fun _ => v) (set_provided p st).
Proof.
  intros He H. enough (is_Some (take_value (f_type flag) a (variables st))) as [v Hv].
  { exists v. split; [done|]. rewrite (parse_flag_take p flag a st v He Hv) in H. congruence. }
  assert (variables (set_provided p st) = variables st) as Hv by (by destruct p).
  unfold flags_parse_flag in H. destruct (f_type flag) as [x|x index max|x|x]; cbn; [done| | |done].
  - rewrite Hv, Z.leb_antisym in H. by destruct (_ <? _).
  - destruct a as [s|]; [|done]. cbn in *. unfold int_of. destruct (strtol s) as [[n rest] e].
    cbn in H. destruct (_ || e) eqn:Ho; [done|]. apply orb_false_elim in Ho as [_ ->].
    by destruct rest.
Qed.

(** ** The loop over the arguments *)

Fixpoint options_of (items : list item) : gset nat :=
  match items with
  | [] => ∅
  | Positional _ :: items => options_of items
  | Option_ j _ :: items => {[ j ]} ∪ options_of items
  end.

Lemma given_options items j : given items j <-> j ∈ options_of items.
Proof.
  unfold given. induction items as [|[a|k a] items IH]; cbn [options_of].
  - split; [by intros [a Ha%elem_of_nil]|set_solver].
  - rewrite <- IH. split; intros [b Hb]; exists b; [|by right].
    by apply elem_of_cons in Hb as [|].
  - rewrite elem_of_union, elem_of_singleton, <- IH. split.
    + intros [b [[= -> ->]|Hb]%elem_of_cons]; [by left|right; by exists b].
    + intros [-> |[b Hb]]; [exists a; by left|exists b; by right].
Qed.

(** The tables while parsing: the options [js] and the first [p] positional
    arguments have been provided. *)
Definition mark_if (b : bool) (f : Flag) : Flag := if b then mark_provided f else f.
Record tables (fs ps : list Flag) (js : gset nat) (p : nat) (st : flags_state) : Prop := {
  tb_flags : forall j, flags st !! j = mark_if (bool_decide (j ∈ js)) <$> fs !! j;
  tb_positionals : forall i, positionals st !! i = mark_if (bool_decide (i < p)%nat) <$> ps !! i;
  tb_errno : errno_erange st = false;
}.

Lemma mark_if_type b f : f_type (mark_if b f) = f_type f. Proof. by destruct b. Qed.
Lemma mark_if_option b f : f_option (mark_if b f) = f_option f. Proof. by destruct b. Qed.
Lemma mark_if_lacking b f : lacking (mark_if b f) = negb b && lacking f.
Proof. destruct b; cbn; [apply andb_false_r|done]. Qed.
Lemma mark_if_mark b f : mark_provided (mark_if b f) = mark_if true f. Proof. by destruct b. Qed.

Section parse.
Context (fs ps : list Flag) (Hoo : options_ok fs).
Implicit Types (st : flags_state) (items : list item).

Lemma tables_flag js p st j : tables fs ps js p st ->
  tables fs ps ({[ j ]} ∪ js) p (set_provided (InFlags j) st).
Proof.
  intros [Hf Hp He]. split; [|done|done]. intros k. cbn [set_provided flags].
  destruct (decide (k = j)) as [->|Hne].
  - rewrite list_lookup_alter, decide_True, Hf by done. rewrite (bool_decide_true (j ∈ {[j]} ∪ js)) by set_solver.
    destruct (fs !! j); cbn; [|done]. by rewrite mark_if_mark.
  - rewrite list_lookup_alter_ne, Hf by done. rewrite (bool_decide_ext (k ∈ {[j]} ∪ js) (k ∈ js)); [done|set_solver].
Qed.

Lemma tables_positional js p st : tables fs ps js p st ->
  tables fs ps js (S p) (set_provided (InPositionals p) st).
Proof.
  intros [Hf Hp He]. split; [done| |done]. intros k. cbn [set_provided positionals].
  destruct (decide (k = p)) as [->|Hne].
  - rewrite list_lookup_alter, decide_True, Hp by done. rewrite (bool_decide_true (p < S p)%nat) by lia.
    destruct (ps !! p); cbn; [|done]. by rewrite mark_if_mark.
  - rewrite list_lookup_alter_ne, Hp by done. rewrite (bool_decide_ext (k < S p)%nat (k < p)%nat); [done|lia].
Qed.

Lemma tables_vars js p st f : tables fs ps js p st -> tables fs ps js p (with_vars f st).
Proof. by intros []. Qed.

(** Looking an option up finds it, whatever has been provided. *)
Lemma find_option js p st j f : tables fs ps js p st -> fs !! j = Some f ->
  list_find (fun flag => f_option flag = f_option f) (flags st) =
    Some (j, mark_if (bool_decide (j ∈ js)) f).
Proof.
  intros Ht Hj. apply list_find_Some. rewrite (tb_flags _ _ _ _ _ Ht), Hj. split_and!; [done|by rewrite mark_if_option|].
  intros k y Hk Hlt. rewrite (tb_flags _ _ _ _ _ Ht) in Hk. destruct (fs !! k) as [g|] eqn:Hg; [|done].
  injection Hk as <-. rewrite mark_if_option. intros E.
  enough (k = j) by lia. eapply (NoDup_lookup _ _ _ _ (oo_distinct _ Hoo)); rewrite list_lookup_fmap.
  - by rewrite Hg.
  - rewrite Hj. cbn. by rewrite E.
Qed.

Lemma found_option js p st arg j g : tables fs ps js p st ->
  list_find (fun flag => f_option flag = arg) (flags st) = Some (j, g) ->
  exists f, fs !! j = Some f /\ f_option f = arg /\ f_type g = f_type f.
Proof.
  intros Ht (Hj & Ho & _)%list_find_Some. rewrite (tb_flags _ _ _ _ _ Ht) in Hj.
  destruct (fs !! j) as [f|]; [|done]. injection Hj as <-. rewrite mark_if_option in Ho.
  exists f. by rewrite mark_if_type.
Qed.

(** A positional argument. *)
Lemma positional_turn js p st a argv n v f : tables fs ps js p st -> head a <> Some 45 ->
  ps !! p = Some f -> take_value (f_type f) (Some a) (variables st) = Some v ->
  let st' := with_vars (fun _ => v) (set_provided (InPositionals p) st) in
  loop (S n) parse_body (Z.of_nat (length (a :: argv)), a :: argv, p, st) =
    loop n parse_body (Z.of_nat (length argv), argv, S p, st').
Proof.
  intros Ht Ha Hp Hv. cbn [loop]. unfold parse_body at 1. cbn [shift_args length non_null].
  destruct (Z.ltb_spec 0 (Z.of_nat (S (length argv)))); [|lia]. rewrite bind_Ok_r.
  rewrite bool_decide_false by done. cbn [negb]. rewrite (tb_positionals _ _ _ _ _ Ht), Hp. cbn [fmap option_fmap option_map].
  rewrite (parse_flag_take _ _ _ _ v (tb_errno _ _ _ _ _ Ht)) by (by rewrite mark_if_type).
  rewrite bind_Ok_r. do 3 f_equal. do 3 f_equal. lia.
Qed.

(** An option, with its value or, at the end, without. *)
Lemma option_turn js p st j a argv n v f : tables fs ps js p st -> fs !! j = Some f ->
  take_value (f_type f) a (variables st) = Some v -> (a = None -> argv = []) ->
  let st' := with_vars (fun _ => v) (set_provided (InFlags j) st) in
  let rest := match a with Some a => [a] | None => [] end ++ argv in
  loop (S n) parse_body (Z.of_nat (length (f_option f :: rest)), f_option f :: rest, p, st) =
    loop n parse_body (Z.of_nat (length (rest)) - 1, argv, p, st').
Proof.
  intros Ht Hf Hv Ha st' rest. cbn [loop]. unfold parse_body at 1. cbn [shift_args length non_null].
  destruct (Z.ltb_spec 0 (Z.of_nat (S (length rest)))); [|lia]. rewrite bind_Ok_r.
  pose proof (oo_dash _ Hoo) as Hd. rewrite Forall_lookup in Hd. specialize (Hd j f Hf).
  rewrite bool_decide_true by done. cbn [negb]. rewrite (find_option js p st j f Ht Hf).
  assert (shift_args (Z.of_nat (S (length rest)) - 1) rest = (a, Z.of_nat (length rest) - 1, argv)) as ->.
  { unfold rest. destruct a as [a|]; cbn [app shift_args].
    - f_equal. f_equal. lia.
    - rewrite Ha by done. cbn. done. }
  rewrite (parse_flag_take _ _ _ _ v (tb_errno _ _ _ _ _ Ht)) by (by rewrite mark_if_type).
  by rewrite bind_Ok_r.
Qed.

(** No arguments are left. *)
Lemma parse_end argc n p st : argc <= 0 -> loop (S n) parse_body (argc, [], p, st) = Ok (true, st).
Proof. intros H. cbn [loop]. unfold parse_body. by destruct (Z.ltb_spec 0 argc); [lia|]. Qed.

(** A line of the grammar is taken as it is meant. *)
Lemma loop_accepts items : forall js p st v fuel, tables fs ps js p st -> well_formed items ->
  meaning fs ps items p (variables st) = Some v -> (length items < fuel)%nat ->
  exists st', loop fuel parse_body
      (Z.of_nat (length (command_line fs items)), command_line fs items, p, st) = Ok (true, st') /\
    variables st' = v /\ tables fs ps (options_of items ∪ js) (positional_count items + p) st'.
Proof.
  induction items as [|[a|j a] items IH]; intros js p st v [|fuel] Ht Hw Hm Hf; cbn [length] in Hf; try lia.
  - cbn in Hm. injection Hm as <-. exists st. split; [by apply parse_end|]. split; [done|].
    cbn. by rewrite union_empty_l_L.
  - destruct Hw as [Ha Hw]. cbn [meaning] in Hm. destruct (ps !! p) as [f|] eqn:Hp; [|done]. cbn in Hm.
    destruct (take_value (f_type f) (Some a) (variables st)) as [v1|] eqn:Hv; [|done]. cbn in Hm.
    change (command_line fs (Positional a :: items)) with (a :: command_line fs items).
    rewrite (positional_turn js p st a _ fuel v1 f Ht Ha Hp Hv).
    destruct (IH js (S p) (with_vars (fun _ => v1) (set_provided (InPositionals p) st)) v fuel)
      as (st' & H & Hv' & Ht'); [by apply tables_vars, tables_positional|done|done|lia|].
    exists st'. split; [done|]. split; [done|]. cbn [options_of positional_count].
    by replace (S (positional_count items) + p)%nat with (positional_count items + S p)%nat by lia.
  - cbn [meaning] in Hm. destruct (fs !! j) as [f|] eqn:Hj; [|done]. cbn in Hm.
    destruct (take_value (f_type f) a (variables st)) as [v1|] eqn:Hv; [|done]. cbn in Hm.
    assert (a = None -> command_line fs items = []) as Ha by (intros ->; cbn in Hw; by subst).
    assert (command_line fs (Option_ j a :: items) =
      f_option f :: match a with Some a => [a] | None => [] end ++ command_line fs items) as E
      by (unfold command_line; cbn; by rewrite Hj).
    rewrite E, (option_turn js p st j a _ fuel v1 f Ht Hj Hv Ha).
    pose proof (tables_vars _ _ _ (fun _ => v1) (tables_flag js p st j Ht)) as Ht1.
    set (st1 := with_vars _ _) in *. cbn [options_of positional_count].
    replace ({[j]} ∪ options_of items ∪ js) with (options_of items ∪ ({[j]} ∪ js)) by set_solver.
    destruct a as [a|].
    + cbn [app length].
      replace (Z.of_nat (S (length (command_line fs items))) - 1)
        with (Z.of_nat (length (command_line fs items))) by lia.
      by apply IH; [|done..|lia].
    + cbn in Hw. subst items. destruct fuel as [|fuel]; [cbn in Hf; lia|]. cbn in Hm. injection Hm as <-.
      exists st1. split; [by apply parse_end|]. split; [done|]. cbn. by rewrite union_empty_l_L.
Qed.

(** What is taken is a line of the grammar. *)
Lemma loop_sound : forall fuel argv js p st st', tables fs ps js p st ->
  loop fuel parse_body (Z.of_nat (length argv), argv, p, st) = Ok (true, st') ->
  exists items, argv = command_line fs items /\ well_formed items /\
    meaning fs ps items p (variables st) = Some (variables st') /\
    tables fs ps (options_of items ∪ js) (positional_count items + p) st'.
Proof.
  induction fuel as [|fuel IH]; intros argv js p st st' Ht H; [done|].
  destruct argv as [|arg argv].
  { rewrite parse_end in H by done. injection H as <-. exists []. split_and!; [done..|].
    cbn. by rewrite union_empty_l_L. }
  pose proof (tb_errno _ _ _ _ _ Ht) as He.
  destruct (decide (head arg = Some 45)) as [Hd|Hd].
  - cbn [loop] in H. unfold parse_body at 1 in H. cbn [shift_args length non_null] in H.
    destruct (Z.ltb_spec 0 (Z.of_nat (S (length argv)))); [|lia]. rewrite bind_Ok_r, bool_decide_true in H by done.
    cbn [negb] in H.
    destruct (list_find _ (flags st)) as [[j g]|] eqn:Hfind; [|done].
    destruct (found_option js p st arg j g Ht Hfind) as (f & Hj & <- & Htype).
    destruct (shift_args _ argv) as [[a argc] rest] eqn:Hsh.
    assert (argv = match a with Some a => [a] | None => [] end ++ rest /\ (a = None -> rest = [])) as [-> Ha].
    { destruct argv; injection Hsh as <- _ <-; by split. }
    destruct (flags_parse_flag (InFlags j) g a st) as [[[] st1]|] eqn:Hpf; [|done..].
    apply (parse_flag_true _ _ _ _ _ He) in Hpf as (v1 & Hv & ->). rewrite Htype in Hv.
    rewrite bind_Ok_r in H. pose proof (tables_vars _ _ _ (fun _ => v1) (tables_flag js p st j Ht)) as Ht1.
    set (st1 := with_vars _ _) in *.
    assert (exists items, rest = command_line fs items /\ well_formed (Option_ j a :: items) /\
      meaning fs ps items p v1 = Some (variables st') /\
      tables fs ps (options_of items ∪ ({[j]} ∪ js)) (positional_count items + p) st')
      as (items & -> & Hw & Hm & Ht').
    { destruct a as [a|].
      - cbn in Hsh. assert (argc = Z.of_nat (length rest)) as ->.
        { injection Hsh. intros <-. cbn. lia. }
        apply (IH rest _ p st1 st' Ht1) in H as (items & -> & Hw & Hm & Ht'). by exists items.
      - rewrite Ha in * by done. assert (argc <= 0) as Hle by (injection Hsh; intros <-; cbn; lia).
        destruct fuel as [|fuel]; [done|]. rewrite parse_end in H by done. injection H as <-.
        exists []. split_and!; [done..|]. cbn. by rewrite union_empty_l_L. }
    exists (Option_ j a :: items). split; [unfold command_line; cbn; by rewrite Hj|].
    split; [done|]. cbn [meaning options_of positional_count]. rewrite Hj. cbn. rewrite Hv. split; [done|].
    by replace ({[j]} ∪ options_of items ∪ js) with (options_of items ∪ ({[j]} ∪ js)) by set_solver.
  - assert (exists f v1, ps !! p = Some f /\ take_value (f_type f) (Some arg) (variables st) = Some v1)
      as (f & v1 & Hp & Hv).
    { cbn [loop] in H. unfold parse_body at 1 in H. cbn [shift_args length non_null] in H.
      destruct (Z.ltb_spec 0 (Z.of_nat (S (length argv)))); [|lia]. rewrite bind_Ok_r, bool_decide_false in H by done.
      cbn [negb] in H. rewrite (tb_positionals _ _ _ _ _ Ht) in H. destruct (ps !! p) as [f|]; [|done].
      cbn in H. destruct (flags_parse_flag _ _ _ _) as [[[] st1]|] eqn:Hpf; [|done..].
      apply (parse_flag_true _ _ _ _ _ He) in Hpf as (v1 & Hv & _). rewrite mark_if_type in Hv. by exists f, v1. }
    rewrite (positional_turn js p st arg _ fuel v1 f Ht Hd Hp Hv) in H.
    apply (IH argv js (S p)) in H as (items & -> & Hw & Hm & Ht');
      [|by apply tables_vars, tables_positional].
    exists (Positional arg :: items). split; [done|]. split; [done|].
    cbn [meaning options_of positional_count]. rewrite Hp. cbn. rewrite Hv. split; [done|].
    by rewrite Nat.add_succ_r in Ht'.
Qed.
End parse.

Lemma length_command_line fs items : (length items <= length (command_line fs items))%nat.
Proof.
  unfold command_line. induction items as [|[a|j a] items IH]; cbn [map concat words length]; [lia|..];
    rewrite length_app; cbn [length]; lia.
Qed.

(** Nothing required is missing in one of the tables. *)
Lemma find_lacking (b : nat -> bool) (fs gs : list Flag) :
  (forall j, gs !! j = mark_if (b j) <$> fs !! j) ->
  list_find lacking gs = None <-> forall j f, fs !! j = Some f -> lacking f = true -> b j = true.
Proof.
  intros Hg. rewrite list_find_None, Forall_lookup. split; intros H j f Hj.
  - intros Hl. specialize (H j (mark_if (b j) f)). rewrite Hg, Hj in H. specialize (H eq_refl).
    rewrite mark_if_lacking, Hl, andb_true_r in H. destruct (b j); [done|]. cbn in H. tauto.
  - rewrite Hg in Hj. destruct (fs !! j) as [f0|] eqn:E; [|done]. injection Hj as <-.
    rewrite mark_if_lacking. specialize (H j f0 E). destruct (lacking f0); [rewrite (H eq_refl); cbn; tauto|].
    rewrite andb_false_r. tauto.
Qed.

Lemma find_lacking_complete fs ps items st : tables fs ps (options_of items) (positional_count items) st ->
  list_find lacking (positionals st) = None /\ list_find lacking (flags st) = None <->
  complete fs ps items.
Proof.
  intros [Hf Hp _]. rewrite (find_lacking _ _ _ Hf), (find_lacking _ _ _ Hp). unfold complete.
  split; intros [H1 H2]; (split; intros j f Hj Hl; [specialize (H1 j f Hj Hl)|specialize (H2 j f Hj Hl)]).
  - by apply bool_decide_eq_true in H1.
  - apply given_options. by apply bool_decide_eq_true in H2.
  - by apply bool_decide_eq_true.
  - apply bool_decide_eq_true. by apply given_options.
Qed.

(** The theorem below, for the proofs that use it. *)
Lemma parse_grammar fuel argv st v :
  options_ok (flags st) -> errno_erange st = false -> (length argv < fuel)%nat ->
  (exists st', flags_parse_flags fuel argv st = Ok (true, st') /\ variables st' = v) <->
  exists items, argv = command_line (flags st) items /\ well_formed items /\
    complete (flags st) (positionals st) items /\
    meaning (flags st) (positionals st) items 0 (variables st) = Some v.
Proof.
  intros Hoo He Hf. set (fs := flags st) in *. set (ps := positionals st).
  assert (tables fs ps ∅ 0 st) as Ht.
  { split; [| |done]; intros j.
    - rewrite bool_decide_false by set_solver. by destruct (flags st !! j) eqn:E; unfold fs; rewrite E.
    - rewrite bool_decide_false by lia. unfold ps. by destruct (positionals st !! j). }
  unfold flags_parse_flags. split.
  - intros (st' & H & <-). destruct (loop fuel parse_body _) as [[[] st1]|] eqn:Hl; [|done..].
    apply (loop_sound fs ps Hoo _ _ _ _ _ _ Ht) in Hl as (items & Ha & Hw & Hm & Ht1).
    rewrite union_empty_r_L, Nat.add_0_r in Ht1. cbn in H.
    destruct (list_find lacking (positionals st1)) as [[] |] eqn:H1; [done|].
    destruct (list_find lacking (flags st1)) as [[] |] eqn:H2; [done|]. injection H as <-.
    exists items. split_and!; [done..| |done]. by apply (find_lacking_complete _ _ _ st1).
  - intros (items & -> & Hw & Hc & Hm). pose proof (length_command_line fs items).
    destruct (loop_accepts fs ps Hoo items ∅ 0 st v fuel Ht Hw Hm) as (st1 & -> & Hv & Ht1); [lia|].
    rewrite union_empty_r_L, Nat.add_0_r in Ht1. cbn. exists st1.
    apply (find_lacking_complete _ _ _ st1 Ht1) in Hc as [-> ->]. by split.
Qed.

(** C27: [flags_parse_flags] accepts exactly the command lines of the grammar
    that give everything required, and the variables are then what the items
    mean, in their order: a positional argument takes the next place, an
    option is the one of that name and takes the next word as its value, or
    the null pointer when there is none. *)
Theorem flags_parse_flags_grammar fuel argv st v :
  options_ok (flags st) -> errno_erange st = false -> (length argv < fuel)%nat ->
  (exists st', flags_parse_flags fuel argv st = Ok (true, st') /\ variables st' = v) <->
  exists items, argv = command_line (flags st) items /\ well_formed items /\
    complete (flags st) (positionals st) items /\
    meaning (flags st) (positionals st) items 0 (variables st) = Some v.
Proof. apply parse_grammar. Qed.

(** ** Numbers *)

(** The value of digits, and the characters of a signed numeral. *)
Definition digits_value (ds : list Z) : Z := foldl (fun n d => 10 * n + d) 0 ds.
Definition signed_text (negative : bool) (ds : list Z) : list Z :=
  (if negative then [45] else []) ++ map (fun d => 48 + d) ds.

Lemma read_digits_value ds : Forall (fun d => 0 <= d < 10) ds ->
  forall n, read_digits n (map (fun d => 48 + d) ds) = (foldl (fun n d => 10 * n + d) n ds, []).
Proof.
  induction 1 as [|d ds Hd _ IH]; intros n; [done|]. cbn [map read_digits foldl].
  assert (isdigit (48 + d) = true) as -> by (unfold isdigit; zbool).
  rewrite IH. by replace (48 + d - 48) with d by lia.
Qed.

(** A numeral is read as its number when a [long] can hold it, and is then
    cut to 32 bits without a complaint; the numerals beyond a [long] are the
    only ones refused as out of range. *)
Theorem int_of_numeral (negative : bool) (ds : list Z) : ds <> [] -> Forall (fun d => 0 <= d < 10) ds ->
  let n := if negative then - digits_value ds else digits_value ds in
  strtol (signed_text negative ds) =
    (Z.max LONG_MIN (Z.min LONG_MAX n), [], negb ((LONG_MIN <=? n) && (n <=? LONG_MAX))) /\
  int_of (signed_text negative ds) =
    if (LONG_MIN <=? n) && (n <=? LONG_MAX) then Some (s32 n) else None.
Proof.
  intros Hne Hds n. destruct ds as [|d ds]; [done|]. pose proof (Forall_inv Hds) as Hd. cbn beta in Hd.
  enough (strtol (signed_text negative (d :: ds)) =
    (Z.max LONG_MIN (Z.min LONG_MAX n), [], negb ((LONG_MIN <=? n) && (n <=? LONG_MAX)))) as E.
  { split; [done|]. unfold int_of. rewrite E. destruct (_ && _) eqn:Hr; cbn [negb]; [|done].
    apply andb_prop in Hr as [?%Z.leb_le ?%Z.leb_le]. do 2 f_equal. lia. }
  assert (isdigit (48 + d) = true) as Hdig by (unfold isdigit; zbool).
  assert (read_sign (skip_space (signed_text negative (d :: ds))) =
    (negative, map (fun d => 48 + d) (d :: ds))) as E.
  { destruct negative; [done|]. cbn [signed_text app map skip_space].
    assert (isspace (48 + d) = false) as -> by (unfold isspace; zbool). cbn [read_sign].
    destruct (Z.eqb_spec (48 + d) 45); [lia|]. by destruct (Z.eqb_spec (48 + d) 43); [lia|]. }
  unfold strtol. rewrite E. cbn [map]. rewrite Hdig.
  change (48 + d :: map (fun d => 48 + d) ds) with (map (fun d : Z => 48 + d) (d :: ds)).
  rewrite (read_digits_value _ Hds 0). fold (digits_value (d :: ds)). fold n.
  unfold LONG_MAX, LONG_MIN. clearbody n.
  destruct (Z.leb_spec (-9223372036854775808) n), (Z.leb_spec n 9223372036854775807),
    (Z.ltb_spec 9223372036854775807 n), (Z.ltb_spec n (-9223372036854775808)); try lia;
    cbn [andb negb]; do 2 f_equal; lia.
Qed.

(** 4294968296 sectors are taken for 1000. *)
Lemma int_of_numeral_witness : int_of (text "4294968296") = Some 1000.
Proof.
  assert (text "4294968296" = signed_text false [4; 2; 9; 4; 9; 6; 8; 2; 9; 6]) as -> by reflexivity.
  destruct (int_of_numeral false [4; 2; 9; 4; 9; 6; 8; 2; 9; 6]) as [_ E];
    [discriminate|repeat constructor; lia|]. rewrite E. vm_compute. reflexivity.
Defined.

(** ** Termination *)

(** The flags are the declared ones, whatever has been provided. *)
Definition same_names (fs : list Flag) (st : flags_state) : Prop :=
  forall j g, flags st !! j = Some g ->
    exists f, fs !! j = Some f /\ f_type g = f_type f /\ f_option g = f_option f.

Lemma same_names_provided fs p st : same_names fs st -> same_names fs (set_provided p st).
Proof.
  intros H. destruct p as [j|i]; [|done]. intros k g. cbn [set_provided flags]. rewrite list_lookup_alter.
  case_decide as Hk; [subst k|apply H]. destruct (flags st !! j) as [f|] eqn:Hf; [|done].
  intros [= <-]. exact (H j f Hf).
Qed.

Lemma parse_flag_returns fs p flag a st : same_names fs st ->
  (exists b st', flags_parse_flag p flag a st = Ok (b, st') /\ same_names fs st') \/
  (flags_parse_flag p flag a st = Err OutOfBounds /\ a = None /\ exists x, f_type flag = FLAG_INT x).
Proof.
  intros H. pose proof (same_names_provided fs p st H) as H'. unfold flags_parse_flag.
  destruct (f_type flag) as [x|x index max|x|x].
  - left. by eexists _, _.
  - left. destruct (_ <=? _); by eexists _, _.
  - destruct a as [s|]; [left|right; split_and!; eauto]. cbn [non_null]. rewrite bind_Ok_r.
    destruct (strtol s) as [[n rest] e]. cbv zeta. destruct (errno_erange _); [by eexists _, _|].
    destruct rest; by eexists _, _.
  - left. by eexists _, _.
Qed.

(** The result of parsing [argv]: an answer, or the read through a null
    pointer of an [int] option that ends the line without its value. *)
Definition returns {A} (fs : list Flag) (argv : list (list Z)) (r : res A) : Prop :=
  (exists a, r = Ok a) \/
  (r = Err OutOfBounds /\ exists before j f x, argv = before ++ [f_option f] /\
    fs !! j = Some f /\ f_type f = FLAG_INT x).

Lemma loop_returns fs : forall fuel argv p st, same_names fs st -> (length argv < fuel)%nat ->
  returns fs argv (loop fuel parse_body (Z.of_nat (length argv), argv, p, st)).
Proof.
  assert (forall w ws argv (r : res (bool * flags_state)), argv = w ++ ws ->
    returns fs ws r -> returns fs argv r) as Hmore.
  { intros w ws argv r -> [H|(H & b & j & f & x & -> & Hj & Hx)]; [by left|right].
    split; [done|]. exists (w ++ b), j, f, x. by rewrite app_assoc. }
  induction fuel as [|fuel IH]; intros argv p st Hst Hf; [lia|]. destruct argv as [|arg argv].
  { left. rewrite parse_end by done. eauto. }
  cbn [length] in Hf. cbn [loop]. unfold parse_body at 1. cbn [shift_args length non_null].
  destruct (Z.ltb_spec 0 (Z.of_nat (S (length argv)))); [|lia]. rewrite bind_Ok_r.
  replace (Z.of_nat (S (length argv)) - 1) with (Z.of_nat (length argv)) by lia.
  destruct (negb _).
  - destruct (positionals st !! p) as [flag|]; [|left; eauto].
    destruct (parse_flag_returns fs (InPositionals p) flag (Some arg) st Hst)
      as [([] & st1 & -> & H1)|(_ & ? & _)]; [|left; eauto|done].
    rewrite bind_Ok_r. apply (Hmore [arg] argv); [done|]. apply IH; [done|lia].
  - destruct (list_find _ (flags st)) as [[j flag]|] eqn:Hfind; [|left; eauto].
    apply list_find_Some in Hfind as (Hj & Ho & _). destruct (Hst j flag Hj) as (f & Hfj & Ht & Hof).
    destruct argv as [|value argv]; cbn [shift_args length].
    + destruct (parse_flag_returns fs (InFlags j) flag None st Hst)
        as [(b & st1 & -> & H1)|(-> & _ & x & Hx)].
      * rewrite bind_Ok_r. left. destruct b; [|eauto]. destruct fuel; [lia|]. rewrite parse_end by done. eauto.
      * right. split; [done|]. exists [], j, f, x. rewrite <- Hof, Ho, <- Ht. by split_and!.
    + destruct (parse_flag_returns fs (InFlags j) flag (Some value) st Hst)
        as [([] & st1 & -> & H1)|(_ & ? & _)]; [|left; eauto|done].
      rewrite bind_Ok_r. apply (Hmore [arg; value] argv); [done|]. cbn [length] in Hf.
      replace (Z.of_nat (S (length argv)) - 1) with (Z.of_nat (length argv)) by lia. apply IH; [done|lia].
Qed.

(** C39: parsing ends on every command line; the only fault is that of an
    integer option that ends the line without its value, whose null pointer
    [strtol] reads. *)
Theorem flags_parse_flags_returns fuel argv st : (length argv < fuel)%nat ->
  returns (flags st) argv (flags_parse_flags fuel argv st).
Proof.
  intros Hf. unfold flags_parse_flags.
  destruct (loop_returns (flags st) fuel argv 0 st) as [[[b st1] H]|[H Hx]];
    [intros j g; by exists g|done| |].
  - rewrite H, bind_Ok_r. left. destruct b; cbn [negb]; [|eauto].
    destruct (list_find _ (positionals st1)) as [[]|]; [eauto|].
    destruct (list_find _ (flags st1)) as [[]|]; eauto.
  - right. by rewrite H.
Qed.

(** An integer option and an image. *)
Definition sample_flags : flags_state :=
  FlagsState [FlagInfo (FLAG_INT "n") (text "-n") [] false true] 
    [FlagInfo (FLAG_CSTR "image") (text "image") [] false true] no_vars false [].

Lemma flags_parse_flags_returns_witness : flags_parse_flags 3 [text "a"; text "-n"] sample_flags = Err OutOfBounds /\
  returns (flags sample_flags) [text "a"; text "-n"] (flags_parse_flags 3 [text "a"; text "-n"] sample_flags).
Proof. split; [vm_compute; reflexivity|]. apply (flags_parse_flags_returns 3). cbn. lia. Defined.

Lemma sample_flags_ok : options_ok (flags sample_flags).
Proof. split; [by repeat constructor|]. by apply (bool_decide_unpack _). Qed.

Lemma flags_parse_flags_grammar_witness : exists items,
  [text "-n"; text "12"; text "disk"] = command_line (flags sample_flags) items /\
  meaning (flags sample_flags) (positionals sample_flags) items 0 no_vars =
    Some (set_cstr "image" (Some (text "disk")) (set_int "n" 12 no_vars)).
Proof.
  destruct (proj1 (flags_parse_flags_grammar 4 [text "-n"; text "12"; text "disk"] sample_flags
    (set_cstr "image" (Some (text "disk")) (set_int "n" 12 no_vars)) sample_flags_ok eq_refl ltac:(cbn; lia)))
    as (items & Ha & _ & _ & Hm).
  - eexists. split; vm_compute; reflexivity.
  - exists items. split; [exact Ha|exact Hm].
Defined.
