(* ===== verification/TfsfmtMain.v ===== *)
(** * The image builder's command line (src/tagfs/tfsfmt/src/tfsfmt.c)

    The options of the three subcommands, [main], and the three operations of
    Tfsfmt.v run from the command line. A variable of an options structure is
    named by its field. *)
From S2P Require Import Prelude Memory TagLayout FuseDriver TagFrame Tfsfmt Flags.

#[local] Open Scope Z_scope.

(** ** The host and the end of a run *)

(** Images by their path, files by theirs, and whether [mmap] and [msync]
    succeed. Opening the null path fails. *)
Record system : Type := System {
  s_image : list Z -> option mem;
  s_file : list Z -> option (list Z);
  s_mmap_ok : bool;
  s_msync_ok : bool;
}.
Definition host_of (s : system) (image_name : cstr) : host :=
  Host (match image_name with Some n => s_image s n | None => None end) (s_mmap_ok s) (s_msync_ok s).

(** A run exits with a code, having printed messages and a text, or it has
    written an image. *)
Inductive ended : Type :=
  | Exited (code : Failure) (said : list message) (printed : list Z)
  | Wrote (image_name : cstr) (img : mem) (warnings : list warning).

Definition print_usage (program_name : list Z) : list Z :=
  text "Usage: " ++ program_name ++ text " <subcommand> [OPTIONS]" ++ [10; 10] ++
  text "Subcommands:" ++ [10] ++ text "  format: format a file system image." ++ [10].

(** The end of the three option parsers: the program's name and the subcommand
    are skipped, the rest is parsed, and a failure prints the help. *)
Definition parse_options (fuel : nat) (argv : list (list Z)) (st : flags_state)
  : res (vars + list message * list Z) :=
  let '(program_name, argc, argv) := shift_args (Z.of_nat (length argv)) argv in
  let '(subcommand, argc, argv) := shift_args argc argv in
  '(ok, st) ← flags_parse_flags fuel argv st;
  if (ok : bool) then Ok (inl (variables st)) else
  program_name ← non_null program_name;
  subcommand ← non_null subcommand;
  Ok (inr (messages st, flags_print_help (program_name ++ [32] ++ subcommand) st)).

(** ** format *)

(** The defaults. *)
Definition format_vars : vars :=
  set_cstr "image_name" None (set_int "fat_sector_count" 2 (set_int "tag_file_sector_count" 10
    (set_int "tag_meta_sector_count" 10 (set_int "file_meta_sector_count" 10
    (set_int "sector_size" 512 (set_int "sector_count" 1000 no_vars)))))).

Definition declare_format_options : res flags_state :=
  st ← flags_add_cstr_positional "image_name" (text "image_name")
         (text "name of the image to format") (flags_start format_vars);
  st ← flags_add_int_flag "sector_count" (text "-sector-count")
         (text "number of sectors in the image") false st;
  st ← flags_add_int_flag "sector_size" (text "-sector-size") (text "size of a sector") false st;
  st ← flags_add_int_flag "file_meta_sector_count" (text "-fm-sectors")
         (text "number of sectors in the file metadata section") false st;
  st ← flags_add_int_flag "tag_meta_sector_count" (text "-tm-sectors")
         (text "number of sectors in the tag metadata section") false st;
  st ← flags_add_int_flag "tag_file_sector_count" (text "-tf-sectors")
         (text "number of sectors in the tag file map") false st;
  flags_add_int_flag "fat_sector_count" (text "-fat-sectors")
    (text "number of sectors in the file allocation table (FAT)") false st.

(** The structure the variables make up. *)
Definition format_options (v : vars) : Format_Options := {|
  o_sector_count := get_int v "sector_count";
  o_sector_size := get_int v "sector_size";
  o_file_meta_sector_count := get_int v "file_meta_sector_count";
  o_tag_meta_sector_count := get_int v "tag_meta_sector_count";
  o_tag_file_sector_count := get_int v "tag_file_sector_count";
  o_fat_sector_count := get_int v "fat_sector_count";
|}.

Definition parse_format_options (fuel : nat) (argv : list (list Z))
  : res (vars + list message * list Z) :=
  st ← declare_format_options; parse_options fuel argv st.

Definition run_format (fuel : nat) (s : system) (argv : list (list Z)) : res ended :=
  parsed ← parse_format_options fuel argv;
  match parsed with
  | inr (said, help) => Ok (Exited FAIL_PARSE_ARGS said help)
  | inl v =>
      let image_name := get_cstr v "image_name" in
      match format_image (host_of s image_name) (format_options v) with
      | Exit code => Ok (Exited code [] [])
      | Done img => Ok (Wrote image_name img [])
      end
  end.

(** ** write-files *)

Definition declare_write_files_options : res flags_state :=
  st ← flags_add_cstr_positional "image_name" (text "image_name")
         (text "name of the image to format") (flags_start no_vars);
  st ← flags_add_cstr_array_flag "file_specs" "file_specs_parsed" 32 (text "-file")
         (text "source path and destination name of the file in `<source path>:<destination name>` format")
         true st;
  flags_add_cstr_array_flag "tags" "tags_parsed" 32 (text "-tag")
    (text "name of a tag to link to provided files") false st.

(** The first [n] elements of an array. *)
Definition get_elems (v : vars) (x : string) (n : Z) : list cstr :=
  map (fun i => default None (v_array v !! (x, i))) (seqZ 0 n).

Definition parse_write_files_options (fuel : nat) (argv : list (list Z))
  : res (vars + list message * list Z) :=
  st ← declare_write_files_options; parse_options fuel argv st.

Definition run_write_files (fuel : nat) (s : system) (argv : list (list Z)) : res ended :=
  parsed ← parse_write_files_options fuel argv;
  match parsed with
  | inr (said, help) => Ok (Exited FAIL_PARSE_ARGS said help)
  | inl v =>
      let image_name := get_cstr v "image_name" in
      r ← write_files fuel (host_of s image_name) (s_file s)
            (get_elems v "tags" (get_int v "tags_parsed"))
            (get_elems v "file_specs" (get_int v "file_specs_parsed"));
      match r with
      | Exit code => Ok (Exited code [] [])
      | Done (ws, img) => Ok (Wrote image_name img ws)
      end
  end.

(** ** write-tag *)

Definition declare_write_tag_options : res flags_state :=
  st ← flags_add_cstr_positional "image_name" (text "image_name")
         (text "name of the image to format") (flags_start no_vars);
  flags_add_cstr_flag "tag_name" (text "-tag") (text "name of the tag to write") true st.

Definition parse_write_tag_options (fuel : nat) (argv : list (list Z))
  : res (vars + list message * list Z) :=
  st ← declare_write_tag_options; parse_options fuel argv st.

Definition run_write_tag (fuel : nat) (s : system) (argv : list (list Z)) : res ended :=
  parsed ← parse_write_tag_options fuel argv;
  match parsed with
  | inr (said, help) => Ok (Exited FAIL_PARSE_ARGS said help)
  | inl v =>
      let image_name := get_cstr v "image_name" in
      r ← write_tag fuel (host_of s image_name) (get_cstr v "tag_name");
      match r with
      | Exit code => Ok (Exited code [] [])
      | Done img => Ok (Wrote image_name img [])
      end
  end.

(** ** main *)

Definition main (fuel : nat) (s : system) (argv : list (list Z)) : res ended :=
  match argv !! 1%nat with
  | None =>
      program_name ← non_null (head argv);
      Ok (Exited FAIL_PARSE_ARGS []
        (text "No subcommand provided." ++ [10; 10] ++ print_usage program_name))
  | Some subcommand =>
      if bool_decide (subcommand = text "format") then run_format fuel s argv
      else if bool_decide (subcommand = text "write-files") then run_write_files fuel s argv
      else if bool_decide (subcommand = text "write-tag") then run_write_tag fuel s argv
      else
        program_name ← non_null (head argv);
        Ok (Exited FAIL_PARSE_ARGS []
          (text "Unknown subcommand " ++ subcommand ++ [10; 10] ++ text "." ++ print_usage program_name))
  end.

(** ** Accepted command lines *)

Lemma parse_options_ok fuel program_name subcommand items st v :
  options_ok (flags st) -> errno_erange st = false ->
  (length (command_line (flags st) items) < fuel)%nat -> well_formed items ->
  complete (flags st) (positionals st) items ->
  meaning (flags st) (positionals st) items 0 (variables st) = Some v ->
  parse_options fuel (program_name :: subcommand :: command_line (flags st) items) st = Ok (inl v).
Proof.
  intros Hoo He Hf Hw Hc Hm.
  destruct (proj2 (parse_grammar fuel (command_line (flags st) items) st v Hoo He Hf)) as (st' & H & Hv);
    [by exists items|].
  unfold parse_options. cbn [shift_args]. rewrite H, bind_Ok_r. by rewrite Hv.
Qed.

Lemma command_line_app fs l l' : command_line fs (l ++ l') = command_line fs l ++ command_line fs l'.
Proof. unfold command_line. by rewrite map_app, concat_app. Qed.

Lemma positional_count_app l l' : positional_count (l ++ l') = (positional_count l + positional_count l')%nat.
Proof. induction l as [|[a|j a] l IH]; cbn; by rewrite ?IH. Qed.

(** Items that only set options may be done first. *)
Lemma meaning_app fs ps l l' p v v' : meaning fs ps l p v = Some v' -> positional_count l = O ->
  meaning fs ps (l ++ l') p v = meaning fs ps l' p v'.
Proof.
  revert v; induction l as [|[a|j a] l IH]; intros v Hm Hp; cbn in *; [by injection Hm as ->|done|].
  destruct (fs !! j) as [f|]; [|done]. cbn in *. destruct (take_value _ a v) as [v1|]; [|done]. by apply IH.
Qed.

(** Options with their values, as they are written. *)
Definition settings {K : Type} (name : K -> list Z) (l : list (K * list Z)) : list (list Z) :=
  concat (map (fun '(k, w) => [name k; w]) l).
Definition setting_items {K : Type} (index : K -> nat) (l : list (K * list Z)) : list item :=
  map (fun '(k, w) => Option_ (index k) (Some w)) l.

Section settings.
Context {K : Type} (name : K -> list Z) (index : K -> nat) (fs : list Flag).
Context (Hindex : forall k, f_option <$> fs !! index k = Some (name k)).

Lemma settings_line l : command_line fs (setting_items index l) = settings name l.
Proof.
  unfold command_line, settings. induction l as [|[k w] l IH]; [done|].
  cbn [setting_items map concat words]. rewrite Hindex. cbn. by f_equal; f_equal.
Qed.

Lemma settings_positional l : positional_count (setting_items index l) = O.
Proof. induction l as [|[k w] l IH]; [done|]. apply IH. Qed.

Lemma settings_well_formed l items : well_formed (setting_items index l ++ items) <-> well_formed items.
Proof. induction l as [|[k w] l IH]; [done|]. apply IH. Qed.

Lemma settings_given l k w items : (k, w) ∈ l -> given (setting_items index l ++ items) (index k).
Proof.
  intros Hin. exists (Some w). apply elem_of_app. left. apply list_elem_of_fmap. by exists (k, w).
Qed.

Lemma length_settings l : length (settings name l) = (2 * length l)%nat.
Proof. unfold settings. induction l as [|[k w] l IH]; [done|]. cbn. rewrite IH. lia. Qed.
End settings.

(** A line with the image between the settings. *)
Section image_line.
Context {K : Type} (name : K -> list Z) (index : K -> nat) (st : flags_state).
Context (Hindex : forall k, f_option <$> flags st !! index k = Some (name k)).
Context (Hoo : options_ok (flags st)) (Herr : errno_erange st = false).
Context (image : Flag) (Hps : positionals st = [image]) (Htype : f_type image = FLAG_CSTR "image_name").
Context (before after : list (K * list Z)) (image_name : list Z) (Hdash : head image_name <> Some 45).

Lemma image_line_ok fuel program_name subcommand v1 v2 :
  (length (settings name before ++ [image_name] ++ settings name after) < fuel)%nat ->
  (forall j f, flags st !! j = Some f -> lacking f = true ->
    exists k w, (k, w) ∈ before ++ after /\ index k = j) ->
  meaning (flags st) (positionals st) (setting_items index before) 0 (variables st) = Some v1 ->
  meaning (flags st) (positionals st) (setting_items index after) 1
    (set_cstr "image_name" (Some image_name) v1) = Some v2 ->
  parse_options fuel
    (program_name :: subcommand :: settings name before ++ [image_name] ++ settings name after) st =
    Ok (inl v2).
Proof.
  intros Hf Hreq Hm1 Hm2.
  set (items := setting_items index before ++ [Positional image_name] ++ setting_items index after).
  assert (settings name before ++ [image_name] ++ settings name after = command_line (flags st) items) as E.
  { unfold items. rewrite !command_line_app. rewrite !(settings_line name index (flags st) Hindex). done. }
  rewrite E in *. apply parse_options_ok; [done|done|done| | |].
  - unfold items. apply settings_well_formed. cbn. split; [done|].
    rewrite <- (app_nil_r (setting_items index after)). by apply settings_well_formed.
  - split.
    + intros i f Hi _. rewrite Hps in Hi. apply lookup_lt_Some in Hi. cbn in Hi.
      unfold items. rewrite positional_count_app, settings_positional. cbn. lia.
    + intros j f Hj Hl. destruct (Hreq j f Hj Hl) as (k & w & Hin & <-).
      unfold items. apply elem_of_app in Hin as [Hin|Hin].
      * by apply (settings_given index _ k w).
      * exists (Some w). apply elem_of_app. right. apply elem_of_app. right.
        apply list_elem_of_fmap. by exists (k, w).
  - unfold items. rewrite (meaning_app _ _ _ _ _ _ _ Hm1) by apply settings_positional.
    cbn [app meaning]. rewrite Hps at 1. cbn. by rewrite Htype.
Qed.
End image_line.

(** ** The options of format *)

Inductive format_option : Type :=
  | SectorCount | SectorSize | FileMetaSectors | TagMetaSectors | TagFileSectors | FatSectors.
Definition format_option_index (k : format_option) : nat :=
  match k with
  | SectorCount => 0 | SectorSize => 1 | FileMetaSectors => 2
  | TagMetaSectors => 3 | TagFileSectors => 4 | FatSectors => 5
  end.
Definition format_option_name (k : format_option) : list Z :=
  match k with
  | SectorCount => text "-sector-count" | SectorSize => text "-sector-size"
  | FileMetaSectors => text "-fm-sectors" | TagMetaSectors => text "-tm-sectors"
  | TagFileSectors => text "-tf-sectors" | FatSectors => text "-fat-sectors"
  end.
Definition set_option (k : format_option) (n : Z) (o : Format_Options) : Format_Options := {|
  o_sector_count := if k is SectorCount then n else o_sector_count o;
  o_sector_size := if k is SectorSize then n else o_sector_size o;
  o_file_meta_sector_count := if k is FileMetaSectors then n else o_file_meta_sector_count o;
  o_tag_meta_sector_count := if k is TagMetaSectors then n else o_tag_meta_sector_count o;
  o_tag_file_sector_count := if k is TagFileSectors then n else o_tag_file_sector_count o;
  o_fat_sector_count := if k is FatSectors then n else o_fat_sector_count o;
|}.

(** The options that settings make of others. *)
Definition apply_settings (l : list (format_option * list Z)) (o : Format_Options) : Format_Options :=
  foldl (fun o '(k, w) => set_option k (default 0 (int_of w)) o) o l.

Definition format_state : flags_state := Eval vm_compute in
  match declare_format_options with Ok st => st | Err _ => flags_start no_vars end.

Lemma declare_format : declare_format_options = Ok format_state.
Proof. reflexivity. Qed.

Lemma format_index k : f_option <$> flags format_state !! format_option_index k = Some (format_option_name k).
Proof. by destruct k. Qed.

Lemma format_state_ok : options_ok (flags format_state).
Proof. split; [by repeat constructor|]. apply (bool_decide_unpack _). vm_compute. exact I. Qed.

Lemma get_int_set_int v x y n : get_int (set_int x n v) y = if bool_decide (x = y) then n else get_int v y.
Proof.
  unfold get_int, set_int. cbn. case_bool_decide as H; [subst; by rewrite lookup_insert_eq|].
  by rewrite lookup_insert_ne.
Qed.

Lemma format_meaning l : Forall (fun '(k, w) => is_Some (int_of w)) l -> forall p v,
  exists v', meaning (flags format_state) (positionals format_state)
      (setting_items format_option_index l) p v = Some v' /\
    format_options v' = apply_settings l (format_options v) /\ v_cstr v' = v_cstr v.
Proof.
  induction 1 as [|[k w] l [n Hw] _ IH]; intros p v; [by exists v|].
  assert (exists x, f_type <$> flags format_state !! format_option_index k = Some (FLAG_INT x) /\
    format_options (set_int x n v) = set_option k n (format_options v)) as (x & Hx & Ho).
  { destruct k; eexists; (split; [reflexivity|]); unfold format_options, set_option;
      by rewrite !get_int_set_int. }
  destruct (flags format_state !! format_option_index k) as [f|] eqn:Hf; [|done]. cbn in Hx.
  destruct (IH p (set_int x n v)) as (v' & Hm & Ho' & Hc).
  exists v'. split; [|split; [|done]].
  - cbn [setting_items map meaning]. rewrite Hf. cbn. injection Hx as ->. cbn. rewrite Hw. exact Hm.
  - rewrite Ho', Ho. cbn [apply_settings foldl]. by rewrite Hw.
Qed.

(** The end of a run of [format]. *)
Definition formatted (name : list Z) (r : outcome mem) : ended :=
  match r with Exit code => Exited code [] [] | Done img => Wrote (Some name) img [] end.

Lemma format_line_ok fuel s program_name before name after :
  head name <> Some 45 -> Forall (fun '(k, w) => is_Some (int_of w)) (before ++ after) ->
  (2 * length (before ++ after) + 1 < fuel)%nat ->
  main fuel s (program_name :: text "format" ::
      settings format_option_name before ++ [name] ++ settings format_option_name after) =
    Ok (formatted name (format_image (host_of s (Some name))
      (apply_settings (before ++ after) default_options))).
Proof.
  intros Hn [Hb Ha]%Forall_app Hf. unfold main. cbn [lookup list_lookup].
  rewrite bool_decide_true by done. unfold run_format, parse_format_options.
  rewrite declare_format, bind_Ok_r.
  destruct (format_meaning before Hb 0 (variables format_state)) as (v1 & Hm1 & Ho1 & Hc1).
  destruct (format_meaning after Ha 1 (set_cstr "image_name" (Some name) v1)) as (v2 & Hm2 & Ho2 & Hc2).
  rewrite (image_line_ok format_option_name format_option_index format_state format_index
    format_state_ok eq_refl _ eq_refl eq_refl before after name Hn fuel program_name _ v1 v2);
    [|rewrite !length_app, !length_settings; rewrite length_app in Hf; cbn; lia| |done|done].
  2:{ intros j f Hj Hl. apply list_elem_of_lookup_2 in Hj. cbn in Hj. exfalso.
      repeat (apply elem_of_cons in Hj as [->|Hj]; [done|]). by apply elem_of_nil in Hj. }
  rewrite bind_Ok_r.
  assert (get_cstr v2 "image_name" = Some name) as ->.
  { unfold get_cstr. rewrite Hc2. cbn. by rewrite lookup_insert_eq. }
  assert (format_options v2 = apply_settings (before ++ after) default_options) as ->.
  { rewrite Ho2. change (format_options (set_cstr _ _ v1)) with (format_options v1).
    rewrite Ho1. unfold apply_settings. by rewrite foldl_app. }
  by destruct (format_image _ _).
Qed.

(** [tfsfmt format] with any settings around the image's name formats that
    image with the defaults changed by the settings, the last one of a kind
    winning; the settings are numerals or anything else [strtol] reads to the
    end. *)
Theorem format_command_line fuel s program_name before name after :
  head name <> Some 45 -> Forall (fun '(k, w) => is_Some (int_of w)) (before ++ after) ->
  (2 * length (before ++ after) + 1 < fuel)%nat ->
  main fuel s (program_name :: text "format" ::
      settings format_option_name before ++ [name] ++ settings format_option_name after) =
    Ok (formatted name (format_image (host_of s (Some name))
      (apply_settings (before ++ after) default_options))).
Proof. apply format_line_ok. Qed.

(** ** The options of write-files *)

Inductive write_option : Type := FileSpec | TagName.
Definition write_option_index (k : write_option) : nat :=
  match k with FileSpec => 0 | TagName => 1 end.
Definition write_option_name (k : write_option) : list Z :=
  match k with FileSpec => text "-file" | TagName => text "-tag" end.

(** The values of the settings of one kind, in their order. *)
Definition values_of (k : write_option) (l : list (write_option * list Z)) : list (list Z) :=
  omap (fun '(k', w) => match k, k' with
    | FileSpec, FileSpec | TagName, TagName => Some w | _, _ => None end) l.

Definition write_files_state : flags_state := Eval vm_compute in
  match declare_write_files_options with Ok st => st | Err _ => flags_start no_vars end.

Lemma declare_write_files : declare_write_files_options = Ok write_files_state.
Proof. reflexivity. Qed.

Lemma write_index k : f_option <$> flags write_files_state !! write_option_index k = Some (write_option_name k).
Proof. by destruct k. Qed.

Lemma write_files_state_ok : options_ok (flags write_files_state).
Proof. split; [by repeat constructor|]. apply (bool_decide_unpack _). vm_compute. exact I. Qed.

(** The two arrays hold these values. *)
Definition array_is (v : vars) (x index : string) (l : list (list Z)) : Prop :=
  get_int v index = Z.of_nat (length l) /\
  forall i : nat, (i < length l)%nat -> default None (v_array v !! (x, Z.of_nat i)) = l !! i.

Lemma array_elems v x index l : array_is v x index l -> get_elems v x (get_int v index) = map Some l.
Proof.
  intros [-> H]. unfold get_elems. apply list_eq. intros i. rewrite !list_lookup_fmap.
  destruct (decide (i < length l)%nat) as [Hi|Hi].
  - rewrite (proj2 (lookup_seqZ 0 (Z.of_nat (length l)) i (Z.of_nat i)) ltac:(lia)). cbn. rewrite H by done.
    destruct (lookup_lt_is_Some_2 l i Hi) as [a ->]. done.
  - rewrite lookup_seqZ_ge, lookup_ge_None_2 by lia. done.
Qed.

Lemma array_push v x index l w : array_is v x index l ->
  array_is (set_int index (Z.of_nat (length l) + 1) (set_elem x (Z.of_nat (length l)) (Some w) v))
    x index (l ++ [w]).
Proof.
  intros [Hi H]. split.
  - rewrite get_int_set_int, bool_decide_true by done. rewrite length_app. cbn. lia.
  - intros i Hlt. rewrite length_app in Hlt. cbn in Hlt. cbn [set_int set_elem v_array].
    destruct (decide (i = length l)) as [->|Hne].
    + rewrite lookup_insert_eq. symmetry. by apply list_lookup_middle.
    + rewrite lookup_insert_ne by (intros [= E]; lia). rewrite lookup_app_l by lia. apply H. lia.
Qed.

Lemma array_other v x y index index' n i w l : x <> y -> index <> index' -> array_is v x index l ->
  array_is (set_int index' n (set_elem y i w v)) x index l.
Proof.
  intros Hx Hi [Hn H]. split.
  - rewrite get_int_set_int, bool_decide_false by done. exact Hn.
  - intros j Hj. cbn [set_int set_elem v_array]. rewrite lookup_insert_ne by congruence. by apply H.
Qed.

Definition arrays_are (v : vars) (l : list (write_option * list Z)) : Prop :=
  array_is v "file_specs" "file_specs_parsed" (values_of FileSpec l) /\
  array_is v "tags" "tags_parsed" (values_of TagName l).

Lemma values_of_app k l l' : values_of k (l ++ l') = values_of k l ++ values_of k l'.
Proof. apply omap_app. Qed.

Lemma write_meaning l : forall p v done_,
  (forall k, Z.of_nat (length (values_of k (done_ ++ l))) <= 32) -> arrays_are v done_ ->
  exists v', meaning (flags write_files_state) (positionals write_files_state)
      (setting_items write_option_index l) p v = Some v' /\
    arrays_are v' (done_ ++ l) /\ v_cstr v' = v_cstr v.
Proof.
  induction l as [|[k w] l IH]; intros p v done_ Hlen Hv; [exists v; by rewrite app_nil_r|].
  pose proof (Hlen k) as Hk. 
  assert (done_ ++ (k, w) :: l = (done_ ++ [(k, w)]) ++ l) as E by (by rewrite <- app_assoc).
  rewrite E in Hlen |- *. rewrite values_of_app, length_app in Hk.
  destruct Hv as [Hf Ht].
  assert (exists v1, (f ← flags write_files_state !! write_option_index k; take_value (f_type f) (Some w) v) =
      Some v1 /\ arrays_are v1 (done_ ++ [(k, w)]) /\ v_cstr v1 = v_cstr v) as (v1 & Hm1 & Hv1 & Hc1).
  { destruct k; cbn in Hk |- *.
    - rewrite (proj1 Hf). destruct (Z.ltb_spec (Z.of_nat (length (values_of FileSpec done_))) 32); [|lia].
      eexists. split; [reflexivity|]. split; [|done]. unfold arrays_are. rewrite !values_of_app. cbn. rewrite app_nil_r.
      split; [by apply array_push|by apply array_other].
    - rewrite (proj1 Ht). destruct (Z.ltb_spec (Z.of_nat (length (values_of TagName done_))) 32); [|lia].
      eexists. split; [reflexivity|]. split; [|done]. unfold arrays_are. rewrite !values_of_app. cbn. rewrite app_nil_r.
      split; [by apply array_other|by apply array_push]. }
  destruct (IH p v1 (done_ ++ [(k, w)]) Hlen Hv1) as (v' & Hm & Hv' & Hc).
  exists v'. split; [|split; [done|by rewrite Hc]].
  cbn [setting_items map meaning].
  destruct (flags write_files_state !! write_option_index k) as [f|]; [|done]. cbn in Hm1 |- *. by rewrite Hm1.
Qed.

(** The end of a run of [write-files]. *)
Definition files_written (name : list Z) (r : outcome (list warning * mem)) : ended :=
  match r with Exit code => Exited code [] [] | Done (ws, img) => Wrote (Some name) img ws end.

Lemma write_files_line_ok fuel s program_name before name after :
  let l := before ++ after in
  head name <> Some 45 -> values_of FileSpec l <> [] ->
  (forall k, Z.of_nat (length (values_of k l)) <= 32) -> (2 * length l + 1 < fuel)%nat ->
  main fuel s (program_name :: text "write-files" ::
      settings write_option_name before ++ [name] ++ settings write_option_name after) =
    (r ← write_files fuel (host_of s (Some name)) (s_file s)
           (map Some (values_of TagName l)) (map Some (values_of FileSpec l));
     Ok (files_written name r)).
Proof.
  intros l Hn Hne Hlen Hf. unfold main. cbn [lookup list_lookup].
  rewrite bool_decide_false by done. rewrite bool_decide_true by done.
  unfold run_write_files, parse_write_files_options. rewrite declare_write_files, bind_Ok_r.
  destruct (write_meaning before 0 (variables write_files_state) []) as (v1 & Hm1 & Hv1 & Hc1).
  { intros k. specialize (Hlen k). unfold l in Hlen. rewrite values_of_app, length_app in Hlen. cbn [app]. lia. }
  { split; (split; [done|cbn; lia]). }
  destruct (write_meaning after 1 (set_cstr "image_name" (Some name) v1) before Hlen Hv1)
    as (v2 & Hm2 & [Hfs Hts] & Hc2).
  rewrite (image_line_ok write_option_name write_option_index write_files_state write_index
    write_files_state_ok eq_refl _ eq_refl eq_refl before after name Hn fuel program_name _ v1 v2);
    [|rewrite !length_app, !length_settings; unfold l in Hf; rewrite length_app in Hf; cbn; lia| |done|done].
  2:{ intros j f Hj Hl. fold l. assert (j = O) as ->.
      { destruct j as [|[|j]]; [done| |done]. by injection Hj as <-. }
      destruct (values_of FileSpec l) as [|w ws] eqn:E; [done|].
      assert (w ∈ values_of FileSpec l) as Hin by (rewrite E; by left).
      apply list_elem_of_omap in Hin as ([[] w'] & Hin & [= ->]). by exists FileSpec, w. }
  rewrite bind_Ok_r.
  assert (get_cstr v2 "image_name" = Some name) as ->.
  { unfold get_cstr. rewrite Hc2. cbn. by rewrite lookup_insert_eq. }
  rewrite (array_elems _ _ _ _ Hfs), (array_elems _ _ _ _ Hts). fold l.
  destruct (write_files _ _ _ _ _) as [[code|[ws img]]|e]; done.
Qed.

(** [tfsfmt write-files] with [-file] and [-tag] settings around the image's
    name, at most 32 of each and at least one file, runs [write_files] on that
    image with the file specifications and the tags in their order. *)
Theorem write_files_command_line fuel s program_name before name after :
  let l := before ++ after in
  head name <> Some 45 -> values_of FileSpec l <> [] ->
  (forall k, Z.of_nat (length (values_of k l)) <= 32) -> (2 * length l + 1 < fuel)%nat ->
  main fuel s (program_name :: text "write-files" ::
      settings write_option_name before ++ [name] ++ settings write_option_name after) =
    (r ← write_files fuel (host_of s (Some name)) (s_file s)
           (map Some (values_of TagName l)) (map Some (values_of FileSpec l));
     Ok (files_written name r)).
Proof. apply write_files_line_ok. Qed.

(** ** Building an image and reading from it *)

(** The system once an image has been written. *)
Definition put_image (s : system) (name : list Z) (img : mem) : system :=
  System (fun n => if bool_decide (n = name) then Some img else s_image s n)
    (s_file s) (s_mmap_ok s) (s_msync_ok s).

Lemma filter_tags tags : Forall (fun u => length u < 28)%nat tags ->
  filter_valid_tag_names (map Some tags) = Ok tags.
Proof.
  induction 1 as [|u tags Hu _ IH]; [done|]. cbn [map filter_valid_tag_names non_null].
  rewrite bind_Ok_r, IH, bind_Ok_r. destruct (Z.ltb_spec (Z.of_nat (length u)) 28); [done|lia].
Qed.

(** The two command lines [tfsfmt format] and [tfsfmt write-files -file spec],
    with settings that fit and tags or none, make an image from which the FUSE
    driver reads every range of the file as it was on the host. *)
Theorem build_then_read fuel fuel' s program_name name before after spec tags path dst src img0 c off n :
  let o := apply_settings (before ++ after) default_options in
  head name <> Some 45 -> s_image s name = Some img0 -> s_mmap_ok s = true -> s_msync_ok s = true ->
  Forall (fun '(k, w) => is_Some (int_of w)) (before ++ after) -> options_fit o ->
  1 <= o_file_meta_sector_count o -> o_tag_meta_sector_count o * o_sector_size o / 32 <= 65535 ->
  parse_file_spec spec = Ok (path, dst) -> s_file s path = Some src -> Forall is_u8 src ->
  (length dst < 24)%nat -> name_ok dst -> dst <> [] ->
  Forall (fun u => length u < 28)%nat tags -> (length tags <= 32)%nat ->
  Z.of_nat (length src) <= o_fat_sector_count o * o_sector_size o / 2 * o_sector_size o ->
  Z.of_nat (length src) + 65536 < Z.of_nat fuel -> (2 * length (before ++ after) + 1 < fuel)%nat ->
  (length src + 2 < fuel')%nat -> 0 <= off -> 0 < n -> off + n <= Z.of_nat (length src) ->
  exists img ws img',
    main fuel s (program_name :: text "format" ::
      settings format_option_name before ++ [name] ++ settings format_option_name after) =
      Ok (Wrote (Some name) img []) /\
    main fuel (put_image s name img) (program_name :: text "write-files" ::
      settings write_option_name ((FileSpec, spec) :: map (fun t => (TagName, t)) tags) ++ [name]) =
      Ok (Wrote (Some name) img' ws) /\
    tagfs_read fuel' img' (c :: dst) n off = Ok (n, take (Z.to_nat n) (drop (Z.to_nat off) src)).
Proof.
  intros o Hn Himg Hmm Hms Hset Ho Hfm Htg Hspec Hfile Hu8 Hlen Hdst Hne Htags Hnt Hfit Hf Hfl Hf' Hoff Hn0 Hon.
  destruct (format_write_read_ok (host_of s (Some name)) img0 o fuel fuel' (s_file s) tags spec path dst src
    c off n Himg Hmm Hms Ho Hfm Htg Hspec Hfile Hu8 Hlen Hdst Hne Htags Hf Hf' Hoff Hn0 Hon Hfit)
    as (img & ws & img' & Hform & Hw & Hr).
  exists img, ws, img'. split; [|split; [|exact Hr]].
  - rewrite (format_line_ok fuel s program_name before name after Hn Hset Hfl). fold o. by rewrite Hform.
  - set (l := (FileSpec, spec) :: map (fun t => (TagName, t)) tags).
    assert (values_of FileSpec l = [spec] /\ values_of TagName l = tags) as [Es Et].
    { unfold l, values_of. cbn. split; [f_equal|]; clear; (induction tags as [|t ts IH]; cbn; [done|]); by rewrite IH. }
    pose proof (write_files_line_ok fuel (put_image s name img) program_name l name []) as H.
    cbv zeta in H.
    change (settings write_option_name []) with (@nil (list Z)) in H. rewrite !app_nil_r in H.
    rewrite H; [|done|by rewrite Es|intros []; rewrite ?Es, ?Et; cbn; lia|].
    2:{ unfold l. cbn [length]. rewrite length_map. lia. }
    rewrite Es, Et. unfold write_files. rewrite (filter_tags tags Htags), bind_Ok_r.
    cbn [host_of h_image put_image s_image h_mmap_ok s_mmap_ok h_msync_ok s_msync_ok s_file].
    rewrite bool_decide_true by done. rewrite Hmm, Hms. cbn [negb map write_specs non_null].
    rewrite bind_Ok_r, Hw. cbn. by rewrite app_nil_r.
Qed.

(** ** The tests of the command line (src/tagfs/tfsfmt/tests/tests.c) *)

(** A host with one file and no image but [test_tmp.img]. *)
Definition test_system : system :=
  System (fun n => if bool_decide (n = text "test_tmp.img") then Some ∅ else None)
    (fun n => if bool_decide (n = text "one_sector.txt") then Some (seqZ 1 100) else None) true true.
Definition exits_with (argv : list string) (code : Failure) : bool :=
  match main 100 test_system (map text argv) with
  | Ok (Exited c _ _) => bool_decide (c = code)
  | _ => false
  end.

Definition tfsfmt_test_no_subcommand : bool := exits_with ["./build/tfsfmt"] FAIL_PARSE_ARGS.
Definition tfsfmt_test_unknown_subcommand : bool :=
  exits_with ["./build/tfsfmt"; "unknown"] FAIL_PARSE_ARGS.
Definition tfsfmt_test_format_nonexistant_img : bool :=
  exits_with ["./build/tfsfmt"; "format"; "__not_there.img"] FAIL_IMG_NOT_FOUND.
Definition tfsfmt_test_write_files_nonexistant_img : bool :=
  exits_with ["./build/tfsfmt"; "write-files"; "-file"; "dummy:spec"; "__not_there.img"] FAIL_IMG_NOT_FOUND.
Definition tfsfmt_test_write_files_missing_file_option : bool :=
  exits_with ["./build/tfsfmt"; "write-files"; "test_tmp.img"; "one_sector.txt"] FAIL_PARSE_ARGS.

(** The repository's tests of the exit codes of the command line pass. *)
Theorem tfsfmt_exit_tests_pass :
  [tfsfmt_test_no_subcommand; tfsfmt_test_unknown_subcommand; tfsfmt_test_format_nonexistant_img;
   tfsfmt_test_write_files_nonexistant_img; tfsfmt_test_write_files_missing_file_option] =
  replicate 5 true.
Proof. vm_compute. reflexivity. Qed.

(** ** Witnesses *)

Lemma format_command_line_witness :
  main 10 test_system [text "tfsfmt"; text "format"; text "-fm-sectors"; text "20"; text "test_tmp.img";
      text "-sector-size"; text " 1024"] =
    Ok (formatted (text "test_tmp.img") (format_image (host_of test_system (Some (text "test_tmp.img")))
      (set_option SectorSize 1024 (set_option FileMetaSectors 20 default_options)))).
Proof.
  apply (format_command_line 10 test_system (text "tfsfmt") [(FileMetaSectors, text "20")] (text "test_tmp.img")
    [(SectorSize, text " 1024")]).
  - discriminate.
  - repeat constructor; eexists; vm_compute; reflexivity.
  - cbn. lia.
Defined.

Lemma write_files_command_line_witness :
  main 10 test_system [text "tfsfmt"; text "write-files"; text "-file"; text "a:b"; text "gone.img";
      text "-tag"; text "t"] = Ok (Exited FAIL_IMG_NOT_FOUND [] []).
Proof.
  pose proof (write_files_command_line 10 test_system (text "tfsfmt") [(FileSpec, text "a:b")] (text "gone.img")
    [(TagName, text "t")]) as H.
  etransitivity; [apply H|].
  - discriminate.
  - discriminate.
  - intros []; cbn; lia.
  - cbn. lia.
  - vm_compute. reflexivity.
Defined.

Lemma build_then_read_witness : exists img ws img',
  main (Z.to_nat 70000) test_system [text "tfsfmt"; text "format"; text "test_tmp.img"] =
    Ok (Wrote (Some (text "test_tmp.img")) img []) /\
  main (Z.to_nat 70000) (put_image test_system (text "test_tmp.img") img)
    [text "tfsfmt"; text "write-files"; text "-file"; text "one_sector.txt:a"; text "-tag"; text "t";
     text "test_tmp.img"] = Ok (Wrote (Some (text "test_tmp.img")) img' ws) /\
  tagfs_read 200 img' (text "/a") 30 70 = Ok (30, seqZ 71 30).
Proof.
  assert (options_fit default_options) as Ho by (split; cbn; (split_and! || idtac); (done || lia)).
  destruct (build_then_read (Z.to_nat 70000) 200 test_system (text "tfsfmt") (text "test_tmp.img") [] []
    (text "one_sector.txt:a") [text "t"] (text "one_sector.txt") (text "a") (seqZ 1 100) ∅ 47 70 30)
    as (img & ws & img' & H1 & H2 & H3);
    [discriminate | reflexivity | reflexivity | reflexivity | constructor | exact Ho | cbn; lia
    | vm_compute; discriminate | reflexivity | reflexivity | exact small_bytes | cbn; lia
    | by repeat constructor | discriminate | repeat constructor; cbn; lia | cbn; lia
    | vm_compute; discriminate | rewrite Z2Nat.id by lia; vm_compute; reflexivity
    | apply Nat2Z.inj_lt; rewrite Z2Nat.id by lia; vm_compute; reflexivity
    | vm_compute; lia | lia | lia | vm_compute; discriminate |].
  exists img, ws, img'. split; [exact H1|]. split; [exact H2|]. change (text "/a") with (47 :: text "a").
  rewrite H3. vm_compute. reflexivity.
Defined.
