(* ===== verification/BuiltVolume.v ===== *)
(** * Images that the builder fills

    [tfsfmt write-files] (src/tagfs/tfsfmt/src/tfsfmt.c) as an operation on the
    store of files of FuseVolume.v: [vol_add] adds a file with the bytes of its
    source, cut when the free sectors run out, or leaves the store alone with a
    warning. The theorems are that the builder does this to the image, for a
    list of files, and the composition of the three programs' parts: [format],
    [write-files] and a session of the FUSE driver on what they made. *)
From stdpp Require Import functions.
From S2P Require Import Prelude Memory TagLayout FuseDriver TagFrame Tfsfmt FuseVolume Flags TfsfmtMain.

#[local] Open Scope Z_scope.

(** ** Adding a file to a store *)

Definition about_file (w : warning) : bool := match w with TagMapFull | TagsFull => false | _ => true end.

Section spec.
Context (fopen : list Z -> option (list Z)) (entries ss : Z).

(** A file has at least one sector, even an empty one. *)
Definition sectors_for (src : list Z) : nat := S (Z.to_nat ((Z.of_nat (length src) - 1) / ss)).

Definition vol_store (name src : list Z) (v : volume) : list warning * volume :=
  match vol_slot entries v, v_free v with
  | None, _ => ([MetadataFull], v)
  | Some _, O => ([Truncated], v)
  | Some j, free =>
      let n := Nat.min (sectors_for src) free in
      (if bool_decide (n < sectors_for src)%nat then [Truncated] else [],
       Volume (<[j := File name (take (n * Z.to_nat ss) src) n]> (v_files v)) (free - n))
  end.

Definition vol_add (spec : list Z) (v : volume) : list warning * volume :=
  match parse_file_spec spec with
  | Err _ => ([], v)
  | Ok (path, name) =>
      match fopen path with
      | None => ([FileNotFound], v)
      | Some src =>
          match is_tagfs_file name (Z.of_nat (length src)) with
          | Some w => ([w], v)
          | None => vol_store name src v
          end
      end
  end.

Fixpoint vol_add_all (specs : list (list Z)) (v : volume) : list warning * volume :=
  match specs with
  | [] => ([], v)
  | spec :: specs => let '(ws, v) := vol_add spec v in let '(ws', v) := vol_add_all specs v in (ws ++ ws', v)
  end.

(** What is asked of a specification: it names a path and a file. *)
Definition buildable (fuel : nat) (spec : list Z) : Prop :=
  match parse_file_spec spec with
  | Err _ => False
  | Ok (path, name) =>
      match fopen path with
      | None => True
      | Some src => is_name name /\ Forall is_u8 src /\ (length src < fuel)%nat
      end
  end.
#[export] Instance buildable_dec fuel spec : Decision (buildable fuel spec).
Proof.
  unfold buildable, is_name, name_ok, is_u8.
  destruct (parse_file_spec spec) as [[path name]|]; [destruct (fopen path)|]; apply _.
Defined.
End spec.

(** ** The sectors that are taken *)

Definition free_from (img : mem) (i : Z) : nat :=
  count_up (Z.to_nat (fat_count img - i)) i (fun k => fat_entry img k =? 0).

Lemma length_taken_free img n : forall i, 0 <= i < fat_count img ->
  length (taken img n i) = S (Nat.min n (free_from img (i + 1))).
Proof.
  induction n as [|n IH]; intros i Hi; cbn [taken length]; [done|].
  destruct (next_free_fat img (i + 1)) as [j|] eqn:E; cbn [length]; f_equal.
  - pose proof (next_free_Some img (i + 1) j ltac:(lia) E) as (Hj & _). rewrite IH by lia.
    unfold next_free_fat in E. apply count_up_first in E. unfold free_from at 2. rewrite E. cbn.
    do 2 f_equal. unfold free_from. f_equal. lia.
  - unfold next_free_fat in E. apply count_up_find in E. unfold free_from. rewrite E. lia.
Qed.

Lemma free_sectors_from img f : next_free_fat img 0 = Some f -> free_sectors img = S (free_from img (f + 1)).
Proof.
  intros E. pose proof (next_free_Some img 0 f ltac:(lia) E) as (Hf & _).
  unfold next_free_fat in E. rewrite Z.sub_0_r in E. apply count_up_first in E. unfold free_sectors. rewrite E. f_equal. unfold free_from. f_equal. lia.
Qed.

Lemma length_taken_all img n f : next_free_fat img 0 = Some f ->
  length (taken img n f) = Nat.min (S n) (free_sectors img).
Proof.
  intros E. pose proof (next_free_Some img 0 f ltac:(lia) E) as (Hf & _). rewrite length_taken_free by lia.
  by rewrite (free_sectors_from img f E), <- Nat.succ_min_distr.
Qed.

(** The free sectors that are left are behind the ones taken. *)
Lemma taken_room img n : forall i, 0 <= i < fat_count img -> forall k, k ∈ taken img n i ->
  (S (free_from img (i + 1)) <= length (taken img n i) + Z.to_nat (fat_count img - 1 - k))%nat.
Proof.
  induction n as [|n IH]; intros i Hi k; cbn [taken length].
  - intros ->%list_elem_of_singleton. pose proof (count_up_le (Z.to_nat (fat_count img - (i + 1))) (i + 1)
      (fun k => fat_entry img k =? 0)). unfold free_from. lia.
  - intros [-> |Hk]%elem_of_cons.
    + pose proof (count_up_le (Z.to_nat (fat_count img - (i + 1))) (i + 1) (fun k => fat_entry img k =? 0)).
      unfold free_from. lia.
    + destruct (next_free_fat img (i + 1)) as [j|] eqn:E; [|by apply not_elem_of_nil in Hk]. cbn [length].
      pose proof (next_free_Some img (i + 1) j ltac:(lia) E) as (Hj & _). specialize (IH j ltac:(lia) k Hk).
      unfold next_free_fat in E. apply count_up_first in E. unfold free_from at 1. rewrite E.
      replace (Z.to_nat (i + 1 + Z.of_nat (Z.to_nat (fat_count img - (i + 1))) - (j + 1)))
        with (Z.to_nat (fat_count img - (j + 1))) by lia. fold (free_from img (j + 1)). lia.
Qed.

(** What a chain of free sectors takes from their number. *)
Lemma free_sectors_chain img img' l : layout_ok img' -> same_header img img' -> chain img' l ->
  (forall k, k ∈ l -> fat_entry img k = 0) ->
  (forall k, 0 <= k < fat_count img -> k ∉ l -> fat_entry img' k = fat_entry img k) ->
  free_sectors img = (length l + free_sectors img')%nat.
Proof.
  intros Hok Hh Hc H0 Hf. unfold free_sectors. rewrite (sh_fat_count _ _ Hh).
  apply count_up_remove; [by apply (chain_NoDup img')| |].
  - intros k Hk. pose proof (chain_range img' l k Hc Hk) as Hr. rewrite (sh_fat_count _ _ Hh) in Hr.
    split; [lia|]. by rewrite H0.
  - intros k Hk. destruct (decide (k ∈ l)) as [Hin|Hin].
    + rewrite (bool_decide_eq_false_2 (k ∉ l)), andb_false_r by tauto.
      apply Z.eqb_neq. apply list_elem_of_lookup in Hin as [p Hp]. by eapply chain_entry_used.
    + rewrite (bool_decide_eq_true_2 (k ∉ l)), andb_true_r, Hf by (done || lia). done.
Qed.

(** ** The builder on an image that holds a store *)

Lemma added_touches img img' j name l size bytes : added img img' j name l size bytes -> touches j l img img'.
Proof. by intros []. Qed.

Lemma tag_warnings ws : Forall tag_warning ws -> filter about_file ws = [].
Proof. induction 1 as [|w ws [-> | ->] _ IH]; done. Qed.

Section build.
Context (fuel : nat) (fopen : list Z -> option (list Z)) (tags : list (list Z)).
Hypothesis Htags : Forall (fun u => length u < 28)%nat tags.
Context (img : mem) (ch : Z -> list Z) (v : volume) (Hr : represents img ch v).
Hypothesis Hcount : tag_meta_entry_count img <= 65535.
Hypothesis Hfuel : (Z.to_nat (count_file_meta_entries img) < fuel)%nat /\
  (Z.to_nat (tag_meta_entry_count img) < fuel)%nat.
Abbreviation entries := (count_file_meta_entries img).
Abbreviation ss := (fs_sector_size img).

Definition builds (spec : list Z) : Prop :=
  let s := vol_add fopen entries ss spec v in
  exists ws img' ch', write_file fuel fopen tags spec img = Ok (ws, img') /\ same_header img img' /\
    filter about_file ws = s.1 /\ represents img' ch' s.2 /\
    forall b, 0 <= b -> low b img -> fat_count img - b <= Z.of_nat (v_free s.2) -> low b img'.

Lemma added_low img' j f n l name size bytes b : next_free_fat img 0 = Some f -> l = taken img n f ->
  added img img' j name l size bytes -> 0 <= b -> low b img ->
  fat_count img - b <= Z.of_nat (v_free v - length l) -> low b img'.
Proof.
  intros Hf -> Had Hb Hl Hfree i Hi. pose proof (added_touches _ _ _ _ _ _ _ Had) as Ht.
  rewrite (sh_fat_count _ _ (th_header _ _ _ _ Ht)) in Hi.
  pose proof (next_free_Some img 0 f ltac:(lia) Hf) as (Hfr & _).
  destruct (decide (i ∈ taken img n f)) as [Hin|Hin]; [exfalso|by rewrite (th_fat _ _ _ _ Ht), Hl by (done || lia)].
  pose proof (taken_room img n f ltac:(lia) i Hin) as Hroom.
  rewrite <- (free_sectors_from img f Hf), (rp_free _ _ _ Hr) in Hroom. lia.
Qed.

Lemma added_represents img' j f name src : vol_slot entries v = Some j ->
  next_free_fat img 0 = Some f -> is_name name -> (length name < 24)%nat ->
  let l := taken img (more_sectors img src) f in
  let size := Z.min (Z.of_nat (length src)) (Z.of_nat (length l) * ss) in
  added img img' j name l size (take (Z.to_nat size) src) ->
  represents img' (<[j := l]> ch)
    (Volume (<[j := File name (take (length l * Z.to_nat ss) src) (length l)]> (v_files v)) (v_free v - length l)).
Proof.
  intros Hslot Hf Hn Hlen l size Had. pose proof (rp_layout _ _ _ Hr) as Hok.
  pose proof (added_touches _ _ _ _ _ _ _ Had) as Ht. pose proof (th_header _ _ _ _ Ht) as Hh.
  pose proof (sh_layout_ok _ _ Hh Hok) as Hok'. destruct (lay_sector Hok) as [Hss _].
  pose proof Hslot as (Hj & Hnone & _)%find_up_Some. apply bool_decide_eq_true in Hnone.
  pose proof (next_free_Some img 0 f ltac:(lia) Hf) as (Hfr & Hf0 & _).
  assert (forall k, k ∈ l -> fat_entry img k = 0) as Hl0 by (intros k; apply taken_free; (done || lia)).
  destruct Had as [_ _ Hfat _ Hfd Hsz Hnm Hc Hb].
  assert (forall i g, v_files v !! i = Some g -> ch i ## l) as Hap.
  { intros i g Hi k Hk Hkl. exact (stored_used _ _ _ _ _ (rp_file _ _ _ Hr i g Hi) Hk (Hl0 k Hkl)). }
  apply (represents_change img img' ch v j l l (Some (File _ _ _)) _ Hr Ht); [lia| | |].
  - intros i g Hi _. by split; apply (Hap i g).
  - split; rewrite ?(sh_file_entry _ _ Hh), ?(sh_sector_size _ _ Hh), ?Hsz; cbn [f_name f_data f_sectors];
      [done|done|done|by right|unfold size; lia| |done].
    rewrite Hb. symmetry. unfold size. apply take_min_length. lia.
  - rewrite <- (rp_free _ _ _ Hr), (free_sectors_chain img img' l) by done. lia.
Qed.

Lemma builder_free : find_up (Z.to_nat entries) 0
  (fun k => file_metadata_entry_is_free img (file_entry img k)) = vol_slot entries v.
Proof. apply find_up_ext. intros j Hj. apply (slot_agree _ _ _ Hr). lia. Qed.

Lemma builder_slot : search16 fuel (w32 (fs_file_meta_sector_count img * ss) / 32)
  (fun i => file_metadata_entry_is_free img (file_entry img i)) = Ok (vol_slot entries v).
Proof.
  pose proof (rp_layout _ _ _ Hr) as Hok. rewrite (file_count_unsigned img Hok), <- builder_free.
  apply search16_find; [|lia]. pose proof (layout_sums img Hok) as (?&_&_&_&_&_&_&_&_&->&_).
  pose proof (lay_files Hok). split; [by apply Z.div_pos|lia].
Qed.

Lemma no_free_fat : next_free_fat img 0 = None -> v_free v = O.
Proof.
  intros E. unfold next_free_fat in E. apply count_up_find in E. rewrite Z.sub_0_r in E.
  rewrite <- (rp_free _ _ _ Hr). exact E.
Qed.

Section file.
Context (spec path name src : list Z).
Hypothesis Hspec : parse_file_spec spec = Ok (path, name).
Hypothesis Hopen : fopen path = Some src.
Hypothesis Hfits : is_tagfs_file name (Z.of_nat (length src)) = None.

Lemma builds_full : vol_slot entries v = None \/ next_free_fat img 0 = None -> builds spec.
Proof.
  intros Hfull. unfold builds, vol_add. rewrite Hspec, Hopen, Hfits. unfold vol_store.
  destruct (vol_slot entries v) as [j|] eqn:Ej.
  - destruct Hfull as [|Ef]; [done|]. rewrite (no_free_fat Ef). exists [Truncated], img, ch.
    split; [|done]. unfold write_file. by rewrite Hspec, bind_Ok_r, Hopen, Hfits, builder_slot, Ej, bind_Ok_r, Ef.
  - exists [MetadataFull], img, ch. split; [|done].
    unfold write_file. by rewrite Hspec, bind_Ok_r, Hopen, Hfits, builder_slot, Ej, bind_Ok_r.
Qed.

Lemma builds_added j f : vol_slot entries v = Some j -> next_free_fat img 0 = Some f ->
  is_name name -> Forall is_u8 src -> (length src < fuel)%nat -> builds spec.
Proof.
  intros Ej Ef Hn Hu8 Hlen. pose proof (rp_layout _ _ _ Hr) as Hok. pose proof Hfits as Hsizes.
  unfold is_tagfs_file in Hsizes.
  destruct (Z.ltb_spec 4294967295 (Z.of_nat (length src))); [done|].
  destruct (Z.leb_spec 24 (Z.of_nat (length name))); [done|].
  assert (more_sectors img src < fuel)%nat as Hms.
  { unfold more_sectors. destruct (lay_sector Hok) as [Hss _].
    pose proof (Z.div_lt_upper_bound (Z.of_nat (length src) - 1) ss (Z.of_nat fuel)). nia. }
  destruct (write_file_added fuel fopen tags spec img path name src j f)
    as (ws & img' & Hw & Had & Hws & _); [done..|lia|lia|apply Hn|by rewrite builder_free|done|done|lia|lia|done|].
  pose proof (added_represents img' j f name src Ej Ef Hn ltac:(lia) Had) as Hrep.
  pose proof (length_taken_all img (more_sectors img src) f Ef) as Hl. rewrite (rp_free _ _ _ Hr) in Hl.
  change (S (more_sectors img src)) with (sectors_for ss src) in Hl, Hw.
  pose proof (length_taken img (more_sectors img src) f) as Hl1.
  unfold builds, vol_add. rewrite Hspec, Hopen, Hfits. unfold vol_store. rewrite Ej.
  destruct (v_free v) as [|free] eqn:Ev; [lia|]. rewrite <- Hl.
  eexists _, img', _. split; [exact Hw|]. split; [apply (ad_header _ _ _ _ _ _ _ Had)|].
  split; [rewrite filter_app, (tag_warnings ws Hws), app_nil_r; by case_bool_decide|]. split; [exact Hrep|].
  intros b Hb Hlow Hfree. apply (added_low _ _ _ (more_sectors img src) _ _ _ _ b Ef eq_refl Had Hb Hlow).
  by rewrite Ev.
Qed.

Lemma builds_file : is_name name -> Forall is_u8 src -> (length src < fuel)%nat -> builds spec.
Proof.
  intros. destruct (vol_slot entries v) as [j|] eqn:Ej; [|by apply builds_full; left].
  destruct (next_free_fat img 0) as [f|] eqn:Ef; [by eapply builds_added|by apply builds_full; right].
Qed.
End file.

Lemma builds_spec spec : buildable fopen fuel spec -> builds spec.
Proof.
  intros Hb. unfold buildable in Hb. destruct (parse_file_spec spec) as [[path name]|] eqn:Hspec; [|done].
  destruct (fopen path) as [src|] eqn:Hopen.
  - destruct Hb as (Hn & Hu8 & Hlen). destruct (is_tagfs_file name (Z.of_nat (length src))) as [w|] eqn:Hw.
    + unfold builds, vol_add. rewrite Hspec, Hopen, Hw. exists [w], img, ch.
      split; [unfold write_file; by rewrite Hspec, bind_Ok_r, Hopen, Hw|]. split; [done|]. split; [|done].
      unfold is_tagfs_file in Hw. destruct (_ <? _); [by injection Hw as <-|].
      destruct (_ <=? _); [by injection Hw as <-|done].
    + by apply (builds_file spec path name src).
  - unfold builds, vol_add. rewrite Hspec, Hopen. exists [FileNotFound], img, ch.
    split; [|done]. unfold write_file. by rewrite Hspec, bind_Ok_r, Hopen.
Qed.
End build.

(** ** A list of files *)

(** The builder's searches stay below 65535, and the fuel is enough for them. *)
Definition searchable (fuel : nat) (img : mem) : Prop :=
  tag_meta_entry_count img <= 65535 /\ (Z.to_nat (count_file_meta_entries img) < fuel)%nat /\
  (Z.to_nat (tag_meta_entry_count img) < fuel)%nat.

(** Adding a file takes free sectors and gives none back. *)
Lemma vol_add_free fopen entries ss spec v : (v_free (vol_add fopen entries ss spec v).2 <= v_free v)%nat.
Proof.
  unfold vol_add. destruct (parse_file_spec spec) as [[path name]|]; [|done]. destruct (fopen path); [|done].
  destruct (is_tagfs_file _ _); [done|]. unfold vol_store.
  destruct (vol_slot entries v); [|done]. destruct (v_free v) eqn:E; cbn; lia.
Qed.

Lemma vol_add_all_free fopen entries ss specs : forall v,
  (v_free (vol_add_all fopen entries ss specs v).2 <= v_free v)%nat.
Proof.
  induction specs as [|spec specs IH]; intros v; [done|]. cbn [vol_add_all].
  pose proof (vol_add_free fopen entries ss spec v). destruct (vol_add _ _ _ spec v) as [w v1].
  specialize (IH v1). destruct (vol_add_all _ _ _ specs v1). cbn in *. lia.
Qed.

Lemma build fuel fopen tags specs : Forall (fun u => length u < 28)%nat tags ->
  Forall (buildable fopen fuel) specs -> forall img ch v, represents img ch v -> searchable fuel img ->
  let s := vol_add_all fopen (count_file_meta_entries img) (fs_sector_size img) specs v in
  exists ws img' ch', write_specs fuel fopen tags (map Some specs) img = Ok (ws, img') /\
    same_header img img' /\ filter about_file ws = s.1 /\ represents img' ch' s.2 /\
    forall b, 0 <= b -> low b img -> fat_count img - b <= Z.of_nat (v_free s.2) -> low b img'.
Proof.
  intros Htags. induction 1 as [|spec specs Hspec _ IH]; intros img ch v Hr (Hc & Hf) s; [by exists [], img, ch|].
  destruct (builds_spec fuel fopen tags Htags img ch v Hr Hc Hf spec Hspec)
    as (ws1 & img1 & ch1 & E1 & Hh1 & Ew1 & Hr1 & Hl1).
  destruct (IH img1 ch1 _ Hr1) as (ws2 & img2 & ch2 & E2 & Hh2 & Ew2 & Hr2 & Hl2).
  { unfold searchable. by rewrite (sh_count _ _ Hh1), (sh_tag_count _ _ Hh1). }
  rewrite (sh_count _ _ Hh1), (sh_sector_size _ _ Hh1) in Ew2, Hr2, Hl2. rewrite (sh_fat_count _ _ Hh1) in Hl2.
  exists (ws1 ++ ws2), img2, ch2. cbn [map write_specs non_null]. rewrite bind_Ok_r, E1, bind_Ok_r, E2, bind_Ok_r.
  unfold s. cbn [vol_add_all]. destruct (vol_add _ _ _ spec v) as [w1 v1]. cbn [fst snd] in *.
  pose proof (vol_add_all_free fopen (count_file_meta_entries img) (fs_sector_size img) specs v1) as Hle.
  destruct (vol_add_all _ _ _ specs v1) as [w2 v2]. cbn [fst snd] in *.
  split; [done|]. split; [by eapply same_header_trans|]. split; [by rewrite filter_app, Ew1, Ew2|]. split; [done|].
  intros b Hb Hl Hfree. apply Hl2; [done| |done]. apply Hl1; [done..|lia].
Qed.

(** The tags that are kept. *)
Definition short_tags (tags : list (list Z)) : list (list Z) := filter (fun u => length u < 28)%nat tags.

Lemma filter_tag_names tags : filter_valid_tag_names (map Some tags) = Ok (short_tags tags).
Proof.
  induction tags as [|u tags IH]; [done|]. cbn [map filter_valid_tag_names non_null].
  rewrite bind_Ok_r, IH, bind_Ok_r. unfold short_tags. rewrite filter_cons.
  destruct (Z.ltb_spec (Z.of_nat (length u)) 28); [rewrite decide_True by lia|rewrite decide_False by lia]; done.
Qed.

Lemma short_tags_short tags : Forall (fun u => length u < 28)%nat (short_tags tags).
Proof. apply Forall_forall. intros u. unfold short_tags. by intros [? _]%list_elem_of_filter. Qed.

Lemma write_files_ok fuel h fopen tags specs img ch v : h_image h = Some img -> h_mmap_ok h = true ->
  h_msync_ok h = true -> Forall (buildable fopen fuel) specs -> represents img ch v -> searchable fuel img ->
  let s := vol_add_all fopen (count_file_meta_entries img) (fs_sector_size img) specs v in
  exists ws img' ch', write_files fuel h fopen (map Some tags) (map Some specs) = Ok (Done (ws, img')) /\
    same_header img img' /\ filter about_file ws = s.1 /\ represents img' ch' s.2 /\
    forall b, 0 <= b -> low b img -> fat_count img - b <= Z.of_nat (v_free s.2) -> low b img'.
Proof.
  intros Hi Hmm Hms Hs Hr Hf s.
  destruct (build fuel fopen (short_tags tags) specs (short_tags_short tags) Hs img ch v Hr Hf)
    as (ws & img' & ch' & E & Hrest).
  exists ws, img', ch'. split; [|exact Hrest]. unfold write_files.
  rewrite filter_tag_names, bind_Ok_r, Hi, Hmm. cbn [negb]. by rewrite E, bind_Ok_r, Hms.
Qed.

(** ** Both command lines *)

(** [format name] and [write-files name] with settings around the name: the
    options fit, the image is there, the files named are buildable, and the fuel
    is enough for the lines and for the searches. *)
Record command_lines (fuel : nat) (s : system) (name : list Z) (before after : list (format_option * list Z))
    (tagged files : list (write_option * list Z)) : Prop := {
  cl_name : head name <> Some 45;
  cl_image : is_Some (s_image s name);
  cl_host : s_mmap_ok s = true /\ s_msync_ok s = true;
  cl_settings : Forall (fun '(k, w) => is_Some (int_of w)) (before ++ after);
  cl_options : options_fit (apply_settings (before ++ after) default_options);
  cl_files : values_of FileSpec (tagged ++ files) <> [];
  cl_many : forall k, Z.of_nat (length (values_of k (tagged ++ files))) <= 32;
  cl_buildable : Forall (buildable (s_file s) fuel) (values_of FileSpec (tagged ++ files));
  cl_fuel : (2 * length (before ++ after) + 1 < fuel)%nat /\ (2 * length (tagged ++ files) + 1 < fuel)%nat;
  cl_searches : let o := apply_settings (before ++ after) default_options in
    o_file_meta_sector_count o * o_sector_size o / 32 < Z.of_nat fuel /\
    o_tag_meta_sector_count o * o_sector_size o / 32 <= Z.min 65535 (Z.of_nat fuel - 1);
}.

(** An image that the options describe. *)
Record has_options (o : Format_Options) (img : mem) : Prop := {
  ho_sector_size : fs_sector_size img = o_sector_size o;
  ho_entries : count_file_meta_entries img = o_file_meta_sector_count o * o_sector_size o / 32;
  ho_sectors : fat_count img = o_fat_sector_count o * o_sector_size o / 2;
  ho_size : img_size img = o_sector_count o * o_sector_size o;
}.

Lemma has_options_header o img img' : has_options o img -> same_header img img' -> has_options o img'.
Proof.
  intros [H1 H2 H3 H4] Hh.
  split; rewrite ?(sh_sector_size _ _ Hh), ?(sh_count _ _ Hh), ?(sh_fat_count _ _ Hh), ?(sh_img_size _ _ Hh); done.
Qed.

Section lines.
Context (fuel : nat) (s : system) (program_name name : list Z) (before after : list (format_option * list Z)).
Context (tagged files : list (write_option * list Z)).
Context (Hcl : command_lines fuel s name before after tagged files).
Abbreviation o := (apply_settings (before ++ after) default_options).
Abbreviation entries := (o_file_meta_sector_count o * o_sector_size o / 32).
Abbreviation sectors := (o_fat_sector_count o * o_sector_size o / 2).
Abbreviation built := (vol_add_all (s_file s) entries (o_sector_size o) (values_of FileSpec (tagged ++ files))
  (blank_volume sectors)).

Lemma lines_build : exists img ws img1 ch1,
  main fuel s (program_name :: text "format" ::
    settings format_option_name before ++ [name] ++ settings format_option_name after) =
    Ok (Wrote (Some name) img []) /\
  main fuel (put_image s name img) (program_name :: text "write-files" ::
    settings write_option_name tagged ++ [name] ++ settings write_option_name files) =
    Ok (Wrote (Some name) img1 ws) /\ filter about_file ws = built.1 /\
  has_options o img1 /\ represents img1 ch1 built.2 /\
  forall b, 0 <= b -> sectors - b <= Z.of_nat (v_free built.2) -> low b img1.
Proof.
  pose proof Hcl as [Hn [img0 Himg] [Hmm Hms] Hset Ho Hne Hlen Hs [Hfl Hwl] [Hent Htag]].
  destruct (format_image_ok (host_of s (Some name)) img0 o Himg Hmm Hms Ho)
    as (img & Hfo & Hem & Ess & Een & Etc & Efc & Esz).
  pose proof (empty_represents img Hem) as Hr. rewrite Efc in Hr.
  destruct (write_files_ok fuel (host_of (put_image s name img) (Some name)) (s_file s)
    (values_of TagName (tagged ++ files)) _ img _ _ ltac:(by cbn; rewrite bool_decide_true) Hmm Hms Hs Hr)
    as (ws & img1 & ch1 & Ew & Hh1 & Hws & Hr1 & Hl1);
    [unfold searchable; rewrite Een, Etc; clear - Hfl Hent Htag; lia|].
  rewrite Een, Ess in Hws, Hr1, Hl1. rewrite Efc in Hl1.
  exists img, ws, img1, ch1. split; [|split; [|split; [done|split; [|split; [done|]]]]].
  - rewrite (format_line_ok fuel s program_name before name after Hn Hset Hfl). by rewrite Hfo.
  - rewrite (write_files_line_ok fuel _ program_name tagged name files Hn Hne Hlen Hwl). cbn [s_file put_image].
    by rewrite Ew.
  - by apply (has_options_header o img img1).
  - intros b Hb Hfree. apply Hl1; [done| |done]. intros i Hi. apply (em_fat _ Hem). lia.
Qed.

(** With a session of the FUSE driver behind them. *)
Lemma lines_session fuel' rs : (Z.to_nat sectors + 1 < fuel')%nat ->
  all_allowed entries (o_sector_size o) rs built.2 ->
  exists img ws img1 img2 ch,
    main fuel s (program_name :: text "format" ::
      settings format_option_name before ++ [name] ++ settings format_option_name after) =
      Ok (Wrote (Some name) img []) /\
    main fuel (put_image s name img) (program_name :: text "write-files" ::
      settings write_option_name tagged ++ [name] ++ settings write_option_name files) =
      Ok (Wrote (Some name) img1 ws) /\ filter about_file ws = built.1 /\
    serve_all fuel' rs img1 = Ok ((vol_serve_all entries (o_sector_size o) rs built.2).1, img2) /\
    has_options o img2 /\ represents img2 ch (vol_serve_all entries (o_sector_size o) rs built.2).2 /\
    forall b, 0 <= b -> sectors - b <= Z.of_nat (v_free built.2) ->
      Forall (fun u => sectors - b < Z.of_nat (v_free u)) (vol_states entries (o_sector_size o) rs built.2) ->
      low b img2.
Proof.
  intros Hf' Ha. destruct lines_build as (img & ws & img1 & ch1 & E1 & E2 & Hws & Hopt & Hr1 & Hl1).
  pose proof Hopt as [Ess Een Efc _].
  destruct (session rs fuel' img1 ch1 _ Hr1) as (img2 & ch2 & Es & Hh2 & Hr2 & Hl2);
    [by rewrite Efc|by rewrite Een, Ess|].
  rewrite Een, Ess in Es, Hr2, Hl2. rewrite Efc in Hl2. exists img, ws, img1, img2, ch2.
  split_and!; [done..|by apply (has_options_header o img1)|done|].
  intros b Hb Hfree Hst. apply Hl2; [done| |done]. by apply Hl1.
Qed.
End lines.

(** ** Properties *)

(** C3: the builder implements the store's operation of adding files: on an image
    that holds a volume, [write_files] with any list of files and any tags returns,
    and the image then holds the volume with the files added in their order, each
    with its bytes or as many as the free sectors hold; the warnings about files
    are those of the store, whatever the tags did. *)
Theorem write_files_refines_volume fuel h fopen tags specs img ch v : h_image h = Some img ->
  h_mmap_ok h = true -> h_msync_ok h = true -> Forall (buildable fopen fuel) specs ->
  represents img ch v -> searchable fuel img ->
  let s := vol_add_all fopen (count_file_meta_entries img) (fs_sector_size img) specs v in
  exists ws img' ch', write_files fuel h fopen (map Some tags) (map Some specs) = Ok (Done (ws, img')) /\
    filter about_file ws = s.1 /\ represents img' ch' s.2.
Proof.
  intros Hi Hmm Hms Hs Hr Hf s.
  destruct (write_files_ok fuel h fopen tags specs img ch v Hi Hmm Hms Hs Hr Hf) as (ws & img' & ch' & E & _ & Hw & Hr' & _).
  by exists ws, img', ch'.
Qed.

(** C5: the three programs together: [tfsfmt format] and [tfsfmt write-files] from
    their command lines, with any settings that fit, any files and any tags, make
    an image, and the FUSE driver then answers every session of allowed requests
    on it (files made under new names, writes and deletes within one sector) as
    the store answers on the empty volume with the files added. *)
Theorem build_then_session fuel fuel' s program_name name before after tagged files rs :
  command_lines fuel s name before after tagged files ->
  let o := apply_settings (before ++ after) default_options in
  let entries := o_file_meta_sector_count o * o_sector_size o / 32 in
  let sectors := o_fat_sector_count o * o_sector_size o / 2 in
  let built := vol_add_all (s_file s) entries (o_sector_size o) (values_of FileSpec (tagged ++ files))
    (blank_volume sectors) in
  (Z.to_nat sectors + 1 < fuel')%nat -> all_allowed entries (o_sector_size o) rs built.2 ->
  exists img ws img1 img2 ch,
    main fuel s (program_name :: text "format" ::
      settings format_option_name before ++ [name] ++ settings format_option_name after) =
      Ok (Wrote (Some name) img []) /\
    main fuel (put_image s name img) (program_name :: text "write-files" ::
      settings write_option_name tagged ++ [name] ++ settings write_option_name files) =
      Ok (Wrote (Some name) img1 ws) /\ filter about_file ws = built.1 /\
    serve_all fuel' rs img1 = Ok ((vol_serve_all entries (o_sector_size o) rs built.2).1, img2) /\
    represents img2 ch (vol_serve_all entries (o_sector_size o) rs built.2).2.
Proof.
  intros Hcl o entries sectors built Hf' Ha.
  destruct (lines_session fuel s program_name name before after tagged files Hcl fuel' rs Hf' Ha)
    as (img & ws & img1 & img2 & ch & E1 & E2 & Hws & Es & _ & Hr & _).
  by exists img, ws, img1, img2, ch.
Qed.

(** ** Runs *)

(** Three files are asked for; the second is not there. *)
Definition wanted : list (list Z) := [text "one_sector.txt:a"; text "gone:b"; text "one_sector.txt:c"].

Lemma wanted_buildable : Forall (buildable (s_file test_system) 400) wanted.
Proof. apply (bool_decide_unpack _). vm_compute. exact I. Qed.

Lemma write_files_refines_volume_witness : exists ws img' ch',
  write_files 400 (Host (Some blank_image) true true) (s_file test_system) (map Some [text "t"]) (map Some wanted) =
    Ok (Done (ws, img')) /\ filter about_file ws = [FileNotFound] /\
  represents img' ch' (Volume {[0 := File [97] (seqZ 1 100) 2; 1 := File [99] (seqZ 1 100) 2]} 28).
Proof.
  destruct (write_files_refines_volume 400 (Host (Some blank_image) true true) (s_file test_system) [text "t"]
    wanted blank_image _ _ eq_refl eq_refl eq_refl wanted_buildable (empty_represents _ blank_is_empty))
    as (ws & img' & ch' & E & Hws & Hr); [vm_compute; split_and!; (discriminate || lia)|].
  exists ws, img', ch'. split; [exact E|]. split; [rewrite Hws; vm_compute; reflexivity|].
  refine (eq_ind _ (represents img' ch') Hr _ _). vm_compute. reflexivity.
Defined.

Lemma build_then_session_witness : exists img ws img1 img2,
  main 400 test_system [text "tfsfmt"; text "format"; text "test_tmp.img"] =
    Ok (Wrote (Some (text "test_tmp.img")) img []) /\
  main 400 (put_image test_system (text "test_tmp.img") img)
    [text "tfsfmt"; text "write-files"; text "-file"; text "one_sector.txt:a"; text "-tag"; text "t";
     text "test_tmp.img"; text "-file"; text "gone:b"] = Ok (Wrote (Some (text "test_tmp.img")) img1 ws) /\
  filter about_file ws = [FileNotFound] /\
  serve_all 600 [Read (text "a") 3 70; Mknod (text "b") 33188; Write (text "b") [9] 0; Unlink (text "a");
    Read (text "a") 1 0] img1 = Ok ([Data 3 [71; 72; 73]; Code 0; Code 1; Code 0; Data (-2) []], img2).
Proof.
  destruct (build_then_session 400 600 test_system (text "tfsfmt") (text "test_tmp.img") [] []
    [(FileSpec, text "one_sector.txt:a"); (TagName, text "t")] [(FileSpec, text "gone:b")]
    [Read (text "a") 3 70; Mknod (text "b") 33188; Write (text "b") [9] 0; Unlink (text "a"); Read (text "a") 1 0])
    as (img & ws & img1 & img2 & ch & E1 & E2 & Hws & Es & _);
    [|apply (bool_decide_unpack _); vm_compute; exact I|apply (bool_decide_unpack _); vm_compute; exact I|].
  { split; [discriminate|by eexists|done|by apply Forall_nil|split; cbn; (split_and! || idtac); (done || lia)|discriminate
      |intros []; cbn; lia|apply (bool_decide_unpack _); vm_compute; exact I|cbn; lia
      |split; [vm_compute; reflexivity|vm_compute; discriminate]]. }
  exists img, ws, img1, img2. split; [exact E1|]. split; [exact E2|].
  split; [rewrite Hws; vm_compute; reflexivity|]. rewrite Es. vm_compute. reflexivity.
Defined.
