(* ===== verification/KernelFs.v ===== *)
(** * TagFS in the kernel (src/src/kernel/fs/tagfs.c)

    The kernel's view of the file system: sectors read and written through the
    ATA driver into buffers from the virtual allocator. The state [kernel] is
    the heap with its memory, the driver's arrays, the machine behind the
    ports, and the two globals of tagfs.c. *)
From S2P Require Import Prelude Memory PageFrames Allocator Format Ports Ata TagLayout.

#[local] Open Scope Z_scope.

(** ** State *)

Record TagFS_FS_Metadata : Type := FSMeta {
  m_jump : Z;
  m_version : Z;
  m_sector_count : Z;
  m_sector_size : Z;
  m_file_meta_sector_count : Z;
  m_tag_meta_sector_count : Z;
  m_tag_file_sector_count : Z;
  m_fat_sector_count : Z;
  m_free_file_id : Z;
  m_free_tag_id : Z;
}.
Definition no_metadata : TagFS_FS_Metadata := FSMeta 0 0 0 0 0 0 0 0 0 0.
(** The structure at an address. *)
Definition metadata_at (m : mem) (a : Z) : TagFS_FS_Metadata :=
  FSMeta (ld32 m a) (ld32 m (a + 4)) (ld32 m (a + 8)) (ld32 m (a + 12)) (ld32 m (a + 16))
    (ld32 m (a + 20)) (ld32 m (a + 24)) (ld32 m (a + 28)) (ld16 m (a + 32)) (ld16 m (a + 34)).

Record kernel (P M : Type) : Type := Kernel {
  k_heap : heap P;
  k_ide : ide;
  k_hw : M;
  tfs_fs_meta : TagFS_FS_Metadata;
  tfs_sector_buffer : Z;
}.
Arguments Kernel {P M}.
Arguments k_heap {P M}.
Arguments k_ide {P M}.
Arguments k_hw {P M}.
Arguments tfs_fs_meta {P M}.
Arguments tfs_sector_buffer {P M}.

Record File_Metadata_Result : Type := Found {
  found : bool;
  r_lba : Z;
  r_offset : Z;
}.

Section kernel_fs.
Context {P M : Type} `{FrameSource P} `{Machine M} `{Sink M}.
Notation kernel := (kernel P M).

Definition k_mem (k : kernel) : mem := h_mem (k_heap k).
Definition with_heap (k : kernel) (h : heap P) : kernel :=
  Kernel h (k_ide k) (k_hw k) (tfs_fs_meta k) (tfs_sector_buffer k).
Definition with_mem (k : kernel) (m : mem) : kernel :=
  with_heap k (Heap m (free_segments_head (k_heap k)) (next_page_virt_addr (k_heap k))
    (h_frames (k_heap k))).
Definition with_hw (k : kernel) (s : M) : kernel :=
  Kernel (k_heap k) (k_ide k) s (tfs_fs_meta k) (tfs_sector_buffer k).

(** [ata_read_sector(IDE_BUS_PRIM, 0, lba, buffer)] and its counterpart. *)
Definition disk_read (fuel : nat) (lba buffer : Z) (k : kernel) : res kernel :=
  '(m, s) ← ata_read_sector fuel (k_ide k) IDE_BUS_PRIM 0 lba buffer (k_mem k) (k_hw k);
  Ok (with_hw (with_mem k m) s).
Definition disk_write (fuel : nat) (lba buffer : Z) (k : kernel) : res kernel :=
  s ← ata_write_sector fuel (k_ide k) IDE_BUS_PRIM 0 lba buffer (k_mem k) (k_hw k);
  Ok (with_hw k s).
Definition allocate (fuel : nat) (size : Z) (k : kernel) : res (Z * kernel) :=
  '(a, h) ← memory_allocate fuel size (k_heap k); Ok (a, with_heap k h).
Definition free (fuel : nat) (address : Z) (k : kernel) : res kernel :=
  h ← memory_free fuel address (k_heap k); Ok (with_heap k h).

(** ** Initialisation and the places of the sections *)

Definition tfs_init (fuel : nat) (k : kernel) : res (bool * kernel) :=
  '(buffer, k) ← allocate fuel 512 k;
  let k := Kernel (k_heap k) (k_ide k) (k_hw k) (tfs_fs_meta k) buffer in
  k ← disk_read fuel 0 buffer k;
  Ok (true, Kernel (k_heap k) (k_ide k) (k_hw k) (metadata_at (k_mem k) buffer) buffer).

Section places.
Context (meta : TagFS_FS_Metadata).
Definition tfs_get_file_metadata_lba : Z := 1.
Definition tfs_get_tag_metadata_lba : Z :=
  w32 (tfs_get_file_metadata_lba + m_file_meta_sector_count meta).
Definition tfs_get_tag_file_array_lba : Z :=
  w32 (tfs_get_tag_metadata_lba + m_tag_meta_sector_count meta).
Definition tfs_get_fat_lba : Z :=
  w32 (tfs_get_tag_file_array_lba + m_tag_file_sector_count meta).
Definition tfs_get_data_lba : Z := w32 (tfs_get_fat_lba + m_fat_sector_count meta).
Definition tfs_count_file_meta_entries : Z :=
  w32 (m_file_meta_sector_count meta * m_sector_size meta) / 32.
Definition entries_per_sector : Z := m_sector_size meta / 32.
End places.

Definition tfs_file_metadata_entry_is_free (m : mem) (file_meta : Z) : bool :=
  ld8 m (file_meta + 8) =? 0.

(** ** Looking a file up *)

(** The loop over the entries of the sector in the buffer: its state is [i] and
    [file_count]; it stops with the entry found, if any, and [file_count]. *)
Definition entry_body (m : mem) (buffer per total : Z) (test : Z -> bool) (st : Z * Z)
  : res (step (Z * Z) (option Z * Z)) :=
  let '(i, file_count) := st in
  if i <? per then
    if test (buffer + 32 * i) then Ok (Stop (Some i, file_count)) else
    let file_count := w32 (file_count + 1) in
    if total <? file_count then Ok (Stop (None, file_count)) else Ok (Next (w32 (i + 1), file_count))
  else Ok (Stop (None, file_count)).

(** The body of the loop over the sectors: the state is [file_meta_lba],
    [file_count], [result] and the kernel's. *)
Definition lookup_body (fuel : nat) (path : String_t) (file_meta : Z)
    (st : Z * Z * File_Metadata_Result * kernel) : res (Z * Z * File_Metadata_Result * kernel) :=
  let '(lba, file_count, result, k) := st in
  let buffer := tfs_sector_buffer k in
  k ← disk_read fuel lba buffer k;
  '(entry, file_count) ← loop fuel (entry_body (k_mem k) buffer (entries_per_sector (tfs_fs_meta k))
      (tfs_count_file_meta_entries (tfs_fs_meta k))
      (fun a => str_equals_cstr (k_mem k) path (a + 8))) (0, file_count);
  let '(result, k) :=
    match entry with
    | Some i => (Found true lba (32 * i),
        with_mem k (memory_copy (k_mem k) file_meta (buffer + 32 * i) 32))
    | None => (result, k)
    end in
  Ok (w32 (lba + 1), file_count, result, k).

Definition tfs_get_file_metadata_from_name (fuel : nat) (path : String_t) (file_meta : Z) (k : kernel)
  : res (File_Metadata_Result * kernel) :=
  '(_, _, result, k) ← for_res (Z.to_nat (m_file_meta_sector_count (tfs_fs_meta k))) 0
    (fun _ st => lookup_body fuel path file_meta st)
    (tfs_get_file_metadata_lba, 0, Found false 0 0, k);
  Ok (result, k).

Definition tfs_get_file_attributes (fuel : nat) (path : String_t) (file_meta : Z) (k : kernel)
  : res (bool * kernel) :=
  '(result, k) ← tfs_get_file_metadata_from_name fuel path file_meta k;
  Ok (found result, k).

Definition tfs_find_free_fat (meta : TagFS_FS_Metadata) (m : mem) (fats : Z) : Z :=
  let fat_count := s32 (w32 (m_fat_sector_count meta * m_sector_size meta) / 2) in
  match find_up (Z.to_nat fat_count) 0 (fun i => ld16 m (fats + 2 * i) =? 0) with
  | Some i => i
  | None => -1
  end.

(** ** Reading and writing *)

(** The two sectors of the FAT; [fats] is a [uint16_t *], so the second one
    goes to [fats] plus twice the sector size. *)
Definition load_fats (fuel : nat) (fats : Z) (k : kernel) : res kernel :=
  let fat_lba := tfs_get_fat_lba (tfs_fs_meta k) in
  k ← disk_read fuel fat_lba fats k;
  disk_read fuel (w32 (fat_lba + 1)) (w32 (fats + 2 * m_sector_size (tfs_fs_meta k))) k.

(** The common beginning of [tfs_read] and [tfs_write]. *)
Definition tfs_open (fuel : nat) (path : String_t) (k : kernel)
  : res (Z * Z * File_Metadata_Result * kernel) :=
  _ ← assert "Unsupported sector count." (m_fat_sector_count (tfs_fs_meta k) =? 2);
  let fats_size := w32 (m_sector_size (tfs_fs_meta k) * m_fat_sector_count (tfs_fs_meta k)) in
  '(fats, k) ← allocate fuel fats_size k;
  k ← load_fats fuel fats k;
  '(file_meta, k) ← allocate fuel 32 k;
  '(result, k) ← tfs_get_file_metadata_from_name fuel path file_meta k;
  Ok (fats, file_meta, result, k).

(** The end, at [done]. *)
Definition tfs_close (fuel : nat) (fats file_meta : Z) (result : bool) (k : kernel) : res (bool * kernel) :=
  k ← free fuel file_meta k;
  k ← free fuel fats k;
  Ok (result, k).

(** [fats\[i\]] *)
Definition fats_at (m : mem) (fats i : Z) : Z := ld16 m (w32 (fats + 2 * i)).

(** Following the chain over [n] sectors; [None] when it ends before. *)
Fixpoint skip_sectors (m : mem) (fats : Z) (n : nat) (fat_index : Z) : option Z :=
  match n with
  | O => Some fat_index
  | S n => if fats_at m fats fat_index =? 0xffff then None
           else skip_sectors m fats n (fats_at m fats fat_index)
  end.

(** The loop that reads the sectors after the first: [buf_index], [fat_index]. *)
Definition read_more (fuel : nat) (fats file_meta buffer read_size : Z) (st : Z * Z * kernel)
  : res (step (Z * Z * kernel) kernel) :=
  let '(buf_index, fat_index, k) := st in
  let ss := m_sector_size (tfs_fs_meta k) in
  if buf_index <? read_size then
    if ld32 (k_mem k) (file_meta + 4) <=? buf_index then Ok (Stop k) else
    let fat_index := fats_at (k_mem k) fats fat_index in
    let bytes_to_read := if read_size <=? w32 (buf_index + ss) then w32 (read_size - buf_index) else ss in
    k ← disk_read fuel (w32 (tfs_get_data_lba (tfs_fs_meta k) + fat_index)) (tfs_sector_buffer k) k;
    let k := with_mem k (memory_copy (k_mem k) (w32 (buffer + buf_index)) (tfs_sector_buffer k)
      bytes_to_read) in
    Ok (Next (w32 (buf_index + bytes_to_read), fat_index, k))
  else Ok (Stop k).

(** Dividing by 0 raises an exception, whose handler halts. *)
Definition divisor (n : Z) : res unit := if n =? 0 then Err Halted else Ok tt.

(** From the position in the chain on, with the file found. *)
Definition tfs_read_data (fuel : nat) (fats file_meta buffer read_size offset : Z) (k : kernel)
  : res (bool * kernel) :=
  let ss := m_sector_size (tfs_fs_meta k) in
  _ ← divisor ss;
  let sector_skip_count := offset / ss in
  let byte_skip_count := offset mod ss in
  match skip_sectors (k_mem k) fats (Z.to_nat sector_skip_count) (ld32 (k_mem k) file_meta) with
  | None => Ok (false, k)
  | Some fat_index =>
      k ← disk_read fuel (w32 (tfs_get_data_lba (tfs_fs_meta k) + fat_index)) (tfs_sector_buffer k) k;
      let from := tfs_sector_buffer k + byte_skip_count in
      if read_size <=? ss - byte_skip_count then
        Ok (true, with_mem k (memory_copy (k_mem k) buffer from read_size))
      else
        let first_sector_bytes := ss - byte_skip_count in
        let k := with_mem k (memory_copy (k_mem k) buffer from first_sector_bytes) in
        k ← loop fuel (read_more fuel fats file_meta buffer read_size) (first_sector_bytes, fat_index, k);
        Ok (true, k)
  end.

Definition tfs_read (fuel : nat) (path : String_t) (buffer read_size offset : Z) (k : kernel)
  : res (bool * kernel) :=
  '(fats, file_meta, meta_result, k) ← tfs_open fuel path k;
  '(result, k) ←
    (if negb (found meta_result) then Ok (false, k)
     else tfs_read_data fuel fats file_meta buffer read_size offset k);
  tfs_close fuel fats file_meta result k.

(** Reading a sector, putting bytes into it and writing it back. *)
Definition patch_sector (fuel : nat) (lba at_ from n : Z) (k : kernel) : res kernel :=
  k ← disk_read fuel lba (tfs_sector_buffer k) k;
  disk_write fuel lba (tfs_sector_buffer k)
    (with_mem k (memory_copy (k_mem k) (tfs_sector_buffer k + at_) from n)).

(** The loop that writes the sectors after the first; it stops with
    [buf_index]. *)
Definition write_more (fuel : nat) (fats buffer size : Z) (st : Z * kernel)
  : res (step (Z * kernel) (Z * kernel)) :=
  let '(buf_index, k) := st in
  let ss := m_sector_size (tfs_fs_meta k) in
  if buf_index <? size then
    let fat_index := tfs_find_free_fat (tfs_fs_meta k) (k_mem k) fats in
    if fat_index =? -1 then Ok (Stop (buf_index, k)) else
    let bytes_to_write := if size <=? w32 (buf_index + ss) then w32 (size - buf_index) else ss in
    k ← patch_sector fuel (w32 (tfs_get_data_lba (tfs_fs_meta k) + fat_index)) 0
          (w32 (buffer + buf_index)) bytes_to_write k;
    Ok (Next (w32 (buf_index + bytes_to_write), k))
  else Ok (Stop (buf_index, k)).

(** [if (end > file_meta->size) file_meta->size = end;] *)
Definition grow_meta (file_meta end_ : Z) (k : kernel) : kernel :=
  if ld32 (k_mem k) (file_meta + 4) <? w32 end_
  then with_mem k (st32 (k_mem k) (file_meta + 4) end_) else k.

(** The data of [tfs_write], from the position in the chain on. *)
Definition tfs_write_data (fuel : nat) (fats file_meta buffer size offset fat_index byte_skip_count : Z)
    (k : kernel) : res kernel :=
  let ss := m_sector_size (tfs_fs_meta k) in
  let sector_lba := w32 (tfs_get_data_lba (tfs_fs_meta k) + fat_index) in
  if size <=? ss - byte_skip_count then
    k ← patch_sector fuel sector_lba byte_skip_count buffer size k;
    let k := if fats_at (k_mem k) fats fat_index =? 0
             then with_mem k (st16 (k_mem k) (w32 (fats + 2 * fat_index)) 0xffff) else k in
    Ok (grow_meta file_meta (offset + size) k)
  else
    let first_sector_bytes := ss - byte_skip_count in
    k ← patch_sector fuel sector_lba byte_skip_count buffer first_sector_bytes k;
    '(buf_index, k) ← loop fuel (write_more fuel fats buffer size) (first_sector_bytes, k);
    Ok (grow_meta file_meta (offset + buf_index) k).

(** [tfs_write] once the file is found: the first sector, the position, the
    data, and the entry back to the disk. *)
Definition tfs_write_file (fuel : nat) (fats file_meta buffer size offset : Z)
    (meta_result : File_Metadata_Result) (k : kernel) : res (bool * kernel) :=
  let ss := m_sector_size (tfs_fs_meta k) in
  let first := ld32 (k_mem k) file_meta in
  let fat_index := if first =? 0xffff then tfs_find_free_fat (tfs_fs_meta k) (k_mem k) fats else s32 first in
  if (first =? 0xffff) && (fat_index =? -1) then Ok (false, k) else
  let k := if first =? 0xffff then with_mem k (st32 (k_mem k) file_meta fat_index) else k in
  let file_size := ld32 (k_mem k) (file_meta + 4) in
  let pos := if offset <? file_size then offset else file_size in
  _ ← divisor ss;
  match skip_sectors (k_mem k) fats (Z.to_nat (pos / ss)) fat_index with
  | None => Ok (false, k)
  | Some fat_index =>
      k ← tfs_write_data fuel fats file_meta buffer size offset fat_index (pos mod ss) k;
      k ← patch_sector fuel (r_lba meta_result) (r_offset meta_result) file_meta 32 k;
      Ok (true, k)
  end.

Definition tfs_write (fuel : nat) (path : String_t) (buffer size offset : Z) (k : kernel)
  : res (bool * kernel) :=
  '(fats, file_meta, meta_result, k) ← tfs_open fuel path k;
  '(result, k) ←
    (if negb (found meta_result) then Ok (false, k)
     else tfs_write_file fuel fats file_meta buffer size offset meta_result k);
  tfs_close fuel fats file_meta result k.

(** ** Making a file *)

(** The loop over the sectors of the file entries: the state is
    [file_meta_lba], [file_count] and the kernel's. *)
Definition make_body (fuel : nat) (path : String_t) (st : Z * Z * Z * kernel)
  : res (step (Z * Z * Z * kernel) (bool * kernel)) :=
  let '(sector_offset, lba, file_count, k) := st in
  let meta := tfs_fs_meta k in
  let buffer := tfs_sector_buffer k in
  if sector_offset <? m_file_meta_sector_count meta then
    k ← disk_read fuel lba buffer k;
    '(entry, file_count) ← loop fuel (entry_body (k_mem k) buffer (entries_per_sector meta)
        (tfs_count_file_meta_entries meta) (tfs_file_metadata_entry_is_free (k_mem k))) (0, file_count);
    match entry with
    | Some _ =>
        let m := st32 (k_mem k) buffer 0xffff in
        let m := st32 m (buffer + 4) 0 in
        let m := memory_copy m (buffer + 8) (str_data path) (str_length path) in
        let m := st8 m (buffer + 8 + str_length path) 0 in
        k ← disk_write fuel lba buffer (with_mem k m);
        Ok (Stop (true, k))
    | None =>
        if tfs_count_file_meta_entries meta <? file_count then Ok (Stop (false, k)) else
        Ok (Next (w32 (sector_offset + 1), w32 (lba + 1), file_count, k))
    end
  else Ok (Stop (false, k)).

Definition tfs_make_new_file (fuel : nat) (path : String_t) (k : kernel) : res (bool * kernel) :=
  if 24 <=? str_length path then Ok (false, k) else
  loop fuel (make_body fuel path) (0, tfs_get_file_metadata_lba, 0, k).
End kernel_fs.

(** ** What the disk holds *)

(** A disk holds an image: sector [k] is its bytes from [512 * k] on. *)
Definition holds (disk : gmap Z (list Z)) (img : mem) (n : Z) : Prop :=
  forall k, 0 <= k < n -> default (replicate 512 0) (disk !! k) = bytes_at img (512 * k) 512.

Section kernel_disk.
Context {P M : Type} `{FS : FrameSource P} `{HM : Machine M} `{SK : Sink M} `{SKO : !SinkOk M}
  `{AD : !AtaDrive M}.
Implicit Types (k : kernel P M).

(** The kernel can use the drive: the master of the primary channel, idle or
    about to be. *)
Record ready k : Prop := {
  rd_base : io_base (channel (k_ide k) IDE_BUS_PRIM) = ad_base;
  rd_number : ad_number = 0;
  rd_ok : ad_ok (k_hw k);
  rd_rest : at_rest (ad_state (k_hw k));
}.
Definition disk_of k : gmap Z (list Z) := d_disk (ad_state (k_hw k)).

(** The globals and the drive are as before; only memory may differ. *)
Record same_fs k k' : Prop := {
  sf_ready : ready k';
  sf_meta : tfs_fs_meta k' = tfs_fs_meta k;
  sf_buffer : tfs_sector_buffer k' = tfs_sector_buffer k;
}.

Lemma same_fs_refl k : ready k -> same_fs k k.
Proof. by split. Qed.
Lemma same_fs_trans k1 k2 k3 : same_fs k1 k2 -> same_fs k2 k3 -> same_fs k1 k3.
Proof. intros [] []. split; [done|congruence..]. Qed.
Lemma same_fs_mem k k' m : same_fs k k' -> same_fs k (with_mem k' m).
Proof. by intros [[] ? ?]. Qed.
Lemma disk_with_mem k m : disk_of (with_mem k m) = disk_of k.
Proof. done. Qed.
Lemma mem_with_mem k m : k_mem (with_mem k m) = m.
Proof. done. Qed.

Lemma disk_read_ok fuel lba buffer k : ready k -> 0 <= lba < ad_sectors ->
  (ad_latency + 2 < fuel)%nat ->
  exists k', disk_read fuel lba buffer k = Ok k' /\ same_fs k k' /\ disk_of k' = disk_of k /\
    bytes_at (k_mem k') buffer 512 = default (replicate 512 0) (disk_of k !! lba) /\
    forall x, x < buffer \/ buffer + 512 <= x -> ld8 (k_mem k') x = ld8 (k_mem k) x.
Proof.
  intros [Hb Hn Hok Hi] Hl Hf. unfold disk_read.
  destruct (ata_read_sector_ok (k_ide k) IDE_BUS_PRIM Hb fuel lba buffer (k_mem k) (k_hw k))
    as (m & s & H & Hok' & Hi' & Hd & Hm & Hfr); [done..|].
  rewrite Hn in H. rewrite H, bind_Ok_r. eexists. split; [done|].
  split_and!; [|exact Hd|exact Hm|exact Hfr]. repeat split; try done. by apply idle_at_rest.
Qed.

Lemma disk_read_heap fuel lba buffer k k' : disk_read fuel lba buffer k = Ok k' ->
  k_heap k' = Heap (k_mem k') (free_segments_head (k_heap k)) (next_page_virt_addr (k_heap k))
    (h_frames (k_heap k)).
Proof.
  unfold disk_read. intros H. apply bind_Ok in H as ([m s] & _ & [= <-]). done.
Qed.

Lemma disk_write_ok `{PD : !PromptDrive M} fuel lba buffer k : ready k -> 0 <= lba < ad_sectors ->
  (ad_latency + 2 < fuel)%nat ->
  exists k', disk_write fuel lba buffer k = Ok k' /\ same_fs k k' /\
    disk_of k' = <[lba := bytes_at (k_mem k) buffer 512]> (disk_of k) /\ k_mem k' = k_mem k.
Proof.
  intros [Hb Hn Hok Hi] Hl Hf. unfold disk_write.
  destruct (ata_write_sector_ok (k_ide k) IDE_BUS_PRIM Hb fuel lba buffer (k_mem k) (k_hw k))
    as (s & n & H & Hok' & Hh & Hp & Hd); [done..|].
  rewrite Hn in H. rewrite H, bind_Ok_r. eexists. split; [done|].
  split_and!; [|exact Hd|done]. repeat split; try done.
  exists n. split; [pose proof prompt_drive; lia|done].
Qed.

(** A sector of the image, read into a buffer. *)
Lemma disk_read_image fuel lba buffer k img n : ready k -> holds (disk_of k) img n ->
  0 <= lba < n -> n <= ad_sectors -> (ad_latency + 2 < fuel)%nat ->
  exists k', disk_read fuel lba buffer k = Ok k' /\ same_fs k k' /\ disk_of k' = disk_of k /\
    (forall i, 0 <= i < 512 -> ld8 (k_mem k') (buffer + i) = ld8 img (512 * lba + i)) /\
    forall x, x < buffer \/ buffer + 512 <= x -> ld8 (k_mem k') x = ld8 (k_mem k) x.
Proof.
  intros Hr Hh Hl Hn Hf. destruct (disk_read_ok fuel lba buffer k Hr) as
    (k' & H & Hs & Hd & Hb & Hfr); [lia|done|].
  exists k'. split_and!; try done. intros i Hi. rewrite (Hh lba Hl) in Hb.
  apply (bytes_at_inv _ _ _ _ 512 i Hb). lia.
Qed.
End kernel_disk.
