(* ===== verification/KernelSteps.v ===== *)
(** * What the operations of the kernel's TagFS are made of

    Every operation of src/src/kernel/fs/tagfs.c is a sequence of sector
    transfers, stores to memory and calls of the allocator. A relation between
    kernel states that is a preorder and holds over these holds over the
    operations, when they return: the induction over their loops is done once,
    here, for whatever relation. *)
From S2P Require Import Prelude Memory PageFrames Allocator Format Ports Ata TagLayout KernelFs.

#[local] Open Scope Z_scope.

Section steps.
Context {P M : Type} `{FS : FrameSource P} `{HM : Machine M} `{SK : Sink M}.
Implicit Types (k : kernel P M).
Context (fuel : nat) (R : kernel P M -> kernel P M -> Prop) `{HR : !PreOrder R}.
Context (R_mem : forall k m, R k (with_mem k m)).
Context (R_read : forall lba buffer k k', disk_read fuel lba buffer k = Ok k' -> R k k').
Context (R_write : forall lba buffer k k', disk_write fuel lba buffer k = Ok k' -> R k k').

Lemma load_fats_steps fats k k' : load_fats fuel fats k = Ok k' -> R k k'.
Proof. unfold load_fats. intros (k1 & H1%R_read & H2%R_read)%bind_Ok. by etransitivity. Qed.

Lemma lookup_steps path file_meta k r k' :
  tfs_get_file_metadata_from_name fuel path file_meta k = Ok (r, k') -> R k k'.
Proof.
  unfold tfs_get_file_metadata_from_name. intros ([[[lba fc] r'] k1] & H & [= _ <-])%bind_Ok.
  apply (for_res_inv (fun '(_, _, _, k') => R k k')) in H; [done| |done].
  intros _ [[[l1 c1] r1] k2] [[[l2 c2] r2] k3] Hk H2. unfold lookup_body in H2.
  apply bind_Ok in H2 as (k4 & H4%R_read & ([e c] & _ & H2)%bind_Ok).
  destruct e; injection H2 as _ _ _ <-; do 2 (etransitivity; [eassumption|]); [apply R_mem|done].
Qed.

Lemma attributes_steps path file_meta k b k' :
  tfs_get_file_attributes fuel path file_meta k = Ok (b, k') -> R k k'.
Proof. unfold tfs_get_file_attributes. by intros ([r k1] & H%lookup_steps & [= _ <-])%bind_Ok. Qed.

Lemma patch_steps lba at_ from n k k' : patch_sector fuel lba at_ from n k = Ok k' -> R k k'.
Proof.
  unfold patch_sector. intros (k1 & H1%R_read & H2%R_write)%bind_Ok.
  etransitivity; [exact H1|]. etransitivity; [apply R_mem|exact H2].
Qed.

Lemma read_data_steps fats file_meta buffer n o k r k' :
  tfs_read_data fuel fats file_meta buffer n o k = Ok (r, k') -> R k k'.
Proof.
  unfold tfs_read_data. intros (_ & _ & H)%bind_Ok.
  destruct (skip_sectors _ _ _ _) as [i|]; [|by injection H as _ <-].
  apply bind_Ok in H as (k1 & H1%R_read & H). etransitivity; [exact H1|].
  destruct (_ <=? _); [injection H as _ <-; apply R_mem|].
  apply bind_Ok in H as (k2 & H & [= _ <-]).
  apply (loop_inv _ (fun '(_, _, k') => R k1 k') (fun k' => R k1 k')) in H; [done| |apply R_mem].
  clear - R_mem R_read HR. intros [[bi fi] k2] st Hk. unfold read_more. destruct (bi <? n); [|by intros [= <-]].
  destruct (_ <=? bi); [by intros [= <-]|]. intros (k3 & H3%R_read & [= <-])%bind_Ok.
  do 2 (etransitivity; [eassumption|]). apply R_mem.
Qed.

Lemma grow_meta_steps file_meta e k : R k (grow_meta file_meta e k).
Proof. unfold grow_meta. by destruct (_ <? _). Qed.

Lemma write_data_steps fats file_meta buffer size offset fi skip k k' :
  tfs_write_data fuel fats file_meta buffer size offset fi skip k = Ok k' -> R k k'.
Proof.
  unfold tfs_write_data. destruct (_ <=? _).
  - intros (k3 & H3%patch_steps & [= <-])%bind_Ok. etransitivity; [exact H3|].
    etransitivity; [|apply grow_meta_steps]. by destruct (_ =? _).
  - intros (k3 & H3%patch_steps & ([bi k4] & H4 & [= <-])%bind_Ok)%bind_Ok.
    etransitivity; [exact H3|]. etransitivity; [|apply grow_meta_steps].
    apply (loop_inv _ (fun '(_, k') => R k3 k') (fun '(_, k') => R k3 k')) in H4; [done| |done].
    clear - R_mem R_read R_write HR. intros [bi k] st Hk. unfold write_more. destruct (bi <? size); [|by intros [= <-]].
    destruct (_ =? -1); [by intros [= <-]|]. intros (k5 & H5%patch_steps & [= <-])%bind_Ok. by etransitivity.
Qed.

Lemma write_file_keeps fats file_meta buffer size offset r k b k' :
  tfs_write_file fuel fats file_meta buffer size offset r k = Ok (b, k') -> R k k'.
Proof.
  unfold tfs_write_file. set (fi := if _ =? 0xffff then _ else _). clearbody fi.
  destruct (_ && _); [by intros [= _ <-]|].
  set (k0 := if _ =? 0xffff then _ else _). assert (R k k0) as H0 by (unfold k0; by destruct (_ =? _)).
  clearbody k0. intros (_ & _ & H)%bind_Ok. etransitivity; [exact H0|].
  destruct (skip_sectors _ _ _ _) as [i|]; [|by injection H as _ <-].
  apply bind_Ok in H as (k1 & H1%write_data_steps & (k2 & H2%patch_steps & [= _ <-])%bind_Ok).
  by etransitivity.
Qed.

Lemma make_new_file_steps path k b k' : tfs_make_new_file fuel path k = Ok (b, k') -> R k k'.
Proof.
  unfold tfs_make_new_file. destruct (24 <=? str_length path); [by intros [= _ <-]|].
  intros H. apply (loop_inv _ (fun '(_, _, _, k') => R k k') (fun '(_, k') => R k k')) in H; [done| |done].
  intros [[[so lba] fc] k1] st Hk. unfold make_body. destruct (so <? _); [|by intros [= <-]].
  intros (k2 & H2%R_read & ([e fc'] & _ & H3)%bind_Ok)%bind_Ok.
  destruct e as [i|].
  - apply bind_Ok in H3 as (k3 & H3%R_write & [= <-]).
    etransitivity; [exact Hk|]. etransitivity; [exact H2|]. etransitivity; [apply R_mem|exact H3].
  - destruct (_ <? fc'); injection H3 as <-; by etransitivity.
Qed.

(** ** The whole calls, which allocate and free *)

Context (R_heap : forall k h, R k (with_heap k h)).

Lemma allocate_steps n k a k' : allocate fuel n k = Ok (a, k') -> R k k'.
Proof. unfold allocate. intros ([b h] & _ & [= _ <-])%bind_Ok. apply R_heap. Qed.
Lemma free_steps a k k' : free fuel a k = Ok k' -> R k k'.
Proof. unfold free. intros (h & _ & [= <-])%bind_Ok. apply R_heap. Qed.

Lemma open_steps path k r k' : tfs_open fuel path k = Ok (r, k') -> R k k'.
Proof.
  unfold tfs_open. intros (_ & _ & H)%bind_Ok. apply bind_Ok in H as ([fats k1] & H1%allocate_steps & H).
  apply bind_Ok in H as (k2 & H2%load_fats_steps & H). apply bind_Ok in H as ([fm k3] & H3%allocate_steps & H).
  apply bind_Ok in H as ([r' k4] & H4%lookup_steps & [= _ <-]).
  do 3 (etransitivity; [eassumption|]). done.
Qed.

Lemma close_steps fats file_meta result k b k' : tfs_close fuel fats file_meta result k = Ok (b, k') -> R k k'.
Proof.
  unfold tfs_close. intros (k1 & H1%free_steps & (k2 & H2%free_steps & [= _ <-])%bind_Ok)%bind_Ok. by etransitivity.
Qed.

Lemma tfs_read_steps path buffer n o k b k' : tfs_read fuel path buffer n o k = Ok (b, k') -> R k k'.
Proof.
  unfold tfs_read. intros ([[[fats fm] r] k1] & H1%open_steps & ([b1 k2] & H2 & H3%close_steps)%bind_Ok)%bind_Ok.
  etransitivity; [exact H1|]. etransitivity; [|exact H3]. destruct (negb (found r)); [by injection H2 as _ <-|].
  by eapply read_data_steps.
Qed.

Lemma tfs_write_steps path buffer n o k b k' : tfs_write fuel path buffer n o k = Ok (b, k') -> R k k'.
Proof.
  unfold tfs_write. intros ([[[fats fm] r] k1] & H1%open_steps & ([b1 k2] & H2 & H3%close_steps)%bind_Ok)%bind_Ok.
  etransitivity; [exact H1|]. etransitivity; [|exact H3]. destruct (negb (found r)); [by injection H2 as _ <-|].
  by eapply write_file_keeps.
Qed.
End steps.
