(* ===== verification/Transcript.v ===== *)
(** * What is printed while the disk is used

    [ata_prepare_transfer] prints the sector count register, as two hexadecimal
    digits at most and a newline, before every transfer
    (src/src/hal/ata.c), so the console's output is the text that the kernel
    means to print with such lines between. A [transcript] says where they may
    be; every operation of kernel/fs/tagfs.c prints nothing else. *)
From S2P Require Import Prelude Memory PageFrames Allocator Terminal Format Ports Ata Console.
From S2P Require Import TagLayout KernelFs KernelSteps.

#[local] Open Scope Z_scope.

(** ** Transcripts *)

Inductive entry : Type :=
  | Says (items : list item)
  | Transfers.

(** The line of a transfer: the number of sectors as the drive gives it back. *)
Definition count_items (v : Z) : list item := [IHex FMT_PRINT_LM_HH v; Lit 10].
Definition count_line (l : list Z) : Prop :=
  exists v css, is_u8 v /\ Forall2 item_text (count_items v) css /\ l = concat css.

Definition entry_text (e : entry) (l : list Z) : Prop :=
  match e with
  | Says items => exists css, Forall2 item_text items css /\ l = concat css
  | Transfers => exists ls, Forall count_line ls /\ l = concat ls
  end.

Definition transcript (tr : list entry) (l : list Z) : Prop :=
  exists ls, Forall2 entry_text tr ls /\ l = concat ls.

Lemma transcript_nil : transcript [] [].
Proof. by exists []. Qed.
Lemma transcript_app tr1 tr2 l1 l2 : transcript tr1 l1 -> transcript tr2 l2 -> transcript (tr1 ++ tr2) (l1 ++ l2).
Proof.
  intros (ls1 & H1 & ->) (ls2 & H2 & ->). exists (ls1 ++ ls2). split; [by apply Forall2_app|by rewrite concat_app].
Qed.
Lemma transcript_one e l : entry_text e l -> transcript [e] l.
Proof. intros H. exists [l]. split; [by repeat constructor|]. cbn. by rewrite app_nil_r. Qed.

(** Words, and a text that is not a [%s] argument, say what they are. *)
Lemma says_text items cs l : items = map Lit cs -> entry_text (Says items) l -> l = cs.
Proof. intros -> (css & H & ->). by apply lits_text. Qed.

(** ** Ports that neither print nor disturb what does *)

Class QuietPorts (M : Type) `{AD : AtaDrive M} : Type := {
  qp_port : Z -> Prop;
  qp_drive : forall k, 0 <= k <= 7 -> qp_port (w16 (ad_base + k));
  qp_config : qp_port 0xCF8 /\ qp_port 0xCFC;
  qp_out : forall w p v s, qp_port p -> sink_ok s ->
    sink_ok (mach_out w p v s) /\ sink_out (mach_out w p v s) = sink_out s;
  qp_in : forall w p s, qp_port p -> sink_ok s ->
    sink_ok (mach_in w p s).2 /\ sink_out (mach_in w p s).2 = sink_out s;
}.

Section driver.
Context {M : Type} `{HM : Machine M} `{SK : Sink M} `{SKO : !SinkOk M} `{AD : !AtaDrive M} `{QP : !QuietPorts M}.

(** Between the two states nothing was printed but lines of transfers. *)
Definition chat (s s' : M) : Prop :=
  sink_ok s -> sink_ok s' /\ exists l, entry_text Transfers l /\ sink_out s' = sink_out s ++ l.

Lemma chat_silent s s' : (sink_ok s -> sink_ok s' /\ sink_out s' = sink_out s) -> chat s s'.
Proof.
  intros H Hs. destruct (H Hs) as [Hs' Ho]. split; [done|]. exists []. rewrite app_nil_r. split; [|done].
  by exists [].
Qed.

#[export] Instance chat_pre : PreOrder chat.
Proof.
  split; [intros s; by apply chat_silent|]. intros s1 s2 s3 H12 H23 Hs.
  destruct (H12 Hs) as (Hs2 & l1 & (ls1 & Hl1 & ->) & Ho1). destruct (H23 Hs2) as (Hs3 & l2 & (ls2 & Hl2 & ->) & Ho2).
  split; [done|]. exists (concat (ls1 ++ ls2)). split; [exists (ls1 ++ ls2); split; [by apply Forall_app|done]|].
  by rewrite Ho2, Ho1, concat_app, app_assoc.
Qed.

Context (d : ide) (Hbase : io_base (channel d IDE_BUS_PRIM) = ad_base).

Lemma out_chat p v s : qp_port (w16 p) -> chat s (out_8 p v s) /\ chat s (out_16 p v s) /\ chat s (out_32 p v s).
Proof. intros Hp. split_and!; apply chat_silent; intros Hs; by apply qp_out. Qed.
Lemma in_chat p s : qp_port (w16 p) -> chat s (in_8 p s).2 /\ chat s (in_16 p s).2 /\ chat s (in_32 p s).2.
Proof.
  intros Hp. unfold in_8, in_16, in_32. split_and!; apply chat_silent; intros Hs;
    match goal with |- context [mach_in ?w ?p ?s] => pose proof (qp_in w p s Hp Hs) as H; destruct (mach_in w p s) end;
    exact H.
Qed.

(** The ports of the channel. *)
Lemma register_out k v s : 0 <= k <= 7 -> chat s (out_8 (io_base (channel d IDE_BUS_PRIM) + k) v s).
Proof. intros Hk. rewrite Hbase. by apply out_chat, qp_drive. Qed.
Lemma register_in k s : 0 <= k <= 7 -> chat s (in_8 (io_base (channel d IDE_BUS_PRIM) + k) s).2.
Proof. intros Hk. rewrite Hbase. by apply in_chat, qp_drive. Qed.
Lemma data_out v s : chat s (out_16 (ATA_DATA d IDE_BUS_PRIM) v s).
Proof.
  unfold ATA_DATA. rewrite Hbase. apply out_chat. by apply qp_drive.
Qed.
Lemma data_in s : chat s (in_16 (ATA_DATA d IDE_BUS_PRIM) s).2.
Proof. unfold ATA_DATA. rewrite Hbase. apply in_chat. by apply qp_drive. Qed.

Lemma count_chat fuel v (s s' : M) : (2 < fuel)%nat -> is_u8 v ->
  fmt_print_lit fuel (text "%hhx" ++ [10]) [v] s = Ok s' -> chat s s'.
Proof.
  intros Hf Hv H Hs.
  destruct (fmt_print_lit_ok fuel (count_items v) s) as (css & s1 & H1 & Hc & Hs1 & Ho).
  - repeat constructor.
  - repeat constructor; cbn; unfold is_u8 in *; lia.
  - by repeat constructor.
  - done.
  - done.
  - assert (fmt_print_lit fuel (text "%hhx" ++ [10]) [v] s = Ok s1) as E by exact H1.
    rewrite E in H. injection H as <-. split; [done|]. exists (concat css). split; [|done].
    exists [concat css]. split; [|cbn; by rewrite app_nil_r]. repeat constructor. by exists v, css.
Qed.

(** *** The operations of ata.c *)

Lemma in_8_u8 p (s : M) : is_u8 (in_8 p s).1.
Proof. unfold in_8. destruct (mach_in _ _ _). apply w8_range. Qed.

Lemma select_chat drive s s' : ide_select_drive d IDE_BUS_PRIM drive s = Ok s' -> chat s s'.
Proof.
  unfold ide_select_drive. intros (_ & _ & [= <-])%bind_Ok.
  do 4 (etransitivity; [|by apply register_in]). by apply register_out.
Qed.

Lemma prepare_chat fuel drive lba s s' : (2 < fuel)%nat ->
  ata_prepare_transfer fuel d IDE_BUS_PRIM drive lba s = Ok s' -> chat s s'.
Proof.
  intros Hf. unfold ata_prepare_transfer. intros (_ & _ & (_ & _ & H)%bind_Ok)%bind_Ok.
  unfold ATA_DRIVE_OR_HEAD, ATA_SECTOR_COUNT, ATA_LBALOW_OR_SECTORNUM, ATA_LBAMID_OR_CYLINDERLOW,
    ATA_LBAHIGH_OR_CYLINDERHIGH in H.
  set (s2 := out_8 _ 1 _) in H. assert (chat s s2) as H2 by (unfold s2; do 2 (etransitivity; [|by apply register_out]); done). clearbody s2.
  pose proof (register_in 2 s2 ltac:(lia)) as H3. pose proof (in_8_u8 (io_base (channel d IDE_BUS_PRIM) + 2) s2) as Hv.
  destruct (in_8 _ s2) as [v s3]. cbn [fst snd] in *.
  apply bind_Ok in H as (s4 & H4 & [= <-]). apply count_chat in H4; [|done..].
  do 3 (etransitivity; [eassumption|]). do 3 (etransitivity; [|by apply register_out]). done.
Qed.

Lemma poll_chat fuel cond v s v' s' : poll fuel d IDE_BUS_PRIM cond v s = Ok (v', s') -> chat s s'.
Proof.
  unfold poll. intros H.
  apply (loop_inv _ (fun '(_, s') => chat s s') (fun '(_, s') => chat s s')) in H; [done| |done].
  intros [v1 s1] r Hs. destruct (cond v1); intros [= <-]; [|done].
  pose proof (register_in 7 s1 ltac:(lia)) as H1. unfold ATA_STATUS.
  destruct (in_8 _ s1). by etransitivity.
Qed.

Lemma start_chat fuel drive lba command s v s' : (2 < fuel)%nat ->
  ata_start fuel d IDE_BUS_PRIM drive lba command s = Ok (v, s') -> chat s s'.
Proof.
  intros Hf. unfold ata_start. intros (s1 & H1%select_chat & (s2 & H2%prepare_chat & H)%bind_Ok)%bind_Ok; [|done].
  etransitivity; [exact H1|]. etransitivity; [exact H2|].
  pose proof (register_out 7 command s2 ltac:(lia)) as H3. unfold ATA_COMMAND in H. set (s3 := out_8 _ _ _) in *.
  etransitivity; [exact H3|]. pose proof (register_in 7 s3 ltac:(lia)) as H4. unfold ATA_STATUS in H.
  destruct (in_8 _ s3) as [v4 s4]. cbn [snd] in H4. etransitivity; [exact H4|].
  apply bind_Ok in H as ([v5 s5] & H5%poll_chat & ([v6 s6] & H6%poll_chat & H)%bind_Ok).
  etransitivity; [exact H5|]. etransitivity; [exact H6|].
  apply bind_Ok in H as (s7 & H7 & H). apply bind_Ok in H as (u & Hok & [= _ <-]).
  destruct (has v6 _); [done|]. by injection H7 as <-.
Qed.

Lemma read_sector_chat fuel drive lba buffer m s m' s' : (2 < fuel)%nat ->
  ata_read_sector fuel d IDE_BUS_PRIM drive lba buffer m s = Ok (m', s') -> chat s s'.
Proof.
  intros Hf. unfold ata_read_sector. intros ([v s1] & H1%start_chat & H)%bind_Ok; [|done].
  etransitivity; [exact H1|].
  match type of H with Ok ?x = _ => enough (chat s1 x.2) as Hc by (by replace x with (m', s') in Hc by congruence) end.
  apply (for_up_ind (fun _ ms => chat s1 ms.2) _ 256 0); [done|]. intros k [m2 s2] _ Hs.
  pose proof (data_in s2) as H2. destruct (in_16 _ s2). by etransitivity.
Qed.

Lemma write_sector_chat fuel drive lba buffer m s s' : (2 < fuel)%nat ->
  ata_write_sector fuel d IDE_BUS_PRIM drive lba buffer m s = Ok s' -> chat s s'.
Proof.
  intros Hf. unfold ata_write_sector. intros ([v s1] & H1%start_chat & H)%bind_Ok; [|done].
  etransitivity; [exact H1|]. set (s2 := for_up 256 0 _ s1) in H.
  assert (chat s1 s2) as H2.
  { apply (for_up_ind (fun _ s' => chat s1 s') _ 256 0); [done|]. intros k t _ Ht. etransitivity; [exact Ht|]. apply data_out. }
  etransitivity; [exact H2|]. apply bind_Ok in H as ([v3 s3] & H3%poll_chat & [= <-]).
  etransitivity; [|exact H3]. by apply register_out.
Qed.
End driver.

(** ** The operations of kernel/fs/tagfs.c *)

Section calls.
Context {P M : Type} `{FS : FrameSource P} `{HM : Machine M} `{SK : Sink M} `{SKO : !SinkOk M}
  `{AD : !AtaDrive M} `{QP : !QuietPorts M}.
Implicit Types (k : kernel P M).

(** On the kernel's console only lines of transfers have appeared. *)
Definition chats k k' : Prop :=
  io_base (channel (k_ide k) IDE_BUS_PRIM) = ad_base -> k_ide k' = k_ide k /\ chat (k_hw k) (k_hw k').

#[export] Instance chats_pre : PreOrder chats.
Proof.
  split; [by intros k|]. intros k1 k2 k3 H12 H23 Hb. destruct (H12 Hb) as [E H1].
  destruct H23 as [E' H2]; [by rewrite E|]. split; [by rewrite E'|by etransitivity].
Qed.

Lemma chats_mem k m : chats k (with_mem k m).
Proof. by intros _. Qed.
Lemma chats_heap k h : chats k (with_heap k h).
Proof. by intros _. Qed.

Context (fuel : nat) (Hf : (2 < fuel)%nat).

Lemma disk_read_chats lba buffer k k' : disk_read fuel lba buffer k = Ok k' -> chats k k'.
Proof. unfold disk_read. intros ([m s] & H & [= <-])%bind_Ok Hb. split; [done|]. by eapply read_sector_chat. Qed.
Lemma disk_write_chats lba buffer k k' : disk_write fuel lba buffer k = Ok k' -> chats k k'.
Proof. unfold disk_write. intros (s & H & [= <-])%bind_Ok Hb. split; [done|]. by eapply write_sector_chat. Qed.

Lemma attributes_chats path file_meta k b k' :
  tfs_get_file_attributes fuel path file_meta k = Ok (b, k') -> chats k k'.
Proof. eapply (attributes_steps fuel chats); [apply chats_mem|apply disk_read_chats]. Qed.
Lemma make_new_file_chats path k b k' : tfs_make_new_file fuel path k = Ok (b, k') -> chats k k'.
Proof.
  eapply (make_new_file_steps fuel chats); [apply chats_mem|apply disk_read_chats|apply disk_write_chats].
Qed.
Lemma tfs_read_chats path buffer n o k b k' : tfs_read fuel path buffer n o k = Ok (b, k') -> chats k k'.
Proof. eapply (tfs_read_steps fuel chats); [apply chats_mem|apply disk_read_chats|apply chats_heap]. Qed.
Lemma tfs_write_chats path buffer n o k b k' : tfs_write fuel path buffer n o k = Ok (b, k') -> chats k k'.
Proof.
  eapply (tfs_write_steps fuel chats);
    [apply chats_mem|apply disk_read_chats|apply disk_write_chats|apply chats_heap].
Qed.
End calls.
