(* ===== verification/KernelLookup.v ===== *)
(** * Finding and making files in the kernel

    [tfs_get_file_metadata_from_name], [tfs_get_file_attributes] and
    [tfs_make_new_file] of src/src/kernel/fs/tagfs.c against the image that the
    disk holds. *)
From S2P Require Import Prelude Memory PageFrames Allocator Format Ports Ata TagLayout TagFrame KernelFs.

#[local] Open Scope Z_scope.

(** Two blocks do not meet. *)
Definition apart (a n b m : Z) : Prop := a + n <= b \/ b + m <= a.

(** Equality of a counted string with the C string at [a]. *)
Lemma str_equals_name m path name a : 0 <= str_length path ->
  bytes_at m (str_data path) (Z.to_nat (str_length path)) = name ->
  str_equals_cstr m path a = name_eq m name a.
Proof.
  intros Hlen <-. unfold str_equals_cstr, name_eq. rewrite length_bytes_at, Z2Nat.id by done.
  destruct (find_up _ _ _) as [i|] eqn:E.
  - apply find_up_Some in E as (Hi & Hne & _). rewrite bool_decide_eq_false_2; [done|].
    intros Heq. apply negb_true_iff, Z.eqb_neq in Hne. apply Hne.
    symmetry. apply (bytes_at_inv m m a (str_data path) _ i Heq). lia.
  - rewrite find_up_None in E. rewrite bool_decide_eq_true_2; [done|].
    apply bytes_at_ext. intros i Hi. specialize (E i ltac:(lia)).
    apply negb_false_iff, Z.eqb_eq in E. done.
Qed.

(** A name compared at a place and at a copy of it. *)
Lemma name_eq_copy m m' name a a' :
  (forall i, 0 <= i <= Z.of_nat (length name) -> ld8 m (a + i) = ld8 m' (a' + i)) ->
  name_eq m name a = name_eq m' name a'.
Proof.
  intros H. unfold name_eq. rewrite H by lia.
  by rewrite (bytes_at_ext m m' a a' (length name)) by (intros; apply H; lia).
Qed.

(** The loop over the entries of a sector is a search when the count of all
    entries is not reached. *)
Lemma entry_loop m buffer (per : nat) total test : Z.of_nat per < 4294967296 -> total < 4294967295 ->
  forall left i fc fuel, 0 <= i -> i + Z.of_nat left = Z.of_nat per -> 0 <= fc ->
  fc + Z.of_nat left <= total -> (left < fuel)%nat ->
  loop fuel (entry_body m buffer (Z.of_nat per) total test) (i, fc) =
    Ok (let r := find_up left i (fun i => test (buffer + 32 * i)) in
        (r, match r with Some j => fc + (j - i) | None => fc + Z.of_nat left end)).
Proof.
  intros Hper Htot. induction left as [|left IH]; intros i fc [|fuel] Hi Hl Hfc Hle Hf; try lia;
    cbn [loop find_up]; unfold entry_body at 1; destruct (Z.ltb_spec i (Z.of_nat per)); try lia.
  - do 2 f_equal. lia.
  - destruct (test (buffer + 32 * i)) eqn:E; [do 2 f_equal; lia|].
    rewrite w32_id by (unfold is_u32; lia). destruct (Z.ltb_spec total (fc + 1)); [lia|].
    rewrite w32_id by (unfold is_u32; lia). rewrite IH by lia.
    do 2 f_equal. destruct (find_up _ _ _); lia.
Qed.

Section mounted.
Context {P M : Type} `{FS : FrameSource P} `{HM : Machine M} `{SK : Sink M} `{SKO : !SinkOk M}
  `{AD : !AtaDrive M} `{PD : !PromptDrive M}.
Implicit Types (k : kernel P M).

(** The kernel works on a disk that holds the image, of 512-byte sectors, and
    has read its header. *)
Record mounted (img : mem) k : Prop := {
  mt_ready : ready k;
  mt_layout : layout_ok img;
  mt_512 : fs_sector_size img = 512;
  mt_holds : holds (disk_of k) img (fs_sector_count img);
  mt_fits : fs_sector_count img <= ad_sectors;
  mt_meta : tfs_fs_meta k = metadata_at img 0;
}.

Lemma mounted_same img k k' : mounted img k -> same_fs k k' -> disk_of k' = disk_of k -> mounted img k'.
Proof. intros [] [] Hd. split; try done; [by rewrite Hd|congruence]. Qed.

Section image.
Context (img : mem) (Hok : layout_ok img) (H512 : fs_sector_size img = 512).

Lemma meta_fields : m_sector_size (metadata_at img 0) = 512 /\
  m_file_meta_sector_count (metadata_at img 0) = fs_file_meta_sector_count img /\
  m_fat_sector_count (metadata_at img 0) = fs_fat_sector_count img.
Proof. by split_and!. Qed.

(** The sections in sectors. *)
Lemma sections_512 : 0 <= fs_file_meta_sector_count img /\ 0 <= fs_tag_meta_sector_count img /\
  0 <= fs_tag_file_sector_count img /\ 0 <= fs_fat_sector_count img /\
  count_file_meta_entries img = 16 * fs_file_meta_sector_count img /\
  fat_count img = 256 * fs_fat_sector_count img /\
  1 + fs_file_meta_sector_count img + fs_tag_meta_sector_count img + fs_tag_file_sector_count img +
    fs_fat_sector_count img + fat_count img <= fs_sector_count img /\
  fs_sector_count img < 4194304 /\ fs_file_meta_sector_count img < 4096.
Proof.
  destruct (header_range img) as (H1&H2&H3&H4&H5).
  pose proof (layout_sums img Hok) as (_&_&_&_&_&_&_&Hd&Hfc&Hcnt&_).
  pose proof (lay_total Hok) as Ht. pose proof (lay_data Hok) as Hda. pose proof (lay_files Hok) as Hf.
  rewrite H512 in *.
  assert (count_file_meta_entries img = 16 * fs_file_meta_sector_count img) as E1
    by (rewrite Hcnt; zmod).
  assert (fat_count img = 256 * fs_fat_sector_count img) as E2 by (rewrite Hfc; zmod).
  rewrite <- Hfc in Hda. split_and!; lia.
Qed.

(** The place of entry [16 * j + i]: sector [1 + j], offset [32 * i]. *)
Lemma file_entry_512 j i : file_entry img (16 * j + i) = 512 * (1 + j) + 32 * i.
Proof. unfold file_entry, get_file_metadata. rewrite H512. lia. Qed.
End image.

(** ** One sector of the lookup *)

Section lookup.
Context (img : mem) (path : String_t) (name : list Z) (file_meta : Z) (k0 : kernel P M).
Context (Hmt : mounted img k0) (Hlen : (length name < 24)%nat).
Context (Hpath : bytes_at (k_mem k0) (str_data path) (Z.to_nat (str_length path)) = name).
Context (Hpl : 0 <= str_length path).
Abbreviation buffer := (tfs_sector_buffer k0).
Context (Hpb : apart (str_data path) (str_length path) buffer 512).
Context (Hpm : apart (str_data path) (str_length path) file_meta 32).
Context (Hmb : apart file_meta 32 buffer 512).

Definition matches (i : Z) : bool := name_eq img name (name_of (file_entry img i)).
Definition hit_in (j : Z) : option Z := find_up 16 0 (fun i => matches (16 * j + i)).

(** What the memory is during the lookup. *)
Definition outside (k : kernel P M) : Prop :=
  forall x, (x < buffer \/ buffer + 512 <= x) -> (x < file_meta \/ file_meta + 32 <= x) ->
    ld8 (k_mem k) x = ld8 (k_mem k0) x.

Lemma lookup_turn j fc r k fuel : 0 <= j < fs_file_meta_sector_count img -> 0 <= fc <= 16 * j ->
  same_fs k0 k -> disk_of k = disk_of k0 -> outside k -> (ad_latency + 2 < fuel)%nat -> (16 < fuel)%nat ->
  exists fc' k', lookup_body fuel path file_meta (1 + j, fc, r, k) =
      Ok (1 + (j + 1), fc', match hit_in j with Some i => Found true (1 + j) (32 * i) | None => r end, k') /\
    0 <= fc' <= 16 * (j + 1) /\ same_fs k0 k' /\ disk_of k' = disk_of k0 /\ outside k' /\
    match hit_in j with
    | Some i => forall b, 0 <= b < 32 ->
        ld8 (k_mem k') (file_meta + b) = ld8 img (file_entry img (16 * j + i) + b)
    | None => forall b, 0 <= b < 32 -> ld8 (k_mem k') (file_meta + b) = ld8 (k_mem k) (file_meta + b)
    end.
Proof.
  intros Hj Hfc Hs Hd Hout Hf Hf16. pose proof Hmt as [_ Hok H512 Hh Hfit Hmeta].
  destruct (sections_512 img Hok H512) as (?&?&?&?&Hcnt&?&Hsum&Hmax&Hfm).
  unfold lookup_body. rewrite (sf_buffer _ _ Hs).
  destruct (disk_read_image fuel (1 + j) buffer k img (fs_sector_count img)) as
    (k1 & -> & Hs1 & Hd1 & Hb1 & Hfr1); [apply (sf_ready _ _ Hs)|by rewrite Hd|lia|done|done|].
  rewrite bind_Ok_r. cbv zeta. rewrite (sf_meta _ _ Hs1), (sf_meta _ _ Hs), Hmeta.
  unfold entries_per_sector, tfs_count_file_meta_entries.
  change (m_sector_size (metadata_at img 0)) with (fs_sector_size img).
  change (m_file_meta_sector_count (metadata_at img 0)) with (fs_file_meta_sector_count img).
  rewrite H512. change (512 / 32) with (Z.of_nat 16).
  rewrite (w32_id (_ * 512)) by (unfold is_u32; lia).
  replace (fs_file_meta_sector_count img * 512 / 32) with (16 * fs_file_meta_sector_count img) by zmod.
  rewrite entry_loop with (left := 16%nat) by lia. rewrite bind_Ok_r. cbv zeta.
  assert (find_up 16 0 (fun i => str_equals_cstr (k_mem k1) path (buffer + 32 * i + 8)) = hit_in j) as ->.
  { apply find_up_ext. intros i Hi. unfold matches. rewrite (str_equals_name _ _ name).
    - apply name_eq_copy. intros b Hb. unfold name_of. rewrite file_entry_512 by done.
      replace (buffer + 32 * i + 8 + b) with (buffer + (32 * i + 8 + b)) by lia.
      rewrite Hb1 by lia. f_equal. lia.
    - done.
    - rewrite <- Hpath. apply bytes_at_ext. intros b Hb. destruct Hpb, Hpm.
      all: rewrite Hfr1 by lia; apply Hout; lia. }
  assert (same_fs k0 k1) as Hs01 by (by eapply same_fs_trans).
  rewrite w32_id by (unfold is_u32; lia). replace (1 + j + 1) with (1 + (j + 1)) by lia.
  destruct (hit_in j) as [i|] eqn:E.
  - apply find_up_Some in E as (Hi & _ & _).
    eexists _, (with_mem k1 _). split; [done|].
    split; [lia|]. split; [by apply same_fs_mem|]. split; [by rewrite disk_with_mem, Hd1|].
    assert (file_meta <= buffer + 32 * i \/ buffer + 32 * i + 32 <= file_meta) as Hap
      by (destruct Hmb; lia).
    split.
    + intros x Hx1 Hx2. rewrite mem_with_mem, ld8_memory_copy, decide_False by lia.
      rewrite Hfr1 by done. by apply Hout.
    + intros b Hb. rewrite mem_with_mem, ld8_memory_copy, decide_True by lia.
      rewrite file_entry_512 by done.
      replace (buffer + 32 * i + (file_meta + b - file_meta)) with (buffer + (32 * i + b)) by lia.
      rewrite Hb1 by lia. f_equal. lia.
  - eexists _, k1. split; [done|]. split_and!; [lia|lia|done|by rewrite Hd1| |].
    + intros x Hx1 Hx2. rewrite Hfr1 by done. by apply Hout.
    + intros b Hb. apply Hfr1. destruct Hmb; lia.
Qed.

(** ** All sectors *)

(** What the lookup knows after [j] sectors: the last sector with a match
    counts, and in it the first entry. *)
Definition lookup_result (j : Z) (r : File_Metadata_Result) (k : kernel P M) : Prop :=
  (r = Found false 0 0 /\ forall j', 0 <= j' < j -> hit_in j' = None) \/
  exists jj i, 0 <= jj < j /\ hit_in jj = Some i /\ r = Found true (1 + jj) (32 * i) /\
    (forall b, 0 <= b < 32 -> ld8 (k_mem k) (file_meta + b) = ld8 img (file_entry img (16 * jj + i) + b)) /\
    forall j', jj < j' < j -> hit_in j' = None.

Lemma lookup_all fuel : (ad_latency + 2 < fuel)%nat -> (16 < fuel)%nat ->
  exists r k', tfs_get_file_metadata_from_name fuel path file_meta k0 = Ok (r, k') /\
    same_fs k0 k' /\ disk_of k' = disk_of k0 /\ outside k' /\
    lookup_result (fs_file_meta_sector_count img) r k'.
Proof.
  intros Hf Hf16. pose proof (mt_layout _ _ Hmt) as Hok. pose proof (mt_512 _ _ Hmt) as H512.
  destruct (sections_512 img Hok H512) as (Hfm&_).
  unfold tfs_get_file_metadata_from_name. rewrite (mt_meta _ _ Hmt).
  change (m_file_meta_sector_count (metadata_at img 0)) with (fs_file_meta_sector_count img).
  set (P0 := fun j '(lba, fc, r, k) => lba = 1 + j /\ 0 <= fc <= 16 * j /\ same_fs k0 k /\
    disk_of k = disk_of k0 /\ outside k /\ lookup_result j r k).
  destruct (for_res_ind P0 (fun _ st => lookup_body fuel path file_meta st)
    (Z.to_nat (fs_file_meta_sector_count img)) 0 (tfs_get_file_metadata_lba, 0, Found false 0 0, k0))
    as ([[[lba fc] r] k'] & Hloop & HP).
  - split_and!; [done|lia|lia|apply same_fs_refl, (mt_ready _ _ Hmt)|done|by intros x _ _|].
    left. split; [done|]. lia.
  - intros j [[[lba fc] r] k] Hj (-> & Hfc & Hs & Hd & Hout & Hr).
    destruct (lookup_turn j fc r k fuel) as (fc' & k' & Hb & Hfc' & Hs' & Hd' & Hout' & Hm');
      [lia|done..|].
    eexists (_, fc', _, k'). split; [exact Hb|]. split_and!; [done|lia|lia|done|done|done|].
    destruct (hit_in j) as [i|] eqn:E.
    + right. exists j, i. split_and!; [lia|lia|done|done|done|]. lia.
    + destruct Hr as [[-> Hnone]|(jj & i & Hjj & Hhit & -> & Hbytes & Hnone)].
      * left. split; [done|]. intros j' Hj'. destruct (Z.eq_dec j' j) as [-> |]; [done|apply Hnone; lia].
      * right. exists jj, i. split_and!; [lia|lia|done|done| |].
        -- intros b Hb'. rewrite Hm' by done. by apply Hbytes.
        -- intros j' Hj'. destruct (Z.eq_dec j' j) as [-> |]; [done|apply Hnone; lia].
  - rewrite Hloop, bind_Ok_r. destruct HP as (_ & _ & Hs & Hd & Hout & Hr).
    rewrite Z2Nat.id, Z.add_0_l in Hr by done. exists r, k'. by split_and!.
Qed.

(** With one file of that name at most, the lookup is the search over all
    entries. *)
Lemma lookup_unique : (forall i j, 0 <= i < count_file_meta_entries img ->
    0 <= j < count_file_meta_entries img -> matches i = true -> matches j = true -> i = j) ->
  forall r k, lookup_result (fs_file_meta_sector_count img) r k ->
  let id := get_file_id_from_name img name in
  (id = 0 /\ r = Found false 0 0) \/
  (1 <= id <= count_file_meta_entries img /\
   r = Found true (1 + (id - 1) / 16) (32 * ((id - 1) mod 16)) /\
   forall b, 0 <= b < 32 -> ld8 (k_mem k) (file_meta + b) = ld8 img (file_entry img (id - 1) + b)).
Proof.
  intros Huniq r k Hr. cbv zeta. pose proof (mt_layout _ _ Hmt) as Hok.
  destruct (sections_512 img Hok (mt_512 _ _ Hmt)) as (?&_&_&_&Hcnt&_&_&_&Hfm).
  unfold get_file_id_from_name.
  destruct (find_up _ _ _) as [i0|] eqn:E.
  - apply find_up_Some in E as (Hi0 & Hm0 & _). fold (matches i0) in Hm0.
    rewrite w16_id, Z.add_simpl_r by (unfold is_u16; lia). right.
    assert (0 <= i0 / 16 < fs_file_meta_sector_count img) as Hj0 by zmod.
    destruct Hr as [[_ Hnone]|(jj & i & Hjj & Hhit & -> & Hb & _)].
    + specialize (Hnone (i0 / 16) Hj0). unfold hit_in in Hnone. rewrite find_up_None in Hnone.
      specialize (Hnone (i0 mod 16) ltac:(zmod)).
      replace (16 * (i0 / 16) + i0 mod 16) with i0 in Hnone by zmod. congruence.
    + apply find_up_Some in Hhit as (Hi & Hmi & _).
      assert (16 * jj + i = i0) as <- by (apply Huniq; (done || lia)).
      split; [lia|]. split; [|done]. f_equal; zmod.
  - left. split; [done|]. destruct Hr as [[-> _]|(jj & i & Hjj & Hhit & _)]; [done|]. exfalso.
    apply find_up_Some in Hhit as (Hi & Hmi & _). rewrite find_up_None in E.
    specialize (E (16 * jj + i) ltac:(lia)). unfold matches in Hmi. congruence.
Qed.
End lookup.
End mounted.

(** ** Making a file *)

(** The entry that [tfs_make_new_file] writes, put into an image at [e]. *)
Definition new_entry (img : mem) (e : Z) (name : list Z) : mem :=
  st_bytes (st32 (st32 img e 0xffff) (e + 4) 0) (e + 8) (name ++ [0]).

Lemma new_entry_frame img e name : (length name < 24)%nat -> only_in e 32 img (new_entry img e name).
Proof.
  intros Hl x Hx. unfold new_entry. rewrite ld8_st_bytes, length_app, decide_False by (cbn; lia).
  by rewrite !ld8_st32_ne by lia.
Qed.

Lemma new_entry_fields img e name : name_ok name ->
  first_data_sector (new_entry img e name) e = 0xffff /\ file_size (new_entry img e name) e = 0 /\
  name_eq (new_entry img e name) name (name_of e) = true.
Proof.
  intros Hn. unfold new_entry, first_data_sector, file_size, name_of.
  set (m := st32 (st32 img e 0xffff) (e + 4) 0).
  assert (forall x, x < e + 8 -> ld8 (st_bytes m (e + 8) (name ++ [0])) x = ld8 m x) as Hfr
    by (intros x Hx; rewrite ld8_st_bytes, decide_False by lia; done).
  split_and!; [| |by apply name_eq_stored].
  - rewrite (ld32_frame m) by (intros; apply Hfr; lia). unfold m. rewrite ld32_st32_ne by lia.
    by rewrite ld32_st32_eq.
  - rewrite (ld32_frame m) by (intros; apply Hfr; lia). unfold m. by rewrite ld32_st32_eq.
Qed.

(** The buffer after the code has filled the entry in. *)
Lemma buffer_filled m img buffer e src len name : 0 <= len < 24 ->
  (forall b, 0 <= b < 512 -> ld8 m (buffer + b) = ld8 img (e + b)) ->
  bytes_at m src (Z.to_nat len) = name -> apart src len buffer 512 ->
  let m' := st8 (memory_copy (st32 (st32 m buffer 0xffff) (buffer + 4) 0) (buffer + 8) src len)
    (buffer + 8 + len) 0 in
  bytes_at m' buffer 512 = bytes_at (new_entry img e name) e 512.
Proof.
  intros Hlen Hb Hname Hap. cbv zeta. apply bytes_at_ext. intros b Hbr.
  set (m1 := st32 (st32 m buffer 0xffff) (buffer + 4) 0).
  assert (length name = Z.to_nat len) as Hnl by (by rewrite <- Hname, length_bytes_at).
  unfold new_entry. rewrite ld8_st8, ld8_st_bytes, length_app, Hnl. cbn [length].
  rewrite ld8_memory_copy by (destruct Hap; lia).
  destruct (decide (buffer + 8 + len = buffer + b)).
  { rewrite decide_True by lia. replace (Z.to_nat (e + b - (e + 8))) with (Z.to_nat len) by lia.
    rewrite lookup_app_r, Hnl, Nat.sub_diag by lia. done. }
  destruct (decide (buffer + 8 <= buffer + b < buffer + 8 + len)).
  - rewrite decide_True by lia. replace (Z.to_nat (e + b - (e + 8))) with (Z.to_nat (b - 8)) by lia.
    rewrite lookup_app_l by lia. rewrite <- Hname, lookup_bytes_at by lia.
    change (w8 (default 0 (Some ?x))) with (w8 x). cbn [default].
    unfold m1. destruct Hap; rewrite !ld8_st32_ne by lia; cbn;
      (rewrite w8_id by apply ld8_range); f_equal; lia.
  - rewrite decide_False by lia. unfold m1. apply ld8_st32_shift; [lia|].
    apply ld8_st32_shift; [lia|]. by apply Hb.
Qed.

Section make.
Context {P M : Type} `{FS : FrameSource P} `{HM : Machine M} `{SK : Sink M} `{SKO : !SinkOk M}
  `{AD : !AtaDrive M} `{PD : !PromptDrive M}.
Context (img : mem) (path : String_t) (name : list Z) (k0 : kernel P M).
Context (Hmt : mounted img k0) (Hpl : 0 <= str_length path < 24).
Context (Hpath : bytes_at (k_mem k0) (str_data path) (Z.to_nat (str_length path)) = name).
Context (Hpb : apart (str_data path) (str_length path) (tfs_sector_buffer k0) 512).
Context (fuel : nat) (Hf : (ad_latency + 2 < fuel)%nat) (Hf16 : (16 < fuel)%nat).

Definition free_in (j : Z) : option Z :=
  find_up 16 0 (fun i => file_metadata_entry_is_free img (file_entry img (16 * j + i))).

(** The kernel while it looks for a free entry: only the buffer differs. *)
Definition searching (k : kernel P M) : Prop :=
  same_fs k0 k /\ disk_of k = disk_of k0 /\
  forall x, x < tfs_sector_buffer k0 \/ tfs_sector_buffer k0 + 512 <= x ->
    ld8 (k_mem k) x = ld8 (k_mem k0) x.

Lemma make_turn j k : 0 <= j < fs_file_meta_sector_count img -> searching k ->
  exists k', searching k' /\
  match free_in j with
  | None => make_body fuel path (j, 1 + j, 16 * j, k) =
      Ok (Next (j + 1, 1 + (j + 1), 16 * (j + 1), k'))
  | Some _ => exists k'', make_body fuel path (j, 1 + j, 16 * j, k) = Ok (Stop (true, k'')) /\
      same_fs k0 k'' /\
      disk_of k'' = <[1 + j := bytes_at (new_entry img (512 * (1 + j)) name) (512 * (1 + j)) 512]>
        (disk_of k0) /\
      forall x, x < tfs_sector_buffer k0 \/ tfs_sector_buffer k0 + 512 <= x ->
        ld8 (k_mem k'') x = ld8 (k_mem k0) x
  end.
Proof.
  intros Hj (Hs & Hd & Hout). pose proof Hmt as [_ Hok H512 Hh Hfit Hmeta].
  destruct (sections_512 img Hok H512) as (?&?&?&?&Hcnt&?&Hsum&Hmax&Hfm).
  unfold make_body. rewrite (sf_buffer _ _ Hs), (sf_meta _ _ Hs), Hmeta.
  unfold entries_per_sector, tfs_count_file_meta_entries.
  change (m_sector_size (metadata_at img 0)) with (fs_sector_size img).
  change (m_file_meta_sector_count (metadata_at img 0)) with (fs_file_meta_sector_count img).
  rewrite H512. destruct (Z.ltb_spec j (fs_file_meta_sector_count img)); [|lia].
  destruct (disk_read_image fuel (1 + j) (tfs_sector_buffer k0) k img (fs_sector_count img)) as
    (k1 & -> & Hs1 & Hd1 & Hb1 & Hfr1); [apply (sf_ready _ _ Hs)|by rewrite Hd|lia|done|done|].
  rewrite bind_Ok_r. cbv zeta. change (512 / 32) with (Z.of_nat 16).
  rewrite (w32_id (_ * 512)) by (unfold is_u32; lia).
  replace (fs_file_meta_sector_count img * 512 / 32) with (16 * fs_file_meta_sector_count img) by zmod.
  rewrite entry_loop with (left := 16%nat) by lia. rewrite bind_Ok_r. cbv zeta.
  assert (find_up 16 0 (fun i => tfs_file_metadata_entry_is_free (k_mem k1)
    (tfs_sector_buffer k0 + 32 * i)) = free_in j) as ->.
  { apply find_up_ext. intros i Hi. unfold tfs_file_metadata_entry_is_free, file_metadata_entry_is_free.
    f_equal. unfold name_of. rewrite file_entry_512, <- Z.add_assoc by done.
    rewrite Hb1 by lia. f_equal. lia. }
  assert (same_fs k0 k1) as Hs01 by (by eapply same_fs_trans).
  assert (searching k1) as Hse.
  { split_and!; [done|by rewrite Hd1|]. intros x Hx. rewrite Hfr1 by done. by apply Hout. }
  exists k1. split; [done|]. destruct (free_in j) as [i|].
  - pose proof (buffer_filled (k_mem k1) img (tfs_sector_buffer k0) (512 * (1 + j)) (str_data path)
      (str_length path) name Hpl Hb1) as Hbuf. cbv zeta in Hbuf.
    specialize (Hbuf ltac:(rewrite <- Hpath; apply bytes_at_ext; intros b Hb; destruct Hse as (_&_&Hse);
      apply Hse; destruct Hpb; lia) Hpb).
    set (m' := st8 _ _ 0) in *.
    destruct (disk_write_ok fuel (1 + j) (tfs_sector_buffer k0) (with_mem k1 m'))
      as (k2 & -> & Hs2 & Hd2 & Hm2).
    + apply (sf_ready _ _ (same_fs_mem _ _ m' Hs01)).
    + lia.
    + done.
    + rewrite bind_Ok_r. exists k2. split; [done|]. split_and!.
      * eapply same_fs_trans; [by apply (same_fs_mem _ _ m' Hs01)|done].
      * rewrite Hd2, mem_with_mem, disk_with_mem, Hd1, Hd. by rewrite Hbuf.
      * intros x Hx. rewrite Hm2, mem_with_mem. unfold m'.
        rewrite ld8_st8_ne, ld8_memory_copy, decide_False, !ld8_st32_ne by (destruct Hpb; lia).
        by apply Hse.
  - destruct (Z.ltb_spec (16 * fs_file_meta_sector_count img) (16 * j + Z.of_nat 16)); [lia|].
    rewrite !w32_id by (unfold is_u32; lia). do 2 f_equal.
    replace (16 * j + Z.of_nat 16) with (16 * (j + 1)) by lia. do 3 f_equal. lia.
Qed.
(** Sectors without a free entry are passed. *)
Lemma make_skip : forall (n : nat) j k fuel', 0 <= j -> j + Z.of_nat n <= fs_file_meta_sector_count img ->
  (forall j', j <= j' < j + Z.of_nat n -> free_in j' = None) -> searching k ->
  exists k', searching k' /\ loop (n + fuel') (make_body fuel path) (j, 1 + j, 16 * j, k) =
    let j' := j + Z.of_nat n in loop fuel' (make_body fuel path) (j', 1 + j', 16 * j', k').
Proof.
  induction n as [|n IH]; intros j k fuel' Hj Hle Hnone Hse.
  - exists k. split; [done|]. cbv zeta. by rewrite Z.add_0_r.
  - cbn [Nat.add loop]. destruct (make_turn j k) as (k1 & Hse1 & Hb); [lia|done|].
    rewrite Hnone in Hb by lia. rewrite Hb.
    destruct (IH (j + 1) k1 fuel') as (k' & Hse' & ->); [lia|lia|intros; apply Hnone; lia|done|].
    exists k'. split; [done|]. cbv zeta. f_equal. replace (j + 1 + Z.of_nat n) with (j + Z.of_nat (S n)) by lia.
    done.
Qed.

Lemma searching_start : searching k0.
Proof. split_and!; [apply same_fs_refl, (mt_ready _ _ Hmt)|done|done]. Qed.

(** The disk with the sector replaced holds the image with the entry. *)
Lemma make_mounted j k' : 0 <= j < fs_file_meta_sector_count img -> same_fs k0 k' ->
  disk_of k' = <[1 + j := bytes_at (new_entry img (512 * (1 + j)) name) (512 * (1 + j)) 512]>
    (disk_of k0) ->
  mounted (new_entry img (512 * (1 + j)) name) k'.
Proof.
  intros Hj Hs Hd. pose proof Hmt as [_ Hok H512 Hh Hfit Hmeta].
  assert (length name < 24)%nat as Hnl by (rewrite <- Hpath, length_bytes_at; lia).
  pose proof (new_entry_frame img (512 * (1 + j)) name Hnl) as Hin.
  set (img' := new_entry img (512 * (1 + j)) name) in *.
  assert (same_header img img') as Hsh by (apply (only_in_header _ _ _ _ Hin); lia).
  assert (fs_sector_count img' = fs_sector_count img) as Hsc by (by hdr_rewrite Hsh).
  split.
  - apply (sf_ready _ _ Hs).
  - by apply (sh_layout_ok _ _ Hsh).
  - by rewrite (sh_sector_size _ _ Hsh).
  - intros q Hq. rewrite Hd. destruct (Z.eq_dec q (1 + j)) as [-> |Hne].
    + by rewrite lookup_insert_eq.
    + rewrite lookup_insert_ne, Hh by (done || lia). apply bytes_at_ext.
      intros b Hb. symmetry. apply Hin. lia.
  - by rewrite Hsc.
  - rewrite (sf_meta _ _ Hs), Hmeta. unfold metadata_at.
    f_equal; symmetry; (apply ld32_frame || apply ld16_frame); intros x Hx; apply Hin; lia.
Qed.

Lemma make_found i : file_metadata_entry_is_free img (file_entry img i) = true ->
  0 <= i < count_file_meta_entries img ->
  (forall i', 0 <= i' < i -> file_metadata_entry_is_free img (file_entry img i') = false) ->
  (Z.to_nat (fs_file_meta_sector_count img) < fuel)%nat ->
  exists k', tfs_make_new_file fuel path k0 = Ok (true, k') /\
    mounted (new_entry img (file_entry img (16 * (i / 16))) name) k' /\
    forall x, x < tfs_sector_buffer k0 \/ tfs_sector_buffer k0 + 512 <= x ->
      ld8 (k_mem k') x = ld8 (k_mem k0) x.
Proof.
  intros Hfree Hi Hlow Hf'. pose proof Hmt as [_ Hok H512 _ _ _].
  destruct (sections_512 img Hok H512) as (?&_&_&_&Hcnt&_).
  assert (0 <= i / 16 < fs_file_meta_sector_count img) as Hj by zmod.
  assert (free_in (i / 16) = Some (i mod 16)) as Hhit.
  { apply find_up_Some. replace (16 * (i / 16) + i mod 16) with i by zmod.
    split_and!; [zmod|zmod|done|]. intros i' Hi'. apply Hlow. zmod. }
  unfold tfs_make_new_file. destruct (Z.leb_spec 24 (str_length path)); [lia|].
  destruct (make_skip (Z.to_nat (i / 16)) 0 k0 (S (fuel - S (Z.to_nat (i / 16))))) as (k1 & Hse1 & Hl);
    [lia|lia| |apply searching_start|].
  { intros j' Hj'. apply find_up_None. intros i' Hi'. apply Hlow. zmod. }
  replace (Z.to_nat (i / 16) + S (fuel - S (Z.to_nat (i / 16))))%nat with fuel in Hl by lia.
  change (0, tfs_get_file_metadata_lba, 0, k0) with (0, 1 + 0, 16 * 0, k0). rewrite Hl. cbv zeta.
  rewrite Z2Nat.id, Z.add_0_l by lia. cbn [loop].
  destruct (make_turn (i / 16) k1 Hj Hse1) as (k2 & _ & Hb). rewrite Hhit in Hb.
  destruct Hb as (k' & -> & Hs & Hd & Hfr). exists k'. split; [done|]. split; [|done].
  assert (file_entry img (16 * (i / 16)) = 512 * (1 + i / 16)) as ->.
  { pose proof (file_entry_512 img H512 (i / 16) 0) as E. rewrite !Z.add_0_r in E. exact E. }
  by apply make_mounted.
Qed.

Lemma make_full : (forall i, 0 <= i < count_file_meta_entries img ->
    file_metadata_entry_is_free img (file_entry img i) = false) ->
  (Z.to_nat (fs_file_meta_sector_count img) < fuel)%nat ->
  exists k', tfs_make_new_file fuel path k0 = Ok (false, k') /\ mounted img k' /\
    disk_of k' = disk_of k0 /\
    forall x, x < tfs_sector_buffer k0 \/ tfs_sector_buffer k0 + 512 <= x ->
      ld8 (k_mem k') x = ld8 (k_mem k0) x.
Proof.
  intros Hused Hf'. pose proof Hmt as [_ Hok H512 _ _ Hmeta].
  destruct (sections_512 img Hok H512) as (?&_&_&_&Hcnt&_).
  unfold tfs_make_new_file. destruct (Z.leb_spec 24 (str_length path)); [lia|].
  set (n := Z.to_nat (fs_file_meta_sector_count img)) in *.
  destruct (make_skip n 0 k0 (S (fuel - S n))) as (k1 & Hse1 & Hl);
    [lia|lia| |apply searching_start|].
  { intros j' Hj'. apply find_up_None. intros i' Hi'. apply Hused. lia. }
  replace (n + S (fuel - S n))%nat with fuel in Hl by lia.
  change (0, tfs_get_file_metadata_lba, 0, k0) with (0, 1 + 0, 16 * 0, k0). rewrite Hl. cbv zeta.
  cbn [loop]. unfold make_body at 1. destruct Hse1 as (Hs1 & Hd1 & Hx1).
  rewrite (sf_meta _ _ Hs1), Hmeta.
  change (m_file_meta_sector_count (metadata_at img 0)) with (fs_file_meta_sector_count img).
  destruct (Z.ltb_spec (0 + Z.of_nat n) (fs_file_meta_sector_count img)); [lia|].
  exists k1. split_and!; [done|by apply (mounted_same img k0)|done|done].
Qed.
End make.

(** C30: [tfs_make_new_file] reports success exactly when there is a free entry and
    the name is shorter than 24 characters, and then changes one entry of the
    image, which gets the name, the size 0 and no sector. That entry is not the
    free one it found but the first of the same sector. *)
Theorem tfs_make_new_file_spec {P M : Type} `{FS : FrameSource P} `{HM : Machine M}
    `{SK : Sink M} `{SKO : !SinkOk M} `{AD : !AtaDrive M}
    `{PD : !PromptDrive M}
    img path name (k : kernel P M) fuel :
  mounted img k -> 0 <= str_length path ->
  bytes_at (k_mem k) (str_data path) (Z.to_nat (str_length path)) = name -> name_ok name ->
  apart (str_data path) (str_length path) (tfs_sector_buffer k) 512 ->
  (ad_latency + 2 < fuel)%nat -> (16 < fuel)%nat ->
  (Z.to_nat (fs_file_meta_sector_count img) < fuel)%nat ->
  if 24 <=? str_length path then tfs_make_new_file fuel path k = Ok (false, k) else
  match find_up (Z.to_nat (count_file_meta_entries img)) 0
          (fun i => file_metadata_entry_is_free img (file_entry img i)) with
  | Some i =>
      let e := file_entry img (16 * (i / 16)) in
      exists k' img', tfs_make_new_file fuel path k = Ok (true, k') /\ mounted img' k' /\
        only_in e 32 img img' /\ first_data_sector img' e = 0xffff /\ file_size img' e = 0 /\
        name_eq img' name (name_of e) = true
  | None => exists k', tfs_make_new_file fuel path k = Ok (false, k') /\ mounted img k' /\
      disk_of k' = disk_of k
  end.
Proof.
  intros Hmt Hpl Hpath Hn Hpb Hf Hf16 Hf'.
  destruct (Z.leb_spec 24 (str_length path)) as [Hlong|Hshort].
  { unfold tfs_make_new_file. by destruct (Z.leb_spec 24 (str_length path)); [|lia]. }
  assert (0 <= str_length path < 24) as Hpl' by lia.
  assert (length name < 24)%nat as Hnl by (rewrite <- Hpath, length_bytes_at; lia).
  destruct (find_up _ _ _) as [i|] eqn:E.
  - apply find_up_Some in E as (Hi & Hfree & Hlow). cbv zeta.
    destruct (make_found img path name k Hmt Hpl' Hpath Hpb fuel Hf Hf16 i Hfree) as (k' & H & Hm & _);
      [lia|done|done|].
    destruct (new_entry_fields img (file_entry img (16 * (i / 16))) name Hn) as (H1 & H2 & H3).
    eexists k', _. split_and!; [exact H|exact Hm|by apply new_entry_frame|done..].
  - rewrite find_up_None in E.
    destruct (make_full img path name k Hmt Hpl' Hpath Hpb fuel Hf Hf16) as (k' & H & Hm & Hd & _);
      [|done|by exists k']. intros i Hi. apply E. lia.
Qed.

(** [tfs_get_file_attributes], with what it leaves alone. *)
Lemma attributes_ok {P M : Type} `{FS : FrameSource P} `{HM : Machine M}
    `{SK : Sink M} `{SKO : !SinkOk M} `{AD : !AtaDrive M}
    img path name file_meta (k : kernel P M) fuel :
  mounted img k -> (length name < 24)%nat -> 0 <= str_length path ->
  bytes_at (k_mem k) (str_data path) (Z.to_nat (str_length path)) = name ->
  apart (str_data path) (str_length path) (tfs_sector_buffer k) 512 ->
  apart (str_data path) (str_length path) file_meta 32 ->
  apart file_meta 32 (tfs_sector_buffer k) 512 ->
  (forall i j, 0 <= i < count_file_meta_entries img -> 0 <= j < count_file_meta_entries img ->
     matches img name i = true -> matches img name j = true -> i = j) ->
  (ad_latency + 2 < fuel)%nat -> (16 < fuel)%nat ->
  let id := get_file_id_from_name img name in
  exists k', tfs_get_file_attributes fuel path file_meta k = Ok (negb (id =? 0), k') /\
    same_fs k k' /\ disk_of k' = disk_of k /\ outside file_meta k k' /\
    (id <> 0 -> bytes_at (k_mem k') file_meta 32 = bytes_at img (file_entry img (id - 1)) 32).
Proof.
  intros Hmt Hlen Hpl Hpath Hpb Hpm Hmb Huniq Hf Hf16 id. unfold tfs_get_file_attributes.
  destruct (lookup_all img path name file_meta k Hmt Hlen Hpath Hpl Hpb Hpm Hmb fuel Hf Hf16)
    as (r & k' & -> & Hs & Hd & Hout & Hr).
  rewrite bind_Ok_r. cbv beta iota. exists k'.
  destruct (lookup_unique img name file_meta k Hmt Hlen Huniq r k' Hr)
    as [[Hid ->]|(Hid & -> & Hb)]; fold id in Hid.
  - rewrite Hid. by split_and!.
  - fold id in Hb. destruct (Z.eqb_spec id 0); [lia|]. split_and!; [done..|]. intros _.
    apply bytes_at_ext. intros b Hbr. by apply Hb.
Qed.

(** The kernel finds a file exactly when the image has it: for a name that at
    most one entry has, [tfs_get_file_attributes] is true iff
    [get_file_id_from_name] finds it, and then the 32 bytes of its entry are in
    the caller's structure; the disk is not changed. *)
Theorem tfs_get_file_attributes_finds {P M : Type} `{FS : FrameSource P} `{HM : Machine M}
    `{SK : Sink M} `{SKO : !SinkOk M} `{AD : !AtaDrive M}
    img path name file_meta (k : kernel P M) fuel :
  mounted img k -> (length name < 24)%nat -> 0 <= str_length path ->
  bytes_at (k_mem k) (str_data path) (Z.to_nat (str_length path)) = name ->
  apart (str_data path) (str_length path) (tfs_sector_buffer k) 512 ->
  apart (str_data path) (str_length path) file_meta 32 ->
  apart file_meta 32 (tfs_sector_buffer k) 512 ->
  (forall i j, 0 <= i < count_file_meta_entries img -> 0 <= j < count_file_meta_entries img ->
     matches img name i = true -> matches img name j = true -> i = j) ->
  (ad_latency + 2 < fuel)%nat -> (16 < fuel)%nat ->
  let id := get_file_id_from_name img name in
  exists k', tfs_get_file_attributes fuel path file_meta k = Ok (negb (id =? 0), k') /\
    mounted img k' /\ disk_of k' = disk_of k /\
    (id <> 0 -> bytes_at (k_mem k') file_meta 32 = bytes_at img (file_entry img (id - 1)) 32).
Proof.
  intros Hmt **. edestruct (attributes_ok img path name file_meta k fuel) as (k' & ? & ? & ? & _ & ?); [done..|].
  exists k'. split_and!; [done|by apply (mounted_same _ k)|done|done].
Qed.

(** A free entry that is not the first of its sector costs the file in the
    first one: [tfs_make_new_file] reports success, the name found in the
    sector's first entry before is not there any more, and the free entry is
    still free. *)
Theorem tfs_make_new_file_overwrites {P M : Type} `{FS : FrameSource P} `{HM : Machine M}
    `{SK : Sink M} `{SKO : !SinkOk M} `{AD : !AtaDrive M}
    `{PD : !PromptDrive M}
    img path name old i (k : kernel P M) fuel :
  mounted img k -> 0 <= str_length path < 24 ->
  bytes_at (k_mem k) (str_data path) (Z.to_nat (str_length path)) = name -> name_ok name ->
  apart (str_data path) (str_length path) (tfs_sector_buffer k) 512 ->
  (ad_latency + 2 < fuel)%nat -> (16 < fuel)%nat ->
  (Z.to_nat (fs_file_meta_sector_count img) < fuel)%nat ->
  find_up (Z.to_nat (count_file_meta_entries img)) 0
    (fun i => file_metadata_entry_is_free img (file_entry img i)) = Some i ->
  i mod 16 <> 0 -> name_ok old -> old <> name ->
  matches img old (16 * (i / 16)) = true ->
  exists k' img', tfs_make_new_file fuel path k = Ok (true, k') /\ mounted img' k' /\
    matches img' name (16 * (i / 16)) = true /\ matches img' old (16 * (i / 16)) = false /\
    file_metadata_entry_is_free img' (file_entry img' i) = true.
Proof.
  intros Hmt Hpl Hpath Hn Hpb Hf Hf16 Hf' Hi Hi16 Hold Hne Hat.
  apply find_up_Some in Hi as (Hi & Hfree & Hlow).
  assert (length name < 24)%nat as Hnl by (rewrite <- Hpath, length_bytes_at; lia).
  destruct (make_found img path name k Hmt Hpl Hpath Hpb fuel Hf Hf16 i Hfree) as (k' & H & Hm & _);
    [lia|done|done|].
  pose proof (new_entry_fields img (file_entry img (16 * (i / 16))) name Hn) as (_ & _ & Hnew).
  pose proof (new_entry_frame img (file_entry img (16 * (i / 16))) name Hnl) as Hin.
  set (img' := new_entry img (file_entry img (16 * (i / 16))) name) in *.
  assert (same_header img img') as Hsh.
  { apply (only_in_header _ _ _ _ Hin). unfold file_entry, get_file_metadata.
    rewrite (mt_512 _ _ Hmt). zmod. }
  eexists k', img'. split; [exact H|]. split; [exact Hm|]. unfold matches.
  rewrite !(sh_file_entry _ _ Hsh). split; [done|]. split.
  - destruct (name_eq img' old _) eqn:E; [|done]. exfalso. apply Hne. by eapply name_eq_inj.
  - unfold file_metadata_entry_is_free in *. rewrite Hin; [done|].
    unfold name_of, file_entry. zmod.
Qed.

(** ** A disk for the kernel

    An image of 516 sectors: the header, one sector of file entries, two of
    FAT and 512 of data; "a" has the 600 bytes of its sectors 2 and 3. *)
Definition kernel_file : list Z := map (fun i => i mod 251) (seqZ 0 600).
Definition kernel_image : mem :=
  let img := st32 (st32 (st32 (st32 ∅ 8 516) 12 512) 16 1) 28 2 in
  let img := st_bytes (st32 (st32 img 512 2) 516 600) 520 [97; 0] in
  let img := st16 (st16 (st16 img 1024 0xffff) 1028 3) 1030 0xffff in
  st_bytes img 3072 kernel_file.
Definition image_disk (img : mem) (n : Z) : gmap Z (list Z) :=
  list_to_map (map (fun k => (k, bytes_at img (512 * k) 512)) (seqZ 0 n)).

Lemma image_disk_holds img n : holds (image_disk img n) img n.
Proof.
  intros k Hk. unfold image_disk.
  erewrite elem_of_list_to_map_1'; [done| |].
  - intros y (j & [= -> ->] & _)%list_elem_of_fmap. done.
  - apply list_elem_of_fmap. exists k. split; [done|]. by apply elem_of_seqZ.
Qed.

Lemma image_disk_ok img n regs p : disk_ok (DState regs p (image_disk img n)).
Proof.
  intros k l Hl. apply elem_of_list_to_map_2, list_elem_of_fmap in Hl as (j & [= -> ->] & _).
  split; [apply length_bytes_at|apply bytes_at_u8].
Qed.

Definition kernel_drive : pio := Pio (DState ∅ Idle (image_disk kernel_image 516)) [].
(** The kernel with this disk, a heap, and its sector buffer at an address. *)
Definition sample_kernel {P} (h : heap P) (buffer : Z) : kernel P pio :=
  Kernel h legacy kernel_drive (metadata_at kernel_image 0) buffer.

Lemma kernel_image_layout : layout_ok kernel_image.
Proof. split; (split || idtac); apply (bool_decide_unpack _); vm_compute; exact I. Qed.

Lemma sample_mounted {P} (h : heap P) buffer : mounted kernel_image (sample_kernel h buffer).
Proof.
  constructor.
  - constructor; [reflexivity|reflexivity|apply image_disk_ok|by apply idle_at_rest].
  - apply kernel_image_layout.
  - vm_compute. reflexivity.
  - assert (fs_sector_count kernel_image = 516) as -> by (vm_compute; reflexivity).
    apply image_disk_holds.
  - assert (fs_sector_count kernel_image = 516) as -> by (vm_compute; reflexivity). cbn. lia.
  - reflexivity.
Qed.

(** The memory has "a" at 100 and "b" at 102. *)
Definition names_heap : heap unit := Heap (st_bytes ∅ 100 [97; 0; 98; 0]) 0 0 tt.
#[export] Instance unit_frames : FrameSource unit := fun _ p => Ok (false, p).

Definition names_kernel : kernel unit pio := sample_kernel names_heap 4096.

Lemma kernel_image_a i : 0 <= i < count_file_meta_entries kernel_image ->
  matches kernel_image [97] i = true -> i = 0.
Proof.
  intros Hi Hm.
  assert (forallb (fun i => negb (matches kernel_image [97] i) || (i =? 0)) (seqZ 0 16) = true) as H
    by (vm_compute; reflexivity).
  rewrite forallb_forall in H. specialize (H i). rewrite Hm in H. apply Z.eqb_eq, H.
  apply list_elem_of_In, elem_of_seqZ.
  assert (count_file_meta_entries kernel_image = 16) as E by (vm_compute; reflexivity). lia.
Qed.

(** A closed fact about the sample kernel. *)
Ltac kernel_fact :=
  match goal with
  | |- mounted _ _ => apply sample_mounted
  | |- apart _ _ _ _ => unfold apart; cbn; lia
  | |- name_ok _ => by repeat constructor
  | |- find_up _ _ _ = _ => vm_compute; reflexivity
  | |- matches _ _ _ = _ => vm_compute; reflexivity
  | |- bytes_at _ _ _ = _ => vm_compute; reflexivity
  | |- (Z.to_nat (fs_file_meta_sector_count _) < _)%nat => vm_compute; lia
  | |- _ => cbn; first [lia | discriminate]
  end.

Lemma tfs_get_file_attributes_finds_witness : exists k',
  tfs_get_file_attributes 30 (String_ 100 1) 8192 names_kernel = Ok (true, k') /\
  bytes_at (k_mem k') 8192 32 = [2; 0; 0; 0; 88; 2; 0; 0; 97] ++ replicate 23 0.
Proof.
  destruct (tfs_get_file_attributes_finds kernel_image (String_ 100 1) [97] 8192 names_kernel 30)
    as (k' & H & _ & _ & Hb); [kernel_fact..| |kernel_fact|kernel_fact|].
  - intros i j Hi Hj Hmi Hmj. transitivity 0; [|symmetry]; by apply kernel_image_a.
  - assert (get_file_id_from_name kernel_image [97] = 1) as E by (vm_compute; reflexivity).
    rewrite E in H, Hb. exists k'. split; [exact H|]. rewrite Hb by discriminate.
    vm_compute. reflexivity.
Defined.

Lemma tfs_make_new_file_spec_witness : exists k' img',
  tfs_make_new_file 30 (String_ 102 1) names_kernel = Ok (true, k') /\ mounted img' k' /\
  name_eq img' [98] (name_of (file_entry kernel_image 0)) = true.
Proof.
  pose proof (tfs_make_new_file_spec kernel_image (String_ 102 1) [98] names_kernel 30) as H.
  assert (find_up (Z.to_nat (count_file_meta_entries kernel_image)) 0
    (fun i => file_metadata_entry_is_free kernel_image (file_entry kernel_image i)) = Some 1) as E
    by (vm_compute; reflexivity).
  rewrite E in H. cbn [str_length Z.leb Z.compare Pos.compare Pos.compare_cont] in H.
  destruct H as (k' & img' & H1 & H2 & _ & _ & _ & H3); [kernel_fact..|].
  exists k', img'. by split_and!.
Defined.

Lemma tfs_make_new_file_overwrites_witness : exists k' img',
  tfs_make_new_file 30 (String_ 102 1) names_kernel = Ok (true, k') /\ mounted img' k' /\
  matches img' [97] 0 = false.
Proof.
  destruct (tfs_make_new_file_overwrites kernel_image (String_ 102 1) [98] [97] 1 names_kernel 30)
    as (k' & img' & H1 & H2 & _ & H3 & _); [kernel_fact..|].
  exists k', img'. by split_and!.
Defined.
