(* ===== verification/KernelRead.v ===== *)
(** * Reading a file in the kernel

    [tfs_read_data], the part of [tfs_read] of src/src/kernel/fs/tagfs.c that
    follows the chain and copies, against the content of the file in the image
    the disk holds; and what loading the FAT does to the memory. *)
From S2P Require Import Prelude Memory PageFrames Allocator Format Ports Ata TagLayout TagFrame.
From S2P Require Import KernelFs KernelLookup.

#[local] Open Scope Z_scope.

Section read.
Context {P M : Type} `{FS : FrameSource P} `{HM : Machine M} `{SK : Sink M} `{SKO : !SinkOk M}
  `{AD : !AtaDrive M}.
Context (img : mem) (l : list Z) (fats file_meta buffer n o : Z) (k0 : kernel P M).
Abbreviation sb := (tfs_sector_buffer k0).
Context (Hmt : mounted img k0) (Hc : chain img l).

(** Sector [i] of the data, as the kernel counts sectors. *)
Lemma data_lba_ok i : 0 <= i < fat_count img ->
  0 <= w32 (tfs_get_data_lba (tfs_fs_meta k0) + i) < fs_sector_count img /\
  512 * w32 (tfs_get_data_lba (tfs_fs_meta k0) + i) = data_addr img i.
Proof.
  intros Hi. pose proof Hmt as [_ Hok H512 _ _ Hmeta]. rewrite Hmeta.
  destruct (sections_512 img Hok H512) as (H1&H2&H3&H4&_&_&Hsum&Hmax&_).
  unfold tfs_get_data_lba, tfs_get_fat_lba, tfs_get_tag_file_array_lba, tfs_get_tag_metadata_lba,
    tfs_get_file_metadata_lba.
  change (m_file_meta_sector_count (metadata_at img 0)) with (fs_file_meta_sector_count img).
  change (m_tag_meta_sector_count (metadata_at img 0)) with (fs_tag_meta_sector_count img).
  change (m_tag_file_sector_count (metadata_at img 0)) with (fs_tag_file_sector_count img).
  change (m_fat_sector_count (metadata_at img 0)) with (fs_fat_sector_count img).
  set (fm := fs_file_meta_sector_count img) in *. set (tm := fs_tag_meta_sector_count img) in *.
  set (tf := fs_tag_file_sector_count img) in *. set (fc := fs_fat_sector_count img) in *.
  rewrite (w32_id (1 + fm)) by (unfold is_u32; lia).
  rewrite (w32_id (1 + fm + tm)) by (unfold is_u32; lia).
  rewrite (w32_id (1 + fm + tm + tf)) by (unfold is_u32; lia).
  rewrite (w32_id (1 + fm + tm + tf + fc)) by (unfold is_u32; lia).
  rewrite (w32_id (1 + fm + tm + tf + fc + i)) by (unfold is_u32; lia).
  pose proof (layout_sums img Hok) as (_&_&_&_&_&_&_&Hd&_). rewrite H512 in Hd.
  fold fm tm tf fc in Hd. unfold data_addr. rewrite Hd, H512, w32_id by (unfold is_u32; lia). lia.
Qed.

(** The kernel while it copies: [c] bytes from [o] on are in the caller's
    buffer, and besides it only the sector buffer has changed. *)
Record copied (c : Z) (k : kernel P M) : Prop := {
  cp_fs : same_fs k0 k;
  cp_disk : disk_of k = disk_of k0;
  cp_bytes : bytes_at (k_mem k) buffer (Z.to_nat c) =
    take (Z.to_nat c) (drop (Z.to_nat o) (chain_bytes img l));
  cp_frame : forall x, x < sb \/ sb + 512 <= x -> x < buffer \/ buffer + n <= x ->
    ld8 (k_mem k) x = ld8 (k_mem k0) x;
}.

Context (Ho : 0 <= o) (Hn : 0 <= n) (Hbuf : 0 <= buffer /\ buffer + n <= 4294967296).
Context (Hbs : apart buffer n sb 512).

(** Copying [c] more bytes from sector [q] of the chain. *)
Lemma copy_piece fuel k c0 c (q : nat) i off : copied c0 k -> l !! q = Some i ->
  0 <= off -> 0 <= c -> off + c <= 512 -> 0 <= c0 -> c0 + c <= n ->
  Z.of_nat q * 512 + off = o + c0 -> (ad_latency + 2 < fuel)%nat ->
  exists k1, disk_read fuel (w32 (tfs_get_data_lba (tfs_fs_meta k0) + i)) sb k = Ok k1 /\
    tfs_fs_meta k1 = tfs_fs_meta k0 /\ tfs_sector_buffer k1 = sb /\
    copied (c0 + c) (with_mem k1 (memory_copy (k_mem k1) (buffer + c0) (sb + off) c)).
Proof.
  intros [Hs Hd Hb Hfr] Hq Hoff Hc' Hoc Hc0 Hcn Hpos Hf.
  pose proof Hmt as [_ Hok H512 Hh Hfit Hmeta].
  assert (0 <= i < fat_count img) as Hi by (eapply chain_range; [done|]; by eapply list_elem_of_lookup_2).
  destruct (data_lba_ok i Hi) as [Hl Ha].
  destruct (disk_read_image fuel (w32 (tfs_get_data_lba (tfs_fs_meta k0) + i)) sb k img
    (fs_sector_count img)) as (k1 & -> & Hs1 & Hd1 & Hb1 & Hfr1);
    [apply (sf_ready _ _ Hs)|by rewrite Hd|done..|].
  assert (same_fs k0 k1) as Hs01 by (by eapply same_fs_trans).
  exists k1. split; [done|]. split; [apply (sf_meta _ _ Hs01)|]. split; [apply (sf_buffer _ _ Hs01)|].
  rewrite Ha in Hb1.
  assert (forall x, x < sb \/ sb + 512 <= x -> x < buffer + c0 \/ buffer + c0 + c <= x ->
    ld8 (memory_copy (k_mem k1) (buffer + c0) (sb + off) c) x = ld8 (k_mem k) x) as Hkeep.
  { intros x Hx1 Hx2. rewrite ld8_memory_copy, decide_False by (destruct Hbs; lia). by apply Hfr1. }
  split.
  - by apply same_fs_mem.
  - by rewrite disk_with_mem, Hd1.
  - rewrite mem_with_mem. replace (Z.to_nat (c0 + c)) with (Z.to_nat c0 + Z.to_nat c)%nat by lia.
    rewrite bytes_at_app, <- take_take_drop, drop_drop. f_equal.
    + rewrite <- Hb. apply bytes_at_ext. intros b Hbr. apply Hkeep; destruct Hbs; lia.
    + replace (Z.to_nat o + Z.to_nat c0)%nat with (q * Z.to_nat 512 + Z.to_nat off)%nat by lia.
      rewrite <- H512, <- (chain_bytes_slice img l q i) by (rewrite ?H512; (done || lia)).
      unfold sector. rewrite <- bytes_at_slice by (rewrite H512; lia).
      apply bytes_at_ext. intros b Hbr. rewrite ld8_memory_copy, decide_True by (destruct Hbs; lia).
      replace (sb + off + (buffer + Z.of_nat (Z.to_nat c0) + b - (buffer + c0)))
        with (sb + (off + b)) by lia. rewrite Hb1 by lia. f_equal. lia.
  - intros x Hx1 Hx2. rewrite mem_with_mem, Hkeep by (done || lia). by apply Hfr.
Qed.

Lemma copied_start : copied 0 k0.
Proof.
  split; [apply same_fs_refl, (mt_ready _ _ Hmt)|done| |done]. change (Z.to_nat 0) with 0%nat.
  by rewrite take_0.
Qed.

(** The table and the entry in memory say what the image says. *)
Context (id : Z).
Context (Htab : forall i, i ∈ l -> fats_at (k_mem k0) fats i = fat_entry img i).
Context (Hfats : 0 <= fats /\ fats + 1024 <= 4294967296) (Hfc : fat_count img <= 512).

(** Skipping follows the chain. *)
Lemma skip_sectors_ok m : (forall i, i ∈ l -> fats_at m fats i = fat_entry img i) ->
  forall (c q : nat) i, l !! q = Some i -> skip_sectors m fats c i = l !! (q + c)%nat.
Proof.
  intros Hm. pose proof Hmt as [_ Hok H512 _ _ _].
  induction c as [|c IH]; intros q i Hq; cbn [skip_sectors]; [by rewrite Nat.add_0_r|].
  rewrite Hm by (by eapply list_elem_of_lookup_2).
  pose proof (chain_lookup img l q i Hc Hq) as Hnext. destruct (l !! S q) as [j|] eqn:Hj.
  - rewrite Hnext. assert (0 <= j < fat_count img) as Hr
      by (eapply chain_range; [done|]; by eapply list_elem_of_lookup_2).
    destruct (Z.eqb_spec j 0xffff); [lia|]. rewrite (IH (S q) j Hj). f_equal. lia.
  - rewrite Hnext. cbn. symmetry. apply lookup_ge_None in Hj. apply lookup_ge_None. lia.
Qed.

(** A range inside one sector: the size of the file is not looked at. *)
Lemma read_one_sector fuel : 0 < n -> o < Z.of_nat (length l) * 512 -> o mod 512 + n <= 512 ->
  l !! 0%nat = Some (ld32 (k_mem k0) file_meta) -> (ad_latency + 2 < fuel)%nat ->
  exists k', tfs_read_data fuel fats file_meta buffer n o k0 = Ok (true, k') /\ copied n k'.
Proof.
  intros Hn0 Hol Hroom Hfirst Hf. pose proof Hmt as [_ Hok H512 _ _ Hmeta].
  assert (m_sector_size (tfs_fs_meta k0) = 512) as Ess by (by rewrite Hmeta).
  unfold tfs_read_data. rewrite Ess. change (divisor 512) with (Ok tt). rewrite bind_Ok_r. cbv zeta.
  assert (0 <= o / 512 /\ o / 512 < Z.of_nat (length l)) as [Hq0 Hq1] by zmod.
  assert (0 <= o mod 512 < 512) as Hm by zmod. pose proof (Z.div_mod o 512 ltac:(lia)) as Hdm.
  rewrite (skip_sectors_ok (k_mem k0) Htab _ 0 _ Hfirst). cbn [Nat.add].
  destruct (lookup_lt_is_Some_2 l (Z.to_nat (o / 512))) as [i Hi]; [lia|]. rewrite Hi.
  destruct (copy_piece fuel k0 0 n (Z.to_nat (o / 512)) i (o mod 512) copied_start Hi)
    as (k1 & -> & Hm1 & Hb1 & Hk1); [lia..|done|].
  destruct (Z.leb_spec n (512 - o mod 512)); [|lia].
  rewrite bind_Ok_r, Hb1, Z.add_0_r, Z.add_0_l in *. eexists. by split.
Qed.

Context (Hft : apart fats 1024 sb 512) (Hfb : apart buffer n fats 1024).
Context (Hms : apart file_meta 32 sb 512) (Hmb : apart buffer n file_meta 32).
Context (Hsize : ld32 (k_mem k0) (file_meta + 4) = file_size img (file_entry img (id - 1))).
Context (Hfit : file_size img (file_entry img (id - 1)) <= Z.of_nat (length l) * 512).
Context (Hin : o + n <= file_size img (file_entry img (id - 1))).

Lemma table_kept c k i : copied c k -> i ∈ l -> fats_at (k_mem k) fats i = fat_entry img i.
Proof.
  intros Hk Hi. rewrite <- Htab by done. pose proof (chain_range img l i Hc Hi).
  unfold fats_at. rewrite w32_id by (unfold is_u32; lia). apply ld16_frame. intros x Hx.
  destruct Hft, Hfb; apply (cp_frame _ _ Hk); lia.
Qed.

Lemma size_kept c k : copied c k ->
  ld32 (k_mem k) (file_meta + 4) = file_size img (file_entry img (id - 1)).
Proof.
  intros Hk. rewrite <- Hsize. apply ld32_frame. intros x Hx.
  destruct Hms, Hmb; apply (cp_frame _ _ Hk); lia.
Qed.

(** The loop over the further sectors. *)
Lemma read_more_ok fuel : (ad_latency + 2 < fuel)%nat -> forall (left q : nat) i c k fuel',
  copied c k -> l !! q = Some i -> (length l - q <= left)%nat -> (left < fuel')%nat ->
  0 < c <= n -> (c = n \/ o + c = Z.of_nat (S q) * 512) ->
  exists k', loop fuel' (read_more fuel fats file_meta buffer n) (c, i, k) = Ok k' /\ copied n k'.
Proof.
  intros Hf. pose proof Hmt as [_ Hok H512 _ _ Hmeta].
  induction left as [|left IH]; intros q i c k [|fuel'] Hk Hq Hlen Hf' Hcr Hpos; try lia.
  { apply lookup_lt_Some in Hq. lia. }
  cbn [loop]. unfold read_more at 1. destruct (Z.ltb_spec c n) as [Hlt|Hge].
  2:{ assert (c = n) as -> by lia. by exists k. }
  destruct Hpos as [->|Hpos]; [lia|]. rewrite (size_kept c k Hk).
  destruct (Z.leb_spec (file_size img (file_entry img (id - 1))) c); [lia|].
  rewrite (table_kept c k i Hk) by (by eapply list_elem_of_lookup_2).
  rewrite (sf_meta _ _ (cp_fs _ _ Hk)), (sf_buffer _ _ (cp_fs _ _ Hk)).
  assert (m_sector_size (tfs_fs_meta k0) = 512) as Ess by (by rewrite Hmeta).
  rewrite Ess. destruct (lookup_lt_is_Some_2 l (S q)) as [j Hj]; [lia|].
  pose proof (chain_lookup img l q i Hc Hq) as Hnext. rewrite Hj in Hnext. rewrite Hnext.
  assert (Z.of_nat (length l) <= 512) by (pose proof (chain_length img l Hok Hc); lia).
  set (d := if n <=? w32 (c + 512) then w32 (n - c) else 512).
  assert (0 < d <= 512 /\ c + d <= n /\ (c + d = n \/ d = 512)) as (Hd1 & Hd2 & Hd3).
  { unfold d. rewrite (w32_id (c + 512)) by (unfold is_u32; lia).
    destruct (Z.leb_spec n (c + 512)); [|lia]. rewrite w32_id by (unfold is_u32; lia). lia. }
  destruct (copy_piece fuel k c d (S q) j 0 Hk Hj) as (k1 & -> & Hm1 & Hb1 & Hk1);
    [lia|lia|lia|lia|lia|lia|done|]. rewrite bind_Ok_r, Z.add_0_r in *.
  rewrite Hb1, (w32_id (buffer + c)) by (unfold is_u32; lia).
  rewrite (w32_id (c + d)) by (unfold is_u32; lia).
  apply (IH (S q) j); [exact Hk1|done|lia|lia|lia|].
  destruct Hd3 as [?| ->]; [by left|right; lia].
Qed.

Lemma read_data_ok fuel : 0 < n -> l !! 0%nat = Some (ld32 (k_mem k0) file_meta) ->
  (ad_latency + 2 < fuel)%nat -> (length l < fuel)%nat ->
  exists k', tfs_read_data fuel fats file_meta buffer n o k0 = Ok (true, k') /\ copied n k'.
Proof.
  intros Hn0 Hfirst Hf Hfl. destruct (Z.le_gt_cases (o mod 512 + n) 512) as [|Hmore].
  { apply read_one_sector; (done || lia). }
  pose proof Hmt as [_ Hok H512 _ _ Hmeta].
  assert (m_sector_size (tfs_fs_meta k0) = 512) as Ess by (by rewrite Hmeta).
  unfold tfs_read_data. rewrite Ess. change (divisor 512) with (Ok tt). rewrite bind_Ok_r. cbv zeta.
  assert (0 <= o / 512 /\ o / 512 < Z.of_nat (length l)) as [Hq0 Hq1] by zmod.
  assert (0 <= o mod 512 < 512) as Hm by zmod. pose proof (Z.div_mod o 512 ltac:(lia)) as Hdm.
  rewrite (skip_sectors_ok (k_mem k0) Htab _ 0 _ Hfirst). cbn [Nat.add].
  destruct (lookup_lt_is_Some_2 l (Z.to_nat (o / 512))) as [i Hi]; [lia|]. rewrite Hi.
  destruct (Z.leb_spec n (512 - o mod 512)) as [Hone|_]; [lia|].
  destruct (copy_piece fuel k0 0 (512 - o mod 512) (Z.to_nat (o / 512)) i (o mod 512) copied_start Hi)
    as (k1 & -> & Hm1 & Hb1 & Hk1); [lia|lia|lia|lia|lia|lia|done|].
  rewrite bind_Ok_r, Hb1, Z.add_0_r, Z.add_0_l in *.
  destruct (read_more_ok fuel Hf (length l) (Z.to_nat (o / 512)) i (512 - o mod 512) _ fuel Hk1 Hi)
    as (k' & -> & Hk'); [lia|done|lia|right; lia|].
  exists k'. by split.
Qed.
End read.

(** A range inside the file; or inside a sector of its chain, for which the
    file's size is not looked at. *)
Definition readable (img : mem) (id : Z) (l : list Z) (n o : Z) : Prop :=
  o + n <= file_size img (file_entry img (id - 1)) \/
  (o < Z.of_nat (length l) * 512 /\ o mod 512 + n <= 512).

Lemma content_slice img id l n o : 0 <= o -> 0 < n -> o + n <= file_size img (file_entry img (id - 1)) ->
  take (Z.to_nat n) (drop (Z.to_nat o) (content img id l)) =
  take (Z.to_nat n) (drop (Z.to_nat o) (chain_bytes img l)).
Proof. intros. unfold content. rewrite skipn_firstn_comm, take_take. f_equal. lia. Qed.

Lemma read_bytes_ok {P M : Type} `{FS : FrameSource P} `{HM : Machine M} `{SK : Sink M}
    `{SKO : !SinkOk M} `{AD : !AtaDrive M}
    img name id l fats file_meta buffer n o (k : kernel P M) fuel :
  mounted img k -> fat_count img <= 512 -> file_at img name id l ->
  (forall i, i ∈ l -> fats_at (k_mem k) fats i = fat_entry img i) ->
  bytes_at (k_mem k) file_meta 32 = bytes_at img (file_entry img (id - 1)) 32 ->
  0 <= o -> 0 < n -> readable img id l n o ->
  0 <= buffer -> buffer + n <= 4294967296 -> 0 <= fats -> fats + 1024 <= 4294967296 ->
  apart buffer n (tfs_sector_buffer k) 512 -> apart fats 1024 (tfs_sector_buffer k) 512 ->
  apart buffer n fats 1024 -> apart file_meta 32 (tfs_sector_buffer k) 512 ->
  apart buffer n file_meta 32 -> (ad_latency + 2 < fuel)%nat -> (length l < fuel)%nat ->
  exists k', tfs_read_data fuel fats file_meta buffer n o k = Ok (true, k') /\ mounted img k' /\
    disk_of k' = disk_of k /\ tfs_sector_buffer k' = tfs_sector_buffer k /\
    bytes_at (k_mem k') buffer (Z.to_nat n) = take (Z.to_nat n) (drop (Z.to_nat o) (chain_bytes img l)) /\
    forall x, x < tfs_sector_buffer k \/ tfs_sector_buffer k + 512 <= x ->
      x < buffer \/ buffer + n <= x -> ld8 (k_mem k') x = ld8 (k_mem k) x.
Proof.
  intros Hmt Hfc Hfa Htab Hmeta Ho Hn Hin Hb0 Hb1 Hf0 Hf1 Hbs Hft Hfb Hms Hmb Hf Hfl.
  pose proof Hfa as [_ Hfirst Hc Hfs]. rewrite (mt_512 _ _ Hmt) in Hfs.
  assert (forall j, 0 <= j < 32 -> ld8 (k_mem k) (file_meta + j) =
    ld8 img (file_entry img (id - 1) + j)) as Hm
    by (intros j Hj; by apply (bytes_at_inv _ _ _ _ 32 j Hmeta)).
  assert (forall j, 0 <= j <= 28 -> ld32 (k_mem k) (file_meta + j) =
    ld32 img (file_entry img (id - 1) + j)) as Hm32.
  { intros j Hj. unfold ld32, ld16. rewrite <- !Z.add_assoc. by rewrite !Hm by lia. }
  assert (l !! 0%nat = Some (ld32 (k_mem k) file_meta)) as Hl0.
  { replace (ld32 (k_mem k) file_meta) with (first_data_sector img (file_entry img (id - 1))).
    - destruct l as [|i l']; [done|]. cbn in *. by rewrite Hfirst.
    - unfold first_data_sector. pose proof (Hm32 0 ltac:(lia)) as E. by rewrite !Z.add_0_r in E. }
  assert (exists k', tfs_read_data fuel fats file_meta buffer n o k = Ok (true, k') /\ copied img l buffer n o k n k')
    as (k' & H & [Hs Hd Hb Hfr]).
  { destruct Hin as [Hin|[Hol Hone]].
    - apply (read_data_ok img l fats file_meta buffer n o k) with (id := id); try (done || lia).
      apply (Hm32 4). lia.
    - apply (read_one_sector img l fats file_meta buffer n o k); (done || lia). }
  exists k'. split_and!; [done|by apply (mounted_same img k)|done|apply (sf_buffer _ _ Hs)|done|done].
Qed.

(** [tfs_read_data] copies exactly the asked-for bytes of the file's content,
    which may span several sectors of its chain, into the caller's buffer: with
    the table and the entry loaded as the image has them, any range inside the
    file is read; besides the caller's buffer only the sector buffer changes,
    and the disk does not. *)
Theorem tfs_read_data_content {P M : Type} `{FS : FrameSource P} `{HM : Machine M} `{SK : Sink M}
    `{SKO : !SinkOk M} `{AD : !AtaDrive M}
    img name id l fats file_meta buffer n o (k : kernel P M) fuel :
  mounted img k -> fat_count img <= 512 -> file_at img name id l ->
  (forall i, i ∈ l -> fats_at (k_mem k) fats i = fat_entry img i) ->
  bytes_at (k_mem k) file_meta 32 = bytes_at img (file_entry img (id - 1)) 32 ->
  0 <= o -> 0 < n -> o + n <= file_size img (file_entry img (id - 1)) ->
  0 <= buffer -> buffer + n <= 4294967296 -> 0 <= fats -> fats + 1024 <= 4294967296 ->
  apart buffer n (tfs_sector_buffer k) 512 -> apart fats 1024 (tfs_sector_buffer k) 512 ->
  apart buffer n fats 1024 -> apart file_meta 32 (tfs_sector_buffer k) 512 ->
  apart buffer n file_meta 32 -> (ad_latency + 2 < fuel)%nat -> (length l < fuel)%nat ->
  exists k', tfs_read_data fuel fats file_meta buffer n o k = Ok (true, k') /\ mounted img k' /\
    disk_of k' = disk_of k /\
    bytes_at (k_mem k') buffer (Z.to_nat n) = take (Z.to_nat n) (drop (Z.to_nat o) (content img id l)) /\
    forall x, x < tfs_sector_buffer k \/ tfs_sector_buffer k + 512 <= x ->
      x < buffer \/ buffer + n <= x -> ld8 (k_mem k') x = ld8 (k_mem k) x.
Proof.
  intros. destruct (read_bytes_ok img name id l fats file_meta buffer n o k fuel)
    as (k' & ? & ? & ? & _ & ? & ?); try done; [by left|].
  exists k'. split_and!; [done..|by rewrite content_slice|done].
Qed.

(** ** Loading the FAT *)

Section load.
Context {P M : Type} `{FS : FrameSource P} `{HM : Machine M} `{SK : Sink M} `{SKO : !SinkOk M}
  `{AD : !AtaDrive M}.
Implicit Types (k : kernel P M).

Lemma fat_lba_ok img k : mounted img k -> 0 < fs_fat_sector_count img ->
  1 <= tfs_get_fat_lba (tfs_fs_meta k) /\
  tfs_get_fat_lba (tfs_fs_meta k) + fs_fat_sector_count img <= fs_sector_count img /\
  fs_sector_count img < 4194304 /\ 512 * tfs_get_fat_lba (tfs_fs_meta k) = get_fat img.
Proof.
  intros Hmt Hfc. pose proof Hmt as [_ Hok H512 _ _ Hmeta]. rewrite Hmeta.
  destruct (sections_512 img Hok H512) as (H1&H2&H3&H4&_&Hc&Hsum&Hmax&_).
  unfold tfs_get_fat_lba, tfs_get_tag_file_array_lba, tfs_get_tag_metadata_lba, tfs_get_file_metadata_lba.
  change (m_file_meta_sector_count (metadata_at img 0)) with (fs_file_meta_sector_count img).
  change (m_tag_meta_sector_count (metadata_at img 0)) with (fs_tag_meta_sector_count img).
  change (m_tag_file_sector_count (metadata_at img 0)) with (fs_tag_file_sector_count img).
  pose proof (layout_sums img Hok) as (_&_&_&_&_&_&Hf&_). rewrite H512 in Hf.
  set (fm := fs_file_meta_sector_count img) in *. set (tm := fs_tag_meta_sector_count img) in *.
  set (tf := fs_tag_file_sector_count img) in *.
  rewrite (w32_id (1 + fm)) by (unfold is_u32; lia).
  rewrite (w32_id (1 + fm + tm)) by (unfold is_u32; lia).
  rewrite (w32_id (1 + fm + tm + tf)) by (unfold is_u32; lia). lia.
Qed.

(** A loaded sector of the FAT. *)
Lemma fat_words m img a lba (j : Z) : 512 * lba = get_fat img + 2 * j ->
  (forall b, 0 <= b < 512 -> ld8 m (a + b) = ld8 img (512 * lba + b)) ->
  forall i, 0 <= i < 256 -> ld16 m (a + 2 * i) = fat_entry img (j + i).
Proof.
  intros Hl Hb i Hi. unfold fat_entry, fat_addr, ld16. rewrite <- Z.add_assoc, !Hb by lia.
  f_equal; [f_equal; lia|do 2 f_equal; lia].
Qed.

(** The first sector goes to [fats]; the second one to 1024 bytes behind it. *)
Lemma load_fats_ok fuel fats img k : mounted img k -> fs_fat_sector_count img = 2 ->
  0 <= fats -> fats + 1024 < 4294967296 -> (ad_latency + 2 < fuel)%nat ->
  exists k', load_fats fuel fats k = Ok k' /\ mounted img k' /\ disk_of k' = disk_of k /\
    (forall i, 0 <= i < 256 -> ld16 (k_mem k') (fats + 2 * i) = fat_entry img i) /\
    (forall i, 0 <= i < 256 -> ld16 (k_mem k') (fats + 1024 + 2 * i) = fat_entry img (256 + i)) /\
    forall x, x < fats \/ fats + 512 <= x < fats + 1024 \/ fats + 1536 <= x ->
      ld8 (k_mem k') x = ld8 (k_mem k) x.
Proof.
  intros Hmt Hfc Hf0 Hf1 Hf. destruct (fat_lba_ok img k Hmt) as (Hl1 & Hl2 & Hl3 & Hl4); [lia|].
  pose proof Hmt as [Hr Hok H512 Hh Hfit Hmeta]. unfold load_fats.
  set (lba := tfs_get_fat_lba (tfs_fs_meta k)) in *. rewrite Hfc in Hl2.
  destruct (disk_read_image fuel lba fats k img (fs_sector_count img)) as
    (k1 & -> & Hs1 & Hd1 & Hb1 & Hfr1); [done|done|lia|done|done|]. rewrite bind_Ok_r.
  assert (m_sector_size (tfs_fs_meta k1) = 512) as Ess by (by rewrite (sf_meta _ _ Hs1), Hmeta).
  rewrite Ess. change (2 * 512) with 1024. rewrite !w32_id by (unfold is_u32; lia).
  pose proof (mounted_same img k k1 Hmt Hs1 Hd1) as Hmt1.
  destruct (disk_read_image fuel (lba + 1) (fats + 1024) k1 img (fs_sector_count img)) as
    (k2 & H2 & Hs2 & Hd2 & Hb2 & Hfr2);
    [apply (mt_ready _ _ Hmt1)|apply (mt_holds _ _ Hmt1)|lia|done|done|].
  exists k2. split; [exact H2|]. split; [apply (mounted_same img k1); [done|done|exact Hd2]|].
  split; [exact (eq_trans Hd2 Hd1)|].
  split_and!.
  - apply (fat_words (k_mem k2) img fats lba 0); [lia|].
    intros b Hb. rewrite Hfr2 by lia. by apply Hb1.
  - apply (fat_words (k_mem k2) img (fats + 1024) (lba + 1) 256); [lia|done].
  - intros x Hx. rewrite Hfr2, Hfr1 by lia. done.
Qed.
End load.

(** C31: [tfs_read] and [tfs_write] load the FAT of two sectors into a block of
    1024 bytes, but the second sector goes to the 512 bytes behind it: when the
    block is cut from a longer free segment, the two words that keep the rest
    of that segment in the free list are overwritten by entries 256 to 259 of
    the FAT, and the second half of the block is never filled. *)
Theorem load_fats_overruns {P M : Type} `{FS : FrameSource P} `{FSO : !FrameSourceOk P}
    `{HM : Machine M} `{SK : Sink M} `{SKO : !SinkOk M} `{AD : !AtaDrive M}
    img pre s len post bl (k : kernel P M) fuel :
  mounted img k -> fs_fat_sector_count img = 2 ->
  heap_inv (k_heap k) (pre ++ (s, len) :: post) bl -> too_small 1028 pre -> 1036 <= len ->
  (length (pre ++ (s, len) :: post) < fuel)%nat -> (ad_latency + 2 < fuel)%nat ->
  exists k1 k2, allocate fuel 1024 k = Ok (s + 4, k1) /\
    heap_inv (k_heap k1) (pre ++ (s + 1028, len - 1028) :: post) ((s, 1028) :: bl) /\
    load_fats fuel (s + 4) k1 = Ok k2 /\
    seg_next (k_mem k2) (s + 1028) = fat_entry img 256 + 65536 * fat_entry img 257 /\
    seg_len (k_mem k2) (s + 1028) = fat_entry img 258 + 65536 * fat_entry img 259 /\
    forall x, s + 516 <= x < s + 1028 -> ld8 (k_mem k2) x = ld8 (k_mem k1) x.
Proof.
  intros Hmt Hfc Hinv Hsm Hlen Hfl Hf. change 1028 with (round4 (1024 + 4)) in Hsm.
  pose proof (inv_sorted Hinv) as Hsort. apply fl_ok_Forall, Forall_app in Hsort as [_ Hsort].
  inversion_clear Hsort as [|? ? Hs _]. unfold extent, heap_start in Hs. pf_unfold.
  destruct (inv_next Hinv) as [_ Hnext].
  destruct (memory_allocate_first_fit (k_heap k) pre s len post bl 1024 fuel Hinv)
    as (h1 & Hal & _ & _ & Hinv1 & _); [lia|done|change (round4 (1024 + 4)) with 1028; lia|done|].
  assert (leftover (round4 (1024 + 4)) (s, len) = [(s + 1028, len - 1028)]) as El.
  { unfold leftover. cbn [fst snd]. change (round4 (1024 + 4)) with 1028.
    destruct (Z.leb_spec (1028 + 8) len); [done|lia]. }
  rewrite El in Hinv1. exists (with_heap k h1). unfold allocate. rewrite Hal, bind_Ok_r.
  assert (mounted img (with_heap k h1)) as Hmt1.
  { destruct Hmt as [[] ? ? ? ? ?]. constructor; [by constructor|done..]. }
  destruct (load_fats_ok fuel (s + 4) img (with_heap k h1) Hmt1 Hfc)
    as (k2 & Hl & _ & _ & _ & Hsnd & Hkeep); [lia|lia|done|].
  exists k2. split; [done|]. split; [exact Hinv1|]. split; [exact Hl|].
  replace (s + 4 + 1024) with (s + 1028) in Hsnd by lia.
  unfold seg_next, seg_len, ld32.
  pose proof (Hsnd 0 ltac:(lia)) as E0. pose proof (Hsnd 1 ltac:(lia)) as E1.
  pose proof (Hsnd 2 ltac:(lia)) as E2. pose proof (Hsnd 3 ltac:(lia)) as E3.
  change (256 + 1) with 257 in E1. change (256 + 2) with 258 in E2. change (256 + 3) with 259 in E3.
  rewrite Z.mul_0_r, !Z.add_0_r in E0. change (256 + 0) with 256 in E0.
  replace (s + 1028 + 4 + 2) with (s + 1028 + 2 * 3) by lia.
  split_and!.
  - by rewrite E0, <- E1.
  - by rewrite <- E2, <- E3.
  - intros x Hx. apply Hkeep. lia.
Qed.

(** ** Mounting *)

(** With the buffer that the allocator gives. *)
Lemma tfs_init_reads {P M : Type} `{FS : FrameSource P}
    `{HM : Machine M} `{SK : Sink M} `{SKO : !SinkOk M} `{AD : !AtaDrive M}
    img (k : kernel P M) fuel r h :
  ready k -> layout_ok img -> fs_sector_size img = 512 ->
  holds (disk_of k) img (fs_sector_count img) -> fs_sector_count img <= ad_sectors ->
  memory_allocate fuel 512 (k_heap k) = Ok (r, h) -> (ad_latency + 2 < fuel)%nat ->
  exists k', tfs_init fuel k = Ok (true, k') /\ mounted img k' /\ disk_of k' = disk_of k /\
    tfs_sector_buffer k' = r /\
    k_heap k' = Heap (k_mem k') (free_segments_head h) (next_page_virt_addr h) (h_frames h) /\
    forall x, x < r \/ r + 512 <= x -> ld8 (k_mem k') x = ld8 (h_mem h) x.
Proof.
  intros Hr Hok H512 Hh Hfit Hal Hf. unfold tfs_init, allocate.
  rewrite Hal, !bind_Ok_r. cbv beta iota zeta. set (k1 := Kernel _ _ _ _ r).
  assert (ready k1) as Hr1 by (destruct Hr; by constructor).
  destruct (header_range img) as (_&_&_&_&Hsc).
  assert (0 < fs_sector_count img) as Hsc0.
  { destruct (sections_512 img Hok H512) as (?&?&?&?&_&?&?&_). lia. }
  destruct (disk_read_image fuel 0 r k1 img (fs_sector_count img)) as (k2 & H2 & Hs2 & Hd2 & Hb2 & Hfr2);
    [done|exact Hh|lia|done|done|]. rewrite H2, bind_Ok_r. eexists. split; [done|].
  assert (metadata_at (k_mem k2) r = metadata_at img 0) as Emeta.
  { assert (forall j, 0 <= j < 510 -> ld16 (k_mem k2) (r + j) = ld16 img (0 + j)) as H16.
    { intros j Hj. unfold ld16. rewrite <- !Z.add_assoc, !Hb2 by lia. do 2 f_equal; f_equal; lia. }
    assert (forall j, 0 <= j < 508 -> ld32 (k_mem k2) (r + j) = ld32 img (0 + j)) as H32.
    { intros j Hj. unfold ld32. rewrite <- !Z.add_assoc, !H16 by lia. done. }
    unfold metadata_at. pose proof (H32 0 ltac:(lia)) as E0. rewrite !Z.add_0_r in E0.
    rewrite E0. rewrite !H32, !H16 by lia. done. }
  split; [|split; [exact Hd2|split; [done|split; [|exact Hfr2]]]].
  - destruct (sf_ready _ _ Hs2). constructor; [by constructor|done|done| |done|exact Emeta].
    change (disk_of _) with (disk_of k2). by rewrite Hd2.
  - exact (disk_read_heap _ _ _ _ _ H2).
Qed.

Lemma tfs_init_ok {P M : Type} `{FS : FrameSource P} `{FSO : !FrameSourceOk P}
    `{HM : Machine M} `{SK : Sink M} `{SKO : !SinkOk M} `{AD : !AtaDrive M}
    img fl bl (k : kernel P M) fuel :
  ready k -> layout_ok img -> fs_sector_size img = 512 ->
  holds (disk_of k) img (fs_sector_count img) -> fs_sector_count img <= ad_sectors ->
  heap_inv (k_heap k) fl bl -> alloc_fuel 516 fl fuel -> (1 < fuel)%nat ->
  next_page_virt_addr (k_heap k) + 16896 < 4294967296 ->
  Exists (fun '(_, len) => 516 <= len) fl \/ tail_ok fl (next_page_virt_addr (k_heap k)) ->
  (ad_latency + 2 < fuel)%nat ->
  exists k', tfs_init fuel k = Ok (true, k') /\ mounted img k' /\ disk_of k' = disk_of k /\
    (tfs_sector_buffer k' = 0 /\ fs_full (h_frames (k_heap k')) /\
       (fl = [] -> fs_full (h_frames (k_heap k))) \/
     exists fl', heap_inv (k_heap k') fl' ((tfs_sector_buffer k' - 4, 516) :: bl)).
Proof.
  intros Hr Hok H512 Hh Hfit Hinv Hfu Hf1 Hmax Hex Hf.
  change 516 with (round4 (512 + 4)) in Hfu, Hex.
  destruct (memory_allocate_cases (k_heap k) fl bl 512 fuel Hinv) as (r & h & Hal & Hres);
    [lia|done|done|lia|exact Hex|].
  destruct (tfs_init_reads img k fuel r h Hr Hok H512 Hh Hfit Hal Hf) as (k' & H & Hm & Hd & Hb & Hheap & Hfr).
  exists k'. split_and!; [done..|]. rewrite Hb.
  destruct Hres as [(-> & _ & Hfull & _ & _ & Hempty)|(s & fl' & -> & _ & Hinv' & _)]; [left|right].
  { rewrite Hheap. split_and!; [done|done|]. intros E. by apply Hempty. }
  exists fl'. rewrite Z.add_simpl_r. change (round4 (512 + 4)) with 516 in Hinv'. rewrite Hheap.
  apply (heap_inv_write h fl' _ s 516 (k_mem k') Hinv'); [by left|]. intros x Hx. apply Hfr. lia.
Qed.

(** C29: [tfs_init] mounts the image the disk holds: it reads the header into the
    global structure, through a sector buffer that is a live block of a
    well-formed heap unless no page frame is left (the code does not look, and
    uses address 0 then). *)
Theorem tfs_init_mounts {P M : Type} `{FS : FrameSource P} `{FSO : !FrameSourceOk P}
    `{HM : Machine M} `{SK : Sink M} `{SKO : !SinkOk M} `{AD : !AtaDrive M}
    img fl bl (k : kernel P M) fuel :
  ready k -> layout_ok img -> fs_sector_size img = 512 ->
  holds (disk_of k) img (fs_sector_count img) -> fs_sector_count img <= ad_sectors ->
  heap_inv (k_heap k) fl bl -> alloc_fuel 516 fl fuel -> (1 < fuel)%nat ->
  next_page_virt_addr (k_heap k) + 16896 < 4294967296 ->
  Exists (fun '(_, len) => 516 <= len) fl \/ tail_ok fl (next_page_virt_addr (k_heap k)) ->
  (ad_latency + 2 < fuel)%nat ->
  exists k', tfs_init fuel k = Ok (true, k') /\ mounted img k' /\ disk_of k' = disk_of k /\
    (tfs_sector_buffer k' = 0 /\ fs_full (h_frames (k_heap k')) \/
     exists fl', heap_inv (k_heap k') fl' ((tfs_sector_buffer k' - 4, 516) :: bl)).
Proof.
  intros Hr Hok H512 Hh Hfit Hinv Hfu Hf1 Hmax Hex Hf.
  destruct (tfs_init_ok img fl bl k fuel Hr Hok H512 Hh Hfit Hinv Hfu Hf1 Hmax Hex Hf)
    as (k' & H & Hm & Hd & Hb). exists k'. split_and!; [done..|]. destruct Hb as [(? & ? & _)|?]; auto.
Qed.

(** ** Witnesses *)

#[local] Existing Instance sample_heap.
#[local] Existing Instance sample_heap_ok.

(** A kernel just started: an empty heap. *)
Lemma tfs_init_mounts_witness : exists k',
  tfs_init sample_fuel (sample_kernel (boot_heap ∅ pfa_empty) 0) = Ok (true, k') /\
  mounted kernel_image k'.
Proof.
  pose proof (sample_mounted (boot_heap ∅ pfa_empty) 0) as [Hr Hok H512 Hh Hfit _].
  destruct (tfs_init_mounts kernel_image [] [] (sample_kernel (boot_heap ∅ pfa_empty) 0) sample_fuel
    Hr Hok H512 Hh Hfit) as (k' & H & Hm & _);
    [apply empty_heap_inv|split; vm_compute; lia|unfold sample_fuel; lia|vm_compute; reflexivity
    |by right|unfold sample_fuel; cbn [ad_latency pio_drive pio_laws]; lia|].
  exists k'. split; [exact H|exact Hm].
Defined.

Lemma load_fats_overruns_witness : exists k1 k2,
  allocate 30 1024 (sample_kernel one_block 0) = Ok (3229614188, k1) /\
  load_fats 30 3229614188 k1 = Ok k2 /\ seg_len (k_mem k2) (3229614184 + 1028) = 0.
Proof.
  destruct (load_fats_overruns kernel_image [] 3229614184 3992 [] [(heap_start, 104)]
    (sample_kernel one_block 0) 30) as (k1 & k2 & H1 & _ & H2 & _ & Hlen & _);
    [apply sample_mounted|vm_compute; reflexivity|exact one_block_inv|constructor|lia|cbn; lia|cbn; lia|].
  exists k1, k2. split; [exact H1|]. split; [exact H2|]. rewrite Hlen. vm_compute. reflexivity.
Defined.

(** The table of "a" at 10240 and its entry at 8192. *)
Definition loaded_heap : heap unit :=
  Heap (st_bytes (st32 (st32 (st16 (st16 ∅ 10244 3) 10246 0xffff) 8192 2) 8196 600) 8200 [97; 0]) 0 0 tt.

Lemma tfs_read_data_content_witness : exists k',
  tfs_read_data 30 10240 8192 16384 100 480 (sample_kernel loaded_heap 4096) = Ok (true, k') /\
  bytes_at (k_mem k') 16384 100 = map (fun i => i mod 251) (seqZ 480 100).
Proof.
  destruct (tfs_read_data_content kernel_image [97] 1 [2; 3] 10240 8192 16384 100 480
    (sample_kernel loaded_heap 4096) 30) as (k' & H & _ & _ & Hb & _);
    [apply sample_mounted|vm_compute; discriminate| | | |lia|lia|vm_compute; discriminate|lia|lia|lia|lia
    |kernel_fact..|cbn; lia|].
  - split; cbn [chain]; repeat split; apply (bool_decide_unpack _); vm_compute; exact I.
  - intros i [-> |[-> |[]%elem_of_nil]%elem_of_cons]%elem_of_cons; vm_compute; reflexivity.
  - vm_compute. reflexivity.
  - exists k'. split; [exact H|]. change (Z.to_nat 100) with 100%nat in Hb. rewrite Hb.
    vm_compute. reflexivity.
Defined.
