(* ===== verification/KernelWrite.v ===== *)
(** * Writing a file in the kernel

    [tfs_write_file], the part of [tfs_write] of src/src/kernel/fs/tagfs.c after
    the file is found, for a write inside a file: it leaves on the disk the
    image that the FUSE driver's [tagfs_write] makes of it. *)
From S2P Require Import Prelude Memory PageFrames Allocator Format Ports Ata TagLayout FuseDriver TagFrame.
From S2P Require Import KernelFs KernelLookup KernelRead.

#[local] Open Scope Z_scope.

Section write.
Context {P M : Type} `{FS : FrameSource P} `{HM : Machine M} `{SK : Sink M} `{SKO : !SinkOk M}
  `{AD : !AtaDrive M} `{PD : !PromptDrive M}.
Implicit Types (k : kernel P M).

(** Only the header and the sectors count: images that read the same are
    mounted alike. *)
Lemma mounted_ext img img' k : mounted img k -> img ≡ img' -> mounted img' k.
Proof.
  intros [Hr Hok H512 Hh Hfit Hm] E.
  assert (same_header img img') as Hsh by (intros x _; symmetry; apply E).
  assert (fs_sector_count img' = fs_sector_count img) as Hsc by (by hdr_rewrite Hsh).
  constructor.
  - done.
  - by apply (sh_layout_ok _ _ Hsh).
  - by rewrite (sh_sector_size _ _ Hsh).
  - rewrite Hsc. intros q Hq. rewrite Hh by done. apply bytes_at_ext. intros b _. apply E.
  - by rewrite Hsc.
  - rewrite Hm. unfold metadata_at. by f_equal; (apply ld32_proper || apply ld16_proper).
Qed.

(** Writing behind the header keeps the structure. *)
Lemma metadata_frame img img' : (forall x, x < 36 -> ld8 img' x = ld8 img x) ->
  metadata_at img' 0 = metadata_at img 0.
Proof.
  intros H. unfold metadata_at.
  f_equal; (apply ld32_frame || apply ld16_frame); intros x Hx; apply H; lia.
Qed.

(** Patching a sector patches the image. *)
Lemma patch_sector_ok img k fuel lba at_ from n : mounted img k -> 1 <= lba < fs_sector_count img ->
  0 <= at_ -> 0 <= n -> at_ + n <= 512 -> apart from n (tfs_sector_buffer k) 512 ->
  (ad_latency + 2 < fuel)%nat ->
  exists k', patch_sector fuel lba at_ from n k = Ok k' /\ same_fs k k' /\
    mounted (st_bytes img (512 * lba + at_) (bytes_at (k_mem k) from (Z.to_nat n))) k' /\
    forall x, x < tfs_sector_buffer k \/ tfs_sector_buffer k + 512 <= x ->
      ld8 (k_mem k') x = ld8 (k_mem k) x.
Proof.
  intros Hmt Hl Hat Hn Hfit Hap Hf. pose proof Hmt as [Hr Hok H512 Hh Hfits Hmeta].
  set (sb := tfs_sector_buffer k) in *. unfold patch_sector. fold sb.
  destruct (disk_read_image fuel lba sb k img (fs_sector_count img)) as (k1 & -> & Hs1 & Hd1 & Hb1 & Hfr1);
    [done|done|lia|done|done|]. rewrite bind_Ok_r. rewrite (sf_buffer _ _ Hs1). fold sb.
  set (m := memory_copy (k_mem k1) (sb + at_) from n).
  assert (forall x, ld8 m x = if decide (sb + at_ <= x < sb + at_ + n)
    then ld8 (k_mem k) (from + (x - (sb + at_))) else ld8 (k_mem k1) x) as Hm.
  { intros x. unfold m. rewrite ld8_memory_copy by (destruct Hap; lia). case_decide; [|done].
    apply Hfr1. destruct Hap; lia. }
  pose proof (same_fs_mem _ _ m Hs1) as Hs1'.
  destruct (disk_write_ok fuel lba sb (with_mem k1 m)) as (k2 & -> & Hs2 & Hd2 & Hm2);
    [apply (sf_ready _ _ Hs1')|lia|done|].
  rewrite mem_with_mem, disk_with_mem, Hd1 in *. exists k2. split; [done|].
  assert (same_fs k k2) as Hs by (by eapply same_fs_trans). split; [done|].
  set (data := bytes_at (k_mem k) from (Z.to_nat n)).
  assert (length data = Z.to_nat n) as Hlen by apply length_bytes_at.
  pose proof (only_in_st_bytes img (512 * lba + at_) data) as Hin. set (img' := st_bytes _ _ data) in *.
  assert (same_header img img') as Hsh by (apply (only_in_header _ _ _ _ Hin); lia).
  assert (fs_sector_count img' = fs_sector_count img) as Hsc by (by hdr_rewrite Hsh).
  split; [constructor|].
  - apply (sf_ready _ _ Hs).
  - by apply (sh_layout_ok _ _ Hsh).
  - by rewrite (sh_sector_size _ _ Hsh).
  - rewrite Hsc. intros q Hq. rewrite Hd2. destruct (Z.eq_dec q lba) as [-> |Hne].
    + rewrite lookup_insert_eq. apply bytes_at_ext. intros b Hb. unfold img'.
      rewrite Hm, ld8_st_bytes, Hlen. repeat case_decide; try lia.
      * unfold data. rewrite lookup_bytes_at by lia.
        change (w8 (default 0 (Some ?x))) with (w8 x). cbn. rewrite w8_id by apply ld8_range.
        f_equal. lia.
      * by apply Hb1.
    + rewrite lookup_insert_ne, Hh by done. apply bytes_at_ext. intros b Hb. symmetry.
      apply Hin. lia.
  - by rewrite Hsc.
  - rewrite (sf_meta _ _ Hs), Hmeta. symmetry. apply metadata_frame. intros x Hx. apply Hin. lia.
  - intros x Hx. rewrite Hm2, Hm, decide_False by lia. by apply Hfr1.
Qed.

(** The entry in memory, with the size grown there, put over the entry of the
    image is the entry with the size grown. *)
Lemma grown_entry img m m' file_meta e end_ : 0 <= end_ < 4294967296 ->
  (forall j, 0 <= j < 32 -> ld8 m (file_meta + j) = ld8 img (e + j)) ->
  m' = (if ld32 m (file_meta + 4) <? w32 end_ then st32 m (file_meta + 4) end_ else m) ->
  st_bytes img e (bytes_at m' file_meta 32) ≡ grow_size img e end_.
Proof.
  intros He Hm -> x. rewrite ld8_st_bytes, length_bytes_at.
  assert (ld32 m (file_meta + 4) = file_size img e) as Esz.
  { unfold file_size, ld32, ld16. rewrite <- !Z.add_assoc. cbn [Z.add Pos.add Pos.succ].
    by rewrite !Hm by lia. }
  unfold grow_size. rewrite Esz, w32_id by (unfold is_u32; lia).
  replace (w64 end_) with end_ by (unfold w64; rewrite Z.mod_small; lia).
  change (Z.of_nat 32) with 32. case_decide as Hx.
  - rewrite lookup_bytes_at by lia. change (w8 (default 0 (Some ?y))) with (w8 y). cbn [default].
    cbn. rewrite w8_id by apply ld8_range.
    destruct (file_size img e <? end_).
    + apply ld8_st32_shift; [lia|]. replace (file_meta + Z.of_nat (Z.to_nat (x - e)))
        with (file_meta + (x - e)) by lia. rewrite Hm by lia. f_equal. lia.
    + replace (file_meta + Z.of_nat (Z.to_nat (x - e))) with (file_meta + (x - e)) by lia.
      rewrite Hm by lia. f_equal. lia.
  - destruct (file_size img e <? end_); [|done]. by rewrite ld8_st32_ne by lia.
Qed.

(** [grow_meta] changes the entry in memory only. *)
Lemma grow_meta_ok img k file_meta end_ : mounted img k ->
  k_mem (grow_meta file_meta end_ k) = (if ld32 (k_mem k) (file_meta + 4) <? w32 end_
    then st32 (k_mem k) (file_meta + 4) end_ else k_mem k) /\
  same_fs k (grow_meta file_meta end_ k) /\ mounted img (grow_meta file_meta end_ k).
Proof.
  intros Hmt. pose proof (same_fs_refl k (mt_ready _ _ Hmt)) as Hr. unfold grow_meta.
  destruct (_ <? _); [|done]. split; [done|]. split; [by apply same_fs_mem|].
  destruct Hmt as [[] ? ? ? ? ?]. constructor; [by constructor|done..].
Qed.

(** ** The data of a write, beside the FUSE driver's *)

(** What both do while they write data: the image the disk holds changes in its
    data sectors, and the kernel's memory in the sector buffer. *)
Record data_step img k img' k' : Prop := {
  ds_mounted : mounted img' k';
  ds_header : same_header img img';
  ds_buffer : tfs_sector_buffer k' = tfs_sector_buffer k;
  ds_low : forall x, x < get_data img -> ld8 img' x = ld8 img x;
  ds_frame : forall x, x < tfs_sector_buffer k \/ tfs_sector_buffer k + 512 <= x ->
    ld8 (k_mem k') x = ld8 (k_mem k) x;
}.

Lemma data_step_refl img k : mounted img k -> data_step img k img k.
Proof. by split. Qed.

Lemma data_step_trans img k img1 k1 img2 k2 :
  data_step img k img1 k1 -> data_step img1 k1 img2 k2 -> data_step img k img2 k2.
Proof.
  intros [H1 H2 H3 H4 H5] [G1 G2 G3 G4 G5]. split; [done|by eapply same_header_trans|by rewrite G3| |].
  - intros x Hx. rewrite G4, H4; [done..|]. unfold get_data in *. by hdr_rewrite H2.
  - intros x Hx. rewrite G5, H5; [done..|]. by rewrite H3.
Qed.

Lemma patch_data img k fuel i off from n : mounted img k -> 0 <= i < fat_count img -> 0 <= off ->
  0 <= n -> off + n <= 512 -> apart from n (tfs_sector_buffer k) 512 -> (ad_latency + 2 < fuel)%nat ->
  exists k' img', patch_sector fuel (w32 (tfs_get_data_lba (tfs_fs_meta k) + i)) off from n k = Ok k' /\
    img_write img (data_addr img i + off) (bytes_at (k_mem k) from (Z.to_nat n)) = Ok img' /\
    data_step img k img' k'.
Proof.
  intros Hmt Hi Hoff Hn Hfit Hap Hf. pose proof Hmt as [_ Hok H512 _ _ _].
  destruct (data_lba_ok img k Hmt i Hi) as [Hlr Hla]. destruct (data_start img Hok i Hi) as (Hst & _ & Hst').
  destruct (patch_sector_ok img k fuel (w32 (tfs_get_data_lba (tfs_fs_meta k) + i)) off from n)
    as (k' & Hp & Hs & Hmt' & Hfr); [done|lia|done..|]. rewrite Hla in Hmt'.
  set (bytes := bytes_at (k_mem k) from (Z.to_nat n)) in *.
  assert (Z.of_nat (length bytes) = n) as Hlen by (unfold bytes; rewrite length_bytes_at; lia).
  exists k', (st_bytes img (data_addr img i + off) bytes). split; [done|].
  split; [apply img_write_sector; [done..|]; rewrite H512; lia|].
  pose proof (only_in_st_bytes img (data_addr img i + off) bytes) as Hin.
  split; [done|apply (only_in_header _ _ _ _ Hin); lia|apply (sf_buffer _ _ Hs)| |done].
  intros x Hx. apply Hin. lia.
Qed.

(** The tables say the same about free sectors: both find sector [q] first. *)
Definition both_find img k fats q : Prop :=
  find_free_fat img = q /\ tfs_find_free_fat (tfs_fs_meta k) (k_mem k) fats = q.

(** The half of the FAT that is where it should be is enough. *)
Lemma find_free_kernel img k fats q : mounted img k -> find_free_fat img = q -> 0 <= q < 256 ->
  (forall i, 0 <= i < 256 -> ld16 (k_mem k) (fats + 2 * i) = fat_entry img i) ->
  both_find img k fats q /\ q < fat_count img.
Proof.
  intros Hmt Hq Hq256 Htab. split; [split; [done|]|].
  - unfold tfs_find_free_fat. rewrite (mt_meta _ _ Hmt).
    change (s32 (w32 (m_fat_sector_count (metadata_at img 0) * m_sector_size (metadata_at img 0)) / 2))
      with (fat_count img). unfold find_free_fat in Hq.
    destruct (find_up (Z.to_nat (fat_count img)) 0 (fun i => fat_entry img i =? 0)) as [j|] eqn:E; [|lia].
    subst j. apply find_up_Some in E as (Hr & Hz & Hlow).
    assert (find_up (Z.to_nat (fat_count img)) 0 (fun i => ld16 (k_mem k) (fats + 2 * i) =? 0) = Some q) as ->;
      [|done]. apply find_up_Some. split_and!; [lia..|by rewrite Htab|].
    intros j Hj. rewrite Htab by lia. by apply Hlow.
  - unfold find_free_fat in Hq. destruct (find_up _ _ _) eqn:E; [|lia]. apply find_up_Some in E. lia.
Qed.

(** Writing data does not change what is free. *)
Lemma both_find_step img k fats q img' k' : both_find img k fats q -> mounted img k -> data_step img k img' k' ->
  fat_count img <= 512 -> apart fats 1024 (tfs_sector_buffer k) 512 -> both_find img' k' fats q.
Proof.
  intros [H1 H2] Hmt [Hmt' Hh _ Hlow Hfr] Hfc Hap. pose proof Hmt as [_ Hok _ _ _ Hme]. split.
  - rewrite (sh_find_free_fat _ _ Hh); [done|]. intros i Hi. apply (sh_fat_entry _ _ Hh).
    intros x Hx. destruct (fat_addr_ok img Hok i Hi). apply Hlow. lia.
  - rewrite <- H2. unfold tfs_find_free_fat.
    assert (tfs_fs_meta k' = tfs_fs_meta k) as ->.
    { rewrite Hme, (mt_meta _ _ Hmt'). apply metadata_frame. intros x Hx. apply Hlow.
      pose proof (section_order img Hok). lia. }
    set (c := Z.to_nat _). assert (Z.of_nat c <= 512).
    { unfold c. rewrite Hme. change (s32 _) with (fat_count img). lia. }
    enough (find_up c 0 (fun i => ld16 (k_mem k') (fats + 2 * i) =? 0) =
      find_up c 0 (fun i => ld16 (k_mem k) (fats + 2 * i) =? 0)) as ->; [done|].
    apply find_up_ext. intros j Hj. f_equal. apply ld16_frame. intros x Hx. apply Hfr. destruct Hap; lia.
Qed.

(** The bytes of a buffer, from [b] on. *)
Lemma bytes_at_piece m m' buffer (n b c : Z) : 0 <= b -> 0 <= c -> b + c <= n ->
  (forall x, buffer <= x < buffer + n -> ld8 m' x = ld8 m x) ->
  bytes_at m' (buffer + b) (Z.to_nat c) = take (Z.to_nat c) (drop (Z.to_nat b) (bytes_at m buffer (Z.to_nat n))).
Proof.
  intros Hb Hc Hn Hx. replace b with (Z.of_nat (Z.to_nat b)) at 1 by lia.
  rewrite (bytes_at_slice m' buffer (Z.to_nat n)) by lia. do 2 f_equal. apply bytes_at_ext. intros j Hj. apply Hx. lia.
Qed.

(** The loops over the further sectors. *)
Lemma write_more_ok fuel fats buffer n q data : (ad_latency + 2 < fuel)%nat -> n + 512 <= 4294967296 ->
  0 <= buffer -> buffer + n <= 4294967296 -> forall (left : nat) b img k fuel1 fuel2,
  mounted img k -> fat_count img <= 512 -> 0 <= q < fat_count img -> both_find img k fats q ->
  apart fats 1024 (tfs_sector_buffer k) 512 -> apart buffer n (tfs_sector_buffer k) 512 ->
  data = bytes_at (k_mem k) buffer (Z.to_nat n) -> 0 <= b <= n -> n - b <= Z.of_nat left ->
  (left < fuel1)%nat -> (left < fuel2)%nat ->
  exists k' img', loop fuel1 (write_more fuel fats buffer n) (b, k) = Ok (n, k') /\
    loop fuel2 (write_body data n) (b, img) = Ok (true, n, img') /\ data_step img k img' k'.
Proof.
  intros Hf Hmax Hb0 Hbn. induction left as [|left IH]; intros b img k [|fuel1] [|fuel2] Hmt Hfc Hq Hbf Hft Hbs Hdata Hbr Hleft Hf1 Hf2;
    try lia; cbn [loop]; unfold write_more at 1, write_body at 1; destruct (Z.ltb_spec b n); try lia.
  1: { assert (b = n) as -> by lia. exists k, img. split_and!; [done..|by apply data_step_refl]. }
  2: { assert (b = n) as -> by lia. exists k, img. split_and!; [done..|by apply data_step_refl]. }
  destruct Hbf as [Hq1 Hq2]. rewrite Hq1, Hq2. destruct (Z.eqb_spec q (-1)); [lia|].
  pose proof Hmt as [_ Hok H512 _ _ Hmeta].
  assert (m_sector_size (tfs_fs_meta k) = 512) as -> by (by rewrite Hmeta). rewrite H512.
  rewrite (w32_id (b + 512)) by (unfold is_u32; lia). rewrite (w32_id (n - b)) by (unfold is_u32; lia).
  set (d := if n <=? b + 512 then n - b else 512).
  assert (0 < d <= 512 /\ b + d <= n) as (Hd1 & Hd2) by (unfold d; destruct (Z.leb_spec n (b + 512)); lia).
  rewrite (w32_id (buffer + b)) by (unfold is_u32; lia).
  destruct (patch_data img k fuel q 0 (buffer + b) d) as (k1 & img1 & -> & Hw & Hs1); [done|done|lia|lia|lia| |done|].
  { destruct Hbs; unfold apart; lia. }
  rewrite Z.add_0_r, (bytes_at_piece (k_mem k) (k_mem k) buffer n) in Hw by (done || lia).
  rewrite <- Hdata in Hw. rewrite Hw, !bind_Ok_r, w32_id by (unfold is_u32; lia).
  pose proof (ds_buffer _ _ _ _ Hs1) as Hsb.
  destruct (IH (b + d) img1 k1 fuel1 fuel2) as (k' & img' & -> & -> & Hs'); try lia.
  - apply (ds_mounted _ _ _ _ Hs1).
  - by rewrite (sh_fat_count _ _ (ds_header _ _ _ _ Hs1)).
  - by rewrite (sh_fat_count _ _ (ds_header _ _ _ _ Hs1)).
  - eapply both_find_step; [by split|done|exact Hs1|done|done].
  - by rewrite Hsb.
  - by rewrite Hsb.
  - rewrite Hdata. apply bytes_at_ext. intros j Hj. symmetry. apply (ds_frame _ _ _ _ Hs1).
    destruct Hbs; lia.
  - exists k', img'. split_and!; [done..|]. by eapply data_step_trans.
Qed.

(** The sector of an entry, and the place in it. *)
Lemma entry_sector img id : layout_ok img -> fs_sector_size img = 512 -> 0 < id <= count_file_meta_entries img ->
  let lba := 1 + (id - 1) / 16 in let at_ := 32 * ((id - 1) mod 16) in
  1 <= lba < fs_sector_count img /\ 512 * lba + at_ = file_entry img (id - 1).
Proof.
  intros Hok H512 Hidr. cbv zeta. destruct (sections_512 img Hok H512) as (?&?&?&?&Hcnt&?&Hsum&_&Hfm).
  assert (0 <= (id - 1) / 16 < fs_file_meta_sector_count img) by zmod. split; [lia|].
  rewrite (Z.div_mod (id - 1) 16) at 3 by lia. rewrite file_entry_512 by done. lia.
Qed.

Section write_file.
Context (img : mem) (name : list Z) (id : Z) (l : list Z) (fats file_meta buffer n o : Z).
Context (k0 : kernel P M) (Hmt : mounted img k0) (Hfa : file_at img name id l).
Context (Htab : forall i, i ∈ l -> fats_at (k_mem k0) fats i = fat_entry img i).
Context (Hfats : 0 <= fats /\ fats + 1024 <= 4294967296) (Hfc : fat_count img <= 512).
Context (Hent : forall j, 0 <= j < 32 -> ld8 (k_mem k0) (file_meta + j) =
  ld8 img (file_entry img (id - 1) + j)).
Context (Ho : 0 <= o) (Hn : 0 < n) (Hend : o + n + 512 <= 4294967296).
Context (Hbuf : 0 <= buffer /\ buffer + n <= 4294967296).
Context (Hft : apart fats 1024 (tfs_sector_buffer k0) 512).
Context (Hms : apart file_meta 32 (tfs_sector_buffer k0) 512).
Context (Hbs : apart buffer n (tfs_sector_buffer k0) 512).

Abbreviation this := (file_entry img (id - 1)).
Abbreviation pos := (write_pos img this o).
Abbreviation data := (bytes_at (k_mem k0) buffer (Z.to_nat n)).

(** The words of the entry. *)
Lemma entry_word j : 0 <= j <= 28 ->
  ld32 (k_mem k0) (file_meta + j) = ld32 img (file_entry img (id - 1) + j).
Proof. intros Hj. unfold ld32, ld16. rewrite <- !Z.add_assoc. by rewrite !Hent by lia. Qed.

(** [tfs_write_file] goes to the position's sector, as [tagfs_write] does. *)
Lemma write_file_steps fuel r : (length l + 1 < fuel)%nat ->
  tfs_write_file fuel fats file_meta buffer n o r k0 =
    match l !! Z.to_nat (pos / 512) with
    | Some i => k ← tfs_write_data fuel fats file_meta buffer n o i (pos mod 512) k0;
                k ← patch_sector fuel (r_lba r) (r_offset r) file_meta 32 k;
                Ok (true, k)
    | None => Ok (false, k0)
    end.
Proof.
  intros Hfl. pose proof Hmt as [_ Hok H512 _ _ Hmeta]. pose proof Hfa as [_ _ Hc _].
  pose proof (first_in_range img Hok _ _ _ Hfa) as [Hs0 H0].
  pose proof (chain_range img l _ Hc (list_elem_of_lookup_2 _ _ _ H0)) as Hfr.
  unfold tfs_write_file.
  pose proof (entry_word 0 ltac:(lia)) as E0. rewrite !Z.add_0_r in E0. rewrite E0.
  fold (first_data_sector img this). set (first := first_data_sector img this) in *.
  destruct (Z.eqb_spec first 0xffff); [lia|]. cbn [andb].
  rewrite (entry_word 4) by lia. fold (file_size img this). fold pos.
  assert (m_sector_size (tfs_fs_meta k0) = 512) as -> by (by rewrite Hmeta).
  change (divisor 512) with (Ok tt). rewrite bind_Ok_r, Hs0.
  by rewrite (skip_sectors_ok img l fats k0 Hmt Hc Hfc (k_mem k0) Htab _ 0 _ H0).
Qed.

Lemma table_step i img' k' : data_step img k0 img' k' -> i ∈ l ->
  fats_at (k_mem k') fats i = fat_entry img i /\ fat_get img' i = Ok (fat_entry img i).
Proof.
  intros [Hmt' Hh _ Hlow Hfr] Hi. pose proof Hmt as [_ Hok _ _ _ _].
  pose proof (chain_range img l i (fa_chain _ _ _ _ Hfa) Hi) as Hir. split.
  - rewrite <- Htab by done. unfold fats_at. rewrite w32_id by (unfold is_u32; lia).
    apply ld16_frame. intros x Hx. apply Hfr. destruct Hft; lia.
  - rewrite fat_get_ok by (rewrite ?(sh_fat_count _ _ Hh); done || apply Hmt'). f_equal.
    apply (sh_fat_entry _ _ Hh). intros x Hx. apply Hlow. destruct (fat_addr_ok img Hok i Hir). lia.
Qed.

(** The data goes to the same places of the disk and of the FUSE driver's image. *)
Lemma write_data_ok fuel fuel' (j : nat) i off : (ad_latency + 2 < fuel)%nat -> (Z.to_nat n < fuel)%nat ->
  (Z.to_nat n < fuel')%nat -> l !! j = Some i -> 0 <= off < 512 ->
  off + n <= 512 \/ (exists q, both_find img k0 fats q /\ 0 <= q < fat_count img) ->
  exists k1 img1, tfs_write_data fuel fats file_meta buffer n o i off k0 =
      Ok (grow_meta file_meta (o + n) k1) /\
    tagfs_write_data fuel' img this i off data n o = Ok (s32 n, grow_size img1 this (o + n)) /\
    data_step img k0 img1 k1.
Proof.
  intros Hf Hfn Hfn' Hj Hoff Hcase. pose proof Hmt as [_ Hok H512 _ _ Hmeta].
  pose proof (list_elem_of_lookup_2 _ _ _ Hj) as Hil. pose proof (fa_chain _ _ _ _ Hfa) as Hc.
  pose proof (chain_range img l i Hc Hil) as Hir.
  unfold tfs_write_data, tagfs_write_data. rewrite H512.
  assert (m_sector_size (tfs_fs_meta k0) = 512) as -> by (by rewrite Hmeta).
  rewrite (w32_id (512 - off)) by (unfold is_u32; lia).
  destruct (Z.leb_spec n (512 - off)) as [Hone|Hmore].
  - destruct (patch_data img k0 fuel i off buffer n) as (k1 & img1 & -> & Hw & Hs); [done|done|lia|lia|lia|done..|].
    rewrite (take_ge data) by (rewrite length_bytes_at; lia).
    rewrite Hw, !bind_Ok_r. cbv zeta. destruct (table_step i img1 k1 Hs Hil) as [-> ->].
    rewrite bind_Ok_r. destruct (Z.eqb_spec (fat_entry img i) 0) as [E|_];
      [by apply (chain_entry_used img l _ i Hc Hj) in E|].
    rewrite bind_Ok_r. by exists k1, img1.
  - destruct Hcase as [|(q & Hbf & Hq)]; [lia|].
    destruct (patch_data img k0 fuel i off buffer (512 - off)) as (k1 & img1 & -> & Hw & Hs);
      [done|done|lia|lia|lia|destruct Hbs; unfold apart; lia|done|].
    pose proof (bytes_at_piece (k_mem k0) (k_mem k0) buffer n 0 (512 - off)) as Hpc.
    rewrite Z.add_0_r, drop_0 in Hpc. rewrite <- Hpc, Hw, !bind_Ok_r by (done || lia). clear Hpc.
    pose proof (ds_buffer _ _ _ _ Hs) as Hsb. pose proof (sh_fat_count _ _ (ds_header _ _ _ _ Hs)) as Hfc1.
    destruct (write_more_ok fuel fats buffer n q data Hf ltac:(lia) (proj1 Hbuf) (proj2 Hbuf) (Z.to_nat n) (512 - off) img1 k1
      fuel fuel') as (k2 & img2 & -> & -> & Hs2); rewrite ?Hsb, ?Hfc1; try (done || lia).
    + apply (ds_mounted _ _ _ _ Hs).
    + by eapply both_find_step.
    + apply bytes_at_ext. intros b Hb. symmetry. apply (ds_frame _ _ _ _ Hs). destruct Hbs; lia.
    + rewrite !bind_Ok_r. cbv beta iota. exists k2, img2. split_and!; [done..|]. by eapply data_step_trans.
Qed.

(** The entry, with its size, goes back to the disk. *)
Lemma write_entry_ok fuel img1 k1 : (ad_latency + 2 < fuel)%nat -> data_step img k0 img1 k1 ->
  exists k', patch_sector fuel (1 + (id - 1) / 16) (32 * ((id - 1) mod 16)) file_meta 32
      (grow_meta file_meta (o + n) k1) = Ok k' /\
    mounted (grow_size img1 this (o + n)) k' /\ tfs_sector_buffer k' = tfs_sector_buffer k0 /\
    forall x, x < tfs_sector_buffer k0 \/ tfs_sector_buffer k0 + 512 <= x ->
      x < file_meta \/ file_meta + 32 <= x -> ld8 (k_mem k') x = ld8 (k_mem k0) x.
Proof.
  intros Hf [Hmt1 Hsh Hsb1 Hlow Hfr1]. pose proof Hmt as [_ Hok H512 _ _ _].
  pose proof Hfa as [[Hid Hidr] _ _ _]. destruct (sections_512 img Hok H512) as (?&?&?&?&Hcnt&_&Hsum&_&Hfm).
  destruct (file_entry_place img Hok (id - 1)) as [Hp1 Hp2]; [lia|].
  pose proof (section_order img Hok) as (_&_&?&?&?). pose proof (first_in_range img Hok _ _ _ Hfa) as [_ Hfst].
  pose proof (chain_range img l _ (fa_chain _ _ _ _ Hfa) (list_elem_of_lookup_2 _ _ _ Hfst)) as Hfr.
  assert (forall j, 0 <= j < 32 -> ld8 (k_mem k1) (file_meta + j) = ld8 img1 (this + j)) as Hent1.
  { intros j Hj. rewrite Hfr1 by (destruct Hms; lia). rewrite Hent by done. symmetry. apply Hlow. lia. }
  destruct (grow_meta_ok img1 k1 file_meta (o + n) Hmt1) as (Hm2 & Hs2 & Hmt2).
  set (k2 := grow_meta file_meta (o + n) k1) in *. clearbody k2.
  set (lba := 1 + (id - 1) / 16). set (at_ := 32 * ((id - 1) mod 16)).
  destruct (entry_sector img id Hok H512 Hidr) as [Hlb He]. fold lba at_ in Hlb, He.
  assert (fs_sector_count img1 = fs_sector_count img) as Hsc by (by hdr_rewrite Hsh). rewrite <- Hsc in Hlb.
  assert (tfs_sector_buffer k2 = tfs_sector_buffer k0) as Hb2 by (by rewrite (sf_buffer _ _ Hs2)).
  destruct (patch_sector_ok img1 k2 fuel lba at_ file_meta 32 Hmt2 Hlb) as (k3 & E3 & Hs3 & Hmt3 & Hfr3);
    [unfold at_; zmod|lia|unfold at_; zmod|by rewrite Hb2|done|].
  exists k3. split; [done|]. rewrite He in Hmt3. split_and!.
  - apply (mounted_ext _ _ _ Hmt3).
    apply (grown_entry img1 (k_mem k1) _ file_meta this (o + n) ltac:(lia) Hent1). exact Hm2.
  - by rewrite (sf_buffer _ _ Hs3).
  - intros x Hx1 Hx2. rewrite Hb2 in Hfr3. rewrite Hfr3, Hm2 by done.
    destruct (_ <? _); [rewrite ld8_st32_ne by lia|]; by apply Hfr1.
Qed.

(** What [tagfs_write] does, [tfs_write_file] does: it writes, or refuses a
    position behind the last sector. *)
Lemma write_file_as_fuse fuel fuel' c : (ad_latency + 2 < fuel)%nat -> (length l + 1 < fuel)%nat ->
  (Z.to_nat n < fuel)%nat -> (length l + 1 < fuel')%nat -> (Z.to_nat n < fuel')%nat ->
  pos mod 512 + n <= 512 \/ (exists q, both_find img k0 fats q /\ 0 <= q < fat_count img) ->
  let ok := bool_decide (pos < Z.of_nat (length l) * 512) in
  exists k' img', tfs_write_file fuel fats file_meta buffer n o
      (Found true (1 + (id - 1) / 16) (32 * ((id - 1) mod 16))) k0 = Ok (ok, k') /\
    tagfs_write fuel' img (c :: name) data n o = Ok (if ok then s32 n else - EBADFD, img') /\
    mounted img' k' /\ tfs_sector_buffer k' = tfs_sector_buffer k0 /\
    forall x, x < tfs_sector_buffer k0 \/ tfs_sector_buffer k0 + 512 <= x ->
      x < file_meta \/ file_meta + 32 <= x -> ld8 (k_mem k') x = ld8 (k_mem k0) x.
Proof.
  intros Hf Hfl Hfn Hfl' Hfn' Hcase ok. pose proof Hmt as [_ Hok H512 _ _ _].
  rewrite (write_file_steps fuel _ Hfl).
  rewrite (tagfs_write_steps img Hok (c :: name) id l fuel' data n o Hfa Ho Hfl'). cbv zeta. rewrite H512.
  destruct (write_pos_range img Hok (c :: name) id l o Hfa Ho) as (Hp & _ & Hq & _ & Hm & _).
  rewrite H512 in Hp, Hq, Hm. pose proof (Z.div_mod pos 512 ltac:(lia)) as Hdm.
  destruct (l !! Z.to_nat (pos / 512)) as [i|] eqn:Hi.
  - assert (ok = true) as -> by (apply bool_decide_eq_true; apply lookup_lt_Some in Hi; lia).
    destruct (write_data_ok fuel fuel' _ i (pos mod 512) Hf Hfn Hfn' Hi Hm Hcase)
      as (k1 & img1 & -> & -> & Hs). rewrite bind_Ok_r. cbn [r_lba r_offset].
    destruct (write_entry_ok fuel img1 k1 Hf Hs) as (k' & -> & Hr). rewrite bind_Ok_r.
    exists k', (grow_size img1 this (o + n)). split_and!; [done..|apply Hr|apply Hr|apply Hr].
  - assert (ok = false) as -> by (apply bool_decide_eq_false; apply lookup_ge_None in Hi; lia).
    exists k0, img. by split_and!.
Qed.
End write_file.
End write.

(** A write to a file that has a sector does what the FUSE driver's
    [tagfs_write] does to the image the disk holds, wherever it starts and
    however long it is: both write the data to the sector of the position and,
    when it does not fit there, to the first free sector; grow the size; and
    write nothing when the position is behind the last sector. *)
Theorem tfs_write_file_as_fuse {P M : Type} `{FS : FrameSource P} `{HM : Machine M} `{SK : Sink M}
    `{SKO : !SinkOk M} `{AD : !AtaDrive M} `{PD : !PromptDrive M}
    img name id l fats file_meta buffer n o (k : kernel P M) fuel fuel' c :
  mounted img k -> fat_count img <= 512 -> file_at img name id l ->
  (forall i, i ∈ l -> fats_at (k_mem k) fats i = fat_entry img i) ->
  bytes_at (k_mem k) file_meta 32 = bytes_at img (file_entry img (id - 1)) 32 ->
  0 <= o -> 0 < n -> o + n + 512 <= 4294967296 -> 0 <= buffer -> buffer + n <= 4294967296 ->
  let pos := write_pos img (file_entry img (id - 1)) o in
  pos mod 512 + n <= 512 \/ (exists q, both_find img k fats q /\ 0 <= q < fat_count img) ->
  0 <= fats -> fats + 1024 <= 4294967296 -> apart fats 1024 (tfs_sector_buffer k) 512 ->
  apart file_meta 32 (tfs_sector_buffer k) 512 -> apart buffer n (tfs_sector_buffer k) 512 ->
  (ad_latency + 2 < fuel)%nat -> (length l + 1 < fuel)%nat -> (Z.to_nat n < fuel)%nat ->
  (length l + 1 < fuel')%nat -> (Z.to_nat n < fuel')%nat ->
  let ok := bool_decide (pos < Z.of_nat (length l) * 512) in
  exists k' img', tfs_write_file fuel fats file_meta buffer n o
      (Found true (1 + (id - 1) / 16) (32 * ((id - 1) mod 16))) k = Ok (ok, k') /\
    tagfs_write fuel' img (c :: name) (bytes_at (k_mem k) buffer (Z.to_nat n)) n o =
      Ok (if ok then s32 n else - EBADFD, img') /\
    mounted img' k'.
Proof.
  intros Hmt Hfc Hfa Htab Hmeta Ho Hn Hend Hb0 Hb1 pos Hcase Hf0 Hf1 Hft Hms Hbs Hf Hfl Hfn Hfl' Hfn' ok.
  destruct (write_file_as_fuse img name id l fats file_meta buffer n o k) with (fuel := fuel) (fuel' := fuel') (c := c)
    as (k' & img' & H1 & H2 & H3 & _); try done; [|by exists k', img'].
  intros j Hj. by apply (bytes_at_inv _ _ _ _ 32 j Hmeta).
Qed.

(** Ten bytes at 500, in the first sector of the file. *)
Lemma tfs_write_file_as_fuse_witness : exists k' img',
  tfs_write_file 30 10240 8192 16384 10 500 (Found true 1 0) (sample_kernel loaded_heap 4096) =
    Ok (true, k') /\
  tagfs_write 30 kernel_image [47; 97] (bytes_at (h_mem loaded_heap) 16384 10) 10 500 = Ok (10, img') /\
  mounted img' k'.
Proof.
  destruct (tfs_write_file_as_fuse kernel_image [97] 1 [2; 3] 10240 8192 16384 10 500
    (sample_kernel loaded_heap 4096) 30 30 47) as (k' & img' & H1 & H2 & H3);
    [apply sample_mounted|vm_compute; discriminate| | | |lia|lia|lia|lia|lia|left; vm_compute; discriminate|lia|lia
    |kernel_fact..|cbn; lia|cbn; lia|cbn; lia|cbn; lia|cbn; lia|].
  - split; cbn [chain]; repeat split; apply (bool_decide_unpack _); vm_compute; exact I.
  - intros i [-> |[-> |[]%elem_of_nil]%elem_of_cons]%elem_of_cons; vm_compute; reflexivity.
  - vm_compute. reflexivity.
  - exists k', img'. split; [exact H1|]. split; [exact H2|exact H3].
Defined.
