(* ===== verification/KernelFile.v ===== *)
(** * [tfs_read] and [tfs_write] as a whole (src/src/kernel/fs/tagfs.c)

    The two calls allocate a block for the FAT, load it past the block's end
    into the free list, allocate a block for the entry, look the file up, do
    their work and free both blocks. On a heap that is one free segment above
    all blocks, with the file in the first half of the FAT, they do what they
    should all the same: the segment's header is overwritten with zeros, the
    second allocation takes a fresh page for it, and after the two calls of
    [memory_free] the heap is one segment again. *)
From S2P Require Import Prelude Memory PageFrames Allocator Format Ports Ata TagLayout TagFrame.
From S2P Require Import FuseDriver KernelFs KernelSteps KernelLookup KernelRead KernelWrite.

#[local] Open Scope Z_scope.

(** ** What leaves the globals of the heap alone *)

Section same_heap.
Context {P M : Type} `{FS : FrameSource P} `{HM : Machine M} `{SK : Sink M}.
Implicit Types (k : kernel P M).

Definition same_heap k k' : Prop :=
  free_segments_head (k_heap k') = free_segments_head (k_heap k) /\
  next_page_virt_addr (k_heap k') = next_page_virt_addr (k_heap k) /\
  h_frames (k_heap k') = h_frames (k_heap k) /\
  tfs_sector_buffer k' = tfs_sector_buffer k.

#[export] Instance same_heap_pre : PreOrder same_heap.
Proof. split; [by intros k|]. intros k1 k2 k3 (?&?&?&?) (?&?&?&?). unfold same_heap. by repeat split; etransitivity. Qed.

Lemma same_heap_mem k m : same_heap k (with_mem k m).
Proof. done. Qed.

Lemma disk_read_same fuel lba buffer k k' : disk_read fuel lba buffer k = Ok k' -> same_heap k k'.
Proof. unfold disk_read. intros ([m s] & _ & [= <-])%bind_Ok. done. Qed.

Lemma disk_write_same fuel lba buffer k k' : disk_write fuel lba buffer k = Ok k' -> same_heap k k'.
Proof. unfold disk_write. intros (s & _ & [= <-])%bind_Ok. done. Qed.

(** The parts of the calls keep it. *)
Lemma load_fats_same fuel fats k k' : load_fats fuel fats k = Ok k' -> same_heap k k'.
Proof. eapply (load_fats_steps fuel same_heap), disk_read_same. Qed.

Lemma lookup_same fuel path file_meta k r k' :
  tfs_get_file_metadata_from_name fuel path file_meta k = Ok (r, k') -> same_heap k k'.
Proof. eapply (lookup_steps fuel same_heap); [apply same_heap_mem|apply disk_read_same]. Qed.

Lemma read_data_same fuel fats file_meta buffer n o k r k' :
  tfs_read_data fuel fats file_meta buffer n o k = Ok (r, k') -> same_heap k k'.
Proof. eapply (read_data_steps fuel same_heap); [apply same_heap_mem|apply disk_read_same]. Qed.

Lemma write_file_same fuel fats file_meta buffer size offset r k b k' :
  tfs_write_file fuel fats file_meta buffer size offset r k = Ok (b, k') -> same_heap k k'.
Proof.
  eapply (write_file_keeps fuel same_heap); [apply same_heap_mem|apply disk_read_same|apply disk_write_same].
Qed.
End same_heap.

Section whole.
Context {P M : Type} `{FS : FrameSource P} `{FSO : !FrameSourceOk P} `{HM : Machine M} `{SK : Sink M}
  `{SKO : !SinkOk M} `{AD : !AtaDrive M} `{PD : !PromptDrive M}.
Implicit Types (h : heap P) (k : kernel P M).

(** ** The heap *)

(** The heap keeps its shape when the words of its free list are kept. *)
Lemma heap_inv_same k k' fl bl : heap_inv (k_heap k) fl bl -> same_heap k k' ->
  same_nodes fl (k_mem k) (k_mem k') -> heap_inv (k_heap k') fl bl.
Proof.
  intros [Hl Hs Hb Hd Hn Hf Hm] (Hh & Hx & Hp & _) Hsame.
  split; rewrite ?Hh, ?Hx, ?Hp; try done. by eapply lseg_frame.
Qed.

(** An allocation of 32 bytes when the only free segment says it is empty: a
    page is committed, and counted to the segment wherever that is. *)
Lemma allocate_from_empty h s bl p fuel : heap_inv h [(s, 0)] bl -> seg_next (h_mem h) s = 0 ->
  Forall (fun '(a, n) => a + n <= s) bl ->
  fs_commit (next_page_virt_addr h) (h_frames h) = Ok (true, p) ->
  next_page_virt_addr h + 4096 < 4294967296 -> (2 < fuel)%nat ->
  exists h', memory_allocate fuel 32 h = Ok (s + 4, h') /\
    heap_inv h' [(s + 36, 4060)] ((s, 36) :: bl) /\ ld32 (h_mem h') s = 36 /\
    next_page_virt_addr h' = next_page_virt_addr h + 4096 /\ h_frames h' = p /\
    forall x, x < s \/ s + 4096 <= x -> ld8 (h_mem h') x = ld8 (h_mem h) x.
Proof.
  intros Hinv Hnx Hbl Hc Hmax Hf. destruct (inv_list Hinv) as (Hhd & Hs0 & Hlen & _).
  destruct (inv_sorted Hinv) as (Hs1 & Hs4 & _ & Hs2). unfold extent, heap_start in Hs1, Hs2. cbn in Hs2.
  destruct (inv_next Hinv) as [Hn4 _]. set (next := next_page_virt_addr h) in *. pf_unfold.
  set (hA := Heap (set_len (h_mem h) s 4096) s (next + 4096) p).
  assert (heap_inv hA [(s, 4096)] bl) as HA.
  { destruct (fs_commit_ok (h_frames h) next (inv_frames Hinv)) as (b & p' & E & Hp & _ & Hmaps);
      [unfold in_heap, heap_start; pf_unfold; lia|done|]. rewrite E in Hc. injection Hc as -> ->.
    split; cbn [hA h_mem free_segments_head next_page_virt_addr h_frames]; [| | |apply Hinv|split; [zmod|lia]|done|].
    - cbn. rewrite seg_len_set_len, seg_next_set_len, Hnx. by split_and!.
    - cbn. unfold heap_start, extent. pf_unfold. lia.
    - pose proof (inv_blocks Hinv) as Hb. rewrite Forall_forall in Hb, Hbl. apply Forall_forall. intros [a n] Hin.
      specialize (Hb _ Hin). specialize (Hbl _ Hin). cbn in Hb, Hbl. fold next in Hb.
      split_and!; [tauto..|lia|]. constructor; [lia|constructor].
    - intros a Ha. apply Hmaps; [unfold in_heap, heap_start in *; pf_unfold; lia|].
      destruct (Z.lt_ge_cases a next); [right; apply Hinv; fold next; lia|left; split; [done|zmod]]. }
  destruct (take_inv hA bl 32 36 [] s 4096 [] HA) as (h' & Ht & Ha); [lia|done|].
  destruct (take_segment_spec hA 32 36 [] s 4096 [] heap_start (next + 4096)) as
    (h2 & Ht2 & Hnext & Hfr & Hl & Hhd2 & Hkeep);
    [unfold heap_start; pf_unfold; lia|lia|apply HA|apply HA|lia|done|].
  assert (loop fuel (search_body (h_mem h) 36) (0, 0, s) = Ok (0, s, 0, false)) as Hsearch.
  { destruct fuel as [|[|fuel]]; [lia..|]. cbn [loop search_body]. destruct (Z.eqb_spec s 0); [done|].
    by rewrite Hlen, Hnx. }
  assert (loop fuel (grow_body 36) (0, next, h_frames h) = Ok (true, (4096, next + 4096, p))) as Hgrow.
  { destruct fuel as [|[|fuel]]; [lia..|]. cbn [loop grow_body]. cbn [Z.ltb Z.compare]. rewrite Hc, bind_Ok_r.
    unfold PAGE_SIZE. change (w32 (0 + 4096)) with 4096. by rewrite w32_id by (unfold is_u32; lia). }
  exists h2. split.
  { unfold memory_allocate. rewrite true_size_ok, bind_Ok_r by lia. change (round4 (32 + 4)) with 36.
    rewrite Hhd. destruct (Z.eqb_spec s 0); [done|]. unfold allocate_from.
    rewrite Hhd, Hsearch, bind_Ok_r. cbv beta iota. rewrite Z.eqb_refl. destruct (Z.eqb_spec s 0); [done|].
    res_step. rewrite Hlen. fold next. rewrite Hgrow, bind_Ok_r. cbv beta iota zeta. cbn [negb h_mem]. rewrite seg_len_set_len.
    exact (f_equal Ok Ht2). }
  rewrite Ht in Ht2. injection Ht2 as <-. destruct Ha as (s' & fl' & Hs' & _ & Hinv' & _).
  assert (s' = s) as -> by lia. pose proof (lseg_unique _ _ _ _ (inv_list Hinv') Hl) as ->.
  split; [exact Hinv'|]. split; [exact Hhd2|]. split; [exact Hnext|]. split; [exact Hfr|]. intros x Hx.
  rewrite (Hkeep x 1); [|constructor; [unfold extent; lia|constructor]|lia]. cbn [hA h_mem]. apply ld8_set_len. lia.
Qed.
(** ** The beginning and the end of the two calls *)

Lemma mounted_heap img k h : mounted img k -> mounted img (with_heap k h).
Proof. intros [[] ? ? ? ? ?]. constructor; [by constructor|done..]. Qed.

(** So many pages can be had from [next] on. *)
Fixpoint pages (pg : nat) (next : Z) (p : P) : Prop :=
  match pg with
  | O => True
  | S pg => exists p', fs_commit next p = Ok (true, p') /\ pages pg (next + 4096) p'
  end.

(** The heap is one free segment above all blocks, with space for the FAT and
    what is read behind it, and [pg] pages can be had. *)
Record roomy k (s len : Z) (bl : list (Z * Z)) (pg : nat) : Prop := {
  ro_inv : heap_inv (k_heap k) [(s, len)] bl;
  ro_len : 1540 <= len;
  ro_below : Forall (fun '(a, n) => a + n <= s) bl;
  ro_pages : pages pg (next_page_virt_addr (k_heap k)) (h_frames (k_heap k));
  ro_space : next_page_virt_addr (k_heap k) + 4096 * Z.of_nat pg < 4294967296;
}.

Section calls.
Context (img : mem) (s len : Z) (bl : list (Z * Z)) (pg : nat).
Context (Hfc : fs_fat_sector_count img = 2) (Hzero : forall i, 256 <= i < 260 -> fat_entry img i = 0).

(** After the FAT is loaded: its first half in the block, and an empty free
    segment behind it. *)
Lemma fats_loaded k fuel : roomy k s len bl (S pg) -> mounted img k -> (ad_latency + 2 < fuel)%nat -> (1 < fuel)%nat ->
  exists k1 k2, allocate fuel 1024 k = Ok (s + 4, k1) /\ load_fats fuel (s + 4) k1 = Ok k2 /\
    tfs_fs_meta k1 = tfs_fs_meta k /\ mounted img k2 /\ disk_of k2 = disk_of k /\ tfs_sector_buffer k2 = tfs_sector_buffer k /\
    heap_inv (k_heap k2) [(s + 1028, 0)] ((s, 1028) :: bl) /\
    seg_next (k_mem k2) (s + 1028) = 0 /\ ld32 (k_mem k2) s = 1028 /\
    next_page_virt_addr (k_heap k2) = next_page_virt_addr (k_heap k) /\ h_frames (k_heap k2) = h_frames (k_heap k) /\
    (forall i, 0 <= i < 256 -> ld16 (k_mem k2) (s + 4 + 2 * i) = fat_entry img i) /\
    forall x, x < s \/ next_page_virt_addr (k_heap k) <= x -> ld8 (k_mem k2) x = ld8 (k_mem k) x.
Proof.
  intros [Hinv Hlen Hbl _ Hmax] Hmt Hf Hf1. destruct (inv_sorted Hinv) as (Hs1 & Hs4 & _ & Hs2).
  unfold extent, heap_start in Hs1, Hs2. cbn in Hs2. set (next := next_page_virt_addr (k_heap k)) in *. pf_unfold.
  destruct (memory_allocate_first_fit (k_heap k) [] s len [] bl 1024 fuel Hinv)
    as (h1 & Hal & Hhd & Hnx & Hinv1 & Hfr & Hkeep); [lia|constructor|change (round4 (1024 + 4)) with 1028; lia|cbn; lia|].
  change (round4 (1024 + 4)) with 1028 in *. unfold leftover in Hinv1. cbn [fst snd app] in Hinv1.
  destruct (Z.leb_spec (1028 + 8) len); [|lia]. cbn [app] in Hinv1.
  pose proof (mounted_heap img k h1 Hmt) as Hmt1.
  destruct (load_fats_ok fuel (s + 4) img (with_heap k h1) Hmt1 Hfc)
    as (k2 & Hl & Hmt2 & Hd2 & Hfst & Hsnd & Hk2); [lia|lia|done|].
  pose proof (load_fats_same _ _ _ _ Hl) as (Hh2 & Hn2 & Hp2 & Hb2). cbn [k_heap with_heap tfs_sector_buffer] in Hh2, Hn2, Hp2, Hb2.
  replace (s + 4 + 1024) with (s + 1028) in Hsnd by lia.
  assert (forall i, 0 <= i < 4 -> ld16 (k_mem k2) (s + 1028 + 2 * i) = 0) as Hz
    by (intros i Hi; rewrite Hsnd by lia; apply Hzero; lia).
  pose proof (Hz 0 ltac:(lia)) as Z0. rewrite Z.mul_0_r, Z.add_0_r in Z0. pose proof (Hz 1 ltac:(lia)) as Z1. change (2 * 1) with 2 in Z1.
  pose proof (Hz 2 ltac:(lia)) as Z2. change (2 * 2) with 4 in Z2. pose proof (Hz 3 ltac:(lia)) as Z3.
  assert (seg_next (k_mem k2) (s + 1028) = 0) as Hsn by (unfold seg_next, ld32; by rewrite Z0, Z1).
  destruct (inv_list Hinv1) as (Hhead & _). fold next in Hnx. rewrite Hnx in Hn2.
  exists (with_heap k h1), k2. unfold allocate. rewrite Hal, bind_Ok_r.
  split_and!; [done..| |exact Hsn| |exact Hn2|by rewrite Hp2|done|].
  - split; rewrite ?Hh2, ?Hn2, ?Hp2; [| | | |split; [apply Hinv|fold next; lia]|by apply Hinv1|].
    + cbn. split_and!; [done|lia| |exact Hsn].
      change (h_mem (k_heap k2)) with (k_mem k2). unfold seg_len, ld32. replace (s + 1028 + 4 + 2) with (s + 1028 + 2 * 3) by lia. by rewrite Z2, Z3.
    + cbn. unfold heap_start, extent. pf_unfold. split_and!; [lia|zmod|lia|lia].
    + pose proof (inv_blocks Hinv) as Hb. rewrite Forall_forall in Hb, Hbl. fold next in Hb. constructor.
      * unfold heap_start. pf_unfold. split_and!; [lia..|]. constructor; [lia|constructor].
      * apply Forall_forall. intros [a n] Hin. specialize (Hb _ Hin). specialize (Hbl _ Hin). cbn in Hb, Hbl.
        split_and!; [tauto..|]. constructor; [lia|constructor].
    + apply Hinv1.
    + intros a Ha. apply (inv_mapped Hinv1). by rewrite Hnx.
  - rewrite (ld32_frame (h_mem h1)); [by rewrite Hhd|]. intros x Hx. apply Hk2. lia.
  - intros x Hx. rewrite Hk2 by lia. apply (Hkeep x 1); [|lia].
    constructor; [unfold extent; lia|constructor].
Qed.
(** After [tfs_open] the two blocks are there, with the table and what the
    lookup found, and the rest of the second page is the free list. *)
Record opened k (r : File_Metadata_Result) (name : list Z) k' : Prop := {
  op_mounted : mounted img k';
  op_disk : disk_of k' = disk_of k;
  op_buffer : tfs_sector_buffer k' = tfs_sector_buffer k;
  op_heap : heap_inv (k_heap k') [(s + 1064, 4060)] ((s + 1028, 36) :: (s, 1028) :: bl);
  op_next : next_page_virt_addr (k_heap k') = next_page_virt_addr (k_heap k) + 4096;
  op_pages : pages pg (next_page_virt_addr (k_heap k')) (h_frames (k_heap k'));
  op_header : ld32 (k_mem k') s = 1028 /\ ld32 (k_mem k') (s + 1028) = 36;
  op_table : forall i, 0 <= i < 256 -> ld16 (k_mem k') (s + 4 + 2 * i) = fat_entry img i;
  op_result : lookup_result img name (s + 1032) (fs_file_meta_sector_count img) r k';
  op_frame : forall x, x < s \/ next_page_virt_addr (k_heap k) + 4096 <= x ->
    x < tfs_sector_buffer k \/ tfs_sector_buffer k + 512 <= x -> ld8 (k_mem k') x = ld8 (k_mem k) x;
}.

Lemma open_ok k fuel path name : roomy k s len bl (S pg) -> mounted img k -> (length name < 24)%nat ->
  0 <= str_length path -> bytes_at (k_mem k) (str_data path) (Z.to_nat (str_length path)) = name ->
  apart (str_data path) (str_length path) (tfs_sector_buffer k) 512 ->
  str_data path + str_length path <= s \/ next_page_virt_addr (k_heap k) + 4096 <= str_data path ->
  tfs_sector_buffer k + 512 <= s -> (ad_latency + 2 < fuel)%nat -> (16 < fuel)%nat ->
  exists r k', tfs_open fuel path k = Ok (s + 4, s + 1032, r, k') /\ opened k r name k'.
Proof.
  intros Hro Hmt Hname Hpl Hpath Hpb Hps Hsb Hf Hf16.
  destruct (fats_loaded k fuel Hro Hmt Hf ltac:(lia)) as
    (k1 & k2 & Hal & Hld & Hme1 & Hmt2 & Hd2 & Hb2 & Hinv2 & Hnx2 & Hhd2 & Hn2 & Hp2 & Ht2 & Hk2).
  destruct Hro as [Hinv Hlen Hbl (p & Hc & Hpages) Hmax]. destruct (inv_sorted Hinv) as (_ & _ & _ & Hs2).
  unfold extent in Hs2. cbn in Hs2. set (next := next_page_virt_addr (k_heap k)) in *.
  destruct (allocate_from_empty (k_heap k2) (s + 1028) ((s, 1028) :: bl) p fuel Hinv2 Hnx2) as
    (h3 & Ha3 & Hinv3 & Hhd3 & Hn3 & Hp3 & Hk3);
    [constructor; [lia|eapply Forall_impl; [exact Hbl|]; intros [a n]; lia]|by rewrite Hn2, Hp2|lia|lia|].
  replace (s + 1028 + 36) with (s + 1064) in Hinv3 by lia. rewrite Hn2 in Hn3.
  set (k3 := with_heap k2 h3). pose proof (mounted_heap img k2 h3 Hmt2) as Hmt3. fold k3 in Hmt3.
  assert (forall x, x < s \/ next + 4096 <= x -> ld8 (k_mem k3) x = ld8 (k_mem k) x) as Hk03.
  { intros x Hx. change (k_mem k3) with (h_mem h3). rewrite Hk3 by lia. apply Hk2. lia. }
  assert (bytes_at (k_mem k3) (str_data path) (Z.to_nat (str_length path)) = name) as Hpath3
    by (rewrite <- Hpath; apply bytes_at_ext; intros b Hbr; apply Hk03; lia).
  assert (apart (str_data path) (str_length path) (s + 1032) 32) as Hpm by (unfold apart; lia).
  destruct (lookup_all img path name (s + 1032) k3 Hmt3 Hname Hpath3 Hpl) with (fuel := fuel)
    as (r & k4 & Hlk & Hs4 & Hd4 & Hout & Hr); [by rewrite <- Hb2 in Hpb|done| |done|done|].
  { unfold apart. change (tfs_sector_buffer k3) with (tfs_sector_buffer k2). rewrite Hb2. lia. }
  pose proof (lookup_same _ _ _ _ _ _ Hlk) as Hsh. pose proof Hsh as (_ & Hn4 & Hp4 & _).
  assert (tfs_sector_buffer k3 = tfs_sector_buffer k) as Hb3 by exact Hb2.
  unfold outside in Hout. rewrite Hb3 in Hout.
  exists r, k4. split.
  - unfold tfs_open.
    assert (m_fat_sector_count (tfs_fs_meta k) = 2) as Hfs by (by rewrite (mt_meta _ _ Hmt)).
    assert (m_sector_size (tfs_fs_meta k) = 512) as Hss by (by rewrite (mt_meta _ _ Hmt), <- (mt_512 _ _ Hmt)).
    rewrite Hfs, Hss. change (2 =? 2) with true. res_step. change (w32 (512 * 2)) with 1024.
    rewrite Hal, bind_Ok_r, Hld, bind_Ok_r. unfold allocate at 1. rewrite Ha3, bind_Ok_r. cbv beta iota.
    replace (s + 1028 + 4) with (s + 1032) by lia. fold k3. rewrite !bind_Ok_r. cbv beta iota. by rewrite Hlk.
  - assert (forall x, s <= x < s + 1032 \/ s + 1064 <= x < s + 5124 -> ld8 (k_mem k4) x = ld8 (k_mem k3) x) as Hk34
      by (intros x Hx; apply Hout; lia).
    split.
    + by apply (mounted_same img k3).
    + by rewrite Hd4.
    + by rewrite (sf_buffer _ _ Hs4).
    + apply (heap_inv_same k3 k4 _ _ Hinv3 Hsh). constructor; [|constructor]. intros x Hx. apply Hk34. lia.
    + rewrite Hn4. exact Hn3.
    + rewrite Hn4, Hp4. change (k_heap k3) with h3. by rewrite Hn3, Hp3.
    + split.
      * rewrite <- Hhd2. apply ld32_frame. intros x Hx. rewrite Hk34 by lia. apply Hk3. lia.
      * rewrite <- Hhd3. apply ld32_frame. intros x Hx. apply Hk34. lia.
    + intros i Hi. rewrite <- Ht2 by done. apply ld16_frame. intros x Hx. rewrite Hk34 by lia. apply Hk3. lia.
    + done.
    + intros x Hx1 Hx2. rewrite Hout by lia. by apply Hk03.
Qed.

Lemma nothing_below a q n pre post : [(q, n)] = pre ++ post -> fl_ok heap_start a pre -> a < q ->
  pre = [] /\ post = [(q, n)].
Proof.
  destruct pre as [|[b k] pre]; cbn; [by intros <-|]. intros [= <- <- _] (_ & _ & _ & Hle%fl_ok_le).
  unfold extent in Hle. lia.
Qed.

(** [tfs_close] gives both blocks back: the heap is one free segment. *)
Lemma close_ok k fuel result : mounted img k ->
  heap_inv (k_heap k) [(s + 1064, 4060)] ((s + 1028, 36) :: (s, 1028) :: bl) ->
  ld32 (k_mem k) s = 1028 -> ld32 (k_mem k) (s + 1028) = 36 -> (2 < fuel)%nat ->
  exists k', tfs_close fuel (s + 4) (s + 1032) result k = Ok (result, k') /\ mounted img k' /\
    disk_of k' = disk_of k /\ tfs_sector_buffer k' = tfs_sector_buffer k /\
    heap_inv (k_heap k') [(s, 5124)] bl /\ blocks_kept bl (k_mem k) (k_mem k') /\
    next_page_virt_addr (k_heap k') = next_page_virt_addr (k_heap k) /\
    h_frames (k_heap k') = h_frames (k_heap k) /\
    forall x, 4 <= x < s -> ld8 (k_mem k') x = ld8 (k_mem k) x.
Proof.
  intros Hmt Hinv H1 H2 Hf.
  destruct (memory_free_ok (k_heap k) _ [] (s + 1028) 36 _ fuel Hinv) as
    (pre & post & h1 & E & Hpre & _ & Hfr1 & Hinv1 & Hk1 & Hnx1 & Hfs1 & Hlow1);
    [change (h_mem (k_heap k)) with (k_mem k); lia|constructor; lia|cbn; lia|].
  destruct (nothing_below _ _ _ _ _ E Hpre) as [-> ->]; [lia|]. change (h_mem (k_heap k)) with (k_mem k) in *. rewrite H2 in Hinv1.
  unfold insert_list, coalesce_next in Hinv1. replace (s + 1028 + 36) with (s + 1064) in Hinv1 by lia.
  rewrite Z.eqb_refl in Hinv1. change (coalesce_prev [] (s + 1028) (36 + 4060)) with [(s + 1028, 4096)] in Hinv1.
  cbn [app] in Hinv1, Hk1. inversion_clear Hk1 as [|? ? Hks Hkb].
  assert (ld32 (h_mem h1) s = 1028) as Hhd by (rewrite <- H1; apply ld32_frame; intros x Hx; apply Hks; lia).
  destruct (memory_free_ok h1 _ [] s 1028 _ fuel Hinv1) as (pre2 & post2 & h2 & E2 & Hpre2 & _ & Hfr2 & Hinv2 & Hk2 & Hnx2 & Hfs2 & Hlow2);
    [lia|constructor; lia|cbn; lia|].
  destruct (nothing_below _ _ _ _ _ E2 Hpre2) as [-> ->]; [lia|]. rewrite Hhd in Hinv2. unfold insert_list, coalesce_next in Hinv2.
  rewrite Z.eqb_refl in Hinv2. change (coalesce_prev [] s (1028 + 4096)) with [(s, 5124)] in Hinv2.
  cbn [app] in Hinv2, Hk2.
  exists (with_heap (with_heap k h1) h2). split.
  { unfold tfs_close, free. replace (s + 1032) with (s + 1028 + 4) by lia. rewrite Hfr1, !bind_Ok_r.
    cbn [k_heap with_heap]. by rewrite Hfr2. }
  split; [by do 2 apply mounted_heap|]. split_and!; [done|done|exact Hinv2| |by etransitivity|by etransitivity|].
  - unfold blocks_kept in *. rewrite Forall_forall in Hkb, Hk2 |- *. intros [a n] Hin x Hx.
    specialize (Hkb _ Hin x Hx). specialize (Hk2 _ Hin x Hx). change (ld8 (h_mem h2) x = ld8 (k_mem k) x). by rewrite Hk2.
  - intros x Hx. change (ld8 (h_mem h2) x = ld8 (k_mem k) x).
    rewrite (Hlow2 x 1), (Hlow1 x 1); [done|lia|constructor; [unfold extent; lia|constructor]|lia..|
      constructor; [unfold extent; lia|constructor]|lia|lia].
Qed.
End calls.

(** ** The two calls *)

(** One entry at most has a name. *)
Definition unique_name (img : mem) (name : list Z) : Prop :=
  forall i j, 0 <= i < count_file_meta_entries img -> 0 <= j < count_file_meta_entries img ->
    matches img name i = true -> matches img name j = true -> i = j.

(** A call for a name: the disk's FAT has two sectors and its entries 256 to
    259 are free; one file at most has the name, which is in memory outside
    the sector buffer and the free space of the heap. *)
Record callable img name path k (s len : Z) (bl : list (Z * Z)) (pg : nat) : Prop := {
  ca_mounted : mounted img k;
  ca_fat : fs_fat_sector_count img = 2;
  ca_zero : forall i, 256 <= i < 260 -> fat_entry img i = 0;
  ca_roomy : roomy k s len bl (S pg);
  ca_length : (length name < 24)%nat;
  ca_unique : unique_name img name;
  ca_path : 0 <= str_length path /\
    bytes_at (k_mem k) (str_data path) (Z.to_nat (str_length path)) = name;
  ca_path_buffer : apart (str_data path) (str_length path) (tfs_sector_buffer k) 512;
  ca_path_heap : str_data path + str_length path <= s \/
    next_page_virt_addr (k_heap k) + 4096 <= str_data path;
  ca_buffer : tfs_sector_buffer k + 512 <= s;
}.

(** After a call: the heap is again one free segment, with a page more, and
    below it only the sector buffer and [n] bytes at [a] may have changed. *)
Record returned img k (s : Z) (bl : list (Z * Z)) (pg : nat) (a n : Z) k' : Prop := {
  rt_mounted : mounted img k';
  rt_roomy : roomy k' s 5124 bl pg;
  rt_buffer : tfs_sector_buffer k' = tfs_sector_buffer k;
  rt_frame : forall x, 4 <= x < s -> x < tfs_sector_buffer k \/ tfs_sector_buffer k + 512 <= x ->
    x < a \/ a + n <= x -> ld8 (k_mem k') x = ld8 (k_mem k) x;
}.

Section found.
Context (img : mem) (name : list Z) (path : String_t) (k : kernel P M) (s len : Z) (bl : list (Z * Z)) (pg : nat).
Context (Hca : callable img name path k s len bl pg).
Context (fuel : nat) (Hf : (ad_latency + 2 < fuel)%nat) (Hf16 : (16 < fuel)%nat).

Lemma fat_count_512 : fat_count img = 512.
Proof.
  unfold fat_count. rewrite (ca_fat _ _ _ _ _ _ _ _ Hca), (mt_512 _ _ (ca_mounted _ _ _ _ _ _ _ _ Hca)). done.
Qed.

(** The place of the free segment. *)
Lemma free_place : heap_start <= s /\ s + 1540 <= next_page_virt_addr (k_heap k) /\
  next_page_virt_addr (k_heap k) + 4096 * Z.of_nat (S pg) < 4294967296.
Proof.
  destruct (ca_roomy _ _ _ _ _ _ _ _ Hca) as [Hinv Hlen _ _ Hmax].
  destruct (inv_sorted Hinv) as (Hs1 & _ & _ & Hs2). unfold extent in Hs2. cbn in Hs2. lia.
Qed.

(** [tfs_open] of a file that is there. *)
Lemma open_id id : get_file_id_from_name img name = id -> 0 < id <= count_file_meta_entries img ->
  exists k', tfs_open fuel path k =
      Ok (s + 4, s + 1032, Found true (1 + (id - 1) / 16) (32 * ((id - 1) mod 16)), k') /\
    opened img s bl pg k (Found true (1 + (id - 1) / 16) (32 * ((id - 1) mod 16))) name k' /\
    bytes_at (k_mem k') (s + 1032) 32 = bytes_at img (file_entry img (id - 1)) 32.
Proof.
  intros Hid Hidr. destruct Hca as [Hmt Hfc Hz Hro Hname Huniq [Hpl Hpath] Hpb Hph Hsb].
  destruct (open_ok img s len bl pg Hfc Hz k fuel path name) as (r & k' & H & Hop); [done..|].
  pose proof (lookup_unique img name (s + 1032) k Hmt Hname Huniq r k' (op_result _ _ _ _ _ _ _ _ Hop)) as Hlk.
  cbv zeta in Hlk. rewrite Hid in Hlk.
  destruct Hlk as [[? _]|(_ & -> & Hb)]; [lia|]. exists k'. split_and!; [done|done|].
  apply bytes_at_ext. intros b Hbr. by apply Hb.
Qed.

Lemma open_found id l : file_at img name id l -> Forall (fun i => i < 256) l ->
  exists k', tfs_open fuel path k =
      Ok (s + 4, s + 1032, Found true (1 + (id - 1) / 16) (32 * ((id - 1) mod 16)), k') /\
    opened img s bl pg k (Found true (1 + (id - 1) / 16) (32 * ((id - 1) mod 16))) name k' /\
    bytes_at (k_mem k') (s + 1032) 32 = bytes_at img (file_entry img (id - 1)) 32 /\
    forall i, i ∈ l -> fats_at (k_mem k') (s + 4) i = fat_entry img i.
Proof.
  intros Hfa Hl. destruct (fa_id _ _ _ _ Hfa) as [Hid Hidr].
  destruct (open_id id Hid Hidr) as (k' & H & Hop & Hb). exists k'. split_and!; [done..|].
  intros i Hi. rewrite Forall_forall in Hl. specialize (Hl i Hi).
  pose proof (chain_range img l i (fa_chain _ _ _ _ Hfa) Hi) as [Hi0 _].
  destruct free_place as (Hs0 & Hs1 & Hs2). unfold heap_start in Hs0. pf_unfold.
  unfold fats_at. rewrite w32_id by (unfold is_u32; lia). by apply (op_table _ _ _ _ _ _ _ _ Hop).
Qed.

(** What is done between [tfs_open] and [tfs_close] leaves the other blocks and
    the headers of the two alone. *)
Lemma close_opened r nm k1 k2 img2 a n result : opened img s bl pg k r nm k1 -> mounted img2 k2 ->
  same_heap k1 k2 -> apart a n s 5124 ->
  (forall x, x < tfs_sector_buffer k \/ tfs_sector_buffer k + 512 <= x -> x < s + 4 \/ s + 1028 <= x ->
     x < s + 1032 \/ s + 1064 <= x -> x < a \/ a + n <= x -> ld8 (k_mem k2) x = ld8 (k_mem k1) x) ->
  exists k', tfs_close fuel (s + 4) (s + 1032) result k2 = Ok (result, k') /\
    returned img2 k s bl pg a n k' /\ disk_of k' = disk_of k2 /\ blocks_kept bl (k_mem k2) (k_mem k').
Proof.
  intros [Hmt1 Hd1 Hb1 Hinv1 Hn1 Hpg1 [Hh1 Hh2] _ _ Hfr1] Hmt2 Hsh Ha Hfr.
  pose proof (ca_buffer _ _ _ _ _ _ _ _ Hca) as Hsb. pose proof Hsh as (_ & Hn2 & Hp2 & Hb2).
  destruct (ca_roomy _ _ _ _ _ _ _ _ Hca) as [Hinv _ Hbl _ _].
  destruct free_place as (Hs0 & Hs1 & Hs2). unfold heap_start in Hs0. pf_unfold.
  assert (forall x, s <= x < s + 4 \/ s + 1028 <= x < s + 1032 \/ s + 1064 <= x < s + 5124 ->
    ld8 (k_mem k2) x = ld8 (k_mem k1) x) as Hkeep by (intros x Hx; destruct Ha; apply Hfr; lia).
  assert (heap_inv (k_heap k2) [(s + 1064, 4060)] ((s + 1028, 36) :: (s, 1028) :: bl)) as Hinv2.
  { apply (heap_inv_same k1 k2 _ _ Hinv1 Hsh). constructor; [|constructor]. intros x Hx. apply Hkeep. lia. }
  destruct (close_ok img2 s bl k2 fuel result Hmt2 Hinv2) as (k3 & H3 & Hmt3 & Hd3 & Hb3 & Hinv3 & Hk3 & Hn3 & Hp3 & Hl3);
    [rewrite <- Hh1|rewrite <- Hh2|lia|]; try (apply ld32_frame; intros x Hx; apply Hkeep; lia).
  exists k3. split; [exact H3|]. split_and!; [|done|done]. split; [done| |by rewrite Hb3, Hb2|].
  - split; [done|lia|done|by rewrite Hn3, Hn2, Hp3, Hp2|rewrite Hn3, Hn2, Hn1; lia].
  - intros x Hx1 Hx2 Hx3. rewrite Hl3, Hfr by lia. apply Hfr1; lia.
Qed.

Lemma read_ok id l buffer n o : file_at img name id l -> Forall (fun i => i < 256) l ->
  Exists (fun '(a, m) => a <= buffer /\ buffer + n <= a + m) bl ->
  apart buffer n (tfs_sector_buffer k) 512 ->
  0 <= o -> 0 < n -> readable img id l n o -> (length l < fuel)%nat ->
  exists k', tfs_read fuel path buffer n o k = Ok (true, k') /\ returned img k s bl pg buffer n k' /\
    disk_of k' = disk_of k /\
    bytes_at (k_mem k') buffer (Z.to_nat n) = take (Z.to_nat n) (drop (Z.to_nat o) (chain_bytes img l)).
Proof.
  intros Hfa Hl Hblk Hbs Ho Hn Hin Hfl. destruct (open_found id l Hfa Hl) as (k1 & H1 & Hop & Hmeta & Htab).
  pose proof Hop as [Hmt1 Hd1 Hb1 _ _ _ _ _ _ _]. pose proof (ca_buffer _ _ _ _ _ _ _ _ Hca) as Hsb.
  destruct free_place as (Hs0 & Hs1 & Hs2). unfold heap_start in Hs0. pf_unfold.
  apply Exists_exists in Hblk as ([a m] & Hin' & Ha & Hb).
  destruct (ca_roomy _ _ _ _ _ _ _ _ Hca) as [Hinv _ Hbl _ _].
  pose proof (inv_blocks Hinv) as Hwf. rewrite Forall_forall in Hwf, Hbl.
  specialize (Hwf _ Hin') as (Hwa & _). specialize (Hbl _ Hin'). unfold heap_start in Hwa. pf_unfold.
  destruct (read_bytes_ok img name id l (s + 4) (s + 1032) buffer n o k1 fuel Hmt1)
    as (k2 & H2 & Hmt2 & Hd2 & _ & Hbytes & Hfr); rewrite ?Hb1, ?fat_count_512;
    try (done || lia || (unfold apart; lia)).
  rewrite Hb1 in Hfr. pose proof (read_data_same _ _ _ _ _ _ _ _ _ H2) as Hsh.
  destruct (close_opened _ _ k1 k2 img buffer n true Hop Hmt2 Hsh) as (k3 & H3 & Hrt & Hd3 & Hk3);
    [left; lia|intros; by apply Hfr|].
  exists k3. split.
  { unfold tfs_read. rewrite H1, bind_Ok_r. cbv beta iota. cbn [found negb]. by rewrite H2. }
  split_and!; [done|by rewrite Hd3, Hd2|].
  rewrite <- Hbytes. apply bytes_at_ext. intros b Hbr. unfold blocks_kept in Hk3. rewrite Forall_forall in Hk3.
  apply (Hk3 _ Hin'). lia.
Qed.

(** A write to a file that has a sector. When it does not fit the sector it
    starts in, the first free sector must be in the first half of the FAT. *)
Lemma write_ok id l buffer n o fuel' c : file_at img name id l -> Forall (fun i => i < 256) l ->
  0 <= buffer -> buffer + n <= s \/ next_page_virt_addr (k_heap k) + 4096 <= buffer ->
  buffer + n <= 4294967296 -> apart buffer n (tfs_sector_buffer k) 512 ->
  0 <= o -> 0 < n -> o + n + 512 <= 4294967296 ->
  let pos := write_pos img (file_entry img (id - 1)) o in
  pos mod 512 + n <= 512 \/ 0 <= find_free_fat img < 256 ->
  (length l + 1 < fuel)%nat -> (Z.to_nat n < fuel)%nat -> (length l + 1 < fuel')%nat -> (Z.to_nat n < fuel')%nat ->
  let ok := bool_decide (pos < Z.of_nat (length l) * 512) in
  exists k' img', tfs_write fuel path buffer n o k = Ok (ok, k') /\
    tagfs_write fuel' img (c :: name) (bytes_at (k_mem k) buffer (Z.to_nat n)) n o =
      Ok (if ok then s32 n else - EBADFD, img') /\
    returned img' k s bl pg s 0 k'.
Proof.
  intros Hfa Hl Hb0 Hblk Hb4 Hbs Ho Hn Hend pos Hcase Hfl Hfn Hfl' Hfn' ok.
  destruct (open_found id l Hfa Hl) as (k1 & H1 & Hop & Hmeta & Htab).
  pose proof Hop as [Hmt1 Hd1 Hb1 _ _ _ _ Htab1 _ Hfr1]. pose proof (ca_buffer _ _ _ _ _ _ _ _ Hca) as Hsb.
  destruct free_place as (Hs0 & Hs1 & Hs2). unfold heap_start in Hs0. pf_unfold.
  destruct (write_file_as_fuse img name id l (s + 4) (s + 1032) buffer n o k1 Hmt1 Hfa Htab)
    with (fuel := fuel) (fuel' := fuel') (c := c) as (k2 & img' & H2 & Hw & Hmt2 & _ & Hfr);
    rewrite ?Hb1, ?fat_count_512; try (done || lia || (unfold apart; lia));
    [intros j Hj; by apply (bytes_at_inv _ _ _ _ 32 j Hmeta)| |].
  { destruct Hcase as [|Hq]; [by left|right].
    destruct (find_free_kernel img k1 (s + 4) _ Hmt1 eq_refl Hq Htab1) as [Hbf Hlt].
    exists (find_free_fat img). rewrite fat_count_512 in Hlt. split; [done|lia]. }
  rewrite Hb1 in Hfr. pose proof (write_file_same _ _ _ _ _ _ _ _ _ _ H2) as Hsh.
  destruct (close_opened _ _ k1 k2 img' s 0 ok Hop Hmt2 Hsh) as (k3 & H3 & Hrt & _ & _);
    [left; lia|intros; apply Hfr; lia|].
  exists k3, img'. split.
  { unfold tfs_write. rewrite H1, bind_Ok_r. cbv beta iota. cbn [found negb]. by rewrite H2. }
  split; [|done].
  etransitivity; [|exact Hw]. f_equal. apply bytes_at_ext. intros b Hbr. symmetry.
  apply Hfr1; [lia|destruct Hbs; lia].
Qed.
(** A name that no file has: both calls are false, having opened and closed. *)
Lemma missing_ok : get_file_id_from_name img name = 0 ->
  exists k', (forall buffer n o, tfs_read fuel path buffer n o k = Ok (false, k') /\
      tfs_write fuel path buffer n o k = Ok (false, k')) /\
    returned img k s bl pg s 0 k'.
Proof.
  intros Hid. pose proof Hca as [Hmt Hfc Hz Hro Hname Huniq [Hpl Hpath] Hpb Hph Hsb].
  destruct (open_ok img s len bl pg Hfc Hz k fuel path name) as (r & k1 & H1 & Hop); [done..|].
  pose proof (lookup_unique img name (s + 1032) k Hmt Hname Huniq r k1 (op_result _ _ _ _ _ _ _ _ Hop)) as Hlk.
  cbv zeta in Hlk. rewrite Hid in Hlk. destruct Hlk as [[_ ->]|[? _]]; [|lia].
  destruct (close_opened _ _ k1 k1 img s 0 false Hop (op_mounted _ _ _ _ _ _ _ _ Hop)) as (k' & H2 & Hrt & _);
    [done|left; lia|done|].
  exists k'. split; [|done]. intros buffer n o. unfold tfs_read, tfs_write. rewrite H1, !bind_Ok_r. by split.
Qed.
End found.
End whole.

(** ** Frames for the pages of the heap *)

Section frames.
Context (tables_addr kernel_end : Z) `{Hlink : !LinkerOk tables_addr kernel_end}.
#[local] Instance page_frames : FrameSource pfa := pfa_source tables_addr kernel_end.

(** Frames that are free. *)
Definition frames_free (bm : gmap Z Z) (X : gset Z) : Prop :=
  forall n, n ∈ X -> 0 <= n < PAGES /\ bit_at bm n = false.

Lemma frames_pages pg : forall s X next, frames_free (pfa_page_bitmap s) X -> (pg <= base.size X)%nat ->
  heap_start <= next -> next mod 4096 = 0 -> next + 4096 * Z.of_nat pg <= 4294967296 -> pages pg next s.
Proof.
  induction pg as [|pg IH]; intros s X next HX Hsz Hlo Ha Hhi; [exact I|]. cbn [pages].
  destruct (lowest_free_dec (pfa_page_bitmap s)) as [[n Hn]|Hfull].
  - destruct (commit_free tables_addr kernel_end s next n) as (s' & H & Hb & _); [unfold in_heap; lia|done..|].
    exists s'. split; [exact H|]. apply (IH s' (X ∖ {[n]})); [| |lia|zmod|lia].
    + intros m [Hm Hmn%not_elem_of_singleton]%elem_of_difference. destruct (HX m Hm) as [Hr Hf].
      split; [done|]. rewrite Hb, Hf by lia. by apply Z.eqb_neq.
    + rewrite size_difference_alt. pose proof (subseteq_size (X ∩ {[n]}) {[n]} ltac:(set_solver)) as Hle.
      rewrite size_singleton in Hle. lia.
  - destruct (size_pos_elem_of X) as [m Hm]; [lia|]. destruct (HX m Hm) as [Hr Hf]. by rewrite Hfull in Hf.
Qed.
End frames.

(** ** Properties *)

(** C18: On a disk with 512-byte sectors, a FAT of two of them whose entries 256 to
    259 are free, and a heap whose free space is one segment at its end
    ([callable]), [tfs_read] of a range inside a file whose sectors are in the
    first half of the FAT returns true with exactly those bytes of the file's
    content in the caller's block, and leaves the disk alone; the heap has the same blocks as before and one free segment, which has got
    a page and lost what was behind the first 1028 bytes of the old one; below
    it, memory is as before but for the caller's buffer and the sector buffer. *)
Theorem tfs_read_content {P M : Type} `{FS : FrameSource P} `{FSO : !FrameSourceOk P}
    `{HM : Machine M} `{SK : Sink M} `{SKO : !SinkOk M} `{AD : !AtaDrive M}
    img name path (k : kernel P M) s len bl pg fuel id l buffer n o :
  callable img name path k s len bl pg -> file_at img name id l -> Forall (fun i => i < 256) l ->
  Exists (fun '(a, m) => a <= buffer /\ buffer + n <= a + m) bl ->
  apart buffer n (tfs_sector_buffer k) 512 ->
  0 <= o -> 0 < n -> o + n <= file_size img (file_entry img (id - 1)) ->
  (ad_latency + 2 < fuel)%nat -> (16 < fuel)%nat -> (length l < fuel)%nat ->
  exists k', tfs_read fuel path buffer n o k = Ok (true, k') /\ returned img k s bl pg buffer n k' /\
    disk_of k' = disk_of k /\
    bytes_at (k_mem k') buffer (Z.to_nat n) = take (Z.to_nat n) (drop (Z.to_nat o) (content img id l)).
Proof.
  intros Hca Hfa Hl Hblk Hbs Ho Hn Hin Hf Hf16 Hfl. rewrite content_slice by done.
  eapply read_ok; (done || by left).
Qed.

(** C19: Under the same conditions, with a drive that is done with a written sector
    by the next transfer ([PromptDrive]), [tfs_write] to a file that has a sector,
    its sectors in the first half of the FAT, does what the FUSE driver's
    [tagfs_write] does: it leaves on the disk exactly the image that
    [tagfs_write] makes of the image the disk held, and succeeds exactly when
    [tagfs_write] does, which is when the file does not end with its last
    sector; the heap has the same blocks as before and one free segment. The
    write may be of any length and start anywhere, inside the file or behind
    it, if only a write that leaves its sector finds a free one in the first
    half of the FAT. *)
Theorem tfs_write_as_fuse {P M : Type} `{FS : FrameSource P} `{FSO : !FrameSourceOk P}
    `{HM : Machine M} `{SK : Sink M} `{SKO : !SinkOk M} `{AD : !AtaDrive M} `{PD : !PromptDrive M}
    img name path (k : kernel P M) s len bl pg fuel id l buffer n o fuel' c :
  callable img name path k s len bl pg -> file_at img name id l -> Forall (fun i => i < 256) l ->
  0 <= buffer -> buffer + n <= s \/ next_page_virt_addr (k_heap k) + 4096 <= buffer ->
  buffer + n <= 4294967296 -> apart buffer n (tfs_sector_buffer k) 512 ->
  0 <= o -> 0 < n -> o + n + 512 <= 4294967296 ->
  let pos := write_pos img (file_entry img (id - 1)) o in
  pos mod 512 + n <= 512 \/ 0 <= find_free_fat img < 256 ->
  (ad_latency + 2 < fuel)%nat -> (16 < fuel)%nat -> (length l + 1 < fuel)%nat -> (Z.to_nat n < fuel)%nat ->
  (length l + 1 < fuel')%nat -> (Z.to_nat n < fuel')%nat ->
  let ok := bool_decide (pos < Z.of_nat (length l) * 512) in
  exists k' img', tfs_write fuel path buffer n o k = Ok (ok, k') /\
    tagfs_write fuel' img (c :: name) (bytes_at (k_mem k) buffer (Z.to_nat n)) n o =
      Ok (if ok then s32 n else - EBADFD, img') /\
    returned img' k s bl pg s 0 k'.
Proof. intros. by eapply write_ok. Qed.

(** ** Witnesses: the heap after a sector buffer and a block of 512 bytes *)

#[local] Existing Instance sample_heap.
#[local] Existing Instance sample_heap_ok.

(** "a" at 100, "b" at 102 and ten bytes at 200. *)
Definition call_memory : mem := st_bytes (st_bytes ∅ 100 [97; 0; 98; 0]) 200 (seqZ 1 10).
Definition heap_0 : heap pfa := boot_heap call_memory pfa_empty.
Definition heap_1 : heap pfa := heap_after (memory_allocate sample_fuel 512 heap_0).
Definition heap_2 : heap pfa := heap_after (memory_allocate sample_fuel 512 heap_1).
Definition call_kernel : kernel pfa pio := sample_kernel heap_2 (heap_start + 4).

Lemma heap_1_inv : heap_inv heap_1 [(heap_start + 516, 3580)] [(heap_start, 516)].
Proof.
  destruct (sample_allocate_inv heap_0 [] [] 512 (heap_start + 4))
    as (s & fl & Hs & _ & Hinv & _); [apply boot_heap_inv, pfa_ok_boot|done|cbn; lia|cbn; lia|by right
    |vm_compute; reflexivity|done|].
  assert (s = heap_start) as -> by lia. fold heap_1 in Hinv.
  assert (fl = [(heap_start + 516, 3580)]) as ->; [|exact Hinv].
  eapply lseg_unique; [exact (inv_list Hinv)|]. vm_compute. split_and!; congruence.
Qed.

Lemma heap_2_inv :
  heap_inv heap_2 [(heap_start + 1032, 3064)] [(heap_start + 516, 516); (heap_start, 516)].
Proof.
  destruct (sample_allocate_inv heap_1 _ _ 512 (heap_start + 520) heap_1_inv)
    as (s & fl & Hs & _ & Hinv & _); [done|cbn; lia|vm_compute; reflexivity
    |left; constructor; vm_compute; congruence|vm_compute; reflexivity|done|].
  assert (s = heap_start + 516) as -> by lia. fold heap_2 in Hinv.
  assert (fl = [(heap_start + 1032, 3064)]) as ->; [|exact Hinv].
  eapply lseg_unique; [exact (inv_list Hinv)|]. vm_compute. split_and!; congruence.
Qed.

Lemma call_ready : callable kernel_image [97] (String_ 100 1) call_kernel (heap_start + 1032) 3064
  [(heap_start + 516, 516); (heap_start, 516)] 0.
Proof.
  split.
  - apply sample_mounted.
  - vm_compute. reflexivity.
  - intros i Hi. assert (i = 256 \/ i = 257 \/ i = 258 \/ i = 259) as [-> |[-> |[-> | ->]]] by lia;
      vm_compute; reflexivity.
  - split; [exact heap_2_inv|lia|repeat constructor; lia| |vm_compute; reflexivity].
    eexists. split; [|exact I]. vm_compute. reflexivity.
  - cbn. lia.
  - intros i j Hi Hj Hmi Hmj. transitivity 0; [|symmetry]; by apply kernel_image_a.
  - split; [done|vm_compute; reflexivity].
  - unfold apart. vm_compute. intuition congruence.
  - left. vm_compute. congruence.
  - vm_compute. congruence.
Qed.

Lemma call_file : file_at kernel_image [97] 1 [2; 3].
Proof. split; cbn [chain]; repeat split; apply (bool_decide_unpack _); vm_compute; exact I. Qed.

Lemma tfs_read_content_witness : exists k',
  tfs_read 30 (String_ 100 1) (heap_start + 520) 100 480 call_kernel = Ok (true, k') /\
  bytes_at (k_mem k') (heap_start + 520) 100 = map (fun i => i mod 251) (seqZ 480 100).
Proof.
  destruct (tfs_read_content kernel_image [97] (String_ 100 1) call_kernel (heap_start + 1032) 3064
    [(heap_start + 516, 516); (heap_start, 516)] 0 30 1 [2; 3] (heap_start + 520) 100 480)
    as (k' & H & _ & _ & Hb); [exact call_ready|exact call_file|repeat constructor| | |lia|lia
    |vm_compute; congruence|cbn; lia|lia|cbn; lia|].
  - constructor. lia.
  - unfold apart. cbn [tfs_sector_buffer call_kernel sample_kernel]. lia.
  - exists k'. split; [exact H|]. etransitivity; [exact Hb|]. vm_compute. reflexivity.
Defined.

(** Forty bytes at 500: twelve go to the file's first sector, the others to
    sector 1, which is free. *)
Lemma tfs_write_as_fuse_witness : exists k' img',
  tfs_write 60 (String_ 100 1) 200 40 500 call_kernel = Ok (true, k') /\
  tagfs_write 60 kernel_image [47; 97] (seqZ 1 10 ++ replicate 30 0) 40 500 = Ok (40, img') /\ mounted img' k'.
Proof.
  destruct (tfs_write_as_fuse kernel_image [97] (String_ 100 1) call_kernel (heap_start + 1032) 3064
    [(heap_start + 516, 516); (heap_start, 516)] 0 60 1 [2; 3] 200 40 500 60 47)
    as (k' & img' & H1 & H2 & [H3 _ _ _]); [exact call_ready|exact call_file|repeat constructor|lia
    |left; vm_compute; congruence|lia| |lia|lia|lia| |cbn; lia|lia|cbn; lia|cbn; lia|cbn; lia|cbn; lia|].
  - unfold apart. vm_compute. intuition congruence.
  - right. vm_compute. intuition congruence.
  - exists k', img'. split; [exact H1|]. split; [|exact H3]. etransitivity; [|exact H2].
    reflexivity.
Defined.
