(* ===== verification/KernelVolume.v ===== *)
(** * The kernel's file system as the same store of files

    The four calls of src/src/kernel/fs/tagfs.c as operations on the store of
    FuseVolume.v, which the FUSE driver implements on its side of the disk. A
    client keeps the name, the file's entry and the data of its calls in a
    block of the heap; [kcall] is a call of it, [vol_call] the answer of the
    store. The theorem is the simulation for sequences of calls of any length,
    while there are pages for the heap. *)
From stdpp Require Import functions.
From S2P Require Import Prelude Memory PageFrames Allocator Format Ports Ata TagLayout TagFrame FuseDriver.
From S2P Require Import KernelFs KernelSteps KernelLookup KernelRead KernelWrite KernelFile Tfsfmt FuseVolume.

#[local] Open Scope Z_scope.

(** ** Calls and their answers *)

Inductive call : Type :=
  | CRead (name : list Z) (n offset : Z)
  | CWrite (name bytes : list Z) (offset : Z)
  | CAttributes (name : list Z)
  | CMake (name : list Z).

(** What the call returns, with the bytes it read or the size it found. *)
Inductive answer : Type :=
  | Answered (ok : bool)
  | Bytes (ok : bool) (bytes : list Z)
  | Size (size : option Z).

Section client.
Context {P M : Type} `{FS : FrameSource P} `{HM : Machine M} `{SK : Sink M}.
Implicit Types (k : kernel P M).
Context (area : Z).

Definition put (a : Z) (bytes : list Z) k : kernel P M := with_mem k (st_bytes (k_mem k) a bytes).
Definition path (name : list Z) : String_t := String_ area (Z.of_nat (length name)).
Definition entry_at : Z := area + 32.
Definition data_at : Z := area + 64.

Definition kcall (fuel : nat) (c : call) k : res (answer * kernel P M) :=
  match c with
  | CRead name n o =>
      '(ok, k) ← tfs_read fuel (path name) data_at n o (put area name k);
      Ok (Bytes ok (if (ok : bool) then bytes_at (k_mem k) data_at (Z.to_nat n) else []), k)
  | CWrite name bytes o =>
      '(ok, k) ← tfs_write fuel (path name) data_at (Z.of_nat (length bytes)) o
                   (put data_at bytes (put area name k));
      Ok (Answered ok, k)
  | CAttributes name =>
      '(ok, k) ← tfs_get_file_attributes fuel (path name) entry_at (put area name k);
      Ok (Size (if (ok : bool) then Some (ld32 (k_mem k) (entry_at + 4)) else None), k)
  | CMake name =>
      '(ok, k) ← tfs_make_new_file fuel (path name) (put area name k);
      Ok (Answered ok, k)
  end.

Fixpoint kcalls (fuel : nat) (cs : list call) k : res (list answer * kernel P M) :=
  match cs with
  | [] => Ok ([], k)
  | c :: cs =>
      '(a, k) ← kcall fuel c k;
      '(l, k) ← kcalls fuel cs k;
      Ok (a :: l, k)
  end.
End client.

(** ** The store's answers *)

Section store.
Context (entries room : Z).

(** The operations are those of the FUSE driver's store; a code becomes a
    truth value. *)
Definition vol_call (c : call) (v : volume) : answer * volume :=
  match c with
  | CRead name n o =>
      match vol_find entries v name with
      | None => (Bytes false [], v)
      | Some _ => (Bytes true (vol_read entries name n o v).2, v)
      end
  | CWrite name bytes o => let '(c, v) := vol_write entries 512 name bytes o v in (Answered (0 <? c), v)
  | CAttributes name => (Size ('(_, f) ← vol_find entries v name; Some (Z.of_nat (length (f_data f)))), v)
  | CMake name => let '(c, v) := vol_mknod entries name (mode_of S_IFREG) v in (Answered (c =? 0), v)
  end.

Fixpoint vol_calls (cs : list call) (v : volume) : list answer * volume :=
  match cs with
  | [] => ([], v)
  | c :: cs => let '(a, v) := vol_call c v in let '(l, v) := vol_calls cs v in (a :: l, v)
  end.

(** A name that one file at most has. *)
Definition calls_for (name : list Z) (v : volume) : Prop :=
  is_name name /\ (length name < 24)%nat /\ (count_up (Z.to_nat entries) 0 (has_name v name) <= 1)%nat.

(** What is asked of a call: a read stays inside the file and the client's
    data; a write goes to a file that has a sector, begins inside the file or
    at its end and stays inside one sector; no file has the name of a new file,
    and the free entry for it is the first of its sector. *)
Definition permitted (c : call) (v : volume) : Prop :=
  match c with
  | CRead name n o => calls_for name v /\ 0 <= o /\ 0 < n <= room /\
      match vol_find entries v name with
      | None => True
      | Some (_, f) => o + n <= Z.of_nat (length (f_data f))
      end
  | CWrite name bytes o => calls_for name v /\ allowed entries 512 (Write name bytes o) v /\
      Z.of_nat (length bytes) <= room /\
      match vol_find entries v name with None => True | Some (_, f) => f_sectors f <> 0%nat end
  | CAttributes name => calls_for name v
  | CMake name => is_name name /\ (length name < 32)%nat /\ vol_find entries v name = None /\
      match vol_slot entries v with None => True | Some j => j mod 16 = 0 end
  end.
#[export] Instance permitted_dec c v : Decision (permitted c v).
Proof. unfold permitted, calls_for, is_name, name_ok. destruct c; repeat case_match; apply _. Defined.

Fixpoint all_permitted (cs : list call) (v : volume) : Prop :=
  match cs with
  | [] => True
  | c :: cs => permitted c v /\ all_permitted cs (vol_call c v).2
  end.
#[export] Instance all_permitted_dec cs v : Decision (all_permitted cs v).
Proof. revert v; induction cs as [|c cs IH]; intros v; cbn; apply _. Defined.
End store.

(** ** Small facts *)

Lemma count_up_unique n test i j : (count_up n 0 test <= 1)%nat ->
  0 <= i < Z.of_nat n -> 0 <= j < Z.of_nat n -> test i = true -> test j = true -> i = j.
Proof.
  intros Hc Hi Hj Ti Tj. destruct (Z.eq_dec i j) as [|Hne]; [done|exfalso].
  rewrite (count_up_remove n 0 test (fun k => test k && bool_decide (k ∉ [i; j])) [i; j]) in Hc; [cbn in Hc; lia| | |done].
  - apply NoDup_cons. split; [by intros ->%list_elem_of_singleton|apply NoDup_singleton].
  - intros k [->|[->|[]%elem_of_nil]%elem_of_cons]%elem_of_cons; (split; [lia|done]).
Qed.

Lemma ld32_bytes_at m m' a a' n j : bytes_at m a n = bytes_at m' a' n -> 0 <= j -> j + 4 <= Z.of_nat n ->
  ld32 m (a + j) = ld32 m' (a' + j).
Proof.
  intros Hb Hj Hn. unfold ld32, ld16. rewrite <- !Z.add_assoc.
  repeat (rewrite (bytes_at_inv _ _ _ _ n _ Hb) by lia). done.
Qed.

Lemma name_u8 name : name_ok name -> Forall is_u8 name.
Proof. intros H. eapply Forall_impl; [exact H|]. unfold is_u8. cbn. lia. Qed.

Lemma pages_fewer {P : Type} `{FS : FrameSource P} pg : forall next p, pages (S pg) next p -> pages pg next p.
Proof.
  induction pg as [|pg IH]; intros next p H; [exact I|]. destruct H as (p' & Hc & H). exists p'.
  split; [exact Hc|by apply IH].
Qed.

(** ** The calls on a mounted volume *)

Section serves.
Context {P M : Type} `{FS : FrameSource P} `{FSO : !FrameSourceOk P} `{HM : Machine M} `{SK : Sink M}
  `{SKO : !SinkOk M} `{AD : !AtaDrive M} `{PD : !PromptDrive M}.
Implicit Types (k : kernel P M).
Context (area room s sb : Z) (bl : list (Z * Z)).

(** The client's block, below the free segment and away from the sector
    buffer. *)
Record client_block : Prop := {
  cb_block : Exists (fun '(a, n) => a + 4 <= area /\ area + 64 + room <= a + n) bl;
  cb_room : 0 <= room;
  cb_buffer : apart area (64 + room) sb 512;
  cb_below : sb + 512 <= s;
}.
Context (Hcb : client_block).

(** The disk holds an image of the volume, with sectors in the first half of
    the FAT only, and the heap has space for [pg] calls. *)
Record serves (img : mem) (ch : Z -> list Z) (v : volume) k (pg : nat) : Prop := {
  sv_represents : represents img ch v;
  sv_mounted : mounted img k;
  sv_fat : fs_fat_sector_count img = 2;
  sv_low : low 256 img;
  sv_roomy : exists len, roomy k s len bl pg;
  sv_buffer : tfs_sector_buffer k = sb;
}.

(** The place of the block. *)
Lemma serves_place img ch v k pg : serves img ch v k pg ->
  (heap_start + 4 <= area /\ area + 64 + room <= s) /\ s + 1540 <= next_page_virt_addr (k_heap k) /\
  next_page_virt_addr (k_heap k) + 4096 * Z.of_nat pg < 4294967296.
Proof.
  intros [_ _ _ _ (len & [Hinv Hlen Hbl _ Hmax]) _]. pose proof Hcb as [Hb _ _ _].
  apply Exists_exists in Hb as ([a n] & Hin & H1 & H2). pose proof (inv_blocks Hinv) as Hwf.
  rewrite Forall_forall in Hwf, Hbl. specialize (Hwf _ Hin) as (H3 & _). specialize (Hbl _ Hin).
  destruct (inv_sorted Hinv) as (Hs1 & _ & _ & Hs2). unfold extent in Hs2. cbn in Hs2, Hbl. lia.
Qed.

(** The client writes into its block. *)
Lemma serves_put img ch v k pg a bytes : serves img ch v k pg -> area <= a ->
  a + Z.of_nat (length bytes) <= area + 64 + room -> serves img ch v (put a bytes k) pg.
Proof.
  intros [Hr Hm Hf Hl (len & [Hinv Hlen Hbl Hpg Hmax]) Hb] Ha Hn. split; try done.
  - apply (mounted_same img k); [done| |done]. apply same_fs_mem, same_fs_refl, (mt_ready _ _ Hm).
  - exists len. split; try done.
    destruct (proj1 (Exists_exists _ _) (cb_block Hcb)) as ([x n] & Hin & H1 & H2).
    apply (heap_inv_write _ _ _ x n _ Hinv Hin). intros y Hy. rewrite ld8_st_bytes. by rewrite decide_False by lia.
Qed.

Lemma put_same a bytes k : Forall is_u8 bytes -> bytes_at (k_mem (put a bytes k)) a (length bytes) = bytes.
Proof. intros Hb. unfold put. rewrite mem_with_mem. by apply bytes_at_st_bytes. Qed.

(** A call on it. *)
Lemma serves_callable img ch v k pg name : serves img ch v k (S pg) ->
  calls_for (count_file_meta_entries img) name v -> bytes_at (k_mem k) area (length name) = name ->
  exists len, callable img name (path area name) k s len bl pg.
Proof.
  intros Hsv (Hn & Hlen & Hc) Hb. destruct (serves_place _ _ _ _ _ Hsv) as ((Hp1 & Hp2) & _).
  destruct Hsv as [Hr Hm Hf Hl (len & Hro) Hsb]. exists len. pose proof Hcb as [_ Hro0 Hap Hbel].
  assert (fat_count img = 512) as Hfc by (unfold fat_count; rewrite Hf, (mt_512 _ _ Hm); done).
  split; rewrite ?Hsb; cbn [str_data str_length path]; try done.
  - intros i Hi. apply Hl. rewrite Hfc. lia.
  - intros i j Hi Hj Hmi Hmj. unfold matches in *. rewrite (names_agree _ _ _ Hr) in Hmi, Hmj by done.
    eapply count_up_unique; [exact Hc|rewrite Z2Nat.id; lia..|done|done].
  - rewrite Nat2Z.id. split; [lia|done].
  - unfold apart in *. lia.
  - left. lia.
Qed.

(** After a call that allocated, and after one that did not. *)
Lemma serves_returned img ch v k pg img' ch' v' a n k' : serves img ch v k (S pg) ->
  returned img' k s bl pg a n k' -> represents img' ch' v' -> same_header img img' -> low 256 img' ->
  serves img' ch' v' k' pg.
Proof.
  intros [Hr Hm Hf Hl (len & Hro) Hsb] [Hm' Hro' Hsb' _] Hr' Hh Hl'.
  split; [done|done|by hdr_rewrite Hh|done|by eexists|by rewrite Hsb'].
Qed.

Lemma serves_still img ch v k pg img' ch' v' k' : serves img ch v k (S pg) -> mounted img' k' ->
  same_heap k k' -> (forall x, s <= x -> ld8 (k_mem k') x = ld8 (k_mem k) x) ->
  represents img' ch' v' -> same_header img img' -> low 256 img' -> serves img' ch' v' k' pg.
Proof.
  intros [Hr Hm Hf Hl (len & [Hinv Hlen Hbl Hpg Hmax]) Hsb] Hm' Hsh Hmem Hr' Hh Hl'.
  pose proof Hsh as (_ & Hn & Hp & Hb). split; [done|done|by hdr_rewrite Hh|done| |by rewrite Hb].
  exists len. split; rewrite ?Hn, ?Hp; [|done|done|by apply pages_fewer|lia].
  apply (heap_inv_same k k' _ _ Hinv Hsh). constructor; [|constructor]. intros x Hx. apply Hmem. lia.
Qed.

(** The sectors of a file are in the first half of the FAT. *)
Lemma chains_low img ch v j f : represents img ch v -> low 256 img -> v_files v !! j = Some f ->
  Forall (fun i => i < 256) (ch j).
Proof.
  intros Hr Hl Hj. apply Forall_forall. intros i Hi. pose proof (rp_file _ _ _ Hr j f Hj) as Hs.
  pose proof (stored_range _ _ _ _ _ Hs Hi) as Hir. destruct (Z_lt_ge_dec i 256) as [|Hge]; [done|].
  destruct (stored_used _ _ _ _ _ Hs Hi). apply Hl. lia.
Qed.

(** The call is answered as on the volume, and the disk holds the volume it
    makes. *)
Definition served (fuel : nat) (c : call) (img : mem) (v : volume) k (pg : nat) : Prop :=
  let r := vol_call (count_file_meta_entries img) c v in
  exists img' ch' k', kcall area fuel c k = Ok (r.1, k') /\ same_header img img' /\ serves img' ch' r.2 k' pg.

Section calls.
Context (fuel : nat) (Hf : (ad_latency + 2 < fuel)%nat) (Hf16 : (513 < fuel)%nat).
Context (img : mem) (ch : Z -> list Z) (v : volume) (k : kernel P M) (pg : nat).
Context (Hsv : serves img ch v k (S pg)).
Abbreviation entries := (count_file_meta_entries img).

Lemma in_area : (heap_start + 4 <= area /\ area + 64 + room <= s < 4294967296) /\ heap_start = 3229614080.
Proof using Hcb Hsv. clear Hf Hf16. destruct (serves_place _ _ _ _ _ Hsv) as ([? ?] & ? & ?). split; [lia|done]. Qed.

Lemma fat_512 : fat_count img = 512.
Proof using Hsv. unfold fat_count. by rewrite (sv_fat _ _ _ _ _ Hsv), (mt_512 _ _ (sv_mounted _ _ _ _ _ Hsv)). Qed.

(** The kernel with the name in place. *)
Lemma named name : is_name name -> (length name < 32)%nat ->
  serves img ch v (put area name k) (S pg) /\
  bytes_at (k_mem (put area name k)) area (length name) = name.
Proof.
  intros [Hn _] Hl. destruct in_area as [_ Hhs]. pose proof (cb_room Hcb).
  split; [apply serves_put; [done|lia|lia]|]. unfold put. rewrite mem_with_mem.
  by apply bytes_at_st_bytes, name_u8.
Qed.

(** A file with sectors, as the theorems on the calls describe it. *)
Lemma found_file name j f : is_name name -> vol_find entries v name = Some (j, f) -> ch j <> [] ->
  (file_at img name (j + 1) (ch j) /\ content img (j + 1) (ch j) = f_data f) /\
  Forall (fun i => i < 256) (ch j) /\ f_sectors f = length (ch j) /\ (length (ch j) <= 512)%nat /\
  file_size img (file_entry img (j + 1 - 1)) = Z.of_nat (length (f_data f)) /\
  Z.of_nat (length (f_data f)) <= Z.of_nat (length (ch j)) * 512.
Proof.
  intros Hn E Hne. pose proof (sv_represents _ _ _ _ _ Hsv) as Hr. pose proof (stored_file_at _ _ _ Hr name j f Hn E Hne) as Hfa.
  apply vol_find_Some in E as (_ & Hj & _). pose proof (rp_file _ _ _ Hr j f Hj) as [_ _ _ _ Hsz _ Hse].
  rewrite (stored_size _ _ _ Hr j f Hj), (mt_512 _ _ (sv_mounted _ _ _ _ _ Hsv)) in Hsz.
  pose proof (chain_length img _ (rp_layout _ _ _ Hr) (fa_chain _ _ _ _ (proj1 Hfa))) as Hcl. rewrite fat_512 in Hcl.
  split; [done|]. split; [apply (chains_low img ch v j f Hr (sv_low _ _ _ _ _ Hsv) Hj)|]. replace (j + 1 - 1) with j by lia.
  split_and!; [done|lia|by apply (stored_size _ _ _ Hr)|done].
Qed.

Lemma served_read name n o : permitted entries room (CRead name n o) v ->
  served fuel (CRead name n o) img v k pg.
Proof.
  intros (Hc & Ho & Hn & Hin). pose proof Hc as (Hnm & Hl & _).
  destruct (named name Hnm ltac:(lia)) as [Hsv1 Hb]. set (k1 := put area name k) in *.
  destruct (serves_callable _ _ _ _ _ _ Hsv1 Hc Hb) as (len & Hca). pose proof (sv_represents _ _ _ _ _ Hsv) as Hr.
  pose proof (sv_low _ _ _ _ _ Hsv) as Hlow. unfold served, vol_call. cbn [kcall]. fold k1.
  destruct (vol_find entries v name) as [[j f]|] eqn:E.
  - pose proof (vol_find_Some _ _ _ _ _ E) as (_ & Hj & _).
    destruct (found_file name j f Hnm E) as ([Hfa Hcon] & Hlo & _ & Hcl & Hsz & _).
    { intros Ec. pose proof (so_size _ _ _ _ (rp_file _ _ _ Hr j f Hj)) as Hx. rewrite Ec, (stored_size _ _ _ Hr j f Hj) in Hx.
      cbn in Hx. lia. }
    destruct (read_ok img name (path area name) k1 s len bl pg Hca fuel Hf ltac:(lia) (j + 1) (ch j) (data_at area) n o)
      as (k2 & -> & Hrt & _ & Hbytes); [done|done| | |done|lia|left; lia|lia|].
    + eapply Exists_impl; [exact (cb_block Hcb)|]. intros [a m] [H1 H2]. unfold data_at. lia.
    + rewrite (sv_buffer _ _ _ _ _ Hsv1). pose proof (cb_buffer Hcb). unfold apart, data_at in *. lia.
    + rewrite bind_Ok_r. exists img, ch, k2. split; [|split; [done|by eapply serves_returned]].
      rewrite Hbytes, <- (content_slice img (j + 1)), Hcon by (done || lia). cbn [fst]. unfold vol_read. rewrite E.
      by rewrite (proj2 (Z.leb_gt _ _)) by lia.
  - destruct (missing_ok img name (path area name) k1 s len bl pg Hca fuel Hf ltac:(lia)) as (k2 & H & Hrt);
      [by rewrite (id_agree _ _ _ Hr), E|].
    rewrite (proj1 (H _ _ _)), bind_Ok_r. exists img, ch, k2. split; [done|]. split; [done|by eapply serves_returned].
Qed.

(** The name and the data in place. *)
Lemma named_data name bytes : is_name name -> (length name < 32)%nat -> Forall is_u8 bytes ->
  Z.of_nat (length bytes) <= room -> let k1 := put (data_at area) bytes (put area name k) in
  serves img ch v k1 (S pg) /\ bytes_at (k_mem k1) area (length name) = name /\
  bytes_at (k_mem k1) (data_at area) (length bytes) = bytes.
Proof.
  intros Hn Hl Hb Hroom. destruct (named name Hn Hl) as [Hsv1 Hname]. cbv zeta. split; [|split].
  - apply serves_put; [done|unfold data_at; lia..].
  - etransitivity; [|exact Hname]. apply bytes_at_ext. intros i Hi. unfold put at 1. rewrite mem_with_mem, ld8_st_bytes.
    apply decide_False. unfold data_at. lia.
  - unfold put at 1. rewrite mem_with_mem. by apply bytes_at_st_bytes.
Qed.

(** A write inside the file: both sides of the disk agree. *)
Lemma write_found name bytes o j f : calls_for entries name v -> allowed entries 512 (Write name bytes o) v ->
  Z.of_nat (length bytes) <= room -> vol_find entries v name = Some (j, f) -> f_sectors f <> 0%nat ->
  served fuel (CWrite name bytes o) img v k pg.
Proof.
  intros Hc (_ & Hne & Hb & Ho & Hin) Hroom E Hz. pose proof Hc as (Hnm & Hl & _). rewrite E in Hin.
  destruct Hin as [Hle Hfit]. destruct (named_data name bytes Hnm ltac:(lia) Hb Hroom) as (Hsv1 & Hname & Hdata).
  set (k1 := put (data_at area) bytes _) in *. pose proof (sv_represents _ _ _ _ _ Hsv) as Hr.
  pose proof (sv_low _ _ _ _ _ Hsv) as Hlow. pose proof (mt_512 _ _ (sv_mounted _ _ _ _ _ Hsv)) as H512.
  destruct (serves_callable _ _ _ _ _ _ Hsv1 Hc Hname) as (len & Hca). destruct in_area as [Har Hhs].
  pose proof (vol_find_Some _ _ _ _ _ E) as (_ & Hj & _).
  destruct (found_file name j f Hnm E) as ([Hfa _] & Hlo & Hse & Hcl & Hsz & Hcap);
    [by intros Ec; rewrite (so_sectors _ _ _ _ (rp_file _ _ _ Hr j f Hj)), Ec in Hz|].
  pose proof (Z.mod_pos_bound o 512 ltac:(lia)) as Hm. assert (0 < Z.of_nat (length bytes)) by (destruct bytes; [done|cbn; lia]).
  pose proof (write_in_place img ch v Hr fuel ltac:(rewrite fat_512; lia) name bytes o j f Hnm E Hz (conj Ho Hle) Hb) as Hw.
  rewrite H512 in Hw. specialize (Hw Hfit).
  assert (write_pos img (file_entry img (j + 1 - 1)) o = o) as Hpos
    by (unfold write_pos; rewrite Hsz; destruct (Z.ltb_spec o (Z.of_nat (length (f_data f)))); lia).
  destruct (write_ok img name (path area name) k1 s len bl pg Hca fuel Hf ltac:(lia) (j + 1) (ch j) (data_at area)
    (Z.of_nat (length bytes)) o fuel 47) as (k2 & img2 & H1 & H2 & Hrt);
    try rewrite Hpos; [done|done|unfold data_at; lia|unfold data_at; lia|unfold data_at; lia|
      |lia|lia|lia|by left|lia..|].
  { rewrite (sv_buffer _ _ _ _ _ Hsv1). pose proof (cb_buffer Hcb). unfold apart, data_at in *. lia. }
  rewrite Nat2Z.id, Hdata, Hpos in H2. rewrite Hpos in H1. change (47 :: name) with (path_of name) in H2.
  unfold served, vol_call, vol_write. rewrite E. cbn [kcall]. fold k1. rewrite H1, bind_Ok_r.
  destruct (f_sectors f) as [|n] eqn:En; [done|]. clear H1.
  assert ((o / 512 <? Z.of_nat (S n)) = bool_decide (o < Z.of_nat (length (ch j)) * 512)) as Eok.
  { apply eq_true_iff_eq. rewrite Z.ltb_lt, bool_decide_eq_true, <- Hse. zmod. }
  rewrite Eok in Hw |- *. destruct (bool_decide (o < Z.of_nat (length (ch j)) * 512)).
  - destruct Hw as (img' & Hw & Hh & Hfat & Hrep). rewrite H2 in Hw. injection Hw as _ ->.
    eexists _, _, k2. split; [|split; [exact Hh|]].
    + destruct (v_free v); cbn; by rewrite (proj2 (Z.ltb_lt _ _)) by done.
    + destruct (v_free v) eqn:Ev; (eapply serves_returned; [exact Hsv1|exact Hrt|exact Hrep|exact Hh|]);
        intros i Hi; rewrite (sh_fat_count _ _ Hh) in Hi; rewrite Hfat by lia; by apply Hlow.
  - rewrite H2 in Hw. injection Hw as ->. exists img, ch, k2.
    destruct (v_free v); (split; [done|split; [done|by eapply serves_returned]]).
Qed.

Lemma served_write name bytes o : permitted entries room (CWrite name bytes o) v ->
  served fuel (CWrite name bytes o) img v k pg.
Proof.
  intros (Hc & Ha & Hroom & Hz). destruct (vol_find entries v name) as [[j f]|] eqn:E; [by eapply write_found|].
  pose proof Hc as (Hnm & Hl & _). destruct Ha as (_ & _ & Hb & _).
  destruct (named_data name bytes Hnm ltac:(lia) Hb Hroom) as (Hsv1 & Hname & _).
  destruct (serves_callable _ _ _ _ _ _ Hsv1 Hc Hname) as (len & Hca).
  pose proof (sv_represents _ _ _ _ _ Hsv) as Hr. pose proof (sv_low _ _ _ _ _ Hsv) as Hlow.
  destruct (missing_ok img name (path area name) _ s len bl pg Hca fuel Hf ltac:(lia)) as (k2 & H & Hrt);
    [by rewrite (id_agree _ _ _ Hr), E|].
  unfold served, vol_call, vol_write. rewrite E. cbn [kcall]. rewrite (proj2 (H _ _ _)), bind_Ok_r.
  exists img, ch, k2. split; [done|]. split; [done|by eapply serves_returned].
Qed.

Lemma served_attributes name : calls_for entries name v -> served fuel (CAttributes name) img v k pg.
Proof.
  intros Hc. pose proof Hc as (Hnm & Hl & _). destruct (named name Hnm ltac:(lia)) as [Hsv1 Hname].
  set (k1 := put area name k) in *. destruct in_area as [Har Hhs]. pose proof (cb_below Hcb) as Hbel.
  pose proof (cb_buffer Hcb) as Hap. pose proof (cb_room Hcb) as Hroom.
  destruct (serves_callable _ _ _ _ _ _ Hsv1 Hc Hname) as (len & [Hm _ _ _ _ Huniq [Hp0 Hp] Hpb _ _]).
  pose proof (sv_represents _ _ _ _ _ Hsv) as Hr. pose proof (sv_buffer _ _ _ _ _ Hsv1) as Hsb.
  destruct (attributes_ok img (path area name) name (entry_at area) k1 fuel Hm Hl Hp0 Hp Hpb)
    as (k2 & H & Hsame & Hd & Hout & Hbytes);
    [unfold apart, entry_at in *; cbn; lia|rewrite Hsb; unfold apart, entry_at in *; lia|done|done|lia|].
  pose proof (attributes_steps fuel same_heap same_heap_mem (disk_read_same fuel) _ _ _ _ _ H) as Hsh.
  unfold outside in Hout. rewrite Hsb in Hout. unfold served, vol_call. cbn [kcall]. fold k1. rewrite H, bind_Ok_r.
  exists img, ch, k2. split; [|split; [done|]].
  - rewrite (id_agree _ _ _ Hr) in Hbytes |- * by done. destruct (vol_find entries v name) as [[j f]|] eqn:E; [|done].
    pose proof (vol_find_Some _ _ _ _ _ E) as (_ & Hj & _ & Hjr). destruct (Z.eqb_spec (j + 1) 0); [lia|]. cbn.
    rewrite (ld32_bytes_at _ img _ (file_entry img j) 32 4) by (try (replace j with (j + 1 - 1) by lia; apply Hbytes); lia).
    change (ld32 img (file_entry img j + 4)) with (file_size img (file_entry img j)).
    by rewrite (stored_size _ _ _ Hr j f Hj).
  - eapply (serves_still _ _ _ k1); [exact Hsv1| |exact Hsh| |exact Hr|done|apply Hsv].
    + by apply (mounted_same img k1).
    + intros x Hx. apply Hout; unfold entry_at; lia.
Qed.

(** A new file, when the free entry is the first of its sector. *)
Lemma make_represents name j : is_name name -> (length name < 24)%nat -> vol_slot entries v = Some j ->
  let img' := new_entry img (file_entry img j) name in
  same_header img img' /\ low 256 img' /\
  represents img' (<[j := []]> ch) (Volume (<[j := File name [] 0]> (v_files v)) (v_free v)).
Proof.
  intros [Hn Hne] Hl E. cbv zeta. pose proof (sv_represents _ _ _ _ _ Hsv) as Hr. pose proof (rp_layout _ _ _ Hr) as Hok.
  apply find_up_Some in E as (Hj & _). set (img' := new_entry _ _ _).
  assert (touches j [] img img') as Ht.
  { apply (touches_entry img Hok j ltac:(lia) [] (file_entry img j) 32); [by apply new_entry_frame|lia..]. }
  pose proof (th_header _ _ _ _ Ht) as Hh.
  assert (forall i, 0 <= i < fat_count img -> fat_entry img' i = fat_entry img i) as Hfat
    by (intros i Hi; apply (th_fat _ _ _ _ Ht); [done|apply not_elem_of_nil]).
  destruct (new_entry_fields img (file_entry img j) name Hn) as (Hfd & Hsz & Hnm). fold img' in Hfd, Hsz, Hnm.
  split; [done|]. split.
  { intros i Hi. rewrite (sh_fat_count _ _ Hh) in Hi. rewrite Hfat by lia. by apply (sv_low _ _ _ _ _ Hsv). }
  apply (represents_change img img' ch v j [] [] (Some (File name [] 0))); [done..|lia| | |].
  - intros i f _ _. split; by intros x ? ?%not_elem_of_nil.
  - split; rewrite ?(sh_file_entry _ _ Hh), ?Hsz; cbn; try done. by left.
  - rewrite <- (rp_free _ _ _ Hr). by apply free_sectors_ext.
Qed.

Lemma served_make name : (Z.to_nat (fs_file_meta_sector_count img) < fuel)%nat ->
  permitted entries room (CMake name) v -> served fuel (CMake name) img v k pg.
Proof.
  intros Hmeta (Hnm & Hl & Hnew & Hslot). destruct (named name Hnm Hl) as [Hsv1 Hname]. set (k1 := put area name k) in *.
  pose proof (sv_represents _ _ _ _ _ Hsv) as Hr. pose proof (sv_mounted _ _ _ _ _ Hsv1) as Hm.
  pose proof (sv_buffer _ _ _ _ _ Hsv1) as Hsb. pose proof (cb_below Hcb) as Hbel. pose proof (cb_room Hcb) as Hroom.
  pose proof (cb_buffer Hcb) as Hap. unfold served, vol_call, vol_mknod. rewrite Hnew. cbn [kcall].
  change (negb (S_ISREG (mode_of S_IFREG))) with false. cbv iota. fold k1.
  destruct (Z.leb_spec 24 (Z.of_nat (length name))) as [Hlong|Hshort].
  { unfold tfs_make_new_file. cbn [str_length path]. destruct (Z.leb_spec 24 (Z.of_nat (length name))); [|lia].
    exists img, ch, k1. split; [done|]. split; [done|].
    apply (serves_still _ _ _ _ _ _ _ _ _ Hsv1); (done || apply Hsv). }
  assert (0 <= str_length (path area name) < 24) as Hpl by (cbn; lia).
  assert (bytes_at (k_mem k1) (str_data (path area name)) (Z.to_nat (str_length (path area name))) = name) as Hp
    by (cbn [str_data str_length path]; by rewrite Nat2Z.id).
  assert (apart (str_data (path area name)) (str_length (path area name)) (tfs_sector_buffer k1) 512) as Hpb
    by (rewrite Hsb; unfold apart in *; cbn; lia).
  destruct (vol_slot entries v) as [j|] eqn:E.
  - pose proof E as (Hj & Hfree & Hbefore)%find_up_Some.
    destruct (make_found img _ name k1 Hm Hpl Hp Hpb fuel Hf ltac:(lia) j) as (k2 & H & Hm2 & Hfr);
      [by rewrite (slot_agree _ _ _ Hr) by lia|lia| |done|].
    { intros i Hi. rewrite (slot_agree _ _ _ Hr) by lia. by apply Hbefore. }
    replace (16 * (j / 16)) with j in Hm2 by zmod.
    pose proof (make_new_file_steps fuel same_heap same_heap_mem (disk_read_same fuel) (disk_write_same fuel) _ _ _ _ H) as Hsh.
    destruct (make_represents name j Hnm ltac:(lia) E) as (Hh & Hlow & Hrep). rewrite H, bind_Ok_r.
    eexists _, _, k2. split; [done|]. split; [exact Hh|].
    eapply (serves_still _ _ _ k1); [exact Hsv1|exact Hm2|exact Hsh| |exact Hrep|exact Hh|exact Hlow].
    intros x Hx. apply Hfr. lia.
  - unfold vol_slot in E. rewrite find_up_None in E.
    destruct (make_full img _ name k1 Hm Hpl Hp Hpb fuel Hf ltac:(lia)) as (k2 & H & Hm2 & _ & Hfr); [|done|].
    { intros i Hi. rewrite (slot_agree _ _ _ Hr) by lia. apply E. lia. }
    pose proof (make_new_file_steps fuel same_heap same_heap_mem (disk_read_same fuel) (disk_write_same fuel) _ _ _ _ H) as Hsh.
    rewrite H, bind_Ok_r. exists img, ch, k2. split; [done|]. split; [done|].
    eapply (serves_still _ _ _ k1); [exact Hsv1|exact Hm2|exact Hsh| |exact Hr|done|apply Hsv].
    intros x Hx. apply Hfr. lia.
Qed.

Lemma simulated_call c : (Z.to_nat (fs_file_meta_sector_count img) < fuel)%nat ->
  permitted entries room c v -> served fuel c img v k pg.
Proof.
  intros Hmeta Hp. destruct c; [by apply served_read|by apply served_write|by apply served_attributes|by apply served_make].
Qed.
End calls.

(** Sequences of calls. *)
Lemma calls_ok cs : forall fuel img ch v k pg, (ad_latency + 2 < fuel)%nat -> (513 < fuel)%nat ->
  (Z.to_nat (fs_file_meta_sector_count img) < fuel)%nat -> serves img ch v k (length cs + pg) ->
  let entries := count_file_meta_entries img in all_permitted entries room cs v ->
  exists img' ch' k', kcalls area fuel cs k = Ok ((vol_calls entries cs v).1, k') /\ same_header img img' /\
    serves img' ch' (vol_calls entries cs v).2 k' pg.
Proof.
  induction cs as [|c cs IH]; intros fuel img ch v k pg Hf Hf16 Hmeta Hsv entries Hp; [by exists img, ch, k|].
  destruct Hp as [Hp Hps].
  destruct (simulated_call fuel Hf Hf16 img ch v k _ Hsv c Hmeta Hp) as (img1 & ch1 & k1 & E1 & Hh1 & Hsv1).
  fold entries in E1, Hsv1. cbn [kcalls vol_calls]. rewrite E1, bind_Ok_r.
  destruct (vol_call entries c v) as [a v1]. cbn [fst snd] in *.
  assert (fs_file_meta_sector_count img1 = fs_file_meta_sector_count img) as Em by (by hdr_rewrite Hh1).
  destruct (IH fuel img1 ch1 v1 k1 pg) as (img2 & ch2 & k2 & E2 & Hh2 & Hsv2);
    [done|done|by rewrite Em|done|by rewrite (sh_count _ _ Hh1)|].
  rewrite (sh_count _ _ Hh1) in E2, Hsv2. fold entries in E2, Hsv2. rewrite E2, bind_Ok_r.
  destruct (vol_calls entries cs v1) as [l v2]. cbn [fst snd] in *.
  exists img2, ch2, k2. split; [done|]. split; [by eapply same_header_trans|done].
Qed.
End serves.

(** ** Properties *)

(** C2: the kernel implements the same store of files as the FUSE driver: with a
    disk mounted that holds a volume in the first half of a FAT of two sectors, a
    heap with one free segment at its end and page frames for every call, and a
    drive that is done with a written sector by the next transfer
    ([PromptDrive]; the code does not wait for it), every sequence of permitted
    calls of [tfs_read], [tfs_write], [tfs_get_file_attributes] and
    [tfs_make_new_file] returns with exactly the store's answers, and the disk
    then holds the volume the store has become, whatever the free list of the
    heap went through. *)
Theorem kernel_calls_refine_volume {P M : Type} `{FS : FrameSource P} `{FSO : !FrameSourceOk P} `{HM : Machine M}
    `{SK : Sink M} `{SKO : !SinkOk M} `{AD : !AtaDrive M} `{PD : !PromptDrive M}
    area room s sb bl cs fuel img ch v (k : kernel P M) pg : client_block area room s sb bl ->
  serves s sb bl img ch v k (length cs + pg) -> (ad_latency + 2 < fuel)%nat -> (513 < fuel)%nat ->
  (Z.to_nat (fs_file_meta_sector_count img) < fuel)%nat ->
  let entries := count_file_meta_entries img in all_permitted entries room cs v ->
  exists img' ch' k', kcalls area fuel cs k = Ok ((vol_calls entries cs v).1, k') /\
    serves s sb bl img' ch' (vol_calls entries cs v).2 k' pg.
Proof.
  intros Hcb Hsv Hf Hf16 Hm entries Hp.
  destruct (calls_ok area room s sb bl Hcb cs fuel img ch v k pg Hf Hf16 Hm Hsv Hp) as (img' & ch' & k' & H & _ & Hsv').
  by exists img', ch', k'.
Qed.

(** ** A run: the disk of KernelLookup.v without a file, written by the FUSE
    driver, and then by the kernel *)

#[local] Existing Instance sample_heap.
#[local] Existing Instance sample_heap_ok.

Definition blank_512 : mem := st32 (st32 (st32 (st32 ∅ 8 516) 12 512) 16 1) 28 2.
Lemma blank_512_empty : empty_image blank_512.
Proof.
  apply zeros_empty.
  - split; (split || idtac); apply (bool_decide_unpack _); vm_compute; exact I.
  - intros x Hx. unfold blank_512. rewrite !ld8_st32_ne by lia. done.
Qed.

(** What the FUSE driver does first, and then the kernel. *)
Definition before_boot : list request :=
  [Mknod [97] 33188; Write [97] (seqZ 1 10) 0; Mknod [98] 33188; Write [98] [9; 9] 0; Unlink [97]].
Definition after_boot : list call :=
  [CRead [98] 1 1; CAttributes [97]; CMake [99]; CAttributes [99]; CWrite [98] [7; 8] 2; CWrite [97] [1] 0; CRead [98] 3 1].

(** The kernel with the disk mounted, and a block of 512 bytes. *)
Definition client_kernel (img : mem) : kernel pfa pio :=
  Kernel heap_2 legacy (Pio (DState ∅ Idle (image_disk img 516)) []) (metadata_at img 0) (heap_start + 4).

Lemma client_ready : client_block (heap_start + 520) 400 (heap_start + 1032) (heap_start + 4)
  [(heap_start + 516, 516); (heap_start, 516)].
Proof. split; [constructor|..]; unfold apart; lia. Qed.

Lemma client_serves img ch v pg : represents img ch v -> same_header blank_512 img -> low 256 img -> (pg <= 7)%nat ->
  serves (heap_start + 1032) (heap_start + 4) [(heap_start + 516, 516); (heap_start, 516)] img ch v (client_kernel img) pg.
Proof.
  intros Hr Hh Hl Hpg. assert (fs_sector_count img = 516) as Hsc by (hdr_rewrite Hh; vm_compute; reflexivity).
  assert (next_page_virt_addr heap_2 = 3229618176) as Hnx by (vm_compute; reflexivity).
  assert (heap_start = 3229614080) as Hhs by done.
  split; [done| |hdr_rewrite Hh; vm_compute; reflexivity|done| |done].
  - split; [|apply (rp_layout _ _ _ Hr)|rewrite (sh_sector_size _ _ Hh); vm_compute; reflexivity| | |done].
    + constructor; [reflexivity|reflexivity|apply image_disk_ok|by apply idle_at_rest].
    + rewrite Hsc. apply image_disk_holds.
    + rewrite Hsc. cbn. lia.
  - exists 3064. split; [exact heap_2_inv|lia|repeat constructor; lia| |].
    + apply (frames_pages sample_tables sample_end pg _ (list_to_set (seqZ 100 7))).
      * intros n Hn. change (h_frames (k_heap (client_kernel img))) with (h_frames heap_2).
        apply elem_of_list_to_set in Hn. revert n Hn. apply Forall_forall.
        apply (bool_decide_unpack _). vm_compute. exact I.
      * rewrite size_list_to_set by apply NoDup_seqZ. rewrite length_seqZ. lia.
      * change (k_heap (client_kernel img)) with heap_2. rewrite Hnx. lia.
      * change (k_heap (client_kernel img)) with heap_2. by rewrite Hnx.
      * change (k_heap (client_kernel img)) with heap_2. rewrite Hnx. lia.
    + change (k_heap (client_kernel img)) with heap_2. rewrite Hnx. lia.
Qed.

Lemma kernel_calls_refine_volume_witness : exists img img' ch' k',
  serve_all 514 before_boot blank_512 = Ok ([Code 0; Code 10; Code 0; Code 2; Code 0], img) /\
  kcalls (heap_start + 520) 600 after_boot (client_kernel img) =
    Ok ([Bytes true [9]; Size None; Answered true; Size (Some 0); Answered true; Answered false;
      Bytes true [9; 7; 8]], k') /\
  mounted img' k' /\ represents img' ch' (Volume {[0 := File [99] [] 0; 1 := File [98] [9; 9; 7; 8] 1]} 511).
Proof.
  destruct (session before_boot 514 blank_512 _ _ (empty_represents _ blank_512_empty)) as (img & ch & E & Hh & Hr & Hl);
    [vm_compute; lia|apply (bool_decide_unpack _); vm_compute; exact I|].
  assert (low 256 img) as Hlow.
  { apply (Hl 256); [lia|intros i Hi; apply (em_fat _ blank_512_empty); lia|].
    apply (bool_decide_unpack _). vm_compute. exact I. }
  exists img.
  destruct (kernel_calls_refine_volume _ _ _ _ _ after_boot 600 img ch _ (client_kernel img) 0 client_ready
    (client_serves img ch _ (length after_boot + 0) Hr Hh Hlow ltac:(cbn; lia))) as (img' & ch' & k' & H & Hsv).
  - cbn. lia.
  - lia.
  - hdr_rewrite Hh. apply (bool_decide_unpack _). vm_compute. exact I.
  - rewrite (sh_count _ _ Hh). apply (bool_decide_unpack _). vm_compute. exact I.
  - exists img', ch', k'. rewrite (sh_count _ _ Hh) in H, Hsv.
    split; [rewrite E; vm_compute; reflexivity|]. split; [rewrite H; vm_compute; reflexivity|].
    split; [apply Hsv|]. refine (eq_ind _ (represents img' ch') (sv_represents _ _ _ _ _ _ _ _ Hsv) _ _).
    vm_compute. reflexivity.
Defined.
