(* ===== verification/KernelNew.v ===== *)
(** * Writing to a file that has no sector yet

    A new file's entry has no first sector. Both [tfs_write]
    (src/src/kernel/fs/tagfs.c) and the FUSE driver's [tagfs_write] give it the
    first free one; but the kernel marks the sector in its copy of the FAT only,
    which [tfs_close] throws away. The disk is then the FUSE driver's image with
    the sector still free, and the next new file gets the same one. *)
From S2P Require Import Prelude Memory PageFrames Allocator Format Ports Ata TagLayout FuseDriver TagFrame FuseNew.
From S2P Require Import KernelFs KernelSteps KernelLookup KernelRead KernelWrite KernelFile.

#[local] Open Scope Z_scope.

Section kernel_new.
Context {P M : Type} `{FS : FrameSource P} `{HM : Machine M} `{SK : Sink M} `{SKO : !SinkOk M}
  `{AD : !AtaDrive M} `{PD : !PromptDrive M}.
Implicit Types (k : kernel P M).
Context (img : mem) (name : list Z) (id q : Z) (fats file_meta buffer n o : Z).
Context (k0 : kernel P M) (Hmt : mounted img k0) (Hnew : new_file img name id).
Context (Hbf : both_find img k0 fats q) (Hq : 0 <= q).
Context (Hent : bytes_at (k_mem k0) file_meta 32 = bytes_at img (file_entry img (id - 1)) 32).
Context (Ho : 0 <= o) (Hn : 0 < n <= 512) (Hend : o + n < 4294967296).
Context (Hfats : 0 <= fats /\ fats + 1024 <= 4294967296) (Hq512 : q < 512).
Context (Hms : apart file_meta 32 (tfs_sector_buffer k0) 512).
Context (Hbs : apart buffer n (tfs_sector_buffer k0) 512) (Hbm : apart buffer n file_meta 32).
Context (Hfm : apart fats 1024 file_meta 32).

Abbreviation this := (file_entry img (id - 1)).
Abbreviation data := (bytes_at (k_mem k0) buffer (Z.to_nat n)).

(** The memory outside the sector buffer, the entry and the table. *)
Definition kept k k' : Prop := forall x, x < tfs_sector_buffer k0 \/ tfs_sector_buffer k0 + 512 <= x ->
  x < file_meta \/ file_meta + 32 <= x -> x < fats \/ fats + 1024 <= x -> ld8 (k_mem k') x = ld8 (k_mem k) x.

(** The entry in memory, with its first sector, and the data on the disk. *)
Record taken k : Prop := {
  tk_mounted : mounted (st_bytes img (data_addr img q) data) k;
  tk_entry : forall j, 0 <= j < 32 -> ld8 (k_mem k) (file_meta + j) =
    ld8 (st32 (st_bytes img (data_addr img q) data) this q) (this + j);
  tk_buffer : tfs_sector_buffer k = tfs_sector_buffer k0;
  tk_kept : kept k0 k;
}.

Lemma take_sector fuel : (ad_latency + 2 < fuel)%nat ->
  let k1 := with_mem k0 (st32 (k_mem k0) file_meta q) in
  exists k2, patch_sector fuel (w32 (tfs_get_data_lba (tfs_fs_meta k1) + q)) 0 buffer n k1 = Ok k2 /\ taken k2.
Proof.
  intros Hf k1. pose proof Hmt as [_ Hok H512 _ _ _]. destruct Hbf as [Hff _].
  destruct (find_free_range img q Hff Hq) as [Hqc _]. destruct (nf_id _ _ _ Hnew) as [_ Hidr].
  destruct (entry_apart img id q Hok Hidr ltac:(lia)) as (Hp1 & Hp2 & Hp3).
  assert (mounted img k1) as Hmt1.
  { apply (mounted_same img k0); [done|apply same_fs_mem, same_fs_refl, Hmt|done]. }
  destruct (patch_data img k1 fuel q 0 buffer n) as (k2 & img2 & H & Hw & [Hmt2 Hh Hb2 Hlow Hfr]);
    [done|lia|lia|lia|lia|exact Hbs|exact Hf|].
  assert (bytes_at (k_mem k1) buffer (Z.to_nat n) = data) as Ed.
  { apply bytes_at_ext. intros j Hj. change (k_mem k1) with (st32 (k_mem k0) file_meta q).
    rewrite ld8_st32_ne; [done|]. destruct Hbm; lia. }
  rewrite Ed, (img_write_sector img Hok q 0) in Hw by (rewrite ?length_bytes_at; lia).
  rewrite Z.add_0_r in Hw. injection Hw as <-. exists k2. split; [exact H|].
  change (tfs_sector_buffer k1) with (tfs_sector_buffer k0) in *.
  split; [done| |done|].
  - intros j Hj. rewrite Hfr by (destruct Hms; lia). change (k_mem k1) with (st32 (k_mem k0) file_meta q).
    apply ld8_st32_shift; [lia|]. rewrite ld8_st_bytes, decide_False by (rewrite length_bytes_at; lia).
    by apply (bytes_at_inv _ _ _ _ 32).
  - intros x Hx1 Hx2 Hx3. rewrite Hfr by done. change (k_mem k1) with (st32 (k_mem k0) file_meta q).
    by rewrite ld8_st32_ne by lia.
Qed.

(** The table in memory changes, not on the disk. *)
Lemma taken_mark k v : taken k -> taken (with_mem k (st16 (k_mem k) (w32 (fats + 2 * q)) v)).
Proof.
  intros [Hm He Hb Hk]. assert (w32 (fats + 2 * q) = fats + 2 * q) as -> by (apply w32_id; unfold is_u32; lia). split.
  - apply (mounted_same _ k); [done|apply same_fs_mem, same_fs_refl, Hm|done].
  - intros j Hj. rewrite mem_with_mem, ld8_st16_ne by (destruct Hfm; lia). by apply He.
  - done.
  - intros x Hx1 Hx2 Hx3. rewrite mem_with_mem, ld8_st16_ne by lia. by apply Hk.
Qed.

Lemma put_entry fuel k : (ad_latency + 2 < fuel)%nat -> taken k ->
  exists k', patch_sector fuel (1 + (id - 1) / 16) (32 * ((id - 1) mod 16)) file_meta 32
      (grow_meta file_meta (o + n) k) = Ok k' /\
    mounted (first_write img this q o data) k' /\ tfs_sector_buffer k' = tfs_sector_buffer k0 /\ kept k0 k'.
Proof.
  intros Hf [Hmk He Hb Hk]. pose proof Hmt as [_ Hok H512 _ _ _]. destruct Hbf as [Hff _].
  destruct (find_free_range img q Hff Hq) as [Hqc _]. destruct (nf_id _ _ _ Hnew) as [_ Hidr].
  destruct (entry_apart img id q Hok Hidr ltac:(lia)) as (Hp1 & Hp2 & Hp3).
  set (img2 := st_bytes img (data_addr img q) data) in *.
  destruct (grow_meta_ok img2 k file_meta (o + n) Hmk) as (Hm2 & Hs2 & Hmt2).
  set (k2 := grow_meta file_meta (o + n) k) in *. clearbody k2.
  set (lba := 1 + (id - 1) / 16). set (at_ := 32 * ((id - 1) mod 16)).
  destruct (entry_sector img id Hok H512 Hidr) as [Hlb Ha]. fold lba at_ in Hlb, Ha.
  assert (same_header img img2) as Hsh
    by (intros x Hx; unfold img2; by rewrite ld8_st_bytes, decide_False by lia).
  assert (tfs_sector_buffer k2 = tfs_sector_buffer k0) as Hb2 by (by rewrite (sf_buffer _ _ Hs2)).
  destruct (patch_sector_ok img2 k2 fuel lba at_ file_meta 32 Hmt2) as (k3 & E3 & Hs3 & Hmt3 & Hfr3);
    [by hdr_rewrite Hsh|unfold at_; zmod|lia|unfold at_; zmod|by rewrite Hb2|done|].
  exists k3. split; [exact E3|]. rewrite Ha in Hmt3. change (Z.to_nat 32) with 32%nat in Hmt3. split_and!.
  - apply (mounted_ext _ _ _ Hmt3). rewrite Hm2.
    pose proof (grown_entry (st32 img2 this q) (k_mem k) _ file_meta this (o + n) ltac:(lia) He eq_refl) as Hg.
    unfold first_write. rewrite length_bytes_at, Z2Nat.id by lia. etransitivity; [|exact Hg].
    intros x. rewrite !ld8_st_bytes, !length_bytes_at. destruct (decide (this <= x < this + Z.of_nat 32)); [done|].
    by rewrite ld8_st32_ne by lia.
  - by rewrite (sf_buffer _ _ Hs3).
  - intros x Hx1 Hx2 Hx3. rewrite Hb2 in Hfr3. rewrite Hfr3, Hm2 by done.
    destruct (_ <? _); [rewrite ld8_st32_ne by lia|]; by apply Hk.
Qed.

(** [tfs_write_file] of a file without a sector. *)
Lemma write_file_new fuel : (ad_latency + 2 < fuel)%nat ->
  exists k', tfs_write_file fuel fats file_meta buffer n o
      (Found true (1 + (id - 1) / 16) (32 * ((id - 1) mod 16))) k0 = Ok (true, k') /\
    mounted (first_write img this q o data) k' /\ tfs_sector_buffer k' = tfs_sector_buffer k0 /\ kept k0 k'.
Proof.
  intros Hf. pose proof Hmt as [_ Hok H512 _ _ Hmeta]. destruct Hnew as [_ Hnf Hns].
  assert (forall j, 0 <= j <= 28 -> ld32 (k_mem k0) (file_meta + j) = ld32 img (this + j)) as Hw.
  { intros j Hj. unfold ld32, ld16. rewrite <- !Z.add_assoc. by rewrite !(bytes_at_inv _ _ _ _ 32 _ Hent) by lia. }
  pose proof (Hw 0 ltac:(lia)) as E0. rewrite !Z.add_0_r in E0. fold (first_data_sector img this) in E0.
  pose proof (Hw 4 ltac:(lia)) as E4. fold (file_size img this) in E4.
  unfold tfs_write_file. rewrite E0, Hnf. cbn [Z.eqb Pos.eqb andb]. rewrite (proj2 Hbf).
  destruct (Z.eqb_spec q (-1)); [lia|]. cbv zeta. rewrite mem_with_mem.
  assert (ld32 (st32 (k_mem k0) file_meta q) (file_meta + 4) = 0) as ->.
  { rewrite <- Hns, <- E4. apply ld32_frame. intros x Hx. by rewrite ld8_st32_ne by lia. }
  rewrite (proj2 (Z.ltb_ge o 0)) by lia.
  assert (m_sector_size (tfs_fs_meta k0) = 512) as Em by (by rewrite Hmeta). rewrite Em.
  change (divisor 512) with (Ok tt). rewrite bind_Ok_r. change (Z.to_nat (0 / 512)) with O. cbn [skip_sectors].
  change (0 mod 512) with 0. unfold tfs_write_data. change (tfs_fs_meta (with_mem k0 _)) with (tfs_fs_meta k0).
  rewrite Em, (proj2 (Z.leb_le n _)) by lia.
  destruct (take_sector fuel Hf) as (k2 & E2 & Ht).
  assert (exists v k3, (let k := if fats_at (k_mem k2) fats q =? 0
      then with_mem k2 (st16 (k_mem k2) (w32 (fats + 2 * q)) v) else k2 in k) = k3 /\ v = 0xffff /\ taken k3)
    as (v & k3 & E3 & -> & Ht3).
  { eexists _, _. split; [reflexivity|]. split; [reflexivity|]. cbv zeta. case_match; [by apply taken_mark|done]. }
  change (tfs_fs_meta (with_mem k0 (st32 (k_mem k0) file_meta q))) with (tfs_fs_meta k0) in E2.
  rewrite E2, !bind_Ok_r. cbv zeta in E3. rewrite E3. cbn [r_lba r_offset].
  destruct (put_entry fuel k3 Hf Ht3) as (k' & -> & Hr). rewrite bind_Ok_r. by exists k'.
Qed.
End kernel_new.

(** ** What the image is then *)

Section after.
Context (img : mem) (id q o : Z) (bytes : list Z) (Hok : layout_ok img).
Context (Hid : 0 < id <= count_file_meta_entries img) (Hq : 0 <= q < fat_count img).
Context (Hsz : file_size img (file_entry img (id - 1)) = 0) (Ho : 0 <= o).
Context (Hn : 0 < Z.of_nat (length bytes) <= 512) (Hend : o + Z.of_nat (length bytes) < 4294967296).

Abbreviation this := (file_entry img (id - 1)).
Abbreviation img' := (first_write img this q o bytes).
#[local] Notation first_write_low := (first_write_low img id q o bytes Hok Hid Hq Hsz Ho (proj1 Hn) Hend).
#[local] Notation first_write_header := (first_write_header img id q o bytes Hok Hid Hq Hsz Ho (proj1 Hn) Hend).

(** The sector is free as before, and other files are as they were. *)
Lemma first_write_free : find_free_fat img' = find_free_fat img.
Proof.
  apply (sh_find_free_fat _ _ first_write_header). intros j Hj. apply (sh_fat_entry _ _ first_write_header).
  intros x Hx. destruct (fat_addr_ok img Hok j Hj) as (Hf1 & Hf2 & _).
  destruct (entry_apart img id j Hok Hid Hj) as (_ & H2 & _). apply first_write_low; lia.
Qed.

Lemma first_write_names nm j : (length nm < 24)%nat -> 0 <= j < count_file_meta_entries img ->
  matches img' nm j = matches img nm j.
Proof.
  intros Hl Hj. unfold matches. rewrite (sh_file_entry _ _ first_write_header).
  destruct (file_entry_ok img Hok j Hj) as [Hj1 Hj2]. pose proof (section_order img Hok) as (?&?&?&?&?).
  apply name_eq_frame. intros x Hx. apply first_write_low; unfold name_of, file_entry in *; lia.
Qed.
End after.

(** ** [tfs_write] *)

Section whole.
Context {P M : Type} `{FS : FrameSource P} `{FSO : !FrameSourceOk P} `{HM : Machine M} `{SK : Sink M}
  `{SKO : !SinkOk M} `{AD : !AtaDrive M} `{PD : !PromptDrive M}.
Implicit Types (k : kernel P M).

(** A buffer that a call may read: not in the sector buffer or the free space. *)
Record readable_at k (s buffer n : Z) : Prop := {
  ra_low : 0 <= buffer;
  ra_heap : buffer + n <= s \/ next_page_virt_addr (k_heap k) + 4096 <= buffer;
  ra_high : buffer + n <= 4294967296;
  ra_buffer : apart buffer n (tfs_sector_buffer k) 512;
}.

Lemma write_new_ok img name path k s len bl pg fuel id buffer n o :
  callable img name path k s len bl pg -> new_file img name id -> 0 <= find_free_fat img < 256 ->
  readable_at k s buffer n -> 0 <= o -> 0 < n <= 512 -> o + n < 4294967296 ->
  (ad_latency + 2 < fuel)%nat -> (16 < fuel)%nat ->
  let img' := first_write img (file_entry img (id - 1)) (find_free_fat img) o (bytes_at (k_mem k) buffer (Z.to_nat n)) in
  exists k', tfs_write fuel path buffer n o k = Ok (true, k') /\ returned img' k s bl pg s 0 k'.
Proof.
  intros Hca Hnew Hq [Hb0 Hb1 Hb2 Hb3] Ho Hn Hend Hf Hf16 img'.
  destruct (nf_id _ _ _ Hnew) as [Hid Hidr].
  destruct (open_id img name path k s len bl pg Hca fuel Hf Hf16 id Hid Hidr) as (k1 & H1 & Hop & Hent).
  pose proof Hop as [Hmt1 Hd1 Hsb1 _ _ _ _ Htab1 _ Hfr1]. pose proof (ca_buffer _ _ _ _ _ _ _ _ Hca) as Hsb.
  destruct (free_place img name path k s len bl pg Hca fuel Hf Hf16) as (Hs0 & Hs1 & Hs2). unfold heap_start in Hs0. pf_unfold.
  destruct (find_free_kernel img k1 (s + 4) _ Hmt1 eq_refl Hq Htab1) as [Hbf _].
  assert (bytes_at (k_mem k1) buffer (Z.to_nat n) = bytes_at (k_mem k) buffer (Z.to_nat n)) as Ed
    by (apply bytes_at_ext; intros j Hj; apply Hfr1; [lia|destruct Hb3; lia]).
  destruct (write_file_new img name id (find_free_fat img) (s + 4) (s + 1032) buffer n o k1 Hmt1 Hnew Hbf)
    with (fuel := fuel) as (k2 & H2 & Hmt2 & Hsb2 & Hkept); rewrite ?Hsb1; try (done || lia || (unfold apart; lia)).
  rewrite Ed in Hmt2. fold img' in Hmt2. unfold kept in Hkept. rewrite Hsb1 in Hkept.
  pose proof (write_file_same _ _ _ _ _ _ _ _ _ _ H2) as Hsh.
  destruct (close_opened img name path k s len bl pg Hca fuel Hf Hf16 _ _ k1 k2 img' s 0 true Hop Hmt2 Hsh)
    as (k3 & H3 & Hrt & _ & _); [left; lia|intros; apply Hkept; lia|].
  exists k3. split; [|exact Hrt]. unfold tfs_write. rewrite H1, bind_Ok_r. cbv beta iota. cbn [found negb]. by rewrite H2.
Qed.
End whole.

(** C20: The first write to a file, of at most a sector, is done, but the sector
    stays free on the disk: the FUSE driver's image is the disk's with the FAT
    entry of the sector set to the end of a chain. The file has the bytes, its
    entry names the sector and the size; the sector that is found free next is
    the same one. *)
Theorem tfs_write_forgets_sector {P M : Type} `{FS : FrameSource P} `{FSO : !FrameSourceOk P}
    `{HM : Machine M} `{SK : Sink M} `{SKO : !SinkOk M} `{AD : !AtaDrive M} `{PD : !PromptDrive M}
    img name path (k : kernel P M) s len bl pg fuel fuel' id buffer n o c :
  callable img name path k s len bl pg -> new_file img name id -> 0 <= find_free_fat img < 256 ->
  readable_at k s buffer n -> 0 <= o -> 0 < n <= 512 -> o + n < 4294967296 ->
  (ad_latency + 2 < fuel)%nat -> (16 < fuel)%nat -> (0 < fuel')%nat ->
  let e := file_entry img (id - 1) in let q := find_free_fat img in
  let bytes := bytes_at (k_mem k) buffer (Z.to_nat n) in
  exists k' img' imgF, tfs_write fuel path buffer n o k = Ok (true, k') /\ returned img' k s bl pg s 0 k' /\
    tagfs_write fuel' img (c :: name) bytes n o = Ok (n, imgF) /\ imgF ≡ st16 img' (fat_addr img q) 0xffff /\
    first_data_sector img' e = q /\ file_size img' e = o + n /\
    bytes_at img' (data_addr img q) (Z.to_nat n) = bytes /\
    fat_entry img' q = 0 /\ find_free_fat img' = q.
Proof.
  intros Hca Hnew Hq Hbuf Ho Hn Hend Hf Hf16 Hf' e q bytes.
  destruct (write_new_ok _ _ _ _ _ _ _ _ _ _ _ _ _ Hca Hnew Hq Hbuf Ho Hn Hend Hf Hf16) as (k' & H & Hrt).
  fold e q bytes in Hrt. pose proof (ca_mounted _ _ _ _ _ _ _ _ Hca) as [_ Hok H512 _ _ _].
  assert (length bytes = Z.to_nat n) as Hlen by apply length_bytes_at.
  assert (Z.of_nat (length bytes) = n) as Hln by lia.
  destruct (find_free_range img q eq_refl ltac:(lia)) as [Hqc Hqz].
  destruct (nf_id _ _ _ Hnew) as [Hid Hidr]. pose proof (nf_size _ _ _ Hnew) as Hsz.
  destruct (tagfs_write_new img Hok (c :: name) id q fuel' bytes o Hnew eq_refl) as (imgF & Hw & Heq); try (done || lia).
  rewrite Hln, s32_id in Hw by lia.
  destruct (first_write_entry img id q o bytes Hok Hidr ltac:(lia) Hsz Ho) as (E1 & E2 & E3); [lia..|].
  fold e in E1, E2, E3. rewrite Hln in E2. rewrite Hlen in E3.
  pose proof (first_write_free img id q o bytes Hok Hidr ltac:(lia) Hsz Ho) as E4.
  exists k', (first_write img e q o bytes), imgF. split_and!; [done..| | |].
  - rewrite E3. apply map_w8, bytes_at_u8.
  - rewrite <- Hqz. apply (sh_fat_entry _ _ (first_write_header img id q o bytes Hok Hidr ltac:(lia) Hsz Ho ltac:(lia) ltac:(lia))).
    intros x Hx. destruct (fat_addr_ok img Hok q) as (Hf1 & Hf2 & _); [lia|].
    destruct (entry_apart img id q Hok Hidr ltac:(lia)) as (_ & H2 & _). fold e in H2.
    apply first_write_low; (done || lia).
  - apply E4; lia.
Qed.

(** ** Two new files *)

Section two.
Context {P M : Type} `{FS : FrameSource P} `{FSO : !FrameSourceOk P} `{HM : Machine M} `{SK : Sink M}
  `{SKO : !SinkOk M} `{AD : !AtaDrive M} `{PD : !PromptDrive M}.
Context (img : mem) (id q o : Z) (bytes : list Z) (Hok : layout_ok img).
Context (Hid : 0 < id <= count_file_meta_entries img) (Hq : 0 <= q < fat_count img).
Context (Hsz : file_size img (file_entry img (id - 1)) = 0) (Ho : 0 <= o).
Context (Hn : 0 < Z.of_nat (length bytes) <= 512) (Hend : o + Z.of_nat (length bytes) < 4294967296).

Abbreviation this := (file_entry img (id - 1)).
Abbreviation img' := (first_write img this q o bytes).

(** Another entry is as it was. *)
Lemma first_write_other j x : 0 <= j < count_file_meta_entries img -> j <> id - 1 ->
  file_entry img j <= x < file_entry img j + 32 -> ld8 img' x = ld8 img x.
Proof.
  intros Hj Hne Hx. destruct (file_entry_ok img Hok j Hj) as [Hj1 Hj2].
  pose proof (section_order img Hok) as (?&?&?&?&?).
  apply first_write_low; (done || lia || (unfold file_entry in *; lia)).
Qed.

Lemma first_write_new name2 id2 : new_file img name2 id2 -> id2 <> id -> (length name2 < 24)%nat ->
  new_file img' name2 id2.
Proof.
  intros [[Hi Hr] Hf Hs] Hne Hl. pose proof (first_write_header img id q o bytes Hok Hid Hq Hsz Ho (proj1 Hn) Hend) as Hh.
  assert (forall d, 0 <= d <= 28 -> ld32 img' (file_entry img (id2 - 1) + d) = ld32 img (file_entry img (id2 - 1) + d)) as Hw.
  { intros d Hd. apply ld32_frame. intros x Hx. apply (first_write_other (id2 - 1)); lia. }
  split; rewrite ?(sh_file_entry _ _ Hh).
  - rewrite (sh_count _ _ Hh). split; [|done]. etransitivity; [|exact Hi]. unfold get_file_id_from_name.
    rewrite (sh_count _ _ Hh).
    erewrite find_up_ext; [reflexivity|]. intros j Hj. rewrite Z2Nat.id in Hj by lia.
    by apply (first_write_names img id q o bytes Hok Hid Hq Hsz Ho Hn Hend).
  - rewrite <- Hf. pose proof (Hw 0 ltac:(lia)) as E. by rewrite !Z.add_0_r in E.
  - rewrite <- Hs. apply (Hw 4). lia.
Qed.

(** After the call for the one file, the other can be called for. *)
Lemma first_write_callable name path k k' s bl pg len name2 path2 :
  callable img name path k s len bl (S pg) -> returned img' k s bl (S pg) s 0 k' ->
  (length name2 < 24)%nat -> unique_name img name2 -> 0 <= str_length path2 -> 4 <= str_data path2 ->
  bytes_at (k_mem k) (str_data path2) (Z.to_nat (str_length path2)) = name2 ->
  apart (str_data path2) (str_length path2) (tfs_sector_buffer k) 512 -> str_data path2 + str_length path2 <= s ->
  callable (P := P) (M := M) img' name2 path2 k' s 5124 bl pg.
Proof.
  intros Hca [Hmt Hro Hb Hfr] Hl Hu Hp0 Hp4 Hp Hpb Hps.
  pose proof (first_write_header img id q o bytes Hok Hid Hq Hsz Ho (proj1 Hn) Hend) as Hh. destruct Hca as [[_ _ H512 _ _ _] Hfc Hz Hr _ _ _ _ _ Hsb].
  split; rewrite ?Hb; try done.
  - by hdr_rewrite Hh.
  - intros i Hi. rewrite <- (Hz i Hi). apply (sh_fat_entry _ _ Hh).
    assert (fat_count img = 512) as E by (unfold fat_count; by rewrite Hfc, H512).
    intros x Hx. destruct (fat_addr_ok img Hok i) as (Hf1 & Hf2 & _); [lia|].
    destruct (entry_apart img id i Hok Hid) as (_ & He & _); [lia|]. apply first_write_low; (done || lia).
  - intros i j Hi Hj. rewrite (sh_count _ _ Hh) in Hi, Hj.
    rewrite !(first_write_names img id q o bytes Hok Hid Hq Hsz Ho Hn Hend) by done. by apply Hu.
  - split; [done|]. rewrite <- Hp. apply bytes_at_ext. intros j Hj. apply Hfr; [lia|destruct Hpb; lia|lia].
  - by left.
Qed.
End two.

(** C21: Two new files, written one after the other, get the same sector: the
    entries of both name it, and it has the bytes of the second file, so the
    first one's are lost. *)
Theorem tfs_write_new_files_collide {P M : Type} `{FS : FrameSource P} `{FSO : !FrameSourceOk P}
    `{HM : Machine M} `{SK : Sink M} `{SKO : !SinkOk M} `{AD : !AtaDrive M} `{PD : !PromptDrive M}
    img name path name2 path2 (k : kernel P M) s len bl pg fuel id buffer n o id2 buffer2 n2 o2 :
  callable img name path k s len bl (S pg) -> new_file img name id -> 0 <= find_free_fat img < 256 ->
  readable_at k s buffer n -> 0 <= o -> 0 < n <= 512 -> o + n < 4294967296 ->
  new_file img name2 id2 -> id2 <> id -> (length name2 < 24)%nat -> unique_name img name2 ->
  0 <= str_length path2 -> 4 <= str_data path2 -> str_data path2 + str_length path2 <= s ->
  bytes_at (k_mem k) (str_data path2) (Z.to_nat (str_length path2)) = name2 ->
  apart (str_data path2) (str_length path2) (tfs_sector_buffer k) 512 ->
  readable_at k s buffer2 n2 -> 4 <= buffer2 -> buffer2 + n2 <= s ->
  0 <= o2 -> 0 < n2 <= 512 -> o2 + n2 < 4294967296 ->
  (ad_latency + 2 < fuel)%nat -> (16 < fuel)%nat ->
  let e := file_entry img (id - 1) in let e2 := file_entry img (id2 - 1) in let q := find_free_fat img in
  exists k1 k2 img2, tfs_write fuel path buffer n o k = Ok (true, k1) /\
    tfs_write fuel path2 buffer2 n2 o2 k1 = Ok (true, k2) /\ mounted img2 k2 /\
    first_data_sector img2 e = q /\ file_size img2 e = o + n /\
    first_data_sector img2 e2 = q /\ file_size img2 e2 = o2 + n2 /\
    bytes_at img2 (data_addr img q) (Z.to_nat n2) = bytes_at (k_mem k) buffer2 (Z.to_nat n2).
Proof.
  intros Hca Hnew Hq Hbuf Ho Hn Hend Hnew2 Hne Hl2 Hu2 Hp0 Hp4 Hps Hp Hpb Hbuf2 Hb4 Hbs Ho2 Hn2 Hend2 Hf Hf16 e e2 q.
  destruct (write_new_ok _ _ _ _ _ _ _ _ _ _ _ _ _ Hca Hnew Hq Hbuf Ho Hn Hend Hf Hf16) as (k1 & E1 & Hrt).
  fold e q in Hrt. pose proof (ca_mounted _ _ _ _ _ _ _ _ Hca) as [_ Hok H512 _ _ _].
  destruct (find_free_range img q eq_refl ltac:(lia)) as [Hqc _].
  destruct (nf_id _ _ _ Hnew) as [_ Hidr]. destruct (nf_id _ _ _ Hnew2) as [_ Hidr2].
  set (b1 := bytes_at (k_mem k) buffer (Z.to_nat n)) in *.
  assert (Z.of_nat (length b1) = n) as Hlen by (unfold b1; rewrite length_bytes_at; lia).
  pose proof (nf_size _ _ _ Hnew) as Hsz.
  assert (forall (G : Prop), (0 <= q < fat_count img -> 0 < Z.of_nat (length b1) <= 512 ->
    o + Z.of_nat (length b1) < 4294967296 -> G) -> G) as Hctx by (intros G HG; apply HG; lia).
  set (img1 := first_write img e q o b1) in *.
  assert (same_header img img1) as Hh by (apply Hctx; intros; apply (first_write_header img id q o b1); (done || lia)).
  assert (new_file img1 name2 id2) as Hnew1 by (apply Hctx; intros; by apply (first_write_new img id q o b1)).
  assert (find_free_fat img1 = q) as Hq1 by (apply Hctx; intros; by apply (first_write_free img id q o b1)).
  assert (callable img1 name2 path2 k1 s 5124 bl pg) as Hca1
    by (apply Hctx; intros; by eapply (first_write_callable img id q o b1)).
  destruct Hrt as [Hmt1 Hro1 Hsb1 Hfr1].
  assert (layout_ok img1) as Hok1 by (by apply (sh_layout_ok _ _ Hh)).
  assert (0 < id2 <= count_file_meta_entries img1) as Hidr2' by (by rewrite (sh_count _ _ Hh)).
  assert (0 <= q < fat_count img1) as Hqc1 by (rewrite (sh_fat_count _ _ Hh); lia).
  assert (readable_at k1 s buffer2 n2) as Hbuf1
    by (destruct Hbuf2 as [B1 B2 B3 B4]; split; rewrite ?Hsb1; (done || by left)).
  destruct (write_new_ok img1 name2 path2 k1 s 5124 bl pg fuel id2 buffer2 n2 o2 Hca1 Hnew1) as (k2 & E2 & Hrt2);
    rewrite ?Hq1; try done. rewrite Hq1 in Hrt2.
  assert (bytes_at (k_mem k1) buffer2 (Z.to_nat n2) = bytes_at (k_mem k) buffer2 (Z.to_nat n2)) as Eb.
  { apply bytes_at_ext. intros j Hj. destruct Hbuf2 as [_ _ _ B4]. apply Hfr1; [lia|destruct B4; lia|lia]. }
  rewrite Eb in Hrt2. set (b2 := bytes_at (k_mem k) buffer2 (Z.to_nat n2)) in *.
  assert (length b2 = Z.to_nat n2) as Hlen2 by (unfold b2; apply length_bytes_at).
  rewrite (sh_file_entry _ _ Hh) in Hrt2. fold e2 in Hrt2. pose proof (nf_size _ _ _ Hnew1) as Hsz2.
  exists k1, k2, (first_write img1 e2 q o2 b2). split; [exact E1|]. split; [exact E2|]. split; [apply Hrt2|].
  pose proof (sh_file_entry _ _ Hh (id2 - 1)) as Ee2. fold e2 in Ee2.
  destruct (first_write_entry img1 id2 q o2 b2 Hok1 Hidr2' Hqc1 Hsz2 Ho2) as (F1 & F2 & F3); [lia..|].
  destruct (first_write_entry img id q o b1 Hok Hidr) as (G1 & G2 & _); [lia|exact Hsz|exact Ho|lia|lia|].
  rewrite Ee2 in F1, F2, F3. fold e img1 in G1, G2.
  assert (forall d, 0 <= d <= 28 -> ld32 (first_write img1 e2 q o2 b2) (e + d) = ld32 img1 (e + d)) as Hother.
  { intros d Hd. apply ld32_frame. intros x Hx. rewrite <- Ee2.
    apply (first_write_other img1 id2 q o2 b2 Hok1 Hidr2' Hqc1 Hsz2 Ho2) with (j := id - 1);
      rewrite ?(sh_file_entry _ _ Hh), ?(sh_count _ _ Hh); fold e; lia. }
  pose proof (Hother 0 ltac:(lia)) as H0. rewrite !Z.add_0_r in H0. pose proof (Hother 4 ltac:(lia)) as H4.
  split; [exact (eq_trans H0 G1)|]. split; [rewrite <- Hlen; exact (eq_trans H4 G2)|]. split; [exact F1|].
  split; [by rewrite F2, Hlen2, Z2Nat.id by lia|].
  rewrite (sh_data_addr _ _ Hh), Hlen2 in F3. rewrite F3. apply map_w8, bytes_at_u8.
Qed.

(** ** Witnesses: the new files "a" and "b" on an empty disk *)

#[local] Existing Instance sample_heap.
#[local] Existing Instance sample_heap_ok.

Definition new_image : mem :=
  let img := st32 (st32 (st32 (st32 ∅ 8 516) 12 512) 16 1) 28 2 in
  st_bytes (st32 (st_bytes (st32 img 512 0xffff) 520 [97; 0]) 544 0xffff) 552 [98; 0].
Definition new_kernel : kernel pfa pio :=
  Kernel heap_2 legacy (Pio (DState ∅ Idle (image_disk new_image 516)) []) (metadata_at new_image 0) (heap_start + 4).

Lemma new_mounted : mounted new_image new_kernel.
Proof.
  assert (fs_sector_count new_image = 516) as E by (vm_compute; reflexivity).
  constructor; [|split; (split || idtac); apply (bool_decide_unpack _); vm_compute; exact I|vm_compute; reflexivity| | |reflexivity].
  - constructor; [reflexivity|reflexivity|apply image_disk_ok|by apply idle_at_rest].
  - rewrite E. apply image_disk_holds.
  - rewrite E. cbn. lia.
Qed.

Lemma new_names j : 0 <= j < count_file_meta_entries new_image ->
  matches new_image [97] j = (j =? 0) /\ matches new_image [98] j = (j =? 1).
Proof.
  intros Hj. assert (forallb (fun j => eqb (matches new_image [97] j) (j =? 0) &&
    eqb (matches new_image [98] j) (j =? 1)) (seqZ 0 16) = true) as H by (vm_compute; reflexivity).
  rewrite forallb_forall in H. destruct (andb_prop _ _ (H j ltac:(
    apply list_elem_of_In, elem_of_seqZ;
    assert (count_file_meta_entries new_image = 16) as E by (vm_compute; reflexivity); lia))) as [H1 H2].
  split; by apply eqb_prop.
Qed.

Lemma new_callable pg : (pg <= 1)%nat -> callable new_image [97] (String_ 100 1) new_kernel (heap_start + 1032) 3064
  [(heap_start + 516, 516); (heap_start, 516)] pg.
Proof.
  intros Hpg. split.
  - exact new_mounted.
  - vm_compute. reflexivity.
  - intros i Hi. assert (i = 256 \/ i = 257 \/ i = 258 \/ i = 259) as [-> |[-> |[-> | ->]]] by lia;
      vm_compute; reflexivity.
  - split; [exact heap_2_inv|lia|repeat constructor; lia| |].
    + destruct pg as [|[|]]; [|  |lia]; repeat (eexists; split; [vm_compute; reflexivity|]); exact I.
    + assert (next_page_virt_addr (k_heap new_kernel) = heap_start + 4096) as -> by (vm_compute; reflexivity).
      unfold heap_start. pf_unfold. lia.
  - cbn. lia.
  - intros i j Hi Hj. rewrite (proj1 (new_names i Hi)), (proj1 (new_names j Hj)), !Z.eqb_eq. congruence.
  - split; [done|vm_compute; reflexivity].
  - unfold apart. vm_compute. intuition congruence.
  - left. vm_compute. congruence.
  - vm_compute. congruence.
Qed.

Lemma new_files : new_file new_image [97] 1 /\ new_file new_image [98] 2.
Proof. split; split; [split| | |split| |]; by vm_compute. Qed.

Lemma new_readable : readable_at new_kernel (heap_start + 1032) 200 10.
Proof. split; [lia|left; vm_compute; congruence|lia|]. unfold apart. vm_compute. intuition congruence. Qed.

Lemma tfs_write_forgets_sector_witness : exists k' img' imgF,
  tfs_write 30 (String_ 100 1) 200 10 0 new_kernel = Ok (true, k') /\ mounted img' k' /\
  tagfs_write 30 new_image [47; 97] (seqZ 1 10) 10 0 = Ok (10, imgF) /\
  ld16 imgF (fat_addr new_image 0) = 0xffff /\ fat_entry img' 0 = 0 /\ bytes_at img' (data_addr new_image 0) 10 = seqZ 1 10.
Proof.
  destruct new_files as [Ha _].
  destruct (tfs_write_forgets_sector new_image [97] (String_ 100 1) new_kernel (heap_start + 1032) 3064
    [(heap_start + 516, 516); (heap_start, 516)] 0 30 30 1 200 10 0 47) as
    (k' & img' & imgF & H1 & [Hm _ _ _] & H2 & H3 & _ & _ & H4 & H5 & _);
    [apply new_callable; lia|exact Ha|by vm_compute|exact new_readable|lia|lia|lia|cbn; lia|lia|lia|].
  assert (find_free_fat new_image = 0) as Eq by (vm_compute; reflexivity). rewrite Eq in *.
  exists k', img', imgF. split; [exact H1|]. split; [exact Hm|].
  split; [etransitivity; [|exact H2]; vm_compute; reflexivity|].
  split; [by rewrite H3, ld16_st16_eq|]. split; [exact H5|]. etransitivity; [exact H4|]. vm_compute. reflexivity.
Defined.

(** "a" is written with ten bytes, then "b" with six of them at 202. *)
Lemma tfs_write_new_files_collide_witness : exists k1 k2 img2,
  tfs_write 30 (String_ 100 1) 200 10 0 new_kernel = Ok (true, k1) /\
  tfs_write 30 (String_ 102 1) 202 6 0 k1 = Ok (true, k2) /\ mounted img2 k2 /\
  first_data_sector img2 512 = 0 /\ first_data_sector img2 544 = 0 /\
  bytes_at img2 (data_addr new_image 0) 6 = seqZ 3 6.
Proof.
  destruct new_files as [Ha Hb].
  assert (find_free_fat new_image = 0) as Eq by (vm_compute; reflexivity).
  destruct (tfs_write_new_files_collide new_image [97] (String_ 100 1) [98] (String_ 102 1) new_kernel (heap_start + 1032)
    3064 [(heap_start + 516, 516); (heap_start, 516)] 0 30 1 200 10 0 2 202 6 0) as
    (k1 & k2 & img2 & H1 & H2 & Hm & F1 & _ & F2 & _ & Hd);
    [apply new_callable; lia|exact Ha|by rewrite Eq|exact new_readable|lia|lia|lia|exact Hb|done|cbn; lia| |done|done
    |vm_compute; congruence|vm_compute; reflexivity| | |lia|vm_compute; congruence|lia|lia|lia|cbn; lia|lia|].
  - intros i j Hi Hj. rewrite (proj2 (new_names i Hi)), (proj2 (new_names j Hj)), !Z.eqb_eq. congruence.
  - unfold apart. vm_compute. intuition congruence.
  - split; [lia|left; vm_compute; congruence|lia|]. unfold apart. vm_compute. intuition congruence.
  - rewrite Eq in *. exists k1, k2, img2. split; [exact H1|]. split; [exact H2|]. split; [exact Hm|].
    split; [exact F1|]. split; [exact F2|]. etransitivity; [exact Hd|]. vm_compute. reflexivity.
Defined.
