(* ===== verification/KernelDemo.v ===== *)
(** * The demonstration of the file system at the end of [kernel_main]
      (src/src/kernel/kernel.c, from the allocation of [data] on)

    The kernel prints a file's attributes and contents, writes to it, prints
    them again, and makes a new file. The theorem follows the disk's image and
    the console through all of it: what is printed, and the image at the end,
    in which the new file has taken the place of another one when the free
    entry is not the first of its sector. *)
From S2P Require Import Prelude Memory PageFrames Allocator Terminal Format Ports Ata Console.
From S2P Require Import TagLayout FuseDriver TagFrame KernelFs KernelSteps KernelLookup KernelRead KernelWrite.
From S2P Require Import KernelFile Transcript.

#[local] Open Scope Z_scope.

(** ** The code *)

(** What the compiler has put in memory for the calls that take addresses:
    the formats with [%s] and the names and data. *)
Record literals : Type := Literals {
  lit_name_format : Z;      (* "name: %s\n" *)
  lit_text_format : Z;      (* "%s\n" *)
  lit_hello_txt : Z;
  lit_hihihihihi : Z;
  lit_goodbye_txt : Z;
}.

Section demonstration.
Context {P M : Type} `{FS : FrameSource P} `{HM : Machine M} `{SK : Sink M}.
Abbreviation kernel := (kernel P M).

(** Printing with the kernel's console. *)
Definition print_lit (fuel : nat) (fmt : list Z) (args : list Z) (k : kernel) : res kernel :=
  s ← fmt_print_lit fuel fmt args (k_hw k); Ok (with_hw k s).
Definition print_at (fuel : nat) (fmt : Z) (args : list Z) (k : kernel) : res kernel :=
  s ← fmt_print fuel (k_mem k) fmt args (k_hw k); Ok (with_hw k s).

(** [tfs_get_file_attributes] and the lines with what it found, which are
    printed whether or not it found anything. *)
Definition print_attributes (fuel : nat) (l : literals) (path : String_t) (file_meta : Z) (k : kernel)
  : res kernel :=
  '(_, k) ← tfs_get_file_attributes fuel path file_meta k;
  k ← print_lit fuel (text "first_data_sector: %d" ++ [10]) [ld32 (k_mem k) file_meta] k;
  k ← print_lit fuel (text "size: %d" ++ [10]) [ld32 (k_mem k) (file_meta + 4)] k;
  k ← print_at fuel (lit_name_format l) [file_meta + 8] k;
  print_lit fuel [10] [] k.

(** The first bytes of a file, printed as a string. *)
Definition print_contents (fuel : nat) (l : literals) (path : String_t) (data : Z) (k : kernel)
  : res kernel :=
  '(_, k) ← tfs_read fuel path data 512 0 k;
  print_at fuel (lit_text_format l) [data] k.

(** Reading, writing and making files; [file_meta] is on the stack and [data]
    in the heap. *)
Definition use_files (fuel : nat) (l : literals) (file_meta data : Z) (k : kernel) : res kernel :=
  let hello := String_ (lit_hello_txt l) 9 in
  k ← print_lit fuel (text "Attributes of hello.txt:" ++ [10]) [] k;
  k ← print_attributes fuel l hello file_meta k;
  k ← print_lit fuel (text "Contents of hello.txt:" ++ [10]) [] k;
  k ← print_contents fuel l hello data k;
  k ← print_lit fuel (text "Writing to hello.txt..." ++ [10]) [] k;
  '(_, k) ← tfs_write fuel hello (lit_hihihihihi l) 11 0 k;
  k ← print_lit fuel (text "After write:" ++ [10]) [] k;
  k ← print_contents fuel l hello data k;
  k ← print_lit fuel [10] [] k;
  k ← print_lit fuel (text "Attributes after writing:" ++ [10]) [] k;
  k ← print_attributes fuel l hello file_meta k;
  k ← print_lit fuel [10] [] k;
  k ← print_lit fuel (text "Making a new file now..." ++ [10]) [] k;
  '(_, k) ← tfs_make_new_file fuel (String_ (lit_goodbye_txt l) 11) k;
  print_attributes fuel l (String_ (lit_goodbye_txt l) 11) file_meta k.

(** From the allocation of [data] on. *)
Definition kernel_demonstration (fuel : nat) (l : literals) (file_meta : Z) (k : kernel) : res kernel :=
  '(data, k) ← allocate fuel 512 k;
  use_files fuel l file_meta data k.
End demonstration.


(** ** Printing *)

Section printing.
Context {P M : Type} `{FS : FrameSource P} `{HM : Machine M} `{SK : Sink M} `{SKO : !SinkOk M}
  `{AD : !AtaDrive M} `{PD : !PromptDrive M}.
Implicit Types (k : kernel P M).

(** What the console has got between two states. *)
Definition log k (tr : list entry) k' : Prop :=
  exists l, transcript tr l /\ sink_out (k_hw k') = sink_out (k_hw k) ++ l.

Lemma log_nil k k' : sink_out (k_hw k') = sink_out (k_hw k) -> log k [] k'.
Proof. intros H. exists []. split; [apply transcript_nil|by rewrite app_nil_r]. Qed.
Lemma log_app k1 tr1 k2 tr2 k3 : log k1 tr1 k2 -> log k2 tr2 k3 -> log k1 (tr1 ++ tr2) k3.
Proof.
  intros (l1 & H1 & E1) (l2 & H2 & E2). exists (l1 ++ l2). split; [by apply transcript_app|].
  by rewrite E2, E1, app_assoc.
Qed.

(** Printing changes the console only. *)
Record printed k (items : list item) k' : Prop := {
  pd_same : k' = with_hw k (k_hw k');
  pd_ready : ad_ok (k_hw k') /\ ad_state (k_hw k') = ad_state (k_hw k);
  pd_log : log k [Says items] k';
}.

Lemma printed_heap k items k' : printed k items k' ->
  k_heap k' = k_heap k /\ k_ide k' = k_ide k /\ tfs_sector_buffer k' = tfs_sector_buffer k.
Proof. intros [-> _ _]. done. Qed.

Lemma mounted_printed img k items k' : mounted img k -> printed k items k' -> mounted img k'.
Proof.
  intros [[Hb Hn Hok Hi] Hl H5 Hh Hf Hm] [E [Hok' Hst] _]. rewrite E in *. cbn [k_hw with_hw] in *.
  split; [split; cbn; (done || by rewrite Hst)|done..| |done|done].
  unfold disk_of in *. cbn [k_hw with_hw]. by rewrite Hst.
Qed.

Lemma print_at_ok fuel fmt items args k : ad_ok (k_hw k) -> args = concat (map item_args items) ->
  cstring (k_mem k) fmt (concat (map item_format items)) -> Forall (item_ok fuel (k_mem k)) items ->
  (length items < fuel)%nat ->
  exists k', print_at fuel fmt args k = Ok k' /\ printed k items k'.
Proof.
  intros Hok -> Hc Hit Hf. unfold print_at.
  destruct (fmt_print_ok (SKO := drive_sink (ad_state (k_hw k))) fuel (k_mem k) fmt items (k_hw k) Hc Hit Hf)
    as (css & s' & -> & Ht & Hs & Ho); [done|]. rewrite bind_Ok_r. eexists. split; [done|].
  split; [done|done|]. exists (concat css). split; [apply transcript_one; by exists css|exact Ho].
Qed.

Lemma print_lit_ok fuel fmt items args k : ad_ok (k_hw k) -> args = concat (map item_args items) ->
  fmt = concat (map item_format items) -> Forall (fun c => 0 < c < 256) fmt ->
  Forall (item_ok fuel ∅) items -> Forall (fun it => if it is IStr _ _ then False else True) items ->
  (length items < fuel)%nat ->
  exists k', print_lit fuel fmt args k = Ok k' /\ printed k items k'.
Proof.
  intros Hok -> -> Hc Hit Hn Hf. unfold print_lit.
  destruct (fmt_print_lit_ok (SKO := drive_sink (ad_state (k_hw k))) fuel items (k_hw k) Hc Hit Hn Hf)
    as (css & s' & -> & Ht & Hs & Ho); [done|]. rewrite bind_Ok_r. eexists. split; [done|].
  split; [done|done|]. exists (concat css). split; [apply transcript_one; by exists css|exact Ho].
Qed.

(** A line of characters. *)
Lemma print_line_ok fuel cs k : ad_ok (k_hw k) -> Forall (fun c => 0 < c < 256 /\ c <> 37) cs ->
  (length cs < fuel)%nat -> exists k', print_lit fuel cs [] k = Ok k' /\ printed k (map Lit cs) k'.
Proof.
  intros Hok Hcs Hf. apply print_lit_ok; [done|by rewrite lits_args|by rewrite lits_format| | | |by rewrite length_map].
  - eapply Forall_impl; [exact Hcs|]. cbn. lia.
  - apply Forall_fmap. exact Hcs.
  - by apply Forall_fmap, Forall_true.
Qed.
End printing.

(** ** Strings in memory *)

Lemma c_text_stored m a l : bytes_at m a (length l) = l -> 0 ∈ l ->
  cstring m a (c_text l) /\ (length (c_text l) < length l)%nat.
Proof.
  revert a; induction l as [|c l IH]; intros a Hb H0; [by apply elem_of_nil in H0|].
  change (length (c :: l)) with (1 + length l)%nat in Hb. rewrite bytes_at_app in Hb. injection Hb as Hc Hb.
  rewrite Z.add_0_r in Hc. change (Z.of_nat 1) with 1 in Hb. cbn [c_text]. destruct (Z.eqb_spec c 0) as [-> |Hnz].
  - split; [|cbn; lia]. split_and!; [done|constructor|]. cbn. by rewrite Z.add_0_r.
  - apply elem_of_cons in H0 as [|H0]; [congruence|]. destruct (IH (a + 1) Hb H0) as [Hs Hl].
    split; [|cbn; lia]. rewrite cstring_cons. by split_and!.
Qed.

Lemma cstring_frame m m' a s : (forall x, a <= x < a + Z.of_nat (length s) + 1 -> ld8 m' x = ld8 m x) ->
  cstring m a s -> cstring m' a s.
Proof.
  intros H (Hb & Hn & H0). split_and!; [|done|rewrite H by lia; done].
  rewrite <- Hb at 2. apply bytes_at_ext. intros i Hi. apply H. lia.
Qed.

(** ** The state between the steps *)

Definition hello : list Z := text "hello.txt".
Definition goodbye : list Z := text "goodbye.txt".
Definition hihi : list Z := text "hihihihihi" ++ [10].

(** The strings that the compiler has put in memory, with their lengths. *)
Definition literals_at (lt : literals) (m : mem) : Prop :=
  cstring m (lit_name_format lt) (text "name: %s" ++ [10]) /\
  cstring m (lit_text_format lt) (text "%s" ++ [10]) /\
  bytes_at m (lit_hello_txt lt) 9 = hello /\ bytes_at m (lit_hihihihihi lt) 11 = hihi /\
  bytes_at m (lit_goodbye_txt lt) 11 = goodbye.
Definition literal_extents (lt : literals) : list (Z * Z) :=
  [(lit_name_format lt, 10); (lit_text_format lt, 4); (lit_hello_txt lt, 9); (lit_hihihihihi lt, 11);
   (lit_goodbye_txt lt, 11)].

Lemma literals_frame lt fm m m' :
  Forall (fun '(a, n) => 4 <= a /\ a + n <= heap_start /\ apart a n fm 32) (literal_extents lt) ->
  literals_at lt m ->
  (forall x, 4 <= x < heap_start -> x < fm \/ fm + 32 <= x -> ld8 m' x = ld8 m x) -> literals_at lt m'.
Proof.
  intros Hl (H1 & H2 & H3 & H4 & H5) Hlow.
  repeat (apply Forall_cons in Hl as [? Hl]). unfold apart in *.
  split_and!; [eapply cstring_frame, H1|eapply cstring_frame, H2|rewrite <- H3|rewrite <- H4|rewrite <- H5];
    try (apply bytes_at_ext; intros i Hi); try intros i Hi; apply Hlow; cbn in Hi; lia.
Qed.

(** They and [file_meta] are below the heap and do not overlap; [data] is the
    block below the free segment [s], the sector buffer is below [data]. *)
Record places (lt : literals) (fm sb data s : Z) (bl : list (Z * Z)) : Prop := {
  pl_file_meta : 4 <= fm /\ fm + 32 <= heap_start;
  pl_literals : Forall (fun '(a, n) => 4 <= a /\ a + n <= heap_start /\ apart a n fm 32) (literal_extents lt);
  pl_buffer : heap_start <= sb /\ sb + 512 <= data;
  pl_data : data + 512 = s /\ (data - 4, 516) ∈ bl;
}.

Section demo.
Context {P M : Type} `{FS : FrameSource P} `{FSO : !FrameSourceOk P} `{HM : Machine M} `{SK : Sink M}
  `{SKO : !SinkOk M} `{AD : !AtaDrive M} `{PD : !PromptDrive M} `{QP : !QuietPorts M}.
Implicit Types (k : kernel P M).
Context (lt : literals) (fm sb data s : Z) (bl : list (Z * Z)) (Hpl : places lt fm sb data s bl).
Context (fuel : nat) (Hf : (ad_latency + 2 < fuel)%nat) (Hf60 : (600 < fuel)%nat).

(** The memory below the heap, but for [file_meta]. *)
Definition low k k' : Prop :=
  forall x, 4 <= x < heap_start -> x < fm \/ fm + 32 <= x -> ld8 (k_mem k') x = ld8 (k_mem k) x.

Lemma literals_low k k' : literals_at lt (k_mem k) -> low k k' -> literals_at lt (k_mem k').
Proof. clear Hf Hf60. intros Hl Hlow. exact (literals_frame lt fm _ _ (pl_literals _ _ _ _ _ _ Hpl) Hl Hlow). Qed.

(** A volume is mounted, the heap has space for [pg] calls. *)
Record steady (img : mem) k (pg : nat) : Prop := {
  sd_mounted : mounted img k;
  sd_roomy : exists len, roomy k s len bl pg;
  sd_buffer : tfs_sector_buffer k = sb;
  sd_literals : literals_at lt (k_mem k);
}.

Lemma steady_printed img k pg items k' : steady img k pg -> printed k items k' -> steady img k' pg.
Proof.
  intros [Hm (len & Hr) Hb Hl] Hp. destruct (printed_heap _ _ _ Hp) as (Eh & _ & Eb).
  assert (k_mem k' = k_mem k) as Em by (unfold k_mem; by rewrite Eh).
  split; [by eapply mounted_printed| |by rewrite Eb|by rewrite Em].
  exists len. destruct Hr as [? ? ? ? ?]. split; by rewrite ?Eh.
Qed.

Lemma steady_returned img img' k pg a n k' : steady img k (S pg) -> returned img' k s bl pg a n k' ->
  heap_start <= a -> steady img' k' pg.
Proof.
  intros [Hm (len & Hr) Hb Hl] [Hm' Hr' Hb' Hfr] Ha.
  destruct (pl_buffer _ _ _ _ _ _ Hpl) as [Hs1 Hs2]. destruct (pl_data _ _ _ _ _ _ Hpl) as [Hs3 _].
  split; [done|by eexists|by rewrite Hb'|].
  apply (literals_low k); [done|]. intros x Hx _. apply Hfr; lia.
Qed.

(** A name in memory for which the kernel is called. *)
Definition path_at (path : String_t) (nm : list Z) (m : mem) : Prop :=
  (str_data path, str_length path) ∈ literal_extents lt /\ 0 <= str_length path /\
  bytes_at m (str_data path) (Z.to_nat (str_length path)) = nm.

Lemma path_extent path nm m : path_at path nm m ->
  4 <= str_data path /\ str_data path + str_length path <= heap_start /\
  apart (str_data path) (str_length path) fm 32.
Proof.
  intros [Hin _]. pose proof (pl_literals _ _ _ _ _ _ Hpl) as Hl. rewrite Forall_forall in Hl.
  exact (Hl _ Hin).
Qed.

Lemma hello_path k img pg : steady img k pg -> path_at (String_ (lit_hello_txt lt) 9) hello (k_mem k).
Proof. intros [_ _ _ (_ & _ & H & _)]. split_and!; [unfold literal_extents; set_solver|done|done]. Qed.
Lemma goodbye_path k img pg : steady img k pg -> path_at (String_ (lit_goodbye_txt lt) 11) goodbye (k_mem k).
Proof. intros [_ _ _ (_ & _ & _ & _ & H)]. split_and!; [unfold literal_extents; set_solver|done|done]. Qed.

(** What the calls need of the image besides the file. *)
Record volume (img : mem) : Prop := {
  vo_fat : fs_fat_sector_count img = 2;
  vo_zero : forall i, 256 <= i < 260 -> fat_entry img i = 0;
}.

Lemma steady_callable img k pg path nm : steady img k (S pg) -> volume img -> path_at path nm (k_mem k) ->
  (length nm < 24)%nat -> unique_name img nm -> exists len, callable img nm path k s len bl pg.
Proof.
  intros [Hm (len & Hr) Hb Hl] [Hv1 Hv2] Hp Hn Hu. exists len.
  pose proof (path_extent _ _ _ Hp) as (Hx1 & Hx2 & _). destruct Hp as (_ & Hp0 & Hp).
  destruct (pl_buffer _ _ _ _ _ _ Hpl) as [Hs1 Hs2]. destruct (pl_data _ _ _ _ _ _ Hpl) as [Hs3 _].
  split; rewrite ?Hb; try done; unfold apart; lia.
Qed.

(** *** Printing the attributes *)

Definition attribute_lines (first size : Z) (nm : list Z) : list entry :=
  [Transfers; Says (lits "first_data_sector: " ++ [IInt first; Lit 10]);
   Says (lits "size: " ++ [IInt size; Lit 10]); Says (lits "name: " ++ [IStr (fm + 8) nm; Lit 10]); Says [Lit 10]].

Lemma get_id_matches img nm : layout_ok img -> fs_sector_size img = 512 ->
  let id := get_file_id_from_name img nm in id <> 0 ->
  1 <= id <= count_file_meta_entries img /\ matches img nm (id - 1) = true.
Proof.
  intros Hok H512. cbv zeta. destruct (sections_512 img Hok H512) as (?&_&_&_&Hcnt&_&_&_&Hfm).
  unfold get_file_id_from_name. destruct (find_up _ _ _) as [i|] eqn:E; [|done]. intros _.
  apply find_up_Some in E as (Hi & Hm & _). rewrite w16_id, Z.add_simpl_r by (unfold is_u16; lia).
  split; [lia|exact Hm].
Qed.

(** The entry in memory has the name as a C string. *)
Lemma entry_name img nm m id : matches img nm id = true -> name_ok nm -> (length nm < 24)%nat ->
  bytes_at m fm 32 = bytes_at img (file_entry img id) 32 -> cstring m (fm + 8) nm.
Proof.
  intros [E%bool_decide_eq_true_1 Z0%Z.eqb_eq]%andb_prop Hn Hl Hb. unfold name_of in *.
  assert (forall i, 0 <= i < 24 -> ld8 m (fm + 8 + i) = ld8 img (file_entry img id + 8 + i)) as Hx.
  { intros i Hi. rewrite <- !Z.add_assoc. apply (bytes_at_inv _ _ _ _ 32); [done|lia]. }
  split_and!; [|eapply Forall_impl; [exact Hn|]; cbn; lia|by rewrite Hx by lia].
  rewrite <- E at 2. apply bytes_at_ext. intros i Hi. apply Hx. lia.
Qed.

Lemma chats_log img k k' : mounted img k -> chats k k' -> log k [Transfers] k'.
Proof.
  intros Hm Hc. destruct (mt_ready _ _ Hm) as [Hb _ Hok _].
  destruct (Hc Hb) as [_ H]. destruct (H (ad_sink _ Hok)) as (_ & l & Hl & Ho).
  exists l. split; [by apply transcript_one|done].
Qed.

Lemma steady_ok img k pg : steady img k pg -> ad_ok (k_hw k).
Proof. intros H. apply (rd_ok _ (mt_ready _ _ (sd_mounted _ _ _ H))). Qed.

(** Printing between the steps. *)
Record said img pg k (tr : list entry) k' : Prop := {
  sa_steady : steady img k' pg;
  sa_disk : disk_of k' = disk_of k;
  sa_mem : k_mem k' = k_mem k;
  sa_log : log k tr k';
}.

Lemma printed_said img pg k items k' : steady img k pg -> printed k items k' -> said img pg k [Says items] k'.
Proof.
  intros Hst Hp. split; [by eapply steady_printed| | |apply (pd_log _ _ _ Hp)].
  - unfold disk_of. by rewrite (proj2 (pd_ready _ _ _ Hp)).
  - unfold k_mem. by rewrite (proj1 (printed_heap _ _ _ Hp)).
Qed.

Lemma say_at img k pg fmt items args : steady img k pg -> args = concat (map item_args items) ->
  cstring (k_mem k) fmt (concat (map item_format items)) -> Forall (item_ok fuel (k_mem k)) items ->
  (length items < fuel)%nat ->
  exists k', print_at fuel fmt args k = Ok k' /\ said img pg k [Says items] k'.
Proof.
  intros Hst Ha Hc Hi Hl. destruct (print_at_ok fuel fmt items args k (steady_ok _ _ _ Hst) Ha Hc Hi Hl) as (k' & H & Hp).
  exists k'. split; [done|]. by apply printed_said.
Qed.

Lemma say_line img k pg cs : steady img k pg -> Forall (fun c => 0 < c < 256 /\ c <> 37) cs ->
  (length cs < fuel)%nat -> exists k', print_lit fuel cs [] k = Ok k' /\ said img pg k [Says (map Lit cs)] k'.
Proof.
  intros Hst Hc Hl. destruct (print_line_ok fuel cs k (steady_ok _ _ _ Hst) Hc Hl) as (k' & H & Hp).
  exists k'. split; [done|]. by apply printed_said.
Qed.

(** A number with a label. *)
Lemma say_number img k pg fmt label v : steady img k pg -> fmt = text label ++ [37; 100; 10] -> Forall (fun c => 0 < c < 256 /\ c <> 37) (text label) ->
  (length (text label) + 2 < fuel)%nat -> 0 <= v < 2147483648 ->
  exists k', print_lit fuel fmt [v] k = Ok k' /\
    said img pg k [Says (lits label ++ [IInt v; Lit 10])] k'.
Proof.
  intros Hst -> Hc Hl Hv.
  destruct (print_lit_ok fuel (text label ++ [37; 100; 10]) (lits label ++ [IInt v; Lit 10]) [v] k) as (k' & H & Hp).
  - by eapply steady_ok.
  - unfold lits. rewrite map_app, concat_app, lits_args. cbn. by rewrite w32_id by (unfold is_u32; lia).
  - unfold lits. by rewrite map_app, concat_app, lits_format.
  - apply Forall_app. split; [eapply Forall_impl; [exact Hc|]; cbn; lia|repeat constructor; lia].
  - apply Forall_app. split; [by apply lits_ok|repeat constructor; cbn; lia].
  - apply Forall_app. split; [apply lits_plain|by repeat constructor].
  - unfold lits. rewrite length_app, length_map. cbn. lia.
  - exists k'. split; [done|]. by apply printed_said.
Qed.

(** [tfs_get_file_attributes] of a file that is there. *)
Lemma attributes_step img k pg path nm : steady img k pg -> path_at path nm (k_mem k) ->
  (length nm < 24)%nat -> unique_name img nm -> get_file_id_from_name img nm <> 0 ->
  exists k', tfs_get_file_attributes fuel path fm k = Ok (true, k') /\ steady img k' pg /\
    disk_of k' = disk_of k /\ log k [Transfers] k' /\
    bytes_at (k_mem k') fm 32 = bytes_at img (file_entry img (get_file_id_from_name img nm - 1)) 32.
Proof.
  intros Hst Hp Hn Hu Hid. pose proof Hst as [Hm (len & Hr) Hb Hl].
  pose proof (path_extent _ _ _ Hp) as (Hx1 & Hx2 & Hx3). destruct Hp as (_ & Hp0 & Hp).
  destruct (pl_buffer _ _ _ _ _ _ Hpl) as [Hs1 Hs2]. destruct (pl_data _ _ _ _ _ _ Hpl) as [Hs3 _].
  destruct (pl_file_meta _ _ _ _ _ _ Hpl) as [Hfm1 Hfm2].
  destruct (attributes_ok img path nm fm k fuel) as (k' & H & Hsame & Hd & Hout & Hbytes);
    rewrite ?Hb; try done; try (unfold apart; lia).
  destruct (Z.eqb_spec (get_file_id_from_name img nm) 0); [done|]. exists k'.
  unfold outside in Hout. rewrite Hb in Hout.
  pose proof (attributes_steps fuel same_heap (same_heap_mem) (disk_read_same fuel) _ _ _ _ _ H) as Hsh.
  split; [exact H|]. split_and!; [|done| |by apply Hbytes].
  - split; [by apply (mounted_same img k)| |by rewrite (sf_buffer _ _ Hsame)|].
    + exists len. destruct Hr as [Hinv Hlen Hbl Hpg Hsp]. pose proof Hsh as (_ & Hn' & Hp' & _).
      split; rewrite ?Hn', ?Hp'; try done. apply (heap_inv_same k k' _ _ Hinv Hsh).
      constructor; [|constructor]. intros x Hx. apply Hout; lia.
    + apply (literals_low k); [done|]. intros x Hx1' Hx2'. apply Hout; lia.
  - eapply chats_log; [done|]. by apply (attributes_chats fuel ltac:(lia) _ _ _ _ _ H).
Qed.

Lemma print_attributes_ok img k pg path nm : steady img k pg -> path_at path nm (k_mem k) ->
  (length nm < 24)%nat -> name_ok nm -> unique_name img nm -> get_file_id_from_name img nm <> 0 ->
  let e := file_entry img (get_file_id_from_name img nm - 1) in
  first_data_sector img e < 2147483648 -> file_size img e < 2147483648 ->
  exists k', print_attributes fuel lt path fm k = Ok k' /\ steady img k' pg /\ disk_of k' = disk_of k /\
    log k (attribute_lines (first_data_sector img e) (file_size img e) nm) k'.
Proof.
  intros Hst Hp Hn Hok Hu Hid e Hfd Hsz.
  destruct (attributes_step img k pg path nm Hst Hp Hn Hu Hid) as (k1 & H1 & Hst1 & Hd1 & Hl1 & Hb).
  destruct (get_id_matches img nm) as [_ Hmat]; [apply (sd_mounted _ _ _ Hst)..|done|].
  pose proof (entry_name img nm (k_mem k1) _ Hmat Hok Hn Hb) as Hname. fold e in Hb.
  assert (forall j, 0 <= j <= 28 -> ld32 (k_mem k1) (fm + j) = ld32 img (e + j)) as H32.
  { intros j Hj. unfold ld32, ld16. rewrite <- !Z.add_assoc. cbn [Z.add Pos.add Pos.succ].
    repeat (rewrite (bytes_at_inv _ _ _ _ 32 _ Hb) by lia). done. }
  pose proof (ld32_range img e) as R1. pose proof (ld32_range img (e + 4)) as R2.
  fold (first_data_sector img e) in R1. fold (file_size img e) in R2.
  unfold print_attributes. rewrite H1, bind_Ok_r. cbv beta iota.
  replace (ld32 (k_mem k1) fm) with (first_data_sector img e)
    by (pose proof (H32 0 ltac:(lia)) as E; by rewrite !Z.add_0_r in E).
  destruct (say_number img k1 pg (text "first_data_sector: %d" ++ [10]) "first_data_sector: " (first_data_sector img e)) as (k2 & -> & S2);
    [done|done|by apply (bool_decide_unpack _)|cbn; lia|lia|]. rewrite bind_Ok_r, (sa_mem _ _ _ _ _ S2), (H32 4) by lia.
  change (ld32 img (e + 4)) with (file_size img e).
  destruct (say_number img k2 pg (text "size: %d" ++ [10]) "size: " (file_size img e)) as (k3 & -> & S3);
    [apply S2|done|by apply (bool_decide_unpack _)|cbn; lia|lia|]. rewrite bind_Ok_r.
  destruct (say_at img k3 pg (lit_name_format lt) (lits "name: " ++ [IStr (fm + 8) nm; Lit 10]) [fm + 8])
    as (k4 & -> & S4); [apply S3|done|apply (sd_literals _ _ _ (sa_steady _ _ _ _ _ S3))| |cbn; lia|].
  { apply Forall_app; split; [apply lits_ok; by apply (bool_decide_unpack _)|].
    repeat constructor; cbn; try lia; rewrite ?(sa_mem _ _ _ _ _ S3), ?(sa_mem _ _ _ _ _ S2); by try apply Hname. }
  rewrite bind_Ok_r. destruct (say_line img k4 pg [10]) as (k5 & -> & S5); [apply S4|repeat constructor; lia|cbn; lia|].
  exists k5. split; [done|]. split; [apply S5|]. split.
  - by rewrite (sa_disk _ _ _ _ _ S5), (sa_disk _ _ _ _ _ S4), (sa_disk _ _ _ _ _ S3), (sa_disk _ _ _ _ _ S2).
  - exact (log_app _ _ _ _ _ Hl1 (log_app _ _ _ _ _ (sa_log _ _ _ _ _ S2) (log_app _ _ _ _ _ (sa_log _ _ _ _ _ S3)
      (log_app _ _ _ _ _ (sa_log _ _ _ _ _ S4) (sa_log _ _ _ _ _ S5))))).
Qed.

(** *** Printing the contents, writing, making a file *)

(** A file of the volume that can be read and written from its beginning. *)
Record stored (img : mem) (nm : list Z) (id : Z) (l : list Z) : Prop := {
  so_volume : volume img;
  so_file : file_at img nm id l;
  so_half : Forall (fun i => i < 256) l;
  so_fuel : (length l + 1 < fuel)%nat;
  so_name : name_ok nm /\ (length nm < 24)%nat;
  so_unique : unique_name img nm;
}.

Lemma stored_long img nm id l : layout_ok img -> stored img nm id l -> (0 < length l)%nat.
Proof. intros _ [_ [_ _ Hc _] _ _ _ _]. destruct l; [done|]. cbn. lia. Qed.

(** The text of the first sector. *)
Definition first_text (img : mem) (l : list Z) : list Z := c_text (take 512 (chain_bytes img l)).

Lemma print_contents_ok img k pg path nm id l : steady img k (S pg) -> path_at path nm (k_mem k) ->
  stored img nm id l -> 0 ∈ take 512 (chain_bytes img l) ->
  exists k', print_contents fuel lt path data k = Ok k' /\ steady img k' pg /\ disk_of k' = disk_of k /\
    log k [Transfers; Says [IStr data (first_text img l); Lit 10]] k'.
Proof.
  intros Hst Hp Hso H0. pose proof (sd_mounted _ _ _ Hst) as Hm. pose proof (mt_layout _ _ Hm) as Hlay.
  pose proof (stored_long _ _ _ _ Hlay Hso) as Hll. destruct Hso as [Hvo Hfa Hhalf Hfl [Hnok Hn] Hu].
  destruct (steady_callable img k pg path nm Hst Hvo Hp Hn Hu) as (len & Hca).
  destruct (pl_buffer _ _ _ _ _ _ Hpl) as [Hs1 Hs2]. destruct (pl_data _ _ _ _ _ _ Hpl) as [Hs3 Hs4].
  destruct (read_ok img nm path k s len bl pg Hca fuel Hf ltac:(lia) id l data 512 0 Hfa Hhalf)
    as (k1 & H1 & Hrt & Hd1 & Hb1).
  { apply Exists_exists. eexists. split; [exact Hs4|]. cbv beta iota. lia. }
  { rewrite (sd_buffer _ _ _ Hst). unfold apart. lia. }
  1-2, 4: lia. { right. change (0 mod 512) with 0. lia. }
  pose proof (steady_returned _ _ _ _ _ _ _ Hst Hrt ltac:(lia)) as Hst1.
  change (Z.to_nat 512) with 512%nat in Hb1. change (Z.to_nat 0) with 0%nat in Hb1. rewrite drop_0 in Hb1.
  assert (length (take 512 (chain_bytes img l)) = 512%nat) as Hl512 by (rewrite <- Hb1; apply length_bytes_at).
  destruct (c_text_stored (k_mem k1) data (take 512 (chain_bytes img l))) as [Hc Hcl]; [by rewrite Hl512|done|].
  fold (first_text img l) in Hc, Hcl. unfold print_contents. rewrite H1, bind_Ok_r. cbv beta iota.
  destruct (say_at img k1 pg (lit_text_format lt) [IStr data (first_text img l); Lit 10] [data]) as (k2 & -> & S2);
    [done|done|apply (sd_literals _ _ _ Hst1)| |cbn; lia|].
  { repeat constructor; cbn; try lia; by try apply Hc. }
  exists k2. split; [done|]. split; [apply S2|]. split; [by rewrite (sa_disk _ _ _ _ _ S2)|].
  refine (log_app _ [Transfers] _ _ _ _ (sa_log _ _ _ _ _ S2)).
  eapply chats_log; [done|]. by apply (tfs_read_chats fuel ltac:(lia) _ _ _ _ _ _ _ H1).
Qed.

(** [tfs_write] at the beginning of a file does what [tagfs_write] does. *)
Lemma write_step img k pg path nm id l a bytes c : steady img k (S pg) -> path_at path nm (k_mem k) ->
  stored img nm id l -> 0 < file_size img (file_entry img (id - 1)) ->
  0 <= a -> a + Z.of_nat (length bytes) <= heap_start -> bytes_at (k_mem k) a (length bytes) = bytes ->
  (0 < length bytes < 512)%nat ->
  exists k' img', tfs_write fuel path a (Z.of_nat (length bytes)) 0 k = Ok (true, k') /\
    tagfs_write fuel img (c :: nm) bytes (Z.of_nat (length bytes)) 0 = Ok (Z.of_nat (length bytes), img') /\
    steady img' k' pg /\ log k [Transfers] k'.
Proof.
  intros Hst Hp Hso Hsz Ha0 Ha Hbytes Hlen. pose proof (sd_mounted _ _ _ Hst) as Hm. pose proof (mt_layout _ _ Hm) as Hlay.
  pose proof (stored_long _ _ _ _ Hlay Hso) as Hll. destruct Hso as [Hvo Hfa Hhalf Hfl [Hnok Hn] Hu].
  destruct (steady_callable img k pg path nm Hst Hvo Hp Hn Hu) as (len & Hca).
  destruct (pl_buffer _ _ _ _ _ _ Hpl) as [Hs1 Hs2]. destruct (pl_data _ _ _ _ _ _ Hpl) as [Hs3 Hs4].
  assert (write_pos img (file_entry img (id - 1)) 0 = 0) as Hpos.
  { unfold write_pos. by rewrite (proj2 (Z.ltb_lt _ _)) by done. }
  assert (heap_start = 3229614080) as Hhs by done.
  pose proof (write_ok img nm path k s len bl pg Hca fuel Hf ltac:(lia) id l a (Z.of_nat (length bytes)) 0
    fuel c Hfa Hhalf ltac:(lia) ltac:(left; lia) ltac:(lia)) as H. cbv zeta in H. rewrite Hpos in H.
  rewrite (bool_decide_eq_true_2 (0 < _)) in H by lia.
  destruct H as (k1 & img1 & H1 & H2 & Hrt); try lia.
  { rewrite (sd_buffer _ _ _ Hst). unfold apart. lia. }
  { left. change (0 mod 512) with 0. lia. }
  rewrite Nat2Z.id, Hbytes, s32_id in H2 by lia.
  exists k1, img1. split; [exact H1|]. split; [exact H2|]. split; [by eapply (steady_returned _ _ _ _ s 0); [done|done|lia]|].
  eapply chats_log; [done|]. by apply (tfs_write_chats fuel ltac:(lia) _ _ _ _ _ _ _ H1).
Qed.

(** [tfs_make_new_file] when there is a free entry. *)
Lemma make_step img k pg path nm i : steady img k pg -> path_at path nm (k_mem k) -> (length nm < 24)%nat ->
  (Z.to_nat (fs_file_meta_sector_count img) < fuel)%nat ->
  find_up (Z.to_nat (count_file_meta_entries img)) 0
    (fun i => file_metadata_entry_is_free img (file_entry img i)) = Some i ->
  exists k', tfs_make_new_file fuel path k = Ok (true, k') /\
    steady (new_entry img (file_entry img (16 * (i / 16))) nm) k' pg /\ log k [Transfers] k'.
Proof.
  intros Hst Hp Hn Hfm Hi. pose proof Hst as [Hm (len & Hr) Hb Hl].
  pose proof (path_extent _ _ _ Hp) as (Hx1 & Hx2 & _). destruct Hp as (_ & Hp0 & Hp).
  destruct (pl_buffer _ _ _ _ _ _ Hpl) as [Hs1 Hs2]. destruct (pl_data _ _ _ _ _ _ Hpl) as [Hs3 _].
  apply find_up_Some in Hi as (Hir & Hfree & Hlow).
  assert (length nm = Z.to_nat (str_length path)) as Hnl by (by rewrite <- Hp, length_bytes_at).
  destruct (make_found img path nm k Hm ltac:(lia) Hp) with (fuel := fuel) (i := i)
    as (k' & H & Hm' & Hfr); try (done || lia); [rewrite Hb; unfold apart; lia|].
  rewrite Hb in Hfr. exists k'. split; [done|].
  pose proof (make_new_file_steps fuel same_heap same_heap_mem (disk_read_same fuel) (disk_write_same fuel) _ _ _ _ H)
    as Hsh. pose proof Hsh as (_ & Hn' & Hp' & Hb').
  split; [split; [done| |by rewrite Hb'|]|].
  - exists len. destruct Hr as [Hinv Hlen Hbl Hpg Hsp]. split; rewrite ?Hn', ?Hp'; try done.
    apply (heap_inv_same k k' _ _ Hinv Hsh). constructor; [|constructor]. intros x Hx. apply Hfr. lia.
  - apply (literals_low k); [done|]. intros x Hx _. apply Hfr. lia.
  - eapply chats_log; [done|]. by apply (make_new_file_chats fuel ltac:(lia) _ _ _ _ H).
Qed.
End demo.

(** ** The images *)

Section images.
Context (fuel : nat).

(** Entries are 32 bytes; a change of one word before the name changes no name. *)
Lemma matches_low img img' nm id j : layout_ok img -> same_header img img' -> (length nm < 24)%nat ->
  0 <= id < count_file_meta_entries img -> 0 <= j < count_file_meta_entries img ->
  (forall x, x < get_data img -> x < file_entry img id + 4 \/ file_entry img id + 8 <= x -> ld8 img' x = ld8 img x) ->
  matches img' nm j = matches img nm j /\
  file_metadata_entry_is_free img' (file_entry img' j) = file_metadata_entry_is_free img (file_entry img j).
Proof.
  intros Hok Hh Hn Hid Hj Hlow. pose proof (section_order img Hok) as (?&?&?&?&?).
  destruct (file_entry_place img Hok j Hj) as [Hp1 Hp2].
  assert (forall x, file_entry img j + 8 <= x < file_entry img j + 32 -> ld8 img' x = ld8 img x) as Hx.
  { intros x Hx. apply Hlow; [lia|]. unfold file_entry in *. lia. }
  unfold matches, file_metadata_entry_is_free, name_of. rewrite (sh_file_entry _ _ Hh). split.
  - apply name_eq_frame. intros x Hx'. apply Hx. lia.
  - by rewrite Hx by lia.
Qed.

Lemma small_file img nm id l : layout_ok img -> fs_sector_size img = 512 -> stored fuel img nm id l ->
  let e := file_entry img (id - 1) in
  0 <= first_data_sector img e < 256 /\ 0 <= file_size img e <= 262144.
Proof.
  intros Hok H512 [[Hfc _] [_ Hfd Hc Hfs] Hh _ _ _]. cbv zeta.
  destruct (sections_512 img Hok H512) as (_&_&_&_&_&Hcnt&_). pose proof (chain_length img l Hok Hc).
  pose proof (ld32_range img (file_entry img (id - 1) + 4)) as R. fold (file_size img (file_entry img (id - 1))) in R.
  rewrite H512 in Hfs. split; [|lia]. rewrite <- Hfd. destruct l as [|i l]; [done|].
  apply Forall_cons in Hh as [Hi _]. destruct Hc as [Hi' _]. cbn. lia.
Qed.

(** The image after the write. *)
Record written img nm id l bytes img' : Prop := {
  wr_layout : layout_ok img' /\ fs_sector_size img' = 512;
  wr_header : same_header img img';
  wr_stored : stored fuel img' nm id l;
  wr_bytes : chain_bytes img' l = splice 0 bytes (chain_bytes img l);
  wr_size : file_size img' (file_entry img (id - 1)) =
    Z.max (file_size img (file_entry img (id - 1))) (Z.of_nat (length bytes));
  wr_first : first_data_sector img' (file_entry img (id - 1)) = first_data_sector img (file_entry img (id - 1));
  wr_names : forall nm' j, (length nm' < 24)%nat -> 0 <= j < count_file_meta_entries img ->
    matches img' nm' j = matches img nm' j /\
    file_metadata_entry_is_free img' (file_entry img' j) = file_metadata_entry_is_free img (file_entry img j);
}.

Lemma write_facts img nm id l bytes c img' : layout_ok img -> fs_sector_size img = 512 -> stored fuel img nm id l ->
  0 < file_size img (file_entry img (id - 1)) -> Forall is_u8 bytes -> (0 < length bytes < 512)%nat ->
  tagfs_write fuel img (c :: nm) bytes (Z.of_nat (length bytes)) 0 = Ok (Z.of_nat (length bytes), img') ->
  written img nm id l bytes img'.
Proof.
  intros Hok H512 Hso Hsz Hb Hlen Hw. pose proof Hso as [Hvo Hfa Hh Hfl [Hnok Hn] Hu].
  destruct (tagfs_write_effect img (c :: nm) id l fuel bytes 0) as (img1 & Hw' & Hok' & Hhd & Hfa' & Hcb & Hsz' & _);
    try (done || lia); [rewrite H512; change (0 mod 512) with 0; lia|].
  pose proof (tagfs_write_low img (c :: nm) id l fuel bytes 0 (Z.of_nat (length bytes)) img' Hok Hfa ltac:(lia) ltac:(lia)) as Hlow.
  rewrite H512 in Hlow. specialize (Hlow ltac:(change (0 mod 512) with 0; lia) Hfl Hn Hw). cbv zeta in Hlow.
  rewrite Hw in Hw'. injection Hw' as <-. destruct (fa_id _ _ _ _ Hfa) as [_ Hidr].
  rewrite (sh_file_entry _ _ Hhd) in Hsz'. pose proof (section_order img Hok) as (?&?&?&?&?).
  destruct (file_entry_place img Hok (id - 1)) as [Hp1 Hp2]; [lia|].
  assert (forall nm' j, (length nm' < 24)%nat -> 0 <= j < count_file_meta_entries img ->
    matches img' nm' j = matches img nm' j /\
    file_metadata_entry_is_free img' (file_entry img' j) = file_metadata_entry_is_free img (file_entry img j)) as Hnames.
  { intros nm' j Hn' Hj. apply (matches_low img img' nm' (id - 1) j); (done || lia). }
  split; [split; [done|by hdr_rewrite Hhd]|done| |done|exact Hsz'| |done].
  - split; [|done|done|done|done|].
    + destruct Hvo as [Hv1 Hv2]. split; [by hdr_rewrite Hhd|]. intros j Hj.
      assert (0 <= j < fat_count img) as Hjr.
      { destruct (sections_512 img Hok H512) as (_&_&_&_&_&Hcnt&_). lia. }
      rewrite (sh_fat_entry _ _ Hhd); [by apply Hv2|]. destruct (fat_addr_ok img Hok j Hjr).
      intros x Hx. apply Hlow; lia.
    + intros i j Hi Hj. rewrite (sh_count _ _ Hhd) in Hi, Hj.
      rewrite (proj1 (Hnames nm i Hn Hi)), (proj1 (Hnames nm j Hn Hj)). by apply Hu.
  - unfold first_data_sector. apply ld32_frame. intros x Hx. apply Hlow; lia.
Qed.

(** The image after a file is made of which there was none of the name. *)
Lemma new_entry_found img nm j : layout_ok img -> fs_sector_size img = 512 -> name_ok nm -> (length nm < 24)%nat ->
  0 <= j < count_file_meta_entries img ->
  (forall j', 0 <= j' < count_file_meta_entries img -> matches img nm j' = false) ->
  let img' := new_entry img (file_entry img j) nm in
  unique_name img' nm /\ get_file_id_from_name img' nm = j + 1 /\ file_entry img' j = file_entry img j.
Proof.
  intros Hok H512 Hn Hl Hj Habs. cbv zeta. pose proof (new_entry_frame img (file_entry img j) nm Hl) as Hin.
  pose proof (new_entry_fields img (file_entry img j) nm Hn) as (_ & _ & Hnew).
  set (img' := new_entry img (file_entry img j) nm) in *.
  destruct (file_entry_place img Hok j Hj) as [Hp1 Hp2]. destruct (lay_sector Hok) as [Hss _].
  assert (same_header img img') as Hh.
  { apply (only_in_header _ _ _ _ Hin). unfold file_entry, get_file_metadata in *. lia. }
  assert (forall j', 0 <= j' < count_file_meta_entries img -> matches img' nm j' = true <-> j' = j) as Hm.
  { intros j' Hj'. unfold matches. rewrite (sh_file_entry _ _ Hh). split; [|intros ->; exact Hnew].
    intros Ht. destruct (Z.eq_dec j' j) as [|Hne]; [done|]. exfalso.
    assert (name_eq img' nm (name_of (file_entry img j')) = name_eq img nm (name_of (file_entry img j'))) as E.
    { apply name_eq_frame. intros x Hx. apply Hin. unfold name_of, file_entry in *. lia. }
    rewrite E in Ht. specialize (Habs j' Hj'). unfold matches in Habs. congruence. }
  split; [|split; [|by rewrite (sh_file_entry _ _ Hh)]].
  - intros i1 i2 H1 H2 Hm1 Hm2. rewrite (sh_count _ _ Hh) in H1, H2.
    apply (Hm i1 H1) in Hm1. apply (Hm i2 H2) in Hm2. congruence.
  - unfold get_file_id_from_name. rewrite (sh_count _ _ Hh).
    assert (find_up (Z.to_nat (count_file_meta_entries img)) 0
      (fun i => name_eq img' nm (name_of (file_entry img' i))) = Some j) as E.
    { apply find_up_Some. split_and!; [lia|lia|by apply (Hm j Hj)|]. intros i Hi.
      apply not_true_is_false. intros Ht. apply (Hm i ltac:(lia)) in Ht. lia. }
    rewrite E. apply w16_id. destruct (sections_512 img Hok H512) as (?&_&_&_&Hcnt&_&_&_&Hfm).
    unfold is_u16. lia.
Qed.
End images.

(** ** The demonstration *)

Section run.
Context {P M : Type} `{FS : FrameSource P} `{FSO : !FrameSourceOk P} `{HM : Machine M} `{SK : Sink M}
  `{SKO : !SinkOk M} `{AD : !AtaDrive M} `{PD : !PromptDrive M} `{QP : !QuietPorts M}.
Context (lt : literals) (fm sb data s : Z) (bl : list (Z * Z)) (Hpl : places lt fm sb data s bl).
Context (fuel : nat) (Hf : (ad_latency + 2 < fuel)%nat) (Hf60 : (600 < fuel)%nat).
Abbreviation steady := (steady (P := P) (M := M) lt sb s bl).

(** From the image [img] and [pg] pages to [img'] and [pg'], printing [tr]. *)
Definition steps {A : Type} img pg (f : kernel P M -> res A) (out : A -> kernel P M) tr img' pg' : Prop :=
  forall k, steady img k pg -> exists a, f k = Ok a /\ steady img' (out a) pg' /\ log k tr (out a).

Lemma steps_seq {A B : Type} img pg (f : kernel P M -> res (A * kernel P M)) tr img1 pg1
    (g : kernel P M -> res B) out tr' img2 pg2 :
  steps img pg f snd tr img1 pg1 -> steps img1 pg1 g out tr' img2 pg2 ->
  steps img pg (fun k => '(_, k) ← f k; g k) out (tr ++ tr') img2 pg2.
Proof.
  intros H1 H2 k Hk. destruct (H1 k Hk) as ([a k1] & -> & Hk1 & L1). rewrite bind_Ok_r.
  destruct (H2 k1 Hk1) as (b & -> & Hb & L2). exists b. split_and!; [done..|by eapply log_app].
Qed.
Lemma steps_then {B : Type} img pg (f : kernel P M -> res (kernel P M)) tr img1 pg1
    (g : kernel P M -> res B) out tr' img2 pg2 :
  steps img pg f id tr img1 pg1 -> steps img1 pg1 g out tr' img2 pg2 ->
  steps img pg (fun k => k ← f k; g k) out (tr ++ tr') img2 pg2.
Proof.
  intros H1 H2 k Hk. destruct (H1 k Hk) as (k1 & -> & Hk1 & L1). rewrite bind_Ok_r.
  destruct (H2 k1 Hk1) as (b & -> & Hb & L2). exists b. split_and!; [done..|by eapply log_app].
Qed.

Lemma line_steps img pg cs : bool_decide (Forall (fun c => 0 < c < 256 /\ c <> 37) cs) = true ->
  (length cs < 100)%nat -> steps img pg (print_lit fuel cs []) id [Says (map Lit cs)] img pg.
Proof.
  intros Hc Hl k Hk. edestruct (say_line lt sb s bl fuel) as (k' & H & [? _ _ ?]);
    [exact Hk|by apply (bool_decide_unpack _), Is_true_true|lia|by exists k'].
Qed.

Abbreviation hello_at := (String_ (lit_hello_txt lt) 9).
Abbreviation goodbye_at := (String_ (lit_goodbye_txt lt) 11).

Lemma contents_steps img pg fid l : stored fuel img hello fid l -> 0 ∈ take 512 (chain_bytes img l) ->
  steps img (S pg) (print_contents fuel lt hello_at data) id
    [Transfers; Says [IStr data (first_text img l); Lit 10]] img pg.
Proof.
  intros Hso H0 k Hk. edestruct print_contents_ok as (k' & H & Hst & _ & Hl); [exact Hpl|exact Hf|exact Hf60|exact Hk
    |by eapply hello_path|exact Hso|exact H0|by exists k'].
Qed.

Lemma print_attributes_steps img pg path nm : (forall k, steady img k pg -> path_at lt path nm (k_mem k)) ->
  (length nm < 24)%nat -> name_ok nm -> unique_name img nm -> get_file_id_from_name img nm <> 0 ->
  let e := file_entry img (get_file_id_from_name img nm - 1) in
  first_data_sector img e < 2147483648 -> file_size img e < 2147483648 ->
  steps img pg (print_attributes fuel lt path fm) id
    (attribute_lines fm (first_data_sector img e) (file_size img e) nm) img pg.
Proof.
  intros Hp Hn Hok Hu Hid e Hfd Hsz k Hk.
  edestruct print_attributes_ok as (k' & H & Hst & _ & Hl); [exact Hpl|exact Hf|exact Hf60|exact Hk
    |by apply Hp|exact Hn|exact Hok|exact Hu|exact Hid|exact Hfd|exact Hsz|by exists k'].
Qed.

Lemma stored_attributes img pg fid l : layout_ok img -> fs_sector_size img = 512 -> stored fuel img hello fid l ->
  let e := file_entry img (fid - 1) in
  steps img pg (print_attributes fuel lt hello_at fm) id
    (attribute_lines fm (first_data_sector img e) (file_size img e) hello) img pg.
Proof.
  intros Hlay H512 Hso. cbv zeta. destruct (small_file fuel img hello fid l Hlay H512 Hso) as [H1 H2].
  destruct Hso as [_ [[Hid Hr] _ _ _] _ _ [Hn1 Hn2] Hu]. rewrite <- Hid.
  apply print_attributes_steps; try done; rewrite ?Hid; try lia. intros k Hk. by eapply hello_path.
Qed.

(** *** The whole of it *)

(** The lines of the demonstration for a file whose entry has [first] and
    [size], which is then [size'], and whose first sector is the text [before],
    then [after]. *)
Definition demonstration_entries (first size size' : Z) (before after : list Z) : list entry :=
  let line t := [Says (map Lit (text t ++ [10]))] in
  let contents t := [Transfers; Says [IStr data t; Lit 10]] in
  let blank := [Says (map Lit [10])] in
  line "Attributes of hello.txt:" ++ attribute_lines fm first size hello ++
  line "Contents of hello.txt:" ++ contents before ++
  line "Writing to hello.txt..." ++ [Transfers] ++
  line "After write:" ++ contents after ++ blank ++
  line "Attributes after writing:" ++ attribute_lines fm first size' hello ++ blank ++
  line "Making a new file now..." ++ [Transfers] ++ attribute_lines fm 65535 0 goodbye.

Lemma write_hello_steps img pg fid l img' : stored fuel img hello fid l ->
  0 < file_size img (file_entry img (fid - 1)) ->
  tagfs_write fuel img (47 :: hello) hihi 11 0 = Ok (11, img') ->
  steps img (S pg) (tfs_write fuel hello_at (lit_hihihihihi lt) 11 0) snd [Transfers] img' pg.
Proof.
  intros Hso Hsz Hw k Hk. pose proof (pl_literals _ _ _ _ _ _ Hpl) as Hl.
  repeat (apply Forall_cons in Hl as [? Hl]).
  destruct (write_step lt fm sb data s bl Hpl fuel Hf Hf60 img k pg hello_at hello fid l (lit_hihihihihi lt) hihi 47 Hk)
    as (k' & img1 & E1 & E2 & E3 & E4); [by eapply hello_path|done|done|lia|cbn; lia|apply (sd_literals _ _ _ _ _ _ _ Hk)|cbn; lia|].
  change (Z.of_nat (length hihi)) with 11 in E1, E2. rewrite Hw in E2. injection E2 as <-.
  by exists (true, k').
Qed.

Lemma make_goodbye_steps img pg i : (Z.to_nat (fs_file_meta_sector_count img) < fuel)%nat ->
  find_up (Z.to_nat (count_file_meta_entries img)) 0
    (fun i => file_metadata_entry_is_free img (file_entry img i)) = Some i ->
  steps img pg (tfs_make_new_file fuel goodbye_at) snd [Transfers]
    (new_entry img (file_entry img (16 * (i / 16))) goodbye) pg.
Proof.
  intros Hfm Hi k Hk.
  destruct (make_step lt fm sb data s bl Hpl fuel Hf Hf60 img k pg goodbye_at goodbye i Hk)
    as (k' & E1 & E2 & E3); [by eapply goodbye_path|cbn; lia|done|done|by exists (true, k')].
Qed.

Lemma goodbye_attributes img pg j : layout_ok img -> fs_sector_size img = 512 ->
  0 <= j < count_file_meta_entries img ->
  (forall j', 0 <= j' < count_file_meta_entries img -> matches img goodbye j' = false) ->
  let img' := new_entry img (file_entry img j) goodbye in
  steps img' pg (print_attributes fuel lt goodbye_at fm) id (attribute_lines fm 65535 0 goodbye) img' pg.
Proof.
  intros Hok H512 Hj Habs img'.
  assert (name_ok goodbye) as Hn by (repeat constructor; lia).
  destruct (new_entry_found img goodbye j Hok H512 Hn ltac:(cbn; lia) Hj Habs) as (Hu & Hid & He). fold img' in Hu, Hid, He.
  destruct (new_entry_fields img (file_entry img j) goodbye Hn) as (E1 & E2 & _). fold img' in E1, E2.
  pose proof (print_attributes_steps img' pg goodbye_at goodbye) as H. cbv zeta in H.
  rewrite Hid, Z.add_simpl_r, He, E1, E2 in H.
  apply H; try done; try lia; try (cbn; lia). intros k Hk. by eapply goodbye_path.
Qed.

(** What the demonstration needs of the disk: [hello.txt] is a file of some
    size with the sectors [l], whose first sector has a NUL behind the first
    eleven bytes; no file is [goodbye.txt], and the first free entry is [i]. *)
Record demonstrable (img : mem) (fid : Z) (l : list Z) (i : Z) : Prop := {
  dm_hello : stored fuel img hello fid l;
  dm_size : 0 < file_size img (file_entry img (fid - 1));
  dm_nul : 0 ∈ drop 11 (take 512 (chain_bytes img l));
  dm_goodbye : forall j, 0 <= j < count_file_meta_entries img -> matches img goodbye j = false;
  dm_free : find_up (Z.to_nat (count_file_meta_entries img)) 0
    (fun i => file_metadata_entry_is_free img (file_entry img i)) = Some i;
  dm_table : (Z.to_nat (fs_file_meta_sector_count img) < fuel)%nat;
}.

Lemma hihi_ok : Forall is_u8 hihi.
Proof. apply (bool_decide_unpack _). by vm_compute. Qed.

Lemma after_text img l img' : 0 ∈ drop 11 (take 512 (chain_bytes img l)) ->
  chain_bytes img' l = splice 0 hihi (chain_bytes img l) ->
  0 ∈ take 512 (chain_bytes img' l) /\
  first_text img' l = hihi ++ c_text (drop 11 (take 512 (chain_bytes img l))).
Proof.
  intros E0 Ec.
  assert (take 512 (chain_bytes img' l) = hihi ++ drop 11 (take 512 (chain_bytes img l))) as Et.
  { rewrite Ec. unfold splice. change (Z.to_nat 0) with 0%nat. rewrite take_0, app_nil_l.
    change (0 + length hihi)%nat with 11%nat. rewrite take_app, (take_ge hihi) by (cbn; lia).
    by rewrite skipn_firstn_comm. }
  unfold first_text. rewrite Et. split; [apply elem_of_app; by right|done].
Qed.

Lemma use_files_steps img fid l i : layout_ok img -> fs_sector_size img = 512 -> demonstrable img fid l i ->
  let e := file_entry img (fid - 1) in
  exists img1, tagfs_write fuel img (47 :: hello) hihi 11 0 = Ok (11, img1) /\
    written fuel img hello fid l hihi img1 /\
    steps img 3 (use_files fuel lt fm data) id
      (demonstration_entries (first_data_sector img e) (file_size img e) (Z.max (file_size img e) 11)
        (first_text img l) (hihi ++ c_text (drop 11 (take 512 (chain_bytes img l)))))
      (new_entry img1 (file_entry img1 (16 * (i / 16))) goodbye) 0.
Proof.
  intros Hok H512 [Hso Hsz H0 Habs Hfree Hfm] e. pose proof Hso as [_ Hfa _ Hfl [Hnok Hn] _].
  pose proof (fa_id _ _ _ _ Hfa) as [_ Hidr].
  destruct (tagfs_write_effect img (47 :: hello) fid l fuel hihi 0) as (img1 & Hw & _);
    [done|done|lia|cbn; lia|exact hihi_ok|rewrite H512; by vm_compute|done|done|].
  change (Z.of_nat (length hihi)) with 11 in Hw. exists img1. split; [exact Hw|].
  assert (written fuel img hello fid l hihi img1) as Hwr
    by (apply (write_facts fuel img hello fid l hihi 47); (done || exact hihi_ok || (cbn; lia))).
  split; [exact Hwr|]. destruct Hwr as [[Hok1 H512'] Hh Hso1 Hcb Hsz1 Hfd Hnm].
  destruct (after_text img l img1 H0 Hcb) as [Hnul Htext]. rewrite <- Htext.
  apply find_up_Some in Hfree as (Hir & Hfr & Hlow). rewrite Z2Nat.id in Hir by lia.
  assert (count_file_meta_entries img1 = count_file_meta_entries img) as Ec by apply (sh_count _ _ Hh).
  assert (0 <= 16 * (i / 16) < count_file_meta_entries img) as Hj by zmod.
  assert (0 ∈ take 512 (chain_bytes img l)) as Hnul0.
  { rewrite <- (take_drop 11 (take 512 (chain_bytes img l))). apply elem_of_app. by right. }
  change (Z.of_nat (length hihi)) with 11 in Hsz1. subst e. rewrite <- Hsz1.
  pose proof (stored_attributes img1 0 fid l Hok1 H512' Hso1) as Ha1. cbv zeta in Ha1.
  rewrite (sh_file_entry _ _ Hh), Hfd in Ha1.
  unfold use_files, demonstration_entries. cbv zeta.
  eapply steps_then; [apply line_steps; [by vm_compute|cbn; lia]|].
  eapply steps_then; [by eapply stored_attributes|].
  eapply steps_then; [apply line_steps; [by vm_compute|cbn; lia]|].
  eapply steps_then; [by eapply contents_steps|].
  eapply steps_then; [apply line_steps; [by vm_compute|cbn; lia]|].
  eapply steps_seq; [by eapply write_hello_steps|].
  eapply steps_then; [apply line_steps; [by vm_compute|cbn; lia]|].
  eapply steps_then; [by eapply contents_steps|].
  eapply steps_then; [apply line_steps; [by vm_compute|cbn; lia]|].
  eapply steps_then; [apply line_steps; [by vm_compute|cbn; lia]|].
  eapply steps_then; [exact Ha1|].
  eapply steps_then; [apply line_steps; [by vm_compute|cbn; lia]|].
  eapply steps_then; [apply line_steps; [by vm_compute|cbn; lia]|].
  assert (forall j, 0 <= j < count_file_meta_entries img -> file_metadata_entry_is_free img1 (file_entry img1 j) =
    file_metadata_entry_is_free img (file_entry img j)) as Hfree1 by (intros j Hj'; by apply (Hnm hello)).
  eapply steps_seq; [apply (make_goodbye_steps img1 0 i)|].
  - by hdr_rewrite Hh.
  - rewrite Ec. apply find_up_Some. rewrite Z2Nat.id by lia. split_and!; [lia|lia|by rewrite Hfree1 by lia|].
    intros j Hjr. rewrite Hfree1 by lia. apply Hlow. lia.
  - apply goodbye_attributes; [done|done|by rewrite Ec|]. intros j Hjr. rewrite Ec in Hjr.
    rewrite (proj1 (Hnm goodbye j ltac:(cbn; lia) Hjr)). by apply Habs.
Qed.
End run.

Section demonstrated.
Context {P M : Type} `{FS : FrameSource P} `{FSO : !FrameSourceOk P} `{HM : Machine M} `{SK : Sink M}
  `{SKO : !SinkOk M} `{AD : !AtaDrive M} `{PD : !PromptDrive M} `{QP : !QuietPorts M}.
Implicit Types (k : kernel P M).

(** Before the demonstration: a volume is mounted, the heap is one free segment
    that begins at [a], with blocks and the sector buffer below it and pages
    for three calls; the strings are in memory below it. *)
Record demo_ready (lt : literals) (fm sb a len : Z) (bl : list (Z * Z)) (img : mem) k : Prop := {
  dr_mounted : mounted img k;
  dr_heap : heap_inv (k_heap k) [(a, len)] bl;
  dr_room : 2056 <= len;
  dr_below : Forall (fun '(x, n) => x + n <= a) bl;
  dr_pages : pages 3 (next_page_virt_addr (k_heap k)) (h_frames (k_heap k));
  dr_space : next_page_virt_addr (k_heap k) + 12288 < 4294967296;
  dr_buffer : tfs_sector_buffer k = sb /\ heap_start <= sb /\ sb + 512 <= a;
  dr_file_meta : 4 <= fm /\ fm + 32 <= heap_start;
  dr_strings : Forall (fun '(x, n) => 4 <= x /\ x + n <= heap_start /\ apart x n fm 32) (literal_extents lt);
  dr_literals : literals_at lt (k_mem k);
}.

Lemma demo_allocate lt fm sb a len bl img k fuel : demo_ready lt fm sb a len bl img k -> (1 < fuel)%nat ->
  let bl' := (a, 516) :: bl in
  places lt fm sb (a + 4) (a + 516) bl' /\
  exists k', allocate fuel 512 k = Ok (a + 4, k') /\ sink_out (k_hw k') = sink_out (k_hw k) /\
    steady lt sb (a + 516) bl' img k' 3.
Proof.
  intros [Hm Hinv Hlen Hbl Hpg Hsp (Hb & Hb1 & Hb2) Hfm Hstr Hlit] Hf bl'.
  destruct (memory_allocate_first_fit (k_heap k) [] a len [] bl 512 fuel Hinv)
    as (h' & Hal & _ & Hnx & Hinv' & Hfr & Hkeep); [lia|constructor|change (round4 (512 + 4)) with 516; lia|cbn; lia|].
  change (round4 (512 + 4)) with 516 in *. unfold leftover in Hinv'. cbn [fst snd app] in Hinv'.
  rewrite (proj2 (Z.leb_le (516 + 8) len)) in Hinv' by lia. cbn [app] in Hinv'.
  assert (places lt fm sb (a + 4) (a + 516) bl') as Hpl.
  { split; [done|done|lia|]. split; [lia|]. replace (a + 4 - 4) with a by lia. left. }
  split; [exact Hpl|]. exists (with_heap k h'). unfold allocate. rewrite Hal, bind_Ok_r. split; [done|]. split; [done|].
  split; [by apply mounted_heap| |done|].
  - exists (len - 516). split; cbn [k_heap with_heap]; rewrite ?Hnx, ?Hfr; [done|lia| |done|lia].
    constructor; [lia|]. eapply Forall_impl; [exact Hbl|]. intros [x n]. lia.
  - eapply literals_low; [exact Hpl|exact Hlit|].
    intros x Hx _. apply (Hkeep x 1); [|lia]. constructor; [unfold extent; lia|constructor].
Qed.

Lemma demonstration_ok lt fm sb a len bl img k fid l i fuel :
  demo_ready lt fm sb a len bl img k -> demonstrable fuel img fid l i ->
  (ad_latency + 2 < fuel)%nat -> (600 < fuel)%nat ->
  let e := file_entry img (fid - 1) in
  exists k' img1, kernel_demonstration fuel lt fm k = Ok k' /\
    tagfs_write fuel img (47 :: hello) hihi 11 0 = Ok (11, img1) /\
    mounted (new_entry img1 (file_entry img1 (16 * (i / 16))) goodbye) k' /\
    log k (demonstration_entries fm (a + 4) (first_data_sector img e)
        (file_size img e) (Z.max (file_size img e) 11) (first_text img l)
        (hihi ++ c_text (drop 11 (take 512 (chain_bytes img l))))) k'.
Proof.
  intros Hr Hd Hf Hf60 e. destruct (demo_allocate _ _ _ _ _ _ _ _ fuel Hr ltac:(lia)) as [Hpl (k1 & Hal & Ho & Hst)].
  destruct (dr_mounted _ _ _ _ _ _ _ _ Hr) as [_ Hok H512 _ _ _].
  destruct (use_files_steps lt fm sb (a + 4) (a + 516) _ Hpl fuel Hf Hf60 img fid l i Hok H512 Hd) as (img1 & Hw & _ & Hs).
  destruct (Hs k1 Hst) as (k' & Hu & Hst' & Hl). exists k', img1. unfold kernel_demonstration.
  rewrite Hal, bind_Ok_r. split; [exact Hu|]. split; [exact Hw|]. split; [apply (sd_mounted _ _ _ _ _ _ _ Hst')|].
  exact (log_app _ [] _ _ _ (log_nil _ _ Ho) Hl).
Qed.
(** With a volume mounted that has a [hello.txt] and no [goodbye.txt], the
    demonstration of [kernel_main] returns. The console gets, with the lines of
    the transfers between them, the attributes of [hello.txt] as its entry has
    them, the text of its first sector up to the NUL, after the write the same
    text with the eleven bytes written over its beginning, the attributes again
    with the size grown to eleven if it was less, and the attributes of the new
    file: no sector and no bytes. The disk is then that of the FUSE driver's
    [tagfs_write] of the same bytes, but for the new file's entry, which is the
    first one of the sector that has the first free one. *)
Theorem kernel_demonstration_shows lt fm sb a len bl img k fid l i fuel :
  demo_ready lt fm sb a len bl img k -> demonstrable fuel img fid l i ->
  (ad_latency + 2 < fuel)%nat -> (600 < fuel)%nat ->
  let e := file_entry img (fid - 1) in
  exists k' img1, kernel_demonstration fuel lt fm k = Ok k' /\
    tagfs_write fuel img (47 :: hello) hihi 11 0 = Ok (11, img1) /\
    mounted (new_entry img1 (file_entry img1 (16 * (i / 16))) goodbye) k' /\
    log k (demonstration_entries fm (a + 4) (first_data_sector img e)
        (file_size img e) (Z.max (file_size img e) 11) (first_text img l)
        (hihi ++ c_text (drop 11 (take 512 (chain_bytes img l))))) k'.
Proof. apply demonstration_ok. Qed.
End demonstrated.

(** ** A demonstration

    [hello.txt] has 600 bytes, "Hello, world!" and NULs; the strings are below
    the heap, which has one page with the sector buffer. *)

#[local] Existing Instance sample_heap.
#[local] Existing Instance sample_heap_ok.

#[local] Program Instance pio_quiet : QuietPorts pio := { qp_port _ := True }.
Next Obligation. done. Qed.
Next Obligation. done. Qed.
Next Obligation. done. Qed.
Next Obligation. intros w p s _ _. cbn. by destruct (pio_in w p (p_state s)). Qed.

Definition demo_image : mem :=
  let img := st32 (st32 (st32 (st32 ∅ 8 516) 12 512) 16 1) 28 2 in
  let img := st_bytes (st32 (st32 img 512 2) 516 600) 520 hello in
  let img := st16 (st16 (st16 img 1024 0xffff) 1028 3) 1030 0xffff in
  st_bytes img 3072 (text "Hello, world!").
Definition demo_literals : literals := Literals 100 120 140 160 180.
Definition demo_memory : mem :=
  let m := st_bytes (st_bytes ∅ 100 (text "name: %s" ++ [10; 0])) 120 (text "%s" ++ [10; 0]) in
  st_bytes (st_bytes (st_bytes m 140 hello) 160 hihi) 180 goodbye.
Definition demo_heap : heap pfa :=
  heap_after (memory_allocate sample_fuel 512 (boot_heap demo_memory pfa_empty)).
Definition demo_kernel : kernel pfa pio :=
  Kernel demo_heap legacy (Pio (DState ∅ Idle (image_disk demo_image 516)) []) (metadata_at demo_image 0)
    (heap_start + 4).

Lemma demo_heap_inv : heap_inv demo_heap [(heap_start + 516, 3580)] [(heap_start, 516)].
Proof.
  destruct (sample_allocate_inv (boot_heap demo_memory pfa_empty) [] [] 512 (heap_start + 4))
    as (s & fl & Hs & _ & Hinv & _); [apply boot_heap_inv, pfa_ok_boot|done|cbn; lia|cbn; lia|by right
    |vm_compute; reflexivity|done|].
  assert (s = heap_start) as -> by lia. fold demo_heap in Hinv.
  assert (fl = [(heap_start + 516, 3580)]) as ->; [|exact Hinv].
  eapply lseg_unique; [exact (inv_list Hinv)|]. vm_compute. split_and!; congruence.
Qed.

Lemma demo_layout : layout_ok demo_image.
Proof. split; (split || idtac); apply (bool_decide_unpack _); vm_compute; exact I. Qed.

Lemma demo_is_ready : demo_ready demo_literals 200 (heap_start + 4) (heap_start + 516) 3580 [(heap_start, 516)]
  demo_image demo_kernel.
Proof.
  assert (fs_sector_count demo_image = 516) as E by (vm_compute; reflexivity).
  split; [|exact demo_heap_inv|lia|repeat constructor; lia| |vm_compute; reflexivity|by vm_compute..| |].
  - constructor; [|exact demo_layout|vm_compute; reflexivity| | |reflexivity].
    + constructor; [reflexivity|reflexivity|apply image_disk_ok|by apply idle_at_rest].
    + rewrite E. apply image_disk_holds.
    + rewrite E. cbn. lia.
  - do 3 (eexists; split; [vm_compute; reflexivity|]). exact I.
  - unfold literal_extents, apart. rewrite !Forall_cons, Forall_nil. assert (heap_start = 3229614080) as -> by done. cbn. lia.
  - unfold literals_at, cstring. split_and!; first [vm_compute; reflexivity|apply (bool_decide_unpack _); vm_compute; exact I].
Qed.

Lemma demo_names j : 0 <= j < count_file_meta_entries demo_image ->
  matches demo_image hello j = (j =? 0) /\ matches demo_image goodbye j = false.
Proof.
  intros Hj. assert (forallb (fun j => eqb (matches demo_image hello j) (j =? 0) &&
    negb (matches demo_image goodbye j)) (seqZ 0 16) = true) as H by (vm_compute; reflexivity).
  rewrite forallb_forall in H. destruct (andb_prop _ _ (H j ltac:(
    apply list_elem_of_In, elem_of_seqZ;
    assert (count_file_meta_entries demo_image = 16) as E by (vm_compute; reflexivity); lia))) as [H1 H2].
  split; [by apply eqb_prop|by apply negb_true_iff].
Qed.

Lemma demo_demonstrable : demonstrable 700 demo_image 1 [2; 3] 1.
Proof.
  split; [|by vm_compute| |intros j Hj; by apply demo_names|vm_compute; reflexivity|vm_compute; lia].
  - split; [| |repeat constructor|cbn; lia| |].
    + split; [vm_compute; reflexivity|]. intros i Hi.
      assert (i = 256 \/ i = 257 \/ i = 258 \/ i = 259) as [-> |[-> |[-> | ->]]] by lia; vm_compute; reflexivity.
    + split; cbn [chain]; repeat split; apply (bool_decide_unpack _); vm_compute; exact I.
    + split; [repeat constructor; lia|cbn; lia].
    + intros i j Hi Hj. rewrite (proj1 (demo_names i Hi)), (proj1 (demo_names j Hj)), !Z.eqb_eq. congruence.
  - apply (bool_decide_unpack _). vm_compute. exact I.
Qed.

Lemma demo_new_entry (img1 : mem) (Q : mem -> Prop) : tagfs_write 700 demo_image (47 :: hello) hihi 11 0 = Ok (11, img1) ->
  Q (new_entry img1 (file_entry img1 (16 * (1 / 16))) goodbye) -> Q (new_entry img1 512 goodbye).
Proof.
  intros Hw. assert (match tagfs_write 700 demo_image (47 :: hello) hihi 11 0 with
    Ok (_, img) => file_entry img (16 * (1 / 16)) = 512 | _ => True end) as Hx by (vm_compute; reflexivity).
  rewrite Hw in Hx. by rewrite Hx.
Qed.

(** The file grows no longer, and its entry, the only one of the sector that
    is not free, becomes that of [goodbye.txt]. *)
Lemma kernel_demonstration_shows_witness : exists k' img1,
  kernel_demonstration 700 demo_literals 200 demo_kernel = Ok k' /\
  mounted (new_entry img1 512 goodbye) k' /\
  log demo_kernel (demonstration_entries 200 (heap_start + 520) 2 600 600 (text "Hello, world!")
    (hihi ++ text "d!")) k'.
Proof.
  destruct (kernel_demonstration_shows demo_literals 200 (heap_start + 4) (heap_start + 516) 3580
    [(heap_start, 516)] demo_image demo_kernel 1 [2; 3] 1 700)
    as (k' & img1 & H & Hw & Hm & Hl); [exact demo_is_ready|exact demo_demonstrable|cbn; lia|lia|].
  exists k', img1. split; [exact H|]. split.
  - exact (demo_new_entry img1 (fun img => mounted img k') Hw Hm).
  - assert (heap_start + 516 + 4 = heap_start + 520) as E by done. rewrite E in Hl.
    refine (eq_ind _ (fun tr => log demo_kernel tr k') Hl _ _). vm_compute. reflexivity.
Defined.
