(* ===== verification/KernelStart.v ===== *)
(** * The start of the kernel ([kernel_init] and [kernel_main] of
      src/src/kernel/kernel.c)

    The whole kernel's state: the console with the machine behind the ports,
    the interrupt tables, the frames and the heap, the driver's arrays and the
    globals of the file system. [kernel_init] is the composition of what the
    other files model; started on a machine with one formatted drive it mounts
    the file system ([kernel_init_mounts]). *)
From S2P Require Import Prelude Memory PageFrames Allocator Terminal Format Ports Interrupts.
From S2P Require Import Ata Ide Console TagLayout KernelFs KernelLookup KernelRead KernelDemo.

#[local] Open Scope Z_scope.

(** ** [kernel_init] *)

Section start.
Context {W M : Type} `{HM : Machine M} `{PF : PollFuel}.
Context (tables_addr kernel_end : Z) (stub_addr : stub -> Z) (idt_addr clz_zero : Z).
#[local] Instance start_frames : FrameSource pfa := pfa_source tables_addr kernel_end.
Notation handlers := (interrupts (Registered_Handler W)).
Notation kernel := (kernel pfa (console M)).

(** The fields [mmap_length] and [mmap_addr] of the boot information. *)
Definition boot_mmap_length (m : mem) (boot_info : Z) : Z := ld32 m (boot_info + 44).
Definition boot_mmap_addr (m : mem) (boot_info : Z) : Z := ld32 m (boot_info + 48).

Definition kernel_init (fuel : nat) (boot_info : Z) (st : handlers) (k : kernel) : res (handlers * kernel) :=
  t ← terminal_init (c_screen (k_hw k));
  let '(initted, s) := serial_init (Console t (c_ports (k_hw k))) in
  _ ← assert "Serial initialization failed." initted;
  s ← serial_write poll_fuel 10 s;
  let '(st, s) := interrupts_init stub_addr idt_addr st s in
  '(initted, p) ← pfa_init fuel (k_mem k) (boot_mmap_addr (k_mem k) boot_info)
    (boot_mmap_length (k_mem k) boot_info) (h_frames (k_heap k));
  _ ← assert "Page frame allocation initialization failed." initted;
  let '(initted, h) := memory_init (Heap (k_mem k) (free_segments_head (k_heap k))
    (next_page_virt_addr (k_heap k)) p) in
  _ ← assert "Memory initialization failed." initted;
  '(initted, d, s) ← pci_init fuel clz_zero (k_ide k) s;
  _ ← assert "PCI initialization failed." initted;
  '(initted, k) ← tfs_init fuel (Kernel h d s (tfs_fs_meta k) (tfs_sector_buffer k));
  _ ← assert "TagFS initialization failed." initted;
  Ok (st, k).

(** ** [kernel_main] *)

(** The linker's symbols that are printed. *)
Record symbols : Type := Symbols {
  sym_boot_start : Z;
  sym_boot_end : Z;
  sym_kernel_phys_start : Z;
  sym_kernel_phys_end : Z;
  sym_kernel_start : Z;
  sym_kernel_end : Z;
}.

(** The body of the loop over the memory map; the state is [segment],
    [bytes_traversed] and the sink's. *)
Definition segment_format : list Z := text "addr: %lx, length: %lx, type: %u, size: %u" ++ [10].
Definition segment_body {S : Type} `{Sink S} (fuel : nat) (m : mem) (mmap_length : Z) (st : Z * Z * S)
  : res (step (Z * Z * S) S) :=
  let '(segment, bytes_traversed, s) := st in
  if bytes_traversed <? mmap_length then
    let sg := segment_at m segment in
    s ← fmt_print_lit fuel segment_format
      (uint_args FMT_PRINT_LM_L (base_addr sg) ++ uint_args FMT_PRINT_LM_L (seg_length sg) ++
        [PageFrames.type sg; size sg]) s;
    Ok (Next (segment + size sg + 4, w32 (bytes_traversed + (size sg + 4)), s))
  else Ok (Stop s).
Definition print_memory_map {S : Type} `{Sink S} (fuel : nat) (m : mem) (mmap_addr mmap_length : Z) (s : S)
  : res S :=
  loop fuel (segment_body fuel m mmap_length) (mmap_addr, 0, s).

Definition print_symbols (fuel : nat) (y : symbols) (s : console M) : res (console M) :=
  s ← fmt_print_lit fuel [10] [] s;
  s ← fmt_print_lit fuel (text "boot_start: %x" ++ [10]) [sym_boot_start y] s;
  s ← fmt_print_lit fuel (text "boot_end: %x" ++ [10]) [sym_boot_end y] s;
  s ← fmt_print_lit fuel (text "kernel_phys_start: %x" ++ [10]) [sym_kernel_phys_start y] s;
  s ← fmt_print_lit fuel (text "kernel_phys_end: %x" ++ [10]) [sym_kernel_phys_end y] s;
  s ← fmt_print_lit fuel (text "kernel_start: %x" ++ [10]) [sym_kernel_start y] s;
  fmt_print_lit fuel (text "kernel_end: %x" ++ [10]) [sym_kernel_end y] s.

(** The controller's configuration, printed. *)
Definition print_controller (fuel : nat) (s : console M) : res (console M) :=
  s ← fmt_print_lit fuel [10] [] s;
  '(header0, s) ← pci_read_register 0 1 1 0 s;
  s ← fmt_print_lit fuel (text "bus: %hu, device: %hhu" ++ [10]) [0; 1] s;
  s ← fmt_print_lit fuel (text "vendor_id: %hx, device_id: %hx" ++ [10])
    [w16 header0; w16 (Z.shiftr header0 16)] s;
  '(header2, s) ← pci_read_register 0 1 1 8 s;
  s ← fmt_print_lit fuel (text "class_code: %hhx, subclass: %hhx" ++ [10])
    [Z.land (Z.shiftr header2 24) 0xFF; Z.land (Z.shiftr header2 16) 0xFF] s;
  s ← fmt_print_lit fuel (text "prog_if: %hhx, revision_id: %hhx" ++ [10])
    [Z.land (Z.shiftr header2 8) 0xFF; Z.land header2 0xFF] s;
  '(header3, s) ← pci_read_register 0 1 1 12 s;
  s ← fmt_print_lit fuel (text "bist: %hhx, header_type: %hhx" ++ [10])
    [Z.land (Z.shiftr header3 24) 0xFF; Z.land (Z.shiftr header3 16) 0xFF] s;
  s ← fmt_print_lit fuel (text "latency_timer: %hhx, cache_line: %hhx" ++ [10])
    [Z.land (Z.shiftr header3 8) 0xFF; Z.land header3 0xFF] s;
  '(bar0, s) ← pci_read_register 0 1 1 16 s;
  '(bar1, s) ← pci_read_register 0 1 1 20 s;
  '(bar2, s) ← pci_read_register 0 1 1 24 s;
  '(bar3, s) ← pci_read_register 0 1 1 28 s;
  '(bar4, s) ← pci_read_register 0 1 1 32 s;
  s ← fmt_print_lit fuel (text "bar0: %x" ++ [10]) [bar0] s;
  s ← fmt_print_lit fuel (text "bar1: %x" ++ [10]) [bar1] s;
  s ← fmt_print_lit fuel (text "bar2: %x" ++ [10]) [bar2] s;
  s ← fmt_print_lit fuel (text "bar3: %x" ++ [10]) [bar3] s;
  fmt_print_lit fuel (text "bar4: %x" ++ [10]) [bar4] s.

(** Up to the endless loop. *)
Definition kernel_main (fuel : nat) (l : literals) (y : symbols) (file_meta boot_info : Z)
    (st : handlers) (k : kernel) : res (handlers * kernel) :=
  '(st, k) ← kernel_init fuel boot_info st k;
  s ← print_memory_map fuel (k_mem k) (boot_mmap_addr (k_mem k) boot_info)
    (boot_mmap_length (k_mem k) boot_info) (k_hw k);
  s ← print_symbols fuel y s;
  s ← print_controller fuel s;
  k ← print_lit fuel [10] [] (with_hw k s);
  k ← kernel_demonstration fuel l file_meta k;
  Ok (st, k).
End start.

(** ** What the start relies on in the machine *)

(** The ports of the serial line. *)
Definition serial_ports : list Z := [PORT + 0; PORT + 1; PORT + 2; PORT + 3; PORT + 4; PORT + 5].
Ltac serial_port := unfold serial_ports; set_solver.

(** A personal computer: the serial line's ports do not touch the drive; a line
    set to 8 bits and looped back receives what is sent, and transmits once it
    is out of loopback. With a screen it is a machine whose drive the driver
    can use. *)
Class Computer (M : Type) `{HM : Machine M} `{SL : !SerialLine M} `{PF : PollFuel}
    `{SKO : !SinkOk (console M)} `{AD : !AtaDrive (console M)} : Type := {
  pc_ok : M -> Prop;
  pc_state : M -> dstate;
  pc_out : forall p v m, pc_ok m -> p ∈ serial_ports ->
    pc_ok (out_8 p v m) /\ pc_state (out_8 p v m) = pc_state m;
  pc_in : forall p m, pc_ok m -> p ∈ serial_ports ->
    pc_ok (in_8 p m).2 /\ pc_state (in_8 p m).2 = pc_state m;
  pc_loopback : forall m a, pc_ok m ->
    let m := out_8 (PORT + 4) 0x1E (out_8 (PORT + 4) 0x0B (out_8 (PORT + 2) 0xC7 (out_8 (PORT + 3) 0x03 m))) in
    let '(v, m) := in_8 (PORT + 0) (out_8 (PORT + 0) a m) in
    v = w8 a /\ ser_ok (out_8 (PORT + 4) 0x0F m);
  pc_console : forall t p m, pc_ok m -> ser_ok m -> shows t p ->
    ad_ok (Console t m) /\ ad_state (Console t m) = pc_state m;
}.

(** ** The serial line at the start *)

Section serial_start.
Context {M : Type} `{HM : Machine M} `{SL : !SerialLine M} `{PF : PollFuel}
  `{SKO : !SinkOk (console M)} `{AD : !AtaDrive (console M)} `{PC : !Computer M}.

(** The machine is fine and its drive in this state. *)
Definition drive_at (st : dstate) (m : M) : Prop := pc_ok m /\ pc_state m = st.

Lemma drive_out st p v m : p ∈ serial_ports -> drive_at st m -> drive_at st (out_8 p v m).
Proof. intros Hp [Hm <-]. by apply pc_out. Qed.
Lemma drive_in st p m : p ∈ serial_ports -> drive_at st m -> drive_at st (in_8 p m).2.
Proof. intros Hp [Hm <-]. by apply pc_in. Qed.

(** The console passes accesses to the machine. *)
Lemma console_out p v t (m : M) : out_8 p v (Console t m) = Console t (out_8 p v m).
Proof. done. Qed.
Lemma console_in p t (m : M) : in_8 p (Console t m) = ((in_8 p m).1, Console t (in_8 p m).2).
Proof. unfold in_8. cbn. by destruct (mach_in 1 (w16 p) m). Qed.

Lemma serial_init_ready st t m : drive_at st m ->
  exists m', serial_init (Console t m) = (true, Console t m') /\ drive_at st m' /\ ser_ok m'.
Proof.
  intros Hm. unfold serial_init. rewrite !console_out, console_in.
  set (m1 := out_8 (PORT + 1) 0x00 (out_8 (PORT + 0) 0x03 _)).
  assert (drive_at st m1) as Hm1 by (unfold m1; repeat (apply drive_out; [serial_port|]); exact Hm).
  clearbody m1. pose proof (pc_loopback m1 0xAE (proj1 Hm1)) as H. cbv zeta in H.
  set (m2 := out_8 (PORT + 0) 0xAE _) in *.
  assert (drive_at st m2) as Hm2 by (unfold m2; repeat (apply drive_out; [serial_port|]); exact Hm1).
  pose proof (drive_in st (PORT + 0) m2 ltac:(serial_port) Hm2) as Hm3.
  destruct (in_8 (PORT + 0) m2) as [v m3]. destruct H as [-> H]. cbn [fst snd] in *.
  change (w8 0xAE =? 0xAE) with true. cbn [negb]. rewrite console_out.
  eexists. split; [done|]. split; [|done]. by apply drive_out; [serial_port|].
Qed.

Lemma serial_write_drive st fuel a t m : drive_at st m -> ser_ok m -> (ser_bound < fuel)%nat ->
  exists m', serial_write fuel a (Console t m) = Ok (Console t m') /\ drive_at st m' /\ ser_ok m'.
Proof.
  intros Hm Hs Hf. unfold serial_write, serial_wait.
  edestruct (loop_spec (fun s : console M => let '(empty, s) := serial_is_transmit_empty s in
      if (empty : bool) then Ok (Stop s) else Ok (Next s))
    (fun s => c_screen s = t /\ drive_at st (c_ports s) /\ ser_ok (c_ports s))
    (fun s => c_screen s = t /\ drive_at st (c_ports s) /\ ser_ok (c_ports s) /\ ser_ready (c_ports s))
    (fun s => ser_wait (c_ports s))) with (n := fuel) (s := Console t m) as (s' & -> & Ht & Hd & Hok & Hr).
  - intros [t1 m1] (Ht & Hd & Hok). unfold serial_is_transmit_empty. rewrite console_in. cbn [c_screen c_ports] in *.
    pose proof (ser_status m1 Hok) as Hst. pose proof (drive_in st (PORT + 5) m1 ltac:(serial_port) Hd) as Hd1.
    destruct (in_8 (PORT + 5) m1) as [v m2]. cbn [fst snd] in *. destruct Hst as (Hok2 & _ & Hw).
    destruct (Z.land v 32 =? 0); cbn; by split_and!.
  - done.
  - cbn. pose proof (ser_wait_bound m Hs). lia.
  - destruct s' as [t' m']. cbn [c_screen c_ports] in *. subst t'. rewrite bind_Ok_r.
    destruct (ser_data m' a Hok Hr) as [Hok' _]. rewrite console_out.
    eexists. split; [done|]. split; [|exact Hok']. by apply drive_out; [serial_port|].
Qed.
End serial_start.

(** ** [kernel_init] mounts the file system *)

Section kernel_init.
Context {W M : Type} `{HM : Machine M} `{SL : !SerialLine M} `{PF : PollFuel}
  `{SKO : !SinkOk (console M)} `{AD : !AtaDrive (console M)} `{PC : !PciConfig (console M)}
  `{IC : !IdeController (console M)} `{CO : !Computer M}.

(** The interrupt controllers are not the drive. *)
Lemma pic_init_drive st (s : console M) : at_state st s -> at_state st (pic_init s).
Proof.
  assert (forall p v (s : console M), p ∈ other_ports -> w16 p = p -> at_state st s -> at_state st (out_8 p v s)) as H.
  { intros p v s' Hp Hw [Hs <-]. unfold out_8. rewrite Hw. by apply ic_out. }
  intros Hs. unfold pic_init. cbv zeta. repeat (apply H; [unfold other_ports; set_solver|done|]). exact Hs.
Qed.

(** The console after the first three calls: a fresh screen, and a line that
    has got the newline. *)
Lemma early_init st (t : terminal) (m : M) : drive_at st m -> length (terminal_buffer t) = 2000%nat ->
  (ser_bound < poll_fuel)%nat -> exists t' m' m'', terminal_init t = Ok t' /\
    serial_init (Console t' m) = (true, Console t' m') /\
    serial_write poll_fuel 10 (Console t' m') = Ok (Console t' m'') /\ at_state st (Console t' m'').
Proof.
  intros Hm Hlen Hpf. destruct (terminal_init_fresh t Hlen) as (t' & Ht & Hsh).
  destruct (serial_init_ready st t' m Hm) as (m' & H1 & Hm' & Hs').
  destruct (serial_write_drive st poll_fuel 10 t' m' Hm' Hs' Hpf) as (m'' & H2 & [Hm'' Hst] & Hs'').
  exists t', m', m''. split_and!; [done..|].
  destruct (pc_console t' _ m'' Hm'' Hs'' Hsh) as [Ha Hb]. split; [done|]. by rewrite Hb.
Qed.

Context (tables_addr kernel_end : Z) `{Hlink : !LinkerOk tables_addr kernel_end}.
Context (stub_addr : stub -> Z) (idt_addr clz_zero : Z).
#[local] Instance init_frames : FrameSource pfa := pfa_source tables_addr kernel_end.
#[local] Instance start_frames_ok : FrameSourceOk pfa := pfa_source_ok tables_addr kernel_end.

(** The kernel's drive. *)
Notation drive_sectors := (@ad_sectors (console M) _ _ SKO AD).
Notation drive_latency := (@ad_latency (console M) _ _ SKO AD).

(** The machine when the kernel is entered: the drive idle, the screen of its
    size, the globals zero. *)
Record powered_on (k : kernel pfa (console M)) : Prop := {
  on_pc : pc_ok (c_ports (k_hw k));
  on_idle : d_phase (pc_state (c_ports (k_hw k))) = Idle;
  on_screen : length (terminal_buffer (c_screen (k_hw k))) = 2000%nat;
  on_frames : h_frames (k_heap k) = pfa_empty;
  on_heap : free_segments_head (k_heap k) = 0;
  on_ide : k_ide k = ide_zero;
}.

(** Up to [tfs_init]: the drive found and idle, the heap empty, the frames that
    the memory map leaves free. *)
Lemma kernel_init_before fuel boot_info (st : interrupts (Registered_Handler W)) k segs :
  powered_on k -> mmap_at (k_mem k) (boot_mmap_addr (k_mem k) boot_info) segs ->
  boot_mmap_length (k_mem k) boot_info = mmap_bytes segs ->
  (ser_bound < poll_fuel)%nat -> (length segs < fuel)%nat -> (drive_latency + 80 < fuel)%nat ->
  exists st' k1 p,
    kernel_init tables_addr kernel_end stub_addr idt_addr clz_zero fuel boot_info st k =
      ('(initted, k) ← tfs_init fuel k1; _ ← assert "TagFS initialization failed." initted; Ok (st', k)) /\
    ready k1 /\ disk_of k1 = d_disk (pc_state (c_ports (k_hw k))) /\
    (exists s s' : console M, interrupts_init stub_addr idt_addr st s = (st', s')) /\
    k_heap k1 = boot_heap (k_mem k) p /\ pfa_ok tables_addr p /\
    forall n, 0 <= n -> bit_at (pfa_page_bitmap p) n = covered (init_areas 0 segs) n.
Proof.
  intros [Hpc Hidle Hscr Hfr Hhd Hide] Hmm Hml Hpf Hf1 Hf3. unfold kernel_init.
  change (start_frames tables_addr kernel_end) with init_frames.
  set (d := pc_state (c_ports (k_hw k))) in *.
  destruct (early_init d (c_screen (k_hw k)) (c_ports (k_hw k))) as (t & m1 & m2 & -> & H1 & H2 & Hs2);
    [by split|done|done|]. rewrite bind_Ok_r, H1. res_step. rewrite H2, bind_Ok_r.
  pose proof (pic_init_drive d _ Hs2) as Hs3.
  destruct (interrupts_init stub_addr idt_addr st (Console t m2)) as [st' s3] eqn:Eint.
  assert (s3 = pic_init (Console t m2)) as -> by (unfold interrupts_init in Eint; by injection Eint).
  assert (is_u32 (mmap_bytes segs)) as Hu by (rewrite <- Hml; apply ld32_range).
  destruct (pfa_init_ok fuel _ _ segs (h_frames (k_heap k)) Hmm Hu Hf1) as (bm & Hpfa & Hbm).
  rewrite Hml, Hpfa. rewrite Hfr in *. unfold memory_init. res_step. rewrite Hide, Hhd.
  destruct (pci_init_ok fuel clz_zero d _ Hf3 Hs3 Hidle) as (s4 & d4 & -> & [Hs4 Hd4] & Hi4 & Hdd). res_step.
  do 3 eexists. split; [reflexivity|]. split.
  - constructor; [|exact ic_master|done|cbn [k_hw]; rewrite Hd4; by apply idle_at_rest].
    transitivity 0x1F0; [reflexivity|symmetry; exact ic_legacy].
  - split; [unfold disk_of; cbn [k_hw]; by rewrite Hd4|]. split; [by do 2 eexists|].
    split; [reflexivity|]. split; [apply pfa_ok_boot|]. intros n Hn. cbn [pfa_page_bitmap set_bitmap].
    rewrite Hbm by done. unfold bit_at at 1, elem. cbn. by rewrite lookup_empty, Z.testbit_0_l.
Qed.

Lemma kernel_init_ok fuel boot_info (st : interrupts (Registered_Handler W)) k segs img :
  powered_on k -> mmap_at (k_mem k) (boot_mmap_addr (k_mem k) boot_info) segs ->
  boot_mmap_length (k_mem k) boot_info = mmap_bytes segs ->
  layout_ok img -> fs_sector_size img = 512 ->
  holds (d_disk (pc_state (c_ports (k_hw k)))) img (fs_sector_count img) ->
  fs_sector_count img <= drive_sectors ->
  (ser_bound < poll_fuel)%nat -> (length segs < fuel)%nat -> (Z.to_nat 5000 < fuel)%nat ->
  (drive_latency + 80 < fuel)%nat ->
  exists st' k', kernel_init tables_addr kernel_end stub_addr idt_addr clz_zero fuel boot_info st k = Ok (st', k') /\
    mounted img k' /\ disk_of k' = d_disk (pc_state (c_ports (k_hw k))) /\
    (exists s s' : console M, interrupts_init stub_addr idt_addr st s = (st', s')) /\
    (tfs_sector_buffer k' = 0 /\
       (forall n, 0 <= n < PAGES -> covered (init_areas 0 segs) n = true) \/
     exists fl, heap_inv (k_heap k') fl [(tfs_sector_buffer k' - 4, 516)]).
Proof.
  intros Hon Hmm Hml Hlay H512 Hh Hfit Hpf Hf1 Hf2 Hf3.
  destruct (kernel_init_before fuel boot_info st k segs Hon Hmm Hml Hpf Hf1 Hf3)
    as (st' & k1 & p & -> & Hr & Hdisk & Hint & Hheap & Hp & Hcov).
  destruct (tfs_init_ok img [] [] k1 fuel) as (k2 & -> & Hmt & Hd2 & Hbuf); try done.
  - by rewrite Hdisk.
  - rewrite Hheap. by apply (boot_heap_inv (k_mem k)).
  - split; cbn; lia.
  - lia.
  - by rewrite Hheap.
  - by right.
  - lia.
  - res_step. exists st', k2. split_and!; [done|done|by rewrite Hd2|done|].
    destruct Hbuf as [(-> & _ & Hfull)|Hbuf]; [left|by right]. split; [done|]. intros n Hn.
    rewrite <- Hcov by lia. specialize (Hfull eq_refl). rewrite Hheap in Hfull. by apply Hfull.
Qed.
End kernel_init.

(** ** The memory map, printed *)

Definition segment_items (sg : MMap_Segment) : list item :=
  lits "addr: " ++ [IHex FMT_PRINT_LM_L (base_addr sg)] ++ lits ", length: " ++
  [IHex FMT_PRINT_LM_L (seg_length sg)] ++ lits ", type: " ++ [IUint FMT_PRINT_LM_NONE (PageFrames.type sg)] ++
  lits ", size: " ++ [IUint FMT_PRINT_LM_NONE (size sg); Lit 10].
(** The line of a segment. *)
Definition segment_line (sg : MMap_Segment) (line : list Z) : Prop :=
  exists css, Forall2 item_text (segment_items sg) css /\ line = concat css.

Section memory_map.
Context {S : Type} `{SK : Sink S} `{SKO : !SinkOk S}.

Lemma segment_fields m a : let sg := segment_at m a in
  0 <= base_addr sg < 2 ^ 64 /\ 0 <= seg_length sg < 2 ^ 64 /\
  0 <= PageFrames.type sg < 2 ^ 32 /\ 0 <= size sg < 2 ^ 32.
Proof.
  cbn [segment_at base_addr seg_length PageFrames.type size]. unfold ld64.
  pose proof (ld32_range m (a + 4)). pose proof (ld32_range m (a + 4 + 4)).
  pose proof (ld32_range m (a + 12)). pose proof (ld32_range m (a + 12 + 4)).
  pose proof (ld32_range m (a + 20)). pose proof (ld32_range m a). lia.
Qed.

Lemma print_segment fuel m a (s : S) : (60 < fuel)%nat -> sink_ok s ->
  let sg := segment_at m a in exists line s',
    fmt_print_lit fuel segment_format (uint_args FMT_PRINT_LM_L (base_addr sg) ++
      uint_args FMT_PRINT_LM_L (seg_length sg) ++ [PageFrames.type sg; size sg]) s = Ok s' /\
    segment_line sg line /\ sink_ok s' /\ sink_out s' = sink_out s ++ line.
Proof.
  intros Hf Hs sg. destruct (segment_fields m a) as (Hb & Hl & Ht & Hz). fold sg in Hb, Hl, Ht, Hz.
  destruct (fmt_print_lit_ok fuel (segment_items sg) s) as (css & s' & H & Hc & Hs' & Ho).
  - by apply (bool_decide_unpack _).
  - unfold segment_items. repeat apply Forall_app_2; try (apply lits_ok; by apply (bool_decide_unpack _));
      rewrite ?Forall_cons_iff; cbn [item_ok]; split_and!; done || lia.
  - by repeat constructor.
  - cbn. lia.
  - done.
  - exists (concat css), s'. split; [exact H|]. split; [by exists css|]. by split.
Qed.

Lemma print_map_loop fuel m segs : forall a tr s fuel', mmap_at m a segs -> 0 <= tr ->
  is_u32 (tr + mmap_bytes segs) -> (60 < fuel)%nat -> (length segs < fuel')%nat -> sink_ok s ->
  exists lines s', loop fuel' (segment_body fuel m (tr + mmap_bytes segs)) (a, tr, s) = Ok s' /\
    Forall2 segment_line segs lines /\ sink_ok s' /\ sink_out s' = sink_out s ++ concat lines.
Proof.
  induction segs as [|sg segs IH]; intros a tr s [|fuel'] Hm Htr Hu Hf Hf' Hs; try (cbn in Hf'; lia);
    cbn [loop segment_body mmap_bytes].
  - rewrite Z.add_0_r, Z.ltb_irrefl. exists [], s. split_and!; [done|constructor|done|by rewrite app_nil_r].
  - destruct Hm as [Hsg Hm]. pose proof (mmap_bytes_nonneg _ _ _ Hm) as Hn.
    destruct (segment_fields m a) as (_ & _ & _ & Hz). rewrite Hsg in Hz. cbn [mmap_bytes] in Hu. unfold is_u32 in Hu.
    destruct (Z.ltb_spec tr (tr + (size sg + 4 + mmap_bytes segs))) as [_|]; [|lia].
    destruct (print_segment fuel m a s Hf Hs) as (line & s1 & H & Hl & Hs1 & Ho). rewrite Hsg in H, Hl |- *.
    rewrite H, bind_Ok_r. rewrite w32_id by (unfold is_u32; lia).
    destruct (IH (a + size sg + 4) (tr + (size sg + 4)) s1 fuel') as (lines & s' & H' & Hls & Hs' & Ho');
      [done|lia|unfold is_u32; lia|done|cbn in Hf'; lia|done|].
    replace (tr + (size sg + 4) + mmap_bytes segs) with (tr + (size sg + 4 + mmap_bytes segs)) in H' by lia.
    exists (line :: lines), s'. split_and!; [exact H'|by constructor|done|].
    by rewrite Ho', Ho, <- app_assoc.
Qed.
End memory_map.

(** ** Properties *)

(** C23: started on a machine with a serial line, and one formatted drive as master
    of the primary channel, [kernel_init] returns, with the file system on the
    drive mounted and the drive's sectors as they were, the interrupt table
    installed, and a well-formed heap whose only block is the sector buffer,
    unless the memory map leaves no page frame free. *)
Theorem kernel_init_mounts {W M : Type} `{HM : Machine M} `{SL : !SerialLine M} `{PF : PollFuel}
    `{SKO : !SinkOk (console M)} `{AD : !AtaDrive (console M)} `{PC : !PciConfig (console M)}
    `{IC : !IdeController (console M)} `{CO : !Computer M}
    tables_addr kernel_end `{Hlink : !LinkerOk tables_addr kernel_end} stub_addr idt_addr clz_zero
    fuel boot_info (st : interrupts (Registered_Handler W)) k segs img :
  powered_on k -> mmap_at (k_mem k) (boot_mmap_addr (k_mem k) boot_info) segs ->
  boot_mmap_length (k_mem k) boot_info = mmap_bytes segs ->
  layout_ok img -> fs_sector_size img = 512 ->
  holds (d_disk (pc_state (c_ports (k_hw k)))) img (fs_sector_count img) ->
  fs_sector_count img <= @ad_sectors (console M) _ _ SKO AD ->
  (ser_bound < poll_fuel)%nat -> (length segs < fuel)%nat -> (Z.to_nat 5000 < fuel)%nat ->
  (@ad_latency (console M) _ _ SKO AD + 80 < fuel)%nat ->
  exists st' k', kernel_init tables_addr kernel_end stub_addr idt_addr clz_zero fuel boot_info st k = Ok (st', k') /\
    mounted img k' /\ disk_of k' = d_disk (pc_state (c_ports (k_hw k))) /\
    (exists s s' : console M, interrupts_init stub_addr idt_addr st s = (st', s')) /\
    (tfs_sector_buffer k' = 0 /\
       (forall n, 0 <= n < PAGES -> covered (init_areas 0 segs) n = true) \/
     exists fl, @heap_inv pfa (pfa_source tables_addr kernel_end) (pfa_source_ok tables_addr kernel_end)
        (k_heap k') fl [(tfs_sector_buffer k' - 4, 516)]).
Proof. apply kernel_init_ok. Qed.

(** The loop of [kernel_main] over the memory map ends and prints one line for
    each segment, in order: its address and length in hexadecimal, its type
    and its size. *)
Theorem memory_map_printed {S : Type} `{SK : Sink S} `{SKO : !SinkOk S} fuel m a segs (s : S) :
  mmap_at m a segs -> is_u32 (mmap_bytes segs) -> (60 < fuel)%nat -> (length segs < fuel)%nat -> sink_ok s ->
  exists lines s', print_memory_map fuel m a (mmap_bytes segs) s = Ok s' /\
    Forall2 segment_line segs lines /\ sink_out s' = sink_out s ++ concat lines.
Proof.
  intros Hm Hu Hf Hf' Hs.
  destruct (print_map_loop fuel m segs a 0 s fuel Hm) as (lines & s' & H & Hl & _ & Ho); try done.
  by exists lines, s'.
Qed.

(** ** Witnesses: the computer of Ide.v with a formatted drive *)

#[local] Existing Instance pc_machine.
#[local] Existing Instance one_poll.
#[local] Existing Instance pc_serial.
#[local] Existing Instance pc_sink_ok.
#[local] Existing Instance pc_ata.
#[local] Existing Instance pc_config.
#[local] Existing Instance pc_ide.

#[local] Program Instance pc_computer : Computer pc := {
  pc_ok m := disk_ok (x_drive m); pc_state := x_drive;
}.
Next Obligation.
  intros p v m Hm Hp. unfold serial_ports in Hp. unfold out_8. cbn -[w8] in *. unfold pc_write.
  repeat (apply elem_of_cons in Hp as [-> |Hp]; [|try (by apply not_elem_of_nil in Hp)]); cbn -[w8 has];
    repeat case_match; by split.
Qed.
Next Obligation.
  intros p m Hm Hp. unfold serial_ports in Hp. unfold in_8. cbn -[w8] in *. unfold pc_read.
  repeat (apply elem_of_cons in Hp as [-> |Hp]; [|try (by apply not_elem_of_nil in Hp)]); by split.
Qed.
Next Obligation.
  intros m a Hm. cbv zeta. unfold out_8, in_8. cbn -[w8]. change (w8 30) with 30. cbn -[w8].
  split; [|by split]. change (w8 (w8 a) = w8 a). apply w8_id, w8_range.
Qed.
Next Obligation. intros t p m Hm Hs Hp. split; [split; [done|split; [done|by eexists]]|done]. Qed.

(** The memory map of PageFrames.v, with boot information at 8192. *)
Definition boot_memory : mem := st32 (st32 qemu_mem 8236 (mmap_bytes qemu_mmap)) 8240 4096.
Definition sample_boot_kernel : kernel pfa (console pc) :=
  Kernel (Heap boot_memory 0 0 pfa_empty) ide_zero
    (Console dark_screen (Pc (p_state kernel_drive) 0 0 0 0 [])) no_metadata 0.

Lemma kernel_init_mounts_witness : exists st' k',
  kernel_init sample_tables sample_end (fun _ => 0) 4096 0 sample_fuel 8192
    no_interrupts sample_boot_kernel = Ok (st', k') /\
  mounted kernel_image k'.
Proof.
  destruct (kernel_init_mounts sample_tables sample_end (fun _ => 0) 4096 0 sample_fuel 8192 no_interrupts
    sample_boot_kernel qemu_mmap kernel_image) as (st' & k' & H & Hm & _).
  - constructor; [exact (image_disk_ok kernel_image 516 ∅ Idle)|reflexivity|reflexivity|reflexivity|reflexivity|reflexivity].
  - assert (boot_mmap_addr (k_mem sample_boot_kernel) 8192 = 4096) as -> by (vm_compute; reflexivity).
    repeat split; vm_compute; reflexivity.
  - vm_compute. reflexivity.
  - exact kernel_image_layout.
  - vm_compute. reflexivity.
  - assert (fs_sector_count kernel_image = 516) as -> by (vm_compute; reflexivity).
    exact (image_disk_holds kernel_image 516).
  - assert (fs_sector_count kernel_image = 516) as -> by (vm_compute; reflexivity). cbn. lia.
  - exact Nat.lt_0_1.
  - unfold sample_fuel. cbn. lia.
  - unfold sample_fuel. lia.
  - unfold sample_fuel. cbn [ad_latency pc_ata]. lia.
  - exists st', k'. split; [exact H|exact Hm].
Defined.

Definition printer : pio := Pio (DState ∅ Idle ∅) [].

Lemma memory_map_printed_witness : exists lines s',
  print_memory_map 100 qemu_mem 4096 (mmap_bytes qemu_mmap) printer = Ok s' /\
  Forall2 segment_line qemu_mmap lines /\
  take 38 (p_out s') = text "addr: 100000, length: 7EE0000, type: 1".
Proof.
  destruct (memory_map_printed 100 qemu_mem 4096 qemu_mmap printer) as (lines & s' & H & Hl & _).
  - exact qemu_mmap_at.
  - split; vm_compute; congruence.
  - lia.
  - cbn. lia.
  - exact I.
  - exists lines, s'. split; [exact H|]. split; [exact Hl|].
    assert (print_memory_map 100 qemu_mem 4096 (mmap_bytes qemu_mmap) printer = Ok s') as E by exact H.
    vm_compute in E. injection E as <-. vm_compute. reflexivity.
Defined.
