(* ===== verification/KernelMain.v ===== *)
(** * The whole of [kernel_main] (src/src/kernel/kernel.c)

    From the machine that is switched on to the endless loop: [kernel_init]
    mounts the file system with the heap's first page, the memory map, the
    linker's symbols and the registers of the disk controller are printed, and
    the demonstration of KernelDemo.v runs. The theorem joins those of the
    other files on one machine, and says where the console's text and the disk
    are at the end. *)
From S2P Require Import Prelude Memory PageFrames Allocator Terminal Format Ports Interrupts.
From S2P Require Import Ata Ide Console TagLayout FuseDriver KernelFs KernelSteps KernelLookup KernelRead.
From S2P Require Import KernelFile Transcript KernelDemo KernelStart.

#[local] Open Scope Z_scope.

(** ** The first page of the heap *)

(** Of the empty heap with a page to be had. *)
Lemma allocate_first_page {P : Type} `{FS : FrameSource P} `{FSO : !FrameSourceOk P} (h : heap P) bl size p fuel :
  heap_inv h [] bl -> fs_commit (next_page_virt_addr h) (h_frames h) = Ok (true, p) ->
  next_page_virt_addr h + 4096 < 4294967296 -> 1 <= size -> round4 (size + 4) <= 4096 -> (1 < fuel)%nat ->
  let a := next_page_virt_addr h in
  exists h', memory_allocate fuel size h = Ok (a + 4, h') /\
    heap_inv h' (leftover (round4 (size + 4)) (a, 4096)) ((a, round4 (size + 4)) :: bl) /\
    next_page_virt_addr h' = a + 4096 /\ h_frames h' = p /\
    forall x, x < a \/ a + 4096 <= x -> ld8 (h_mem h') x = ld8 (h_mem h) x.
Proof.
  intros Hinv Hc Hmax Hs1 Hs2 Hf a. destruct (inv_next Hinv) as [Hn4 Hn].
  pose proof (inv_sorted Hinv) as Hlo. cbn in Hlo. unfold heap_start in Hlo.
  destruct (fs_commit_ok (h_frames h) a) as (b & q & E & Hp & _ & Hmaps);
    [apply (inv_frames Hinv)|unfold in_heap, heap_start; pf_unfold; unfold a in *; lia|exact Hn4|].
  fold a in Hc. rewrite E in Hc. injection Hc as -> ->.
  destruct (first_page_inv h bl p Hinv Hmax Hp Hmaps) as [HinvA _]. fold a in HinvA.
  set (hA := Heap _ a _ p) in *.
  assert (w32 (a + PAGE_SIZE) = a + 4096) as Hw
    by (unfold PAGE_SIZE; apply w32_id; unfold is_u32; pf_unfold; unfold a in *; lia).
  destruct (memory_allocate_first_fit hA [] a 4096 [] bl size fuel HinvA)
    as (h' & Hal & _ & Hnx & Hinv' & Hfr & Hkeep); [done|constructor|done|cbn; lia|].
  cbn [app] in Hinv'. rewrite app_nil_r in Hinv'.
  exists h'. split; [|split; [exact Hinv'|split; [by rewrite Hnx|split; [exact Hfr|]]]].
  - rewrite <- Hal. unfold memory_allocate. destruct (align_forward _ _); [|done]. rewrite !bind_Ok_r.
    assert (free_segments_head h = 0) as -> by (by apply (head_zero _ _ _ Hinv)).
    fold a. rewrite Z.eqb_refl, E, bind_Ok_r. cbv beta iota zeta. cbn [negb]. fold hA.
    change (free_segments_head hA) with a. destruct (Z.eqb_spec a 0); [|done]. pf_unfold. unfold a in *. lia.
  - intros x Hx. rewrite (Hkeep x 1); [|constructor; [unfold extent; lia|constructor]|lia].
    cbn [hA h_mem]. by rewrite ld8_set_len, ld8_set_next by lia.
Qed.

(** ** Mounted, with the rest of the first page free *)

Section mount.
Context (tables_addr kernel_end : Z) `{Hlink : !LinkerOk tables_addr kernel_end}.
#[local] Instance main_frames : FrameSource pfa := pfa_source tables_addr kernel_end.
#[local] Instance main_frames_ok : FrameSourceOk pfa := pfa_source_ok tables_addr kernel_end.
Context {M : Type} `{HM : Machine M} `{SK : Sink M} `{SKO : !SinkOk M} `{AD : !AtaDrive M} `{PD : !PromptDrive M}.

(** The strings and [file_meta] are below the heap. *)
Definition strings_at (lt : literals) (fm : Z) (m : mem) : Prop :=
  (4 <= fm /\ fm + 32 <= heap_start) /\
  Forall (fun '(x, n) => 4 <= x /\ x + n <= heap_start /\ apart x n fm 32) (literal_extents lt) /\
  literals_at lt m.

(** [tfs_init] with frames for [pg] pages more than the first one. *)
Lemma tfs_init_roomy img (k : kernel pfa M) m p X pg fuel :
  ready k -> layout_ok img -> fs_sector_size img = 512 ->
  holds (disk_of k) img (fs_sector_count img) -> fs_sector_count img <= ad_sectors ->
  k_heap k = boot_heap m p -> pfa_ok tables_addr p -> frames_free (pfa_page_bitmap p) X ->
  (S pg <= base.size X)%nat -> heap_start + 4096 * Z.of_nat (S pg) <= 4294967296 -> (ad_latency + 2 < fuel)%nat ->
  exists k', tfs_init fuel k = Ok (true, k') /\ disk_of k' = disk_of k /\
    (forall x, 4 <= x < heap_start -> ld8 (k_mem k') x = ld8 m x) /\ mounted img k' /\
    heap_inv (k_heap k') [(heap_start + 516, 3580)] [(heap_start, 516)] /\
    next_page_virt_addr (k_heap k') = heap_start + 4096 /\
    pages pg (heap_start + 4096) (h_frames (k_heap k')) /\ tfs_sector_buffer k' = heap_start + 4.
Proof.
  intros Hr Hok H512 Hh Hfit Hheap Hp HX Hsz Hmax Hf. assert (heap_start = 3229614080) as Hhs by done.
  destruct (frames_pages tables_addr kernel_end (S pg) p X heap_start HX Hsz) as (p' & Hc & Hpages); [lia|done|done|].
  destruct (allocate_first_page (boot_heap m p) [] 512 p' fuel) as (h & Hal & Hinv & Hnx & Hfr & Hkeep);
    [by apply boot_heap_inv|exact Hc|done|done|done|lia|].
  change (next_page_virt_addr (boot_heap m p)) with heap_start in *.
  change (round4 (512 + 4)) with 516 in Hinv. change (h_mem (boot_heap m p)) with m in Hkeep.
  change (leftover 516 (heap_start, 4096)) with [(heap_start + 516, 3580)] in Hinv.
  destruct (tfs_init_reads img k fuel (heap_start + 4) h Hr Hok H512 Hh Hfit) as (k' & H & Hm & Hd & Hb & Hk' & Hx);
    [by rewrite Hheap|done|].
  exists k'. split_and!; [exact H|exact Hd| |exact Hm| |by rewrite Hk'; cbn [next_page_virt_addr]
    |by rewrite Hk'; cbn [h_frames]; rewrite Hfr|by rewrite Hb].
  - intros x Hx'. rewrite Hx by lia. apply Hkeep. lia.
  - rewrite Hk'. apply (heap_inv_write h _ _ heap_start 516 (k_mem k') Hinv); [left|].
    intros x Hx'. apply Hx. lia.
Qed.

Lemma tfs_init_demo_ready lt fm img (k : kernel pfa M) m p X fuel :
  ready k -> layout_ok img -> fs_sector_size img = 512 ->
  holds (disk_of k) img (fs_sector_count img) -> fs_sector_count img <= ad_sectors ->
  k_heap k = boot_heap m p -> pfa_ok tables_addr p -> frames_free (pfa_page_bitmap p) X ->
  (4 <= base.size X)%nat -> strings_at lt fm m -> (ad_latency + 2 < fuel)%nat ->
  exists k', tfs_init fuel k = Ok (true, k') /\ disk_of k' = disk_of k /\
    (forall x, 4 <= x < heap_start -> ld8 (k_mem k') x = ld8 m x) /\
    demo_ready lt fm (heap_start + 4) (heap_start + 516) 3580 [(heap_start, 516)] img k'.
Proof.
  intros Hr Hok H512 Hh Hfit Hheap Hp HX Hsz (Hfm & Hstr & Hlit) Hf.
  assert (heap_start = 3229614080) as Hhs by done.
  destruct (tfs_init_roomy img k m p X 3 fuel) as (k' & H & Hd & Hlow & Hm & Hinv & Hnx & Hpg & Hb); [done..|lia|done|].
  exists k'. split_and!; [exact H|exact Hd|exact Hlow|].
  split; [exact Hm|exact Hinv|lia|repeat constructor; lia|by rewrite Hnx|by rewrite Hnx|by rewrite Hb; lia
    |exact Hfm|exact Hstr|].
  apply (literals_frame lt fm m); [exact Hstr|exact Hlit|]. intros x Hx' _. by apply Hlow.
Qed.
End mount.

(** ** What is printed before the demonstration *)

Definition hex_line (label : string) (v : Z) : entry := Says (lits label ++ [IHex FMT_PRINT_LM_NONE v; Lit 10]).
Definition hex2_items (lm : Fmt_Print_Length_Modifier) (l1 : string) (v1 : Z) (l2 : string) (v2 : Z) : list item :=
  lits l1 ++ [IHex lm v1] ++ lits l2 ++ [IHex lm v2; Lit 10].
Definition blank : entry := Says [Lit 10].

Definition symbol_entries (y : symbols) : list entry :=
  [blank; hex_line "boot_start: " (sym_boot_start y); hex_line "boot_end: " (sym_boot_end y);
   hex_line "kernel_phys_start: " (sym_kernel_phys_start y); hex_line "kernel_phys_end: " (sym_kernel_phys_end y);
   hex_line "kernel_start: " (sym_kernel_start y); hex_line "kernel_end: " (sym_kernel_end y)].

(** The registers 0, 8 and 12 and the five bases. *)
Record controller : Type := Controller {
  ct_header0 : Z; ct_header2 : Z; ct_header3 : Z;
  ct_bar0 : Z; ct_bar1 : Z; ct_bar2 : Z; ct_bar3 : Z; ct_bar4 : Z;
}.
Definition bus_line : entry :=
  Says (lits "bus: " ++ [IUint FMT_PRINT_LM_H 0] ++ lits ", device: " ++ [IUint FMT_PRINT_LM_HH 1; Lit 10]).
Definition controller_entries (c : controller) : list entry :=
  let byte v k := w8 (v / 2 ^ k) in
  [blank; bus_line;
   Says (hex2_items FMT_PRINT_LM_H "vendor_id: " (w16 (ct_header0 c)) ", device_id: " (w16 (ct_header0 c / 2 ^ 16)));
   Says (hex2_items FMT_PRINT_LM_HH "class_code: " (byte (ct_header2 c) 24) ", subclass: " (byte (ct_header2 c) 16));
   Says (hex2_items FMT_PRINT_LM_HH "prog_if: " (byte (ct_header2 c) 8) ", revision_id: " (w8 (ct_header2 c)));
   Says (hex2_items FMT_PRINT_LM_HH "bist: " (byte (ct_header3 c) 24) ", header_type: " (byte (ct_header3 c) 16));
   Says (hex2_items FMT_PRINT_LM_HH "latency_timer: " (byte (ct_header3 c) 8) ", cache_line: " (w8 (ct_header3 c)));
   hex_line "bar0: " (ct_bar0 c); hex_line "bar1: " (ct_bar1 c); hex_line "bar2: " (ct_bar2 c);
   hex_line "bar3: " (ct_bar3 c); hex_line "bar4: " (ct_bar4 c)].

Section printing.
Context {M : Type} `{HM : Machine M} `{SK : Sink M} `{SKO : !SinkOk M} `{AD : !AtaDrive M} `{PD : !PromptDrive M}.
Context (st : dstate) (s0 : M).

(** The drive is as it was, and since [s0] this was printed. *)
Definition at_line (tr : list entry) (s : M) : Prop :=
  at_state st s /\ exists l, transcript tr l /\ sink_out s = sink_out s0 ++ l.

Lemma at_line_items fuel fmt items args tr s : at_line tr s -> args = concat (map item_args items) ->
  fmt = concat (map item_format items) -> Forall (fun c => 0 < c < 256) fmt -> Forall (item_ok fuel ∅) items ->
  Forall (fun it => if it is IStr _ _ then False else True) items -> (length items < fuel)%nat ->
  exists s', fmt_print_lit fuel fmt args s = Ok s' /\ at_line (tr ++ [Says items]) s'.
Proof.
  intros [Hs (l & Hl & Ho)] -> -> Hc Hi Hn Hf.
  destruct (fmt_print_lit_ok (SKO := drive_sink st) fuel items s Hc Hi Hn Hf) as (css & s' & H & Ht & Hs' & Ho');
    [exact Hs|]. exists s'. split; [exact H|]. split; [exact Hs'|]. exists (l ++ concat css). split.
  - apply transcript_app; [done|]. apply transcript_one. by exists css.
  - change (@sink_out M SK SKO s' = @sink_out M SK SKO s ++ concat css) in Ho'. by rewrite Ho', Ho, app_assoc.
Qed.

Definition plain (label : string) : bool :=
  bool_decide (Forall (fun c => 0 < c < 256 /\ c <> 37) (text label)) && (length (text label) <? 50)%nat.

Lemma plain_label label : plain label = true ->
  Forall (fun c => 0 < c < 256 /\ c <> 37) (text label) /\ (length (text label) < 50)%nat.
Proof. intros [H1%bool_decide_eq_true_1 H2%Nat.ltb_lt]%andb_prop. done. Qed.

Lemma blank_ok fuel fmt tr s : (1 < fuel)%nat -> fmt = [10] -> at_line tr s ->
  exists s', fmt_print_lit fuel fmt [] s = Ok s' /\ at_line (tr ++ [blank]) s'.
Proof. intros Hf -> Hs. by apply (at_line_items fuel [10] [Lit 10]); [..|repeat constructor|repeat constructor|repeat constructor|]. Qed.

Lemma hex_line_ok fuel label v fmt tr s : plain label = true -> 0 <= v < 2 ^ 32 -> (100 < fuel)%nat ->
  fmt = text label ++ [37; 120; 10] -> at_line tr s ->
  exists s', fmt_print_lit fuel fmt [v] s = Ok s' /\ at_line (tr ++ [hex_line label v]) s'.
Proof.
  intros [Hc Hl]%plain_label Hv Hf -> Hs.
  apply (at_line_items fuel _ (lits label ++ [IHex FMT_PRINT_LM_NONE v; Lit 10]) [v]); [done|..]; unfold lits.
  - by rewrite map_app, concat_app, lits_args.
  - by rewrite map_app, concat_app, lits_format.
  - apply Forall_app. split; [eapply Forall_impl; [exact Hc|]; cbn; lia|repeat constructor; lia].
  - apply Forall_app. split; [by apply lits_ok|repeat constructor; cbn; lia].
  - apply Forall_app. split; [apply lits_plain|by repeat constructor].
  - rewrite length_app, length_map. cbn. lia.
Qed.

Lemma hex2_ok fuel lm l1 v1 l2 v2 fmt tr s : lm <> FMT_PRINT_LM_L -> plain l1 = true -> plain l2 = true ->
  0 <= v1 < 2 ^ 32 -> 0 <= v2 < 2 ^ 32 -> (200 < fuel)%nat ->
  fmt = text l1 ++ (37 :: lm_format lm ++ [120]) ++ text l2 ++ (37 :: lm_format lm ++ [120]) ++ [10] -> at_line tr s ->
  exists s', fmt_print_lit fuel fmt [v1; v2] s = Ok s' /\
    at_line (tr ++ [Says (hex2_items lm l1 v1 l2 v2)]) s'.
Proof.
  intros Hlm [Hc1 Hl1]%plain_label [Hc2 Hl2]%plain_label Hv1 Hv2 Hf -> Hs.
  assert (forall v, uint_args lm v = [v]) as Ha by (intros v; by destruct lm).
  assert (Forall (fun c => 0 < c < 256) (37 :: lm_format lm ++ [120])) as Hp
    by (destruct lm; repeat constructor; lia).
  apply (at_line_items fuel _ (hex2_items lm l1 v1 l2 v2) [v1; v2]); [done|..]; unfold hex2_items, lits.
  - by rewrite !map_app, !concat_app, !lits_args; cbn [map concat item_args app]; rewrite !Ha.
  - rewrite !map_app, !concat_app, !lits_format. cbn [map concat item_format app]. by rewrite app_nil_r.
  - repeat apply Forall_app_2; try done; try (eapply Forall_impl; [eassumption|]; cbn; lia). repeat constructor; lia.
  - repeat apply Forall_app_2; try (by apply lits_ok); repeat constructor; cbn; destruct lm; done || lia.
  - repeat apply Forall_app_2; try apply lits_plain; by repeat constructor.
  - rewrite !length_app, !length_map. cbn. lia.
Qed.

(** The lines of the memory map. *)
Lemma memory_map_lines fuel m a segs tr s : mmap_at m a segs -> is_u32 (mmap_bytes segs) -> (60 < fuel)%nat ->
  (length segs < fuel)%nat -> at_line tr s ->
  exists s', print_memory_map fuel m a (mmap_bytes segs) s = Ok s' /\
    at_line (tr ++ map (fun sg => Says (segment_items sg)) segs) s'.
Proof.
  intros Hm Hu Hf Hf' [Hs (l & Hl & Ho)].
  destruct (print_map_loop (SKO := drive_sink st) fuel m segs a 0 s fuel Hm) as (lines & s' & H & Hls & Hs' & Ho');
    try done. exists s'. split; [exact H|]. split; [exact Hs'|]. exists (l ++ concat lines). split.
  - apply transcript_app; [done|]. exists lines. split; [|done]. apply Forall2_fmap_l. exact Hls.
  - change (@sink_out M SK SKO s' = @sink_out M SK SKO s ++ concat lines) in Ho'. by rewrite Ho', Ho, app_assoc.
Qed.

(** The linker's symbols. *)
Definition symbols_u32 (y : symbols) : Prop :=
  Forall (fun v => 0 <= v < 2 ^ 32) [sym_boot_start y; sym_boot_end y; sym_kernel_phys_start y;
    sym_kernel_phys_end y; sym_kernel_start y; sym_kernel_end y].
End printing.

Section console_lines.
Context {M : Type} `{HM : Machine M} `{PF : PollFuel} `{SKO : !SinkOk (console M)} `{AD : !AtaDrive (console M)}
  `{PD : !PromptDrive (console M)}
  `{PC : !PciConfig (console M)} `{IC : !IdeController (console M)} `{QP : !QuietPorts (console M)}.
Context (st : dstate) (s0 : console M).
Abbreviation at_line := (at_line st s0).

Lemma w_small v : 0 <= w16 v < 2 ^ 32 /\ 0 <= w8 v < 2 ^ 32.
Proof. pose proof (w16_range v). pose proof (w8_range v). unfold is_u16, is_u8 in *. lia. Qed.

(** The next line of the goal's program, by a lemma about it. *)
Ltac line L :=
  match goal with
  | Hs : KernelMain.at_line _ _ _ ?x |- context [fmt_print_lit _ _ _ ?x] =>
      let s := fresh "s" in let E := fresh "E" in let H := fresh "Hs" in
      edestruct L as (s & E & H); [..|exact Hs|rewrite E; clear E Hs; rename H into Hs; try rewrite bind_Ok_r];
        [try solve [done|lia|apply w_small] ..|]
  end.

Lemma symbol_lines fuel y tr (s : console M) : symbols_u32 y -> (100 < fuel)%nat -> at_line tr s ->
  exists s', print_symbols fuel y s = Ok s' /\ at_line (tr ++ symbol_entries y) s'.
Proof.
  intros Hy Hf Hs. unfold print_symbols, symbol_entries. repeat (apply Forall_cons in Hy as [? Hy]).
  line (blank_ok st s0 fuel).
  line (hex_line_ok st s0 fuel "boot_start: " (sym_boot_start y)).
  line (hex_line_ok st s0 fuel "boot_end: " (sym_boot_end y)).
  line (hex_line_ok st s0 fuel "kernel_phys_start: " (sym_kernel_phys_start y)).
  line (hex_line_ok st s0 fuel "kernel_phys_end: " (sym_kernel_phys_end y)).
  line (hex_line_ok st s0 fuel "kernel_start: " (sym_kernel_start y)).
  line (hex_line_ok st s0 fuel "kernel_end: " (sym_kernel_end y)).
  eexists. split; [reflexivity|]. by rewrite <- !app_assoc in Hs.
Qed.

(** A register, read: nothing is printed. *)
Lemma read_u32 reg (s : console M) v s' : pci_read_register 0 1 1 reg s = Ok (v, s') -> is_u32 v.
Proof.
  unfold pci_read_register. intros (a & _ & H)%bind_Ok. unfold in_32 in H.
  destruct (mach_in _ _ _) as [w t]. injection H as <- _. apply w32_range.
Qed.

Lemma read_line reg tr (s : console M) : is_u8 reg -> reg mod 4 = 0 -> at_line tr s ->
  exists v s', pci_read_register 0 1 1 reg s = Ok (v, s') /\ at_line tr s' /\ is_u32 v /\
    (reg = 8 -> v / 2 ^ 16 = 0x0101) /\ (reg = 12 -> v / 2 ^ 24 = 0).
Proof.
  intros Hr H4 [Hs (l & Hl & Ho)]. destruct (pci_read_at reg st s Hr H4 Hs) as (s' & H & Hs').
  exists (pci_register s 0 1 1 reg), s'. split; [exact H|].
  split; [|split; [by eapply read_u32|split; intros ->; [apply ic_class, Hs|apply ic_header, Hs]]].
  split; [exact Hs'|]. exists l. split; [exact Hl|].
  destruct (pci_read_register_value 0 1 1 reg s) as (a & E); [unfold is_u8; lia|lia|lia|done|done|].
  rewrite H in E. injection E as ->. destruct (qp_config (M := console M)) as [Hq1 Hq2].
  unfold in_32, out_32. destruct (qp_out 4 0xCF8 (w32 a) s Hq1 (ad_sink _ (proj1 Hs))) as [Hk1 Ho1].
  destruct (qp_in 4 0xCFC _ Hq2 Hk1) as [_ Ho2].
  change (w16 0xCF8) with 0xCF8. change (w16 0xCFC) with 0xCFC. destruct (mach_in 4 0xCFC _) as [v t].
  cbn [snd] in *. by rewrite Ho2, Ho1.
Qed.

Ltac read :=
  match goal with
  | Hs : KernelMain.at_line _ _ _ ?x |- context [pci_read_register 0 1 1 ?reg ?x] =>
      let v := fresh "v" in let s := fresh "s" in let E := fresh "E" in
      let H := fresh "Hl" in let Hv := fresh "Hv" in let Hc := fresh "Hc" in
      destruct (read_line reg _ x ltac:(unfold is_u8; lia) eq_refl Hs) as (v & s & E & H & Hv & Hc);
      rewrite E; clear E Hs; rename H into Hs; rewrite bind_Ok_r; cbv beta iota
  end.

Lemma bus_line_ok fuel fmt tr (s : console M) : (100 < fuel)%nat ->
  fmt = text "bus: %hu, device: %hhu" ++ [10] -> at_line tr s ->
  exists s', fmt_print_lit fuel fmt [0; 1] s = Ok s' /\ at_line (tr ++ [bus_line]) s'.
Proof.
  intros Hf -> Hs. apply at_line_items; [done|done|done|apply (bool_decide_unpack _); by vm_compute|
    |by repeat constructor|cbn; lia].
  repeat apply Forall_app_2; try (apply lits_ok; by apply (bool_decide_unpack _)); repeat constructor; cbn; lia.
Qed.

Lemma controller_lines fuel tr (s : console M) : (200 < fuel)%nat -> at_line tr s ->
  exists s' c, print_controller fuel s = Ok s' /\ at_line (tr ++ controller_entries c) s' /\
    ct_header2 c / 2 ^ 16 = 0x0101 /\ ct_header3 c / 2 ^ 24 = 0.
Proof.
  intros Hf Hs. unfold print_controller.
  line (blank_ok st s0 fuel). read. line (bus_line_ok fuel).
  rewrite Z.shiftr_div_pow2 by lia.
  line (hex2_ok st s0 fuel FMT_PRINT_LM_H "vendor_id: " (w16 v) ", device_id: " (w16 (v / 2 ^ 16))).
  read. rewrite !register_byte, land_255 by lia.
  line (hex2_ok st s0 fuel FMT_PRINT_LM_HH "class_code: " (w8 (v0 / 2 ^ 24)) ", subclass: " (w8 (v0 / 2 ^ 16))).
  line (hex2_ok st s0 fuel FMT_PRINT_LM_HH "prog_if: " (w8 (v0 / 2 ^ 8)) ", revision_id: " (w8 v0)).
  read. rewrite !register_byte, land_255 by lia.
  line (hex2_ok st s0 fuel FMT_PRINT_LM_HH "bist: " (w8 (v1 / 2 ^ 24)) ", header_type: " (w8 (v1 / 2 ^ 16))).
  line (hex2_ok st s0 fuel FMT_PRINT_LM_HH "latency_timer: " (w8 (v1 / 2 ^ 8)) ", cache_line: " (w8 v1)).
  do 5 read.
  line (hex_line_ok st s0 fuel "bar0: " v2). line (hex_line_ok st s0 fuel "bar1: " v3).
  line (hex_line_ok st s0 fuel "bar2: " v4). line (hex_line_ok st s0 fuel "bar3: " v5).
  line (hex_line_ok st s0 fuel "bar4: " v6).
  eexists _, (Controller v v0 v1 v2 v3 v4 v5 v6). split; [reflexivity|]. split.
  - by rewrite <- !app_assoc in Hs.
  - split; [by apply Hc0|by apply Hc1].
Qed.
End console_lines.

(** ** All of it *)

Lemma mmap_frame m m' segs : forall a,
  (forall x, a <= x < a + mmap_bytes segs + 24 -> ld8 m' x = ld8 m x) -> mmap_at m a segs -> mmap_at m' a segs.
Proof.
  induction segs as [|sg segs IH]; intros a H Hm; [done|]. destruct Hm as [Hsg Hm].
  pose proof (mmap_bytes_nonneg _ _ _ Hm) as Hn. cbn [mmap_bytes] in H.
  assert (0 <= PageFrames.size sg) as Hz by (rewrite <- Hsg; apply ld32_range).
  assert (segment_at m' a = sg) as E.
  { rewrite <- Hsg. unfold segment_at, ld64. f_equal; rewrite ?(ld32_frame m m'); try done; intros x Hx; apply H; lia. }
  split; [done|]. apply IH; [|done]. intros x Hx. apply H. lia.
Qed.

Section whole.
Context {W M : Type} `{HM : Machine M} `{SL : !SerialLine M} `{PF : PollFuel}
  `{SKO : !SinkOk (console M)} `{AD : !AtaDrive (console M)}
  `{PD : !PromptDrive (console M)} `{PC : !PciConfig (console M)}
  `{IC : !IdeController (console M)} `{CO : !Computer M} `{QP : !QuietPorts (console M)}.
Context (tables_addr kernel_end : Z) `{Hlink : !LinkerOk tables_addr kernel_end}.
Context (stub_addr : stub -> Z) (idt_addr clz_zero : Z).
#[local] Instance whole_frames : FrameSource pfa := pfa_source tables_addr kernel_end.
#[local] Instance whole_frames_ok : FrameSourceOk pfa := pfa_source_ok tables_addr kernel_end.
Abbreviation drive_sectors := (@ad_sectors (console M) _ _ SKO AD).
Abbreviation drive_latency := (@ad_latency (console M) _ _ SKO AD).
Abbreviation the_drive k := (pc_state (c_ports (k_hw k))).

(** What the boot loader, the linker and the disk give: the memory map and the
    strings below the heap, four frames that the map leaves free, and a disk
    with [hello.txt]. *)
Record bootable (fuel : nat) (boot_info : Z) (lt : literals) (y : symbols) (fm : Z) (segs : list MMap_Segment)
    (img : mem) (fid : Z) (l : list Z) (i : Z) (k : kernel pfa (console M)) : Prop := {
  bo_powered : powered_on k;
  bo_map : mmap_at (k_mem k) (boot_mmap_addr (k_mem k) boot_info) segs;
  bo_length : boot_mmap_length (k_mem k) boot_info = mmap_bytes segs;
  bo_info : 4 <= boot_info /\ boot_info + 52 <= heap_start;
  bo_place : 4 <= boot_mmap_addr (k_mem k) boot_info /\
    boot_mmap_addr (k_mem k) boot_info + mmap_bytes segs + 24 <= heap_start;
  bo_frames : exists X : gset Z, (4 <= base.size X)%nat /\
    forall n, n ∈ X -> 0 <= n < PAGES /\ covered (init_areas 0 segs) n = false;
  bo_strings : strings_at lt fm (k_mem k);
  bo_symbols : symbols_u32 y;
  bo_layout : layout_ok img /\ fs_sector_size img = 512 /\ fs_sector_count img <= drive_sectors;
  bo_disk : holds (d_disk (the_drive k)) img (fs_sector_count img);
  bo_demo : demonstrable fuel img fid l i;
}.

Lemma demo_ready_hw lt fm sb a len bl img (k : kernel pfa (console M)) s :
  demo_ready lt fm sb a len bl img k -> at_state (ad_state (k_hw k)) s ->
  demo_ready lt fm sb a len bl img (with_hw k s).
Proof.
  intros [[[Hb Hn Hok Hi] Hl H5 Hh Hf Hm] Hinv Hlen Hbl Hpg Hsp Hbu Hfm Hst Hli] [Hs E].
  split; [|done..]. split; [split; cbn [k_ide k_hw with_hw]; (done || by rewrite E)|done|done| |done|done].
  unfold disk_of in *. cbn [k_hw with_hw]. by rewrite E.
Qed.

(** [kernel_init], with what it leaves for the demonstration. *)
Lemma kernel_init_demo fuel boot_info lt y fm segs img fid l i (st : interrupts (Registered_Handler W)) k :
  bootable fuel boot_info lt y fm segs img fid l i k ->
  (ser_bound < poll_fuel)%nat -> (length segs < fuel)%nat -> (drive_latency + 80 < fuel)%nat ->
  exists st' k1, kernel_init tables_addr kernel_end stub_addr idt_addr clz_zero fuel boot_info st k = Ok (st', k1) /\
    (forall x, 4 <= x < heap_start -> ld8 (k_mem k1) x = ld8 (k_mem k) x) /\
    demo_ready lt fm (heap_start + 4) (heap_start + 516) 3580 [(heap_start, 516)] img k1.
Proof.
  intros [Hon Hmm Hml _ _ (X & HX & HX') Hstr _ (Hok & H512 & Hfit) Hh _] Hpf Hf1 Hf3.
  destruct (kernel_init_before tables_addr kernel_end stub_addr idt_addr clz_zero fuel boot_info st k segs
    Hon Hmm Hml Hpf Hf1 Hf3) as (st' & k0 & p & -> & Hr & Hd & _ & Hheap & Hp & Hbm).
  destruct (tfs_init_demo_ready tables_addr kernel_end lt fm img k0 (k_mem k) p X fuel Hr Hok H512)
    as (k1 & H & _ & Hlow & Hdemo); [by rewrite Hd|done|done|done| |done|done|lia|].
  - intros n Hn. destruct (HX' n Hn) as [Hrange Hc]. split; [done|]. by rewrite Hbm by lia.
  - exists st', k1. split; [|by split].
    change (main_frames tables_addr kernel_end) with (init_frames tables_addr kernel_end) in H. by rewrite H, bind_Ok_r.
Qed.

(** What is printed after [kernel_init]. *)
Definition main_entries (segs : list MMap_Segment) (y : symbols) (c : controller) (demo : list entry) : list entry :=
  map (fun sg => Says (segment_items sg)) segs ++ symbol_entries y ++ controller_entries c ++ [blank] ++ demo.

Lemma kernel_main_ok fuel boot_info lt y fm segs img fid l i (st : interrupts (Registered_Handler W)) k :
  bootable fuel boot_info lt y fm segs img fid l i k ->
  (ser_bound < poll_fuel)%nat -> (length segs < fuel)%nat -> (drive_latency + 80 < fuel)%nat -> (600 < fuel)%nat ->
  let e := file_entry img (fid - 1) in
  exists st' k1 k' c img1,
    kernel_init tables_addr kernel_end stub_addr idt_addr clz_zero fuel boot_info st k = Ok (st', k1) /\
    kernel_main tables_addr kernel_end stub_addr idt_addr clz_zero fuel lt y fm boot_info st k = Ok (st', k') /\
    tagfs_write fuel img (47 :: hello) hihi 11 0 = Ok (11, img1) /\
    mounted (new_entry img1 (file_entry img1 (16 * (i / 16))) goodbye) k' /\
    (ct_header2 c / 2 ^ 16 = 0x0101 /\ ct_header3 c / 2 ^ 24 = 0) /\
    log k1 (main_entries segs y c (demonstration_entries fm (heap_start + 520) (first_data_sector img e)
      (file_size img e) (Z.max (file_size img e) 11) (first_text img l)
      (hihi ++ c_text (drop 11 (take 512 (chain_bytes img l)))))) k'.
Proof.
  intros Hbo Hpf Hf1 Hf3 Hf e.
  destruct (kernel_init_demo fuel boot_info lt y fm segs img fid l i st k Hbo Hpf Hf1 Hf3)
    as (st' & k1 & Hinit & Hlow & Hdemo).
  destruct Hbo as [_ Hmm Hml Hbi Hpl _ _ Hy _ _ Hdm].
  assert (forall o, 0 <= o <= 48 -> ld32 (k_mem k1) (boot_info + o) = ld32 (k_mem k) (boot_info + o)) as Hb32
    by (intros o Ho; apply ld32_frame; intros x Hx; apply Hlow; lia).
  assert (boot_mmap_addr (k_mem k1) boot_info = boot_mmap_addr (k_mem k) boot_info) as Ea by (apply Hb32; lia).
  assert (boot_mmap_length (k_mem k1) boot_info = mmap_bytes segs) as El by (rewrite <- Hml; apply Hb32; lia).
  assert (mmap_at (k_mem k1) (boot_mmap_addr (k_mem k) boot_info) segs) as Hmm1
    by (apply (mmap_frame (k_mem k)); [intros x Hx; apply Hlow; lia|done]).
  assert (at_state (ad_state (k_hw k1)) (k_hw k1)) as Hat
    by (split; [apply (rd_ok _ (mt_ready _ _ (dr_mounted _ _ _ _ _ _ _ _ Hdemo)))|done]).
  assert (is_u32 (mmap_bytes segs)) as Hu by (rewrite <- El; apply ld32_range).
  assert (at_line (ad_state (k_hw k1)) (k_hw k1) [] (k_hw k1)) as H0.
  { split; [done|]. exists []. split; [apply transcript_nil|by rewrite app_nil_r]. }
  destruct (memory_map_lines (M := console M) _ _ fuel _ _ _ _ _ Hmm1 Hu ltac:(lia) Hf1 H0) as (s1 & E1 & L1).
  destruct (symbol_lines _ _ fuel y _ s1 Hy ltac:(lia) L1) as (s2 & E2 & L2).
  destruct (controller_lines _ _ fuel _ s2 ltac:(lia) L2) as (s3 & c & E3 & L3 & Hc).
  destruct (blank_ok (M := console M) _ _ fuel [10] _ s3 ltac:(lia) eq_refl L3) as (s4 & E4 & L4).
  pose proof (demo_ready_hw _ _ _ _ _ _ _ _ s4 Hdemo (proj1 L4)) as Hd4.
  destruct (demonstration_ok _ _ _ _ _ _ _ _ fid l i fuel Hd4 Hdm ltac:(lia) Hf) as (k' & img1 & E5 & Hw & Hm & L5).
  exists st', k1, k', c, img1. split; [exact Hinit|].
  split; [|split; [exact Hw|split; [exact Hm|split; [exact Hc|]]]].
  - unfold kernel_main. rewrite Hinit, bind_Ok_r. cbv beta iota.
    rewrite Ea, El, E1, bind_Ok_r, E2, bind_Ok_r, E3, bind_Ok_r. unfold print_lit at 1.
    change (k_hw (with_hw k1 s3)) with s3. rewrite E4, !bind_Ok_r.
    change (with_hw (with_hw k1 s3) s4) with (with_hw k1 s4).
    change (whole_frames) with (start_frames tables_addr kernel_end) in E5. by rewrite E5.
  - replace (heap_start + 520) with (heap_start + 516 + 4) by lia. unfold main_entries. rewrite !app_assoc.
    refine (log_app _ _ _ _ _ _ L5). rewrite <- !app_assoc. rewrite !app_assoc. exact (proj2 L4).
Qed.
End whole.

(** ** Properties *)

(** C22: From the machine that is switched on, with a serial line, four free
    frames in the memory map, and one formatted drive that is done with a written
    sector by the next transfer ([PromptDrive]), on which there are a [hello.txt]
    with a NUL behind the first 11 bytes of its first sector, no [goodbye.txt] and
    a free entry, [kernel_main] reaches its endless loop. After [kernel_init] the
    console gets one line for each segment of the memory map, the linker's
    symbols, the registers of the IDE controller, and the demonstration's
    lines, which show the contents of [hello.txt] before and after the write.
    The disk is the FUSE driver's image after the same write, with the entry of
    [goodbye.txt] in it (in the first entry of the sector of the free one,
    whatever file that was), and the file system is mounted. *)
Theorem kernel_main_runs {W M : Type} `{HM : Machine M} `{SL : !SerialLine M} `{PF : PollFuel}
    `{SKO : !SinkOk (console M)} `{AD : !AtaDrive (console M)}
    `{PD : !PromptDrive (console M)} `{PC : !PciConfig (console M)}
    `{IC : !IdeController (console M)} `{CO : !Computer M} `{QP : !QuietPorts (console M)}
    tables_addr kernel_end `{Hlink : !LinkerOk tables_addr kernel_end} stub_addr idt_addr clz_zero
    fuel boot_info lt y fm segs img fid l i (st : interrupts (Registered_Handler W)) k :
  bootable fuel boot_info lt y fm segs img fid l i k ->
  (ser_bound < poll_fuel)%nat -> (length segs < fuel)%nat ->
  (@ad_latency (console M) _ _ SKO AD + 80 < fuel)%nat -> (600 < fuel)%nat ->
  let e := file_entry img (fid - 1) in
  exists st' k1 k' c img1,
    kernel_init tables_addr kernel_end stub_addr idt_addr clz_zero fuel boot_info st k = Ok (st', k1) /\
    kernel_main tables_addr kernel_end stub_addr idt_addr clz_zero fuel lt y fm boot_info st k = Ok (st', k') /\
    tagfs_write fuel img (47 :: hello) hihi 11 0 = Ok (11, img1) /\
    mounted (new_entry img1 (file_entry img1 (16 * (i / 16))) goodbye) k' /\
    (ct_header2 c / 2 ^ 16 = 0x0101 /\ ct_header3 c / 2 ^ 24 = 0) /\
    log k1 (main_entries segs y c (demonstration_entries fm (heap_start + 520) (first_data_sector img e)
      (file_size img e) (Z.max (file_size img e) 11) (first_text img l)
      (hihi ++ c_text (drop 11 (take 512 (chain_bytes img l)))))) k'.
Proof. intros. by eapply kernel_main_ok. Qed.

(** ** A run: the computer of Ide.v with the disk of KernelDemo.v *)

#[local] Existing Instance pc_machine.
#[local] Existing Instance one_poll.
#[local] Existing Instance pc_serial.
#[local] Existing Instance pc_sink_ok.
#[local] Existing Instance pc_ata.
#[local] Existing Instance pc_config.
#[local] Existing Instance pc_ide.
#[local] Existing Instance pc_computer.

#[local] Program Instance pc_quiet : QuietPorts (console pc) := {
  qp_port p := drive_port p = true \/ p = 0xCF8 \/ p = 0xCFC
}.
Next Obligation. intros k Hk. left. destruct (drive_port_k k Hk) as [Hw Hp]. cbn [ad_base pc_ata]. by rewrite Hw. Qed.
Next Obligation. auto. Qed.
Next Obligation.
  intros w p v [t m] Hp Hs. cbn -[pc_write] in *. unfold pc_write, pc_fine in *. cbn [c_screen c_ports] in *.
  destruct Hp as [-> |[-> | ->]]; cbn -[has]; [done| |]; destruct (w =? 4), (w =? 1); by cbn -[has].
Qed.
Next Obligation.
  intros w p [t m] Hp Hs. cbn -[pc_read] in *. unfold pc_read, pc_fine in *. cbn [c_screen c_ports] in *.
  destruct Hp as [-> |[-> | ->]]; cbn -[pio_in]; [by destruct (pio_in w p _)| |]; destruct (w =? 4), (w =? 1); done.
Qed.

(** The strings of the demonstration, and the boot information of
    KernelStart.v. *)
Definition main_memory : mem :=
  let m := st_bytes (st_bytes boot_memory 100 (text "name: %s" ++ [10; 0])) 120 (text "%s" ++ [10; 0]) in
  st_bytes (st_bytes (st_bytes m 140 hello) 160 hihi) 180 goodbye.
Definition main_kernel : kernel pfa (console pc) :=
  Kernel (Heap main_memory 0 0 pfa_empty) ide_zero
    (Console dark_screen (Pc (DState ∅ Idle (image_disk demo_image 516)) 0 0 0 0 [])) no_metadata 0.
Definition main_symbols : symbols := Symbols 0x100000 0x104000 0x200000 0x400000 0xC0000000 sample_end.

Lemma main_bootable : bootable 700 8192 demo_literals main_symbols 200 qemu_mmap demo_image 1 [2; 3] 1 main_kernel.
Proof.
  assert (fs_sector_count demo_image = 516) as E by (vm_compute; reflexivity).
  assert (boot_mmap_addr (k_mem main_kernel) 8192 = 4096) as Ea by (vm_compute; reflexivity).
  split.
  - constructor; [exact (image_disk_ok demo_image 516 ∅ Idle)|reflexivity..].
  - rewrite Ea. repeat split; vm_compute; reflexivity.
  - vm_compute. reflexivity.
  - by vm_compute.
  - rewrite Ea. by vm_compute.
  - exists (list_to_set [0; 1; 2; 3]). split; [vm_compute; lia|].
    intros n Hn%elem_of_list_to_set. revert n Hn. apply Forall_forall.
    repeat (apply Forall_cons; split); [..|apply Forall_nil; exact I]; (split; [by vm_compute|vm_compute; reflexivity]).
  - split; [by vm_compute|]. split; [exact (dr_strings _ _ _ _ _ _ _ _ demo_is_ready)|].
    change (k_mem main_kernel) with main_memory. unfold literals_at, cstring.
    split_and!; first [vm_compute; reflexivity|apply (bool_decide_unpack _); vm_compute; exact I].
  - apply (bool_decide_unpack _). vm_compute. exact I.
  - split; [exact demo_layout|]. split; [vm_compute; reflexivity|]. rewrite E. cbn. lia.
  - rewrite E. exact (image_disk_holds demo_image 516).
  - exact demo_demonstrable.
Qed.

Lemma kernel_main_runs_witness : exists st' k1 k' c img1,
  kernel_main sample_tables sample_end (fun _ => 0) 4096 0 700 demo_literals main_symbols 200 8192
    no_interrupts main_kernel = Ok (st', k') /\
  mounted (new_entry img1 512 goodbye) k' /\
  log k1 (main_entries qemu_mmap main_symbols c (demonstration_entries 200 (heap_start + 520) 2 600 600
    (text "Hello, world!") (hihi ++ text "d!"))) k'.
Proof.
  destruct (kernel_main_runs sample_tables sample_end (fun _ => 0) 4096 0 700 8192 demo_literals main_symbols 200
    qemu_mmap demo_image 1 [2; 3] 1 no_interrupts main_kernel main_bootable)
    as (st' & k1 & k' & c & img1 & _ & H & Hw & Hm & _ & Hl);
    [exact Nat.lt_0_1|cbn; lia|cbn; lia|lia|].
  exists st', k1, k', c, img1. split; [exact H|]. split; [exact (demo_new_entry img1 (fun img => mounted img k') Hw Hm)|].
  refine (eq_ind _ (fun tr => log k1 (main_entries qemu_mmap main_symbols c tr) k') Hl _ _). vm_compute. reflexivity.
Defined.
