(* ===== verification/BootedVolume.v ===== *)
(** * From the command lines to the running kernel

    The whole life of an image: [tfsfmt] formats it and writes files to it, the
    FUSE driver changes it, and the kernel boots on a machine whose drive holds
    it, mounts it and calls its file system. Each part answers as one store of
    files does (FuseVolume.v, BuiltVolume.v, KernelVolume.v), and finds the
    store the part before it has left. *)
From S2P Require Import Prelude Memory PageFrames Allocator Terminal Format Ports Interrupts.
From S2P Require Import Ata Ide Console TagLayout FuseDriver KernelFs KernelSteps KernelLookup KernelRead.
From S2P Require Import KernelFile KernelDemo KernelStart KernelMain.
From S2P Require Import Tfsfmt FuseVolume Flags TfsfmtMain BuiltVolume KernelVolume.

#[local] Open Scope Z_scope.

(** ** The kernel after its start *)

Section booted.
Context {W M : Type} `{HM : Machine M} `{SL : !SerialLine M} `{PF : PollFuel}
  `{SKO : !SinkOk (console M)} `{AD : !AtaDrive (console M)}
  `{PD : !PromptDrive (console M)} `{PC : !PciConfig (console M)}
  `{IC : !IdeController (console M)} `{CO : !Computer M}.
Context (tables_addr kernel_end : Z) `{Hlink : !LinkerOk tables_addr kernel_end}.
Context (stub_addr : stub -> Z) (idt_addr clz_zero : Z).
#[local] Instance booted_frames : FrameSource pfa := pfa_source tables_addr kernel_end.
#[local] Instance booted_frames_ok : FrameSourceOk pfa := pfa_source_ok tables_addr kernel_end.
Abbreviation drive_sectors := (@ad_sectors (console M) _ _ SKO AD).
Abbreviation drive_latency := (@ad_latency (console M) _ _ SKO AD).

(** The machine is switched on, its boot loader gives a memory map that leaves
    frames for [pg] pages free, and its drive holds the image. *)
Record startable (boot_info : Z) (segs : list MMap_Segment) (pg : nat) (img : mem) (k : kernel pfa (console M))
  : Prop := {
  st_powered : powered_on k;
  st_map : mmap_at (k_mem k) (boot_mmap_addr (k_mem k) boot_info) segs;
  st_length : boot_mmap_length (k_mem k) boot_info = mmap_bytes segs;
  st_frames : exists X : gset Z, (pg <= base.size X)%nat /\
    forall n, n ∈ X -> 0 <= n < PAGES /\ covered (init_areas 0 segs) n = false;
  st_space : heap_start + 4096 * Z.of_nat pg < 4294967296;
  st_disk : holds (d_disk (pc_state (c_ports (k_hw k)))) img (fs_sector_count img);
}.

(** The client's block is the first one after the sector buffer. *)
Definition client_area : Z := heap_start + 520.
Definition client_room : Z := 448.

Lemma client_in_heap : client_block client_area client_room (heap_start + 1032) (heap_start + 4)
  [(heap_start + 516, 516); (heap_start, 516)].
Proof. unfold client_area, client_room. split; [constructor|..]; unfold apart; lia. Qed.

Lemma booted_serves fuel boot_info segs pg img ch v (st : interrupts (Registered_Handler W)) k :
  startable boot_info segs (S pg) img k -> represents img ch v -> low 256 img ->
  fs_sector_size img = 512 -> fs_fat_sector_count img = 2 -> fs_sector_count img <= drive_sectors ->
  (ser_bound < poll_fuel)%nat -> (length segs < fuel)%nat -> (drive_latency + 80 < fuel)%nat ->
  exists st' k1 k2,
    kernel_init tables_addr kernel_end stub_addr idt_addr clz_zero fuel boot_info st k = Ok (st', k1) /\
    allocate fuel 512 k1 = Ok (client_area, k2) /\
    serves (heap_start + 1032) (heap_start + 4) [(heap_start + 516, 516); (heap_start, 516)] img ch v k2 pg.
Proof.
  intros [Hon Hmm Hml (X & HX & HX') Hsp Hh] Hr Hl H512 Hfat Hfit Hpf Hf1 Hf3.
  assert (heap_start = 3229614080) as Hhs by done.
  destruct (kernel_init_before tables_addr kernel_end stub_addr idt_addr clz_zero fuel boot_info st k segs
    Hon Hmm Hml Hpf Hf1 Hf3) as (st' & k0 & p & -> & Hrd & Hd & _ & Hheap & Hp & Hbm).
  destruct (tfs_init_roomy tables_addr kernel_end img k0 (k_mem k) p X pg fuel Hrd (rp_layout _ _ _ Hr) H512)
    as (k1 & H & _ & _ & Hm & Hinv & Hnx & Hpg & Hb); [by rewrite Hd|done|done|done| |done|lia|lia|].
  { intros n Hn. destruct (HX' n Hn) as [Hrange Hc]. split; [done|]. by rewrite Hbm by lia. }
  change (heap_inv (k_heap k1) [(heap_start + 516, 3580)] [(heap_start, 516)]) in Hinv.
  change (main_frames tables_addr kernel_end) with booted_frames in Hpg.
  destruct (memory_allocate_first_fit (k_heap k1) [] (heap_start + 516) 3580 [] _ 512 fuel Hinv)
    as (h' & Hal & _ & Hnx' & Hinv' & Hfr & _); [lia|constructor|done|cbn; lia|].
  change (round4 (512 + 4)) with 516 in Hinv'.
  change (leftover 516 (heap_start + 516, 3580)) with [(heap_start + 1032, 3064)] in Hinv'. cbn [app] in Hinv'.
  exists st', k1, (with_heap k1 h'). split; [|split].
  - change booted_frames with (init_frames tables_addr kernel_end).
    change (main_frames tables_addr kernel_end) with (init_frames tables_addr kernel_end) in H. by rewrite H, bind_Ok_r.
  - unfold allocate, client_area. rewrite Hal, bind_Ok_r. by replace (heap_start + 516 + 4) with (heap_start + 520) by lia.
  - split; [done|by apply mounted_heap|done|done| |done]. exists 3064.
    split; cbn [k_heap with_heap]; rewrite ?Hnx', ?Hfr, ?Hnx; [done|lia|repeat constructor; lia|done|lia].
Qed.

(** ... and called. *)
Lemma booted_calls fuel boot_info segs cs img ch v (st : interrupts (Registered_Handler W)) k :
  startable boot_info segs (S (length cs)) img k -> represents img ch v -> low 256 img ->
  fs_sector_size img = 512 -> fs_fat_sector_count img = 2 -> fs_sector_count img <= drive_sectors ->
  (ser_bound < poll_fuel)%nat -> (length segs < fuel)%nat -> (drive_latency + 80 < fuel)%nat ->
  (513 < fuel)%nat -> (Z.to_nat (fs_file_meta_sector_count img) < fuel)%nat ->
  let entries := count_file_meta_entries img in all_permitted entries client_room cs v ->
  exists st' k1 k2 k3 img' ch',
    kernel_init tables_addr kernel_end stub_addr idt_addr clz_zero fuel boot_info st k = Ok (st', k1) /\
    allocate fuel 512 k1 = Ok (client_area, k2) /\
    kcalls client_area fuel cs k2 = Ok ((vol_calls entries cs v).1, k3) /\
    mounted img' k3 /\ represents img' ch' (vol_calls entries cs v).2.
Proof.
  intros Hst Hr Hl H512 Hfat Hfit Hpf Hf1 Hf3 Hf Hfm entries Hp.
  destruct (booted_serves fuel boot_info segs (length cs) img ch v st k) as (st' & k1 & k2 & E1 & E2 & Hsv); [done..|].
  rewrite <- (Nat.add_0_r (length cs)) in Hsv.
  destruct (calls_ok _ _ _ _ _ client_in_heap cs fuel img ch v k2 0 ltac:(lia) Hf Hfm Hsv Hp)
    as (img' & ch' & k3 & E3 & _ & Hsv').
  exists st', k1, k2, k3, img', ch'. split_and!; [done..|apply Hsv'|apply Hsv'].
Qed.
End booted.

(** ** Properties *)

Section story.
Context {W M : Type} `{HM : Machine M} `{SL : !SerialLine M} `{PF : PollFuel}
  `{SKO : !SinkOk (console M)} `{AD : !AtaDrive (console M)}
  `{PD : !PromptDrive (console M)} `{PC : !PciConfig (console M)}
  `{IC : !IdeController (console M)} `{CO : !Computer M}.
Context (tables_addr kernel_end : Z) `{Hlink : !LinkerOk tables_addr kernel_end}.
Context (stub_addr : stub -> Z) (idt_addr clz_zero : Z).

(** C4: from the command lines to the running kernel: [tfsfmt] formats an image
    and writes files to it, the FUSE driver serves a session on it, and a machine
    whose drive holds what is left starts, mounts it, and answers every sequence
    of permitted calls of its file system as the store of files answers after the
    session; the disk then holds the volume the store has become. The sectors are
    of 512 bytes, the FAT has two of them, and more than half of the data sectors
    stay free before the start; the session makes files under new names and writes
    and deletes within one sector ([all_allowed]); the memory map leaves page
    frames for the calls, and the drive is done with a written sector by the next
    transfer ([PromptDrive]). *)
Theorem image_to_kernel fuel fuel' kfuel s program_name name before after tagged files rs cs :
  command_lines fuel s name before after tagged files ->
  let o := apply_settings (before ++ after) default_options in
  o_sector_size o = 512 -> o_fat_sector_count o = 2 ->
  o_sector_count o <= @ad_sectors (console M) _ _ SKO AD ->
  let entries := o_file_meta_sector_count o * 512 / 32 in
  let built := vol_add_all (s_file s) entries 512 (values_of FileSpec (tagged ++ files)) (blank_volume 512) in
  let used := vol_serve_all entries 512 rs built.2 in
  all_allowed entries 512 rs built.2 ->
  Forall (fun u => (256 < v_free u)%nat) (built.2 :: vol_states entries 512 rs built.2) ->
  all_permitted entries client_room cs used.2 ->
  (513 < fuel')%nat -> (513 < kfuel)%nat -> (Z.to_nat entries < kfuel)%nat -> (ser_bound < poll_fuel)%nat ->
  (@ad_latency (console M) _ _ SKO AD + 80 < kfuel)%nat ->
  exists img ws img1 img2,
    main fuel s (program_name :: text "format" ::
      settings format_option_name before ++ [name] ++ settings format_option_name after) =
      Ok (Wrote (Some name) img []) /\
    main fuel (put_image s name img) (program_name :: text "write-files" ::
      settings write_option_name tagged ++ [name] ++ settings write_option_name files) =
      Ok (Wrote (Some name) img1 ws) /\ filter about_file ws = built.1 /\
    serve_all fuel' rs img1 = Ok (used.1, img2) /\
    forall boot_info segs (st : interrupts (Registered_Handler W)) k,
      startable boot_info segs (S (length cs)) img2 k -> (length segs < kfuel)%nat ->
      exists st' k1 k2 k3 img' ch',
        kernel_init tables_addr kernel_end stub_addr idt_addr clz_zero kfuel boot_info st k = Ok (st', k1) /\
        @allocate pfa (console M) (pfa_source tables_addr kernel_end) kfuel 512 k1 = Ok (client_area, k2) /\
        @kcalls pfa (console M) (pfa_source tables_addr kernel_end) _ _ client_area kfuel cs k2 =
          Ok ((vol_calls entries cs used.2).1, k3) /\
        mounted img' k3 /\ represents img' ch' (vol_calls entries cs used.2).2.
Proof.
  intros Hcl o H512 Hfat Hfit entries built used Ha Hroom Hp Hf' Hk Hke Hpf Hlat.
  apply Forall_cons in Hroom as [Hroom Hrooms].
  assert (o_fat_sector_count o * o_sector_size o / 2 = 512) as Esec by (by rewrite H512, Hfat).
  destruct (lines_session fuel s program_name name before after tagged files Hcl fuel' rs)
    as (img & ws & img1 & img2 & ch & E1 & E2 & Hws & Es & [Ess Een Efc Esz] & Hr & Hl);
    fold o; rewrite ?H512, ?Hfat; [change (2 * 512 / 2) with 512; lia|exact Ha|].
  fold o in Hws, Es, Ess, Een, Efc, Esz, Hr, Hl. rewrite H512 in Hws, Es, Ess, Een, Esz, Hr, Hl. rewrite Esec in Efc.
  rewrite Hfat in Hws, Es, Hr, Hl. change (2 * 512 / 2) with 512 in *. fold entries built used in Hws, Es, Een, Hr, Hl.
  exists img, ws, img1, img2. split_and!; [exact E1|exact E2|exact Hws|exact Es|].
  intros boot_info segs st k Hst Hsg.
  pose proof (layout_sums img2 (rp_layout _ _ _ Hr)) as (_&_&_&_&_&_&_&_&Hfc&_&His&_).
  rewrite Ess, Efc in Hfc. rewrite Ess, Esz in His.
  assert (fs_fat_sector_count img2 = 2) as Hf2 by zmod.
  destruct (sections_512 img2 (rp_layout _ _ _ Hr) Ess) as (_&_&_&_&Hcnt&_).
  destruct (booted_calls tables_addr kernel_end stub_addr idt_addr clz_zero kfuel boot_info segs cs img2 ch used.2 st k)
    as (st' & k1 & k2 & k3 & img' & ch' & Hall); rewrite ?Een in *; try done; [|lia|lia|by exists st', k1, k2, k3, img', ch'].
  apply (Hl 256); [lia|lia|]. eapply Forall_impl; [exact Hrooms|]. cbn. lia.
Qed.
End story.

(** ** A run: the image of the command lines on the computer of Ide.v *)

#[local] Existing Instance pc_machine.
#[local] Existing Instance one_poll.
#[local] Existing Instance pc_serial.
#[local] Existing Instance pc_sink_ok.
#[local] Existing Instance pc_ata.
#[local] Existing Instance pc_config.
#[local] Existing Instance pc_ide.
#[local] Existing Instance pc_computer.

Definition story_kernel (img : mem) : kernel pfa (console pc) :=
  Kernel (Heap boot_memory 0 0 pfa_empty) ide_zero
    (Console dark_screen (Pc (DState ∅ Idle (image_disk img (fs_sector_count img))) 0 0 0 0 [])) no_metadata 0.

Lemma story_startable img : startable (M := pc) 8192 qemu_mmap 6 img (story_kernel img).
Proof.
  assert (forall m, boot_mmap_addr (k_mem (story_kernel m)) 8192 = 4096) as Ea
    by (intros m; change (k_mem (story_kernel m)) with boot_memory; vm_compute; reflexivity).
  split.
  - constructor; [exact (image_disk_ok img _ ∅ Idle)|reflexivity..].
  - rewrite Ea. change (k_mem (story_kernel img)) with boot_memory. repeat split; vm_compute; reflexivity.
  - change (k_mem (story_kernel img)) with boot_memory. vm_compute. reflexivity.
  - exists (list_to_set [0; 1; 2; 3; 4; 5]). split; [vm_compute; lia|].
    intros n Hn%elem_of_list_to_set. revert n Hn. apply Forall_forall.
    repeat (apply Forall_cons; split); [..|apply Forall_nil; exact I]; (split; [by vm_compute|vm_compute; reflexivity]).
  - by vm_compute.
  - apply image_disk_holds.
Qed.

(** The files of the image, a session and five calls. *)
Definition story_session : list request :=
  [Mknod (text "b") 33188; Write (text "b") [9; 8; 7] 0; Unlink (text "a")].
Definition story_calls : list call :=
  [CRead (text "b") 2 1; CAttributes (text "a"); CMake (text "c"); CWrite (text "b") [5; 5] 2; CRead (text "b") 4 0].

Lemma image_to_kernel_witness : exists img ws img1 img2 st' k1 k2 k3 img' ch',
  main 400 test_system [text "tfsfmt"; text "format"; text "test_tmp.img"] =
    Ok (Wrote (Some (text "test_tmp.img")) img []) /\
  main 400 (put_image test_system (text "test_tmp.img") img)
    [text "tfsfmt"; text "write-files"; text "test_tmp.img"; text "-file"; text "one_sector.txt:a"] =
    Ok (Wrote (Some (text "test_tmp.img")) img1 ws) /\
  serve_all 600 story_session img1 = Ok ([Code 0; Code 3; Code 0], img2) /\
  kernel_init sample_tables sample_end (fun _ => 0) 4096 0 600 8192 no_interrupts (story_kernel img2) = Ok (st', k1) /\
  @allocate pfa (console pc) (pfa_source sample_tables sample_end) 600 512 k1 = Ok (client_area, k2) /\
  @kcalls pfa (console pc) (pfa_source sample_tables sample_end) _ _ client_area 600 story_calls k2 =
    Ok ([Bytes true [8; 7]; Size None; Answered true; Answered true; Bytes true [9; 8; 5; 5]], k3) /\
  mounted img' k3 /\ represents img' ch' (Volume {[0 := File (text "c") [] 0; 1 := File (text "b") [9; 8; 5; 5] 1]} 511).
Proof.
  destruct (image_to_kernel (W := Z) (M := pc) sample_tables sample_end (fun _ => 0) 4096 0 400 600 600
    test_system (text "tfsfmt") (text "test_tmp.img") [] [] [] [(FileSpec, text "one_sector.txt:a")] story_session
    story_calls) as (img & ws & img1 & img2 & E1 & E2 & _ & E3 & H).
  { split; [discriminate|by eexists|done|by apply Forall_nil|split; cbn; (split_and! || idtac); (done || lia)|discriminate
      |intros []; cbn; lia|apply (bool_decide_unpack _); vm_compute; exact I|cbn; lia
      |split; [vm_compute; reflexivity|vm_compute; discriminate]]. }
  - reflexivity.
  - reflexivity.
  - vm_compute. discriminate.
  - apply (bool_decide_unpack _). vm_compute. exact I.
  - apply (bool_decide_unpack _). vm_compute. exact I.
  - apply (bool_decide_unpack _). vm_compute. exact I.
  - lia.
  - lia.
  - apply (bool_decide_unpack _). vm_compute. exact I.
  - exact Nat.lt_0_1.
  - cbn [ad_latency pc_ata]. lia.
  - destruct (H 8192 qemu_mmap no_interrupts (story_kernel img2) (story_startable img2) ltac:(cbn; lia))
      as (st' & k1 & k2 & k3 & img' & ch' & B1 & B2 & B3 & B4 & B5).
    exists img, ws, img1, img2, st', k1, k2, k3, img', ch'. split; [exact E1|]. split; [exact E2|].
    split; [rewrite E3; vm_compute; reflexivity|]. split; [exact B1|]. split; [exact B2|].
    split; [rewrite B3; vm_compute; reflexivity|]. split; [exact B4|].
    refine (eq_ind _ (represents img' ch') B5 _ _). vm_compute. reflexivity.
Defined.
